(* ===== verification/_CoqProject ===== *)
-Q . S2P
Prelude.v
PyVal.v
Json.v
Floats.v
Domain.v
World.v
Workflow.v
Store.v
Routing.v
Ledger.v
Sample.v
Leases.v
FireClaims.v
Redaction.v
Emitter.v
Policy.v
Timestamps.v
PolicyFacts.v
Triggers.v
Catalog.v
Schedules.v
Goals.v
Waits.v
Classification.v
Approvals.v
Engine.v
Tasks.v
GraphMemory.v
Cycles.v
RunLoop.v
Creation.v
Scheduler.v
SchedulerFacts.v
CreationFacts.v
Firing.v
RunFacts.v
WalkFacts.v
CycleFacts.v
ControlPlane.v
Concurrency.v
Lifecycle.v
Repair.v
RepairFacts.v
Worker.v
WorkerFacts.v
Reconcile.v
ReconcileFacts.v
System.v
Scenarios.v
Runs.v
Fires.v
Containers.v
Sessions.v
SessionFacts.v
Outbox.v
OutboxFacts.v
GoalService.v
GoalDocs.v
GoalPlans.v
GoalFacts.v
GoalReconcile.v
GoalScenarios.v
ExecutionService.v
ExecutionServiceFacts.v
RetryFacts.v
JsonFacts.v
WorkflowValidation.v
WorkflowValidationFacts.v
DomainPolicy.v
DomainPolicyFacts.v
Capabilities.v
CapabilityFacts.v
Regex.v
ToolPolicies.v
ToolPolicyFacts.v
ShellTool.v
