(* ===== verification/Prelude.v ===== *)
(** * Open Agency: a verification library for the execution control plane

    Open Agency runs workflows of language-model agents.  This library models
    the part of the Python program (under [src/app]) that decides what happens
    to an execution: the store that keeps it, the engine that runs it, the
    control plane that starts, parks, wakes, cancels and repairs it, and the
    scheduler that creates it.  Language models, tools, containers and databases
    are behind interfaces.

    ** How the program works

    A workflow (agents, tasks, edges) is started as an execution.  The registry
    creates it with its run mode and runtime policy; the control plane queues it
    and a worker runs it under a lock with a heartbeat; the native engine walks
    the plan, node by node, and writes a checkpoint into the execution's output.
    A run ends completed, failed or cancelled, or it parks: paused, waiting for
    an approval, or asleep on a durable wait (input, timer, event, approval, next
    persistent cycle).  Resolving the wait resumes it from the checkpoint.
    Executions that were abandoned are found by their heartbeat and activity and
    are repaired.  Schedules create executions at their fire times, one scheduler
    process per fire.

    All components share one execution store.  What they rely on is stated once,
    as the preorder [ledger] between worlds ([Ledger]), and every handler is
    proved to keep it; [System] draws the consequences for whole histories.

    ** The model

    A handler is a function in the effect monad [M] ([World]): it reads the
    clock, draws identifiers, changes the world, and returns or raises; changes
    made before an exception stay.  With the in-memory stores no [await] of a
    handler suspends, so a handler is one step and a history is a sequence of
    commands.  A mutable [Execution] or engine state is named by its id and its
    contents are in the world, so every alias sees an assignment.  Python's
    dynamic values are [pyval] ([PyVal]); dictionaries keep their insertion order;
    floats are IEEE doubles ([Floats]); timestamps are microseconds since 1970 in
    UTC; text is that of Latin-1.

    Foundations:
    - [Prelude]: ordered dictionaries, list lemmas, tactics;
    - [PyVal], [Json], [Floats]: values, [str], [repr], [json], [float], [int],
      [timedelta], ISO timestamps;
    - [Domain]: the records of [domain/executions.py], [execution_waits.py],
      [events.py], [runtime/native/state.py]; [World]: the state of the process,
      exceptions, the monad and its frame tactic [evolve];
    - [JsonFacts]: compact JSON text reads back;
    - [Sample], [Scenarios], [Runs], [Fires], [Containers], [GoalScenarios]:
      concrete instances of every interface and the worlds on which the theorems
      are instantiated (those of a file that needs few stand at its end).

    The store and its contracts:
    - [Store]: [InMemoryExecutionStore] ([runtime/native/state.py]) and the
      repositories of [db/repositories/executions.py];
    - [Ledger]: durable waits as an abstract machine, the contract [ledger], and a
      resolution that wins for ever;
    - [Leases]: the worker lock ([acquire_lock], [release_lock], [heartbeat])
      refines a lease: exclusive while its heartbeat is young, taken over after;
    - [Redaction], [Emitter]: [observability/redaction.py], [event_bus.py],
      [runtime/native/events.py], [services/execution_activity.py]: no event
      that is emitted reaches the log with a value under a secret-looking key (what
      is saved without the emitter is not redacted); [Timestamps]: the activity
      stamp reads back.

    Waiting, approving, classifying:
    - [Waits]: [services/execution_waits.py], proved against the interface
      [ResumeService], which [ControlPlane] implements;
    - [Approvals]: [runtime/native/approvals.py];
    - [Classification]: [services/execution_classification.py].

    The engine ([runtime/native/engine.py], [planner.py], [state.py]):
    - [Workflow]: the planner is a topological sort; the
      search for terminal task nodes decides reachability;
    - [Routing]: outcomes, edges, overrides, the checkpoint and its restoration;
    - [Engine]: lifecycle commands, and the dispatch of [runtime/registry.py];
    - [Tasks]: approvals, handoffs and the attempts of one task;
    - [Cycles]: persistent cycles, retrieval and completion hooks;
    - [RunLoop]: [start_execution] with all the ways in which a run ends;
      it implements the interface [Runtimes] of the control plane;
    - [GraphMemory]: the graph working sets of [state.py];
    - [Policy]: [runtime/execution_lifecycle.py];
    - [RunFacts], [WalkFacts], [CycleFacts], [PolicyFacts]: their theorems.

    The control plane ([runtime/control_plane.py]):
    - [ControlPlane], [Lifecycle]: start, pause, resume, cancel, approve,
      reject, heartbeat, and the worker run;
    - [Repair], [RepairFacts]: stale and outdated executions.

    Isolated runs:
    - [Worker], [WorkerFacts]: [runtime/worker.py] and [worker_protocol.py]: a
      worker in a container runs one execution and reports by its exit code;
    - [Reconcile], [ReconcileFacts]: [runtime/reconcile.py]: passes that compare
      executions with the containers that Docker lists.  The second opens with
      the two styles of reasoning about a handler's executions and closes with
      the composition of worker and reconciler.

    The scheduler:
    - [Creation], [CreationFacts]: [create_execution] of the registry, of the
      engine and of the CrewAI adapter ([runtime/adapters/crewai/adapter.py]);
    - [Triggers]: [scheduler/triggers.py], against a reference
      reading of cron fields;
    - [Catalog], [Schedules], [Goals]: [db/repositories/catalog.py] and the
      documents of [domain/schedules.py] and [domain/goals.py];
    - [FireClaims]: the claims of [db/repositories/schedules.py];
    - [Scheduler], [SchedulerFacts], [Firing], [Concurrency]:
      [scheduler/scheduler.py] and [services/schedules.py].

    The service of executions:
    - [ExecutionService]: [services/executions.py]: launches, manual retries and
      resumptions, continuations; [ExecutionServiceFacts], [RetryFacts]: their
      theorems, the second against the run loop of the engine.

    Validation:
    - [WorkflowValidation], [WorkflowValidationFacts]:
      [services/workflow_validation.py] and the validators of [domain/tools.py],
      against a declarative reading and against the lookups of the engine.

    The browser runtime:
    - [Sessions], [SessionFacts]: [browser_runtime/session_registry.py]: its locked
      sections and the closings that follow them, interleaved;
    - [DomainPolicy], [DomainPolicyFacts]: [browser_runtime/domain_policy.py]: the
      history of domains and the leases, as interleaved sections;
    - [Capabilities], [CapabilityFacts]: [browser_runtime/security.py] with the
      client that signs tokens and the server that accepts them.

    Tools:
    - [Regex]: what the policies use of [re], [fnmatch] and [shlex]: a matcher
      proved equal to the declarative reading of patterns;
    - [ToolPolicies], [ToolPolicyFacts]: [tools/policies] and
      [core/outbound_http.py]: paths, commands, files, URLs, and the engine that
      dispatches on the tool;
    - [ShellTool]: [tools/executors/shell_command.py] behind the command policy.

    Goals:
    - [Outbox], [OutboxFacts]: [db/repositories/graph_projection.py] and
      [graph/projection.py]: the events that services append and a worker settles;
    - [GoalService], [GoalPlans]: [services/goals.py]: the evaluator, the states,
      evidence, plans and operator actions of goals; [GoalDocs], [GoalFacts]: their
      theorems;
    - [GoalReconcile]: the startup reconciler of goals.

    ** What the theorems show

    - Histories ([System], [Ledger]): along every sequence of commands
      an execution has at most one pending wait, a finished wait never changes,
      event logs only grow and are numbered without gaps, and the waits follow
      the abstract machine.  Events and executions are also deleted, by other
      services: along histories with deletions ([tended]) the rest of a log keeps
      its order, and no number is used twice.
    - Exclusion ([Leases], [FireClaims], [Concurrency]): one worker per
      execution, one scheduler per fire, no fire of a schedule that has reached its
      limit (retries and requeues are not fires).
    - Runs ([RunFacts], [WalkFacts], [CycleFacts], [Tasks]): a run that returns
      leaves the execution settled, whatever agents, tools and retrievers do to the
      store; the nodes with an output are those that
      routing enables or the checkpoint restored; a cycle ends as its policy
      decides; the attempts of a task end.
    - Isolated runs ([ReconcileFacts], [WorkerFacts]): the outcome of a
      run survives the hand-over through the exit code, a pass leaves no active
      execution with a lost worker and keeps the outcome of finished ones.
    - Launches and retries ([ExecutionServiceFacts], [RetryFacts]): whom a launched
      execution belongs to and what it runs; what a continuation copies; a retried
      run starts at the failed node and runs the rest of the plan once.
    - Browser ([SessionFacts], [DomainPolicyFacts], [CapabilityFacts]): limits,
      ownership, and where every opened session is; how many operations run on a
      domain and how soon one follows another, and that no caller is stuck, along
      every interleaving; what a token grants, with which key it was signed, and
      that it is accepted once.
    - Tools ([ToolPolicyFacts], [ShellTool]): which paths are blocked, from the text of
      the path on; what holds of every write, request and command that is not
      denied; which calls are for approved actors, and that no other verdict depends
      on the actor; what a started process runs, where and for how long.
    - Validation ([WorkflowValidationFacts]): the validator reports exactly what it
      checks, and the engine finds what a validated workflow names (an agent or a
      profile that is not named at all passes validation and fails the node).
    - Goals ([GoalFacts], [GoalReconcile], [OutboxFacts]): when
      [complete_goal] completes a goal, against a declarative reading of evidence
      and review; which transitions are allowed, that finished goals are final;
      what the links of goals and executions are after a restart; passes drain the
      outbox.
    - Lifecycle ([Waits], [Approvals], [Lifecycle], [ControlPlane], [Repair]): what
      every command does and refuses, and what a repair leaves.
    - Data ([Routing], [PolicyFacts], [Firing], [Workflow], [GraphMemory],
      [Emitter], [Timestamps], [Triggers]): round trips of the checkpoint (its own and that of
      the execution it continues), the cycle policy and a schedule; typed and
      positive policies, with the hard limit of a reference; bounds of the
      working sets; plans; redaction; the next fire of a cron expression.
    - Where the code does not do what it means to, a theorem says what it does
      ([create_wait_reused_key], [pause_reopens_terminal], [run_revives_terminal],
      [cancel_is_immediate], [service_patch_keeps_fire_time],
      [malformed_schedule_stops_pass], [repeated_hour_fires_in_the_past],
      [retained_container_fails_parked_execution],
      [repaired_link_is_undone], [contested_link_swaps],
      [retried_run_repeats_work], [second_revision_replaces_nothing],
      [shared_agent_is_not_resolved],
      [unassigned_node_is_not_resolved], [update_completes_without_evidence],
      [worker_token_reaches_user_session], [blocked_folder_is_written],
      [globbed_path_is_allowed], [spelled_otherwise_runs], [media_is_not_judged],
      [default_hosts_allow_nothing]), or the theorem itself has the case: the repair
      fails a stale approval wait although it is durable ([repair_outcome]).

    ** Bounds and fuel

    Loops that are not structural take fuel, [None] means that it ran out, and a
    theorem shows that the fuel given is enough: the planner
    ([plan_fuel], one step per node and edge, [order_nodes_plans]), the stack
    search ([search_fuel], one per edge twice, [terminal_task_nodes_exact]), the
    attempts of a task ([attempts_fuel], [max_retries + 2],
    [attempts_terminate]), the cron search ([cron_fuel], the minutes of 366 days
    and two more, [cron_next_fire_exact]).  The repetition of a pattern takes the
    length of the text, since every round reads something ([ends_exact]).  Printing a number takes its binary
    size as fuel.  The wait for a worker's release after an approval polls
    [cfg_release_polls] times, the number that fits its timeout, and a worker
    tries its lock [lock_attempts] times; in one process step nobody else moves in
    between.

    Integers are unbounded, as Python's; floats round at 53 bits and overflow;
    [timedelta] and [datetime] raise [OverflowError] at their limits.

    ** Interfaces and what is assumed of them

    [Env]: clock, identifiers, [repr] and [**] of floats, SHA-256, secret
    patterns; identifiers are not drawn twice ([UuidUnique]).  [AgentExecutor],
    [Profiles], [RunHooks]: models, tools, retrieval, completion.  [Runtimes],
    [CreationContext]: the operations of other runtime adapters, the settings and
    whether CrewAI is installed.
    [DecisionProvider], [ContainerManager], [ReconcilerContext], [Preparation],
    [Workflows]: the delegate, Docker, and the workflow repository.
    [WorkerContext]: the event loop of a worker.  [Zones]: the time zone
    database.  [Conversions]: what pydantic makes of a value of another type.
    [SchedulerContext]: the starter and the waker.  [ContextPacks],
    [StalenessSettings], [GoalContext]: the context packs of a launch, the
    settings of staleness, the scheduler and templates of goals.  [ValidationContext]:
    the repositories that a validation lists.  [Hmac]: HMAC-SHA256.  [FileSystem],
    [Network], [Shells]: home directories and links, IP addresses and names, the
    installed shells.  Of the hooks that run after a run has decided its status
    [run_settles] assumes that they do not unsettle it ([final_hooks_keep]), of the
    container manager [repair_outcome] that it stays away from the stores
    ([manager_apart]), and of agents and hooks the theorems on the plan that they
    leave the outputs of the engine alone ([interfaces_keep]).  The laws of the
    services say that they use the store through its operations only (they keep
    [ledger]); [Scenarios] has an instance of each.

    ** Not modelled

    The SQL and Mongo stores (queries of other systems with the same contract);
    interleavings inside one handler, which the in-memory store does not have;
    the polling of [_await_decision], reached only by a store without durable
    waits; metrics, exporters and the visualisation stream, which nothing of the
    modelled code reads; prompts and calls of models and tools; Docker, Neo4j,
    Playwright, HTTP and websocket code; FastAPI and pydantic themselves.

    The memories of goals, the read-only views of the operator console, and in
    [services/executions.py] log lines, usage summaries and event streams.

    Of the browser runtime the history file of domains, and the resolution of
    names in [validate_public_url].

    Runtime revisions.  Of the tools, the calls of services and devices behind the policies, and the
    presentation of the output of a command. *)

From Stdlib Require Export Ascii String ZArith Lia Sorted.
From stdpp Require Export base tactics strings option numbers list.

#[global] Open Scope string_scope.
#[global] Open Scope Z_scope.
#[global] Open Scope list_scope.

(** ** Ordered dictionaries

    A Python [dict] with string keys iterates in insertion order; assigning an
    existing key keeps its position, and [pop] followed by an assignment moves
    the key to the end.  We keep that order explicitly. *)

Abbreviation dict V := (list (string * V)).

Section Dict.
Context {V : Type}.
Implicit Types (d : dict V) (k : string) (v : V).

(** [d.get(k)] *)
Fixpoint dget (k : string) (d : dict V) : option V :=
  match d with
  | [] => None
  | (k', v) :: d' => if String.eqb k k' then Some v else dget k d'
  end.

(** [d[k] = v] *)
Fixpoint dset (k : string) (v : V) (d : dict V) : dict V :=
  match d with
  | [] => [(k, v)]
  | (k', v') :: d' =>
      if String.eqb k k' then (k', v) :: d' else (k', v') :: dset k v d'
  end.

(** [d.pop(k, None)] *)
Fixpoint dpop (k : string) (d : dict V) : dict V :=
  match d with
  | [] => []
  | (k', v') :: d' => if String.eqb k k' then dpop k d' else (k', v') :: dpop k d'
  end.

(** [d[k] = f(d[k])] when [k] is present: an update through an alias. *)
Fixpoint dalter (f : V -> V) (k : string) (d : dict V) : dict V :=
  match d with
  | [] => []
  | (k', v') :: d' =>
      if String.eqb k k' then (k', f v') :: d' else (k', v') :: dalter f k d'
  end.

Definition dkeys (d : dict V) : list string := map fst d.
Definition dvalues (d : dict V) : list V := map snd d.
Definition dmem (k : string) (d : dict V) : bool :=
  match dget k d with Some _ => true | None => false end.

(** [d1.update(d2)], and [{**d1, **d2}] *)
Definition dupdate (d1 d2 : dict V) : dict V :=
  fold_left (fun acc kv => dset kv.1 kv.2 acc) d2 d1.

(** [d.setdefault(k, v)] *)
Definition dsetdefault (k : string) (v : V) (d : dict V) : dict V :=
  if dmem k d then d else dset k v d.

Lemma dget_dset_eq k v d : dget k (dset k v d) = Some v.
Proof.
  induction d as [|[k' v'] d IH]; simpl.
  - by rewrite String.eqb_refl.
  - destruct (String.eqb k k') eqn:E; simpl; rewrite E; auto.
Qed.

Lemma dget_dset_ne k k' v d : k <> k' -> dget k (dset k' v d) = dget k d.
Proof.
  intros Hne. induction d as [|[k0 v0] d IH]; simpl.
  - apply String.eqb_neq in Hne. by rewrite Hne.
  - destruct (String.eqb k' k0) eqn:E; simpl.
    + apply String.eqb_eq in E as <-.
      by apply String.eqb_neq in Hne as ->.
    + by rewrite IH.
Qed.

Lemma dget_dset k k' v d :
  dget k (dset k' v d) = if String.eqb k k' then Some v else dget k d.
Proof.
  destruct (String.eqb_spec k k') as [->|Hne].
  - apply dget_dset_eq.
  - by apply dget_dset_ne.
Qed.

Lemma dget_dpop_eq k d : dget k (dpop k d) = None.
Proof.
  induction d as [|[k0 v0] d IH]; simpl; [done|].
  destruct (String.eqb k k0) eqn:E; simpl; [done|]. by rewrite E.
Qed.

Lemma dget_dpop_ne k k' d : k <> k' -> dget k (dpop k' d) = dget k d.
Proof.
  intros Hne. induction d as [|[k0 v0] d IH]; simpl; [done|].
  destruct (String.eqb k' k0) eqn:E; simpl; rewrite IH; [|done].
  apply String.eqb_eq in E as <-. by apply String.eqb_neq in Hne as ->.
Qed.

Lemma dget_dalter f k k' d :
  dget k (dalter f k' d) = if String.eqb k k' then f <$> dget k d else dget k d.
Proof.
  induction d as [|[k0 v0] d IH]; simpl; [by destruct (String.eqb k k')|].
  destruct (String.eqb k' k0) eqn:E1; simpl.
  - apply String.eqb_eq in E1 as ->.
    by destruct (String.eqb k k0) eqn:E2; simpl; rewrite ?E2.
  - destruct (String.eqb k k0) eqn:E2; [|by rewrite IH].
    apply String.eqb_eq in E2 as ->.
    destruct (String.eqb_spec k0 k') as [->|Hne]; [|done].
    by rewrite String.eqb_refl in E1.
Qed.

Lemma dalter_keys f k d : dkeys (dalter f k d) = dkeys d.
Proof.
  unfold dkeys. induction d as [|[k0 v0] d IH]; simpl; [done|].
  destruct (String.eqb k k0); simpl; by rewrite ?IH.
Qed.

Lemma dget_In k v d : dget k d = Some v -> In (k, v) d.
Proof.
  induction d as [|[k0 v0] d IH]; simpl; [done|].
  destruct (String.eqb_spec k k0) as [->|Hne].
  - intros [= ->]. by left.
  - intros H. right. auto.
Qed.

Lemma dget_values k v d : dget k d = Some v -> In v (dvalues d).
Proof. intros H%dget_In. apply in_map_iff. by exists (k, v). Qed.

Lemma In_dget k v d : NoDup (dkeys d) -> In (k, v) d -> dget k d = Some v.
Proof.
  induction d as [|[k0 v0] d IH]; simpl; [done|].
  intros Hnd [Heq|Hin].
  - simplify_eq. by rewrite String.eqb_refl.
  - apply NoDup_cons in Hnd as [Hni Hnd].
    destruct (String.eqb_spec k k0) as [->|Hne]; [|auto].
    exfalso. apply Hni. apply list_elem_of_In.
    apply (in_map fst) in Hin. exact Hin.
Qed.

Lemma dget_None k d : dget k d = None -> ~ In k (dkeys d).
Proof.
  induction d as [|[k0 v0] d IH]; simpl; [tauto|].
  destruct (String.eqb_spec k k0) as [->|Hne]; [done|].
  intros H [Hk|Hk]; [congruence|]. by apply IH in H.
Qed.

Lemma In_dkeys_dset k k' v d : In k (dkeys (dset k' v d)) <-> k = k' \/ In k (dkeys d).
Proof.
  unfold dkeys. induction d as [|[k0 v0] d IH]; simpl.
  - intuition congruence.
  - destruct (String.eqb_spec k' k0) as [->|Hne]; simpl; [|rewrite IH];
      intuition congruence.
Qed.

Lemma dset_NoDup k v d : NoDup (dkeys d) -> NoDup (dkeys (dset k v d)).
Proof.
  unfold dkeys. induction d as [|[k0 v0] d IH]; simpl.
  - intros _. apply NoDup_singleton.
  - intros [Hni Hnd]%NoDup_cons.
    destruct (String.eqb_spec k k0) as [->|Hne]; simpl; apply NoDup_cons; split; auto.
    rewrite list_elem_of_In. intros [Hk|Hk]%In_dkeys_dset; [congruence|].
    by apply Hni, list_elem_of_In.
Qed.

Lemma dalter_same k v d : dget k d = Some v -> dalter (fun _ => v) k d = d.
Proof.
  induction d as [|[k' v'] d IH]; [done|]. cbn. destruct (String.eqb k k'); [by intros [= ->]|].
  intros Hk. by rewrite IH.
Qed.

Lemma dalter_NoDup f k d : NoDup (dkeys d) -> NoDup (dkeys (dalter f k d)).
Proof. by rewrite dalter_keys. Qed.

Lemma dpop_NoDup k d : NoDup (dkeys d) -> NoDup (dkeys (dpop k d)).
Proof.
  unfold dkeys. induction d as [|[k0 v0] d IH]; simpl; [done|].
  intros [Hni Hnd]%NoDup_cons.
  destruct (String.eqb k k0); [auto|]. simpl. apply NoDup_cons; split; [|auto].
  rewrite list_elem_of_In in Hni |- *. contradict Hni.
  clear -Hni. induction d as [|[k1 v1] d IH]; simpl in *; [done|].
  destruct (String.eqb k k1); simpl in *; intuition.
Qed.

Lemma dpop_length k d : NoDup (dkeys d) -> In k (dkeys d) -> List.length d = S (List.length (dpop k d)).
Proof.
  unfold dkeys. induction d as [|[k0 v0] d IH]; simpl; [done|].
  intros [Hni Hnd]%NoDup_cons Hin. destruct (String.eqb_spec k k0) as [->|Hne].
  - f_equal. rewrite list_elem_of_In in Hni. clear IH Hin Hnd.
    induction d as [|[k1 v1] d IH]; simpl in *; [done|].
    destruct (String.eqb_spec k0 k1) as [->|]; [exfalso; auto|]. simpl. f_equal. apply IH. intuition.
  - simpl. f_equal. apply IH; [done|]. destruct Hin; congruence.
Qed.

Lemma dset_length k v d :
  (List.length (dset k v d) <= S (List.length d))%nat.
Proof.
  induction d as [|[k0 v0] d IH]; simpl; [lia|]. destruct (String.eqb k k0); simpl; lia.
Qed.

Lemma dupdate_keeps k d1 d2 : dget k d2 = None -> dget k (dupdate d1 d2) = dget k d1.
Proof.
  unfold dupdate. revert d1. induction d2 as [|[k0 v0] d2 IH]; intros d1; simpl; [done|].
  destruct (String.eqb_spec k k0) as [->|Hne]; [done|]. intros Hk.
  by rewrite IH, dget_dset_ne by done.
Qed.

Lemma dupdate_sets k v d1 d2 : NoDup (dkeys d2) -> dget k d2 = Some v -> dget k (dupdate d1 d2) = Some v.
Proof.
  unfold dupdate. revert d1. induction d2 as [|[k0 v0] d2 IH]; intros d1; simpl; [done|].
  intros [Hni Hnd]%NoDup_cons. destruct (String.eqb_spec k k0) as [->|Hne]; [|by apply IH].
  intros [= ->]. change (dget k0 (dupdate (dset k0 v d1) d2) = Some v).
  rewrite dupdate_keeps; [by rewrite dget_dset_eq|].
  destruct (dget k0 d2) eqn:E; [|done]. exfalso. apply Hni, list_elem_of_In.
  apply dget_In in E. by apply (in_map fst) in E.
Qed.

Lemma dupdate_NoDup d1 d2 : NoDup (dkeys d1) -> NoDup (dkeys (dupdate d1 d2)).
Proof.
  unfold dupdate. revert d1. induction d2 as [|[k0 v0] d2 IH]; intros d1 Hnd; simpl; [done|].
  by apply IH, dset_NoDup.
Qed.

Lemma In_dvalues_dset k v v' d : In v (dvalues (dset k v' d)) -> v = v' \/ In v (dvalues d).
Proof.
  unfold dvalues. induction d as [|[k0 v0] d IH]; simpl; [intuition|].
  destruct (String.eqb k k0); simpl; intuition.
Qed.
End Dict.

Create HintDb dict.
Create Rewrite HintDb dict.
#[export] Hint Rewrite @dget_dset_eq @dget_dpop_eq : dict.
#[export] Hint Rewrite @dget_dset_ne @dget_dpop_ne using congruence : dict.
#[export] Hint Resolve dset_NoDup dpop_NoDup dalter_NoDup : dict.

(** ** Bounded prefixes and suffixes of Python slices *)

(** [l[:n]] for a non-negative [n]. *)
Definition slice_to {A} (n : Z) (l : list A) : list A := take (Z.to_nat n) l.

(** [l[-n:]] for a positive [n]; [l[-0:]] is the whole list. *)
Definition last_n {A} (n : Z) (l : list A) : list A :=
  if n =? 0 then l else drop (List.length l - Z.to_nat n) l.

Lemma last_n_length {A} n (l : list A) :
  0 < n -> Z.of_nat (List.length (last_n n l)) = Z.min n (Z.of_nat (List.length l)).
Proof.
  intros Hn. unfold last_n. destruct (Z.eqb_spec n 0); [lia|].
  rewrite length_drop. lia.
Qed.

(** Assigning the key of a value in a dictionary of values filed under their id. *)
Section Keyed.
Context {V : Type} (id : V -> string).

Definition keyed (d : dict V) : Prop :=
  NoDup (dkeys d) /\ forall k v, dget k d = Some v -> id v = k.

Lemma keyed_dset k v d : id v = k -> keyed d -> keyed (dset k v d).
Proof.
  intros Hid [Hnd Hk]. split; [by apply dset_NoDup|].
  intros k' v'. rewrite dget_dset. destruct (String.eqb_spec k' k) as [->|Hne]; [|apply Hk].
  by intros [= <-].
Qed.

Lemma keyed_In v d : keyed d -> In v (dvalues d) -> dget (id v) d = Some v.
Proof.
  intros [Hnd Hk] ([k v'] & Heq & Hin)%in_map_iff. simpl in Heq. subst v'.
  apply In_dget in Hin; [|done]. by rewrite (Hk _ _ Hin).
Qed.

Lemma keyed_ids d : keyed d -> map id (dvalues d) = dkeys d.
Proof.
  intros [Hnd Hk]. unfold dkeys, dvalues. rewrite map_map. apply map_ext_in. intros [k v] Hin. cbn.
  by apply Hk, In_dget.
Qed.

Definition replace_id (k : string) (v x : V) : V := if String.eqb (id x) k then v else x.

Lemma replace_id_absent k v (d : dict V) :
  (forall k' x, In (k', x) d -> id x = k') -> ~ In k (dkeys d) ->
  map (replace_id k v) (dvalues d) = dvalues d.
Proof.
  induction d as [|[k1 v1] d IH]; simpl; intros Hid Hni; [done|].
  f_equal; [|apply IH; auto; intros; apply Hid; auto].
  unfold replace_id. rewrite (Hid k1 v1) by auto.
  destruct (String.eqb_spec k1 k); [|done]. exfalso. auto.
Qed.

Lemma dvalues_dset_replace k v v0 (d : dict V) :
  NoDup (dkeys d) -> (forall k' x, In (k', x) d -> id x = k') -> dget k d = Some v0 ->
  dvalues (dset k v d) = map (replace_id k v) (dvalues d).
Proof.
  induction d as [|[k1 v1] d IH]; simpl; intros Hnd Hid Hget; [done|].
  apply NoDup_cons in Hnd as [Hni Hnd]. rewrite list_elem_of_In in Hni.
  unfold replace_id at 1. rewrite (Hid k1 v1) by auto. rewrite (String.eqb_sym k1 k).
  destruct (String.eqb_spec k k1) as [->|Hne]; simpl.
  - f_equal. fold (dvalues d). symmetry. apply replace_id_absent; auto.
  - f_equal. apply IH; auto.
Qed.
End Keyed.

(** ** Filtering and searching lists *)

Section Filtering.
Context {A : Type} (p : A -> bool).

Lemma filter_false l : (forall x, In x l -> p x = false) -> List.filter p l = [].
Proof.
  induction l as [|x l IH]; simpl; [done|]. intros Hp. rewrite (Hp x) by auto. auto.
Qed.

Lemma filter_map_same (f : A -> A) l :
  (forall x, p (f x) = p x) -> List.filter p (map f l) = map f (List.filter p l).
Proof.
  intros Hf. induction l as [|x l IH]; simpl; [done|]. rewrite Hf. destruct (p x); simpl; by rewrite IH.
Qed.

Lemma filter_unique l x :
  (List.length (List.filter p l) <= 1)%nat -> In x l -> p x = true -> List.filter p l = [x].
Proof.
  intros Hle Hin Hp. assert (Hf : In x (List.filter p l)) by by apply filter_In.
  destruct (List.filter p l) as [|y [|z l']]; simpl in *; [done| |lia].
  by destruct Hf as [->|].
Qed.

Lemma find_false l : (forall x, In x l -> p x = false) -> List.find p l = None.
Proof.
  induction l as [|x l IH]; simpl; [done|]. intros Hp. rewrite (Hp x) by auto. auto.
Qed.

Lemma existsb_false l : (forall x, In x l -> p x = false) -> existsb p l = false.
Proof.
  induction l as [|x l IH]; simpl; [done|]. intros Hp. rewrite (Hp x) by auto. auto.
Qed.
End Filtering.

(** ** Counting the values of a dictionary *)

Section Counting.
Context {V : Type} (P : V -> bool).
Implicit Types (d : dict V).

Definition count_values d : nat := List.length (List.filter P (dvalues d)).

Lemma count_values_cons k v d :
  count_values ((k, v) :: d) = ((if P v then 1 else 0) + count_values d)%nat.
Proof. unfold count_values. simpl. by destruct (P v). Qed.

Lemma count_values_none d : (forall v, In v (dvalues d) -> P v = false) -> count_values d = O.
Proof.
  induction d as [|[k v] d IH]; intros Hall; [done|].
  rewrite count_values_cons, (Hall v) by (simpl; auto).
  apply IH. intros v' Hin. apply Hall. simpl. auto.
Qed.

Lemma count_dset_le k v d :
  (count_values (dset k v d) <= count_values d + (if P v then 1 else 0))%nat.
Proof.
  induction d as [|[k0 v0] d IH]; simpl.
  - unfold count_values. simpl. destruct (P v); simpl; lia.
  - destruct (String.eqb k k0); rewrite !count_values_cons; destruct (P v0), (P v); lia.
Qed.

(** Replacing a value by one that counts only if the old one did. *)
Lemma count_dset_replace k v v0 d :
  dget k d = Some v0 -> (P v = true -> P v0 = true) ->
  (count_values (dset k v d) <= count_values d)%nat.
Proof.
  intros Hget HP. induction d as [|[k1 v1] d IH]; simpl in *; [done|].
  destruct (String.eqb k k1); rewrite !count_values_cons.
  - simplify_eq. destruct (P v), (P v0); try lia.
  - specialize (IH Hget). lia.
Qed.

Lemma count_filter_le f d : (count_values (List.filter f d) <= count_values d)%nat.
Proof.
  induction d as [|[k v] d IH]; simpl; [done|].
  destruct (f (k, v)); rewrite !count_values_cons; lia.
Qed.

Lemma count_values_two d k1 k2 v1 v2 :
  (count_values d <= 1)%nat ->
  In (k1, v1) d -> In (k2, v2) d -> P v1 = true -> P v2 = true -> k1 = k2 /\ v1 = v2.
Proof.
  assert (Hpos : forall d k v, In (k, v) d -> P v = true -> (1 <= count_values d)%nat).
  { clear d k1 k2 v1 v2. intros d k v Hin HP. induction d as [|[k0 v0] d IH]; simpl in *; [done|].
    rewrite count_values_cons. destruct Hin as [Heq|Hin]; [|specialize (IH Hin); lia].
    simplify_eq. rewrite HP. lia. }
  induction d as [|[k0 v0] d IH]; simpl; [done|].
  rewrite count_values_cons. intros Hle Hin1 Hin2 HP1 HP2.
  destruct Hin1 as [Heq1|Hin1], Hin2 as [Heq2|Hin2]; simplify_eq; auto.
  - rewrite HP1 in Hle. specialize (Hpos d k2 v2 Hin2 HP2). lia.
  - rewrite HP2 in Hle. specialize (Hpos d k1 v1 Hin1 HP1). lia.
  - destruct (P v0); apply IH; auto; lia.
Qed.

(** The keys whose values count. *)
Definition counted d : list string := dkeys (List.filter (fun kv => P kv.2) d).

Lemma counted_length d : List.length (counted d) = count_values d.
Proof.
  unfold counted, count_values, dkeys, dvalues. rewrite length_map.
  induction d as [|[k v] d IH]; simpl; [done|]. destruct (P v); simpl; by rewrite IH.
Qed.

Lemma counted_keys d k : In k (counted d) -> In k (dkeys d).
Proof.
  unfold counted, dkeys. rewrite !in_map_iff. intros (kv & <- & [Hin _]%filter_In). by exists kv.
Qed.

Lemma counted_NoDup d : NoDup (dkeys d) -> NoDup (counted d).
Proof.
  induction d as [|[k v] d IH]; simpl; [done|]. intros [Hni Hnd]%NoDup_cons.
  unfold counted. simpl. destruct (P v); [|by apply IH]. apply NoDup_cons. split; [|by apply IH].
  intros Hin%list_elem_of_In. apply Hni, list_elem_of_In. by apply counted_keys.
Qed.

Lemma counted_In d k : NoDup (dkeys d) -> In k (counted d) <-> exists v, dget k d = Some v /\ P v = true.
Proof.
  intros Hnd. unfold counted, dkeys. rewrite in_map_iff. split.
  - intros ([k' v] & <- & [Hin HP]%filter_In). exists v. split; [by apply In_dget|done].
  - intros (v & Hget & HP). exists (k, v). split; [done|]. apply filter_In. split; [by apply dget_In|done].
Qed.

(** One more value counts when only one key starts to count. *)
Lemma count_values_step d d' i :
  NoDup (dkeys d) -> NoDup (dkeys d') -> ~ In i (counted d) -> In i (counted d') ->
  (forall k, k <> i -> In k (counted d') <-> In k (counted d)) -> count_values d' = S (count_values d).
Proof.
  intros Hnd Hnd' Hni Hin Hsame. rewrite <-!counted_length.
  change (S (List.length (counted d))) with (List.length (i :: counted d)).
  apply Permutation_length, NoDup_Permutation; [by apply counted_NoDup| |].
  - apply NoDup_cons. split; [by rewrite list_elem_of_In|by apply counted_NoDup].
  - intros k. rewrite !list_elem_of_In. simpl. destruct (decide (k = i)) as [->|Hne]; [tauto|].
    rewrite Hsame by done. intuition congruence.
Qed.
End Counting.

(** Mapping a dictionary on its values. *)
Lemma dget_map {A B} (f : A -> B) k (d : dict A) : dget k (map (fun kv => (kv.1, f kv.2)) d) = f <$> dget k d.
Proof. induction d as [|[k0 v0] d IH]; cbn; [done|]. by destruct (String.eqb k k0). Qed.

(** Filtering a dictionary on its values. *)
Lemma dget_filter {V} (p : V -> bool) k v (d : dict V) :
  NoDup (dkeys d) -> dget k d = Some v -> p v = true ->
  dget k (List.filter (fun kv => p kv.2) d) = Some v.
Proof.
  intros Hnd. induction d as [|[k0 v0] d IH]; simpl in *; [done|].
  apply NoDup_cons in Hnd as [_ Hnd].
  destruct (String.eqb_spec k k0) as [->|Hne].
  - intros [= ->] Hp. rewrite Hp. simpl. by rewrite String.eqb_refl.
  - intros Hg Hp. destruct (p v0); simpl; [|auto].
    apply String.eqb_neq in Hne as ->. auto.
Qed.

(** ** Stable sorting by a key, as Python's [sorted] *)

Section Sort.
Context {A : Type} (le : A -> A -> bool).

(** Inserting before the first element that is strictly greater keeps equal
    elements in their original order. *)
Fixpoint insert_sorted (x : A) (l : list A) : list A :=
  match l with
  | [] => [x]
  | y :: l' => if le y x then y :: insert_sorted x l' else x :: l
  end.

Definition py_sorted (l : list A) : list A := fold_left (fun acc x => insert_sorted x acc) l [].

Lemma insert_sorted_In x y l : In y (insert_sorted x l) <-> y = x \/ In y l.
Proof.
  induction l as [|z l IH]; simpl; [intuition congruence|].
  destruct (le z x); simpl; [rewrite IH|]; intuition congruence.
Qed.

Lemma fold_insert_In y l acc :
  In y (fold_left (fun acc x => insert_sorted x acc) l acc) <-> In y l \/ In y acc.
Proof.
  revert acc. induction l as [|x l IH]; intros acc; simpl; [tauto|].
  rewrite IH, insert_sorted_In. intuition congruence.
Qed.

Lemma py_sorted_In y l : In y (py_sorted l) <-> In y l.
Proof. unfold py_sorted. rewrite fold_insert_In. simpl. tauto. Qed.

Lemma insert_sorted_length x l : List.length (insert_sorted x l) = S (List.length l).
Proof. induction l as [|z l IH]; simpl; [done|]. destruct (le z x); simpl; lia. Qed.

Lemma py_sorted_length l : List.length (py_sorted l) = List.length l.
Proof.
  unfold py_sorted. cut (forall acc, List.length (fold_left (fun acc x => insert_sorted x acc) l acc)
    = (List.length l + List.length acc)%nat).
  { intros H. rewrite H. simpl. lia. }
  induction l as [|x l IH]; intros acc; simpl; [done|].
  rewrite IH, insert_sorted_length. lia.
Qed.

Lemma py_sorted_nil l : py_sorted l = [] <-> l = [].
Proof.
  pose proof (py_sorted_length l) as H. split; intros E.
  - rewrite E in H. by destruct l.
  - by subst.
Qed.

Lemma insert_sorted_perm x l : insert_sorted x l ≡ₚ x :: l.
Proof.
  induction l as [|z l IH]; simpl; [done|]. destruct (le z x); [|done].
  rewrite IH. apply Permutation_swap.
Qed.

Lemma py_sorted_perm l : py_sorted l ≡ₚ l.
Proof.
  unfold py_sorted. rewrite <-(app_nil_r l) at 2. generalize (@nil A).
  induction l as [|x l IH]; intros acc; simpl; [done|].
  rewrite IH, insert_sorted_perm. by rewrite Permutation_middle.
Qed.

(** Sorting by a total preorder sorts. *)
Lemma insert_sorted_sorted x l :
  (forall a b, le a b = false -> le b a = true) -> (forall a b c, le a b = true -> le b c = true -> le a c = true) ->
  StronglySorted (fun a b => le a b = true) l -> StronglySorted (fun a b => le a b = true) (insert_sorted x l).
Proof.
  intros Htotal Htrans. induction l as [|z l IH]; intros Hs; simpl; [repeat constructor|].
  inversion Hs as [|? ? Hl Hz]; subst. destruct (le z x) eqn:Hzx.
  - constructor; [auto|]. rewrite insert_sorted_perm. by constructor.
  - constructor; [done|]. constructor; [auto|].
    eapply Forall_impl; [exact Hz|]. intros y Hy. eapply Htrans; eauto.
Qed.

Lemma py_sorted_sorted l :
  (forall a b, le a b = false -> le b a = true) -> (forall a b c, le a b = true -> le b c = true -> le a c = true) ->
  StronglySorted (fun a b => le a b = true) (py_sorted l).
Proof.
  intros Htotal Htrans. unfold py_sorted.
  assert (Hacc : StronglySorted (fun a b => le a b = true) []) by constructor.
  revert Hacc. generalize (@nil A). induction l as [|x l IH]; intros acc Hacc; simpl; [done|].
  apply IH, insert_sorted_sorted; auto.
Qed.

Lemma py_sorted_singleton l x : py_sorted l = [x] -> l = [x].
Proof.
  intros E. pose proof (py_sorted_length l) as H. rewrite E in H.
  destruct l as [|y [|z l]]; simpl in *; try lia. by simplify_eq/=.
Qed.
End Sort.

#[export] Hint Rewrite @py_sorted_In @py_sorted_length : dict.

(** [if x is not None:] *)
Definition opt_some {A} (o : option A) : bool := match o with Some _ => true | None => false end.

(** Lexicographic comparison of strings by code point, as Python's [<=]. *)
Fixpoint string_leb (a b : string) : bool :=
  match a, b with
  | EmptyString, _ => true
  | String _ _, EmptyString => false
  | String x a', String y b' =>
      if Ascii.eqb x y then string_leb a' b' else (nat_of_ascii x <? nat_of_ascii y)%nat
  end.

(** ** Case analysis on the tests of the code *)

(** Destruct the innermost scrutinee of a [match] or [if] in the goal. *)
Ltac case_inner t :=
  match t with
  | context [match ?x with _ => _ end] => case_inner x
  | _ => let E := fresh "E" in destruct t eqn:E
  end.

Ltac split_match :=
  match goal with
  | |- context [match ?x with _ => _ end] => case_inner x
  end.

Ltac split_match_in H :=
  match type of H with
  | context [match ?x with _ => _ end] => case_inner x
  end.
