(* ===== verification/PyVal.v ===== *)
(** * Python values

    The dynamically typed values that the code keeps in [metadata],
    [input_payload], [output_payload], event payloads and policies, with the
    operations of the language and its standard library that the code applies
    to them: truthiness, [dict.get], [str], [str.strip], [str.lower],
    [str.split], [str.startswith], [json.dumps], and the ISO rendering of
    timestamps.

    A Python [str] is a list of code points; the model keeps the code points
    0-255.  A [float] is an IEEE-754 double ([SpecFloat.spec_float]).  A
    timestamp is an aware UTC [datetime], counted in microseconds since the
    Unix epoch, so [ensure_utc] is the identity on it. *)

From Corelib Require Import SpecFloat.
From S2P Require Export Prelude.

#[warnings="-register-all"]
Inductive pyval : Type :=
  | PNone
  | PBool (b : bool)
  | PInt (n : Z)
  | PFloat (f : spec_float)
  | PStr (s : string)
  | PList (l : list pyval)
  | PDict (d : list (string * pyval)).

(** ** Access and tests *)

(** [d.get(k)] on a dictionary of Python values: absent keys give [None]. *)
Definition pget (k : string) (d : dict pyval) : pyval := default PNone (dget k d).

Definition float_zero (f : spec_float) : bool :=
  match f with S754_zero _ => true | _ => false end.

(** [bool(v)] *)
Definition truthy (v : pyval) : bool :=
  match v with
  | PNone => false
  | PBool b => b
  | PInt n => negb (n =? 0)
  | PFloat f => negb (float_zero f)
  | PStr s => negb (String.eqb s "")
  | PList l => match l with [] => false | _ => true end
  | PDict d => match d with [] => false | _ => true end
  end.

(** [a or b] *)
Definition py_or (a b : pyval) : pyval := if truthy a then a else b.

Definition is_none (v : pyval) : bool := match v with PNone => true | _ => false end.

(** [v is False] and [v is True] *)
Definition is_false (v : pyval) : bool := match v with PBool false => true | _ => false end.
Definition is_true (v : pyval) : bool := match v with PBool true => true | _ => false end.

(** [isinstance(v, dict)] and [isinstance(v, str)], with the value. *)
Definition as_dict (v : pyval) : option (dict pyval) :=
  match v with PDict d => Some d | _ => None end.
Definition as_str (v : pyval) : option string :=
  match v with PStr s => Some s | _ => None end.
Definition as_list (v : pyval) : option (list pyval) :=
  match v with PList l => Some l | _ => None end.

(** [v if isinstance(v, dict) else {}] *)
Definition dict_or_empty (v : pyval) : dict pyval := default [] (as_dict v).

(** [v == s] for a string [s]. *)
Definition eq_str (v : pyval) (s : string) : bool :=
  match v with PStr t => String.eqb t s | _ => false end.

(** An optional string as a Python value. *)
Definition opt_str (o : option string) : pyval :=
  match o with Some s => PStr s | None => PNone end.
Definition opt_int (o : option Z) : pyval :=
  match o with Some n => PInt n | None => PNone end.

(** Truthiness of an optional string attribute: [None] and the empty string are false. *)
Definition str_truthy (o : option string) : bool :=
  match o with Some s => negb (String.eqb s "") | None => false end.

Definition opt_eqb (a b : option string) : bool :=
  match a, b with
  | Some x, Some y => String.eqb x y
  | None, None => true
  | _, _ => false
  end.

(** [x in names] for a collection of strings. *)
Definition mem_str (s : string) (l : list string) : bool := existsb (String.eqb s) l.

Lemma mem_str_In s l : mem_str s l = true <-> In s l.
Proof.
  unfold mem_str. rewrite existsb_exists. split.
  - intros (x & Hin & ->%String.eqb_eq). done.
  - intros H. exists s. by rewrite String.eqb_refl.
Qed.

Lemma mem_str_false s l : mem_str s l = false <-> ~ In s l.
Proof. rewrite <- mem_str_In. by destruct (mem_str s l). Qed.

Lemma eq_str_true v s : eq_str v s = true <-> v = PStr s.
Proof.
  destruct v; simpl; try (split; congruence).
  rewrite String.eqb_eq. split; congruence.
Qed.

(** ** Characters and strings *)

(** [str.isspace] on the code points 0-255: the characters [str.strip] removes. *)
Definition is_space (c : ascii) : bool :=
  let n := nat_of_ascii c in
  ((9 <=? n) && (n <=? 13) || (28 <=? n) && (n <=? 32) || (n =? 133) || (n =? 160))%nat.

Fixpoint drop_while (p : ascii -> bool) (l : list ascii) : list ascii :=
  match l with
  | [] => []
  | c :: l' => if p c then drop_while p l' else l
  end.

Definition strip_chars (p : ascii -> bool) (s : string) : string :=
  string_of_list_ascii
    (rev (drop_while p (rev (drop_while p (list_ascii_of_string s))))).

(** [s.strip()] *)
Definition py_strip (s : string) : string := strip_chars is_space s.

Lemma drop_while_idem p l : drop_while p (drop_while p l) = drop_while p l.
Proof. induction l as [|c l IH]; simpl; [done|]. destruct (p c) eqn:E; simpl; by rewrite ?E. Qed.

Lemma drop_while_suffix p l : exists l', l = l' ++ drop_while p l.
Proof.
  induction l as [|c l [l' IH]]; simpl; [by exists []|].
  destruct (p c); [|by exists []]. exists (c :: l'). simpl. by rewrite <-IH.
Qed.

Lemma strip_chars_idem p s : strip_chars p (strip_chars p s) = strip_chars p s.
Proof.
  unfold strip_chars. rewrite !list_ascii_of_string_of_list_ascii.
  set (m := drop_while p (list_ascii_of_string s)).
  set (n := rev (drop_while p (rev m))).
  assert (Hn : drop_while p n = n).
  { destruct n as [|c n'] eqn:En; [done|].
    destruct (drop_while_suffix p (rev m)) as [l' Hl'].
    assert (Hm : m = (c :: n') ++ rev l').
    { rewrite <-(rev_involutive m), Hl', rev_app_distr. unfold n in En. by rewrite En. }
    assert (Hp : p c = false).
    { pose proof (drop_while_idem p (list_ascii_of_string s)) as Hi. fold m in Hi.
      rewrite Hm in Hi. simpl in Hi. destruct (p c); [|done].
      exfalso. destruct (drop_while_suffix p (n' ++ rev l')) as [l2 Hl2].
      apply (f_equal List.length) in Hl2. rewrite Hi in Hl2.
      rewrite !length_app in Hl2. simpl in Hl2. rewrite length_app in Hl2. lia. }
    simpl. by rewrite Hp. }
  rewrite Hn. f_equal. unfold n at 1. by rewrite rev_involutive, drop_while_idem.
Qed.

Lemma py_strip_idem s : py_strip (py_strip s) = py_strip s.
Proof. apply strip_chars_idem. Qed.

(** Text that starts with a visible character does not strip to nothing. *)
Lemma py_strip_visible c s : is_space c = false -> String.eqb (py_strip (String c s)) "" = false.
Proof.
  intros Hc. unfold py_strip, strip_chars. simpl. rewrite Hc.
  set (l := rev (c :: list_ascii_of_string s)).
  destruct (drop_while_suffix is_space l) as [l' Hl'].
  assert (Hne : drop_while is_space l <> []).
  { intros Hnil. unfold l in *. simpl in *.
    assert (Hin : In c (rev (list_ascii_of_string s) ++ [c])) by (apply in_or_app; right; by left).
    revert Hin Hnil. generalize (rev (list_ascii_of_string s) ++ [c]). clear -Hc.
    induction l as [|x l IH]; simpl; [done|]. intros [->|Hin]; [by rewrite Hc|].
    destruct (is_space x); [auto|done]. }
  destruct (rev (drop_while is_space l)) as [|x r] eqn:Er; [|done].
  exfalso. apply Hne. by rewrite <-(rev_involutive (drop_while _ _)), Er.
Qed.

(** [c.lower()]: the capital letters of ASCII and of the Latin-1 supplement. *)
Definition lower_char (c : ascii) : ascii :=
  let n := nat_of_ascii c in
  if ((65 <=? n) && (n <=? 90) || (192 <=? n) && (n <=? 222) && negb (n =? 215))%nat
  then ascii_of_nat (n + 32) else c.

Fixpoint py_lower (s : string) : string :=
  match s with
  | EmptyString => EmptyString
  | String c s' => String (lower_char c) (py_lower s')
  end.

(** [s.startswith(p)] *)
Definition starts_with (p s : string) : bool := String.prefix p s.

(** [s.split(sep)] for a one-character separator. *)
Fixpoint split_char_aux (sep : ascii) (s : string) (acc : string) : list string :=
  match s with
  | EmptyString => [acc]
  | String c s' =>
      if Ascii.eqb c sep then acc :: split_char_aux sep s' EmptyString
      else split_char_aux sep s' (acc +:+ String c EmptyString)
  end.
Definition split_char (sep : ascii) (s : string) : list string := split_char_aux sep s EmptyString.

(** [sep.join(l)] *)
Fixpoint py_join (sep : string) (l : list string) : string :=
  match l with
  | [] => ""
  | [s] => s
  | s :: l' => s +:+ sep +:+ py_join sep l'
  end.

(** [s[:n]] *)
Definition str_take (n : nat) (s : string) : string := String.substring 0 n s.

Lemma str_take_length n s : (String.length (str_take n s) <= n)%nat.
Proof.
  unfold str_take. revert s. induction n as [|n IH]; intros s; destruct s; simpl; try lia.
  specialize (IH s). lia.
Qed.

(** [needle in s] *)
Fixpoint contains (needle s : string) : bool :=
  String.prefix needle s ||
  match s with EmptyString => false | String _ s' => contains needle s' end.

(** ** Decimal numerals *)

Definition digit (n : Z) : string := String (ascii_of_nat (48 + Z.to_nat n)) "".

Fixpoint digits_fuel (fuel : nat) (n : Z) : string :=
  match fuel with
  | O => ""
  | S fuel' => if n <? 10 then digit n else digits_fuel fuel' (n / 10) +:+ digit (n mod 10)
  end.

(** [str(n)]; a numeral has at most [log2 n + 1] digits. *)
Definition show_Z (n : Z) : string :=
  let body m := digits_fuel (S (Z.to_nat (Z.log2 m))) m in
  if n <? 0 then "-" +:+ body (- n) else body n.

Lemma str_app_assoc a b c : a +:+ (b +:+ c) = (a +:+ b) +:+ c.
Proof. induction a as [|x a IH]; [done|].
  change (String x (a +:+ (b +:+ c)) = String x ((a +:+ b) +:+ c)). by rewrite IH.
Qed.

Lemma str_length_app a b : String.length (a +:+ b) = (String.length a + String.length b)%nat.
Proof. induction a as [|c a IH]; simpl; [done|]. by rewrite IH. Qed.

Lemma show_Z_length n : 0 <= n -> (String.length (show_Z n) <= S (Z.to_nat (Z.log2 n)))%nat.
Proof.
  intros Hn. unfold show_Z. destruct (Z.ltb_spec n 0); [lia|].
  generalize (S (Z.to_nat (Z.log2 n))). intros fuel. clear. revert n.
  induction fuel as [|fuel IH]; intros n; simpl; [lia|].
  destruct (n <? 10); simpl; [lia|]. rewrite str_length_app. simpl. specialize (IH (n / 10)). lia.
Qed.

(** [f"{n:0w}"] for a non-negative [n]: zero-padded to [w] digits. *)
Fixpoint pad_Z (w : nat) (n : Z) : string :=
  match w with
  | O => ""
  | S w' => pad_Z w' (n / 10) +:+ digit (n mod 10)
  end.

(** ** Timestamps *)

Definition us_per_second : Z := 1000000.
Definition us_per_day : Z := 86400 * us_per_second.

(** Proleptic Gregorian date of a day number counted from 1970-01-01. *)
Definition civil_of_days (days : Z) : Z * Z * Z :=
  let z := days + 719468 in
  let era := z / 146097 in
  let doe := z mod 146097 in
  let yoe := (doe - doe / 1460 + doe / 36524 - doe / 146096) / 365 in
  let doy := doe - (365 * yoe + yoe / 4 - yoe / 100) in
  let mp := (5 * doy + 2) / 153 in
  let d := doy - (153 * mp + 2) / 5 + 1 in
  let m := if mp <? 10 then mp + 3 else mp - 9 in
  let y := yoe + era * 400 + (if m <=? 2 then 1 else 0) in
  (y, m, d).

Definition days_of_civil (y m d : Z) : Z :=
  let y' := y - (if m <=? 2 then 1 else 0) in
  let era := y' / 400 in
  let yoe := y' mod 400 in
  let mp := if m <=? 2 then m + 9 else m - 3 in
  let doy := (153 * mp + 2) / 5 + d - 1 in
  let doe := yoe * 365 + yoe / 4 - yoe / 100 + doy in
  era * 146097 + doe - 719468.

(** [t.isoformat()] of an aware UTC datetime: the fraction is printed only when
    it is not zero. *)
Definition isoformat (t : Z) : string :=
  let '(y, m, d) := civil_of_days (t / us_per_day) in
  let us := t mod us_per_day in
  let secs := us / us_per_second in
  let frac := us mod us_per_second in
  pad_Z 4 y +:+ "-" +:+ pad_Z 2 m +:+ "-" +:+ pad_Z 2 d +:+ "T" +:+
  pad_Z 2 (secs / 3600) +:+ ":" +:+ pad_Z 2 (secs / 60 mod 60) +:+ ":" +:+ pad_Z 2 (secs mod 60) +:+
  (if frac =? 0 then "" else "." +:+ pad_Z 6 frac) +:+ "+00:00".

Definition opt_iso (o : option Z) : pyval :=
  match o with Some t => PStr (isoformat t) | None => PNone end.

(** [int((now - t).total_seconds())], clamped at zero as the code does. *)
Definition age_seconds (now t : Z) : Z := Z.max 0 (Z.quot (now - t) us_per_second).

(** Reading back what [isoformat] prints ([datetime.fromisoformat]). *)
Definition digit_value (c : ascii) : option Z :=
  let n := Z.of_nat (nat_of_ascii c) in
  if (48 <=? n) && (n <=? 57) then Some (n - 48) else None.

(** Exactly [w] digits, with the rest of the text. *)
Fixpoint read_digits (w : nat) (acc : Z) (l : list ascii) : option (Z * list ascii) :=
  match w, l with
  | O, _ => Some (acc, l)
  | S w', c :: l' => v ← digit_value c; read_digits w' (acc * 10 + v) l'
  | S _, [] => None
  end.

Definition expect (c : ascii) (l : list ascii) : option (list ascii) :=
  match l with
  | c' :: l' => if Ascii.eqb c c' then Some l' else None
  | [] => None
  end.

(** The timestamps the application writes: [YYYY-MM-DDTHH:MM:SS[.ffffff]+00:00]. *)
Definition fromisoformat (s : string) : option Z :=
  let l := list_ascii_of_string s in
  '(y, l) ← read_digits 4 0 l; l ← expect "-" l;
  '(m, l) ← read_digits 2 0 l; l ← expect "-" l;
  '(d, l) ← read_digits 2 0 l; l ← expect "T" l;
  '(hh, l) ← read_digits 2 0 l; l ← expect ":" l;
  '(mm, l) ← read_digits 2 0 l; l ← expect ":" l;
  '(ss, l) ← read_digits 2 0 l;
  '(us, l) ← match expect "." l with
             | Some l' => read_digits 6 0 l'
             | None => Some (0, l)
             end;
  if String.eqb (string_of_list_ascii l) "+00:00"
     && (1 <=? y) && (1 <=? m) && (m <=? 12)
     && bool_decide (civil_of_days (days_of_civil y m d) = (y, m, d))
     && (hh <? 24) && (mm <? 60) && (ss <? 60)
  then Some (days_of_civil y m d * us_per_day + (hh * 3600 + mm * 60 + ss) * us_per_second + us)
  else None.

(** ** [repr], [str] and [json.dumps] *)

Definition hex_digit (n : nat) : string :=
  String (ascii_of_nat (if (n <? 10)%nat then 48 + n else 87 + n)) "".
Definition hex2 (n : nat) : string := hex_digit (n / 16) +:+ hex_digit (n mod 16).

Definition concat_map (f : ascii -> string) : string -> string :=
  fix go s := match s with EmptyString => "" | String c s' => f c +:+ go s' end.

(** The double quote character, written by its code. *)
Definition dquote : string := String (ascii_of_nat 34) "".

(** The characters [repr] prints as they are. *)
Definition printable (c : ascii) : bool :=
  let n := nat_of_ascii c in
  ((32 <=? n) && (n <=? 126) || (161 <=? n) && negb (n =? 173))%nat.

Definition repr_char (quote : string) (c : ascii) : string :=
  let s := String c "" in
  let n := nat_of_ascii c in
  if String.eqb s quote || (n =? 92)%nat then "\" +:+ s
  else if (n =? 10)%nat then "\n"
  else if (n =? 13)%nat then "\r"
  else if (n =? 9)%nat then "\t"
  else if printable c then s
  else "\x" +:+ hex2 n.

Definition repr_str (s : string) : string :=
  let quote := if contains "'" s && negb (contains dquote s) then dquote else "'" in
  quote +:+ concat_map (repr_char quote) s +:+ quote.

Section Render.
(** [float.__repr__] *)
Variable float_repr : spec_float -> string.

Fixpoint py_repr (v : pyval) : string :=
  match v with
  | PNone => "None"
  | PBool true => "True"
  | PBool false => "False"
  | PInt n => show_Z n
  | PFloat f => float_repr f
  | PStr s => repr_str s
  | PList l => "[" +:+ py_join ", " (map py_repr l) +:+ "]"
  | PDict d =>
      "{" +:+ py_join ", " (map (fun kv => repr_str kv.1 +:+ ": " +:+ py_repr kv.2) d) +:+ "}"
  end.

(** [str(v)] *)
Definition py_str (v : pyval) : string :=
  match v with PStr s => s | _ => py_repr v end.

Definition json_char (c : ascii) : string :=
  let s := String c "" in
  let n := nat_of_ascii c in
  if (n =? 34)%nat || (n =? 92)%nat then "\" +:+ s
  else if (n =? 10)%nat then "\n"
  else if (n =? 13)%nat then "\r"
  else if (n =? 9)%nat then "\t"
  else if (n =? 8)%nat then "\b"
  else if (n =? 12)%nat then "\f"
  else if ((32 <=? n) && (n <=? 126))%nat then s
  else "\u00" +:+ hex2 n.

Definition json_str (s : string) : string := dquote +:+ concat_map json_char s +:+ dquote.

Definition json_float (f : spec_float) : string :=
  match f with
  | S754_nan => "NaN"
  | S754_infinity false => "Infinity"
  | S754_infinity true => "-Infinity"
  | _ => float_repr f
  end.

(** [json.dumps(v, sort_keys=True, separators=(item_sep, key_sep))] *)
Fixpoint json_dumps (item_sep key_sep : string) (v : pyval) : string :=
  match v with
  | PNone => "null"
  | PBool true => "true"
  | PBool false => "false"
  | PInt n => show_Z n
  | PFloat f => json_float f
  | PStr s => json_str s
  | PList l => "[" +:+ py_join item_sep (map (json_dumps item_sep key_sep) l) +:+ "]"
  | PDict d =>
      let rendered := map (fun kv => (kv.1, json_dumps item_sep key_sep kv.2)) d in
      let by_key := py_sorted (fun a b => string_leb a.1 b.1) rendered in
      "{" +:+ py_join item_sep (map (fun kv => json_str kv.1 +:+ key_sep +:+ kv.2) by_key) +:+ "}"
  end.
End Render.
