(* ===== verification/Json.v ===== *)
(** * Reading JSON text

    [json.loads] as the engine applies it to the text of a model's answer: the
    grammar of RFC 8259 with Python's [NaN] and [Infinity], duplicate keys (the
    last value wins at the place of the first), strict strings.  An escape for a
    code point above 255 reads as a question mark, the model's strings end at
    255.  [None] is a [JSONDecodeError]. *)

From Corelib Require Import SpecFloat.
From S2P Require Export PyVal.

Definition json_space (c : ascii) : bool :=
  let n := nat_of_ascii c in ((n =? 32) || (n =? 9) || (n =? 10) || (n =? 13))%nat.

Definition skip_space (l : list ascii) : list ascii := drop_while json_space l.

(** The rest of [l] after the text [s]. *)
Fixpoint after_text (s : string) (l : list ascii) : option (list ascii) :=
  match s, l with
  | EmptyString, _ => Some l
  | String c s', c' :: l' => if Ascii.eqb c c' then after_text s' l' else None
  | String _ _, [] => None
  end.

Definition hex_value (c : ascii) : option nat :=
  let n := nat_of_ascii c in
  if ((48 <=? n) && (n <=? 57))%nat then Some (n - 48)%nat
  else if ((65 <=? n) && (n <=? 70))%nat then Some (n - 55)%nat
  else if ((97 <=? n) && (n <=? 102))%nat then Some (n - 87)%nat
  else None.

(** The character of [\uXXXX]. *)
Definition unicode_char (a b c d : ascii) : option ascii :=
  x ← hex_value a; y ← hex_value b; z ← hex_value c; t ← hex_value d;
  let n := ((x * 16 + y) * 256 + (z * 16 + t))%nat in
  Some (if (n <? 256)%nat then ascii_of_nat n else "?"%char).

Definition escape_char (c : ascii) : option ascii :=
  let n := nat_of_ascii c in
  if ((n =? 34) || (n =? 92) || (n =? 47))%nat then Some c
  else if (n =? 98)%nat then Some (ascii_of_nat 8)
  else if (n =? 102)%nat then Some (ascii_of_nat 12)
  else if (n =? 110)%nat then Some (ascii_of_nat 10)
  else if (n =? 114)%nat then Some (ascii_of_nat 13)
  else if (n =? 116)%nat then Some (ascii_of_nat 9)
  else None.

(** The characters of a string up to its closing quote. *)
Fixpoint read_string (l : list ascii) : option (string * list ascii) :=
  match l with
  | [] => None
  | c :: l1 =>
      let n := nat_of_ascii c in
      if (n =? 34)%nat then Some ("", l1)
      else if (n <? 32)%nat then None
      else if (n =? 92)%nat then
        match l1 with
        | u :: l2 =>
            if (nat_of_ascii u =? 117)%nat then
              match l2 with
              | a :: b :: c' :: d :: l3 =>
                  x ← unicode_char a b c' d; '(s, rest) ← read_string l3; Some (String x s, rest)
              | _ => None
              end
            else x ← escape_char u; '(s, rest) ← read_string l2; Some (String x s, rest)
        | [] => None
        end
      else '(s, rest) ← read_string l1; Some (String c s, rest)
  end.

Definition is_digit (c : ascii) : bool := opt_some (digit_value c).

Fixpoint take_digits (l : list ascii) : list ascii * list ascii :=
  match l with
  | c :: l' => if is_digit c then let '(ds, rest) := take_digits l' in (c :: ds, rest) else ([], l)
  | [] => ([], [])
  end.

Definition digits_value (ds : list ascii) : Z :=
  fold_left (fun acc c => acc * 10 + default 0 (digit_value c)) ds 0.

(** An exponent: [e], an optional sign and at least one digit. *)
Definition take_exponent (l : list ascii) : list ascii * list ascii :=
  match l with
  | e :: l1 =>
      if Ascii.eqb e "e" || Ascii.eqb e "E" then
        let '(sign, l2) := match l1 with
                           | s :: l2 => if Ascii.eqb s "+" || Ascii.eqb s "-" then ([s], l2) else ([], l1)
                           | [] => ([], l1)
                           end in
        match take_digits l2 with
        | ([], _) => ([], l)
        | (ds, rest) => (e :: sign ++ ds, rest)
        end
      else ([], l)
  | [] => ([], [])
  end.

Definition take_fraction (l : list ascii) : list ascii * list ascii :=
  match l with
  | p :: l1 =>
      if Ascii.eqb p "." then
        match take_digits l1 with
        | ([], _) => ([], l)
        | (ds, rest) => (p :: ds, rest)
        end
      else ([], l)
  | [] => ([], [])
  end.

Section Reader.
Variable float_of_text : string -> spec_float.

(** An optional minus, no superfluous leading zero, an optional fraction and
    exponent. *)
Definition read_number (l : list ascii) : option (pyval * list ascii) :=
  let '(neg, l1) := match l with
                    | c :: l' => if Ascii.eqb c "-" then (true, l') else (false, l)
                    | [] => (false, l)
                    end in
  let '(ds, rest) := match l1 with
                     | c :: l' => if Ascii.eqb c "0" then ([c], l') else take_digits l1
                     | [] => ([], l1)
                     end in
  match ds with
  | [] => None
  | _ =>
      let '(fraction, rest) := take_fraction rest in
      let '(exponent, rest) := take_exponent rest in
      match fraction ++ exponent with
      | [] => Some (PInt (if neg then - digits_value ds else digits_value ds), rest)
      | tail => Some (PFloat (float_of_text
                   (string_of_list_ascii ((if neg then ["-"%char] else []) ++ ds ++ tail))), rest)
      end
  end.

Definition read_constant (l : list ascii) : option (pyval * list ascii) :=
  match after_text "null" l with Some r => Some (PNone, r) | None =>
  match after_text "true" l with Some r => Some (PBool true, r) | None =>
  match after_text "false" l with Some r => Some (PBool false, r) | None =>
  match after_text "NaN" l with Some r => Some (PFloat S754_nan, r) | None =>
  match after_text "Infinity" l with Some r => Some (PFloat (S754_infinity false), r) | None =>
  match after_text "-Infinity" l with Some r => Some (PFloat (S754_infinity true), r) | None =>
  None end end end end end end.

(** A value; the members of an object after its brace or comma; the elements of
    a list after its bracket or comma. *)
Fixpoint read_value (fuel : nat) (l : list ascii) : option (pyval * list ascii) :=
  match fuel with
  | O => None
  | S fuel' =>
      match l with
      | [] => None
      | c :: l1 =>
          let n := nat_of_ascii c in
          if (n =? 34)%nat then '(s, rest) ← read_string l1; Some (PStr s, rest)
          else if (n =? 123)%nat then
            let l2 := skip_space l1 in
            match after_text "}" l2 with
            | Some rest => Some (PDict [], rest)
            | None => '(d, rest) ← read_members fuel' [] l2; Some (PDict d, rest)
            end
          else if (n =? 91)%nat then
            let l2 := skip_space l1 in
            match after_text "]" l2 with
            | Some rest => Some (PList [], rest)
            | None => '(vs, rest) ← read_elements fuel' l2; Some (PList vs, rest)
            end
          else match read_constant l with
               | Some r => Some r
               | None => read_number l
               end
      end
  end
with read_members (fuel : nat) (acc : dict pyval) (l : list ascii) : option (dict pyval * list ascii) :=
  match fuel with
  | O => None
  | S fuel' =>
      l ← after_text dquote l;
      '(k, l) ← read_string l;
      l ← after_text ":" (skip_space l);
      '(v, l) ← read_value fuel' (skip_space l);
      let acc := dset k v acc in
      let l := skip_space l in
      match after_text "}" l with
      | Some rest => Some (acc, rest)
      | None => l ← after_text "," l; read_members fuel' acc (skip_space l)
      end
  end
with read_elements (fuel : nat) (l : list ascii) : option (list pyval * list ascii) :=
  match fuel with
  | O => None
  | S fuel' =>
      '(v, l) ← read_value fuel' l;
      let l := skip_space l in
      match after_text "]" l with
      | Some rest => Some ([v], rest)
      | None =>
          l ← after_text "," l;
          '(vs, rest) ← read_elements fuel' (skip_space l);
          Some (v :: vs, rest)
      end
  end.

(** [json.loads(s)]; a nested call starts after at least one more character
    for every second unit of fuel. *)
Definition json_loads (s : string) : option pyval :=
  let l := skip_space (list_ascii_of_string s) in
  '(v, rest) ← read_value (2 * List.length l + 2) l;
  match skip_space rest with [] => Some v | _ => None end.
End Reader.
