(* ===== verification/Floats.v ===== *)
(** * Python numbers

    A [float] is an IEEE-754 double: the operations of [SpecFloat] at precision
    53 and exponent 1024, which round to nearest even.  Here are the conversions
    that the code applies: [float] of an integer, a text or a value, [int] of a
    float, a text or a value, true division of integers, and
    [timedelta(seconds=...)], which rounds a number of seconds to microseconds. *)

From Corelib Require Import SpecFloat.
From S2P Require Export Json.

Definition fadd : spec_float -> spec_float -> spec_float := SFadd 53 1024.
Definition fsub : spec_float -> spec_float -> spec_float := SFsub 53 1024.
Definition fmul : spec_float -> spec_float -> spec_float := SFmul 53 1024.
Definition fdiv : spec_float -> spec_float -> spec_float := SFdiv 53 1024.

(** [max(a, b)] and [min(a, b)]: the first of two equal arguments. *)
Definition fmax (a b : spec_float) : spec_float := if SFltb a b then b else a.
Definition fmin (a b : spec_float) : spec_float := if SFltb b a then b else a.

(** The double nearest to an integer. *)
Definition float_of_Z (n : Z) : spec_float := binary_normalize 53 1024 n 0 false.

(** The double nearest to [n / d] for [d > 0]: the quotient to 64 bits, with a
    last bit that records whether there is a remainder. *)
Definition float_ratio (neg : bool) (n d : Z) : spec_float :=
  if n =? 0 then S754_zero neg
  else
    let k := 64 + Z.log2 d - Z.log2 n in
    let num := Z.shiftl n (Z.max k 0) in
    let den := Z.shiftl d (Z.max (- k) 0) in
    let sticky := if num mod den =? 0 then 0 else 1 in
    match 2 * (num / den) + sticky with
    | Zpos m => binary_round 53 1024 neg m (- k - 1)
    | _ => S754_zero neg
    end.

(** The double nearest to [m * 10 ^ e]. *)
Definition float_of_decimal (neg : bool) (m e : Z) : spec_float :=
  if 0 <=? e then float_ratio neg (m * 10 ^ e) 1 else float_ratio neg m (10 ^ (- e)).

(** ** [float(text)] *)

(** The value of an exponent as [take_exponent] reads it. *)
Definition exponent_value (l : list ascii) : Z :=
  match l with
  | _ :: s :: ds =>
      if Ascii.eqb s "-" then - digits_value ds
      else if Ascii.eqb s "+" then digits_value ds else digits_value (s :: ds)
  | _ => 0
  end.

(** Digits, an optional fraction and an optional exponent, to the end. *)
Definition read_decimal (neg : bool) (l : list ascii) : option spec_float :=
  let '(ds, rest) := take_digits l in
  let '(fs, rest) := match rest with
                     | c :: rest' => if Ascii.eqb c "." then take_digits rest' else ([], rest)
                     | [] => ([], rest)
                     end in
  let '(exponent, rest) := take_exponent rest in
  match ds ++ fs, rest with
  | _ :: _, [] => Some (float_of_decimal neg (digits_value (ds ++ fs))
                          (exponent_value exponent - Z.of_nat (List.length fs)))
  | _, _ => None
  end.

(** Underscores stand between digits only; [None] is a misplaced one. *)
Fixpoint drop_underscores (after_digit : bool) (l : list ascii) : option (list ascii) :=
  match l with
  | [] => Some []
  | c :: l' =>
      if Ascii.eqb c "_" then
        match l' with
        | d :: _ => if after_digit && is_digit d then drop_underscores false l' else None
        | [] => None
        end
      else rest ← drop_underscores (is_digit c) l'; Some (c :: rest)
  end.

(** [None] is a [ValueError]. *)
Definition float_of_text (s : string) : option spec_float :=
  l ← drop_underscores false (list_ascii_of_string (py_strip s));
  let '(neg, l) := match l with
                   | c :: l' => if Ascii.eqb c "-" then (true, l')
                                else if Ascii.eqb c "+" then (false, l') else (false, l)
                   | [] => (false, l)
                   end in
  let word := py_lower (string_of_list_ascii l) in
  if mem_str word ["inf"; "infinity"] then Some (S754_infinity neg)
  else if String.eqb word "nan" then Some S754_nan
  else read_decimal neg l.

(** The text of a JSON number is always the text of a float. *)
Definition float_of_number_text (s : string) : spec_float := default S754_nan (float_of_text s).

(** ** [float(value)] and [int(value)] *)

Inductive float_parse := FloatValue (f : spec_float) | FloatInvalid | FloatOverflow.

Definition checked_float (f : spec_float) : float_parse :=
  match f with S754_infinity _ => FloatOverflow | _ => FloatValue f end.

(** [ValueError] and [TypeError] are [FloatInvalid]. *)
Definition py_float (v : pyval) : float_parse :=
  match v with
  | PBool b => FloatValue (float_of_Z (if b then 1 else 0))
  | PInt n => checked_float (float_of_Z n)
  | PFloat f => FloatValue f
  | PStr s => match float_of_text s with Some f => FloatValue f | None => FloatInvalid end
  | PNone | PList _ | PDict _ => FloatInvalid
  end.

Inductive int_parse := IntValue (n : Z) | IntInvalid | IntOverflow.

(** Truncation toward zero of a finite double. *)
Definition float_trunc (f : spec_float) : int_parse :=
  match f with
  | S754_zero _ => IntValue 0
  | S754_infinity _ => IntOverflow
  | S754_nan => IntInvalid
  | S754_finite s m e =>
      let a := if 0 <=? e then Zpos m * 2 ^ e else Zpos m / 2 ^ (- e) in
      IntValue (if s then - a else a)
  end.

(** ** [int(value)] *)

(** Digits with single underscores between them. *)
Fixpoint read_int_digits (acc : Z) (after_digit : bool) (l : list ascii) : option Z :=
  match l with
  | [] => if after_digit then Some acc else None
  | c :: l' =>
      if Ascii.eqb c "_" then if after_digit then
        match l' with [] => None | _ => read_int_digits acc false l' end else None
      else match digit_value c with
           | Some v => read_int_digits (acc * 10 + v) true l'
           | None => None
           end
  end.

(** The text of an integer; more than 4300 digits are refused. *)
Definition int_of_text (s : string) : int_parse :=
  let l := list_ascii_of_string (py_strip s) in
  let '(neg, ds) := match l with
                    | c :: l' => if Ascii.eqb c "-" then (true, l')
                                 else if Ascii.eqb c "+" then (false, l') else (false, l)
                    | [] => (false, l)
                    end in
  if (4300 <? List.length (List.filter is_digit ds))%nat then IntInvalid else
  match read_int_digits 0 false ds with
  | Some n => IntValue (if neg then - n else n)
  | None => IntInvalid
  end.

(** [int(value)]: [ValueError] and [TypeError] are [IntInvalid]. *)
Definition py_int (v : pyval) : int_parse :=
  match v with
  | PBool b => IntValue (if b then 1 else 0)
  | PInt n => IntValue n
  | PFloat f => float_trunc f
  | PStr s => int_of_text s
  | PNone | PList _ | PDict _ => IntInvalid
  end.

(** ** [timedelta(seconds=f)] in microseconds *)

(** The integral part of a finite double, and the rest. *)
Definition float_modf (s : bool) (m : positive) (e : Z) : Z * spec_float :=
  if 0 <=? e then (cond_Zopp s (Zpos m * 2 ^ e), S754_zero s)
  else
    let whole := Zpos m / 2 ^ (- e) in
    (cond_Zopp s whole, binary_normalize 53 1024 (cond_Zopp s (Zpos m mod 2 ^ (- e))) e s).

(** [n + f] rounded half to even, for a finite [f]. *)
Definition round_half_even (n : Z) (f : spec_float) : Z :=
  match f with
  | S754_finite s m e =>
      if 0 <=? e then n + cond_Zopp s (Zpos m * 2 ^ e)
      else
        let d := 2 ^ (- e) in
        let v := n * d + cond_Zopp s (Zpos m) in
        let q := v / d in
        let r := v mod d in
        if (d <? 2 * r) || ((2 * r =? d) && Z.odd q) then q + 1 else q
  | _ => n
  end.

(** The largest number of days of a [timedelta], and of microseconds since the
    epoch of a [datetime] (the end of the year 9999). *)
Definition MAX_DELTA_DAYS : Z := 999999999.
Definition MAX_TIMESTAMP : Z := 253402300800 * us_per_second - 1.

Inductive delta_parse := DeltaValue (us : Z) | DeltaInvalid | DeltaOverflow.

Definition timedelta_seconds (f : spec_float) : delta_parse :=
  let bounded us := if Z.abs (us / us_per_day) <=? MAX_DELTA_DAYS then DeltaValue us else DeltaOverflow in
  match f with
  | S754_nan => DeltaInvalid
  | S754_infinity _ => DeltaOverflow
  | S754_zero _ => DeltaValue 0
  | S754_finite s m e =>
      let '(whole, fraction) := float_modf s m e in
      let base := whole * us_per_second in
      match fraction with
      | S754_finite _ _ _ =>
          match fmul (float_of_Z us_per_second) fraction with
          | S754_finite s' m' e' =>
              let '(whole', leftover) := float_modf s' m' e' in
              bounded (round_half_even (base + whole') leftover)
          | _ => bounded base
          end
      | _ => bounded base
      end
  end.

(** ** Integers below [2 ^ 53] are doubles *)

Lemma digits2_pos_size m : digits2_pos m = Pos.size m.
Proof. induction m; simpl; by rewrite ?IHm. Qed.

Lemma size_bounds m : 2 ^ (Zpos (Pos.size m) - 1) <= Zpos m < 2 ^ Zpos (Pos.size m).
Proof.
  split.
  - pose proof (Pos.size_le m) as Hle. apply Pos2Z.pos_le_pos in Hle.
    rewrite Pos2Z.inj_pow in Hle. rewrite (Pos2Z.inj_xO m) in Hle.
    rewrite Z.sub_1_r. pose proof (Z.pow_succ_r 2 (Z.pred (Zpos (Pos.size m)))) as Hs.
    rewrite Z.succ_pred in Hs. lia.
  - pose proof (Pos.size_gt m) as Hgt. apply Pos2Z.pos_lt_pos in Hgt. by rewrite Pos2Z.inj_pow in Hgt.
Qed.

Lemma iter_xO m n :
  Zpos (Pos.iter xO m n) = Zpos m * 2 ^ Zpos n
  /\ digits2_pos (Pos.iter xO m n) = (digits2_pos m + n)%positive.
Proof.
  induction n as [|n [IH1 IH2]] using Pos.peano_ind.
  - simpl. split; [lia|]. by rewrite Pos.add_1_r.
  - rewrite Pos.iter_succ. cbn [digits2_pos]. rewrite IH2. split; [|lia].
    rewrite (Pos2Z.inj_xO (Pos.iter xO m n)), IH1, Pos2Z.inj_succ, Z.pow_succ_r; lia.
Qed.

(** A mantissa of 53 bits with a small exponent is already rounded. *)
Lemma binary_round_aux_exact m e :
  digits2_pos m = 53%positive -> -1074 <= e <= 971 ->
  binary_round_aux 53 1024 false (Zpos m) e loc_Exact = S754_finite false m e.
Proof.
  intros Hm He. unfold binary_round_aux, shr_fexp. cbn [Zdigits2 shr_record_of_loc].
  assert (Hf : fexp 53 1024 (53 + e) - e = 0) by (unfold fexp, emin; lia).
  rewrite Hm, Hf. cbn [shr shr_m loc_of_shr_record round_nearest_even Zdigits2].
  rewrite Hm, Hf. cbn [shr shr_m]. by replace (e <=? 1024 - 53) with true by (symmetry; lia).
Qed.

Lemma float_of_Z_exact n : 0 < n < 2 ^ 53 ->
  exists m e, float_of_Z n = S754_finite false m e /\ -52 <= e <= 0 /\ Zpos m = n * 2 ^ (- e).
Proof.
  intros [Hpos Hlt]. destruct n as [|p|p]; [lia| |lia].
  assert (Hsize : Zpos (digits2_pos p) <= 53).
  { rewrite digits2_pos_size. destruct (size_bounds p) as [Hlo _].
    apply Z.nlt_ge. intros Hbig. assert (2 ^ 53 <= 2 ^ (Zpos (Pos.size p) - 1)) by (apply Z.pow_le_mono_r; lia).
    lia. }
  unfold float_of_Z. cbn [binary_normalize]. unfold binary_round, shl_align.
  replace (fexp 53 1024 (Zpos (digits2_pos p) + 0) - 0) with (Zpos (digits2_pos p) - 53)
    by (unfold fexp, emin; lia).
  replace (fexp 53 1024 (Zpos (digits2_pos p) + 0)) with (Zpos (digits2_pos p) - 53)
    by (unfold fexp, emin; lia).
  destruct (Zpos (digits2_pos p) - 53) as [|d|d] eqn:Hd; [|lia|].
  - rewrite binary_round_aux_exact by lia. exists p, 0. split; [done|]. split; [lia|]. simpl. lia.
  - destruct (iter_xO p d) as [Hv Hs]. rewrite binary_round_aux_exact by lia.
    exists (Pos.iter xO p d), (Zneg d). split; [done|]. split; [lia|]. by rewrite Hv.
Qed.

(** [int(float(n)) == n] *)
Lemma float_of_Z_trunc n : 0 <= n < 2 ^ 53 -> float_trunc (float_of_Z n) = IntValue n.
Proof.
  intros Hn. destruct (decide (n = 0)) as [->|Hne]; [done|].
  destruct (float_of_Z_exact n) as (m & e & -> & He & Hm); [lia|]. cbn [float_trunc]. cbv zeta.
  destruct (0 <=? e) eqn:Hs.
  - assert (e = 0) as -> by lia. f_equal. rewrite Hm. simpl. lia.
  - rewrite Hm, Z.div_mul by (apply Z.pow_nonzero; lia). done.
Qed.

Lemma float_of_Z_finite n : 0 <= n < 2 ^ 53 -> checked_float (float_of_Z n) = FloatValue (float_of_Z n).
Proof.
  intros Hn. destruct (decide (n = 0)) as [->|Hne]; [done|].
  by destruct (float_of_Z_exact n) as (m & e & -> & _); [lia|].
Qed.
