(* ===== verification/Domain.v ===== *)
(** * Domain records

    The data of [app/domain] that the execution control plane works on:
    executions and their status, durable waits, execution events, approval
    rows and the native engine's per-execution state.  Field names carry a
    prefix for the class ([ex_], [wt_], [ev_], [ar_], [st_]); the setters model
    attribute assignment. *)

From S2P Require Export PyVal.

(** ** Executions ([app/domain/executions.py]) *)

(** [ExecutionStatus] *)
Inductive ExecutionStatus : Type :=
  | CREATED | QUEUED | RUNNING | WAITING_FOR_INPUT | WAITING_FOR_APPROVAL | WAITING_FOR_EVENT |
  SLEEPING | PAUSED | CANCELLING | COMPLETED | FAILED | CANCELLED.

#[export] Instance ExecutionStatus_eq_dec : EqDecision ExecutionStatus.
Proof. solve_decision. Defined.

(** The string value of the member ([.value]). *)
Definition status_value (v : ExecutionStatus) : string :=
  match v with
  | CREATED => "created"
  | QUEUED => "queued"
  | RUNNING => "running"
  | WAITING_FOR_INPUT => "waiting_for_input"
  | WAITING_FOR_APPROVAL => "waiting_for_approval"
  | WAITING_FOR_EVENT => "waiting_for_event"
  | SLEEPING => "sleeping"
  | PAUSED => "paused"
  | CANCELLING => "cancelling"
  | COMPLETED => "completed"
  | FAILED => "failed"
  | CANCELLED => "cancelled"
  end.

(** [Execution] *)
Record Execution := mkExecution {
  ex_id : string;
  ex_workflow_id : string;
  ex_goal_id : option string;
  ex_workflow_version_id : option string;
  ex_runtime_adapter_id : string;
  ex_runtime_revision_id : option string;
  ex_runtime_fingerprint : option string;
  ex_status : ExecutionStatus;
  ex_trigger_type : string;
  ex_trigger_payload : dict pyval;
  ex_input_payload : dict pyval;
  ex_output_payload : option (dict pyval);
  ex_error : option string;
  ex_created_at : Z;
  ex_started_at : option Z;
  ex_completed_at : option Z;
  ex_updated_at : Z;
  ex_created_by : option string;
  ex_worker_id : option string;
  ex_last_heartbeat_at : option Z;
  ex_container_id : option string;
  ex_container_name : option string;
  ex_container_image : option string;
  ex_container_status : option string;
  ex_container_started_at : option Z;
  ex_container_ended_at : option Z;
  ex_container_exit_code : option Z;
  ex_replacement_of_execution_id : option string;
  ex_restart_reason : option string;
  ex_metadata : dict pyval
}.

Definition set_ex_status (v : ExecutionStatus) (r : Execution) : Execution :=
  {| ex_id := ex_id r; ex_workflow_id := ex_workflow_id r; ex_goal_id := ex_goal_id r;
     ex_workflow_version_id := ex_workflow_version_id r; ex_runtime_adapter_id := ex_runtime_adapter_id r;
     ex_runtime_revision_id := ex_runtime_revision_id r; ex_runtime_fingerprint := ex_runtime_fingerprint r;
     ex_status := v; ex_trigger_type := ex_trigger_type r; ex_trigger_payload := ex_trigger_payload r;
     ex_input_payload := ex_input_payload r; ex_output_payload := ex_output_payload r; ex_error := ex_error
     r; ex_created_at := ex_created_at r; ex_started_at := ex_started_at r; ex_completed_at :=
     ex_completed_at r; ex_updated_at := ex_updated_at r; ex_created_by := ex_created_by r; ex_worker_id :=
     ex_worker_id r; ex_last_heartbeat_at := ex_last_heartbeat_at r; ex_container_id := ex_container_id r;
     ex_container_name := ex_container_name r; ex_container_image := ex_container_image r;
     ex_container_status := ex_container_status r; ex_container_started_at := ex_container_started_at r;
     ex_container_ended_at := ex_container_ended_at r; ex_container_exit_code := ex_container_exit_code r;
     ex_replacement_of_execution_id := ex_replacement_of_execution_id r; ex_restart_reason :=
     ex_restart_reason r; ex_metadata := ex_metadata r |}.
Definition set_ex_input_payload (v : dict pyval) (r : Execution) : Execution :=
  {| ex_id := ex_id r; ex_workflow_id := ex_workflow_id r; ex_goal_id := ex_goal_id r;
     ex_workflow_version_id := ex_workflow_version_id r; ex_runtime_adapter_id := ex_runtime_adapter_id r;
     ex_runtime_revision_id := ex_runtime_revision_id r; ex_runtime_fingerprint := ex_runtime_fingerprint r;
     ex_status := ex_status r; ex_trigger_type := ex_trigger_type r; ex_trigger_payload :=
     ex_trigger_payload r; ex_input_payload := v; ex_output_payload := ex_output_payload r; ex_error :=
     ex_error r; ex_created_at := ex_created_at r; ex_started_at := ex_started_at r; ex_completed_at :=
     ex_completed_at r; ex_updated_at := ex_updated_at r; ex_created_by := ex_created_by r; ex_worker_id :=
     ex_worker_id r; ex_last_heartbeat_at := ex_last_heartbeat_at r; ex_container_id := ex_container_id r;
     ex_container_name := ex_container_name r; ex_container_image := ex_container_image r;
     ex_container_status := ex_container_status r; ex_container_started_at := ex_container_started_at r;
     ex_container_ended_at := ex_container_ended_at r; ex_container_exit_code := ex_container_exit_code r;
     ex_replacement_of_execution_id := ex_replacement_of_execution_id r; ex_restart_reason :=
     ex_restart_reason r; ex_metadata := ex_metadata r |}.
Definition set_ex_output_payload (v : option (dict pyval)) (r : Execution) : Execution :=
  {| ex_id := ex_id r; ex_workflow_id := ex_workflow_id r; ex_goal_id := ex_goal_id r;
     ex_workflow_version_id := ex_workflow_version_id r; ex_runtime_adapter_id := ex_runtime_adapter_id r;
     ex_runtime_revision_id := ex_runtime_revision_id r; ex_runtime_fingerprint := ex_runtime_fingerprint r;
     ex_status := ex_status r; ex_trigger_type := ex_trigger_type r; ex_trigger_payload :=
     ex_trigger_payload r; ex_input_payload := ex_input_payload r; ex_output_payload := v; ex_error :=
     ex_error r; ex_created_at := ex_created_at r; ex_started_at := ex_started_at r; ex_completed_at :=
     ex_completed_at r; ex_updated_at := ex_updated_at r; ex_created_by := ex_created_by r; ex_worker_id :=
     ex_worker_id r; ex_last_heartbeat_at := ex_last_heartbeat_at r; ex_container_id := ex_container_id r;
     ex_container_name := ex_container_name r; ex_container_image := ex_container_image r;
     ex_container_status := ex_container_status r; ex_container_started_at := ex_container_started_at r;
     ex_container_ended_at := ex_container_ended_at r; ex_container_exit_code := ex_container_exit_code r;
     ex_replacement_of_execution_id := ex_replacement_of_execution_id r; ex_restart_reason :=
     ex_restart_reason r; ex_metadata := ex_metadata r |}.
Definition set_ex_error (v : option string) (r : Execution) : Execution :=
  {| ex_id := ex_id r; ex_workflow_id := ex_workflow_id r; ex_goal_id := ex_goal_id r;
     ex_workflow_version_id := ex_workflow_version_id r; ex_runtime_adapter_id := ex_runtime_adapter_id r;
     ex_runtime_revision_id := ex_runtime_revision_id r; ex_runtime_fingerprint := ex_runtime_fingerprint r;
     ex_status := ex_status r; ex_trigger_type := ex_trigger_type r; ex_trigger_payload :=
     ex_trigger_payload r; ex_input_payload := ex_input_payload r; ex_output_payload := ex_output_payload r;
     ex_error := v; ex_created_at := ex_created_at r; ex_started_at := ex_started_at r; ex_completed_at :=
     ex_completed_at r; ex_updated_at := ex_updated_at r; ex_created_by := ex_created_by r; ex_worker_id :=
     ex_worker_id r; ex_last_heartbeat_at := ex_last_heartbeat_at r; ex_container_id := ex_container_id r;
     ex_container_name := ex_container_name r; ex_container_image := ex_container_image r;
     ex_container_status := ex_container_status r; ex_container_started_at := ex_container_started_at r;
     ex_container_ended_at := ex_container_ended_at r; ex_container_exit_code := ex_container_exit_code r;
     ex_replacement_of_execution_id := ex_replacement_of_execution_id r; ex_restart_reason :=
     ex_restart_reason r; ex_metadata := ex_metadata r |}.
Definition set_ex_started_at (v : option Z) (r : Execution) : Execution :=
  {| ex_id := ex_id r; ex_workflow_id := ex_workflow_id r; ex_goal_id := ex_goal_id r;
     ex_workflow_version_id := ex_workflow_version_id r; ex_runtime_adapter_id := ex_runtime_adapter_id r;
     ex_runtime_revision_id := ex_runtime_revision_id r; ex_runtime_fingerprint := ex_runtime_fingerprint r;
     ex_status := ex_status r; ex_trigger_type := ex_trigger_type r; ex_trigger_payload :=
     ex_trigger_payload r; ex_input_payload := ex_input_payload r; ex_output_payload := ex_output_payload r;
     ex_error := ex_error r; ex_created_at := ex_created_at r; ex_started_at := v; ex_completed_at :=
     ex_completed_at r; ex_updated_at := ex_updated_at r; ex_created_by := ex_created_by r; ex_worker_id :=
     ex_worker_id r; ex_last_heartbeat_at := ex_last_heartbeat_at r; ex_container_id := ex_container_id r;
     ex_container_name := ex_container_name r; ex_container_image := ex_container_image r;
     ex_container_status := ex_container_status r; ex_container_started_at := ex_container_started_at r;
     ex_container_ended_at := ex_container_ended_at r; ex_container_exit_code := ex_container_exit_code r;
     ex_replacement_of_execution_id := ex_replacement_of_execution_id r; ex_restart_reason :=
     ex_restart_reason r; ex_metadata := ex_metadata r |}.
Definition set_ex_completed_at (v : option Z) (r : Execution) : Execution :=
  {| ex_id := ex_id r; ex_workflow_id := ex_workflow_id r; ex_goal_id := ex_goal_id r;
     ex_workflow_version_id := ex_workflow_version_id r; ex_runtime_adapter_id := ex_runtime_adapter_id r;
     ex_runtime_revision_id := ex_runtime_revision_id r; ex_runtime_fingerprint := ex_runtime_fingerprint r;
     ex_status := ex_status r; ex_trigger_type := ex_trigger_type r; ex_trigger_payload :=
     ex_trigger_payload r; ex_input_payload := ex_input_payload r; ex_output_payload := ex_output_payload r;
     ex_error := ex_error r; ex_created_at := ex_created_at r; ex_started_at := ex_started_at r;
     ex_completed_at := v; ex_updated_at := ex_updated_at r; ex_created_by := ex_created_by r; ex_worker_id
     := ex_worker_id r; ex_last_heartbeat_at := ex_last_heartbeat_at r; ex_container_id := ex_container_id
     r; ex_container_name := ex_container_name r; ex_container_image := ex_container_image r;
     ex_container_status := ex_container_status r; ex_container_started_at := ex_container_started_at r;
     ex_container_ended_at := ex_container_ended_at r; ex_container_exit_code := ex_container_exit_code r;
     ex_replacement_of_execution_id := ex_replacement_of_execution_id r; ex_restart_reason :=
     ex_restart_reason r; ex_metadata := ex_metadata r |}.
Definition set_ex_updated_at (v : Z) (r : Execution) : Execution :=
  {| ex_id := ex_id r; ex_workflow_id := ex_workflow_id r; ex_goal_id := ex_goal_id r;
     ex_workflow_version_id := ex_workflow_version_id r; ex_runtime_adapter_id := ex_runtime_adapter_id r;
     ex_runtime_revision_id := ex_runtime_revision_id r; ex_runtime_fingerprint := ex_runtime_fingerprint r;
     ex_status := ex_status r; ex_trigger_type := ex_trigger_type r; ex_trigger_payload :=
     ex_trigger_payload r; ex_input_payload := ex_input_payload r; ex_output_payload := ex_output_payload r;
     ex_error := ex_error r; ex_created_at := ex_created_at r; ex_started_at := ex_started_at r;
     ex_completed_at := ex_completed_at r; ex_updated_at := v; ex_created_by := ex_created_by r;
     ex_worker_id := ex_worker_id r; ex_last_heartbeat_at := ex_last_heartbeat_at r; ex_container_id :=
     ex_container_id r; ex_container_name := ex_container_name r; ex_container_image := ex_container_image
     r; ex_container_status := ex_container_status r; ex_container_started_at := ex_container_started_at r;
     ex_container_ended_at := ex_container_ended_at r; ex_container_exit_code := ex_container_exit_code r;
     ex_replacement_of_execution_id := ex_replacement_of_execution_id r; ex_restart_reason :=
     ex_restart_reason r; ex_metadata := ex_metadata r |}.
Definition set_ex_worker_id (v : option string) (r : Execution) : Execution :=
  {| ex_id := ex_id r; ex_workflow_id := ex_workflow_id r; ex_goal_id := ex_goal_id r;
     ex_workflow_version_id := ex_workflow_version_id r; ex_runtime_adapter_id := ex_runtime_adapter_id r;
     ex_runtime_revision_id := ex_runtime_revision_id r; ex_runtime_fingerprint := ex_runtime_fingerprint r;
     ex_status := ex_status r; ex_trigger_type := ex_trigger_type r; ex_trigger_payload :=
     ex_trigger_payload r; ex_input_payload := ex_input_payload r; ex_output_payload := ex_output_payload r;
     ex_error := ex_error r; ex_created_at := ex_created_at r; ex_started_at := ex_started_at r;
     ex_completed_at := ex_completed_at r; ex_updated_at := ex_updated_at r; ex_created_by := ex_created_by
     r; ex_worker_id := v; ex_last_heartbeat_at := ex_last_heartbeat_at r; ex_container_id :=
     ex_container_id r; ex_container_name := ex_container_name r; ex_container_image := ex_container_image
     r; ex_container_status := ex_container_status r; ex_container_started_at := ex_container_started_at r;
     ex_container_ended_at := ex_container_ended_at r; ex_container_exit_code := ex_container_exit_code r;
     ex_replacement_of_execution_id := ex_replacement_of_execution_id r; ex_restart_reason :=
     ex_restart_reason r; ex_metadata := ex_metadata r |}.
Definition set_ex_last_heartbeat_at (v : option Z) (r : Execution) : Execution :=
  {| ex_id := ex_id r; ex_workflow_id := ex_workflow_id r; ex_goal_id := ex_goal_id r;
     ex_workflow_version_id := ex_workflow_version_id r; ex_runtime_adapter_id := ex_runtime_adapter_id r;
     ex_runtime_revision_id := ex_runtime_revision_id r; ex_runtime_fingerprint := ex_runtime_fingerprint r;
     ex_status := ex_status r; ex_trigger_type := ex_trigger_type r; ex_trigger_payload :=
     ex_trigger_payload r; ex_input_payload := ex_input_payload r; ex_output_payload := ex_output_payload r;
     ex_error := ex_error r; ex_created_at := ex_created_at r; ex_started_at := ex_started_at r;
     ex_completed_at := ex_completed_at r; ex_updated_at := ex_updated_at r; ex_created_by := ex_created_by
     r; ex_worker_id := ex_worker_id r; ex_last_heartbeat_at := v; ex_container_id := ex_container_id r;
     ex_container_name := ex_container_name r; ex_container_image := ex_container_image r;
     ex_container_status := ex_container_status r; ex_container_started_at := ex_container_started_at r;
     ex_container_ended_at := ex_container_ended_at r; ex_container_exit_code := ex_container_exit_code r;
     ex_replacement_of_execution_id := ex_replacement_of_execution_id r; ex_restart_reason :=
     ex_restart_reason r; ex_metadata := ex_metadata r |}.
Definition set_ex_container_id (v : option string) (r : Execution) : Execution :=
  {| ex_id := ex_id r; ex_workflow_id := ex_workflow_id r; ex_goal_id := ex_goal_id r;
     ex_workflow_version_id := ex_workflow_version_id r; ex_runtime_adapter_id := ex_runtime_adapter_id r;
     ex_runtime_revision_id := ex_runtime_revision_id r; ex_runtime_fingerprint := ex_runtime_fingerprint r;
     ex_status := ex_status r; ex_trigger_type := ex_trigger_type r; ex_trigger_payload :=
     ex_trigger_payload r; ex_input_payload := ex_input_payload r; ex_output_payload := ex_output_payload r;
     ex_error := ex_error r; ex_created_at := ex_created_at r; ex_started_at := ex_started_at r;
     ex_completed_at := ex_completed_at r; ex_updated_at := ex_updated_at r; ex_created_by := ex_created_by
     r; ex_worker_id := ex_worker_id r; ex_last_heartbeat_at := ex_last_heartbeat_at r; ex_container_id :=
     v; ex_container_name := ex_container_name r; ex_container_image := ex_container_image r;
     ex_container_status := ex_container_status r; ex_container_started_at := ex_container_started_at r;
     ex_container_ended_at := ex_container_ended_at r; ex_container_exit_code := ex_container_exit_code r;
     ex_replacement_of_execution_id := ex_replacement_of_execution_id r; ex_restart_reason :=
     ex_restart_reason r; ex_metadata := ex_metadata r |}.
Definition set_ex_container_name (v : option string) (r : Execution) : Execution :=
  {| ex_id := ex_id r; ex_workflow_id := ex_workflow_id r; ex_goal_id := ex_goal_id r;
     ex_workflow_version_id := ex_workflow_version_id r; ex_runtime_adapter_id := ex_runtime_adapter_id r;
     ex_runtime_revision_id := ex_runtime_revision_id r; ex_runtime_fingerprint := ex_runtime_fingerprint r;
     ex_status := ex_status r; ex_trigger_type := ex_trigger_type r; ex_trigger_payload :=
     ex_trigger_payload r; ex_input_payload := ex_input_payload r; ex_output_payload := ex_output_payload r;
     ex_error := ex_error r; ex_created_at := ex_created_at r; ex_started_at := ex_started_at r;
     ex_completed_at := ex_completed_at r; ex_updated_at := ex_updated_at r; ex_created_by := ex_created_by
     r; ex_worker_id := ex_worker_id r; ex_last_heartbeat_at := ex_last_heartbeat_at r; ex_container_id :=
     ex_container_id r; ex_container_name := v; ex_container_image := ex_container_image r;
     ex_container_status := ex_container_status r; ex_container_started_at := ex_container_started_at r;
     ex_container_ended_at := ex_container_ended_at r; ex_container_exit_code := ex_container_exit_code r;
     ex_replacement_of_execution_id := ex_replacement_of_execution_id r; ex_restart_reason :=
     ex_restart_reason r; ex_metadata := ex_metadata r |}.
Definition set_ex_container_image (v : option string) (r : Execution) : Execution :=
  {| ex_id := ex_id r; ex_workflow_id := ex_workflow_id r; ex_goal_id := ex_goal_id r;
     ex_workflow_version_id := ex_workflow_version_id r; ex_runtime_adapter_id := ex_runtime_adapter_id
     r; ex_runtime_revision_id := ex_runtime_revision_id r; ex_runtime_fingerprint :=
     ex_runtime_fingerprint r; ex_status := ex_status r; ex_trigger_type := ex_trigger_type r;
     ex_trigger_payload := ex_trigger_payload r; ex_input_payload := ex_input_payload r;
     ex_output_payload := ex_output_payload r; ex_error := ex_error r; ex_created_at := ex_created_at r;
     ex_started_at := ex_started_at r; ex_completed_at := ex_completed_at r; ex_updated_at :=
     ex_updated_at r; ex_created_by := ex_created_by r; ex_worker_id := ex_worker_id r;
     ex_last_heartbeat_at := ex_last_heartbeat_at r; ex_container_id := ex_container_id r;
     ex_container_name := ex_container_name r; ex_container_image := v; ex_container_status :=
     ex_container_status r; ex_container_started_at := ex_container_started_at r; ex_container_ended_at
     := ex_container_ended_at r; ex_container_exit_code := ex_container_exit_code r;
     ex_replacement_of_execution_id := ex_replacement_of_execution_id r; ex_restart_reason :=
     ex_restart_reason r; ex_metadata := ex_metadata r |}.
Definition set_ex_runtime_revision_id (v : option string) (r : Execution) : Execution :=
  {| ex_id := ex_id r; ex_workflow_id := ex_workflow_id r; ex_goal_id := ex_goal_id r;
     ex_workflow_version_id := ex_workflow_version_id r; ex_runtime_adapter_id := ex_runtime_adapter_id
     r; ex_runtime_revision_id := v; ex_runtime_fingerprint := ex_runtime_fingerprint r; ex_status :=
     ex_status r; ex_trigger_type := ex_trigger_type r; ex_trigger_payload := ex_trigger_payload r;
     ex_input_payload := ex_input_payload r; ex_output_payload := ex_output_payload r; ex_error :=
     ex_error r; ex_created_at := ex_created_at r; ex_started_at := ex_started_at r; ex_completed_at :=
     ex_completed_at r; ex_updated_at := ex_updated_at r; ex_created_by := ex_created_by r; ex_worker_id
     := ex_worker_id r; ex_last_heartbeat_at := ex_last_heartbeat_at r; ex_container_id :=
     ex_container_id r; ex_container_name := ex_container_name r; ex_container_image :=
     ex_container_image r; ex_container_status := ex_container_status r; ex_container_started_at :=
     ex_container_started_at r; ex_container_ended_at := ex_container_ended_at r; ex_container_exit_code
     := ex_container_exit_code r; ex_replacement_of_execution_id := ex_replacement_of_execution_id r;
     ex_restart_reason := ex_restart_reason r; ex_metadata := ex_metadata r |}.
Definition set_ex_runtime_fingerprint (v : option string) (r : Execution) : Execution :=
  {| ex_id := ex_id r; ex_workflow_id := ex_workflow_id r; ex_goal_id := ex_goal_id r;
     ex_workflow_version_id := ex_workflow_version_id r; ex_runtime_adapter_id := ex_runtime_adapter_id
     r; ex_runtime_revision_id := ex_runtime_revision_id r; ex_runtime_fingerprint := v; ex_status :=
     ex_status r; ex_trigger_type := ex_trigger_type r; ex_trigger_payload := ex_trigger_payload r;
     ex_input_payload := ex_input_payload r; ex_output_payload := ex_output_payload r; ex_error :=
     ex_error r; ex_created_at := ex_created_at r; ex_started_at := ex_started_at r; ex_completed_at :=
     ex_completed_at r; ex_updated_at := ex_updated_at r; ex_created_by := ex_created_by r; ex_worker_id
     := ex_worker_id r; ex_last_heartbeat_at := ex_last_heartbeat_at r; ex_container_id :=
     ex_container_id r; ex_container_name := ex_container_name r; ex_container_image :=
     ex_container_image r; ex_container_status := ex_container_status r; ex_container_started_at :=
     ex_container_started_at r; ex_container_ended_at := ex_container_ended_at r; ex_container_exit_code
     := ex_container_exit_code r; ex_replacement_of_execution_id := ex_replacement_of_execution_id r;
     ex_restart_reason := ex_restart_reason r; ex_metadata := ex_metadata r |}.
Definition set_ex_trigger_payload (v : dict pyval) (r : Execution) : Execution :=
  {| ex_id := ex_id r; ex_workflow_id := ex_workflow_id r; ex_goal_id := ex_goal_id r;
     ex_workflow_version_id := ex_workflow_version_id r; ex_runtime_adapter_id := ex_runtime_adapter_id
     r; ex_runtime_revision_id := ex_runtime_revision_id r; ex_runtime_fingerprint :=
     ex_runtime_fingerprint r; ex_status := ex_status r; ex_trigger_type := ex_trigger_type r;
     ex_trigger_payload := v; ex_input_payload := ex_input_payload r; ex_output_payload :=
     ex_output_payload r; ex_error := ex_error r; ex_created_at := ex_created_at r; ex_started_at :=
     ex_started_at r; ex_completed_at := ex_completed_at r; ex_updated_at := ex_updated_at r;
     ex_created_by := ex_created_by r; ex_worker_id := ex_worker_id r; ex_last_heartbeat_at :=
     ex_last_heartbeat_at r; ex_container_id := ex_container_id r; ex_container_name :=
     ex_container_name r; ex_container_image := ex_container_image r; ex_container_status :=
     ex_container_status r; ex_container_started_at := ex_container_started_at r; ex_container_ended_at
     := ex_container_ended_at r; ex_container_exit_code := ex_container_exit_code r;
     ex_replacement_of_execution_id := ex_replacement_of_execution_id r; ex_restart_reason :=
     ex_restart_reason r; ex_metadata := ex_metadata r |}.
Definition set_ex_container_status (v : option string) (r : Execution) : Execution :=
  {| ex_id := ex_id r; ex_workflow_id := ex_workflow_id r; ex_goal_id := ex_goal_id r;
     ex_workflow_version_id := ex_workflow_version_id r; ex_runtime_adapter_id := ex_runtime_adapter_id r;
     ex_runtime_revision_id := ex_runtime_revision_id r; ex_runtime_fingerprint := ex_runtime_fingerprint r;
     ex_status := ex_status r; ex_trigger_type := ex_trigger_type r; ex_trigger_payload :=
     ex_trigger_payload r; ex_input_payload := ex_input_payload r; ex_output_payload := ex_output_payload r;
     ex_error := ex_error r; ex_created_at := ex_created_at r; ex_started_at := ex_started_at r;
     ex_completed_at := ex_completed_at r; ex_updated_at := ex_updated_at r; ex_created_by := ex_created_by
     r; ex_worker_id := ex_worker_id r; ex_last_heartbeat_at := ex_last_heartbeat_at r; ex_container_id :=
     ex_container_id r; ex_container_name := ex_container_name r; ex_container_image := ex_container_image
     r; ex_container_status := v; ex_container_started_at := ex_container_started_at r;
     ex_container_ended_at := ex_container_ended_at r; ex_container_exit_code := ex_container_exit_code r;
     ex_replacement_of_execution_id := ex_replacement_of_execution_id r; ex_restart_reason :=
     ex_restart_reason r; ex_metadata := ex_metadata r |}.
Definition set_ex_container_started_at (v : option Z) (r : Execution) : Execution :=
  {| ex_id := ex_id r; ex_workflow_id := ex_workflow_id r; ex_goal_id := ex_goal_id r;
     ex_workflow_version_id := ex_workflow_version_id r; ex_runtime_adapter_id := ex_runtime_adapter_id r;
     ex_runtime_revision_id := ex_runtime_revision_id r; ex_runtime_fingerprint := ex_runtime_fingerprint r;
     ex_status := ex_status r; ex_trigger_type := ex_trigger_type r; ex_trigger_payload :=
     ex_trigger_payload r; ex_input_payload := ex_input_payload r; ex_output_payload := ex_output_payload r;
     ex_error := ex_error r; ex_created_at := ex_created_at r; ex_started_at := ex_started_at r;
     ex_completed_at := ex_completed_at r; ex_updated_at := ex_updated_at r; ex_created_by := ex_created_by
     r; ex_worker_id := ex_worker_id r; ex_last_heartbeat_at := ex_last_heartbeat_at r; ex_container_id :=
     ex_container_id r; ex_container_name := ex_container_name r; ex_container_image := ex_container_image
     r; ex_container_status := ex_container_status r; ex_container_started_at := v; ex_container_ended_at :=
     ex_container_ended_at r; ex_container_exit_code := ex_container_exit_code r;
     ex_replacement_of_execution_id := ex_replacement_of_execution_id r; ex_restart_reason :=
     ex_restart_reason r; ex_metadata := ex_metadata r |}.
Definition set_ex_container_ended_at (v : option Z) (r : Execution) : Execution :=
  {| ex_id := ex_id r; ex_workflow_id := ex_workflow_id r; ex_goal_id := ex_goal_id r;
     ex_workflow_version_id := ex_workflow_version_id r; ex_runtime_adapter_id := ex_runtime_adapter_id r;
     ex_runtime_revision_id := ex_runtime_revision_id r; ex_runtime_fingerprint := ex_runtime_fingerprint r;
     ex_status := ex_status r; ex_trigger_type := ex_trigger_type r; ex_trigger_payload :=
     ex_trigger_payload r; ex_input_payload := ex_input_payload r; ex_output_payload := ex_output_payload r;
     ex_error := ex_error r; ex_created_at := ex_created_at r; ex_started_at := ex_started_at r;
     ex_completed_at := ex_completed_at r; ex_updated_at := ex_updated_at r; ex_created_by := ex_created_by
     r; ex_worker_id := ex_worker_id r; ex_last_heartbeat_at := ex_last_heartbeat_at r; ex_container_id :=
     ex_container_id r; ex_container_name := ex_container_name r; ex_container_image := ex_container_image
     r; ex_container_status := ex_container_status r; ex_container_started_at := ex_container_started_at r;
     ex_container_ended_at := v; ex_container_exit_code := ex_container_exit_code r;
     ex_replacement_of_execution_id := ex_replacement_of_execution_id r; ex_restart_reason :=
     ex_restart_reason r; ex_metadata := ex_metadata r |}.
Definition set_ex_container_exit_code (v : option Z) (r : Execution) : Execution :=
  {| ex_id := ex_id r; ex_workflow_id := ex_workflow_id r; ex_goal_id := ex_goal_id r;
     ex_workflow_version_id := ex_workflow_version_id r; ex_runtime_adapter_id := ex_runtime_adapter_id r;
     ex_runtime_revision_id := ex_runtime_revision_id r; ex_runtime_fingerprint := ex_runtime_fingerprint r;
     ex_status := ex_status r; ex_trigger_type := ex_trigger_type r; ex_trigger_payload :=
     ex_trigger_payload r; ex_input_payload := ex_input_payload r; ex_output_payload := ex_output_payload r;
     ex_error := ex_error r; ex_created_at := ex_created_at r; ex_started_at := ex_started_at r;
     ex_completed_at := ex_completed_at r; ex_updated_at := ex_updated_at r; ex_created_by := ex_created_by
     r; ex_worker_id := ex_worker_id r; ex_last_heartbeat_at := ex_last_heartbeat_at r; ex_container_id :=
     ex_container_id r; ex_container_name := ex_container_name r; ex_container_image := ex_container_image
     r; ex_container_status := ex_container_status r; ex_container_started_at := ex_container_started_at r;
     ex_container_ended_at := ex_container_ended_at r; ex_container_exit_code := v;
     ex_replacement_of_execution_id := ex_replacement_of_execution_id r; ex_restart_reason :=
     ex_restart_reason r; ex_metadata := ex_metadata r |}.
Definition set_ex_replacement_of_execution_id (v : option string) (r : Execution) : Execution :=
  {| ex_id := ex_id r; ex_workflow_id := ex_workflow_id r; ex_goal_id := ex_goal_id r;
     ex_workflow_version_id := ex_workflow_version_id r; ex_runtime_adapter_id := ex_runtime_adapter_id r;
     ex_runtime_revision_id := ex_runtime_revision_id r; ex_runtime_fingerprint := ex_runtime_fingerprint r;
     ex_status := ex_status r; ex_trigger_type := ex_trigger_type r; ex_trigger_payload :=
     ex_trigger_payload r; ex_input_payload := ex_input_payload r; ex_output_payload := ex_output_payload r;
     ex_error := ex_error r; ex_created_at := ex_created_at r; ex_started_at := ex_started_at r;
     ex_completed_at := ex_completed_at r; ex_updated_at := ex_updated_at r; ex_created_by := ex_created_by
     r; ex_worker_id := ex_worker_id r; ex_last_heartbeat_at := ex_last_heartbeat_at r; ex_container_id :=
     ex_container_id r; ex_container_name := ex_container_name r; ex_container_image := ex_container_image
     r; ex_container_status := ex_container_status r; ex_container_started_at := ex_container_started_at r;
     ex_container_ended_at := ex_container_ended_at r; ex_container_exit_code := ex_container_exit_code r;
     ex_replacement_of_execution_id := v; ex_restart_reason := ex_restart_reason r; ex_metadata :=
     ex_metadata r |}.
Definition set_ex_restart_reason (v : option string) (r : Execution) : Execution :=
  {| ex_id := ex_id r; ex_workflow_id := ex_workflow_id r; ex_goal_id := ex_goal_id r;
     ex_workflow_version_id := ex_workflow_version_id r; ex_runtime_adapter_id := ex_runtime_adapter_id r;
     ex_runtime_revision_id := ex_runtime_revision_id r; ex_runtime_fingerprint := ex_runtime_fingerprint r;
     ex_status := ex_status r; ex_trigger_type := ex_trigger_type r; ex_trigger_payload :=
     ex_trigger_payload r; ex_input_payload := ex_input_payload r; ex_output_payload := ex_output_payload r;
     ex_error := ex_error r; ex_created_at := ex_created_at r; ex_started_at := ex_started_at r;
     ex_completed_at := ex_completed_at r; ex_updated_at := ex_updated_at r; ex_created_by := ex_created_by
     r; ex_worker_id := ex_worker_id r; ex_last_heartbeat_at := ex_last_heartbeat_at r; ex_container_id :=
     ex_container_id r; ex_container_name := ex_container_name r; ex_container_image := ex_container_image
     r; ex_container_status := ex_container_status r; ex_container_started_at := ex_container_started_at r;
     ex_container_ended_at := ex_container_ended_at r; ex_container_exit_code := ex_container_exit_code r;
     ex_replacement_of_execution_id := ex_replacement_of_execution_id r; ex_restart_reason := v; ex_metadata
     := ex_metadata r |}.
Definition set_ex_metadata (v : dict pyval) (r : Execution) : Execution :=
  {| ex_id := ex_id r; ex_workflow_id := ex_workflow_id r; ex_goal_id := ex_goal_id r;
     ex_workflow_version_id := ex_workflow_version_id r; ex_runtime_adapter_id := ex_runtime_adapter_id r;
     ex_runtime_revision_id := ex_runtime_revision_id r; ex_runtime_fingerprint := ex_runtime_fingerprint r;
     ex_status := ex_status r; ex_trigger_type := ex_trigger_type r; ex_trigger_payload :=
     ex_trigger_payload r; ex_input_payload := ex_input_payload r; ex_output_payload := ex_output_payload r;
     ex_error := ex_error r; ex_created_at := ex_created_at r; ex_started_at := ex_started_at r;
     ex_completed_at := ex_completed_at r; ex_updated_at := ex_updated_at r; ex_created_by := ex_created_by
     r; ex_worker_id := ex_worker_id r; ex_last_heartbeat_at := ex_last_heartbeat_at r; ex_container_id :=
     ex_container_id r; ex_container_name := ex_container_name r; ex_container_image := ex_container_image
     r; ex_container_status := ex_container_status r; ex_container_started_at := ex_container_started_at r;
     ex_container_ended_at := ex_container_ended_at r; ex_container_exit_code := ex_container_exit_code r;
     ex_replacement_of_execution_id := ex_replacement_of_execution_id r; ex_restart_reason :=
     ex_restart_reason r; ex_metadata := v |}.

(** ** Artifacts ([ExecutionArtifact] in [app/domain/executions.py]) *)

Record ExecutionArtifact := mkExecutionArtifact {
  af_id : string;
  af_execution_id : string;
  af_event_id : option string;
  af_artifact_type : string;
  af_name : string;
  af_content_json : option (dict pyval);
  af_content_text : option string;
  af_uri : option string;
  af_media_type : option string;
  af_size_bytes : option Z;
  af_created_at : Z;
  af_metadata : dict pyval
}.

(** ** Durable waits ([app/domain/execution_waits.py]) *)

(** [ExecutionWaitKind] *)
Inductive ExecutionWaitKind : Type :=
  | INPUT | APPROVAL | EVENT | SLEEP.

#[export] Instance ExecutionWaitKind_eq_dec : EqDecision ExecutionWaitKind.
Proof. solve_decision. Defined.

(** The string value of the member ([.value]). *)
Definition wait_kind_value (v : ExecutionWaitKind) : string :=
  match v with
  | INPUT => "input"
  | APPROVAL => "approval"
  | EVENT => "event"
  | SLEEP => "sleep"
  end.

(** [ExecutionWaitStatus] *)
Inductive ExecutionWaitStatus : Type :=
  | WAIT_PENDING | WAIT_RESOLVED | WAIT_EXPIRED | WAIT_CANCELLED.

#[export] Instance ExecutionWaitStatus_eq_dec : EqDecision ExecutionWaitStatus.
Proof. solve_decision. Defined.

(** The string value of the member ([.value]). *)
Definition wait_status_value (v : ExecutionWaitStatus) : string :=
  match v with
  | WAIT_PENDING => "pending"
  | WAIT_RESOLVED => "resolved"
  | WAIT_EXPIRED => "expired"
  | WAIT_CANCELLED => "cancelled"
  end.

(** [ExecutionWait] *)
Record ExecutionWait := mkExecutionWait {
  wt_id : string;
  wt_execution_id : string;
  wt_kind : ExecutionWaitKind;
  wt_status : ExecutionWaitStatus;
  wt_idempotency_key : string;
  wt_correlation_key : option string;
  wt_checkpoint : dict pyval;
  wt_request_payload : dict pyval;
  wt_policy : dict pyval;
  wt_resolution_payload : option (dict pyval);
  wt_resolution_key : option string;
  wt_wake_at : option Z;
  wt_deadline_at : option Z;
  wt_resolved_at : option Z;
  wt_resolved_by : option string;
  wt_created_at : Z;
  wt_updated_at : Z;
  wt_metadata : dict pyval
}.


(** ** Events ([app/domain/events.py]) *)

(** [ExecutionEventType] *)
Inductive ExecutionEventType : Type :=
  | WORKFLOW_STARTED | WORKFLOW_COMPLETED | WORKFLOW_FAILED | EXECUTION_CREATED | EXECUTION_STARTED
  | EXECUTION_CYCLE_STARTED | EXECUTION_CYCLE_COMPLETED | EXECUTION_CYCLE_FAILED |
  EXECUTION_CYCLE_GUARD_TRIGGERED | EXECUTION_WAITING | EXECUTION_WOKEN | EXECUTION_PAUSED |
  EXECUTION_RESUMED | EXECUTION_CANCELLED | EXECUTION_COMPLETED | EXECUTION_FAILED |
  EXECUTION_REPAIRED | TASK_STARTED | AGENT_STEP_STARTED | AGENT_STEP_COMPLETED | AGENT_STEP_FAILED
  | SUBAGENT_TASK_ASSIGNED | SUBAGENT_PROGRESS_UPDATED | SUBAGENT_STEP_COMPLETED |
  SUBAGENT_STEP_FAILED | SUBAGENT_NEEDS_INPUT | SUBAGENT_NEEDS_APPROVAL | AGENT_MESSAGE_CREATED |
  ROUTING_DECISION_RECORDED | ROUTING_EVALUATION_RECORDED | LLM_REQUEST_CREATED |
  LLM_RESPONSE_CREATED | MODEL_FALLBACK_USED | MODEL_FALLBACK_FAILED | TOKEN_USAGE_RECORDED |
  TOKEN_BUDGET_WARNING | TOKEN_BUDGET_EXCEEDED | CONTEXT_HEALTH_RECORDED |
  CONTEXT_COMPACTION_STARTED | CONTEXT_COMPACTION_COMPLETED | CONTEXT_COMPACTION_FAILED |
  SUPERVISOR_STEERING_REQUESTED | SUPERVISOR_STEERING_APPLIED | TOOL_CALL_STARTED |
  TOOL_CALL_COMPLETED | TOOL_CALL_FAILED | HANDOFF_REQUESTED | HANDOFF_COMPLETED | ARTIFACT_CREATED
  | APPROVAL_REQUESTED | APPROVAL_GRANTED | APPROVAL_REJECTED | CONTAINER_CREATED |
  CONTAINER_STARTED | CONTAINER_REPLACED | CONTAINER_STOPPED | CONTAINER_FAILED |
  ONECLI_WORKER_ENFORCEMENT_RECORDED | RUNTIME_REVISION_RESOLVED | RUNTIME_REVISION_INVALIDATED |
  RUNTIME_BUILD_STARTED | RUNTIME_BUILD_COMPLETED | RUNTIME_BUILD_FAILED | MONITOR_FINDING_CREATED |
  MONITOR_EVALUATION_RECORDED | MONITOR_IMPROVEMENT_PROPOSED | MONITOR_IMPROVEMENT_COMPARED |
  OUTBOUND_WEBHOOK_QUEUED | OUTBOUND_WEBHOOK_SENT | OUTBOUND_WEBHOOK_FAILED | AGENT_IMPORT_PREVIEWED
  | AGENT_IMPORT_COMMITTED.

#[export] Instance ExecutionEventType_eq_dec : EqDecision ExecutionEventType.
Proof. solve_decision. Defined.

(** The string value of the member ([.value]). *)
Definition event_type_value (v : ExecutionEventType) : string :=
  match v with
  | WORKFLOW_STARTED => "workflow.started"
  | WORKFLOW_COMPLETED => "workflow.completed"
  | WORKFLOW_FAILED => "workflow.failed"
  | EXECUTION_CREATED => "execution.created"
  | EXECUTION_STARTED => "execution.started"
  | EXECUTION_CYCLE_STARTED => "execution.cycle.started"
  | EXECUTION_CYCLE_COMPLETED => "execution.cycle.completed"
  | EXECUTION_CYCLE_FAILED => "execution.cycle.failed"
  | EXECUTION_CYCLE_GUARD_TRIGGERED => "execution.cycle.guard_triggered"
  | EXECUTION_WAITING => "execution.waiting"
  | EXECUTION_WOKEN => "execution.woken"
  | EXECUTION_PAUSED => "execution.paused"
  | EXECUTION_RESUMED => "execution.resumed"
  | EXECUTION_CANCELLED => "execution.cancelled"
  | EXECUTION_COMPLETED => "execution.completed"
  | EXECUTION_FAILED => "execution.failed"
  | EXECUTION_REPAIRED => "execution.repaired"
  | TASK_STARTED => "task.started"
  | AGENT_STEP_STARTED => "agent.step.started"
  | AGENT_STEP_COMPLETED => "agent.step.completed"
  | AGENT_STEP_FAILED => "agent.step.failed"
  | SUBAGENT_TASK_ASSIGNED => "subagent.task.assigned"
  | SUBAGENT_PROGRESS_UPDATED => "subagent.progress.updated"
  | SUBAGENT_STEP_COMPLETED => "subagent.step.completed"
  | SUBAGENT_STEP_FAILED => "subagent.step.failed"
  | SUBAGENT_NEEDS_INPUT => "subagent.needs_input"
  | SUBAGENT_NEEDS_APPROVAL => "subagent.needs_approval"
  | AGENT_MESSAGE_CREATED => "agent.message.created"
  | ROUTING_DECISION_RECORDED => "routing.decision.recorded"
  | ROUTING_EVALUATION_RECORDED => "routing.evaluation.recorded"
  | LLM_REQUEST_CREATED => "llm.request.created"
  | LLM_RESPONSE_CREATED => "llm.response.created"
  | MODEL_FALLBACK_USED => "model.fallback.used"
  | MODEL_FALLBACK_FAILED => "model.fallback.failed"
  | TOKEN_USAGE_RECORDED => "token.usage.recorded"
  | TOKEN_BUDGET_WARNING => "token.budget.warning"
  | TOKEN_BUDGET_EXCEEDED => "token.budget.exceeded"
  | CONTEXT_HEALTH_RECORDED => "context.health.recorded"
  | CONTEXT_COMPACTION_STARTED => "context.compaction.started"
  | CONTEXT_COMPACTION_COMPLETED => "context.compaction.completed"
  | CONTEXT_COMPACTION_FAILED => "context.compaction.failed"
  | SUPERVISOR_STEERING_REQUESTED => "supervisor.steering.requested"
  | SUPERVISOR_STEERING_APPLIED => "supervisor.steering.applied"
  | TOOL_CALL_STARTED => "tool.call.started"
  | TOOL_CALL_COMPLETED => "tool.call.completed"
  | TOOL_CALL_FAILED => "tool.call.failed"
  | HANDOFF_REQUESTED => "handoff.requested"
  | HANDOFF_COMPLETED => "handoff.completed"
  | ARTIFACT_CREATED => "artifact.created"
  | APPROVAL_REQUESTED => "approval.requested"
  | APPROVAL_GRANTED => "approval.granted"
  | APPROVAL_REJECTED => "approval.rejected"
  | CONTAINER_CREATED => "container.created"
  | CONTAINER_STARTED => "container.started"
  | CONTAINER_REPLACED => "container.replaced"
  | CONTAINER_STOPPED => "container.stopped"
  | CONTAINER_FAILED => "container.failed"
  | ONECLI_WORKER_ENFORCEMENT_RECORDED => "onecli.worker.enforcement.recorded"
  | RUNTIME_REVISION_RESOLVED => "runtime.revision.resolved"
  | RUNTIME_REVISION_INVALIDATED => "runtime.revision.invalidated"
  | RUNTIME_BUILD_STARTED => "runtime.build.started"
  | RUNTIME_BUILD_COMPLETED => "runtime.build.completed"
  | RUNTIME_BUILD_FAILED => "runtime.build.failed"
  | MONITOR_FINDING_CREATED => "monitor.finding.created"
  | MONITOR_EVALUATION_RECORDED => "monitor.evaluation.recorded"
  | MONITOR_IMPROVEMENT_PROPOSED => "monitor.improvement.proposed"
  | MONITOR_IMPROVEMENT_COMPARED => "monitor.improvement.compared"
  | OUTBOUND_WEBHOOK_QUEUED => "outbound_webhook.queued"
  | OUTBOUND_WEBHOOK_SENT => "outbound_webhook.sent"
  | OUTBOUND_WEBHOOK_FAILED => "outbound_webhook.failed"
  | AGENT_IMPORT_PREVIEWED => "agent.import.previewed"
  | AGENT_IMPORT_COMMITTED => "agent.import.committed"
  end.

(** [ExecutionEvent] *)
Record ExecutionEvent := mkExecutionEvent {
  ev_id : string;
  ev_execution_id : string;
  ev_workflow_id : option string;
  ev_agent_id : option string;
  ev_task_id : option string;
  ev_tool_call_id : option string;
  ev_model_request_id : option string;
  ev_parent_event_id : option string;
  ev_trace_id : option string;
  ev_span_id : option string;
  ev_event_type : ExecutionEventType;
  ev_timestamp : Z;
  ev_sequence : Z;
  ev_actor_type : string;
  ev_actor : option string;
  ev_payload : dict pyval;
  ev_metrics : dict pyval;
  ev_redacted_fields : list string;
  ev_metadata : dict pyval
}.

Definition set_ev_sequence (v : Z) (r : ExecutionEvent) : ExecutionEvent :=
  {| ev_id := ev_id r; ev_execution_id := ev_execution_id r; ev_workflow_id := ev_workflow_id r;
     ev_agent_id := ev_agent_id r; ev_task_id := ev_task_id r; ev_tool_call_id := ev_tool_call_id r;
     ev_model_request_id := ev_model_request_id r; ev_parent_event_id := ev_parent_event_id r;
     ev_trace_id := ev_trace_id r; ev_span_id := ev_span_id r; ev_event_type := ev_event_type r;
     ev_timestamp := ev_timestamp r; ev_sequence := v; ev_actor_type := ev_actor_type r; ev_actor :=
     ev_actor r; ev_payload := ev_payload r; ev_metrics := ev_metrics r; ev_redacted_fields :=
     ev_redacted_fields r; ev_metadata := ev_metadata r |}.
Definition set_ev_redaction (payload metrics metadata : dict pyval) (fields : list string) (r : ExecutionEvent) : ExecutionEvent :=
  {| ev_id := ev_id r; ev_execution_id := ev_execution_id r; ev_workflow_id := ev_workflow_id r;
     ev_agent_id := ev_agent_id r; ev_task_id := ev_task_id r; ev_tool_call_id := ev_tool_call_id r;
     ev_model_request_id := ev_model_request_id r; ev_parent_event_id := ev_parent_event_id r;
     ev_trace_id := ev_trace_id r; ev_span_id := ev_span_id r; ev_event_type := ev_event_type r;
     ev_timestamp := ev_timestamp r; ev_sequence := ev_sequence r; ev_actor_type := ev_actor_type r;
     ev_actor := ev_actor r; ev_payload := payload; ev_metrics := metrics; ev_redacted_fields := fields;
     ev_metadata := metadata |}.

(** ** Approval decisions ([app/runtime/native/approvals.py]) *)

(** [ApprovalDecision] *)
Record ApprovalDecision := mkApprovalDecision {
  ad_granted : bool;
  ad_reason : option string;
  ad_metadata : option (dict pyval)
}.

(** ** Approval rows (the dictionaries of [_approval_requests]) *)

(** One row of the approval ledger *)
Record ApprovalRequest := mkApprovalRequest {
  ar_id : string;
  ar_execution_id : string;
  ar_event_id : option string;
  ar_tool_id : string;
  ar_status : string;
  ar_request_payload : dict pyval;
  ar_response_payload : dict pyval;
  ar_requested_at : string;
  ar_responded_at : option string;
  ar_responded_by : option string
}.


(** ** The native engine's per-execution state ([app/runtime/native/state.py]) *)

(** [GraphWorkingSet]: the graph nodes that an agent has touched. *)
Record GraphWorkingSet := mkGraphWorkingSet {
  gw_working_set_id : string;
  gw_owner_agent_id : option string;
  gw_conversation_id : option string;
  gw_workflow_id : option string;
  gw_run_id : option string;
  gw_execution_id : option string;
  gw_anchors : list (dict pyval);
  gw_visited_nodes : list (dict pyval);
  gw_selected_nodes : list (dict pyval);
  gw_notes : list (dict pyval);
  gw_created_at : Z;
  gw_updated_at : Z;
  gw_expires_at : Z
}.

Definition set_gw_conversation_id (v : option string) (r : GraphWorkingSet) : GraphWorkingSet :=
  {| gw_working_set_id := gw_working_set_id r; gw_owner_agent_id := gw_owner_agent_id r;
     gw_conversation_id := v; gw_workflow_id := gw_workflow_id r; gw_run_id := gw_run_id r;
     gw_execution_id := gw_execution_id r; gw_anchors := gw_anchors r; gw_visited_nodes :=
     gw_visited_nodes r; gw_selected_nodes := gw_selected_nodes r; gw_notes := gw_notes r; gw_created_at
     := gw_created_at r; gw_updated_at := gw_updated_at r; gw_expires_at := gw_expires_at r |}.
Definition set_gw_workflow_id (v : option string) (r : GraphWorkingSet) : GraphWorkingSet :=
  {| gw_working_set_id := gw_working_set_id r; gw_owner_agent_id := gw_owner_agent_id r;
     gw_conversation_id := gw_conversation_id r; gw_workflow_id := v; gw_run_id := gw_run_id r;
     gw_execution_id := gw_execution_id r; gw_anchors := gw_anchors r; gw_visited_nodes :=
     gw_visited_nodes r; gw_selected_nodes := gw_selected_nodes r; gw_notes := gw_notes r; gw_created_at
     := gw_created_at r; gw_updated_at := gw_updated_at r; gw_expires_at := gw_expires_at r |}.
Definition set_gw_run_id (v : option string) (r : GraphWorkingSet) : GraphWorkingSet :=
  {| gw_working_set_id := gw_working_set_id r; gw_owner_agent_id := gw_owner_agent_id r;
     gw_conversation_id := gw_conversation_id r; gw_workflow_id := gw_workflow_id r; gw_run_id := v;
     gw_execution_id := gw_execution_id r; gw_anchors := gw_anchors r; gw_visited_nodes :=
     gw_visited_nodes r; gw_selected_nodes := gw_selected_nodes r; gw_notes := gw_notes r; gw_created_at
     := gw_created_at r; gw_updated_at := gw_updated_at r; gw_expires_at := gw_expires_at r |}.
Definition set_gw_execution_id (v : option string) (r : GraphWorkingSet) : GraphWorkingSet :=
  {| gw_working_set_id := gw_working_set_id r; gw_owner_agent_id := gw_owner_agent_id r;
     gw_conversation_id := gw_conversation_id r; gw_workflow_id := gw_workflow_id r; gw_run_id :=
     gw_run_id r; gw_execution_id := v; gw_anchors := gw_anchors r; gw_visited_nodes := gw_visited_nodes
     r; gw_selected_nodes := gw_selected_nodes r; gw_notes := gw_notes r; gw_created_at := gw_created_at
     r; gw_updated_at := gw_updated_at r; gw_expires_at := gw_expires_at r |}.
Definition set_gw_anchors (v : list (dict pyval)) (r : GraphWorkingSet) : GraphWorkingSet :=
  {| gw_working_set_id := gw_working_set_id r; gw_owner_agent_id := gw_owner_agent_id r;
     gw_conversation_id := gw_conversation_id r; gw_workflow_id := gw_workflow_id r; gw_run_id :=
     gw_run_id r; gw_execution_id := gw_execution_id r; gw_anchors := v; gw_visited_nodes :=
     gw_visited_nodes r; gw_selected_nodes := gw_selected_nodes r; gw_notes := gw_notes r; gw_created_at
     := gw_created_at r; gw_updated_at := gw_updated_at r; gw_expires_at := gw_expires_at r |}.
Definition set_gw_visited_nodes (v : list (dict pyval)) (r : GraphWorkingSet) : GraphWorkingSet :=
  {| gw_working_set_id := gw_working_set_id r; gw_owner_agent_id := gw_owner_agent_id r;
     gw_conversation_id := gw_conversation_id r; gw_workflow_id := gw_workflow_id r; gw_run_id :=
     gw_run_id r; gw_execution_id := gw_execution_id r; gw_anchors := gw_anchors r; gw_visited_nodes := v;
     gw_selected_nodes := gw_selected_nodes r; gw_notes := gw_notes r; gw_created_at := gw_created_at r;
     gw_updated_at := gw_updated_at r; gw_expires_at := gw_expires_at r |}.
Definition set_gw_selected_nodes (v : list (dict pyval)) (r : GraphWorkingSet) : GraphWorkingSet :=
  {| gw_working_set_id := gw_working_set_id r; gw_owner_agent_id := gw_owner_agent_id r;
     gw_conversation_id := gw_conversation_id r; gw_workflow_id := gw_workflow_id r; gw_run_id :=
     gw_run_id r; gw_execution_id := gw_execution_id r; gw_anchors := gw_anchors r; gw_visited_nodes :=
     gw_visited_nodes r; gw_selected_nodes := v; gw_notes := gw_notes r; gw_created_at := gw_created_at r;
     gw_updated_at := gw_updated_at r; gw_expires_at := gw_expires_at r |}.
Definition set_gw_notes (v : list (dict pyval)) (r : GraphWorkingSet) : GraphWorkingSet :=
  {| gw_working_set_id := gw_working_set_id r; gw_owner_agent_id := gw_owner_agent_id r;
     gw_conversation_id := gw_conversation_id r; gw_workflow_id := gw_workflow_id r; gw_run_id :=
     gw_run_id r; gw_execution_id := gw_execution_id r; gw_anchors := gw_anchors r; gw_visited_nodes :=
     gw_visited_nodes r; gw_selected_nodes := gw_selected_nodes r; gw_notes := v; gw_created_at :=
     gw_created_at r; gw_updated_at := gw_updated_at r; gw_expires_at := gw_expires_at r |}.
Definition set_gw_updated_at (v : Z) (r : GraphWorkingSet) : GraphWorkingSet :=
  {| gw_working_set_id := gw_working_set_id r; gw_owner_agent_id := gw_owner_agent_id r;
     gw_conversation_id := gw_conversation_id r; gw_workflow_id := gw_workflow_id r; gw_run_id :=
     gw_run_id r; gw_execution_id := gw_execution_id r; gw_anchors := gw_anchors r; gw_visited_nodes :=
     gw_visited_nodes r; gw_selected_nodes := gw_selected_nodes r; gw_notes := gw_notes r; gw_created_at
     := gw_created_at r; gw_updated_at := v; gw_expires_at := gw_expires_at r |}.
Definition set_gw_expires_at (v : Z) (r : GraphWorkingSet) : GraphWorkingSet :=
  {| gw_working_set_id := gw_working_set_id r; gw_owner_agent_id := gw_owner_agent_id r;
     gw_conversation_id := gw_conversation_id r; gw_workflow_id := gw_workflow_id r; gw_run_id :=
     gw_run_id r; gw_execution_id := gw_execution_id r; gw_anchors := gw_anchors r; gw_visited_nodes :=
     gw_visited_nodes r; gw_selected_nodes := gw_selected_nodes r; gw_notes := gw_notes r; gw_created_at
     := gw_created_at r; gw_updated_at := gw_updated_at r; gw_expires_at := v |}.

(** [NativeExecutionState], without the memory and compaction caches of the
    agent executor *)
Record NativeExecutionState := mkNativeExecutionState {
  st_execution_id : string;
  st_workflow_id : string;
  st_trace_id : string;
  st_paused : bool;
  st_cancelled : bool;
  st_sequence : Z;
  st_node_outputs : dict pyval;
  st_node_outcomes : dict pyval;
  st_node_errors : dict pyval;
  st_task_tool_results : dict pyval;
  st_graph_context_entries : list (dict pyval);
  st_graph_working_sets : dict GraphWorkingSet;
  st_current_node_id : option string;
  st_current_agent_id : option string;
  st_current_task_id : option string;
  st_planned_node_ids : list string;
  st_terminal_node_ids : list string;
  st_last_event_id : option string;
  st_created_at : Z
}.

Definition set_st_trace_id (v : string) (r : NativeExecutionState) : NativeExecutionState :=
  {| st_execution_id := st_execution_id r; st_workflow_id := st_workflow_id r; st_trace_id := v; st_paused
     := st_paused r; st_cancelled := st_cancelled r; st_sequence := st_sequence r; st_node_outputs :=
     st_node_outputs r; st_node_outcomes := st_node_outcomes r; st_node_errors := st_node_errors r;
     st_task_tool_results := st_task_tool_results r; st_graph_context_entries := st_graph_context_entries
     r; st_graph_working_sets := st_graph_working_sets r; st_current_node_id := st_current_node_id r;
     st_current_agent_id := st_current_agent_id r; st_current_task_id := st_current_task_id r;
     st_planned_node_ids := st_planned_node_ids r; st_terminal_node_ids := st_terminal_node_ids r;
     st_last_event_id := st_last_event_id r; st_created_at := st_created_at r |}.
Definition set_st_paused (v : bool) (r : NativeExecutionState) : NativeExecutionState :=
  {| st_execution_id := st_execution_id r; st_workflow_id := st_workflow_id r; st_trace_id := st_trace_id
     r; st_paused := v; st_cancelled := st_cancelled r; st_sequence := st_sequence r; st_node_outputs :=
     st_node_outputs r; st_node_outcomes := st_node_outcomes r; st_node_errors := st_node_errors r;
     st_task_tool_results := st_task_tool_results r; st_graph_context_entries := st_graph_context_entries
     r; st_graph_working_sets := st_graph_working_sets r; st_current_node_id := st_current_node_id r;
     st_current_agent_id := st_current_agent_id r; st_current_task_id := st_current_task_id r;
     st_planned_node_ids := st_planned_node_ids r; st_terminal_node_ids := st_terminal_node_ids r;
     st_last_event_id := st_last_event_id r; st_created_at := st_created_at r |}.
Definition set_st_cancelled (v : bool) (r : NativeExecutionState) : NativeExecutionState :=
  {| st_execution_id := st_execution_id r; st_workflow_id := st_workflow_id r; st_trace_id := st_trace_id
     r; st_paused := st_paused r; st_cancelled := v; st_sequence := st_sequence r; st_node_outputs :=
     st_node_outputs r; st_node_outcomes := st_node_outcomes r; st_node_errors := st_node_errors r;
     st_task_tool_results := st_task_tool_results r; st_graph_context_entries := st_graph_context_entries
     r; st_graph_working_sets := st_graph_working_sets r; st_current_node_id := st_current_node_id r;
     st_current_agent_id := st_current_agent_id r; st_current_task_id := st_current_task_id r;
     st_planned_node_ids := st_planned_node_ids r; st_terminal_node_ids := st_terminal_node_ids r;
     st_last_event_id := st_last_event_id r; st_created_at := st_created_at r |}.
Definition set_st_sequence (v : Z) (r : NativeExecutionState) : NativeExecutionState :=
  {| st_execution_id := st_execution_id r; st_workflow_id := st_workflow_id r; st_trace_id := st_trace_id
     r; st_paused := st_paused r; st_cancelled := st_cancelled r; st_sequence := v; st_node_outputs :=
     st_node_outputs r; st_node_outcomes := st_node_outcomes r; st_node_errors := st_node_errors r;
     st_task_tool_results := st_task_tool_results r; st_graph_context_entries := st_graph_context_entries
     r; st_graph_working_sets := st_graph_working_sets r; st_current_node_id := st_current_node_id r;
     st_current_agent_id := st_current_agent_id r; st_current_task_id := st_current_task_id r;
     st_planned_node_ids := st_planned_node_ids r; st_terminal_node_ids := st_terminal_node_ids r;
     st_last_event_id := st_last_event_id r; st_created_at := st_created_at r |}.
Definition set_st_node_outputs (v : dict pyval) (r : NativeExecutionState) : NativeExecutionState :=
  {| st_execution_id := st_execution_id r; st_workflow_id := st_workflow_id r; st_trace_id := st_trace_id
     r; st_paused := st_paused r; st_cancelled := st_cancelled r; st_sequence := st_sequence r;
     st_node_outputs := v; st_node_outcomes := st_node_outcomes r; st_node_errors := st_node_errors r;
     st_task_tool_results := st_task_tool_results r; st_graph_context_entries := st_graph_context_entries
     r; st_graph_working_sets := st_graph_working_sets r; st_current_node_id := st_current_node_id r;
     st_current_agent_id := st_current_agent_id r; st_current_task_id := st_current_task_id r;
     st_planned_node_ids := st_planned_node_ids r; st_terminal_node_ids := st_terminal_node_ids r;
     st_last_event_id := st_last_event_id r; st_created_at := st_created_at r |}.
Definition set_st_node_outcomes (v : dict pyval) (r : NativeExecutionState) : NativeExecutionState :=
  {| st_execution_id := st_execution_id r; st_workflow_id := st_workflow_id r; st_trace_id := st_trace_id
     r; st_paused := st_paused r; st_cancelled := st_cancelled r; st_sequence := st_sequence r;
     st_node_outputs := st_node_outputs r; st_node_outcomes := v; st_node_errors := st_node_errors r;
     st_task_tool_results := st_task_tool_results r; st_graph_context_entries := st_graph_context_entries
     r; st_graph_working_sets := st_graph_working_sets r; st_current_node_id := st_current_node_id r;
     st_current_agent_id := st_current_agent_id r; st_current_task_id := st_current_task_id r;
     st_planned_node_ids := st_planned_node_ids r; st_terminal_node_ids := st_terminal_node_ids r;
     st_last_event_id := st_last_event_id r; st_created_at := st_created_at r |}.
Definition set_st_node_errors (v : dict pyval) (r : NativeExecutionState) : NativeExecutionState :=
  {| st_execution_id := st_execution_id r; st_workflow_id := st_workflow_id r; st_trace_id := st_trace_id
     r; st_paused := st_paused r; st_cancelled := st_cancelled r; st_sequence := st_sequence r;
     st_node_outputs := st_node_outputs r; st_node_outcomes := st_node_outcomes r; st_node_errors := v;
     st_task_tool_results := st_task_tool_results r; st_graph_context_entries := st_graph_context_entries
     r; st_graph_working_sets := st_graph_working_sets r; st_current_node_id := st_current_node_id r;
     st_current_agent_id := st_current_agent_id r; st_current_task_id := st_current_task_id r;
     st_planned_node_ids := st_planned_node_ids r; st_terminal_node_ids := st_terminal_node_ids r;
     st_last_event_id := st_last_event_id r; st_created_at := st_created_at r |}.
Definition set_st_task_tool_results (v : dict pyval) (r : NativeExecutionState) : NativeExecutionState :=
  {| st_execution_id := st_execution_id r; st_workflow_id := st_workflow_id r; st_trace_id := st_trace_id
     r; st_paused := st_paused r; st_cancelled := st_cancelled r; st_sequence := st_sequence r;
     st_node_outputs := st_node_outputs r; st_node_outcomes := st_node_outcomes r; st_node_errors :=
     st_node_errors r; st_task_tool_results := v; st_graph_context_entries := st_graph_context_entries r;
     st_graph_working_sets := st_graph_working_sets r; st_current_node_id := st_current_node_id r;
     st_current_agent_id := st_current_agent_id r; st_current_task_id := st_current_task_id r;
     st_planned_node_ids := st_planned_node_ids r; st_terminal_node_ids := st_terminal_node_ids r;
     st_last_event_id := st_last_event_id r; st_created_at := st_created_at r |}.
Definition set_st_graph_context_entries (v : list (dict pyval)) (r : NativeExecutionState) : NativeExecutionState :=
  {| st_execution_id := st_execution_id r; st_workflow_id := st_workflow_id r; st_trace_id := st_trace_id
     r; st_paused := st_paused r; st_cancelled := st_cancelled r; st_sequence := st_sequence r;
     st_node_outputs := st_node_outputs r; st_node_outcomes := st_node_outcomes r; st_node_errors :=
     st_node_errors r; st_task_tool_results := st_task_tool_results r; st_graph_context_entries := v;
     st_graph_working_sets := st_graph_working_sets r; st_current_node_id := st_current_node_id r;
     st_current_agent_id := st_current_agent_id r; st_current_task_id := st_current_task_id r;
     st_planned_node_ids := st_planned_node_ids r; st_terminal_node_ids := st_terminal_node_ids r;
     st_last_event_id := st_last_event_id r; st_created_at := st_created_at r |}.
Definition set_st_graph_working_sets (v : dict GraphWorkingSet) (r : NativeExecutionState) : NativeExecutionState :=
  {| st_execution_id := st_execution_id r; st_workflow_id := st_workflow_id r; st_trace_id := st_trace_id
     r; st_paused := st_paused r; st_cancelled := st_cancelled r; st_sequence := st_sequence r;
     st_node_outputs := st_node_outputs r; st_node_outcomes := st_node_outcomes r; st_node_errors :=
     st_node_errors r; st_task_tool_results := st_task_tool_results r; st_graph_context_entries :=
     st_graph_context_entries r; st_graph_working_sets := v; st_current_node_id := st_current_node_id r;
     st_current_agent_id := st_current_agent_id r; st_current_task_id := st_current_task_id r;
     st_planned_node_ids := st_planned_node_ids r; st_terminal_node_ids := st_terminal_node_ids r;
     st_last_event_id := st_last_event_id r; st_created_at := st_created_at r |}.
Definition set_st_current_node_id (v : option string) (r : NativeExecutionState) : NativeExecutionState :=
  {| st_execution_id := st_execution_id r; st_workflow_id := st_workflow_id r; st_trace_id := st_trace_id
     r; st_paused := st_paused r; st_cancelled := st_cancelled r; st_sequence := st_sequence r;
     st_node_outputs := st_node_outputs r; st_node_outcomes := st_node_outcomes r; st_node_errors :=
     st_node_errors r; st_task_tool_results := st_task_tool_results r; st_graph_context_entries :=
     st_graph_context_entries r; st_graph_working_sets := st_graph_working_sets r; st_current_node_id :=
     v; st_current_agent_id := st_current_agent_id r; st_current_task_id := st_current_task_id r;
     st_planned_node_ids := st_planned_node_ids r; st_terminal_node_ids := st_terminal_node_ids r;
     st_last_event_id := st_last_event_id r; st_created_at := st_created_at r |}.
Definition set_st_current_agent_id (v : option string) (r : NativeExecutionState) : NativeExecutionState :=
  {| st_execution_id := st_execution_id r; st_workflow_id := st_workflow_id r; st_trace_id := st_trace_id
     r; st_paused := st_paused r; st_cancelled := st_cancelled r; st_sequence := st_sequence r;
     st_node_outputs := st_node_outputs r; st_node_outcomes := st_node_outcomes r; st_node_errors :=
     st_node_errors r; st_task_tool_results := st_task_tool_results r; st_graph_context_entries :=
     st_graph_context_entries r; st_graph_working_sets := st_graph_working_sets r; st_current_node_id :=
     st_current_node_id r; st_current_agent_id := v; st_current_task_id := st_current_task_id r;
     st_planned_node_ids := st_planned_node_ids r; st_terminal_node_ids := st_terminal_node_ids r;
     st_last_event_id := st_last_event_id r; st_created_at := st_created_at r |}.
Definition set_st_current_task_id (v : option string) (r : NativeExecutionState) : NativeExecutionState :=
  {| st_execution_id := st_execution_id r; st_workflow_id := st_workflow_id r; st_trace_id := st_trace_id
     r; st_paused := st_paused r; st_cancelled := st_cancelled r; st_sequence := st_sequence r;
     st_node_outputs := st_node_outputs r; st_node_outcomes := st_node_outcomes r; st_node_errors :=
     st_node_errors r; st_task_tool_results := st_task_tool_results r; st_graph_context_entries :=
     st_graph_context_entries r; st_graph_working_sets := st_graph_working_sets r; st_current_node_id :=
     st_current_node_id r; st_current_agent_id := st_current_agent_id r; st_current_task_id := v;
     st_planned_node_ids := st_planned_node_ids r; st_terminal_node_ids := st_terminal_node_ids r;
     st_last_event_id := st_last_event_id r; st_created_at := st_created_at r |}.
Definition set_st_planned_node_ids (v : list string) (r : NativeExecutionState) : NativeExecutionState :=
  {| st_execution_id := st_execution_id r; st_workflow_id := st_workflow_id r; st_trace_id := st_trace_id
     r; st_paused := st_paused r; st_cancelled := st_cancelled r; st_sequence := st_sequence r;
     st_node_outputs := st_node_outputs r; st_node_outcomes := st_node_outcomes r; st_node_errors :=
     st_node_errors r; st_task_tool_results := st_task_tool_results r; st_graph_context_entries :=
     st_graph_context_entries r; st_graph_working_sets := st_graph_working_sets r; st_current_node_id :=
     st_current_node_id r; st_current_agent_id := st_current_agent_id r; st_current_task_id :=
     st_current_task_id r; st_planned_node_ids := v; st_terminal_node_ids := st_terminal_node_ids r;
     st_last_event_id := st_last_event_id r; st_created_at := st_created_at r |}.
Definition set_st_terminal_node_ids (v : list string) (r : NativeExecutionState) : NativeExecutionState :=
  {| st_execution_id := st_execution_id r; st_workflow_id := st_workflow_id r; st_trace_id := st_trace_id
     r; st_paused := st_paused r; st_cancelled := st_cancelled r; st_sequence := st_sequence r;
     st_node_outputs := st_node_outputs r; st_node_outcomes := st_node_outcomes r; st_node_errors :=
     st_node_errors r; st_task_tool_results := st_task_tool_results r; st_graph_context_entries :=
     st_graph_context_entries r; st_graph_working_sets := st_graph_working_sets r; st_current_node_id :=
     st_current_node_id r; st_current_agent_id := st_current_agent_id r; st_current_task_id :=
     st_current_task_id r; st_planned_node_ids := st_planned_node_ids r; st_terminal_node_ids := v;
     st_last_event_id := st_last_event_id r; st_created_at := st_created_at r |}.
Definition set_st_last_event_id (v : option string) (r : NativeExecutionState) : NativeExecutionState :=
  {| st_execution_id := st_execution_id r; st_workflow_id := st_workflow_id r; st_trace_id := st_trace_id
     r; st_paused := st_paused r; st_cancelled := st_cancelled r; st_sequence := st_sequence r;
     st_node_outputs := st_node_outputs r; st_node_outcomes := st_node_outcomes r; st_node_errors :=
     st_node_errors r; st_task_tool_results := st_task_tool_results r; st_graph_context_entries :=
     st_graph_context_entries r; st_graph_working_sets := st_graph_working_sets r; st_current_node_id :=
     st_current_node_id r; st_current_agent_id := st_current_agent_id r; st_current_task_id :=
     st_current_task_id r; st_planned_node_ids := st_planned_node_ids r; st_terminal_node_ids :=
     st_terminal_node_ids r; st_last_event_id := v; st_created_at := st_created_at r |}.

(** ** Fire claims of schedules ([app/db/repositories/schedules.py])

    The dictionary that [acquire_schedule_fire_claim] stores under a schedule and
    a fire time. *)
Record FireClaim := mkFireClaim {
  fc_id : string;
  fc_schedule_id : string;
  fc_scheduled_fire_at : Z;
  fc_claimed_by : string;
  fc_lease_expires_at : Z;
  fc_status : string;
  fc_execution_id : option string;
  fc_updated_at : Z
}.

(** ** Events of the graph projection outbox ([app/domain/graph_projection.py]) *)
Record GraphProjectionEvent := mkProjection {
  gp_event_id : string;
  gp_event_type : string;
  gp_aggregate_type : string;
  gp_aggregate_id : string;
  gp_occurred_at : Z;
  gp_tenant_id : option string;
  gp_user_id : option string;
  gp_payload : dict pyval;
  gp_schema_version : Z;
  gp_source : string;
  gp_source_event_id : option string;
  gp_status : string;
  gp_attempts : Z;
  gp_projected_at : option Z;
  gp_last_error : option string;
  gp_created_at : Z;
  gp_updated_at : Z
}.
