(* ===== verification/World.v ===== *)
(** * The process: world state, exceptions and the effect monad

    Handlers of the control plane are Python coroutines that read the clock,
    draw identifiers, mutate shared [Execution] objects and raise exceptions.
    With the in-memory store none of their awaits suspends, so a handler runs as
    one step: a function from the world to an outcome and a new world.  State
    changes made before an exception are kept, as in Python.

    An [Execution] object is shared: [get_execution] returns the object that the
    store holds, so an attribute assignment is visible to every later reader.
    The model names objects by their id and keeps their contents in the world:
    [assign] is an attribute assignment through any alias. *)

From Corelib Require Import SpecFloat.
From stdpp Require Import gmap.
From S2P Require Export Domain.

(** ** Environment

    What a process reads from outside: the successive readings of [utc_now],
    the successive [uuid4] draws, [repr] of a float, [float.__pow__] ([None]: an
    [OverflowError]), the machine metrics at a moment, SHA-256, and the secret
    patterns of the observability redactor (configured by the deployment; each
    one is its source text and its [re.sub] action, [None] when it does not
    match). *)

Class Env := {
  env_now : nat -> Z;
  env_uuid : nat -> string;
  env_float_repr : spec_float -> string;
  env_float_pow : spec_float -> spec_float -> option spec_float;
  env_system_metrics : nat -> dict pyval;
  env_sha256_hex : string -> string;
  env_redact_enabled : bool;
  env_secret_patterns : list (string * (string -> option string))
}.

(** ** Exceptions *)

Inductive exn_class :=
  | ValueError
  | TypeError
  | KeyError
  | RuntimeError
  | IntegrityError
  | ExecutionNotFoundError
  | WorkflowNotFoundError
  | ExecutionWaitNotFoundError
  | ExecutionWaitConflictError
  | ExecutionPausedError
  | ExecutionApprovalSuspendedError
  | ExecutionCancelledError
  | ApprovalRequiredError
  | ContainerRuntimeError
  | ScheduleConcurrencyError
  | AttributeError
  | OverflowError
  | ZeroDivisionError
  | TimeoutError
  | GoalNotFoundError
  | GoalTransitionError
  | CapabilityError. (* [BrowserCapabilityError], a [PermissionError] *)

#[export] Instance exn_class_eq_dec : EqDecision exn_class.
Proof. solve_decision. Defined.

Record exn := mkExn { exn_kind : exn_class; exn_message : string }.

(** [isinstance(exc, ValueError)]: the wait errors and the goal errors derive from it. *)
Definition is_value_error (e : exn) : bool :=
  match exn_kind e with
  | ValueError | ExecutionWaitNotFoundError | ExecutionWaitConflictError
  | GoalNotFoundError | GoalTransitionError => true
  | _ => false
  end.

(** ** World *)

Record world := mkWorld {
  w_clock : nat; (* readings of the clock taken so far *)
  w_uuids : nat; (* identifiers drawn so far *)
  w_executions : dict Execution; (* InMemoryExecutionRepository._items *)
  w_events : dict (list ExecutionEvent); (* InMemoryExecutionEventRepository._items *)
  w_sequences : dict Z; (* InMemoryExecutionEventRepository._sequences *)
  w_artifacts : dict (list ExecutionArtifact); (* InMemoryExecutionArtifactRepository._items *)
  w_approvals : dict ApprovalRequest; (* InMemoryExecutionStore._approval_requests *)
  w_waits : dict ExecutionWait; (* InMemoryExecutionStore._waits *)
  w_states : dict NativeExecutionState; (* ExecutionEngine._states *)
  w_tasks : dict bool; (* ExecutionControlPlane._tasks: is the task done? *)
  w_pending : dict (option ApprovalDecision); (* ApprovalManager._pending: the result of the future *)
  w_request_ids : dict string; (* ApprovalManager._request_ids *)
  w_schedules : dict (dict pyval); (* InMemoryScheduleRepository._items *)
  w_goals : dict (dict pyval); (* InMemoryCatalogRepository(GoalDefinition)._items *)
  w_fire_claims : gmap (string * string) FireClaim; (* InMemoryScheduleRepository._fire_claims *)
  w_outbox : dict GraphProjectionEvent; (* InMemoryGraphProjectionEventRepository._items *)
  w_revisions : dict (dict pyval); (* InMemoryRuntimeRevisionRepository._items *)
  w_crewai_states : dict NativeExecutionState (* CrewAIRuntimeAdapter._states *)
}.

Definition set_w_clock v (w : world) : world :=
  mkWorld v (w_uuids w) (w_executions w) (w_events w) (w_sequences w) (w_artifacts w) (w_approvals w) (w_waits w) (w_states w) (w_tasks w) (w_pending w) (w_request_ids w) (w_schedules w) (w_goals w) (w_fire_claims w) (w_outbox w) (w_revisions w) (w_crewai_states w).
Definition set_w_uuids v (w : world) : world :=
  mkWorld (w_clock w) v (w_executions w) (w_events w) (w_sequences w) (w_artifacts w) (w_approvals w) (w_waits w) (w_states w) (w_tasks w) (w_pending w) (w_request_ids w) (w_schedules w) (w_goals w) (w_fire_claims w) (w_outbox w) (w_revisions w) (w_crewai_states w).
Definition set_w_executions v (w : world) : world :=
  mkWorld (w_clock w) (w_uuids w) v (w_events w) (w_sequences w) (w_artifacts w) (w_approvals w) (w_waits w) (w_states w) (w_tasks w) (w_pending w) (w_request_ids w) (w_schedules w) (w_goals w) (w_fire_claims w) (w_outbox w) (w_revisions w) (w_crewai_states w).
Definition set_w_events v (w : world) : world :=
  mkWorld (w_clock w) (w_uuids w) (w_executions w) v (w_sequences w) (w_artifacts w) (w_approvals w) (w_waits w) (w_states w) (w_tasks w) (w_pending w) (w_request_ids w) (w_schedules w) (w_goals w) (w_fire_claims w) (w_outbox w) (w_revisions w) (w_crewai_states w).
Definition set_w_sequences v (w : world) : world :=
  mkWorld (w_clock w) (w_uuids w) (w_executions w) (w_events w) v (w_artifacts w) (w_approvals w) (w_waits w) (w_states w) (w_tasks w) (w_pending w) (w_request_ids w) (w_schedules w) (w_goals w) (w_fire_claims w) (w_outbox w) (w_revisions w) (w_crewai_states w).
Definition set_w_artifacts v (w : world) : world :=
  mkWorld (w_clock w) (w_uuids w) (w_executions w) (w_events w) (w_sequences w) v (w_approvals w) (w_waits w) (w_states w) (w_tasks w) (w_pending w) (w_request_ids w) (w_schedules w) (w_goals w) (w_fire_claims w) (w_outbox w) (w_revisions w) (w_crewai_states w).
Definition set_w_approvals v (w : world) : world :=
  mkWorld (w_clock w) (w_uuids w) (w_executions w) (w_events w) (w_sequences w) (w_artifacts w) v (w_waits w) (w_states w) (w_tasks w) (w_pending w) (w_request_ids w) (w_schedules w) (w_goals w) (w_fire_claims w) (w_outbox w) (w_revisions w) (w_crewai_states w).
Definition set_w_waits v (w : world) : world :=
  mkWorld (w_clock w) (w_uuids w) (w_executions w) (w_events w) (w_sequences w) (w_artifacts w) (w_approvals w) v (w_states w) (w_tasks w) (w_pending w) (w_request_ids w) (w_schedules w) (w_goals w) (w_fire_claims w) (w_outbox w) (w_revisions w) (w_crewai_states w).
Definition set_w_states v (w : world) : world :=
  mkWorld (w_clock w) (w_uuids w) (w_executions w) (w_events w) (w_sequences w) (w_artifacts w) (w_approvals w) (w_waits w) v (w_tasks w) (w_pending w) (w_request_ids w) (w_schedules w) (w_goals w) (w_fire_claims w) (w_outbox w) (w_revisions w) (w_crewai_states w).
Definition set_w_tasks v (w : world) : world :=
  mkWorld (w_clock w) (w_uuids w) (w_executions w) (w_events w) (w_sequences w) (w_artifacts w) (w_approvals w) (w_waits w) (w_states w) v (w_pending w) (w_request_ids w) (w_schedules w) (w_goals w) (w_fire_claims w) (w_outbox w) (w_revisions w) (w_crewai_states w).
Definition set_w_pending v (w : world) : world :=
  mkWorld (w_clock w) (w_uuids w) (w_executions w) (w_events w) (w_sequences w) (w_artifacts w) (w_approvals w) (w_waits w) (w_states w) (w_tasks w) v (w_request_ids w) (w_schedules w) (w_goals w) (w_fire_claims w) (w_outbox w) (w_revisions w) (w_crewai_states w).
Definition set_w_request_ids v (w : world) : world :=
  mkWorld (w_clock w) (w_uuids w) (w_executions w) (w_events w) (w_sequences w) (w_artifacts w) (w_approvals w) (w_waits w) (w_states w) (w_tasks w) (w_pending w) v (w_schedules w) (w_goals w) (w_fire_claims w) (w_outbox w) (w_revisions w) (w_crewai_states w).
Definition set_w_schedules v (w : world) : world :=
  mkWorld (w_clock w) (w_uuids w) (w_executions w) (w_events w) (w_sequences w) (w_artifacts w) (w_approvals w) (w_waits w) (w_states w) (w_tasks w) (w_pending w) (w_request_ids w) v (w_goals w) (w_fire_claims w) (w_outbox w) (w_revisions w) (w_crewai_states w).
Definition set_w_goals v (w : world) : world :=
  mkWorld (w_clock w) (w_uuids w) (w_executions w) (w_events w) (w_sequences w) (w_artifacts w) (w_approvals w) (w_waits w) (w_states w) (w_tasks w) (w_pending w) (w_request_ids w) (w_schedules w) v (w_fire_claims w) (w_outbox w) (w_revisions w) (w_crewai_states w).
Definition set_w_fire_claims v (w : world) : world :=
  mkWorld (w_clock w) (w_uuids w) (w_executions w) (w_events w) (w_sequences w) (w_artifacts w) (w_approvals w) (w_waits w) (w_states w) (w_tasks w) (w_pending w) (w_request_ids w) (w_schedules w) (w_goals w) v (w_outbox w) (w_revisions w) (w_crewai_states w).

Definition set_w_outbox v (w : world) : world :=
  mkWorld (w_clock w) (w_uuids w) (w_executions w) (w_events w) (w_sequences w) (w_artifacts w) (w_approvals w) (w_waits w) (w_states w) (w_tasks w) (w_pending w) (w_request_ids w) (w_schedules w) (w_goals w) (w_fire_claims w) v (w_revisions w) (w_crewai_states w).
Definition set_w_revisions v (w : world) : world :=
  mkWorld (w_clock w) (w_uuids w) (w_executions w) (w_events w) (w_sequences w) (w_artifacts w) (w_approvals w) (w_waits w) (w_states w) (w_tasks w) (w_pending w) (w_request_ids w) (w_schedules w) (w_goals w) (w_fire_claims w) (w_outbox w) v (w_crewai_states w).
Definition set_w_crewai_states v (w : world) : world :=
  mkWorld (w_clock w) (w_uuids w) (w_executions w) (w_events w) (w_sequences w) (w_artifacts w) (w_approvals w) (w_waits w) (w_states w) (w_tasks w) (w_pending w) (w_request_ids w) (w_schedules w) (w_goals w) (w_fire_claims w) (w_outbox w) (w_revisions w) v.

Definition empty_world : world := mkWorld 0 0 [] [] [] [] [] [] [] [] [] [] [] [] ∅ [] [] [].

(** ** The effect monad *)

Inductive outcome (A : Type) : Type :=
  | Ok (a : A)
  | Raise (e : exn).
Arguments Ok {_} _.
Arguments Raise {_} _.

Definition M (A : Type) : Type := world -> outcome A * world.

Definition run {A} (m : M A) (w : world) : outcome A * world := m w.
Definition result_of {A} (m : M A) (w : world) : outcome A := (m w).1.
Definition world_after {A} (m : M A) (w : world) : world := (m w).2.

#[export] Instance M_ret : MRet M := fun A a w => (Ok a, w).
#[export] Instance M_bind : MBind M := fun A B f m w =>
  match m w with
  | (Ok a, w') => f a w'
  | (Raise e, w') => (Raise e, w')
  end.

Definition raise {A} (k : exn_class) (msg : string) : M A := fun w => (Raise (mkExn k msg), w).
Definition reraise {A} (e : exn) : M A := fun w => (Raise e, w).

(** [try: m except <p>: h]; an exception that [p] does not accept propagates. *)
Definition try_except {A} (m : M A) (p : exn -> bool) (h : exn -> M A) : M A := fun w =>
  match m w with
  | (Raise e, w') => if p e then h e w' else (Raise e, w')
  | r => r
  end.

(** [try: m finally: f] *)
Definition try_finally {A} (m : M A) (f : M unit) : M A := fun w =>
  let '(r, w') := m w in
  match f w' with
  | (Ok _, w'') => (r, w'')
  | (Raise e, w'') => (Raise e, w'')
  end.

(** [except Exception]: accepts every exception of the model. *)
Definition any_exn : exn -> bool := fun _ => true.

Definition gets {A} (f : world -> A) : M A := fun w => (Ok (f w), w).
Definition modify (f : world -> world) : M unit := fun w => (Ok tt, f w).

(** [for x in l: f(x)] *)
Fixpoint for_each {A} (f : A -> M unit) (l : list A) : M unit :=
  match l with
  | [] => mret tt
  | x :: l' => f x;; for_each f l'
  end.

(** A loop that builds a list: [out.extend(f(x))] for each [x]. *)
Fixpoint collect {A B} (f : A -> M (list B)) (l : list A) : M (list B) :=
  match l with
  | [] => mret []
  | x :: l' => y ← f x; ys ← collect f l'; mret (y ++ ys)
  end.

(** [for item in v] *)
Definition py_iter (v : pyval) : M (list pyval) :=
  match v with
  | PList l => mret l
  | PStr s => mret (map (fun c => PStr (String c "")) (list_ascii_of_string s))
  | PDict d => mret (map PStr (dkeys d))
  | _ => raise TypeError "object is not iterable"
  end.

(** The two elements of an iterable of length two, as [dict] reads an entry. *)
Definition py_pair (v : pyval) : M (string * pyval) :=
  match v with
  | PList [PStr k; x] => mret (k, x)
  | PStr (String a (String b EmptyString)) => mret (String a "", PStr (String b ""))
  | PDict [(k1, _); (k2, _)] => mret (k1, PStr k2)
  | PList [_; _] => raise TypeError "unhashable or non-string key"
  | PList _ | PStr _ | PDict _ => raise ValueError "dictionary update sequence element has wrong length"
  | _ => raise TypeError "cannot convert dictionary update sequence element to a sequence"
  end.

Fixpoint py_dict_of_pairs (acc : dict pyval) (l : list pyval) : M (dict pyval) :=
  match l with
  | [] => mret acc
  | v :: l' => '(k, x) ← py_pair v; py_dict_of_pairs (dset k x acc) l'
  end.

(** [dict(v)] *)
Definition py_dict (v : pyval) : M (dict pyval) :=
  match v with
  | PDict d => mret d
  | PList l => py_dict_of_pairs [] l
  | PStr EmptyString => mret []
  | PStr _ => raise ValueError "dictionary update sequence element has wrong length"
  | _ => raise TypeError "object is not iterable"
  end.

Definition when (b : bool) (m : M unit) : M unit := if b then m else mret tt.

Section Effects.
Context `{Env}.

(** [utc_now()] *)
Definition utc_now : M Z := fun w =>
  (Ok (env_now (w_clock w)), set_w_clock (S (w_clock w)) w).

(** [str(uuid4())] *)
Definition uuid4 : M string := fun w =>
  (Ok (env_uuid (w_uuids w)), set_w_uuids (S (w_uuids w)) w).

(** An attribute assignment on the shared execution object [i]. *)
Definition assign (i : string) (f : Execution -> Execution) : M unit :=
  modify (fun w => set_w_executions (dalter f i (w_executions w)) w).

(** The contents of the execution object named [i]. *)
Definition deref (i : string) : M Execution := fun w =>
  match dget i (w_executions w) with
  | Some e => (Ok e, w)
  | None => (Raise (mkExn AttributeError i), w)
  end.
End Effects.

(** ** Equations for symbolic execution *)

Lemma bind_unfold {A B} (m : M A) (f : A -> M B) w :
  (m ≫= f) w = match m w with
               | (Ok a, w') => f a w'
               | (Raise e, w') => (Raise e, w')
               end.
Proof. reflexivity. Qed.

Lemma bind_Ok {A B} (m : M A) (f : A -> M B) w a w' :
  m w = (Ok a, w') -> (m ≫= f) w = f a w'.
Proof. intros E. by rewrite bind_unfold, E. Qed.

Lemma bind_Raise {A B} (m : M A) (f : A -> M B) w e w' :
  m w = (Raise e, w') -> (m ≫= f) w = (Raise e, w').
Proof. intros E. by rewrite bind_unfold, E. Qed.

(** A computation that returned splits at its first step. *)
Lemma bind_inv {A B} (m : M A) (f : A -> M B) w b w'' :
  (m ≫= f) w = (Ok b, w'') -> exists a w', m w = (Ok a, w') /\ f a w' = (Ok b, w'').
Proof. rewrite bind_unfold. destruct (m w) as [[a|e] w']; [eauto|done]. Qed.

(** ** Total correctness

    [returns m w Q]: from [w] the computation returns a value, and the value and
    the world it leaves satisfy [Q]. *)

Definition returns {A} (m : M A) (w : world) (Q : A -> world -> Prop) : Prop :=
  exists a w', m w = (Ok a, w') /\ Q a w'.

Lemma returns_intro {A} (m : M A) w a w' (Q : A -> world -> Prop) :
  m w = (Ok a, w') -> Q a w' -> returns m w Q.
Proof. intros Hm HQ. by exists a, w'. Qed.

Lemma returns_bind {A B} (m : M A) (f : A -> M B) w (P : A -> world -> Prop) (Q : B -> world -> Prop) :
  returns m w P -> (forall a w', P a w' -> returns (f a) w' Q) -> returns (m ≫= f) w Q.
Proof. intros (a & w' & Hm & HP) Hf. unfold returns. rewrite (bind_Ok _ _ _ _ _ Hm). by apply Hf. Qed.

Lemma returns_step {A B} (m : M A) (f : A -> M B) w a w' Q :
  m w = (Ok a, w') -> returns (f a) w' Q -> returns (m ≫= f) w Q.
Proof. intros Hm Hf. unfold returns. by rewrite (bind_Ok _ _ _ _ _ Hm). Qed.

Lemma returns_mono {A} (m : M A) w (P Q : A -> world -> Prop) :
  returns m w P -> (forall a w', P a w' -> Q a w') -> returns m w Q.
Proof. intros (a & w' & Hm & HP) Hf. exists a, w'. split; [done|]. by apply Hf. Qed.

(** ** Evolution of the world

    [evolves R m] says that every run of [m], whether it returns or raises,
    takes the world along [R].  For a preorder [R] the judgement composes along
    the structure of a handler, so the properties of a large handler follow
    from those of the primitive store operations it calls. *)

Definition evolves (R : world -> world -> Prop) {A} (m : M A) : Prop :=
  forall w, R w (world_after m w).

(** The preorder of an invariant. *)
Definition keeps (I : world -> Prop) : world -> world -> Prop := fun w w' => I w -> I w'.

#[export] Instance keeps_preorder I : PreOrder (keeps I).
Proof. split; unfold keeps; [by intros w|intros w1 w2 w3; auto]. Qed.

Section Evolves.
Context (R : world -> world -> Prop) `{!PreOrder R}.

Lemma evolves_ret {A} (a : A) : evolves R (mret a).
Proof. intros w. reflexivity. Qed.

Lemma evolves_raise {A} k s : evolves R (raise (A:=A) k s).
Proof. intros w. reflexivity. Qed.

Lemma evolves_reraise {A} e : evolves R (reraise (A:=A) e).
Proof. intros w. reflexivity. Qed.

Lemma evolves_gets {A} (f : world -> A) : evolves R (gets f).
Proof. intros w. reflexivity. Qed.

Lemma evolves_deref i : evolves R (deref i).
Proof. intros w. unfold world_after, deref. destruct (dget _ _); reflexivity. Qed.

Lemma evolves_bind {A B} (m : M A) (f : A -> M B) :
  evolves R m -> (forall a, evolves R (f a)) -> evolves R (m ≫= f).
Proof.
  intros Hm Hf w. unfold world_after. rewrite bind_unfold.
  specialize (Hm w). unfold world_after in Hm.
  destruct (m w) as [[a|e] w']; simpl in *; [|done].
  etransitivity; [exact Hm|apply Hf].
Qed.

Lemma evolves_try {A} (m : M A) p h :
  evolves R m -> (forall e, evolves R (h e)) -> evolves R (try_except m p h).
Proof.
  intros Hm Hh w. unfold world_after, try_except.
  specialize (Hm w). unfold world_after in Hm.
  destruct (m w) as [[a|e] w']; simpl in *; [done|].
  destruct (p e); [|done]. etransitivity; [exact Hm|apply Hh].
Qed.

Lemma evolves_finally {A} (m : M A) f :
  evolves R m -> evolves R f -> evolves R (try_finally m f).
Proof.
  intros Hm Hf w. unfold world_after, try_finally.
  specialize (Hm w). unfold world_after in Hm. destruct (m w) as [r w']. simpl in Hm.
  specialize (Hf w'). unfold world_after in Hf. destruct (f w') as [[u|e] w'']; simpl in *;
    by transitivity w'.
Qed.

Lemma evolves_py_iter v : evolves R (py_iter v).
Proof. intros w. unfold world_after, py_iter. by destruct v. Qed.

Lemma evolves_for_each {A} (f : A -> M unit) l :
  (forall x, evolves R (f x)) -> evolves R (for_each f l).
Proof.
  intros Hf. induction l as [|x l IH]; simpl; [apply evolves_ret|].
  apply evolves_bind; auto.
Qed.

Lemma evolves_collect {A B} (f : A -> M (list B)) l :
  (forall x, evolves R (f x)) -> evolves R (collect f l).
Proof.
  intros Hf. induction l as [|x l IH]; simpl; [apply evolves_ret|].
  apply evolves_bind; [auto|]. intros y. apply evolves_bind; [auto|].
  intros ys. apply evolves_ret.
Qed.

Lemma evolves_when b m : evolves R m -> evolves R (when b m).
Proof. destruct b; simpl; [done|]. intros _. apply evolves_ret. Qed.

Lemma evolves_py_dict v : evolves R (py_dict v).
Proof.
  intros w. unfold world_after, py_dict. destruct v as [| | | |[|c s]|l|d]; try reflexivity.
  generalize (@nil (string * pyval)) as acc. induction l as [|x l IH]; intros acc; [reflexivity|].
  simpl. rewrite bind_unfold.
  assert (Hp : (py_pair x w).2 = w).
  { unfold py_pair. by repeat case_match. }
  destruct (py_pair x w) as [[[k y]|e] w']; simpl in *; subst; [apply IH|reflexivity].
Qed.

Lemma evolves_modify f : (forall w, R w (f w)) -> evolves R (modify f).
Proof. intros Hf w. apply Hf. Qed.
End Evolves.

(** Walks through a handler; what remains are the primitive operations that the
    hint database [evolve] does not know. *)
Create HintDb evolve discriminated.
#[export] Hint Constants Opaque : evolve.
#[export] Hint Resolve evolves_ret evolves_raise evolves_reraise evolves_gets evolves_deref evolves_py_dict : evolve.

Ltac evolve_step :=
  match goal with
  | |- evolves _ (mret _) => apply evolves_ret; [exact _]
  | |- evolves _ (raise _ _) => apply evolves_raise; [exact _]
  | |- evolves _ (reraise _) => apply evolves_reraise; [exact _]
  | |- evolves _ (gets _) => apply evolves_gets; [exact _]
  | |- evolves _ (deref _) => apply evolves_deref; [exact _]
  | |- evolves _ (py_dict _) => apply evolves_py_dict; [exact _]
  | |- evolves _ (_ ≫= _) => apply evolves_bind; [exact _| |intros ?]
  | |- evolves _ (try_except _ _ _) => apply evolves_try; [exact _| |intros ?]
  | |- evolves _ (try_finally _ _) => apply evolves_finally; [exact _| |]
  | |- evolves _ (py_iter _) => apply evolves_py_iter; [exact _]
  | |- evolves _ (for_each _ _) => apply evolves_for_each; [exact _|intros ?]
  | |- evolves _ (collect _ _) => apply evolves_collect; [exact _|intros ?]
  | |- evolves _ (when _ _) => apply evolves_when; [exact _|]
  | |- evolves _ (match ?x with _ => _ end) => destruct x
  | |- evolves _ (let '_ := ?x in _) => destruct x
  | |- evolves _ (let x := _ in _) => cbv zeta
  | |- evolves _ _ => solve [eauto with evolve]
  end.

Ltac evolve := repeat evolve_step.

(** ** Computations that never raise *)

Definition total {A} (m : M A) : Prop := forall w, exists a w', m w = (Ok a, w').

Lemma total_ret {A} (a : A) : total (mret a).
Proof. intros w. by eexists _, _. Qed.
Lemma total_gets {A} (f : world -> A) : total (gets f).
Proof. intros w. by eexists _, _. Qed.
Lemma total_modify f : total (modify f).
Proof. intros w. by eexists _, _. Qed.
Lemma total_utc_now `{Env} : total utc_now.
Proof. intros w. by eexists _, _. Qed.
Lemma total_uuid4 `{Env} : total uuid4.
Proof. intros w. by eexists _, _. Qed.
Lemma total_assign `{Env} i f : total (assign i f).
Proof. apply total_modify. Qed.
Lemma total_bind {A B} (m : M A) (f : A -> M B) :
  total m -> (forall a, total (f a)) -> total (m ≫= f).
Proof. intros Hm Hf w. rewrite bind_unfold. destruct (Hm w) as (a & w' & ->). apply Hf. Qed.
Lemma total_when b m : total m -> total (when b m).
Proof. destruct b; simpl; [done|]. intros _. apply total_ret. Qed.
Lemma total_try {A} (m : M A) h : (forall e, total (h e)) -> total (try_except m any_exn h).
Proof.
  intros Hh w. unfold try_except. destruct (m w) as [[a|e] w']; [by eexists _, _|]. apply Hh.
Qed.
Lemma total_for_each {A} (f : A -> M unit) l : (forall x, total (f x)) -> total (for_each f l).
Proof.
  intros Hf. induction l as [|x l IH]; simpl; [apply total_ret|]. by apply total_bind.
Qed.
Lemma total_collect {A B} (f : A -> M (list B)) l : (forall x, total (f x)) -> total (collect f l).
Proof.
  intros Hf. induction l as [|x l IH]; simpl; [apply total_ret|].
  apply total_bind; [done|]. intros y. apply total_bind; [done|]. intros ys. apply total_ret.
Qed.

Create HintDb total.
#[export] Hint Resolve total_ret total_gets total_modify total_utc_now total_uuid4 total_assign
  total_bind total_when total_try total_for_each total_collect : total.

Ltac total_step :=
  match goal with
  | |- total (_ ≫= _) => apply total_bind; [|intros ?]
  | |- total (when _ _) => apply total_when
  | |- total (for_each _ _) => apply total_for_each; intros ?
  | |- total (collect _ _) => apply total_collect; intros ?
  | |- total (try_except _ any_exn _) => apply total_try; intros ?
  | |- total (match ?x with _ => _ end) => destruct x
  | |- total (let '_ := ?x in _) => destruct x
  | |- total _ => solve [eauto with total]
  end.
Ltac total := repeat total_step.

(** ** Symbolic execution of a primitive operation

    Unfolds the monad and its effects, so that what remains are the tests of the
    operation. *)

Ltac execute :=
  unfold run, result_of, world_after in *;
  cbv [mbind M_bind mret M_ret gets modify utc_now uuid4 assign deref raise reraise when
       try_except any_exn] in *; cbn in *.
