(* ===== verification/Workflow.v ===== *)
(** * Workflow definitions and the linear planner

    The workflow records of [app/domain/workflows.py], [agents.py] and
    [tools.py] (the fields that the modelled code reads), and
    [LinearWorkflowPlanner] of [app/runtime/native/planner.py]: Kahn's algorithm
    with the entrypoint in front and unreached nodes at the end. *)

From S2P Require Export PyVal.

(** ** Data *)

Inductive NodeType := NODE_AGENT | NODE_TASK | NODE_TOOL | NODE_APPROVAL | NODE_SUBWORKFLOW | NODE_TRIGGER.
#[export] Instance NodeType_eq_dec : EqDecision NodeType.
Proof. solve_decision. Defined.

Inductive EdgeType := EDGE_DEFAULT | EDGE_SUCCESS | EDGE_FAILURE | EDGE_APPROVAL | EDGE_HANDOFF.
#[export] Instance EdgeType_eq_dec : EqDecision EdgeType.
Proof. solve_decision. Defined.

Inductive ToolType :=
  | PYTHON_FUNCTION | HTTP_REQUEST | SQL_QUERY | SHELL_COMMAND | MCP_TOOL | A2A_REMOTE_AGENT
  | WORKFLOW_TOOL | HUMAN_APPROVAL.
#[export] Instance ToolType_eq_dec : EqDecision ToolType.
Proof. solve_decision. Defined.

Record TaskDefinition := mkTask {
  td_id : string;
  td_name : string;
  td_agent_id : option string;
  td_tool_ids : list string;
  td_depends_on_task_ids : list string;
  td_human_approval_required : bool;
  td_timeout_seconds : option Z;
  td_max_retries : option Z;
  td_model_profile_id : option string;
  td_max_tokens : option Z;
  td_approval_policy : option string;
  td_metadata : dict pyval
}.

Record WorkflowNode := mkNode {
  wn_id : string;
  wn_name : string;
  wn_node_type : NodeType;
  wn_agent_id : option string;
  wn_task_id : option string;
  wn_tool_id : option string;
  wn_config : dict pyval;
  wn_metadata : dict pyval
}.

Record WorkflowEdge := mkEdge {
  we_id : string;
  we_source_node_id : string;
  we_target_node_id : string;
  we_edge_type : EdgeType;
  we_condition : option string;
  we_metadata : dict pyval
}.

Record AgentDefinition := mkAgent {
  ag_id : string;
  ag_name : string;
  ag_model_profile_id : option string;
  ag_tool_ids : list string;
  ag_handoff_agent_ids : list string;
  ag_metadata : dict pyval
}.

Record SecuritySettings := mkSecurity {
  sec_requires_approval : bool;
  sec_sandbox_required : bool;
  sec_allow_shell : bool;
  sec_allow_browser : bool;
  sec_allow_filesystem : bool;
  sec_allow_network : bool;
  sec_allowlisted_domains : list string;
  sec_allowlisted_mcp_servers : list string;
  sec_module_allowlist : list string;
  sec_read_only : bool;
  sec_dangerous : bool;
  sec_connector_bindings : list (dict pyval)
}.

Record ToolDefinition := mkTool {
  tl_id : string;
  tl_name : string;
  tl_tool_type : ToolType;
  tl_input_schema : dict pyval;
  tl_target : string;                  (* implementation.target *)
  tl_config : dict pyval;              (* implementation.config *)
  tl_security : SecuritySettings;
  tl_tags : list string
}.

Record WorkflowDefinition := mkWorkflow {
  wf_id : string;
  wf_name : string;
  wf_nodes : list WorkflowNode;
  wf_edges : list WorkflowEdge;
  wf_entrypoint : string;
  wf_task_definitions : list TaskDefinition;
  wf_agent_definitions : list AgentDefinition;
  wf_tool_definitions : list ToolDefinition;
  wf_allowed_runtime_adapter_ids : list string;
  wf_default_runtime_adapter_id : option string;
  wf_max_runtime_seconds : option Z;
  wf_max_retries : option Z;
  wf_concurrency_limit : option Z;
  wf_approval_mode : option string;
  wf_metadata : dict pyval
}.

(** [workflow_repository.get_workflow] *)
Class Workflows := get_workflow : string -> option WorkflowDefinition.

(** ** The planner *)

(** [{node.id: node for node in nodes}]: the last node with an id wins. *)
Definition node_by_id (nodes : list WorkflowNode) : dict WorkflowNode :=
  fold_left (fun acc n => dset (wn_id n) n acc) nodes [].

(** [outgoing[id]], in the order of the edges. *)
Definition targets_of (edges : list WorkflowEdge) (id : string) : list string :=
  map we_target_node_id (List.filter (fun e => String.eqb (we_source_node_id e) id) edges).

(** [indegree] after the loop over the edges. *)
Definition initial_indegree (wf : WorkflowDefinition) : dict Z :=
  fold_left (fun acc e => dset (we_target_node_id e)
                            (default 0 (dget (we_target_node_id e) acc) + 1) acc)
    (wf_edges wf)
    (fold_left (fun acc n => dset (wn_id n) 0 acc) (wf_nodes wf) []).

Definition initial_queue (wf : WorkflowDefinition) (indegree : dict Z) : list string :=
  (if dmem (wf_entrypoint wf) (node_by_id (wf_nodes wf)) then [wf_entrypoint wf] else [])
  ++ map wn_id (List.filter
       (fun n => (default 0 (dget (wn_id n) indegree) =? 0)
                 && negb (String.eqb (wn_id n) (wf_entrypoint wf)))
       (wf_nodes wf)).

(** [indegree[target] -= 1], and the targets that become ready. *)
Fixpoint release_targets (targets : list string) (indegree : dict Z) : dict Z * list string :=
  match targets with
  | [] => (indegree, [])
  | t :: rest =>
      let d := default 0 (dget t indegree) - 1 in
      let '(indegree', ready) := release_targets rest (dset t d indegree) in
      (indegree', if d <=? 0 then t :: ready else ready)
  end.

(** The [while queue] loop; [seen] is the set of visited ids, [ordered] the
    nodes so far.  The fuel bounds the number of queue entries (see
    [plan_fuel]). *)
Fixpoint drain_queue (fuel : nat) (wf : WorkflowDefinition) (queue : list string)
    (indegree : dict Z) (seen : list string) (ordered : list WorkflowNode) :
    option (list string * list WorkflowNode) :=
  match queue with
  | [] => Some (seen, ordered)
  | id :: queue' =>
      match fuel with
      | O => None
      | S fuel' =>
          match dget id (node_by_id (wf_nodes wf)) with
          | None => drain_queue fuel' wf queue' indegree seen ordered
          | Some node =>
              if mem_str id seen then drain_queue fuel' wf queue' indegree seen ordered
              else
                let '(indegree', ready) := release_targets (targets_of (wf_edges wf) id) indegree in
                drain_queue fuel' wf (queue' ++ ready) indegree' (id :: seen) (ordered ++ [node])
          end
      end
  end.

(** Every queue entry is an initial one or the target of an edge out of a node
    visited once. *)
Definition plan_fuel (wf : WorkflowDefinition) : nat :=
  (1 + List.length (wf_nodes wf) + List.length (wf_edges wf))%nat.

Definition order_nodes_fuel (fuel : nat) (wf : WorkflowDefinition) : option (list WorkflowNode) :=
  match wf_nodes wf with
  | [] => Some []
  | _ :: _ =>
      let indegree := initial_indegree wf in
      match drain_queue fuel wf (initial_queue wf indegree) indegree [] [] with
      | None => None
      | Some (seen, ordered) =>
          Some (ordered ++ List.filter (fun n => negb (mem_str (wn_id n) seen)) (wf_nodes wf))
      end
  end.

(** [order_nodes(workflow)] *)
Definition order_nodes (wf : WorkflowDefinition) : list WorkflowNode :=
  default [] (order_nodes_fuel (plan_fuel wf) wf).

(** ** Facts about the planner *)

Section Planner.
Context (wf : WorkflowDefinition).

Abbreviation edges := (wf_edges wf).
Abbreviation nodes := (wf_nodes wf).

Definition indeg (v : string) (d : dict Z) : Z := default 0 (dget v d).

Definition from_unseen (seen : list string) (e : WorkflowEdge) : bool :=
  negb (mem_str (we_source_node_id e) seen).

(** The edges into [v] whose source was not visited yet. *)
Definition pending_edges (v : string) (seen : list string) : list WorkflowEdge :=
  List.filter (fun e => from_unseen seen e && String.eqb (we_target_node_id e) v) edges.

Definition occurrences (v : string) (l : list string) : nat :=
  List.length (List.filter (String.eqb v) l).

Lemma indeg_dset v t z d : indeg v (dset t z d) = if String.eqb v t then z else indeg v d.
Proof. unfold indeg. rewrite dget_dset. by destruct (String.eqb v t). Qed.

Lemma release_targets_spec targets d d' ready :
  release_targets targets d = (d', ready) ->
  (forall v, indeg v d' = indeg v d - Z.of_nat (occurrences v targets))
  /\ (forall v, In v ready -> In v targets /\ indeg v d' <= 0)
  /\ (forall v, In v targets -> indeg v d' = 0 -> In v ready)
  /\ (List.length ready <= List.length targets)%nat.
Proof.
  revert d d' ready. induction targets as [|t rest IH]; simpl; intros d d' ready.
  - intros [= <- <-]. repeat split; simpl; try done. intros v. unfold occurrences. simpl. lia.
  - destruct (release_targets rest _) as [d1 r1] eqn:E. apply IH in E as (H1 & H2 & H3 & H4).
    intros [= <- <-]. split; [|split; [|split]].
    + intros v. rewrite H1, indeg_dset. unfold occurrences. simpl.
      destruct (String.eqb_spec v t) as [->|]; simpl; [|done]. fold (indeg t d). lia.
    + intros v Hin. destruct (_ <=? 0) eqn:Hle; [destruct Hin as [<-|Hin]|].
      * split; [by left|]. apply Z.leb_le in Hle. rewrite H1, indeg_dset, String.eqb_refl. lia.
      * destruct (H2 v Hin). auto.
      * destruct (H2 v Hin). auto.
    + intros v Hin Hz. destruct (in_dec string_dec v rest) as [Hr|Hr].
      * specialize (H3 v Hr Hz). destruct (_ <=? 0); [by right|done].
      * destruct Hin as [<-|]; [|done].
        assert (Hocc : occurrences t rest = O).
        { unfold occurrences. rewrite filter_false; [done|]. intros x Hx.
          destruct (String.eqb_spec t x) as [->|]; [done|done]. }
        rewrite H1, indeg_dset, String.eqb_refl, Hocc in Hz.
        replace (default 0 (dget t d) - 1 <=? 0) with true by (symmetry; apply Z.leb_le; lia).
        by left.
    + destruct (_ <=? 0); simpl; lia.
Qed.

(** Visiting [id] takes its outgoing edges out of the pending ones. *)
Lemma pending_edges_visit v id seen :
  mem_str id seen = false ->
  (List.length (pending_edges v (id :: seen)) + occurrences v (targets_of edges id)
   = List.length (pending_edges v seen))%nat.
Proof.
  intros Hid. unfold pending_edges, targets_of, occurrences, from_unseen. simpl.
  induction edges as [|e l IH]; simpl; [done|].
  rewrite (String.eqb_sym (we_source_node_id e) id).
  destruct (String.eqb_spec id (we_source_node_id e)) as [<-|Hne]; simpl.
  - rewrite Hid. simpl. rewrite (String.eqb_sym v).
    destruct (String.eqb _ v); simpl; lia.
  - destruct (mem_str (we_source_node_id e) seen), (String.eqb _ v); simpl; lia.
Qed.

Definition unseen_edges (seen : list string) : nat := List.length (List.filter (from_unseen seen) edges).

Lemma unseen_edges_visit id seen :
  mem_str id seen = false ->
  (unseen_edges (id :: seen) + List.length (targets_of edges id) = unseen_edges seen)%nat.
Proof.
  intros Hid. unfold unseen_edges, targets_of, from_unseen. simpl. rewrite length_map.
  induction edges as [|e l IH]; simpl; [done|].
  rewrite (String.eqb_sym (we_source_node_id e) id).
  destruct (String.eqb_spec id (we_source_node_id e)) as [<-|Hne]; simpl.
  - rewrite Hid. simpl. lia.
  - destruct (mem_str (we_source_node_id e) seen); simpl; lia.
Qed.

Lemma drain_queue_total fuel queue d seen ordered :
  (List.length queue + unseen_edges seen <= fuel)%nat ->
  exists r, drain_queue fuel wf queue d seen ordered = Some r.
Proof.
  revert queue d seen ordered.
  induction fuel as [|fuel IH]; intros [|id queue] d seen ordered Hle; simpl in *; try (by eexists);
    [lia|].
  destruct (dget id (node_by_id nodes)) as [node|]; [|apply IH; lia].
  destruct (mem_str id seen) eqn:Hs; [apply IH; lia|].
  destruct (release_targets _ d) as [d' ready] eqn:E.
  apply release_targets_spec in E as (_ & _ & _ & Hlen).
  apply IH. rewrite length_app. pose proof (unseen_edges_visit id seen Hs). lia.
Qed.

Lemma filter_length_le' {A} (p : A -> bool) l : (List.length (List.filter p l) <= List.length l)%nat.
Proof. induction l as [|x l IH]; simpl; [done|]. destruct (p x); simpl; lia. Qed.

Lemma plan_terminates : exists l, order_nodes_fuel (plan_fuel wf) wf = Some l.
Proof.
  unfold order_nodes_fuel. destruct nodes as [|n l] eqn:Hn; [by eexists|].
  edestruct (drain_queue_total (plan_fuel wf)) as [[seen ordered] Hr].
  2: { rewrite Hr. by eexists. }
  unfold initial_queue, plan_fuel, unseen_edges. rewrite length_app, length_map.
  pose proof (filter_length_le' (fun n => (default 0 (dget (wn_id n) (initial_indegree wf)) =? 0)
    && negb (String.eqb (wn_id n) (wf_entrypoint wf))) nodes).
  pose proof (filter_length_le' (from_unseen []) edges).
  destruct (dmem _ _); simpl; lia.
Qed.


(** ** Soundness *)

Definition node_ids : list string := map wn_id nodes.

Lemma node_by_id_sound id n : dget id (node_by_id nodes) = Some n -> In n nodes /\ wn_id n = id.
Proof.
  unfold node_by_id. cut (forall l acc, (forall k m, dget k acc = Some m -> In m nodes /\ wn_id m = k) ->
    (forall m, In m l -> In m nodes) ->
    dget id (fold_left (fun acc n => dset (wn_id n) n acc) l acc) = Some n ->
    In n nodes /\ wn_id n = id).
  { intros Hcut. apply Hcut; auto. intros k m. simpl. done. }
  induction l as [|m l IH]; simpl; intros acc Hacc Hl; [apply Hacc|].
  apply IH; auto. intros k m'. rewrite dget_dset.
  destruct (String.eqb_spec k (wn_id m)) as [->|]; [|apply Hacc]. intros [= <-]. auto.
Qed.

Lemma node_by_id_complete n : In n nodes -> dget (wn_id n) (node_by_id nodes) <> None.
Proof.
  unfold node_by_id. cut (forall l acc, In n l \/ dget (wn_id n) acc <> None ->
    dget (wn_id n) (fold_left (fun acc n => dset (wn_id n) n acc) l acc) <> None).
  { intros Hcut Hin. apply Hcut. by left. }
  induction l as [|m l IH]; simpl; intros acc [Hin|Hacc]; try done.
  - destruct Hin as [->|Hin]; apply IH; [right|by left]. by rewrite dget_dset_eq.
  - apply IH. right. rewrite dget_dset. by destruct (String.eqb _ _).
Qed.

(** What every iteration of the loop maintains about the visited nodes. *)
Record visited_ok (seen : list string) (ordered : list WorkflowNode) : Prop := {
  vo_ids : map wn_id ordered = rev seen;
  vo_nodup : List.NoDup seen;
  vo_nodes : forall n, In n ordered -> In n nodes
}.

Lemma visited_ok_snoc id n seen ordered :
  visited_ok seen ordered -> dget id (node_by_id nodes) = Some n -> mem_str id seen = false ->
  visited_ok (id :: seen) (ordered ++ [n]).
Proof.
  intros [Hids Hnd Hin] Hn Hs. apply node_by_id_sound in Hn as [Hn Hid]. apply mem_str_false in Hs.
  split; [by rewrite map_app, Hids; simpl; rewrite Hid|by constructor|].
  intros m [Hm|[<-|[]]]%in_app_or; auto.
Qed.

Lemma drain_queue_visited fuel queue d seen ordered seen' ordered' :
  drain_queue fuel wf queue d seen ordered = Some (seen', ordered') ->
  visited_ok seen ordered -> visited_ok seen' ordered'.
Proof.
  revert queue d seen ordered.
  induction fuel as [|fuel IH]; intros [|id queue] d seen ordered; simpl; intros Hrun Hok;
    try (by injection Hrun as <- <-); [done|].
  destruct (dget id (node_by_id nodes)) as [n|] eqn:Hn; [|by eapply IH].
  destruct (mem_str id seen) eqn:Hs; [by eapply IH|].
  destruct (release_targets _ d) as [d' ready]. eapply IH; [exact Hrun|by apply visited_ok_snoc].
Qed.

Lemma order_nodes_split :
  nodes <> [] -> exists seen ordered,
    drain_queue (plan_fuel wf) wf (initial_queue wf (initial_indegree wf)) (initial_indegree wf) [] []
      = Some (seen, ordered)
    /\ order_nodes wf = ordered ++ List.filter (fun n => negb (mem_str (wn_id n) seen)) nodes.
Proof.
  intros Hne. destruct plan_terminates as [l Hl]. unfold order_nodes. rewrite Hl.
  unfold order_nodes_fuel in Hl. destruct nodes as [|n0 ns]; [done|].
  destruct (drain_queue _ _ _ _ _ _) as [[seen ordered]|]; [|done].
  injection Hl as <-. by exists seen, ordered.
Qed.

Lemma plan_permutation : List.NoDup node_ids -> Permutation (order_nodes wf) nodes.
Proof.
  intros Hnd. destruct nodes as [|n0 ns] eqn:Hnodes.
  { unfold order_nodes, order_nodes_fuel. by rewrite Hnodes. }
  rewrite <-Hnodes. destruct order_nodes_split as (seen & ordered & Hrun & ->); [by rewrite Hnodes|].
  apply drain_queue_visited in Hrun as [Hids Hns Hin]; [|split; [done|constructor|done]].
  assert (Hndo : List.NoDup (map wn_id ordered)) by (rewrite Hids; by apply NoDup_rev).
  apply NoDup_Permutation.
  - apply NoDup_app. split; [|split].
    + apply NoDup_ListNoDup. by eapply NoDup_map_inv.
    + intros n. rewrite !list_elem_of_In. intros Ho [_ Hf]%filter_In.
      apply negb_true_iff, mem_str_false in Hf. apply Hf.
      apply in_rev. rewrite <-Hids. by apply in_map.
    + apply NoDup_ListNoDup, List.NoDup_filter. by eapply NoDup_map_inv.
  - apply NoDup_ListNoDup. by eapply NoDup_map_inv.
  - intros n. rewrite !list_elem_of_In, in_app_iff, filter_In. split; [intros [Ho|[Hn _]]; auto|].
    intros Hn. destruct (mem_str (wn_id n) seen) eqn:Hs; [left|by right].
    apply mem_str_In in Hs. rewrite in_rev, <-Hids in Hs. apply in_map_iff in Hs as (m & Hm & Ho).
    enough (m = n) as <- by done.
    unfold node_ids in Hnd. clear -Hnd Hm Hn Ho Hin. specialize (Hin m Ho).
    revert Hnd Hin Hn. generalize nodes as l. induction l as [|x l IH]; simpl; [done|].
    intros [Hni Hnd]%NoDup_cons_iff [->|Hin] [->|Hn]; auto.
    + exfalso. apply Hni. rewrite Hm. by apply in_map.
    + exfalso. apply Hni. rewrite <-Hm. by apply in_map.
Qed.

(** ** Topological order *)

(** Every predecessor of a node of [l] comes earlier in [l]. *)
Definition topological (l : list WorkflowNode) : Prop :=
  forall l1 n l2 e, l = l1 ++ n :: l2 -> In e edges -> we_target_node_id e = wn_id n ->
    In (we_source_node_id e) (map wn_id l1).

Lemma topological_snoc l n :
  topological l ->
  (forall e, In e edges -> we_target_node_id e = wn_id n -> In (we_source_node_id e) (map wn_id l)) ->
  topological (l ++ [n]).
Proof.
  intros Hl Hn l1 m l2 e Heq He Ht.
  destruct l2 as [|m' l2] using rev_ind.
  - apply app_inj_tail in Heq as [-> ->]. auto.
  - clear IHl2. rewrite app_comm_cons, app_assoc in Heq.
    apply app_inj_tail in Heq as [-> ->]. by eapply (Hl l1 m l2 e).
Qed.

Lemma pending_nil_sources v seen :
  pending_edges v seen = [] ->
  forall e, In e edges -> we_target_node_id e = v -> In (we_source_node_id e) seen.
Proof.
  intros Hnil e He <-. apply mem_str_In. destruct (mem_str _ seen) eqn:Hs; [done|].
  enough (Hin : In e (pending_edges (we_target_node_id e) seen)) by (rewrite Hnil in Hin; done).
  apply filter_In. split; [done|]. unfold from_unseen. by rewrite Hs, String.eqb_refl.
Qed.

Record kahn (queue : list string) (d : dict Z) (seen : list string) (ordered : list WorkflowNode) :
  Prop := {
  kh_visited : visited_ok seen ordered;
  kh_indeg : forall v, indeg v d = Z.of_nat (List.length (pending_edges v seen));
  kh_ready : forall v, In v queue -> pending_edges v seen = [];
  kh_complete : forall v, In v node_ids -> ~ In v seen -> pending_edges v seen = [] -> In v queue;
  kh_topo : topological ordered
}.

Lemma pending_shrinks v id seen :
  mem_str id seen = false -> pending_edges v seen = [] -> pending_edges v (id :: seen) = [].
Proof.
  intros Hid Hnil. pose proof (pending_edges_visit v id seen Hid) as Hlen. rewrite Hnil in Hlen.
  simpl in Hlen. apply length_zero_iff_nil. lia.
Qed.

Lemma kahn_skip id queue d seen ordered :
  kahn (id :: queue) d seen ordered -> (In id node_ids -> In id seen) -> kahn queue d seen ordered.
Proof.
  intros [Hv Hi Hr Hc Ht] Hid. split; auto.
  - intros v Hin. apply Hr. by right.
  - intros v Hin Hns Hp. destruct (Hc v Hin Hns Hp) as [<-|]; [|done]. exfalso. auto.
Qed.

Lemma kahn_visit id n queue d seen ordered d' ready :
  kahn (id :: queue) d seen ordered -> dget id (node_by_id nodes) = Some n ->
  mem_str id seen = false -> release_targets (targets_of edges id) d = (d', ready) ->
  kahn (queue ++ ready) d' (id :: seen) (ordered ++ [n]).
Proof.
  intros [Hv Hi Hr Hc Ht] Hn Hs Hrel.
  pose proof (release_targets_spec _ _ _ _ Hrel) as (H1 & H2 & H3 & _).
  assert (Hindeg : forall v, indeg v d' = Z.of_nat (List.length (pending_edges v (id :: seen)))).
  { intros v. rewrite H1, Hi. pose proof (pending_edges_visit v id seen Hs). lia. }
  split.
  - by apply visited_ok_snoc.
  - exact Hindeg.
  - intros v [Hin|Hin]%in_app_or.
    + apply pending_shrinks; [done|]. apply Hr. by right.
    + destruct (H2 v Hin) as [_ Hle]. rewrite Hindeg in Hle. apply length_zero_iff_nil. lia.
  - intros v Hin Hns Hp. apply in_or_app.
    destruct (pending_edges v seen) as [|e0 l0] eqn:Hp0.
    + left. destruct (Hc v Hin) as [<-|]; auto; [|exfalso; apply Hns; by left].
      intros Hs0. apply Hns. by right.
    + right. apply H3; [|rewrite Hindeg, Hp; done].
      pose proof (pending_edges_visit v id seen Hs) as Hlen. rewrite Hp, Hp0 in Hlen. simpl in Hlen.
      unfold occurrences in Hlen.
      destruct (List.filter (String.eqb v) (targets_of edges id)) as [|t l] eqn:Hf; [done|].
      assert (Hint : In t (List.filter (String.eqb v) (targets_of edges id))) by (rewrite Hf; by left).
      apply filter_In in Hint as [Hint ->%String.eqb_eq]. done.
  - apply topological_snoc; [done|]. intros e He Hte.
    rewrite (vo_ids _ _ Hv), <-in_rev. apply (pending_nil_sources (wn_id n)); auto.
    apply node_by_id_sound in Hn as [_ ->]. apply Hr. by left.
Qed.

Lemma drain_queue_kahn fuel queue d seen ordered seen' ordered' :
  drain_queue fuel wf queue d seen ordered = Some (seen', ordered') ->
  kahn queue d seen ordered -> exists d', kahn [] d' seen' ordered'.
Proof.
  revert queue d seen ordered.
  induction fuel as [|fuel IH]; intros [|id queue] d seen ordered; simpl; intros Hrun Hok;
    try (injection Hrun as <- <-; by exists d); [done|].
  destruct (dget id (node_by_id nodes)) as [n|] eqn:Hn.
  - destruct (mem_str id seen) eqn:Hs.
    + eapply IH; [exact Hrun|]. eapply kahn_skip; [exact Hok|]. intros _. by apply mem_str_In.
    + destruct (release_targets _ d) as [d' ready] eqn:Hrel.
      eapply IH; [exact Hrun|]. by eapply kahn_visit.
  - eapply IH; [exact Hrun|]. eapply kahn_skip; [exact Hok|].
    intros (m & <- & Hm)%in_map_iff. by apply node_by_id_complete in Hm.
Qed.

Lemma initial_indegree_spec v :
  indeg v (initial_indegree wf) = Z.of_nat (List.length (pending_edges v [])).
Proof.
  assert (Hn : forall l d, indeg v d = 0 -> indeg v (fold_left (fun acc n => dset (wn_id n) 0 acc) l d) = 0).
  { induction l as [|n l IH]; simpl; intros d Hd; [done|]. apply IH. rewrite indeg_dset.
    by destruct (String.eqb _ _). }
  assert (He : forall l d, indeg v (fold_left (fun acc e => dset (we_target_node_id e)
      (default 0 (dget (we_target_node_id e) acc) + 1) acc) l d) =
    indeg v d + Z.of_nat (List.length (List.filter (fun e => String.eqb (we_target_node_id e) v) l))).
  { induction l as [|e l IH]; simpl; intros d; [lia|]. rewrite IH, indeg_dset, (String.eqb_sym v).
    destruct (String.eqb_spec (we_target_node_id e) v) as [->|]; simpl; [|lia].
    fold (indeg v d). lia. }
  unfold initial_indegree. rewrite He, Hn by done. unfold pending_edges. simpl. done.
Qed.

Lemma kahn_initial :
  (forall e, In e edges -> we_target_node_id e <> wf_entrypoint wf) ->
  kahn (initial_queue wf (initial_indegree wf)) (initial_indegree wf) [] [].
Proof.
  intros Hentry.
  assert (Hep : pending_edges (wf_entrypoint wf) [] = []).
  { apply filter_false. intros e He. apply andb_false_iff. right. apply String.eqb_neq. auto. }
  split.
  - split; [done|constructor|done].
  - apply initial_indegree_spec.
  - intros v [Hin|Hin]%in_app_or.
    + destruct (dmem _ _); [|done]. by destruct Hin as [<-|[]].
    + apply in_map_iff in Hin as (n & <- & [_ [Hz%Z.eqb_eq _]%andb_prop]%filter_In).
      fold (indeg (wn_id n) (initial_indegree wf)) in Hz.
      rewrite initial_indegree_spec in Hz. apply length_zero_iff_nil. lia.
  - intros v (n & <- & Hn)%in_map_iff _ Hp. apply in_or_app.
    destruct (String.eqb_spec (wn_id n) (wf_entrypoint wf)) as [Heq|Hne].
    + left. unfold dmem. rewrite <-Heq.
      pose proof (node_by_id_complete n Hn). destruct (dget _ _); [by left|done].
    + right. apply in_map, filter_In. split; [done|].
      fold (indeg (wn_id n) (initial_indegree wf)). rewrite initial_indegree_spec, Hp.
      apply String.eqb_neq in Hne. by rewrite Hne.
  - intros l1 n l2 e Heq. by destruct l1.
Qed.

Lemma kahn_visits_all d seen ordered (rank : string -> nat) :
  kahn [] d seen ordered ->
  (forall e, In e edges -> In (we_source_node_id e) node_ids
                           /\ (rank (we_source_node_id e) < rank (we_target_node_id e))%nat) ->
  forall v, In v node_ids -> In v seen.
Proof.
  intros Hk Hrank v. remember (rank v) as k eqn:Hkv. revert v Hkv.
  induction k as [k IH] using lt_wf_ind. intros v -> Hv.
  destruct (in_dec string_dec v seen) as [|Hns]; [done|]. exfalso.
  destruct (pending_edges v seen) as [|e l] eqn:Hp; [by apply (kh_complete _ _ _ _ Hk v)|].
  assert (Hin : In e (pending_edges v seen)) by (rewrite Hp; by left).
  apply filter_In in Hin as [He [Hu Ht%String.eqb_eq]%andb_prop].
  destruct (Hrank e He) as [Hsrc Hlt]. rewrite Ht in Hlt.
  apply negb_true_iff, mem_str_false in Hu. apply Hu.
  by apply (IH (rank (we_source_node_id e))).
Qed.

Lemma plan_topological (rank : string -> nat) :
  (forall e, In e edges -> In (we_source_node_id e) node_ids
                           /\ (rank (we_source_node_id e) < rank (we_target_node_id e))%nat) ->
  (forall e, In e edges -> we_target_node_id e <> wf_entrypoint wf) ->
  topological (order_nodes wf).
Proof.
  intros Hrank Hentry. destruct nodes as [|n0 ns] eqn:Hnodes.
  { unfold order_nodes, order_nodes_fuel. rewrite Hnodes. intros l1 n l2 e Heq. by destruct l1. }
  destruct order_nodes_split as (seen & ordered & Hrun & ->); [by rewrite Hnodes|].
  destruct (drain_queue_kahn _ _ _ _ _ _ _ Hrun (kahn_initial Hentry)) as [d' Hk].
  rewrite filter_false, app_nil_r; [by apply Hk|].
  intros n Hn. apply negb_false_iff, mem_str_In. eapply kahn_visits_all; [exact Hk|done|].
  by apply in_map.
Qed.

End Planner.

(** ** Witnesses *)

Definition sample_node (id : string) : WorkflowNode :=
  mkNode id id NODE_TASK None (Some id) None [] [].
Definition sample_edge (a b : string) : WorkflowEdge := mkEdge (a +:+ b) a b EDGE_DEFAULT None [].

(** A diamond, declared in an order that is not topological. *)
Definition diamond : WorkflowDefinition :=
  mkWorkflow "wf" "wf" (map sample_node ["d"; "c"; "b"; "a"])
    [sample_edge "a" "b"; sample_edge "a" "c"; sample_edge "b" "d"; sample_edge "c" "d"]
    "a" [] [] [] [] None None None None None [].

Example diamond_order : map wn_id (order_nodes diamond) = ["a"; "b"; "c"; "d"].
Proof. reflexivity. Qed.


(** * Searching a workflow graph for a later task node

    The same [while pending] loop is written in
    [ExecutionControlPlane._has_completed_workflow_checkpoint]
    ([app/runtime/control_plane.py]) and in [_terminal_executable_node_ids]
    ([app/runtime/native/engine.py]): a depth-first search with an explicit stack.
    Here are its model, its fuel and its correctness against reachability. *)

(** [outgoing[id]] *)
Definition outgoing (edges : list WorkflowEdge) (id : string) : list string := targets_of edges id.

(** The [while pending] loop: a depth-first search over a stack whose top is the
    end of the list, looking for a task node. *)
Fixpoint reaches_later_task (fuel : nat) (edges : list WorkflowEdge) (task_node_ids : list string)
    (pending seen : list string) : option bool :=
  match last pending with
  | None => Some false
  | Some target =>
      match fuel with
      | O => None
      | S fuel' =>
          let pending' := removelast pending in
          if mem_str target seen then reaches_later_task fuel' edges task_node_ids pending' seen
          else if mem_str target task_node_ids then Some true
          else reaches_later_task fuel' edges task_node_ids (pending' ++ outgoing edges target)
                 (target :: seen)
      end
  end.

(** Every stack entry is the target of an edge out of the start or out of a node
    visited once. *)
Definition search_fuel (edges : list WorkflowEdge) : nat := S (2 * List.length edges).

Definition is_task_node (n : WorkflowNode) : bool := bool_decide (wn_node_type n = NODE_TASK).

(** ** The search for a later task node *)

Section Search.
Context (edges : list WorkflowEdge) (tasks : list string).

(** A task node can be reached from [x] (or is [x]). *)
Inductive leads_to_task : string -> Prop :=
  | leads_here x : In x tasks -> leads_to_task x
  | leads_via x y : In y (outgoing edges x) -> leads_to_task y -> leads_to_task x.

(** Edges out of nodes that were not expanded yet. *)
Definition unexpanded (seen : list string) : nat :=
  List.length (List.filter (fun e => negb (mem_str (we_source_node_id e) seen)) edges).

Lemma unexpanded_expand t seen :
  mem_str t seen = false ->
  (unexpanded (t :: seen) + List.length (outgoing edges t) = unexpanded seen)%nat.
Proof.
  intros Ht. unfold unexpanded, outgoing, targets_of. rewrite length_map.
  induction edges as [|e l IH]; simpl in *; [done|].
  destruct (String.eqb_spec (we_source_node_id e) t) as [->|Hne].
  - rewrite Ht. simpl. lia.
  - simpl. destruct (mem_str (we_source_node_id e) seen); simpl; lia.
Qed.

Lemma search_terminates fuel pending seen :
  (List.length pending + unexpanded seen <= fuel)%nat ->
  exists b, reaches_later_task fuel edges tasks pending seen = Some b.
Proof.
  revert pending seen. induction fuel as [|fuel IH]; intros pending seen Hf.
  - destruct pending; simpl in *; [by exists false|lia].
  - destruct pending as [|t pending _] using rev_ind; [by exists false|].
    simpl. rewrite last_snoc, removelast_last. rewrite length_app in Hf. simpl in Hf.
    destruct (mem_str t seen) eqn:Hs; [apply IH; lia|].
    destruct (mem_str t tasks); [by exists true|].
    apply IH. rewrite length_app. pose proof (unexpanded_expand t seen Hs). lia.
Qed.

Lemma search_sound fuel pending seen :
  reaches_later_task fuel edges tasks pending seen = Some true ->
  exists y, In y pending /\ leads_to_task y.
Proof.
  revert pending seen. induction fuel as [|fuel IH]; intros pending seen;
    (destruct pending as [|t pending _] using rev_ind; [done|]); simpl; rewrite last_snoc; [done|].
  rewrite removelast_last. destruct (mem_str t seen).
  - intros (y & Hy & Hl)%IH. exists y. split; [|done]. apply in_or_app. by left.
  - destruct (mem_str t tasks) eqn:Htask.
    + intros _. exists t. split; [apply in_or_app; right; by left|].
      apply leads_here. by apply mem_str_In.
    + intros (y & Hy & Hl)%IH. apply in_app_or in Hy as [Hy|Hy].
      * exists y. split; [|done]. apply in_or_app. by left.
      * exists t. split; [apply in_or_app; right; by left|]. by apply (leads_via t y).
Qed.

(** Seen nodes are not tasks and their targets are seen or pending. *)
Definition explored (pending seen : list string) : Prop :=
  forall x, In x seen -> ~ In x tasks
    /\ forall y, In y (outgoing edges x) -> In y seen \/ In y pending.

Lemma search_complete fuel pending seen :
  reaches_later_task fuel edges tasks pending seen = Some false -> explored pending seen ->
  forall y, In y seen \/ In y pending -> ~ leads_to_task y.
Proof.
  revert pending seen. induction fuel as [|fuel IH]; intros pending seen;
    (destruct pending as [|t pending _] using rev_ind;
     [intros _ Hex y [Hy|[]] Hl; induction Hl as [x Hx|x y Hxy Hl IHl];
      [by apply (Hex x)|]; destruct (Hex x Hy) as [_ Ho]; destruct (Ho y Hxy) as [Hin|[]]; auto|]);
    simpl; rewrite last_snoc; [done|].
  rewrite removelast_last. destruct (mem_str t seen) eqn:Hs.
  - apply mem_str_In in Hs. intros Hrun Hex y Hy. apply (IH pending seen Hrun).
    + intros x Hx. destruct (Hex x Hx) as [Hnt Ho]. split; [done|]. intros z Hz.
      destruct (Ho z Hz) as [|Hin]; [by left|].
      apply in_app_or in Hin as [Hin|[<-|[]]]; [by right|by left].
    + destruct Hy as [|Hin]; [by left|].
      apply in_app_or in Hin as [Hin|[<-|[]]]; [by right|by left].
  - destruct (mem_str t tasks) eqn:Htask; [done|]. intros Hrun Hex y Hy.
    apply (IH (pending ++ outgoing edges t) (t :: seen) Hrun).
    + intros x [<-|Hx].
      * split.
        -- intros Hin. apply mem_str_In in Hin. congruence.
        -- intros z Hz. right. apply in_or_app. by right.
      * destruct (Hex x Hx) as [Hnt Ho]. split; [done|]. intros z Hz.
        destruct (Ho z Hz) as [|Hin]; [by left; right|].
        apply in_app_or in Hin as [Hin|[<-|[]]]; [|by left; left].
        right. apply in_or_app. by left.
    + destruct Hy as [|Hin]; [by left; right|].
      apply in_app_or in Hin as [Hin|[<-|[]]]; [|by left; left].
      right. apply in_or_app. by left.
Qed.
End Search.

Lemma outgoing_length edges id : (List.length (outgoing edges id) <= List.length edges)%nat.
Proof. unfold outgoing, targets_of. rewrite length_map. apply filter_length_le. Qed.
