(* ===== verification/Store.v ===== *)
(** * The in-memory execution store

    [InMemoryExecutionRepository], [InMemoryExecutionEventRepository] and
    [InMemoryExecutionArtifactRepository] of [app/db/repositories/executions.py],
    composed by [InMemoryExecutionStore] of [app/runtime/native/state.py]: the
    ledger of executions, events, approval rows and durable waits, with the
    worker lock.  Execution objects are named by their id (see [World]). *)

From S2P Require Export World.

(** The members of a set of status values. *)
Definition ACTIVE_STATUS_VALUES : list string :=
  ["queued"; "running"; "waiting_for_input"; "waiting_for_approval"; "waiting_for_event";
   "sleeping"; "paused"; "cancelling"].

Definition TERMINAL_EXECUTION_WAIT_STATUSES : list ExecutionWaitStatus :=
  [WAIT_RESOLVED; WAIT_EXPIRED; WAIT_CANCELLED].

(** ** Filters of [list_executions] *)

Inductive execution_filter :=
  | status_in (values : list string)
  | attribute_is (matches : Execution -> bool).

Definition filter_matches (e : Execution) (f : execution_filter) : bool :=
  match f with
  | status_in values => mem_str (status_value (ex_status e)) values
  | attribute_is matches => matches e
  end.

Definition status_of_value (s : string) : option ExecutionStatus :=
  List.find (fun st => String.eqb (status_value st) s)
    [CREATED; QUEUED; RUNNING; WAITING_FOR_INPUT; WAITING_FOR_APPROVAL; WAITING_FOR_EVENT;
     SLEEPING; PAUSED; CANCELLING; COMPLETED; FAILED; CANCELLED].

(** ** Orderings used by [sorted] and [max] *)

Definition wait_is_pending (wt : ExecutionWait) : bool := bool_decide (wt_status wt = WAIT_PENDING).

(** [(created_at, id)] *)
Definition wait_created_le (a b : ExecutionWait) : bool :=
  (wt_created_at a <? wt_created_at b)
  || (wt_created_at a =? wt_created_at b) && string_leb (wt_id a) (wt_id b).

(** [(key, created_at, id)] *)
Definition wait_time_le (key : ExecutionWait -> option Z) (a b : ExecutionWait) : bool :=
  let ka := default 0 (key a) in
  let kb := default 0 (key b) in
  (ka <? kb) || (ka =? kb) && wait_created_le a b.

(** [(requested_at, id)] *)
Definition approval_le (a b : ApprovalRequest) : bool :=
  if String.eqb (ar_requested_at a) (ar_requested_at b) then string_leb (ar_id a) (ar_id b)
  else string_leb (ar_requested_at a) (ar_requested_at b).

(** [max(l, key=...)] returns the first maximal element. *)
Fixpoint py_max_from {A} (le : A -> A -> bool) (best : A) (l : list A) : A :=
  match l with
  | [] => best
  | x :: l' => py_max_from le (if le x best then best else x) l'
  end.
Definition py_max {A} (le : A -> A -> bool) (l : list A) : option A :=
  match l with [] => None | x :: l' => Some (py_max_from le x l') end.

Lemma py_max_map {A} (le : A -> A -> bool) (f : A -> A) l :
  (forall x y, le (f x) (f y) = le x y) -> py_max le (map f l) = f <$> py_max le l.
Proof.
  intros Hf. destruct l as [|x l]; simpl; [done|]. f_equal. revert x.
  induction l as [|y l IH]; intros x; simpl; [done|]. rewrite Hf. rewrite <-IH. by destruct (le y x).
Qed.

Section Store.
Context `{Env}.

(** ** Execution repository *)

Definition create_execution (e : Execution) : M string :=
  now ← utc_now;
  modify (fun w => set_w_executions (dset (ex_id e) (set_ex_updated_at now e) (w_executions w)) w);;
  mret (ex_id e).

(** [save_execution] of an object that the repository already holds. *)
Definition repo_save_execution (i : string) : M unit :=
  now ← utc_now;
  assign i (set_ex_updated_at now).

Definition update_execution_status (i : string) (st : string) (worker_id : option string)
    (started_at ended_at last_heartbeat_at : option Z)
    (error_json output_json : option (dict pyval)) : M (option string) :=
  found ← gets (fun w => dget i (w_executions w));
  match found with
  | None => mret None
  | Some _ =>
      match status_of_value st with
      | None => raise ValueError (st +:+ " is not a valid ExecutionStatus")
      | Some status =>
          assign i (set_ex_status status);;
          now ← utc_now;
          assign i (set_ex_updated_at now);;
          when (opt_some worker_id) (assign i (set_ex_worker_id worker_id));;
          when (opt_some started_at) (assign i (set_ex_started_at started_at));;
          when (opt_some ended_at) (assign i (set_ex_completed_at ended_at));;
          when (opt_some last_heartbeat_at)
            (assign i (set_ex_last_heartbeat_at last_heartbeat_at));;
          match error_json with
          | None => mret tt
          | Some err =>
              let message := py_or (py_or (pget "message" err) (pget "error" err))
                               (PStr (py_str env_float_repr (PDict err))) in
              assign i (set_ex_error (as_str message))
          end;;
          when (opt_some output_json) (assign i (set_ex_output_payload output_json));;
          mret (Some i)
      end
  end.

Definition get_execution (i : string) : M (option Execution) :=
  gets (fun w => dget i (w_executions w)).

Definition list_executions (filters : list execution_filter) : M (list string) :=
  gets (fun w => map fst
    (List.filter (fun kv => forallb (filter_matches kv.2) filters) (w_executions w))).

Definition repo_delete_execution (i : string) : M bool :=
  found ← gets (fun w => dmem i (w_executions w));
  modify (fun w => set_w_executions (dpop i (w_executions w)) w);;
  mret found.

(** ** Event repository: the sequence counter is per execution and never reused *)

Definition append_event (ev : ExecutionEvent) : M ExecutionEvent :=
  last ← gets (fun w => default 0 (dget (ev_execution_id ev) (w_sequences w)));
  let next_sequence := last + 1 in
  modify (fun w => set_w_sequences (dset (ev_execution_id ev) next_sequence (w_sequences w)) w);;
  let ev' := set_ev_sequence next_sequence ev in
  modify (fun w => set_w_events
    (dset (ev_execution_id ev)
       (default [] (dget (ev_execution_id ev) (w_events w)) ++ [ev']) (w_events w)) w);;
  mret ev'.

Definition list_events (i : string) : M (list ExecutionEvent) :=
  gets (fun w => default [] (dget i (w_events w))).

Definition list_events_after_sequence (i : string) (after : Z) : M (list ExecutionEvent) :=
  gets (fun w => List.filter (fun ev => after <? ev_sequence ev) (default [] (dget i (w_events w)))).

(** Removes the event from the first execution that has it. *)
Fixpoint delete_event_in (event_id : string) (d : dict (list ExecutionEvent)) :
    option (dict (list ExecutionEvent)) :=
  match d with
  | [] => None
  | (i, evs) :: d' =>
      let remaining := List.filter (fun ev => negb (String.eqb (ev_id ev) event_id)) evs in
      if (List.length remaining =? List.length evs)%nat
      then d'' ← delete_event_in event_id d'; Some ((i, evs) :: d'')
      else Some ((i, remaining) :: d')
  end.

Definition delete_event (event_id : string) : M bool :=
  result ← gets (fun w => delete_event_in event_id (w_events w));
  match result with
  | Some d => modify (set_w_events d);; mret true
  | None => mret false
  end.

(** ** Artifact repository *)

Definition create_artifact (a : ExecutionArtifact) : M ExecutionArtifact :=
  modify (fun w => set_w_artifacts
    (dset (af_execution_id a)
       (default [] (dget (af_execution_id a) (w_artifacts w)) ++ [a]) (w_artifacts w)) w);;
  mret a.

Definition list_artifacts (i : string) : M (list ExecutionArtifact) :=
  gets (fun w => default [] (dget i (w_artifacts w))).

(** ** InMemoryExecutionStore: executions *)

Definition save_execution (e : Execution) : M string :=
  existing ← get_execution (ex_id e);
  match existing with
  | None => create_execution e
  | Some _ =>
      now ← utc_now;
      modify (fun w => set_w_executions (dset (ex_id e) (set_ex_updated_at now e) (w_executions w)) w);;
      mret (ex_id e)
  end.

Definition update_execution (i : string) : M unit := repo_save_execution i.

Definition list_active_executions : M (list string) :=
  list_executions [status_in ACTIVE_STATUS_VALUES].

Definition list_executions_by_workflow (workflow_id : string) : M (list string) :=
  list_executions [attribute_is (fun e => String.eqb (ex_workflow_id e) workflow_id)].

Definition delete_execution (i : string) : M bool :=
  deleted ← repo_delete_execution i;
  modify (fun w => set_w_events (dpop i (w_events w)) w);;
  modify (fun w => set_w_artifacts (dpop i (w_artifacts w)) w);;
  modify (fun w => set_w_approvals
    (List.filter (fun kv => negb (String.eqb (ar_execution_id kv.2) i)) (w_approvals w)) w);;
  modify (fun w => set_w_waits
    (List.filter (fun kv => negb (String.eqb (wt_execution_id kv.2) i)) (w_waits w)) w);;
  mret deleted.

(** ** InMemoryExecutionStore: approval rows *)

Definition create_approval_request (execution_id : string) (event_id : option string)
    (tool_id status : string) (payload : dict pyval) : M string :=
  request_id ← uuid4;
  now ← utc_now;
  let row := mkApprovalRequest request_id execution_id event_id tool_id status payload []
               (isoformat now) None None in
  modify (fun w => set_w_approvals (dset request_id row (w_approvals w)) w);;
  mret request_id.

Definition update_approval_request (request_id status : string) (response_payload : dict pyval)
    (responded_by : option string) : M unit :=
  current ← gets (fun w => dget request_id (w_approvals w));
  match current with
  | None => mret tt
  | Some row =>
      now ← utc_now;
      let row' := mkApprovalRequest (ar_id row) (ar_execution_id row) (ar_event_id row)
                    (ar_tool_id row) status (ar_request_payload row) response_payload
                    (ar_requested_at row) (Some (isoformat now)) responded_by in
      modify (fun w => set_w_approvals (dset request_id row' (w_approvals w)) w)
  end.

Definition get_approval_request (request_id : string) : M (option ApprovalRequest) :=
  gets (fun w => dget request_id (w_approvals w)).

Definition resolve_pending_approval_request (execution_id tool_id status : string)
    (response_payload : dict pyval) (responded_by : option string) : M (option ApprovalRequest) :=
  matches ← gets (fun w => List.filter
    (fun row => String.eqb (ar_execution_id row) execution_id && String.eqb (ar_tool_id row) tool_id)
    (dvalues (w_approvals w)));
  match py_max approval_le matches with
  | None => mret None
  | Some current =>
      if String.eqb (ar_status current) status then mret (Some current)
      else if negb (String.eqb (ar_status current) "pending") then mret None
      else
        update_approval_request (ar_id current) status response_payload responded_by;;
        get_approval_request (ar_id current)
  end.

Definition list_approval_requests (execution_id : string) : M (list ApprovalRequest) :=
  gets (fun w => py_sorted approval_le
    (List.filter (fun row => String.eqb (ar_execution_id row) execution_id) (dvalues (w_approvals w)))).

(** ** InMemoryExecutionStore: durable waits *)

Definition same_idempotency (wt item : ExecutionWait) : bool :=
  String.eqb (wt_execution_id item) (wt_execution_id wt)
  && String.eqb (wt_idempotency_key item) (wt_idempotency_key wt).

Definition pending_for (execution_id : string) (item : ExecutionWait) : bool :=
  String.eqb (wt_execution_id item) execution_id && wait_is_pending item.

Definition create_execution_wait (wt : ExecutionWait) : M ExecutionWait :=
  waits ← gets (fun w => dvalues (w_waits w));
  match List.find (same_idempotency wt) waits with
  | Some existing => mret existing
  | None =>
      if wait_is_pending wt && existsb (pending_for (wt_execution_id wt)) waits
      then raise ValueError ("Execution '" +:+ wt_execution_id wt +:+ "' already has a pending wait.")
      else
        modify (fun w => set_w_waits (dset (wt_id wt) wt (w_waits w)) w);;
        mret wt
  end.

Definition get_execution_wait (wait_id : string) : M (option ExecutionWait) :=
  gets (fun w => dget wait_id (w_waits w)).

Definition list_execution_waits (execution_id : string) (status : option ExecutionWaitStatus) :
    M (list ExecutionWait) :=
  gets (fun w => py_sorted wait_created_le
    (List.filter
       (fun wt => String.eqb (wt_execution_id wt) execution_id
                  && match status with
                     | None => true
                     | Some st => bool_decide (wt_status wt = st)
                     end)
       (dvalues (w_waits w)))).

(** The claim: a pending wait is resolved once; afterwards the same key is a
    replay and any other key loses. *)
Definition resolve_execution_wait (wait_id : string) (status : ExecutionWaitStatus)
    (resolution_key : string) (resolution_payload : dict pyval) (resolved_by : option string) :
    M (option ExecutionWait * bool) :=
  found ← gets (fun w => dget wait_id (w_waits w));
  match found with
  | None => mret (None, false)
  | Some wt =>
      if negb (wait_is_pending wt) then
        mret (if opt_eqb (wt_resolution_key wt) (Some resolution_key)
              then (Some wt, false) else (None, false))
      else
        now ← utc_now;
        let updated := mkExecutionWait (wt_id wt) (wt_execution_id wt) (wt_kind wt) status
          (wt_idempotency_key wt) (wt_correlation_key wt) (wt_checkpoint wt)
          (wt_request_payload wt) (wt_policy wt) (Some resolution_payload) (Some resolution_key)
          (wt_wake_at wt) (wt_deadline_at wt) (Some now) resolved_by (wt_created_at wt) now
          (wt_metadata wt) in
        modify (fun w => set_w_waits (dset wait_id updated (w_waits w)) w);;
        mret (Some updated, true)
  end.

Definition list_due_execution_waits (before limit : Z) : M (list ExecutionWait) :=
  gets (fun w => slice_to limit (py_sorted (wait_time_le wt_wake_at)
    (List.filter
       (fun wt => wait_is_pending wt
                  && match wt_wake_at wt with Some t => t <=? before | None => false end)
       (dvalues (w_waits w))))).

Definition list_expired_execution_waits (before limit : Z) : M (list ExecutionWait) :=
  gets (fun w => slice_to limit (py_sorted (wait_time_le wt_deadline_at)
    (List.filter
       (fun wt => wait_is_pending wt
                  && match wt_deadline_at wt with Some t => t <=? before | None => false end)
       (dvalues (w_waits w))))).

Definition list_pending_execution_waits_by_correlation (correlation_key : string) (limit : Z) :
    M (list ExecutionWait) :=
  gets (fun w => slice_to limit (py_sorted wait_created_le
    (List.filter
       (fun wt => wait_is_pending wt && opt_eqb (wt_correlation_key wt) (Some correlation_key))
       (dvalues (w_waits w))))).

(** ** InMemoryExecutionStore: the worker lock *)

(** The heartbeat is missing or strictly older than [stale_after_seconds]. *)
Definition heartbeat_stale (now stale_after_seconds : Z) (last_heartbeat : option Z) : bool :=
  match last_heartbeat with
  | None => true
  | Some t => stale_after_seconds * us_per_second <? now - t
  end.

Definition acquire_lock (execution_id worker_id : string) (stale_after_seconds : Z) : M bool :=
  found ← gets (fun w => dget execution_id (w_executions w));
  match found with
  | None => mret false
  | Some e =>
      now ← utc_now;
      let is_stale := heartbeat_stale now stale_after_seconds (ex_last_heartbeat_at e) in
      if opt_eqb (ex_worker_id e) None || opt_eqb (ex_worker_id e) (Some worker_id) || is_stale
      then
        assign execution_id (set_ex_worker_id (Some worker_id));;
        assign execution_id (set_ex_last_heartbeat_at (Some now));;
        mret true
      else mret false
  end.

Definition release_lock (execution_id worker_id : string) : M bool :=
  found ← gets (fun w => dget execution_id (w_executions w));
  match found with
  | None => mret false
  | Some e =>
      if negb (opt_eqb (ex_worker_id e) (Some worker_id)) then mret false
      else assign execution_id (set_ex_worker_id None);; mret true
  end.

Definition heartbeat (execution_id worker_id : string) : M (option string) :=
  found ← gets (fun w => dget execution_id (w_executions w));
  match found with
  | None => mret None
  | Some e =>
      if negb (opt_eqb (ex_worker_id e) None || opt_eqb (ex_worker_id e) (Some worker_id))
      then mret (Some execution_id)
      else
        assign execution_id (set_ex_worker_id (Some worker_id));;
        now ← utc_now;
        assign execution_id (set_ex_last_heartbeat_at (Some now));;
        mret (Some execution_id)
  end.
End Store.
