(* ===== verification/Routing.v ===== *)
(** * Outcomes, routing and checkpoints of the native engine

    The module-level helpers of [app/runtime/native/engine.py]: the outcome that
    the engine reads from a task's output, the edges that an outcome enables, the
    runtime overrides and the policy of a run, and the checkpoint that is written
    into [output_payload] and read back when an execution resumes. *)

From Corelib Require Import SpecFloat.
From S2P Require Export Floats Workflow Store.

Definition TASK_APPROVAL_POLICIES : list string := ["none"; "required"; "on_failure"].
Definition WORKFLOW_APPROVAL_MODES : list string := ["task_policy"; "before_run"; "all_tasks"].
Definition FAILURE_OUTCOME_STATUSES : list string :=
  ["blocked"; "cancelled"; "canceled"; "error"; "failed"; "failure"; "incomplete"; "stopped"].
Definition SUCCESS_OUTCOME_STATUSES : list string :=
  ["complete"; "completed"; "ok"; "sent"; "success"; "succeeded"].

(** [s.split(sep)] for a separator of at least one character. *)
Fixpoint split_text (sep : string) (skip : nat) (acc s : string) : list string :=
  match s with
  | EmptyString => [acc]
  | String c s' =>
      match skip with
      | S k => split_text sep k acc s'
      | O => if starts_with sep s then acc :: split_text sep (String.length sep - 1) "" s'
             else split_text sep O (acc +:+ String c "") s'
      end
  end.

(** [s.strip(" _")] *)
Definition strip_blank_or_underscore (s : string) : string :=
  strip_chars (fun c => Ascii.eqb c " " || Ascii.eqb c "_") s.

(** ** Integers of a setting *)

Definition int_where (ok : Z -> bool) (v : pyval) : M (option Z) :=
  match v with
  | PBool _ => mret None
  | _ =>
      match py_int v with
      | IntValue n => mret (if ok n then Some n else None)
      | IntInvalid => mret None
      | IntOverflow => raise OverflowError "cannot convert float infinity to integer"
      end
  end.

(** [_positive_int] and [_non_negative_int] *)
Definition positive_int : pyval -> M (option Z) := int_where (fun n => 0 <? n).
Definition non_negative_int : pyval -> M (option Z) := int_where (fun n => 0 <=? n).

(** ** Outcomes *)

Section Outcomes.
Context `{Env}.

(** [str(value or default)] *)
Definition text_or (v : pyval) (default_text : string) : string :=
  py_str env_float_repr (py_or v (PStr default_text)).

(** [_output_mapping] *)
Definition output_mapping (output : pyval) : dict pyval :=
  match output with
  | PDict d => d
  | PStr s =>
      let stripped := py_strip s in
      if starts_with "{" stripped then
        match json_loads float_of_number_text stripped with Some (PDict d) => d | _ => [] end
      else []
  | _ => []
  end.

Definition status_text (payload : dict pyval) : string :=
  py_lower (py_strip (text_or (pget "status" payload) "")).

(** [_node_outcome] *)
Definition node_outcome (output : pyval) : string :=
  let payload := output_mapping output in
  let status := status_text payload in
  if mem_str status FAILURE_OUTCOME_STATUSES then "failure"
  else if is_false (pget "completed_normally" payload) || is_false (pget "ok" payload)
          || is_false (pget "success" payload) then "failure"
  else if mem_str status SUCCESS_OUTCOME_STATUSES then "success"
  else "success".

Fixpoint first_text (keys : list string) (payload : dict pyval) : option string :=
  match keys with
  | [] => None
  | key :: rest =>
      match pget key payload with
      | PStr s => if String.eqb (py_strip s) "" then first_text rest payload else Some (py_strip s)
      | _ => first_text rest payload
      end
  end.

(** [_node_failure_message] *)
Definition node_failure_message (output : pyval) : string :=
  let payload := output_mapping output in
  match first_text ["error"; "reason"; "outcome"; "notice"; "next_action"] payload with
  | Some message => message
  | None => "Task returned non-success status '" +:+ py_strip (text_or (pget "status" payload) "failed")
            +:+ "'."
  end.

(** The results recorded per tool. *)
Fixpoint results_by_tool (acc : dict (list pyval)) (items : list pyval) : M (dict (list pyval)) :=
  match items with
  | [] => mret acc
  | PDict item :: rest =>
      let tool_id := text_or (pget "tool_id" item) "" in
      results_by_tool (dset tool_id (default [] (dget tool_id acc) ++ [pget "result" item]) acc) rest
  | _ :: _ => raise AttributeError "object has no attribute 'get'"
  end.

Definition tool_text (v : pyval) : string := py_str env_float_repr v.

(** Some recorded result of the tool has an allowed status. *)
Definition has_allowed_status (allowed results : list pyval) : bool :=
  let normalized_allowed := map (fun v => py_lower (py_strip (tool_text v))) allowed in
  existsb (fun r => match r with
                    | PDict result => mem_str (status_text result) normalized_allowed
                    | _ => false
                    end) results.

Fixpoint first_disallowed (success_statuses : dict pyval) (results : dict (list pyval))
    (required : list pyval) : option pyval :=
  match required with
  | [] => None
  | tool_id :: rest =>
      match pget (tool_text tool_id) success_statuses with
      | PList (_ :: _ as allowed) =>
          if has_allowed_status allowed (default [] (dget (tool_text tool_id) results))
          then first_disallowed success_statuses results rest
          else Some tool_id
      | _ => first_disallowed success_statuses results rest
      end
  end.

Definition unrecorded (results : dict (list pyval)) (tool_id : pyval) : bool :=
  match dget (tool_text tool_id) results with Some (_ :: _) => false | _ => true end.

(** [_required_tool_result_error] *)
Definition required_tool_result_error (task : TaskDefinition) (st : NativeExecutionState) :
    M (option string) :=
  match pget "required_tool_ids" (td_metadata task) with
  | PList (_ :: _ as required_tool_ids) =>
      items ← match dget (td_id task) (st_task_tool_results st) with
              | None => mret []
              | Some v => py_iter v
              end;
      results ← results_by_tool [] items;
      match List.filter (unrecorded results) required_tool_ids with
      | _ :: _ as missing =>
          mret (Some ("Task requires successful tool calls that were not recorded: "
                      +:+ py_join ", " (map tool_text missing) +:+ "."))
      | [] =>
          match pget "required_tool_success_statuses" (td_metadata task) with
          | PDict success_statuses =>
              mret (match first_disallowed success_statuses results required_tool_ids with
                    | Some tool_id => Some ("Required tool '" +:+ tool_text tool_id
                                            +:+ "' did not return an allowed success status.")
                    | None => None
                    end)
          | _ => mret None
          end
      end
  | _ => mret None
  end.

(** ** Routing *)

(** The signals and the fragments of the serialised output that raise them. *)
Definition SIGNAL_MARKERS : list (string * list string) :=
  [("approval_rejected", ["approval rejected"; "approval_rejected"]);
   ("blocked", ["blocked"]);
   ("discord_delivery_failed",
    ["discord delivery failed"; "discord_delivery_failed";
     dquote +:+ "status" +:+ dquote +:+ ": " +:+ dquote +:+ "not_sent" +:+ dquote]);
   ("error", ["error"]);
   ("memory_write_failed", ["memory write failed"; "memory_write_failed"]);
   ("run_incomplete", ["incomplete"; "completed_normally" +:+ dquote +:+ ": false"]);
   ("stopped", ["stopped"; "cancelled"; "canceled"]);
   ("voice_failed", ["voice generation failed"; "voice_failed"]);
   ("voice_missing", ["voice_missing"; "missing voice"; "voice file does not exist"])].

(** [_condition_signals] *)
Definition condition_signals (output : pyval) (outcome : string) : list string :=
  let payload := output_mapping output in
  let serialized := py_lower (json_dumps env_float_repr ", " ": "
                                (match payload with [] => output | _ => PDict payload end)) in
  let status := status_text payload in
  [outcome]
  ++ (if String.eqb status "" then [] else [status])
  ++ (if is_false (pget "completed_normally" payload) then ["run_incomplete"; "incomplete"] else [])
  ++ map fst (List.filter (fun m => existsb (fun c => contains c serialized) m.2) SIGNAL_MARKERS)
  ++ (if String.eqb outcome "failure" then ["failed"; "run_incomplete"] else []).

(** The alternatives of a condition. *)
Definition condition_alternatives (condition : string) : list string :=
  List.filter (fun s => negb (String.eqb s ""))
    (map strip_blank_or_underscore (split_text "_or_" 0 "" condition)).

(** [_edge_condition_matches]; an outcome is compared as a Python value. *)
Definition edge_condition_matches (edge : WorkflowEdge) (source_output source_outcome : pyval) : bool :=
  let wanted := if bool_decide (we_edge_type edge = EDGE_FAILURE) then "failure" else "success" in
  if negb (eq_str source_outcome wanted) then false
  else
    let condition := py_lower (py_strip (default "" (we_condition edge))) in
    if String.eqb condition "" then true
    else
      let signals := condition_signals source_output wanted in
      existsb (fun alternative => mem_str alternative signals) (condition_alternatives condition).

(** [_incoming_edges], looked up at one node. *)
Definition incoming_edges (wf : WorkflowDefinition) (node_id : string) : list WorkflowEdge :=
  List.filter (fun e => String.eqb (we_target_node_id e) node_id) (wf_edges wf).

(** [_node_is_reachable] *)
Definition node_is_reachable (wf : WorkflowDefinition) (node : WorkflowNode) (st : NativeExecutionState) :
    bool :=
  match incoming_edges wf (wn_id node) with
  | [] => true
  | edges =>
      existsb (fun edge =>
        match dget (we_source_node_id edge) (st_node_outcomes st) with
        | Some outcome =>
            edge_condition_matches edge (pget (we_source_node_id edge) (st_node_outputs st)) outcome
        | None => false
        end) edges
  end.

(** [_cycle_progress_signature] *)
Definition cycle_progress_signature (output_payload : dict pyval) : string :=
  env_sha256_hex (json_dumps env_float_repr "," ":" (PDict output_payload)).
End Outcomes.

(** ** Runtime overrides and policy *)

(** [_conversation_id_from_execution] *)
Definition conversation_id_in (container : dict pyval) : option string :=
  first_text ["conversation_id"; "conversationId"; "thread_id"; "threadId"] container.

Definition conversation_id_from_execution (e : Execution) : option string :=
  match conversation_id_in (ex_trigger_payload e) with
  | Some s => Some s
  | None => match conversation_id_in (ex_input_payload e) with
            | Some s => Some s
            | None => conversation_id_in (ex_metadata e)
            end
  end.

(** [d.update(entries)] for the entries that are not [None]. *)
Definition update_present (entries : dict pyval) (d : dict pyval) : dict pyval :=
  dupdate d (List.filter (fun kv => negb (is_none kv.2)) entries).

(** An entry that is present only when there is a value. *)
Definition present (key : string) (o : option pyval) : dict pyval :=
  match o with Some v => [(key, v)] | None => [] end.

(** [_task_runtime_overrides] *)
Definition task_runtime_overrides (task : TaskDefinition) : M (dict pyval) :=
  let raw := update_present
    [("timeout_seconds", opt_int (td_timeout_seconds task));
     ("max_retries", opt_int (td_max_retries task));
     ("model_profile_id", opt_str (td_model_profile_id task));
     ("max_tokens", opt_int (td_max_tokens task));
     ("approval_policy", opt_str (td_approval_policy task))]
    (dict_or_empty (pget "task_runtime_overrides" (td_metadata task))) in
  timeout_seconds ← positive_int (pget "timeout_seconds" raw);
  max_retries ← non_negative_int (pget "max_retries" raw);
  max_tokens ← positive_int (pget "max_tokens" raw);
  let model_profile_id := match pget "model_profile_id" raw with
                          | PStr s => if String.eqb (py_strip s) "" then None else Some (PStr (py_strip s))
                          | _ => None
                          end in
  let approval_policy := match pget "approval_policy" raw with
                         | PStr s => if mem_str s TASK_APPROVAL_POLICIES then Some (PStr s) else None
                         | _ => None
                         end in
  mret (present "timeout_seconds" (PInt <$> timeout_seconds)
        ++ present "max_retries" (PInt <$> max_retries)
        ++ present "model_profile_id" model_profile_id
        ++ present "max_tokens" (PInt <$> max_tokens)
        ++ present "approval_policy" approval_policy).

(** [_task_approval_tool_id] *)
Definition task_approval_tool_id (task : TaskDefinition) : string := "task:" +:+ td_id task.

(** [_task_retry_metadata] *)
Definition task_retry_metadata (metadata : dict pyval) : dict pyval :=
  dict_or_empty (pget "task_retry" metadata).

(** [o or m] for an optional integer attribute. *)
Definition int_or (o : option Z) (m : M (option Z)) : M (option Z) :=
  match o with
  | Some n => if n =? 0 then m else mret (Some n)
  | None => m
  end.

(** [_workflow_runtime_policy] *)
Definition workflow_runtime_policy (wf : WorkflowDefinition) : M (dict pyval) :=
  let runtime_governance := dict_or_empty (pget "runtime_governance" (wf_metadata wf)) in
  let metadata_policy := dict_or_empty (pget "execution_policy" runtime_governance) in
  max_runtime_seconds ← int_or (wf_max_runtime_seconds wf)
                          (positive_int (pget "max_runtime_seconds" metadata_policy));
  max_retries ← match wf_max_retries wf with
                | Some n => mret (Some n)
                | None => non_negative_int (pget "max_retries" metadata_policy)
                end;
  concurrency_limit ← int_or (wf_concurrency_limit wf)
                        (positive_int (pget "concurrency_limit" metadata_policy));
  let approval_mode := match py_or (opt_str (wf_approval_mode wf)) (pget "approval_mode" metadata_policy) with
                       | PStr s => if mem_str s WORKFLOW_APPROVAL_MODES then Some (PStr s) else None
                       | _ => None
                       end in
  mret (present "max_runtime_seconds" (PInt <$> max_runtime_seconds)
        ++ present "max_retries" (PInt <$> max_retries)
        ++ present "concurrency_limit" (PInt <$> concurrency_limit)
        ++ present "approval_mode" approval_mode).

(** ** Checkpoints *)

Definition strings_of (l : list string) : pyval := PList (map PStr l).

(** [next(reversed(d.values()), None)] *)
Definition last_value (d : dict pyval) : pyval := default PNone (last (dvalues d)).

(** [_execution_checkpoint_payload] *)
Definition execution_checkpoint_payload (st : NativeExecutionState) (prior_payload : option (dict pyval)) :
    dict pyval :=
  let continuation :=
    match pget "checkpoint" (default [] prior_payload) with
    | PDict prior => match pget "approval_continuation" prior with
                     | PDict c => [("approval_continuation", PDict c)]
                     | _ => []
                     end
    | _ => []
    end in
  [("node_outputs", PDict (st_node_outputs st));
   ("final_output", last_value (st_node_outputs st));
   ("checkpoint", PDict
      ([("current_node_id", opt_str (st_current_node_id st));
        ("current_task_id", opt_str (st_current_task_id st));
        ("completed_node_ids", strings_of (dkeys (st_node_outputs st)));
        ("node_outcomes", PDict (st_node_outcomes st));
        ("node_errors", PDict (st_node_errors st));
        ("task_tool_results", PDict (st_task_tool_results st));
        ("planned_node_ids", strings_of (st_planned_node_ids st));
        ("terminal_node_ids", strings_of (st_terminal_node_ids st))] ++ continuation))].

(** [_terminal_executable_node_ids] *)
Definition terminal_executable_node_ids (wf : WorkflowDefinition) (ordered_nodes : list WorkflowNode) :
    list string :=
  let task_node_ids := map wn_id (List.filter is_task_node ordered_nodes) in
  let terminal_node_ids :=
    List.filter (fun id =>
      match reaches_later_task (search_fuel (wf_edges wf)) (wf_edges wf) task_node_ids
              (outgoing (wf_edges wf) id) [] with
      | Some true => false
      | _ => true
      end) task_node_ids in
  List.filter (fun id => mem_str id terminal_node_ids) (map wn_id ordered_nodes).

(** [_node_outputs_from_checkpoint]; [None] is a payload that is no dictionary. *)
Definition node_outputs_from_checkpoint (payload : option (dict pyval)) : dict pyval :=
  match payload with
  | None => []
  | Some p => dict_or_empty (pget "node_outputs" p)
  end.

(** The checkpoint of a payload, or [{}]. *)
Definition checkpoint_of (payload : option (dict pyval)) : dict pyval :=
  match payload with Some p => dict_or_empty (pget "checkpoint" p) | None => [] end.

(** [dict(checkpoint.get(key) or {})] *)
Definition dict_entry (key : string) (checkpoint : dict pyval) : M (dict pyval) :=
  let v := pget key checkpoint in if truthy v then py_dict v else mret [].

(** [[item for item in checkpoint.get(key, []) if isinstance(item, str)]] *)
Definition text_entries (key : string) (checkpoint : dict pyval) : M (list string) :=
  items ← match dget key checkpoint with None => mret [] | Some v => py_iter v end;
  mret (List.concat (map (fun v => match v with PStr s => [s] | _ => [] end) items)).

Record checkpoint_summary := mkSummary {
  sm_completed_node_ids : list string;
  sm_node_outcomes : dict pyval;
  sm_node_errors : dict pyval;
  sm_current_node_id : pyval;
  sm_current_task_id : pyval;
  sm_planned_node_ids : list string;
  sm_terminal_node_ids : list string
}.

(** The dictionary of a summary. *)
Definition summary_entries (s : checkpoint_summary) : dict pyval :=
  [("completed_node_ids", strings_of (sm_completed_node_ids s));
   ("node_outcomes", PDict (sm_node_outcomes s)); ("node_errors", PDict (sm_node_errors s));
   ("current_node_id", sm_current_node_id s); ("current_task_id", sm_current_task_id s);
   ("planned_node_ids", strings_of (sm_planned_node_ids s));
   ("terminal_node_ids", strings_of (sm_terminal_node_ids s))].

(** [_checkpoint_payload_summary] *)
Definition checkpoint_payload_summary (payload : option (dict pyval)) : M (option checkpoint_summary) :=
  match node_outputs_from_checkpoint payload with
  | [] => mret None
  | node_outputs =>
      let checkpoint := checkpoint_of payload in
      outcomes ← dict_entry "node_outcomes" checkpoint;
      errors ← dict_entry "node_errors" checkpoint;
      planned ← text_entries "planned_node_ids" checkpoint;
      terminal ← text_entries "terminal_node_ids" checkpoint;
      mret (Some (mkSummary (dkeys node_outputs) outcomes errors (pget "current_node_id" checkpoint)
                    (pget "current_task_id" checkpoint) planned terminal))
  end.

(** The state fields that a checkpoint restores; an id that is no text reads as
    [None]. *)
Definition hydrate_from (payload : option (dict pyval)) (summary : checkpoint_summary)
    (st : NativeExecutionState) : M NativeExecutionState :=
  let st := set_st_node_outputs (node_outputs_from_checkpoint payload) st in
  match pget "checkpoint" (default [] payload) with
  | PDict checkpoint =>
      outcomes ← dict_entry "node_outcomes" checkpoint;
      errors ← dict_entry "node_errors" checkpoint;
      results ← dict_entry "task_tool_results" checkpoint;
      mret (set_st_terminal_node_ids (sm_terminal_node_ids summary)
              (set_st_planned_node_ids (sm_planned_node_ids summary)
                (set_st_task_tool_results results (set_st_node_errors errors (set_st_node_outcomes outcomes
                  (set_st_current_task_id (as_str (pget "current_task_id" checkpoint))
                    (set_st_current_node_id (as_str (pget "current_node_id" checkpoint)) st)))))))
  | _ => mret st
  end.

(** [_hydrate_resume_checkpoint] *)
Definition hydrate_resume_checkpoint (e : Execution) (st : NativeExecutionState) :
    M (option (dict pyval) * NativeExecutionState) :=
  if negb (List.length (st_node_outputs st) =? 0)%nat
     || negb (List.length (task_retry_metadata (ex_metadata e)) =? 0)%nat
  then mret (None, st)
  else
    own ← checkpoint_payload_summary (ex_output_payload e);
    match own with
    | Some summary =>
        st' ← hydrate_from (ex_output_payload e) summary st;
        mret (Some (dupdate [("source", PStr "execution.output_payload");
                             ("source_execution_id", PStr (ex_id e))] (summary_entries summary)), st')
    | None =>
        let source_id := match pget "resume_from_execution_id" (ex_metadata e) with
                         | PStr s => if String.eqb s "" then ex_replacement_of_execution_id e else Some s
                         | _ => ex_replacement_of_execution_id e
                         end in
        match source_id with
        | None => mret (None, st)
        | Some source_execution_id =>
            if String.eqb source_execution_id "" then mret (None, st) else
            found ← get_execution source_execution_id;
            match found with
            | None => mret (None, st)
            | Some source =>
                prior ← checkpoint_payload_summary (ex_output_payload source);
                match prior with
                | None => mret (None, st)
                | Some summary =>
                    st' ← hydrate_from (ex_output_payload source) summary st;
                    let source_name :=
                      if opt_eqb (Some source_execution_id) (ex_replacement_of_execution_id e)
                      then "replacement_of_execution_id"
                      else "execution.metadata.resume_from_execution_id" in
                    mret (Some (dupdate [("source", PStr source_name);
                                         ("source_execution_id", PStr (ex_id source))]
                                  (summary_entries summary)), st')
                end
            end
        end
    end.

(** ** What routing guarantees *)

Section RoutingFacts.
Context `{Env}.

Lemma node_outcome_cases output : node_outcome output = "success" \/ node_outcome output = "failure".
Proof.
  unfold node_outcome. cbv zeta. destruct (mem_str _ _); auto. destruct (_ || _ || _); auto.
  destruct (mem_str _ _); auto.
Qed.

(** The outcome that enables an edge of a type. *)
Definition wanted_outcome (t : EdgeType) : string :=
  match t with EDGE_FAILURE => "failure" | _ => "success" end.

Lemma edge_match_outcome edge output outcome :
  edge_condition_matches edge output outcome = true -> outcome = PStr (wanted_outcome (we_edge_type edge)).
Proof.
  unfold edge_condition_matches. cbv zeta. destruct (negb _) eqn:Hn; [done|]. intros _.
  apply negb_false_iff, eq_str_true in Hn. rewrite Hn. by destruct (we_edge_type edge).
Qed.

(** Routing on a recorded output is deterministic about failure: an edge
    fires only for the outcome of its type, so a failure edge and an edge of any
    other type never fire together, and for every output an unconditional edge
    fires exactly when its type fits the outcome. *)
Theorem edges_follow_outcome edge1 edge2 output :
  let outcome := PStr (node_outcome output) in
  (edge_condition_matches edge1 output outcome = true ->
   edge_condition_matches edge2 output outcome = true ->
   (we_edge_type edge1 = EDGE_FAILURE <-> we_edge_type edge2 = EDGE_FAILURE))
  /\ (py_strip (default "" (we_condition edge1)) = "" ->
      edge_condition_matches edge1 output outcome = true <->
      node_outcome output = wanted_outcome (we_edge_type edge1)).
Proof.
  intros outcome. split.
  - intros Hm1%edge_match_outcome Hm2%edge_match_outcome. rewrite Hm1 in Hm2.
    injection Hm2 as Hw. by destruct (we_edge_type edge1), (we_edge_type edge2).
  - intros Hc. unfold edge_condition_matches, outcome. cbv zeta. rewrite Hc. cbn [py_lower String.eqb eq_str].
    replace (if bool_decide (we_edge_type edge1 = EDGE_FAILURE) then "failure" else "success")
      with (wanted_outcome (we_edge_type edge1)) by by destruct (we_edge_type edge1).
    destruct (String.eqb_spec (node_outcome output) (wanted_outcome (we_edge_type edge1))); [|by split].
    by split.
Qed.

(** A node runs if it has no incoming edge or if some predecessor that
    recorded an outcome enables its edge; nothing else makes it reachable. *)
Lemma reachable_iff_enabled wf node st :
  node_is_reachable wf node st = true <->
  (forall e, In e (wf_edges wf) -> we_target_node_id e <> wn_id node)
  \/ exists e outcome, In e (wf_edges wf) /\ we_target_node_id e = wn_id node
       /\ dget (we_source_node_id e) (st_node_outcomes st) = Some outcome
       /\ edge_condition_matches e (pget (we_source_node_id e) (st_node_outputs st)) outcome = true.
Proof.
  assert (Hin : forall e, In e (incoming_edges wf (wn_id node)) <->
    In e (wf_edges wf) /\ we_target_node_id e = wn_id node).
  { intros e. unfold incoming_edges. by rewrite filter_In, String.eqb_eq. }
  unfold node_is_reachable. destruct (incoming_edges wf (wn_id node)) as [|e0 l] eqn:Hl.
  - split; [|done]. intros _. left. intros e He Ht. by apply (Hin e).
  - rewrite existsb_exists. split.
    + intros (e & He & Hm). right. apply Hin in He as [He Ht].
      destruct (dget (we_source_node_id e) (st_node_outcomes st)) as [outcome|] eqn:Ho; [|done].
      by exists e, outcome.
    + intros [Hno|(e & outcome & He & Ht & Ho & Hm)].
      * destruct (proj1 (Hin e0)) as [He0 Ht0]; [by left|]. by destruct (Hno e0).
      * exists e. rewrite Ho. split; [|done]. by apply Hin.
Qed.
End RoutingFacts.

(** ** What checkpoints guarantee *)

Lemma text_entries_strings key l d w :
  dget key d = Some (strings_of l) -> text_entries key d w = (Ok l, w).
Proof.
  intros Hd. unfold text_entries. rewrite Hd. unfold strings_of. rewrite bind_unfold. cbn [py_iter mret M_ret].
  enough (Hl : List.concat (map (fun v => match v with PStr s => [s] | _ => [] end) (map PStr l)) = l)
    by by rewrite Hl.
  clear Hd. induction l as [|s l IH]; [done|]. cbn [map List.concat app]. by rewrite IH.
Qed.

Lemma dict_entry_dict key d0 d w : dget key d = Some (PDict d0) -> dict_entry key d w = (Ok d0, w).
Proof. intros Hd. unfold dict_entry, pget. rewrite Hd. by destruct d0. Qed.

(** The fields of the engine's state that a checkpoint carries. *)
Definition same_progress (st st' : NativeExecutionState) : Prop :=
  st_node_outputs st' = st_node_outputs st /\ st_node_outcomes st' = st_node_outcomes st
  /\ st_node_errors st' = st_node_errors st /\ st_task_tool_results st' = st_task_tool_results st
  /\ st_current_node_id st' = st_current_node_id st /\ st_current_task_id st' = st_current_task_id st
  /\ st_planned_node_ids st' = st_planned_node_ids st
  /\ st_terminal_node_ids st' = st_terminal_node_ids st.

(** Reading the checkpoint of [st] gives a summary exactly if [st] has outputs, and
    hydrating from it restores [st]. *)
Lemma summary_empty st prior w : st_node_outputs st = [] ->
  checkpoint_payload_summary (Some (execution_checkpoint_payload st prior)) w = (Ok None, w).
Proof.
  intros Hout. unfold checkpoint_payload_summary.
  change (node_outputs_from_checkpoint (Some (execution_checkpoint_payload st prior))) with (st_node_outputs st).
  by rewrite Hout.
Qed.

Lemma checkpoint_read st prior st0 w : st_node_outputs st <> [] ->
  let payload := Some (execution_checkpoint_payload st prior) in
  exists summary st', checkpoint_payload_summary payload w = (Ok (Some summary), w)
    /\ hydrate_from payload summary st0 w = (Ok st', w)
    /\ same_progress st st' /\ st_sequence st' = st_sequence st0 /\ st_trace_id st' = st_trace_id st0.
Proof.
  intros Hne payload. unfold checkpoint_payload_summary.
  change (node_outputs_from_checkpoint payload) with (st_node_outputs st).
  destruct (st_node_outputs st) as [|kv outputs] eqn:Hout; [done|]. rewrite <-Hout.
  set (cp := checkpoint_of payload).
  rewrite (bind_Ok _ _ _ _ _ (dict_entry_dict "node_outcomes" (st_node_outcomes st) cp w eq_refl)).
  rewrite (bind_Ok _ _ _ _ _ (dict_entry_dict "node_errors" (st_node_errors st) cp w eq_refl)).
  rewrite (bind_Ok _ _ _ _ _ (text_entries_strings "planned_node_ids" (st_planned_node_ids st) cp w eq_refl)).
  rewrite (bind_Ok _ _ _ _ _ (text_entries_strings "terminal_node_ids" (st_terminal_node_ids st) cp w eq_refl)).
  eexists _, _. split; [reflexivity|]. set (summary := mkSummary _ _ _ _ _ _ _). unfold hydrate_from.
  replace (pget "checkpoint" (default [] payload)) with (PDict cp) by reflexivity.
  rewrite (bind_Ok _ _ _ _ _ (dict_entry_dict "node_outcomes" (st_node_outcomes st) cp w eq_refl)).
  rewrite (bind_Ok _ _ _ _ _ (dict_entry_dict "node_errors" (st_node_errors st) cp w eq_refl)).
  rewrite (bind_Ok _ _ _ _ _ (dict_entry_dict "task_tool_results" (st_task_tool_results st) cp w eq_refl)).
  split; [reflexivity|]. split; [|by split].
  unfold same_progress. cbn [set_st_terminal_node_ids set_st_planned_node_ids set_st_task_tool_results
    set_st_node_errors set_st_node_outcomes set_st_current_task_id set_st_current_node_id
    set_st_node_outputs st_node_outputs st_node_outcomes st_node_errors st_task_tool_results
    st_current_node_id st_current_task_id st_planned_node_ids st_terminal_node_ids].
  split; [reflexivity|]. split; [reflexivity|]. split; [reflexivity|]. split; [reflexivity|].
  split; [|split; [|by split]].
  - change (pget "current_node_id" cp) with (opt_str (st_current_node_id st)).
    by destruct (st_current_node_id st).
  - change (pget "current_task_id" cp) with (opt_str (st_current_task_id st)).
    by destruct (st_current_task_id st).
Qed.

(** The execution that [e] continues: the one its metadata names, else the one it
    replaces. *)
Definition continued_id (e : Execution) : option string :=
  match pget "resume_from_execution_id" (ex_metadata e) with
  | PStr s => if String.eqb s "" then ex_replacement_of_execution_id e else Some s
  | _ => ex_replacement_of_execution_id e
  end.

(** The execution that [e] continues, when it is stored. *)
Definition continued (e : Execution) (w : world) : option Execution :=
  match continued_id e with
  | Some s => if String.eqb s "" then None else dget s (w_executions w)
  | None => None
  end.

(** Hydration restored [st] from the execution [i]; the identity of the fresh
    state [st0] stays. *)
Definition restores (st : NativeExecutionState) (i : string) (st0 : NativeExecutionState) (w : world)
    (result : outcome (option (dict pyval) * NativeExecutionState) * world) : Prop :=
  exists info st', result = (Ok (Some info, st'), w) /\ pget "source_execution_id" info = PStr i
    /\ same_progress st st' /\ st_sequence st' = st_sequence st0 /\ st_trace_id st' = st_trace_id st0.

