(* ===== verification/Ledger.v ===== *)
(** * The ledger contract of the execution store

    What the control plane's services rely on when they share one store: ids
    are never reused, an execution has at most one pending wait, a wait that
    left [pending] never changes again, the event log of an execution is
    append-only and numbered without gaps.  [ledger] collects
    these promises as one preorder between worlds; the primitive operations of
    the store satisfy it, so every handler composed of them does
    ([evolves ledger]). *)

From stdpp Require Import relations.
From S2P Require Export Store.

(** * Durable waits, abstractly

    What the store promises about waits, as a state machine on one dictionary: a
    wait is opened under a new identifier, for a key that its execution has not
    used, and pending only when the execution has no other pending wait; a
    pending wait is decided once.  The handlers of the control plane refine this
    machine ([Ledger.v], [System.v]). *)

(** What the machine knows of a wait; [None] is an undecided one. *)
Record spec_wait := mkSpecWait {
  sw_execution : string;
  sw_key : string;
  sw_status : ExecutionWaitStatus;
  sw_decision : option string
}.

Definition sw_pending (s : spec_wait) : Prop := sw_status s = WAIT_PENDING.

Inductive wait_step (d : dict spec_wait) : dict spec_wait -> Prop :=
  | wait_opens k s :
      dget k d = None ->
      (forall k' s', dget k' d = Some s' -> sw_execution s' = sw_execution s ->
         sw_key s' <> sw_key s /\ (sw_pending s -> ~ sw_pending s')) ->
      wait_step d (dset k s d)
  | wait_is_decided k s status decision :
      dget k d = Some s -> sw_pending s ->
      wait_step d (dset k (mkSpecWait (sw_execution s) (sw_key s) status (Some decision)) d).

Definition wait_steps : dict spec_wait -> dict spec_wait -> Prop := rtc wait_step.

(** The invariant of the machine: keys and pending waits identify a wait of an
    execution. *)
Definition waits_distinct (d : dict spec_wait) : Prop := forall k1 k2 s1 s2,
  dget k1 d = Some s1 -> dget k2 d = Some s2 -> sw_execution s1 = sw_execution s2 -> k1 <> k2 ->
  sw_key s1 <> sw_key s2 /\ (sw_pending s1 -> ~ sw_pending s2).

Lemma wait_step_distinct d d' : wait_step d d' -> waits_distinct d -> waits_distinct d'.
Proof.
  intros [k s Hk Hnew|k s status decision Hk Hp] Hd k1 k2 s1 s2; rewrite !dget_dset;
    destruct (String.eqb_spec k1 k) as [E1|E1], (String.eqb_spec k2 k) as [E2|E2]; intros H1 H2 He Hne;
    try congruence; simplify_eq; cbn in *.
  - destruct (Hnew k2 s2 H2 (eq_sym He)) as [Hkey Hno]. split; [congruence|done].
  - destruct (Hnew k1 s1 H1 He) as [Hkey Hno]. split; [done|]. intros Hp1 Hps. by apply Hno.
  - by apply (Hd k1 k2).
  - destruct (Hd k k2 s s2 Hk H2 He Hne) as [Hkey Hno]. split; [done|]. intros _. by apply Hno.
  - destruct (Hd k1 k s1 s H1 Hk He Hne) as [Hkey Hno]. split; [done|]. intros Hp1. by specialize (Hno Hp1).
  - by apply (Hd k1 k2).
Qed.

(** A decided wait stays as it is. *)
Lemma wait_step_decided d d' k s : wait_step d d' -> dget k d = Some s -> ~ sw_pending s -> dget k d' = Some s.
Proof.
  intros [k0 s0 Hk Hnew|k0 s0 status decision Hk Hp] Hs Hnp; rewrite dget_dset;
    destruct (String.eqb_spec k k0) as [->|]; try done; congruence.
Qed.

(** ** The waits of the store as a state of the machine *)

Definition spec_of (wt : ExecutionWait) : spec_wait :=
  mkSpecWait (wt_execution_id wt) (wt_idempotency_key wt) (wt_status wt) (wt_resolution_key wt).

Definition spec_waits (w : world) : dict spec_wait := map (fun kv => (kv.1, spec_of kv.2)) (w_waits w).

Lemma dset_map {A B} (f : A -> B) k v (d : dict A) :
  map (fun kv => (kv.1, f kv.2)) (dset k v d) = dset k (f v) (map (fun kv => (kv.1, f kv.2)) d).
Proof. induction d as [|[k0 v0] d IH]; cbn; [done|]. destruct (String.eqb k k0); cbn; [done|]. by rewrite IH. Qed.

Lemma spec_waits_get w k : dget k (spec_waits w) = spec_of <$> dget k (w_waits w).
Proof. apply dget_map. Qed.

(** Storing a wait that the store accepts is an opening. *)
Lemma create_opens `{Env} wt w :
  dget (wt_id wt) (w_waits w) = None ->
  wait_steps (spec_waits w) (spec_waits (world_after (create_execution_wait wt) w)).
Proof.
  intros Hfresh. unfold create_execution_wait. execute.
  destruct (List.find _ _) as [old|] eqn:Hfind; [apply rtc_refl|].
  destruct (wait_is_pending wt && _) eqn:Hp; [apply rtc_refl|]. cbn [snd].
  unfold spec_waits. cbn [w_waits set_w_waits]. rewrite dset_map. apply rtc_once, wait_opens.
  { rewrite dget_map, Hfresh. done. }
  intros k' s'. rewrite dget_map. destruct (dget k' (w_waits w)) as [x|] eqn:Hx; [|done].
  intros [= <-] He. cbn in He. pose proof (dget_values _ _ _ Hx) as Hin. split.
  - cbn. intros Hkey. pose proof (find_none _ _ Hfind x Hin) as Hn. unfold same_idempotency in Hn.
    by rewrite He, Hkey, !String.eqb_refl in Hn.
  - unfold sw_pending. cbn. intros Hpw Hpx. unfold wait_is_pending in Hp at 1.
    rewrite bool_decide_eq_true_2 in Hp by done. cbn [andb] in Hp.
    enough (existsb (pending_for (wt_execution_id wt)) (dvalues (w_waits w)) = true) by congruence.
    apply existsb_exists. exists x. split; [done|]. unfold pending_for, wait_is_pending.
    by rewrite He, String.eqb_refl, bool_decide_eq_true_2.
Qed.

Lemma resolve_decides `{Env} wait_id status key payload by_ w :
  wait_steps (spec_waits w) (spec_waits (world_after (resolve_execution_wait wait_id status key payload by_) w)).
Proof.
  unfold resolve_execution_wait. execute.
  destruct (dget wait_id (w_waits w)) as [wt|] eqn:Hget; [|apply rtc_refl].
  destruct (wait_is_pending wt) eqn:Hp; [|apply rtc_refl].
  unfold spec_waits. cbn [negb w_waits set_w_waits set_w_clock snd]. rewrite dset_map. fold (spec_waits w).
  apply rtc_once. apply (wait_is_decided _ wait_id (spec_of wt) status key).
  - by rewrite spec_waits_get, Hget.
  - unfold wait_is_pending in Hp. by apply bool_decide_eq_true in Hp.
Qed.

(** [uuid4] never returns the same identifier twice. *)
Class UuidUnique `{Env} : Prop := uuid_inj :: Inj (=) (=) env_uuid.

Section Ledger.
Context `{Env}.

Definition pending_count (i : string) (w : world) : nat :=
  count_values (pending_for i) (w_waits w).

Definition one_pending (w : world) : Prop := forall i, (pending_count i w <= 1)%nat.

Definition events_of (i : string) (w : world) : list ExecutionEvent :=
  default [] (dget i (w_events w)).

Definition counter_of (i : string) (w : world) : Z := default 0 (dget i (w_sequences w)).

(** The events of an execution are numbered 1, 2, ..., counter. *)
Definition events_ok (w : world) : Prop := forall i,
  counter_of i w = Z.of_nat (List.length (events_of i w))
  /\ map ev_sequence (events_of i w) = seqZ 1 (counter_of i w).

(** [k] is one of the identifiers that the process has drawn. *)
Definition drawn (k : string) (w : world) : Prop :=
  exists n, (n < w_uuids w)%nat /\ k = env_uuid n.

(** Approval rows and waits are filed under their own, distinct ids. *)
Definition approvals_keyed (w : world) : Prop := keyed ar_id (w_approvals w).

Definition waits_keyed (w : world) : Prop := keyed wt_id (w_waits w).

(** A row that left [pending] never changes again. *)
Definition decisions_final (w w' : world) : Prop := forall k row,
  drawn k w -> dget k (w_approvals w) = Some row -> ar_status row <> "pending" ->
  dget k (w_approvals w') = Some row.

(** Every stored wait was filed under a drawn identifier. *)
Definition waits_drawn (w : world) : Prop := forall k wt, dget k (w_waits w) = Some wt -> drawn k w.

(** The log of [i] gained events that are numbered on from its counter. *)
Definition log_extends (i : string) (w w' : world) : Prop := exists evs,
  events_of i w' = events_of i w ++ evs
  /\ map ev_sequence evs = seqZ (counter_of i w + 1) (Z.of_nat (List.length evs))
  /\ counter_of i w' = counter_of i w + Z.of_nat (List.length evs).

#[export] Instance log_extends_preorder i : PreOrder (log_extends i).
Proof.
  split.
  - intros w. exists []. rewrite app_nil_r. cbn. split; [done|]. split; [done|lia].
  - intros w1 w2 w3 (e1 & E1 & S1 & C1) (e2 & E2 & S2 & C2). exists (e1 ++ e2).
    rewrite E2, E1, app_assoc, map_app, length_app, Nat2Z.inj_add, S1, S2, C2, C1.
    split; [done|]. split; [|lia]. rewrite seqZ_app by lia. do 2 f_equal. lia.
Qed.

Lemma log_same i w w' : w_events w' = w_events w -> w_sequences w' = w_sequences w -> log_extends i w w'.
Proof.
  intros He Hs. exists []. unfold events_of, counter_of. rewrite He, Hs, app_nil_r. cbn.
  split; [done|]. split; [done|lia].
Qed.

Record ledger (w w' : world) : Prop := {
  lg_uuids : (w_uuids w <= w_uuids w')%nat;
  lg_pending : one_pending w -> one_pending w';
  lg_log : forall i, log_extends i w w';
  lg_final : forall k wt, drawn k w -> dget k (w_waits w) = Some wt ->
    wait_is_pending wt = false -> dget k (w_waits w') = Some wt;
  lg_approvals : approvals_keyed w -> approvals_keyed w' /\ decisions_final w w';
  lg_keyed : waits_keyed w -> waits_keyed w';
  lg_drawn : waits_drawn w -> waits_drawn w';
  lg_spec : waits_drawn w -> wait_steps (spec_waits w) (spec_waits w')
}.

#[export] Instance ledger_preorder : PreOrder ledger.
Proof.
  split.
  - intros w. split; auto; [reflexivity|intros Hk; split; [done|by intros k row]|intros; apply rtc_refl].
  - intros w1 w2 w3 H12 H23. split.
    + pose proof (lg_uuids _ _ H12). pose proof (lg_uuids _ _ H23). lia.
    + intros Hp. by apply (lg_pending _ _ H23), (lg_pending _ _ H12).
    + intros i. transitivity w2; [apply (lg_log _ _ H12)|apply (lg_log _ _ H23)].
    + intros k wt (n & Hn & ->) Hget Hp.
      apply (lg_final _ _ H23); auto.
      * exists n. split; [|done]. pose proof (lg_uuids _ _ H12). lia.
      * apply (lg_final _ _ H12); auto. by exists n.
    + intros Hk. destruct (lg_approvals _ _ H12 Hk) as [Hk2 Hd2].
      destruct (lg_approvals _ _ H23 Hk2) as [Hk3 Hd3]. split; [done|].
      intros k row (n & Hn & ->) Hget Hs. apply Hd3; auto; [|apply Hd2; auto; by exists n].
      exists n. split; [|done]. pose proof (lg_uuids _ _ H12). lia.
    + intros Hk. by apply (lg_keyed _ _ H23), (lg_keyed _ _ H12).
    + intros Hd. by apply (lg_drawn _ _ H23), (lg_drawn _ _ H12).
    + intros Hd. etransitivity; [by apply (lg_spec _ _ H12)|].
      apply (lg_spec _ _ H23). by apply (lg_drawn _ _ H12).
Qed.

Lemma lg_events w w' : ledger w w' -> events_ok w -> events_ok w'.
Proof.
  intros Hl Hok i. destruct (lg_log _ _ Hl i) as (evs & E & S & C), (Hok i) as [Hc Hs].
  rewrite E, C, length_app, map_app, Hs, S, Hc. split; [lia|]. rewrite seqZ_app by lia. do 2 f_equal. lia.
Qed.

(** An update of the components that the ledger does not mention. *)
Lemma ledger_frame w w' :
  (w_uuids w <= w_uuids w')%nat -> w_waits w' = w_waits w -> w_events w' = w_events w ->
  w_sequences w' = w_sequences w -> w_approvals w' = w_approvals w -> ledger w w'.
Proof.
  intros Hu Hw He Hs Ha. split; auto.
  - intros Hp i. unfold pending_count. rewrite Hw. apply Hp.
  - intros i. by apply log_same.
  - intros k wt _ Hget _. by rewrite Hw.
  - intros Hk. unfold approvals_keyed, decisions_final. rewrite Ha. split; [done|by intros k row].
  - unfold waits_keyed. by rewrite Hw.
  - intros Hd k wt. rewrite Hw. intros (n & Hn & ->)%Hd. exists n. split; [lia|done].
  - intros _. unfold spec_waits. rewrite Hw. apply rtc_refl.
Qed.

Lemma ledger_modify_frame f :
  (forall w, (w_uuids w <= w_uuids (f w))%nat /\ w_waits (f w) = w_waits w
             /\ w_events (f w) = w_events w /\ w_sequences (f w) = w_sequences w
             /\ w_approvals (f w) = w_approvals w) ->
  evolves ledger (modify f).
Proof. intros Hf w. destruct (Hf w) as (?&?&?&?&?). by apply ledger_frame. Qed.

Lemma ledger_utc_now : evolves ledger utc_now.
Proof. intros w. by apply ledger_frame. Qed.

Lemma ledger_uuid4 : evolves ledger uuid4.
Proof. intros w. apply ledger_frame; simpl; auto. Qed.

Lemma ledger_assign i f : evolves ledger (assign i f).
Proof. intros w. by apply ledger_frame. Qed.

(** ** The event log *)

Lemma ledger_append_event ev : evolves ledger (append_event ev).
Proof.
  intros w. unfold append_event. execute.
  set (i := ev_execution_id ev). split; cbn; auto.
  - intros j. unfold log_extends, counter_of, events_of. cbn. rewrite !dget_dset.
    destruct (String.eqb_spec j i) as [->|Hne].
    + eexists. split; [reflexivity|]. cbn. by split.
    + exists []. rewrite app_nil_r. cbn. split; [done|]. split; [done|lia].
  - intros Hk. split; [done|by intros k row].
  - intros _. apply rtc_refl.
Qed.

(** ** Durable waits *)

Lemma ledger_resolve_execution_wait wait_id status key payload by_ :
  evolves ledger (resolve_execution_wait wait_id status key payload by_).
Proof.
  intros w. pose proof (resolve_decides wait_id status key payload by_ w) as Hspec. revert Hspec.
  unfold resolve_execution_wait. execute.
  destruct (dget wait_id (w_waits w)) as [wt|] eqn:Hget; [|reflexivity].
  destruct (wait_is_pending wt) eqn:Hp; cbn [negb snd]; [|reflexivity]. intros Hspec.
  split; cbn; auto.
  - intros Hone i. unfold pending_count. cbn.
    etransitivity; [|apply Hone]. eapply count_dset_replace; [exact Hget|].
    unfold pending_for. cbn. rewrite Hp. intros [-> _]%andb_prop. done.
  - intros i. by apply log_same.
  - intros k wt' _ Hk Hnp. rewrite dget_dset.
    destruct (String.eqb_spec k wait_id) as [->|Hne]; [congruence|done].
  - intros Hk. split; [done|by intros k row].
  - intros Hk. apply keyed_dset; [exact (proj2 Hk wait_id wt Hget)|done].
  - intros Hd k wt'. cbn. rewrite dget_dset.
    destruct (String.eqb_spec k wait_id) as [->|Hne]; [by intros _; apply (Hd wait_id wt)|apply Hd].
Qed.

(** Creating a wait under an identifier drawn since [w]. *)
Lemma ledger_create_execution_wait `{!UuidUnique} wt w w' :
  ledger w w' -> w_waits w' = w_waits w ->
  (exists n, (w_uuids w <= n < w_uuids w')%nat /\ wt_id wt = env_uuid n) ->
  ledger w (world_after (create_execution_wait wt) w').
Proof.
  intros Hw Hsame (n & Hn & Hid).
  assert (Hspec : waits_drawn w ->
    wait_steps (spec_waits w) (spec_waits (world_after (create_execution_wait wt) w'))).
  { intros Hd. unfold spec_waits at 1. rewrite <-Hsame. apply create_opens. rewrite Hsame.
    destruct (dget (wt_id wt) (w_waits w)) as [old|] eqn:Hold; [|done].
    destruct (Hd _ _ Hold) as (m & Hm & Heq). rewrite Hid in Heq. apply uuid_inj in Heq. lia. }
  revert Hspec. unfold create_execution_wait. execute.
  destruct (List.find _ _) as [wt'|]; [done|].
  destruct (wait_is_pending wt && _) eqn:Hp; cbn [snd]; [done|]. intros Hspec.
  destruct Hw as [Hu Hone Hl Hf Happ Hkd Hdr _]. split; cbn; auto.
  - intros Hw i. specialize (Hone Hw i). unfold pending_count in *. cbn.
    etransitivity; [apply count_dset_le|].
    destruct (pending_for i wt) eqn:Hpf; [|lia].
    unfold pending_for in Hpf. apply andb_prop in Hpf as [Hi%String.eqb_eq Hpw].
    rewrite Hpw, Hi in Hp. simpl in Hp.
    rewrite count_values_none; [done|]. intros v Hv.
    destruct (pending_for i v) eqn:E; [|done].
    enough (existsb (pending_for i) (dvalues (w_waits w')) = true) by congruence.
    apply existsb_exists. by exists v.
  - intros k wt' (m & Hm & ->) Hk Hnp. rewrite dget_dset_ne.
    + apply Hf; auto. by exists m.
    + rewrite Hid. intros Heq%uuid_inj. lia.
  - intros Hk. by apply keyed_dset; [|apply Hkd].
  - intros Hd k wt'. cbn. rewrite dget_dset.
    destruct (String.eqb_spec k (wt_id wt)) as [->|Hne]; [|by apply (Hdr Hd)].
    intros _. exists n. split; [cbn; lia|done].
Qed.

(** Composition for a computation started inside a handler. *)
Lemma ledger_continue {A B} w (m : M A) (f : A -> M B) w' :
  ledger w (world_after m w') -> (forall a, evolves ledger (f a)) ->
  ledger w (world_after (m ≫= f) w').
Proof.
  unfold world_after. rewrite bind_unfold. destruct (m w') as [[a|e] w'']; simpl; [|done].
  intros Hm Hf. etransitivity; [exact Hm|apply Hf].
Qed.

(** ** Approval rows *)

Lemma approvals_keyed_In row w :
  approvals_keyed w -> In row (dvalues (w_approvals w)) ->
  dget (ar_id row) (w_approvals w) = Some row.
Proof. apply keyed_In. Qed.

(** Replacing rows only. *)
Lemma ledger_set_approvals w w' :
  (w_uuids w <= w_uuids w')%nat -> w_waits w' = w_waits w -> w_events w' = w_events w ->
  w_sequences w' = w_sequences w ->
  (approvals_keyed w -> approvals_keyed w' /\ decisions_final w w') -> ledger w w'.
Proof.
  intros Hu Hw He Hs Ha.
  destruct (ledger_frame w (set_w_approvals (w_approvals w) w')); done.
Qed.

Lemma ledger_create_approval_request `{!UuidUnique} i ev t st p :
  evolves ledger (create_approval_request i ev t st p).
Proof.
  intros w. unfold create_approval_request. execute. apply ledger_set_approvals; cbn; auto.
  intros Hk. split; [by apply keyed_dset|].
  intros k row (n & Hn & ->) Hget _. cbn. rewrite dget_dset_ne; [done|].
  intros Heq%uuid_inj. lia.
Qed.

Lemma ledger_update_pending r st p by_ w :
  (approvals_keyed w -> forall row, dget r (w_approvals w) = Some row -> ar_status row = "pending") ->
  ledger w (world_after (update_approval_request r st p by_) w).
Proof.
  intros Hp. unfold update_approval_request. execute.
  destruct (dget r (w_approvals w)) as [row|] eqn:Hget; [|reflexivity]. cbn.
  apply ledger_set_approvals; cbn; auto. intros Hk. split.
  - apply keyed_dset; [exact (proj2 Hk r row Hget)|exact Hk].
  - intros k row' _ Hget' Hs. cbn. rewrite dget_dset_ne; [done|].
    intros ->. simplify_eq. by specialize (Hp Hk _ eq_refl).
Qed.

Lemma py_max_In {A} le (l : list A) x : py_max le l = Some x -> In x l.
Proof.
  destruct l as [|y l]; simpl; [done|]. intros [= <-]. revert y.
  induction l as [|z l IH]; intros y; simpl; [by left|].
  destruct (IH (if le z y then y else z)) as [E|Hin]; [|by right; right].
  destruct (le z y); auto.
Qed.

Lemma ledger_resolve_pending_approval_request i t st p by_ :
  evolves ledger (resolve_pending_approval_request i t st p by_).
Proof.
  intros w. unfold resolve_pending_approval_request, world_after. rewrite bind_unfold. cbn [gets].
  destruct (py_max _ _) as [row|] eqn:Hmax; [|reflexivity].
  destruct (String.eqb (ar_status row) st); [reflexivity|].
  destruct (String.eqb_spec (ar_status row) "pending") as [Hpend|]; [|reflexivity]. cbn [negb].
  apply py_max_In, filter_In in Hmax as [Hin _].
  apply ledger_continue; [|intros _; apply evolves_gets; exact _].
  apply ledger_update_pending. intros Hk row' Hget'.
  rewrite (approvals_keyed_In row w Hk Hin) in Hget'. by simplify_eq.
Qed.

Lemma ledger_bind_from {A B} w (m : M A) (f : A -> M B) w' :
  ledger w w' -> evolves ledger m ->
  (forall a w'', m w' = (Ok a, w'') -> ledger w w'' -> ledger w (world_after (f a) w'')) ->
  ledger w (world_after (m ≫= f) w').
Proof.
  intros Hw Hm Hf. specialize (Hm w'). unfold world_after in *. rewrite bind_unfold.
  destruct (m w') as [[a|e] w''] eqn:E; simpl in *; [|by transitivity w'].
  apply Hf; [done|]. by transitivity w'.
Qed.
End Ledger.

#[export] Hint Resolve ledger_utc_now ledger_uuid4 ledger_assign ledger_append_event
  ledger_resolve_execution_wait ledger_create_approval_request
  ledger_resolve_pending_approval_request : evolve.
#[export] Hint Extern 3 (evolves ledger (modify _)) => apply ledger_modify_frame; intros; cbn; auto : evolve.

Lemma ledger_save_execution `{Env} e : evolves ledger (save_execution e).
Proof. unfold save_execution, create_execution, get_execution. evolve. Qed.
#[export] Hint Resolve ledger_save_execution : evolve.

(** ** Resolving a wait *)

Section Claim.
Context `{Env}.

(** Exactly one resolution of a pending wait wins.  Whatever happens to the
    store afterwards within its contract, the winner's resolution stays, its key
    is answered as a replay, every other key is told that it lost, and neither
    changes the waits. *)
Theorem resolve_exactly_once wait_id wt st k payload by_ w :
  dget wait_id (w_waits w) = Some wt -> wait_is_pending wt = true ->
  st <> WAIT_PENDING -> drawn wait_id w ->
  exists won w', resolve_execution_wait wait_id st k payload by_ w = (Ok (Some won, true), w')
    /\ wt_status won = st /\ wt_resolution_key won = Some k
    /\ wt_resolution_payload won = Some payload
    /\ forall w'' st2 k2 payload2 by2, ledger w' w'' ->
         resolve_execution_wait wait_id st2 k2 payload2 by2 w'' =
           (Ok (if String.eqb k k2 then Some won else None, false), w'').
Proof.
  intros Hget Hp Hst (n & Hn & Hid). unfold resolve_execution_wait at 1. execute.
  rewrite Hget, Hp. cbn. eexists _, _. split; [reflexivity|]. do 3 (split; [done|]).
  intros w'' st2 k2 payload2 by2 Hledger.
  set (won := mkExecutionWait _ _ _ _ _ _ _ _ _ _ _ _ _ _ _ _ _ _) in *.
  assert (Hwon : dget wait_id (w_waits w'') = Some won).
  { apply (lg_final _ _ Hledger); [by exists n|cbn; apply dget_dset_eq|].
    unfold wait_is_pending. by apply bool_decide_eq_false_2. }
  unfold resolve_execution_wait. execute. rewrite Hwon.
  replace (wait_is_pending won) with false
    by (symmetry; unfold wait_is_pending; by apply bool_decide_eq_false_2).
  cbn. by destruct (String.eqb k k2).
Qed.
End Claim.
