(* ===== verification/Sample.v ===== *)
(** * A concrete environment and concrete records

    The witnesses of the development evaluate the handlers here: a clock that
    ticks once a second from 2023-11-14T22:13:20Z until 2055, identifiers that are never
    drawn twice, no extra secret pattern, and a few executions and waits. *)

From Corelib Require Import SpecFloat.
From S2P Require Export Floats Ledger.

(** [n] letters. *)
Fixpoint letters (n : nat) : string :=
  match n with O => "" | S n' => String "u" (letters n') end.

Lemma letters_length n : String.length (letters n) = n.
Proof. induction n; simpl; auto. Qed.

#[export] Instance sample_env : Env := {
  env_now n := (1700000000 + Z.min (Z.of_nat n) 1000000000) * us_per_second;
  env_uuid n := "id-" +:+ letters n;
  env_float_repr _ := "0.0";
  env_float_pow x y := Some (if SFeqb y (S754_zero false) then float_of_Z 1 else x);
  env_system_metrics _ := [];
  env_sha256_hex s := s;
  env_redact_enabled := true;
  env_secret_patterns := []
}.

#[export] Instance sample_unique : UuidUnique.
Proof.
  intros n m Heq. change ("id-" +:+ letters n = "id-" +:+ letters m) in Heq.
  injection Heq as Heq. change (letters n = letters m) in Heq.
  by rewrite <-(letters_length n), <-(letters_length m), Heq.
Defined.

Definition sample_execution (id : string) (status : ExecutionStatus) : Execution := {|
  ex_id := id; ex_workflow_id := "wf"; ex_goal_id := None; ex_workflow_version_id := None;
  ex_runtime_adapter_id := "native"; ex_runtime_revision_id := None; ex_runtime_fingerprint := None;
  ex_status := status; ex_trigger_type := "manual"; ex_trigger_payload := []; ex_input_payload := [];
  ex_output_payload := None; ex_error := None; ex_created_at := 0; ex_started_at := None;
  ex_completed_at := None; ex_updated_at := 0; ex_created_by := None; ex_worker_id := None;
  ex_last_heartbeat_at := None; ex_container_id := None; ex_container_name := None;
  ex_container_image := None; ex_container_status := None; ex_container_started_at := None;
  ex_container_ended_at := None; ex_container_exit_code := None;
  ex_replacement_of_execution_id := None; ex_restart_reason := None; ex_metadata := []
|}.

Definition sample_world (status : ExecutionStatus) : world :=
  set_w_executions [("e1", sample_execution "e1" status)] empty_world.

Definition sample_wait (status : ExecutionWaitStatus) (key : option string) : ExecutionWait :=
  mkExecutionWait "id-" "e1" INPUT status "step-1" None [] [] [] None key None None None None 0 0 [].

(** An execution suspended on a pending input wait. *)
Definition suspended_world : world :=
  set_w_uuids 1
    (set_w_waits [("id-", sample_wait WAIT_PENDING None)]
      (set_w_executions
        [("e1", set_ex_metadata [("active_wait", PDict [("wait_id", PStr "id-")])]
                  (sample_execution "e1" WAITING_FOR_INPUT))] empty_world)).

Lemma suspended_world_one_pending : one_pending suspended_world.
Proof.
  intros i. unfold pending_count, count_values. simpl.
  destruct (pending_for i _); simpl; lia.
Defined.

Lemma resolve_exactly_once_witness :
  exists won w', resolve_execution_wait "id-" WAIT_RESOLVED "k" [] None suspended_world
      = (Ok (Some won, true), w')
    /\ wt_status won = WAIT_RESOLVED /\ wt_resolution_key won = Some "k"
    /\ wt_resolution_payload won = Some []
    /\ forall w'' st2 k2 payload2 by2, ledger w' w'' ->
         resolve_execution_wait "id-" st2 k2 payload2 by2 w'' =
           (Ok (if String.eqb "k" k2 then Some won else None, false), w'').
Proof.
  refine (resolve_exactly_once "id-" (sample_wait WAIT_PENDING None) WAIT_RESOLVED "k" [] None
            suspended_world _ _ _ _); try done.
  exists O. split; [simpl; lia|done].
Defined.
