(* ===== verification/Leases.v ===== *)
(** * The worker lock as a lease

    [acquire_lock], [release_lock] and [heartbeat] of [InMemoryExecutionStore]
    ([app/runtime/native/state.py]) give a worker the exclusive run of an
    execution for as long as its heartbeat is young.  The abstract
    specification is a lease: who holds it, since which heartbeat; the theorems
    show that no sequence of lock operations of other workers takes a young
    lease away, and that an old lease is taken over and its former owner is
    fenced off. *)

From S2P Require Export Sample.

(** ** Lock operations *)

Inductive lock_op :=
  | op_acquire (i worker : string) (stale_after_seconds : Z)
  | op_release (i worker : string)
  | op_heartbeat (i worker : string).

Definition op_worker (op : lock_op) : string :=
  match op with op_acquire _ k _ | op_release _ k | op_heartbeat _ k => k end.

(** The limit that an operation applies to a lease, when it applies one. *)
Definition op_limit (op : lock_op) : option Z :=
  match op with op_acquire _ _ s => Some s | _ => None end.

(** The lease of an execution: its holder and the last heartbeat. *)
Definition lease (i : string) (w : world) : option (option string * option Z) :=
  e ← dget i (w_executions w); Some (ex_worker_id e, ex_last_heartbeat_at e).

Section Leases.
Context `{Env}.

Definition run_lock_op (op : lock_op) : M unit :=
  match op with
  | op_acquire i k s => acquire_lock i k s;; mret tt
  | op_release i k => release_lock i k;; mret tt
  | op_heartbeat i k => heartbeat i k;; mret tt
  end.

Definition run_lock_ops (ops : list lock_op) : M unit := for_each run_lock_op ops.

Lemma lease_assign i j f w :
  lease i (set_w_executions (dalter f j (w_executions w)) w) =
    if String.eqb i j then e ← dget i (w_executions w);
                           Some (ex_worker_id (f e), ex_last_heartbeat_at (f e))
    else lease i w.
Proof.
  unfold lease. cbn. rewrite dget_dalter. destruct (String.eqb i j); [|done].
  by destruct (dget i (w_executions w)).
Qed.

(** Acquiring: the decision and its effect. *)
Definition may_acquire (now stale : Z) (worker : string) (l : option string * option Z) : bool :=
  opt_eqb l.1 None || opt_eqb l.1 (Some worker) || heartbeat_stale now stale l.2.

Lemma acquire_lock_lease i k s w l :
  lease i w = Some l ->
  exists w', acquire_lock i k s w = (Ok (may_acquire (env_now (w_clock w)) s k l), w')
    /\ w_clock w' = S (w_clock w)
    /\ lease i w' = Some (if may_acquire (env_now (w_clock w)) s k l
                          then (Some k, Some (env_now (w_clock w))) else l)
    /\ (forall j, j <> i -> lease j w' = lease j w).
Proof.
  intros Hl. unfold acquire_lock, lease in *. rewrite bind_unfold. cbn [gets].
  destruct (dget i (w_executions w)) as [e|] eqn:He; [|done]. injection Hl as <-.
  rewrite bind_unfold. cbn [utc_now]. cbv zeta. unfold may_acquire. cbn [fst snd].
  destruct (_ || _ || _); cbn; eexists; (split; [reflexivity|]); cbn; rewrite ?He;
    (split; [done|]); rewrite ?dget_dalter, ?String.eqb_refl, ?He; (split; [done|]);
    intros j Hj%String.eqb_neq; by rewrite ?dget_dalter, ?Hj.
Qed.

Lemma release_lock_lease i k w l :
  lease i w = Some l ->
  exists w', release_lock i k w = (Ok (opt_eqb l.1 (Some k)), w')
    /\ w_clock w' = w_clock w
    /\ lease i w' = Some (if opt_eqb l.1 (Some k) then (None, l.2) else l)
    /\ (forall j, j <> i -> lease j w' = lease j w)
    /\ (opt_eqb l.1 (Some k) = false -> w' = w).
Proof.
  intros Hl. unfold release_lock, lease in *. rewrite bind_unfold. cbn [gets].
  destruct (dget i (w_executions w)) as [e|] eqn:He; [|done]. injection Hl as <-. cbn [fst snd].
  destruct (opt_eqb _ _); cbn; eexists; (split; [reflexivity|]); cbn; rewrite ?He;
    (split; [done|]); rewrite ?dget_dalter, ?String.eqb_refl, ?He; (split; [done|]);
    (split; [|done]); intros j Hj%String.eqb_neq; by rewrite ?dget_dalter, ?Hj.
Qed.

Lemma heartbeat_lease i k w l :
  lease i w = Some l ->
  exists w', heartbeat i k w = (Ok (Some i), w')
    /\ (w_clock w <= w_clock w')%nat
    /\ lease i w' = Some (if opt_eqb l.1 None || opt_eqb l.1 (Some k)
                          then (Some k, Some (env_now (w_clock w))) else l)
    /\ (forall j, j <> i -> lease j w' = lease j w)
    /\ (opt_eqb l.1 None || opt_eqb l.1 (Some k) = false -> w' = w).
Proof.
  intros Hl. unfold heartbeat, lease in *. rewrite bind_unfold. cbn [gets].
  destruct (dget i (w_executions w)) as [e|] eqn:He; [|done]. injection Hl as <-. cbn [fst snd].
  destruct (opt_eqb _ _ || _); cbn; eexists; (split; [reflexivity|]); cbn; rewrite ?He;
    (split; [lia|]); rewrite ?dget_dalter, ?String.eqb_refl, ?He; (split; [done|]);
    (split; [|done]); intros j Hj%String.eqb_neq; by rewrite ?dget_dalter, ?Hj.
Qed.

(** On an unknown execution every operation does nothing. *)
Lemma lock_op_unknown i op w :
  lease i w = None -> (match op with op_acquire j _ _ | op_release j _ | op_heartbeat j _ => j end) = i ->
  run_lock_op op w = (Ok tt, w).
Proof.
  intros Hl Hi. unfold lease in Hl.
  destruct op; simpl in *; subst; unfold acquire_lock, release_lock, heartbeat;
    rewrite !bind_unfold; cbn [gets]; destruct (dget i (w_executions w)); done.
Qed.

Lemma opt_eqb_None a : opt_eqb (Some a) None = false.
Proof. done. Qed.

Lemma opt_eqb_other a b : b <> a -> opt_eqb (Some a) (Some b) = false.
Proof. intros Hne. apply String.eqb_neq. congruence. Qed.

(** One operation of another worker on a young lease. *)
Lemma lock_op_keeps i a t op w :
  lease i w = Some (Some a, Some t) -> op_worker op <> a ->
  (forall s, op_limit op = Some s -> env_now (w_clock w) <= t + s * us_per_second) ->
  exists w', run_lock_op op w = (Ok tt, w') /\ lease i w' = Some (Some a, Some t)
    /\ (w_clock w <= w_clock w')%nat.
Proof.
  intros Hl Hne Hlim.
  set (j := match op with op_acquire j _ _ | op_release j _ | op_heartbeat j _ => j end).
  destruct (lease j w) as [lj|] eqn:Hj; [|exists w; by rewrite (lock_op_unknown j)].
  destruct op as [j' k s|j' k|j' k]; simpl in *; subst j; rewrite bind_unfold.
  - destruct (acquire_lock_lease j' k s w lj Hj) as (w' & -> & Hc & Hl' & Hother).
    exists w'. split; [done|]. split; [|lia].
    destruct (String.eqb_spec i j') as [<-|Hij]; [|by rewrite Hother].
    rewrite Hl in Hj. injection Hj as <-. rewrite Hl'. unfold may_acquire. cbn [fst snd].
    rewrite opt_eqb_None, opt_eqb_other by done. specialize (Hlim s eq_refl). cbn.
    by replace (s * us_per_second <? env_now (w_clock w) - t) with false
      by (symmetry; apply Z.ltb_ge; lia).
  - destruct (release_lock_lease j' k w lj Hj) as (w' & -> & Hc & Hl' & Hother & _).
    exists w'. split; [done|]. split; [|lia].
    destruct (String.eqb_spec i j') as [<-|Hij]; [|by rewrite Hother].
    rewrite Hl in Hj. injection Hj as <-. rewrite Hl'. cbn [fst snd]. by rewrite opt_eqb_other.
  - destruct (heartbeat_lease j' k w lj Hj) as (w' & -> & Hc & Hl' & Hother & _).
    exists w'. split; [done|]. split; [|lia].
    destruct (String.eqb_spec i j') as [<-|Hij]; [|by rewrite Hother].
    rewrite Hl in Hj. injection Hj as <-. rewrite Hl'. cbn [fst snd].
    by rewrite opt_eqb_None, opt_eqb_other.
Qed.

Lemma lock_op_clock op w :
  exists w', run_lock_op op w = (Ok tt, w') /\ (w_clock w <= w_clock w')%nat.
Proof.
  set (j := match op with op_acquire j _ _ | op_release j _ | op_heartbeat j _ => j end).
  destruct (lease j w) as [lj|] eqn:Hj; [|exists w; by rewrite (lock_op_unknown j)].
  destruct op as [j' k s|j' k|j' k]; simpl in *; subst j; rewrite bind_unfold.
  - destruct (acquire_lock_lease j' k s w lj Hj) as (w' & -> & Hc & _). exists w'. split; [done|lia].
  - destruct (release_lock_lease j' k w lj Hj) as (w' & -> & Hc & _). exists w'. split; [done|lia].
  - destruct (heartbeat_lease j' k w lj Hj) as (w' & -> & Hc & _). exists w'. split; [done|lia].
Qed.

Lemma run_lock_ops_cons op ops w w' :
  run_lock_op op w = (Ok tt, w') -> run_lock_ops (op :: ops) w = run_lock_ops ops w'.
Proof. intros E. unfold run_lock_ops. cbn [for_each]. by rewrite bind_unfold, E. Qed.

Lemma lock_ops_clock ops w : (w_clock w <= w_clock (world_after (run_lock_ops ops) w))%nat.
Proof.
  revert w. induction ops as [|op ops IH]; intros w; [done|].
  destruct (lock_op_clock op w) as (w' & E & Hle). unfold world_after.
  rewrite (run_lock_ops_cons op ops w w' E). specialize (IH w'). unfold world_after in IH. lia.
Qed.

(** C7. A worker that acquired an execution keeps it through every sequence of
    lock operations of other workers (acquire, release or heartbeat, on this or
    other executions) as long as its heartbeat is no older than the limits those
    workers use. *)
Theorem lease_is_exclusive i a s w w1 ops e :
  dget i (w_executions w) = Some e ->
  acquire_lock i a s w = (Ok true, w1) ->
  let t := env_now (w_clock w) in
  let w2 := world_after (run_lock_ops ops) w1 in
  Forall (fun op => op_worker op <> a) ops ->
  (forall n s', (n <= w_clock w2)%nat -> In (Some s') (map op_limit ops) ->
     env_now n <= t + s' * us_per_second) ->
  result_of (run_lock_ops ops) w1 = Ok tt /\ lease i w2 = Some (Some a, Some t).
Proof.
  intros He Hacq t w2 Hothers Hyoung.
  assert (Hl1 : lease i w1 = Some (Some a, Some t)).
  { destruct (lease i w) as [l|] eqn:Hl; [|unfold lease in Hl; by rewrite He in Hl].
    destruct (acquire_lock_lease i a s w l Hl) as (w' & E & _ & Hl' & _).
    rewrite Hacq in E. injection E as Hm <-. by rewrite Hl', <-Hm. }
  subst w2. clear Hacq He. clearbody t. revert w1 Hl1 Hyoung.
  induction Hothers as [|op ops Hop Hops IH]; intros w1 Hl1 Hyoung; [by split|].
  pose proof (lock_ops_clock (op :: ops) w1) as Hclock.
  destruct (lock_op_keeps i a t op w1 Hl1 Hop) as (w' & E & Hl' & Hle).
  { intros s' Hs'. apply Hyoung; [exact Hclock|]. by left. }
  unfold result_of, world_after in *. rewrite (run_lock_ops_cons op ops w1 w' E) in *.
  apply IH; [done|]. intros n s' Hn Hin. apply Hyoung; [done|]. by right.
Qed.

(** A lease whose heartbeat is older than the limit is taken over by the next
    worker that asks; from then on the former owner is fenced off: its release is
    refused and its heartbeat changes nothing. *)
Theorem stale_lease_taken_over i a b s t w :
  lease i w = Some (Some a, Some t) -> a <> b -> s * us_per_second < env_now (w_clock w) - t ->
  exists w', acquire_lock i b s w = (Ok true, w')
    /\ lease i w' = Some (Some b, Some (env_now (w_clock w)))
    /\ release_lock i a w' = (Ok false, w')
    /\ heartbeat i a w' = (Ok (Some i), w').
Proof.
  intros Hl Hne Hold.
  assert (Hm : may_acquire (env_now (w_clock w)) s b (Some a, Some t) = true).
  { unfold may_acquire, heartbeat_stale. cbn [fst snd]. apply orb_true_iff. right. by apply Z.ltb_lt. }
  destruct (acquire_lock_lease i b s w _ Hl) as (w' & E & _ & Hl' & _). rewrite Hm in E, Hl'.
  exists w'. split; [done|]. split; [done|].
  assert (Hab : opt_eqb (Some b) (Some a) = false) by by apply opt_eqb_other.
  destruct (release_lock_lease i a w' _ Hl') as (w2 & E2 & _ & _ & _ & Hw2). cbn [fst snd] in *.
  rewrite Hab in E2, Hw2. rewrite Hw2 in E2 by done.
  destruct (heartbeat_lease i a w' _ Hl') as (w3 & E3 & _ & _ & _ & Hw3). cbn [fst snd] in *.
  rewrite opt_eqb_None, Hab in Hw3. rewrite Hw3 in E3 by done. done.
Qed.
End Leases.

(** ** Witnesses *)

(** Two workers and a limit of five minutes; the clock ticks once a second. *)
Lemma lease_is_exclusive_witness :
  let ops := [op_acquire "e1" "worker-b" 300; op_heartbeat "e1" "worker-b"; op_release "e1" "worker-b";
              op_acquire "e1" "worker-c" 300] in
  let w1 := world_after (acquire_lock "e1" "worker-a" 300) (sample_world QUEUED) in
  result_of (run_lock_ops ops) w1 = Ok tt
  /\ lease "e1" (world_after (run_lock_ops ops) w1) = Some (Some "worker-a", Some (env_now 0)).
Proof.
  refine (lease_is_exclusive "e1" "worker-a" 300 (sample_world QUEUED)
            (world_after (acquire_lock "e1" "worker-a" 300) (sample_world QUEUED))
            [op_acquire "e1" "worker-b" 300; op_heartbeat "e1" "worker-b"; op_release "e1" "worker-b";
             op_acquire "e1" "worker-c" 300]
            (sample_execution "e1" QUEUED) eq_refl eq_refl _ _).
  - by repeat constructor.
  - intros n s' Hn Hin. assert (Hs : s' = 300) by (simpl in Hin; intuition congruence). subst.
    assert (Hn3 : (n <= 3)%nat) by exact Hn. cbn. unfold us_per_second. lia.
Defined.

Lemma stale_lease_taken_over_witness :
  let w := set_w_clock 400 (world_after (acquire_lock "e1" "worker-a" 300) (sample_world QUEUED)) in
  exists w', acquire_lock "e1" "worker-b" 300 w = (Ok true, w')
    /\ lease "e1" w' = Some (Some "worker-b", Some (env_now 400))
    /\ release_lock "e1" "worker-a" w' = (Ok false, w')
    /\ heartbeat "e1" "worker-a" w' = (Ok (Some "e1"), w').
Proof.
  refine (stale_lease_taken_over "e1" "worker-a" "worker-b" 300 (env_now 0)
            (set_w_clock 400 (world_after (acquire_lock "e1" "worker-a" 300) (sample_world QUEUED)))
            eq_refl _ _).
  - done.
  - reflexivity.
Defined.
