(* ===== verification/FireClaims.v ===== *)
(** * Claims on schedule fires

    [acquire_schedule_fire_claim], [mark_schedule_fire_claim_fired] and
    [mark_schedule_fire_claim_failed] of [InMemoryScheduleRepository]
    ([app/db/repositories/schedules.py]): several scheduler processes compete for
    one fire of a schedule, named by the schedule and the fire time.  A claim is a
    lease; a fire that was marked as fired is never given out again. *)

From stdpp Require Import gmap.
From S2P Require Export Sample.

(** [_claim_key] *)
Definition claim_key (schedule_id : string) (scheduled_fire_at : Z) : string * string :=
  (schedule_id, isoformat scheduled_fire_at).

Definition fire_claim (k : string * string) (w : world) : option FireClaim := w_fire_claims w !! k.

(** The claim refuses another claimant at a time. *)
Definition claim_blocks (now : Z) (c : FireClaim) : bool :=
  String.eqb (fc_status c) "fired"
  || String.eqb (fc_status c) "claimed" && (now <? fc_lease_expires_at c).

Section FireClaims.
Context `{Env}.

Definition put_claim (k : string * string) (c : FireClaim) : M unit :=
  modify (fun w => set_w_fire_claims (<[k := c]> (w_fire_claims w)) w).

(** [acquire_schedule_fire_claim] *)
Definition acquire_schedule_fire_claim (schedule_id : string) (scheduled_fire_at : Z) (claimed_by : string)
    (lease_seconds : Z) : M bool :=
  now ← utc_now;
  let k := claim_key schedule_id scheduled_fire_at in
  existing ← gets (fire_claim k);
  if from_option (claim_blocks now) false existing then mret false
  else
    id ← uuid4;
    put_claim k (mkFireClaim id schedule_id scheduled_fire_at claimed_by
                   (now + lease_seconds * us_per_second) "claimed" None now);;
    mret true.

(** [claim["lease_expires_at"] = utc_now(); claim["updated_at"] = utc_now()] *)
Definition close_claim (k : string * string) (status : string) (execution_id : option string) (c : FireClaim) :
    M unit :=
  lease_expires_at ← utc_now;
  updated_at ← utc_now;
  put_claim k (mkFireClaim (fc_id c) (fc_schedule_id c) (fc_scheduled_fire_at c) (fc_claimed_by c)
                 lease_expires_at status execution_id updated_at).

(** The claim under a key when [claimed_by] holds it. *)
Definition own_claim (k : string * string) (claimed_by : string) (w : world) : option FireClaim :=
  c ← fire_claim k w; if String.eqb (fc_claimed_by c) claimed_by then Some c else None.

(** [mark_schedule_fire_claim_fired] *)
Definition mark_schedule_fire_claim_fired (schedule_id : string) (scheduled_fire_at : Z)
    (execution_id claimed_by : string) : M unit :=
  let k := claim_key schedule_id scheduled_fire_at in
  claim ← gets (own_claim k claimed_by);
  match claim with
  | Some c => close_claim k "fired" (Some execution_id) c
  | None => mret tt
  end.

(** [mark_schedule_fire_claim_failed] *)
Definition mark_schedule_fire_claim_failed (schedule_id : string) (scheduled_fire_at : Z)
    (claimed_by : string) : M unit :=
  let k := claim_key schedule_id scheduled_fire_at in
  claim ← gets (own_claim k claimed_by);
  match claim with
  | Some c => close_claim k "failed" (fc_execution_id c) c
  | None => mret tt
  end.

(** ** Competing schedulers *)

Inductive claim_op :=
  | claim_acquire (schedule_id : string) (at_ : Z) (claimed_by : string) (lease_seconds : Z)
  | claim_fired (schedule_id : string) (at_ : Z) (execution_id claimed_by : string)
  | claim_failed (schedule_id : string) (at_ : Z) (claimed_by : string).

(** The operation closes claims of [who]. *)
Definition closes_for (who : string) (op : claim_op) : bool :=
  match op with
  | claim_acquire _ _ _ _ => false
  | claim_fired _ _ _ by_ | claim_failed _ _ by_ => String.eqb by_ who
  end.

(** Runs an operation; the fires that it was given. *)
Definition run_claim_op (op : claim_op) : M (list (string * string)) :=
  match op with
  | claim_acquire i t by_ lease =>
      given ← acquire_schedule_fire_claim i t by_ lease;
      mret (if (given : bool) then [claim_key i t] else [])
  | claim_fired i t e by_ => mark_schedule_fire_claim_fired i t e by_;; mret []
  | claim_failed i t by_ => mark_schedule_fire_claim_failed i t by_;; mret []
  end.

Definition run_claim_ops (ops : list claim_op) : M (list (string * string)) := collect run_claim_op ops.

Lemma claim_lookup k k' c m w :
  fire_claim k (set_w_fire_claims (<[k' := c]> m) w) = if decide (k' = k) then Some c else m !! k.
Proof. unfold fire_claim. cbn [w_fire_claims set_w_fire_claims]. apply lookup_insert. Qed.

Lemma acquire_claim_run i t by_ lease w :
  let now := env_now (w_clock w) in
  let w1 := set_w_clock (S (w_clock w)) w in
  acquire_schedule_fire_claim i t by_ lease w =
    if from_option (claim_blocks now) false (fire_claim (claim_key i t) w) then (Ok false, w1)
    else (Ok true, set_w_fire_claims
                     (<[claim_key i t := mkFireClaim (env_uuid (w_uuids w)) i t by_
                          (now + lease * us_per_second) "claimed" None now]> (w_fire_claims w))
                     (set_w_uuids (S (w_uuids w)) w1)).
Proof.
  cbv zeta. unfold acquire_schedule_fire_claim. rewrite bind_unfold. cbn [utc_now].
  rewrite bind_unfold. cbn [gets]. change (fire_claim ?k (set_w_clock _ w)) with (fire_claim k w). by destruct (from_option _ _ _).
Qed.

(** Closing a claim: only its key changes, and only when [by_] holds it. *)
Definition closed (status : string) (execution_id : option string) (c : FireClaim) (n : nat) : FireClaim :=
  mkFireClaim (fc_id c) (fc_schedule_id c) (fc_scheduled_fire_at c) (fc_claimed_by c) (env_now n) status
    execution_id (env_now (S n)).

Lemma close_claim_run k status e c w :
  close_claim k status e c w =
    (Ok tt, set_w_fire_claims (<[k := closed status e c (w_clock w)]> (w_fire_claims w))
              (set_w_clock (S (S (w_clock w))) w)).
Proof. reflexivity. Qed.

Lemma mark_fired_own i t e by_ c w :
  own_claim (claim_key i t) by_ w = Some c ->
  mark_schedule_fire_claim_fired i t e by_ w = close_claim (claim_key i t) "fired" (Some e) c w.
Proof. intros Hown. unfold mark_schedule_fire_claim_fired. rewrite bind_unfold. cbn [gets]. by rewrite Hown. Qed.

Lemma mark_failed_own i t by_ c w :
  own_claim (claim_key i t) by_ w = Some c ->
  mark_schedule_fire_claim_failed i t by_ w = close_claim (claim_key i t) "failed" (fc_execution_id c) c w.
Proof. intros Hown. unfold mark_schedule_fire_claim_failed. rewrite bind_unfold. cbn [gets]. by rewrite Hown. Qed.

(** One operation of others on a fire whose claim blocks them. *)
Definition blocked (k : string * string) (c : FireClaim) (w : world) : list (string * string) -> world -> Prop :=
  fun given w' => ~ In k given /\ fire_claim k w' = Some c /\ (w_clock w <= w_clock w')%nat.

Lemma close_keeps k k' by_ status e c w :
  fire_claim k w = Some c -> String.eqb by_ (fc_claimed_by c) = false ->
  returns ((claim ← gets (own_claim k' by_);
            match claim with Some c' => close_claim k' status (e c') c' | None => mret tt end);; mret []) w
    (blocked k c w).
Proof.
  intros Hc Hby. eapply returns_bind with (P := fun _ w' =>
    fire_claim k w' = Some c /\ (w_clock w <= w_clock w')%nat);
    [|intros _ w' Hw'; eexists _, _; split; [reflexivity|split; [by intros []|done]]].
  eapply returns_step; [reflexivity|]. destruct (own_claim k' by_ w) as [c'|] eqn:Hown.
  - eapply returns_intro; [apply close_claim_run|]. split; [|cbn; lia].
    unfold own_claim in Hown. rewrite claim_lookup.
    case_decide as Hk; [|exact Hc]. subst. rewrite Hc in Hown. cbn in Hown.
    by rewrite String.eqb_sym, Hby in Hown.
  - eapply returns_intro; [reflexivity|]. by split.
Qed.

Lemma claim_op_keeps k c op w :
  fire_claim k w = Some c -> closes_for (fc_claimed_by c) op = false ->
  claim_blocks (env_now (w_clock w)) c = true ->
  returns (run_claim_op op) w (blocked k c w).
Proof.
  intros Hc Hop Hblock. destruct op as [i t by_ lease|i t e by_|i t by_]; cbn [run_claim_op].
  - unfold returns. rewrite bind_unfold, acquire_claim_run. cbv zeta.
    destruct (decide (claim_key i t = k)) as [->|Hne].
    + rewrite Hc. cbn [from_option]. rewrite Hblock. eexists _, _. split; [reflexivity|].
      split; [by intros []|]. split; [exact Hc|cbn; lia].
    + destruct (from_option _ _ _); (eexists _, _; split; [reflexivity|]).
      * split; [by intros []|]. split; [exact Hc|cbn; lia].
      * split; [by intros [?|[]]|]. rewrite claim_lookup, decide_False by done.
        split; [exact Hc|cbn; lia].
  - unfold mark_schedule_fire_claim_fired. apply (close_keeps k (claim_key i t) by_ "fired" (fun _ => Some e)); done.
  - unfold mark_schedule_fire_claim_failed. apply (close_keeps k (claim_key i t) by_ "failed" fc_execution_id); done.
Qed.

Lemma claim_op_clock op w :
  returns (run_claim_op op) w (fun _ w' => (w_clock w <= w_clock w')%nat).
Proof.
  destruct op as [i t by_ lease|i t e by_|i t by_]; cbn [run_claim_op].
  - unfold returns. rewrite bind_unfold, acquire_claim_run. cbv zeta.
    destruct (from_option _ _ _); (eexists _, _; split; [reflexivity|cbn; lia]).
  - unfold mark_schedule_fire_claim_fired, returns. rewrite bind_unfold, bind_unfold. cbn [gets].
    destruct (own_claim _ _ w) as [c|]; [rewrite close_claim_run|];
      (eexists _, _; split; [reflexivity|cbn; lia]).
  - unfold mark_schedule_fire_claim_failed, returns. rewrite bind_unfold, bind_unfold. cbn [gets].
    destruct (own_claim _ _ w) as [c|]; [rewrite close_claim_run|];
      (eexists _, _; split; [reflexivity|cbn; lia]).
Qed.

Lemma claim_ops_clock ops w :
  returns (run_claim_ops ops) w (fun _ w' => (w_clock w <= w_clock w')%nat).
Proof.
  unfold run_claim_ops. revert w. induction ops as [|op ops IH]; intros w; cbn [collect].
  - by eapply returns_intro.
  - eapply returns_bind; [apply claim_op_clock|]. intros given w1 Hle. cbn in Hle.
    eapply returns_bind; [apply IH|]. intros rest w2 Hle2. cbn in Hle2.
    eapply returns_intro; [reflexivity|lia].
Qed.

(** While the claim blocks at every reading of the clock, no operation of others
    is given the fire. *)
Lemma claim_ops_keep k c ops w given w' :
  fire_claim k w = Some c -> Forall (fun op => closes_for (fc_claimed_by c) op = false) ops ->
  run_claim_ops ops w = (Ok given, w') ->
  (forall n, (n <= w_clock w')%nat -> claim_blocks (env_now n) c = true) ->
  blocked k c w given w'.
Proof.
  unfold run_claim_ops. intros Hc Hops. revert w given Hc.
  induction Hops as [|op ops Hop _ IH]; intros w given Hc Hrun Hblock; cbn [collect] in Hrun.
  - injection Hrun as <- <-. split; [by intros []|by split].
  - apply bind_inv in Hrun as (given1 & w1 & Hrun1 & Hrun).
    apply bind_inv in Hrun as (given2 & w2 & Hrun2 & Hrun). injection Hrun as <- <-.
    destruct (claim_ops_clock ops w1) as (g & w2' & Hclock & Hle2).
    unfold run_claim_ops in Hclock. rewrite Hclock in Hrun2. injection Hrun2 as -> ->.
    destruct (claim_op_clock op w) as (g1 & w1' & Hc1 & Hle1). rewrite Hc1 in Hrun1. injection Hrun1 as -> ->.
    destruct (claim_op_keeps k c op w Hc Hop) as (g' & w1' & Hrun1 & Hnot & Hc' & _); [apply Hblock; lia|].
    rewrite Hc1 in Hrun1. injection Hrun1 as <- <-.
    destruct (IH w1 given2 Hc') as (Hnot2 & Hc2 & _); [done|done|].
    split; [|split; [done|lia]]. intros [Hin|Hin]%in_app_or; auto.
Qed.

(** C12. A fire is given to one scheduler: while its lease runs, no sequence of
    claim operations of the others (or further requests of its own) is given the
    same fire, and once the holder marked it as fired it is never given out
    again, however much time passes. *)
Theorem fire_given_once i t who lease e ops1 ops2 w w1 w2 w4 given1 given2 :
  acquire_schedule_fire_claim i t who lease w = (Ok true, w1) ->
  Forall (fun op => closes_for who op = false) (ops1 ++ ops2) ->
  run_claim_ops ops1 w1 = (Ok given1, w2) ->
  (forall n, (n <= w_clock w2)%nat -> env_now n < env_now (w_clock w) + lease * us_per_second) ->
  run_claim_ops ops2 (world_after (mark_schedule_fire_claim_fired i t e who) w2) = (Ok given2, w4) ->
  result_of (mark_schedule_fire_claim_fired i t e who) w2 = Ok tt
  /\ ~ In (claim_key i t) (given1 ++ given2)
  /\ exists c, fire_claim (claim_key i t) w4 = Some c
       /\ fc_status c = "fired" /\ fc_execution_id c = Some e /\ fc_claimed_by c = who.
Proof.
  intros Hacq [Hops1 Hops2]%Forall_app Hrun1 Hlease Hrun2. set (k := claim_key i t) in *.
  rewrite acquire_claim_run in Hacq. destruct (from_option _ _ _); [done|]. injection Hacq as <-.
  set (c := mkFireClaim _ _ _ _ _ _ _ _) in *.
  match type of Hrun1 with run_claim_ops _ ?x = _ => set (w1 := x) in * end.
  assert (Hc1 : fire_claim k w1 = Some c) by (unfold w1; rewrite claim_lookup; by rewrite decide_True).
  destruct (claim_ops_keep k c ops1 w1 given1 w2 Hc1 Hops1 Hrun1) as (Hnot1 & Hc2 & _).
  { intros n Hn. unfold claim_blocks. cbn [fc_status fc_lease_expires_at c]. cbn.
    apply Z.ltb_lt. by apply Hlease. }
  assert (Hmark : mark_schedule_fire_claim_fired i t e who w2
    = (Ok tt, set_w_fire_claims (<[k := closed "fired" (Some e) c (w_clock w2)]> (w_fire_claims w2))
                (set_w_clock (S (S (w_clock w2))) w2))).
  { rewrite (mark_fired_own i t e who c); [apply close_claim_run|].
    unfold own_claim. fold k. rewrite Hc2. cbn. by rewrite String.eqb_refl. }
  unfold result_of, world_after in *. rewrite Hmark in *. cbn [fst snd] in *. split; [done|].
  set (c' := closed _ _ _ _) in *.
  match type of Hrun2 with run_claim_ops _ ?x = _ => set (w3 := x) in * end.
  assert (Hc3 : fire_claim k w3 = Some c').
  { unfold w3. rewrite claim_lookup. by rewrite decide_True. }
  destruct (claim_ops_keep k c' ops2 w3 given2 w4 Hc3 Hops2 Hrun2) as (Hnot2 & Hc4 & _); [done|].
  split; [by intros [Hin|Hin]%in_app_or|]. by exists c'.
Qed.
End FireClaims.

(** Two schedulers compete for one fire; the second asks again after the lease. *)
Lemma fire_given_once_witness :
  let t := 1700000000 * us_per_second in
  let ops1 := [claim_acquire "s1" t "scheduler-b" 300; claim_failed "s1" t "scheduler-b"] in
  let w1 := world_after (acquire_schedule_fire_claim "s1" t "scheduler-a" 300) empty_world in
  let w2 := world_after (run_claim_ops ops1) w1 in
  let w3 := world_after (mark_schedule_fire_claim_fired "s1" t "e1" "scheduler-a") w2 in
  let ops2 := [claim_acquire "s1" t "scheduler-b" 300; claim_acquire "s1" t "scheduler-a" 300] in
  let w4 := world_after (run_claim_ops ops2) w3 in
  result_of (mark_schedule_fire_claim_fired "s1" t "e1" "scheduler-a") w2 = Ok tt
  /\ ~ In (claim_key "s1" t) ([] ++ [])
  /\ exists c, fire_claim (claim_key "s1" t) w4 = Some c
       /\ fc_status c = "fired" /\ fc_execution_id c = Some "e1" /\ fc_claimed_by c = "scheduler-a".
Proof.
  intros t ops1 w1 w2 w3 ops2 w4.
  refine (fire_given_once "s1" t "scheduler-a" 300 "e1" ops1 ops2 empty_world w1 w2 w4 [] [] _ _ _ _ _).
  - vm_compute. reflexivity.
  - by repeat constructor.
  - vm_compute. reflexivity.
  - intros n Hn. assert (Hn2 : (n <= 2)%nat) by (replace 2%nat with (w_clock w2) by (vm_compute; reflexivity); exact Hn). cbn. unfold us_per_second. lia.
  - vm_compute. reflexivity.
Defined.
