(* ===== verification/Redaction.v ===== *)
(** * Secret redaction of event payloads

    [Redactor] of [app/observability/redaction.py] and [EventBus.publish] of
    [app/observability/event_bus.py].  The compiled patterns are regular
    expressions of the [re] library and of the deployment: the environment gives
    each one as its source text with its substitution ([None]: no match).  The
    exporters that [publish] calls write to files and services and do not change
    the event. *)

From S2P Require Export World.

(** [s.endswith(suffix)] *)
Definition ends_with (suffix s : string) : bool :=
  let n := String.length suffix in
  let m := String.length s in
  (n <=? m)%nat && String.eqb (String.substring (m - n) n s) suffix.

(** [s.replace("-", "_")] *)
Fixpoint dashes_to_underscores (s : string) : string :=
  match s with
  | EmptyString => EmptyString
  | String c s' => String (if Ascii.eqb c "-" then "_"%char else c) (dashes_to_underscores s')
  end.

Definition SECRET_KEY_NAMES : list string :=
  ["api_key"; "apikey"; "authorization"; "auth_token"; "access_token"; "refresh_token";
   "id_token"; "token"; "password"; "secret"].

Definition key_looks_secret (key : string) : bool :=
  let normalized := dashes_to_underscores (py_lower (py_strip key)) in
  if mem_str normalized SECRET_KEY_NAMES then true
  else if existsb (fun suffix => ends_with suffix normalized)
            ["_api_key"; "_apikey"; "_auth_token"; "_access_token"; "_refresh_token"] then true
  else existsb (fun suffix => ends_with suffix normalized) ["_password"; "_secret"].

Definition REDACTED : pyval := PStr "[REDACTED]".

Section Redaction.
Context `{Env}.

(** [redact_text]: every pattern in turn, on the text redacted so far. *)
Definition redact_text (value : string) : string * list string :=
  if negb env_redact_enabled then (value, [])
  else fold_left
    (fun acc pattern =>
       match pattern.2 acc.1 with
       | Some redacted => (redacted, acc.2 ++ [pattern.1])
       | None => acc
       end)
    env_secret_patterns (value, []).

(** The loops of [redact_value] over a dictionary and over a list. *)
Section Loops.
Variable redact : pyval -> string -> pyval * list string.

Fixpoint redact_items (path : string) (l : dict pyval) : dict pyval * list string :=
  match l with
  | [] => ([], [])
  | (key, item) :: l' =>
      let nested_path := if String.eqb path "" then key else path +:+ "." +:+ key in
      let '(redacted_item, nested_fields) :=
        if key_looks_secret key then (REDACTED, [nested_path]) else redact item nested_path in
      let '(rest, fields) := redact_items path l' in
      ((key, redacted_item) :: rest, nested_fields ++ fields)
  end.

Fixpoint redact_elements (path : string) (index : Z) (l : list pyval) : list pyval * list string :=
  match l with
  | [] => ([], [])
  | item :: l' =>
      let '(redacted_item, nested_fields) := redact item (path +:+ "[" +:+ show_Z index +:+ "]") in
      let '(rest, fields) := redact_elements path (index + 1) l' in
      (redacted_item :: rest, nested_fields ++ fields)
  end.
End Loops.

Fixpoint redact_value (value : pyval) (path : string) {struct value} : pyval * list string :=
  if negb env_redact_enabled then (value, [])
  else match value with
  | PStr s => let '(redacted, fields) := redact_text s in (PStr redacted, fields)
  | PDict d => let '(result, fields) := redact_items redact_value path d in (PDict result, fields)
  | PList l => let '(items, fields) := redact_elements redact_value path 0 l in (PList items, fields)
  | _ => (value, [])
  end.

(** [redact_value] of a dictionary at the root of an event. *)
Definition redact_dict (d : dict pyval) : dict pyval * list string :=
  let '(result, fields) := redact_value (PDict d) "" in (dict_or_empty result, fields).

(** [sorted(set(fields))] *)
Definition sorted_set (l : list string) : list string := py_sorted string_leb (remove_dups l).

(** [EventBus.publish]: the event is replaced only when something matched. *)
Definition publish (event : ExecutionEvent) : ExecutionEvent :=
  let '(payload, fields) := redact_dict (ev_payload event) in
  let '(metrics, metric_fields) := redact_dict (ev_metrics event) in
  let '(metadata, meta_fields) := redact_dict (ev_metadata event) in
  match fields ++ metric_fields ++ meta_fields with
  | [] => event
  | _ :: _ =>
      set_ev_redaction payload metrics metadata
        (sorted_set (ev_redacted_fields event ++ fields ++ metric_fields ++ meta_fields)) event
  end.
End Redaction.

(** ** What redaction guarantees *)

(** Every entry under a secret-looking key, at any depth, is the placeholder. *)
Fixpoint secrets_hidden (v : pyval) : bool :=
  match v with
  | PDict d =>
      forallb (fun kv => if key_looks_secret kv.1 then eq_str kv.2 "[REDACTED]"
                         else secrets_hidden kv.2) d
  | PList l => forallb secrets_hidden l
  | _ => true
  end.

(** An induction principle that reaches the elements of lists and dictionaries. *)
Section PyvalInd.
Variable P : pyval -> Prop.
Hypothesis Hscalar : forall v, as_dict v = None -> as_list v = None -> P v.
Hypothesis Hlist : forall l, (forall v, In v l -> P v) -> P (PList l).
Hypothesis Hdict : forall d, (forall k v, In (k, v) d -> P v) -> P (PDict d).

Fixpoint pyval_nested_ind (v : pyval) : P v.
Proof.
  destruct v as [| | | | |l|d]; try (by apply Hscalar).
  - apply Hlist. induction l as [|x l IH]; intros v Hin; [destruct Hin|].
    destruct Hin as [<-|Hin]; [apply pyval_nested_ind|by apply IH].
  - apply Hdict. induction d as [|[k0 x] d IH]; intros k v Hin; [destruct Hin|].
    destruct Hin as [Heq|Hin]; [|by eapply IH].
    injection Heq as <- <-. apply pyval_nested_ind.
Defined.
End PyvalInd.

Section RedactionFacts.
Context `{Env}.

Lemma redact_text_nil s : (redact_text s).2 = [] -> (redact_text s).1 = s.
Proof.
  unfold redact_text. destruct env_redact_enabled; [|done]. simpl.
  cut (forall l acc, (fold_left (fun acc (pattern : string * (string -> option string)) =>
      match pattern.2 acc.1 with
      | Some redacted => (redacted, acc.2 ++ [pattern.1])
      | None => acc
      end) l acc).2 = [] ->
    (fold_left (fun acc (pattern : string * (string -> option string)) =>
      match pattern.2 acc.1 with
      | Some redacted => (redacted, acc.2 ++ [pattern.1])
      | None => acc
      end) l acc).1 = acc.1 /\ acc.2 = @nil string).
  { intros Hcut Hnil. by destruct (Hcut _ _ Hnil). }
  induction l as [|[name sub] l IH]; intros acc Hnil; simpl in *; [done|].
  destruct (sub acc.1) as [r|]; [|by apply IH].
  destruct (IH _ Hnil) as [_ Happ]. simpl in Happ. by apply app_eq_nil in Happ as [_ ?].
Qed.

(** Nothing recorded means nothing changed. *)
Lemma redact_value_nil v path : (redact_value v path).2 = [] -> (redact_value v path).1 = v.
Proof.
  revert path. induction v as [v Hd Hl|l IH|d IH] using pyval_nested_ind; intros path.
  - destruct v; try done; simpl; destruct env_redact_enabled; try done; simpl.
    pose proof (redact_text_nil s) as Ht. destruct (redact_text s). simpl in *.
    intros ->. by rewrite Ht.
  - simpl. destruct env_redact_enabled; [|done]. simpl. generalize 0 as index.
    induction l as [|x l IHl]; intros index; simpl; [done|].
    specialize (IHl (fun v Hv => IH v (or_intror Hv)) (index + 1)).
    pose proof (IH x (or_introl eq_refl) (path +:+ "[" +:+ show_Z index +:+ "]")) as Hx.
    destruct (redact_value x _), (redact_elements _ _ _ l). simpl in *.
    intros [-> ->]%app_eq_nil. injection (IHl eq_refl) as ->. by rewrite Hx.
  - simpl. destruct env_redact_enabled; [|done]. simpl.
    induction d as [|[k x] d IHd]; simpl; [done|].
    specialize (IHd (fun k v Hv => IH k v (or_intror Hv))).
    destruct (key_looks_secret k).
    + destruct (redact_items _ _ d). simpl. done.
    + pose proof (IH k x (or_introl eq_refl)
        (if String.eqb path "" then k else path +:+ "." +:+ k)) as Hx.
      destruct (redact_value x _), (redact_items _ _ d). simpl in *.
      intros [-> ->]%app_eq_nil. injection (IHd eq_refl) as ->. by rewrite Hx.
Qed.

Lemma redact_value_hides v path :
  env_redact_enabled = true -> secrets_hidden (redact_value v path).1 = true.
Proof.
  intros Hon. revert path. induction v as [v Hd Hl|l IH|d IH] using pyval_nested_ind; intros path.
  - destruct v; try done; simpl; rewrite Hon; simpl; try done. by destruct (redact_text s).
  - simpl. rewrite Hon. simpl. generalize 0 as index.
    induction l as [|x l IHl]; intros index; simpl; [done|].
    specialize (IHl (fun v Hv => IH v (or_intror Hv)) (index + 1)).
    pose proof (IH x (or_introl eq_refl) (path +:+ "[" +:+ show_Z index +:+ "]")) as Hx.
    destruct (redact_value x _), (redact_elements _ _ _ l). simpl in *. by rewrite Hx.
  - simpl. rewrite Hon. simpl. induction d as [|[k x] d IHd]; simpl; [done|].
    specialize (IHd (fun k v Hv => IH k v (or_intror Hv))).
    destruct (key_looks_secret k) eqn:Hk.
    + destruct (redact_items _ _ d). simpl in *. by rewrite Hk.
    + pose proof (IH k x (or_introl eq_refl)
        (if String.eqb path "" then k else path +:+ "." +:+ k)) as Hx.
      destruct (redact_value x _), (redact_items _ _ d). simpl in *. by rewrite Hk, Hx.
Qed.

Lemma redact_items_keys f path d : dkeys (redact_items f path d).1 = dkeys d.
Proof.
  unfold dkeys. induction d as [|[k x] d IH]; simpl; [done|].
  destruct (if key_looks_secret k then _ else _), (redact_items f path d). simpl in *. by rewrite IH.
Qed.

Lemma redact_dict_value d : PDict (redact_dict d).1 = (redact_value (PDict d) "").1.
Proof.
  unfold redact_dict. simpl. destruct env_redact_enabled; [|done]. simpl.
  by destruct (redact_items _ _ d).
Qed.

Lemma redact_dict_nil d : (redact_dict d).2 = [] -> (redact_dict d).1 = d.
Proof.
  intros Hnil. enough (PDict (redact_dict d).1 = PDict d) as Heq by by injection Heq.
  rewrite redact_dict_value. apply redact_value_nil.
  unfold redact_dict in Hnil. by destruct (redact_value (PDict d) "").
Qed.

(** The event that [publish] returns carries the redacted dictionaries, also
    when it is the event it was given. *)
Lemma publish_payloads e :
  ev_payload (publish e) = (redact_dict (ev_payload e)).1
  /\ ev_metrics (publish e) = (redact_dict (ev_metrics e)).1
  /\ ev_metadata (publish e) = (redact_dict (ev_metadata e)).1.
Proof.
  unfold publish.
  pose proof (redact_dict_nil (ev_payload e)) as H1.
  pose proof (redact_dict_nil (ev_metrics e)) as H2.
  pose proof (redact_dict_nil (ev_metadata e)) as H3.
  destruct (redact_dict (ev_payload e)) as [p f1], (redact_dict (ev_metrics e)) as [m f2],
    (redact_dict (ev_metadata e)) as [md f3]. simpl in *.
  destruct (f1 ++ f2 ++ f3) eqn:Hf; [|done].
  apply app_eq_nil in Hf as [-> Hf]. apply app_eq_nil in Hf as [-> ->].
  by rewrite H1, H2, H3.
Qed.

(** Publishing hides every entry under a secret-looking key and keeps the
    top-level keys. *)
Lemma publish_hides e :
  env_redact_enabled = true ->
  secrets_hidden (PDict (ev_payload (publish e))) = true
  /\ secrets_hidden (PDict (ev_metrics (publish e))) = true
  /\ secrets_hidden (PDict (ev_metadata (publish e))) = true.
Proof.
  intros Hon. destruct (publish_payloads e) as (-> & -> & ->).
  rewrite !redact_dict_value. split; [|split]; by apply redact_value_hides.
Qed.

Lemma publish_ids e :
  ev_id (publish e) = ev_id e /\ ev_execution_id (publish e) = ev_execution_id e
  /\ ev_event_type (publish e) = ev_event_type e /\ ev_timestamp (publish e) = ev_timestamp e.
Proof.
  unfold publish. destruct (redact_dict (ev_payload e)), (redact_dict (ev_metrics e)),
    (redact_dict (ev_metadata e)). by destruct (_ ++ _ ++ _).
Qed.
End RedactionFacts.
