(* ===== verification/Emitter.v ===== *)
(** * Emitting execution events

    [ExecutionEventEmitter] of [app/runtime/native/events.py], the activity
    stamp of [app/services/execution_activity.py] and
    [InMemoryExecutionStore.save_event].  The emitter works on a
    [NativeExecutionState] object: the caller's [emit] returns the state that the
    Python call leaves in it.  Publishing to the runtime visualization stream is
    not modelled: the code discards its failures and its result. *)

From S2P Require Export Ledger Redaction.

(** [a or b] on optional strings. *)
Definition str_or (a b : option string) : option string := if str_truthy a then a else b.

(** ** Activity ([execution_activity.py]) *)

Definition ACTIVITY_EVENT_TYPES : list ExecutionEventType :=
  [EXECUTION_STARTED; EXECUTION_CYCLE_STARTED; EXECUTION_CYCLE_COMPLETED; EXECUTION_CYCLE_FAILED;
   EXECUTION_CYCLE_GUARD_TRIGGERED; EXECUTION_PAUSED; EXECUTION_RESUMED; TASK_STARTED;
   AGENT_STEP_STARTED; AGENT_STEP_COMPLETED; AGENT_STEP_FAILED; SUBAGENT_TASK_ASSIGNED;
   SUBAGENT_PROGRESS_UPDATED; SUBAGENT_STEP_COMPLETED; SUBAGENT_STEP_FAILED; SUBAGENT_NEEDS_INPUT;
   SUBAGENT_NEEDS_APPROVAL; AGENT_MESSAGE_CREATED; LLM_REQUEST_CREATED; LLM_RESPONSE_CREATED;
   CONTEXT_HEALTH_RECORDED; CONTEXT_COMPACTION_STARTED; CONTEXT_COMPACTION_COMPLETED;
   CONTEXT_COMPACTION_FAILED; TOOL_CALL_STARTED; TOOL_CALL_COMPLETED; TOOL_CALL_FAILED;
   HANDOFF_REQUESTED; ARTIFACT_CREATED; APPROVAL_REQUESTED; APPROVAL_GRANTED; APPROVAL_REJECTED;
   RUNTIME_BUILD_STARTED; RUNTIME_BUILD_COMPLETED; RUNTIME_BUILD_FAILED].

Definition activity_payload_for_event (event : ExecutionEvent) : option (dict pyval) :=
  if negb (bool_decide (ev_event_type event ∈ ACTIVITY_EVENT_TYPES)) then None
  else Some
    [("last_activity_at", PStr (isoformat (ev_timestamp event)));
     ("last_activity_event_id", PStr (ev_id event));
     ("last_activity_event_type", PStr (event_type_value (ev_event_type event)));
     ("last_activity_sequence", PInt (ev_sequence event));
     ("last_activity_agent_id", opt_str (ev_agent_id event));
     ("last_activity_task_id", opt_str (ev_task_id event));
     ("last_activity_tool_call_id", opt_str (ev_tool_call_id event));
     ("last_activity_model_request_id", opt_str (ev_model_request_id event))].

(** The execution with the activity of the event, and whether it has one. *)
Definition apply_activity_to_execution (e : Execution) (event : ExecutionEvent) : Execution * bool :=
  match activity_payload_for_event event with
  | None => (e, false)
  | Some activity =>
      (set_ex_updated_at (ev_timestamp event)
         (set_ex_metadata (dset "runtime_activity" (PDict activity) (ex_metadata e)) e), true)
  end.

(** [raw_value.replace("Z", "+00:00")] *)
Definition replace_zulu (s : string) : string :=
  concat_map (fun c => if Ascii.eqb c "Z" then "+00:00" else String c "") s.

Definition execution_last_activity_at (e : Execution) : option Z :=
  match pget "runtime_activity" (ex_metadata e) with
  | PDict activity =>
      match pget "last_activity_at" activity with
      | PStr raw => if String.eqb raw "" then None else fromisoformat (replace_zulu raw)
      | _ => None
      end
  | _ => None
  end.

Section Emitter.
Context `{Env}.

(** [InMemoryExecutionStore.save_event] *)
Definition save_event (event : ExecutionEvent) : M ExecutionEvent :=
  saved ← append_event event;
  found ← get_execution (ev_execution_id saved);
  match found with
  | None => mret saved
  | Some e =>
      let '(e', changed) := apply_activity_to_execution e saved in
      assign (ev_execution_id saved) (fun _ => e');;
      when changed (repo_save_execution (ev_execution_id saved));;
      mret saved
  end.

(** [NativeExecutionState(execution_id=..., workflow_id=...)]: the defaults draw
    a trace id and read the clock. *)
Definition new_state (execution_id workflow_id : string) : M NativeExecutionState :=
  trace_id ← uuid4;
  created_at ← utc_now;
  mret (mkNativeExecutionState execution_id workflow_id trace_id false false 0 [] [] [] [] [] []
          None None None [] [] None created_at).

Definition emit (st : NativeExecutionState) (event_type : ExecutionEventType)
    (actor : option string) (payload metrics metadata : dict pyval)
    (agent_id task_id tool_call_id model_request_id parent_event_id : option string) :
    M (ExecutionEvent * NativeExecutionState) :=
  span_id ← uuid4;
  timestamp ← utc_now;
  let sequence := st_sequence st + 1 in
  id ← uuid4;
  let event := mkExecutionEvent id (st_execution_id st) (Some (st_workflow_id st))
    (str_or agent_id (st_current_agent_id st)) (str_or task_id (st_current_task_id st))
    tool_call_id model_request_id (str_or parent_event_id (st_last_event_id st))
    (Some (st_trace_id st)) (Some span_id) event_type timestamp sequence
    (if str_truthy actor then "agent" else "system") actor payload metrics [] metadata in
  saved ← save_event (publish event);
  mret (saved, set_st_last_event_id (Some (ev_id saved)) (set_st_sequence (ev_sequence saved) st)).

(** The calls that pass only an actor, a payload and metadata. *)
Definition emit_simple (st : NativeExecutionState) (event_type : ExecutionEventType)
    (actor : option string) (payload metadata : dict pyval) :
    M (ExecutionEvent * NativeExecutionState) :=
  emit st event_type actor payload [] metadata None None None None None.

Definition record_artifact (st : NativeExecutionState) (name artifact_type uri : string)
    (media_type : option string) (size_bytes : option Z) (metadata : dict pyval) :
    M (ExecutionArtifact * NativeExecutionState) :=
  id ← uuid4;
  created_at ← utc_now;
  artifact ← create_artifact (mkExecutionArtifact id (st_execution_id st) None artifact_type name
    None None (Some uri) media_type size_bytes created_at metadata);
  '(_, st') ← emit st ARTIFACT_CREATED None
    [("artifact_id", PStr (af_id artifact)); ("name", PStr name);
     ("artifact_type", PStr artifact_type); ("uri", PStr uri)]
    [("artifact_size_bytes", PInt (default 0 size_bytes))] [] None None None None None;
  mret (artifact, st').
End Emitter.

(** ** Facts *)

Section EmitterFacts.
Context `{Env}.

Lemma ledger_repo_save_execution i : evolves ledger (repo_save_execution i).
Proof. unfold repo_save_execution. evolve. Qed.

Lemma ledger_acquire_lock i k s : evolves ledger (acquire_lock i k s).
Proof. unfold acquire_lock. evolve. Qed.

Lemma ledger_release_lock i k : evolves ledger (release_lock i k).
Proof. unfold release_lock. evolve. Qed.

Lemma ledger_heartbeat i k : evolves ledger (heartbeat i k).
Proof. unfold heartbeat. evolve. Qed.

Lemma ledger_save_event event : evolves ledger (save_event event).
Proof.
  unfold save_event, get_execution. evolve. apply ledger_repo_save_execution.
Qed.

Lemma ledger_new_state i wf : evolves ledger (new_state i wf).
Proof. unfold new_state. evolve. Qed.

Lemma ledger_emit st ty actor payload metrics metadata a t c m p :
  evolves ledger (emit st ty actor payload metrics metadata a t c m p).
Proof. unfold emit. evolve. apply ledger_save_event. Qed.

(** ** What emitting an event changes *)

(** Equal up to the update time and the activity stamp. *)
Definition same_but_activity (e e' : Execution) : Prop :=
  set_ex_updated_at 0 (set_ex_metadata [] e') = set_ex_updated_at 0 (set_ex_metadata [] e)
  /\ forall k, k <> "runtime_activity" -> dget k (ex_metadata e') = dget k (ex_metadata e).

#[export] Instance same_but_activity_preorder : PreOrder same_but_activity.
Proof.
  split; [by intros e|]. intros e1 e2 e3 [Ha Hb] [Hc Hd]. split; [congruence|].
  intros k Hk. rewrite Hd, Hb; auto.
Qed.

Lemma same_but_activity_field {A} (f : Execution -> A) e e' :
  same_but_activity e e' -> (forall e, f (set_ex_updated_at 0 (set_ex_metadata [] e)) = f e) ->
  f e' = f e.
Proof. intros [Heq _] Hf. by rewrite <-(Hf e'), Heq, Hf. Qed.

Record stamped (w w' : world) : Prop := {
  sp_executions : forall i, option_Forall2 same_but_activity
    (dget i (w_executions w)) (dget i (w_executions w'));
  sp_waits : w_waits w' = w_waits w;
  sp_approvals : w_approvals w' = w_approvals w;
  sp_states : w_states w' = w_states w;
  sp_tasks : w_tasks w' = w_tasks w;
  sp_pending : w_pending w' = w_pending w;
  sp_request_ids : w_request_ids w' = w_request_ids w
}.

#[export] Instance stamped_preorder : PreOrder stamped.
Proof.
  split.
  - intros w. split; auto. intros i. destruct (dget i _); constructor. reflexivity.
  - intros w1 w2 w3 Ha Hb. destruct Ha, Hb. split; try congruence. intros i.
    specialize (sp_executions0 i). specialize (sp_executions1 i).
    destruct sp_executions0; inversion sp_executions1; subst; constructor.
    etransitivity; eassumption.
Qed.

Lemma stamped_frame w w' :
  w_executions w' = w_executions w -> w_waits w' = w_waits w -> w_approvals w' = w_approvals w ->
  w_states w' = w_states w -> w_tasks w' = w_tasks w -> w_pending w' = w_pending w ->
  w_request_ids w' = w_request_ids w -> stamped w w'.
Proof.
  intros He. intros. split; auto. intros i. rewrite He.
  destruct (dget i _); constructor. reflexivity.
Qed.

Lemma stamped_utc_now : evolves stamped utc_now.
Proof. intros w. by apply stamped_frame. Qed.

Lemma stamped_uuid4 : evolves stamped uuid4.
Proof. intros w. by apply stamped_frame. Qed.

Lemma stamped_append_event ev : evolves stamped (append_event ev).
Proof. intros w. by apply stamped_frame. Qed.

(** Writing to an object [e'] that differs from its contents by a stamp. *)
Lemma stamped_assign i (f : Execution -> Execution) w :
  (forall e, dget i (w_executions w) = Some e -> same_but_activity e (f e)) ->
  stamped w (world_after (assign i f) w).
Proof.
  intros Hf. split; auto. intros j. cbn. rewrite dget_dalter.
  destruct (String.eqb_spec j i) as [->|Hne].
  - destruct (dget i (w_executions w)) as [e|] eqn:He; constructor. by apply Hf.
  - destruct (dget j _); constructor. reflexivity.
Qed.

Lemma apply_activity_same e event : same_but_activity e (apply_activity_to_execution e event).1.
Proof.
  unfold apply_activity_to_execution. destruct (activity_payload_for_event event); [|reflexivity].
  split; [done|]. intros k Hk. cbn. by rewrite dget_dset_ne.
Qed.

Lemma stamped_repo_save_execution i : evolves stamped (repo_save_execution i).
Proof.
  unfold repo_save_execution. apply evolves_bind; [exact _|apply stamped_utc_now|].
  intros now w. apply stamped_assign. intros e _. by split.
Qed.

Lemma stamped_save_event event : evolves stamped (save_event event).
Proof.
  unfold save_event. apply evolves_bind; [exact _|apply stamped_append_event|].
  intros saved w. unfold world_after, get_execution. rewrite bind_unfold. cbn.
  destruct (dget _ (w_executions w)) as [e|] eqn:He; [|reflexivity].
  pose proof (apply_activity_same e saved) as Hsame.
  destruct (apply_activity_to_execution e saved) as [e' changed]. simpl in Hsame.
  rewrite bind_unfold. destruct (assign _ _ w) as [[[]|exc] w1] eqn:Hassign.
  - transitivity w1.
    + replace w1 with (world_after (assign (ev_execution_id saved) (fun _ => e')) w)
        by (unfold world_after; by rewrite Hassign).
      apply stamped_assign. intros e0 He0. by simplify_eq.
    + revert w1 Hassign. intros w1 _.
      apply (evolves_bind stamped (when changed _) (fun _ => mret saved)).
      * apply evolves_when; [exact _|apply stamped_repo_save_execution].
      * intros []. apply evolves_ret. exact _.
  - done.
Qed.

Hint Resolve stamped_utc_now stamped_uuid4 stamped_save_event : evolve.

Lemma stamped_new_state i wf : evolves stamped (new_state i wf).
Proof. unfold new_state. evolve. Qed.

Lemma stamped_emit st ty actor payload metrics metadata a t c m p :
  evolves stamped (emit st ty actor payload metrics metadata a t c m p).
Proof. unfold emit. evolve. Qed.

Lemma total_repo_save_execution i : total (repo_save_execution i).
Proof. unfold repo_save_execution. total. Qed.

(** A save appends the event, numbered by the counter, to its own log. *)
Lemma save_event_appends event w :
  let i := ev_execution_id event in
  let ev := set_ev_sequence (counter_of i w + 1) event in
  exists w', save_event event w = (Ok ev, w')
    /\ events_of i w' = events_of i w ++ [ev]
    /\ (forall j, j <> i -> events_of j w' = events_of j w).
Proof.
  intros i ev. unfold save_event. rewrite bind_unfold.
  destruct (append_event event w) as [[saved|exc] w1] eqn:Happ;
    unfold append_event in Happ; execute; [|done].
  injection Happ as <- <-. fold i.
  assert (Hframe : forall w2, w_events w2 =
      dset i (default [] (dget i (w_events w)) ++ [ev]) (w_events w) ->
      events_of i w2 = events_of i w ++ [ev]
      /\ (forall j, j <> i -> events_of j w2 = events_of j w)).
  { intros w2 Hw2. unfold events_of. rewrite Hw2, dget_dset_eq. split; [done|].
    intros j Hj. by rewrite dget_dset_ne. }
  unfold get_execution. execute. fold i. fold (counter_of i w). fold ev.
  destruct (dget i (w_executions w)) as [e|]; [|eexists; split; [done|by apply Hframe]].
  destruct (apply_activity_to_execution e ev) as [e' changed].
  unfold repo_save_execution. execute.
  destruct changed; (eexists; split; [done|by apply Hframe]).
Qed.

Lemma total_save_event event : total (save_event event).
Proof. intros w. destruct (save_event_appends event w) as (w' & -> & _). by eexists _, _. Qed.

Hint Resolve total_save_event : total.

Lemma total_new_state i wf : total (new_state i wf).
Proof. unfold new_state. total. Qed.

Lemma total_emit st ty actor payload metrics metadata a t c m p :
  total (emit st ty actor payload metrics metadata a t c m p).
Proof. unfold emit. total. Qed.

(** [emit] appends one event of its type to the log of its execution. *)
Lemma emit_appends st ty actor payload metrics metadata a t c m p w :
  exists ev st' w', emit st ty actor payload metrics metadata a t c m p w = (Ok (ev, st'), w')
    /\ ev_event_type ev = ty /\ ev_execution_id ev = st_execution_id st
    /\ events_of (st_execution_id st) w' = events_of (st_execution_id st) w ++ [ev]
    /\ (forall j, j <> st_execution_id st -> events_of j w' = events_of j w)
    /\ st' = set_st_last_event_id (Some (ev_id ev)) (set_st_sequence (ev_sequence ev) st).
Proof.
  unfold emit. rewrite bind_unfold. unfold uuid4 at 1. rewrite bind_unfold. unfold utc_now at 1.
  rewrite bind_unfold. unfold uuid4 at 1.
  set (event := mkExecutionEvent _ _ _ _ _ _ _ _ _ _ _ _ _ _ _ _ _ _ _).
  match goal with |- context [(_ ≫= _) ?w1] => set (w0 := w1) end.
  destruct (publish_ids event) as (_ & Hi & Hty & _).
  destruct (save_event_appends (publish event) w0) as (w' & Hsave & Hev & Hother).
  rewrite bind_unfold, Hsave. rewrite Hi in *. eexists _, _, w'. split; [reflexivity|].
  repeat split; auto.
Qed.

(** C22. With redaction enabled an event that goes through
    [ExecutionEventEmitter.emit] reaches the log with no value under a secret-looking
    key, at any depth of its payload, metrics or metadata: the event that [emit]
    appends has the placeholder there.  The callers of [save_event] that write an
    event of their own, without [emit], are not covered: nothing redacts it. *)
Theorem emitted_event_hides_secrets st ty actor payload metrics metadata a t c m p w :
  env_redact_enabled = true ->
  exists ev st' w', emit st ty actor payload metrics metadata a t c m p w = (Ok (ev, st'), w')
    /\ events_of (st_execution_id st) w' = events_of (st_execution_id st) w ++ [ev]
    /\ secrets_hidden (PDict (ev_payload ev)) = true
    /\ secrets_hidden (PDict (ev_metrics ev)) = true
    /\ secrets_hidden (PDict (ev_metadata ev)) = true.
Proof.
  intros Hon. unfold emit. rewrite bind_unfold. unfold uuid4 at 1. rewrite bind_unfold. unfold utc_now at 1.
  rewrite bind_unfold. unfold uuid4 at 1.
  set (event := mkExecutionEvent _ _ _ _ _ _ _ _ _ _ _ _ _ _ _ _ _ _ _).
  match goal with |- context [(_ ≫= _) ?w1] => set (w0 := w1) end.
  destruct (publish_ids event) as (_ & Hi & _).
  destruct (save_event_appends (publish event) w0) as (w' & Hsave & Hev & _).
  rewrite bind_unfold, Hsave. rewrite Hi in *. eexists _, _, w'.
  split; [reflexivity|]. split; [exact Hev|]. by apply publish_hides.
Qed.
End EmitterFacts.
#[export] Hint Resolve total_repo_save_execution total_save_event total_new_state total_emit : total.
#[export] Hint Resolve stamped_utc_now stamped_uuid4 stamped_save_event stamped_new_state
  stamped_emit : evolve.

#[export] Hint Resolve ledger_repo_save_execution ledger_save_event ledger_new_state ledger_emit
  ledger_acquire_lock ledger_release_lock ledger_heartbeat : evolve.
