(* ===== verification/Policy.v ===== *)
(** * Execution lifecycle and runtime policy

    [app/runtime/execution_lifecycle.py]: the run mode of an execution, the
    policy of a persistent cycle that is copied onto an execution when it is
    created and read back by every run, and the timeouts that a worker gets from
    settings, workflow, members, payloads and environment. *)

From Corelib Require Import SpecFloat.
From S2P Require Export Emitter Routing.

Definition ONE_TIME_RUN_MODE : string := "one_time".
Definition SCHEDULED_RUN_MODE : string := "scheduled".
Definition ALWAYS_ON_RUN_MODE : string := "always_on".
Definition RUN_MODES : list string := [ONE_TIME_RUN_MODE; SCHEDULED_RUN_MODE; ALWAYS_ON_RUN_MODE].
Definition SCHEDULE_TRIGGER_TYPES : list string := ["schedule"; "scheduled"; "cron"; "interval"].

(** ** Reading policy values *)

Definition float_overflow {A} : M A := raise OverflowError "int too large to convert to float".

(** [float(value)]; [None] is a [TypeError] or a [ValueError]. *)
Definition try_float (v : pyval) : M (option spec_float) :=
  match py_float v with
  | FloatValue f => mret (Some f)
  | FloatInvalid => mret None
  | FloatOverflow => float_overflow
  end.

(** [_positive_int] of this module: [int(float(value))]. *)
Definition policy_int (v : pyval) : M (option Z) :=
  match v with
  | PBool _ => mret None
  | _ =>
      parsed ← try_float v;
      match parsed with
      | None => mret None
      | Some f =>
          match float_trunc f with
          | IntValue n => mret (if 0 <? n then Some n else None)
          | IntInvalid => mret None
          | IntOverflow => raise OverflowError "cannot convert float infinity to integer"
          end
      end
  end.

Definition zero_float : spec_float := S754_zero false.
Definition one_float : spec_float := float_of_Z 1.

(** [_positive_float] *)
Definition policy_float (v : pyval) : M (option spec_float) :=
  parsed ← try_float v;
  mret (match parsed with
        | Some f => if SFltb zero_float f then Some f else None
        | None => None
        end).

(** [_jitter_ratio] *)
Definition jitter_ratio (v : pyval) : M spec_float :=
  parsed ← try_float v;
  mret (match parsed with
        | Some f => if SFleb zero_float f && SFleb f one_float then f else zero_float
        | None => zero_float
        end).

(** [_enabled] *)
Definition enabled_value (v : pyval) : bool :=
  match v with
  | PBool b => b
  | PStr s => mem_str (py_lower (py_strip s)) ["1"; "true"; "yes"; "on"]
  | _ => false
  end.

(** [_optional_positive_int] *)
Definition optional_positive_int (v : pyval) : M (option Z) :=
  match v with PNone => mret None | _ => policy_int v end.

(** [_datetime], on the timestamps that [fromisoformat] of the model reads. *)
Definition policy_datetime (v : pyval) : option Z :=
  match v with
  | PStr s => if String.eqb (py_strip s) "" then None else fromisoformat (replace_zulu (py_strip s))
  | _ => None
  end.

(** ** The policy of a persistent cycle *)

Record PersistentCyclePolicy := mkCyclePolicy {
  pc_enabled : bool;
  pc_interval_seconds : spec_float;
  pc_jitter_ratio : spec_float;
  pc_failure_backoff_multiplier : spec_float;
  pc_max_interval_seconds : spec_float;
  pc_max_consecutive_failures : Z;
  pc_max_cycles : option Z;
  pc_max_no_progress_cycles : option Z;
  pc_deadline_at : option Z;
  pc_history_limit : Z
}.

(** The dataclass defaults. *)
Definition default_cycle_policy : PersistentCyclePolicy :=
  mkCyclePolicy false (float_of_Z 60) zero_float (float_of_Z 2) (float_of_Z 3600) 5 None None None 20.

(** [model_dump] *)
Definition cycle_policy_dump (p : PersistentCyclePolicy) : dict pyval :=
  [("enabled", PBool (pc_enabled p)); ("interval_seconds", PFloat (pc_interval_seconds p));
   ("jitter_ratio", PFloat (pc_jitter_ratio p));
   ("failure_backoff_multiplier", PFloat (pc_failure_backoff_multiplier p));
   ("max_interval_seconds", PFloat (pc_max_interval_seconds p));
   ("max_consecutive_failures", PInt (pc_max_consecutive_failures p));
   ("max_cycles", opt_int (pc_max_cycles p));
   ("max_no_progress_cycles", opt_int (pc_max_no_progress_cycles p));
   ("deadline_at", opt_iso (pc_deadline_at p)); ("history_limit", PInt (pc_history_limit p))].

(** [_persistent_cycle_values] *)
Definition persistent_cycle_values (lifecycle : dict pyval) : dict pyval :=
  dict_or_empty (pget "persistent_cycle" lifecycle).

(** [_normalized_persistent_cycle_policy] *)
Definition normalized_persistent_cycle_policy (values : dict pyval) (enabled : bool) :
    M PersistentCyclePolicy :=
  interval ← policy_float (pget "interval_seconds" values);
  let interval := fmax one_float (default (float_of_Z 60) interval) in
  max_interval ← policy_float (pget "max_interval_seconds" values);
  backoff ← policy_float (pget "failure_backoff_multiplier" values);
  history_limit ← policy_int (pget "history_limit" values);
  jitter ← jitter_ratio (pget "jitter_ratio" values);
  max_consecutive_failures ← policy_int (pget "max_consecutive_failures" values);
  max_cycles ← optional_positive_int (pget "max_cycles" values);
  max_no_progress_cycles ← optional_positive_int (pget "max_no_progress_cycles" values);
  mret (mkCyclePolicy enabled interval jitter (fmax one_float (default (float_of_Z 2) backoff))
          (fmax interval (default (float_of_Z 3600) max_interval)) (default 5 max_consecutive_failures)
          max_cycles max_no_progress_cycles (policy_datetime (pget "deadline_at" values))
          (Z.min 100 (default 20 history_limit))).

(** [resolve_persistent_cycle_policy] *)
Definition resolve_persistent_cycle_policy (e : Execution) : M PersistentCyclePolicy :=
  match pget "execution_lifecycle" (ex_metadata e) with
  | PDict lifecycle =>
      let values := persistent_cycle_values lifecycle in
      normalized_persistent_cycle_policy values
        (enabled_value (pget "enabled" values) && eq_str (pget "run_mode" lifecycle) ALWAYS_ON_RUN_MODE)
  | _ => mret default_cycle_policy
  end.

(** ** Timeouts *)

(** [_metadata_policy] *)
Definition metadata_policy (metadata : dict pyval) : dict pyval :=
  match pget "runtime_policy" metadata with
  | PDict runtime_policy => runtime_policy
  | _ => match pget "timeout_policy" metadata with
         | PDict timeout_policy => timeout_policy
         | _ => metadata
         end
  end.

(** A policy under construction, with the source of each value. *)
Record policy_draft := mkDraft { pd_policy : dict pyval; pd_sources : dict string }.

Definition put_value (key source : string) (v : pyval) (d : policy_draft) : policy_draft :=
  mkDraft (dset key v (pd_policy d)) (dset key source (pd_sources d)).

Definition put_present (key source : string) (o : option pyval) (d : policy_draft) : policy_draft :=
  match o with Some v => put_value key source v d | None => d end.

(** [values.get(k1) or values.get(k2) or ...] *)
Fixpoint first_of (keys : list string) (values : dict pyval) : pyval :=
  match keys with
  | [] => PNone
  | [k] => pget k values
  | k :: rest => py_or (pget k values) (first_of rest values)
  end.

(** [_apply_policy_values] *)
Definition apply_policy_values (values : dict pyval) (source : string) (d : policy_draft) : M policy_draft :=
  worker ← policy_int (first_of ["worker_hard_timeout_seconds"; "execution_timeout_seconds";
                                 "agent_run_timeout_seconds"; "run_timeout_seconds"] values);
  run ← policy_int (first_of ["run_timeout_seconds"; "agent_run_timeout_seconds"] values);
  idle ← policy_int (first_of ["idle_timeout_seconds"; "agent_activity_idle_timeout_seconds"] values);
  codex ← policy_int (first_of ["codex_cli_timeout_seconds"; "CODEX_CLI_TIMEOUT_SECONDS"] values);
  llm ← policy_float (first_of ["llm_request_timeout_seconds"; "LLM_REQUEST_TIMEOUT_SECONDS"] values);
  heartbeat ← policy_float (first_of ["heartbeat_interval_seconds"; "worker_heartbeat_interval_seconds"] values);
  mret (put_present "heartbeat_interval_seconds" source (PFloat <$> heartbeat)
         (put_present "llm_request_timeout_seconds" source (PFloat <$> llm)
           (put_present "codex_cli_timeout_seconds" source (PInt <$> codex)
             (put_present "idle_timeout_seconds" source (PInt <$> idle)
               (put_present "run_timeout_seconds" source (PInt <$> run)
                 (put_present "worker_hard_timeout_seconds" source (PInt <$> worker) d)))))).

(** [value > current] for two numbers of the same kind. *)
Definition num_gtb (v current : pyval) : bool :=
  match v, current with
  | PInt a, PInt b => b <? a
  | PFloat a, PFloat b => SFltb b a
  | _, _ => false
  end.

(** [_apply_max_policy_values] *)
Definition apply_max_policy_values (values : dict pyval) (source : string) (d : policy_draft) :
    M policy_draft :=
  candidate ← apply_policy_values values source (mkDraft [] []);
  mret (fold_left (fun d kv =>
          let current := pget kv.1 (pd_policy d) in
          if is_none current || num_gtb kv.2 current
          then put_value kv.1 (default source (dget kv.1 (pd_sources candidate))) kv.2 d else d)
        (pd_policy candidate) d).

(** The settings that the policy starts from. *)
Record RuntimeSettings := mkRuntimeSettings {
  rs_agent_run_timeout_seconds : Z;
  rs_agent_activity_idle_timeout_seconds : Z;
  rs_codex_cli_timeout_seconds : Z;
  rs_llm_request_timeout_seconds : spec_float
}.

Record ResolvedExecutionRuntimePolicy := mkResolvedPolicy {
  rp_worker_hard_timeout_seconds : option Z;
  rp_idle_timeout_seconds : Z;
  rp_run_timeout_seconds : Z;
  rp_codex_cli_timeout_seconds : Z;
  rp_llm_request_timeout_seconds : spec_float;
  rp_heartbeat_interval_seconds : spec_float;
  rp_source_map : dict string
}.

Definition settings_draft (s : RuntimeSettings) : policy_draft :=
  let values :=
    [("worker_hard_timeout_seconds", PInt (rs_agent_run_timeout_seconds s));
     ("idle_timeout_seconds", PInt (rs_agent_activity_idle_timeout_seconds s));
     ("run_timeout_seconds", PInt (rs_agent_run_timeout_seconds s));
     ("codex_cli_timeout_seconds", PInt (rs_codex_cli_timeout_seconds s));
     ("llm_request_timeout_seconds", PFloat (rs_llm_request_timeout_seconds s));
     ("heartbeat_interval_seconds", PFloat one_float)] in
  mkDraft values (map (fun kv => (kv.1, "settings")) values).

Definition when_some {A} (o : option A) (f : A -> policy_draft -> M policy_draft) (d : policy_draft) :
    M policy_draft :=
  match o with Some x => f x d | None => mret d end.

(** [for item in items: ...] on the draft. *)
Fixpoint fold_draft {A} (f : A -> policy_draft -> M policy_draft) (items : list A) (d : policy_draft) :
    M policy_draft :=
  match items with
  | [] => mret d
  | x :: rest => d ← f x d; fold_draft f rest d
  end.

(** The workflow members whose policies extend the caps. *)
Definition apply_member_maxima (wf : WorkflowDefinition) (d : policy_draft) : M policy_draft :=
  d ← fold_draft (fun t => apply_max_policy_values (metadata_policy (td_metadata t))
                             ("task:" +:+ td_id t +:+ ".metadata.runtime_policy"))
        (wf_task_definitions wf) d;
  fold_draft (fun a => apply_max_policy_values (metadata_policy (ag_metadata a))
                         ("agent:" +:+ ag_id a +:+ ".metadata.runtime_policy"))
    (wf_agent_definitions wf) d.

(** The environment's values, as texts. *)
Definition environment_values (getenv : string -> option string) : dict pyval :=
  [("worker_hard_timeout_seconds", opt_str (getenv "AGENCY_EXECUTION_TIMEOUT_SECONDS"));
   ("codex_cli_timeout_seconds", opt_str (getenv "CODEX_CLI_TIMEOUT_SECONDS"));
   ("llm_request_timeout_seconds", opt_str (getenv "LLM_REQUEST_TIMEOUT_SECONDS"))].

(** An always-on execution whose cap is the default has none. *)
Definition lift_always_on (execution : option Execution) (d : policy_draft) : policy_draft :=
  let lifecycle := match execution with
                   | Some e => dict_or_empty (pget "execution_lifecycle" (ex_metadata e))
                   | None => []
                   end in
  if eq_str (pget "run_mode" lifecycle) ALWAYS_ON_RUN_MODE
     && opt_eqb (dget "worker_hard_timeout_seconds" (pd_sources d)) (Some "settings")
  then put_value "worker_hard_timeout_seconds" "execution_lifecycle.always_on" PNone d else d.

Definition draft_int (key : string) (d : policy_draft) : Z :=
  match pget key (pd_policy d) with PInt n => n | _ => 0 end.
Definition draft_float (key : string) (d : policy_draft) : spec_float :=
  match pget key (pd_policy d) with PFloat f => f | _ => zero_float end.

Definition resolved_policy (d : policy_draft) : ResolvedExecutionRuntimePolicy :=
  mkResolvedPolicy
    (match pget "worker_hard_timeout_seconds" (pd_policy d) with PInt n => Some n | _ => None end)
    (draft_int "idle_timeout_seconds" d) (draft_int "run_timeout_seconds" d)
    (draft_int "codex_cli_timeout_seconds" d) (draft_float "llm_request_timeout_seconds" d)
    (draft_float "heartbeat_interval_seconds" d) (pd_sources d).

(** [resolve_execution_runtime_policy] *)
Definition resolve_execution_runtime_policy (settings : RuntimeSettings) (getenv : string -> option string)
    (workflow : option WorkflowDefinition) (execution : option Execution) (task : option TaskDefinition)
    (agent : option AgentDefinition) (include_workflow_member_maxima : bool) :
    M ResolvedExecutionRuntimePolicy :=
  d ← when_some workflow (fun wf => apply_policy_values (metadata_policy (wf_metadata wf))
                                      "workflow.metadata.runtime_policy") (settings_draft settings);
  d ← (if include_workflow_member_maxima then when_some workflow apply_member_maxima d else mret d);
  d ← when_some task (fun t => apply_policy_values (metadata_policy (td_metadata t))
                                 ("task:" +:+ td_id t +:+ ".metadata.runtime_policy")) d;
  d ← when_some agent (fun a => apply_policy_values (metadata_policy (ag_metadata a))
                                  ("agent:" +:+ ag_id a +:+ ".metadata.runtime_policy")) d;
  d ← when_some execution (fun e d =>
         d ← apply_policy_values (metadata_policy (ex_trigger_payload e)) "execution.trigger_payload" d;
         apply_policy_values (metadata_policy (ex_input_payload e)) "execution.input_payload" d) d;
  d ← apply_policy_values (environment_values getenv) "environment" d;
  mret (resolved_policy (lift_always_on execution d)).

(** ** Run modes *)

Section RunModes.
Context `{Env}.

(** [value in RUN_MODES]: a set, so an unhashable value raises. *)
Definition in_run_modes (v : pyval) : M bool :=
  match v with
  | PStr s => mret (mem_str s RUN_MODES)
  | PList _ | PDict _ => raise TypeError "unhashable type"
  | _ => mret false
  end.

(** [infer_execution_run_mode] *)
Definition infer_execution_run_mode (trigger : dict pyval) : M pyval :=
  let requested_mode := pget "run_mode" trigger in
  requested ← in_run_modes requested_mode;
  if (requested : bool) then mret requested_mode
  else
    let trigger_type := py_lower (text_or (pget "type" trigger) "") in
    let source := py_lower (text_or (pget "source" trigger) "") in
    mret (PStr (if truthy (pget "schedule_id" trigger) || mem_str trigger_type SCHEDULE_TRIGGER_TYPES
                   || String.eqb source "scheduler"
                then SCHEDULED_RUN_MODE else ONE_TIME_RUN_MODE)).

(** [build_execution_lifecycle_metadata] *)
Definition build_execution_lifecycle_metadata (trigger workflow_metadata : dict pyval) : M (dict pyval) :=
  let workflow_lifecycle := dict_or_empty (pget "execution_lifecycle" workflow_metadata) in
  let persistent_cycle := persistent_cycle_values workflow_lifecycle in
  let persistent_cycle_enabled := enabled_value (pget "enabled" persistent_cycle) in
  run_mode ← (let declared := pget "run_mode" workflow_lifecycle in
              if truthy declared then mret declared else infer_execution_run_mode trigger);
  let run_mode := if persistent_cycle_enabled then PStr ALWAYS_ON_RUN_MODE else run_mode in
  known ← in_run_modes run_mode;
  run_mode ← (if (known : bool) then mret run_mode else infer_execution_run_mode trigger);
  let terminate_on_completion :=
    match pget "terminate_container_on_completion" workflow_lifecycle with
    | PNone => persistent_cycle_enabled || negb (eq_str run_mode ALWAYS_ON_RUN_MODE)
    | v => truthy v
    end in
  let lifecycle :=
    [("run_mode", run_mode); ("triggered_by_schedule", PBool (eq_str run_mode SCHEDULED_RUN_MODE));
     ("terminate_container_on_completion", PBool terminate_on_completion)] in
  if persistent_cycle_enabled then
    policy ← normalized_persistent_cycle_policy persistent_cycle true;
    mret (lifecycle ++ [("persistent_cycle", PDict (cycle_policy_dump policy))])
  else mret lifecycle.
End RunModes.

(** [should_terminate_container_on_completion] *)
Definition should_terminate_container_on_completion (e : Execution) : bool :=
  match pget "execution_lifecycle" (ex_metadata e) with
  | PDict lifecycle => match dget "terminate_container_on_completion" lifecycle with
                       | Some v => truthy v
                       | None => true
                       end
  | _ => true
  end.
