(* ===== verification/Timestamps.v ===== *)
(** * Timestamps survive the activity stamp

    [apply_activity_to_execution] writes the time of an event as text and
    [execution_last_activity_at] reads it back ([app/services/execution_activity.py]).
    The text determines the instant: printing a date and reading it is the
    identity on the years 1970 to 9999, so the staleness of an execution is judged
    on the time of its last event. *)

From S2P Require Export Emitter Sample.

(** ** The calendar *)

(** The year of a day inside its 400-year era, and the first day of a year. *)
Definition era_year (doe : Z) : Z := (doe - doe / 1460 + doe / 36524 - doe / 146096) / 365.
Definition year_start (yoe : Z) : Z := 365 * yoe + yoe / 4 - yoe / 100.

(** The month and the day of the month of a day of the year (from March). *)
Definition month_day (doy : Z) : Z * Z :=
  let mp := (5 * doy + 2) / 153 in
  (if mp <? 10 then mp + 3 else mp - 9, doy - (153 * mp + 2) / 5 + 1).

Definition year_day (m d : Z) : Z :=
  let mp := if m <=? 2 then m + 9 else m - 3 in
  (153 * mp + 2) / 5 + d - 1.

(** A property of [n] consecutive integers, checked one after the other. *)
Fixpoint check_range (p : Z -> bool) (n : nat) (start : Z) : bool :=
  match n with
  | O => true
  | S n' => p start && check_range p n' (start + 1)
  end.

Lemma check_range_sound p n start x :
  check_range p n start = true -> start <= x < start + Z.of_nat n -> p x = true.
Proof.
  revert start. induction n as [|n IH]; intros start Hc Hx; [lia|]. simpl in Hc.
  apply andb_prop in Hc as [Hp Hc].
  destruct (Z.eq_dec start x) as [->|Hne]; [done|]. apply (IH (start + 1)); [done|lia].
Qed.

Definition year_ok (yoe : Z) : bool :=
  (era_year (year_start yoe) =? yoe) && (era_year (year_start (yoe + 1) - 1) =? yoe)
  && (365 <=? year_start (yoe + 1) - year_start yoe) && (year_start (yoe + 1) - year_start yoe <=? 366).

Definition day_ok (doy : Z) : bool :=
  let '(m, d) := month_day doy in
  (1 <=? m) && (m <=? 12) && (1 <=? d) && (d <=? 31) && (year_day m d =? doy)
  && ((2 <? m) || (306 <=? doy)).

Lemma years_ok yoe : 0 <= yoe < 400 -> year_ok yoe = true.
Proof. intros Hy. apply (check_range_sound year_ok 400 0); [vm_compute; reflexivity|lia]. Qed.

Lemma days_ok doy : 0 <= doy < 366 -> day_ok doy = true.
Proof. intros Hd. apply (check_range_sound day_ok 366 0); [vm_compute; reflexivity|lia]. Qed.

Lemma era_year_mono x y : x <= y -> era_year x <= era_year y.
Proof.
  intros Hxy. unfold era_year. apply Z.div_le_mono; [lia|].
  assert (Hstep : forall z, z - z / 1460 + z / 36524 - z / 146096 <=
    (z + 1) - (z + 1) / 1460 + (z + 1) / 36524 - (z + 1) / 146096).
  { intros z. change 146096 with (36524 * 4). rewrite <-!Z.div_div by lia.
    assert (Hk : forall k, 0 < k -> z / k <= (z + 1) / k <= z / k + 1).
    { intros k Hk. split; [apply Z.div_le_mono; lia|].
      rewrite <-(Z.div_add z 1 k) by lia. apply Z.div_le_mono; lia. }
    pose proof (Hk 1460 ltac:(lia)). destruct (Hk 36524 ltac:(lia)) as [Hq1 Hq2].
    assert (Hq : forall q q', q <= q' <= q + 1 -> q - q / 4 <= q' - q' / 4).
    { clear. intros q q' Hq. Z.to_euclidean_division_equations. lia. }
    specialize (Hq _ _ (conj Hq1 Hq2)). lia. }
  replace y with (x + Z.of_nat (Z.to_nat (y - x))) by lia.
  induction (Z.to_nat (y - x)) as [|n IH]; [rewrite Z.add_0_r; lia|].
  etransitivity; [exact IH|]. rewrite Nat2Z.inj_succ, <-Z.add_1_r, Z.add_assoc. apply Hstep.
Qed.

(** Every day of the era lies in one of its years. *)
Lemma year_of_day n doe :
  0 <= doe < year_start (Z.of_nat n) ->
  exists yoe, 0 <= yoe < Z.of_nat n /\ year_start yoe <= doe < year_start (yoe + 1).
Proof.
  induction n as [|n IH]; intros Hd; [change (year_start (Z.of_nat 0)) with 0 in Hd; lia|].
  destruct (Z_lt_le_dec doe (year_start (Z.of_nat n))) as [Hlt|Hge].
  - destruct (IH ltac:(lia)) as (yoe & Hy & Hr). exists yoe. split; [lia|done].
  - exists (Z.of_nat n). split; [lia|]. split; [done|].
    replace (Z.of_nat n + 1) with (Z.of_nat (S n)) by lia. lia.
Qed.

Lemma era_year_exact doe :
  0 <= doe < 146097 -> 0 <= era_year doe < 400
  /\ 0 <= doe - year_start (era_year doe) < 366.
Proof.
  intros Hd. destruct (Z.eq_dec doe 146096) as [->|Hlast]; [by vm_compute|].
  destruct (year_of_day 400 doe) as (yoe & Hy & Hlo & Hhi).
  { change (year_start (Z.of_nat 400)) with 146096. lia. }
  pose proof (years_ok yoe ltac:(lia)) as Hok. unfold year_ok in Hok.
  repeat rewrite andb_true_iff in Hok. destruct Hok as [[[H1 H2] _] H4].
  apply Z.eqb_eq in H1, H2. apply Z.leb_le in H4.
  assert (Hyear : era_year doe = yoe).
  { pose proof (era_year_mono _ _ Hlo).
    pose proof (era_year_mono doe (year_start (yoe + 1) - 1) ltac:(lia)). lia. }
  rewrite Hyear. split; lia.
Qed.

(** Everything the conversion of a day computes inside its era. *)
Definition era_date (doe : Z) : Z * Z * Z :=
  let '(m, d) := month_day (doe - year_start (era_year doe)) in (era_year doe, m, d).

Definition era_day (yoe m d : Z) : Z := year_start yoe + year_day m d.

Lemma era_all_ok doe yoe m d :
  0 <= doe < 146097 -> era_date doe = (yoe, m, d) ->
  0 <= yoe < 400 /\ 1 <= m <= 12 /\ 1 <= d <= 31 /\ era_day yoe m d = doe
  /\ (doe < 146037 -> yoe + (if m <=? 2 then 1 else 0) < 400).
Proof.
  intros Hd. destruct (era_year_exact doe Hd) as [Hy Hdoy]. unfold era_date, era_day.
  set (doy := doe - year_start (era_year doe)) in *.
  pose proof (days_ok doy ltac:(lia)) as Hok. unfold day_ok in Hok.
  destruct (month_day doy) as [m' d']. intros [= <- <- <-].
  repeat rewrite andb_true_iff in Hok. destruct Hok as [[[[[H3 H4] H5] H6] H7] H8].
  apply Z.leb_le in H3, H4, H5, H6. apply Z.eqb_eq in H7.
  repeat split; try lia. intros Hlt.
  destruct (Z.leb_spec m' 2); [|lia].
  apply orb_true_iff in H8 as [H8%Z.ltb_lt|H8%Z.leb_le]; [lia|].
  destruct (Z.eq_dec (era_year doe) 399) as [E|]; [|lia].
  unfold doy in H8. rewrite E in H8. change (year_start 399) with 145731 in H8. lia.
Qed.

Lemma civil_of_days_era days :
  civil_of_days days =
    let '(yoe, m, d) := era_date ((days + 719468) mod 146097) in
    (yoe + (days + 719468) / 146097 * 400 + (if m <=? 2 then 1 else 0), m, d).
Proof. reflexivity. Qed.

Lemma days_of_civil_era era yoe m d :
  0 <= yoe < 400 ->
  days_of_civil (yoe + era * 400 + (if m <=? 2 then 1 else 0)) m d = era * 146097 + era_day yoe m d - 719468.
Proof.
  intros Hy. unfold days_of_civil, era_day, year_start, year_day. cbv zeta.
  replace (yoe + era * 400 + (if m <=? 2 then 1 else 0) - (if m <=? 2 then 1 else 0))
    with (yoe + era * 400) by lia.
  rewrite Z.div_add, Z.div_small, Z_mod_plus_full, Z.mod_small by lia. lia.
Qed.

(** The date of a day, and the day of that date. *)
Lemma civil_roundtrip days :
  0 <= days <= 2932896 ->
  exists y m d, civil_of_days days = (y, m, d) /\ days_of_civil y m d = days
    /\ 1 <= y < 10000 /\ 1 <= m <= 12 /\ 1 <= d <= 31.
Proof.
  intros Hd. rewrite civil_of_days_era.
  set (z := days + 719468). pose proof (Z.mod_pos_bound z 146097 ltac:(lia)) as Hm.
  pose proof (Z.div_mod z 146097 ltac:(lia)) as Hdiv.
  destruct (era_date (z mod 146097)) as [[yoe m] d] eqn:Hdate.
  destruct (era_all_ok _ _ _ _ Hm Hdate) as (Hy & Hmo & Hda & Hday & Hlast).
  eexists _, m, d. split; [reflexivity|]. rewrite days_of_civil_era by lia.
  assert (Hera : 4 <= z / 146097 <= 24).
  { split; [apply Z.div_le_lower_bound; lia|].
    enough (z / 146097 < 25) by lia. apply Z.div_lt_upper_bound; lia. }
  rewrite Hday. unfold z in *. repeat split; try lia.
  - destruct (m <=? 2); lia.
  - destruct (m <=? 2); lia.
Qed.

(** ** The digits *)

Lemma list_ascii_app a b :
  list_ascii_of_string (a +:+ b) = list_ascii_of_string a ++ list_ascii_of_string b.
Proof. induction a as [|c a IH]; simpl; [done|]. by f_equal. Qed.

Lemma digit_ascii n : 0 <= n < 10 ->
  exists c, digit n = String c "" /\ digit_value c = Some n /\ Ascii.eqb c "Z" = false.
Proof.
  intros Hn. unfold digit. eexists. split; [reflexivity|].
  assert (Hcases : In n (map Z.of_nat (seq 0 10))).
  { apply in_map_iff. exists (Z.to_nat n). rewrite in_seq. lia. }
  by repeat destruct Hcases as [<-|Hcases].
Qed.

Lemma read_digits_snoc w acc l v c d rest :
  read_digits w acc l = Some (v, c :: rest) -> digit_value c = Some d ->
  read_digits (S w) acc l = Some (v * 10 + d, rest).
Proof.
  revert acc l. induction w as [|w IH]; intros acc l Hr Hd.
  - injection Hr as -> ->. simpl. by rewrite Hd.
  - destruct l as [|c0 l]; [done|]. cbn [read_digits] in Hr.
    destruct (digit_value c0) as [v0|] eqn:E0; [|done]. simpl in Hr.
    specialize (IH _ _ Hr Hd). cbn [read_digits] in IH |- *. rewrite E0. simpl. exact IH.
Qed.

(** Reading back [w] digits, whatever follows them. *)
Lemma read_pad w n acc rest :
  0 <= n < 10 ^ Z.of_nat w ->
  read_digits w acc (list_ascii_of_string (pad_Z w n) ++ rest) = Some (acc * 10 ^ Z.of_nat w + n, rest).
Proof.
  revert n rest. induction w as [|w IH]; intros n rest Hn.
  - simpl in *. do 2 f_equal. lia.
  - rewrite Nat2Z.inj_succ, Z.pow_succ_r in * by lia.
    cbn [pad_Z]. rewrite list_ascii_app, <-app_assoc.
    destruct (digit_ascii (n mod 10)) as (c & -> & Hc & _); [apply Z.mod_pos_bound; lia|].
    rewrite (read_digits_snoc w acc _ (acc * 10 ^ Z.of_nat w + n / 10) c (n mod 10) rest); [|apply IH|done].
    + do 2 f_equal. pose proof (Z.div_mod n 10 ltac:(lia)). lia.
    + split; [apply Z.div_pos; lia|]. apply Z.div_lt_upper_bound; lia.
Qed.

Lemma replace_zulu_app a b : replace_zulu (a +:+ b) = replace_zulu a +:+ replace_zulu b.
Proof.
  unfold replace_zulu. induction a as [|c a IH]; [done|].
  change (String c a +:+ b) with (String c (a +:+ b)). cbn [concat_map].
  change (?f c +:+ _) with (f c +:+ _). cbn. rewrite IH.
  by destruct (Ascii.eqb c "Z").
Qed.

Lemma replace_zulu_pad w n : 0 <= n -> replace_zulu (pad_Z w n) = pad_Z w n.
Proof.
  revert n. induction w as [|w IH]; intros n Hn; [done|]. cbn [pad_Z].
  rewrite replace_zulu_app, IH by (apply Z.div_pos; lia).
  destruct (digit_ascii (n mod 10)) as (c & -> & _ & Hz); [apply Z.mod_pos_bound; lia|].
  unfold replace_zulu. cbn [concat_map]. by rewrite Hz.
Qed.

(** ** Reading back what was printed *)

(** The instants of the years 1970 to 9999. *)
Definition representable (t : Z) : Prop := 0 <= t < 253402300800 * us_per_second.

(** A field of fixed width followed by a separator. *)
Lemma read_field w n c rest {B} (f : Z -> list ascii -> option B) :
  0 <= n < 10 ^ Z.of_nat w ->
  ('(v, l) ← read_digits w 0 (list_ascii_of_string (pad_Z w n +:+ String c "" +:+ rest));
   l ← expect c l; f v l) = f n (list_ascii_of_string rest).
Proof.
  intros Hn. rewrite list_ascii_app, read_pad by done. simpl. by rewrite Ascii.eqb_refl.
Qed.

(** The text of the fields of a timestamp. *)
Definition iso_text (y m d hh mm ss frac : Z) : string :=
  pad_Z 4 y +:+ "-" +:+ pad_Z 2 m +:+ "-" +:+ pad_Z 2 d +:+ "T" +:+
  pad_Z 2 hh +:+ ":" +:+ pad_Z 2 mm +:+ ":" +:+ pad_Z 2 ss +:+
  (if frac =? 0 then "" else "." +:+ pad_Z 6 frac) +:+ "+00:00".

Record iso_fields (t y m d hh mm ss frac : Z) : Prop := {
  iso_date : civil_of_days (days_of_civil y m d) = (y, m, d);
  iso_y : 1 <= y < 10000; iso_m : 1 <= m <= 12; iso_d : 1 <= d <= 31;
  iso_hh : 0 <= hh < 24; iso_mm : 0 <= mm < 60; iso_ss : 0 <= ss < 60; iso_frac : 0 <= frac < us_per_second;
  iso_value : days_of_civil y m d * us_per_day + (hh * 3600 + mm * 60 + ss) * us_per_second + frac = t
}.

(** What [isoformat] prints are fields that name the instant. *)
Lemma isoformat_fields t : representable t ->
  exists y m d hh mm ss frac, isoformat t = iso_text y m d hh mm ss frac /\ iso_fields t y m d hh mm ss frac.
Proof.
  intros [Ht0 Ht1]. unfold us_per_second in Ht1. unfold isoformat.
  pose proof (Z.div_mod t us_per_day ltac:(done)) as Hday.
  pose proof (Z.mod_pos_bound t us_per_day ltac:(done)) as Hus.
  destruct (civil_roundtrip (t / us_per_day)) as (y & m & d & Hciv & Hback & Hy & Hm & Hd).
  { split; [by apply Z.div_pos|]. enough (t / us_per_day < 2932897) by lia.
    apply Z.div_lt_upper_bound; [done|]. unfold us_per_day, us_per_second. lia. }
  rewrite Hciv. cbv zeta. set (us := t mod us_per_day) in *.
  pose proof (Z.mod_pos_bound us us_per_second ltac:(done)) as Hfrac.
  pose proof (Z.div_mod us us_per_second ltac:(done)) as Hsplit.
  set (secs := us / us_per_second) in *. set (frac := us mod us_per_second) in *.
  assert (Hsecs : 0 <= secs < 86400).
  { unfold secs. split; [apply Z.div_pos; [lia|done]|]. apply Z.div_lt_upper_bound; [done|].
    unfold us_per_day, us_per_second in *. lia. }
  exists y, m, d, (secs / 3600), (secs / 60 mod 60), (secs mod 60), frac. split; [done|].
  split; [by rewrite Hback|done|done|done| |by apply Z.mod_pos_bound|by apply Z.mod_pos_bound|done|].
  - split; [apply Z.div_pos; lia|]. apply Z.div_lt_upper_bound; lia.
  - rewrite Hback. assert (Htime : secs / 3600 * 3600 + secs / 60 mod 60 * 60 + secs mod 60 = secs)
      by (Z.to_euclidean_division_equations; lia).
    rewrite Htime. lia.
Qed.

Lemma fromisoformat_isoformat t : representable t -> fromisoformat (isoformat t) = Some t.
Proof.
  intros (y & m & d & hh & mm & ss & frac & -> & [Hback Hy Hm Hd Hhh Hmm Hss Hfrac Ht])%isoformat_fields.
  unfold fromisoformat, iso_text.
  rewrite (read_field 4 y "-"); [|cbn; lia]. rewrite (read_field 2 m "-"); [|cbn; lia].
  rewrite (read_field 2 d "T"); [|cbn; lia]. rewrite (read_field 2 hh ":"); [|cbn; lia].
  rewrite (read_field 2 mm ":"); [|cbn; lia].
  rewrite list_ascii_app, read_pad by (cbn; lia). cbn [mbind option_bind]. rewrite Z.mul_0_l, Z.add_0_l.
  assert (Hend : forall v : Z, v = frac ->
    (if String.eqb "+00:00" "+00:00" && (1 <=? y) && (1 <=? m) && (m <=? 12)
        && bool_decide (civil_of_days (days_of_civil y m d) = (y, m, d)) && (hh <? 24) && (mm <? 60) && (ss <? 60)
     then Some (days_of_civil y m d * us_per_day + (hh * 3600 + mm * 60 + ss) * us_per_second + v)
     else None) = Some t).
  { intros v ->. rewrite Hback, bool_decide_eq_true_2, Ht by done.
    rewrite !(proj2 (Z.leb_le _ _)), !(proj2 (Z.ltb_lt _ _)) by lia. done. }
  destruct (Z.eqb_spec frac 0) as [Hz|Hz]; [apply Hend; lia|].
  change (("." +:+ pad_Z 6 frac) +:+ "+00:00") with (String "." (pad_Z 6 frac +:+ "+00:00")).
  cbn [list_ascii_of_string expect Ascii.eqb Bool.eqb]. rewrite list_ascii_app.
  rewrite read_pad by (cbn; unfold us_per_second in *; lia). cbn [mbind option_bind]. by apply Hend.
Qed.

Lemma replace_zulu_isoformat t : representable t -> replace_zulu (isoformat t) = isoformat t.
Proof.
  intros (y & m & d & hh & mm & ss & frac & -> & [])%isoformat_fields. unfold iso_text.
  rewrite !replace_zulu_app, !replace_zulu_pad by lia.
  destruct (frac =? 0); [done|]. by rewrite !replace_zulu_app, !replace_zulu_pad by lia.
Qed.

(** A timestamp has no blank, so stripping leaves it alone. *)
Definition no_space (s : string) : bool := forallb (fun c => negb (is_space c)) (list_ascii_of_string s).

Lemma no_space_app a b : no_space (a +:+ b) = no_space a && no_space b.
Proof. unfold no_space. by rewrite list_ascii_app, forallb_app. Qed.

Lemma no_space_pad w n : 0 <= n -> no_space (pad_Z w n) = true.
Proof.
  revert n. induction w as [|w IH]; intros n Hn; [done|]. cbn [pad_Z].
  rewrite no_space_app, IH by (apply Z.div_pos; lia).
  destruct (digit_ascii (n mod 10)) as (c & Hc & Hv & _); [apply Z.mod_pos_bound; lia|].
  rewrite Hc. unfold no_space. cbn [list_ascii_of_string forallb andb].
  revert Hv. clear. destruct c as [[] [] [] [] [] [] [] []]; done.
Qed.

Lemma py_strip_no_space s : no_space s = true -> py_strip s = s.
Proof.
  intros Hs. unfold py_strip, strip_chars.
  assert (Hd : forall l, forallb (fun c => negb (is_space c)) l = true -> drop_while is_space l = l).
  { intros [|c l]; [done|]. cbn. intros [Hc _]%andb_prop. by destruct (is_space c). }
  rewrite (Hd _ Hs), Hd, rev_involutive, string_of_list_ascii_of_string; [done|].
  apply forallb_forall. intros c Hin%in_rev. by apply (proj1 (forallb_forall _ _) Hs).
Qed.

Lemma py_strip_isoformat t : representable t -> py_strip (isoformat t) = isoformat t.
Proof.
  intros Ht. apply py_strip_no_space.
  destruct (isoformat_fields t Ht) as (y & m & d & hh & mm & ss & frac & -> & []). unfold iso_text.
  rewrite !no_space_app, !no_space_pad by lia.
  destruct (frac =? 0); [done|]. by rewrite !no_space_app, !no_space_pad by lia.
Qed.

(** The activity stamp is faithful: after an activity event the execution's
    last activity reads back as exactly the time of the event, and the execution
    was updated at that time; any other event leaves the execution as it is. *)
Lemma activity_stamp_reads_back e event :
  representable (ev_timestamp event) ->
  let '(e', changed) := apply_activity_to_execution e event in
  if bool_decide (ev_event_type event ∈ ACTIVITY_EVENT_TYPES)
  then changed = true /\ execution_last_activity_at e' = Some (ev_timestamp event)
       /\ ex_updated_at e' = ev_timestamp event /\ same_but_activity e e'
  else changed = false /\ e' = e.
Proof.
  intros Ht. pose proof (apply_activity_same e event) as Hsame.
  unfold apply_activity_to_execution, activity_payload_for_event in *.
  destruct (bool_decide _); cbn [negb] in *; [|done].
  split; [done|]. split; [|by split].
  unfold execution_last_activity_at, pget. cbn [ex_metadata set_ex_updated_at set_ex_metadata].
  rewrite dget_dset_eq. unfold default, id. cbn [dget String.eqb Ascii.eqb Bool.eqb].
  replace (String.eqb (isoformat (ev_timestamp event)) "") with false.
  - rewrite replace_zulu_isoformat by done. by apply fromisoformat_isoformat.
  - symmetry. apply String.eqb_neq. intros Hempty.
    pose proof (fromisoformat_isoformat _ Ht) as Hr. by rewrite Hempty in Hr.
Qed.
