(* ===== verification/PolicyFacts.v ===== *)
(** * What the execution policies guarantee

    A normalised cycle policy is within its bounds and reads back unchanged from
    the metadata of the execution it was copied onto; a resolved runtime policy
    is well typed and positive, and the environment has the last word. *)

From Corelib Require Import SpecFloat.
From S2P Require Export Policy Timestamps.

(** ** Comparisons of doubles *)

Lemma fmax_idem a b : fmax a (fmax a b) = fmax a b.
Proof. unfold fmax. destruct (SFltb a b) eqn:Hab; [by rewrite Hab|]. by destruct (SFltb a a). Qed.

(** Strictly positive doubles, the infinity included. *)
Definition positive_float (f : spec_float) : Prop := SFltb zero_float f = true.

Lemma positive_float_cases f : positive_float f <->
  f = S754_infinity false \/ exists m e, f = S754_finite false m e.
Proof.
  split.
  - destruct f as [[]|[]| |[] m e]; try done; [by left|by right; exists m, e].
  - by intros [->|(m & e & ->)].
Qed.

Lemma positive_above a b : positive_float a -> SFltb a b = true -> positive_float b.
Proof.
  intros [->|(m & e & ->)]%positive_float_cases; by destruct b as [[]|[]| |[] m' e'].
Qed.

Lemma positive_fmax a b : positive_float a -> positive_float (fmax a b).
Proof. intros Ha. unfold fmax. destruct (SFltb a b) eqn:Hab; [by apply (positive_above a)|done]. Qed.

Lemma positive_one : positive_float one_float.
Proof. reflexivity. Qed.

(** [max(a, x)] is never below [a]. *)
Lemma fmax_not_below a b : positive_float a -> SFltb (fmax a b) a = false.
Proof.
  intros Ha. assert (Hirr : SFltb a a = false).
  { apply positive_float_cases in Ha as [->|(m & e & ->)]; [done|].
    unfold SFltb, SFcompare. by rewrite Z.compare_refl, Pos.compare_refl. }
  unfold fmax. destruct (SFltb a b) eqn:Hab; [|done].
  pose proof (positive_above a b Ha Hab) as Hb.
  apply positive_float_cases in Ha as [->|(m & e & ->)], Hb as [->|(m' & e' & ->)]; try done.
  revert Hab. unfold SFltb, SFcompare. fold (Pos.compare m m') (Pos.compare m' m). rewrite (Z.compare_antisym e e'), (Pos.compare_antisym m m').
  destruct (Z.compare e e'), (Pos.compare m m'); done.
Qed.

(** ** The readers on the values that a policy stores *)

Lemma policy_float_positive f w : positive_float f -> policy_float (PFloat f) w = (Ok (Some f), w).
Proof. unfold positive_float. intros Hf. unfold policy_float. rewrite bind_unfold. cbn. by rewrite Hf. Qed.

(** The integers that [float] represents exactly. *)
Definition exact_int (n : Z) : Prop := 0 < n < 2 ^ 53.

Lemma policy_int_exact n w : exact_int n -> policy_int (PInt n) w = (Ok (Some n), w).
Proof.
  intros Hn. unfold policy_int, try_float, py_float. rewrite float_of_Z_finite by (unfold exact_int in Hn; lia).
  rewrite bind_unfold. cbn [mret M_ret]. rewrite float_of_Z_trunc by (unfold exact_int in Hn; lia).
  by rewrite (proj2 (Z.ltb_lt _ _)) by apply Hn.
Qed.

Definition opt_exact (o : option Z) : Prop := match o with Some n => exact_int n | None => True end.

Lemma optional_int_exact o w : opt_exact o -> optional_positive_int (opt_int o) w = (Ok o, w).
Proof. destruct o as [n|]; [|done]. intros Hn. apply (policy_int_exact n w Hn). Qed.

(** What [policy_int] and [policy_float] accept is positive. *)
Lemma policy_int_bounds v w o w' : policy_int v w = (Ok o, w') -> w' = w /\ forall n, o = Some n -> 0 < n.
Proof.
  assert (Hread : forall v, (parsed ← try_float v;
    match parsed with
    | None => mret None
    | Some f => match float_trunc f with
                | IntValue n => mret (if 0 <? n then Some n else None)
                | IntInvalid => mret None
                | IntOverflow => raise OverflowError "cannot convert float infinity to integer"
                end
    end) w = (Ok o, w') -> w' = w /\ forall n, o = Some n -> 0 < n).
  { clear v. intros v. unfold try_float, float_overflow. rewrite bind_unfold.
    destruct (py_float v) as [f| |]; cbn; [|by intros [= <- <-]|done].
    destruct (float_trunc f) as [k| |]; [|by intros [= <- <-]|done].
    destruct (Z.ltb_spec 0 k); intros [= <- <-]; (split; [done|]); [|done]. by intros n [= <-]. }
  destruct v; try apply Hread. by intros [= <- <-].
Qed.

Lemma policy_float_bounds v w o w' :
  policy_float v w = (Ok o, w') -> w' = w /\ forall f, o = Some f -> positive_float f.
Proof.
  unfold policy_float, try_float, float_overflow. rewrite bind_unfold.
  destruct (py_float v) as [f| |]; cbn; try done; [|by intros [= <- <-]].
  intros [= <- <-]. split; [done|]. destruct (SFltb zero_float f) eqn:Hf; [|done]. by intros g [= <-].
Qed.

Definition unit_interval (f : spec_float) : Prop := SFleb zero_float f = true /\ SFleb f one_float = true.

Lemma jitter_bounds v w f w' : jitter_ratio v w = (Ok f, w') -> w' = w /\ unit_interval f.
Proof.
  assert (Hzero : unit_interval zero_float) by by split.
  unfold jitter_ratio, try_float, float_overflow. rewrite bind_unfold.
  destruct (py_float v) as [g| |]; cbn [mret M_ret]; [|by intros [= <- <-]|done].
  destruct (SFleb zero_float g && SFleb g one_float) eqn:Hg; intros [= <- <-]; [|done].
  by apply andb_prop in Hg.
Qed.

Lemma jitter_stored f w : unit_interval f -> jitter_ratio (PFloat f) w = (Ok f, w).
Proof. intros [H0 H1]. unfold jitter_ratio. rewrite bind_unfold. cbn [try_float py_float mret M_ret]. by rewrite H0, H1. Qed.

Lemma policy_datetime_stored o :
  match o with Some t => representable t | None => True end -> policy_datetime (opt_iso o) = o.
Proof.
  destruct o as [t|]; [|done]. intros Ht. unfold policy_datetime, opt_iso.
  rewrite py_strip_isoformat, replace_zulu_isoformat, fromisoformat_isoformat by done.
  enough (String.eqb (isoformat t) "" = false) as -> by done.
  destruct (isoformat_fields t Ht) as (y & m & d & hh & mm & ss & frac & -> & _). unfold iso_text.
  cbn [pad_Z]. destruct (digit _) as [|c s] eqn:Hd; [|done]. by unfold digit in Hd.
Qed.

(** ** Cycle policies *)

(** The bounds that normalisation establishes. *)
Record cycle_policy_bounds (p : PersistentCyclePolicy) : Prop := {
  cb_interval : exists x, pc_interval_seconds p = fmax one_float x;
  cb_max_interval : exists x, pc_max_interval_seconds p = fmax (pc_interval_seconds p) x;
  cb_backoff : exists x, pc_failure_backoff_multiplier p = fmax one_float x;
  cb_jitter : unit_interval (pc_jitter_ratio p);
  cb_failures : 0 < pc_max_consecutive_failures p;
  cb_cycles : forall n, pc_max_cycles p = Some n -> 0 < n;
  cb_no_progress : forall n, pc_max_no_progress_cycles p = Some n -> 0 < n;
  cb_history : 0 < pc_history_limit p <= 100
}.

Lemma optional_int_bounds v w o w' :
  optional_positive_int v w = (Ok o, w') -> w' = w /\ forall n, o = Some n -> 0 < n.
Proof. destruct v; try apply policy_int_bounds. by intros [= <- <-]. Qed.

Lemma normalized_bounds values enabled w p w' :
  normalized_persistent_cycle_policy values enabled w = (Ok p, w') ->
  w' = w /\ pc_enabled p = enabled /\ cycle_policy_bounds p
  /\ pc_deadline_at p = policy_datetime (pget "deadline_at" values).
Proof.
  unfold normalized_persistent_cycle_policy.
  intros (iv & w1 & [-> _]%policy_float_bounds & Hr)%bind_inv. cbv zeta in Hr.
  apply bind_inv in Hr as (mx & w2 & [-> _]%policy_float_bounds & Hr).
  apply bind_inv in Hr as (bo & w3 & [-> _]%policy_float_bounds & Hr).
  apply bind_inv in Hr as (hl & w4 & [-> Hh]%policy_int_bounds & Hr).
  apply bind_inv in Hr as (j & w5 & [-> Hj]%jitter_bounds & Hr).
  apply bind_inv in Hr as (mf & w6 & [-> Hf]%policy_int_bounds & Hr).
  apply bind_inv in Hr as (mc & w7 & [-> Hc]%optional_int_bounds & Hr).
  apply bind_inv in Hr as (np & w8 & [-> Hn]%optional_int_bounds & Hr).
  injection Hr as <- <-. split; [done|]. split; [done|]. split; [|done].
  split; try (eexists; reflexivity); try done.
  - cbn. destruct mf; [by apply Hf|done].
  - cbn. destruct hl as [h|]; cbn; [specialize (Hh h eq_refl)|]; lia.
Qed.

(** The integers and the deadline of a policy are among those that its stored
    form represents. *)
Definition storable (p : PersistentCyclePolicy) : Prop :=
  exact_int (pc_max_consecutive_failures p) /\ opt_exact (pc_max_cycles p)
  /\ opt_exact (pc_max_no_progress_cycles p)
  /\ match pc_deadline_at p with Some t => representable t | None => True end.

Lemma normalized_dump p w :
  cycle_policy_bounds p -> storable p ->
  normalized_persistent_cycle_policy (cycle_policy_dump p) (pc_enabled p) w = (Ok p, w).
Proof.
  intros [[x Hi] [y Hm] [z Hb] Hj Hf Hc Hn Hh] (Sf & Sc & Sn & Sd). unfold normalized_persistent_cycle_policy.
  pose proof (positive_fmax _ x positive_one) as Pi. rewrite <-Hi in Pi.
  pose proof (positive_fmax _ y Pi) as Pm. rewrite <-Hm in Pm.
  pose proof (positive_fmax _ z positive_one) as Pb. rewrite <-Hb in Pb.
  rewrite (bind_Ok _ _ _ _ _ (policy_float_positive (pc_interval_seconds p) w Pi)). cbv zeta.
  rewrite (bind_Ok _ _ _ _ _ (policy_float_positive (pc_max_interval_seconds p) w Pm)).
  rewrite (bind_Ok _ _ _ _ _ (policy_float_positive (pc_failure_backoff_multiplier p) w Pb)).
  rewrite (bind_Ok _ _ _ _ _ (policy_int_exact (pc_history_limit p) w ltac:(unfold exact_int; lia))).
  rewrite (bind_Ok _ _ _ _ _ (jitter_stored (pc_jitter_ratio p) w Hj)).
  rewrite (bind_Ok _ _ _ _ _ (policy_int_exact (pc_max_consecutive_failures p) w Sf)).
  rewrite (bind_Ok _ _ _ _ _ (optional_int_exact (pc_max_cycles p) w Sc)).
  rewrite (bind_Ok _ _ _ _ _ (optional_int_exact (pc_max_no_progress_cycles p) w Sn)).
  change (pget "deadline_at" (cycle_policy_dump p)) with (opt_iso (pc_deadline_at p)).
  rewrite policy_datetime_stored by done. cbn [from_option].
  assert (E1 : fmax one_float (pc_interval_seconds p) = pc_interval_seconds p) by by rewrite Hi, fmax_idem.
  assert (E2 : fmax (pc_interval_seconds p) (pc_max_interval_seconds p) = pc_max_interval_seconds p)
    by by rewrite Hm, fmax_idem.
  assert (E3 : fmax one_float (pc_failure_backoff_multiplier p) = pc_failure_backoff_multiplier p)
    by by rewrite Hb, fmax_idem.
  unfold id. rewrite E1, E2, E3, Z.min_r by lia. by destruct p.
Qed.

(** The policy of a persistent cycle survives its storage: when an execution
    is created with the lifecycle metadata of a workflow that enables persistent
    cycles, every run of that execution resolves exactly the policy that was
    normalised at its creation, as long as its integers and its deadline are
    representable; the policy is enabled and the execution is always-on. *)
Theorem cycle_policy_roundtrip `{Env} trigger workflow_metadata w lifecycle w' e p :
  let values := persistent_cycle_values (dict_or_empty (pget "execution_lifecycle" workflow_metadata)) in
  enabled_value (pget "enabled" values) = true ->
  build_execution_lifecycle_metadata trigger workflow_metadata w = (Ok lifecycle, w') ->
  dget "execution_lifecycle" (ex_metadata e) = Some (PDict lifecycle) ->
  normalized_persistent_cycle_policy values true w = (Ok p, w) -> storable p ->
  w' = w /\ eq_str (pget "run_mode" lifecycle) ALWAYS_ON_RUN_MODE = true
  /\ pc_enabled p = true /\ resolve_persistent_cycle_policy e w = (Ok p, w).
Proof.
  intros values Hon Hbuild He Hp Hs. unfold build_execution_lifecycle_metadata in Hbuild. cbv zeta in Hbuild.
  fold values in Hbuild. rewrite Hon in Hbuild.
  assert (Hinfer : forall w1 v w2, infer_execution_run_mode trigger w1 = (Ok v, w2) -> w2 = w1).
  { intros w1 v w2. unfold infer_execution_run_mode. intros (b & w3 & Hb & Hr)%bind_inv.
    assert (w3 = w1) as -> by (revert Hb; unfold in_run_modes; by destruct (pget "run_mode" trigger); intros [= _ <-]).
    destruct b; by injection Hr. }
  apply bind_inv in Hbuild as (mode & w1 & Hmode & Hbuild).
  assert (w1 = w) as -> by (destruct (truthy _); [by injection Hmode|by eapply Hinfer]). clear Hmode.
  rewrite (bind_Ok _ _ _ true w) in Hbuild by done. rewrite (bind_Ok _ _ _ (PStr ALWAYS_ON_RUN_MODE) w) in Hbuild by done.
  rewrite (bind_Ok _ _ _ _ _ Hp) in Hbuild. injection Hbuild as <- <-.
  destruct (normalized_bounds _ _ _ _ _ Hp) as (_ & Hen & Hb & _).
  split; [done|]. split; [done|]. split; [done|].
  unfold resolve_persistent_cycle_policy. unfold pget at 1. rewrite He. cbn [default].
  pose proof (normalized_dump p w Hb Hs) as Hd. rewrite Hen in Hd.
  unfold persistent_cycle_values at 1 2, pget at 1 2 3. cbn. rewrite Hen. exact Hd.
Qed.

(** ** Runtime policies *)

Definition INT_KEYS : list string :=
  ["worker_hard_timeout_seconds"; "idle_timeout_seconds"; "run_timeout_seconds"; "codex_cli_timeout_seconds"].
Definition FLOAT_KEYS : list string := ["llm_request_timeout_seconds"; "heartbeat_interval_seconds"].

(** The values that a draft may hold. *)
Definition value_ok (key : string) (v : pyval) : Prop :=
  match v with
  | PInt n => In key INT_KEYS /\ 0 < n
  | PFloat f => In key FLOAT_KEYS /\ positive_float f
  | _ => False
  end.

Definition entries_ok (d : dict pyval) : Prop := Forall (fun kv => value_ok kv.1 kv.2) d.

(** A draft is well typed, and once a key is there it stays. *)
Definition draft_ok (d : policy_draft) : Prop :=
  entries_ok (pd_policy d) /\ forall k, In k (INT_KEYS ++ FLOAT_KEYS) -> dmem k (pd_policy d) = true.

Lemma entries_ok_dset k v d : value_ok k v -> entries_ok d -> entries_ok (dset k v d).
Proof.
  unfold entries_ok. intros Hv. induction d as [|[k0 v0] d IH]; intros Hd; cbn; [by repeat constructor|].
  inversion Hd as [|? ? H0 Hd']; subst. destruct (String.eqb_spec k k0) as [->|]; constructor; auto.
Qed.

Lemma dmem_dset k k0 (v : pyval) d : dmem k (dset k0 v d) = String.eqb k k0 || dmem k d.
Proof. unfold dmem. rewrite dget_dset. by destruct (String.eqb k k0). Qed.

(** [d'] is a draft made from [d] by adding and replacing values. *)
Definition extends (d d' : policy_draft) : Prop :=
  (entries_ok (pd_policy d) -> entries_ok (pd_policy d'))
  /\ forall k, dmem k (pd_policy d) = true -> dmem k (pd_policy d') = true.

#[export] Instance extends_preorder : PreOrder extends.
Proof. split; [by intros d|]. intros d1 d2 d3 [H1 H2] [H3 H4]. split; auto. Qed.

Lemma draft_ok_extends d d' : extends d d' -> draft_ok d -> draft_ok d'.
Proof. intros [H1 H2] [H3 H4]. split; auto. Qed.

Lemma extends_put d k src v d0 : value_ok k v -> extends d d0 -> extends d (put_value k src v d0).
Proof.
  intros Hv Hd. transitivity d0; [done|]. split; [by apply entries_ok_dset|].
  intros k' Hk. cbn. rewrite dmem_dset, Hk. apply orb_true_r.
Qed.

Lemma extends_int d k src o d0 : In k INT_KEYS -> (forall n, o = Some n -> 0 < n) ->
  extends d d0 -> extends d (put_present k src (PInt <$> o) d0).
Proof. destruct o as [n|]; [|done]. intros Hk Hn. apply extends_put. cbn. auto. Qed.

Lemma extends_float d k src o d0 : In k FLOAT_KEYS -> (forall f, o = Some f -> positive_float f) ->
  extends d d0 -> extends d (put_present k src (PFloat <$> o) d0).
Proof. destruct o as [f|]; [|done]. intros Hk Hf. apply extends_put. cbn. auto. Qed.

(** A computation on drafts that only reads the world and extends the draft. *)
Definition extending (m : policy_draft -> M policy_draft) : Prop := forall d w d' w',
  m d w = (Ok d', w') -> w' = w /\ extends d d'.

Lemma apply_values_extending values src : extending (apply_policy_values values src).
Proof.
  intros d w d' w'. unfold apply_policy_values.
  intros (o1 & w1 & [-> H1]%policy_int_bounds & Hr)%bind_inv.
  apply bind_inv in Hr as (o2 & w2 & [-> H2]%policy_int_bounds & Hr).
  apply bind_inv in Hr as (o3 & w3 & [-> H3]%policy_int_bounds & Hr).
  apply bind_inv in Hr as (o4 & w4 & [-> H4]%policy_int_bounds & Hr).
  apply bind_inv in Hr as (o5 & w5 & [-> H5]%policy_float_bounds & Hr).
  apply bind_inv in Hr as (o6 & w6 & [-> H6]%policy_float_bounds & Hr).
  injection Hr as <- <-. split; [done|].
  do 2 (apply extends_float; [cbn; tauto|done|]). do 4 (apply extends_int; [cbn; tauto|done|]). reflexivity.
Qed.

Lemma extends_fold {A} (f : policy_draft -> A -> policy_draft) l d :
  (forall x d, In x l -> extends d (f d x)) -> extends d (fold_left f l d).
Proof.
  revert d. induction l as [|x l IH]; intros d Hf; cbn; [done|].
  transitivity (f d x); [apply Hf; by left|]. apply IH. intros y d0 Hy. apply Hf. by right.
Qed.

Lemma apply_max_extending values src : extending (apply_max_policy_values values src).
Proof.
  intros d w d' w'. unfold apply_max_policy_values.
  intros (c & w1 & (-> & Hc & _)%apply_values_extending & Hr)%bind_inv. injection Hr as <- <-.
  split; [done|]. apply extends_fold. intros kv d0 Hin.
  destruct (is_none _ || num_gtb _ _); [|done]. apply extends_put; [|done].
  assert (Hok : entries_ok (pd_policy c)) by (apply Hc; constructor).
  unfold entries_ok in Hok. rewrite Forall_forall in Hok. apply Hok, list_elem_of_In, Hin.
Qed.

Lemma extending_ret : extending mret.
Proof. by intros d w d' w' [= <- <-]. Qed.

Lemma extending_bind (m k : policy_draft -> M policy_draft) :
  extending m -> extending k -> extending (fun d => m d ≫= k).
Proof.
  intros Hm Hk d w d' w' (d1 & w1 & [-> H1]%Hm & [-> H2]%Hk)%bind_inv. split; [done|]. by transitivity d1.
Qed.

Lemma extending_when {A} (o : option A) f : (forall x, extending (f x)) -> extending (when_some o f).
Proof. destruct o as [x|]; intros Hf; [exact (Hf x)|exact extending_ret]. Qed.

Lemma extending_fold {A} (f : A -> policy_draft -> M policy_draft) l :
  (forall x, extending (f x)) -> extending (fold_draft f l).
Proof.
  intros Hf. induction l as [|x l IH]; [apply extending_ret|]. by apply (extending_bind (f x) (fold_draft f l)).
Qed.

Lemma extending_members wf : extending (apply_member_maxima wf).
Proof.
  apply (extending_bind (fold_draft _ _)); apply extending_fold; intros; apply apply_max_extending.
Qed.

(** The settings are positive. *)
Definition settings_ok (s : RuntimeSettings) : Prop :=
  0 < rs_agent_run_timeout_seconds s /\ 0 < rs_agent_activity_idle_timeout_seconds s
  /\ 0 < rs_codex_cli_timeout_seconds s /\ positive_float (rs_llm_request_timeout_seconds s).

Lemma settings_draft_ok s : settings_ok s -> draft_ok (settings_draft s).
Proof.
  intros (H1 & H2 & H3 & H4). split.
  - unfold entries_ok. cbn [pd_policy settings_draft].
    repeat (apply Forall_cons_2; [split; [cbn [fst INT_KEYS FLOAT_KEYS In]; tauto|first [assumption|reflexivity]]|]).
    apply Forall_nil_2.
  - intros k Hk. by repeat destruct Hk as [<-|Hk].
Qed.

Lemma draft_ok_int d k : draft_ok d -> In k INT_KEYS -> exists n, pget k (pd_policy d) = PInt n /\ 0 < n.
Proof.
  intros [He Hm] Hk. specialize (Hm k ltac:(apply in_app_iff; by left)). unfold dmem, pget in *.
  destruct (dget k (pd_policy d)) as [v|] eqn:Hv; [|done].
  apply dget_In, list_elem_of_In in Hv. unfold entries_ok in He. rewrite Forall_forall in He.
  specialize (He _ Hv). destruct v; cbn in He; try done; [exists n; split; [done|apply He]|].
  destruct He as [Hf _]. cbn in Hk, Hf. exfalso. intuition congruence.
Qed.

Lemma draft_ok_float d k : draft_ok d -> In k FLOAT_KEYS -> exists f, pget k (pd_policy d) = PFloat f /\ positive_float f.
Proof.
  intros [He Hm] Hk. specialize (Hm k ltac:(apply in_app_iff; by right)). unfold dmem, pget in *.
  destruct (dget k (pd_policy d)) as [v|] eqn:Hv; [|done].
  apply dget_In, list_elem_of_In in Hv. unfold entries_ok in He. rewrite Forall_forall in He.
  specialize (He _ Hv). destruct v; cbn in He; try done; [|exists f; split; [done|apply He]].
  destruct He as [Hf _]. cbn in Hk, Hf. exfalso. intuition congruence.
Qed.

Lemma draft_ints_ok d k : draft_ok d -> In k INT_KEYS -> 0 < draft_int k d.
Proof. intros Hd Hk. destruct (draft_ok_int d k Hd Hk) as (n & Hn & Hp). unfold draft_int. by rewrite Hn. Qed.

Lemma draft_floats_ok d k : draft_ok d -> In k FLOAT_KEYS -> positive_float (draft_float k d).
Proof. intros Hd Hk. destruct (draft_ok_float d k Hd Hk) as (f & Hf & Hp). unfold draft_float. by rewrite Hf. Qed.

(** The run mode of an execution, as its lifecycle metadata records it. *)
Definition is_always_on (execution : option Execution) : bool :=
  match execution with
  | Some e => eq_str (pget "run_mode" (dict_or_empty (pget "execution_lifecycle" (ex_metadata e)))) ALWAYS_ON_RUN_MODE
  | None => false
  end.

Lemma pget_put_ne k k' src v d : k <> k' -> pget k (pd_policy (put_value k' src v d)) = pget k (pd_policy d).
Proof. intros Hne. unfold pget. cbn. by rewrite dget_dset_ne. Qed.

Definition HARD : string := "worker_hard_timeout_seconds".

(** Lifting the cap changes nothing else. *)
Lemma lift_spec execution d :
  (forall k, k <> HARD -> pget k (pd_policy (lift_always_on execution d)) = pget k (pd_policy d))
  /\ (lift_always_on execution d = d
      \/ is_always_on execution = true /\ dget HARD (pd_sources d) = Some "settings"
         /\ pget HARD (pd_policy (lift_always_on execution d)) = PNone
         /\ dget HARD (pd_sources (lift_always_on execution d)) = Some "execution_lifecycle.always_on").
Proof.
  unfold lift_always_on. destruct (_ && _) eqn:Hb; [|by split; [|left]].
  apply andb_prop in Hb as [Hm Hs]. split; [intros k Hk; by apply pget_put_ne|]. right.
  split; [|split; [|split]].
  - destruct execution as [e|]; [exact Hm|done].
  - unfold opt_eqb in Hs. destruct (dget _ _) as [s|] eqn:Hd; [|done]. apply String.eqb_eq in Hs. by subst.
  - unfold pget. cbn. by rewrite dget_dset_eq.
  - cbn. by rewrite dget_dset_eq.
Qed.

(** ** The hard limit

    The limit that a source gives: the first true value of four names (the last
    one as it is), when it parses to a positive number. *)

Definition HARD_NAMES : list string :=
  ["worker_hard_timeout_seconds"; "execution_timeout_seconds"; "agent_run_timeout_seconds"; "run_timeout_seconds"].

Definition given_limit (values : dict pyval) : option Z :=
  match policy_int (first_of HARD_NAMES values) empty_world with (Ok o, _) => o | _ => None end.

Definition given_by {A} (values : A -> dict pyval) (o : option A) : option Z :=
  match o with Some x => given_limit (values x) | None => None end.

Definition raised (cap : Z) (o : option Z) : Z := match o with Some n => Z.max cap n | None => cap end.
Definition overridden (cap : Z) (o : option Z) : Z := default cap o.
Definition absent (o : option Z) : bool := match o with Some _ => false | None => true end.

(** The reference: the settings or the workflow set a cap, the members raise it,
    the last override replaces it.  An always-on execution has no limit when
    nothing but the settings gave it one. *)
Definition reference_limit (settings : Z) (always_on : bool) (workflow : option Z)
    (members overrides : list (option Z)) : option Z :=
  let cap := fold_left raised members (default settings workflow) in
  if always_on && (absent workflow && (cap =? settings) && forallb absent overrides) then None
  else Some (fold_left overridden overrides cap).

(** A computation that neither reads nor changes the world. *)
Definition worldless {A} (m : M A) : Prop := exists o, forall w, m w = (o, w).

Lemma worldless_ret {A} (a : A) : worldless (mret a).
Proof. by exists (Ok a). Qed.
Lemma worldless_raise {A} k s : worldless (raise (A:=A) k s).
Proof. by eexists. Qed.
Lemma worldless_bind {A B} (m : M A) (f : A -> M B) :
  worldless m -> (forall a, worldless (f a)) -> worldless (m ≫= f).
Proof.
  intros [[a|e] Hm] Hf; [destruct (Hf a) as [o Ho]; exists o|exists (Raise e)];
    intros w; rewrite bind_unfold, Hm; [apply Ho|done].
Qed.

Lemma worldless_same {A} (m : M A) w1 w2 a w : worldless m -> m w1 = (Ok a, w) -> m w2 = (Ok a, w2).
Proof. intros [o Ho]. rewrite !Ho. by intros [= -> <-]. Qed.

Create HintDb worldless.
#[export] Hint Resolve worldless_ret worldless_raise : worldless.
Ltac worldless :=
  repeat first [ solve [auto with worldless] | apply worldless_bind; [|intros ?] | progress case_match ].

Lemma worldless_try_float v : worldless (try_float v).
Proof. unfold try_float, float_overflow. worldless. Qed.
#[export] Hint Resolve worldless_try_float : worldless.
Lemma worldless_policy_int v : worldless (policy_int v).
Proof. unfold policy_int. worldless. Qed.
Lemma worldless_policy_float v : worldless (policy_float v).
Proof. unfold policy_float. worldless. Qed.
#[export] Hint Resolve worldless_policy_int worldless_policy_float : worldless.
Lemma worldless_apply_values values src d : worldless (apply_policy_values values src d).
Proof. unfold apply_policy_values. worldless. Qed.
#[export] Hint Resolve worldless_apply_values : worldless.
Lemma worldless_apply_max values src d : worldless (apply_max_policy_values values src d).
Proof. unfold apply_max_policy_values. worldless. Qed.
#[export] Hint Resolve worldless_apply_max : worldless.
Lemma worldless_fold {A} (f : A -> policy_draft -> M policy_draft) l d :
  (forall x d, worldless (f x d)) -> worldless (fold_draft f l d).
Proof. intros Hf. revert d. induction l as [|x l IH]; intros d; cbn; worldless; auto. Qed.
#[export] Hint Resolve worldless_fold : worldless.

(** Resolving a policy neither reads nor changes the world. *)
Lemma worldless_runtime_policy s g wf e t a b : worldless (resolve_execution_runtime_policy s g wf e t a b).
Proof. unfold resolve_execution_runtime_policy, when_some, apply_member_maxima. worldless. Qed.

(** Neither does building the lifecycle metadata. *)
Lemma worldless_jitter v : worldless (jitter_ratio v).
Proof. unfold jitter_ratio. worldless. Qed.
Lemma worldless_optional_int v : worldless (optional_positive_int v).
Proof. unfold optional_positive_int. worldless. Qed.
#[export] Hint Resolve worldless_jitter worldless_optional_int : worldless.
Lemma worldless_cycle_policy values b : worldless (normalized_persistent_cycle_policy values b).
Proof. unfold normalized_persistent_cycle_policy. cbv zeta. worldless. Qed.
Lemma worldless_in_run_modes `{Env} v : worldless (in_run_modes v).
Proof. unfold in_run_modes. worldless. Qed.
#[export] Hint Resolve worldless_cycle_policy worldless_in_run_modes : worldless.
Lemma worldless_infer_run_mode `{Env} t : worldless (infer_execution_run_mode t).
Proof. unfold infer_execution_run_mode. cbv zeta. worldless. Qed.
#[export] Hint Resolve worldless_infer_run_mode : worldless.
Lemma worldless_lifecycle `{Env} t md : worldless (build_execution_lifecycle_metadata t md).
Proof. unfold build_execution_lifecycle_metadata. cbv zeta. worldless. Qed.

Lemma given_limit_read values w o w' :
  policy_int (first_of HARD_NAMES values) w = (Ok o, w') -> given_limit values = o.
Proof.
  intros Hr. unfold given_limit.
  by rewrite (worldless_same _ _ empty_world _ _ (worldless_policy_int _) Hr).
Qed.

(** The cap of a draft, and whether it comes from the settings. *)
Definition capped (d : policy_draft) (cap : Z) (from_settings : bool) : Prop :=
  pget HARD (pd_policy d) = PInt cap
  /\ opt_eqb (dget HARD (pd_sources d)) (Some "settings") = from_settings.

Lemma put_present_hard k src o d : k <> HARD ->
  pget HARD (pd_policy (put_present k src o d)) = pget HARD (pd_policy d)
  /\ dget HARD (pd_policy (put_present k src o d)) = dget HARD (pd_policy d)
  /\ dget HARD (pd_sources (put_present k src o d)) = dget HARD (pd_sources d).
Proof.
  destruct o as [v|]; [|done]. intros Hne. split; [by apply pget_put_ne|]. cbn. by rewrite !dget_dset_ne.
Qed.

(** What [apply_policy_values] does to the cap. *)
Lemma apply_values_hard values src d w d' w' : apply_policy_values values src d w = (Ok d', w') ->
  dget HARD (pd_policy d') = match given_limit values with Some n => Some (PInt n) | None => dget HARD (pd_policy d) end
  /\ dget HARD (pd_sources d') = match given_limit values with Some n => Some src | None => dget HARD (pd_sources d) end.
Proof.
  unfold apply_policy_values. intros (o1 & w1 & H1 & Hr)%bind_inv. apply given_limit_read in H1 as ->.
  do 5 (apply bind_inv in Hr as (? & ? & _ & Hr)). injection Hr as <- _.
  do 5 (match goal with |- context [put_present ?k ?src ?o ?d0] =>
          destruct (put_present_hard k src o d0 ltac:(done)) as (_ & -> & ->) end).
  destruct o1 as [n|]; [|done]. cbn. by rewrite !dget_dset_eq.
Qed.

Lemma apply_values_capped values src d w d' w' cap b : apply_policy_values values src d w = (Ok d', w') ->
  src <> "settings" -> capped d cap b ->
  capped d' (overridden cap (given_limit values)) (b && absent (given_limit values)).
Proof.
  intros [Hv Hs]%apply_values_hard Hsrc [Hc Hb]. unfold capped, pget in *. rewrite Hv, Hs.
  destruct (given_limit values) as [n|]; cbn; [|by rewrite andb_true_r]. split; [done|].
  rewrite andb_false_r. by apply String.eqb_neq.
Qed.

Lemma apply_values_NoDup values src d w d' w' : apply_policy_values values src d w = (Ok d', w') ->
  NoDup (dkeys (pd_policy d)) -> NoDup (dkeys (pd_policy d')).
Proof.
  unfold apply_policy_values. intros Hr Hd. do 6 (apply bind_inv in Hr as (? & ? & _ & Hr)). injection Hr as <- _.
  assert (Hput : forall k src o d, NoDup (dkeys (pd_policy d)) -> NoDup (dkeys (pd_policy (put_present k src o d)))).
  { intros k s [v|] d0; [|done]. apply dset_NoDup. }
  by do 6 apply Hput.
Qed.

(** A fold over the entries of a dictionary whose other entries do not matter. *)
Lemma fold_capped f (l : dict pyval) d cap b cap' b' : NoDup (dkeys l) ->
  (forall k v d c b, k <> HARD -> capped d c b -> capped (f d (k, v)) c b) ->
  (forall v, dget HARD l = Some v -> forall d, capped d cap b -> capped (f d (HARD, v)) cap' b') ->
  (dget HARD l = None -> cap' = cap /\ b' = b) ->
  capped d cap b -> capped (fold_left f l d) cap' b'.
Proof.
  intros Hnd Hother Hhard Hnone. revert d. induction l as [|[k v] l IH]; intros d Hd; cbn [fold_left].
  { by destruct (Hnone eq_refl) as [-> ->]. }
  cbn [dkeys map fst] in Hnd. apply NoDup_cons in Hnd as [Hk Hnd]. cbn [dget] in Hhard, Hnone.
  destruct (String.eqb_spec HARD k) as [<-|Hne].
  - assert (Hrest : forall l d, ~ HARD ∈ dkeys l -> capped d cap' b' -> capped (fold_left f l d) cap' b').
    { clear -Hother. induction l as [|[k v] l IH]; intros d Hk Hd; [done|]. cbn in Hk.
      apply not_elem_of_cons in Hk as [Hne Hk]. apply IH; [done|]. apply Hother; auto. }
    apply Hrest; [done|]. by apply Hhard.
  - apply IH; auto.
Qed.

Lemma apply_max_capped values src d w d' w' cap b : apply_max_policy_values values src d w = (Ok d', w') ->
  src <> "settings" -> capped d cap b ->
  capped d' (raised cap (given_limit values)) (b && (raised cap (given_limit values) =? cap)).
Proof.
  unfold apply_max_policy_values. intros (c & w1 & Hc & Hr)%bind_inv Hsrc Hd. injection Hr as <- _.
  pose proof (apply_values_NoDup _ _ _ _ _ _ Hc (NoDup_nil_2)) as Hnd.
  apply apply_values_hard in Hc as [Hv Hs]. cbn in Hv, Hs. apply (fold_capped _ _ _ cap b); auto.
  - intros k v d0 c0 b0 Hne [H1 H2]. cbn [fst snd]. destruct (is_none _ || _); [|done].
    split; [by rewrite pget_put_ne by done|]. cbn. by rewrite dget_dset_ne.
  - intros v. rewrite Hv. destruct (given_limit values) as [n|]; [|done]. intros [= <-] d0 [H1 H2]. cbn [fst snd].
    rewrite H1, Hs. cbn [is_none orb num_gtb raised]. destruct (Z.ltb_spec cap n).
    + rewrite Z.max_r, (proj2 (Z.eqb_neq n cap)), andb_false_r by lia. split; [unfold pget|]; cbn; rewrite dget_dset_eq.
      * done.
      * by apply String.eqb_neq.
    + by rewrite Z.max_l, Z.eqb_refl, andb_true_r by lia.
  - rewrite Hv. destruct (given_limit values) as [n|]; [done|]. cbn. by rewrite Z.eqb_refl, andb_true_r.
Qed.

Lemma raised_le cap o : cap <= raised cap o.
Proof. destruct o; cbn; lia. Qed.

Lemma fold_max_capped {A} (values : A -> dict pyval) (src : A -> string) l d w d' w' cap b :
  (forall x, src x <> "settings") ->
  fold_draft (fun x => apply_max_policy_values (values x) (src x)) l d w = (Ok d', w') -> capped d cap b ->
  let cap' := fold_left raised (map (fun x => given_limit (values x)) l) cap in
  cap <= cap' /\ capped d' cap' (b && (cap' =? cap)).
Proof.
  intros Hsrc. revert d w cap b. induction l as [|x l IH]; intros d w cap b Hr Hd; cbn.
  - injection Hr as <- _. split; [lia|]. by rewrite Z.eqb_refl, andb_true_r.
  - apply bind_inv in Hr as (d1 & w1 & H1 & Hr). pose proof (raised_le cap (given_limit (values x))) as Hle.
    apply (apply_max_capped _ _ _ _ _ _ _ _ H1 (Hsrc x)) in Hd. destruct (IH _ _ _ _ Hr Hd) as [Hle' Hd'].
    split; [lia|]. rewrite <-andb_assoc in Hd'. set (c1 := raised cap _) in *. set (c2 := fold_left _ _ _) in *.
    enough ((c2 =? cap) = (c1 =? cap) && (c2 =? c1)) as -> by done.
    destruct (Z.eqb_spec c2 cap), (Z.eqb_spec c1 cap), (Z.eqb_spec c2 c1); try done; lia.
Qed.

(** The draft before the environment is applied, and the result. *)
Lemma resolve_split settings getenv wf e t a maxima w p w' :
  resolve_execution_runtime_policy settings getenv wf e t a maxima w = (Ok p, w') ->
  exists d d', extends (settings_draft settings) d
    /\ apply_policy_values (environment_values getenv) "environment" d w = (Ok d', w)
    /\ w' = w /\ p = resolved_policy (lift_always_on e d').
Proof.
  unfold resolve_execution_runtime_policy.
  intros (d1 & w1 & [-> H1]%extending_when & Hr)%bind_inv; [|intros; apply apply_values_extending].
  apply bind_inv in Hr as (d2 & w2 & H2 & Hr).
  assert (w2 = w /\ extends d1 d2) as [-> H2'].
  { destruct maxima; [|by injection H2 as <- <-]. eapply extending_when, H2. apply extending_members. }
  apply bind_inv in Hr as (d3 & w3 & [-> H3]%extending_when & Hr); [|intros; apply apply_values_extending].
  apply bind_inv in Hr as (d4 & w4 & [-> H4]%extending_when & Hr); [|intros; apply apply_values_extending].
  apply bind_inv in Hr as (d5 & w5 & [-> H5]%extending_when & Hr).
  2: { intros x. apply (extending_bind (apply_policy_values _ _)); apply apply_values_extending. }
  apply bind_inv in Hr as (d6 & w6 & H6 & Hr). injection Hr as <- <-.
  pose proof (apply_values_extending _ _ _ _ _ _ H6) as [-> _].
  exists d5, d6. split; [|by split]. by transitivity d1; [|transitivity d2; [|transitivity d3; [|transitivity d4]]].
Qed.

Lemma when_capped {A} (o : option A) values src d w d' w' cap b :
  when_some o (fun x => apply_policy_values (values x) (src x)) d w = (Ok d', w') ->
  (forall x, src x <> "settings") -> capped d cap b ->
  capped d' (overridden cap (given_by values o)) (b && absent (given_by values o)).
Proof.
  destruct o as [x|]; cbn; intros Hr Hsrc Hd; [by eapply apply_values_capped|].
  injection Hr as <- _. by rewrite andb_true_r.
Qed.

(** The limits that the sources of a resolution give. *)
Definition member_limits (wf : option WorkflowDefinition) (maxima : bool) : list (option Z) :=
  match wf with
  | Some wf =>
      if maxima then map (fun t => given_limit (metadata_policy (td_metadata t))) (wf_task_definitions wf)
                       ++ map (fun a => given_limit (metadata_policy (ag_metadata a))) (wf_agent_definitions wf)
      else []
  | None => []
  end.

Definition override_limits (getenv : string -> option string) (e : option Execution)
    (t : option TaskDefinition) (a : option AgentDefinition) : list (option Z) :=
  [given_by (fun t => metadata_policy (td_metadata t)) t;
   given_by (fun a => metadata_policy (ag_metadata a)) a;
   given_by (fun e => metadata_policy (ex_trigger_payload e)) e;
   given_by (fun e => metadata_policy (ex_input_payload e)) e;
   given_limit (environment_values getenv)].

Lemma members_capped wf (maxima : bool) d w d' w' cap b :
  (if maxima then when_some wf apply_member_maxima d else mret d) w = (Ok d', w') -> capped d cap b ->
  let cap' := fold_left raised (member_limits wf maxima) cap in
  cap <= cap' /\ capped d' cap' (b && (cap' =? cap)).
Proof.
  assert (Hsame : forall d, capped d cap b -> cap <= cap /\ capped d cap (b && (cap =? cap))).
  { intros d0 Hd. split; [lia|]. by rewrite Z.eqb_refl, andb_true_r. }
  intros Hr Hd. destruct maxima; [|injection Hr as <- _; destruct wf; by apply Hsame].
  destruct wf as [wf|]; [|injection Hr as <- _; by apply Hsame]. cbn [when_some] in Hr. unfold apply_member_maxima in Hr.
  apply bind_inv in Hr as (d1 & w1 & H1 & H2). cbn [member_limits]. rewrite fold_left_app.
  apply (fold_max_capped (fun t => metadata_policy (td_metadata t)) _ _ _ _ _ _ cap b) in H1 as [Hle1 Hd1]; [|done|done].
  eapply (fold_max_capped (fun a => metadata_policy (ag_metadata a))) in H2 as [Hle2 Hd2]; [|done|exact Hd1].
  set (c1 := fold_left raised _ cap) in *. set (c2 := fold_left raised _ c1) in *. cbv zeta. split; [lia|].
  rewrite <-andb_assoc in Hd2. enough ((c2 =? cap) = (c1 =? cap) && (c2 =? c1)) as -> by done.
  destruct (Z.eqb_spec c2 cap), (Z.eqb_spec c1 cap), (Z.eqb_spec c2 c1); try done; lia.
Qed.

(** The draft of a resolution that returns, and the cap in it. *)
Lemma resolve_capped settings getenv wf e t a maxima w p w' :
  resolve_execution_runtime_policy settings getenv wf e t a maxima w = (Ok p, w') ->
  let workflow := given_by (fun wf => metadata_policy (wf_metadata wf)) wf in
  let S := rs_agent_run_timeout_seconds settings in
  let cap := fold_left raised (member_limits wf maxima) (default S workflow) in
  let overrides := override_limits getenv e t a in
  exists d, p = resolved_policy (lift_always_on e d)
    /\ capped d (fold_left overridden overrides cap) (absent workflow && (cap =? S) && forallb absent overrides).
Proof.
  unfold resolve_execution_runtime_policy. intros (d1 & w1 & H1 & Hr)%bind_inv. cbv zeta.
  apply (when_capped wf (fun wf => metadata_policy (wf_metadata wf)) _ _ _ _ _
    (rs_agent_run_timeout_seconds settings) true) in H1; [|done|by split].
  apply bind_inv in Hr as (d2 & w2 & H2 & Hr). pose proof (members_capped _ _ _ _ _ _ _ _ H2 H1) as [_ Hd2].
  apply bind_inv in Hr as (d3 & w3 & H3 & Hr).
  eapply (when_capped t (fun t => metadata_policy (td_metadata t))) in H3; [|done|exact Hd2]. clear Hd2. rename H3 into Hd2.
  apply bind_inv in Hr as (d4 & w4 & H4 & Hr).
  eapply (when_capped a (fun a => metadata_policy (ag_metadata a))) in H4; [|done|exact Hd2]. clear Hd2. rename H4 into Hd2.
  apply bind_inv in Hr as (d5 & w5 & H5 & Hr). apply bind_inv in Hr as (d6 & w6 & H6 & Hr). injection Hr as <- _.
  exists d6. split; [done|]. unfold overridden in *. cbn [andb] in Hd2.
  set (workflow := given_by _ wf) in *. set (S := rs_agent_run_timeout_seconds settings) in *.
  set (cap := fold_left raised _ _) in *.
  assert (Hcap : absent workflow && (cap =? default S workflow) = absent workflow && (cap =? S))
    by by destruct workflow.
  rewrite Hcap in Hd2. cbn [override_limits fold_left forallb]. rewrite andb_true_r, !andb_assoc.
  destruct e as [e|].
  - apply bind_inv in H5 as (d7 & w7 & H7 & H5).
    apply (apply_values_capped _ _ _ _ _ _ _ _ H7 ltac:(done)) in Hd2.
    apply (apply_values_capped _ _ _ _ _ _ _ _ H5 ltac:(done)) in Hd2.
    by apply (apply_values_capped _ _ _ _ _ _ _ _ H6 ltac:(done)) in Hd2.
  - injection H5 as <- _. cbn [given_by absent from_option]. rewrite !andb_true_r.
    by apply (apply_values_capped _ _ _ _ _ _ _ _ H6 ltac:(done)) in Hd2.
Qed.

(** The limit that is left when an always-on execution is freed of the settings' cap. *)
Lemma lifted_limit e d settings workflow members overrides :
  let cap := fold_left raised members (default settings workflow) in
  capped d (fold_left overridden overrides cap) (absent workflow && (cap =? settings) && forallb absent overrides) ->
  rp_worker_hard_timeout_seconds (resolved_policy (lift_always_on e d)) =
    reference_limit settings (is_always_on e) workflow members overrides.
Proof.
  intros cap [Hv Hb]. unfold lift_always_on, reference_limit. fold cap. unfold HARD in Hv, Hb. rewrite Hb.
  assert (Hm : is_always_on e = eq_str (pget "run_mode"
    match e with Some e => dict_or_empty (pget "execution_lifecycle" (ex_metadata e)) | None => [] end) ALWAYS_ON_RUN_MODE)
    by by destruct e.
  rewrite <-Hm. destruct (is_always_on e && _); cbn; [unfold pget; by rewrite dget_dset_eq|by rewrite Hv].
Qed.

(** C16. A resolved runtime policy is well typed and its hard limit is the one
    of the reference.  Whatever the metadata, the payloads and the environment
    hold, with positive settings every timeout of a policy that is returned is a
    positive number of its type.  The hard limit of a worker is given by the last
    of task, agent, trigger, input and environment that has one, else it is the
    workflow's limit (or that of the settings) raised to the largest of its
    members; it is missing exactly when the execution is always-on and neither an
    override nor the workflow gives a limit nor a member exceeds that of the
    settings. *)
Theorem runtime_policy_positive settings getenv wf e t a maxima w p w' :
  settings_ok settings ->
  resolve_execution_runtime_policy settings getenv wf e t a maxima w = (Ok p, w') ->
  0 < rp_idle_timeout_seconds p /\ 0 < rp_run_timeout_seconds p /\ 0 < rp_codex_cli_timeout_seconds p
  /\ positive_float (rp_llm_request_timeout_seconds p) /\ positive_float (rp_heartbeat_interval_seconds p)
  /\ rp_worker_hard_timeout_seconds p =
       reference_limit (rs_agent_run_timeout_seconds settings) (is_always_on e)
         (given_by (fun wf => metadata_policy (wf_metadata wf)) wf) (member_limits wf maxima)
         (override_limits getenv e t a)
  /\ forall n, rp_worker_hard_timeout_seconds p = Some n -> 0 < n.
Proof.
  intros Hs Hr. pose proof Hr as (d0 & Hp0 & Hcap & Hb)%resolve_capped. cbv zeta in Hcap, Hb.
  apply resolve_split in Hr as (d & d' & Hd & [_ Hd']%apply_values_extending & _ & ->).
  assert (Hok : draft_ok d').
  { eapply draft_ok_extends; [exact Hd'|]. eapply draft_ok_extends; [exact Hd|]. by apply settings_draft_ok. }
  destruct (lift_spec e d') as [Hsame Hlift].
  assert (Hint : forall k, k <> HARD -> In k INT_KEYS -> 0 < draft_int k (lift_always_on e d')).
  { intros k Hne Hk. unfold draft_int. rewrite (Hsame k Hne). by apply draft_ints_ok. }
  assert (Hfloat : forall k, k <> HARD -> In k FLOAT_KEYS -> positive_float (draft_float k (lift_always_on e d'))).
  { intros k Hne Hk. unfold draft_float. rewrite (Hsame k Hne). by apply draft_floats_ok. }
  do 3 (split; [apply Hint; [done|cbn; tauto]|]). do 2 (split; [apply Hfloat; [done|cbn; tauto]|]). split.
  - rewrite Hp0. apply lifted_limit. by split.
  - intros n Hn. destruct Hlift as [Heq|(_ & _ & Hnone & _)].
    + destruct (draft_ok_int d' HARD Hok) as (m & Hm & Hpos); [cbn; tauto|].
      rewrite Heq in Hn. cbn in Hn. unfold HARD in Hm. rewrite Hm in Hn. by injection Hn as <-.
    + cbn in Hn. unfold HARD in Hnone. by rewrite Hnone in Hn.
Qed.

(** The environment has the last word: when the process is given a hard
    timeout that parses to [n], the resolved policy of any workflow, execution,
    task and agent has the limit [n] and names the environment as its source;
    always-on executions are no exception. *)
Theorem environment_wins settings getenv wf e t a maxima n w p w' :
  policy_int (opt_str (getenv "AGENCY_EXECUTION_TIMEOUT_SECONDS")) w = (Ok (Some n), w) ->
  resolve_execution_runtime_policy settings getenv wf e t a maxima w = (Ok p, w') ->
  rp_worker_hard_timeout_seconds p = Some n /\ dget HARD (rp_source_map p) = Some "environment".
Proof.
  intros Henv (d & d' & _ & Hd' & _ & ->)%resolve_split.
  assert (H1 : pget HARD (pd_policy d') = PInt n /\ dget HARD (pd_sources d') = Some "environment").
  { unfold apply_policy_values in Hd'. apply bind_inv in Hd' as (o1 & w1 & H1 & Hr).
    assert (o1 = Some n /\ w1 = w) as [-> ->].
    { cbn [first_of environment_values pget dget String.eqb Ascii.eqb Bool.eqb from_option id] in H1.
      destruct (getenv "AGENCY_EXECUTION_TIMEOUT_SECONDS") as [s|]; [|done].
      destruct s as [|ch s]; [done|]. change (py_or (opt_str (Some (String ch s))) _) with (PStr (String ch s)) in H1.
      cbn [opt_str] in Henv. rewrite Henv in H1. by injection H1. }
    apply bind_inv in Hr as (o2 & w2 & [-> _]%policy_int_bounds & Hr).
    apply bind_inv in Hr as (o3 & w3 & [-> _]%policy_int_bounds & Hr).
    apply bind_inv in Hr as (o4 & w4 & [-> _]%policy_int_bounds & Hr).
    apply bind_inv in Hr as (o5 & w5 & [-> _]%policy_float_bounds & Hr).
    apply bind_inv in Hr as (o6 & w6 & [-> _]%policy_float_bounds & Hr). injection Hr as <-.
    do 5 (match goal with |- context [put_present ?k ?src ?o ?d0] =>
            destruct (put_present_hard k src o d0 ltac:(done)) as (-> & _ & ->) end).
    split; [unfold pget|]; cbn; by rewrite dget_dset_eq. }
  destruct H1 as [Hv Hs]. destruct (lift_spec e d') as [_ [Heq|(_ & Hset & _)]]; [|congruence].
  rewrite Heq. unfold resolved_policy. cbn. unfold HARD in *. by rewrite Hv.
Qed.
