(* ===== verification/Triggers.v ===== *)
(** * When a schedule fires next

    [app/scheduler/triggers.py]: the cron fields, the search for the next minute
    that they match, and the next fire of a schedule; with [ScheduleType] and
    [ScheduleDefinition] of [app/domain/schedules.py] as data.

    The time zone database is not part of the program: [Zones] gives for a name
    the wall time of an instant and the instant of a wall time.  The wall times
    of one zone are compared and advanced without regard to offsets, as Python
    does with two datetimes of the same zone. *)

From Corelib Require Import SpecFloat.
From S2P Require Export Floats World.

(** ** Pure computations that may raise *)

Definition res (A : Type) : Type := (exn + A)%type.
#[export] Instance res_ret : MRet res := fun A a => inr a.
#[export] Instance res_bind : MBind res := fun A B f m =>
  match m with inl e => inl e | inr a => f a end.

Definition throw {A} (k : exn_class) (msg : string) : res A := inl (mkExn k msg).

(** The computation as a step of a handler. *)
Definition of_res {A} (r : res A) : M A :=
  match r with inl e => reraise e | inr a => mret a end.

Lemma evolves_of_res (R : world -> world -> Prop) `{!PreOrder R} {A} (r : res A) : evolves R (of_res r).
Proof. intros w. by destruct r. Qed.
#[export] Hint Resolve evolves_of_res : evolve.

(** ** Integers from values ([int]) *)

Definition int_text (s : string) : res Z :=
  match int_of_text s with
  | IntValue n => mret n
  | _ => throw ValueError ("invalid literal for int() with base 10: " +:+ repr_str s)
  end.

(** [int(v)], with the exception it raises. *)
Definition int_value (v : pyval) : res Z :=
  match v with
  | PStr s => int_text s
  | PNone | PList _ | PDict _ => throw TypeError "int() argument must be a string or a real number"
  | _ =>
      match py_int v with
      | IntValue n => mret n
      | IntInvalid => throw ValueError "cannot convert float NaN to integer"
      | IntOverflow => throw OverflowError "cannot convert float infinity to integer"
      end
  end.

(** [s.split()]: the words between white space. *)
Fixpoint split_words_aux (l : list ascii) (acc : list ascii) : list string :=
  let flush rest := match acc with [] => rest | _ => string_of_list_ascii (rev acc) :: rest end in
  match l with
  | [] => flush []
  | c :: l' => if is_space c then flush (split_words_aux l' []) else split_words_aux l' (c :: acc)
  end.
Definition split_words (s : string) : list string := split_words_aux (list_ascii_of_string s) [].

(** [s[n:]] *)
Definition str_drop (n : nat) (s : string) : string :=
  string_of_list_ascii (drop n (list_ascii_of_string s)).

(** ** Cron fields *)

(** [_match_field] on an expression without alternatives. *)
Definition match_part (value : Z) (expr : string) (minimum : Z) : res bool :=
  if String.eqb expr "*" then mret true
  else if starts_with "*/" expr then
    step ← int_text (str_drop 2 expr);
    if step =? 0 then throw ZeroDivisionError "integer modulo by zero"
    else mret ((value - minimum) mod step =? 0)
  else n ← int_text expr; mret (value =? n).

(** [any(...)] over the alternatives, which hold no comma: it stops at the first
    that matches. *)
Fixpoint match_any (value minimum : Z) (parts : list string) : res bool :=
  match parts with
  | [] => mret false
  | part :: rest =>
      b ← match_part value (py_strip part) minimum;
      if (b : bool) then mret true else match_any value minimum rest
  end.

Definition has_alternatives (expr : string) : bool :=
  negb (String.eqb expr "*") && negb (starts_with "*/" expr) && contains "," expr.

(** [_match_field] *)
Definition match_field (value : Z) (expr : string) (minimum : Z) : res bool :=
  if has_alternatives expr then match_any value minimum (split_char "," expr)
  else match_part value expr minimum.

(** ** The next minute that a cron expression matches *)

Definition us_per_minute : Z := 60 * us_per_second.

(** Minute, hour, day of the month, month and day of the week (Sunday is 0) of a
    wall time. *)
Definition wall_fields (t : Z) : list (Z * Z) :=
  let days := t / us_per_day in
  let minutes := (t mod us_per_day) / us_per_minute in
  let '(_, month, day) := civil_of_days days in
  [(minutes mod 60, 0); (minutes / 60, 0); (day, 1); (month, 1); (((days + 3) mod 7 + 1) mod 7, 0)].

(** The conjunction over the five fields; [and] stops at the first that fails. *)
Fixpoint match_fields (values : list (Z * Z)) (exprs : list string) : res bool :=
  match values, exprs with
  | (value, minimum) :: values', expr :: exprs' =>
      b ← match_field value expr minimum;
      if (b : bool) then match_fields values' exprs' else mret false
  | _, _ => mret true
  end.

Definition cron_window : Z := 366 * us_per_day.
Definition cron_fuel : nat := Z.to_nat (366 * 1440 + 2).

(** [while candidate <= limit]; [None]: out of fuel. *)
Fixpoint cron_search (fuel : nat) (exprs : list string) (candidate limit : Z) : option (res (option Z)) :=
  match fuel with
  | O => None
  | S fuel' =>
      if candidate <=? limit then
        match match_fields (wall_fields candidate) exprs with
        | inl e => Some (inl e)
        | inr true => Some (inr (Some candidate))
        | inr false => cron_search fuel' exprs (candidate + us_per_minute) limit
        end
      else Some (inr None)
  end.

(** ** Time zones *)

Inductive zone_lookup :=
  | Zone (to_local to_utc : Z -> Z) (* [astimezone(zone)], [candidate.astimezone(utc)] *)
  | ZoneNotFound (* ZoneInfoNotFoundError *)
  | ZoneError (e : exn). (* a malformed key, an unreadable file *)

Class Zones := zone_info : string -> zone_lookup.

(** The database knows UTC. *)
Class ZonesLaws `{Zones} : Prop := zone_utc : zone_info "UTC" = Zone (fun t => t) (fun t => t).

Section Triggers.
Context `{Zones}.

Definition zone_or_utc (timezone_name : string) : res ((Z -> Z) * (Z -> Z)) :=
  let found z := match z with
                 | Zone to_local to_utc => mret (to_local, to_utc)
                 | ZoneNotFound => throw KeyError "No time zone found with key UTC"
                 | ZoneError e => inl e
                 end in
  match zone_info timezone_name with
  | ZoneNotFound => found (zone_info "UTC")
  | z => found z
  end.

(** [next_cron_fire] *)
Definition next_cron_fire (cron_expression : string) (now : Z) (timezone_name : string) : res Z :=
  let exprs := split_words cron_expression in
  if negb (List.length exprs =? 5)%nat then throw ValueError "wrong number of values to unpack (expected 5)"
  else
    '(to_local, to_utc) ← zone_or_utc timezone_name;
    let local_now := to_local now in
    let candidate := local_now - local_now mod us_per_minute + us_per_minute in
    let limit := candidate + cron_window in
    if MAX_TIMESTAMP <? limit then throw OverflowError "date value out of range"
    else
      match cron_search cron_fuel exprs candidate limit with
      | None => throw RuntimeError "out of fuel"
      | Some (inl e) => inl e
      | Some (inr (Some t)) => mret (to_utc t)
      | Some (inr None) =>
          throw ValueError ("Unable to compute next fire time for cron '" +:+ cron_expression +:+ "'")
      end.
End Triggers.

(** ** Schedules ([app/domain/schedules.py]) *)

Inductive ScheduleType :=
  | MANUAL | CRON | INTERVAL | WEBHOOK | FILE_CREATED | EMAIL_RECEIVED | DATABASE_POLL | EVENT_MATCH.
#[export] Instance ScheduleType_eq_dec : EqDecision ScheduleType.
Proof. solve_decision. Defined.

Definition schedule_type_value (t : ScheduleType) : string :=
  match t with
  | MANUAL => "manual"
  | CRON => "cron"
  | INTERVAL => "interval"
  | WEBHOOK => "webhook"
  | FILE_CREATED => "file_created"
  | EMAIL_RECEIVED => "email_received"
  | DATABASE_POLL => "database_poll"
  | EVENT_MATCH => "event_match"
  end.

Definition all_schedule_types : list ScheduleType :=
  [MANUAL; CRON; INTERVAL; WEBHOOK; FILE_CREATED; EMAIL_RECEIVED; DATABASE_POLL; EVENT_MATCH].

(** [ScheduleType(s)] *)
Definition schedule_type_of (s : string) : option ScheduleType :=
  List.find (fun t => String.eqb (schedule_type_value t) s) all_schedule_types.

(** [ScheduleDefinition] *)
Record ScheduleDefinition := mkSchedule {
  sd_id : string;
  sd_name : string;
  sd_workflow_id : string;
  sd_enabled : bool;
  sd_trigger_type : ScheduleType;
  sd_trigger_config : dict pyval;
  sd_input_template : dict pyval;
  sd_runtime_adapter_override : option string;
  sd_max_concurrent_executions : Z;
  sd_timezone : string;
  sd_next_fire_at : option Z;
  sd_last_fire_at : option Z;
  sd_metadata : dict pyval
}.

(** [TriggerComputation] *)
Record TriggerComputation := mkTrigger { tc_next_fire_at : option Z; tc_ready : bool }.

(** [d + timedelta(seconds=n)] *)
Definition MIN_TIMESTAMP : Z := - 62135596800 * us_per_second.
Definition add_seconds (t n : Z) : res Z :=
  if MAX_DELTA_DAYS <? Z.abs (n / 86400) then throw OverflowError "days; must have magnitude <= 999999999"
  else
    let t' := t + n * us_per_second in
    if (t' <? MIN_TIMESTAMP) || (MAX_TIMESTAMP <? t') then throw OverflowError "date value out of range"
    else mret t'.

(** [compute_next_fire]; [trigger_config[k]] raises when the key is absent. *)
Definition config_item (s : ScheduleDefinition) (k : string) : res pyval :=
  match dget k (sd_trigger_config s) with Some v => mret v | None => throw KeyError k end.

Definition due (now : Z) (o : option Z) : bool :=
  match o with Some t => t <=? now | None => false end.

Definition compute_next_fire `{Zones} (s : ScheduleDefinition) (now : Z) : res TriggerComputation :=
  if negb (sd_enabled s) then mret (mkTrigger None false)
  else match sd_trigger_type s with
       | MANUAL => mret (mkTrigger None false)
       | CRON =>
           cron ← config_item s "cron";
           match cron with
           | PStr expression =>
               next_fire ← next_cron_fire expression now (sd_timezone s);
               mret (mkTrigger (Some next_fire) (due now (sd_next_fire_at s)))
           | _ => throw AttributeError "object has no attribute 'split'"
           end
       | INTERVAL =>
           v ← config_item s "interval_seconds";
           interval_seconds ← int_value v;
           match sd_last_fire_at s with
           | None =>
               let next_fire := default now (sd_next_fire_at s) in
               mret (mkTrigger (Some next_fire) (next_fire <=? now))
           | Some last_fire =>
               next_fire ← add_seconds last_fire interval_seconds;
               mret (mkTrigger (Some next_fire) (next_fire <=? now))
           end
       | _ => mret (mkTrigger (sd_next_fire_at s) false)
       end.

(** * What the cron search computes

    A reference reading of cron fields as sets of values, and the correctness of
    [next_cron_fire] against it: the result is the first matching minute of the
    366 days after now, in the wall time of the zone. *)

(** ** A reference semantics of cron fields *)

Inductive cron_item := CronAny | CronStep (step : Z) | CronExact (n : Z).

Definition item_matches (value minimum : Z) (it : cron_item) : bool :=
  match it with
  | CronAny => true
  | CronStep step => (value - minimum) mod step =? 0
  | CronExact n => value =? n
  end.

Definition read_int (s : string) : option Z := match int_of_text s with IntValue n => Some n | _ => None end.

Definition read_item (expr : string) : option cron_item :=
  if String.eqb expr "*" then Some CronAny
  else if starts_with "*/" expr then
    step ← read_int (str_drop 2 expr); if step =? 0 then None else Some (CronStep step)
  else CronExact <$> read_int expr.

(** A field is a list of alternatives. *)
Definition field_items (expr : string) : option (list cron_item) :=
  if has_alternatives expr then mapM (fun part => read_item (py_strip part)) (split_char "," expr)
  else (fun it => [it]) <$> read_item expr.

(** The five fields of a well-formed expression. *)
Definition read_cron (cron_expression : string) : option (list (list cron_item)) :=
  let exprs := split_words cron_expression in
  if (List.length exprs =? 5)%nat then mapM field_items exprs else None.

Fixpoint all_match (values : list (Z * Z)) (fields : list (list cron_item)) : bool :=
  match values, fields with
  | (value, minimum) :: values', items :: fields' =>
      existsb (item_matches value minimum) items && all_match values' fields'
  | _, _ => true
  end.

(** A wall time that the fields allow. *)
Definition cron_allows (fields : list (list cron_item)) (t : Z) : bool := all_match (wall_fields t) fields.

(** ** The fields are read as the reference reads them *)

Lemma match_part_items value minimum expr it :
  read_item expr = Some it -> match_part value expr minimum = inr (item_matches value minimum it).
Proof.
  unfold read_item, match_part, int_text, read_int. destruct (String.eqb _ _); [by intros [= <-]|].
  destruct (starts_with _ _).
  - destruct (int_of_text _) as [step| |]; [|done|done]. cbn.
    destruct (step =? 0); [done|]. by intros [= <-].
  - destruct (int_of_text _) as [n| |]; [|done|done]. cbn. by intros [= <-].
Qed.

Lemma match_any_items value minimum parts items :
  mapM (fun part => read_item (py_strip part)) parts = Some items ->
  match_any value minimum parts = inr (existsb (item_matches value minimum) items).
Proof.
  revert items. induction parts as [|part parts IH]; intros items Hitems; simpl in Hitems.
  - by injection Hitems as <-.
  - destruct (read_item (py_strip part)) as [it|] eqn:Hit; [|done]. cbn in Hitems.
    destruct (mapM _ parts) as [its|]; [|done]. cbn in Hitems. injection Hitems as <-.
    cbn [match_any existsb]. rewrite (match_part_items value minimum _ _ Hit). cbn.
    destruct (item_matches value minimum it); [done|]. by apply IH.
Qed.

Lemma match_field_items value minimum expr items :
  field_items expr = Some items ->
  match_field value expr minimum = inr (existsb (item_matches value minimum) items).
Proof.
  unfold field_items, match_field. destruct (has_alternatives expr); [apply match_any_items|].
  destruct (read_item expr) as [it|] eqn:Hit; [|done]. cbn. intros [= <-].
  rewrite (match_part_items _ _ _ _ Hit). cbn. by rewrite orb_false_r.
Qed.

Lemma match_fields_items values exprs fields :
  mapM field_items exprs = Some fields ->
  match_fields values exprs = inr (all_match values fields).
Proof.
  revert values fields. induction exprs as [|expr exprs IH]; intros values fields Hf; simpl in Hf.
  - injection Hf as <-. by destruct values as [|[value minimum] values].
  - destruct (field_items expr) as [items|] eqn:Hitems; [|done]. cbn in Hf.
    destruct (mapM _ exprs) as [fs|] eqn:Hfs; [|done]. cbn in Hf. injection Hf as <-.
    destruct values as [|[value minimum] values]; [done|]. cbn [match_fields all_match].
    rewrite (match_field_items value minimum _ _ Hitems). cbn.
    destruct (existsb _ _); [|done]. by rewrite (IH values fs).
Qed.

(** ** The search *)

(** The minutes of a window: [k] minutes after its start. *)
Lemma cron_search_finds exprs fields limit fuel candidate :
  mapM field_items exprs = Some fields ->
  candidate <= limit + us_per_minute ->
  limit - candidate < (Z.of_nat fuel - 1) * us_per_minute ->
  exists found, cron_search fuel exprs candidate limit = Some (inr found)
    /\ match found with
       | Some t => exists k, 0 <= k /\ t = candidate + k * us_per_minute /\ t <= limit
                   /\ cron_allows fields t = true
                   /\ forall j, 0 <= j < k -> cron_allows fields (candidate + j * us_per_minute) = false
       | None => forall j, 0 <= j -> candidate + j * us_per_minute <= limit ->
                   cron_allows fields (candidate + j * us_per_minute) = false
       end.
Proof.
  intros Hf. assert (Hm : 0 < us_per_minute) by reflexivity.
  revert candidate. induction fuel as [|fuel IH]; intros candidate Hle Hfuel; [lia|]. cbn [cron_search].
  destruct (candidate <=? limit) eqn:Hin; [|exists None; split; [done|intros; nia]].
  rewrite (match_fields_items _ _ _ Hf). change (all_match _ fields) with (cron_allows fields candidate).
  destruct (cron_allows fields candidate) eqn:Hc.
  - exists (Some candidate). split; [done|]. exists 0. rewrite Z.mul_0_l, Z.add_0_r.
    repeat split; [lia|lia|done|]. intros j Hj. lia.
  - assert (Hnext : forall j, 0 <= j ->
      (forall j', 0 <= j' < j -> cron_allows fields (candidate + us_per_minute + j' * us_per_minute) = false) ->
      forall j', 0 <= j' < j + 1 -> cron_allows fields (candidate + j' * us_per_minute) = false).
    { intros j Hj Hall j' Hj'. destruct (decide (j' = 0)) as [->|Hne].
      - by rewrite Z.mul_0_l, Z.add_0_r.
      - replace (candidate + _) with (candidate + us_per_minute + (j' - 1) * us_per_minute) by ring.
        apply Hall. lia. }
    destruct (IH (candidate + us_per_minute)) as (found & Hs & Hfound); [lia|lia|].
    exists found. split; [exact Hs|]. destruct found as [t|].
    + destruct Hfound as (k & Hk & -> & Hlim & Hall & Hmin). exists (k + 1).
      repeat split; [lia|ring|done|done|by apply Hnext].
    + intros j Hj Hlim. apply (Hnext j Hj); [|lia]. intros j' Hj'. apply Hfound; [lia|nia].
Qed.

(** ** The next fire *)

(** The first minute after a wall time. *)
Definition next_minute (t : Z) : Z := t - t mod us_per_minute + us_per_minute.

Lemma next_minute_bounds t : t < next_minute t <= t + us_per_minute /\ next_minute t mod us_per_minute = 0.
Proof.
  unfold next_minute. assert (Hm : 0 < us_per_minute) by reflexivity.
  pose proof (Z.mod_pos_bound t _ Hm). split; [lia|].
  rewrite (Z.div_mod t us_per_minute) at 1 by lia.
  replace (us_per_minute * (t / us_per_minute) + t mod us_per_minute - t mod us_per_minute + us_per_minute)
    with ((t / us_per_minute + 1) * us_per_minute) by ring.
  apply Z.mod_mul. lia.
Qed.

(** Every whole minute after [t] is a number of minutes after [next_minute t]. *)
Lemma minutes_after t c :
  t < c -> c mod us_per_minute = 0 -> exists j, 0 <= j /\ c = next_minute t + j * us_per_minute.
Proof.
  intros Hlt Hc. unfold next_minute. assert (Hm : 0 < us_per_minute) by reflexivity.
  pose proof (Z.div_mod t us_per_minute). pose proof (Z.div_mod c us_per_minute).
  pose proof (Z.mod_pos_bound t _ Hm).
  exists (c / us_per_minute - t / us_per_minute - 1). split; nia.
Qed.

Section NextFire.
Context `{Zones}.

(** C11. On a well-formed cron expression [next_cron_fire] returns the first whole
    minute after now, in the wall time of the zone, that the five fields allow,
    looking 366 days ahead; when none is allowed in that window, and only then, it
    raises a [ValueError].  The search never runs out of fuel. *)
Theorem cron_next_fire_exact cron fields now timezone_name to_local to_utc :
  read_cron cron = Some fields -> zone_info timezone_name = Zone to_local to_utc ->
  to_local now + us_per_minute + cron_window <= MAX_TIMESTAMP ->
  match next_cron_fire cron now timezone_name with
  | inr t => exists c, t = to_utc c /\ to_local now < c /\ c mod us_per_minute = 0
             /\ c <= to_local now + us_per_minute + cron_window /\ cron_allows fields c = true
             /\ forall c', to_local now < c' < c -> c' mod us_per_minute = 0 -> cron_allows fields c' = false
  | inl e => exn_kind e = ValueError
             /\ forall c', to_local now < c' <= to_local now + cron_window -> c' mod us_per_minute = 0 ->
                  cron_allows fields c' = false
  end.
Proof.
  unfold read_cron, next_cron_fire. intros Hread Hzone Hmax.
  destruct (_ =? 5)%nat; [|done]. cbn [negb]. unfold zone_or_utc. rewrite Hzone. cbn.
  fold (next_minute (to_local now)). destruct (next_minute_bounds (to_local now)) as [Hn Hmod].
  replace (MAX_TIMESTAMP <? _) with false by (symmetry; apply Z.ltb_ge; lia).
  assert (Hm : 0 < us_per_minute) by reflexivity.
  destruct (cron_search_finds _ _ (next_minute (to_local now) + cron_window) cron_fuel
              (next_minute (to_local now)) Hread) as (found & -> & Hfound);
    [unfold cron_window, us_per_day, us_per_second; lia
    |unfold cron_fuel, cron_window, us_per_day, us_per_minute, us_per_second; lia|].
  destruct found as [t|]; cbn.
  - destruct Hfound as (k & Hk & -> & Hlim & Hall & Hmin). eexists. split; [reflexivity|].
    repeat split; [nia|by rewrite Z_mod_plus_full|lia|done|].
    intros c' Hc' Hmod'. destruct (minutes_after (to_local now) c') as (j & Hj & ->); [lia|done|].
    apply Hmin. nia.
  - split; [done|]. intros c' Hc' Hmod'.
    destruct (minutes_after (to_local now) c') as (j & Hj & ->); [lia|done|]. apply Hfound; [done|lia].
Qed.
End NextFire.
