(* ===== verification/Catalog.v ===== *)
(** * The in-memory catalog

    [InMemoryCatalogRepository] of [app/db/repositories/catalog.py]: items are
    kept as dictionaries with two internal keys, [_deleted_at] and
    [_updated_at], and are validated when they are read back.  The repository is
    generic in the model class, given here by the two directions of its
    serialisation, and in the place of the world that holds [_items].

    The field [runtime_secret_encrypted] belongs to one model class that is not
    modelled. *)

From S2P Require Export Triggers Ledger.

(** A model class: [model_dump(mode="json")], [model_validate], and the place of
    its catalog. *)
Record model_class (T : Type) := mkModel {
  mc_dump : T -> dict pyval;
  mc_validate : dict pyval -> M T;
  mc_items : world -> dict (dict pyval);
  mc_set_items : dict (dict pyval) -> world -> world
}.
Arguments mkModel {_} _ _ _ _.
Arguments mc_dump {_} _ _.
Arguments mc_validate {_} _ _.
Arguments mc_items {_} _ _.
Arguments mc_set_items {_} _ _ _.

Definition internal_key (k : string) : bool := starts_with "_" k.

(** The entries without the internal keys. *)
Definition clean_payload (payload : dict pyval) : dict pyval :=
  List.filter (fun kv => negb (internal_key kv.1)) payload.

Section Catalog.
Context `{Env} {T : Type} (mc : model_class T).

(** [payload["id"]] *)
Definition payload_id (payload : dict pyval) : M string :=
  match dget "id" payload with
  | Some (PStr s) => mret s
  | Some _ => raise TypeError "unhashable or non-string key"
  | None => raise KeyError "id"
  end.

Definition deserialize (payload : dict pyval) : M T := mc_validate mc (clean_payload payload).

(** [payload.get("_deleted_at")] in a condition *)
Definition deleted (payload : dict pyval) : bool := truthy (pget "_deleted_at" payload).

Definition store_payload (payload : dict pyval) (deleted_at : pyval) : M T :=
  now ← utc_now;
  let payload := dset "_updated_at" (PStr (isoformat now)) (dset "_deleted_at" deleted_at payload) in
  k ← payload_id payload;
  modify (fun w => mc_set_items mc (dset k payload (mc_items mc w)) w);;
  deserialize payload.

(** [create] *)
Definition catalog_create (item : T) : M T := store_payload (mc_dump mc item) PNone.

(** [save] *)
Definition catalog_save (item : T) : M T :=
  let payload := mc_dump mc item in
  k ← payload_id payload;
  existing ← gets (fun w => default [] (dget k (mc_items mc w)));
  store_payload payload (pget "_deleted_at" existing).

(** [list] *)
Definition catalog_list (include_deleted : bool) : M (list T) :=
  items ← gets (mc_items mc);
  collect (fun payload =>
             if negb include_deleted && deleted payload then mret []
             else item ← deserialize payload; mret [item]) (dvalues items).

(** [get] *)
Definition catalog_get (item_id : string) (include_deleted : bool) : M (option T) :=
  payload ← gets (fun w => default [] (dget item_id (mc_items mc w)));
  if (List.length payload =? 0)%nat || negb include_deleted && deleted payload then mret None
  else item ← deserialize payload; mret (Some item).

(** [update] *)
Definition catalog_update (item_id : string) (patch : dict pyval) : M (option T) :=
  existing ← gets (fun w => default [] (dget item_id (mc_items mc w)));
  if (List.length existing =? 0)%nat || deleted existing then mret None
  else
    let merged := dset "id" (PStr item_id) (dupdate (clean_payload existing) patch) in
    model ← mc_validate mc merged;
    saved ← catalog_save model; mret (Some saved).

Definition alter_payload (item_id : string) (f : dict pyval -> dict pyval) : M unit :=
  modify (fun w => mc_set_items mc (dalter f item_id (mc_items mc w)) w).

(** [soft_delete] *)
Definition catalog_soft_delete (item_id : string) : M bool :=
  existing ← gets (fun w => default [] (dget item_id (mc_items mc w)));
  if (List.length existing =? 0)%nat || deleted existing then mret false
  else
    deleted_at ← utc_now;
    alter_payload item_id (dset "_deleted_at" (PStr (isoformat deleted_at)));;
    updated_at ← utc_now;
    alter_payload item_id (dset "_updated_at" (PStr (isoformat updated_at)));;
    mret true.

(** [restore] *)
Definition catalog_restore (item_id : string) : M bool :=
  existing ← gets (fun w => default [] (dget item_id (mc_items mc w)));
  if (List.length existing =? 0)%nat then mret false
  else
    alter_payload item_id (dset "_deleted_at" PNone);;
    updated_at ← utc_now;
    alter_payload item_id (dset "_updated_at" (PStr (isoformat updated_at)));;
    mret true.
End Catalog.
