(* ===== verification/Schedules.v ===== *)
(** * Schedules as documents

    How [ScheduleDefinition] ([app/domain/schedules.py]) is written to and read
    from the dictionaries of the catalog and of the API: [model_dump(mode="json")],
    the normalisation of aliases, the fields, and the validators.

    A value that has the type of its field is read as it is.  The conversions
    that pydantic applies to other values are a parameter ([Conversions]): the
    value it makes of the given one, or none, which is a [ValidationError] (a
    [ValueError]). *)

From S2P Require Export Catalog Timestamps Redaction.

(** The conversion of a value for a field of a model. *)
Class Conversions := convert : string -> pyval -> option pyval.

(** A datetime in JSON: the ISO text with [Z] for UTC. *)
Definition json_datetime (t : Z) : string :=
  str_take (String.length (isoformat t) - 6) (isoformat t) +:+ "Z".
Definition opt_datetime (o : option Z) : pyval :=
  match o with Some t => PStr (json_datetime t) | None => PNone end.

(** ** Reading fields *)

Section Fields.
Context `{Conversions}.

Definition validation_error {A} (field : string) : M A :=
  raise ValueError ("validation error: " +:+ field).

(** A field of the model [model], read by [read] from a value of its own type. *)
Definition read_value {A} (model field : string) (read : pyval -> option A) (v : pyval) : M A :=
  match read v with
  | Some a => mret a
  | None =>
      match (v' ← convert (model +:+ "." +:+ field) v; read v') with
      | Some a => mret a
      | None => validation_error field
      end
  end.

Definition as_bool (v : pyval) : option bool := match v with PBool b => Some b | _ => None end.
Definition as_int (v : pyval) : option Z := match v with PInt n => Some n | _ => None end.
Definition as_datetime (v : pyval) : option Z :=
  match v with PStr s => fromisoformat (replace_zulu s) | _ => None end.
Definition optional {A} (read : pyval -> option A) (v : pyval) : option (option A) :=
  match v with PNone => Some None | _ => Some <$> read v end.
Definition as_strings (v : pyval) : option (list string) := l ← as_list v; mapM as_str l.
Definition as_dicts (v : pyval) : option (list (dict pyval)) := l ← as_list v; mapM as_dict l.

(** A required field, and a field with a default. *)
Definition required_field {A} (model field : string) (read : pyval -> option A) (d : dict pyval) : M A :=
  match dget field d with
  | Some v => read_value model field read v
  | None => validation_error field
  end.

Definition default_field {A} (model field : string) (read : pyval -> option A) (factory : M A)
    (d : dict pyval) : M A :=
  match dget field d with
  | Some v => read_value model field read v
  | None => factory
  end.

(** [extra="forbid"] *)
Definition forbid_extra (fields : list string) (d : dict pyval) : M unit :=
  match List.find (fun k => negb (mem_str k fields)) (dkeys d) with
  | Some k => validation_error k
  | None => mret tt
  end.
End Fields.

(** ** Schedules *)

Definition schedule_fields : list string :=
  ["id"; "name"; "workflow_id"; "enabled"; "trigger_type"; "trigger_config"; "input_template";
   "runtime_adapter_override"; "max_concurrent_executions"; "timezone"; "next_fire_at"; "last_fire_at";
   "metadata"].

(** [ScheduleDefinition.model_dump(mode="json")] *)
Definition schedule_dump (s : ScheduleDefinition) : dict pyval :=
  [("id", PStr (sd_id s)); ("name", PStr (sd_name s)); ("workflow_id", PStr (sd_workflow_id s));
   ("enabled", PBool (sd_enabled s)); ("trigger_type", PStr (schedule_type_value (sd_trigger_type s)));
   ("trigger_config", PDict (sd_trigger_config s)); ("input_template", PDict (sd_input_template s));
   ("runtime_adapter_override", opt_str (sd_runtime_adapter_override s));
   ("max_concurrent_executions", PInt (sd_max_concurrent_executions s));
   ("timezone", PStr (sd_timezone s)); ("next_fire_at", opt_datetime (sd_next_fire_at s));
   ("last_fire_at", opt_datetime (sd_last_fire_at s)); ("metadata", PDict (sd_metadata s))].

(** [updated.setdefault(...)] of a trigger setting that is given by an alias. *)
Definition config_default (key : string) (d config : dict pyval) : dict pyval :=
  match pget key d with
  | PNone => config
  | v => dsetdefault key v config
  end.

(** [if alias in updated and field not in updated: updated[field] = updated[alias]] *)
Definition alias_field (alias field : string) (d : dict pyval) : dict pyval :=
  match dget alias d with
  | Some v => dsetdefault field v d
  | None => d
  end.

(** [normalize_schedule_fields] *)
Definition normalize_schedule_fields (data : dict pyval) : M (dict pyval) :=
  let trigger_type :=
    match dget "trigger_type" data with
    | Some v => v
    | None => default (PStr "manual") (dget "schedule_type" data)
    end in
  trigger_config ← py_dict (py_or (pget "trigger_config" data) (PDict []));
  let trigger_config :=
    config_default "interval_seconds" data (config_default "cron" data trigger_config) in
  let updated := dset "trigger_config" (PDict trigger_config) data in
  let updated := alias_field "next_run_at" "next_fire_at"
                   (alias_field "runtime_adapter_id" "runtime_adapter_override"
                     (alias_field "input_payload" "input_template" updated)) in
  let updated := dset "trigger_type" trigger_type updated in
  mret (fold_left (fun d k => dpop k d)
          ["schedule_type"; "cron"; "interval_seconds"; "runtime_adapter_id"; "input_payload"; "next_run_at"]
          updated).

Section Schedules.
Context `{Env} `{Conversions}.

Definition as_schedule_type (v : pyval) : option ScheduleType := s ← as_str v; schedule_type_of s.

(** The fields of the model, in their order. *)
Definition read_schedule (d : dict pyval) : M ScheduleDefinition :=
  let m := "ScheduleDefinition" in
  id ← default_field m "id" as_str uuid4 d;
  name ← required_field m "name" as_str d;
  workflow_id ← required_field m "workflow_id" as_str d;
  enabled ← default_field m "enabled" as_bool (mret true) d;
  trigger_type ← default_field m "trigger_type" as_schedule_type (mret MANUAL) d;
  trigger_config ← default_field m "trigger_config" as_dict (mret []) d;
  input_template ← default_field m "input_template" as_dict (mret []) d;
  adapter ← default_field m "runtime_adapter_override" (optional as_str) (mret None) d;
  maximum ← default_field m "max_concurrent_executions" as_int (mret 1) d;
  timezone ← default_field m "timezone" as_str (mret "UTC") d;
  next_fire_at ← default_field m "next_fire_at" (optional as_datetime) (mret None) d;
  last_fire_at ← default_field m "last_fire_at" (optional as_datetime) (mret None) d;
  metadata ← default_field m "metadata" as_dict (mret []) d;
  forbid_extra schedule_fields d;;
  mret (mkSchedule id name workflow_id enabled trigger_type trigger_config input_template adapter maximum
          timezone next_fire_at last_fire_at metadata).

(** [validate_schedule_configuration] *)
Definition validate_schedule_configuration (s : ScheduleDefinition) : M unit :=
  if bool_decide (sd_trigger_type s = CRON) && is_none (pget "cron" (sd_trigger_config s)) then
    raise ValueError "Cron schedules require trigger_config.cron"
  else if bool_decide (sd_trigger_type s = INTERVAL)
          && is_none (pget "interval_seconds" (sd_trigger_config s)) then
    raise ValueError "Interval schedules require trigger_config.interval_seconds"
  else if sd_max_concurrent_executions s <? 1 then
    raise ValueError "max_concurrent_executions must be at least 1"
  else mret tt.

(** [ScheduleDefinition.model_validate] of a dictionary *)
Definition schedule_validate (data : dict pyval) : M ScheduleDefinition :=
  d ← normalize_schedule_fields data;
  s ← read_schedule d;
  validate_schedule_configuration s;;
  mret s.

Definition schedule_model : model_class ScheduleDefinition :=
  mkModel schedule_dump schedule_validate w_schedules set_w_schedules.
End Schedules.

(** ** A stored schedule reads back unchanged *)

Lemma str_app_inj_tail a b c : a +:+ c = b +:+ c -> a = b.
Proof.
  intros Heq. assert (Hlen : String.length a = String.length b).
  { apply (f_equal String.length) in Heq. rewrite !str_length_app in Heq. lia. }
  revert b Heq Hlen. induction a as [|x a IH]; intros [|y b] Heq Hlen; try done.
  injection Heq as -> Heq. f_equal. apply IH; [done|]. by injection Hlen.
Qed.

Lemma str_take_app a b : str_take (String.length a) (a +:+ b) = a.
Proof.
  unfold str_take. induction a as [|c a IH]; [by destruct b|].
  change (String c a +:+ b) with (String c (a +:+ b)). cbn. by rewrite IH.
Qed.

(** The text of a timestamp ends in its offset. *)
Lemma isoformat_offset t : exists base, isoformat t = base +:+ "+00:00".
Proof.
  unfold isoformat. destruct (civil_of_days _) as [[y m] d]. eexists. rewrite !str_app_assoc. reflexivity.
Qed.

Lemma json_datetime_reads t : representable t -> as_datetime (PStr (json_datetime t)) = Some t.
Proof.
  intros Ht. cbn. pose proof (replace_zulu_isoformat t Ht) as Hz.
  rewrite <-(fromisoformat_isoformat t Ht). f_equal. unfold json_datetime.
  destruct (isoformat_offset t) as [base Hbase]. rewrite Hbase in *.
  replace (String.length (base +:+ "+00:00") - 6)%nat with (String.length base)
    by (rewrite str_length_app; cbn; lia).
  rewrite str_take_app, replace_zulu_app. rewrite replace_zulu_app in Hz.
  by apply str_app_inj_tail in Hz as ->.
Qed.

Lemma schedule_type_of_value t : schedule_type_of (schedule_type_value t) = Some t.
Proof. by destruct t. Qed.

(** What the validators check, and timestamps that have a text. *)
Record schedule_config_ok (s : ScheduleDefinition) : Prop := {
  so_cron : sd_trigger_type s = CRON -> is_none (pget "cron" (sd_trigger_config s)) = false;
  so_interval : sd_trigger_type s = INTERVAL ->
    is_none (pget "interval_seconds" (sd_trigger_config s)) = false;
  so_maximum : 1 <= sd_max_concurrent_executions s
}.

Record schedule_valid (s : ScheduleDefinition) : Prop := {
  sv_config : schedule_config_ok s;
  sv_next : forall t, sd_next_fire_at s = Some t -> representable t;
  sv_last : forall t, sd_last_fire_at s = Some t -> representable t
}.

Section Roundtrip.
Context `{Env} `{Conversions}.

Lemma read_typed {A} m f (read : pyval -> option A) v a w :
  read v = Some a -> read_value m f read v w = (Ok a, w).
Proof. unfold read_value. by intros ->. Qed.

Lemma optional_datetime o : (forall t, o = Some t -> representable t) ->
  optional as_datetime (opt_datetime o) = Some o.
Proof.
  destruct o as [t|]; [|done]. intros Ht. change (Some <$> as_datetime (PStr (json_datetime t)) = Some (Some t)).
  by rewrite json_datetime_reads by auto.
Qed.

Lemma optional_str o : optional as_str (opt_str o) = Some o.
Proof. by destruct o. Qed.

(** The document of a schedule, with some text of its two timestamps. *)
Definition schedule_document (s : ScheduleDefinition) (next_fire last_fire : pyval) : dict pyval :=
  [("id", PStr (sd_id s)); ("name", PStr (sd_name s)); ("workflow_id", PStr (sd_workflow_id s));
   ("enabled", PBool (sd_enabled s)); ("trigger_type", PStr (schedule_type_value (sd_trigger_type s)));
   ("trigger_config", PDict (sd_trigger_config s)); ("input_template", PDict (sd_input_template s));
   ("runtime_adapter_override", opt_str (sd_runtime_adapter_override s));
   ("max_concurrent_executions", PInt (sd_max_concurrent_executions s));
   ("timezone", PStr (sd_timezone s)); ("next_fire_at", next_fire); ("last_fire_at", last_fire);
   ("metadata", PDict (sd_metadata s))].

(** The normalisation does nothing to it. *)
Lemma normalize_document s nx ls w :
  normalize_schedule_fields (schedule_document s nx ls) w = (Ok (schedule_document s nx ls), w).
Proof.
  unfold normalize_schedule_fields. cbn [dget schedule_document String.eqb Ascii.eqb Bool.eqb].
  change (pget "trigger_config" (schedule_document s nx ls)) with (PDict (sd_trigger_config s)).
  replace (py_or (PDict (sd_trigger_config s)) (PDict [])) with (PDict (sd_trigger_config s))
    by (by destruct (sd_trigger_config s)).
  reflexivity.
Qed.

(** A document is read as its schedule when the validators accept it. *)
Lemma validate_document s nx ls w :
  schedule_config_ok s -> optional as_datetime nx = Some (sd_next_fire_at s) ->
  optional as_datetime ls = Some (sd_last_fire_at s) ->
  schedule_validate (schedule_document s nx ls) w = (Ok s, w).
Proof.
  intros [Hcron Hint Hmax] Hnext Hlast. unfold schedule_validate.
  rewrite (bind_Ok _ _ _ _ _ (normalize_document s nx ls w)).
  assert (Hread : read_schedule (schedule_document s nx ls) w = (Ok s, w)).
  { unfold read_schedule, default_field, required_field. destruct s as [id name wid en ty cfg inp ad mx tz nxt lst md].
    cbn [dget schedule_document String.eqb Ascii.eqb Bool.eqb sd_id sd_name sd_workflow_id sd_enabled sd_trigger_type
         sd_trigger_config sd_input_template sd_runtime_adapter_override sd_max_concurrent_executions
         sd_timezone sd_next_fire_at sd_last_fire_at sd_metadata] in *.
    repeat (erewrite bind_Ok; [|apply read_typed;
      first [exact Hnext|exact Hlast|reflexivity|apply optional_str|apply schedule_type_of_value]]).
    reflexivity. }
  rewrite (bind_Ok _ _ _ _ _ Hread). unfold validate_schedule_configuration.
  replace (bool_decide (sd_trigger_type s = CRON) && _) with false
    by (case_bool_decide; [by rewrite Hcron|done]).
  replace (bool_decide (sd_trigger_type s = INTERVAL) && _) with false
    by (case_bool_decide; [by rewrite Hint|done]).
  by replace (_ <? 1) with false by (symmetry; apply Z.ltb_ge; lia).
Qed.

Lemma schedule_dump_reads s w : schedule_valid s -> schedule_validate (schedule_dump s) w = (Ok s, w).
Proof. intros [Hok Hnext Hlast]. by apply (validate_document s); [done| |]; apply optional_datetime. Qed.

(** Whatever is read satisfies the validators. *)
Lemma validated_config_ok d s w w' : schedule_validate d w = (Ok s, w') -> schedule_config_ok s.
Proof.
  unfold schedule_validate. intros (d' & w1 & _ & (s' & w2 & _ & Hr)%bind_inv)%bind_inv.
  apply bind_inv in Hr as (u & w3 & Hv & Hr). injection Hr as <- _.
  unfold validate_schedule_configuration in Hv.
  destruct (bool_decide (sd_trigger_type s' = CRON) && _) eqn:Hcron; [done|].
  destruct (bool_decide (sd_trigger_type s' = INTERVAL) && _) eqn:Hint; [done|].
  destruct (_ <? 1) eqn:Hmax; [done|]. split; [| |by apply Z.ltb_ge].
  - intros Ht. by rewrite bool_decide_eq_true_2 in Hcron.
  - intros Ht. by rewrite bool_decide_eq_true_2 in Hint.
Qed.
End Roundtrip.
