(* ===== verification/Goals.v ===== *)
(** * Goals as documents

    [GoalDefinition] of [app/domain/goals.py] with its validator, and its
    catalog.  The scheduler creates goals and links executions. *)

From S2P Require Export Schedules.

(** [GoalStatus] *)
Inductive GoalStatus :=
  | GOAL_CREATED | GOAL_PLANNING | GOAL_ACTIVE | GOAL_WAITING_FOR_INPUT | GOAL_WAITING_FOR_APPROVAL
  | GOAL_PAUSED | GOAL_COMPLETED | GOAL_FAILED | GOAL_CANCELLED | GOAL_ABANDONED.
#[export] Instance GoalStatus_eq_dec : EqDecision GoalStatus.
Proof. solve_decision. Defined.

Definition goal_status_value (s : GoalStatus) : string :=
  match s with
  | GOAL_CREATED => "created"
  | GOAL_PLANNING => "planning"
  | GOAL_ACTIVE => "active"
  | GOAL_WAITING_FOR_INPUT => "waiting_for_input"
  | GOAL_WAITING_FOR_APPROVAL => "waiting_for_approval"
  | GOAL_PAUSED => "paused"
  | GOAL_COMPLETED => "completed"
  | GOAL_FAILED => "failed"
  | GOAL_CANCELLED => "cancelled"
  | GOAL_ABANDONED => "abandoned"
  end.

Definition goal_status_of (s : string) : option GoalStatus :=
  List.find (fun st => String.eqb (goal_status_value st) s)
    [GOAL_CREATED; GOAL_PLANNING; GOAL_ACTIVE; GOAL_WAITING_FOR_INPUT; GOAL_WAITING_FOR_APPROVAL;
     GOAL_PAUSED; GOAL_COMPLETED; GOAL_FAILED; GOAL_CANCELLED; GOAL_ABANDONED].

Definition TERMINAL_GOAL_STATUSES : list GoalStatus :=
  [GOAL_COMPLETED; GOAL_FAILED; GOAL_CANCELLED; GOAL_ABANDONED].

(** [GoalDefinition] *)
Record GoalDefinition := mkGoal {
  go_id : string;
  go_objective : string;
  go_status : GoalStatus;
  go_priority : string;
  go_owner_actor : option string;
  go_parent_goal_id : option string;
  go_success_criteria : list (dict pyval);
  go_constraints : dict pyval;
  go_execution_ids : list string;
  go_evidence : list (dict pyval);
  go_evaluation : option (dict pyval);
  go_deadline_at : option Z;
  go_completed_at : option Z;
  go_created_at : Z;
  go_updated_at : Z;
  go_metadata : dict pyval
}.

(** [goal.model_copy(update={"execution_ids": ..., "updated_at": ...})] *)
Definition with_executions (ids : list string) (now : Z) (g : GoalDefinition) : GoalDefinition :=
  mkGoal (go_id g) (go_objective g) (go_status g) (go_priority g) (go_owner_actor g) (go_parent_goal_id g)
    (go_success_criteria g) (go_constraints g) ids (go_evidence g) (go_evaluation g) (go_deadline_at g)
    (go_completed_at g) (go_created_at g) now (go_metadata g).

Definition with_completed_at (t : Z) (g : GoalDefinition) : GoalDefinition :=
  mkGoal (go_id g) (go_objective g) (go_status g) (go_priority g) (go_owner_actor g) (go_parent_goal_id g)
    (go_success_criteria g) (go_constraints g) (go_execution_ids g) (go_evidence g) (go_evaluation g)
    (go_deadline_at g) (Some t) (go_created_at g) (go_updated_at g) (go_metadata g).

Definition goal_fields : list string :=
  ["id"; "objective"; "status"; "priority"; "owner_actor"; "parent_goal_id"; "success_criteria";
   "constraints"; "execution_ids"; "evidence"; "evaluation"; "deadline_at"; "completed_at"; "created_at";
   "updated_at"; "metadata"].

Definition goal_dump (g : GoalDefinition) : dict pyval :=
  [("id", PStr (go_id g)); ("objective", PStr (go_objective g));
   ("status", PStr (goal_status_value (go_status g))); ("priority", PStr (go_priority g));
   ("owner_actor", opt_str (go_owner_actor g)); ("parent_goal_id", opt_str (go_parent_goal_id g));
   ("success_criteria", PList (map PDict (go_success_criteria g))); ("constraints", PDict (go_constraints g));
   ("execution_ids", PList (map PStr (go_execution_ids g))); ("evidence", PList (map PDict (go_evidence g)));
   ("evaluation", match go_evaluation g with Some d => PDict d | None => PNone end);
   ("deadline_at", opt_datetime (go_deadline_at g)); ("completed_at", opt_datetime (go_completed_at g));
   ("created_at", PStr (json_datetime (go_created_at g))); ("updated_at", PStr (json_datetime (go_updated_at g)));
   ("metadata", PDict (go_metadata g))].

Section Goals.
Context `{Env} `{Conversions}.

Definition as_goal_status (v : pyval) : option GoalStatus := s ← as_str v; goal_status_of s.

Definition read_goal (d : dict pyval) : M GoalDefinition :=
  let m := "GoalDefinition" in
  id ← default_field m "id" as_str uuid4 d;
  objective ← required_field m "objective" as_str d;
  status ← default_field m "status" as_goal_status (mret GOAL_CREATED) d;
  priority ← default_field m "priority" as_str (mret "normal") d;
  owner_actor ← default_field m "owner_actor" (optional as_str) (mret None) d;
  parent_goal_id ← default_field m "parent_goal_id" (optional as_str) (mret None) d;
  success_criteria ← default_field m "success_criteria" as_dicts (mret []) d;
  constraints ← default_field m "constraints" as_dict (mret []) d;
  execution_ids ← default_field m "execution_ids" as_strings (mret []) d;
  evidence ← default_field m "evidence" as_dicts (mret []) d;
  evaluation ← default_field m "evaluation" (optional as_dict) (mret None) d;
  deadline_at ← default_field m "deadline_at" (optional as_datetime) (mret None) d;
  completed_at ← default_field m "completed_at" (optional as_datetime) (mret None) d;
  created_at ← default_field m "created_at" as_datetime utc_now d;
  updated_at ← default_field m "updated_at" as_datetime utc_now d;
  metadata ← default_field m "metadata" as_dict (mret []) d;
  forbid_extra goal_fields d;;
  mret (mkGoal id objective status priority owner_actor parent_goal_id success_criteria constraints
          execution_ids evidence evaluation deadline_at completed_at created_at updated_at metadata).

(** [validate_goal] *)
Definition validate_goal (g : GoalDefinition) : M GoalDefinition :=
  let terminal := bool_decide (go_status g ∈ TERMINAL_GOAL_STATUSES) in
  if String.eqb (py_strip (go_objective g)) "" then raise ValueError "Goal objective is required"
  else
    g ← (if negb (opt_some (go_completed_at g)) && terminal
         then now ← utc_now; mret (with_completed_at now g) else mret g);
    if opt_some (go_completed_at g) && negb terminal
    then raise ValueError "completed_at can only be set on a terminal goal"
    else mret g.

Definition goal_validate (data : dict pyval) : M GoalDefinition := g ← read_goal data; validate_goal g.

(** [InMemoryCatalogRepository(GoalDefinition)] *)
Definition goal_model : model_class GoalDefinition := mkModel goal_dump goal_validate w_goals set_w_goals.
End Goals.
