(* ===== verification/Waits.v ===== *)
(** * Durable execution waits

    [ExecutionWait] of [app/domain/execution_waits.py] and [ExecutionWaitService]
    of [app/services/execution_waits.py]: suspending an execution on a wait,
    resolving a wait exactly once, and the passes that wake due timers and
    matching events.  The service calls [control_plane.resume]; it is proved
    against the interface [ResumeService], which [ControlPlane.v] implements. *)

From S2P Require Export Emitter Sample.

(** What the wait service needs of the control plane: [resume(execution_id)]
    returns the execution. *)
Class ResumeService := resume_execution : string -> M string.

Class ResumeServiceLaws `{Env} `{ResumeService} : Prop :=
  resume_ledger : forall i, evolves ledger (resume_execution i).
#[export] Hint Resolve resume_ledger : evolve.

Definition WAIT_EXECUTION_STATUS (k : ExecutionWaitKind) : ExecutionStatus :=
  match k with
  | INPUT => WAITING_FOR_INPUT
  | APPROVAL => WAITING_FOR_APPROVAL
  | EVENT => WAITING_FOR_EVENT
  | SLEEP => SLEEPING
  end.

Definition WAIT_CREATION_SOURCE_STATUSES : list ExecutionStatus :=
  [PAUSED; WAITING_FOR_INPUT; WAITING_FOR_APPROVAL; WAITING_FOR_EVENT; SLEEPING].

(** [isinstance(active_wait, dict) and active_wait.get("wait_id") == wait_id] *)
Definition active_wait_is (wait_id : string) (metadata : dict pyval) : bool :=
  match pget "active_wait" metadata with
  | PDict active => eq_str (pget "wait_id" active) wait_id
  | _ => false
  end.

(** The entries that [create_wait] and [resolve_wait] write. *)
Definition active_wait_entry (saved : ExecutionWait) : pyval :=
  PDict [("wait_id", PStr (wt_id saved)); ("kind", PStr (wait_kind_value (wt_kind saved)));
         ("created_at", PStr (isoformat (wt_created_at saved)));
         ("wake_at", opt_iso (wt_wake_at saved)); ("deadline_at", opt_iso (wt_deadline_at saved))].

Definition last_resolved_wait_entry (r : ExecutionWait) : pyval :=
  PDict [("wait_id", PStr (wt_id r)); ("kind", PStr (wait_kind_value (wt_kind r)));
         ("status", PStr (wait_status_value (wt_status r)));
         ("resolution_key", opt_str (wt_resolution_key r));
         ("resolved_at", opt_iso (wt_resolved_at r))].

Definition wait_resolution_entry (r : ExecutionWait) : pyval :=
  PDict [("kind", PStr (wait_kind_value (wt_kind r)));
         ("status", PStr (wait_status_value (wt_status r)));
         ("payload", PDict (default [] (wt_resolution_payload r)));
         ("resolved_at", opt_iso (wt_resolved_at r))].

(** What [resolve_wait] returns. *)
Record resolve_outcome := mkResolveOutcome {
  ro_wait : ExecutionWait;
  ro_claimed : bool;
  ro_resumed : bool;
  ro_execution : option string
}.

(** One entry of the [items] of a waking pass: the outcome or the error text. *)
Record wake_item := mkWakeItem {
  wi_wait_id : string;
  wi_execution_id : string;
  wi_outcome : (bool * bool * string) + string   (* claimed, resumed, status *)
}.

Record wake_report := mkWakeReport {
  wr_expired_scanned : nat;
  wr_due_scanned : nat;
  wr_items : list wake_item
}.
Definition wr_scanned (r : wake_report) : nat := (wr_expired_scanned r + wr_due_scanned r)%nat.

Section Waits.
Context `{Env}.

(** [ExecutionWait(...)]: the bounds of the fields, then [validate_lifecycle].
    The model validates as Pydantic does, before the object exists. *)
Definition validate_wait (wt : ExecutionWait) : M ExecutionWait :=
  let too_long o := match o with
                    | Some s => (255 <? String.length s)%nat
                    | None => false
                    end in
  let key_length := String.length (wt_idempotency_key wt) in
  if (key_length <? 1)%nat || (255 <? key_length)%nat
     || too_long (wt_correlation_key wt) || too_long (wt_resolution_key wt)
     || too_long (wt_resolved_by wt)
  then raise ValueError "String length out of bounds."
  else if String.eqb (py_strip (wt_idempotency_key wt)) "" then
    raise ValueError "Execution wait idempotency_key must not be empty."
  else if bool_decide (wt_kind wt = SLEEP) && negb (opt_some (wt_wake_at wt)) then
    raise ValueError "Sleep waits require wake_at."
  else if bool_decide (wt_kind wt <> SLEEP) && opt_some (wt_wake_at wt) then
    raise ValueError "Only sleep waits may define wake_at."
  else if bool_decide (wt_kind wt = EVENT)
          && String.eqb (py_strip (default "" (wt_correlation_key wt))) "" then
    raise ValueError "Event waits require correlation_key."
  else if match wt_wake_at wt, wt_deadline_at wt with
          | Some wake, Some deadline => deadline <? wake
          | _, _ => false
          end then
    raise ValueError "Execution wait deadline_at cannot be earlier than wake_at."
  else if wait_is_pending wt && opt_some (wt_resolved_at wt) then
    raise ValueError "Pending execution waits cannot have resolved_at."
  else
    let resolved_at :=
      if bool_decide (wt_status wt ∈ TERMINAL_EXECUTION_WAIT_STATUSES)
         && negb (opt_some (wt_resolved_at wt))
      then Some (wt_updated_at wt) else wt_resolved_at wt in
    mret (mkExecutionWait (wt_id wt) (wt_execution_id wt) (wt_kind wt) (wt_status wt)
      (wt_idempotency_key wt) (wt_correlation_key wt) (wt_checkpoint wt) (wt_request_payload wt)
      (wt_policy wt) (wt_resolution_payload wt) (wt_resolution_key wt) (wt_wake_at wt)
      (wt_deadline_at wt) resolved_at (wt_resolved_by wt) (wt_created_at wt) (wt_updated_at wt)
      (wt_metadata wt)).

(** The state object that services other than the engine emit with: it carries
    on from the last event of the log. *)
Definition state_of_log (execution_id workflow_id : string) : M NativeExecutionState :=
  st ← new_state execution_id workflow_id;
  events ← list_events execution_id;
  mret (match last events with
        | None => st
        | Some ev =>
            set_st_trace_id
              (if str_truthy (ev_trace_id ev) then default "" (ev_trace_id ev) else st_trace_id st)
              (set_st_last_event_id (Some (ev_id ev)) (set_st_sequence (ev_sequence ev) st))
        end).

(** [_emit] *)
Definition emit_wait_event (execution_id workflow_id : string) (event_type : ExecutionEventType)
    (payload : dict pyval) : M unit :=
  st ← state_of_log execution_id workflow_id;
  emit_simple st event_type None payload [];;
  mret tt.

(** The end of [create_wait]: the execution takes the status of the wait. *)
Definition suspend_on_wait (execution_id workflow_id : string) (kind : ExecutionWaitKind)
    (saved : ExecutionWait) : M unit :=
  assign execution_id (set_ex_status (WAIT_EXECUTION_STATUS kind));;
  assign execution_id (fun e =>
    set_ex_metadata (dset "active_wait" (active_wait_entry saved) (ex_metadata e)) e);;
  update_execution execution_id;;
  emit_wait_event execution_id workflow_id EXECUTION_WAITING
    [("wait_id", PStr (wt_id saved)); ("kind", PStr (wait_kind_value (wt_kind saved)));
     ("status", PStr (wait_status_value (wt_status saved)));
     ("correlation_key", opt_str (wt_correlation_key saved));
     ("wake_at", opt_iso (wt_wake_at saved)); ("deadline_at", opt_iso (wt_deadline_at saved))].

Definition create_wait (execution_id : string) (kind : ExecutionWaitKind) (idempotency_key : string)
    (checkpoint : option (dict pyval)) (request_payload policy : dict pyval)
    (correlation_key : option string) (wake_at deadline_at : option Z) (metadata : dict pyval) :
    M (ExecutionWait * bool) :=
  found ← get_execution execution_id;
  match found with
  | None => raise ExecutionNotFoundError ("Execution '" +:+ execution_id +:+ "' was not found")
  | Some e =>
      if negb (bool_decide (ex_status e ∈ WAIT_CREATION_SOURCE_STATUSES)) then
        raise ExecutionWaitConflictError
          "Execution must be paused at a persisted checkpoint before a durable wait can be created."
      else
      let normalized_key := py_strip idempotency_key in
      if String.eqb normalized_key "" then raise ValueError "idempotency_key must not be empty" else
      now ← utc_now;
      if match wake_at, deadline_at with
         | Some wake, Some deadline => deadline <? wake
         | _, _ => false
         end
      then raise ValueError "deadline_at cannot be earlier than wake_at"
      else
      pending ← list_execution_waits execution_id (Some WAIT_PENDING);
      match pending with
      | existing :: _ =>
          if String.eqb (wt_idempotency_key existing) normalized_key then mret (existing, false)
          else raise ExecutionWaitConflictError
                 ("Execution '" +:+ execution_id +:+ "' already has pending wait '"
                  +:+ wt_id existing +:+ "'.")
      | [] =>
          let durable_checkpoint :=
            match checkpoint with
            | Some c => c
            | None => default [] (ex_output_payload e)
            end in
          let correlation := py_strip (default "" correlation_key) in
          id ← uuid4;
          wt ← validate_wait (mkExecutionWait id execution_id kind WAIT_PENDING normalized_key
            (if String.eqb correlation "" then None else Some correlation)
            durable_checkpoint request_payload policy None None wake_at deadline_at None None
            now now metadata);
          stored ← try_except (saved ← create_execution_wait wt; mret (saved, true))
            (fun exc => is_value_error exc || bool_decide (exn_kind exc = IntegrityError))
            (fun _ =>
               pending ← list_execution_waits execution_id (Some WAIT_PENDING);
               match pending with
               | existing :: _ =>
                   if String.eqb (wt_idempotency_key existing) normalized_key
                   then mret (existing, false)
                   else raise ExecutionWaitConflictError
                     ("Execution '" +:+ execution_id
                      +:+ "' acquired another pending wait concurrently.")
               | [] => raise ExecutionWaitConflictError
                     ("Execution '" +:+ execution_id
                      +:+ "' acquired another pending wait concurrently.")
               end);
          let '(saved, created) := stored in
          if negb created then mret (saved, false) else
          suspend_on_wait execution_id (ex_workflow_id e) kind saved;;
          mret (saved, true)
      end
  end.

Definition get_wait (execution_id wait_id : string) : M ExecutionWait :=
  found ← get_execution_wait wait_id;
  let not_found := raise ExecutionWaitNotFoundError ("Execution wait '" +:+ wait_id +:+ "' was not found") in
  match found with
  | None => not_found
  | Some wt => if String.eqb (wt_execution_id wt) execution_id then mret wt else not_found
  end.

Definition list_waits (execution_id : string) (status : option ExecutionWaitStatus) :
    M (list ExecutionWait) :=
  found ← get_execution execution_id;
  match found with
  | None => raise ExecutionNotFoundError ("Execution '" +:+ execution_id +:+ "' was not found")
  | Some _ => list_execution_waits execution_id status
  end.
End Waits.

Section Resolution.
Context `{Env} `{ResumeService}.

(** The checks on a wait that is still pending. *)
Definition check_suspension (execution_id : string) (wt : ExecutionWait)
    (status : ExecutionWaitStatus) (resume : bool) : M unit :=
  found ← get_execution execution_id;
  match found with
  | None => raise ExecutionNotFoundError ("Execution '" +:+ execution_id +:+ "' was not found")
  | Some e =>
      if bool_decide (ex_status e <> WAIT_EXECUTION_STATUS (wt_kind wt))
         || negb (active_wait_is (wt_id wt) (ex_metadata e)) then
        raise ExecutionWaitConflictError
          ("Execution '" +:+ execution_id +:+ "' is no longer suspended on wait '" +:+ wt_id wt +:+ "'.")
      else if resume && bool_decide (status = WAIT_RESOLVED)
              && negb (String.eqb (ex_runtime_adapter_id e) "native") then
        raise ExecutionWaitConflictError
          "Automatic durable wait resume currently requires the native runtime."
      else mret tt
  end.

(** What a claimed resolution writes on the execution: the wait is no longer
    active, its result is recorded for the run, and the execution is paused. *)
Definition apply_resolution (execution_id : string) (resolved : ExecutionWait) : M unit :=
  e ← deref execution_id;
  let metadata :=
    if active_wait_is (wt_id resolved) (ex_metadata e)
    then dpop "active_wait" (ex_metadata e) else ex_metadata e in
  assign execution_id
    (set_ex_metadata (dset "last_resolved_wait" (last_resolved_wait_entry resolved) metadata));;
  wait_resolutions ←
    (let recorded := pget "wait_resolutions" (ex_input_payload e) in
     if truthy recorded then py_dict recorded else mret []);
  assign execution_id (fun e =>
    set_ex_input_payload
      (dset "wait_resolutions"
         (PDict (dset (wt_id resolved) (wait_resolution_entry resolved) wait_resolutions))
         (ex_input_payload e)) e);;
  assign execution_id (set_ex_status PAUSED);;
  update_execution execution_id.

Definition resolve_wait (execution_id wait_id resolution_key : string)
    (resolution_payload : dict pyval) (status : ExecutionWaitStatus) (resolved_by : option string)
    (resume : bool) : M resolve_outcome :=
  if negb (bool_decide (status ∈ TERMINAL_EXECUTION_WAIT_STATUSES)) then
    raise ValueError "Execution waits may only resolve to resolved, expired, or cancelled."
  else
  let normalized_key := py_strip resolution_key in
  if String.eqb normalized_key "" then raise ValueError "resolution_key must not be empty" else
  wt ← get_wait execution_id wait_id;
  when (wait_is_pending wt) (check_suspension execution_id wt status resume);;
  '(found, claimed) ← resolve_execution_wait (wt_id wt) status normalized_key resolution_payload resolved_by;
  match found with
  | None =>
      current ← get_wait execution_id wait_id;
      raise ExecutionWaitConflictError
        ("Execution wait '" +:+ wait_id +:+ "' was already resolved by key '"
         +:+ default "None" (wt_resolution_key current) +:+ "'.")
  | Some resolved =>
      if negb claimed then mret (mkResolveOutcome resolved false false None) else
      still ← get_execution execution_id;
      match still with
      | None => raise ExecutionNotFoundError ("Execution '" +:+ execution_id +:+ "' was not found")
      | Some e =>
          apply_resolution execution_id resolved;;
          emit_wait_event execution_id (ex_workflow_id e) EXECUTION_WOKEN
            [("wait_id", PStr (wt_id resolved)); ("kind", PStr (wait_kind_value (wt_kind resolved)));
             ("status", PStr (wait_status_value (wt_status resolved)));
             ("resolution_key", opt_str (wt_resolution_key resolved));
             ("resume_requested", PBool resume)];;
          if resume && bool_decide (status = WAIT_RESOLVED) then
            resumed ← resume_execution execution_id;
            mret (mkResolveOutcome resolved true true (Some resumed))
          else mret (mkResolveOutcome resolved true false None)
      end
  end.

(** One item of a waking pass; every exception becomes an error entry. *)
Definition wake_one (wt : ExecutionWait) (resolution_key : string) (payload : dict pyval)
    (status : ExecutionWaitStatus) (resolved_by : option string) (resume : bool) :
    M (list wake_item) :=
  try_except
    (outcome ← resolve_wait (wt_execution_id wt) (wt_id wt) resolution_key payload status resolved_by resume;
     mret [mkWakeItem (wt_id wt) (wt_execution_id wt)
             (inl (ro_claimed outcome, ro_resumed outcome, wait_status_value status))])
    any_exn
    (fun exc => mret [mkWakeItem (wt_id wt) (wt_execution_id wt) (inr (exn_message exc))]).

Definition iso_or (o : option Z) (fallback : string) : string :=
  match o with Some t => isoformat t | None => fallback end.

Definition wake_expired (wt : ExecutionWait) : M (list wake_item) :=
  wake_one wt ("deadline:" +:+ wt_id wt +:+ ":" +:+ iso_or (wt_deadline_at wt) "expired")
    [("deadline_at", opt_iso (wt_deadline_at wt));
     ("reason", PStr "Execution wait deadline expired.")]
    WAIT_EXPIRED (Some "runtime_reconciler") false.

Definition wake_due (wt : ExecutionWait) : M (list wake_item) :=
  wake_one wt ("timer:" +:+ wt_id wt +:+ ":" +:+ iso_or (wt_wake_at wt) "due")
    [("wake_at", opt_iso (wt_wake_at wt))]
    WAIT_RESOLVED (Some "runtime_reconciler") true.

Definition wake_due_waits (now : option Z) (limit : Z) : M wake_report :=
  current_time ← match now with Some t => mret t | None => utc_now end;
  expired ← list_expired_execution_waits current_time limit;
  expired_items ← collect wake_expired expired;
  due ← list_due_execution_waits current_time limit;
  due_items ← collect wake_due due;
  mret (mkWakeReport (List.length expired) (List.length due) (expired_items ++ due_items)).

(** The correlation key that matched, the number of matches, and the items. *)
Definition wake_event (correlation_key event_id : string) (event_payload : dict pyval)
    (resolved_by : option string) (limit : Z) : M (string * nat * list wake_item) :=
  let normalized_correlation := py_strip correlation_key in
  let normalized_event_id := py_strip event_id in
  if String.eqb normalized_correlation "" then raise ValueError "correlation_key must not be empty"
  else if String.eqb normalized_event_id "" then raise ValueError "event_id must not be empty"
  else
  candidates ← list_pending_execution_waits_by_correlation normalized_correlation limit;
  let event_waits := List.filter (fun wt => bool_decide (wt_kind wt = EVENT)) candidates in
  items ← collect (fun wt =>
    wake_one wt ("event:" +:+ normalized_event_id +:+ ":" +:+ wt_id wt)
      [("event_id", PStr normalized_event_id); ("correlation_key", PStr normalized_correlation);
       ("payload", PDict event_payload)]
      WAIT_RESOLVED (if str_truthy resolved_by then resolved_by else Some "event_trigger") true)
    event_waits;
  mret (normalized_correlation, List.length event_waits, items).
End Resolution.

(** ** The services satisfy the ledger contract *)

Section WaitsLedger.
Context `{Env} `{ResumeService}.

Lemma ledger_state_of_log i wf : evolves ledger (state_of_log i wf).
Proof. unfold state_of_log, list_events. evolve. Qed.

Lemma ledger_emit_wait_event i wf ty p : evolves ledger (emit_wait_event i wf ty p).
Proof. unfold emit_wait_event, emit_simple. evolve. apply ledger_state_of_log. Qed.

Lemma ledger_get_wait i k : evolves ledger (get_wait i k).
Proof. unfold get_wait, get_execution_wait. evolve. Qed.

Lemma ledger_check_suspension i wt st r : evolves ledger (check_suspension i wt st r).
Proof. unfold check_suspension, get_execution. evolve. Qed.

Lemma ledger_apply_resolution i wt : evolves ledger (apply_resolution i wt).
Proof. unfold apply_resolution, update_execution. evolve. Qed.

Hint Resolve ledger_emit_wait_event ledger_get_wait ledger_check_suspension
  ledger_apply_resolution : evolve.

Lemma ledger_resolve_wait `{!ResumeServiceLaws} i k key payload st by_ resume :
  evolves ledger (resolve_wait i k key payload st by_ resume).
Proof. unfold resolve_wait, get_execution. evolve. Qed.

Hint Resolve ledger_resolve_wait : evolve.

Lemma ledger_wake_one `{!ResumeServiceLaws} wt key payload st by_ resume :
  evolves ledger (wake_one wt key payload st by_ resume).
Proof. unfold wake_one. evolve. Qed.

Hint Resolve ledger_wake_one : evolve.

Lemma ledger_wake_due_waits `{!ResumeServiceLaws} now limit :
  evolves ledger (wake_due_waits now limit).
Proof.
  unfold wake_due_waits, list_expired_execution_waits, list_due_execution_waits,
    wake_expired, wake_due. evolve.
Qed.

Lemma ledger_wake_event `{!ResumeServiceLaws} c e p by_ limit :
  evolves ledger (wake_event c e p by_ limit).
Proof. unfold wake_event, list_pending_execution_waits_by_correlation. evolve. Qed.

Lemma ledger_validate_wait wt : evolves ledger (validate_wait wt).
Proof. unfold validate_wait. evolve. Qed.

Lemma validate_wait_id wt w wt' w' : validate_wait wt w = (Ok wt', w') -> wt_id wt' = wt_id wt /\ w' = w.
Proof.
  unfold validate_wait. cbv zeta.
  repeat match goal with
    | |- (if ?b then _ else _) w = _ -> _ => destruct b; [intros Heq; discriminate Heq|]
    end.
  by intros [= <- <-].
Qed.

Lemma ledger_list_execution_waits i st : evolves ledger (list_execution_waits i st).
Proof. unfold list_execution_waits. evolve. Qed.

Hint Resolve ledger_list_execution_waits : evolve.

(** Drawing an identifier and storing a wait under it. *)
Lemma ledger_draw_and_create `{!UuidUnique} {C} (wait_of : string -> ExecutionWait)
    p (h : exn -> M (ExecutionWait * bool)) (k : ExecutionWait * bool -> M C) :
  (forall id, wt_id (wait_of id) = id) ->
  (forall e, evolves ledger (h e)) -> (forall r, evolves ledger (k r)) ->
  evolves ledger (id ← uuid4;
                  wt ← validate_wait (wait_of id);
                  stored ← try_except (saved ← create_execution_wait wt; mret (saved, true)) p h;
                  k stored).
Proof.
  intros Hid Hh Hk w. unfold world_after. rewrite bind_unfold. unfold uuid4 at 1.
  set (w1 := set_w_uuids _ _). rewrite bind_unfold.
  assert (Hw1 : ledger w w1) by (apply ledger_frame; simpl; auto).
  pose proof (ledger_validate_wait (wait_of (env_uuid (w_uuids w))) w1) as Hw2.
  unfold world_after in Hw2.
  destruct (validate_wait _ w1) as [[wt|e] w2] eqn:Hv; simpl in *; [|by transitivity w1].
  apply validate_wait_id in Hv as [Hwt ->].
  apply ledger_continue; [|done].
  pose proof (ledger_create_execution_wait wt w w1 Hw1 eq_refl) as Hw3.
  unfold try_except, world_after in *. rewrite bind_unfold.
  destruct (create_execution_wait wt w1) as [[saved|e] w3]; simpl in *.
  - apply Hw3. exists (w_uuids w). rewrite Hwt, Hid. simpl. split; [lia|done].
  - transitivity w3; [apply Hw3; exists (w_uuids w); rewrite Hwt, Hid; simpl; split; [lia|done]|].
    destruct (p e); [apply Hh|reflexivity].
Qed.

Lemma ledger_create_wait `{!UuidUnique} i kind key cp rp po ck wake dl md :
  evolves ledger (create_wait i kind key cp rp po ck wake dl md).
Proof.
  unfold create_wait, get_execution.
  repeat match goal with
    | |- evolves _ (uuid4 ≫= _) => fail 1
    | |- _ => evolve_step
    end.
  apply (ledger_draw_and_create
    (fun id => mkExecutionWait id i kind WAIT_PENDING _ _ _ rp po None None wake dl None None _ _ md));
    auto; intros; unfold suspend_on_wait, update_execution; evolve.
Qed.
End WaitsLedger.
#[export] Hint Resolve ledger_create_wait : evolve.
#[export] Hint Resolve ledger_state_of_log ledger_emit_wait_event ledger_resolve_wait
  ledger_wake_due_waits ledger_wake_event : evolve.

(** ** Functional behaviour *)

Section WaitsFacts.
Context `{Env}.

Lemma state_of_log_spec i wf w :
  exists st w', state_of_log i wf w = (Ok st, w') /\ st_execution_id st = i
    /\ stamped w w' /\ w_events w' = w_events w.
Proof.
  unfold state_of_log, new_state, list_events. execute. eexists _, _. split; [done|].
  split; [by destruct (last _)|]. split; [by apply stamped_frame|done].
Qed.

Lemma emit_wait_event_spec i wf ty payload w :
  exists ev w', emit_wait_event i wf ty payload w = (Ok tt, w') /\ ev_event_type ev = ty
    /\ events_of i w' = events_of i w ++ [ev] /\ stamped w w'.
Proof.
  unfold emit_wait_event. destruct (state_of_log_spec i wf w) as (st & w1 & E1 & Hi & Hst & Hev).
  rewrite (bind_Ok _ _ _ _ _ E1). unfold emit_simple.
  destruct (emit_appends st ty None payload [] [] None None None None None w1)
    as (ev & st' & w2 & E2 & Hty & _ & Hlog & _ & _).
  pose proof (stamped_emit st ty None payload [] [] None None None None None w1) as Hst2.
  unfold world_after in Hst2. rewrite E2 in Hst2. simpl in Hst2.
  rewrite (bind_Ok _ _ _ _ _ E2). exists ev, w2. split; [done|]. split; [done|].
  rewrite Hi in Hlog. split; [|by transitivity w1].
  rewrite Hlog. unfold events_of. by rewrite Hev.
Qed.

Lemma total_emit_wait_event i wf ty payload : total (emit_wait_event i wf ty payload).
Proof. intros w. destruct (emit_wait_event_spec i wf ty payload w) as (?&?&->&_). by eexists _, _. Qed.

(** The fields of a stamped execution that the emitter cannot have changed. *)
Lemma stamped_execution i e w w' :
  stamped w w' -> dget i (w_executions w) = Some e ->
  exists e', dget i (w_executions w') = Some e' /\ same_but_activity e e'.
Proof.
  intros Hs He. pose proof (sp_executions _ _ Hs i) as Hf. rewrite He in Hf.
  inversion Hf; subst. by eexists.
Qed.

Lemma same_active_wait k e e' :
  same_but_activity e e' -> active_wait_is k (ex_metadata e') = active_wait_is k (ex_metadata e).
Proof. intros [_ Hk]. unfold active_wait_is, pget. by rewrite Hk. Qed.

Lemma active_wait_is_entry wt d : active_wait_is (wt_id wt) (dset "active_wait" (active_wait_entry wt) d) = true.
Proof.
  unfold active_wait_is, pget. rewrite dget_dset_eq. simpl. unfold eq_str. simpl. apply String.eqb_refl.
Qed.

(** The wait is stored, the execution has the status of the wait and points
    at it. *)
Definition suspended_on (i : string) (wt : ExecutionWait) (w : world) : Prop :=
  dget (wt_id wt) (w_waits w) = Some wt /\ wait_is_pending wt = true /\ wt_execution_id wt = i
  /\ exists e, dget i (w_executions w) = Some e
       /\ ex_status e = WAIT_EXECUTION_STATUS (wt_kind wt)
       /\ active_wait_is (wt_id wt) (ex_metadata e) = true.

Lemma suspended_on_stamped i wt w w' : stamped w w' -> suspended_on i wt w -> suspended_on i wt w'.
Proof.
  intros Hs (Hg & Hp & Hi & e & He & Hst & Ha). split; [by rewrite (sp_waits _ _ Hs)|].
  split; [done|]. split; [done|].
  destruct (stamped_execution i e w w' Hs He) as (e' & He' & Hsame). exists e'.
  split; [done|]. split; [|by rewrite (same_active_wait _ _ _ Hsame)].
  rewrite <-Hst. by apply (same_but_activity_field ex_status).
Qed.

(** *** Creating a wait *)

Definition wait_request_ok (kind : ExecutionWaitKind) (key : string) (correlation_key : option string)
    (wake_at deadline_at : option Z) : bool :=
  let k := py_strip key in
  let c := py_strip (default "" correlation_key) in
  negb (String.eqb k "") && (String.length k <=? 255)%nat && (String.length c <=? 255)%nat
  && Bool.eqb (bool_decide (kind = SLEEP)) (opt_some wake_at)
  && (negb (bool_decide (kind = EVENT)) || negb (String.eqb c ""))
  && match wake_at, deadline_at with
     | Some wake, Some deadline => wake <=? deadline
     | _, _ => true
     end.

Lemma validate_wait_ok id i kind key cp rp po ck wake dl now md w :
  wait_request_ok kind key ck wake dl = true ->
  let c := py_strip (default "" ck) in
  let wt := mkExecutionWait id i kind WAIT_PENDING (py_strip key)
    (if String.eqb c "" then None else Some c) cp rp po None None wake dl None None now now md in
  validate_wait wt w = (Ok wt, w).
Proof.
  intros Hok c wt. unfold wait_request_ok in Hok. fold c in Hok.
  repeat rewrite andb_true_iff in Hok. destruct Hok as [[[[[Hk Hlk] Hlc] Hs] He] Ht].
  apply negb_true_iff in Hk. apply Nat.leb_le in Hlk, Hlc.
  assert (Hc : py_strip (default "" (if String.eqb c "" then None else Some c)) = c).
  { destruct (String.eqb_spec c "") as [->|_]; [done|]. apply py_strip_idem. }
  assert (Hlen : (match (if String.eqb c "" then None else Some c) with
                  | Some s => (255 <? String.length s)%nat
                  | None => false
                  end) = false).
  { destruct (String.eqb c ""); [done|]. apply Nat.ltb_ge. lia. }
  assert (Hk0 : (String.length (py_strip key) <? 1)%nat = false).
  { apply Nat.ltb_ge. destruct (py_strip key); [done|]. simpl. lia. }
  unfold validate_wait, wait_is_pending, wt.
  cbn [wt_id wt_execution_id wt_kind wt_status wt_idempotency_key wt_correlation_key wt_checkpoint
       wt_request_payload wt_policy wt_resolution_payload wt_resolution_key wt_wake_at wt_deadline_at
       wt_resolved_at wt_resolved_by wt_created_at wt_updated_at wt_metadata].
  rewrite Hlen, Hc, py_strip_idem, Hk, Hk0.
  replace (255 <? String.length (py_strip key))%nat with false by (symmetry; apply Nat.ltb_ge; lia).
  apply eqb_prop in Hs. rewrite <-Hs, (bool_decide_not (kind = SLEEP)).
  cbn [orb andb negb].
  destruct (bool_decide (kind = SLEEP)); cbn [orb andb negb].
  all: destruct (bool_decide (kind = EVENT)), (String.eqb c ""); try discriminate He; cbn [orb andb negb].
  all: destruct wake as [wake|], dl as [dl|]; try done.
  all: apply Z.leb_le in Ht; by replace (dl <? wake) with false by (symmetry; apply Z.ltb_ge; lia).
Qed.

(** No stored wait of [i] is pending or has the key. *)
Definition no_wait_conflict (i key : string) (w : world) : Prop :=
  forall wt, In wt (dvalues (w_waits w)) -> wt_execution_id wt = i ->
    wait_is_pending wt = false /\ wt_idempotency_key wt <> key.

Lemma no_conflict_pending i key w : no_wait_conflict i key w ->
  list_execution_waits i (Some WAIT_PENDING) w = (Ok [], w).
Proof.
  intros Hno. unfold list_execution_waits, gets. do 2 f_equal. apply py_sorted_nil.
  apply filter_false. intros wt Hin. destruct (String.eqb_spec (wt_execution_id wt) i) as [Hi|]; [|done].
  by destruct (Hno wt Hin Hi) as [Hp _].
Qed.

(** The end of [create_wait] and of [resolve_wait]: some updates of the object
    [i], a save, and an event. *)
Lemma update_and_emit_spec i wf ty payload e w :
  dget i (w_executions w) = Some e ->
  exists ev w' e', (update_execution i;; emit_wait_event i wf ty payload) w = (Ok tt, w')
    /\ ev_event_type ev = ty /\ events_of i w' = events_of i w ++ [ev] /\ w_waits w' = w_waits w
    /\ dget i (w_executions w') = Some e' /\ same_but_activity e e'.
Proof.
  intros He. unfold update_execution. rewrite bind_unfold.
  destruct (total_repo_save_execution i w) as ([] & w1 & E1). rewrite E1.
  pose proof (stamped_repo_save_execution i w) as Hs1. unfold world_after in Hs1.
  rewrite E1 in Hs1. simpl in Hs1.
  assert (Hev1 : w_events w1 = w_events w).
  { unfold repo_save_execution in E1. execute. by injection E1 as <-. }
  destruct (emit_wait_event_spec i wf ty payload w1) as (ev & w2 & E2 & Hty & Hlog & Hs2).
  assert (Hs : stamped w w2) by by transitivity w1.
  destruct (stamped_execution i e w w2 Hs He) as (e' & He' & Hsame).
  exists ev, w2, e'. rewrite E2. repeat split; auto.
  - rewrite Hlog. unfold events_of. by rewrite Hev1.
  - apply (sp_waits _ _ Hs).
  - apply Hsame.
  - apply Hsame.
Qed.

Lemma suspend_on_wait_spec i wf kind saved e w :
  dget i (w_executions w) = Some e ->
  exists ev w' e', suspend_on_wait i wf kind saved w = (Ok tt, w')
    /\ ev_event_type ev = EXECUTION_WAITING /\ events_of i w' = events_of i w ++ [ev]
    /\ w_waits w' = w_waits w /\ dget i (w_executions w') = Some e'
    /\ ex_status e' = WAIT_EXECUTION_STATUS kind
    /\ active_wait_is (wt_id saved) (ex_metadata e') = true.
Proof.
  intros He. unfold suspend_on_wait.
  rewrite (bind_unfold (assign _ _)). cbn [assign modify].
  rewrite (bind_unfold (assign _ _)). cbn [assign modify].
  set (w1 := set_w_executions _ (set_w_executions _ w)).
  assert (He1 : dget i (w_executions w1) =
    Some (set_ex_metadata (dset "active_wait" (active_wait_entry saved) (ex_metadata e))
            (set_ex_status (WAIT_EXECUTION_STATUS kind) e))).
  { unfold w1. cbn. rewrite !dget_dalter, String.eqb_refl, He. done. }
  destruct (update_and_emit_spec i wf EXECUTION_WAITING
    [("wait_id", PStr (wt_id saved)); ("kind", PStr (wait_kind_value (wt_kind saved)));
     ("status", PStr (wait_status_value (wt_status saved)));
     ("correlation_key", opt_str (wt_correlation_key saved));
     ("wake_at", opt_iso (wt_wake_at saved)); ("deadline_at", opt_iso (wt_deadline_at saved))]
    _ w1 He1) as (ev & w' & e' & Hrun & Hty & Hlog & Hw & He' & Hsame).
  exists ev, w', e'. repeat split; auto.
  - by rewrite (same_but_activity_field ex_status _ _ Hsame).
  - rewrite (same_active_wait _ _ _ Hsame). apply active_wait_is_entry.
Qed.

Lemma no_conflict_create i key wt w :
  no_wait_conflict i key w -> wt_execution_id wt = i -> wt_idempotency_key wt = key ->
  create_execution_wait wt w = (Ok wt, set_w_waits (dset (wt_id wt) wt (w_waits w)) w).
Proof.
  intros Hno Hi Hk. unfold create_execution_wait. rewrite bind_unfold. cbn [gets].
  rewrite find_false, existsb_false, andb_false_r; [done| |].
  all: intros x Hx; unfold pending_for, same_idempotency; rewrite ?Hi, ?Hk.
  all: destruct (String.eqb_spec (wt_execution_id x) i) as [Hxi|]; [|done].
  all: destruct (Hno x Hx Hxi) as [Hp Hne]; simpl; auto.
  by apply String.eqb_neq.
Qed.

(** A paused execution without a conflicting wait is suspended: the wait is
    stored as pending under the stripped key, the execution takes the status of
    the wait kind and points at the wait, and one [execution_waiting] event is
    logged. *)
Theorem create_wait_suspends i kind key cp rp po ck wake dl md e w :
  dget i (w_executions w) = Some e ->
  ex_status e ∈ WAIT_CREATION_SOURCE_STATUSES ->
  wait_request_ok kind key ck wake dl = true ->
  no_wait_conflict i (py_strip key) w ->
  exists wt ev w', create_wait i kind key cp rp po ck wake dl md w = (Ok (wt, true), w')
    /\ suspended_on i wt w' /\ wt_kind wt = kind /\ wt_idempotency_key wt = py_strip key
    /\ events_of i w' = events_of i w ++ [ev] /\ ev_event_type ev = EXECUTION_WAITING.
Proof.
  intros He Hst Hok Hno. unfold create_wait.
  rewrite bind_unfold. cbn [get_execution gets]. rewrite He.
  rewrite bool_decide_eq_true_2 by done. cbn [negb].
  assert (Hk : String.eqb (py_strip key) "" = false).
  { unfold wait_request_ok in Hok. by destruct (String.eqb (py_strip key) ""). }
  assert (Ht : match wake, dl with Some x, Some y => y <? x | _, _ => false end = false).
  { unfold wait_request_ok in Hok. apply andb_prop in Hok as [_ Ht].
    destruct wake, dl; auto. apply Z.ltb_ge. by apply Z.leb_le. }
  cbv zeta. rewrite Hk, bind_unfold. cbn [utc_now]. rewrite Ht.
  rewrite bind_unfold, (no_conflict_pending i (py_strip key)) by exact Hno.
  rewrite bind_unfold. cbn [uuid4].
  rewrite bind_unfold, validate_wait_ok by exact Hok. cbv zeta.
  rewrite bind_unfold. unfold try_except. rewrite bind_unfold.
  rewrite (no_conflict_create i (py_strip key)) by done. cbn [mret M_ret negb].
  set (wt := mkExecutionWait _ _ _ _ _ _ _ _ _ _ _ _ _ _ _ _ _ _).
  set (w1 := set_w_waits _ _).
  destruct (suspend_on_wait_spec i (ex_workflow_id e) kind wt e w1 He)
    as (ev & w2 & e2 & Hrun & Hty & Hlog & Hw & He2 & Hst2 & Ha2).
  rewrite bind_unfold, Hrun. exists wt, ev, w2. repeat split; auto.
  - rewrite Hw. apply dget_dset_eq.
  - by exists e2.
Qed.

(** The pending waits that [create_wait] sees while the execution is suspended. *)
Lemma suspended_on_pending i wt w :
  one_pending w -> suspended_on i wt w ->
  list_execution_waits i (Some WAIT_PENDING) w = (Ok [wt], w).
Proof.
  intros Hone (Hg & Hp & Hi & _). unfold list_execution_waits, gets. do 2 f_equal.
  rewrite (filter_unique _ _ wt); [done| |by apply (dget_values (wt_id wt))|].
  - apply (Hone i).
  - by rewrite Hi, String.eqb_refl.
Qed.

(** While an execution is suspended, asking for the same key again returns
    the pending wait and [false]; any other key is a conflict.  Neither touches
    anything but the clock. *)
Lemma create_wait_while_suspended i kind key cp rp po ck wake dl md wt w :
  one_pending w -> suspended_on i wt w -> py_strip key <> "" ->
  match wake, dl with Some x, Some y => x <= y | _, _ => True end ->
  exists msg, create_wait i kind key cp rp po ck wake dl md w =
    ((if String.eqb (wt_idempotency_key wt) (py_strip key) then Ok (wt, false)
      else Raise (mkExn ExecutionWaitConflictError msg)), set_w_clock (S (w_clock w)) w).
Proof.
  intros Hone Hsus Hk Ht. eexists. unfold create_wait.
  pose proof Hsus as (_ & _ & _ & e & He & Hst & _).
  rewrite bind_unfold. cbn [get_execution gets]. rewrite He.
  assert (Hb : bool_decide (ex_status e ∈ WAIT_CREATION_SOURCE_STATUSES) = true)
    by (rewrite Hst; by destruct (wt_kind wt)).
  rewrite Hb.
  apply String.eqb_neq in Hk. cbn [negb]. cbv zeta. rewrite Hk, bind_unfold. cbn [utc_now].
  replace (match wake, dl with Some x, Some y => y <? x | _, _ => false end) with false
    by (destruct wake, dl; auto; symmetry; apply Z.ltb_ge; done).
  rewrite bind_unfold, (suspended_on_pending i wt) by done.
  destruct (String.eqb (wt_idempotency_key wt) (py_strip key)); reflexivity.
Qed.

(** A wait can only be created while the execution is parked at a
    checkpoint; otherwise the request is refused and nothing changes. *)
Lemma create_wait_unparked i kind key cp rp po ck wake dl md e w :
  dget i (w_executions w) = Some e -> ex_status e ∉ WAIT_CREATION_SOURCE_STATUSES ->
  exists msg, create_wait i kind key cp rp po ck wake dl md w =
    (Raise (mkExn ExecutionWaitConflictError msg), w).
Proof.
  intros He Hst. eexists. unfold create_wait. rewrite bind_unfold. cbn [get_execution gets].
  rewrite He. by rewrite bool_decide_eq_false_2.
Qed.

(** Waits of an execution are created one at a time: while the execution is
    suspended, asking for the same key again returns the pending wait and [false],
    any other key is a conflict, and neither touches anything but the clock; an
    execution that is neither parked nor waiting is refused and nothing changes. *)
Theorem create_wait_guarded i kind key cp rp po ck wake dl md e w :
  one_pending w -> dget i (w_executions w) = Some e ->
  (forall wt, suspended_on i wt w -> py_strip key <> "" ->
     match wake, dl with Some x, Some y => x <= y | _, _ => True end ->
     exists msg, create_wait i kind key cp rp po ck wake dl md w =
       ((if String.eqb (wt_idempotency_key wt) (py_strip key) then Ok (wt, false)
         else Raise (mkExn ExecutionWaitConflictError msg)), set_w_clock (S (w_clock w)) w))
  /\ (ex_status e ∉ WAIT_CREATION_SOURCE_STATUSES ->
      exists msg, create_wait i kind key cp rp po ck wake dl md w =
        (Raise (mkExn ExecutionWaitConflictError msg), w)).
Proof.
  intros Hone He. split; [intros wt; by apply create_wait_while_suspended|by apply (create_wait_unparked _ _ _ _ _ _ _ _ _ _ e)].
Qed.

(** Reusing the key of a wait that is no longer pending parks the execution
    on that finished wait: [create_wait] reports a new wait, the execution
    waits on it, and yet the wait it points at is terminal. *)
Theorem create_wait_reused_key i kind key cp rp po ck wake dl md old e w :
  dget i (w_executions w) = Some e ->
  ex_status e ∈ WAIT_CREATION_SOURCE_STATUSES ->
  wait_request_ok kind key ck wake dl = true ->
  (forall wt, In wt (dvalues (w_waits w)) -> wt_execution_id wt = i -> wait_is_pending wt = false) ->
  List.find (fun wt => String.eqb (wt_execution_id wt) i
                       && String.eqb (wt_idempotency_key wt) (py_strip key))
    (dvalues (w_waits w)) = Some old ->
  exists w' e', create_wait i kind key cp rp po ck wake dl md w = (Ok (old, true), w')
    /\ wait_is_pending old = false /\ w_waits w' = w_waits w
    /\ dget i (w_executions w') = Some e'
    /\ ex_status e' = WAIT_EXECUTION_STATUS kind
    /\ active_wait_is (wt_id old) (ex_metadata e') = true.
Proof.
  intros He Hst Hok Hnp Hold. unfold create_wait.
  rewrite bind_unfold. cbn [get_execution gets]. rewrite He.
  rewrite bool_decide_eq_true_2 by done. cbn [negb].
  assert (Hk : String.eqb (py_strip key) "" = false).
  { unfold wait_request_ok in Hok. by destruct (String.eqb (py_strip key) ""). }
  assert (Ht : match wake, dl with Some x, Some y => y <? x | _, _ => false end = false).
  { unfold wait_request_ok in Hok. apply andb_prop in Hok as [_ Ht].
    destruct wake, dl; auto. apply Z.ltb_ge. by apply Z.leb_le. }
  cbv zeta. rewrite Hk, bind_unfold. cbn [utc_now]. rewrite Ht.
  assert (Hpend : forall w1, w_waits w1 = w_waits w ->
    list_execution_waits i (Some WAIT_PENDING) w1 = (Ok [], w1)).
  { intros w1 Hw1. unfold list_execution_waits, gets. do 2 f_equal. apply py_sorted_nil.
    apply filter_false. intros wt. rewrite Hw1. intros Hin.
    destruct (String.eqb_spec (wt_execution_id wt) i) as [Hi|]; [|done]. by apply (Hnp wt). }
  rewrite bind_unfold, Hpend by done.
  rewrite bind_unfold. cbn [uuid4].
  rewrite bind_unfold, validate_wait_ok by exact Hok. cbv zeta.
  rewrite bind_unfold. unfold try_except. rewrite bind_unfold.
  unfold create_execution_wait. rewrite bind_unfold. cbn [gets].
  unfold same_idempotency. cbn [wt_execution_id wt_idempotency_key w_waits set_w_uuids set_w_clock].
  rewrite Hold. cbn [mret M_ret negb].
  match goal with |- context [(suspend_on_wait _ _ _ _ ≫= _) ?w0] => set (w1 := w0) end.
  destruct (suspend_on_wait_spec i (ex_workflow_id e) kind old e w1 He)
    as (ev & w2 & e2 & Hrun & _ & _ & Hw & He2 & Hst2 & Ha2).
  rewrite bind_unfold, Hrun. exists w2, e2. repeat split; auto.
  apply find_some in Hold as [Hin Hkey%andb_prop]. apply Hnp; [done|].
  by apply String.eqb_eq, (proj1 Hkey).
Qed.
End WaitsFacts.

(** ** Resolving a wait *)

Section ResolutionFacts.
Context `{Env} `{ResumeService}.

Lemma get_wait_found i k wt w :
  dget k (w_waits w) = Some wt -> wt_execution_id wt = i -> get_wait i k w = (Ok wt, w).
Proof.
  intros Hg Hi. unfold get_wait. rewrite bind_unfold. cbn [get_execution_wait gets].
  by rewrite Hg, Hi, String.eqb_refl.
Qed.

(** A pending wait never moves an execution that was cancelled, resumed or
    otherwise redirected: if the execution no longer has the status of the wait
    or no longer points at it, the resolution is a conflict and the world is
    unchanged. *)
Lemma resolve_wait_redirected i k key payload st by_ resume wt e w :
  dget k (w_waits w) = Some wt -> wt_id wt = k -> wt_execution_id wt = i ->
  wait_is_pending wt = true -> dget i (w_executions w) = Some e ->
  st ∈ TERMINAL_EXECUTION_WAIT_STATUSES -> py_strip key <> "" ->
  ex_status e <> WAIT_EXECUTION_STATUS (wt_kind wt) \/ active_wait_is k (ex_metadata e) = false ->
  exists msg, resolve_wait i k key payload st by_ resume w =
    (Raise (mkExn ExecutionWaitConflictError msg), w).
Proof.
  intros Hg Hid Hi Hp He Hst Hk Hmoved. eexists. unfold resolve_wait.
  rewrite bool_decide_eq_true_2 by done. cbn [negb]. cbv zeta.
  apply String.eqb_neq in Hk. rewrite Hk.
  rewrite bind_unfold, (get_wait_found i k wt) by done. rewrite Hp. cbn [when].
  rewrite bind_unfold. unfold check_suspension. rewrite bind_unfold. cbn [get_execution gets].
  rewrite He, Hid.
  replace (bool_decide _ || negb _) with true; [reflexivity|].
  symmetry. apply orb_true_iff. destruct Hmoved as [Hne|Ha].
  - left. by apply bool_decide_eq_true_2.
  - right. by rewrite Ha.
Qed.

(** The entry of [wait_resolutions] for [k] in an input payload. *)
Definition recorded_resolution (k : string) (input : dict pyval) : option pyval :=
  match pget "wait_resolutions" input with PDict d => dget k d | _ => None end.

(** Earlier resolutions are recorded in a dictionary (or there are none). *)
Definition resolutions_readable (input : dict pyval) : bool :=
  match pget "wait_resolutions" input with PDict _ => true | v => negb (truthy v) end.

Lemma apply_resolution_spec i resolved e w :
  dget i (w_executions w) = Some e -> resolutions_readable (ex_input_payload e) = true ->
  exists w' e', apply_resolution i resolved w = (Ok tt, w')
    /\ w_waits w' = w_waits w /\ w_events w' = w_events w
    /\ dget i (w_executions w') = Some e' /\ ex_status e' = PAUSED
    /\ active_wait_is (wt_id resolved) (ex_metadata e') = false
    /\ recorded_resolution (wt_id resolved) (ex_input_payload e')
         = Some (wait_resolution_entry resolved).
Proof.
  intros He Hr. unfold apply_resolution.
  rewrite bind_unfold. unfold deref. rewrite He. cbv zeta.
  rewrite bind_unfold. cbn [assign modify].
  assert (Hd : exists d, forall w0, (if truthy (pget "wait_resolutions" (ex_input_payload e))
      then py_dict (pget "wait_resolutions" (ex_input_payload e)) else mret []) w0 = (Ok d, w0)).
  { unfold resolutions_readable in Hr.
    destruct (pget "wait_resolutions" (ex_input_payload e)) as [| | | | | |d];
      try (apply negb_true_iff in Hr; rewrite Hr; by exists []).
    simpl. destruct d as [|kv d]; [by exists []|]. by exists (kv :: d). }
  destruct Hd as [d Hd]. rewrite bind_unfold, Hd.
  rewrite bind_unfold. cbn [assign modify].
  rewrite bind_unfold. cbn [assign modify].
  unfold update_execution, repo_save_execution. execute.
  eexists _, _. split; [reflexivity|]. cbn. split; [done|]. split; [done|].
  rewrite !dget_dalter, String.eqb_refl, He. cbn. split; [done|]. split; [done|]. split.
  - unfold active_wait_is at 1, pget. cbn [ex_metadata set_ex_updated_at set_ex_status set_ex_input_payload set_ex_metadata].
    rewrite dget_dset_ne by done.
    destruct (active_wait_is (wt_id resolved) (ex_metadata e)) eqn:Ha.
    + by rewrite dget_dpop_eq.
    + exact Ha.
  - unfold recorded_resolution, pget. cbn [ex_input_payload set_ex_updated_at set_ex_status set_ex_input_payload set_ex_metadata].
    rewrite dget_dset_eq. cbn. by rewrite dget_dset_eq.
Qed.

Lemma recorded_same e e' :
  same_but_activity e e' -> ex_input_payload e' = ex_input_payload e.
Proof. intros Hs. by apply (same_but_activity_field ex_input_payload). Qed.

(** Resolving the wait that an execution is suspended on (without an
    automatic resume): the wait gets its final status, payload and key; the
    execution is paused, no longer points at the wait and carries the recorded
    resolution; one [execution_woken] event is logged. *)
Theorem resolve_wait_claims i key payload st by_ resume wt e w :
  suspended_on i wt w -> dget i (w_executions w) = Some e ->
  resolutions_readable (ex_input_payload e) = true ->
  st ∈ TERMINAL_EXECUTION_WAIT_STATUSES -> py_strip key <> "" ->
  resume && bool_decide (st = WAIT_RESOLVED) = false ->
  exists won ev w' e', resolve_wait i (wt_id wt) key payload st by_ resume w =
      (Ok (mkResolveOutcome won true false None), w')
    /\ dget (wt_id wt) (w_waits w') = Some won
    /\ wt_status won = st /\ wt_resolution_key won = Some (py_strip key)
    /\ wt_resolution_payload won = Some payload
    /\ events_of i w' = events_of i w ++ [ev] /\ ev_event_type ev = EXECUTION_WOKEN
    /\ dget i (w_executions w') = Some e' /\ ex_status e' = PAUSED
    /\ active_wait_is (wt_id wt) (ex_metadata e') = false
    /\ recorded_resolution (wt_id wt) (ex_input_payload e') = Some (wait_resolution_entry won).
Proof.
  intros (Hg & Hp & Hi & e0 & He0 & Hst0 & Ha0) He Hr Hst Hk Hno. rewrite He in He0. injection He0 as <-. subst i.
  unfold resolve_wait. rewrite bool_decide_eq_true_2 by done. cbn [negb]. cbv zeta.
  apply String.eqb_neq in Hk. rewrite Hk.
  rewrite bind_unfold, (get_wait_found (wt_execution_id wt) (wt_id wt) wt) by done.
  rewrite Hp. cbn [when].
  rewrite bind_unfold. unfold check_suspension. rewrite bind_unfold. cbn [get_execution gets].
  rewrite He, Hno, Ha0, bool_decide_eq_false_2 by auto. cbn [negb orb andb mret M_ret].
  rewrite bind_unfold. unfold resolve_execution_wait. rewrite bind_unfold. cbn [gets].
  rewrite Hg, Hp. cbn [negb]. rewrite bind_unfold. cbn [utc_now]. cbv zeta.
  set (won := mkExecutionWait _ _ _ _ _ _ _ _ _ _ _ _ _ _ _ _ _ _).
  rewrite bind_unfold. cbn [modify mret M_ret negb].
  set (w1 := set_w_waits _ _). rewrite bind_unfold. cbn [get_execution gets].
  replace (dget (wt_execution_id wt) (w_executions w1)) with (Some e) by (symmetry; exact He).
  destruct (apply_resolution_spec (wt_execution_id wt) won e w1) as
    (w2 & e2 & E2 & Hw2 & Hev2 & He2 & Hs2 & Ha2 & Hrec2); [done..|].
  rewrite bind_unfold, E2. rewrite bind_unfold.
  match goal with |- context [emit_wait_event ?i ?wf ?ty ?p w2] =>
    destruct (emit_wait_event_spec i wf ty p w2) as (ev & w3 & E3 & Hty & Hlog & Hs3) end.
  rewrite E3.
  destruct (stamped_execution _ _ _ _ Hs3 He2) as (e3 & He3 & Hsame).
  exists won, ev, w3, e3. split; [reflexivity|]. repeat split; auto.
  - rewrite (sp_waits _ _ Hs3), Hw2. apply dget_dset_eq.
  - rewrite Hlog. unfold events_of. by rewrite Hev2.
  - by rewrite (same_but_activity_field ex_status _ _ Hsame).
  - by rewrite (same_active_wait _ _ _ Hsame).
  - by rewrite (recorded_same _ _ Hsame).
Qed.

(** After the fact: the key that resolved a wait is answered with the stored
    wait, unclaimed; any other key is a conflict; the world is unchanged. *)
Lemma resolve_wait_finished i key payload st by_ resume wt w :
  dget (wt_id wt) (w_waits w) = Some wt -> wt_execution_id wt = i ->
  wait_is_pending wt = false ->
  st ∈ TERMINAL_EXECUTION_WAIT_STATUSES -> py_strip key <> "" ->
  exists msg, resolve_wait i (wt_id wt) key payload st by_ resume w =
    ((if opt_eqb (wt_resolution_key wt) (Some (py_strip key))
      then Ok (mkResolveOutcome wt false false None)
      else Raise (mkExn ExecutionWaitConflictError msg)), w).
Proof.
  intros Hg Hi Hp Hst Hk. eexists. unfold resolve_wait.
  rewrite bool_decide_eq_true_2 by done. cbn [negb]. cbv zeta.
  apply String.eqb_neq in Hk. rewrite Hk.
  rewrite bind_unfold, (get_wait_found i (wt_id wt) wt) by done. rewrite Hp. cbn [when].
  rewrite bind_unfold. cbn [mret M_ret].
  rewrite bind_unfold. unfold resolve_execution_wait. rewrite bind_unfold. cbn [gets].
  rewrite Hg, Hp. cbn [negb mret M_ret].
  destruct (opt_eqb (wt_resolution_key wt) (Some (py_strip key))); [reflexivity|].
  rewrite bind_unfold, (get_wait_found i (wt_id wt) wt) by done. reflexivity.
Qed.

(** A wait is resolved at most once and only for the execution that is
    suspended on it.  A pending wait of an execution that was cancelled, resumed or
    otherwise redirected is a conflict; a finished wait answers the key that
    resolved it with the stored wait, unclaimed, and any other key with a conflict.
    The world is unchanged in all these cases. *)
Theorem resolve_wait_guarded i key payload st by_ resume wt e w :
  dget (wt_id wt) (w_waits w) = Some wt -> wt_execution_id wt = i -> dget i (w_executions w) = Some e ->
  st ∈ TERMINAL_EXECUTION_WAIT_STATUSES -> py_strip key <> "" ->
  (wait_is_pending wt = true ->
   ex_status e <> WAIT_EXECUTION_STATUS (wt_kind wt) \/ active_wait_is (wt_id wt) (ex_metadata e) = false ->
   exists msg, resolve_wait i (wt_id wt) key payload st by_ resume w =
     (Raise (mkExn ExecutionWaitConflictError msg), w))
  /\ (wait_is_pending wt = false ->
      exists msg, resolve_wait i (wt_id wt) key payload st by_ resume w =
        ((if opt_eqb (wt_resolution_key wt) (Some (py_strip key))
          then Ok (mkResolveOutcome wt false false None)
          else Raise (mkExn ExecutionWaitConflictError msg)), w)).
Proof.
  intros Hg Hi He Hst Hk. split; [intros Hp; by apply (resolve_wait_redirected _ _ _ _ _ _ _ wt e)|].
  intros Hp. by apply resolve_wait_finished.
Qed.

(** ** Waking passes *)

Lemma total_wake_one wt key payload st by_ resume : total (wake_one wt key payload st by_ resume).
Proof. unfold wake_one. total. Qed.

Lemma wake_one_length wt key payload st by_ resume w items w' :
  wake_one wt key payload st by_ resume w = (Ok items, w') -> List.length items = 1%nat.
Proof.
  unfold wake_one, try_except. rewrite bind_unfold.
  destruct (resolve_wait _ _ _ _ _ _ _ w) as [[o|e] w1]; by intros [= <- <-].
Qed.

Lemma collect_length {A B} (f : A -> M (list B)) l w r w' :
  (forall x w r w', f x w = (Ok r, w') -> List.length r = 1%nat) ->
  collect f l w = (Ok r, w') -> List.length r = List.length l.
Proof.
  intros Hf. revert w r. induction l as [|x l IH]; simpl; intros w r.
  - by intros [= <- <-].
  - intros (y & w1 & Ey & (ys & w2 & Eys & Er)%bind_inv)%bind_inv.
    injection Er as <- <-. rewrite length_app, (Hf _ _ _ _ Ey), (IH _ _ Eys). done.
Qed.

(** A waking pass never raises: a wait whose resolution fails becomes an
    error item, and every scanned wait has exactly one item. *)
Theorem wake_due_waits_total now limit w :
  exists r w', wake_due_waits now limit w = (Ok r, w')
    /\ List.length (wr_items r) = wr_scanned r.
Proof.
  assert (Htot : total (wake_due_waits now limit)).
  { unfold wake_due_waits, list_expired_execution_waits, list_due_execution_waits,
      wake_expired, wake_due. pose proof total_wake_one. total. }
  destruct (Htot w) as (r & w' & E). exists r, w'. split; [done|].
  unfold wake_due_waits in E.
  apply bind_inv in E as (t & w1 & _ & E). apply bind_inv in E as (ex & w2 & _ & E).
  apply bind_inv in E as (exi & w3 & Hex & E). apply bind_inv in E as (due & w4 & _ & E).
  apply bind_inv in E as (duei & w5 & Hdue & E). injection E as <- <-. unfold wr_scanned. simpl.
  rewrite length_app. f_equal; eapply collect_length; try eassumption;
    intros x w0 r w'' Hr; by apply wake_one_length in Hr.
Qed.
End ResolutionFacts.

(** ** Witnesses *)

#[local] Instance sample_resume : ResumeService := fun i => mret i.

Lemma create_wait_suspends_witness :
  exists wt ev w', create_wait "e1" INPUT " step-1 " None [] [] None None None [] (sample_world PAUSED)
      = (Ok (wt, true), w')
    /\ suspended_on "e1" wt w' /\ wt_kind wt = INPUT /\ wt_idempotency_key wt = "step-1"
    /\ events_of "e1" w' = [] ++ [ev] /\ ev_event_type ev = EXECUTION_WAITING.
Proof.
  refine (create_wait_suspends "e1" INPUT " step-1 " None [] [] None None None []
            (sample_execution "e1" PAUSED) (sample_world PAUSED) _ _ _ _).
  - reflexivity.
  - by apply (bool_decide_unpack _).
  - reflexivity.
  - intros wt [].
Defined.

Lemma suspended_world_suspended : suspended_on "e1" (sample_wait WAIT_PENDING None) suspended_world.
Proof. repeat split. eexists. by repeat split. Defined.

Lemma create_wait_guarded_witness :
  (exists msg, create_wait "e1" INPUT "step-2" None [] [] None None None [] suspended_world =
    (Raise (mkExn ExecutionWaitConflictError msg), set_w_clock 1 suspended_world))
  /\ exists msg, create_wait "e1" INPUT "step-1" None [] [] None None None [] (sample_world RUNNING) =
    (Raise (mkExn ExecutionWaitConflictError msg), sample_world RUNNING).
Proof.
  split.
  - refine (proj1 (create_wait_guarded "e1" INPUT "step-2" None [] [] None None None [] _ suspended_world
              suspended_world_one_pending eq_refl) (sample_wait WAIT_PENDING None) _ _ I); [|done].
    exact suspended_world_suspended.
  - refine (proj2 (create_wait_guarded "e1" INPUT "step-1" None [] [] None None None []
              (sample_execution "e1" RUNNING) (sample_world RUNNING) _ eq_refl) _).
    + intros i. vm_compute. lia.
    + by apply (bool_decide_unpack _).
Defined.

(** The stranded execution: an input wait was answered, and the same key is used
    again. *)
Lemma create_wait_reused_key_witness :
  exists w' e', create_wait "e1" INPUT "step-1" None [] [] None None None []
      (set_w_waits [("id-", sample_wait WAIT_RESOLVED (Some "k"))] (sample_world PAUSED))
      = (Ok (sample_wait WAIT_RESOLVED (Some "k"), true), w')
    /\ wait_is_pending (sample_wait WAIT_RESOLVED (Some "k")) = false
    /\ w_waits w' = [("id-", sample_wait WAIT_RESOLVED (Some "k"))]
    /\ dget "e1" (w_executions w') = Some e'
    /\ ex_status e' = WAITING_FOR_INPUT /\ active_wait_is "id-" (ex_metadata e') = true.
Proof.
  refine (create_wait_reused_key "e1" INPUT "step-1" None [] [] None None None []
            (sample_wait WAIT_RESOLVED (Some "k")) (sample_execution "e1" PAUSED)
            (set_w_waits _ (sample_world PAUSED)) _ _ _ _ _).
  - reflexivity.
  - by apply (bool_decide_unpack _).
  - reflexivity.
  - by intros wt [<-|[]].
  - reflexivity.
Defined.

Lemma resolve_wait_claims_witness :
  exists won ev w' e', resolve_wait "e1" "id-" "k" [("answer", PInt 42)] WAIT_RESOLVED None false
      suspended_world = (Ok (mkResolveOutcome won true false None), w')
    /\ dget "id-" (w_waits w') = Some won
    /\ wt_status won = WAIT_RESOLVED /\ wt_resolution_key won = Some "k"
    /\ wt_resolution_payload won = Some [("answer", PInt 42)]
    /\ events_of "e1" w' = [] ++ [ev] /\ ev_event_type ev = EXECUTION_WOKEN
    /\ dget "e1" (w_executions w') = Some e' /\ ex_status e' = PAUSED
    /\ active_wait_is "id-" (ex_metadata e') = false
    /\ recorded_resolution "id-" (ex_input_payload e') = Some (wait_resolution_entry won).
Proof.
  refine (resolve_wait_claims "e1" "k" [("answer", PInt 42)] WAIT_RESOLVED None false
            (sample_wait WAIT_PENDING None) _ suspended_world suspended_world_suspended _ _ _ _ _).
  - reflexivity.
  - reflexivity.
  - by apply (bool_decide_unpack _).
  - done.
  - reflexivity.
Defined.

Lemma resolve_wait_guarded_witness :
  let moved := set_w_waits [("id-", sample_wait WAIT_PENDING None)] (sample_world CANCELLED) in
  let done_ := set_w_waits [("id-", sample_wait WAIT_RESOLVED (Some "k"))] (sample_world PAUSED) in
  (exists msg, resolve_wait "e1" "id-" "k" [] WAIT_RESOLVED None true moved =
     (Raise (mkExn ExecutionWaitConflictError msg), moved))
  /\ exists msg, resolve_wait "e1" "id-" "other" [] WAIT_RESOLVED None true done_ =
     (Raise (mkExn ExecutionWaitConflictError msg), done_).
Proof.
  intros moved done_. split.
  - refine (proj1 (resolve_wait_guarded "e1" "k" [] WAIT_RESOLVED None true (sample_wait WAIT_PENDING None)
              (sample_execution "e1" CANCELLED) moved eq_refl eq_refl eq_refl _ _) eq_refl _).
    + by apply (bool_decide_unpack _).
    + done.
    + by left.
  - refine (proj2 (resolve_wait_guarded "e1" "other" [] WAIT_RESOLVED None true
              (sample_wait WAIT_RESOLVED (Some "k")) (sample_execution "e1" PAUSED) done_
              eq_refl eq_refl eq_refl _ _) eq_refl).
    + by apply (bool_decide_unpack _).
    + done.
Defined.
