(* ===== verification/Classification.v ===== *)
(** * Stale execution classification

    [app/services/execution_classification.py]: whether an active execution
    looks abandoned, from the ages of its heartbeat and of its last recorded
    activity, and which executions wait on purpose. *)

From S2P Require Export Emitter.

Definition STALE_EXECUTION_STATUSES : list ExecutionStatus :=
  [QUEUED; RUNNING; WAITING_FOR_INPUT; WAITING_FOR_APPROVAL; WAITING_FOR_EVENT; SLEEPING; PAUSED;
   CANCELLING].

Definition INTENTIONAL_WAIT_STATUSES (st : ExecutionStatus) : option string :=
  match st with
  | WAITING_FOR_INPUT => Some "waiting_for_input"
  | WAITING_FOR_APPROVAL => Some "waiting_for_approval"
  | WAITING_FOR_EVENT => Some "waiting_for_event"
  | SLEEPING => Some "sleeping"
  | PAUSED => Some "paused"
  | _ => None
  end.

Definition INTENTIONAL_WAIT_CHECKPOINT_STATUSES : dict string :=
  [("needs_input", "waiting_for_input"); ("needs_approval", "waiting_for_approval")].

(** [isinstance(d.get(key), dict) and d.get(key).get(field) == s] *)
Definition entry_field_is (key field s : string) (d : dict pyval) : bool :=
  match pget key d with
  | PDict entry => eq_str (pget field entry) s
  | _ => false
  end.

(** The first checkpoint whose status names a wait. *)
Fixpoint checkpoint_wait_state (checkpoints : list pyval) : option string :=
  match checkpoints with
  | [] => None
  | PDict checkpoint :: rest =>
      match pget "status" checkpoint with
      | PStr st =>
          match dget st INTENTIONAL_WAIT_CHECKPOINT_STATUSES with
          | Some state => Some state
          | None => checkpoint_wait_state rest
          end
      | _ => checkpoint_wait_state rest
      end
  | _ :: rest => checkpoint_wait_state rest
  end.

Definition intentional_execution_wait_state (e : Execution) : option string :=
  match INTENTIONAL_WAIT_STATUSES (ex_status e) with
  | Some state => Some state
  | None =>
      let metadata := ex_metadata e in
      if entry_field_is "pending_subagent_input" "status" "needs_input" metadata then
        Some "waiting_for_input"
      else if entry_field_is "pending_subagent_approval" "status" "needs_approval" metadata then
        Some "waiting_for_approval"
      else
        match pget "runtime_callbacks" metadata with
        | PDict runtime_callbacks =>
            match pget "checkpoints" runtime_callbacks with
            | PDict checkpoints => checkpoint_wait_state (dvalues checkpoints)
            | _ => None
            end
        | _ => None
        end
  end.

Definition intentional_long_running_execution (e : Execution) : bool :=
  let metadata := ex_metadata e in
  if entry_field_is "execution_lifecycle" "run_mode" "always_on" metadata then true
  else
    match py_or (pget "runtime_policy" metadata) (pget "timeout_policy" metadata) with
    | PDict runtime_policy =>
        is_true (pget "long_running" runtime_policy) || is_true (pget "long_running" metadata)
    | _ => is_true (pget "long_running" metadata)
    end.

(** The decision part of the dictionary that [classify_execution_staleness]
    returns; the rest of it repeats the inputs. *)
Record staleness := mkStaleness {
  sl_is_stale : bool;
  sl_eligible_status : bool;
  sl_status : string;
  sl_stale_kind : option string;
  sl_wait_state : option string;
  sl_intentionally_waiting : bool;
  sl_intentionally_long_running : bool;
  sl_reference_at : Z;
  sl_age_seconds : Z;
  sl_activity_age_seconds : Z;
  sl_runtime_seconds : option Z;
  sl_reason : option string
}.

Definition exceeds (o : option Z) (limit : option Z) : bool :=
  match o, limit with Some n, Some l => l <? n | _, _ => false end.

(** The classification at a reading [now] of the clock. *)
Definition classify_at (now : Z) (e : Execution) (stale_after_seconds : Z)
    (idle_timeout_seconds run_timeout_seconds : option Z) : staleness :=
  let activity_reference_at := default (ex_updated_at e) (execution_last_activity_at e) in
  let heartbeat_reference_at := default activity_reference_at (ex_last_heartbeat_at e) in
  let age := age_seconds now heartbeat_reference_at in
  let activity_age := age_seconds now activity_reference_at in
  let runtime := age_seconds now <$> ex_started_at e in
  let eligible := bool_decide (ex_status e ∈ STALE_EXECUTION_STATUSES) in
  let wait_state := intentional_execution_wait_state e in
  let waiting := opt_some wait_state in
  let long_running := intentional_long_running_execution e in
  let approval_worker_wait := bool_decide (ex_status e = WAITING_FOR_APPROVAL) in
  let heartbeat_stale :=
    eligible && (negb waiting || approval_worker_wait) && (stale_after_seconds <? age) in
  let alive_but_idle :=
    eligible && negb waiting && negb heartbeat_stale && exceeds (Some activity_age) idle_timeout_seconds in
  let run_timeout_exceeded :=
    eligible && negb waiting && negb long_running && exceeds runtime run_timeout_seconds in
  let status := status_value (ex_status e) in
  let '(kind, reason) :=
    if heartbeat_stale then
      (Some "worker_unresponsive",
       Some ("Execution has status '" +:+ status +:+ "' with no recent worker heartbeat for "
             +:+ show_Z age +:+ " seconds."))
    else if alive_but_idle then
      (Some "alive_but_idle",
       Some ("Execution has status '" +:+ status +:+ "' and a live worker, but no agent activity for "
             +:+ show_Z activity_age +:+ " seconds."))
    else if run_timeout_exceeded then
      (Some "run_timeout_exceeded",
       Some ("Execution has status '" +:+ status +:+ "' and has exceeded the run timeout after "
             +:+ show_Z (default 0 runtime) +:+ " seconds."))
    else (None, None) in
  mkStaleness (heartbeat_stale || alive_but_idle || run_timeout_exceeded) eligible status kind
    wait_state waiting long_running heartbeat_reference_at age activity_age runtime reason.

Definition classify_execution_staleness `{Env} (e : Execution) (stale_after_seconds : Z)
    (idle_timeout_seconds run_timeout_seconds : option Z) : M staleness :=
  now ← utc_now;
  mret (classify_at now e stale_after_seconds idle_timeout_seconds run_timeout_seconds).

(** ** What the classification guarantees *)

(** Only active executions are ever stale, and an execution that waits on
    purpose is stale only as an approval wait whose heartbeat is too old. *)
Lemma stale_only_if_abandoned now e stale idle limit :
  sl_is_stale (classify_at now e stale idle limit) = true ->
  ex_status e ∈ STALE_EXECUTION_STATUSES
  /\ (intentional_execution_wait_state e = None
      \/ (ex_status e = WAITING_FOR_APPROVAL
          /\ stale < age_seconds now
               (default (default (ex_updated_at e) (execution_last_activity_at e))
                  (ex_last_heartbeat_at e)))).
Proof.
  unfold classify_at. cbv zeta.
  match goal with |- context [let '(_, _) := ?x in _] => destruct x as [kind reason] end.
  cbn [sl_is_stale].
  destruct (bool_decide_reflect (ex_status e ∈ STALE_EXECUTION_STATUSES)) as [Hin|]; [|done].
  intros Hs. split; [done|]. destruct (intentional_execution_wait_state e); [right|by left].
  cbn in Hs. rewrite ?andb_false_r, ?orb_false_r in Hs.
  apply andb_prop in Hs as [Ha%bool_decide_eq_true_1 Hage%Z.ltb_lt]. done.
Qed.

(** An execution whose heartbeat and activity are both younger than every
    limit is never stale, whatever its status. *)
Lemma fresh_never_stale now e stale idle limit :
  0 <= stale -> (forall i, idle = Some i -> 0 <= i) ->
  now <= default (default (ex_updated_at e) (execution_last_activity_at e)) (ex_last_heartbeat_at e)
         + stale * us_per_second ->
  (forall i, idle = Some i ->
     now <= default (ex_updated_at e) (execution_last_activity_at e) + i * us_per_second) ->
  (forall l t, limit = Some l -> ex_started_at e = Some t -> 0 <= l /\ now <= t + l * us_per_second) ->
  sl_is_stale (classify_at now e stale idle limit) = false
  /\ sl_stale_kind (classify_at now e stale idle limit) = None.
Proof.
  intros Hst Hid Hhb Hact Hrun.
  assert (Hage : forall t l, 0 <= l -> now <= t + l * us_per_second -> (l <? age_seconds now t) = false).
  { intros t l Hl Ht. apply Z.ltb_ge. unfold age_seconds. apply Z.max_lub; [done|].
    unfold us_per_second in *. destruct (Z.le_gt_cases 0 (now - t)).
    - rewrite Z.quot_div_nonneg by lia. apply Z.div_le_upper_bound; lia.
    - pose proof (Z.quot_le_mono (now - t) 0 1000000 ltac:(lia) ltac:(lia)) as Hq.
      rewrite Z.quot_0_l in Hq by lia. lia. }
  unfold classify_at. rewrite (Hage _ stale) by done. rewrite andb_false_r.
  assert (Hi : exceeds (Some (age_seconds now
    (default (ex_updated_at e) (execution_last_activity_at e)))) idle = false).
  { destruct idle as [i|]; [|done]. apply Hage; auto. }
  assert (Hr : exceeds (age_seconds now <$> ex_started_at e) limit = false).
  { destruct (ex_started_at e) as [t|], limit as [l|]; try done.
    destruct (Hrun l t); [done..|]. by apply Hage. }
  rewrite Hi, Hr, !andb_false_r. done.
Qed.

(** Staleness means abandonment.  Only active executions are ever stale, and
    one that waits on purpose only as an approval wait whose heartbeat is too old;
    an execution whose heartbeat and activity are younger than every limit is
    never stale, whatever its status. *)
Theorem staleness_is_abandonment now e stale idle limit :
  0 <= stale -> (forall i, idle = Some i -> 0 <= i) ->
  (sl_is_stale (classify_at now e stale idle limit) = true ->
   ex_status e ∈ STALE_EXECUTION_STATUSES
   /\ (intentional_execution_wait_state e = None
       \/ (ex_status e = WAITING_FOR_APPROVAL
           /\ stale < age_seconds now
                (default (default (ex_updated_at e) (execution_last_activity_at e))
                   (ex_last_heartbeat_at e)))))
  /\ (now <= default (default (ex_updated_at e) (execution_last_activity_at e)) (ex_last_heartbeat_at e)
          + stale * us_per_second ->
      (forall i, idle = Some i ->
         now <= default (ex_updated_at e) (execution_last_activity_at e) + i * us_per_second) ->
      (forall l t, limit = Some l -> ex_started_at e = Some t -> 0 <= l /\ now <= t + l * us_per_second) ->
      sl_is_stale (classify_at now e stale idle limit) = false
      /\ sl_stale_kind (classify_at now e stale idle limit) = None).
Proof. intros Hst Hid. split; [apply stale_only_if_abandoned|]. by apply fresh_never_stale. Qed.
