(* ===== verification/Approvals.v ===== *)
(** * Human approvals of tool calls

    [ApprovalManager] of [app/runtime/native/approvals.py] with the in-memory
    store, which supports durable approvals and waits: a call that needs a
    decision writes an approval row and an approval wait, marks the execution
    and unwinds with [ExecutionApprovalSuspendedError]; a later call consumes
    the persisted decision if it is for the same invocation.  The wait the
    manager creates always has an id, so the in-process polling that follows
    ([_await_decision]) belongs to stores without waits and is not modelled. *)

From S2P Require Export Waits.

(** The delegated decision provider, when the manager is configured with one:
    a call to another service. *)
Class DecisionProvider := {
  delegate_decision_provider :
    option (string -> string -> dict pyval -> dict pyval -> M (option ApprovalDecision))
}.

Class DecisionProviderLaws `{Env} `{DecisionProvider} : Prop :=
  delegate_ledger : forall f i t p m,
    delegate_decision_provider = Some f -> evolves ledger (f i t p m).

Definition approval_key (execution_id tool_id : string) : string := execution_id +:+ ":" +:+ tool_id.

(** [compare_digest] refuses text outside ASCII. *)
Fixpoint is_ascii (s : string) : bool :=
  match s with
  | EmptyString => true
  | String c s' => (nat_of_ascii c <? 128)%nat && is_ascii s'
  end.

(** [_persisted_decision] *)
Definition persisted_decision (request : option ApprovalRequest) : option ApprovalDecision :=
  match request with
  | None => None
  | Some row =>
      let status := ar_status row in
      if negb (mem_str status ["approved"; "rejected"; "expired"; "cancelled"]) then None
      else
        let response := ar_response_payload row in
        let granted := default (PBool true) (dget "granted" response) in
        Some (mkApprovalDecision
          (String.eqb status "approved" && negb (is_false granted))
          (Some (default ("Approval request became " +:+ status +:+ ".")
                   (as_str (pget "reason" response))))
          (Some (dict_or_empty (pget "metadata" response))))
  end.

Section Approvals.
Context `{Env} `{DecisionProvider}.

(** [_invocation_digest] *)
Definition invocation_digest (payload : dict pyval) : string :=
  env_sha256_hex (json_dumps env_float_repr "," ":" (PDict payload)).

Definition pop_pending (key : string) : M unit :=
  modify (fun w => set_w_pending (dpop key (w_pending w)) w);;
  modify (fun w => set_w_request_ids (dpop key (w_request_ids w)) w).

(** [_consume_resolved_decision] *)
Definition consume_resolved_decision (execution_id tool_id digest : string) :
    M (option ApprovalDecision) :=
  found ← get_execution execution_id;
  match found with
  | None => mret None
  | Some e =>
      match pget "pending_approval" (ex_metadata e) with
      | PDict pending =>
          if negb (eq_str (pget "tool_id" pending) tool_id) then mret None else
          let recorded :=
            py_str env_float_repr (py_or (pget "invocation_digest" pending) (PStr "")) in
          if negb (is_ascii recorded && is_ascii digest) then
            raise TypeError "comparing strings with non-ASCII characters is not supported"
          else if negb (String.eqb recorded digest) then mret None else
          match pget "request_id" pending with
          | PStr request_id =>
              row ← get_approval_request request_id;
              match persisted_decision row with
              | None => mret None
              | Some decision =>
                  assign execution_id (fun e =>
                    set_ex_metadata (dpop "pending_approval" (ex_metadata e)) e);;
                  update_execution execution_id;;
                  mret (Some decision)
              end
          | _ => mret None
          end
      | _ => mret None
      end
  end.

(** [_finish_inline_decision] *)
Definition finish_inline_decision (execution_id : string) : M unit :=
  found ← get_execution execution_id;
  match found with
  | None => mret tt
  | Some e =>
      assign execution_id (set_ex_metadata
        (dpop "active_wait" (dpop "pending_approval" (ex_metadata e))));;
      when (bool_decide (ex_status e = WAITING_FOR_APPROVAL))
        (assign execution_id (set_ex_status RUNNING));;
      update_execution execution_id
  end.

(** [_create_durable_approval_wait]; the id and both timestamps are defaults of
    the model class. *)
Definition create_durable_approval_wait (execution_id tool_id : string)
    (request_id : option string) (request_payload : dict pyval) : M string :=
  found ← get_execution execution_id;
  let checkpoint := match found with Some e => default [] (ex_output_payload e) | None => [] end in
  let subject := if str_truthy request_id then default "" request_id
                 else execution_id +:+ ":" +:+ tool_id in
  id ← uuid4;
  created_at ← utc_now;
  updated_at ← utc_now;
  wt ← validate_wait (mkExecutionWait id execution_id APPROVAL WAIT_PENDING
    (str_take 255 ("approval:" +:+ subject)) (Some ("approval:" +:+ tool_id)) checkpoint
    request_payload [] None None None None None None created_at updated_at
    [("approval_request_id", opt_str request_id); ("tool_id", PStr tool_id);
     ("source", PStr "approval_manager")]);
  saved ← create_execution_wait wt;
  mret (wt_id saved).

(** [_request_delegated_decision] *)
Definition request_delegated_decision (execution_id tool_id : string)
    (payload approval_metadata : dict pyval) : M (option ApprovalDecision) :=
  match delegate_decision_provider with
  | None => mret None
  | Some provider =>
      try_except (provider execution_id tool_id payload approval_metadata) any_exn
        (fun _ => mret None)
  end.

(** [_resolve_durable_approval_wait] *)
Definition resolve_durable_approval_wait (execution_id approval_request_id status : string)
    (response_payload : dict pyval) (responded_by : string) : M unit :=
  waits ← list_execution_waits execution_id (Some WAIT_PENDING);
  match List.find
          (fun item => bool_decide (wt_kind item = APPROVAL)
                       && eq_str (pget "approval_request_id" (wt_metadata item)) approval_request_id)
          waits with
  | None => mret tt
  | Some wt =>
      resolve_execution_wait (wt_id wt) WAIT_RESOLVED
        ("approval:" +:+ approval_request_id +:+ ":" +:+ status) response_payload (Some responded_by);;
      mret tt
  end.

(** [_resolve]; the store resolves the durable row, whose outcome decides. *)
Definition resolve_approval (execution_id tool_id : string) (decision : ApprovalDecision)
    (responded_by : string) : M bool :=
  let key := approval_key execution_id tool_id in
  future ← gets (fun w => dget key (w_pending w));
  let status := if ad_granted decision then "approved" else "rejected" in
  let response_payload :=
    [("reason", opt_str (ad_reason decision)); ("granted", PBool (ad_granted decision));
     ("metadata", PDict (default [] (ad_metadata decision)))] in
  persisted ← resolve_pending_approval_request execution_id tool_id status response_payload
                (Some responded_by);
  match persisted with
  | None => mret false
  | Some row =>
      resolve_durable_approval_wait execution_id (ar_id row) status response_payload responded_by;;
      match future with
      | Some None =>
          modify (fun w => set_w_pending (dset key (Some decision) (w_pending w)) w)
      | _ => mret tt
      end;;
      mret true
  end.

Definition approve (execution_id tool_id : string) (reason : option string) : M bool :=
  resolve_approval execution_id tool_id
    (mkApprovalDecision true reason (Some [("mode", PStr "manual")])) "manual".

Definition reject (execution_id tool_id : string) (reason : option string) : M bool :=
  resolve_approval execution_id tool_id
    (mkApprovalDecision false (Some (if str_truthy reason then default "" reason else "Rejected"))
       (Some [("mode", PStr "manual")])) "manual".

(** The setup of [request_approval]: the row, the wait, the mark on the
    execution, and the delegated decision if there is a provider. *)
Definition suspend_for_approval (execution_id tool_id : string) (payload : dict pyval)
    (redacted_payload : option (dict pyval)) (event_id : option string)
    (approval_metadata : dict pyval) : M ApprovalDecision :=
  let key := approval_key execution_id tool_id in
  let persisted_payload := default payload redacted_payload in
  let digest := invocation_digest payload in
  let request_payload :=
    [("arguments", PDict persisted_payload); ("approval_metadata", PDict approval_metadata);
     ("invocation_digest", PStr digest)] in
  request_id ← create_approval_request execution_id event_id tool_id "pending" request_payload;
  modify (fun w => set_w_request_ids (dset key request_id (w_request_ids w)) w);;
  wait_id ← create_durable_approval_wait execution_id tool_id (Some request_id) request_payload;
  found ← get_execution execution_id;
  when (opt_some found)
    (assign execution_id (set_ex_status WAITING_FOR_APPROVAL);;
     assign execution_id (fun e => set_ex_metadata
       (dset "active_wait"
          (PDict [("wait_id", PStr wait_id); ("kind", PStr (wait_kind_value APPROVAL))])
          (dset "pending_approval"
             (PDict [("request_id", PStr request_id); ("wait_id", PStr wait_id);
                     ("tool_id", PStr tool_id); ("invocation_digest", PStr digest);
                     ("payload", PDict persisted_payload);
                     ("approval_metadata", PDict approval_metadata)])
             (ex_metadata e))) e);;
     update_execution execution_id);;
  delegated ← request_delegated_decision execution_id tool_id persisted_payload approval_metadata;
  match delegated with
  | Some decision =>
      resolve_approval execution_id tool_id decision "main_agent";;
      finish_inline_decision execution_id;;
      mret decision
  | None =>
      raise ExecutionApprovalSuspendedError
        ("Execution '" +:+ execution_id +:+ "' is waiting for approval of tool '" +:+ tool_id +:+ "'.")
  end.

Definition request_approval (execution_id tool_id : string) (payload : dict pyval)
    (redacted_payload : option (dict pyval)) (event_id : option string)
    (approval_metadata : dict pyval) : M ApprovalDecision :=
  persisted ← consume_resolved_decision execution_id tool_id (invocation_digest payload);
  match persisted with
  | Some decision => mret decision
  | None =>
      let key := approval_key execution_id tool_id in
      modify (fun w => set_w_pending (dset key None (w_pending w)) w);;
      try_except
        (suspend_for_approval execution_id tool_id payload redacted_payload event_id approval_metadata)
        any_exn
        (fun exc => pop_pending key;; reraise exc)
  end.
End Approvals.

(** ** The approval manager satisfies the ledger contract *)

Section ApprovalsLedger.
Context `{Env} `{DecisionProvider}.

Lemma ledger_resolve_durable_approval_wait i r st p by_ :
  evolves ledger (resolve_durable_approval_wait i r st p by_).
Proof. unfold resolve_durable_approval_wait, list_execution_waits. evolve. Qed.

Hint Resolve ledger_resolve_durable_approval_wait : evolve.

Lemma ledger_resolve_approval i t d by_ : evolves ledger (resolve_approval i t d by_).
Proof. unfold resolve_approval. evolve. Qed.

Lemma ledger_consume_resolved_decision i t d : evolves ledger (consume_resolved_decision i t d).
Proof.
  unfold consume_resolved_decision, get_execution, get_approval_request, update_execution. evolve.
Qed.

Lemma ledger_finish_inline_decision i : evolves ledger (finish_inline_decision i).
Proof. unfold finish_inline_decision, get_execution, update_execution. evolve. Qed.

Lemma ledger_request_delegated_decision `{!DecisionProviderLaws} i t p m :
  evolves ledger (request_delegated_decision i t p m).
Proof.
  unfold request_delegated_decision. destruct delegate_decision_provider as [f|] eqn:Hf; [|evolve].
  apply evolves_try; [exact _|by apply delegate_ledger|intros; evolve].
Qed.

Lemma ledger_create_durable_approval_wait `{!UuidUnique} i t r p :
  evolves ledger (create_durable_approval_wait i t r p).
Proof.
  unfold create_durable_approval_wait, get_execution.
  apply evolves_bind; [exact _|apply evolves_gets; exact _|]. intros found. cbv zeta. intros w.
  apply ledger_bind_from; [reflexivity|apply ledger_uuid4|]. intros id w1 Hdraw Hw1.
  injection Hdraw as <- <-.
  apply ledger_bind_from; [done|apply ledger_utc_now|]. intros created w2 E2 Hw2.
  apply ledger_bind_from; [done|apply ledger_utc_now|]. intros updated w3 E3 Hw3.
  apply ledger_bind_from; [done|apply ledger_validate_wait|]. intros wt w4 Hv Hw4.
  apply validate_wait_id in Hv as [Hid ->]. injection E3 as _ <-. injection E2 as _ <-.
  apply ledger_continue; [|intros; evolve].
  apply ledger_create_execution_wait; [done|done|]. exists (w_uuids w). rewrite Hid.
  simpl. split; [lia|done].
Qed.

Hint Resolve ledger_resolve_approval ledger_consume_resolved_decision ledger_finish_inline_decision
  ledger_request_delegated_decision ledger_create_durable_approval_wait : evolve.

Lemma ledger_request_approval `{!UuidUnique} `{!DecisionProviderLaws} i t p rp ev m :
  evolves ledger (request_approval i t p rp ev m).
Proof.
  unfold request_approval, suspend_for_approval, get_execution, update_execution, pop_pending. evolve.
Qed.
End ApprovalsLedger.
#[export] Hint Resolve ledger_resolve_approval ledger_request_approval
  ledger_resolve_durable_approval_wait : evolve.

(** ** Decisions are final *)

Section ApprovalFacts.
Context `{Env} `{DecisionProvider}.

Definition latest_request (i t : string) (rows : list ApprovalRequest) : option ApprovalRequest :=
  py_max approval_le
    (List.filter (fun row => String.eqb (ar_execution_id row) i && String.eqb (ar_tool_id row) t) rows).

(** A resolution that succeeded left the latest request with its status. *)
Lemma resolve_pending_some i t st p by_ row w w' :
  approvals_keyed w ->
  resolve_pending_approval_request i t st p by_ w = (Ok (Some row), w') ->
  latest_request i t (dvalues (w_approvals w')) = Some row /\ ar_status row = st.
Proof.
  intros Hk. unfold resolve_pending_approval_request. rewrite bind_unfold. cbn [gets].
  fold (latest_request i t (dvalues (w_approvals w))).
  destruct (latest_request i t _) as [current|] eqn:Hmax; [|done].
  destruct (String.eqb_spec (ar_status current) st) as [Hst|]; [by intros [= <- <-]|].
  destruct (String.eqb_spec (ar_status current) "pending"); [|done]. cbn [negb].
  pose proof Hmax as Hin. apply py_max_In, filter_In in Hin as [Hin Hmatch].
  pose proof (approvals_keyed_In current w Hk Hin) as Hget.
  unfold update_approval_request, get_approval_request. execute. rewrite Hget. cbn.
  rewrite dget_dset_eq. intros [= <- <-]. split; [|done]. cbn. unfold latest_request.
  set (row' := mkApprovalRequest _ _ _ _ _ _ _ _ _ _).
  fold (dvalues (dset (ar_id current) row' (w_approvals w))).
  rewrite (dvalues_dset_replace ar_id _ _ current); [| |intros k r Hr|done].
  2: apply Hk.
  2: { apply (proj2 Hk). by apply In_dget; [apply Hk|]. }
  assert (Hsame : forall x, In x (dvalues (w_approvals w)) -> ar_id x = ar_id current -> x = current).
  { intros x Hx Heq. pose proof (approvals_keyed_In x w Hk Hx). congruence. }
  assert (Hmap : forall l, (forall x, In x l -> In x (dvalues (w_approvals w))) ->
    map (replace_id ar_id (ar_id current) row') l =
    map (fun x => if String.eqb (ar_id x) (ar_id current)
                  then mkApprovalRequest (ar_id x) (ar_execution_id x) (ar_event_id x) (ar_tool_id x)
                         st (ar_request_payload x) p (ar_requested_at x)
                         (Some (isoformat (env_now (w_clock w)))) by_
                  else x) l).
  { intros l Hl. apply map_ext_in. intros x Hx. unfold replace_id.
    destruct (String.eqb_spec (ar_id x) (ar_id current)) as [E|]; [|done].
    by rewrite (Hsame x (Hl x Hx) E). }
  rewrite Hmap by done. rewrite filter_map_same, py_max_map.
  - unfold latest_request in Hmax. rewrite Hmax. simpl. by rewrite String.eqb_refl.
  - intros x y. unfold approval_le.
    by destruct (String.eqb (ar_id x) _), (String.eqb (ar_id y) _).
  - intros x. by destruct (String.eqb (ar_id x) _).
Qed.

Lemma resolve_durable_rows i r st p by_ w :
  w_approvals (world_after (resolve_durable_approval_wait i r st p by_) w) = w_approvals w
  /\ exists u, result_of (resolve_durable_approval_wait i r st p by_) w = Ok u.
Proof.
  unfold resolve_durable_approval_wait, list_execution_waits, resolve_execution_wait. execute.
  destruct (List.find _ _) as [wt|]; cbn; [|by split; [|exists tt]].
  destruct (dget (wt_id wt) (w_waits w)) as [wt'|]; cbn; [|by split; [|exists tt]].
  destruct (wait_is_pending wt'); cbn; by split; [|exists tt].
Qed.

(** Approval decisions are first-writer-wins: once a decision was recorded,
    the opposite decision for the same tool call is refused and changes
    nothing, for as long as no new request is made. *)
Theorem approval_first_writer_wins i t d1 by1 d2 by2 w w' w'' :
  approvals_keyed w -> resolve_approval i t d1 by1 w = (Ok true, w') ->
  ad_granted d2 = negb (ad_granted d1) -> w_approvals w'' = w_approvals w' ->
  resolve_approval i t d2 by2 w'' = (Ok false, w'').
Proof.
  intros Hk Hrun Hd2 Hsame. unfold resolve_approval in Hrun. rewrite bind_unfold in Hrun.
  cbn [gets] in Hrun. apply bind_inv in Hrun as (persisted & w1 & Hres & Hrun).
  destruct persisted as [row|]; [|done].
  apply resolve_pending_some in Hres as [Hlatest Hst]; [|done].
  apply bind_inv in Hrun as (u & w2 & Hdur & Hrun).
  assert (Hw2 : w_approvals w2 = w_approvals w1).
  { match type of Hdur with ?m _ = _ => change w2 with (snd (Ok u, w2)) end.
    rewrite <-Hdur. apply resolve_durable_rows. }
  assert (Hw' : w_approvals w' = w_approvals w2).
  { destruct (dget _ (w_pending w)) as [[d|]|]; execute; by injection Hrun as <-. }
  unfold resolve_approval. rewrite bind_unfold. cbn [gets]. rewrite bind_unfold.
  unfold resolve_pending_approval_request. rewrite bind_unfold. cbn [gets].
  fold (latest_request i t (dvalues (w_approvals w''))).
  rewrite Hsame, Hw', Hw2, Hlatest, Hst, Hd2. by destruct (ad_granted d1).
Qed.

(** A persisted decision is delivered only to the invocation it was made
    for: the execution's pending approval names the tool and carries the digest
    of these arguments, its row was decided, it is granted only if the row was
    approved, and it is consumed (the mark is gone afterwards). *)
Theorem consumed_decision_sound i t digest d w w' :
  consume_resolved_decision i t digest w = (Ok (Some d), w') ->
  exists e pending request_id row,
    dget i (w_executions w) = Some e
    /\ pget "pending_approval" (ex_metadata e) = PDict pending
    /\ pget "tool_id" pending = PStr t
    /\ py_str env_float_repr (py_or (pget "invocation_digest" pending) (PStr "")) = digest
    /\ pget "request_id" pending = PStr request_id
    /\ dget request_id (w_approvals w) = Some row
    /\ In (ar_status row) ["approved"; "rejected"; "expired"; "cancelled"]
    /\ (ad_granted d = true -> ar_status row = "approved")
    /\ exists e', dget i (w_executions w') = Some e'
         /\ dget "pending_approval" (ex_metadata e') = None.
Proof.
  unfold consume_resolved_decision. rewrite bind_unfold. cbn [get_execution gets].
  destruct (dget i (w_executions w)) as [e|] eqn:He; [|done].
  destruct (pget "pending_approval" (ex_metadata e)) as [| | | | | |pending] eqn:Hp; try done.
  destruct (eq_str (pget "tool_id" pending) t) eqn:Ht; [|done]. cbn [negb]. cbv zeta.
  destruct (negb (is_ascii _ && _)); [done|].
  destruct (String.eqb_spec (py_str env_float_repr
    (py_or (pget "invocation_digest" pending) (PStr ""))) digest) as [Hd|]; [|done]. cbn [negb].
  destruct (pget "request_id" pending) as [| | | |rid| |] eqn:Hr; try done.
  rewrite bind_unfold. cbn [get_approval_request gets].
  destruct (persisted_decision (dget rid (w_approvals w))) as [d'|] eqn:Hpd; [|done].
  unfold update_execution, repo_save_execution. execute. intros [= <- <-].
  unfold persisted_decision in Hpd.
  destruct (dget rid (w_approvals w)) as [row|] eqn:Hrow; [|done].
  destruct (mem_str _ _) eqn:Hmem; [|done]. cbn [negb] in Hpd. injection Hpd as <-.
  exists e, pending, rid, row. do 6 (split; [done || by apply eq_str_true|]).
  split; [exact (proj1 (mem_str_In _ _) Hmem)|]. split; [by intros [Hs%String.eqb_eq _]%andb_prop|].
  cbn. rewrite !dget_dalter, String.eqb_refl, He. simpl. eexists. split; [reflexivity|].
  apply dget_dpop_eq.
Qed.

(** The wait that the manager creates passes the validation of its class. *)
Lemma validate_approval_wait id i subject t cp rp created updated md w :
  (String.length ("approval:" +:+ t) <= 255)%nat ->
  let wt := mkExecutionWait id i APPROVAL WAIT_PENDING (str_take 255 ("approval:" +:+ subject))
    (Some ("approval:" +:+ t)) cp rp [] None None None None None None created updated md in
  validate_wait wt w = (Ok wt, w).
Proof.
  intros Hlen wt. unfold validate_wait, wait_is_pending, wt.
  cbn [wt_id wt_execution_id wt_kind wt_status wt_idempotency_key wt_correlation_key wt_checkpoint
       wt_request_payload wt_policy wt_resolution_payload wt_resolution_key wt_wake_at wt_deadline_at
       wt_resolved_at wt_resolved_by wt_created_at wt_updated_at wt_metadata].
  replace (255 <? String.length ("approval:" +:+ t))%nat with false
    by (symmetry; apply Nat.ltb_ge; exact Hlen).
  pose proof (str_take_length 255 ("approval:" +:+ subject)) as Hk.
  replace (255 <? String.length (str_take 255 ("approval:" +:+ subject)))%nat with false
    by (symmetry; apply Nat.ltb_ge; exact Hk).
  change (str_take 255 ("approval:" +:+ subject))
    with (String "a" (str_take 254 ("pproval:" +:+ subject))).
  rewrite py_strip_visible by done. done.
Qed.

Definition no_waits_of (i : string) (w : world) : Prop :=
  forall wt, In wt (dvalues (w_waits w)) -> wt_execution_id wt <> i.

Lemma create_durable_approval_wait_spec i t rid rp w :
  no_waits_of i w -> (String.length ("approval:" +:+ t) <= 255)%nat ->
  exists wt w', create_durable_approval_wait i t (Some rid) rp w = (Ok (wt_id wt), w')
    /\ dget (wt_id wt) (w_waits w') = Some wt /\ wait_is_pending wt = true
    /\ wt_execution_id wt = i
    /\ pget "approval_request_id" (wt_metadata wt) = PStr rid
    /\ w_executions w' = w_executions w /\ w_approvals w' = w_approvals w
    /\ w_pending w' = w_pending w.
Proof.
  intros Hno Hlen. unfold create_durable_approval_wait.
  rewrite bind_unfold. cbn [get_execution gets]. cbv zeta.
  rewrite bind_unfold. cbn [uuid4]. rewrite bind_unfold. cbn [utc_now].
  rewrite bind_unfold. cbn [utc_now].
  rewrite bind_unfold, validate_approval_wait by done. cbv zeta.
  rewrite bind_unfold. set (wt := mkExecutionWait _ _ _ _ _ _ _ _ _ _ _ _ _ _ _ _ _ _).
  rewrite (no_conflict_create i (wt_idempotency_key wt)); [|intros x Hx Hi; by apply Hno in Hi|done|done].
  exists wt. eexists. split; [reflexivity|]. cbn. rewrite dget_dset_eq. by repeat split.
Qed.

(** Asking for approval without a delegate: the request and a pending
    approval wait are stored, the execution waits for approval of exactly these
    arguments, no process-local waiter is left behind, and the call unwinds. *)
Theorem request_approval_suspends i t payload rp ev md e w :
  dget i (w_executions w) = Some e ->
  pget "pending_approval" (ex_metadata e) = PNone ->
  no_waits_of i w ->
  delegate_decision_provider = None ->
  (String.length ("approval:" +:+ t) <= 255)%nat ->
  exists msg w' e' rid wt row, request_approval i t payload rp ev md w =
      (Raise (mkExn ExecutionApprovalSuspendedError msg), w')
    /\ dget rid (w_approvals w') = Some row /\ ar_status row = "pending"
    /\ ar_execution_id row = i /\ ar_tool_id row = t
    /\ dget (wt_id wt) (w_waits w') = Some wt /\ wait_is_pending wt = true
    /\ wt_execution_id wt = i
    /\ pget "approval_request_id" (wt_metadata wt) = PStr rid
    /\ dget i (w_executions w') = Some e' /\ ex_status e' = WAITING_FOR_APPROVAL
    /\ active_wait_is (wt_id wt) (ex_metadata e') = true
    /\ (exists p, pget "pending_approval" (ex_metadata e') = PDict p
          /\ pget "invocation_digest" p = PStr (invocation_digest payload))
    /\ dget (approval_key i t) (w_pending w') = None
    /\ dget (approval_key i t) (w_request_ids w') = None.
Proof.
  intros He Hp Hw Hnone Hlen. unfold request_approval.
  rewrite bind_unfold. unfold consume_resolved_decision. rewrite bind_unfold.
  cbn [get_execution gets]. rewrite He, Hp. cbn [mret M_ret]. cbv zeta.
  rewrite bind_unfold. cbn [modify]. unfold try_except at 1.
  unfold suspend_for_approval. cbv zeta.
  rewrite bind_unfold. unfold create_approval_request. execute.
  set (rid := env_uuid (w_uuids w)). set (row := mkApprovalRequest _ _ _ _ _ _ _ _ _ _).
  match goal with |- context [create_durable_approval_wait i t (Some rid) ?rp ?w0] =>
    destruct (create_durable_approval_wait_spec i t rid rp w0) as
      (wt & w1 & Hrun & Hgw & Hpw & Hiw & Hmw & Hew & Haw & Hpend); [exact Hw|done|] end.
  rewrite Hrun. rewrite Hew. cbn. rewrite He. cbn.
  unfold update_execution, repo_save_execution, request_delegated_decision. execute.
  rewrite Hnone. cbn. unfold pop_pending. execute.
  eexists _, _, _, rid, wt, row. split; [reflexivity|]. cbn.
  rewrite Haw, Hew, Hpend. cbn. rewrite dget_dset_eq, !dget_dalter, String.eqb_refl, He. cbn.
  rewrite !dget_dpop_eq. repeat split; auto.
  - unfold active_wait_is, pget. cbn. rewrite dget_dset_eq. cbn. unfold eq_str. simpl. apply String.eqb_refl.
  - unfold pget. cbn. rewrite dget_dset_ne, dget_dset_eq by done. cbn. by eexists.
Qed.
End ApprovalFacts.
