(* ===== verification/Engine.v ===== *)
(** * Lifecycle commands of the native engine

    [pause_execution], [resume_execution], [cancel_execution] and
    [get_execution_state] of [app/runtime/native/engine.py] with their shared
    helpers, and the dispatch of [RuntimeAdapterRegistry]
    ([app/runtime/registry.py]) to the adapter that an execution was prepared
    with; creation is in [Creation].  Adapters other than the native one are a
    record of operations. *)

From S2P Require Export Waits.

Definition DURABLE_WAIT_EXECUTION_STATUSES : list ExecutionStatus :=
  [WAITING_FOR_INPUT; WAITING_FOR_APPROVAL; WAITING_FOR_EVENT; SLEEPING].

Definition TERMINAL_STATUSES : list ExecutionStatus := [COMPLETED; FAILED; CANCELLED].

(** Also the [TERMINAL_EXECUTION_STATUSES] of the control plane, by value. *)
Definition is_terminal (e : Execution) : bool := bool_decide (ex_status e ∈ TERMINAL_STATUSES).

(** ** Execution hosts ([registry.py]) *)

Definition EXECUTION_HOST_DOCKER : string := "docker".
Definition EXECUTION_HOST_LOCAL : string := "local".

Definition normalized_execution_host (value : pyval) : option string :=
  match value with
  | PStr s =>
      let normalized := py_lower (py_strip s) in
      if mem_str normalized [EXECUTION_HOST_DOCKER; EXECUTION_HOST_LOCAL] then Some normalized else None
  | _ => None
  end.

Fixpoint first_host (candidates : list pyval) : option string :=
  match candidates with
  | [] => None
  | c :: rest => match normalized_execution_host c with Some h => Some h | None => first_host rest end
  end.

Definition resolve_execution_host (trigger workflow_metadata : dict pyval) : option string :=
  let runtime := dict_or_empty (pget "runtime_execution" workflow_metadata) in
  first_host
    [pget "execution_host" trigger; pget "executionHost" trigger;
     pget "execution_host" runtime; pget "executionHost" runtime;
     pget "execution_host" workflow_metadata; pget "executionHost" workflow_metadata].

Definition normalized_runtime_adapter_id (o : option string) : option string :=
  match o with
  | None => None
  | Some s => let normalized := py_strip s in if String.eqb normalized "" then None else Some normalized
  end.

(** ** Runtime adapters *)

(** [BaseRuntimeAdapter]: the lifecycle operations of an adapter. *)
Record RuntimeAdapter := mkAdapter {
  ra_start : string -> M string;
  ra_pause : string -> M string;
  ra_resume : string -> M string;
  ra_cancel : string -> M string
}.

Record adapter_lawful `{Env} (a : RuntimeAdapter) : Prop := {
  al_start : forall i, evolves ledger (ra_start a i);
  al_pause : forall i, evolves ledger (ra_pause a i);
  al_resume : forall i, evolves ledger (ra_resume a i);
  al_cancel : forall i, evolves ledger (ra_cancel a i)
}.

(** The run loop of the engine ([start_execution]), and the other adapters that
    the process registered. *)
Class Runtimes := {
  native_start : string -> M string;
  registered_adapter : string -> option RuntimeAdapter
}.

Class RuntimesLaws `{Env} `{Runtimes} : Prop := {
  native_start_ledger : forall i, evolves ledger (native_start i);
  registered_lawful : forall name a, registered_adapter name = Some a -> adapter_lawful a
}.

Section Engine.
Context `{Env}.

(** [_reject_terminal_execution_replay] *)
Definition reject_terminal_execution_replay (e : Execution) : M unit :=
  if is_terminal e then
    raise ValueError ("Execution '" +:+ ex_id e
      +:+ "' is terminal and must be retried through a replacement execution.")
  else mret tt.

(** [_hydrate_state_position]: a fresh state carries on from the event log. *)
Definition hydrate_state_position (st : NativeExecutionState) : M NativeExecutionState :=
  if negb (st_sequence st =? 0) || opt_some (st_last_event_id st) then mret st
  else
    events ← list_events (st_execution_id st);
    mret (match last events with
          | None => st
          | Some ev =>
              set_st_trace_id
                (if str_truthy (ev_trace_id ev) then default "" (ev_trace_id ev) else st_trace_id st)
                (set_st_last_event_id (Some (ev_id ev)) (set_st_sequence (ev_sequence ev) st))
          end).

Definition put_state (i : string) (st : NativeExecutionState) : M unit :=
  modify (fun w => set_w_states (dset i st (w_states w)) w).

(** [_require_execution_and_state]; [setdefault] builds its default even when
    the state exists. *)
Definition require_execution_and_state (i : string) : M (Execution * NativeExecutionState) :=
  found ← get_execution i;
  match found with
  | None => raise ExecutionNotFoundError ("Execution '" +:+ i +:+ "' was not found")
  | Some e =>
      fresh ← new_state i (ex_workflow_id e);
      existing ← gets (fun w => dget i (w_states w));
      st ← hydrate_state_position (default fresh existing);
      put_state i st;;
      mret (e, st)
  end.

(** Emitting with the engine's own state object of [i]. *)
Definition emit_on_state (i : string) (st : NativeExecutionState) (ty : ExecutionEventType)
    (payload : dict pyval) : M unit :=
  '(_, st') ← emit_simple st ty None payload [];
  put_state i st'.

Definition pause_execution (i : string) : M string :=
  '(e, st) ← require_execution_and_state i;
  let st := set_st_paused true st in
  put_state i st;;
  when (negb (bool_decide (ex_status e ∈ DURABLE_WAIT_EXECUTION_STATUSES)))
    (assign i (set_ex_status PAUSED));;
  update_execution i;;
  emit_on_state i st EXECUTION_PAUSED [("execution_id", PStr i)];;
  mret i.

Definition engine_resume_execution (i : string) : M string :=
  '(e, st) ← require_execution_and_state i;
  reject_terminal_execution_replay e;;
  let st := set_st_paused false st in
  put_state i st;;
  assign i (set_ex_status QUEUED);;
  update_execution i;;
  emit_on_state i st EXECUTION_RESUMED [("execution_id", PStr i)];;
  mret i.

Definition cancel_execution (i : string) : M string :=
  '(e, st) ← require_execution_and_state i;
  let st := set_st_cancelled true st in
  if bool_decide (ex_status e = CANCELLED) then put_state i st;; mret i
  else if bool_decide (ex_status e ∈ [COMPLETED; FAILED]) then mret i
  else
    put_state i st;;
    now ← utc_now;
    let running := bool_decide (ex_status e = RUNNING) in
    assign i (set_ex_metadata (dset "cancellation"
      (PDict [("requested_at", PStr (isoformat now));
              ("mode", PStr (if running then "cooperative" else "immediate"))]) (ex_metadata e)));;
    if running then
      assign i (set_ex_status CANCELLING);;
      update_execution i;;
      mret i
    else
      assign i (set_ex_status CANCELLED);;
      completed ← utc_now;
      assign i (set_ex_completed_at (Some completed));;
      update_execution i;;
      emit_on_state i st EXECUTION_CANCELLED [("execution_id", PStr i)];;
      mret i.

(** [get_execution_state] *)
Definition get_execution_state (i : string) : M (Execution * option NativeExecutionState) :=
  found ← get_execution i;
  match found with
  | None => raise ExecutionNotFoundError ("Execution '" +:+ i +:+ "' was not found")
  | Some e => st ← gets (fun w => dget i (w_states w)); mret (e, st)
  end.
End Engine.

Section Registry.
Context `{Env} `{Runtimes}.

Definition native_adapter : RuntimeAdapter :=
  mkAdapter native_start pause_execution engine_resume_execution cancel_execution.

(** [registry.get(adapter_name)] *)
Definition get_adapter (name : string) : M RuntimeAdapter :=
  if String.eqb name "native" then mret native_adapter
  else match registered_adapter name with
       | Some a => mret a
       | None => raise KeyError ("Runtime adapter '" +:+ name +:+ "' is not registered")
       end.

(** [_resolve_adapter_for_execution] *)
Definition resolve_adapter_for_execution (i : string) : M RuntimeAdapter :=
  found ← get_execution i;
  match found with
  | None => raise ExecutionNotFoundError ("Execution '" +:+ i +:+ "' was not found")
  | Some e => get_adapter (ex_runtime_adapter_id e)
  end.

Definition registry_start (i : string) : M string := a ← resolve_adapter_for_execution i; ra_start a i.
Definition registry_pause (i : string) : M string := a ← resolve_adapter_for_execution i; ra_pause a i.
Definition registry_resume (i : string) : M string := a ← resolve_adapter_for_execution i; ra_resume a i.
Definition registry_cancel (i : string) : M string := a ← resolve_adapter_for_execution i; ra_cancel a i.

(** [mark_execution_completed] *)
Definition mark_execution_completed (i : string) (output_payload : option (dict pyval))
    (error : option string) : M string :=
  now ← utc_now;
  assign i (set_ex_completed_at (Some now));;
  assign i (set_ex_output_payload output_payload);;
  assign i (set_ex_error error);;
  assign i (set_ex_status (if opt_some error then FAILED else COMPLETED));;
  update_execution i;;
  mret i.
End Registry.

(** ** The engine satisfies the ledger contract *)

Section EngineLedger.
Context `{Env} `{Runtimes}.

Lemma ledger_require_execution_and_state i : evolves ledger (require_execution_and_state i).
Proof.
  unfold require_execution_and_state, get_execution, hydrate_state_position, list_events, put_state.
  evolve.
Qed.

Lemma ledger_emit_on_state i st ty p : evolves ledger (emit_on_state i st ty p).
Proof. unfold emit_on_state, emit_simple, put_state. evolve. Qed.

Hint Resolve ledger_require_execution_and_state ledger_emit_on_state : evolve.

Lemma ledger_pause_execution i : evolves ledger (pause_execution i).
Proof. unfold pause_execution, put_state, update_execution. evolve. Qed.

Lemma ledger_engine_resume_execution i : evolves ledger (engine_resume_execution i).
Proof.
  unfold engine_resume_execution, reject_terminal_execution_replay, put_state, update_execution. evolve.
Qed.

Lemma ledger_cancel_execution i : evolves ledger (cancel_execution i).
Proof. unfold cancel_execution, put_state, update_execution. evolve. Qed.

Lemma native_adapter_lawful `{!RuntimesLaws} : adapter_lawful native_adapter.
Proof.
  split; [apply native_start_ledger|apply ledger_pause_execution|
          apply ledger_engine_resume_execution|apply ledger_cancel_execution].
Qed.

(** Dispatching keeps the contract when every adapter does. *)
Lemma ledger_dispatch `{!RuntimesLaws} {B} (op : RuntimeAdapter -> M B) i :
  (forall a, adapter_lawful a -> evolves ledger (op a)) ->
  evolves ledger (a ← resolve_adapter_for_execution i; op a).
Proof.
  intros Hop w. unfold resolve_adapter_for_execution, get_adapter, world_after.
  rewrite bind_unfold, bind_unfold. cbn [get_execution gets].
  destruct (dget i (w_executions w)) as [e|]; [|reflexivity].
  destruct (String.eqb _ _); [by apply Hop, native_adapter_lawful|].
  destruct (registered_adapter _) as [a|] eqn:Ha; [|reflexivity].
  by apply Hop, (registered_lawful (ex_runtime_adapter_id e)).
Qed.

Lemma ledger_registry_start `{!RuntimesLaws} i : evolves ledger (registry_start i).
Proof. apply ledger_dispatch. intros a Ha. apply Ha. Qed.
Lemma ledger_registry_pause `{!RuntimesLaws} i : evolves ledger (registry_pause i).
Proof. apply ledger_dispatch. intros a Ha. apply Ha. Qed.
Lemma ledger_registry_resume `{!RuntimesLaws} i : evolves ledger (registry_resume i).
Proof. apply ledger_dispatch. intros a Ha. apply Ha. Qed.
Lemma ledger_registry_cancel `{!RuntimesLaws} i : evolves ledger (registry_cancel i).
Proof. apply ledger_dispatch. intros a Ha. apply Ha. Qed.
End EngineLedger.
#[export] Hint Resolve ledger_registry_start ledger_registry_pause ledger_registry_resume
  ledger_registry_cancel : evolve.
