(* ===== verification/Tasks.v ===== *)
(** * Running one task of a workflow

    The task-level operations of [ExecutionEngine] in
    [app/runtime/native/engine.py]: resolving the task, the agent and the model
    profile of a node, the remaining run time, handoff events, task and workflow
    approvals, and the attempts of [_execute_task_with_runtime_overrides] with
    retries, timeouts and the approval after a failure.

    The agent executor (prompts, model calls, tool calls) and the model profile
    repository are interfaces.  The engine's state object of an execution lives
    in the world ([w_states]) and is named by the execution's id.  Durations are
    microseconds. *)

From S2P Require Export Routing Approvals Engine.

(** ** Interfaces *)

Record ModelProfile := mkProfile { mp_id : string; mp_max_tokens : option Z }.

Class Profiles := get_profile : string -> option ModelProfile.

(** [agent_executor.execute_task] under a timeout ([None]: unlimited); the
    timeout's expiry is the [TimeoutError] of [asyncio.wait_for]. *)
Class AgentExecutor :=
  execute_task : string -> WorkflowDefinition -> TaskDefinition -> AgentDefinition -> ModelProfile ->
                 option Z -> M pyval.

Class AgentExecutorLaws `{Env} `{AgentExecutor} : Prop :=
  execute_task_ledger : forall i wf task agent p t, evolves ledger (execute_task i wf task agent p t).

Definition exn_name (k : exn_class) : string :=
  match k with
  | ValueError => "ValueError"
  | TypeError => "TypeError"
  | KeyError => "KeyError"
  | RuntimeError => "RuntimeError"
  | IntegrityError => "IntegrityError"
  | ExecutionNotFoundError => "ExecutionNotFoundError"
  | WorkflowNotFoundError => "WorkflowNotFoundError"
  | ExecutionWaitNotFoundError => "ExecutionWaitNotFoundError"
  | ExecutionWaitConflictError => "ExecutionWaitConflictError"
  | ExecutionPausedError => "ExecutionPausedError"
  | ExecutionApprovalSuspendedError => "ExecutionApprovalSuspendedError"
  | ExecutionCancelledError => "ExecutionCancelledError"
  | ApprovalRequiredError => "ApprovalRequiredError"
  | ContainerRuntimeError => "ContainerRuntimeError"
  | ScheduleConcurrencyError => "ScheduleConcurrencyError"
  | AttributeError => "AttributeError"
  | OverflowError => "OverflowError"
  | ZeroDivisionError => "ZeroDivisionError"
  | TimeoutError => "TimeoutError"
  | GoalNotFoundError => "GoalNotFoundError"
  | GoalTransitionError => "GoalTransitionError"
  | CapabilityError => "BrowserCapabilityError"
  end.

(** [except (ExecutionPausedError, ExecutionCancelledError)] *)
Definition is_unwinding (e : exn) : bool :=
  match exn_kind e with
  | ExecutionPausedError | ExecutionApprovalSuspendedError | ExecutionCancelledError => true
  | _ => false
  end.

Definition not_unwinding (e : exn) : bool := negb (is_unwinding e).

(** ** Looking things up *)

(** [_resolve_task] *)
Definition resolve_task (wf : WorkflowDefinition) (task_id : option string) : M TaskDefinition :=
  if negb (str_truthy task_id) then
    raise WorkflowNotFoundError "Workflow node is missing a task reference"
  else
    match List.find (fun t => opt_eqb (Some (td_id t)) task_id) (wf_task_definitions wf) with
    | Some t => mret t
    | None => raise WorkflowNotFoundError ("Task '" +:+ default "" task_id
                +:+ "' was not found in workflow '" +:+ wf_id wf +:+ "'")
    end.

(** [_resolve_agent] *)
Definition resolve_agent (wf : WorkflowDefinition) (agent_id : option string) : M AgentDefinition :=
  if negb (str_truthy agent_id) then
    raise WorkflowNotFoundError "Task is missing an agent reference"
  else
    match List.find (fun a => opt_eqb (Some (ag_id a)) agent_id) (wf_agent_definitions wf) with
    | Some a => mret a
    | None => raise WorkflowNotFoundError ("Agent '" +:+ default "" agent_id
                +:+ "' was not found in workflow '" +:+ wf_id wf +:+ "'")
    end.

(** [_resolve_profile] *)
Definition resolve_profile `{Profiles} (agent : AgentDefinition) (task_overrides : dict pyval) :
    M ModelProfile :=
  let model_profile_id := py_or (pget "model_profile_id" task_overrides) (opt_str (ag_model_profile_id agent)) in
  match model_profile_id with
  | PStr s =>
      if String.eqb s "" then
        raise WorkflowNotFoundError ("Agent '" +:+ ag_id agent +:+ "' is missing model_profile_id")
      else
        match get_profile s with
        | None => raise WorkflowNotFoundError ("Model profile '" +:+ s +:+ "' was not found")
        | Some profile =>
            mret (match pget "max_tokens" task_overrides with
                  | PInt n => mkProfile (mp_id profile) (Some n)
                  | _ => profile
                  end)
        end
  | _ => raise WorkflowNotFoundError ("Agent '" +:+ ag_id agent +:+ "' is missing model_profile_id")
  end.

(** [_handoff_edge_between] *)
Definition handoff_edge_between (wf : WorkflowDefinition) (source_node_id target_node_id : string) :
    option WorkflowEdge :=
  List.find (fun e => String.eqb (we_source_node_id e) source_node_id
                      && String.eqb (we_target_node_id e) target_node_id
                      && bool_decide (we_edge_type e = EDGE_HANDOFF)) (wf_edges wf).

(** [_raise_if_cancelled] *)
Definition raise_if_cancelled (st : NativeExecutionState) : M unit :=
  if st_cancelled st then raise ExecutionCancelledError "Execution was cancelled" else mret tt.

Section Tasks.
Context `{Env} `{DecisionProvider} `{AgentExecutor}.

Definition state_of (i : string) : M NativeExecutionState :=
  found ← gets (fun w => dget i (w_states w));
  match found with
  | Some st => mret st
  | None => raise AttributeError i
  end.

(** Attribute assignments on the engine's state object. *)
Definition update_state (i : string) (f : NativeExecutionState -> NativeExecutionState) : M unit :=
  st ← state_of i; put_state i (f st).

(** [self.emitter.emit(state, ...)] on the engine's state object of [i]. *)
Definition emit_at (i : string) (ty : ExecutionEventType) (actor : option string)
    (payload metrics metadata : dict pyval) (agent_id task_id : option string) : M ExecutionEvent :=
  st ← state_of i;
  '(ev, st') ← emit st ty actor payload metrics metadata agent_id task_id None None None;
  put_state i st';;
  mret ev.

(** [list_events] and [list_artifacts] of the engine *)
Definition engine_list_events (i : string) : M (list ExecutionEvent) :=
  found ← get_execution i;
  match found with
  | None => raise ExecutionNotFoundError ("Execution '" +:+ i +:+ "' was not found")
  | Some _ => list_events i
  end.

Definition engine_list_artifacts (i : string) : M (list ExecutionArtifact) :=
  found ← get_execution i;
  match found with
  | None => raise ExecutionNotFoundError ("Execution '" +:+ i +:+ "' was not found")
  | Some _ => list_artifacts i
  end.

(** [_workflow_remaining_seconds]; the policy's limit is an integer. *)
Definition workflow_remaining (i : string) (workflow_policy : dict pyval) : M (option Z) :=
  match pget "max_runtime_seconds" workflow_policy with
  | PInt max_runtime_seconds =>
      e ← deref i;
      now ← utc_now;
      let started_at := default (ex_created_at e) (ex_started_at e) in
      let remaining := max_runtime_seconds * us_per_second - (now - started_at) in
      if remaining <=? 0 then
        raise TimeoutError ("Workflow max runtime of " +:+ show_Z max_runtime_seconds
                            +:+ " seconds exceeded.")
      else mret (Some remaining)
  | _ => mret None
  end.

(** [_emit_handoff_event] *)
Definition emit_handoff_event (i : string) (wf : WorkflowDefinition) (edge : WorkflowEdge)
    (source_node target_node : WorkflowNode) (source_task target_task : TaskDefinition)
    (source_agent target_agent : AgentDefinition) (status : string) : M unit :=
  st ← state_of i;
  let allowed := String.eqb (ag_id target_agent) (ag_id source_agent)
                 || mem_str (ag_id target_agent) (ag_handoff_agent_ids source_agent) in
  let payload :=
    [("handoff_id", PStr (we_id edge)); ("edge_id", PStr (we_id edge));
     ("handoff_type", PStr "workflow_edge"); ("status", PStr status); ("workflow_id", PStr (wf_id wf));
     ("source_node_id", PStr (wn_id source_node)); ("target_node_id", PStr (wn_id target_node));
     ("source_task_id", PStr (td_id source_task)); ("target_task_id", PStr (td_id target_task));
     ("source_agent_id", PStr (ag_id source_agent)); ("target_agent_id", PStr (ag_id target_agent));
     ("allowed", PBool allowed);
     ("handoff_relationship", PStr (if allowed then "declared" else "edge_only"));
     ("source_output_available", PBool (dmem (wn_id source_node) (st_node_outputs st)));
     ("target_output_available", PBool (dmem (wn_id target_node) (st_node_outputs st)))] in
  emit_at i (if String.eqb status "completed" then HANDOFF_COMPLETED else HANDOFF_REQUESTED)
    (Some (if String.eqb status "requested" then ag_name source_agent else ag_name target_agent))
    payload [] [("workflow_handoff", PBool true); ("edge_id", PStr (we_id edge))]
    (Some (ag_id target_agent)) (Some (td_id target_task));;
  mret tt.

(** ** Approvals *)

(** [_maybe_request_task_approval] *)
Definition maybe_request_task_approval (i : string) (wf : WorkflowDefinition) (task : TaskDefinition)
    (agent : AgentDefinition) (approval_policy : pyval) (reason : option string) : M unit :=
  if negb (eq_str approval_policy "required") then mret tt
  else
    approval_event ← emit_at i APPROVAL_REQUESTED (Some (ag_name agent))
      [("approval_type", PStr "task"); ("workflow_id", PStr (wf_id wf)); ("task_id", PStr (td_id task));
       ("task_name", PStr (td_name task));
       ("reason", PStr (if str_truthy reason then default "" reason
                        else "Task approval policy requires human approval before execution."))]
      [] [] (Some (ag_id agent)) (Some (td_id task));
    decision ← request_approval i (task_approval_tool_id task)
      [("approval_type", PStr "task"); ("workflow_id", PStr (wf_id wf)); ("task_id", PStr (td_id task));
       ("task_name", PStr (td_name task)); ("reason", opt_str reason)]
      None (Some (ev_id approval_event))
      [("approval_type", PStr "task"); ("approval_event_id", PStr (ev_id approval_event));
       ("workflow_id", PStr (wf_id wf)); ("agent_id", PStr (ag_id agent)); ("task_id", PStr (td_id task))];
    let decision_metadata := PDict (default [] (ad_metadata decision)) in
    if negb (ad_granted decision) then
      emit_at i APPROVAL_REJECTED (Some (ag_name agent))
        [("approval_type", PStr "task"); ("task_id", PStr (td_id task)); ("task_name", PStr (td_name task));
         ("reason", opt_str (ad_reason decision)); ("decision_metadata", decision_metadata)]
        [] [] (Some (ag_id agent)) (Some (td_id task));;
      raise ApprovalRequiredError
        (if str_truthy (ad_reason decision) then default "" (ad_reason decision)
         else "Task '" +:+ td_id task +:+ "' approval was rejected.")
    else
      emit_at i APPROVAL_GRANTED (Some (ag_name agent))
        [("approval_type", PStr "task"); ("task_id", PStr (td_id task)); ("task_name", PStr (td_name task));
         ("decision_metadata", decision_metadata)]
        [] [] (Some (ag_id agent)) (Some (td_id task));;
      mret tt.

(** [_maybe_request_workflow_approval] *)
Definition maybe_request_workflow_approval (i : string) (wf : WorkflowDefinition) (reason : string) : M unit :=
  approval_event ← emit_at i APPROVAL_REQUESTED None
    [("approval_type", PStr "workflow"); ("workflow_id", PStr (wf_id wf));
     ("workflow_name", PStr (wf_name wf)); ("reason", PStr reason)] [] [] None None;
  decision ← request_approval i ("workflow:" +:+ wf_id wf)
    [("approval_type", PStr "workflow"); ("workflow_id", PStr (wf_id wf));
     ("workflow_name", PStr (wf_name wf)); ("reason", PStr reason)]
    None (Some (ev_id approval_event))
    [("approval_type", PStr "workflow"); ("approval_event_id", PStr (ev_id approval_event));
     ("workflow_id", PStr (wf_id wf))];
  let decision_metadata := PDict (default [] (ad_metadata decision)) in
  if negb (ad_granted decision) then
    emit_at i APPROVAL_REJECTED None
      [("approval_type", PStr "workflow"); ("workflow_id", PStr (wf_id wf));
       ("workflow_name", PStr (wf_name wf)); ("reason", opt_str (ad_reason decision));
       ("decision_metadata", decision_metadata)] [] [] None None;;
    raise ExecutionPausedError
      (if str_truthy (ad_reason decision) then default "" (ad_reason decision)
       else "Workflow '" +:+ wf_id wf +:+ "' approval was rejected.")
  else
    emit_at i APPROVAL_GRANTED None
      [("approval_type", PStr "workflow"); ("workflow_id", PStr (wf_id wf));
       ("workflow_name", PStr (wf_name wf)); ("decision_metadata", decision_metadata)] [] [] None None;;
    mret tt.
End Tasks.

(** ** Attempts *)

Section Attempts.
Context `{Env} `{DecisionProvider} `{AgentExecutor}.

(** The timeout of an attempt, and whether the workflow's limit is the one
    that applies. *)
Definition select_timeout (task_timeout workflow_timeout : option Z) : option Z * bool :=
  match task_timeout, workflow_timeout with
  | Some t, Some w => (Some (Z.min t w), w <=? t)
  | Some t, None => (Some t, false)
  | None, w => (w, opt_some w)
  end.

(** What an attempt reads of its surroundings. *)
Record attempt_context := mkAttempt {
  at_id : string;
  at_workflow : WorkflowDefinition;
  at_task : TaskDefinition;
  at_agent : AgentDefinition;
  at_profile : ModelProfile;
  at_overrides : dict pyval;
  at_max_retries : Z;
  at_timeout : option Z;
  at_workflow_selected : bool
}.

Section Loop.
Context (c : attempt_context).
Abbreviation i := (at_id c).
Abbreviation task := (at_task c).
Abbreviation agent := (at_agent c).

Definition step_event (ty : ExecutionEventType) (payload : dict pyval) : M unit :=
  emit_at i ty (Some (ag_name agent)) payload [] [] (Some (ag_id agent)) (Some (td_id task));; mret tt.

(** The entries that the step events share. *)
Definition step_payload (attempt : Z) (extra : dict pyval) : dict pyval :=
  [("task_id", PStr (td_id task)); ("task_name", PStr (td_name task)); ("agent_id", PStr (ag_id agent));
   ("agent_name", PStr (ag_name agent)); ("attempt", PInt attempt);
   ("max_retries", PInt (at_max_retries c)); ("step_kind", PStr "task_execution")] ++ extra
  ++ [("model_profile_id", PStr (mp_id (at_profile c))); ("runtime_overrides", PDict (at_overrides c))].

Definition task_label : string := if String.eqb (td_name task) "" then td_id task else td_name task.

(** The body of the [try]: an attempt that succeeds or raises. *)
Definition attempt_body (attempt : Z) : M pyval :=
  step_event AGENT_STEP_STARTED (step_payload attempt
    [("summary", PStr (ag_name agent +:+ " is executing task '" +:+ task_label +:+ "'."))]);;
  output ← execute_task i (at_workflow c) task agent (at_profile c) (at_timeout c);
  step_event AGENT_STEP_COMPLETED (step_payload attempt
    [("summary", PStr (ag_name agent +:+ " completed task '" +:+ task_label +:+ "'."));
     ("output_preview", PStr (str_take 500 (py_str env_float_repr output)))]);;
  mret output.

(** [except (ExecutionPausedError, ExecutionCancelledError): raise] and
    [except Exception as exc]. *)
Definition attempt_once (attempt : Z) : M (pyval + exn) :=
  try_except (output ← attempt_body attempt; mret (inl output)) not_unwinding (fun exc => mret (inr exc)).

Definition timeout_message : string :=
  if at_workflow_selected c then "Workflow max runtime exceeded." else "Task execution timed out.".

(** The handler: the approval after the last failure, the failure event, and
    the decision to retry.  Returns the new [failure_approval_used]. *)
Definition handle_failure (attempt : Z) (failure_approval_used : bool) (exc : exn) : M bool :=
  let timeout_error := bool_decide (exn_kind exc = TimeoutError) in
  let workflow_timed_out := timeout_error && at_workflow_selected c in
  let silent := timeout_error && String.eqb (exn_message exc) "" in
  let error_message := if silent then timeout_message else exn_message exc in
  let should_retry := (attempt <? at_max_retries c + 1) && negb workflow_timed_out in
  let ask := negb should_retry && negb workflow_timed_out
             && eq_str (pget "approval_policy" (at_overrides c)) "on_failure"
             && negb failure_approval_used in
  when ask (maybe_request_task_approval i (at_workflow c) task agent (PStr "required")
    (Some ("Task failed with " +:+ exn_name (exn_kind exc) +:+ ": " +:+ exn_message exc)));;
  let should_retry := should_retry || ask in
  step_event AGENT_STEP_FAILED
    [("task_id", PStr (td_id task)); ("attempt", PInt attempt); ("max_retries", PInt (at_max_retries c));
     ("will_retry", PBool should_retry); ("error", PStr error_message);
     ("error_type", PStr (exn_name (exn_kind exc))); ("runtime_overrides", PDict (at_overrides c))];;
  if negb should_retry then
    if silent then raise TimeoutError timeout_message else reraise exc
  else mret (failure_approval_used || ask).

(** [while True]; [None]: out of fuel. *)
Fixpoint run_attempts (fuel : nat) (attempt : Z) (failure_approval_used : bool) : M (option pyval) :=
  match fuel with
  | O => mret None
  | S fuel' =>
      result ← attempt_once attempt;
      match result with
      | inl output => mret (Some output)
      | inr exc =>
          used ← handle_failure attempt failure_approval_used exc;
          run_attempts fuel' (attempt + 1) used
      end
  end.
End Loop.

(** One attempt more than the retries, one more after an approval. *)
Definition attempts_fuel (max_retries : Z) : nat := S (S (Z.to_nat max_retries)).

(** [_execute_task_with_runtime_overrides] *)
Definition attempt_context_for (i : string) (wf : WorkflowDefinition) (task : TaskDefinition)
    (agent : AgentDefinition) (profile : ModelProfile) (task_overrides : dict pyval)
    (workflow_timeout : option Z) : M attempt_context :=
  max_retries ← match py_int (py_or (pget "max_retries" task_overrides) (PInt 0)) with
                | IntValue n => mret n
                | IntInvalid => raise ValueError "invalid literal for int()"
                | IntOverflow => raise OverflowError "cannot convert float infinity to integer"
                end;
  let task_timeout := match pget "timeout_seconds" task_overrides with
                      | PInt n => Some (n * us_per_second)
                      | _ => None
                      end in
  let '(timeout, workflow_selected) := select_timeout task_timeout workflow_timeout in
  mret (mkAttempt i wf task agent profile task_overrides max_retries timeout workflow_selected).

Definition execute_task_with_runtime_overrides (i : string) (wf : WorkflowDefinition)
    (task : TaskDefinition) (agent : AgentDefinition) (profile : ModelProfile)
    (task_overrides : dict pyval) (workflow_timeout : option Z) : M (option pyval) :=
  c ← attempt_context_for i wf task agent profile task_overrides workflow_timeout;
  run_attempts c (attempts_fuel (at_max_retries c)) 1 false.
End Attempts.

(** ** The ledger contract *)

Section TasksLedger.
Context `{Env} `{DecisionProvider} `{AgentExecutor}.
Context `{!UuidUnique} `{!DecisionProviderLaws} `{!AgentExecutorLaws}.

Lemma ledger_emit_at i ty actor p m md a t : evolves ledger (emit_at i ty actor p m md a t).
Proof. unfold emit_at, state_of, put_state. evolve. Qed.

Hint Resolve ledger_emit_at execute_task_ledger : evolve.

Lemma ledger_maybe_request_task_approval i wf task agent policy reason :
  evolves ledger (maybe_request_task_approval i wf task agent policy reason).
Proof. unfold maybe_request_task_approval. evolve. Qed.

Lemma ledger_maybe_request_workflow_approval i wf reason :
  evolves ledger (maybe_request_workflow_approval i wf reason).
Proof. unfold maybe_request_workflow_approval. evolve. Qed.

Hint Resolve ledger_maybe_request_task_approval : evolve.

Lemma ledger_attempt_once c n : evolves ledger (attempt_once c n).
Proof. unfold attempt_once, attempt_body, step_event. evolve. Qed.

Lemma ledger_handle_failure c n u exc : evolves ledger (handle_failure c n u exc).
Proof. unfold handle_failure, step_event. evolve. Qed.

Hint Resolve ledger_attempt_once ledger_handle_failure : evolve.

Lemma ledger_run_attempts c fuel n u : evolves ledger (run_attempts c fuel n u).
Proof. revert n u. induction fuel as [|fuel IH]; intros n u; cbn [run_attempts]; evolve. Qed.

Hint Resolve ledger_run_attempts : evolve.

Lemma ledger_execute_task_with_runtime_overrides i wf task agent p o t :
  evolves ledger (execute_task_with_runtime_overrides i wf task agent p o t).
Proof. unfold execute_task_with_runtime_overrides, attempt_context_for. evolve. Qed.
End TasksLedger.

(** ** What the attempts guarantee *)

Section AttemptFacts.
Context `{Env} `{DecisionProvider} `{AgentExecutor} (c : attempt_context).

(** A failure that is retried uses up a retry or the approval. *)
Lemma handle_failure_retry n u exc w u' w' :
  handle_failure c n u exc w = (Ok u', w') ->
  (n < at_max_retries c + 1 /\ u' = u) \/ (at_max_retries c + 1 <= n /\ u = false /\ u' = true).
Proof.
  unfold handle_failure. cbv zeta.
  set (timed_out := _ && at_workflow_selected c).
  set (ask := negb _ && negb timed_out && _ && negb u).
  intros ([] & w1 & _ & Hr)%bind_inv. apply bind_inv in Hr as ([] & w2 & _ & Hr).
  unfold ask in Hr. clear ask. clearbody timed_out.
  set (silent := bool_decide (exn_kind exc = TimeoutError) && String.eqb (exn_message exc) "") in Hr.
  destruct (n <? at_max_retries c + 1) eqn:Hn.
  - left. split; [by apply Z.ltb_lt|].
    destruct timed_out, u; cbn in Hr; try (destruct silent; discriminate Hr); by injection Hr as <- _.
  - right. split; [by apply Z.ltb_ge|].
    destruct timed_out, (eq_str _ _), u; cbn in Hr;
      try (destruct silent; discriminate Hr); by injection Hr as <- _.
Qed.

Lemma run_attempts_result fuel n (u : bool) w :
  Z.max 0 (at_max_retries c + 1 - n) + (if u then 0 else 1) < Z.of_nat fuel ->
  result_of (run_attempts c fuel n u) w <> Ok None.
Proof.
  revert n u w. induction fuel as [|fuel IH]; intros n u w Hf; [destruct u; lia|].
  unfold result_of. cbn [run_attempts]. rewrite bind_unfold.
  destruct (attempt_once c n w) as [[[output|exc]|e] w1]; [done| |done].
  rewrite bind_unfold. destruct (handle_failure c n u exc w1) as [[u'|e] w2] eqn:Hh; [|done].
  apply handle_failure_retry in Hh. apply IH.
  destruct Hh as [[Hn ->]|(Hn & -> & ->)]; [destruct u|]; lia.
Qed.

(** C20. The retry loop ends: whatever the agent executor does, a task is
    attempted at most once, once more per retry and once more after an approval
    ([max_retries + 2] attempts are enough fuel); a pause, a suspension for
    approval or a cancellation is never retried but leaves the loop at once,
    unchanged. *)
Theorem attempts_terminate w :
  result_of (run_attempts c (attempts_fuel (at_max_retries c)) 1 false) w <> Ok None
  /\ forall fuel n u e w1 w2, attempt_body c n w1 = (Raise e, w2) -> is_unwinding e = true ->
       run_attempts c (S fuel) n u w1 = (Raise e, w2).
Proof.
  split; [apply run_attempts_result; unfold attempts_fuel; lia|].
  intros fuel n u e w1 w2 Hbody Hu. cbn [run_attempts]. rewrite bind_unfold.
  unfold attempt_once, try_except. rewrite bind_unfold, Hbody. unfold not_unwinding. by rewrite Hu.
Qed.
End AttemptFacts.
