(* ===== verification/GraphMemory.v ===== *)
(** * Graph working sets

    The working-set functions of [app/runtime/native/state.py]: per execution
    and agent, the anchors, visited nodes, selected nodes and notes of the graph
    context, with an expiry, a bound on every list and a bound on the number of
    sets, of which the least recently updated are evicted. *)

From S2P Require Export Tasks.

Definition GRAPH_WORKING_SET_TTL_SECONDS : Z := 6 * 60 * 60.
Definition GRAPH_WORKING_SET_LIMIT : Z := 10.
Definition GRAPH_WORKING_SET_NODE_LIMIT : Z := 100.
Definition GRAPH_WORKING_SET_NOTE_LIMIT : Z := 25.

(** ** The working set object *)

(** [expired] *)
Definition working_set_expired (now : Z) (ws : GraphWorkingSet) : bool := gw_expires_at ws <=? now.

(** [refresh] at a given time *)
Definition refresh_working_set (now ttl_seconds : Z) (ws : GraphWorkingSet) : GraphWorkingSet :=
  set_gw_expires_at (now + ttl_seconds * us_per_second) (set_gw_updated_at now ws).

(** [to_dict] *)
Definition working_set_to_dict (ws : GraphWorkingSet) : dict pyval :=
  let dicts l := PList (map PDict l) in
  [("working_set_id", PStr (gw_working_set_id ws)); ("owner_agent_id", opt_str (gw_owner_agent_id ws));
   ("conversation_id", opt_str (gw_conversation_id ws)); ("workflow_id", opt_str (gw_workflow_id ws));
   ("run_id", opt_str (gw_run_id ws)); ("execution_id", opt_str (gw_execution_id ws));
   ("anchors", dicts (gw_anchors ws)); ("visited_nodes", dicts (gw_visited_nodes ws));
   ("selected_nodes", dicts (gw_selected_nodes ws)); ("notes", dicts (gw_notes ws));
   ("created_at", PStr (isoformat (gw_created_at ws))); ("updated_at", PStr (isoformat (gw_updated_at ws)));
   ("expires_at", PStr (isoformat (gw_expires_at ws)))].

(** [str.isalnum] on the code points 0-255 *)
Definition is_alnum (c : ascii) : bool :=
  let n := nat_of_ascii c in
  ((48 <=? n) && (n <=? 57) || (65 <=? n) && (n <=? 90) || (97 <=? n) && (n <=? 122)
   || (n =? 170) || (n =? 178) || (n =? 179) || (n =? 181) || (n =? 185) || (n =? 186)
   || (188 <=? n) && (n <=? 190) || (192 <=? n) && negb (n =? 215) && negb (n =? 247))%nat.

(** [_stable_identifier_part] *)
Fixpoint stable_identifier_part (s : string) : string :=
  match s with
  | EmptyString => ""
  | String c s' =>
      String (if is_alnum c || Ascii.eqb c "-" || Ascii.eqb c "_" then c else "-"%char)
             (stable_identifier_part s')
  end.

(** [_graph_working_set_id] *)
Definition graph_working_set_id (execution_id owner_agent_id : option string) : string :=
  "graph-working-set-" +:+ stable_identifier_part (default "" (str_or execution_id (Some "execution")))
  +:+ "-" +:+ stable_identifier_part (default "" (str_or owner_agent_id (Some "agent"))).

Section Merging.
Context `{Env}.

(** The key of an entry. *)
Definition entry_key (key_fields : list string) (item : dict pyval) : list string :=
  map (fun f => text_or (pget f item) "") key_fields.

(** Some entry of [target] that has all key fields has this key. *)
Definition key_seen (key_fields : list string) (target : list (dict pyval)) (key : list string) : bool :=
  existsb (fun item => forallb (fun f => truthy (pget f item)) key_fields
                       && bool_decide (entry_key key_fields item = key)) target.

Fixpoint append_unique (key_fields : list string) (target incoming : list (dict pyval)) :
    list (dict pyval) :=
  match incoming with
  | [] => target
  | item :: rest =>
      let key := entry_key key_fields item in
      if negb (forallb (fun s => negb (String.eqb s "")) key) || key_seen key_fields target key
      then append_unique key_fields target rest
      else append_unique key_fields (target ++ [item]) rest
  end.

(** [_merge_unique_dicts] *)
Definition merge_unique_dicts (key_fields : list string) (limit : Z) (target incoming : list (dict pyval)) :
    list (dict pyval) :=
  let merged := append_unique key_fields target incoming in
  if limit <? Z.of_nat (List.length merged) then last_n limit merged else merged.

(** [_working_set_node] *)
Definition working_set_node (node : dict pyval) : dict pyval :=
  List.filter (fun kv => negb (is_none kv.2))
    (map (fun key => (key, pget key node))
       ["id"; "type"; "source_record_type"; "source_record_id"; "sensitive"; "sensitivity"]).

(** The nodes of a list of values: the dictionaries that have an id. *)
Definition nodes_with_id (items : list pyval) : list (dict pyval) :=
  List.concat (map (fun v => match v with
                             | PDict node => if truthy (pget "id" node) then [working_set_node node] else []
                             | _ => []
                             end) items).

(** [_normalize_anchor], mapped over a list. *)
Definition normalize_anchor (anchor : dict pyval) : option (dict pyval) :=
  let anchor_type := py_or (pget "type" anchor) (pget "anchor_type" anchor) in
  let anchor_id := py_or (pget "id" anchor) (pget "anchor_id" anchor) in
  if truthy anchor_type && truthy anchor_id
  then Some [("type", PStr (py_str env_float_repr anchor_type)); ("id", PStr (py_str env_float_repr anchor_id))]
  else None.

Definition normalized_anchors (anchors : list (dict pyval)) : list (dict pyval) :=
  List.concat (map (fun a => match normalize_anchor a with Some n => [n] | None => [] end) anchors).

Definition merge_anchors (anchors : list (dict pyval)) (ws : GraphWorkingSet) : GraphWorkingSet :=
  set_gw_anchors (merge_unique_dicts ["type"; "id"] GRAPH_WORKING_SET_NODE_LIMIT (gw_anchors ws) anchors) ws.
Definition merge_visited (nodes : list (dict pyval)) (ws : GraphWorkingSet) : GraphWorkingSet :=
  set_gw_visited_nodes
    (merge_unique_dicts ["id"] GRAPH_WORKING_SET_NODE_LIMIT (gw_visited_nodes ws) nodes) ws.
Definition merge_selected (nodes : list (dict pyval)) (ws : GraphWorkingSet) : GraphWorkingSet :=
  set_gw_selected_nodes
    (merge_unique_dicts ["id"] GRAPH_WORKING_SET_NODE_LIMIT (gw_selected_nodes ws) nodes) ws.
Definition append_notes (notes : list (dict pyval)) (ws : GraphWorkingSet) : GraphWorkingSet :=
  set_gw_notes (last_n GRAPH_WORKING_SET_NOTE_LIMIT
    (gw_notes ws ++ List.filter (fun n => negb (List.length n =? 0)%nat) notes)) ws.

(** ** Operations on a state *)

(** [prune_expired_graph_working_sets] *)
Definition prune_expired_graph_working_sets (now : Z) (st : NativeExecutionState) : NativeExecutionState :=
  set_st_graph_working_sets
    (List.filter (fun kv => negb (working_set_expired now kv.2)) (st_graph_working_sets st)) st.

(** The sets that do not fit: the least recently updated ones. *)
Definition evict_working_sets (sets : dict GraphWorkingSet) : dict GraphWorkingSet :=
  let excess := Z.of_nat (List.length sets) - GRAPH_WORKING_SET_LIMIT in
  if 0 <? excess then
    fold_left (fun acc ws => dpop (gw_working_set_id ws) acc)
      (slice_to excess (py_sorted (fun a b => gw_updated_at a <=? gw_updated_at b) (dvalues sets))) sets
  else sets.

Definition store_working_set (ws : GraphWorkingSet) (st : NativeExecutionState) : NativeExecutionState :=
  set_st_graph_working_sets
    (evict_working_sets (dset (gw_working_set_id ws) ws (st_graph_working_sets st))) st.

(** [create_graph_working_set] *)
Definition create_graph_working_set (st : NativeExecutionState)
    (working_set_id owner_agent_id conversation_id workflow_id run_id execution_id : option string)
    (anchors notes : list (dict pyval)) (ttl_seconds : Z) : M (GraphWorkingSet * NativeExecutionState) :=
  now ← utc_now;
  let st := prune_expired_graph_working_sets now st in
  let resolved_execution_id := str_or execution_id (Some (st_execution_id st)) in
  let resolved_workflow_id := str_or workflow_id (Some (st_workflow_id st)) in
  let resolved_run_id := str_or run_id resolved_execution_id in
  let resolved_id := default "" (str_or working_set_id
                       (Some (graph_working_set_id resolved_execution_id owner_agent_id))) in
  let ws := mkGraphWorkingSet resolved_id owner_agent_id conversation_id resolved_workflow_id resolved_run_id
              resolved_execution_id [] [] [] [] now now (now + ttl_seconds * us_per_second) in
  let ws := append_notes notes (merge_anchors (normalized_anchors anchors) ws) in
  mret (ws, store_working_set ws st).

(** [add_graph_working_set_items] *)
Definition add_graph_working_set_items (ws : GraphWorkingSet)
    (anchors visited_nodes selected_nodes notes : list (dict pyval)) (ttl_seconds : Z) : M GraphWorkingSet :=
  now ← utc_now;
  mret (append_notes notes
         (merge_selected (nodes_with_id (map PDict selected_nodes))
           (merge_visited (nodes_with_id (map PDict visited_nodes))
             (merge_anchors (normalized_anchors anchors) (refresh_working_set now ttl_seconds ws))))).

(** The entries whose id is not among the removed ones. *)
Definition without_ids (removed : list string) (items : list (dict pyval)) : list (dict pyval) :=
  match List.filter (fun s => negb (String.eqb s "")) removed with
  | [] => items
  | ids => List.filter (fun item => negb (mem_str (py_str env_float_repr (pget "id" item)) ids)) items
  end.

(** [remove_graph_working_set_items] *)
Definition remove_graph_working_set_items (ws : GraphWorkingSet)
    (anchor_ids visited_node_ids selected_node_ids : list string) (clear_notes : bool) (ttl_seconds : Z) :
    M GraphWorkingSet :=
  now ← utc_now;
  let ws := refresh_working_set now ttl_seconds ws in
  let ws := set_gw_anchors (without_ids anchor_ids (gw_anchors ws)) ws in
  let ws := set_gw_visited_nodes (without_ids visited_node_ids (gw_visited_nodes ws)) ws in
  let ws := set_gw_selected_nodes (without_ids selected_node_ids (gw_selected_nodes ws)) ws in
  mret (if clear_notes then set_gw_notes [] ws else ws).

(** ** Recording a graph context entry *)

Definition entry_context (entry : dict pyval) : dict pyval := dict_or_empty (pget "context" entry).
Definition entry_query_meta (entry : dict pyval) : dict pyval :=
  dict_or_empty (pget "query_meta" (entry_context entry)).

(** [query_meta.get(key) or entry.get(key)] *)
Definition meta_or_entry (key : string) (entry : dict pyval) : pyval :=
  py_or (pget key (entry_query_meta entry)) (pget key entry).

(** [for item in value or []] *)
Definition iter_or_empty (v : pyval) : M (list pyval) := if truthy v then py_iter v else mret [].

(** The anchor of the entry, or nothing. *)
Definition entry_anchor (entry : dict pyval) (pair : string -> string -> dict pyval) : list (dict pyval) :=
  let anchor_type := meta_or_entry "anchor_type" entry in
  let anchor_id := meta_or_entry "anchor_id" entry in
  if truthy anchor_type && truthy anchor_id
  then [pair (py_str env_float_repr anchor_type) (py_str env_float_repr anchor_id)] else [].

(** [_selected_graph_nodes] *)
Definition selected_graph_nodes (entry : dict pyval) : M (list (dict pyval)) :=
  sections ← collect (fun section =>
      items ← iter_or_empty (pget section (entry_context entry)); mret (nodes_with_id items))
    ["related_memories"; "related_documents"; "prior_attempts"; "prior_changes"; "failures"; "decisions";
     "constraints"; "open_questions"; "next_actions"];
  mret (entry_anchor entry (fun t i => [("id", PStr i); ("type", PStr t)]) ++ sections).

(** [_graph_working_set_note]; [None] is an empty note. *)
Definition graph_working_set_note (entry : dict pyval) : option (dict pyval) :=
  let context := entry_context entry in
  let note :=
    [("trigger", pget "trigger" entry); ("reason", pget "reason" entry);
     ("intent", meta_or_entry "intent" entry); ("budget", meta_or_entry "budget" entry);
     ("status", pget "status" context)]
    ++ (if truthy (pget "summary" context)
        then [("summary", PStr (str_take 500 (py_str env_float_repr (pget "summary" context))))] else []) in
  match List.filter (fun kv => negb (is_none kv.2)) note with
  | [] => None
  | kept => Some kept
  end.

(** The set that an entry is recorded in, found or made. *)
Definition working_set_for (now : Z) (st : NativeExecutionState)
    (owner_agent_id workflow_id run_id execution_id conversation_id : option string) (ttl_seconds : Z) :
    GraphWorkingSet :=
  let resolved_execution_id := str_or execution_id (Some (st_execution_id st)) in
  let resolved_workflow_id := str_or workflow_id (Some (st_workflow_id st)) in
  let resolved_run_id := str_or run_id resolved_execution_id in
  let id := graph_working_set_id resolved_execution_id owner_agent_id in
  match dget id (st_graph_working_sets st) with
  | None =>
      mkGraphWorkingSet id owner_agent_id conversation_id resolved_workflow_id resolved_run_id
        resolved_execution_id [] [] [] [] now now (now + ttl_seconds * us_per_second)
  | Some ws =>
      let keep old new := if str_truthy new && negb (str_truthy old) then new else old in
      refresh_working_set now ttl_seconds
        (set_gw_execution_id (keep (gw_execution_id ws) resolved_execution_id)
          (set_gw_run_id (keep (gw_run_id ws) resolved_run_id)
            (set_gw_workflow_id (keep (gw_workflow_id ws) resolved_workflow_id)
              (set_gw_conversation_id (keep (gw_conversation_id ws) conversation_id) ws))))
  end.

(** Writing the working set object back to the state object of [i]. *)
Definition keep_working_set (i : string) (ws : GraphWorkingSet) : M unit :=
  update_state i (fun st =>
    set_st_graph_working_sets (dset (gw_working_set_id ws) ws (st_graph_working_sets st)) st).

(** [record_graph_context_working_set_entry] on the state object of [i]: the set,
    and the entry with the id of the set.  A context whose sections cannot be
    iterated raises after the set has been touched. *)
Definition record_graph_context_working_set_entry (i : string) (entry : dict pyval)
    (owner_agent_id workflow_id run_id execution_id conversation_id : option string) (ttl_seconds : Z) :
    M (GraphWorkingSet * dict pyval) :=
  now ← utc_now;
  update_state i (prune_expired_graph_working_sets now);;
  st ← state_of i;
  let ws := working_set_for now st owner_agent_id workflow_id run_id execution_id conversation_id ttl_seconds in
  let ws := merge_anchors (entry_anchor entry (fun t i => [("type", PStr t); ("id", PStr i)])) ws in
  keep_working_set i ws;;
  nodes ← iter_or_empty (pget "nodes" (dict_or_empty (pget "provenance" (entry_context entry))));
  let ws := merge_visited (nodes_with_id nodes) ws in
  keep_working_set i ws;;
  selected ← selected_graph_nodes entry;
  let ws := merge_selected selected ws in
  let ws := match graph_working_set_note entry with
            | Some note => append_notes [note] ws
            | None => ws
            end in
  update_state i (store_working_set ws);;
  mret (ws, dset "working_set_id" (PStr (gw_working_set_id ws)) entry).
End Merging.

(** ** Working sets stay small and free of duplicates *)

Section WorkingSetFacts.
Context `{Env}.

Definition has_key (key_fields : list string) (item : dict pyval) : bool :=
  forallb (fun s => negb (String.eqb s "")) (entry_key key_fields item).

(** Every entry has a key, and no two entries have the same one. *)
Definition uniquely_keyed (key_fields : list string) (l : list (dict pyval)) : Prop :=
  NoDup (map (entry_key key_fields) l) /\ Forall (fun item => has_key key_fields item = true) l.

Lemma has_key_fields key_fields item :
  has_key key_fields item = true -> forallb (fun f => truthy (pget f item)) key_fields = true.
Proof.
  unfold has_key, entry_key, text_or, py_or. induction key_fields as [|f fs IH]; simpl; [done|].
  intros [Hf Hfs]%andb_true_iff. rewrite (IH Hfs), andb_true_r.
  by destruct (truthy (pget f item)).
Qed.

Lemma key_not_seen key_fields l key :
  Forall (fun item => has_key key_fields item = true) l -> key_seen key_fields l key = false ->
  ~ In key (map (entry_key key_fields) l).
Proof.
  intros Hall Hseen (item & <- & Hin)%in_map_iff.
  enough (key_seen key_fields l (entry_key key_fields item) = true) by congruence.
  unfold key_seen. apply existsb_exists. exists item. split; [done|].
  rewrite Forall_forall in Hall. rewrite has_key_fields by (apply Hall; by apply list_elem_of_In).
  by apply bool_decide_eq_true_2.
Qed.

Lemma append_unique_keyed key_fields incoming target :
  uniquely_keyed key_fields target -> uniquely_keyed key_fields (append_unique key_fields target incoming).
Proof.
  revert target. induction incoming as [|item rest IH]; intros target [Hnd Hall]; simpl; [done|].
  fold (has_key key_fields item). destruct (has_key key_fields item) eqn:Hk; simpl; [|by apply IH].
  destruct (key_seen _ _ _) eqn:Hs; [by apply IH|]. apply IH. split.
  - rewrite map_app. apply NoDup_app. split; [done|]. split; [|apply NoDup_singleton].
    intros key Hin Hin1. apply (key_not_seen _ _ _ Hall Hs). simpl in Hin1.
    apply list_elem_of_singleton in Hin1 as ->. by apply list_elem_of_In.
  - apply Forall_app. split; [done|]. by constructor.
Qed.

Lemma last_n_suffix {A} n (l : list A) : exists l0, l = l0 ++ last_n n l.
Proof.
  unfold last_n. destruct (n =? 0); [by exists []|].
  exists (take (List.length l - Z.to_nat n) l). by rewrite take_drop.
Qed.

Lemma merge_unique_keyed key_fields limit target incoming :
  0 < limit -> uniquely_keyed key_fields target ->
  uniquely_keyed key_fields (merge_unique_dicts key_fields limit target incoming)
  /\ Z.of_nat (List.length (merge_unique_dicts key_fields limit target incoming)) <= limit.
Proof.
  intros Hl Hk. apply (append_unique_keyed _ incoming) in Hk. unfold merge_unique_dicts.
  set (merged := append_unique _ _ _) in *. destruct (Z.ltb_spec limit (Z.of_nat (List.length merged))).
  - destruct (last_n_suffix limit merged) as [l0 Hm]. split; [|rewrite last_n_length; lia].
    destruct Hk as [Hnd Hall]. rewrite Hm in Hnd, Hall. rewrite map_app in Hnd.
    apply NoDup_app in Hnd as (_ & _ & Hnd). by apply Forall_app in Hall as [_ Hall].
  - by split.
Qed.

(** A set within its bounds. *)
Record working_set_ok (ws : GraphWorkingSet) : Prop := {
  ws_anchors : uniquely_keyed ["type"; "id"] (gw_anchors ws)
               /\ Z.of_nat (List.length (gw_anchors ws)) <= GRAPH_WORKING_SET_NODE_LIMIT;
  ws_visited : uniquely_keyed ["id"] (gw_visited_nodes ws)
               /\ Z.of_nat (List.length (gw_visited_nodes ws)) <= GRAPH_WORKING_SET_NODE_LIMIT;
  ws_selected : uniquely_keyed ["id"] (gw_selected_nodes ws)
                /\ Z.of_nat (List.length (gw_selected_nodes ws)) <= GRAPH_WORKING_SET_NODE_LIMIT;
  ws_notes : Z.of_nat (List.length (gw_notes ws)) <= GRAPH_WORKING_SET_NOTE_LIMIT
}.

Lemma ok_empty id o c w r e n u x : working_set_ok (mkGraphWorkingSet id o c w r e [] [] [] [] n u x).
Proof. repeat split; simpl; try constructor; unfold GRAPH_WORKING_SET_NODE_LIMIT, GRAPH_WORKING_SET_NOTE_LIMIT; lia. Qed.

Lemma ok_merge_anchors l ws : working_set_ok ws -> working_set_ok (merge_anchors l ws).
Proof. intros [[Ha ?] ? ? ?]. split; try done. by apply merge_unique_keyed. Qed.
Lemma ok_merge_visited l ws : working_set_ok ws -> working_set_ok (merge_visited l ws).
Proof. intros [? [Ha ?] ? ?]. split; try done. by apply merge_unique_keyed. Qed.
Lemma ok_merge_selected l ws : working_set_ok ws -> working_set_ok (merge_selected l ws).
Proof. intros [? ? [Ha ?] ?]. split; try done. by apply merge_unique_keyed. Qed.
Lemma ok_append_notes l ws : working_set_ok ws -> working_set_ok (append_notes l ws).
Proof.
  intros [? ? ? ?]. split; try done. unfold append_notes. cbn [gw_notes set_gw_notes].
  rewrite last_n_length by done. unfold GRAPH_WORKING_SET_NOTE_LIMIT. lia.
Qed.
Lemma ok_refresh now ttl ws : working_set_ok ws -> working_set_ok (refresh_working_set now ttl ws).
Proof. by intros [? ? ? ?]. Qed.

Hint Resolve ok_empty ok_merge_anchors ok_merge_visited ok_merge_selected ok_append_notes ok_refresh : core.

(** ** Eviction *)

Lemma evict_fold evicted sets :
  NoDup (map gw_working_set_id evicted) -> keyed gw_working_set_id sets ->
  (forall ws, In ws evicted -> In ws (dvalues sets)) ->
  let kept := fold_left (fun acc ws => dpop (gw_working_set_id ws) acc) evicted sets in
  keyed gw_working_set_id kept
  /\ (List.length kept + List.length evicted = List.length sets)%nat
  /\ forall id, dget id kept = if mem_str id (map gw_working_set_id evicted) then None else dget id sets.
Proof.
  revert sets. induction evicted as [|ws evicted IH]; intros sets Hnd Hk Hin; simpl; [split; [done|]; split; [lia|done]|].
  simpl in Hnd. apply NoDup_cons in Hnd as [Hni Hnd]. rewrite list_elem_of_In in Hni.
  assert (Hget : forall v, In v (ws :: evicted) -> dget (gw_working_set_id v) sets = Some v).
  { intros v Hv. apply keyed_In; auto. }
  destruct (IH (dpop (gw_working_set_id ws) sets)) as (Hk' & Hlen & Hg); [done| | |].
  - destruct Hk as [Hd Hid]. split; [by apply dpop_NoDup|]. intros k v Hkv.
    destruct (decide (k = gw_working_set_id ws)) as [->|Hne]; [by rewrite dget_dpop_eq in Hkv|].
    rewrite dget_dpop_ne in Hkv by done. eauto.
  - intros v Hv. apply dget_values with (gw_working_set_id v). rewrite dget_dpop_ne; [apply Hget; by right|].
    intros Heq. apply Hni. rewrite <-Heq. by apply in_map.
  - split; [done|]. split.
    + pose proof (dpop_length (gw_working_set_id ws) sets (proj1 Hk)) as Hl. simpl in Hlen |- *.
      rewrite Hl; [lia|]. apply (in_map fst _ (gw_working_set_id ws, ws)), dget_In, Hget. by left.
    + intros id. rewrite Hg. unfold mem_str. simpl. destruct (String.eqb_spec id (gw_working_set_id ws)) as [->|Hne].
      * rewrite dget_dpop_eq. by destruct (existsb _ _).
      * by rewrite dget_dpop_ne.
Qed.

(** The bounds of a state's working sets. *)
Definition working_sets_ok (sets : dict GraphWorkingSet) : Prop :=
  keyed gw_working_set_id sets
  /\ Z.of_nat (List.length sets) <= GRAPH_WORKING_SET_LIMIT
  /\ forall id ws, dget id sets = Some ws -> working_set_ok ws.

(** What eviction leaves: at most ten sets, each as it was, and none that was
    updated before one that was evicted. *)
Lemma evict_working_sets_spec sets :
  keyed gw_working_set_id sets ->
  let kept := evict_working_sets sets in
  keyed gw_working_set_id kept
  /\ Z.of_nat (List.length kept) <= GRAPH_WORKING_SET_LIMIT
  /\ (forall id ws, dget id kept = Some ws -> dget id sets = Some ws)
  /\ (forall id ws, dget id sets = Some ws -> dget id kept = None ->
        forall id' ws', dget id' kept = Some ws' -> gw_updated_at ws <= gw_updated_at ws').
Proof.
  intros Hk. unfold evict_working_sets. cbv zeta.
  destruct (Z.ltb_spec 0 (Z.of_nat (List.length sets) - GRAPH_WORKING_SET_LIMIT)) as [Hexcess|Hfit];
    [|split; [done|]; split; [lia|]; split; [done|congruence]].
  set (le := fun a b => gw_updated_at a <=? gw_updated_at b).
  set (excess := Z.of_nat (List.length sets) - GRAPH_WORKING_SET_LIMIT) in *.
  set (sorted := py_sorted le (dvalues sets)).
  assert (Hperm : sorted ≡ₚ dvalues sets) by apply py_sorted_perm.
  assert (Hsorted : StronglySorted (fun a b => le a b = true) sorted).
  { apply py_sorted_sorted; unfold le; intros; lia. }
  assert (Hids : NoDup (map gw_working_set_id (dvalues sets))).
  { destruct Hk as [Hnd Hid]. clear -Hnd Hid. unfold dvalues, dkeys in *. rewrite map_map.
    erewrite map_ext_in; [exact Hnd|]. intros [k v] Hin. simpl. apply Hid. by apply In_dget. }
  unfold slice_to. pose proof (firstn_skipn (Z.to_nat excess) sorted) as Hsplit.
  set (evicted := take (Z.to_nat excess) sorted) in *. set (rest := drop (Z.to_nat excess) sorted) in *.
  assert (Hnd : NoDup (map gw_working_set_id (evicted ++ rest))) by (by rewrite Hsplit, Hperm).
  rewrite map_app in Hnd. apply NoDup_app in Hnd as (Hnd & Hdisj & _).
  assert (Hin : forall ws, In ws (dvalues sets) <-> In ws evicted \/ In ws rest).
  { intros ws. rewrite <-in_app_iff, Hsplit. unfold sorted. by rewrite py_sorted_In. }
  destruct (evict_fold evicted sets) as (Hk' & Hlen & Hg); [done|done|intros ws Hws; apply Hin; auto|].
  split; [done|]. split.
  { assert (Hle : List.length evicted = Z.to_nat excess).
    { unfold evicted. rewrite length_take. unfold sorted. rewrite py_sorted_length. unfold dvalues.
      rewrite length_map. unfold excess, GRAPH_WORKING_SET_LIMIT. lia. }
    unfold excess, GRAPH_WORKING_SET_LIMIT in *. lia. }
  split; [intros id ws; rewrite Hg; by destruct (mem_str _ _)|].
  intros id ws Hws Hgone id' ws' Hws'. rewrite Hg in Hgone, Hws'.
  destruct (mem_str id _) eqn:He; [|congruence]. destruct (mem_str id' _) eqn:He'; [done|].
  assert (Hid : gw_working_set_id ws = id) by (by apply Hk).
  assert (Hid' : gw_working_set_id ws' = id') by (by apply Hk).
  apply mem_str_In, in_map_iff in He as (ev & Hev & Hinev). apply mem_str_false in He'.
  assert (ev = ws) as ->.
  { pose proof (keyed_In _ ev _ Hk (proj2 (Hin ev) (or_introl Hinev))) as He. congruence. }
  assert (Hrest : In ws' rest).
  { destruct (proj1 (Hin ws') (dget_values _ _ _ Hws')) as [Hev'|]; [|done].
    exfalso. apply He'. rewrite <-Hid'. by apply in_map. }
  clear -Hsplit Hsorted Hinev Hrest. rewrite <-Hsplit in Hsorted. clear Hsplit.
  induction evicted as [|x l IH]; simpl in *; [done|]. inversion Hsorted as [|? ? Hs Hx]; subst.
  destruct Hinev as [->|Hinev]; [|by apply IH].
  rewrite Forall_forall in Hx. specialize (Hx ws'). unfold le in Hx. apply Z.leb_le, Hx.
  apply list_elem_of_In, in_app_iff. by right.
Qed.

(** The bounds but the number of sets. *)
Definition sets_valid (sets : dict GraphWorkingSet) : Prop :=
  keyed gw_working_set_id sets /\ forall id ws, dget id sets = Some ws -> working_set_ok ws.

Lemma sets_valid_dset ws sets :
  working_set_ok ws -> sets_valid sets -> sets_valid (dset (gw_working_set_id ws) ws sets).
Proof.
  intros Hws [Hk Hok]. split; [by apply keyed_dset|]. intros id ws'. rewrite dget_dset.
  destruct (String.eqb _ _); [by intros [= <-]|eauto].
Qed.

Lemma sets_valid_prune now sets :
  sets_valid sets -> sets_valid (List.filter (fun kv => negb (working_set_expired now kv.2)) sets).
Proof.
  intros [[Hnd Hid] Hok].
  assert (Hsub : forall id ws, dget id (List.filter (fun kv => negb (working_set_expired now kv.2)) sets) = Some ws ->
                 dget id sets = Some ws).
  { intros id ws Hin%dget_In%filter_In. apply In_dget; [done|]. apply Hin. }
  split; [split|]; [|eauto|eauto].
  clear -Hnd. unfold dkeys in *. induction sets as [|[k v] d IH]; simpl in *; [done|].
  apply NoDup_cons in Hnd as [Hni Hnd]. destruct (negb _); simpl; [|auto].
  apply NoDup_cons. split; [|auto]. rewrite list_elem_of_In in Hni |- *. contradict Hni.
  apply in_map_iff in Hni as ([k' v'] & Heq & Hin%filter_In). simpl in Heq. subst.
  apply in_map_iff. exists (k, v'). split; [done|apply Hin].
Qed.

Lemma stored_sets_ok ws st :
  working_set_ok ws -> sets_valid (st_graph_working_sets st) ->
  working_sets_ok (st_graph_working_sets (store_working_set ws st)).
Proof.
  intros Hws Hv. destruct (sets_valid_dset ws _ Hws Hv) as [Hk Hok].
  destruct (evict_working_sets_spec _ Hk) as (Hk' & Hlen & Hsub & _).
  split; [done|]. split; [done|]. intros id ws' Hws'%Hsub. eauto.
Qed.

Lemma working_set_for_ok now st o wf r e c ttl :
  sets_valid (st_graph_working_sets st) ->
  working_set_ok (working_set_for now st o wf r e c ttl).
Proof.
  intros [_ Hok]. unfold working_set_for. cbv zeta. destruct (dget _ _) as [ws|] eqn:Hws; [|auto].
  apply ok_refresh. pose proof (Hok _ _ Hws) as Hws_ok. destruct Hws_ok. by split.
Qed.

Lemma state_of_spec i st w : dget i (w_states w) = Some st -> state_of i w = (Ok st, w).
Proof. intros Hst. unfold state_of, gets. rewrite bind_unfold, Hst. done. Qed.

Lemma update_state_spec i f st w :
  dget i (w_states w) = Some st ->
  exists w', update_state i f w = (Ok tt, w') /\ dget i (w_states w') = Some (f st).
Proof.
  intros Hst. unfold update_state. rewrite (bind_Ok _ _ _ _ _ (state_of_spec i st w Hst)).
  eexists. split; [reflexivity|]. cbn [w_states set_w_states]. by rewrite dget_dset_eq.
Qed.

Lemma keep_working_set_spec i ws st w :
  dget i (w_states w) = Some st ->
  exists st' w', keep_working_set i ws w = (Ok tt, w') /\ dget i (w_states w') = Some st'
    /\ st_graph_working_sets st' = dset (gw_working_set_id ws) ws (st_graph_working_sets st).
Proof.
  intros Hst. unfold keep_working_set, update_state. rewrite (bind_Ok _ _ _ _ _ (state_of_spec i st w Hst)).
  eexists _, _. split; [reflexivity|]. cbn [w_states set_w_states]. by rewrite dget_dset_eq.
Qed.

Lemma iter_or_empty_pure v : evolves eq (iter_or_empty v).
Proof. unfold iter_or_empty. evolve. Qed.

Lemma selected_graph_nodes_pure entry : evolves eq (selected_graph_nodes entry).
Proof. unfold selected_graph_nodes, iter_or_empty. evolve. Qed.

(** A computation that changes nothing, run in a bind that succeeds. *)
Lemma pure_bind_inv {A B} (m : M A) (f : A -> M B) w b w' :
  evolves eq m -> (m ≫= f) w = (Ok b, w') -> exists a, f a w = (Ok b, w').
Proof.
  intros Hm (a & w1 & Ha & Hf)%bind_inv. exists a. specialize (Hm w). unfold world_after in Hm.
  rewrite Ha in Hm. simpl in Hm. by subst.
Qed.

(** C17. Recording graph context keeps an execution's working sets bounded: at most
    ten sets, at most a hundred entries per list and twenty-five notes, no two
    entries of a list for the same node; every set that is left is the one just
    recorded or an earlier set that has not expired. *)
Theorem working_sets_bounded i entry owner wf run exec conv ttl st w ws entry' w' :
  dget i (w_states w) = Some st -> working_sets_ok (st_graph_working_sets st) ->
  record_graph_context_working_set_entry i entry owner wf run exec conv ttl w = (Ok (ws, entry'), w') ->
  exists st', dget i (w_states w') = Some st' /\ working_sets_ok (st_graph_working_sets st')
    /\ pget "working_set_id" entry' = PStr (gw_working_set_id ws)
    /\ forall id ws', dget id (st_graph_working_sets st') = Some ws' ->
         ws' = ws \/ (dget id (st_graph_working_sets st) = Some ws'
                      /\ env_now (w_clock w) < gw_expires_at ws').
Proof.
  intros Hst (Hk & _ & Hok) Hr. unfold record_graph_context_working_set_entry in Hr.
  set (now := env_now (w_clock w)) in *. set (w0 := set_w_clock (S (w_clock w)) w).
  rewrite (bind_Ok utc_now _ w now w0) in Hr by done.
  set (st1 := prune_expired_graph_working_sets now st).
  destruct (update_state_spec i (prune_expired_graph_working_sets now) st w0 Hst) as (w1 & Hw1 & Hst1).
  rewrite (bind_Ok _ _ _ _ _ Hw1), (bind_Ok _ _ _ _ _ (state_of_spec i _ w1 Hst1)) in Hr. fold st1 in Hr, Hst1.
  assert (Hv1 : sets_valid (st_graph_working_sets st1)) by by apply sets_valid_prune.
  set (a := merge_anchors _ _) in Hr.
  assert (Ha : working_set_ok a) by by apply ok_merge_anchors, working_set_for_ok.
  destruct (keep_working_set_spec i a st1 w1 Hst1) as (st2 & w2 & Hw2 & Hst2 & Hs2).
  rewrite (bind_Ok _ _ _ _ _ Hw2) in Hr.
  apply pure_bind_inv in Hr as [nodes Hr]; [|apply iter_or_empty_pure].
  set (v := merge_visited (nodes_with_id nodes) a) in Hr.
  destruct (keep_working_set_spec i v st2 w2 Hst2) as (st3 & w3 & Hw3 & Hst3 & Hs3).
  rewrite (bind_Ok _ _ _ _ _ Hw3) in Hr.
  apply pure_bind_inv in Hr as [selected Hr]; [|apply selected_graph_nodes_pure].
  set (f := match graph_working_set_note entry with Some _ => _ | None => _ end) in Hr.
  destruct (update_state_spec i (store_working_set f) st3 w3 Hst3) as (w4 & Hw4 & Hst4).
  rewrite (bind_Ok _ _ _ _ _ Hw4) in Hr. injection Hr as <- <- <-.
  assert (Hf : working_set_ok f).
  { unfold f. destruct (graph_working_set_note entry); [apply ok_append_notes|];
      by apply ok_merge_selected, ok_merge_visited. }
  assert (Hid : gw_working_set_id f = gw_working_set_id a).
  { unfold f. by destruct (graph_working_set_note entry). }
  assert (Hv3 : sets_valid (st_graph_working_sets st3)).
  { rewrite Hs3, Hs2. change (gw_working_set_id v) with (gw_working_set_id a).
    apply (sets_valid_dset v); [by apply ok_merge_visited|]. by apply sets_valid_dset. }
  exists (store_working_set f st3). split; [done|]. split; [by apply stored_sets_ok|]. split; [unfold pget; by rewrite dget_dset_eq|].
  intros id ws' Hws'. destruct (sets_valid_dset f _ Hf Hv3) as [Hk3 _].
  destruct (evict_working_sets_spec _ Hk3) as (_ & _ & Hsub & _). apply Hsub in Hws'.
  rewrite dget_dset, Hid in Hws'. destruct (String.eqb_spec id (gw_working_set_id a)) as [->|Hne];
    [left; congruence|]. right. rewrite Hs3, dget_dset_ne, Hs2, dget_dset_ne in Hws' by done.
  apply dget_In, filter_In in Hws' as [Hin Hexp]. split; [apply In_dget; [apply Hk|done]|].
  apply negb_true_iff in Hexp. unfold working_set_expired in Hexp. simpl in Hexp. lia.
Qed.
End WorkingSetFacts.
