(* ===== verification/Cycles.v ===== *)
(** * Persistent cycles and run hooks

    The persistent-cycle handlers of [ExecutionEngine]
    ([app/runtime/native/engine.py]), which re-run one durable execution as a
    monitor loop: the bookkeeping in [metadata.persistent_cycle], the guards that
    pause a cycle, the backoff after failures and the sleep wait that wakes the
    next cycle; and the callbacks of the run loop: graph context retrieval before
    a task and after a failure, and the completion handler.

    The cycle dictionary is shared between the local variable of the code and
    the execution's metadata; the model updates it in the metadata. *)

From Corelib Require Import SpecFloat.
From S2P Require Export GraphMemory Policy.

(** ** Callbacks

    What the process may install on the engine ([None]: nothing).  A retriever
    returns an entry or nothing; resolving the model client of a profile may
    raise. *)

Class RunHooks := {
  graph_context_retriever :
    option (WorkflowDefinition -> TaskDefinition -> AgentDefinition -> string -> M (option (dict pyval)));
  execution_failure_graph_context_retriever :
    option (WorkflowDefinition -> string -> string -> option string -> M (option (dict pyval)));
  execution_completion_handler : option (string -> WorkflowDefinition -> M unit);
  resolve_model_client : ModelProfile -> M unit
}.

Class RunHooksLaws `{Env} `{RunHooks} : Prop := {
  retriever_ledger : forall f wf t a i, graph_context_retriever = Some f -> evolves ledger (f wf t a i);
  failure_retriever_ledger : forall f wf i e ev,
    execution_failure_graph_context_retriever = Some f -> evolves ledger (f wf i e ev);
  completion_ledger : forall f i wf, execution_completion_handler = Some f -> evolves ledger (f i wf);
  resolve_client_ledger : forall p, evolves ledger (resolve_model_client p)
}.

(** ** Times and delays *)

(** [timedelta(seconds=f)] *)
Definition py_timedelta (f : spec_float) : M Z :=
  match timedelta_seconds f with
  | DeltaValue us => mret us
  | DeltaInvalid => raise ValueError "cannot convert float NaN to integer"
  | DeltaOverflow => raise OverflowError "days must have magnitude <= 999999999"
  end.

(** [t + delta] *)
Definition py_datetime_plus (t delta : Z) : M Z :=
  if (t + delta <=? MAX_TIMESTAMP) then mret (t + delta)
  else raise OverflowError "date value out of range".

(** [base ** exponent] for an integer exponent. *)
Definition py_float_pow `{Env} (base : spec_float) (exponent : Z) : M spec_float :=
  match checked_float (float_of_Z exponent) with
  | FloatValue x => match env_float_pow base x with
                    | Some r => mret r
                    | None => raise OverflowError "Numerical result out of range"
                    end
  | _ => float_overflow
  end.

(** The integer of hexadecimal digits. *)
Definition hex_number (s : string) : Z :=
  fold_left (fun acc c => acc * 16 + Z.of_nat (default 0%nat (hex_value c))) (list_ascii_of_string s) 0.

(** [_cycle_delay_with_jitter]; eight digest bytes are sixteen hexadecimal digits. *)
Definition cycle_delay_with_jitter `{Env} (execution_id : string) (cycle_number : Z)
    (delay_seconds ratio : spec_float) : spec_float :=
  if SFleb ratio zero_float then delay_seconds
  else
    let digest := env_sha256_hex (execution_id +:+ ":" +:+ show_Z cycle_number) in
    let unit := fdiv (float_of_Z (hex_number (str_take 16 digest))) (float_of_Z (2 ^ 64 - 1)) in
    let multiplier := fadd one_float (fmul (fsub (fmul unit (float_of_Z 2)) one_float) ratio) in
    fmax (float_of_decimal false 1 (-3)) (fmul delay_seconds multiplier).

Section Cycles.
Context `{Env} `{RunHooks}.

(** [collect_system_metrics()] *)
Definition collect_system_metrics : M (dict pyval) := gets (fun w => env_system_metrics (w_clock w)).

(** An event of the engine without actor. *)
Definition engine_event (i : string) (ty : ExecutionEventType) (payload metrics metadata : dict pyval) :
    M ExecutionEvent :=
  emit_at i ty None payload metrics metadata None None.

(** ** The cycle dictionary *)

Definition cycle_of (e : Execution) : dict pyval := dict_or_empty (pget "persistent_cycle" (ex_metadata e)).

Definition update_cycle (i : string) (f : dict pyval -> dict pyval) : M unit :=
  assign i (fun e => set_ex_metadata (dset "persistent_cycle" (PDict (f (cycle_of e))) (ex_metadata e)) e).

(** [_cycle_metadata] *)
Definition cycle_metadata (i : string) : M (dict pyval) :=
  update_cycle i (fun cycle => cycle);;
  e ← deref i;
  mret (cycle_of e).

(** [_positive_int(cycle.get("cycle_number")) or 1] *)
Definition current_cycle_number (cycle : dict pyval) : M Z :=
  n ← positive_int (pget "cycle_number" cycle);
  mret (default 1 n).

(** [_mark_persistent_cycle_started] *)
Definition mark_persistent_cycle_started (i : string) (policy : PersistentCyclePolicy) : M (option Z) :=
  if negb (pc_enabled policy) then mret None
  else
    cycle ← cycle_metadata i;
    next_cycle ← positive_int (pget "next_cycle_number" cycle);
    cycle_number ← match next_cycle with Some n => mret n | None => current_cycle_number cycle end;
    now ← utc_now;
    update_cycle i (fun cycle =>
      dpop "next_wake_at" (dpop "next_cycle_number"
        (dupdate cycle [("enabled", PBool true); ("cycle_number", PInt cycle_number);
                        ("phase", PStr "running"); ("cycle_started_at", PStr (isoformat now))])));;
    mret (Some cycle_number).

(** [_append_cycle_history] *)
Definition append_cycle_history (policy : PersistentCyclePolicy) (item : dict pyval) (cycle : dict pyval) :
    dict pyval :=
  let history := match pget "history" cycle with PList l => l | _ => [] end in
  dset "history" (PList (last_n (pc_history_limit policy) (history ++ [PDict item]))) cycle.

(** [_reset_cycle_checkpoint] *)
Definition reset_cycle_payload (cycle_output : dict pyval) : dict pyval :=
  [("node_outputs", PDict []); ("final_output", PNone);
   ("checkpoint", PDict
      [("current_node_id", PNone); ("current_task_id", PNone); ("completed_node_ids", PList []);
       ("node_outcomes", PDict []); ("node_errors", PDict []); ("task_tool_results", PDict []);
       ("planned_node_ids", PList []); ("terminal_node_ids", PList [])]);
   ("last_cycle_output", PDict cycle_output)].

Definition reset_cycle_state (st : NativeExecutionState) : NativeExecutionState :=
  set_st_terminal_node_ids [] (set_st_planned_node_ids [] (set_st_current_task_id None
    (set_st_current_node_id None (set_st_task_tool_results [] (set_st_node_errors []
      (set_st_node_outcomes [] (set_st_node_outputs [] st))))))).

Definition reset_cycle_checkpoint (i : string) (cycle_output : dict pyval) : M unit :=
  assign i (set_ex_output_payload (Some (reset_cycle_payload cycle_output)));;
  update_state i reset_cycle_state.

(** ** Suspending between cycles *)

(** [_pause_persistent_cycle_for_guard] *)
Definition pause_persistent_cycle_for_guard (i : string) (cycle_output : dict pyval) (reason : string)
    (detail : dict pyval) : M unit :=
  cycle ← cycle_metadata i;
  cycle_number ← current_cycle_number cycle;
  update_cycle i (fun cycle =>
    dupdate cycle [("phase", PStr "guarded"); ("guard_reason", PStr reason);
                   ("next_cycle_number", PInt (cycle_number + 1))]);;
  reset_cycle_checkpoint i cycle_output;;
  assign i (set_ex_status PAUSED);;
  assign i (set_ex_completed_at None);;
  update_execution i;;
  engine_event i EXECUTION_CYCLE_GUARD_TRIGGERED
    (dupdate [("cycle_number", PInt cycle_number); ("reason", PStr reason)] detail) [] [];;
  engine_event i EXECUTION_PAUSED
    [("execution_id", PStr i); ("reason", PStr reason); ("source", PStr "persistent_cycle")] [] [];;
  mret tt.

(** The sleep wait of a cycle; the bounds of the fields are checked when it is
    built. *)
Definition cycle_wait (i : string) (checkpoint : dict pyval) (cycle_number next_cycle_number : Z)
    (policy : PersistentCyclePolicy) (wake_at : Z) (reason : string) : M ExecutionWait :=
  id ← uuid4;
  created_at ← utc_now;
  updated_at ← utc_now;
  validate_wait (mkExecutionWait id i SLEEP WAIT_PENDING
    ("persistent-cycle:" +:+ show_Z next_cycle_number) None checkpoint
    [("reason", PStr reason); ("completed_cycle_number", PInt cycle_number);
     ("next_cycle_number", PInt next_cycle_number)]
    (cycle_policy_dump policy) None None (Some wake_at) None None None created_at updated_at
    [("source", PStr "persistent_cycle"); ("reason", PStr reason)]).

(** The [try] around [create_execution_wait]: a pending wait for the same cycle
    is taken over. *)
Definition claim_cycle_wait (i : string) (wt : ExecutionWait) : M ExecutionWait :=
  try_except (create_execution_wait wt) is_value_error
    (fun exc =>
       pending ← list_execution_waits i (Some WAIT_PENDING);
       match pending with
       | existing :: _ =>
           if String.eqb (wt_idempotency_key existing) (wt_idempotency_key wt) then mret existing
           else reraise exc
       | [] => reraise exc
       end).

(** [_schedule_persistent_cycle] *)
Definition schedule_persistent_cycle (i : string) (policy : PersistentCyclePolicy)
    (cycle_output : dict pyval) (delay_seconds : spec_float) (reason : string) : M unit :=
  cycle ← cycle_metadata i;
  cycle_number ← current_cycle_number cycle;
  let next_cycle_number := cycle_number + 1 in
  let effective := cycle_delay_with_jitter i next_cycle_number delay_seconds (pc_jitter_ratio policy) in
  now ← utc_now;
  delay ← py_timedelta effective;
  wake_at ← py_datetime_plus now delay;
  update_cycle i (fun cycle =>
    dupdate cycle [("phase", PStr "sleeping"); ("next_cycle_number", PInt next_cycle_number);
                   ("next_wake_at", PStr (isoformat wake_at));
                   ("last_base_delay_seconds", PFloat delay_seconds);
                   ("last_delay_seconds", PFloat effective)]);;
  reset_cycle_checkpoint i cycle_output;;
  assign i (set_ex_status PAUSED);;
  assign i (set_ex_completed_at None);;
  update_execution i;;
  wt ← cycle_wait i (reset_cycle_payload cycle_output) cycle_number next_cycle_number policy wake_at reason;
  saved ← claim_cycle_wait i wt;
  assign i (set_ex_status SLEEPING);;
  assign i (fun e => set_ex_metadata (dset "active_wait"
    (PDict [("wait_id", PStr (wt_id saved)); ("kind", PStr (wait_kind_value (wt_kind saved)));
            ("created_at", PStr (isoformat (wt_created_at saved))); ("wake_at", PStr (isoformat wake_at));
            ("deadline_at", PNone)]) (ex_metadata e)) e);;
  update_execution i;;
  engine_event i EXECUTION_WAITING
    [("wait_id", PStr (wt_id saved)); ("kind", PStr (wait_kind_value (wt_kind saved)));
     ("status", PStr (wait_status_value (wt_status saved))); ("wake_at", PStr (isoformat wake_at));
     ("source", PStr "persistent_cycle"); ("next_cycle_number", PInt next_cycle_number)] [] [];;
  mret tt.
End Cycles.

Section Hooks.
Context `{Env} `{RunHooks}.

(** [len(value or [])] *)
Definition py_len_or_empty (v : pyval) : M Z :=
  if truthy v then
    match v with
    | PStr s => mret (Z.of_nat (String.length s))
    | PList l => mret (Z.of_nat (List.length l))
    | PDict d => mret (Z.of_nat (List.length d))
    | _ => raise TypeError "object has no len()"
    end
  else mret 0.

(** [_maybe_handle_execution_completion] *)
Definition maybe_handle_execution_completion (i : string) (wf : WorkflowDefinition) : M unit :=
  match execution_completion_handler with
  | None => mret tt
  | Some handler => try_except (handler i wf) any_exn (fun _ => mret tt)
  end.

(** Recording an entry: the working set, and the last twenty-five entries.  The
    ids of entries are texts. *)
Definition record_context_entry (i : string) (wf : WorkflowDefinition) (entry : dict pyval)
    (owner_agent_id : option string) : M (GraphWorkingSet * dict pyval) :=
  e ← deref i;
  '(ws, entry) ← record_graph_context_working_set_entry i entry owner_agent_id (Some (wf_id wf)) (Some i)
    (Some i) (conversation_id_from_execution e) GRAPH_WORKING_SET_TTL_SECONDS;
  update_state i (fun st =>
    set_st_graph_context_entries (last_n 25 (st_graph_context_entries st ++ [entry])) st);;
  mret (ws, entry).

(** The entries that every context event shares; [anchored] adds the anchor. *)
Definition context_head (entry : dict pyval) (trigger : string) (status reason : pyval) : dict pyval :=
  [("source", PStr "runtime_graph_context"); ("trigger", py_or (pget "trigger" entry) (PStr trigger));
   ("status", status); ("reason", reason)].
Definition context_anchor (entry : dict pyval) : dict pyval :=
  [("intent", meta_or_entry "intent" entry); ("budget", meta_or_entry "budget" entry);
   ("anchor_type", meta_or_entry "anchor_type" entry); ("anchor_id", meta_or_entry "anchor_id" entry)].

Definition skipped_payload (entry : dict pyval) (trigger : string) : dict pyval :=
  context_head entry trigger (py_or (pget "status" (entry_context entry)) (PStr "skipped"))
    (py_or (pget "reason" entry) (PStr "auto_retrieval_loop_guard_no_progress"))
  ++ [("skip_reason", pget "skip_reason" entry)] ++ context_anchor entry.

Definition recorded_payload (entry : dict pyval) (trigger : string) : dict pyval :=
  context_head entry trigger (py_or (pget "status" (entry_context entry)) (PStr "unknown"))
    (py_or (pget "reason" entry) (PStr "runtime_auto_retrieval"))
  ++ context_anchor entry.

Definition context_flags (extra : dict pyval) : dict pyval :=
  [("runtime_graph_context", PBool true); ("auto_retrieval", PBool true)] ++ extra.

(** [_maybe_retrieve_graph_context_before_task] *)
Definition maybe_retrieve_graph_context_before_task (i : string) (wf : WorkflowDefinition)
    (task : TaskDefinition) (agent : AgentDefinition) : M unit :=
  let event payload flags :=
    emit_at i AGENT_MESSAGE_CREATED (Some (ag_name agent)) payload [] (context_flags flags)
      (Some (ag_id agent)) (Some (td_id task)) in
  match graph_context_retriever with
  | None => mret tt
  | Some retrieve =>
      found ← try_except (entry ← retrieve wf task agent i; mret (inl entry)) any_exn
                (fun exc => mret (inr exc));
      match found with
      | inr exc =>
          event [("source", PStr "runtime_graph_context"); ("trigger", PStr "subagent_start");
                 ("status", PStr "failed"); ("reason", PStr "prepare_assigned_agent_context");
                 ("error", PStr (exn_message exc))] [];;
          mret tt
      | inl None | inl (Some []) => mret tt
      | inl (Some entry) =>
          if truthy (pget "skipped" entry) then
            event (skipped_payload entry "subagent_start") [("skipped", PBool true)];;
            mret tt
          else
            '(ws, entry) ← record_context_entry i wf entry (Some (ag_id agent));
            event (recorded_payload entry "subagent_start"
                   ++ [("working_set_id", PStr (gw_working_set_id ws));
                       ("node_count", pget "node_count" (entry_query_meta entry));
                       ("edge_count", pget "edge_count" (entry_query_meta entry))]) [];;
            mret tt
      end
  end.

(** [_maybe_retrieve_graph_context_after_execution_failure] *)
Definition maybe_retrieve_graph_context_after_execution_failure (i : string) (wf : WorkflowDefinition)
    (error : string) (failure_event_id : option string) : M unit :=
  let event payload flags := engine_event i AGENT_MESSAGE_CREATED payload [] (context_flags flags) in
  match execution_failure_graph_context_retriever with
  | None => mret tt
  | Some retrieve =>
      found ← try_except (entry ← retrieve wf i error failure_event_id; mret (inl entry)) any_exn
                (fun exc => mret (inr exc));
      match found with
      | inr exc =>
          event [("source", PStr "runtime_graph_context"); ("trigger", PStr "execution_failed");
                 ("status", PStr "failed"); ("reason", PStr "root_cause_context_after_execution_failure");
                 ("error", PStr (exn_message exc)); ("failure_event_id", opt_str failure_event_id)] [];;
          mret tt
      | inl None | inl (Some []) => mret tt
      | inl (Some entry) =>
          let event_id entry := py_or (pget "failure_event_id" entry) (opt_str failure_event_id) in
          if truthy (pget "skipped" entry) then
            event (skipped_payload entry "execution_failed" ++ [("failure_event_id", event_id entry)])
              [("skipped", PBool true)];;
            mret tt
          else
            st ← state_of i;
            '(ws, entry) ← record_context_entry i wf entry
              (str_or (as_str (pget "agent_id" entry)) (st_current_agent_id st));
            failed_events ← py_len_or_empty (pget "failed_events" entry);
            tool_calls ← py_len_or_empty (pget "tool_calls" entry);
            artifacts ← py_len_or_empty (pget "artifacts" entry);
            model_requests ← py_len_or_empty (pget "model_requests" entry);
            prior_attempts ← py_len_or_empty (pget "prior_attempts" entry);
            event (recorded_payload entry "execution_failed"
                   ++ [("failure_event_id", event_id entry);
                       ("working_set_id", PStr (gw_working_set_id ws));
                       ("node_count", pget "node_count" (entry_query_meta entry));
                       ("edge_count", pget "edge_count" (entry_query_meta entry));
                       ("failed_event_count", PInt failed_events); ("tool_call_count", PInt tool_calls);
                       ("artifact_count", PInt artifacts); ("model_request_count", PInt model_requests);
                       ("prior_attempt_count", PInt prior_attempts)]) [];;
            mret tt
      end
  end.

(** ** The end of a cycle *)

(** Whether a cycle is the last one. *)
Definition terminal_reason_of (policy : PersistentCyclePolicy) (cycle_number now : Z) :
    M (option string) :=
  if match pc_max_cycles policy with Some n => n <=? cycle_number | None => false end
  then mret (Some "max_cycles_reached")
  else
    match pc_deadline_at policy with
    | None => mret None
    | Some deadline =>
        delta ← py_timedelta (pc_interval_seconds policy);
        next ← py_datetime_plus now delta;
        mret (if deadline <=? next then Some "deadline_reached" else None)
    end.

(** [_handle_persistent_cycle_success]: has the handler disposed of the run? *)
Definition handle_persistent_cycle_success (i : string) (policy : PersistentCyclePolicy)
    (cycle_output : dict pyval) : M bool :=
  if negb (pc_enabled policy) then mret false
  else
    now ← utc_now;
    cycle ← cycle_metadata i;
    cycle_number ← current_cycle_number cycle;
    let signature := cycle_progress_signature cycle_output in
    no_progress_cycles ←
      (if eq_str (pget "last_progress_signature" cycle) signature then
         n ← non_negative_int (pget "no_progress_cycles" cycle); mret (default 0 n + 1)
       else mret 0);
    update_cycle i (fun cycle =>
      dpop "last_error" (dupdate cycle
        [("cycle_number", PInt cycle_number); ("consecutive_failures", PInt 0);
         ("no_progress_cycles", PInt no_progress_cycles); ("last_progress_signature", PStr signature);
         ("last_cycle_completed_at", PStr (isoformat now)); ("last_cycle_status", PStr "completed")]));;
    assign i (set_ex_error None);;
    update_cycle i (append_cycle_history policy
      [("cycle_number", PInt cycle_number); ("status", PStr "completed");
       ("completed_at", PStr (isoformat now)); ("progress_signature", PStr signature)]);;
    terminal_reason ← terminal_reason_of policy cycle_number now;
    engine_event i EXECUTION_CYCLE_COMPLETED
      [("cycle_number", PInt cycle_number); ("progress_signature", PStr signature);
       ("no_progress_cycles", PInt no_progress_cycles); ("terminal_reason", opt_str terminal_reason)] [] [];;
    match terminal_reason with
    | Some reason =>
        update_cycle i (fun cycle =>
          dupdate cycle [("phase", PStr "completed"); ("terminal_reason", PStr reason)]);;
        mret false
    | None =>
        if match pc_max_no_progress_cycles policy with
           | Some limit => limit <=? no_progress_cycles
           | None => false
           end
        then
          pause_persistent_cycle_for_guard i cycle_output "no_progress_limit_reached"
            [("no_progress_cycles", PInt no_progress_cycles)];;
          mret true
        else
          schedule_persistent_cycle i policy cycle_output (pc_interval_seconds policy) "cycle_completed";;
          mret true
    end.

(** The delay after a failure. *)
Definition failure_delay (policy : PersistentCyclePolicy) (consecutive_failures : Z) : M spec_float :=
  backoff ← py_float_pow (pc_failure_backoff_multiplier policy) (consecutive_failures - 1);
  mret (fmin (pc_max_interval_seconds policy) (fmul (pc_interval_seconds policy) backoff)).

(** Whether the next cycle would start after the deadline. *)
Definition past_deadline (policy : PersistentCyclePolicy) (now : Z) (delay_seconds : spec_float) : M bool :=
  match pc_deadline_at policy with
  | None => mret false
  | Some deadline =>
      delta ← py_timedelta delay_seconds;
      next ← py_datetime_plus now delta;
      mret (deadline <=? next)
  end.

(** [_handle_persistent_cycle_failure] *)
Definition handle_persistent_cycle_failure (i : string) (wf : WorkflowDefinition)
    (policy : PersistentCyclePolicy) (error : string) : M unit :=
  now ← utc_now;
  cycle ← cycle_metadata i;
  cycle_number ← current_cycle_number cycle;
  failures ← non_negative_int (pget "consecutive_failures" cycle);
  let consecutive_failures := default 0 failures + 1 in
  st ← state_of i;
  let failed_output := execution_checkpoint_payload st None in
  assign i (set_ex_error (Some error));;
  update_cycle i (fun cycle =>
    dupdate cycle [("cycle_number", PInt cycle_number); ("consecutive_failures", PInt consecutive_failures);
                   ("last_cycle_completed_at", PStr (isoformat now)); ("last_cycle_status", PStr "failed");
                   ("last_error", PStr error)]);;
  update_cycle i (append_cycle_history policy
    [("cycle_number", PInt cycle_number); ("status", PStr "failed"); ("completed_at", PStr (isoformat now));
     ("error", PStr error)]);;
  metrics ← collect_system_metrics;
  failure_event ← engine_event i EXECUTION_CYCLE_FAILED
    [("cycle_number", PInt cycle_number); ("error", PStr error);
     ("consecutive_failures", PInt consecutive_failures)] metrics [];
  maybe_retrieve_graph_context_after_execution_failure i wf error (Some (ev_id failure_event));;
  if pc_max_consecutive_failures policy <=? consecutive_failures then
    pause_persistent_cycle_for_guard i failed_output "max_consecutive_failures_reached"
      [("consecutive_failures", PInt consecutive_failures)]
  else
    delay_seconds ← failure_delay policy consecutive_failures;
    late ← past_deadline policy now delay_seconds;
    if (late : bool) then
      pause_persistent_cycle_for_guard i failed_output "deadline_reached_after_failure"
        [("consecutive_failures", PInt consecutive_failures)]
    else schedule_persistent_cycle i policy failed_output delay_seconds "cycle_failed".
End Hooks.
