(* ===== verification/RunLoop.v ===== *)
(** * The run loop of the native engine

    [start_execution] of [ExecutionEngine] ([app/runtime/native/engine.py]): the
    preparation of a run, the walk over the planned nodes (routing, resuming from
    a checkpoint, retries of one task, handoffs, failure edges, required tool
    results), and the ways a run ends: completed, failed, paused, cancelled, or
    asleep until its next persistent cycle.  [prepare_execution] is here too.

    The local variable [execution] of the code is the shared object of the store;
    the engine's state object is [w_states] at the execution's id. *)

From Corelib Require Import SpecFloat.
From S2P Require Export Cycles.

Section RunLoop.
Context `{Env} `{Workflows} `{Profiles} `{DecisionProvider} `{AgentExecutor} `{RunHooks}.

(** [prepare_execution] *)
Definition prepare_execution (e : Execution) : M string :=
  fresh ← new_state (ex_id e) (ex_workflow_id e);
  existing ← gets (fun w => dget (ex_id e) (w_states w));
  put_state (ex_id e) (default fresh existing);;
  save_execution e;;
  engine_event (ex_id e) EXECUTION_CREATED
    [("workflow_id", PStr (ex_workflow_id e)); ("trigger", default (PDict []) (dget "trigger" (ex_metadata e)))]
    [] [];;
  mret (ex_id e).

(** [execution.output_payload = _execution_checkpoint_payload(state)] *)
Definition checkpoint_execution (i : string) (prior_payload : option (dict pyval)) : M unit :=
  st ← state_of i;
  assign i (set_ex_output_payload (Some (execution_checkpoint_payload st prior_payload))).

(** ** One node *)

(** What stays fixed during a run. *)
Record run_setup := mkRun {
  ru_id : string;
  ru_workflow : WorkflowDefinition;
  ru_policy : dict pyval; (* workflow_policy *)
  ru_retry_task_id : string (* the task to retry, if the run retries one *)
}.

(** [retry_started] and [previous_task_context]. *)
Record loop_state := mkLoop {
  ls_retry_started : bool;
  ls_previous : option (WorkflowNode * TaskDefinition * AgentDefinition)
}.

Section Node.
Context (r : run_setup).
Abbreviation i := (ru_id r).
Abbreviation wf := (ru_workflow r).

(** The overrides of a task, tightened by the node and the workflow policy. *)
Definition node_overrides (node : WorkflowNode) (task : TaskDefinition) : M (dict pyval) :=
  overrides ← task_runtime_overrides task;
  let overrides :=
    if td_human_approval_required task || bool_decide (wn_node_type node = NODE_APPROVAL)
    then dset "approval_policy" (PStr "required") overrides else overrides in
  let overrides :=
    if negb (dmem "max_retries" overrides) && dmem "max_retries" (ru_policy r)
    then dset "max_retries" (pget "max_retries" (ru_policy r)) overrides else overrides in
  mret (if eq_str (pget "approval_mode" (ru_policy r)) "all_tasks"
        then dset "approval_policy" (PStr "required") overrides else overrides).

(** The handoff from the previous task, when an edge declares one. *)
Definition emit_handoff (previous : option (WorkflowNode * TaskDefinition * AgentDefinition))
    (node : WorkflowNode) (task : TaskDefinition) (agent : AgentDefinition) (status : string) : M unit :=
  match previous with
  | None => mret tt
  | Some (previous_node, previous_task, previous_agent) =>
      match handoff_edge_between wf (wn_id previous_node) (wn_id node) with
      | None => mret tt
      | Some edge =>
          emit_handoff_event i wf edge previous_node node previous_task task previous_agent agent status
      end
  end.

Definition failure_edges (node : WorkflowNode) : list WorkflowEdge :=
  List.filter (fun e => String.eqb (we_source_node_id e) (wn_id node)
                        && bool_decide (we_edge_type e = EDGE_FAILURE)) (wf_edges wf).

Definition record_node_error (node_id message : string) (st : NativeExecutionState) : NativeExecutionState :=
  set_st_node_errors (dset node_id (PStr message) (st_node_errors st)) st.

(** The [try] around a task: an exception becomes a failed output when the node
    has a failure edge; a pause or a cancellation always propagates.  The
    attempts never run out of fuel ([attempts_terminate]). *)
Definition task_output (node : WorkflowNode) (task : TaskDefinition) (agent : AgentDefinition)
    (profile : ModelProfile) (overrides : dict pyval) (remaining : option Z) : M pyval :=
  try_except
    (maybe_request_task_approval i wf task agent (pget "approval_policy" overrides) None;;
     resolve_model_client profile;;
     output ← execute_task_with_runtime_overrides i wf task agent profile overrides remaining;
     match output with
     | Some output => mret output
     | None => raise RuntimeError "out of fuel"
     end)
    not_unwinding
    (fun exc =>
       match failure_edges node with
       | [] => reraise exc
       | _ =>
           update_state i (record_node_error (wn_id node) (exn_message exc));;
           mret (PDict [("status", PStr "failed"); ("error", PStr (exn_message exc));
                        ("error_type", PStr (exn_name (exn_kind exc)));
                        ("approval_rejected", PBool (bool_decide (exn_kind exc = ApprovalRequiredError)))])
       end).

(** A successful answer counts only with the tool results the task requires. *)
Definition check_required_tools (node : WorkflowNode) (task : TaskDefinition) (output : pyval) : M pyval :=
  if String.eqb (node_outcome output) "success" then
    st ← state_of i;
    error ← required_tool_result_error task st;
    match error with
    | None => mret output
    | Some message =>
        update_state i (record_node_error (wn_id node) message);;
        mret (PDict [("status", PStr "failed"); ("error", PStr message);
                     ("error_type", PStr "RequiredToolResultError")])
    end
  else mret output.

(** The output, its outcome and the first error of a node. *)
Definition record_output (node : WorkflowNode) (output : pyval) (st : NativeExecutionState) :
    NativeExecutionState :=
  let st := set_st_node_outputs (dset (wn_id node) output (st_node_outputs st)) st in
  let st := set_st_node_outcomes (dset (wn_id node) (PStr (node_outcome output)) (st_node_outcomes st)) st in
  if String.eqb (node_outcome output) "failure"
  then set_st_node_errors (dsetdefault (wn_id node) (PStr (node_failure_message output)) (st_node_errors st)) st
  else st.

(** The part of an iteration that runs a task. *)
Definition execute_node (previous : option (WorkflowNode * TaskDefinition * AgentDefinition))
    (node : WorkflowNode) (task : TaskDefinition) (agent : AgentDefinition) : M unit :=
  update_state i (fun st =>
    set_st_current_task_id (Some (td_id task)) (set_st_current_agent_id (Some (ag_id agent))
      (set_st_current_node_id (Some (wn_id node)) st)));;
  overrides ← node_overrides node task;
  profile ← resolve_profile agent overrides;
  remaining ← workflow_remaining i (ru_policy r);
  emit_handoff previous node task agent "requested";;
  maybe_retrieve_graph_context_before_task i wf task agent;;
  emit_at i TASK_STARTED (Some (ag_name agent))
    [("task_id", PStr (td_id task)); ("task_name", PStr (td_name task)); ("node_id", PStr (wn_id node));
     ("runtime_overrides", PDict overrides)] [] [] (Some (ag_id agent)) (Some (td_id task));;
  output ← task_output node task agent profile overrides remaining;
  st ← state_of i;
  raise_if_cancelled st;;
  output ← check_required_tools node task output;
  update_state i (record_output node output);;
  checkpoint_execution i None;;
  update_execution i;;
  emit_handoff previous node task agent "completed".

Definition is_executable (node : WorkflowNode) : bool :=
  bool_decide (wn_node_type node = NODE_TASK) || bool_decide (wn_node_type node = NODE_APPROVAL).

(** One iteration of [for node in ordered_nodes]. *)
Definition run_node (ls : loop_state) (node : WorkflowNode) : M loop_state :=
  st ← state_of i;
  raise_if_cancelled st;;
  e ← deref i;
  when (str_truthy (ex_worker_id e)) (heartbeat i (default "" (ex_worker_id e));; mret tt);;
  if negb (is_executable node) then mret ls
  else if negb (node_is_reachable wf node st) then
    engine_event i ROUTING_DECISION_RECORDED
      [("node_id", PStr (wn_id node)); ("decision", PStr "skipped");
       ("reason", PStr "No incoming edge matched completed source outcomes.")] [] [];;
    mret ls
  else
    task ← resolve_task wf (wn_task_id node);
    if negb (ls_retry_started ls) && negb (String.eqb (td_id task) (ru_retry_task_id r)) then mret ls
    else
      agent ← resolve_agent wf (str_or (wn_agent_id node) (td_agent_id task));
      when (negb (dmem (wn_id node) (st_node_outputs st)))
        (execute_node (ls_previous ls) node task agent);;
      mret (mkLoop true (Some (node, task, agent))).

Fixpoint run_nodes (ls : loop_state) (nodes : list WorkflowNode) : M loop_state :=
  match nodes with
  | [] => mret ls
  | node :: rest => ls ← run_node ls node; run_nodes ls rest
  end.
End Node.
End RunLoop.

(** ** A run *)

(** [x.total_seconds() * 1000] of a difference of timestamps. *)
Definition total_milliseconds (us : Z) : spec_float :=
  fmul (float_ratio (us <? 0) (Z.abs us) us_per_second) (float_of_Z 1000).

(** [except ExecutionPausedError], which includes the approval suspension. *)
Definition is_paused_error (e : exn) : bool :=
  match exn_kind e with ExecutionPausedError | ExecutionApprovalSuspendedError => true | _ => false end.
Definition is_cancelled_error (e : exn) : bool := bool_decide (exn_kind e = ExecutionCancelledError).

Section Run.
Context `{Env} `{Workflows} `{Profiles} `{DecisionProvider} `{AgentExecutor} `{RunHooks}.

(** The outcomes of nodes that completed before this run. *)
Definition outcomes_of_outputs (st : NativeExecutionState) : NativeExecutionState :=
  set_st_node_outcomes
    (fold_left (fun acc kv => dsetdefault kv.1 (PStr (node_outcome kv.2)) acc) (st_node_outputs st)
       (st_node_outcomes st)) st.

(** The plan of a run, on the state object. *)
Definition plan_run (wf : WorkflowDefinition) (ordered_nodes : list WorkflowNode) (retry_metadata : dict pyval)
    (st : NativeExecutionState) : NativeExecutionState :=
  let st := set_st_planned_node_ids (map wn_id ordered_nodes) st in
  let st := set_st_terminal_node_ids (terminal_executable_node_ids wf ordered_nodes) st in
  let st := match pget "prior_node_outputs" retry_metadata with
            | PDict prior => set_st_node_outputs prior st
            | _ => st
            end in
  outcomes_of_outputs st.

(** The task that a run retries, and nothing for an ordinary run. *)
Definition retry_task_of (retry_metadata : dict pyval) : option string :=
  match pget "task_id" retry_metadata with
  | PStr s => if String.eqb s "" then None else Some s
  | _ => None
  end.

(** The walk over the plan; returns whether the run has started. *)
Definition walk_plan (i : string) (wf : WorkflowDefinition) (policy : dict pyval) : M unit :=
  e ← deref i;
  let ordered_nodes := order_nodes wf in
  let retry_metadata := task_retry_metadata (ex_metadata e) in
  let retry_task_id := retry_task_of retry_metadata in
  update_state i (plan_run wf ordered_nodes retry_metadata);;
  when (eq_str (pget "approval_mode" policy) "before_run")
    (maybe_request_workflow_approval i wf "Workflow approval mode requires approval before execution.");;
  ls ← run_nodes (mkRun i wf policy (default "" retry_task_id)) (mkLoop (negb (opt_some retry_task_id)) None)
         ordered_nodes;
  if ls_retry_started ls then mret tt
  else raise WorkflowNotFoundError ("Retry task '" +:+ default "" retry_task_id
         +:+ "' was not found in workflow '" +:+ wf_id wf +:+ "'").

(** The first error of a run; errors are texts. *)
Definition first_node_error (st : NativeExecutionState) : option string :=
  match st_node_errors st with
  | [] => None
  | (_, v) :: _ => Some (py_str env_float_repr v)
  end.

(** The end of a run whose nodes failed. *)
Definition fail_run (i : string) (wf : WorkflowDefinition) (error_message : string)
    (payload_of : Execution -> NativeExecutionState -> dict pyval) : M unit :=
  completed ← utc_now;
  assign i (set_ex_completed_at (Some completed));;
  update_execution i;;
  e ← deref i;
  st ← state_of i;
  metrics ← collect_system_metrics;
  failure_event ← engine_event i EXECUTION_FAILED (payload_of e st) metrics [];
  maybe_retrieve_graph_context_after_execution_failure i wf error_message (Some (ev_id failure_event));;
  maybe_handle_execution_completion i wf.

Definition fail_with_node_errors (i : string) (wf : WorkflowDefinition) (error_message : string) : M unit :=
  assign i (set_ex_status FAILED);;
  assign i (set_ex_error (Some error_message));;
  fail_run i wf error_message (fun e st =>
    [("error", PStr error_message); ("node_errors", PDict (st_node_errors st));
     ("output", match ex_output_payload e with Some d => PDict d | None => PNone end)]).

(** The end of a run whose nodes all succeeded or were routed around. *)
Definition complete_run (i : string) (wf : WorkflowDefinition) : M unit :=
  assign i (set_ex_status COMPLETED);;
  completed ← utc_now;
  assign i (set_ex_completed_at (Some completed));;
  update_execution i;;
  e ← deref i;
  metrics ← collect_system_metrics;
  engine_event i EXECUTION_COMPLETED
    [("output", match ex_output_payload e with Some d => PDict d | None => PNone end)]
    (dupdate [("execution_duration_ms",
               PFloat (total_milliseconds (completed - default (ex_created_at e) (ex_started_at e))))] metrics) [];;
  maybe_handle_execution_completion i wf.

(** The body of the [try] of [start_execution]. *)
Definition run_body (i : string) (wf : WorkflowDefinition) (policy : dict pyval)
    (cycle_policy : PersistentCyclePolicy) : M unit :=
  walk_plan i wf policy;;
  st ← state_of i;
  let cycle_output := [("node_outputs", PDict (st_node_outputs st));
                       ("final_output", last_value (st_node_outputs st))] in
  assign i (set_ex_output_payload (Some cycle_output));;
  handled ← handle_persistent_cycle_success i cycle_policy cycle_output;
  if (handled : bool) then mret tt
  else
    st ← state_of i;
    match first_node_error st with
    | Some error_message =>
        if pc_enabled cycle_policy then handle_persistent_cycle_failure i wf cycle_policy error_message
        else fail_with_node_errors i wf error_message
    | None => complete_run i wf
    end.

(** [except ExecutionPausedError] *)
Definition on_paused (i : string) : M unit :=
  current ← get_execution i;
  match current with
  | Some c =>
      if bool_decide (ex_status c ∈ DURABLE_WAIT_EXECUTION_STATUSES) then
        assign i (set_ex_status (ex_status c));;
        assign i (set_ex_metadata (ex_metadata c));;
        assign i (set_ex_input_payload (ex_input_payload c))
      else assign i (set_ex_status PAUSED)
  | None => assign i (set_ex_status PAUSED)
  end;;
  e ← deref i;
  checkpoint_execution i
    (match current with Some c => ex_output_payload c | None => ex_output_payload e end);;
  update_execution i;;
  e ← deref i;
  match ex_status e, pget "active_wait" (ex_metadata e) with
  | WAITING_FOR_APPROVAL, PDict active_wait =>
      match pget "wait_id" active_wait with
      | PStr wait_id =>
          engine_event i EXECUTION_WAITING
            [("wait_id", PStr wait_id); ("kind", PStr (wait_kind_value APPROVAL));
             ("status", PStr (wait_status_value WAIT_PENDING)); ("source", PStr "approval_manager")] [] [];;
          mret tt
      | _ => mret tt
      end
  | _, _ => mret tt
  end;;
  engine_event i EXECUTION_PAUSED [("execution_id", PStr i)] [] [];;
  mret tt.

(** [except ExecutionCancelledError] *)
Definition on_cancelled (i : string) : M unit :=
  assign i (set_ex_status CANCELLED);;
  checkpoint_execution i None;;
  completed ← utc_now;
  assign i (set_ex_completed_at (Some completed));;
  update_execution i;;
  engine_event i EXECUTION_CANCELLED [("execution_id", PStr i)] [] [];;
  mret tt.

(** [except Exception as exc] *)
Definition on_error (i : string) (wf : WorkflowDefinition) (cycle_policy : PersistentCyclePolicy) (exc : exn) :
    M unit :=
  if pc_enabled cycle_policy then handle_persistent_cycle_failure i wf cycle_policy (exn_message exc)
  else
    assign i (set_ex_status FAILED);;
    assign i (set_ex_error (Some (exn_message exc)));;
    checkpoint_execution i None;;
    fail_run i wf (exn_message exc) (fun _ _ => [("error", PStr (exn_message exc))]).

(** The state object that a run starts from. *)
Definition start_state (e : Execution) (wf : WorkflowDefinition) : M NativeExecutionState :=
  fresh ← new_state (ex_id e) (wf_id wf);
  existing ← gets (fun w => dget (ex_id e) (w_states w));
  let st := default fresh existing in
  let st := match dget "trace_id" (ex_metadata e) with
            | Some (PStr trace_id) => set_st_trace_id trace_id st
            | _ => st
            end in
  hydrate_state_position (set_st_cancelled false (set_st_paused false st)).

(** Everything up to the [try]: the policies of the run and its number. *)
Definition begin_run (i : string) (wf : WorkflowDefinition) :
    M (PersistentCyclePolicy * dict pyval) :=
  e ← deref i;
  st ← start_state e wf;
  put_state i st;;
  cycle_policy ← resolve_persistent_cycle_policy e;
  cycle_number ← mark_persistent_cycle_started i cycle_policy;
  assign i (set_ex_status RUNNING);;
  when (negb (opt_some (ex_started_at e)))
    (now ← utc_now; assign i (set_ex_started_at (Some now)));;
  when (str_truthy (ex_worker_id e))
    (now ← utc_now; assign i (set_ex_last_heartbeat_at (Some now)));;
  update_execution i;;
  workflow_policy ← workflow_runtime_policy wf;
  e ← deref i;
  '(resume_checkpoint, st) ← hydrate_resume_checkpoint e st;
  put_state i st;;
  let or_none d := match d with [] => PNone | _ => PDict d end in
  engine_event i EXECUTION_STARTED
    [("workflow_id", PStr (ex_workflow_id e)); ("task_retry", or_none (task_retry_metadata (ex_metadata e)));
     ("runtime_policy", or_none workflow_policy);
     ("resume_checkpoint", match resume_checkpoint with Some d => PDict d | None => PNone end)] [] [];;
  match cycle_number with
  | Some n =>
      engine_event i EXECUTION_CYCLE_STARTED
        [("cycle_number", PInt n); ("policy", PDict (cycle_policy_dump cycle_policy))] [] [];;
      mret tt
  | None => mret tt
  end;;
  mret (cycle_policy, workflow_policy).

(** The [try] with its three handlers; an exception of a handler propagates. *)
Definition supervise (i : string) (wf : WorkflowDefinition) (cycle_policy : PersistentCyclePolicy)
    (body : M unit) : M unit :=
  try_except body any_exn (fun exc =>
    if is_paused_error exc then on_paused i
    else if is_cancelled_error exc then on_cancelled i
    else on_error i wf cycle_policy exc).

(** [start_execution] *)
Definition start_execution (i : string) : M string :=
  found ← get_execution i;
  match found with
  | None => raise ExecutionNotFoundError ("Execution '" +:+ i +:+ "' was not found")
  | Some e =>
      reject_terminal_execution_replay e;;
      match get_workflow (ex_workflow_id e) with
      | None => raise WorkflowNotFoundError ("Workflow '" +:+ ex_workflow_id e +:+ "' was not found")
      | Some wf =>
          '(cycle_policy, workflow_policy) ← begin_run i wf;
          supervise i wf cycle_policy (run_body i wf workflow_policy cycle_policy);;
          mret i
      end
  end.
End Run.

(** The engine is the native runtime of the process; other adapters are
    registered by name. *)
Definition native_runtimes `{Env} `{Workflows} `{Profiles} `{DecisionProvider} `{AgentExecutor} `{RunHooks}
    (adapters : string -> option RuntimeAdapter) : Runtimes :=
  {| native_start := start_execution; registered_adapter := adapters |}.

(** ** Steps that only read

    What a run looks up without touching the world keeps every preorder. *)

Section Reads.
Context `{Env} (R : world -> world -> Prop) `{!PreOrder R}.

Lemma evolves_int_where p v : evolves R (int_where p v).
Proof. unfold int_where, py_int. evolve. Qed.
Lemma evolves_positive_int v : evolves R (positive_int v).
Proof. apply evolves_int_where. Qed.
Lemma evolves_non_negative_int v : evolves R (non_negative_int v).
Proof. apply evolves_int_where. Qed.
Hint Resolve evolves_positive_int evolves_non_negative_int : evolve.

Lemma evolves_resolve_task wf t : evolves R (resolve_task wf t).
Proof. unfold resolve_task. evolve. Qed.
Lemma evolves_resolve_agent wf a : evolves R (resolve_agent wf a).
Proof. unfold resolve_agent. evolve. Qed.
Lemma evolves_resolve_profile `{Profiles} a o : evolves R (resolve_profile a o).
Proof. unfold resolve_profile. evolve. Qed.
Lemma evolves_task_runtime_overrides t : evolves R (task_runtime_overrides t).
Proof. unfold task_runtime_overrides. evolve. Qed.
Lemma evolves_raise_if_cancelled st : evolves R (raise_if_cancelled st).
Proof. unfold raise_if_cancelled. evolve. Qed.
Lemma evolves_required_tool_result_error t st : evolves R (required_tool_result_error t st).
Proof.
  unfold required_tool_result_error.
  assert (Hr : forall items acc, evolves R (results_by_tool acc items)).
  { induction items as [|[] items IH]; intros acc; cbn [results_by_tool]; evolve; apply IH. }
  evolve.
Qed.
End Reads.

#[export] Hint Extern 0 (PreOrder _) => exact _ : evolve.
#[export] Hint Resolve evolves_positive_int evolves_non_negative_int evolves_resolve_task evolves_resolve_agent evolves_resolve_profile
  evolves_task_runtime_overrides evolves_raise_if_cancelled evolves_required_tool_result_error : evolve.

(** ** The ledger contract of the run loop *)

Section RunLedger.
Context `{Env} `{Workflows} `{Profiles} `{DecisionProvider} `{AgentExecutor} `{RunHooks}.
Context `{!UuidUnique} `{!DecisionProviderLaws} `{!AgentExecutorLaws} `{!RunHooksLaws}.

Lemma ledger_update_state i f : evolves ledger (update_state i f).
Proof. unfold update_state, state_of, put_state. evolve. Qed.
Lemma ledger_engine_event i ty p m md : evolves ledger (engine_event i ty p m md).
Proof. apply ledger_emit_at. Qed.
Lemma ledger_update_cycle i f : evolves ledger (update_cycle i f).
Proof. unfold update_cycle. evolve. Qed.
Hint Resolve ledger_update_state ledger_engine_event ledger_update_cycle ledger_emit_at : evolve.

Lemma ledger_cycle_metadata i : evolves ledger (cycle_metadata i).
Proof. unfold cycle_metadata. evolve. Qed.
Lemma ledger_current_cycle_number c : evolves ledger (current_cycle_number c).
Proof. unfold current_cycle_number. evolve. Qed.
Hint Resolve ledger_cycle_metadata ledger_current_cycle_number : evolve.

Lemma ledger_reset_cycle_checkpoint i o : evolves ledger (reset_cycle_checkpoint i o).
Proof. unfold reset_cycle_checkpoint. evolve. Qed.
Hint Resolve ledger_reset_cycle_checkpoint : evolve.

Lemma ledger_pause_for_guard i o r d : evolves ledger (pause_persistent_cycle_for_guard i o r d).
Proof. unfold pause_persistent_cycle_for_guard, update_execution. evolve. Qed.

Lemma cycle_wait_id i ck n1 n2 p wake reason w wt w' :
  cycle_wait i ck n1 n2 p wake reason w = (Ok wt, w') ->
  wt_id wt = env_uuid (w_uuids w) /\ w_uuids w' = S (w_uuids w) /\ w_waits w' = w_waits w.
Proof.
  unfold cycle_wait. intros (id & w1 & Hid & (t1 & w2 & Ht1 & (t2 & w3 & Ht2 & Hv)%bind_inv)%bind_inv)%bind_inv.
  apply validate_wait_id in Hv as [-> ->]. injection Hid as <- <-. injection Ht1 as <- <-.
  by injection Ht2 as <- <-.
Qed.

Lemma ledger_cycle_wait i ck n1 n2 p wake reason : evolves ledger (cycle_wait i ck n1 n2 p wake reason).
Proof. unfold cycle_wait. pose proof ledger_validate_wait. evolve. Qed.

(** Storing the sleep wait of a cycle under a fresh identifier. *)
Lemma ledger_store_cycle_wait {C} i ck n1 n2 p wake reason (k : ExecutionWait -> M C) :
  (forall saved, evolves ledger (k saved)) ->
  evolves ledger (wt ← cycle_wait i ck n1 n2 p wake reason; saved ← claim_cycle_wait i wt; k saved).
Proof.
  intros Hk w. unfold world_after. rewrite bind_unfold.
  pose proof (ledger_cycle_wait i ck n1 n2 p wake reason w) as Hw1. unfold world_after in Hw1.
  destruct (cycle_wait _ _ _ _ _ _ _ w) as [[wt|e] w1] eqn:Hc; simpl in *; [|done].
  apply cycle_wait_id in Hc as (Hid & Hu & Hw).
  pose proof (ledger_create_execution_wait wt w w1 Hw1 Hw) as Hw2.
  assert (Hstored : ledger w (world_after (create_execution_wait wt) w1)).
  { apply Hw2. exists (w_uuids w). split; [lia|done]. }
  apply ledger_continue; [|done]. unfold claim_cycle_wait, try_except. unfold world_after in *.
  destruct (create_execution_wait wt w1) as [[saved|e] w2]; simpl in *; [done|].
  destruct (is_value_error e); [|done]. transitivity w2; [done|].
  assert (He : evolves ledger (pending ← list_execution_waits i (Some WAIT_PENDING);
       match pending with
       | existing :: _ =>
           if String.eqb (wt_idempotency_key existing) (wt_idempotency_key wt) then mret existing
           else reraise e
       | [] => reraise e
       end)) by (unfold list_execution_waits; evolve).
  apply He.
Qed.

Lemma ledger_schedule i p o d r : evolves ledger (schedule_persistent_cycle i p o d r).
Proof.
  unfold schedule_persistent_cycle, update_execution, py_timedelta, py_datetime_plus.
  repeat match goal with
    | |- evolves _ (cycle_wait _ _ _ _ _ _ _ ≫= _) => apply ledger_store_cycle_wait; intros
    | |- _ => evolve_step
    end.
Qed.
Hint Resolve ledger_pause_for_guard ledger_schedule : evolve.

(** *** Callbacks *)

Lemma ledger_completion i wf : evolves ledger (maybe_handle_execution_completion i wf).
Proof.
  unfold maybe_handle_execution_completion. destruct execution_completion_handler as [f|] eqn:Hf; [|evolve].
  pose proof (fun i wf => completion_ledger f i wf Hf). evolve.
Qed.

Lemma ledger_record_graph_context i e o wf r x c t :
  evolves ledger (record_graph_context_working_set_entry i e o wf r x c t).
Proof.
  unfold record_graph_context_working_set_entry, keep_working_set, state_of, put_state, iter_or_empty,
    selected_graph_nodes, iter_or_empty. evolve.
Qed.
Hint Resolve ledger_completion ledger_record_graph_context : evolve.

Lemma ledger_record_context_entry i wf e o : evolves ledger (record_context_entry i wf e o).
Proof. unfold record_context_entry. evolve. Qed.
Lemma ledger_py_len v : evolves ledger (py_len_or_empty v).
Proof. unfold py_len_or_empty. evolve. Qed.
Hint Resolve ledger_record_context_entry ledger_py_len : evolve.

Lemma ledger_context_before_task i wf task agent :
  evolves ledger (maybe_retrieve_graph_context_before_task i wf task agent).
Proof.
  unfold maybe_retrieve_graph_context_before_task. cbv zeta.
  destruct graph_context_retriever as [f|] eqn:Hf; [|evolve].
  pose proof (fun wf t a i => retriever_ledger f wf t a i Hf). evolve.
Qed.

Lemma ledger_context_after_failure i wf e ev :
  evolves ledger (maybe_retrieve_graph_context_after_execution_failure i wf e ev).
Proof.
  unfold maybe_retrieve_graph_context_after_execution_failure. cbv zeta.
  destruct execution_failure_graph_context_retriever as [f|] eqn:Hf; [|evolve].
  pose proof (fun wf i e ev => failure_retriever_ledger f wf i e ev Hf). unfold state_of. evolve.
Qed.
Hint Resolve ledger_context_before_task ledger_context_after_failure : evolve.

(** *** Cycles *)

Lemma ledger_cycle_started i p : evolves ledger (mark_persistent_cycle_started i p).
Proof. unfold mark_persistent_cycle_started. evolve. Qed.

Lemma ledger_terminal_reason p n now : evolves ledger (terminal_reason_of p n now).
Proof. unfold terminal_reason_of, py_timedelta, py_datetime_plus. evolve. Qed.
Lemma ledger_failure_delay p n : evolves ledger (failure_delay p n).
Proof. unfold failure_delay, py_float_pow, float_overflow. evolve. Qed.
Lemma ledger_past_deadline p now d : evolves ledger (past_deadline p now d).
Proof. unfold past_deadline, py_timedelta, py_datetime_plus. evolve. Qed.
Hint Resolve ledger_cycle_started ledger_terminal_reason ledger_failure_delay ledger_past_deadline : evolve.

Lemma ledger_cycle_success i p o : evolves ledger (handle_persistent_cycle_success i p o).
Proof. unfold handle_persistent_cycle_success. evolve. Qed.
Lemma ledger_cycle_failure i wf p e : evolves ledger (handle_persistent_cycle_failure i wf p e).
Proof. unfold handle_persistent_cycle_failure, collect_system_metrics, state_of. evolve. Qed.
Hint Resolve ledger_cycle_success ledger_cycle_failure : evolve.

(** *** The run *)

Lemma ledger_workflow_remaining i p : evolves ledger (workflow_remaining i p).
Proof. unfold workflow_remaining. evolve. Qed.
Lemma ledger_checkpoint i p : evolves ledger (checkpoint_execution i p).
Proof. unfold checkpoint_execution, state_of. evolve. Qed.
Hint Resolve ledger_workflow_remaining ledger_checkpoint : evolve.

Lemma ledger_emit_handoff r p n t a s : evolves ledger (emit_handoff r p n t a s).
Proof. unfold emit_handoff, emit_handoff_event, state_of. evolve. Qed.

Lemma ledger_task_output r n t a p o m : evolves ledger (task_output r n t a p o m).
Proof.
  unfold task_output. pose proof ledger_maybe_request_task_approval.
  pose proof ledger_execute_task_with_runtime_overrides. pose proof resolve_client_ledger. evolve.
Qed.

Lemma ledger_required_tools r n t o : evolves ledger (check_required_tools r n t o).
Proof.
  unfold check_required_tools, state_of. evolve.
Qed.
Hint Resolve ledger_emit_handoff ledger_task_output ledger_required_tools : evolve.

Lemma ledger_execute_node r p n t a : evolves ledger (execute_node r p n t a).
Proof. unfold execute_node, node_overrides, update_execution, state_of. evolve. Qed.

Lemma ledger_run_nodes r ls nodes : evolves ledger (run_nodes r ls nodes).
Proof.
  revert ls. induction nodes as [|n nodes IH]; intros ls; cbn [run_nodes]; [evolve|].
  pose proof ledger_execute_node.
  unfold run_node, state_of. evolve; apply IH.
Qed.
Hint Resolve ledger_run_nodes : evolve.

Lemma ledger_walk_plan i wf p : evolves ledger (walk_plan i wf p).
Proof. unfold walk_plan. pose proof ledger_maybe_request_workflow_approval. evolve. Qed.

Lemma ledger_fail_run i wf e f : evolves ledger (fail_run i wf e f).
Proof. unfold fail_run, collect_system_metrics, update_execution, state_of. evolve. Qed.
Hint Resolve ledger_walk_plan ledger_fail_run : evolve.

Lemma ledger_run_body i wf p c : evolves ledger (run_body i wf p c).
Proof.
  unfold run_body, fail_with_node_errors, complete_run, collect_system_metrics, update_execution, state_of.
  evolve.
Qed.

Lemma ledger_on_paused i : evolves ledger (on_paused i).
Proof. unfold on_paused, update_execution, get_execution. evolve. Qed.
Lemma ledger_on_cancelled i : evolves ledger (on_cancelled i).
Proof. unfold on_cancelled, update_execution. evolve. Qed.
Lemma ledger_on_error i wf c e : evolves ledger (on_error i wf c e).
Proof. unfold on_error. evolve. Qed.
Hint Resolve ledger_run_body ledger_on_paused ledger_on_cancelled ledger_on_error : evolve.

Lemma ledger_workflow_policy wf : evolves ledger (workflow_runtime_policy wf).
Proof. unfold workflow_runtime_policy, int_or. evolve. Qed.

Lemma ledger_cycle_policy e : evolves ledger (resolve_persistent_cycle_policy e).
Proof.
  unfold resolve_persistent_cycle_policy, normalized_persistent_cycle_policy, optional_positive_int,
    jitter_ratio, policy_int, policy_float, try_float, float_overflow. evolve.
Qed.

Lemma ledger_resume_checkpoint e st : evolves ledger (hydrate_resume_checkpoint e st).
Proof.
  unfold hydrate_resume_checkpoint, checkpoint_payload_summary, hydrate_from, text_entries, dict_entry,
    get_execution. evolve.
Qed.
Hint Resolve ledger_workflow_policy ledger_cycle_policy ledger_resume_checkpoint : evolve.

Lemma ledger_begin_run i wf : evolves ledger (begin_run i wf).
Proof.
  unfold begin_run, start_state, hydrate_state_position, list_events, put_state, update_execution. evolve.
Qed.
Hint Resolve ledger_begin_run : evolve.

Lemma ledger_start_execution i : evolves ledger (start_execution i).
Proof. unfold start_execution, supervise, reject_terminal_execution_replay, get_execution. evolve. Qed.

(** The engine meets the contract that the control plane was proved against. *)
#[export] Instance native_runtimes_laws adapters :
  (forall name a, adapters name = Some a -> adapter_lawful a) ->
  RuntimesLaws (H0 := native_runtimes adapters).
Proof. intros Ha. split; [apply ledger_start_execution|exact Ha]. Qed.
End RunLedger.
