(* ===== verification/Creation.v ===== *)
(** * Creating executions

    [RuntimeAdapterRegistry.create_execution] of [app/runtime/registry.py] and
    [ExecutionEngine.create_execution] of [app/runtime/native/engine.py]: a new
    execution carries its trigger, the lifecycle metadata, the execution host and
    the runtime policy that every later run reads, and is prepared by its
    adapter.  The process registers two adapters ([api/context.py]): the native
    one and the one for CrewAI ([app/runtime/adapters/crewai/adapter.py]), which
    keeps its own state objects and needs an optional package. *)

From S2P Require Export RunLoop Schedules.

(** What creation asks of an adapter: [supports] and [prepare_execution]. *)
Record AdapterCreation := mkCreation {
  ac_supports : WorkflowDefinition -> M bool;
  ac_prepare : Execution -> M string
}.

(** Whether the [crewai] package is installed, and the settings of the process. *)
Class CreationContext := {
  crewai_installed : bool;
  process_settings : RuntimeSettings;
  process_environ : string -> option string
}.

(** [ResolvedExecutionRuntimePolicy.model_dump] *)
Definition runtime_policy_dump (p : ResolvedExecutionRuntimePolicy) : dict pyval :=
  [("worker_hard_timeout_seconds", opt_int (rp_worker_hard_timeout_seconds p));
   ("idle_timeout_seconds", PInt (rp_idle_timeout_seconds p));
   ("run_timeout_seconds", PInt (rp_run_timeout_seconds p));
   ("codex_cli_timeout_seconds", PInt (rp_codex_cli_timeout_seconds p));
   ("llm_request_timeout_seconds", PFloat (rp_llm_request_timeout_seconds p));
   ("heartbeat_interval_seconds", PFloat (rp_heartbeat_interval_seconds p));
   ("source_map", PDict (map (fun kv => (kv.1, PStr kv.2)) (rp_source_map p)))].

Section Creation.
Context `{Env} `{Workflows} `{Conversions} `{CreationContext}.

(** [Execution(...)]: the identifier and the timestamps are drawn here, every
    other field that is not given is empty. *)
Definition new_execution (workflow_id : string) (goal_id : option string) (adapter : string)
    (trigger_type created_by : pyval) (trigger input_payload metadata : dict pyval) : M Execution :=
  id ← uuid4;
  trigger_type ← read_value "Execution" "trigger_type" as_str trigger_type;
  created_at ← utc_now;
  updated_at ← utc_now;
  created_by ← read_value "Execution" "created_by" (optional as_str) created_by;
  mret {| ex_id := id; ex_workflow_id := workflow_id; ex_goal_id := goal_id;
          ex_workflow_version_id := None; ex_runtime_adapter_id := adapter;
          ex_runtime_revision_id := None; ex_runtime_fingerprint := None; ex_status := CREATED;
          ex_trigger_type := trigger_type; ex_trigger_payload := trigger; ex_input_payload := input_payload;
          ex_output_payload := None; ex_error := None; ex_created_at := created_at; ex_started_at := None;
          ex_completed_at := None; ex_updated_at := updated_at; ex_created_by := created_by;
          ex_worker_id := None; ex_last_heartbeat_at := None; ex_container_id := None;
          ex_container_name := None; ex_container_image := None; ex_container_status := None;
          ex_container_started_at := None; ex_container_ended_at := None; ex_container_exit_code := None;
          ex_replacement_of_execution_id := None; ex_restart_reason := None; ex_metadata := metadata |}.

(** The native adapter supports every workflow and prepares with the engine. *)
Definition native_creation : AdapterCreation := mkCreation (fun _ => mret true) prepare_execution.

(** [bool(items)] *)
Definition has_items {A} (l : list A) : bool := match l with [] => false | _ => true end.

(** [supports] and [prepare_execution] of the CrewAI adapter. *)
Definition crewai_supports (wf : WorkflowDefinition) : bool :=
  crewai_installed && (has_items (wf_task_definitions wf) && has_items (wf_agent_definitions wf)).

Definition put_crewai_state (i : string) (st : NativeExecutionState) : M unit :=
  modify (fun w => set_w_crewai_states (dset i st (w_crewai_states w)) w).

Definition crewai_prepare_execution (e : Execution) : M string :=
  fresh ← new_state (ex_id e) (ex_workflow_id e);
  existing ← gets (fun w => dget (ex_id e) (w_crewai_states w));
  let st := default fresh existing in
  put_crewai_state (ex_id e) st;;
  save_execution e;;
  '(_, st') ← emit_simple st EXECUTION_CREATED None
    [("workflow_id", PStr (ex_workflow_id e)); ("trigger", default (PDict []) (dget "trigger" (ex_metadata e)))] [];
  put_crewai_state (ex_id e) st';;
  mret (ex_id e).

Definition crewai_creation : AdapterCreation :=
  mkCreation (fun wf => mret (crewai_supports wf)) crewai_prepare_execution.

(** [registry.get], of the two adapters that the process registered. *)
Definition get_creation (name : string) : M AdapterCreation :=
  if String.eqb name "native" then mret native_creation
  else if String.eqb name "crewai" then mret crewai_creation
  else raise KeyError ("Runtime adapter '" +:+ name +:+ "' is not registered").

(** [_resolve_adapter_for_workflow]: the adapter with its name. *)
Definition resolve_adapter_for_workflow (wf : WorkflowDefinition) (runtime_adapter_id : option string) :
    M (string * AdapterCreation) :=
  let adapter_name := default "native" (normalized_runtime_adapter_id runtime_adapter_id) in
  adapter ← get_creation adapter_name;
  supported ← ac_supports adapter wf;
  if (supported : bool) then mret (adapter_name, adapter)
  else raise WorkflowNotFoundError
         ("Workflow '" +:+ wf_id wf +:+ "' is not supported by adapter '" +:+ adapter_name +:+ "'").

(** [get_workflow] or [WorkflowNotFoundError] *)
Definition workflow_or_raise (workflow_id : string) : M WorkflowDefinition :=
  match get_workflow workflow_id with
  | Some wf => mret wf
  | None => raise WorkflowNotFoundError ("Workflow '" +:+ workflow_id +:+ "' was not found")
  end.

(** The execution that the registry builds, with its resolved policy. *)
Definition registry_execution (wf : WorkflowDefinition) (workflow_id : string)
    (input_payload trigger : dict pyval) (requested_adapter_id : option string) (adapter_name : string)
    (goal_id : option string) : M Execution :=
  lifecycle ← build_execution_lifecycle_metadata trigger (wf_metadata wf);
  e ← new_execution workflow_id goal_id adapter_name
        (default (PStr "manual") (dget "type" trigger))
        (py_or (pget "created_by" trigger) (pget "run_by" trigger)) trigger input_payload
        [("trigger", PDict trigger); ("goal_id", opt_str goal_id);
         ("requested_adapter", opt_str requested_adapter_id);
         ("execution_host", opt_str (resolve_execution_host trigger (wf_metadata wf)));
         ("agent_ids", PList (map (fun a => PStr (ag_id a)) (wf_agent_definitions wf)));
         ("execution_lifecycle", PDict lifecycle)];
  policy ← resolve_execution_runtime_policy process_settings process_environ (Some wf) (Some e) None None true;
  mret (set_ex_metadata (dset "runtime_policy" (PDict (runtime_policy_dump policy)) (ex_metadata e)) e).

(** [RuntimeAdapterRegistry.create_execution] *)
Definition registry_create_execution (workflow_id : string) (input_payload trigger : dict pyval)
    (runtime_adapter_id goal_id : option string) : M string :=
  wf ← workflow_or_raise workflow_id;
  let requested_adapter_id := normalized_runtime_adapter_id runtime_adapter_id in
  '(adapter_name, adapter) ← resolve_adapter_for_workflow wf requested_adapter_id;
  e ← registry_execution wf workflow_id input_payload trigger requested_adapter_id adapter_name goal_id;
  ac_prepare adapter e;;
  mret (ex_id e).

(** [ExecutionEngine.create_execution] *)
Definition engine_create_execution (workflow_id : string) (input trigger : dict pyval) : M string :=
  wf ← workflow_or_raise workflow_id;
  lifecycle ← build_execution_lifecycle_metadata trigger (wf_metadata wf);
  trace_id ← uuid4;
  e ← new_execution workflow_id None "native" (default (PStr "manual") (dget "type" trigger))
        (pget "created_by" trigger) trigger input
        [("trigger", PDict trigger); ("trace_id", PStr trace_id);
         ("execution_lifecycle", PDict lifecycle)];
  prepare_execution e.
End Creation.
