(* ===== verification/Scheduler.v ===== *)
(** * The workflow scheduler

    [WorkflowScheduler] of [app/scheduler/scheduler.py] and [ScheduleService] of
    [app/services/schedules.py], over the in-memory schedule and goal
    repositories: schedules are created, patched, enabled and fired; a fire
    creates an execution through the runtime registry and starts it.

    Interfaces: the starter ([control_plane.queue_start] in the application) and
    the waker of a goal supervisor.  [_record_operation] counts metrics that no
    code of the scheduler reads and is not modelled. *)

From Corelib Require Import SpecFloat.
From S2P Require Export FireClaims Goals Creation.

(** ** Python equality *)

(** Numbers compare across types by their exact values. *)
Definition float_eq_Z (f : spec_float) (n : Z) : bool :=
  match f with
  | S754_zero _ => n =? 0
  | S754_finite s m e =>
      let v := cond_Zopp s (Zpos m) in
      if 0 <=? e then v * 2 ^ e =? n else v =? n * 2 ^ (- e)
  | _ => false
  end.

Definition number_eqb (a b : pyval) : bool :=
  let int_of v := match v with PBool b => Some (if b then 1 else 0) | PInt n => Some n | _ => None end in
  match int_of a, int_of b, a, b with
  | Some n, Some m, _, _ => n =? m
  | Some n, None, _, PFloat f => float_eq_Z f n
  | None, Some n, PFloat f, _ => float_eq_Z f n
  | None, None, PFloat f, PFloat g => SFeqb f g
  | _, _, _, _ => false
  end.

(** [a == b]; dictionaries compare without regard to order. *)
Fixpoint py_eqb (a b : pyval) {struct a} : bool :=
  match a, b with
  | PNone, PNone => true
  | PStr s, PStr t => String.eqb s t
  | PList l, PList m =>
      (fix lists (l m : list pyval) : bool :=
         match l, m with
         | [], [] => true
         | x :: l', y :: m' => py_eqb x y && lists l' m'
         | _, _ => false
         end) l m
  | PDict d, PDict e =>
      (List.length d =? List.length e)%nat
      && (fix entries (d : list (string * pyval)) : bool :=
            match d with
            | [] => true
            | (k, x) :: d' => match dget k e with Some y => py_eqb x y && entries d' | None => false end
            end) d
  | _, _ => number_eqb a b
  end.

(** ** The scheduler *)

Class SchedulerContext := {
  scheduler_id : string;
  claim_lease_seconds : Z;
  goal_repo_configured : bool;
  execution_starter : option (string -> M string);
  goal_supervisor_waker : option (string -> M unit)
}.

Class SchedulerLaws `{Env} `{SchedulerContext} : Prop := {
  starter_ledger : forall f i, execution_starter = Some f -> evolves ledger (f i);
  waker_ledger : forall f i, goal_supervisor_waker = Some f -> evolves ledger (f i)
}.

(** [ScheduledJobResult] *)
Record ScheduledJobResult := mkJobResult {
  jr_schedule : ScheduleDefinition;
  jr_execution_id : string;
  jr_triggered_at : Z;
  jr_metadata : dict pyval
}.

Section Scheduler.
Context `{Env} `{Conversions} `{Zones} `{Workflows} `{CreationContext} `{SchedulerContext}.

Definition schedule_get (i : string) : M (option ScheduleDefinition) := catalog_get schedule_model i false.
Definition schedule_update (i : string) (patch : dict pyval) : M (option ScheduleDefinition) :=
  catalog_update schedule_model i patch.

(** ** Editing schedules *)

(** [create_schedule] *)
Definition create_schedule (s : ScheduleDefinition) : M ScheduleDefinition :=
  now ← utc_now;
  computation ← of_res (compute_next_fire s now);
  s' ← schedule_validate (dset "next_fire_at" (opt_iso (tc_next_fire_at computation)) (schedule_dump s));
  catalog_create schedule_model s'.

Definition RESCHEDULING_KEYS : list string :=
  ["enabled"; "trigger_type"; "schedule_type"; "trigger_config"; "cron"; "interval_seconds"; "timezone"].

(** [patch_schedule] *)
Definition patch_schedule (i : string) (patch : dict pyval) : M (option ScheduleDefinition) :=
  current ← schedule_get i;
  match current with
  | None => mret None
  | Some current =>
      patch ← (if dmem "next_fire_at" patch then mret patch
               else
                 candidate ← schedule_validate (dupdate (schedule_dump current) patch);
                 if negb (sd_enabled candidate) then mret (dset "next_fire_at" PNone patch)
                 else if existsb (fun key => dmem key patch) RESCHEDULING_KEYS then
                   now ← utc_now;
                   computation ← of_res (compute_next_fire candidate now);
                   mret (dset "next_fire_at" (opt_iso (tc_next_fire_at computation)) patch)
                 else mret patch);
      schedule_update i patch
  end.

(** [enable_schedule] and [disable_schedule] *)
Definition enable_schedule (i : string) : M (option ScheduleDefinition) :=
  found ← schedule_get i;
  match found with
  | None => mret None
  | Some s =>
      candidate ← schedule_validate (dset "enabled" (PBool true) (schedule_dump s));
      now ← utc_now;
      computation ← of_res (compute_next_fire candidate now);
      schedule_update i
        [("enabled", PBool true); ("next_fire_at", opt_iso (tc_next_fire_at computation))]
  end.

Definition disable_schedule (i : string) : M (option ScheduleDefinition) :=
  schedule_update i [("enabled", PBool false); ("next_fire_at", PNone)].

(** ** Goals of a schedule *)

Definition goal_config_of (s : ScheduleDefinition) : option (dict pyval) :=
  as_dict (pget "goal" (sd_metadata s)).

(** The [success_criteria] of a created goal. *)
Definition goal_success_criteria (s : ScheduleDefinition) (goal_config : dict pyval) : pyval :=
  match pget "success_criteria" goal_config with
  | PList (x :: l) => PList (x :: l)
  | _ => PList [PDict [("kind", PStr "scheduled_workflow_execution");
                       ("description", PStr ("Scheduled workflow '" +:+ sd_workflow_id s
                                             +:+ "' produces completion evidence."))]]
  end.

Definition goal_metadata (s : ScheduleDefinition) (scheduled_fire_at : option Z) (now : Z)
    (goal_config : dict pyval) : dict pyval :=
  dupdate
    [("created_by_schedule",
      PDict [("schedule_id", PStr (sd_id s)); ("workflow_id", PStr (sd_workflow_id s));
             ("scheduled_fire_at", opt_iso scheduled_fire_at); ("triggered_at", PStr (isoformat now))])]
    (dict_or_empty (pget "metadata" goal_config)).

(** [_resolve_schedule_goal] *)
Definition resolve_schedule_goal (s : ScheduleDefinition) (scheduled_fire_at : option Z) (now : Z) :
    M (option GoalDefinition) :=
  match goal_config_of s with
  | None => mret None
  | Some goal_config =>
      let mode := py_lower (py_strip (py_str env_float_repr (py_or (pget "mode" goal_config) (PStr "")))) in
      if negb (mem_str mode ["create"; "continue"]) then mret None
      else if negb goal_repo_configured then
        raise RuntimeError "Schedule goal metadata requires a configured goal repository"
      else if String.eqb mode "continue" then
        let goal_id := py_strip (py_str env_float_repr
          (py_or (py_or (pget "goal_id" goal_config) (pget "last_goal_id" (sd_metadata s))) (PStr ""))) in
        if String.eqb goal_id "" then
          raise ValueError ("Schedule '" +:+ sd_id s +:+ "' is configured to continue a goal but no goal_id is set")
        else
          goal ← catalog_get goal_model goal_id false;
          match goal with
          | None => raise ValueError ("Goal '" +:+ goal_id +:+ "' configured for schedule '" +:+ sd_id s
                                      +:+ "' was not found")
          | Some goal => mret (Some goal)
          end
      else
        let text v := PStr (py_str env_float_repr v) in
        goal ← goal_validate
          [("objective", PStr (py_strip (py_str env_float_repr
              (py_or (pget "objective" goal_config) (PStr (sd_name s))))));
           ("status", PStr (goal_status_value GOAL_ACTIVE));
           ("priority", text (py_or (pget "priority" goal_config) (PStr "normal")));
           ("owner_actor", pget "owner_actor" goal_config);
           ("parent_goal_id", pget "parent_goal_id" goal_config);
           ("success_criteria", goal_success_criteria s goal_config);
           ("constraints", PDict (dict_or_empty (pget "constraints" goal_config)));
           ("deadline_at", pget "deadline_at" goal_config);
           ("metadata", PDict (goal_metadata s scheduled_fire_at now goal_config))];
        mret (Some goal)
  end.

(** [_link_execution_to_goal] *)
Definition link_execution_to_goal (g : GoalDefinition) (execution_id : string) : M GoalDefinition :=
  if mem_str execution_id (go_execution_ids g) then mret g
  else
    now ← utc_now;
    catalog_save goal_model (with_executions (go_execution_ids g ++ [execution_id]) now g).

(** [_maybe_wake_goal_supervisor] *)
Definition maybe_wake_goal_supervisor (s : ScheduleDefinition) (goal_id : option string) : M unit :=
  match goal_id, goal_supervisor_waker with
  | Some goal_id, Some waker =>
      let supervisor := dict_or_empty (pget "goal_supervisor" (sd_metadata s)) in
      if String.eqb goal_id "" then mret tt
      else when (is_true (pget "wake_on_event" supervisor) || is_true (pget "wake_on_fire" supervisor))
             (waker goal_id)
  | _, _ => mret tt
  end.

(** ** Firing a schedule *)

(** The execution was created for the schedule; a trigger that is not a
    dictionary has no [get]. *)
Definition belongs_to_schedule (schedule_id : string) (metadata : dict pyval) : M bool :=
  match dget "trigger" metadata with
  | None => mret (eq_str (pget "schedule_id" metadata) schedule_id)
  | Some (PDict trigger) =>
      mret (eq_str (pget "schedule_id" trigger) schedule_id || eq_str (pget "schedule_id" metadata) schedule_id)
  | Some _ => raise AttributeError "object has no attribute 'get'"
  end.

(** [_assert_concurrency] *)
Definition assert_concurrency (s : ScheduleDefinition) : M unit :=
  active ← list_active_executions;
  matching ← collect (fun i =>
    e ← deref i;
    b ← belongs_to_schedule (sd_id s) (ex_metadata e);
    mret (if (b : bool) then [i] else [])) active;
  if sd_max_concurrent_executions s <=? Z.of_nat (List.length matching) then
    raise ScheduleConcurrencyError
      ("Schedule '" +:+ sd_id s +:+ "' has reached max_concurrent_executions="
       +:+ show_Z (sd_max_concurrent_executions s))
  else mret tt.

(** The trigger that the execution keeps in its metadata. *)
Definition fire_trigger (s : ScheduleDefinition) (source : string) (scheduled_fire_at : option Z)
    (event_payload : option (dict pyval)) : dict pyval :=
  [("type", PStr "schedule"); ("created_by", PStr "scheduler"); ("source", PStr source);
   ("schedule_id", PStr (sd_id s));
   ("schedule_trigger_type", PStr (schedule_type_value (sd_trigger_type s)))]
  ++ match pget "physical_action" (sd_metadata s) with
     | PDict action =>
         [("physical_action", PDict [("device_id", pget "device_id" action);
                                     ("command_type", pget "command_type" action);
                                     ("status_tracking", PBool true)])]
     | _ => []
     end
  ++ match scheduled_fire_at with
     | Some t => [("scheduled_fire_at", PStr (isoformat t))]
     | None => []
     end
  ++ match event_payload with Some event => [("event", PDict event)] | None => [] end.

(** [_schedule_metadata_after_fire] *)
Definition schedule_metadata_after_fire (s : ScheduleDefinition) (execution_id : string)
    (goal_id : option string) : dict pyval :=
  let metadata := dset "last_execution_id" (PStr execution_id) (sd_metadata s) in
  match goal_id with
  | Some g => if String.eqb g "" then metadata else dset "last_goal_id" (PStr g) metadata
  | None => metadata
  end.

Definition mark_fire_failed (schedule_id : string) (scheduled_fire_at : option Z) : M unit :=
  match scheduled_fire_at with
  | Some t => mark_schedule_fire_claim_failed schedule_id t scheduler_id
  | None => mret tt
  end.

(** The [try] of [trigger_now]: the execution is created below the concurrency
    limit, linked to its goal and started. *)
Definition fire_execution (s : ScheduleDefinition) (goal : option GoalDefinition)
    (input_payload trigger : dict pyval) : M string :=
  assert_concurrency s;;
  execution_id ← registry_create_execution (sd_workflow_id s) input_payload trigger
                   (sd_runtime_adapter_override s) (go_id <$> goal);
  match goal with
  | Some goal => link_execution_to_goal goal execution_id;; mret tt
  | None => mret tt
  end;;
  match execution_starter with
  | Some start => start execution_id;; mret tt
  | None => mret tt
  end;;
  mret execution_id.

(** Its [except] clauses: the claim is given back, and the schedule of a workflow
    that is gone is disabled. *)
Definition fire_failed (s : ScheduleDefinition) (scheduled_fire_at : option Z) (exc : exn) : M string :=
  mark_fire_failed (sd_id s) scheduled_fire_at;;
  (if bool_decide (exn_kind exc = WorkflowNotFoundError)
   then disable_schedule (sd_id s);; mret tt else mret tt);;
  reraise exc.

(** The bookkeeping after a fire. *)
Definition record_fire (schedule_id : string) (s : ScheduleDefinition) (now : Z) (execution_id : string)
    (goal_id : option string) : M unit :=
  let patch := [("last_fire_at", PStr (isoformat now));
                ("metadata", PDict (schedule_metadata_after_fire s execution_id goal_id))] in
  fired ← schedule_validate (dupdate (schedule_dump s) patch);
  next ← of_res (compute_next_fire fired now);
  schedule_update schedule_id (patch ++ [("next_fire_at", opt_iso (tc_next_fire_at next))]);;
  mret tt.

(** [trigger_now] *)
Definition trigger_now (schedule_id source : string) (scheduled_fire_at : option Z)
    (event_payload : option (dict pyval)) : M ScheduledJobResult :=
  found ← schedule_get schedule_id;
  match found with
  | None => raise ValueError ("Schedule '" +:+ schedule_id +:+ "' not found")
  | Some s =>
      now ← utc_now;
      let trigger := fire_trigger s source scheduled_fire_at event_payload in
      goal ← resolve_schedule_goal s scheduled_fire_at now;
      let goal_id := go_id <$> goal in
      let with_goal key d := if str_truthy goal_id then dset key (opt_str goal_id) d else d in
      let trigger := with_goal "goal_id" trigger in
      let input_payload :=
        if str_truthy goal_id then dsetdefault "goal_id" (opt_str goal_id) (sd_input_template s)
        else sd_input_template s in
      execution_id ← try_except (fire_execution s goal input_payload trigger) any_exn
                       (fire_failed s scheduled_fire_at);
      match scheduled_fire_at with
      | Some t => mark_schedule_fire_claim_fired (sd_id s) t execution_id scheduler_id
      | None => mret tt
      end;;
      record_fire schedule_id s now execution_id goal_id;;
      maybe_wake_goal_supervisor s goal_id;;
      again ← schedule_get schedule_id;
      mret (mkJobResult (default s again) execution_id now
              [("source", PStr source); ("goal_id", opt_str goal_id)])
  end.

(** ** Events *)

(** [_normalized_event_types] *)
Definition normalized_event_types (value : pyval) : list string :=
  let keep s := let stripped := py_strip s in if String.eqb stripped "" then [] else [stripped] in
  match value with
  | PStr s => keep s
  | PList l => List.concat (map (fun item => keep (py_str env_float_repr item)) l)
  | _ => []
  end.

(** [_value_at_path] *)
Fixpoint value_at (current : pyval) (parts : list string) : pyval :=
  match parts with
  | [] => current
  | part :: rest => match current with PDict d => value_at (pget part d) rest | _ => PNone end
  end.

Definition value_at_path (payload : dict pyval) (path : string) : pyval :=
  value_at (PDict payload) (split_char "." path).

(** [_schedule_matches_event] *)
Definition schedule_matches_event (s : ScheduleDefinition) (event_type : string) (payload : dict pyval) : bool :=
  let config := sd_trigger_config s in
  let configured_types :=
    match pget "event_types" config with PNone => pget "event_type" config | v => v end in
  let allowed := normalized_event_types configured_types in
  match allowed with [] => true | _ => mem_str event_type allowed end
  && match pget "payload_matches" config with
     | PDict d => forallb (fun kv => py_eqb (value_at_path payload kv.1) kv.2) d
     | _ => true
     end.

(** A fire inside a pass: whatever it raises is logged and the pass goes on. *)
Definition contained (m : M ScheduledJobResult) : M (list ScheduledJobResult) :=
  try_except (result ← m; mret [result]) any_exn (fun _ => mret []).

(** [dispatch_event] *)
Definition dispatch_event (event_type : string) (payload : option (dict pyval)) (source : string) :
    M (list ScheduledJobResult) :=
  let normalized_event_type := py_strip event_type in
  if String.eqb normalized_event_type "" then raise ValueError "event_type is required"
  else
    let payload := default [] payload in
    received_at ← utc_now;
    let event_payload := [("event_type", PStr normalized_event_type); ("payload", PDict payload);
                          ("received_at", PStr (isoformat received_at))] in
    schedules ← catalog_list schedule_model false;
    collect (fun s =>
      if sd_enabled s && bool_decide (sd_trigger_type s = EVENT_MATCH)
         && schedule_matches_event s normalized_event_type payload
      then contained (trigger_now (sd_id s) source None (Some event_payload))
      else mret []) schedules.

(** ** Due schedules *)

(** One schedule of the pass; the computation is outside the [try]. *)
Definition run_due (now : Z) (s : ScheduleDefinition) : M (list ScheduledJobResult) :=
  computation ← of_res (compute_next_fire s now);
  if negb (tc_ready computation) then mret []
  else
    let scheduled_fire_at := default now (sd_next_fire_at s) in
    acquired ← acquire_schedule_fire_claim (sd_id s) scheduled_fire_at scheduler_id claim_lease_seconds;
    if negb acquired then mret []
    else contained (trigger_now (sd_id s) "scheduler" (Some scheduled_fire_at) None).

(** [run_due_schedules] *)
Definition run_due_schedules : M (list ScheduledJobResult) :=
  now ← utc_now;
  schedules ← catalog_list schedule_model false;
  collect (run_due now) schedules.

(** ** The service of the API ([app/services/schedules.py]) *)

Definition service_create_schedule (payload : dict pyval) : M ScheduleDefinition :=
  s ← schedule_validate payload; create_schedule s.

(** [patch_schedule]: the patch is merged into the whole document first. *)
Definition service_patch_schedule (i : string) (patch : dict pyval) : M (option ScheduleDefinition) :=
  current ← schedule_get i;
  match current with
  | None => mret None
  | Some current => patch_schedule i (dupdate (schedule_dump current) patch)
  end.

Definition service_trigger_now (i : string) : M ScheduledJobResult := trigger_now i "manual" None None.

Definition service_dispatch_event (payload : dict pyval) : M (list ScheduledJobResult) :=
  let text v := py_str env_float_repr v in
  let event_type :=
    py_strip (text (py_or (py_or (pget "event_type" payload) (pget "type" payload)) (PStr ""))) in
  let event_payload := dict_or_empty (pget "payload" payload) in
  let source := text (py_or (pget "source" payload) (PStr "event")) in
  dispatch_event event_type (Some event_payload) source.
End Scheduler.
