(* ===== verification/SchedulerFacts.v ===== *)
(** * The scheduler keeps the contracts of the stores

    The scheduler's handlers satisfy the ledger contract of the execution store,
    so the theorems on histories hold with the scheduler running; and the parts
    that do not fire leave the executions alone. *)

From stdpp Require Import gmap.
From S2P Require Export Scheduler.

(** ** Reading documents only draws times and identifiers *)

Section Documents.
Context `{Env} `{Conversions} (R : world -> world -> Prop) `{!PreOrder R}.
Context (Hnow : evolves R utc_now) (Huuid : evolves R uuid4).
Hint Resolve Hnow Huuid : evolve.

Lemma evolves_read_value {A} m f (read : pyval -> option A) v : evolves R (read_value m f read v).
Proof. unfold read_value, validation_error. evolve. Qed.
Hint Resolve evolves_read_value : evolve.

Lemma evolves_required_field {A} m f (read : pyval -> option A) d : evolves R (required_field m f read d).
Proof. unfold required_field, validation_error. evolve. Qed.
Lemma evolves_default_field {A} m f (read : pyval -> option A) (factory : M A) d :
  evolves R factory -> evolves R (default_field m f read factory d).
Proof. intros Hf. unfold default_field. evolve. Qed.
Lemma evolves_forbid_extra fields d : evolves R (forbid_extra fields d).
Proof. unfold forbid_extra, validation_error. evolve. Qed.
Hint Resolve evolves_required_field evolves_default_field evolves_forbid_extra : evolve.

Lemma evolves_schedule_validate d : evolves R (schedule_validate d).
Proof.
  unfold schedule_validate, normalize_schedule_fields, read_schedule, validate_schedule_configuration. evolve.
Qed.
Lemma evolves_goal_validate d : evolves R (goal_validate d).
Proof. unfold goal_validate, read_goal, validate_goal. evolve. Qed.

(** ** Policies and the lifecycle of a new execution *)

Lemma evolves_in_run_modes v : evolves R (in_run_modes v).
Proof. unfold in_run_modes. evolve. Qed.
Hint Resolve evolves_in_run_modes : evolve.
Lemma evolves_infer_run_mode t : evolves R (infer_execution_run_mode t).
Proof. unfold infer_execution_run_mode. evolve. Qed.
Hint Resolve evolves_infer_run_mode : evolve.

Lemma evolves_try_float v : evolves R (try_float v).
Proof. unfold try_float, float_overflow. evolve. Qed.
Hint Resolve evolves_try_float : evolve.
Lemma evolves_policy_int v : evolves R (policy_int v).
Proof. unfold policy_int. evolve. Qed.
Lemma evolves_policy_float v : evolves R (policy_float v).
Proof. unfold policy_float. evolve. Qed.
Lemma evolves_jitter_ratio v : evolves R (jitter_ratio v).
Proof. unfold jitter_ratio. evolve. Qed.
Hint Resolve evolves_policy_int evolves_policy_float evolves_jitter_ratio : evolve.
Lemma evolves_optional_positive_int v : evolves R (optional_positive_int v).
Proof. unfold optional_positive_int. evolve. Qed.
Hint Resolve evolves_optional_positive_int : evolve.

Lemma evolves_cycle_policy values b : evolves R (normalized_persistent_cycle_policy values b).
Proof. unfold normalized_persistent_cycle_policy. evolve. Qed.
Hint Resolve evolves_cycle_policy : evolve.

Lemma evolves_lifecycle t md : evolves R (build_execution_lifecycle_metadata t md).
Proof. unfold build_execution_lifecycle_metadata. evolve. Qed.

Lemma evolves_apply_policy values source d : evolves R (apply_policy_values values source d).
Proof. unfold apply_policy_values. evolve. Qed.
Hint Resolve evolves_apply_policy : evolve.
Lemma evolves_apply_max values source d : evolves R (apply_max_policy_values values source d).
Proof. unfold apply_max_policy_values. evolve. Qed.
Hint Resolve evolves_apply_max : evolve.
Lemma evolves_fold_draft {A} (f : A -> policy_draft -> M policy_draft) items d :
  (forall x d, evolves R (f x d)) -> evolves R (fold_draft f items d).
Proof. intros Hf. revert d. induction items as [|x items IH]; intros d; cbn [fold_draft]; evolve; auto. Qed.
Hint Resolve evolves_fold_draft : evolve.

Lemma evolves_runtime_policy s g wf e t a b : evolves R (resolve_execution_runtime_policy s g wf e t a b).
Proof. unfold resolve_execution_runtime_policy, when_some, apply_member_maxima. evolve. Qed.
End Documents.

#[export] Hint Resolve evolves_lifecycle evolves_runtime_policy evolves_read_value : evolve.

(** ** The catalogs and the claims *)

Section Catalogs.
Context `{Env} {T : Type} (mc : model_class T) (R : world -> world -> Prop) `{!PreOrder R}.
Context (Hnow : evolves R utc_now) (Hvalidate : forall d, evolves R (mc_validate mc d)).
Context (Hset : forall d w, R w (mc_set_items mc d w)).
Hint Resolve Hnow Hvalidate : evolve.

Lemma evolves_set_items f : evolves R (modify (fun w => mc_set_items mc (f w) w)).
Proof. intros w. apply Hset. Qed.
Hint Resolve evolves_set_items : evolve.

Lemma evolves_store_payload p d : evolves R (store_payload mc p d).
Proof. unfold store_payload, payload_id, deserialize. evolve. Qed.
Hint Resolve evolves_store_payload : evolve.

Lemma evolves_catalog_create x : evolves R (catalog_create mc x).
Proof. unfold catalog_create. evolve. Qed.
Lemma evolves_catalog_save x : evolves R (catalog_save mc x).
Proof. unfold catalog_save, payload_id. evolve. Qed.
Hint Resolve evolves_catalog_save : evolve.
Lemma evolves_catalog_list b : evolves R (catalog_list mc b).
Proof. unfold catalog_list, deserialize. evolve. Qed.
Lemma evolves_catalog_get i b : evolves R (catalog_get mc i b).
Proof. unfold catalog_get, deserialize. evolve. Qed.
Lemma evolves_catalog_update i p : evolves R (catalog_update mc i p).
Proof. unfold catalog_update. evolve. Qed.
Lemma evolves_catalog_soft_delete i : evolves R (catalog_soft_delete mc i).
Proof. unfold catalog_soft_delete, alter_payload. evolve. Qed.
Lemma evolves_catalog_restore i : evolves R (catalog_restore mc i).
Proof. unfold catalog_restore, alter_payload. evolve. Qed.
End Catalogs.

(** What the scheduler's own bookkeeping may change: it keeps [R]. *)
Class BookkeepingFrame `{Env} (R : world -> world -> Prop) : Prop := {
  bf_preorder :: PreOrder R;
  bf_now : evolves R utc_now;
  bf_uuid : evolves R uuid4;
  bf_schedules : forall d w, R w (set_w_schedules d w);
  bf_goals : forall d w, R w (set_w_goals d w);
  bf_claims : forall d w, R w (set_w_fire_claims d w)
}.

Section Bookkeeping.
Context `{Env} `{Conversions} `{Zones} `{SchedulerContext} (R : world -> world -> Prop) `{!BookkeepingFrame R}.

Lemma evolves_schedule_model d : evolves R (mc_validate schedule_model d).
Proof. apply evolves_schedule_validate; [exact _|apply bf_uuid]. Qed.
Lemma evolves_goal_model d : evolves R (mc_validate goal_model d).
Proof. apply evolves_goal_validate; [exact _|apply bf_now|apply bf_uuid]. Qed.
Hint Resolve bf_now bf_uuid evolves_schedule_model evolves_goal_model : evolve.

Lemma evolves_schedule_get i : evolves R (schedule_get i).
Proof. apply evolves_catalog_get; [exact _|apply evolves_schedule_model]. Qed.
Lemma evolves_schedule_update i p : evolves R (schedule_update i p).
Proof.
  apply evolves_catalog_update; [exact _|apply bf_now|apply evolves_schedule_model|apply bf_schedules].
Qed.
Lemma evolves_schedule_list b : evolves R (catalog_list schedule_model b).
Proof. apply evolves_catalog_list; [exact _|apply evolves_schedule_model]. Qed.
Lemma evolves_schedule_create s : evolves R (catalog_create schedule_model s).
Proof.
  apply evolves_catalog_create; [exact _|apply bf_now|apply evolves_schedule_model|apply bf_schedules].
Qed.
Lemma evolves_goal_get i b : evolves R (catalog_get goal_model i b).
Proof. apply evolves_catalog_get; [exact _|apply evolves_goal_model]. Qed.
Lemma evolves_goal_save g : evolves R (catalog_save goal_model g).
Proof. apply evolves_catalog_save; [exact _|apply bf_now|apply evolves_goal_model|apply bf_goals]. Qed.
Lemma evolves_put_claim k c : evolves R (put_claim k c).
Proof. intros w. apply bf_claims. Qed.
Hint Resolve evolves_schedule_get evolves_schedule_update evolves_schedule_list evolves_schedule_create
  evolves_goal_get evolves_goal_save evolves_put_claim : evolve.

Lemma evolves_schedule_validate' d : evolves R (schedule_validate d).
Proof. apply evolves_schedule_model. Qed.
Lemma evolves_goal_validate' d : evolves R (goal_validate d).
Proof. apply evolves_goal_model. Qed.
Hint Resolve evolves_schedule_validate' evolves_goal_validate' : evolve.

Lemma evolves_acquire_claim i t by_ lease : evolves R (acquire_schedule_fire_claim i t by_ lease).
Proof. unfold acquire_schedule_fire_claim. evolve. Qed.
Lemma evolves_mark_fired i t e by_ : evolves R (mark_schedule_fire_claim_fired i t e by_).
Proof. unfold mark_schedule_fire_claim_fired, close_claim. evolve. Qed.
Lemma evolves_mark_failed i t by_ : evolves R (mark_schedule_fire_claim_failed i t by_).
Proof. unfold mark_schedule_fire_claim_failed, close_claim. evolve. Qed.
Hint Resolve evolves_acquire_claim evolves_mark_fired evolves_mark_failed : evolve.

Lemma evolves_create_schedule s : evolves R (create_schedule s).
Proof. unfold create_schedule. evolve. Qed.
Lemma evolves_patch_schedule i p : evolves R (patch_schedule i p).
Proof. unfold patch_schedule. evolve. Qed.
Lemma evolves_enable_schedule i : evolves R (enable_schedule i).
Proof. unfold enable_schedule. evolve. Qed.
Lemma evolves_disable_schedule i : evolves R (disable_schedule i).
Proof. unfold disable_schedule. evolve. Qed.
Hint Resolve evolves_create_schedule evolves_patch_schedule evolves_disable_schedule : evolve.

Lemma evolves_service_create p : evolves R (service_create_schedule p).
Proof. unfold service_create_schedule. evolve. Qed.
Lemma evolves_service_patch i p : evolves R (service_patch_schedule i p).
Proof. unfold service_patch_schedule. evolve. Qed.
Lemma evolves_resolve_goal s t now : evolves R (resolve_schedule_goal s t now).
Proof. unfold resolve_schedule_goal. evolve. Qed.
Lemma evolves_link g i : evolves R (link_execution_to_goal g i).
Proof. unfold link_execution_to_goal. evolve. Qed.
Lemma evolves_record_fire i s now e g : evolves R (record_fire i s now e g).
Proof. unfold record_fire. evolve. Qed.
Lemma evolves_fire_failed s t exc : evolves R (fire_failed s t exc).
Proof. unfold fire_failed, mark_fire_failed. evolve. Qed.
End Bookkeeping.

(** ** Creating and starting an execution *)

(** What [R] needs of the engine and of the interfaces that a fire calls. *)
Record fire_frame `{Env} `{CreationContext} `{SchedulerContext} (R : world -> world -> Prop) : Prop := {
  ff_now : evolves R utc_now;
  ff_uuid : evolves R uuid4;
  ff_goals : forall d w, R w (set_w_goals d w);
  ff_native : forall e, evolves R (prepare_execution e);
  ff_crewai : forall e, evolves R (crewai_prepare_execution e);
  ff_starter : forall f i, execution_starter = Some f -> evolves R (f i)
}.

Section FireFrame.
Context `{Env} `{Conversions} `{Zones} `{Workflows} `{CreationContext} `{SchedulerContext}.
Context (R : world -> world -> Prop) `{!PreOrder R} (HR : fire_frame R).

Lemma evolves_now : evolves R utc_now.
Proof. apply HR. Qed.
Lemma evolves_uuid : evolves R uuid4.
Proof. apply HR. Qed.
Lemma evolves_native e : evolves R (prepare_execution e).
Proof. apply HR. Qed.
Hint Resolve evolves_now evolves_uuid evolves_native : evolve.

Lemma evolves_registry_execution wf wid i t r a g : evolves R (registry_execution wf wid i t r a g).
Proof. unfold registry_execution, new_execution. evolve. Qed.
Hint Resolve evolves_registry_execution : evolve.

Lemma evolves_get_creation {B} n (f : AdapterCreation -> M B) :
  (forall a, (forall wf, evolves R (ac_supports a wf)) -> (forall e, evolves R (ac_prepare a e)) ->
     evolves R (f a)) -> evolves R (a ← get_creation n; f a).
Proof.
  intros Hf. unfold get_creation. destruct (String.eqb n "native").
  - apply (Hf native_creation); intros x; cbn; evolve.
  - destruct (String.eqb n "crewai"); [|intros w; reflexivity].
    apply (Hf crewai_creation); intros x; cbn; [evolve|apply HR].
Qed.

Lemma bind_assoc_evolves {A B C} (m : M A) (f : A -> M B) (g : B -> M C) :
  evolves R (x ← m; f x ≫= g) -> evolves R ((x ← m; f x) ≫= g).
Proof.
  intros Hm w. specialize (Hm w). unfold world_after in *. rewrite !bind_unfold in *.
  by destruct (m w) as [[a|e] w'].
Qed.

Lemma evolves_registry_create wid i t a g : evolves R (registry_create_execution wid i t a g).
Proof.
  unfold registry_create_execution. apply evolves_bind; [exact _| |intros wf].
  { unfold workflow_or_raise. evolve. }
  unfold resolve_adapter_for_workflow. cbv zeta.
  apply bind_assoc_evolves, evolves_get_creation. intros c Hsupports Hprepare.
  apply bind_assoc_evolves, evolves_bind; [exact _|apply Hsupports|intros supported].
  destruct supported; [|intros w; reflexivity].
  set (n := default "native" _).
  change (evolves R (e ← registry_execution wf wid i t (normalized_runtime_adapter_id a) n g;
                     ac_prepare c e;; mret (ex_id e))).
  evolve.
Qed.
Hint Resolve evolves_registry_create : evolve.

Lemma evolves_assert_concurrency s : evolves R (assert_concurrency s).
Proof. unfold assert_concurrency, belongs_to_schedule, list_active_executions, list_executions. evolve. Qed.

Lemma evolves_link_goal g i : evolves R (link_execution_to_goal g i).
Proof.
  pose proof (evolves_catalog_save goal_model R evolves_now
    (evolves_goal_validate R evolves_now evolves_uuid) (ff_goals R HR)).
  unfold link_execution_to_goal. evolve.
Qed.
Hint Resolve evolves_assert_concurrency evolves_link_goal : evolve.

Lemma evolves_fire_execution s g i t : evolves R (fire_execution s g i t).
Proof.
  unfold fire_execution. destruct execution_starter as [start|] eqn:Hs; [|evolve].
  pose proof (fun i => ff_starter R HR start i Hs). evolve.
Qed.
End FireFrame.

(** ** The ledger contract *)

Section SchedulerLedger.
Context `{Env} `{!UuidUnique} `{Conversions} `{Zones} `{Workflows} `{CreationContext}
  `{SchedulerContext} `{!SchedulerLaws}.

#[export] Instance ledger_bookkeeping : BookkeepingFrame ledger.
Proof.
  split; [exact _|apply ledger_utc_now|apply ledger_uuid4| | |]; intros d w; by apply ledger_frame.
Qed.

Hint Resolve ledger_utc_now ledger_uuid4 : evolve.

Lemma ledger_prepare_execution e : evolves ledger (prepare_execution e).
Proof.
  assert (Hevent : forall i ty p m md, evolves ledger (engine_event i ty p m md)).
  { intros. apply ledger_emit_at. }
  unfold prepare_execution, new_state, put_state. evolve.
Qed.
Hint Resolve ledger_prepare_execution : evolve.

Lemma ledger_crewai_prepare e : evolves ledger (crewai_prepare_execution e).
Proof. unfold crewai_prepare_execution, new_state, put_crewai_state, emit_simple. evolve. Qed.

Lemma ledger_fire_frame : fire_frame ledger.
Proof.
  split; [apply ledger_utc_now|apply ledger_uuid4| |apply ledger_prepare_execution|apply ledger_crewai_prepare
         |apply starter_ledger].
  intros d w. by apply ledger_frame.
Qed.

Lemma ledger_registry_create wid i t a g : evolves ledger (registry_create_execution wid i t a g).
Proof. apply evolves_registry_create; [exact _|apply ledger_fire_frame]. Qed.

Lemma ledger_engine_create wid i t : evolves ledger (engine_create_execution wid i t).
Proof. unfold engine_create_execution, workflow_or_raise, new_execution. evolve. Qed.

(** ** Firing *)

Hint Extern 0 (BookkeepingFrame _) => exact _ : evolve.
Hint Resolve evolves_schedule_get evolves_resolve_goal evolves_link evolves_record_fire evolves_fire_failed
  evolves_mark_fired evolves_acquire_claim evolves_schedule_list : evolve.

Lemma ledger_fire_execution s g i t : evolves ledger (fire_execution s g i t).
Proof. apply evolves_fire_execution; [exact _|apply ledger_fire_frame]. Qed.
Hint Resolve ledger_fire_execution : evolve.

Lemma ledger_wake_supervisor s g : evolves ledger (maybe_wake_goal_supervisor s g).
Proof.
  unfold maybe_wake_goal_supervisor. destruct g as [g|]; [|evolve].
  destruct goal_supervisor_waker as [waker|] eqn:Hw; [|evolve].
  pose proof (fun i => waker_ledger waker i Hw). evolve.
Qed.
Hint Resolve ledger_wake_supervisor : evolve.

Lemma ledger_trigger_now i source t ev : evolves ledger (trigger_now i source t ev).
Proof. unfold trigger_now. cbv zeta. evolve. Qed.
Hint Resolve ledger_trigger_now : evolve.

Lemma ledger_dispatch_event ty p source : evolves ledger (dispatch_event ty p source).
Proof. unfold dispatch_event, contained. evolve. Qed.
Lemma ledger_run_due_schedules : evolves ledger run_due_schedules.
Proof. unfold run_due_schedules, run_due, contained. evolve. Qed.
End SchedulerLedger.
