(* ===== verification/CreationFacts.v ===== *)
(** * What creating an execution guarantees

    An execution that the registry created for the native adapter: its identity,
    the metadata that later runs read, its place in the store and in the event
    log. *)

From S2P Require Export PolicyFacts SchedulerFacts.

Section CreationFacts.
Context `{Env} `{Workflows} `{Conversions} `{CreationContext}.

(** An execution differs from another only by stamps, at every key but [i]. *)
Definition others_stamped (i : string) (w w' : world) : Prop :=
  forall j, j <> i -> option_Forall2 same_but_activity (dget j (w_executions w)) (dget j (w_executions w')).

Lemma save_execution_runs e w :
  returns (save_execution e) w (fun r w' => r = ex_id e
    /\ (exists now, dget (ex_id e) (w_executions w') = Some (set_ex_updated_at now e))
    /\ (forall j, j <> ex_id e -> dget j (w_executions w') = dget j (w_executions w))
    /\ w_states w' = w_states w /\ w_events w' = w_events w).
Proof.
  assert (Hput : forall now w1, w_executions w1 = w_executions w -> w_states w1 = w_states w ->
    w_events w1 = w_events w ->
    let w' := set_w_executions (dset (ex_id e) (set_ex_updated_at now e) (w_executions w1)) w1 in
    (exists now, dget (ex_id e) (w_executions w') = Some (set_ex_updated_at now e))
    /\ (forall j, j <> ex_id e -> dget j (w_executions w') = dget j (w_executions w))
    /\ w_states w' = w_states w /\ w_events w' = w_events w).
  { intros now w1 He Hs Hv w'. unfold w'. cbn. split; [eexists; apply dget_dset_eq|]. split; [|done].
    intros j Hj. by rewrite dget_dset_ne, He. }
  unfold save_execution, create_execution. eapply returns_step; [reflexivity|].
  destruct (dget (ex_id e) (w_executions w)); (eapply returns_step; [reflexivity|]);
    (eapply returns_step; [reflexivity|]); (eapply returns_intro; [reflexivity|]); (split; [done|]); by apply Hput.
Qed.

(** An event on the state object of an execution. *)
Lemma emit_runs st ty a p m md ag t w :
  returns (emit st ty a p m md ag t None None None) w (fun r w' => ev_event_type r.1 = ty
    /\ events_of (st_execution_id st) w' = events_of (st_execution_id st) w ++ [r.1]
    /\ (forall j, j <> st_execution_id st -> events_of j w' = events_of j w)
    /\ forall j, option_Forall2 same_but_activity (dget j (w_executions w)) (dget j (w_executions w'))).
Proof.
  pose proof (stamped_emit st ty a p m md ag t None None None w) as Hs. unfold world_after in Hs.
  destruct (emit_appends st ty a p m md ag t None None None w) as (ev & st' & w' & He & Hty & _ & Hev & Hother & _).
  rewrite He in Hs. eapply returns_intro; [exact He|]. do 3 (split; [done|]). apply Hs.
Qed.

(** What preparing an execution does to the store and the log. *)
Definition prepared (e : Execution) (w w' : world) : Prop :=
  (exists e', dget (ex_id e) (w_executions w') = Some e' /\ same_but_activity e e')
  /\ others_stamped (ex_id e) w w'
  /\ (exists ev, events_of (ex_id e) w' = events_of (ex_id e) w ++ [ev] /\ ev_event_type ev = EXECUTION_CREATED)
  /\ forall j, j <> ex_id e -> events_of j w' = events_of j w.

(** The common part of the two adapters: the execution is saved, then the
    creation event is emitted. *)
Lemma saved_and_announced e st p m md w w1 w2 w3 ev :
  st_execution_id st = ex_id e -> w_executions w1 = w_executions w -> w_events w1 = w_events w ->
  save_execution e w1 = (Ok (ex_id e), w2) ->
  emit st EXECUTION_CREATED None p m md None None None None None w2 = (Ok ev, w3) ->
  prepared e w w3.
Proof.
  intros Hid Hx Hv Hsave Hemit.
  destruct (save_execution_runs e w1) as (r & w2' & Hs & _ & (now & He2) & Hother2 & _ & Hev2).
  rewrite Hsave in Hs. injection Hs as <- <-.
  destruct (emit_runs st EXECUTION_CREATED None p m md None None w2) as (r & w3' & He & Hty & Hev3 & Hevo3 & Hex3).
  rewrite Hemit in He. injection He as <- <-. rewrite Hid in *. split; [|split; [|split]].
  - specialize (Hex3 (ex_id e)). rewrite He2 in Hex3. inversion Hex3 as [x y Hsame Hx' Hy|]; subst.
    exists y. split; [done|]. etransitivity; [|exact Hsame]. by split.
  - intros j Hj. specialize (Hex3 j). by rewrite (Hother2 j Hj), Hx in Hex3.
  - exists ev.1. split; [|done]. rewrite Hev3. unfold events_of. by rewrite Hev2, Hv.
  - intros j Hj. rewrite (Hevo3 j Hj). unfold events_of. by rewrite Hev2, Hv.
Qed.

(** No adapter has a state object for [i] yet. *)
Definition unused (i : string) (w : world) : Prop :=
  dget i (w_states w) = None /\ dget i (w_crewai_states w) = None.

(** [prepare_execution] stores the execution and opens its event log. *)
Lemma prepare_execution_runs e w :
  unused (ex_id e) w -> returns (prepare_execution e) w (fun r w' => r = ex_id e /\ prepared e w w').
Proof.
  intros [Hfresh _]. unfold prepare_execution.
  eapply returns_step; [reflexivity|]. eapply returns_step; [reflexivity|]. eapply returns_step; [reflexivity|].
  match goal with |- returns _ ?w0 _ => set (w1 := w0) end.
  assert (Hst : exists st, dget (ex_id e) (w_states w1) = Some st /\ st_execution_id st = ex_id e).
  { unfold w1. cbn. rewrite dget_dset_eq. eexists. split; [reflexivity|]. cbn. by rewrite Hfresh. }
  destruct Hst as (st & Hst & Hsid).
  destruct (save_execution_runs e w1) as (r & w2 & Hsave & -> & _ & _ & Hst2 & _).
  eapply returns_step; [exact Hsave|].
  eapply (returns_bind _ _ _ (fun _ w' => prepared e w w')); [|intros; by eapply returns_intro].
  unfold engine_event, emit_at. eapply returns_step; [apply state_of_spec; by rewrite Hst2|].
  edestruct (emit_runs st EXECUTION_CREATED None) as ([ev st'] & w3 & He & _).
  eapply returns_step; [exact He|]. eapply returns_step; [reflexivity|]. eapply returns_intro; [reflexivity|].
  by apply (saved_and_announced e st _ _ _ w w1 w2 w3 _ Hsid eq_refl eq_refl Hsave He).
Qed.

(** So does that of the CrewAI adapter, on its own state object. *)
Lemma crewai_prepare_runs e w :
  unused (ex_id e) w -> returns (crewai_prepare_execution e) w (fun r w' => r = ex_id e /\ prepared e w w').
Proof.
  intros [_ Hfresh]. unfold crewai_prepare_execution.
  eapply returns_step; [reflexivity|]. eapply returns_step; [reflexivity|]. eapply returns_step; [reflexivity|].
  cbv zeta. cbn. rewrite Hfresh. set (st := mkNativeExecutionState _ _ _ _ _ _ _ _ _ _ _ _ _ _ _ _ _ _ _). cbn.
  match goal with |- returns _ ?w0 _ => set (w1 := w0) end.
  destruct (save_execution_runs e w1) as (r & w2 & Hsave & -> & _).
  eapply returns_step; [exact Hsave|]. unfold emit_simple.
  edestruct (emit_runs st EXECUTION_CREATED None) as ([ev st'] & w3 & He & _).
  eapply returns_step; [exact He|]. eapply returns_step; [reflexivity|]. eapply returns_intro; [reflexivity|].
  split; [done|]. by apply (saved_and_announced e st _ _ _ w w1 w2 w3 _ eq_refl eq_refl eq_refl Hsave He).
Qed.

Lemma normalized_adapter_idem a :
  normalized_runtime_adapter_id (normalized_runtime_adapter_id a) = normalized_runtime_adapter_id a.
Proof.
  destruct a as [a|]; [|done]. cbn. destruct (String.eqb (py_strip a) "") eqn:He; [done|].
  cbn. by rewrite py_strip_idem, He.
Qed.

(** The policy depends on the payloads and the lifecycle of an execution only. *)
Lemma runtime_policy_same s g wf e e' t a b w :
  ex_trigger_payload e' = ex_trigger_payload e -> ex_input_payload e' = ex_input_payload e ->
  dget "execution_lifecycle" (ex_metadata e') = dget "execution_lifecycle" (ex_metadata e) ->
  resolve_execution_runtime_policy s g wf (Some e') t a b w = resolve_execution_runtime_policy s g wf (Some e) t a b w.
Proof.
  intros Ht Hi Hl. unfold resolve_execution_runtime_policy, when_some, lift_always_on, pget. by rewrite Ht, Hi, Hl.
Qed.

(** A computation that neither reads nor changes the world gives the same in
    every world. *)
Lemma worldless_everywhere {A} (m : M A) w a w' : worldless m -> m w = (Ok a, w') ->
  w' = w /\ forall w1, m w1 = (Ok a, w1).
Proof. intros [o Ho]. rewrite Ho. intros [= -> ->]. by split. Qed.

(** What the registry writes into a new execution for the adapter [name]. *)
Record created (wf : WorkflowDefinition) (wid : string) (input trigger : dict pyval) (goal : option string)
    (name : string) (e : Execution) : Prop := {
  cr_status : ex_status e = CREATED;
  cr_workflow : ex_workflow_id e = wid;
  cr_goal : ex_goal_id e = goal;
  cr_adapter : ex_runtime_adapter_id e = name;
  cr_worker : ex_worker_id e = None;
  cr_trigger : ex_trigger_payload e = trigger;
  cr_input : ex_input_payload e = input;
  cr_created_by : forall s, py_or (pget "created_by" trigger) (pget "run_by" trigger) = PStr s -> ex_created_by e = Some s;
  cr_metadata : dget "trigger" (ex_metadata e) = Some (PDict trigger);
  cr_host : dget "execution_host" (ex_metadata e) = Some (opt_str (resolve_execution_host trigger (wf_metadata wf)));
  cr_lifecycle : exists lifecycle,
    (forall w, build_execution_lifecycle_metadata trigger (wf_metadata wf) w = (Ok lifecycle, w))
    /\ dget "execution_lifecycle" (ex_metadata e) = Some (PDict lifecycle);
  cr_policy : exists policy,
    (forall w, resolve_execution_runtime_policy process_settings process_environ (Some wf) (Some e) None None true w
       = (Ok policy, w))
    /\ dget "runtime_policy" (ex_metadata e) = Some (PDict (runtime_policy_dump policy))
}.

Lemma registry_execution_created wf wid input trigger requested name goal e w w' :
  registry_execution wf wid input trigger requested name goal w = (Ok e, w') ->
  ex_id e = env_uuid (w_uuids w) /\ created wf wid input trigger goal name e
  /\ w_executions w' = w_executions w /\ w_events w' = w_events w
  /\ forall i, unused i w -> unused i w'.
Proof.
  unfold registry_execution, new_execution. intros (lifecycle & w1 & Hl & Hr)%bind_inv.
  apply worldless_everywhere in Hl as [-> Hl]; [|apply worldless_lifecycle].
  apply bind_inv in Hr as (e0 & w2 & He0 & Hr). apply bind_inv in Hr as (policy & w3 & Hpol & Hr).
  injection Hr as <- <-.
  apply worldless_everywhere in Hpol as [-> Hpol]; [|apply worldless_runtime_policy].
  apply bind_inv in He0 as (id & w4 & Hid & He0). injection Hid as <- <-.
  apply bind_inv in He0 as (ty & w5 & Hty & He0).
  pose proof (evolves_read_value eq "Execution" "trigger_type" as_str (default (PStr "manual") (dget "type" trigger))
    (set_w_uuids (S (w_uuids w)) w)) as Hw5.
  unfold world_after in Hw5. rewrite Hty in Hw5. cbn [snd] in Hw5. subst w5.
  apply bind_inv in He0 as (t1 & w6 & Ht1 & He0). injection Ht1 as <- <-.
  apply bind_inv in He0 as (t2 & w7 & Ht2 & He0). injection Ht2 as <- <-.
  apply bind_inv in He0 as (by_ & w8 & Hby & He0).
  match type of Hby with read_value ?m ?f ?r ?v ?w0 = _ =>
    pose proof (evolves_read_value eq m f r v w0) as Hw8 end.
  unfold world_after in Hw8. rewrite Hby in Hw8. cbn [snd] in Hw8. subst w8. injection He0 as <- <-.
  split; [done|]. split; [|done]. split; try done.
  - intros s Hs. rewrite Hs in Hby. cbn in Hby. injection Hby as <-. reflexivity.
  - exists lifecycle. split; [done|reflexivity].
  - exists policy. split; [|reflexivity]. intros w1. erewrite runtime_policy_same; [apply Hpol|done|done|reflexivity].
Qed.

(** A stamp leaves all of it alone. *)
Lemma created_stamped wf wid input trigger goal name e e' :
  same_but_activity e e' -> created wf wid input trigger goal name e -> created wf wid input trigger goal name e'.
Proof.
  intros Hsame Hcr. pose proof (proj2 Hsame) as Hmd.
  assert (Hf : forall A (f : Execution -> A),
    (forall e, f (set_ex_updated_at 0 (set_ex_metadata [] e)) = f e) -> f e' = f e).
  { intros A f Hf. by apply same_but_activity_field. }
  destruct Hcr as [? ? ? ? ? ? ? Hby Htr Hhost (lifecycle & Hb & Hl) (policy & Hp & Hd)].
  split; [by rewrite (Hf _ ex_status)|by rewrite (Hf _ ex_workflow_id)|by rewrite (Hf _ ex_goal_id)
         |by rewrite (Hf _ ex_runtime_adapter_id)|by rewrite (Hf _ ex_worker_id)|by rewrite (Hf _ ex_trigger_payload)
         |by rewrite (Hf _ ex_input_payload)|intros s Hs; rewrite (Hf _ ex_created_by); auto|by rewrite Hmd
         |by rewrite Hmd| |].
  - exists lifecycle. split; [done|]. by rewrite Hmd.
  - exists policy. split; [|by rewrite Hmd]. intros w1.
    rewrite (runtime_policy_same _ _ _ e e'); [apply Hp|by rewrite (Hf _ ex_trigger_payload)
      |by rewrite (Hf _ ex_input_payload)|by rewrite Hmd].
Qed.

(** Every registered adapter decides on the workflow alone and prepares. *)
Lemma get_creation_prepares name c w w' :
  get_creation name w = (Ok c, w') ->
  w' = w /\ (forall wf, worldless (ac_supports c wf))
  /\ forall e w, unused (ex_id e) w -> returns (ac_prepare c e) w (fun r w' => r = ex_id e /\ prepared e w w').
Proof.
  unfold get_creation. destruct (String.eqb name "native"); [|destruct (String.eqb name "crewai"); [|done]];
    intros [= <- <-]; (split; [done|]); (split; [intros wf; apply worldless_ret|]).
  - apply prepare_execution_runs.
  - apply crewai_prepare_runs.
Qed.

(** The adapter that a request names. *)
Definition adapter_of (adapter : option string) : string := default "native" (normalized_runtime_adapter_id adapter).

(** What is true when the registry returns the identifier [i]. *)
Definition creates (wid : string) (input trigger : dict pyval) (name : string) (goal : option string) (i : string)
    (w w' : world) : Prop := exists wf e ev,
  get_workflow wid = Some wf /\ i = env_uuid (w_uuids w)
  /\ dget i (w_executions w') = Some e /\ created wf wid input trigger goal name e
  /\ others_stamped i w w'
  /\ events_of i w' = events_of i w ++ [ev] /\ ev_event_type ev = EXECUTION_CREATED
  /\ forall j, j <> i -> events_of j w' = events_of j w.

Lemma registry_create_spec wid input trigger adapter goal i w w' :
  registry_create_execution wid input trigger adapter goal w = (Ok i, w') ->
  unused (env_uuid (w_uuids w)) w -> creates wid input trigger (adapter_of adapter) goal i w w'.
Proof.
  unfold registry_create_execution, resolve_adapter_for_workflow, workflow_or_raise. intros Hr Hfresh.
  apply bind_inv in Hr as (wf & w1 & Hwf & Hr). destruct (get_workflow wid) as [wf'|] eqn:Hget; [|done].
  injection Hwf as <- <-. cbv zeta in Hr. rewrite normalized_adapter_idem in Hr. fold (adapter_of adapter) in Hr.
  apply bind_inv in Hr as ([name c] & w1 & Hc & Hr). apply bind_inv in Hc as (c0 & w2 & Hc & Hsup).
  apply bind_inv in Hsup as (supported & w3 & Hsup & Hc2).
  destruct (get_creation_prepares _ _ _ _ Hc) as (-> & Hpure & Hprepare).
  apply worldless_everywhere in Hsup as [-> _]; [|apply Hpure]. destruct supported; [|done]. injection Hc2 as <- <- <-.
  cbn beta iota in Hr. apply bind_inv in Hr as (e & w1 & He & Hr).
  apply registry_execution_created in He as (Hid & Hcr & He1 & Hv1 & Hu1).
  destruct (Hprepare e w1) as (r & w2 & Hprep & -> & (e' & He' & Hsame) & Hother & (ev & Hev & Hty) & Hevo).
  { rewrite Hid. by apply Hu1. }
  rewrite bind_unfold, Hprep in Hr. injection Hr as <- <-. exists wf', e', ev.
  split; [done|]. split; [done|]. split; [done|]. split; [by apply (created_stamped _ _ _ _ _ _ e)|].
  split; [intros j Hj; by rewrite <-He1; apply Hother|].
  unfold events_of in *. rewrite Hv1 in *. split; [done|]. split; [done|]. intros j Hj. by rewrite Hevo.
Qed.

(** C14. Creating an execution through the registry, under an id that no engine state
    has.  A workflow that does not
    exist, an adapter that is not registered and a workflow that the CrewAI
    adapter does not support (the package is missing, no task or no agent) are
    errors before anything is drawn or stored.  An execution that is returned is
    new and stored as created for the adapter that was asked for (native by
    default), with its workflow, goal, trigger and input; its metadata carries the
    lifecycle of the trigger and the workflow, the execution host, and the runtime
    policy that resolving for the stored execution gives in every later world, as
    long as workflow, settings and environment are the same; its event log gained
    the creation event; other executions and logs are unchanged up to activity
    stamps. *)
Theorem created_execution_prepared wid input trigger adapter goal w :
  let result := registry_create_execution wid input trigger adapter goal w in
  let name := adapter_of adapter in
  unused (env_uuid (w_uuids w)) w ->
  (get_workflow wid = None -> exists msg, result = (Raise (mkExn WorkflowNotFoundError msg), w))
  /\ (forall wf, get_workflow wid = Some wf -> name <> "native" -> name <> "crewai" ->
        exists msg, result = (Raise (mkExn KeyError msg), w))
  /\ (forall wf, get_workflow wid = Some wf -> name = "crewai" ->
        crewai_installed = false \/ wf_task_definitions wf = [] \/ wf_agent_definitions wf = [] ->
        exists msg, result = (Raise (mkExn WorkflowNotFoundError msg), w))
  /\ (forall i w', result = (Ok i, w') -> creates wid input trigger name goal i w w').
Proof.
  intros result name Hfresh. unfold result, registry_create_execution, workflow_or_raise.
  split; [|split; [|split]].
  - intros Hwf. rewrite Hwf. by eexists.
  - intros wf Hwf Hn%String.eqb_neq Hc%String.eqb_neq. rewrite Hwf. unfold resolve_adapter_for_workflow, get_creation.
    cbv zeta. rewrite normalized_adapter_idem. fold (adapter_of adapter). fold name. rewrite Hn, Hc. by eexists.
  - intros wf Hwf Hname Hno. rewrite Hwf. unfold resolve_adapter_for_workflow. cbv zeta.
    rewrite normalized_adapter_idem. fold (adapter_of adapter). fold name. rewrite Hname.
    assert (crewai_supports wf = false) as Hs.
    { unfold crewai_supports. destruct Hno as [-> |[-> | ->]]; cbn; by rewrite ?andb_false_r. }
    eexists. rewrite (bind_Ok (mret wf) _ w wf w eq_refl). apply bind_Raise.
    rewrite (bind_Ok (get_creation "crewai") _ w crewai_creation w eq_refl).
    rewrite (bind_Ok (ac_supports crewai_creation wf) _ w false w) by (cbn; by rewrite Hs). reflexivity.
  - intros i w' Hr. by apply registry_create_spec.
Qed.
End CreationFacts.
