(* ===== verification/Firing.v ===== *)
(** * What a fire of a schedule does

    Which fields of a document decide the schedule that is read from it, the
    round trip of a schedule through the catalog, and what a fire creates, records
    and gives back. *)

From stdpp Require Import gmap.
From S2P Require Export Triggers SchedulerFacts.

(** ** Fields of a validated schedule *)

Section Validation.
Context `{Env} `{Conversions}.

Lemma read_value_inv {A} m f (read : pyval -> option A) v x a w w' :
  read_value m f read v w = (Ok a, w') -> read v = Some x -> a = x /\ w' = w.
Proof. unfold read_value. intros Hr Hx. rewrite Hx in Hr. by injection Hr as <- <-. Qed.

Lemma default_field_inv {A} m f (read : pyval -> option A) factory d v x a w w' :
  default_field m f read factory d w = (Ok a, w') -> dget f d = Some v -> read v = Some x -> a = x.
Proof.
  unfold default_field. intros Hr Hd Hx. rewrite Hd in Hr. by apply (read_value_inv _ _ _ _ x) in Hr as [-> _].
Qed.

(** The schedule has the value that its document gives to a field. *)
Record fields_of (d : dict pyval) (s : ScheduleDefinition) : Prop := {
  fo_enabled : forall v x, dget "enabled" d = Some v -> as_bool v = Some x -> sd_enabled s = x;
  fo_next : forall v x, dget "next_fire_at" d = Some v -> optional as_datetime v = Some x -> sd_next_fire_at s = x;
  fo_last : forall v x, dget "last_fire_at" d = Some v -> optional as_datetime v = Some x -> sd_last_fire_at s = x;
  fo_metadata : forall v x, dget "metadata" d = Some v -> as_dict v = Some x -> sd_metadata s = x
}.

Lemma read_schedule_fields d w s w' : read_schedule d w = (Ok s, w') -> fields_of d s.
Proof.
  unfold read_schedule. intros Hr.
  repeat match type of Hr with
         | (_ ≫= _) _ = (Ok _, _) => apply bind_inv in Hr as (? & ? & ? & Hr)
         end.
  injection Hr as <- _. split; intros val res Hd Hres; cbn; by eapply default_field_inv.
Qed.

(** The normalisation keeps the fields that have no alias, and a next fire that
    the document gives. *)
Lemma normalize_fields d d' w w' :
  normalize_schedule_fields d w = (Ok d', w') ->
  (forall k, k = "enabled" \/ k = "last_fire_at" \/ k = "metadata" -> dget k d' = dget k d)
  /\ (forall v, dget "next_fire_at" d = Some v -> dget "next_fire_at" d' = Some v).
Proof.
  unfold normalize_schedule_fields. intros (config & w1 & _ & Hr)%bind_inv. injection Hr as <- _.
  set (d1 := dset "trigger_config" _ d).
  assert (Halias : forall alias field k e, k <> field -> dget k (alias_field alias field e) = dget k e).
  { intros alias field k e Hne. unfold alias_field, dsetdefault. destruct (dget alias e); [|done].
    destruct (dmem field e); [done|]. by rewrite dget_dset_ne. }
  assert (Hnext : forall v alias e, dget "next_fire_at" e = Some v ->
    dget "next_fire_at" (alias_field alias "next_fire_at" e) = Some v).
  { intros v alias e He. unfold alias_field, dsetdefault, dmem. destruct (dget alias e); [|done]. by rewrite He. }
  split.
  - intros k Hk. cbn [fold_left].
    rewrite !dget_dpop_ne, dget_dset_ne, !Halias by (intuition congruence).
    unfold d1. by rewrite dget_dset_ne by (intuition congruence).
  - intros v Hv. cbn [fold_left]. rewrite !dget_dpop_ne, dget_dset_ne by done.
    apply Hnext. rewrite !Halias by done. unfold d1. by rewrite dget_dset_ne.
Qed.

Lemma validate_fields d w s w' : schedule_validate d w = (Ok s, w') -> fields_of d s.
Proof.
  unfold schedule_validate. intros (d' & w1 & [Hk Hn]%normalize_fields & Hr)%bind_inv.
  apply bind_inv in Hr as (s' & w2 & Hf%read_schedule_fields & Hr).
  apply bind_inv in Hr as ([] & w3 & _ & Hr). injection Hr as <- _. destruct Hf as [He Hnx Hl Hm].
  split; intros v x Hd; [apply He|apply Hnx|apply Hl|apply Hm]; rewrite ?Hk by auto; auto.
Qed.
End Validation.

(** ** Schedules in the catalog *)

Section Stored.
Context `{Env} `{Conversions}.

(** The catalog holds the document of [s] under [i], not deleted. *)
Definition stored (s : ScheduleDefinition) (i : string) (w : world) : Prop :=
  exists payload, dget i (w_schedules w) = Some payload
    /\ clean_payload payload = schedule_dump s /\ deleted payload = false.

Lemma stored_frame s i w w' : w_schedules w' = w_schedules w -> stored s i w -> stored s i w'.
Proof. intros Hsame. unfold stored. by rewrite Hsame. Qed.

Lemma stored_get s i w : stored s i w -> schedule_valid s -> schedule_get i w = (Ok (Some s), w).
Proof.
  intros (payload & Hget & Hclean & Hdel) Hv. unfold schedule_get, catalog_get.
  rewrite bind_unfold. cbn [gets mc_items schedule_model]. rewrite Hget. cbn [default from_option]. unfold id.
  destruct payload as [|kv payload]; [done|]. cbn [List.length Nat.eqb orb negb andb]. rewrite Hdel.
  unfold deserialize. rewrite Hclean. cbn [mc_validate schedule_model].
  by rewrite bind_unfold, schedule_dump_reads.
Qed.

(** Storing a payload whose id is [k]. *)
Definition stamped_payload (now : Z) (deleted_at : pyval) (s : ScheduleDefinition) : dict pyval :=
  dset "_updated_at" (PStr (isoformat now)) (dset "_deleted_at" deleted_at (schedule_dump s)).

Lemma stamped_payload_clean now dl s : clean_payload (stamped_payload now dl s) = schedule_dump s.
Proof. reflexivity. Qed.
Lemma stamped_payload_deleted now dl s : deleted (stamped_payload now dl s) = truthy dl.
Proof. reflexivity. Qed.

Lemma store_schedule_run s dl w :
  schedule_valid s ->
  store_payload schedule_model (schedule_dump s) dl w =
    (Ok s, set_w_schedules (dset (sd_id s) (stamped_payload (env_now (w_clock w)) dl s) (w_schedules w))
             (set_w_clock (S (w_clock w)) w)).
Proof.
  intros Hv. unfold store_payload. rewrite bind_unfold. cbn [utc_now]. cbv zeta.
  change (dset "_updated_at" _ (dset "_deleted_at" dl (schedule_dump s)))
    with (stamped_payload (env_now (w_clock w)) dl s).
  unfold payload_id. change (dget "id" (stamped_payload _ dl s)) with (Some (PStr (sd_id s))). cbn iota.
  rewrite bind_unfold. cbn [mret M_ret]. rewrite bind_unfold. cbn [modify]. unfold deserialize.
  rewrite stamped_payload_clean. by apply schedule_dump_reads.
Qed.

(** The catalog keeps schedules as JSON documents.  Whatever document a
    schedule was validated from, creating it in the catalog returns it and makes
    it the schedule found under its id, with every field and timestamp unchanged;
    no other entry of the catalog changes. *)
Theorem schedule_roundtrip d s w0 w1 w :
  schedule_validate d w0 = (Ok s, w1) ->
  (forall t, sd_next_fire_at s = Some t -> representable t) ->
  (forall t, sd_last_fire_at s = Some t -> representable t) ->
  returns (catalog_create schedule_model s) w (fun created w' =>
    created = s /\ schedule_get (sd_id s) w' = (Ok (Some s), w')
    /\ forall i, i <> sd_id s -> dget i (w_schedules w') = dget i (w_schedules w)).
Proof.
  intros Hok%validated_config_ok Hn Hl. assert (Hv : schedule_valid s) by by split.
  eapply returns_intro; [apply store_schedule_run, Hv|]. split; [done|]. split.
  - apply stored_get; [|done]. eexists. split; [apply dget_dset_eq|]. by split.
  - intros i Hi. cbn. by apply dget_dset_ne.
Qed.

(** Updating a stored schedule with a patch that is read as [s']. *)
Lemma update_stored s i patch s' w :
  stored s i w -> schedule_valid s' -> sd_id s' = i ->
  schedule_validate (dset "id" (PStr i) (dupdate (schedule_dump s) patch)) w = (Ok s', w) ->
  returns (schedule_update i patch) w (fun o w' =>
    o = Some s' /\ stored s' i w'
    /\ w' = set_w_schedules (w_schedules w') (set_w_clock (S (w_clock w)) w)).
Proof.
  intros (payload & Hget & Hclean & Hdel) Hv Hid Hval. unfold schedule_update, catalog_update.
  eapply returns_step; [reflexivity|]. cbn [mc_items schedule_model]. rewrite Hget. cbn [default from_option].
  unfold id. destruct payload as [|kv payload]; [done|]. cbn [List.length Nat.eqb orb]. rewrite Hdel, Hclean.
  eapply returns_step; [exact Hval|]. unfold catalog_save.
  eapply returns_bind with (P := fun o w' => o = s' /\ stored s' i w'
    /\ w' = set_w_schedules (w_schedules w') (set_w_clock (S (w_clock w)) w)).
  - eapply returns_step; [reflexivity|]. eapply returns_step; [reflexivity|].
    eapply returns_intro; [apply store_schedule_run, Hv|]. split; [done|]. split; [|done].
    eexists. rewrite <-Hid. split; [apply dget_dset_eq|]. split; [done|].
    rewrite stamped_payload_deleted. cbn [mc_items schedule_model]. rewrite Hid, Hget. exact Hdel.
  - intros o w' (-> & Hst & Heq). by eapply returns_intro.
Qed.
End Stored.

(** ** Recording a fire *)

Section Record.
Context `{Env} `{Conversions} `{Zones} `{Workflows} `{CreationContext} `{SchedulerContext}.

(** The schedule after a fire at [now]. *)
Definition after_fire (s : ScheduleDefinition) (now : Z) (execution_id : string) (goal_id : option string)
    (next : option Z) : ScheduleDefinition :=
  mkSchedule (sd_id s) (sd_name s) (sd_workflow_id s) (sd_enabled s) (sd_trigger_type s) (sd_trigger_config s)
    (sd_input_template s) (sd_runtime_adapter_override s) (sd_max_concurrent_executions s) (sd_timezone s)
    next (Some now) (schedule_metadata_after_fire s execution_id goal_id).

Lemma optional_isoformat o : (forall t, o = Some t -> representable t) ->
  optional as_datetime (opt_iso o) = Some o.
Proof.
  destruct o as [t|]; [|done]. intros Ht. cbn [opt_iso optional as_datetime].
  by rewrite replace_zulu_isoformat, fromisoformat_isoformat by auto.
Qed.

Lemma after_fire_ok s now e g next : schedule_valid s -> schedule_config_ok (after_fire s now e g next).
Proof. by intros [[] _ _]. Qed.

(** The catalog's own bookkeeping. *)
Definition only_schedules (w w' : world) : Prop :=
  exists n, w' = set_w_schedules (w_schedules w') (set_w_clock n w).

Lemma record_fire_runs i s now e g next w :
  stored s i w -> schedule_valid s -> sd_id s = i -> representable now ->
  compute_next_fire (after_fire s now e g (sd_next_fire_at s)) now = inr next ->
  (forall t, tc_next_fire_at next = Some t -> representable t) ->
  returns (record_fire i s now e g) w (fun _ w' =>
    stored (after_fire s now e g (tc_next_fire_at next)) i w' /\ only_schedules w w').
Proof.
  intros Hst Hv Hid Hnow Hnext Hrep. unfold record_fire. cbv zeta.
  assert (Hlast : optional as_datetime (PStr (isoformat now)) = Some (Some now)).
  { apply (optional_isoformat (Some now)). by intros t [= <-]. }
  eapply returns_step.
  { apply (validate_document (after_fire s now e g (sd_next_fire_at s)) (opt_datetime (sd_next_fire_at s))
             (PStr (isoformat now))); [by apply after_fire_ok|apply optional_datetime, Hv|exact Hlast]. }
  eapply returns_step; [by rewrite Hnext|].
  eapply returns_bind; [apply (update_stored s i _ (after_fire s now e g (tc_next_fire_at next)) w)|].
  - exact Hst.
  - split; [by apply after_fire_ok|exact Hrep|]. by intros t [= <-].
  - exact Hid.
  - rewrite <-Hid.
    apply (validate_document (after_fire s now e g (tc_next_fire_at next)) (opt_iso (tc_next_fire_at next))
             (PStr (isoformat now))); [by apply after_fire_ok|by apply optional_isoformat|exact Hlast].
  - intros o w' (_ & Hst' & Heq). eapply returns_intro; [reflexivity|]. split; [done|]. by eexists.
Qed.

(** Disabling a stored schedule. *)
Definition disabled (s : ScheduleDefinition) : ScheduleDefinition :=
  mkSchedule (sd_id s) (sd_name s) (sd_workflow_id s) false (sd_trigger_type s) (sd_trigger_config s)
    (sd_input_template s) (sd_runtime_adapter_override s) (sd_max_concurrent_executions s) (sd_timezone s)
    None (sd_last_fire_at s) (sd_metadata s).

Lemma disable_runs i s w :
  stored s i w -> schedule_valid s -> sd_id s = i ->
  returns (disable_schedule i) w (fun o w' =>
    o = Some (disabled s) /\ stored (disabled s) i w' /\ only_schedules w w').
Proof.
  intros Hst [[] Hn Hl] Hid. eapply returns_mono; [apply (update_stored s i _ (disabled s) w Hst)|].
  - split; [by split|done|exact Hl].
  - exact Hid.
  - rewrite <-Hid. apply (validate_document (disabled s) PNone (opt_datetime (sd_last_fire_at s)));
      [done|done|by apply optional_datetime].
  - intros o w' (-> & Hst' & Heq). split; [done|]. split; [done|]. by eexists.
Qed.
End Record.

(** ** Creating an execution leaves the scheduler's tables alone *)

Definition same_tables (w w' : world) : Prop :=
  w_schedules w' = w_schedules w /\ w_fire_claims w' = w_fire_claims w.

#[export] Instance same_tables_preorder : PreOrder same_tables.
Proof. split; [by split|]. intros w1 w2 w3 [H1 H2] [H3 H4]. split; congruence. Qed.

(** What the interfaces of the scheduler promise about its tables. *)
Record interfaces_keep_tables `{Env} `{SchedulerContext} : Prop := {
  kt_starter : forall f i, execution_starter = Some f -> evolves same_tables (f i);
  kt_waker : forall f i, goal_supervisor_waker = Some f -> evolves same_tables (f i)
}.

Section Tables.
Context `{Env} `{Conversions} `{Zones} `{Workflows} `{CreationContext} `{SchedulerContext}.

Hint Extern 3 (evolves same_tables (modify _)) => intros ?; by split : evolve.
Lemma tables_utc_now : evolves same_tables utc_now.
Proof. by intros w. Qed.
Lemma tables_uuid4 : evolves same_tables uuid4.
Proof. by intros w. Qed.
Lemma tables_assign i f : evolves same_tables (assign i f).
Proof. by intros w. Qed.
Hint Resolve tables_utc_now tables_uuid4 tables_assign : evolve.

Lemma tables_emit_at i ty a p m md ag t : evolves same_tables (emit_at i ty a p m md ag t).
Proof.
  unfold emit_at, state_of, put_state, emit, save_event, append_event, get_execution, repo_save_execution. evolve.
Qed.
Hint Resolve tables_emit_at : evolve.

Lemma tables_prepare e : evolves same_tables (prepare_execution e).
Proof.
  unfold prepare_execution, new_state, put_state, save_execution, create_execution, get_execution, engine_event.
  evolve.
Qed.

Lemma tables_crewai_prepare e : evolves same_tables (crewai_prepare_execution e).
Proof.
  unfold crewai_prepare_execution, new_state, put_crewai_state, save_execution, create_execution, get_execution,
    emit_simple, emit, save_event, append_event, get_execution, repo_save_execution. evolve.
Qed.

Lemma tables_fire_execution s g i t : interfaces_keep_tables -> evolves same_tables (fire_execution s g i t).
Proof.
  intros [Hst _]. apply evolves_fire_execution; [exact _|].
  split; [apply tables_utc_now|apply tables_uuid4|by split|apply tables_prepare|apply tables_crewai_prepare|exact Hst].
Qed.
End Tables.

(** ** Firing a schedule *)

Section Fire.
Context `{Env} `{Conversions} `{Zones} `{Workflows} `{CreationContext} `{SchedulerContext}.

(** The claim of a fire, if the fire has one, was closed with a status. *)
Definition claim_closed (i : string) (scheduled_fire_at : option Z) (status : string)
    (execution_id : option string) (w : world) : Prop :=
  forall t, scheduled_fire_at = Some t ->
    exists c, fire_claim (claim_key i t) w = Some c /\ fc_status c = status /\ fc_execution_id c = execution_id.

Lemma close_claim_closes i t status e c w :
  returns (close_claim (claim_key i t) status e c) w (fun _ w' =>
    claim_closed i (Some t) status e w' /\ w_schedules w' = w_schedules w /\ w_executions w' = w_executions w).
Proof.
  eapply returns_intro; [apply close_claim_run|]. split; [|done]. intros t' [= <-].
  exists (closed status e c (w_clock w)). rewrite claim_lookup, decide_True by done. by split.
Qed.

Lemma claim_closed_frame i at_ status e w w' :
  w_fire_claims w' = w_fire_claims w -> claim_closed i at_ status e w -> claim_closed i at_ status e w'.
Proof. intros Hsame Hc t Ht. unfold fire_claim. rewrite Hsame. by apply Hc. Qed.

(** The scheduler holds the claim of the fire, if the fire has one. *)
Definition holds_claim (i : string) (scheduled_fire_at : option Z) (w : world) : Prop :=
  forall t, scheduled_fire_at = Some t -> exists c, own_claim (claim_key i t) scheduler_id w = Some c
    /\ fc_execution_id c = None.

Lemma holds_claim_frame i at_ w w' :
  w_fire_claims w' = w_fire_claims w -> holds_claim i at_ w -> holds_claim i at_ w'.
Proof. intros Hsame Hc t Ht. unfold own_claim, fire_claim. rewrite Hsame. by apply Hc. Qed.

Lemma mark_fired_closes i at_ e w :
  holds_claim i at_ w ->
  returns (match at_ with
           | Some t => mark_schedule_fire_claim_fired i t e scheduler_id
           | None => mret tt
           end) w (fun _ w' =>
    claim_closed i at_ "fired" (Some e) w' /\ w_schedules w' = w_schedules w /\ w_executions w' = w_executions w).
Proof.
  intros Hown. destruct at_ as [t|]; [|by eapply returns_intro].
  destruct (Hown t eq_refl) as (c & Hc & _). unfold returns. rewrite (mark_fired_own _ _ _ _ c) by done.
  apply close_claim_closes.
Qed.

Lemma mark_failed_closes i at_ w :
  holds_claim i at_ w ->
  returns (mark_fire_failed i at_) w (fun _ w' =>
    claim_closed i at_ "failed" None w' /\ w_schedules w' = w_schedules w /\ w_executions w' = w_executions w).
Proof.
  intros Hown. destruct at_ as [t|]; [|by eapply returns_intro].
  destruct (Hown t eq_refl) as (c & Hc & He). unfold returns, mark_fire_failed.
  rewrite (mark_failed_own _ _ _ c) by done. rewrite <-He. apply close_claim_closes.
Qed.

(** A failed fire: the claim is given back, and the schedule of a missing
    workflow is disabled. *)
Lemma fire_failed_settles s i at_ x w :
  stored s i w -> schedule_valid s -> sd_id s = i -> holds_claim i at_ w ->
  exists w', fire_failed s at_ x w = (Raise x, w') /\ w_executions w' = w_executions w
    /\ stored (if bool_decide (exn_kind x = WorkflowNotFoundError) then disabled s else s) i w'
    /\ claim_closed i at_ "failed" None w'.
Proof.
  intros Hst Hv Hid Hown. unfold fire_failed. rewrite Hid.
  destruct (mark_failed_closes i at_ w Hown) as ([] & w1 & Hm & Hc1 & Hs1 & He1).
  rewrite (bind_Ok _ _ _ _ _ Hm). assert (Hst1 : stored s i w1) by by apply (stored_frame s i w).
  case_bool_decide.
  - destruct (disable_runs i s w1 Hst1 Hv Hid) as (o & w2 & Hd & -> & Hst2 & n & Heq).
    rewrite bind_unfold, (bind_Ok _ _ _ _ _ Hd). cbn [mret M_ret reraise]. exists w2. split; [done|].
    split; [by rewrite Heq|]. split; [done|]. apply (claim_closed_frame i at_ _ _ w1); [by rewrite Heq|done].
  - exists w1. by split.
Qed.

(** Firing a stored schedule without a goal ends as the creation of its
    execution ends.  When an execution was created and started, the fire returns
    it, the claim of the fire is marked as fired with that execution, and the
    schedule records the fire and its next one.  When creation raised, the fire
    raises the same exception, the claim is given back for a retry, and the
    schedule is unchanged, except that it is disabled when its workflow does not
    exist any more. *)
Theorem trigger_now_settles i source at_ ev s w :
  interfaces_keep_tables -> (forall n, representable (env_now n)) ->
  stored s i w -> schedule_valid s -> sd_id s = i -> goal_config_of s = None -> holds_claim i at_ w ->
  let now := env_now (w_clock w) in
  match fire_execution s None (sd_input_template s) (fire_trigger s source at_ ev) (set_w_clock (S (w_clock w)) w) with
  | (Ok e, w1) =>
      forall next, compute_next_fire (after_fire s now e None (sd_next_fire_at s)) now = inr next ->
      (forall t, tc_next_fire_at next = Some t -> representable t) ->
      let s' := after_fire s now e None (tc_next_fire_at next) in
      returns (trigger_now i source at_ ev) w (fun r w' =>
        jr_execution_id r = e /\ jr_schedule r = s' /\ jr_triggered_at r = now /\ stored s' i w'
        /\ claim_closed i at_ "fired" (Some e) w' /\ w_executions w' = w_executions w1)
  | (Raise x, w1) =>
      exists w', trigger_now i source at_ ev w = (Raise x, w') /\ w_executions w' = w_executions w1
        /\ stored (if bool_decide (exn_kind x = WorkflowNotFoundError) then disabled s else s) i w'
        /\ claim_closed i at_ "failed" None w'
  end.
Proof.
  intros Hkeep Hclock Hst Hv Hid Hgoal Hown now. set (w0 := set_w_clock (S (w_clock w)) w).
  pose proof (tables_fire_execution s None (sd_input_template s) (fire_trigger s source at_ ev) Hkeep w0) as Htab.
  unfold world_after in Htab.
  assert (Hgoal0 : resolve_schedule_goal s at_ now w0 = (Ok None, w0)).
  { unfold resolve_schedule_goal. by rewrite Hgoal. }
  destruct (fire_execution _ _ _ _ w0) as [[e|x] w1] eqn:Hfire; cbn [snd] in Htab; destruct Htab as [Hs1 Hc1].
  - intros next Hnext Hrep s'. unfold trigger_now.
    eapply returns_step; [by apply (stored_get s)|]. eapply returns_step; [reflexivity|]. cbv zeta.
    eapply returns_step; [exact Hgoal0|]. cbn [fmap option_fmap option_map str_truthy].
    eapply returns_step; [unfold try_except; fold w0; by rewrite Hfire|]. rewrite Hid.
    eapply returns_bind; [apply mark_fired_closes, (holds_claim_frame i at_ w); [exact Hc1|exact Hown]|].
    intros _ w2 (Hcl2 & Hs2 & He2). eapply returns_bind.
    { apply (record_fire_runs i s now e None next w2); [|done|done|apply Hclock|done|done].
      apply (stored_frame s i w); [by rewrite Hs2, Hs1|done]. }
    intros _ w3 (Hst3 & n & Heq3). eapply returns_step; [reflexivity|].
    eapply returns_step.
    { apply (stored_get s'); [exact Hst3|]. split; [by apply after_fire_ok|exact Hrep|].
      intros t [= <-]. apply Hclock. }
    eapply returns_intro; [reflexivity|]. do 3 (split; [done|]). split; [done|].
    split; [|by rewrite Heq3]. apply (claim_closed_frame i at_ _ _ w2); [by rewrite Heq3|done].
  - destruct (fire_failed_settles s i at_ x w1) as (w' & Hf & He & Hst' & Hcl'); [|done|done| |].
    + by apply (stored_frame s i w).
    + by apply (holds_claim_frame i at_ w).
    + exists w'. split; [|done]. unfold trigger_now.
      rewrite (bind_Ok _ _ _ _ _ (stored_get s i w Hst Hv)). rewrite bind_unfold. cbn [utc_now]. cbv zeta.
      fold now. fold w0. rewrite (bind_Ok _ _ _ _ _ Hgoal0). cbn [fmap option_fmap option_map str_truthy].
      apply bind_Raise. unfold try_except. by rewrite Hfire.
Qed.
End Fire.

(** * Editing schedules, and passes of the scheduler

    What the API's patch leaves of a schedule's next fire, and how one schedule
    whose next fire cannot be computed stops a pass over all of them. *)

Section Editing.
Context `{Env} `{Conversions} `{Zones} `{Workflows} `{CreationContext} `{SchedulerContext}.

(** An update that returned stored a model of the merged document, and read it
    back. *)
Lemma schedule_update_inv i patch o w w' :
  schedule_update i patch w = (Ok o, w') ->
  o = None \/ exists existing model s' w1 w2 w3, o = Some s'
    /\ schedule_validate (dset "id" (PStr i) (dupdate (clean_payload existing) patch)) w1 = (Ok model, w2)
    /\ schedule_validate (schedule_dump model) w3 = (Ok s', w').
Proof.
  unfold schedule_update, catalog_update. intros (existing & w1 & _ & Hr)%bind_inv.
  destruct (_ || _); [left; by injection Hr as <- _|]. right.
  apply bind_inv in Hr as (model & w2 & Hm & Hr). apply bind_inv in Hr as (s' & w3 & Hs & Hr).
  injection Hr as <- <-. unfold catalog_save, store_payload in Hs.
  apply bind_inv in Hs as (k & w4 & _ & Hs). apply bind_inv in Hs as (ex & w5 & _ & Hs).
  apply bind_inv in Hs as (now & w6 & _ & Hs). cbv zeta in Hs.
  apply bind_inv in Hs as (k2 & w7 & _ & Hs). apply bind_inv in Hs as (u & w8 & _ & Hs).
  unfold deserialize in Hs.
  change (clean_payload _) with (schedule_dump model) in Hs. cbn [mc_validate schedule_model] in Hs, Hm.
  by exists existing, model, s', w1, w2, w8.
Qed.

(** The document decides the next fire that an update stores. *)
Lemma update_next_fire i patch s' t w w' :
  schedule_update i patch w = (Ok (Some s'), w') -> NoDup (dkeys patch) ->
  dget "next_fire_at" patch = Some (opt_datetime t) -> (forall x, t = Some x -> representable x) ->
  sd_next_fire_at s' = t.
Proof.
  intros Hu Hnd Hget Hrep.
  destruct (schedule_update_inv i patch (Some s') w w' Hu) as [|(ex & model & s1 & w1 & w2 & w3 & Ho & Hm & Hs)]; [done|].
  injection Ho as <-. apply validate_fields in Hm, Hs.
  assert (Hmodel : sd_next_fire_at model = t).
  { eapply (fo_next _ _ Hm); [|by apply optional_datetime].
    rewrite dget_dset_ne by done. by apply dupdate_sets. }
  rewrite <-Hmodel. eapply (fo_next _ _ Hs); [reflexivity|]. apply optional_datetime. by rewrite Hmodel.
Qed.

(** A patch through the API never moves the next fire of a schedule unless it
    names [next_fire_at] itself: the service merges the whole stored document into
    the patch, so the scheduler takes the old fire time for a requested one and
    skips its own rescheduling, whatever trigger settings the patch changes.  In
    particular a disabled cron schedule that is enabled by a patch has no next
    fire and is never due. *)
Theorem service_patch_keeps_fire_time i patch s s' w w' :
  stored s i w -> schedule_valid s -> dget "next_fire_at" patch = None ->
  service_patch_schedule i patch w = (Ok (Some s'), w') ->
  sd_next_fire_at s' = sd_next_fire_at s
  /\ (sd_next_fire_at s = None -> sd_trigger_type s' = CRON ->
      forall now tc, compute_next_fire s' now = inr tc -> tc_ready tc = false).
Proof.
  intros Hst Hv Hpatch. unfold service_patch_schedule.
  pose proof (stored_get s i w Hst Hv) as Hget. rewrite (bind_Ok _ _ _ _ _ Hget). cbn beta iota.
  unfold patch_schedule. rewrite (bind_Ok _ _ _ _ _ Hget). cbn beta iota.
  set (merged := dupdate (schedule_dump s) patch).
  assert (Hnext : dget "next_fire_at" merged = Some (opt_datetime (sd_next_fire_at s))).
  { unfold merged. by rewrite dupdate_keeps. }
  unfold dmem. rewrite Hnext. rewrite bind_unfold. cbn [mret M_ret]. intros Hu.
  assert (Hsame : sd_next_fire_at s' = sd_next_fire_at s).
  { eapply update_next_fire; [exact Hu| |exact Hnext|apply Hv].
    apply dupdate_NoDup. unfold dkeys. cbn. apply (bool_decide_eq_true_1 (NoDup _)). reflexivity. }
  split; [done|]. intros Hnone Hcron now tc. unfold compute_next_fire. rewrite Hcron, Hsame, Hnone.
  destruct (sd_enabled s'); cbn [negb]; [|by intros [= <-]].
  destruct (config_item s' "cron") as [|[]]; cbn; try done.
  destruct (next_cron_fire _ _ _); cbn; [done|]. by intros [= <-].
Qed.

(** ** Passes *)

Lemma collect_app {A B} (f : A -> M (list B)) l1 l2 w xs w' :
  collect f l1 w = (Ok xs, w') ->
  collect f (l1 ++ l2) w = (ys ← collect f l2; mret (xs ++ ys)) w'.
Proof.
  revert w xs. induction l1 as [|x l1 IH]; intros w xs; cbn [collect app].
  - intros [= <- <-]. rewrite bind_unfold. destruct (collect f l2 w) as [[ys|e] w2]; reflexivity.
  - intros (y & w1 & Hy & (ys & w2 & Hys & Hr)%bind_inv)%bind_inv. injection Hr as <- <-.
    rewrite (bind_Ok _ _ _ _ _ Hy), bind_unfold, (IH _ _ Hys), bind_unfold, bind_unfold.
    destruct (collect f l2 w2) as [[zs|e] w3]; [|done]. cbn. by rewrite <-app_assoc.
Qed.

(** An enabled cron schedule whose expression does not have five fields. *)
Definition malformed_cron (s : ScheduleDefinition) : Prop :=
  sd_enabled s = true /\ sd_trigger_type s = CRON
  /\ exists expression, dget "cron" (sd_trigger_config s) = Some (PStr expression)
       /\ List.length (split_words expression) <> 5%nat.

Lemma malformed_cron_raises s now : malformed_cron s ->
  exists msg, compute_next_fire s now = inl (mkExn ValueError msg).
Proof.
  intros (Hen & Hty & expression & Hget & Hlen). unfold compute_next_fire, config_item.
  rewrite Hen, Hty, Hget. cbn. unfold next_cron_fire. apply Nat.eqb_neq in Hlen. rewrite Hlen. by eexists.
Qed.

(** One schedule whose next fire cannot be computed stops every pass of the
    scheduler: the pass raises when it reaches an enabled cron schedule with a
    malformed expression, so the schedules listed after it never fire, and
    nothing of the pass after it happens. *)
Theorem malformed_schedule_stops_pass pre s post results w w1 w2 :
  malformed_cron s ->
  catalog_list schedule_model false (set_w_clock (S (w_clock w)) w) = (Ok (pre ++ s :: post), w1) ->
  collect (run_due (env_now (w_clock w))) pre w1 = (Ok results, w2) ->
  exists msg, run_due_schedules w = (Raise (mkExn ValueError msg), w2).
Proof.
  intros Hbad Hlist Hpre. destruct (malformed_cron_raises s (env_now (w_clock w)) Hbad) as (msg & Hmsg).
  exists msg. unfold run_due_schedules. rewrite bind_unfold. cbn [utc_now].
  rewrite (bind_Ok _ _ _ _ _ Hlist), (collect_app _ _ _ _ _ _ Hpre). apply bind_Raise. cbn [collect].
  apply bind_Raise. unfold run_due. apply bind_Raise. by rewrite Hmsg.
Qed.
End Editing.
