(* ===== verification/RunFacts.v ===== *)
(** * What a run of the engine guarantees

    Whatever agents, tools and approvals do, a run of [start_execution] that
    returns leaves the execution settled: terminal, paused or waiting durably,
    provided that the two hooks that run after that decision respect it.  The
    frame of the run loop, which the walk and the cycles
    share, is here too. *)

From Corelib Require Import SpecFloat.
From S2P Require Export RunLoop.

(** ** Predicates that every step keeps

    The interfaces of a run, and the promise that none of them breaks a
    predicate on the world. *)

Record interfaces_keep `{Env} `{DecisionProvider} `{AgentExecutor} `{RunHooks} (I : world -> Prop) : Prop := {
  ik_execute : forall i wf t a p d, evolves (keeps I) (execute_task i wf t a p d);
  ik_client : forall p, evolves (keeps I) (resolve_model_client p);
  ik_delegate : forall f i t p m, delegate_decision_provider = Some f -> evolves (keeps I) (f i t p m);
  ik_retriever : forall f wf t a i, graph_context_retriever = Some f -> evolves (keeps I) (f wf t a i);
  ik_failure : forall f wf i e ev,
    execution_failure_graph_context_retriever = Some f -> evolves (keeps I) (f wf i e ev);
  ik_completion : forall f i wf, execution_completion_handler = Some f -> evolves (keeps I) (f i wf)
}.

(** The two hooks that the engine calls after it decided the status of a run:
    the context retriever for a failure and the handler of a completion. *)
Record final_hooks_keep `{Env} `{DecisionProvider} `{AgentExecutor} `{RunHooks} (I : world -> Prop) : Prop := {
  fk_failure : forall f wf i e ev,
    execution_failure_graph_context_retriever = Some f -> evolves (keeps I) (f wf i e ev);
  fk_completion : forall f i wf, execution_completion_handler = Some f -> evolves (keeps I) (f i wf)
}.

(** The execution [i], if it exists, has one of these statuses. *)
Definition execution_in (i : string) (S : list ExecutionStatus) (w : world) : Prop :=
  forall e, dget i (w_executions w) = Some e -> ex_status e ∈ S.

Section StatusFrames.
Context `{Env} (i : string) (S : list ExecutionStatus).
Abbreviation R := (keeps (execution_in i S)).

Lemma status_same w w' : w_executions w' = w_executions w -> R w w'.
Proof. intros Heq Hs e. rewrite Heq. apply Hs. Qed.

Lemma status_modify f : (forall w, w_executions (f w) = w_executions w) -> evolves R (modify f).
Proof. intros Hf w. by apply status_same. Qed.

Lemma status_assign j f : (forall e, ex_status (f e) = ex_status e) -> evolves R (assign j f).
Proof.
  intros Hf w Hs e. cbn. rewrite dget_dalter. destruct (String.eqb i j); [|apply Hs].
  destruct (dget i (w_executions w)) as [e0|] eqn:He; [|done].
  intros [= <-]. rewrite Hf. by apply Hs.
Qed.

(** Writing one of the statuses. *)
Lemma status_assign_in j f : (forall e, ex_status (f e) ∈ S) -> evolves R (assign j f).
Proof.
  intros Hf w Hs e. cbn. rewrite dget_dalter. destruct (String.eqb i j); [|apply Hs].
  destruct (dget i (w_executions w)) as [e0|] eqn:He; [|done]. by intros [= <-].
Qed.

Lemma status_stamped {A} (m : M A) : evolves stamped m -> evolves R m.
Proof.
  intros Hm w Hs e He. specialize (Hm w). pose proof (sp_executions _ _ Hm i) as Ho. rewrite He in Ho.
  inversion Ho as [e0 e1 Hsame He0|]; subst.
  rewrite (same_but_activity_field ex_status _ _ Hsame) by done. by apply Hs.
Qed.

Lemma status_utc_now : evolves R utc_now.
Proof. intros w. by apply status_same. Qed.
Lemma status_uuid4 : evolves R uuid4.
Proof. intros w. by apply status_same. Qed.
Lemma status_put_state j st : evolves R (put_state j st).
Proof. by apply status_modify. Qed.
Lemma status_update_execution j : evolves R (update_execution j).
Proof. apply status_stamped, stamped_repo_save_execution. Qed.

Hint Resolve status_utc_now status_uuid4 status_put_state status_update_execution : evolve.

Lemma status_emit_at j ty a p m md ag t : evolves R (emit_at j ty a p m md ag t).
Proof. unfold emit_at, state_of. evolve. apply status_stamped, stamped_emit. Qed.
Lemma status_engine_event j ty p m md : evolves R (engine_event j ty p m md).
Proof. apply status_emit_at. Qed.
Lemma status_update_state j f : evolves R (update_state j f).
Proof. unfold update_state, state_of. evolve. Qed.
Lemma status_update_cycle j f : evolves R (update_cycle j f).
Proof. by apply status_assign. Qed.
Lemma status_create_wait wt : evolves R (create_execution_wait wt).
Proof. intros w. unfold create_execution_wait. execute. repeat case_match; by apply status_same. Qed.
Hint Resolve status_emit_at status_engine_event status_update_state status_update_cycle status_create_wait : evolve.

Lemma status_record_context j wf e o : evolves R (record_context_entry j wf e o).
Proof.
  unfold record_context_entry, record_graph_context_working_set_entry, keep_working_set, state_of,
    iter_or_empty, selected_graph_nodes, iter_or_empty. evolve.
Qed.
Hint Resolve status_record_context : evolve.

Section Interfaces.
Context `{DecisionProvider} `{AgentExecutor} `{RunHooks}.
Context (Hi : final_hooks_keep (execution_in i S)).

Lemma status_completion j wf : evolves R (maybe_handle_execution_completion j wf).
Proof.
  unfold maybe_handle_execution_completion. destruct execution_completion_handler as [f|] eqn:Hf; [|evolve].
  pose proof (fun i wf => fk_completion _ Hi f i wf Hf). evolve.
Qed.

Lemma status_context_after_failure j wf e ev :
  evolves R (maybe_retrieve_graph_context_after_execution_failure j wf e ev).
Proof.
  unfold maybe_retrieve_graph_context_after_execution_failure. cbv zeta.
  destruct execution_failure_graph_context_retriever as [f|] eqn:Hf; [|evolve].
  pose proof (fun wf i e ev => fk_failure _ Hi f wf i e ev Hf). unfold state_of, py_len_or_empty. evolve.
Qed.
Hint Resolve status_completion status_context_after_failure : evolve.

(** ** Computations that leave a status *)

(** When [m] returns, the execution has one of the statuses. *)
Definition leaves {A} (m : M A) : Prop := forall w a w', m w = (Ok a, w') -> execution_in i S w'.

Lemma leaves_bind {A B} (m : M A) (f : A -> M B) : (forall a, leaves (f a)) -> leaves (m ≫= f).
Proof. intros Hf w b w'' (a & w' & _ & Hr)%bind_inv. by eapply Hf. Qed.

Lemma leaves_then {A B} (m : M A) (f : A -> M B) :
  leaves m -> (forall a, evolves R (f a)) -> leaves (m ≫= f).
Proof.
  intros Hm Hf w b w'' (a & w' & Ha & Hr)%bind_inv. specialize (Hf a w'). unfold world_after in Hf.
  rewrite Hr in Hf. apply Hf. by eapply Hm.
Qed.

Lemma leaves_assign st : st ∈ S -> leaves (assign i (set_ex_status st)).
Proof.
  intros Hst w [] w' [= <-] e. cbn. rewrite dget_dalter, String.eqb_refl.
  destruct (dget i (w_executions w)) as [e0|]; [|done]. by intros [= <-].
Qed.

Lemma leaves_try {A} (m : M A) p h : leaves m -> (forall e, leaves (h e)) -> leaves (try_except m p h).
Proof.
  intros Hm Hh w a w'. unfold try_except. destruct (m w) as [[a0|e] w1] eqn:Hr.
  - intros [= <- <-]. by eapply Hm.
  - destruct (p e); [apply Hh|done].
Qed.

Lemma leaves_raise {A} k msg : leaves (raise (A:=A) k msg).
Proof. by intros w a w'. Qed.
End Interfaces.
End StatusFrames.

(** ** A run settles *)

(** The statuses in which no worker owns the execution any more. *)
Definition SETTLED_STATUSES : list ExecutionStatus :=
  TERMINAL_STATUSES ++ [PAUSED] ++ DURABLE_WAIT_EXECUTION_STATUSES.

Section Settles.
Context `{Env} `{Workflows} `{Profiles} `{DecisionProvider} `{AgentExecutor} `{RunHooks}.
Context (i : string) (Hi : final_hooks_keep (execution_in i SETTLED_STATUSES)).
Abbreviation R := (keeps (execution_in i SETTLED_STATUSES)).
Abbreviation settles := (leaves i SETTLED_STATUSES).

Hint Resolve status_utc_now status_uuid4 status_put_state status_update_execution status_emit_at
  status_engine_event status_update_state status_update_cycle status_create_wait status_record_context
  status_completion status_context_after_failure : evolve.

Lemma settled st : bool_decide (st ∈ SETTLED_STATUSES) = true -> st ∈ SETTLED_STATUSES.
Proof. apply bool_decide_eq_true_1. Qed.

(** Peels a sequence down to the assignment of a settled status; what follows
    the assignment keeps it. *)
Ltac settle :=
  repeat first
    [ apply leaves_then;
        [by apply leaves_assign, settled|intros _; unfold collect_system_metrics; evolve; by apply status_assign]
    | apply leaves_raise
    | apply leaves_bind; intros ? ].

Lemma settles_fail_run wf msg f : evolves R (fail_run i wf msg f).
Proof.
  unfold fail_run, collect_system_metrics, state_of. evolve. by apply status_assign.
Qed.
Hint Resolve settles_fail_run : evolve.


Lemma settles_fail wf msg : settles (fail_with_node_errors i wf msg).
Proof. unfold fail_with_node_errors. settle. Qed.
Lemma settles_complete wf : settles (complete_run i wf).
Proof. unfold complete_run. settle. Qed.
Lemma settles_guard o r d : settles (pause_persistent_cycle_for_guard i o r d).
Proof. unfold pause_persistent_cycle_for_guard. settle. Qed.

Lemma settles_schedule p o d r : settles (schedule_persistent_cycle i p o d r).
Proof. unfold schedule_persistent_cycle. do 12 (apply leaves_bind; intros ?). settle. Qed.

Lemma settles_cycle_failure wf p e : settles (handle_persistent_cycle_failure i wf p e).
Proof.
  unfold handle_persistent_cycle_failure. do 11 (apply leaves_bind; intros ?).
  destruct (_ <=? _); [apply settles_guard|]. apply leaves_bind; intros delay.
  apply leaves_bind; intros []; [apply settles_guard|apply settles_schedule].
Qed.

(** The handler of a successful cycle leaves a settled status when it disposes of
    the run. *)
Definition disposes (m : M bool) : Prop :=
  forall w w', m w = (Ok true, w') -> execution_in i SETTLED_STATUSES w'.

Lemma disposes_bind {A} (m : M A) f : (forall a, disposes (f a)) -> disposes (m ≫= f).
Proof. intros Hf w w'' (a & w' & _ & Hr)%bind_inv. by eapply Hf. Qed.

Lemma disposes_true (m : M unit) : settles m -> disposes (m;; mret true).
Proof. intros Hm w w'' (a & w' & Ha & Hr)%bind_inv. injection Hr as <-. by eapply Hm. Qed.

Lemma disposes_cycle_success p o : disposes (handle_persistent_cycle_success i p o).
Proof.
  unfold handle_persistent_cycle_success. destruct (negb _); [done|].
  do 7 (apply disposes_bind; intros ?). apply disposes_bind; intros terminal_reason.
  apply disposes_bind; intros _. destruct terminal_reason as [reason|].
  - by apply disposes_bind.
  - destruct (match pc_max_no_progress_cycles p with Some _ => _ | None => _ end);
      apply disposes_true; [apply settles_guard|apply settles_schedule].
Qed.

Lemma settles_run_body wf pol p : settles (run_body i wf pol p).
Proof.
  unfold run_body. do 3 (apply leaves_bind; intros ?).
  intros w [] w'' (handled & w' & Hh & Hr)%bind_inv. destruct handled.
  - injection Hr as <-. by eapply disposes_cycle_success.
  - revert Hr. apply leaves_bind. intros st. destruct (first_node_error st) as [msg|]; [|apply settles_complete].
    destruct (pc_enabled p); [apply settles_cycle_failure|apply settles_fail].
Qed.

Lemma settles_on_paused : settles (on_paused i).
Proof.
  unfold on_paused. apply leaves_bind. intros current.
  apply leaves_then.
  - destruct current as [c|]; [|by apply leaves_assign, settled].
    destruct (bool_decide (ex_status c ∈ DURABLE_WAIT_EXECUTION_STATUSES)) eqn:Hc;
      [|by apply leaves_assign, settled].
    apply bool_decide_eq_true in Hc. apply leaves_then.
    + apply leaves_assign. unfold SETTLED_STATUSES. apply elem_of_app; right. apply elem_of_app; by right.
    + intros _. evolve; by apply status_assign.
  - intros _. unfold checkpoint_execution, state_of. evolve; by apply status_assign.
Qed.

Lemma settles_on_cancelled : settles (on_cancelled i).
Proof.
  unfold on_cancelled. apply leaves_then; [by apply leaves_assign, settled|]. intros _.
  unfold checkpoint_execution, state_of. evolve; by apply status_assign.
Qed.

Lemma settles_on_error wf p e : settles (on_error i wf p e).
Proof.
  unfold on_error. destruct (pc_enabled p); [apply settles_cycle_failure|].
  apply leaves_then; [by apply leaves_assign, settled|]. intros _.
  unfold checkpoint_execution, state_of. evolve; by apply status_assign.
Qed.

(** C5. A run settles: when [start_execution] returns, the execution, if it is
    still stored, is terminal, paused or waiting durably; it is not left running.
    Agents, tools, approvals and the retriever of a task's context may do
    anything to the store; only the two hooks that run after the status was
    decided (failure context, completion handler) must not unsettle it. *)
Theorem run_settles w r w' :
  start_execution i w = (Ok r, w') -> execution_in i SETTLED_STATUSES w'.
Proof.
  unfold start_execution. intros (found & w1 & _ & Hr)%bind_inv.
  destruct found as [e|]; [|done]. apply bind_inv in Hr as ([] & w2 & _ & Hr).
  destruct (get_workflow _) as [wf|]; [|done].
  apply bind_inv in Hr as ([cp pol] & w3 & _ & (u & w4 & Hs & Hr)%bind_inv). injection Hr as _ <-.
  revert Hs. apply leaves_try; [apply settles_run_body|]. intros exc.
  destruct (is_paused_error exc); [apply settles_on_paused|].
  destruct (is_cancelled_error exc); [apply settles_on_cancelled|apply settles_on_error].
Qed.
End Settles.
