(* ===== verification/WalkFacts.v ===== *)
(** * The walk over the plan

    Which nodes a run executes: the outputs and outcomes of the engine's state
    change only where a node is executed, and on an acyclic workflow the nodes
    with an output at the end are those that routing enables. *)

From S2P Require Export RunFacts.

(** The state object of [i] exists with these outputs and outcomes. *)
Definition progress_is (i : string) (outputs outcomes : dict pyval) (w : world) : Prop :=
  exists st, dget i (w_states w) = Some st /\ st_node_outputs st = outputs /\ st_node_outcomes st = outcomes.

Section ProgressFrames.
Context `{Env} (i : string) (outputs outcomes : dict pyval).
Abbreviation P := (progress_is i outputs outcomes).

Lemma progress_same w w' : w_states w' = w_states w -> keeps P w w'.
Proof. intros Heq (st & Hst & Hp). exists st. by rewrite Heq. Qed.

Lemma progress_modify f : (forall w, w_states (f w) = w_states w) -> evolves (keeps P) (modify f).
Proof. intros Hf w. by apply progress_same. Qed.

Lemma progress_assign j f : evolves (keeps P) (assign j f).
Proof. by apply progress_modify. Qed.
Lemma progress_utc_now : evolves (keeps P) utc_now.
Proof. intros w. by apply progress_same. Qed.
Lemma progress_uuid4 : evolves (keeps P) uuid4.
Proof. intros w. by apply progress_same. Qed.
Hint Resolve progress_assign progress_utc_now progress_uuid4 : evolve.
Hint Extern 1 (evolves _ (modify _)) => (apply progress_modify; intros; reflexivity) : evolve.

Lemma progress_stamped {A} (m : M A) : evolves stamped m -> evolves (keeps P) m.
Proof. intros Hm w. apply progress_same, (sp_states _ _ (Hm w)). Qed.

(** An update of the state object that leaves outputs and outcomes alone. *)
Lemma progress_put st st0 w :
  dget i (w_states w) = Some st0 -> st_node_outputs st = st_node_outputs st0 ->
  st_node_outcomes st = st_node_outcomes st0 -> keeps P w (world_after (put_state i st) w).
Proof.
  intros Hst Ho Hc (st1 & Hst1 & Ho1 & Hc1). exists st. cbn. rewrite dget_dset_eq.
  split; [done|]. split; congruence.
Qed.

Lemma progress_update_state f :
  (forall st, st_node_outputs (f st) = st_node_outputs st /\ st_node_outcomes (f st) = st_node_outcomes st) ->
  evolves (keeps P) (update_state i f).
Proof.
  intros Hf w (st & Hst & Hp). unfold update_state, world_after.
  rewrite (bind_Ok _ _ _ _ _ (state_of_spec i st w Hst)).
  apply (progress_put (f st) st); [done|apply Hf|apply Hf|by exists st].
Qed.

Lemma progress_emit_at ty a p m md ag t : evolves (keeps P) (emit_at i ty a p m md ag t).
Proof.
  intros w (st & Hst & Hp). unfold emit_at, world_after.
  rewrite (bind_Ok _ _ _ _ _ (state_of_spec i st w Hst)).
  destruct (emit_appends st ty a p m md ag t None None None w) as (ev & st' & w' & He & _ & _ & _ & _ & ->).
  rewrite (bind_Ok _ _ _ _ _ He).
  assert (Hw' : dget i (w_states w') = Some st).
  { pose proof (stamped_emit st ty a p m md ag t None None None w) as Hs. unfold world_after in Hs.
    rewrite He in Hs. simpl in Hs. by rewrite (sp_states _ _ Hs). }
  rewrite bind_unfold. cbn [put_state modify mret M_ret snd]. eexists. cbn [w_states set_w_states]. rewrite dget_dset_eq. by split.
Qed.

Lemma progress_engine_event ty p m md : evolves (keeps P) (engine_event i ty p m md).
Proof. apply progress_emit_at. Qed.
Hint Resolve progress_emit_at progress_engine_event : evolve.

Lemma progress_update_execution j : evolves (keeps P) (update_execution j).
Proof. apply progress_stamped, stamped_repo_save_execution. Qed.
Lemma progress_heartbeat j k : evolves (keeps P) (heartbeat j k).
Proof. unfold heartbeat. evolve. Qed.
Hint Resolve progress_update_execution progress_heartbeat : evolve.

(** *** The operations around a task *)

Section Interfaces.
Context `{Profiles} `{DecisionProvider} `{AgentExecutor} `{RunHooks}.
Context (Hi : interfaces_keep P).

Lemma progress_request_approval t p rp ev m : evolves (keeps P) (request_approval i t p rp ev m).
Proof.
  unfold request_approval, suspend_for_approval, get_execution, pop_pending, request_delegated_decision,
    create_durable_approval_wait, validate_wait, create_execution_wait, finish_inline_decision,
    consume_resolved_decision, create_approval_request,
    resolve_approval, resolve_durable_approval_wait, list_execution_waits, resolve_execution_wait,
    resolve_pending_approval_request, list_approval_requests, update_approval_request, get_approval_request, get_execution.
  destruct delegate_decision_provider as [f|] eqn:Hf;
    [pose proof (fun i t p m => ik_delegate _ Hi f i t p m Hf)|]; evolve.
Qed.
Hint Resolve progress_request_approval : evolve.

Lemma progress_task_approval wf t a p r : evolves (keeps P) (maybe_request_task_approval i wf t a p r).
Proof. unfold maybe_request_task_approval. evolve. Qed.
Lemma progress_workflow_approval wf r : evolves (keeps P) (maybe_request_workflow_approval i wf r).
Proof. unfold maybe_request_workflow_approval. evolve. Qed.
Hint Resolve progress_task_approval progress_workflow_approval : evolve.

Lemma progress_run_attempts c fuel n u : at_id c = i -> evolves (keeps P) (run_attempts c fuel n u).
Proof.
  destruct c as [i0 wf t a p o mr d sel]. cbn [at_id]. intros ->. revert n u.
  pose proof (fun wf t a p d => ik_execute _ Hi i wf t a p d).
  induction fuel as [|fuel IH]; intros n u; cbn [run_attempts]; [evolve|].
  unfold attempt_once, attempt_body, handle_failure, step_event.
  cbn [at_id at_workflow at_task at_agent at_profile at_overrides at_max_retries at_timeout]. cbv zeta. evolve.
Qed.

Lemma attempt_context_id wf t a p o d w c w' :
  attempt_context_for i wf t a p o d w = (Ok c, w') -> at_id c = i /\ w' = w.
Proof.
  unfold attempt_context_for. intros (n & w1 & Hn & Hr)%bind_inv.
  destruct (select_timeout _ _) as [x y]. injection Hr as <- <-. split; [done|].
  destruct (py_int _); by injection Hn.
Qed.

Lemma progress_execute_task wf t a p o d : evolves (keeps P) (execute_task_with_runtime_overrides i wf t a p o d).
Proof.
  intros w. unfold execute_task_with_runtime_overrides, world_after. rewrite bind_unfold.
  destruct (attempt_context_for i wf t a p o d w) as [[c|e] w1] eqn:Hc.
  - apply attempt_context_id in Hc as [Hid ->]. by apply progress_run_attempts.
  - assert (Hp : evolves (keeps P) (attempt_context_for i wf t a p o d)) by (unfold attempt_context_for; evolve).
    specialize (Hp w). unfold world_after in Hp. by rewrite Hc in Hp.
Qed.
Hint Resolve progress_execute_task : evolve.

Lemma progress_context_before_task wf t a : evolves (keeps P) (maybe_retrieve_graph_context_before_task i wf t a).
Proof.
  unfold maybe_retrieve_graph_context_before_task. cbv zeta.
  destruct graph_context_retriever as [f|] eqn:Hf; [|evolve].
  pose proof (fun wf t a i => ik_retriever _ Hi f wf t a i Hf).
  unfold record_context_entry, record_graph_context_working_set_entry, keep_working_set, state_of, iter_or_empty, selected_graph_nodes,
    iter_or_empty. evolve; apply progress_update_state; by intros.
Qed.
Hint Resolve progress_context_before_task : evolve.

Lemma progress_handoff wf edge pn n pt t pa a status : evolves (keeps P) (emit_handoff_event i wf edge pn n pt t pa a status).
Proof. unfold emit_handoff_event, state_of. evolve. Qed.
Hint Resolve progress_handoff : evolve.

Lemma progress_record_error n m : evolves (keeps P) (update_state i (record_node_error n m)).
Proof. by apply progress_update_state. Qed.
Hint Resolve progress_record_error : evolve.

Lemma progress_task_output r n t a p ov rem : ru_id r = i -> evolves (keeps P) (task_output r n t a p ov rem).
Proof.
  intros Hr. pose proof (ik_client _ Hi). unfold task_output. rewrite Hr. evolve.
Qed.

Lemma progress_required_tools r n t out : ru_id r = i -> evolves (keeps P) (check_required_tools r n t out).
Proof. intros Hr. unfold check_required_tools, state_of. rewrite Hr. evolve. Qed.
End Interfaces.
End ProgressFrames.

(** ** The walk, abstractly

    One visit of a node and the walk over a list of nodes, on the outputs and
    outcomes alone. *)

(** Routing at a node reads the outputs and outcomes of its sources only. *)
Lemma reachable_local `{Env} wf node st st' :
  (forall e, In e (wf_edges wf) -> we_target_node_id e = wn_id node ->
     dget (we_source_node_id e) (st_node_outcomes st') = dget (we_source_node_id e) (st_node_outcomes st)
     /\ dget (we_source_node_id e) (st_node_outputs st') = dget (we_source_node_id e) (st_node_outputs st)) ->
  node_is_reachable wf node st' = node_is_reachable wf node st.
Proof.
  intros Hsame. unfold node_is_reachable.
  assert (Hin : forall e, In e (incoming_edges wf (wn_id node)) ->
    In e (wf_edges wf) /\ we_target_node_id e = wn_id node).
  { intros e. unfold incoming_edges. rewrite filter_In, String.eqb_eq. tauto. }
  destruct (incoming_edges wf (wn_id node)) as [|e0 l]; [done|]. revert Hin. generalize (e0 :: l). clear e0 l.
  induction l as [|e l IH]; intros Hin; [done|]. cbn [existsb].
  destruct (Hin e (or_introl eq_refl)) as [He Ht]. destruct (Hsame e He Ht) as [Hc Ho].
  unfold pget. rewrite Hc, Ho. f_equal. apply IH. intros e' He'. apply Hin. by right.
Qed.

Lemma NoDup_app_disjoint {A} (l1 l2 : list A) : List.NoDup (l1 ++ l2) -> forall x, In x l1 -> In x l2 -> False.
Proof.
  induction l1 as [|y l1 IH]; intros Hnd x Hx Hx2; [done|]. inversion Hnd as [|? ? Hni Hnd']; subst.
  destruct Hx as [->|Hx]; [apply Hni, in_app_iff; by right|by apply (IH Hnd' x)].
Qed.

Section Walk.
Context `{Env} (wf : WorkflowDefinition).

(** A node runs if it is executable, routing enables it and it has no output. *)
Definition runs (st : NativeExecutionState) (node : WorkflowNode) : bool :=
  is_executable node && node_is_reachable wf node st && negb (dmem (wn_id node) (st_node_outputs st)).

Inductive visited (node : WorkflowNode) (st st' : NativeExecutionState) : Prop :=
| visited_skip :
    runs st node = false -> st_node_outputs st' = st_node_outputs st ->
    st_node_outcomes st' = st_node_outcomes st -> visited node st st'
| visited_run output :
    runs st node = true -> st_node_outputs st' = dset (wn_id node) output (st_node_outputs st) ->
    st_node_outcomes st' = dset (wn_id node) (PStr (node_outcome output)) (st_node_outcomes st) ->
    visited node st st'.

Inductive walked : list WorkflowNode -> NativeExecutionState -> NativeExecutionState -> Prop :=
| walked_nil st : walked [] st st
| walked_cons node nodes st st1 st2 : visited node st st1 -> walked nodes st1 st2 -> walked (node :: nodes) st st2.

Lemma walked_app l1 l2 st st2 :
  walked (l1 ++ l2) st st2 -> exists st1, walked l1 st st1 /\ walked l2 st1 st2.
Proof.
  revert st. induction l1 as [|n l1 IH]; intros st Hw; [by exists st; split; [constructor|]|].
  inversion Hw as [|? ? ? st1 ? Hv Hw1]; subst. destruct (IH _ Hw1) as (st' & H1 & H2).
  exists st'. split; [by econstructor|done].
Qed.

Lemma visited_frame node st st' k :
  visited node st st' -> k <> wn_id node ->
  dget k (st_node_outputs st') = dget k (st_node_outputs st)
  /\ dget k (st_node_outcomes st') = dget k (st_node_outcomes st).
Proof.
  intros [_ -> ->|output _ -> ->] Hne; [done|]. by rewrite !dget_dset_ne.
Qed.

(** Nodes that are not walked over keep their output and outcome. *)
Lemma walked_frame l st st' k :
  walked l st st' -> ~ In k (map wn_id l) ->
  dget k (st_node_outputs st') = dget k (st_node_outputs st)
  /\ dget k (st_node_outcomes st') = dget k (st_node_outcomes st).
Proof.
  induction 1 as [|node l st st1 st2 Hv _ IH]; intros Hni; [done|].
  destruct IH as [-> ->]; [simpl in Hni; tauto|].
  apply (visited_frame node); [done|]. intros ->. apply Hni. by left.
Qed.

(** Outputs are never overwritten, and an output comes with its outcome. *)
Lemma walked_keeps l st st' k v :
  walked l st st' -> dget k (st_node_outputs st) = Some v -> 
  dget k (st_node_outputs st') = Some v
  /\ dget k (st_node_outcomes st') = dget k (st_node_outcomes st).
Proof.
  induction 1 as [|node l st st1 st2 Hv _ IH]; intros Hk; [done|].
  assert (Hne : runs st node = true -> k <> wn_id node).
  { unfold runs, dmem. intros Hr ->. by rewrite Hk, andb_false_r in Hr. }
  destruct Hv as [_ Ho Hc|output Hr Ho Hc].
  - rewrite Hc in IH. apply IH. by rewrite Ho.
  - rewrite Hc, dget_dset_ne in IH by auto. apply IH. by rewrite Ho, dget_dset_ne by auto.
Qed.

Lemma walked_outcome l st st' k v :
  walked l st st' -> dget k (st_node_outputs st) = None -> dget k (st_node_outputs st') = Some v ->
  dget k (st_node_outcomes st') = Some (PStr (node_outcome v))
  /\ exists node, In node l /\ wn_id node = k /\ is_executable node = true.
Proof.
  induction 1 as [|node l st st1 st2 Hv Hw IH]; intros Hk Hv'; [congruence|].
  destruct Hv as [_ Ho Hc|output Hr Ho Hc].
  - destruct IH as (Hout & n & Hn & He); [by rewrite Ho|done|]. split; [done|]. exists n. by split; [right|].
  - destruct (String.eqb_spec k (wn_id node)) as [->|Hne].
    + destruct (walked_keeps _ _ _ (wn_id node) output Hw) as [Ho2 Hc2]; [by rewrite Ho, dget_dset_eq|].
      rewrite Hv' in Ho2. injection Ho2 as ->. rewrite Hc2, Hc, dget_dset_eq. split; [done|].
      exists node. split; [by left|]. split; [done|]. unfold runs in Hr. by destruct (is_executable node).
    + destruct IH as (Hout & n & Hn & He); [by rewrite Ho, dget_dset_ne|done|]. split; [done|].
      exists n. by split; [right|].
Qed.

(** The sources of a node do not come after it. *)
Definition sources_before (l : list WorkflowNode) : Prop :=
  forall l1 n l2 e, l = l1 ++ n :: l2 -> In e (wf_edges wf) -> we_target_node_id e = wn_id n ->
    ~ In (we_source_node_id e) (map wn_id (n :: l2)).

Lemma topological_sources l : List.NoDup (map wn_id l) -> topological wf l -> sources_before l.
Proof.
  intros Hnd Htopo l1 n l2 e -> He Ht Hin. rewrite map_app in Hnd.
  exact (NoDup_app_disjoint _ _ Hnd _ (Htopo l1 n l2 e eq_refl He Ht) Hin).
Qed.

Lemma sources_before_suffix l1 l2 : sources_before (l1 ++ l2) -> sources_before l2.
Proof. intros Hs m1 n m2 e -> He. apply (Hs (l1 ++ m1) n m2 e); [by rewrite <-app_assoc|done]. Qed.

(** The state [st1] in which a node is visited, after the nodes of [before]: it
    has the entries of the final state [st'] for those, and those of [st] for all
    other nodes. *)
Definition at_visit (before : list WorkflowNode) (st st' st1 : NativeExecutionState) : Prop := forall k,
  (In k (map wn_id before) -> dget k (st_node_outputs st1) = dget k (st_node_outputs st')
     /\ dget k (st_node_outcomes st1) = dget k (st_node_outcomes st'))
  /\ (~ In k (map wn_id before) -> dget k (st_node_outputs st1) = dget k (st_node_outputs st)
     /\ dget k (st_node_outcomes st1) = dget k (st_node_outcomes st)).

(** An executable node ends with an output exactly if it had one or routing
    enables it when it is visited. *)
Lemma walked_visit l1 node l2 st st' :
  List.NoDup (map wn_id (l1 ++ node :: l2)) -> walked (l1 ++ node :: l2) st st' -> is_executable node = true ->
  exists st1, at_visit l1 st st' st1
    /\ dmem (wn_id node) (st_node_outputs st') = dmem (wn_id node) (st_node_outputs st) || node_is_reachable wf node st1.
Proof.
  intros Hnd Hw Hex. rewrite map_app in Hnd. cbn [map] in Hnd.
  pose proof (NoDup_remove_2 _ _ _ Hnd) as Hni. rewrite in_app_iff in Hni.
  apply walked_app in Hw as (st1 & Hw1 & Hw2). exists st1. split.
  { intros k. split; intros Hk; [|exact (walked_frame _ _ _ k Hw1 Hk)].
    destruct (walked_frame _ _ _ k Hw2) as [-> ->]; [|done].
    intros Hin. exact (NoDup_app_disjoint _ _ Hnd k Hk Hin). }
  inversion Hw2 as [|? ? ? st2 ? Hv Hw3]; subst.
  destruct (walked_frame _ _ _ (wn_id node) Hw1) as [Ho1 _]; [tauto|].
  destruct (walked_frame _ _ _ (wn_id node) Hw3) as [Ho3 _]; [tauto|].
  unfold dmem. rewrite Ho3, <-Ho1. destruct Hv as [Hr Ho _|output Hr Ho _]; rewrite Ho.
  - unfold runs, dmem in Hr. rewrite Hex in Hr. cbn [andb] in Hr.
    destruct (dget (wn_id node) (st_node_outputs st1)), (node_is_reachable wf node st1); done.
  - rewrite dget_dset_eq. unfold runs in Hr. rewrite Hex in Hr.
    destruct (node_is_reachable wf node st1); [by rewrite orb_true_r|done].
Qed.

(** The nodes with an output at the end of a walk in the order of the edges are
    those that had one and those that routing enables in the final state. *)
Lemma walked_routes l st st' node :
  List.NoDup (map wn_id l) -> sources_before l -> walked l st st' -> In node l -> is_executable node = true ->
  dmem (wn_id node) (st_node_outputs st') =
  dmem (wn_id node) (st_node_outputs st) || node_is_reachable wf node st'.
Proof.
  intros Hnd Htopo Hw (l1 & l2 & ->)%in_split Hex.
  destruct (walked_visit l1 node l2 st st' Hnd Hw Hex) as (st1 & Hv & ->). f_equal. symmetry.
  apply reachable_local. intros e He Ht. pose proof (Htopo _ _ _ e eq_refl He Ht) as Hns.
  destruct (Hv (we_source_node_id e)) as [Hin Hout].
  destruct (in_dec String.string_dec (we_source_node_id e) (map wn_id l1)) as [Hl|Hl].
  - destruct (Hin Hl) as [-> ->]. done.
  - destruct (Hout Hl) as [-> ->]. destruct (walked_frame _ _ _ (we_source_node_id e) Hw) as [-> ->]; [|done].
    rewrite map_app, in_app_iff. tauto.
Qed.
End Walk.

(** ** The engine's loop implements the abstract walk *)

Section Engine.
Context `{Env} `{Workflows} `{Profiles} `{DecisionProvider} `{AgentExecutor} `{RunHooks}.
Context (r : run_setup).
Abbreviation i := (ru_id r).
Abbreviation wf := (ru_workflow r).
Context (Hi : forall outputs outcomes, interfaces_keep (progress_is i outputs outcomes)).

(** The state object of the execution is [st], up to what routing does not read. *)
Definition at_progress (st : NativeExecutionState) (w : world) : Prop :=
  progress_is i (st_node_outputs st) (st_node_outcomes st) w.

Lemma keeps_run {A} (m : M A) (I : world -> Prop) w a w' :
  evolves (keeps I) m -> m w = (Ok a, w') -> I w -> I w'.
Proof. intros Hm Hr HI. specialize (Hm w). unfold world_after in Hm. rewrite Hr in Hm. auto. Qed.

Lemma state_of_progress o c w : progress_is i o c w ->
  exists st, state_of i w = (Ok st, w) /\ st_node_outputs st = o /\ st_node_outcomes st = c.
Proof. intros (st & Hst & Ho & Hc). exists st. split; [by apply state_of_spec|done]. Qed.

(** Executing a node records one output and its outcome, and nothing else. *)
Lemma execute_node_records prev node task agent o c w w' :
  progress_is i o c w -> execute_node r prev node task agent w = (Ok tt, w') ->
  exists output, progress_is i (dset (wn_id node) output o)
                   (dset (wn_id node) (PStr (node_outcome output)) c) w'.
Proof.
  intros Hp. unfold execute_node.
  assert (Hh : forall s o c, evolves (keeps (progress_is i o c)) (emit_handoff r prev node task agent s)).
  { intros s o' c'. unfold emit_handoff. pose proof (progress_handoff i o' c'). evolve. }
  intros ([] & w1 & K1 & Hr)%bind_inv.
  eapply (keeps_run _ (progress_is i o c)) in K1; [|by apply progress_update_state|done].
  apply bind_inv in Hr as (ov & w2 & K2 & Hr). unfold node_overrides in K2.
  eapply (keeps_run _ (progress_is i o c)) in K2; [|evolve|done].
  apply bind_inv in Hr as (profile & w3 & K3 & Hr).
  eapply (keeps_run _ (progress_is i o c)) in K3; [|evolve|done].
  apply bind_inv in Hr as (remaining & w4 & K4 & Hr). unfold workflow_remaining in K4.
  eapply (keeps_run _ (progress_is i o c)) in K4; [|pose proof (progress_utc_now i o c); evolve|done].
  apply bind_inv in Hr as ([] & w5 & K5 & Hr).
  eapply (keeps_run _ (progress_is i o c)) in K5; [|by apply Hh|done].
  apply bind_inv in Hr as ([] & w6 & K6 & Hr).
  eapply (keeps_run _ (progress_is i o c)) in K6; [|by apply (progress_context_before_task i o c (Hi o c))|done].
  apply bind_inv in Hr as (ev & w7 & K7 & Hr).
  eapply (keeps_run _ (progress_is i o c)) in K7; [|by apply progress_emit_at|done].
  apply bind_inv in Hr as (output & w8 & K8 & Hr).
  eapply (keeps_run _ (progress_is i o c)) in K8; [|by apply (progress_task_output i o c (Hi o c))|done].
  destruct (state_of_progress _ _ _ K8) as (st & Hst & _). rewrite (bind_Ok _ _ _ _ _ Hst) in Hr.
  apply bind_inv in Hr as ([] & w9 & K9 & Hr).
  eapply (keeps_run _ (progress_is i o c)) in K9; [|evolve|done].
  apply bind_inv in Hr as (output' & w10 & K10 & Hr).
  eapply (keeps_run _ (progress_is i o c)) in K10; [|by apply progress_required_tools|done].
  exists output'. set (I := progress_is i _ _).
  destruct K10 as (st0 & Hst0 & <- & <-). unfold update_state in Hr. rewrite bind_unfold in Hr.
  rewrite (bind_Ok _ _ _ _ _ (state_of_spec i st0 w10 Hst0)) in Hr.
  cbn [put_state modify mret M_ret] in Hr.
  assert (HI : I (set_w_states (dset i (record_output node output' st0) (w_states w10)) w10)).
  { eexists. cbn [w_states set_w_states]. rewrite dget_dset_eq. split; [done|].
    unfold record_output. by destruct (String.eqb _ _). }
  eapply (keeps_run _ I) in Hr; [done| |exact HI].
  unfold checkpoint_execution, state_of.
  pose proof (Hh "completed" (dset (wn_id node) output' (st_node_outputs st0))
    (dset (wn_id node) (PStr (node_outcome output')) (st_node_outcomes st0))) as Hc.
  assert (Ha : forall f, evolves (keeps I) (assign i f)) by (intros; apply progress_assign).
  assert (Hu : evolves (keeps I) (update_execution i)) by apply progress_update_execution.
  evolve.
Qed.

Lemma runs_progress st st' node :
  st_node_outputs st' = st_node_outputs st -> st_node_outcomes st' = st_node_outcomes st ->
  runs wf st' node = runs wf st node.
Proof.
  intros Ho Hc. unfold runs. rewrite Ho. f_equal. f_equal. apply reachable_local. intros. by rewrite Ho, Hc.
Qed.

(** The task that a node names is the one the run looks for. *)
Definition names_retried (node : WorkflowNode) : Prop := wn_task_id node = Some (ru_retry_task_id r).

(** One iteration is one visit once the run has started; before, it passes over the
    node unless that is the task to retry. *)
Lemma run_node_visits ls node st w ls' w' :
  at_progress st w -> run_node r ls node w = (Ok ls', w') ->
  exists st', at_progress st' w'
    /\ if ls_retry_started ls' then visited wf node st st' /\ (ls_retry_started ls = true \/ names_retried node)
       else ls_retry_started ls = false /\ st' = st.
Proof.
  intros Hp. unfold run_node.
  destruct (state_of_progress _ _ _ Hp) as (st1 & Hst1 & Ho & Hc).
  rewrite (bind_Ok _ _ _ _ _ Hst1).
  intros ([] & w1 & K1 & (e & w2 & K2 & ([] & w3 & K3 & Hr)%bind_inv)%bind_inv)%bind_inv.
  eapply (keeps_run _ (at_progress st)) in K1; [|evolve|done].
  eapply (keeps_run _ (at_progress st)) in K2; [|evolve|done].
  eapply (keeps_run _ (at_progress st)) in K3;
    [|pose proof (fun j k => progress_heartbeat i (st_node_outputs st) (st_node_outcomes st) j k); evolve|done].
  clear Hp Hst1 K1 K2.
  assert (Hrun : runs wf st node = runs wf st1 node) by by apply runs_progress.
  assert (Hskip : runs wf st node = false -> forall w0, at_progress st w0 -> exists st', at_progress st' w0
    /\ if ls_retry_started ls then visited wf node st st' /\ (ls_retry_started ls = true \/ names_retried node)
       else ls_retry_started ls = false /\ st' = st).
  { intros Hf w0 Hw0. exists st. split; [done|].
    destruct (ls_retry_started ls); [split; [by apply visited_skip|by left]|done]. }
  unfold runs in Hrun at 2.
  destruct (is_executable node); cbn [negb andb] in Hr, Hrun; [|injection Hr as <- <-; auto].
  destruct (node_is_reachable wf node st1); cbn [negb andb] in Hr, Hrun.
  2: { apply bind_inv in Hr as (ev & w4 & K4 & Hr). injection Hr as <- <-.
       eapply (keeps_run _ (at_progress st)) in K4; [by auto|by apply progress_engine_event|done]. }
  apply bind_inv in Hr as (task & w4 & K4 & Hr). pose proof K4 as Htask.
  eapply (keeps_run _ (at_progress st)) in K4; [|evolve|done].
  destruct (negb (ls_retry_started ls) && negb (String.eqb (td_id task) (ru_retry_task_id r))) eqn:Hpass.
  { injection Hr as <- <-. exists st. split; [done|]. by destruct (ls_retry_started ls). }
  assert (Hstart : ls_retry_started ls = true \/ names_retried node).
  { destruct (ls_retry_started ls); [by left|right]. cbn in Hpass. apply negb_false_iff, String.eqb_eq in Hpass.
    unfold names_retried. rewrite <-Hpass. unfold resolve_task in Htask.
    destruct (str_truthy (wn_task_id node)); [|done]. cbn [negb] in Htask.
    destruct (List.find _ _) as [t|] eqn:Hf; [|done]. injection Htask as <- _.
    apply find_some in Hf as [_ Hf]. destruct (wn_task_id node) as [t'|]; [|done].
    cbn in Hf. apply String.eqb_eq in Hf. by rewrite Hf. }
  apply bind_inv in Hr as (agent & w5 & K5 & Hr).
  eapply (keeps_run _ (at_progress st)) in K5; [|evolve|done].
  apply bind_inv in Hr as ([] & w6 & K6 & Hr). injection Hr as <- <-. cbn [ls_retry_started].
  destruct (negb (dmem (wn_id node) (st_node_outputs st1))); cbn [when] in K6.
  - destruct (execute_node_records _ _ _ _ _ _ _ _ K5 K6) as (output & Hout).
    eexists (set_st_node_outcomes (dset (wn_id node) (PStr (node_outcome output)) (st_node_outcomes st))
              (set_st_node_outputs (dset (wn_id node) output (st_node_outputs st)) st)).
    split; [exact Hout|]. split; [by eapply visited_run|done].
  - injection K6 as <-. exists st. split; [done|]. split; [by apply visited_skip|done].
Qed.

Lemma run_nodes_walk nodes ls st w ls' w' :
  ls_retry_started ls = true -> at_progress st w -> run_nodes r ls nodes w = (Ok ls', w') ->
  ls_retry_started ls' = true /\ exists st', walked wf nodes st st' /\ at_progress st' w'.
Proof.
  revert ls st w. induction nodes as [|node nodes IH]; intros ls st w Hls Hp Hr; cbn [run_nodes] in Hr.
  - injection Hr as <- <-. split; [done|]. exists st. split; [constructor|done].
  - apply bind_inv in Hr as (ls1 & w1 & K1 & Hr).
    destruct (run_node_visits _ _ _ _ _ _ Hp K1) as (st1 & Hp1 & Hv).
    assert (Hls1 : ls_retry_started ls1 = true) by (destruct (ls_retry_started ls1); [done|destruct Hv; congruence]).
    rewrite Hls1 in Hv. destruct Hv as [Hv _].
    destruct (IH _ _ _ Hls1 Hp1 Hr) as (Hls2 & st2 & Hw & Hp2).
    split; [done|]. exists st2. split; [by econstructor|done].
Qed.

(** A run that retries passes over the nodes before the task and then walks. *)
Lemma run_nodes_retry nodes ls st w ls' w' :
  ls_retry_started ls = false -> at_progress st w -> run_nodes r ls nodes w = (Ok ls', w') ->
  ls_retry_started ls' = true ->
  exists passed node rest st', nodes = passed ++ node :: rest /\ names_retried node
    /\ walked wf (node :: rest) st st' /\ at_progress st' w'.
Proof.
  revert ls st w. induction nodes as [|node nodes IH]; intros ls st w Hls Hp Hr Hls'; cbn [run_nodes] in Hr.
  - injection Hr as <- <-. congruence.
  - apply bind_inv in Hr as (ls1 & w1 & K1 & Hr).
    destruct (run_node_visits _ _ _ _ _ _ Hp K1) as (st1 & Hp1 & Hv).
    destruct (ls_retry_started ls1) eqn:Hls1.
    + destruct Hv as [Hv [Ht|Hn]]; [congruence|].
      destruct (run_nodes_walk _ _ _ _ _ _ Hls1 Hp1 Hr) as (_ & st2 & Hw & Hp2).
      exists [], node, nodes, st2. split; [done|]. split; [done|]. split; [by econstructor|done].
    + destruct Hv as [_ ->]. destruct (IH _ _ _ Hls1 Hp1 Hr Hls') as (passed & n & rest & st' & -> & Hn & Hw & Hp').
      by exists (node :: passed), n, rest, st'.
Qed.
End Engine.

(** ** The walk of a run *)

(** What a run owes to the workflow: [restored] are the outputs it starts with. *)
Record routed `{Env} (wf : WorkflowDefinition) (restored : dict pyval) (st : NativeExecutionState) : Prop := {
  rt_restored : forall k v, dget k restored = Some v -> dget k (st_node_outputs st) = Some v;
  rt_executed : forall node, In node (wf_nodes wf) -> is_executable node = true ->
    dmem (wn_id node) (st_node_outputs st) = dmem (wn_id node) restored || node_is_reachable wf node st;
  rt_outcome : forall k v, dget k restored = None -> dget k (st_node_outputs st) = Some v ->
    dget k (st_node_outcomes st) = Some (PStr (node_outcome v))
    /\ exists node, In node (wf_nodes wf) /\ wn_id node = k /\ is_executable node = true
}.

Lemma walked_routed `{Env} wf st st' :
  List.NoDup (map wn_id (wf_nodes wf)) -> topological wf (order_nodes wf) -> walked wf (order_nodes wf) st st' ->
  routed wf (st_node_outputs st) st'.
Proof.
  intros Hnd Htopo Hw. pose proof (plan_permutation wf Hnd) as Hperm.
  split.
  - intros k v Hk. by apply (walked_keeps wf _ _ _ _ _ Hw).
  - intros node Hn Hex.
    assert (Hids : List.NoDup (map wn_id (order_nodes wf))).
    { eapply Permutation_NoDup; [|exact Hnd]. symmetry. by apply Permutation_map. }
    apply (walked_routes wf (order_nodes wf)); auto using topological_sources.
    eapply Permutation_in; [symmetry; exact Hperm|done].
  - intros k v Hk Hv. destruct (walked_outcome wf _ _ _ _ _ Hw Hk Hv) as (Ho & node & Hn & Hid).
    split; [done|]. exists node. split; [|done]. by eapply Permutation_in.
Qed.

