(* ===== verification/CycleFacts.v ===== *)
(** * What persistent cycles guarantee

    A scheduled cycle leaves the execution asleep on a pending wait for the next
    cycle, due after the computed delay, with its checkpoint reset; a guard
    parks it without a wait; the delay after a failure is bounded. *)

From Corelib Require Import SpecFloat.
From S2P Require Export RunFacts.

(** ** Steps on one execution, its state object and the waits *)

Section Steps.
Context `{Env} (i : string).

(** The stored waits, the attributes of execution [i] and the outputs of its
    state object. *)
Definition at_cycle (waits : dict ExecutionWait) (A : Execution -> Prop) (outputs : dict pyval) (w : world) : Prop :=
  w_waits w = waits /\ (exists e, dget i (w_executions w) = Some e /\ A e)
  /\ exists st, dget i (w_states w) = Some st /\ st_node_outputs st = outputs.

(** An assertion on an execution that the activity stamp does not break. *)
Definition unstamped (A : Execution -> Prop) : Prop := forall e e', same_but_activity e e' -> A e -> A e'.

Lemma at_cycle_stamped W A o w w' : unstamped A -> stamped w w' -> at_cycle W A o w -> at_cycle W A o w'.
Proof.
  intros HA Hs (Hw & (e & He & Ha) & st & Hst & Ho). split; [by rewrite (sp_waits _ _ Hs)|]. split.
  - destruct (stamped_execution i e w w' Hs He) as (e' & He' & Hsame). exists e'. split; [done|]. by apply (HA e).
  - exists st. by rewrite (sp_states _ _ Hs).
Qed.

Lemma at_cycle_same W A o w w' :
  w_waits w' = w_waits w -> w_executions w' = w_executions w -> w_states w' = w_states w ->
  at_cycle W A o w -> at_cycle W A o w'.
Proof. intros Hw He Hs (H1 & H2 & H3). unfold at_cycle. by rewrite Hw, He, Hs. Qed.

Lemma returns_assign W A o f (B : Execution -> Prop) w :
  at_cycle W A o w -> (forall e, A e -> B (f e)) -> returns (assign i f) w (fun _ => at_cycle W B o).
Proof.
  intros (Hw & (e & He & Ha) & Hst) Hf. eapply returns_intro; [reflexivity|]. split; [done|]. split; [|done].
  exists (f e). cbn. rewrite dget_dalter, String.eqb_refl, He. split; [done|auto].
Qed.

Lemma returns_update_state W A o f o' w :
  at_cycle W A o w -> (forall st, st_node_outputs st = o -> st_node_outputs (f st) = o') ->
  returns (update_state i f) w (fun _ => at_cycle W A o').
Proof.
  intros (Hw & He & st & Hst & Ho) Hf. unfold update_state.
  eapply returns_step; [by apply state_of_spec|]. eapply returns_intro; [reflexivity|].
  split; [done|]. split; [done|]. exists (f st). cbn. rewrite dget_dset_eq. auto.
Qed.

Lemma returns_update_execution W A o w : unstamped A ->
  at_cycle W A o w -> returns (update_execution i) w (fun _ => at_cycle W A o).
Proof.
  intros HA Hw. destruct (total_repo_save_execution i w) as ([] & w1 & E1).
  eapply returns_intro; [exact E1|]. pose proof (stamped_repo_save_execution i w) as Hs.
  unfold world_after in Hs. rewrite E1 in Hs. by apply (at_cycle_stamped W A o w).
Qed.

Lemma returns_emit_at W A o ty a p m md ag t w : unstamped A ->
  at_cycle W A o w -> returns (emit_at i ty a p m md ag t) w (fun _ => at_cycle W A o).
Proof.
  intros HA Hw. pose proof Hw as (_ & _ & st & Hst & Ho). unfold emit_at.
  eapply returns_step; [by apply state_of_spec|].
  destruct (emit_appends st ty a p m md ag t None None None w) as (ev & st' & w' & E & _ & _ & _ & _ & Est).
  eapply returns_step; [exact E|]. eapply returns_intro; [reflexivity|].
  pose proof (stamped_emit st ty a p m md ag t None None None w) as Hs. unfold world_after in Hs.
  rewrite E in Hs. destruct (at_cycle_stamped W A o w w' HA Hs Hw) as (H1 & H2 & _).
  split; [done|]. split; [done|]. exists st'. cbn. rewrite dget_dset_eq, Est. by split.
Qed.
End Steps.

(** The cycle dictionary of an execution. *)
Definition cycle_is (cycle : dict pyval) (e : Execution) : Prop := cycle_of e = cycle.

Lemma cycle_is_unstamped cycle : unstamped (cycle_is cycle).
Proof. intros e e' [_ Hk] <-. unfold cycle_is, cycle_of, pget. by rewrite Hk. Qed.

(** Asleep on the wait [k]. *)
Definition asleep_on (k : string) (cycle : dict pyval) (e : Execution) : Prop :=
  ex_status e = SLEEPING /\ active_wait_is k (ex_metadata e) = true /\ cycle_is cycle e.

Lemma asleep_on_unstamped k cycle : unstamped (asleep_on k cycle).
Proof.
  intros e e' Hs (Hst & Ha & Hc). split; [|split].
  - rewrite <-Hst. by apply (same_but_activity_field ex_status).
  - by rewrite (same_active_wait _ _ _ Hs).
  - by apply (cycle_is_unstamped cycle e).
Qed.

Definition parked_for (cycle : dict pyval) (e : Execution) : Prop := ex_status e = PAUSED /\ cycle_is cycle e.

Lemma parked_for_unstamped cycle : unstamped (parked_for cycle).
Proof.
  intros e e' Hs (Hst & Hc). split; [|by apply (cycle_is_unstamped cycle e)].
  rewrite <-Hst. by apply (same_but_activity_field ex_status).
Qed.

Section CycleSteps.
Context `{Env} (i : string).

Lemma returns_update_cycle W cycle o f w :
  at_cycle i W (cycle_is cycle) o w ->
  returns (update_cycle i f) w (fun _ => at_cycle i W (cycle_is (f cycle)) o).
Proof.
  intros Hw. eapply returns_assign; [exact Hw|]. intros e <-. unfold cycle_is.
  unfold cycle_of at 1, pget. cbn. by rewrite dget_dset_eq.
Qed.

(** An assignment to an attribute other than the metadata. *)
Lemma returns_assign_other W cycle o f w :
  (forall e, ex_metadata (f e) = ex_metadata e) -> at_cycle i W (cycle_is cycle) o w ->
  returns (assign i f) w (fun _ => at_cycle i W (cycle_is cycle) o).
Proof.
  intros Hf Hw. eapply returns_assign; [exact Hw|]. intros e. unfold cycle_is, cycle_of. by rewrite Hf.
Qed.

Lemma returns_cycle_metadata W cycle o w :
  at_cycle i W (cycle_is cycle) o w ->
  returns (cycle_metadata i) w (fun c w' => c = cycle /\ at_cycle i W (cycle_is cycle) o w' /\ w_clock w' = w_clock w).
Proof.
  intros Hw. unfold cycle_metadata.
  destruct (returns_update_cycle W cycle o (fun c => c) w Hw) as ([] & w1 & E1 & Hw1).
  eapply returns_step; [exact E1|]. pose proof Hw1 as (_ & (e & He & Hc) & _).
  eapply returns_step; [unfold deref; by rewrite He|]. eapply returns_intro; [reflexivity|].
  split; [exact Hc|]. split; [exact Hw1|]. by injection E1 as <-.
Qed.

Lemma current_cycle_number_int cycle n w :
  positive_int (pget "cycle_number" cycle) = mret (Some n) -> current_cycle_number cycle w = (Ok n, w).
Proof. intros Hn. unfold current_cycle_number. by rewrite Hn. Qed.

Lemma positive_int_PInt n : 0 < n -> positive_int (PInt n) = mret (Some n).
Proof.
  intros Hn. unfold positive_int, int_where, py_int.
  replace (0 <? n) with true by (symmetry; by apply Z.ltb_lt). reflexivity.
Qed.

(** The checkpoint is reset: no node of the next cycle has an output. *)
Lemma returns_reset W cycle o output w :
  at_cycle i W (cycle_is cycle) o w ->
  returns (reset_cycle_checkpoint i output) w (fun _ => at_cycle i W (cycle_is cycle) []).
Proof.
  intros Hw. unfold reset_cycle_checkpoint. eapply returns_bind; [by apply returns_assign_other|].
  intros [] w' Hw'. by eapply returns_update_state.
Qed.

(** Reset, paused, saved: what a guard and a schedule share. *)
Lemma returns_parked W cycle o output w {B} (k : M B) Q :
  at_cycle i W (cycle_is cycle) o w ->
  (forall w', at_cycle i W (parked_for cycle) [] w' -> returns k w' Q) ->
  returns (reset_cycle_checkpoint i output;; assign i (set_ex_status PAUSED);;
           assign i (set_ex_completed_at None);; update_execution i;; k) w Q.
Proof.
  intros Hw Hk. eapply returns_bind; [by eapply returns_reset|]. intros [] w1 H1.
  eapply returns_bind.
  { apply (returns_assign i W (cycle_is cycle) [] _ (parked_for cycle)); [exact H1|]. by intros e He. }
  intros [] w2 H2. eapply returns_bind.
  { apply (returns_assign i W (parked_for cycle) [] _ (parked_for cycle)); [exact H2|]. by intros e He. }
  intros [] w3 H3. eapply returns_bind.
  { apply returns_update_execution; [apply parked_for_unstamped|exact H3]. }
  intros [] w4 Hw4. by apply Hk.
Qed.
End CycleSteps.

(** ** Going to sleep *)

Definition cycle_key (n : Z) : string := "persistent-cycle:" +:+ show_Z n.

Lemma cycle_key_length n : 0 <= n -> n < 2 ^ 200 -> (String.length (cycle_key n) <= 255)%nat.
Proof.
  intros Hn Hlt. unfold cycle_key. rewrite str_length_app. pose proof (show_Z_length n Hn) as Hl.
  assert (Z.log2 n < 200 \/ n = 0) as [Hlog| ->].
  { destruct (Z.eq_dec n 0); [by right|]. left. apply Z.log2_lt_pow2; lia. }
  - simpl. lia.
  - simpl in *. lia.
Qed.

Section Sleep.
Context `{Env} `{RunHooks} (i : string).

(** A sleep wait with a short key passes the validators. *)
Lemma validate_cycle_wait id n cp rp po wake created updated md w :
  0 <= n -> n < 2 ^ 200 ->
  let wt := mkExecutionWait id i SLEEP WAIT_PENDING (cycle_key n) None cp rp po None None (Some wake) None None None
              created updated md in
  validate_wait wt w = (Ok wt, w).
Proof.
  intros Hn Hlt wt. unfold validate_wait, wait_is_pending, wt.
  cbn [wt_id wt_execution_id wt_kind wt_status wt_idempotency_key wt_correlation_key wt_checkpoint
       wt_request_payload wt_policy wt_resolution_payload wt_resolution_key wt_wake_at wt_deadline_at
       wt_resolved_at wt_resolved_by wt_created_at wt_updated_at wt_metadata].
  pose proof (cycle_key_length n Hn Hlt) as Hlen.
  replace (255 <? String.length (cycle_key n))%nat with false by (symmetry; apply Nat.ltb_ge; exact Hlen).
  change (String.length (cycle_key n) <? 1)%nat with false.
  assert (Hv : String.eqb (py_strip (cycle_key n)) "" = false) by by apply py_strip_visible.
  rewrite Hv. reflexivity.
Qed.

(** Asleep until [wake], when the cycle [n] starts from nothing. *)
Definition asleep_until (n wake : Z) (output : dict pyval) (w : world) : Prop :=
  exists wt e st, suspended_on i wt w /\ wt_kind wt = SLEEP /\ wt_idempotency_key wt = cycle_key n
    /\ wt_wake_at wt = Some wake /\ wt_checkpoint wt = reset_cycle_payload output
    /\ dget i (w_executions w) = Some e /\ pget "next_cycle_number" (cycle_of e) = PInt n
    /\ dget i (w_states w) = Some st /\ st_node_outputs st = [].

Lemma schedule_sleeps policy output delay reason cycle outputs W n us w :
  at_cycle i W (cycle_is cycle) outputs w -> positive_int (pget "cycle_number" cycle) = mret (Some n) ->
  0 < n -> n + 1 < 2 ^ 200 ->
  timedelta_seconds (cycle_delay_with_jitter i (n + 1) delay (pc_jitter_ratio policy)) = DeltaValue us ->
  env_now (w_clock w) + us <= MAX_TIMESTAMP -> no_wait_conflict i (cycle_key (n + 1)) w ->
  returns (schedule_persistent_cycle i policy output delay reason) w
    (fun _ => asleep_until (n + 1) (env_now (w_clock w) + us) output).
Proof.
  intros Hw Hn Hpos Hmax Hdelta Hwake Hno. unfold schedule_persistent_cycle.
  eapply returns_bind; [apply returns_cycle_metadata, Hw|]. intros c w1 (-> & Hw1 & Hclock).
  eapply returns_step; [by apply current_cycle_number_int|]. cbv zeta.
  eapply returns_step; [reflexivity|]. rewrite Hclock. set (w2 := set_w_clock _ w1).
  assert (Hw2 : at_cycle i W (cycle_is cycle) outputs w2) by by apply (at_cycle_same _ _ _ _ w1).
  eapply returns_step; [unfold py_timedelta; by rewrite Hdelta|].
  eapply returns_step.
  { unfold py_datetime_plus. by rewrite (proj2 (Z.leb_le _ _) Hwake). }
  eapply returns_bind; [by apply returns_update_cycle|]. intros [] w3 Hw3. cbv beta in Hw3.
  set (cycle' := dupdate _ _) in Hw3. eapply returns_parked; [exact Hw3|]. clear w3 Hw3. intros w3 Hw3.
  eapply returns_step.
  { unfold cycle_wait. cbn [uuid4 utc_now mbind M_bind]. apply (validate_cycle_wait _ (n + 1)); lia. }
  set (wt := mkExecutionWait _ _ _ _ _ _ _ _ _ _ _ _ _ _ _ _ _ _). set (w4 := set_w_clock _ _).
  assert (Hw4 : at_cycle i W (parked_for cycle') [] w4) by by apply (at_cycle_same _ _ _ _ w3).
  assert (Hno4 : no_wait_conflict i (cycle_key (n + 1)) w4).
  { intros wt' Hin. apply Hno. by rewrite (proj1 Hw), <-(proj1 Hw4). }
  eapply returns_step.
  { unfold claim_cycle_wait, try_except. by rewrite (no_conflict_create i (cycle_key (n + 1))). }
  set (W' := dset (wt_id wt) wt (w_waits w4)).
  assert (Hw5 : at_cycle i W' (parked_for cycle') [] (set_w_waits W' w4)) by (split; [done|apply Hw4]).
  eapply returns_bind.
  { eapply (returns_assign i W' (parked_for cycle') [] _ (fun e => ex_status e = SLEEPING /\ cycle_is cycle' e));
      [exact Hw5|]. by intros e' [_ Hc]. }
  intros [] w6 Hw6. eapply returns_bind.
  { eapply (returns_assign i W' _ [] _ (asleep_on (wt_id wt) cycle')); [exact Hw6|].
    intros e' [Hs Hc]. split; [exact Hs|]. split.
    - unfold active_wait_is, pget. cbn. rewrite dget_dset_eq. cbn. apply String.eqb_refl.
    - revert Hc. unfold cycle_is, cycle_of, pget. cbn [ex_metadata set_ex_metadata]. by rewrite dget_dset_ne. }
  intros [] w7 Hw7. eapply returns_bind; [apply returns_update_execution; [apply asleep_on_unstamped|exact Hw7]|].
  intros [] w8 Hw8. eapply returns_bind; [apply returns_emit_at; [apply asleep_on_unstamped|exact Hw8]|].
  intros ev w9 (Hwaits & (e' & He' & Hs & Ha & Hc) & st' & Hst' & Ho).
  eapply returns_intro; [reflexivity|]. exists wt, e', st'.
  split; [|repeat split; auto].
  - split; [by rewrite Hwaits; apply dget_dset_eq|]. split; [done|]. split; [done|]. by exists e'.
  - unfold cycle_is in Hc. rewrite Hc. unfold pget, cycle', dupdate. cbn [fold_left fst snd]. by rewrite !dget_dset.
Qed.

(** Parked by a guard, with no new wait: only an operator resumes it. *)
Definition guarded_for (reason : string) (n : Z) (W : dict ExecutionWait) (w : world) : Prop :=
  w_waits w = W /\ exists e st, dget i (w_executions w) = Some e /\ ex_status e = PAUSED
    /\ pget "phase" (cycle_of e) = PStr "guarded" /\ pget "guard_reason" (cycle_of e) = PStr reason
    /\ pget "next_cycle_number" (cycle_of e) = PInt n
    /\ dget i (w_states w) = Some st /\ st_node_outputs st = [].

Lemma guard_parks output reason detail cycle outputs W n w :
  at_cycle i W (cycle_is cycle) outputs w -> positive_int (pget "cycle_number" cycle) = mret (Some n) ->
  returns (pause_persistent_cycle_for_guard i output reason detail) w (fun _ => guarded_for reason (n + 1) W).
Proof.
  intros Hw Hn. unfold pause_persistent_cycle_for_guard.
  eapply returns_bind; [apply returns_cycle_metadata, Hw|]. intros c w1 (-> & Hw1 & _).
  eapply returns_step; [by apply current_cycle_number_int|].
  eapply returns_bind; [by apply returns_update_cycle|]. intros [] w2 Hw2. cbv beta in Hw2.
  set (cycle' := dupdate _ _) in Hw2. eapply returns_parked; [exact Hw2|]. intros w3 Hw3.
  eapply returns_bind; [apply returns_emit_at; [apply parked_for_unstamped|exact Hw3]|]. intros ev w4 Hw4.
  eapply returns_bind; [apply returns_emit_at; [apply parked_for_unstamped|exact Hw4]|].
  intros ev' w5 (Hwaits & (e & He & Hs & Hc) & st & Hst & Ho).
  eapply returns_intro; [reflexivity|]. split; [done|]. exists e, st. unfold cycle_is in Hc. rewrite Hc.
  unfold pget, cycle', dupdate. cbn [fold_left fst snd]. rewrite !dget_dset. by repeat split.
Qed.
End Sleep.

(** ** The end of a cycle *)

Section Cycle.
Context `{Env} `{RunHooks} (i : string).

(** The counter of cycles without progress after a cycle with this output. *)
Definition no_progress_after (cycle output : dict pyval) (count : option Z) : Z :=
  if eq_str (pget "last_progress_signature" cycle) (cycle_progress_signature output)
  then default 0 count + 1 else 0.

Definition reaches (limit : option Z) (count : Z) : bool :=
  match limit with Some n => n <=? count | None => false end.

Definition cycle_ended (reason : string) (W : dict ExecutionWait) (w : world) : Prop :=
  w_waits w = W /\ exists e, dget i (w_executions w) = Some e
    /\ pget "phase" (cycle_of e) = PStr "completed" /\ pget "terminal_reason" (cycle_of e) = PStr reason.

Lemma returns_end W cycle outputs reason w :
  at_cycle i W (cycle_is cycle) outputs w ->
  returns (update_cycle i (fun cycle => dupdate cycle [("phase", PStr "completed"); ("terminal_reason", PStr reason)]))
    w (fun _ => cycle_ended reason W).
Proof.
  intros Hw. eapply returns_mono; [by eapply returns_update_cycle|].
  intros [] w' (Hwaits & (e & He & Hc) & _). split; [done|]. exists e. split; [done|].
  unfold cycle_is in Hc. rewrite Hc. unfold pget, dupdate. cbn [fold_left fst snd]. by rewrite !dget_dset.
Qed.

(** C10. A successful cycle of an enabled policy always returns with the decision
    that the policy prescribes: at the last cycle the run is left to complete, the
    cycle marked with the reason; when the limit of cycles without progress is
    reached the execution is parked by a guard and no wait is created; otherwise
    it sleeps on a pending wait until the computed delay has passed, to start the
    next cycle from nothing. *)
Theorem cycle_success_decides policy output e st n count reason us w :
  pc_enabled policy = true ->
  dget i (w_executions w) = Some e -> dget i (w_states w) = Some st ->
  positive_int (pget "cycle_number" (cycle_of e)) = mret (Some n) -> 0 < n -> n + 1 < 2 ^ 200 ->
  non_negative_int (pget "no_progress_cycles" (cycle_of e)) = mret count ->
  terminal_reason_of policy n (env_now (w_clock w)) = mret reason ->
  timedelta_seconds (cycle_delay_with_jitter i (n + 1) (pc_interval_seconds policy) (pc_jitter_ratio policy))
    = DeltaValue us ->
  (forall t, env_now t + us <= MAX_TIMESTAMP) -> no_wait_conflict i (cycle_key (n + 1)) w ->
  returns (handle_persistent_cycle_success i policy output) w (fun handled w' =>
    match reason with
    | Some reason => handled = false /\ cycle_ended reason (w_waits w) w'
    | None =>
        handled = true
        /\ if reaches (pc_max_no_progress_cycles policy) (no_progress_after (cycle_of e) output count)
           then guarded_for i "no_progress_limit_reached" (n + 1) (w_waits w) w'
           else exists t, asleep_until i (n + 1) (env_now t + us) output w'
    end).
Proof.
  intros Hon He Hst Hn Hpos Hmax Hcount Hreason Hdelta Hwake Hno.
  assert (Hw : at_cycle i (w_waits w) (cycle_is (cycle_of e)) (st_node_outputs st) w)
    by (split; [done|split; [by exists e|by exists st]]).
  unfold handle_persistent_cycle_success. rewrite Hon. cbn [negb].
  eapply returns_step; [reflexivity|]. set (w0 := set_w_clock _ w).
  assert (Hw0 : at_cycle i (w_waits w) (cycle_is (cycle_of e)) (st_node_outputs st) w0)
    by by apply (at_cycle_same _ _ _ _ w).
  eapply returns_bind; [apply returns_cycle_metadata, Hw0|]. intros c w1 (-> & Hw1 & _).
  eapply returns_step; [by apply current_cycle_number_int|]. cbv zeta.
  eapply (returns_step _ _ _ (no_progress_after (cycle_of e) output count)).
  { unfold no_progress_after. destruct (eq_str _ _); [|reflexivity]. by rewrite Hcount. }
  eapply returns_bind; [by apply returns_update_cycle|]. intros [] w2 Hw2. cbv beta in Hw2.
  eapply returns_bind; [by eapply returns_assign_other|]. intros [] w3 Hw3.
  eapply returns_bind; [by apply returns_update_cycle|]. intros [] w4 Hw4.
  eapply returns_step; [by rewrite Hreason|].
  eapply returns_bind; [apply returns_emit_at; [apply cycle_is_unstamped|exact Hw4]|]. intros ev w5 Hw5.
  destruct reason as [reason|].
  - eapply returns_bind; [eapply returns_end; exact Hw5|]. intros [] w6 Hw6. by eapply returns_intro.
  - set (cycle := append_cycle_history _ _ _) in Hw5.
    assert (Hn' : positive_int (pget "cycle_number" cycle) = mret (Some n)).
    { unfold cycle, append_cycle_history, pget, dupdate. cbn [fold_left fst snd].
      rewrite dget_dset_ne, dget_dpop_ne, !dget_dset by done. by apply positive_int_PInt. }
    change (match pc_max_no_progress_cycles policy with Some _ => _ | None => _ end)
      with (reaches (pc_max_no_progress_cycles policy) (no_progress_after (cycle_of e) output count)).
    destruct (reaches _ _).
    + eapply returns_bind; [eapply guard_parks; [exact Hw5|exact Hn']|]. intros [] w6 Hw6. by eapply returns_intro.
    + eapply returns_bind.
      { eapply schedule_sleeps; [exact Hw5|exact Hn'|done|done|exact Hdelta|apply Hwake|].
        intros wt. rewrite (proj1 Hw5). apply Hno. }
      intros [] w6 Hw6. eapply returns_intro; [reflexivity|]. split; [done|]. by exists (w_clock w5).
Qed.

(** A failed cycle of an enabled policy, without a retriever of failure
    context, always returns with the decision that the policy prescribes: parked
    by a guard at the limit of consecutive failures or when the next cycle would
    start after the deadline, and otherwise asleep until the backoff delay has
    passed; the outputs of the failed cycle are kept in the checkpoint of the
    wait. *)
Theorem cycle_failure_decides wf policy error e st n count delay late us w :
  execution_failure_graph_context_retriever = None ->
  dget i (w_executions w) = Some e -> dget i (w_states w) = Some st ->
  positive_int (pget "cycle_number" (cycle_of e)) = mret (Some n) -> 0 < n -> n + 1 < 2 ^ 200 ->
  non_negative_int (pget "consecutive_failures" (cycle_of e)) = mret count ->
  failure_delay policy (default 0 count + 1) = mret delay ->
  past_deadline policy (env_now (w_clock w)) delay = mret late ->
  timedelta_seconds (cycle_delay_with_jitter i (n + 1) delay (pc_jitter_ratio policy)) = DeltaValue us ->
  (forall t, env_now t + us <= MAX_TIMESTAMP) -> no_wait_conflict i (cycle_key (n + 1)) w ->
  returns (handle_persistent_cycle_failure i wf policy error) w (fun _ w' =>
    if pc_max_consecutive_failures policy <=? default 0 count + 1
    then guarded_for i "max_consecutive_failures_reached" (n + 1) (w_waits w) w'
    else if late then guarded_for i "deadline_reached_after_failure" (n + 1) (w_waits w) w'
    else exists t, asleep_until i (n + 1) (env_now t + us) (execution_checkpoint_payload st None) w').
Proof.
  intros Hnone He Hst Hn Hpos Hmax Hcount Hdelay Hlate Hdelta Hwake Hno.
  assert (Hw : at_cycle i (w_waits w) (cycle_is (cycle_of e)) (st_node_outputs st) w)
    by (split; [done|split; [by exists e|by exists st]]).
  unfold handle_persistent_cycle_failure. eapply returns_step; [reflexivity|]. set (w0 := set_w_clock _ w).
  assert (Hw0 : at_cycle i (w_waits w) (cycle_is (cycle_of e)) (st_node_outputs st) w0)
    by by apply (at_cycle_same _ _ _ _ w).
  destruct (returns_cycle_metadata i _ _ _ w0 Hw0) as (c & w1 & E1 & -> & Hw1 & _).
  eapply returns_step; [exact E1|].
  eapply returns_step; [by apply current_cycle_number_int|]. eapply returns_step; [by rewrite Hcount|]. cbv zeta.
  eapply returns_step.
  { apply state_of_spec. unfold cycle_metadata in E1. rewrite bind_unfold in E1. cbn [update_cycle assign modify] in E1.
    apply bind_inv in E1 as (e1 & w1' & Hd & Hr). injection Hr as _ <-.
    unfold deref in Hd. split_match_in Hd; [|done]. injection Hd as _ <-. exact Hst. }
  eapply returns_bind; [by apply returns_assign_other|]. intros [] w2 Hw2.
  eapply returns_bind; [by apply returns_update_cycle|]. intros [] w3 Hw3. cbv beta in Hw3.
  eapply returns_bind; [by apply returns_update_cycle|]. intros [] w4 Hw4.
  eapply returns_step; [reflexivity|].
  eapply returns_bind; [apply returns_emit_at; [apply cycle_is_unstamped|exact Hw4]|]. intros ev w5 Hw5.
  eapply returns_step.
  { unfold maybe_retrieve_graph_context_after_execution_failure. by rewrite Hnone. }
  set (cycle := append_cycle_history _ _ _) in Hw5.
  assert (Hn' : positive_int (pget "cycle_number" cycle) = mret (Some n)).
  { unfold cycle, append_cycle_history, pget, dupdate. cbn [fold_left fst snd].
    rewrite dget_dset_ne, !dget_dset by done. by apply positive_int_PInt. }
  destruct (_ <=? _); [eapply guard_parks; [exact Hw5|exact Hn']|].
  eapply returns_step; [by rewrite Hdelay|]. eapply returns_step; [by rewrite Hlate|].
  destruct late; [eapply guard_parks; [exact Hw5|exact Hn']|].
  eapply returns_mono.
  { eapply schedule_sleeps; [exact Hw5|exact Hn'|done|done|exact Hdelta|apply Hwake|].
    intros wt. rewrite (proj1 Hw5). apply Hno. }
  intros [] w6 Hw6. by exists (w_clock w5).
Qed.
End Cycle.
