(* ===== verification/ControlPlane.v ===== *)
(** * The execution control plane

    [ExecutionControlPlane] of [app/runtime/control_plane.py]: the lifecycle
    commands of the API (start, pause, resume, cancel, approve, reject), the
    local worker run, and the repair of stale executions.  The control plane
    implements [ResumeService] for the wait service.

    Interfaces: the runtime adapters and the engine's run loop ([Runtimes]), the
    approval delegate ([DecisionProvider]), the Docker manager
    ([ContainerManager]), the preparation of isolated and shadow runtimes
    ([Preparation]) and the contents of the workflow repository ([Workflows]).
    Closing browser sessions (an HTTP call whose failures are dropped) and the
    metrics counters do not touch the store and are not modelled. *)

From S2P Require Export Approvals Classification Engine Workflow.

(** ** Configuration and interfaces *)

Class Config := {
  cfg_worker_id : string;
  cfg_stale_after_seconds : Z;
  cfg_execution_isolation_enabled : bool;
  cfg_runtime_revision_shadow_mode : bool;
  cfg_cancel_outdated_executions : bool;
  (* How many polls of [_wait_for_approval_worker_release] fit before its deadline. *)
  cfg_release_polls : nat
}.

(** [RuntimeContainerState] *)
Record ContainerState := mkContainer {
  cs_container_id : string;
  cs_name : string;
  cs_image : string;
  cs_status : string;
  cs_labels : dict pyval;
  cs_started_at : option Z;
  cs_finished_at : option Z;
  cs_exit_code : option Z
}.

(** The Docker manager, when the control plane has one. *)
Class ContainerManager := {
  container_manager_configured : bool;
  inspect_container : string -> M ContainerState;
  stop_container : string -> M ContainerState;
  remove_container : string -> bool -> M unit
}.

Class ContainerManagerLaws `{Env} `{ContainerManager} : Prop := {
  inspect_ledger : forall c, evolves ledger (inspect_container c);
  stop_ledger : forall c, evolves ledger (stop_container c);
  remove_ledger : forall c f, evolves ledger (remove_container c f)
}.
#[export] Hint Resolve inspect_ledger stop_ledger remove_ledger : evolve.

(** [_prepare_isolated_runtime] and [_prepare_shadow_runtime]. *)
Class Preparation := {
  prepare_isolated_runtime : string -> M (option string);
  prepare_shadow_runtime : string -> M string
}.

Class PreparationLaws `{Env} `{Preparation} : Prop := {
  isolated_ledger : forall i, evolves ledger (prepare_isolated_runtime i);
  shadow_ledger : forall i, evolves ledger (prepare_shadow_runtime i)
}.
#[export] Hint Resolve isolated_ledger shadow_ledger : evolve.

Definition TERMINAL_EXECUTION_STATUS_VALUES : list string := ["completed"; "failed"; "cancelled"].
Definition LIVE_CONTAINER_STATUSES : list string := ["created"; "running"; "restarting"; "paused"].
Definition EXITED_CONTAINER_STATUSES : list string := ["exited"; "dead"].

(** [container_payload] of [app/runtime/lifecycle.py] *)
Definition container_payload (c : ContainerState) (runtime_revision_id reason : option string)
    (extra : dict pyval) : dict pyval :=
  dupdate
    ([("container_id", PStr (cs_container_id c)); ("container_name", PStr (cs_name c));
      ("image", PStr (cs_image c)); ("status", PStr (cs_status c)); ("labels", PDict (cs_labels c));
      ("exit_code", opt_int (cs_exit_code c))]
     ++ match runtime_revision_id with Some r => [("runtime_revision_id", PStr r)] | None => [] end
     ++ match reason with Some r => [("reason", PStr r)] | None => [] end)
    extra.

(** The key of [extra] entries that are present only when there is a value. *)
Definition entry_if (key : string) (o : option pyval) : dict pyval :=
  match o with Some v => [(key, v)] | None => [] end.

Section Lifecycle.
Context `{Env} `{Config} `{Runtimes} `{DecisionProvider} `{Preparation}.

Definition find_or_raise (i : string) : M Execution :=
  found ← get_execution i;
  match found with
  | None => raise ExecutionNotFoundError ("Execution '" +:+ i +:+ "' was not found")
  | Some e => mret e
  end.

(** [_reject_unresolved_wait] *)
Definition reject_unresolved_wait (i : string) : M unit :=
  pending ← list_execution_waits i (Some WAIT_PENDING);
  match pending with
  | [] => mret tt
  | wt :: _ =>
      raise ValueError
        ("Execution '" +:+ i +:+ "' has unresolved " +:+ wait_kind_value (wt_kind wt) +:+ " wait '"
         +:+ wt_id wt +:+ "'. Resolve the wait before starting or resuming the execution.")
  end.

(** [queue_start]; a task that has not finished is not started twice. *)
Definition queue_start (i : string) : M string :=
  e ← find_or_raise i;
  reject_terminal_execution_replay e;;
  reject_unresolved_wait i;;
  assign i (set_ex_status QUEUED);;
  update_execution i;;
  scheduled ← gets (fun w => dget i (w_tasks w));
  when (negb (opt_some scheduled) || default false scheduled)
    (modify (fun w => set_w_tasks (dset i false (w_tasks w)) w));;
  mret i.

(** [_execution_host_for] *)
Definition execution_host_for (e : Execution) : string :=
  if cfg_execution_isolation_enabled then EXECUTION_HOST_DOCKER
  else
    match pget "execution_host" (ex_metadata e) with
    | PStr s =>
        let normalized := py_lower (py_strip s) in
        if mem_str normalized [EXECUTION_HOST_LOCAL; EXECUTION_HOST_DOCKER] then normalized
        else EXECUTION_HOST_LOCAL
    | _ => EXECUTION_HOST_LOCAL
    end.

(** [_run_execution]: the task that [queue_start] schedules. *)
Definition run_execution (i : string) : M unit :=
  acquired ← acquire_lock i cfg_worker_id cfg_stale_after_seconds;
  if negb acquired then modify (fun w => set_w_tasks (dset i true (w_tasks w)) w)
  else
    try_finally
      (found ← get_execution i;
       match found with
       | None => mret tt
       | Some e =>
           if String.eqb (execution_host_for e) EXECUTION_HOST_DOCKER then
             prepare_isolated_runtime i;; mret tt
           else
             when cfg_runtime_revision_shadow_mode (prepare_shadow_runtime i;; mret tt);;
             assign i (set_ex_status RUNNING);;
             assign i (set_ex_worker_id (Some cfg_worker_id));;
             now ← utc_now;
             assign i (set_ex_last_heartbeat_at (Some now));;
             update_execution i;;
             registry_start i;;
             mret tt
       end)
      (release_lock i cfg_worker_id;;
       modify (fun w => set_w_tasks (dpop i (w_tasks w)) w)).

(** The loop of [_close_pending_waits]. *)
Fixpoint close_waits (reason : string) (kinds : option (list ExecutionWaitKind))
    (pending : list ExecutionWait) : M (list ExecutionWait) :=
  match pending with
  | [] => mret []
  | wt :: rest =>
      if match kinds with Some ks => negb (bool_decide (wt_kind wt ∈ ks)) | None => false end
      then close_waits reason kinds rest
      else
        '(resolved, claimed) ← resolve_execution_wait (wt_id wt) WAIT_CANCELLED
          (str_take 255 (reason +:+ ":" +:+ wt_id wt)) [("reason", PStr reason)]
          (Some "execution_control_plane");
        closed ← close_waits reason kinds rest;
        mret (match resolved with
              | Some r => if (claimed : bool) then r :: closed else closed
              | None => closed
              end)
  end.

(** [_close_pending_waits] *)
Definition close_pending_waits (i reason : string) (kinds : option (list ExecutionWaitKind))
    (set_paused : bool) : M unit :=
  pending ← list_execution_waits i (Some WAIT_PENDING);
  closed ← close_waits reason kinds pending;
  match last closed with
  | None => mret tt
  | Some latest =>
      e ← deref i;
      active_closed ←
        match pget "active_wait" (ex_metadata e) with
        | PDict active =>
            match pget "wait_id" active with
            | PStr k => mret (mem_str k (map wt_id closed))
            | PList _ | PDict _ => raise TypeError "unhashable type"
            | _ => mret false
            end
        | _ => mret false
        end;
      let metadata := if (active_closed : bool) then dpop "active_wait" (ex_metadata e) else ex_metadata e in
      assign i (set_ex_metadata (dset "last_resolved_wait" (last_resolved_wait_entry latest) metadata));;
      when set_paused (assign i (set_ex_status PAUSED));;
      update_execution i
  end.

(** [pause] *)
Definition pause (i : string) : M string :=
  e ← find_or_raise i;
  when (bool_decide (ex_status e = SLEEPING))
    (close_pending_waits i "operator_pause" (Some [SLEEP]) true);;
  registry_pause i.

(** [resume] *)
Definition resume (i : string) : M string :=
  e ← find_or_raise i;
  reject_terminal_execution_replay e;;
  reject_unresolved_wait i;;
  j ← registry_resume i;
  resumed ← deref j;
  when (bool_decide (ex_status resumed ∈ [RUNNING; QUEUED])) (queue_start i;; mret tt);;
  mret j.

(** [_partial_result_preservation_snapshot] *)
Definition partial_result_preservation_snapshot (i reason : string) : M (option pyval) :=
  e ← deref i;
  artifacts ← list_artifacts i;
  let node_outputs :=
    match ex_output_payload e with
    | Some output => dict_or_empty (pget "node_outputs" output)
    | None => []
    end in
  let has_output := opt_some (ex_output_payload e) in
  if negb has_output && (List.length artifacts =? 0)%nat then mret None
  else
    now ← utc_now;
    let strings l := PList (map PStr (py_sorted string_leb l)) in
    mret (Some (PDict
      [("recorded_at", PStr (isoformat now)); ("reason", PStr reason); ("execution_id", PStr (ex_id e));
       ("workflow_id", PStr (ex_workflow_id e)); ("goal_id", opt_str (ex_goal_id e));
       ("output_payload_present", PBool has_output);
       ("output_payload_keys", strings (dkeys (default [] (ex_output_payload e))));
       ("node_output_ids", strings (dkeys node_outputs));
       ("artifact_count", PInt (Z.of_nat (List.length artifacts)));
       ("artifacts", PList (map (fun a => PDict
          [("artifact_id", PStr (af_id a)); ("event_id", opt_str (af_event_id a));
           ("name", PStr (af_name a)); ("artifact_type", PStr (af_artifact_type a));
           ("uri", opt_str (af_uri a)); ("media_type", opt_str (af_media_type a));
           ("size_bytes", opt_int (af_size_bytes a))]) artifacts))])).

Definition preserve (i : string) (preservation : option pyval) : M unit :=
  match preservation with
  | None => mret tt
  | Some snapshot =>
      assign i (fun e => set_ex_metadata
        (dset "partial_result_preservation" snapshot (ex_metadata e)) e)
  end.

(** [cancel] *)
Definition cancel (i : string) : M string :=
  e ← find_or_raise i;
  if is_terminal e || bool_decide (ex_status e = CANCELLING) then mret i
  else
    close_pending_waits i "operator_cancel" None false;;
    preservation ← partial_result_preservation_snapshot i "cancel_requested";
    preserve i preservation;;
    assign i (set_ex_status CANCELLING);;
    update_execution i;;
    j ← registry_cancel i;
    when (opt_some preservation) (preserve j preservation;; update_execution j);;
    mret j.

(** [_wait_for_approval_worker_release]: polls until the worker let go. *)
Fixpoint wait_for_approval_worker_release (polls : nat) (i : string) : M unit :=
  match polls with
  | O => mret tt
  | S polls' =>
      found ← get_execution i;
      match found with
      | None => mret tt
      | Some e =>
          if negb (opt_some (ex_worker_id e)) then mret tt
          else
            match ex_last_heartbeat_at e with
            | None => mret tt
            | Some t =>
                now ← utc_now;
                if heartbeat_stale now cfg_stale_after_seconds (Some t) then mret tt
                else wait_for_approval_worker_release polls' i
            end
      end
  end.

(** [_wake_after_approval_decision]; awaiting the owner task runs it. *)
Definition wake_after_approval_decision (i : string) : M unit :=
  found ← get_execution i;
  match found with
  | None => mret tt
  | Some e =>
      let active_id := match pget "active_wait" (ex_metadata e) with
                       | PDict active => pget "wait_id" active
                       | _ => PNone
                       end in
      match active_id with
      | PStr wait_id =>
          stored ← get_execution_wait wait_id;
          match stored with
          | None => mret tt
          | Some wt =>
              if negb (bool_decide (wt_kind wt = APPROVAL)) || wait_is_pending wt then mret tt
              else
                owner ← gets (fun w => dget i (w_tasks w));
                when (match owner with Some false => true | _ => false end) (run_execution i);;
                again ← get_execution i;
                match again with
                | None => mret tt
                | Some e' =>
                    if negb (active_wait_is wait_id (ex_metadata e')) then mret tt
                    else
                      apply_resolution i wt;;
                      emit_wait_event i (ex_workflow_id e') EXECUTION_WOKEN
                        [("wait_id", PStr (wt_id wt)); ("kind", PStr (wait_kind_value (wt_kind wt)));
                         ("status", PStr (wait_status_value (wt_status wt)));
                         ("resolution_key", opt_str (wt_resolution_key wt));
                         ("resume_requested", PBool true)];;
                      wait_for_approval_worker_release cfg_release_polls i;;
                      resume i;;
                      mret tt
                end
          end
      | _ => mret tt
      end
  end.

(** [approve], [reject], [heartbeat] of the control plane *)
Definition cp_approve (i tool_id : string) (reason : option string) : M bool :=
  approved ← approve i tool_id reason;
  when approved (wake_after_approval_decision i);;
  mret approved.

Definition cp_reject (i tool_id : string) (reason : option string) : M bool :=
  rejected ← reject i tool_id reason;
  when rejected (wake_after_approval_decision i);;
  mret rejected.

Definition cp_heartbeat (i : string) : M (option string) := heartbeat i cfg_worker_id.
End Lifecycle.

(** ** The lifecycle commands satisfy the ledger contract *)

Section LifecycleLedger.
Context `{Env} `{Config} `{Runtimes} `{DecisionProvider} `{Preparation}.
Context `{!RuntimesLaws} `{!DecisionProviderLaws} `{!PreparationLaws}.

Lemma ledger_update_execution i : evolves ledger (update_execution i).
Proof. apply ledger_repo_save_execution. Qed.

Lemma ledger_find_or_raise i : evolves ledger (find_or_raise i).
Proof. unfold find_or_raise, get_execution. evolve. Qed.

Lemma ledger_reject_unresolved_wait i : evolves ledger (reject_unresolved_wait i).
Proof. unfold reject_unresolved_wait, list_execution_waits. evolve. Qed.

Lemma ledger_reject_terminal e : evolves ledger (reject_terminal_execution_replay e).
Proof. unfold reject_terminal_execution_replay. evolve. Qed.

Hint Resolve ledger_update_execution ledger_find_or_raise ledger_reject_unresolved_wait
  ledger_reject_terminal : evolve.

Lemma ledger_queue_start i : evolves ledger (queue_start i).
Proof. unfold queue_start. evolve. Qed.

Lemma ledger_run_execution i : evolves ledger (run_execution i).
Proof. unfold run_execution, get_execution. evolve. Qed.

Lemma ledger_close_waits r ks l : evolves ledger (close_waits r ks l).
Proof. induction l as [|wt l IH]; simpl; evolve. Qed.

Hint Resolve ledger_queue_start ledger_run_execution ledger_close_waits : evolve.

Lemma ledger_close_pending_waits i r ks b : evolves ledger (close_pending_waits i r ks b).
Proof. unfold close_pending_waits, list_execution_waits. evolve. Qed.

Hint Resolve ledger_close_pending_waits : evolve.

Lemma ledger_pause i : evolves ledger (pause i).
Proof. unfold pause. evolve. Qed.

Lemma ledger_resume i : evolves ledger (resume i).
Proof. unfold resume. evolve. Qed.

Lemma ledger_snapshot i r : evolves ledger (partial_result_preservation_snapshot i r).
Proof. unfold partial_result_preservation_snapshot, list_artifacts. evolve. Qed.

Lemma ledger_preserve i p : evolves ledger (preserve i p).
Proof. unfold preserve. evolve. Qed.

Hint Resolve ledger_pause ledger_resume ledger_snapshot ledger_preserve : evolve.

Lemma ledger_cancel i : evolves ledger (cancel i).
Proof. unfold cancel. evolve. Qed.

Lemma ledger_wait_for_release n i : evolves ledger (wait_for_approval_worker_release n i).
Proof. induction n as [|n IH]; simpl; unfold get_execution; evolve. Qed.

Lemma ledger_apply_resolution' i wt : evolves ledger (apply_resolution i wt).
Proof. apply ledger_apply_resolution. Qed.

Hint Resolve ledger_cancel ledger_wait_for_release ledger_apply_resolution' : evolve.

Lemma ledger_wake_after_approval_decision i : evolves ledger (wake_after_approval_decision i).
Proof. unfold wake_after_approval_decision, get_execution, get_execution_wait. evolve. Qed.

Hint Resolve ledger_wake_after_approval_decision : evolve.

Lemma ledger_cp_approve i t r : evolves ledger (cp_approve i t r).
Proof. unfold cp_approve, approve. evolve. Qed.

Lemma ledger_cp_reject i t r : evolves ledger (cp_reject i t r).
Proof. unfold cp_reject, reject. evolve. Qed.
End LifecycleLedger.

(** The control plane is the resume service of the wait service. *)
#[export] Instance control_plane_resume `{Env} `{Runtimes} : ResumeService := resume.

#[export] Instance control_plane_resume_laws `{Env} `{Runtimes} `{!RuntimesLaws} : ResumeServiceLaws.
Proof. intros i. apply ledger_resume. Qed.

(** ** What the lifecycle commands guarantee *)

Section LifecycleFacts.
Context `{Env} `{Config} `{Runtimes} `{DecisionProvider} `{Preparation}.

Lemma find_or_raise_found i e w : dget i (w_executions w) = Some e -> find_or_raise i w = (Ok e, w).
Proof. intros He. unfold find_or_raise. rewrite bind_unfold. cbn [get_execution gets]. by rewrite He. Qed.

Lemma reject_terminal_raises e w :
  is_terminal e = true ->
  exists msg, reject_terminal_execution_replay e w = (Raise (mkExn ValueError msg), w).
Proof. intros Ht. unfold reject_terminal_execution_replay. rewrite Ht. by eexists. Qed.

(** Queueing stamps one execution as queued and touches no other table but that of
    the tasks. *)
Lemma queue_start_runs i r w w' :
  queue_start i w = (Ok r, w') ->
  r = i /\ exists e t, dget i (w_executions w) = Some e
    /\ dget i (w_executions w') = Some (set_ex_updated_at t (set_ex_status QUEUED e))
    /\ (forall j, j <> i -> dget j (w_executions w') = dget j (w_executions w))
    /\ w_goals w' = w_goals w /\ w_states w' = w_states w /\ w_waits w' = w_waits w /\ w_events w' = w_events w.
Proof.
  unfold queue_start, find_or_raise, get_execution. intros (e & w1 & He & Hr)%bind_inv.
  apply bind_inv in He as (found & w0 & Hf & He). injection Hf as <- <-.
  destruct (dget i (w_executions w)) as [e0|] eqn:Hget; [|done]. injection He as <- <-.
  apply bind_inv in Hr as (u1 & w1 & Hrej & Hr). unfold reject_terminal_execution_replay in Hrej.
  destruct (is_terminal e0); [done|]. injection Hrej as _ <-.
  apply bind_inv in Hr as (u2 & w2 & Hun & Hr).
  assert (w2 = w) as ->.
  { unfold reject_unresolved_wait, list_execution_waits in Hun. rewrite bind_unfold in Hun. cbn [gets] in Hun.
    destruct (py_sorted _ _); [by injection Hun as _ <-|done]. }
  apply bind_inv in Hr as (u3 & w3 & Ha & Hr). injection Ha as _ <-.
  apply bind_inv in Hr as (u4 & w4 & (now & w5 & Hn & Hup)%bind_inv & Hr). injection Hn as <- <-.
  injection Hup as _ <-. apply bind_inv in Hr as (scheduled & w6 & Hsch & Hr). injection Hsch as <- <-.
  apply bind_inv in Hr as (u5 & w7 & Hw & Hr). injection Hr as <- <-. split; [done|].
  unfold when in Hw. destruct (_ || _); injection Hw as _ <-; (eexists e0, _; split; [done|]; split;
    [cbn; rewrite !dget_dalter, String.eqb_refl, Hget; reflexivity|split; [|done]]);
    intros j Hj%String.eqb_neq; cbn; by rewrite !dget_dalter, Hj.
Qed.

(** A terminal execution is never replayed in place: starting or resuming it
    is an error and changes nothing. *)
Lemma terminal_refused i e w :
  dget i (w_executions w) = Some e -> ex_status e ∈ TERMINAL_STATUSES ->
  (exists msg, queue_start i w = (Raise (mkExn ValueError msg), w))
  /\ (exists msg, resume i w = (Raise (mkExn ValueError msg), w)).
Proof.
  intros He Ht. assert (Hterm : is_terminal e = true) by by apply bool_decide_eq_true_2.
  destruct (reject_terminal_raises e w Hterm) as [msg Hmsg].
  split; exists msg; [unfold queue_start|unfold resume];
    by rewrite bind_unfold, (find_or_raise_found i e), bind_unfold, Hmsg.
Qed.

(** While a wait of the execution is unresolved, the generic start and
    resume commands are refused and change nothing: only resolving the wait
    continues the execution. *)
Lemma unresolved_wait_refused i e wt w :
  dget i (w_executions w) = Some e -> is_terminal e = false ->
  In wt (dvalues (w_waits w)) -> wt_execution_id wt = i -> wait_is_pending wt = true ->
  (exists msg, queue_start i w = (Raise (mkExn ValueError msg), w))
  /\ (exists msg, resume i w = (Raise (mkExn ValueError msg), w)).
Proof.
  intros He Ht Hin Hi Hp.
  assert (Hrej : exists msg, reject_unresolved_wait i w = (Raise (mkExn ValueError msg), w)).
  { unfold reject_unresolved_wait, list_execution_waits. rewrite bind_unfold. cbn [gets].
    destruct (py_sorted _ _) as [|x l] eqn:Hs; [|by eexists]. exfalso.
    apply py_sorted_nil in Hs.
    enough (Hf : In wt []) by done. rewrite <-Hs. apply filter_In. split; [done|].
    unfold wait_is_pending in Hp. by rewrite Hi, String.eqb_refl, Hp. }
  destruct Hrej as [msg Hmsg].
  split; exists msg; [unfold queue_start|unfold resume];
    rewrite bind_unfold, (find_or_raise_found i e) by done; rewrite bind_unfold;
    unfold reject_terminal_execution_replay; rewrite Ht; cbn [mret M_ret];
    by rewrite bind_unfold, Hmsg.
Qed.

(** C19. Only an execution that can go on is started or resumed: when it is
    terminal, or a wait of it is unresolved, both commands are errors and change
    nothing; a terminal execution is never replayed in place, and only resolving
    the wait continues a waiting one. *)
Theorem start_and_resume_refused i e w :
  dget i (w_executions w) = Some e ->
  ex_status e ∈ TERMINAL_STATUSES
  \/ (exists wt, In wt (dvalues (w_waits w)) /\ wt_execution_id wt = i /\ wait_is_pending wt = true) ->
  (exists msg, queue_start i w = (Raise (mkExn ValueError msg), w))
  /\ (exists msg, resume i w = (Raise (mkExn ValueError msg), w)).
Proof.
  intros He Hwhy. destruct (is_terminal e) eqn:Ht.
  - apply (terminal_refused i e); [done|]. by apply bool_decide_eq_true_1 in Ht.
  - destruct Hwhy as [Hst|(wt & Hin & Hi & Hp)]; [|by apply (unresolved_wait_refused i e wt)].
    unfold is_terminal in Ht. by rewrite bool_decide_eq_true_2 in Ht.
Qed.

(** Execution isolation is a boundary of the operator: when it is enabled no
    execution metadata can select the local host, and running a task never
    enters the local engine (the result is the same for every local engine). *)
Theorem isolation_not_downgraded :
  cfg_execution_isolation_enabled = true ->
  (forall e, execution_host_for e = EXECUTION_HOST_DOCKER)
  /\ (forall (other : Runtimes) i w,
        run_execution i w = @run_execution _ _ other _ i w).
Proof.
  intros Hiso. assert (Hdocker : forall e, execution_host_for e = EXECUTION_HOST_DOCKER).
  { intros e. unfold execution_host_for. by rewrite Hiso. }
  split; [done|]. intros other i w. unfold run_execution.
  rewrite !(bind_unfold (acquire_lock _ _ _)).
  destruct (acquire_lock _ _ _ w) as [[[|]|exc] w1]; [|done..].
  cbn [negb]. unfold try_finally. rewrite !bind_unfold. cbn [get_execution gets].
  destruct (dget i (w_executions w1)) as [e|]; [|done].
  by rewrite Hdocker, String.eqb_refl.
Qed.

(** Without isolation the host is the requested one if it is a known host, and
    local otherwise. *)
Lemma execution_host_default e :
  cfg_execution_isolation_enabled = false ->
  execution_host_for e = EXECUTION_HOST_LOCAL \/ execution_host_for e = EXECUTION_HOST_DOCKER.
Proof.
  intros Hiso. unfold execution_host_for. rewrite Hiso.
  destruct (pget _ _); auto. cbv zeta. destruct (mem_str _ _) eqn:Hm; auto.
  apply mem_str_In in Hm. simpl in Hm. destruct Hm as [<-|[<-|[]]]; auto.
Qed.
End LifecycleFacts.
