(* ===== verification/Concurrency.v ===== *)
(** * The concurrency limit of a schedule

    [max_concurrent_executions] bounds the active executions of a schedule when
    its fires are queued by the control plane: a fire at the limit is refused and
    creates nothing, and a fire below it adds one. *)

From S2P Require Export ControlPlane CreationFacts.

Section Concurrency.
Context `{Env} `{Config} `{Runtimes} `{Conversions} `{Zones} `{Workflows} `{CreationContext} `{SchedulerContext}.

(** The execution is active and was created for the schedule. *)
Definition names_schedule (schedule_id : string) (metadata : dict pyval) : bool :=
  eq_str (pget "schedule_id" (dict_or_empty (pget "trigger" metadata))) schedule_id
  || eq_str (pget "schedule_id" metadata) schedule_id.

Definition active_for (schedule_id : string) (e : Execution) : bool :=
  mem_str (status_value (ex_status e)) ACTIVE_STATUS_VALUES && names_schedule schedule_id (ex_metadata e).

(** How many executions of the schedule are active. *)
Definition schedule_load (schedule_id : string) (w : world) : nat :=
  count_values (active_for schedule_id) (w_executions w).

(** Every trigger in the store is a dictionary, as the registry writes it. *)
Definition triggers_are_dicts (w : world) : Prop :=
  forall e, In e (dvalues (w_executions w)) ->
    match dget "trigger" (ex_metadata e) with None | Some (PDict _) => True | _ => False end.

Lemma belongs_runs sid e w :
  match dget "trigger" (ex_metadata e) with None | Some (PDict _) => True | _ => False end ->
  belongs_to_schedule sid (ex_metadata e) w = (Ok (names_schedule sid (ex_metadata e)), w).
Proof.
  unfold belongs_to_schedule, names_schedule, pget. destruct (dget "trigger" _) as [[]|]; intros Ht;
    try destruct Ht; reflexivity.
Qed.

(** Collecting the active executions of the schedule. *)
Lemma collect_matching sid w (l : list (string * Execution)) :
  (forall kv, In kv l -> dget kv.1 (w_executions w) = Some kv.2) -> triggers_are_dicts w ->
  collect (fun i => e ← deref i; b ← belongs_to_schedule sid (ex_metadata e);
                    mret (if (b : bool) then [i] else [])) (map fst l) w =
    (Ok (dkeys (List.filter (fun kv => names_schedule sid (ex_metadata kv.2)) l)), w).
Proof.
  intros Hl Hok. induction l as [|[k e] l IH]; [done|]. cbn [map fst collect].
  assert (He : dget k (w_executions w) = Some e) by (apply (Hl (k, e)); by left).
  assert (Hstep : (e ← deref k; b ← belongs_to_schedule sid (ex_metadata e);
      mret (if (b : bool) then [k] else [])) w = (Ok (if names_schedule sid (ex_metadata e) then [k] else []), w)).
  { rewrite bind_unfold. unfold deref. rewrite He. rewrite bind_unfold, belongs_runs; [done|].
    apply Hok. by apply dget_values in He. }
  rewrite (bind_Ok _ _ _ _ _ Hstep), (bind_Ok _ _ _ _ _ (IH (fun kv Hin => Hl kv (or_intror Hin)))).
  cbn [List.filter snd]. by destruct (names_schedule sid (ex_metadata e)).
Qed.

Lemma filter_twice {A} (p q : A -> bool) l : List.filter q (List.filter p l) = List.filter (fun x => p x && q x) l.
Proof. induction l as [|x l IH]; simpl; [done|]. destruct (p x); simpl; [destruct (q x)|]; by rewrite ?IH. Qed.

Lemma assert_concurrency_runs s w :
  NoDup (dkeys (w_executions w)) -> triggers_are_dicts w ->
  exists msg, assert_concurrency s w =
    (if sd_max_concurrent_executions s <=? Z.of_nat (schedule_load (sd_id s) w)
     then Raise (mkExn ScheduleConcurrencyError msg) else Ok tt, w).
Proof.
  intros Hnd Hok. unfold assert_concurrency, list_active_executions, list_executions.
  rewrite bind_unfold. cbn [gets]. set (l := List.filter _ (w_executions w)).
  assert (Hl : forall kv, In kv l -> dget kv.1 (w_executions w) = Some kv.2).
  { intros [k e] [Hin _]%filter_In. by apply In_dget. }
  rewrite (bind_Ok _ _ _ _ _ (collect_matching (sd_id s) w l Hl Hok)).
  replace (List.length _) with (schedule_load (sd_id s) w).
  - eexists. destruct (_ <=? _); reflexivity.
  - unfold schedule_load. rewrite <-counted_length. unfold counted, l. rewrite filter_twice. do 2 f_equal.
    apply filter_ext. intros [k e]. unfold active_for. cbn. by rewrite andb_true_r.
Qed.

(** ** The keys of the store stay distinct *)

Definition distinct_keys (w : world) : Prop := NoDup (dkeys (w_executions w)).

Hint Extern 3 (evolves (keeps distinct_keys) (modify _)) =>
  let w := fresh in let Hd := fresh in
  intros w Hd; first [exact Hd|unfold distinct_keys; cbn; apply dset_NoDup; exact Hd] : evolve.
Lemma distinct_utc_now : evolves (keeps distinct_keys) utc_now.
Proof. intros w Hd. exact Hd. Qed.
Lemma distinct_uuid4 : evolves (keeps distinct_keys) uuid4.
Proof. intros w Hd. exact Hd. Qed.
Lemma distinct_assign i f : evolves (keeps distinct_keys) (assign i f).
Proof.
  intros w Hd. unfold distinct_keys. cbn. apply dalter_NoDup. exact Hd.
Qed.
Hint Resolve distinct_utc_now distinct_uuid4 distinct_assign : evolve.

Lemma distinct_prepare e : evolves (keeps distinct_keys) (prepare_execution e).
Proof.
  unfold prepare_execution, new_state, put_state, save_execution, create_execution, get_execution, engine_event,
    emit_at, state_of, put_state, emit, save_event, append_event, get_execution, repo_save_execution.
  evolve.
Qed.

Lemma distinct_crewai_prepare e : evolves (keeps distinct_keys) (crewai_prepare_execution e).
Proof.
  unfold crewai_prepare_execution, new_state, put_crewai_state, save_execution, create_execution, get_execution,
    emit_simple, emit, save_event, append_event, get_execution, repo_save_execution.
  evolve.
Qed.

Lemma distinct_queue_start i : evolves (keeps distinct_keys) (queue_start i).
Proof.
  unfold queue_start, find_or_raise, get_execution, reject_terminal_execution_replay, reject_unresolved_wait,
    list_execution_waits, update_execution, repo_save_execution. evolve.
Qed.

(** ** A fire adds one active execution *)

(** Queueing changes the status of one execution. *)
Lemma queue_start_effect i r w w' :
  queue_start i w = (Ok r, w') ->
  exists e e', dget i (w_executions w) = Some e /\ dget i (w_executions w') = Some e'
    /\ ex_status e' = QUEUED /\ ex_metadata e' = ex_metadata e
    /\ forall j, j <> i -> dget j (w_executions w') = dget j (w_executions w).
Proof.
  intros (_ & e & t & He & He' & Ho & _)%queue_start_runs. by exists e, (set_ex_updated_at t (set_ex_status QUEUED e)).
Qed.

Lemma link_keeps_executions g e r w w' :
  link_execution_to_goal g e w = (Ok r, w') -> w_executions w' = w_executions w.
Proof.
  intros Hl. assert (Hframe : evolves (fun w1 w2 => w_executions w2 = w_executions w1)
    (link_execution_to_goal g e)).
  { assert (HP : PreOrder (fun w1 w2 : world => w_executions w2 = w_executions w1)).
    { split; [done|]. intros w1 w2 w3. congruence. }
    unfold link_execution_to_goal.
    assert (Hsave : forall g, evolves (fun w1 w2 => w_executions w2 = w_executions w1) (catalog_save goal_model g)).
    { apply evolves_catalog_save; [exact _|done| |done]. by apply evolves_goal_validate. }
    assert (Hnow : evolves (fun w1 w2 => w_executions w2 = w_executions w1) utc_now) by done.
    evolve. }
  specialize (Hframe w). unfold world_after in Hframe. by rewrite Hl in Hframe.
Qed.

Lemma distinct_fire_frame : execution_starter = Some queue_start -> fire_frame (keeps distinct_keys).
Proof.
  intros Hst.
  split; [apply distinct_utc_now|apply distinct_uuid4| |apply distinct_prepare|apply distinct_crewai_prepare|].
  - intros d w Hd. exact Hd.
  - intros f i. rewrite Hst. intros [= <-]. apply distinct_queue_start.
Qed.

(** The fire of an execution, taken apart. *)
Lemma fire_execution_inv s g input trigger i w w' :
  execution_starter = Some queue_start ->
  fire_execution s g input trigger w = (Ok i, w') ->
  exists w0 w1 w2 r, assert_concurrency s w = (Ok tt, w0)
    /\ registry_create_execution (sd_workflow_id s) input trigger (sd_runtime_adapter_override s) (go_id <$> g) w0
       = (Ok i, w1)
    /\ w_executions w2 = w_executions w1 /\ queue_start i w2 = (Ok r, w').
Proof.
  intros Hst. unfold fire_execution. rewrite Hst. intros ([] & w0 & Ha & Hr)%bind_inv.
  apply bind_inv in Hr as (e & w1 & Hc & Hr). apply bind_inv in Hr as (u & w2 & Hg & Hr).
  apply bind_inv in Hr as (u2 & w3 & Hq & Hr). injection Hr as <- <-.
  apply bind_inv in Hq as (r & w4 & Hq & Hq2). injection Hq2 as _ <-.
  exists w0, w1, w2, r. split; [done|]. split; [done|]. split; [|done].
  destruct g as [g|]; [|by injection Hg as _ <-].
  apply bind_inv in Hg as (g' & w5 & Hl & Hg). injection Hg as _ <-. by eapply link_keeps_executions.
Qed.

Lemma created_counts s e e' :
  dget "trigger" (ex_metadata e) = Some (PDict e') -> dget "schedule_id" e' = Some (PStr (sd_id s)) ->
  names_schedule (sd_id s) (ex_metadata e) = true.
Proof.
  intros Ht Hs. unfold names_schedule, pget. rewrite Ht. change (dict_or_empty _) with e'. rewrite Hs.
  cbn. by rewrite String.eqb_refl.
Qed.

(** C13. A fire respects the concurrency limit of its schedule.  When the schedule
    has as many active executions as it allows, or more, the fire is refused
    before anything is drawn or stored; a fire that returns, for whichever adapter
    the schedule names, was below the limit, and its execution is exactly one
    more.  This is for the control plane's own starter, a trigger that names the
    schedule, as every fire builds it, stored triggers that are dictionaries, and a
    drawn id that no execution and no engine state has.  (Executions that come from elsewhere, such as retries, and a limit that
    is lowered later are not the fire's concern: the count may stand above the
    limit, and then every fire is refused.) *)
Theorem concurrency_limit_enforced s g input trigger w :
  distinct_keys w -> triggers_are_dicts w ->
  execution_starter = Some queue_start ->
  dget "schedule_id" trigger = Some (PStr (sd_id s)) ->
  dget (env_uuid (w_uuids w)) (w_executions w) = None -> unused (env_uuid (w_uuids w)) w ->
  let load w := Z.of_nat (schedule_load (sd_id s) w) in
  (sd_max_concurrent_executions s <= load w ->
     exists msg, fire_execution s g input trigger w = (Raise (mkExn ScheduleConcurrencyError msg), w))
  /\ forall i w', fire_execution s g input trigger w = (Ok i, w') ->
       load w < sd_max_concurrent_executions s /\ load w' = load w + 1.
Proof.
  intros Hnd Hok Hst Htr Hfe Hfs load.
  destruct (assert_concurrency_runs s w Hnd Hok) as (msg & Hassert). split.
  - intros Hle%Z.leb_le. exists msg. unfold fire_execution. unfold load in Hle. rewrite Hle in Hassert.
    by apply bind_Raise.
  - intros i w' Hfire. pose proof (evolves_fire_execution (keeps distinct_keys)
      (distinct_fire_frame Hst)
      s g input trigger w Hnd) as Hnd'.
    unfold world_after in Hnd'. rewrite Hfire in Hnd'. cbn [snd] in Hnd'.
    apply fire_execution_inv in Hfire as (w0 & w1 & w2 & r & Ha & Hc & He2 & Hq); [|done].
    rewrite Hassert in Ha. destruct (_ <=? _) eqn:Hlt; [done|]. injection Ha as <-.
    apply Z.leb_gt in Hlt. split; [exact Hlt|].
    apply registry_create_spec in Hc as (wf & e & ev & _ & Hi & He & Hcr & Hother & _); [|done].
    apply queue_start_effect in Hq as (e2 & e' & Hg2 & Hg' & Hs' & Hm' & Hj).
    rewrite He2 in *. rewrite He in Hg2. injection Hg2 as <-.
    unfold load. enough (schedule_load (sd_id s) w' = S (schedule_load (sd_id s) w)) by lia.
    apply (count_values_step _ _ _ i); [done|done| | |].
    + rewrite counted_In by done. intros (v & Hv & _). congruence.
    + rewrite counted_In by done. exists e'. split; [done|]. unfold active_for. rewrite Hs'. cbn.
      rewrite Hm'. apply (created_counts s e trigger); [apply Hcr|done].
    + intros k Hk. rewrite !counted_In by done. rewrite (Hj k Hk). specialize (Hother k Hk).
      assert (Hact : forall x y, same_but_activity x y -> active_for (sd_id s) y = active_for (sd_id s) x).
      { intros x y Hsame. unfold active_for, names_schedule, pget.
        rewrite (same_but_activity_field ex_status _ _ Hsame) by done. by rewrite !(proj2 Hsame) by done. }
      inversion Hother as [x y Hsame Hx Hy|Hx Hy]; subst; split; intros (v & Hv & HP); try congruence;
        injection Hv as <-; eexists; (split; [reflexivity|]); by rewrite ?(Hact _ _ Hsame) in *.
Qed.
End Concurrency.
