(* ===== verification/Lifecycle.v ===== *)
(** * What the lifecycle commands do

    The functional behaviour of [pause], [resume], [cancel] and of the worker
    run of [app/runtime/control_plane.py] on executions of the native adapter:
    the status each command leaves, the waits it closes and the task it
    schedules, and three places where a command reaches a status that the code
    around it means to exclude. *)

From S2P Require Export ControlPlane.

(** ** Dispatch and events *)

Section EngineSteps.
Context `{Env} `{Runtimes}.

Lemma dispatch_native {B} (op : RuntimeAdapter -> M B) i e w :
  dget i (w_executions w) = Some e -> ex_runtime_adapter_id e = "native" ->
  (a ← resolve_adapter_for_execution i; op a) w = op native_adapter w.
Proof.
  intros He Hn. unfold resolve_adapter_for_execution, get_adapter.
  rewrite !bind_unfold. cbn [get_execution gets]. by rewrite He, Hn.
Qed.

(** Worlds that agree on everything but the clock, the identifiers, the engine
    states and the event log. *)
Record same_store (w w' : world) : Prop := {
  ss_executions : w_executions w' = w_executions w;
  ss_waits : w_waits w' = w_waits w;
  ss_approvals : w_approvals w' = w_approvals w;
  ss_tasks : w_tasks w' = w_tasks w
}.

Lemma require_execution_and_state_spec i e w :
  dget i (w_executions w) = Some e ->
  exists st w', require_execution_and_state i w = (Ok (e, st), w') /\ same_store w w'.
Proof.
  intros He. unfold require_execution_and_state, new_state, hydrate_state_position, list_events, put_state.
  rewrite bind_unfold. cbn [get_execution gets]. rewrite He. execute.
  destruct (_ || _); cbn; eexists _, _; (split; [reflexivity|]); by split.
Qed.

(** An event on an engine state changes the executions by a stamp only. *)
Lemma emit_on_state_spec i st ty p e w :
  dget i (w_executions w) = Some e ->
  exists w' e', emit_on_state i st ty p w = (Ok tt, w')
    /\ dget i (w_executions w') = Some e' /\ same_but_activity e e'
    /\ w_waits w' = w_waits w /\ w_tasks w' = w_tasks w.
Proof.
  intros He. unfold emit_on_state, put_state, emit_simple.
  pose proof (stamped_emit st ty None p [] [] None None None None None w) as Hst.
  destruct (emit_appends st ty None p [] [] None None None None None w)
    as (ev & st' & w1 & Hrun & _). unfold world_after in Hst. rewrite Hrun in Hst. simpl in Hst.
  rewrite (bind_Ok _ _ _ _ _ Hrun).
  destruct (stamped_execution i e w w1 Hst He) as (e' & He' & Hsame).
  eexists _, e'. split; [reflexivity|]. cbn. split; [done|]. split; [done|].
  split; [apply (sp_waits _ _ Hst)|apply (sp_tasks _ _ Hst)].
Qed.

(** Some assignments to [i] and a save. *)
Lemma assign_spec i f e w :
  dget i (w_executions w) = Some e ->
  exists w', assign i f w = (Ok tt, w') /\ dget i (w_executions w') = Some (f e)
    /\ w_waits w' = w_waits w /\ w_tasks w' = w_tasks w /\ w_states w' = w_states w.
Proof.
  intros He. eexists. split; [reflexivity|]. cbn. by rewrite dget_dalter, String.eqb_refl, He.
Qed.

Lemma update_execution_spec i e w :
  dget i (w_executions w) = Some e ->
  exists w' now, update_execution i w = (Ok tt, w')
    /\ dget i (w_executions w') = Some (set_ex_updated_at now e)
    /\ w_waits w' = w_waits w /\ w_tasks w' = w_tasks w /\ w_states w' = w_states w.
Proof.
  intros He. unfold update_execution, repo_save_execution. execute. eexists _, _.
  split; [reflexivity|]. cbn. by rewrite dget_dalter, String.eqb_refl, He.
Qed.
End EngineSteps.

(** Steps through an assignment, a save or an event on the execution known by
    hypothesis [H]; the new contents are again known by [H]. *)
Ltac step_assign H :=
  rewrite bind_unfold;
  match type of H with
  | dget ?i (w_executions ?w) = Some ?e =>
      match goal with
      | |- context [assign i ?f w] =>
          let w' := fresh "w" in let E := fresh "E" in let H' := fresh "He" in
          let Hw := fresh "Hw" in let Ht := fresh "Ht" in let Hs := fresh "Hs" in
          destruct (assign_spec i f e w H) as (w' & E & H' & Hw & Ht & Hs);
          rewrite E; clear E; clear H; rename H' into H
      | |- context [update_execution i w] =>
          let w' := fresh "w" in let E := fresh "E" in let H' := fresh "He" in let t := fresh "t" in
          let Hw := fresh "Hw" in let Ht := fresh "Ht" in let Hs := fresh "Hs" in
          destruct (update_execution_spec i e w H) as (w' & t & E & H' & Hw & Ht & Hs);
          rewrite E; clear E; clear H; rename H' into H
      end
  end.

Section Commands.
Context `{Env} `{Config} `{Runtimes} `{DecisionProvider} `{Preparation}.

Lemma pause_execution_spec i e w :
  dget i (w_executions w) = Some e ->
  exists w' e', pause_execution i w = (Ok i, w') /\ dget i (w_executions w') = Some e'
    /\ ex_status e' = (if bool_decide (ex_status e ∈ DURABLE_WAIT_EXECUTION_STATUSES)
                       then ex_status e else PAUSED)
    /\ ex_runtime_adapter_id e' = ex_runtime_adapter_id e
    /\ w_waits w' = w_waits w /\ w_tasks w' = w_tasks w.
Proof.
  intros He. unfold pause_execution.
  destruct (require_execution_and_state_spec i e w He) as (st & w1 & E1 & Hw1).
  rewrite bind_unfold, E1. destruct Hw1 as [Hex Hwt _ Htk]. rewrite <-Hex in He. rewrite <-Hwt, <-Htk.
  clear E1 Hex Hwt Htk w. cbv zeta. rewrite bind_unfold. cbn [put_state modify].
  set (w2 := set_w_states _ w1).
  assert (He2 : dget i (w_executions w2) = Some e) by exact He.
  assert (Hw2 : w_waits w2 = w_waits w1) by done. assert (Ht2 : w_tasks w2 = w_tasks w1) by done.
  clearbody w2. rewrite <-Hw2, <-Ht2. clear w1 He Hw2 Ht2.
  set (f := if bool_decide (ex_status e ∈ DURABLE_WAIT_EXECUTION_STATUSES)
            then (fun x => x) else set_ex_status PAUSED).
  assert (Hwhen : exists w3, when (negb (bool_decide (ex_status e ∈ DURABLE_WAIT_EXECUTION_STATUSES)))
      (assign i (set_ex_status PAUSED)) w2 = (Ok tt, w3)
    /\ dget i (w_executions w3) = Some (f e) /\ w_waits w3 = w_waits w2 /\ w_tasks w3 = w_tasks w2).
  { unfold f. destruct (bool_decide _); simpl; [by exists w2|].
    destruct (assign_spec i (set_ex_status PAUSED) e w2 He2) as (w3 & E & H1' & H2' & H3' & _). eauto. }
  destruct Hwhen as (w3 & E3 & He3 & Hw3 & Ht3). rewrite bind_unfold, E3.
  step_assign He3. rewrite bind_unfold.
  match goal with |- context [emit_on_state i ?s ?ty ?p ?w0] =>
    destruct (emit_on_state_spec i s ty p _ w0 He3) as (w4 & e4 & E4 & He4 & Hsame & Hw4 & Ht4) end.
  rewrite E4. eexists _, e4. split; [reflexivity|]. split; [done|].
  split; [|split].
  - rewrite (same_but_activity_field ex_status _ _ Hsame) by done. unfold f. simpl.
    by destruct (bool_decide _).
  - rewrite (same_but_activity_field ex_runtime_adapter_id _ _ Hsame) by done. unfold f. simpl.
    by destruct (bool_decide _).
  - split; congruence.
Qed.

Lemma reject_terminal_passes e w :
  is_terminal e = false -> reject_terminal_execution_replay e w = (Ok tt, w).
Proof. intros Ht. unfold reject_terminal_execution_replay. by rewrite Ht. Qed.

Lemma reject_unresolved_passes i w :
  (forall wt, In wt (dvalues (w_waits w)) -> wt_execution_id wt = i -> wait_is_pending wt = false) ->
  reject_unresolved_wait i w = (Ok tt, w).
Proof.
  intros Hno. unfold reject_unresolved_wait, list_execution_waits. rewrite bind_unfold. cbn [gets].
  replace (py_sorted _ _) with (@nil ExecutionWait); [done|]. symmetry.
  apply py_sorted_nil, filter_false. intros wt Hin.
  destruct (String.eqb_spec (wt_execution_id wt) i) as [Hi|]; [|done].
  by specialize (Hno wt Hin Hi).
Qed.

(** No wait of [i] is pending. *)
Definition unblocked (i : string) (w : world) : Prop :=
  forall wt, In wt (dvalues (w_waits w)) -> wt_execution_id wt = i -> wait_is_pending wt = false.

Lemma queue_start_spec i e w :
  dget i (w_executions w) = Some e -> is_terminal e = false -> unblocked i w ->
  exists w' e', queue_start i w = (Ok i, w') /\ dget i (w_executions w') = Some e'
    /\ ex_status e' = QUEUED /\ w_waits w' = w_waits w
    /\ dget i (w_tasks w') = Some false.
Proof.
  intros He Ht Hu. unfold queue_start.
  rewrite bind_unfold, (find_or_raise_found i e) by done.
  rewrite bind_unfold, reject_terminal_passes by done.
  rewrite bind_unfold, reject_unresolved_passes by done.
  step_assign He. step_assign He.
  rewrite bind_unfold. cbn [gets]. rewrite bind_unfold.
  destruct (dget i (w_tasks w1)) as [[|]|] eqn:Htask; cbn; eexists _, _; (split; [reflexivity|]);
    cbn; (split; [exact He|]); (split; [reflexivity|]); (split; [congruence|]);
    rewrite ?dget_dset_eq; done.
Qed.

Lemma engine_resume_spec i e w :
  dget i (w_executions w) = Some e -> is_terminal e = false ->
  exists w' e', engine_resume_execution i w = (Ok i, w') /\ dget i (w_executions w') = Some e'
    /\ ex_status e' = QUEUED /\ w_waits w' = w_waits w /\ w_tasks w' = w_tasks w.
Proof.
  intros He Hterm. unfold engine_resume_execution.
  destruct (require_execution_and_state_spec i e w He) as (st & w1 & E1 & Hw1).
  rewrite bind_unfold, E1. destruct Hw1 as [Hex Hwt _ Htk]. rewrite <-Hex in He. rewrite <-Hwt, <-Htk.
  clear E1 Hex Hwt Htk w. rewrite bind_unfold, reject_terminal_passes by done. cbv zeta.
  rewrite bind_unfold. cbn [put_state modify].
  set (w2 := set_w_states _ w1).
  assert (He2 : dget i (w_executions w2) = Some e) by exact He.
  assert (Hw2 : w_waits w2 = w_waits w1) by done. assert (Ht2 : w_tasks w2 = w_tasks w1) by done.
  clearbody w2. rewrite <-Hw2, <-Ht2. clear w1 He Hw2 Ht2.
  step_assign He2. step_assign He2. rewrite bind_unfold.
  match goal with |- context [emit_on_state i ?s ?ty ?p ?w0] =>
    destruct (emit_on_state_spec i s ty p _ w0 He2) as (w4 & e4 & E4 & He4 & Hsame & Hw4 & Ht4) end.
  rewrite E4. eexists _, e4. split; [reflexivity|]. split; [done|].
  split; [by rewrite (same_but_activity_field ex_status _ _ Hsame)|]. split; congruence.
Qed.

Lemma resume_spec i e w :
  dget i (w_executions w) = Some e -> ex_runtime_adapter_id e = "native" ->
  is_terminal e = false -> unblocked i w ->
  exists w' e', resume i w = (Ok i, w') /\ dget i (w_executions w') = Some e'
    /\ ex_status e' = QUEUED /\ dget i (w_tasks w') = Some false /\ w_waits w' = w_waits w.
Proof.
  intros He Hn Ht Hu. unfold resume.
  rewrite bind_unfold, (find_or_raise_found i e) by done.
  rewrite bind_unfold, reject_terminal_passes by done.
  rewrite bind_unfold, reject_unresolved_passes by done.
  unfold registry_resume. rewrite bind_unfold, (dispatch_native _ i e) by done.
  destruct (engine_resume_spec i e w He Ht) as (w1 & e1 & E1 & He1 & Hs1 & Hw1 & _).
  cbn [ra_resume native_adapter]. rewrite E1. rewrite bind_unfold. unfold deref. rewrite He1, Hs1.
  assert (Hq : bool_decide (QUEUED ∈ [RUNNING; QUEUED]) = true) by reflexivity.
  rewrite Hq. cbn [when].
  assert (Hterm1 : is_terminal e1 = false) by (unfold is_terminal; by rewrite Hs1).
  assert (Hu1 : unblocked i w1) by (unfold unblocked; by rewrite Hw1).
  destruct (queue_start_spec i e1 w1 He1 Hterm1 Hu1) as (w2 & e2 & E2 & He2 & Hs2 & Hw2 & Ht2).
  rewrite !bind_unfold, E2. eexists _, e2. split; [reflexivity|].
  repeat split; auto. congruence.
Qed.

(** Resuming an execution that is not terminal and not blocked by a wait
    queues it and schedules its task. *)
Lemma resume_queues i e w :
  dget i (w_executions w) = Some e -> ex_runtime_adapter_id e = "native" ->
  is_terminal e = false -> unblocked i w ->
  exists w' e', resume i w = (Ok i, w') /\ dget i (w_executions w') = Some e'
    /\ ex_status e' = QUEUED /\ dget i (w_tasks w') = Some false /\ w_waits w' = w_waits w.
Proof. apply resume_spec. Qed.

(** [pause] has no terminal guard: a completed, failed or cancelled
    execution becomes paused, and resuming it then queues the whole run again,
    although starting or resuming the terminal execution is refused. *)
Theorem pause_reopens_terminal i e w :
  dget i (w_executions w) = Some e -> ex_runtime_adapter_id e = "native" ->
  ex_status e ∈ TERMINAL_STATUSES -> unblocked i w ->
  exists w1 e1 w2 e2, pause i w = (Ok i, w1) /\ dget i (w_executions w1) = Some e1
    /\ ex_status e1 = PAUSED
    /\ resume i w1 = (Ok i, w2) /\ dget i (w_executions w2) = Some e2 /\ ex_status e2 = QUEUED
    /\ dget i (w_tasks w2) = Some false.
Proof.
  intros He Hn Hterm Hu.
  assert (Hsleep : bool_decide (ex_status e = SLEEPING) = false
    /\ bool_decide (ex_status e ∈ DURABLE_WAIT_EXECUTION_STATUSES) = false).
  { unfold TERMINAL_STATUSES in Hterm. destruct (ex_status e); by apply (bool_decide_pack _) in Hterm. }
  destruct Hsleep as [Hsleep Hdur].
  assert (Hp : exists w1 e1, pause i w = (Ok i, w1) /\ dget i (w_executions w1) = Some e1
    /\ ex_status e1 = PAUSED /\ ex_runtime_adapter_id e1 = "native" /\ w_waits w1 = w_waits w).
  { unfold pause. rewrite bind_unfold, (find_or_raise_found i e) by done.
    rewrite bind_unfold, Hsleep. cbn [when mret M_ret].
    unfold registry_pause. rewrite (dispatch_native _ i e) by done.
    destruct (pause_execution_spec i e w He) as (w1 & e1 & E1 & He1 & Hs1 & Ha1 & Hw1 & _).
    cbn [ra_pause native_adapter]. rewrite Hdur in Hs1. exists w1, e1. repeat split; auto. congruence. }
  destruct Hp as (w1 & e1 & E1 & He1 & Hs1 & Ha1 & Hw1).
  assert (Hterm1 : is_terminal e1 = false) by (unfold is_terminal; by rewrite Hs1).
  assert (Hu1 : unblocked i w1) by (unfold unblocked; by rewrite Hw1).
  destruct (resume_spec i e1 w1 He1 Ha1 Hterm1 Hu1) as (w2 & e2 & E2 & He2 & Hs2 & Ht2 & _).
  exists w1, e1, w2, e2. auto 10.
Qed.

(** ** Cancelling *)

(** How closing waits may change the stored waits: a pending wait becomes
    cancelled, every other wait is the same. *)
Definition closes (w w' : world) : Prop := forall k x', dget k (w_waits w') = Some x' ->
  exists x, dget k (w_waits w) = Some x /\ wt_execution_id x' = wt_execution_id x /\ wt_id x' = wt_id x
    /\ (x' = x \/ (wait_is_pending x = true /\ wt_status x' = WAIT_CANCELLED)).

#[export] Instance closes_preorder : PreOrder closes.
Proof.
  split; [intros w k x' Hx; exists x'; auto|].
  intros w1 w2 w3 H12 H23 k x3 Hx3.
  destruct (H23 _ _ Hx3) as (x2 & Hx2 & Hi2 & Hid2 & Hor2).
  destruct (H12 _ _ Hx2) as (x1 & Hx1 & Hi1 & Hid1 & Hor1). exists x1.
  split; [done|]. split; [congruence|]. split; [congruence|].
  destruct Hor1 as [->|[Hp1 Hs1]], Hor2 as [->|[Hp2 Hs2]]; auto.
Qed.

Lemma cancelled_not_pending x : wt_status x = WAIT_CANCELLED -> wait_is_pending x = false.
Proof. intros Hs. unfold wait_is_pending. apply bool_decide_eq_false_2. congruence. Qed.

Lemma resolve_cancelled_spec k key p by_ w :
  exists r w', resolve_execution_wait k WAIT_CANCELLED key p by_ w = (Ok r, w')
    /\ w_executions w' = w_executions w /\ w_tasks w' = w_tasks w
    /\ closes w w' /\ forall x', dget k (w_waits w') = Some x' -> wait_is_pending x' = false.
Proof.
  unfold resolve_execution_wait. rewrite bind_unfold. cbn [gets].
  destruct (dget k (w_waits w)) as [x|] eqn:Hx.
  - destruct (wait_is_pending x) eqn:Hp; cbn.
    + eexists _, _. split; [reflexivity|]. do 2 (split; [done|]). split.
      * intros j x'. cbn [w_waits set_w_waits]. rewrite dget_dset.
        destruct (String.eqb_spec j k) as [->|Hne]; [|by intros; exists x'; auto].
        intros [= <-]. exists x. repeat (split; [done|]). by right.
      * intros x'. cbn. rewrite dget_dset_eq. intros [= <-]. by apply cancelled_not_pending.
    + eexists _, w. split; [reflexivity|]. do 2 (split; [done|]). split; [reflexivity|].
      intros x' Hx'. congruence.
  - eexists _, w. split; [reflexivity|]. do 2 (split; [done|]). split; [reflexivity|].
    intros x' Hx'. congruence.
Qed.

Lemma close_waits_spec r l w :
  exists closed w', close_waits r None l w = (Ok closed, w')
    /\ w_executions w' = w_executions w /\ w_tasks w' = w_tasks w
    /\ closes w w'
    /\ forall wt x', In wt l -> dget (wt_id wt) (w_waits w') = Some x' -> wait_is_pending x' = false.
Proof.
  revert w. induction l as [|wt l IH]; intros w; simpl.
  - exists [], w. do 3 (split; [done|]). split; [reflexivity|]. by intros wt x' [].
  - destruct (resolve_cancelled_spec (wt_id wt) (str_take 255 (r +:+ ":" +:+ wt_id wt))
      [("reason", PStr r)] (Some "execution_control_plane") w)
      as ([resolved claimed] & w1 & E1 & Hex1 & Htk1 & Hc1 & Hnp1).
    rewrite bind_unfold, E1. rewrite bind_unfold.
    destruct (IH w1) as (closed & w2 & E2 & Hex2 & Htk2 & Hc2 & Hnp2). rewrite E2.
    eexists _, w2. split; [reflexivity|]. do 2 (split; [congruence|]).
    split; [by transitivity w1|].
    intros wt' x' [<-|Hin] Hx'; [|by apply (Hnp2 wt')].
    destruct (Hc2 _ _ Hx') as (x1 & Hx1 & _ & _ & [->|[Hp1 _]]); [by apply Hnp1|].
    rewrite (Hnp1 _ Hx1) in Hp1. done.
Qed.

(** The mark of the active wait has a hashable id. *)
Definition active_wait_readable (e : Execution) : bool :=
  match pget "active_wait" (ex_metadata e) with
  | PDict active => match pget "wait_id" active with PList _ | PDict _ => false | _ => true end
  | _ => true
  end.

(** The attributes that closing waits keeps. *)
Definition same_run (e e' : Execution) : Prop :=
  ex_status e' = ex_status e /\ ex_runtime_adapter_id e' = ex_runtime_adapter_id e
  /\ ex_output_payload e' = ex_output_payload e.

Lemma close_pending_waits_spec i r e w :
  dget i (w_executions w) = Some e -> waits_keyed w -> active_wait_readable e = true ->
  exists w' e', close_pending_waits i r None false w = (Ok tt, w')
    /\ dget i (w_executions w') = Some e' /\ same_run e e'
    /\ closes w w'
    /\ forall k x, dget k (w_waits w') = Some x -> wt_execution_id x = i -> wait_is_pending x = false.
Proof.
  intros He Hk Hr. unfold close_pending_waits, list_execution_waits.
  rewrite bind_unfold. cbn [gets]. set (pending := py_sorted _ _).
  assert (Hall : forall k x, dget k (w_waits w) = Some x -> wt_execution_id x = i ->
    wait_is_pending x = true -> In x pending /\ wt_id x = k).
  { intros k x Hx Hi Hp. split; [|exact (proj2 Hk k x Hx)].
    apply py_sorted_In, filter_In. split; [by eapply dget_values|].
    unfold wait_is_pending in Hp. by rewrite Hi, String.eqb_refl, Hp. }
  destruct (close_waits_spec r pending w) as (closed & w1 & E1 & Hex1 & _ & Hc1 & Hnp1).
  rewrite bind_unfold, E1.
  assert (Hdone : forall k x, dget k (w_waits w1) = Some x -> wt_execution_id x = i ->
    wait_is_pending x = false).
  { intros k x Hx Hi. destruct (Hc1 _ _ Hx) as (x0 & Hx0 & Hi0 & Hid0 & [->|[_ Hs]]);
      [|by apply cancelled_not_pending].
    destruct (wait_is_pending x0) eqn:Hp; [|done].
    destruct (Hall k x0 Hx0 Hi Hp) as [Hin Hid]. subst k.
    by rewrite (Hnp1 x0 x0 Hin Hx) in Hp. }
  rewrite <-Hex1 in He.
  destruct (last closed) as [latest|].
  - rewrite bind_unfold. unfold deref. rewrite He. rewrite bind_unfold.
    match goal with |- context [match ?m w1 with _ => _ end] =>
      assert (Hb : exists b, m w1 = (Ok b, w1)) end.
    { unfold active_wait_readable in Hr.
      destruct (pget "active_wait" (ex_metadata e)) as [| | | | | |active]; try (by eexists).
      destruct (pget "wait_id" active); try discriminate Hr; by eexists. }
    destruct Hb as [b ->]. cbv zeta.
    step_assign He. rewrite bind_unfold. cbn [when mret M_ret].
    destruct (update_execution_spec i _ w0 He) as (w2 & t & E2 & He2 & Hw2 & _ & _).
    rewrite E2. eexists w2, _. split; [reflexivity|]. split; [exact He2|].
    split; [done|]. unfold closes. rewrite Hw2, Hw. split; [exact Hc1|exact Hdone].
  - exists w1, e. split; [reflexivity|]. repeat split; auto.
Qed.

Lemma snapshot_spec i r e w :
  dget i (w_executions w) = Some e ->
  exists p w', partial_result_preservation_snapshot i r w = (Ok p, w')
    /\ w_executions w' = w_executions w /\ w_waits w' = w_waits w
    /\ (ex_output_payload e <> None -> p <> None).
Proof.
  intros He. unfold partial_result_preservation_snapshot.
  rewrite bind_unfold. unfold deref. rewrite He. rewrite bind_unfold. cbn [list_artifacts gets].
  cbv zeta. destruct (ex_output_payload e) as [output|]; cbn [opt_some negb andb].
  - rewrite bind_unfold. cbn [utc_now]. eexists _, _. split; [reflexivity|]. by repeat split.
  - destruct (_ =? 0)%nat.
    + eexists _, w. split; [reflexivity|]. by repeat split.
    + rewrite bind_unfold. cbn [utc_now]. eexists _, _. split; [reflexivity|]. by repeat split.
Qed.

Lemma preserve_spec i p e w :
  dget i (w_executions w) = Some e ->
  exists w' e', preserve i p w = (Ok tt, w') /\ dget i (w_executions w') = Some e'
    /\ same_run e e' /\ w_waits w' = w_waits w
    /\ (forall v, p = Some v -> dget "partial_result_preservation" (ex_metadata e') = Some v).
Proof.
  intros He. unfold preserve. destruct p as [snap|]; [|by exists w, e].
  match goal with |- context [assign i ?f w] =>
    destruct (assign_spec i f e w He) as (w' & E & He' & Hw & _ & _) end.
  rewrite E. eexists w', _. split; [done|]. split; [exact He'|]. split; [done|]. split; [done|].
  intros v [= <-]. cbn. apply dget_dset_eq.
Qed.

(** The engine's part of a cancellation of an execution that does not run. *)
Lemma cancel_execution_spec i e w :
  dget i (w_executions w) = Some e -> ex_status e = CANCELLING ->
  exists w' e', cancel_execution i w = (Ok i, w') /\ dget i (w_executions w') = Some e'
    /\ ex_status e' = CANCELLED /\ w_waits w' = w_waits w.
Proof.
  intros He Hs. unfold cancel_execution.
  destruct (require_execution_and_state_spec i e w He) as (st & w1 & E1 & Hw1).
  rewrite bind_unfold, E1. destruct Hw1 as [Hex Hwt _ _]. rewrite <-Hex in He. rewrite <-Hwt.
  clear E1 Hex Hwt w. rewrite Hs. cbv zeta.
  assert (Hn1 : bool_decide (CANCELLING = CANCELLED) = false) by reflexivity.
  assert (Hn2 : bool_decide (CANCELLING ∈ [COMPLETED; FAILED]) = false) by reflexivity.
  assert (Hn3 : bool_decide (CANCELLING = RUNNING) = false) by reflexivity.
  rewrite Hn1, Hn2, Hn3. rewrite bind_unfold. cbn [put_state modify].
  rewrite bind_unfold. cbn [utc_now].
  match goal with |- context [set_w_clock ?n ?w0] => set (w2 := set_w_clock n w0) end.
  assert (He2 : dget i (w_executions w2) = Some e) by exact He.
  assert (Hw2 : w_waits w2 = w_waits w1) by done. clearbody w2. rewrite <-Hw2. clear He Hw2.
  step_assign He2. step_assign He2. rewrite bind_unfold. cbn [utc_now].
  set (w3 := set_w_clock _ w0).
  assert (He3 : dget i (w_executions w3) = dget i (w_executions w0)) by done.
  assert (Hw3 : w_waits w3 = w_waits w0) by done. rewrite He2 in He3. clearbody w3.
  step_assign He3. step_assign He3. rewrite bind_unfold.
  match goal with |- context [emit_on_state i ?s ?ty ?p ?w9] =>
    destruct (emit_on_state_spec i s ty p _ w9 He3) as (w10 & e4 & E4 & He4 & Hsame & Hw4 & _) end.
  rewrite E4. eexists _, e4. split; [reflexivity|]. split; [done|].
  split; [by rewrite (same_but_activity_field ex_status _ _ Hsame)|]. congruence.
Qed.

Lemma preserve_again_spec i p e w :
  dget i (w_executions w) = Some e ->
  exists w' e', when (opt_some p) (preserve i p;; update_execution i) w = (Ok tt, w')
    /\ dget i (w_executions w') = Some e' /\ ex_status e' = ex_status e /\ w_waits w' = w_waits w.
Proof.
  intros He. destruct p as [snap|]; cbn [opt_some when]; [|by exists w, e].
  destruct (preserve_spec i (Some snap) e w He) as (w1 & e1 & E1 & He1 & (Hs1 & _) & Hw1 & _).
  rewrite bind_unfold, E1.
  destruct (update_execution_spec i e1 w1 He1) as (w2 & t & E2 & He2 & Hw2 & _).
  rewrite E2. eexists w2, _. split; [done|]. split; [exact He2|]. split; [exact Hs1|congruence].
Qed.

Lemma cancel_terminal_noop i e w :
  dget i (w_executions w) = Some e -> is_terminal e = true -> cancel i w = (Ok i, w).
Proof.
  intros He Ht. unfold cancel. by rewrite bind_unfold, (find_or_raise_found i e), Ht.
Qed.

(** Cancelling an active execution takes effect at once, whatever it was
    doing (a running execution too): it is cancelled, every pending wait it had
    is cancelled and no other wait changes, and cancelling it again changes
    nothing. *)
Theorem cancel_is_immediate i e w :
  dget i (w_executions w) = Some e -> ex_runtime_adapter_id e = "native" ->
  is_terminal e = false -> ex_status e <> CANCELLING ->
  waits_keyed w -> active_wait_readable e = true ->
  exists w' e', cancel i w = (Ok i, w')
    /\ dget i (w_executions w') = Some e' /\ ex_status e' = CANCELLED
    /\ (forall k x, dget k (w_waits w') = Some x -> wt_execution_id x = i -> wait_is_pending x = false)
    /\ closes w w'
    /\ cancel i w' = (Ok i, w').
Proof.
  intros He Hn Hterm Hc Hk Hr.
  assert (Hrun : exists w' e', cancel i w = (Ok i, w')
    /\ dget i (w_executions w') = Some e' /\ ex_status e' = CANCELLED
    /\ (forall k x, dget k (w_waits w') = Some x -> wt_execution_id x = i -> wait_is_pending x = false)
    /\ closes w w').
  { unfold cancel. rewrite bind_unfold, (find_or_raise_found i e), Hterm by done.
    rewrite bool_decide_eq_false_2 by done. cbn [orb].
    destruct (close_pending_waits_spec i "operator_cancel" e w He Hk Hr)
      as (w1 & e1 & E1 & He1 & (_ & Ha1 & _) & Hc1 & Hnp1).
    rewrite bind_unfold, E1.
    destruct (snapshot_spec i "cancel_requested" e1 w1 He1) as (p & w2 & E2 & Hex2 & Hw2 & _).
    rewrite bind_unfold, E2. rewrite <-Hex2 in He1.
    destruct (preserve_spec i p e1 w2 He1) as (w3 & e3 & E3 & He3 & (_ & Ha3 & _) & Hw3 & _).
    rewrite bind_unfold, E3. step_assign He3. step_assign He3.
    unfold registry_cancel. rewrite bind_unfold, (dispatch_native _ i _ _ He3) by (cbn; congruence).
    cbn [ra_cancel native_adapter].
    destruct (cancel_execution_spec i _ _ He3) as (w6 & e6 & E6 & He6 & Hs6 & Hw6); [done|].
    rewrite E6. destruct (preserve_again_spec i p e6 w6 He6) as (w7 & e7 & E7 & He7 & Hs7 & Hw7).
    rewrite bind_unfold, E7. exists w7, e7. split; [reflexivity|]. split; [done|].
    split; [congruence|].
    assert (Hsame : w_waits w7 = w_waits w1) by congruence.
    split; unfold closes; rewrite Hsame; assumption. }
  destruct Hrun as (w' & e' & E & He' & Hs' & Hnp & Hcl). exists w', e'. repeat split; auto.
  apply (cancel_terminal_noop i e'); [done|]. unfold is_terminal. by rewrite Hs'.
Qed.

(** The worker run does not look at the status again: an execution that was
    cancelled (or failed, or completed) while its task was queued is marked
    running and handed to the engine's run loop. *)
Theorem run_revives_terminal i e w :
  dget i (w_executions w) = Some e -> ex_runtime_adapter_id e = "native" ->
  ex_status e ∈ TERMINAL_STATUSES -> ex_worker_id e = None ->
  execution_host_for e = EXECUTION_HOST_LOCAL -> cfg_runtime_revision_shadow_mode = false ->
  exists w1 e1, dget i (w_executions w1) = Some e1 /\ ex_status e1 = RUNNING
    /\ run_execution i w =
         try_finally (native_start i;; mret tt)
           (release_lock i cfg_worker_id;;
            modify (fun w => set_w_tasks (dpop i (w_tasks w)) w)) w1.
Proof.
  intros He Hn Hterm Hfree Hhost Hshadow. unfold run_execution, acquire_lock.
  rewrite bind_unfold, bind_unfold. cbn [gets]. rewrite He. rewrite bind_unfold. cbn [utc_now].
  cbv zeta. rewrite Hfree. cbn [opt_eqb orb].
  set (w1 := set_w_clock _ w). assert (He1 : dget i (w_executions w1) = Some e) by exact He.
  clearbody w1. step_assign He1. step_assign He1. cbn [mret M_ret negb].
  unfold try_finally at 1. rewrite bind_unfold. cbn [get_execution gets]. rewrite He1.
  assert (Hl : String.eqb (execution_host_for (set_ex_last_heartbeat_at (Some (env_now (w_clock w)))
    (set_ex_worker_id (Some cfg_worker_id) e))) EXECUTION_HOST_DOCKER = false).
  { change (String.eqb (execution_host_for e) EXECUTION_HOST_DOCKER = false). by rewrite Hhost. }
  rewrite Hl, Hshadow. rewrite bind_unfold. cbn [when mret M_ret].
  step_assign He1. step_assign He1. rewrite bind_unfold. cbn [utc_now].
  set (w5 := set_w_clock _ _).
  assert (He5 : dget i (w_executions w5) = dget i (w_executions w4)) by done.
  rewrite He1 in He5. clearbody w5. step_assign He5. step_assign He5.
  eexists w7, _. split; [exact He5|]. split; [done|].
  assert (Hstart : registry_start i w7 = native_start i w7).
  { unfold registry_start. by rewrite (dispatch_native (fun a => ra_start a i) i _ w7 He5). }
  unfold try_finally. by rewrite (bind_unfold (registry_start i)), Hstart, bind_unfold.
Qed.
End Commands.
