(* ===== verification/Repair.v ===== *)
(** * Repair of stale executions and replacement of outdated ones

    [repair_stale_executions], its helpers, [_handle_outdated_executions] and
    [replace_active_executions_for_workflow_revision] of [app/runtime/control_plane.py].  A stale execution is failed (an abandoned
    approval), completed (its output shows that every terminal task ran),
    cancelled (it was cancelling) or requeued. *)

From S2P Require Export Workflow ControlPlane Creation.

(** ** Was the workflow already complete?

    [_has_completed_workflow_checkpoint] *)

Definition task_node_ids (wf : WorkflowDefinition) : list string :=
  map wn_id (List.filter is_task_node (wf_nodes wf)).

(** The task nodes from which no later task node can be reached. *)
Definition terminal_task_node_ids (wf : WorkflowDefinition) : list string :=
  List.filter
    (fun id => match reaches_later_task (search_fuel (wf_edges wf)) (wf_edges wf) (task_node_ids wf)
                       (outgoing (wf_edges wf) id) [] with
               | Some true => false
               | _ => true
               end)
    (task_node_ids wf).

(** [{item for item in checkpoint.get(key, []) if isinstance(item, str) and item}] *)
Definition id_set (key : string) (checkpoint : dict pyval) : M (list string) :=
  items ← match dget key checkpoint with None => mret [] | Some v => py_iter v end;
  mret (List.concat (map (fun v => match v with
                                   | PStr s => if String.eqb s "" then [] else [s]
                                   | _ => []
                                   end) items)).

Definition subset (l1 l2 : list string) : bool := forallb (fun s => mem_str s l2) l1.

Definition has_completed_workflow_checkpoint `{Workflows} (e : Execution) : M bool :=
  match ex_output_payload e with
  | None => mret false
  | Some output_payload =>
      if negb (dmem "final_output" output_payload) then mret false
      else
        match pget "checkpoint" output_payload with
        | PDict checkpoint =>
            completed ← id_set "completed_node_ids" checkpoint;
            if (List.length completed =? 0)%nat then mret false
            else
              recorded_terminal ← id_set "terminal_node_ids" checkpoint;
              if negb (List.length recorded_terminal =? 0)%nat
              then mret (subset recorded_terminal completed)
              else
                match get_workflow (ex_workflow_id e) with
                | None => mret false
                | Some wf =>
                    if (List.length (wf_nodes wf) =? 0)%nat then mret false
                    else
                      let terminal := terminal_task_node_ids wf in
                      if (List.length terminal =? 0)%nat then mret false
                      else mret (subset terminal completed)
                end
        | _ => mret false
        end
  end.

(** ** The dictionary of a classification, for the event payload *)

Definition staleness_payload (e : Execution) (stale_after_seconds : Z) (s : staleness) : dict pyval :=
  let activity := default (ex_updated_at e) (execution_last_activity_at e) in
  [("is_stale", PBool (sl_is_stale s)); ("eligible_status", PBool (sl_eligible_status s));
   ("status", PStr (sl_status s)); ("stale_kind", opt_str (sl_stale_kind s));
   ("wait_state", opt_str (sl_wait_state s));
   ("intentionally_waiting", PBool (sl_intentionally_waiting s));
   ("intentionally_long_running", PBool (sl_intentionally_long_running s));
   ("reference_at", PStr (isoformat (sl_reference_at s))); ("age_seconds", PInt (sl_age_seconds s));
   ("stale_after_seconds", PInt stale_after_seconds);
   ("last_heartbeat_at", opt_iso (ex_last_heartbeat_at e));
   ("heartbeat_age_seconds", PInt (sl_age_seconds s));
   ("last_activity_at", PStr (isoformat activity));
   ("last_recorded_activity_at", opt_iso (execution_last_activity_at e));
   ("activity_age_seconds", PInt (sl_activity_age_seconds s)); ("idle_timeout_seconds", PNone);
   ("runtime_seconds", opt_int (sl_runtime_seconds s)); ("run_timeout_seconds", PNone);
   ("reason", opt_str (sl_reason s))].

(** ** Repair *)

Inductive RepairAction := FAILED_ABANDONED_APPROVAL | MARKED_COMPLETED | MARKED_CANCELLED | REQUEUED.
#[export] Instance RepairAction_eq_dec : EqDecision RepairAction.
Proof. solve_decision. Defined.

Definition repair_action_value (a : RepairAction) : string :=
  match a with
  | FAILED_ABANDONED_APPROVAL => "failed_abandoned_approval"
  | MARKED_COMPLETED => "marked_completed"
  | MARKED_CANCELLED => "marked_cancelled"
  | REQUEUED => "requeued"
  end.

(** Which repair an execution gets. *)
Definition repair_action_for (previous : ExecutionStatus) (completed_checkpoint : bool) : RepairAction :=
  if bool_decide (previous = WAITING_FOR_APPROVAL) then FAILED_ABANDONED_APPROVAL
  else if completed_checkpoint && negb (bool_decide (previous = CANCELLING)) then MARKED_COMPLETED
  else if bool_decide (previous = CANCELLING) then MARKED_CANCELLED
  else REQUEUED.

Record repair_item := mkRepairItem {
  rp_execution_id : string;
  rp_previous_status : ExecutionStatus;
  rp_new_status : ExecutionStatus;
  rp_action : RepairAction;
  rp_reason : option string
}.

Definition abandoned_approval_error : string :=
  "Approval wait was abandoned because the execution worker stopped heartbeating. "
  +:+ "Resume from a safe checkpoint or start a replacement execution.".

Section Repair.
Context `{Env} `{Config} `{ContainerManager} `{Workflows}.

(** [execution.completed_at = execution.completed_at or utc_now()] *)
Definition complete_now (i : string) : M unit :=
  e ← deref i;
  match ex_completed_at e with
  | Some _ => mret tt
  | None => now ← utc_now; assign i (set_ex_completed_at (Some now))
  end.

(** The branch of the repair: status, error and the type of the event. *)
Definition apply_repair (i : string) (action : RepairAction) : M ExecutionEventType :=
  match action with
  | FAILED_ABANDONED_APPROVAL =>
      assign i (set_ex_status FAILED);;
      complete_now i;;
      assign i (set_ex_error (Some abandoned_approval_error));;
      mret EXECUTION_FAILED
  | MARKED_COMPLETED =>
      assign i (set_ex_status COMPLETED);;
      complete_now i;;
      assign i (set_ex_error None);;
      mret EXECUTION_COMPLETED
  | MARKED_CANCELLED =>
      assign i (set_ex_status CANCELLED);;
      complete_now i;;
      assign i (fun e => set_ex_error
        (str_or (ex_error e) (Some "Stale cancelling execution was marked cancelled")) e);;
      mret EXECUTION_CANCELLED
  | REQUEUED => assign i (set_ex_status QUEUED);; mret EXECUTION_REPAIRED
  end.

(** [_cleanup_stale_execution_container]: failures of the container manager
    become part of the report.  The event state is threaded. *)
Definition cleanup_stale_execution_container (i : string) (st : NativeExecutionState) (reason : string) :
    M (option (dict pyval) * NativeExecutionState) :=
  e ← deref i;
  match ex_container_id e with
  | None => mret (None, st)
  | Some cid =>
      if String.eqb cid "" || negb container_manager_configured then mret (None, st) else
      let base := [("container_id", PStr cid);
                   ("previous_container_status", opt_str (ex_container_status e));
                   ("action", PStr "none")] in
      let failed result := fun exc : exn =>
        mret (Some (dset "error" (PStr (exn_message exc))
                      (dset "action" (PStr "cleanup_failed") result)), st) in
      try_except
        (container ← inspect_container cid;
         let result := dset "inspected_status" (PStr (cs_status container)) base in
         try_except
           ('(container, action) ←
              (if mem_str (cs_status container) LIVE_CONTAINER_STATUSES
               then stopped ← stop_container cid; mret (stopped, "stopped_and_removed")
               else mret (container, "removed"));
            remove_container cid (mem_str (cs_status container) EXITED_CONTAINER_STATUSES);;
            assign i (set_ex_container_status (Some "removed"));;
            ended ← match cs_finished_at container with
                    | Some t => mret t
                    | None => match ex_container_ended_at e with
                              | Some t => mret t
                              | None => utc_now
                              end
                    end;
            assign i (set_ex_container_ended_at (Some ended));;
            assign i (set_ex_container_exit_code (cs_exit_code container));;
            '(_, st') ← emit_simple st CONTAINER_STOPPED None
              (container_payload container (ex_runtime_revision_id e) (Some reason) []) [];
            mret (Some (dupdate (dset "action" (PStr action) result)
                          [("new_container_status", PStr "removed");
                           ("exit_code", opt_int (cs_exit_code container))]), st'))
           any_exn (failed result))
        any_exn (failed base)
  end.

(** [_expire_pending_execution_approvals] *)
Fixpoint expire_approvals (i reason : string) (requests : list ApprovalRequest) : M (list string) :=
  match requests with
  | [] => mret []
  | row :: rest =>
      if negb (String.eqb (ar_status row) "pending") || String.eqb (ar_tool_id row) ""
      then expire_approvals i reason rest
      else
        expired ← resolve_pending_approval_request i (ar_tool_id row) "expired"
          [("granted", PBool false); ("reason", PStr reason);
           ("metadata", PDict [("mode", PStr "runtime_reconciler");
                               ("cause", PStr "worker_unresponsive")])]
          (Some "runtime_reconciler");
        others ← expire_approvals i reason rest;
        mret (match expired with Some r => ar_id r :: others | None => others end)
  end.

Definition expire_pending_execution_approvals (i reason : string) : M (list string) :=
  requests ← list_approval_requests i;
  expire_approvals i reason requests.

Definition string_list (l : list string) : pyval := PList (map PStr l).

(** The body of the loop for an execution that is stale. *)
Definition repair_one (i : string) (e : Execution) (classification : staleness) : M repair_item :=
  let previous := ex_status e in
  completed_checkpoint ← has_completed_workflow_checkpoint e;
  let action := repair_action_for previous completed_checkpoint in
  let stale_reason := "stale_execution_" +:+ repair_action_value action in
  event_type ← apply_repair i action;
  preservation ←
    (if bool_decide (action = MARKED_COMPLETED) then mret None
     else partial_result_preservation_snapshot i stale_reason);
  st ← state_of_log i (ex_workflow_id e);
  '(container_repair, st) ←
    (if bool_decide (action = MARKED_CANCELLED) then mret (None, st)
     else cleanup_stale_execution_container i st stale_reason);
  expired ←
    (if bool_decide (action = FAILED_ABANDONED_APPROVAL)
     then expire_pending_execution_approvals i abandoned_approval_error
     else mret []);
  assign i (set_ex_worker_id None);;
  assign i (set_ex_last_heartbeat_at None);;
  repaired_at ← utc_now;
  let stale_repair := PDict
    ([("repaired_at", PStr (isoformat repaired_at)); ("previous_status", PStr (status_value previous));
      ("repair_action", PStr (repair_action_value action));
      ("stale_after_seconds", PInt cfg_stale_after_seconds);
      ("age_seconds", PInt (sl_age_seconds classification))]
     ++ entry_if "container_repair" (PDict <$> container_repair)
     ++ entry_if "expired_approval_request_ids"
          (match expired with [] => None | _ => Some (string_list expired) end)) in
  assign i (fun e =>
    let metadata := if bool_decide (action = FAILED_ABANDONED_APPROVAL)
                    then dpop "pending_approval" (ex_metadata e) else ex_metadata e in
    let metadata := match preservation with
                    | Some p => dset "partial_result_preservation" p metadata
                    | None => metadata
                    end in
    set_ex_metadata (dset "stale_repair" stale_repair metadata) e);;
  updated_at ← utc_now;
  assign i (set_ex_updated_at updated_at);;
  update_execution i;;
  repaired ← deref i;
  emit_simple st event_type None
    ([("execution_id", PStr i); ("previous_status", PStr (status_value previous));
      ("new_status", PStr (status_value (ex_status repaired)));
      ("repair_action", PStr (repair_action_value action));
      ("reason", opt_str (sl_reason classification));
      ("stale_classification", PDict (staleness_payload e cfg_stale_after_seconds classification))]
     ++ entry_if "output"
          (if bool_decide (action = MARKED_COMPLETED)
           then Some (match ex_output_payload repaired with Some d => PDict d | None => PNone end)
           else None)
     ++ entry_if "partial_result_preservation" preservation
     ++ entry_if "container_repair" (PDict <$> container_repair)
     ++ entry_if "expired_approval_request_ids"
          (match expired with [] => None | _ => Some (string_list expired) end)) [];;
  mret (mkRepairItem i previous (ex_status repaired) action (sl_reason classification)).

(** One iteration: the filters, the classification, the repair. *)
Definition repair_candidate (workflow_id execution_id : option string) (i : string) :
    M (list repair_item) :=
  e ← deref i;
  if match execution_id with Some x => negb (String.eqb i x) | None => false end then mret []
  else if match workflow_id with Some x => negb (String.eqb (ex_workflow_id e) x) | None => false end
  then mret []
  else if negb (mem_str (status_value (ex_status e)) ACTIVE_STATUS_VALUES) then mret []
  else
    classification ← classify_execution_staleness e cfg_stale_after_seconds None None;
    if negb (sl_is_stale classification) then mret []
    else item ← repair_one i e classification; mret [item].

Definition repair_stale_executions (workflow_id execution_id : option string) : M (list repair_item) :=
  active ← list_active_executions;
  collect (repair_candidate workflow_id execution_id) active.

Definition recover_stale_executions (workflow_id : option string) : M (list string) :=
  repaired ← repair_stale_executions workflow_id None;
  mret (map rp_execution_id repaired).
End Repair.

(** ** Outdated executions *)

Section Replacement.
Context `{Env} `{Config} `{ContainerManager} `{Runtimes}.

(** The payload entries shared by the events of a replacement. *)
Definition preservation_entry (preservation : option pyval) : dict pyval :=
  entry_if "partial_result_preservation" preservation.

(** [_replace_outdated_execution] *)
Definition replace_outdated_execution (i replacement_id runtime_revision_id reason : string)
    (preservation : option pyval) (extra : dict pyval) : M unit :=
  e ← deref i;
  st ← state_of_log i (ex_workflow_id e);
  preservation ←
    match preservation with
    | Some p => mret (Some p)
    | None => partial_result_preservation_snapshot i reason
    end;
  let cancelled_payload :=
    [("execution_id", PStr i); ("reason", PStr reason);
     ("replacement_execution_id", PStr replacement_id)] ++ preservation_entry preservation in
  assign i (set_ex_restart_reason (Some reason));;
  preserve i preservation;;
  cancelled ← try_except (j ← registry_cancel i; mret (Some j)) any_exn (fun _ => mret None);
  '(i, st) ←
    match cancelled with
    | Some j =>
        when (opt_some preservation) (preserve j preservation;; update_execution j);;
        mret (j, st)
    | None =>
        assign i (set_ex_status CANCELLED);;
        complete_now i;;
        preserve i preservation;;
        update_execution i;;
        '(_, st') ← emit_simple st EXECUTION_CANCELLED None cancelled_payload [];
        mret (i, st')
    end;
  assign i (set_ex_restart_reason (Some reason));;
  e ← deref i;
  match ex_container_id e with
  | None => update_execution i
  | Some cid =>
      if String.eqb cid "" then update_execution i else
      inspected ← inspect_container cid;
      container ← (if mem_str (cs_status inspected) LIVE_CONTAINER_STATUSES
                   then stop_container cid else mret inspected);
      remove_container cid (mem_str (cs_status container) EXITED_CONTAINER_STATUSES);;
      let finalized := bool_decide (ex_status e = CANCELLING) in
      when finalized (assign i (set_ex_status CANCELLED);; complete_now i);;
      assign i (set_ex_container_status (Some "removed"));;
      ended ← match cs_finished_at container with
              | Some t => mret t
              | None => match ex_container_ended_at e with Some t => mret t | None => utc_now end
              end;
      assign i (set_ex_container_ended_at (Some ended));;
      assign i (set_ex_container_exit_code (cs_exit_code container));;
      update_execution i;;
      st ← (if finalized
            then '(_, st') ← emit_simple st EXECUTION_CANCELLED None cancelled_payload []; mret st'
            else mret st);
      emit_simple st CONTAINER_REPLACED None
        (container_payload container (ex_runtime_revision_id e) (Some reason)
           (dupdate ([("replacement_execution_id", PStr replacement_id);
                      ("replacement_runtime_revision_id", PStr runtime_revision_id)]
                     ++ preservation_entry preservation) extra)) [];;
      mret tt
  end.

(** The executions of the same workflow that run on another runtime revision. *)
Definition outdated_by (i workflow_id runtime_revision_id : string) (j : string) (c : Execution) : bool :=
  negb (String.eqb j i) && String.eqb (ex_workflow_id c) workflow_id
  && mem_str (status_value (ex_status c)) ACTIVE_STATUS_VALUES
  && str_truthy (ex_runtime_revision_id c)
  && negb (opt_eqb (ex_runtime_revision_id c) (Some runtime_revision_id)).

(** [_handle_outdated_executions] *)
Definition handle_outdated_executions (i runtime_revision_id : string) : M unit :=
  e ← deref i;
  if str_truthy (ex_replacement_of_execution_id e) then mret tt
  else
    active ← list_active_executions;
    outdated ← gets (fun w => List.filter
      (fun j => match dget j (w_executions w) with
                | Some c => outdated_by i (ex_workflow_id e) runtime_revision_id j c
                | None => false
                end) active);
    match outdated with
    | [] => mret tt
    | target :: _ =>
        let changed1 := negb (opt_eqb (ex_replacement_of_execution_id e) (Some target)) in
        when changed1 (assign i (set_ex_replacement_of_execution_id (Some target)));;
        let changed2 := negb (opt_eqb (ex_restart_reason e) (Some "runtime_revision_superseded")) in
        when changed2 (assign i (set_ex_restart_reason (Some "runtime_revision_superseded")));;
        when (changed1 || changed2) (update_execution i);;
        if negb cfg_cancel_outdated_executions then mret tt
        else for_each (fun j =>
               replace_outdated_execution j i runtime_revision_id "runtime_revision_superseded" None [])
             outdated
    end.

(** The active executions of a workflow that its new revision replaces. *)
Definition superseded_by_revision (workflow_id : string) (c : Execution) : bool :=
  String.eqb (ex_workflow_id c) workflow_id
  && mem_str (status_value (ex_status c)) ACTIVE_STATUS_VALUES
  && negb (opt_eqb (ex_restart_reason c) (Some "workflow_revision_superseded")).

(** One iteration: a new execution of the workflow is queued, the old one replaced. *)
Definition supersede_execution `{Conversions} `{Workflows} `{CreationContext} (previous_revision : option Z)
    (replacement_revision : Z) (source i : string) : M string :=
  e ← deref i;
  r ← registry_create_execution (ex_workflow_id e) (ex_input_payload e)
        [("type", PStr "workflow_revision_superseded"); ("source", PStr source);
         ("created_by", PStr "workflow-update"); ("replaces_execution_id", PStr i);
         ("previous_workflow_revision", opt_int previous_revision);
         ("replacement_workflow_revision", PInt replacement_revision)]
        (Some (ex_runtime_adapter_id e)) (ex_goal_id e);
  assign r (set_ex_replacement_of_execution_id (Some i));;
  assign r (set_ex_restart_reason (Some "workflow_revision_superseded"));;
  preservation ← partial_result_preservation_snapshot i "workflow_revision_superseded";
  match preservation with
  | Some p => assign r (fun x => set_ex_metadata (dset "source_partial_result_preservation" p (ex_metadata x)) x)
  | None => mret tt
  end;;
  update_execution r;;
  queue_start r;;
  e ← deref i;
  replacement ← deref r;
  let revision_id := if str_truthy (ex_runtime_revision_id e) then ex_runtime_revision_id e
                     else ex_runtime_revision_id replacement in
  replace_outdated_execution i r (default "" revision_id) "workflow_revision_superseded" preservation
    [("replacement_workflow_revision", PInt replacement_revision);
     ("previous_workflow_revision", opt_int previous_revision)];;
  mret r.

(** [replace_active_executions_for_workflow_revision] *)
Definition replace_active_executions_for_workflow_revision `{Conversions} `{Workflows} `{CreationContext}
    (workflow_id : string) (previous_revision : option Z) (replacement_revision : Z) (source : string)
    : M (list string) :=
  active ← list_active_executions;
  candidates ← gets (fun w => List.filter
    (fun j => match dget j (w_executions w) with
              | Some c => superseded_by_revision workflow_id c
              | None => false
              end) active);
  collect (fun i => r ← supersede_execution previous_revision replacement_revision source i; mret [r]) candidates.
End Replacement.

(** ** Repair satisfies the ledger contract *)

Section RepairLedger.
Context `{Env} `{Config} `{ContainerManager} `{Workflows} `{Runtimes}.
Context `{!ContainerManagerLaws} `{!RuntimesLaws}.

Lemma ledger_has_completed e : evolves ledger (has_completed_workflow_checkpoint e).
Proof. unfold has_completed_workflow_checkpoint, id_set. evolve. Qed.

Lemma ledger_complete_now i : evolves ledger (complete_now i).
Proof. unfold complete_now. evolve. Qed.

Hint Resolve ledger_complete_now ledger_has_completed ledger_snapshot ledger_preserve
  ledger_update_execution : evolve.

Lemma ledger_apply_repair i a : evolves ledger (apply_repair i a).
Proof. unfold apply_repair. evolve. Qed.

Lemma ledger_cleanup i st r : evolves ledger (cleanup_stale_execution_container i st r).
Proof. unfold cleanup_stale_execution_container, emit_simple. evolve. Qed.

Lemma ledger_expire_approvals i r l : evolves ledger (expire_approvals i r l).
Proof. induction l as [|row l IH]; simpl; evolve. Qed.

Lemma ledger_expire_pending i r : evolves ledger (expire_pending_execution_approvals i r).
Proof.
  unfold expire_pending_execution_approvals, list_approval_requests. evolve. apply ledger_expire_approvals.
Qed.

Hint Resolve ledger_apply_repair ledger_cleanup ledger_expire_pending : evolve.

Lemma ledger_repair_one i e c : evolves ledger (repair_one i e c).
Proof. unfold repair_one, emit_simple. evolve. Qed.

Hint Resolve ledger_repair_one : evolve.

Lemma ledger_repair_stale_executions wf ex : evolves ledger (repair_stale_executions wf ex).
Proof.
  unfold repair_stale_executions, list_active_executions, list_executions, repair_candidate,
    classify_execution_staleness. evolve.
Qed.

Lemma ledger_replace_outdated_execution i j r s p x :
  evolves ledger (replace_outdated_execution i j r s p x).
Proof. unfold replace_outdated_execution, emit_simple. evolve. Qed.

Hint Resolve ledger_replace_outdated_execution : evolve.

Lemma ledger_handle_outdated_executions i r : evolves ledger (handle_outdated_executions i r).
Proof. unfold handle_outdated_executions, list_active_executions, list_executions. evolve. Qed.
End RepairLedger.
