(* ===== verification/RepairFacts.v ===== *)
(** * What the repair of stale executions guarantees

    The completion test of the control plane agrees with the engine on terminal
    task nodes and reads the checkpoint that the engine writes; and the outcome
    of a repair: which executions are touched and the status, lease, waits and
    error each one is left with. *)

From S2P Require Export Routing Repair Lifecycle.

(** ** Terminal task nodes *)

(** The depth-first search over a stack always ends within its fuel, and it
    computes exactly the task nodes from whose targets no task node can be
    reached, on cyclic graphs and with duplicate or dangling edges too. *)
Theorem terminal_task_nodes_exact wf id :
  (exists b, reaches_later_task (search_fuel (wf_edges wf)) (wf_edges wf) (task_node_ids wf)
               (outgoing (wf_edges wf) id) [] = Some b)
  /\ (In id (terminal_task_node_ids wf) <->
      In id (task_node_ids wf)
      /\ forall y, In y (outgoing (wf_edges wf) id) -> ~ leads_to_task (wf_edges wf) (task_node_ids wf) y).
Proof.
  assert (Hb : exists b, reaches_later_task (search_fuel (wf_edges wf)) (wf_edges wf) (task_node_ids wf)
               (outgoing (wf_edges wf) id) [] = Some b).
  { apply search_terminates. unfold search_fuel, unexpanded.
    pose proof (outgoing_length (wf_edges wf) id).
    pose proof (filter_length_le (fun e => negb (mem_str (we_source_node_id e) [])) (wf_edges wf)). lia. }
  split; [done|]. destruct Hb as [b Hb]. unfold terminal_task_node_ids. rewrite filter_In, Hb.
  apply and_iff_compat_l. destruct b.
  - apply search_sound in Hb as (y & Hy & Hl). split; [done|]. intros Hno. by destruct (Hno y Hy).
  - split; [|done]. intros _ y Hy.
    apply (search_complete _ _ _ _ _ Hb); [by intros x []|]. by right.
Qed.

(** ** The engine and the control plane agree *)

Lemma search_ext fuel edges t1 t2 pending seen :
  (forall x, mem_str x t1 = mem_str x t2) ->
  reaches_later_task fuel edges t1 pending seen = reaches_later_task fuel edges t2 pending seen.
Proof.
  intros Ht. revert pending seen. induction fuel as [|fuel IH]; intros pending seen; [done|].
  cbn [reaches_later_task]. destruct (last pending) as [t|]; [|done].
  destruct (mem_str t seen); [apply IH|]. rewrite Ht. destruct (mem_str t t2); [done|apply IH].
Qed.

Lemma In_filter_map {A B} (f : A -> B) p l x :
  In x (map f (List.filter p l)) <-> exists a, In a l /\ p a = true /\ f a = x.
Proof.
  rewrite in_map_iff. split.
  - intros (a & Hf & [Ha Hp]%filter_In). by exists a.
  - intros (a & Ha & Hp & Hf). exists a. split; [done|]. by apply filter_In.
Qed.

(** The engine's [_terminal_executable_node_ids] on its own plan and the
    control plane's recomputation from the stored workflow name the same nodes,
    although the code is written twice. *)
Theorem terminal_nodes_agree wf id :
  List.NoDup (map wn_id (wf_nodes wf)) ->
  In id (terminal_executable_node_ids wf (order_nodes wf)) <-> In id (terminal_task_node_ids wf).
Proof.
  intros Hnd. pose proof (plan_permutation wf Hnd) as Hperm.
  assert (Hin : forall x, In x (map wn_id (List.filter is_task_node (order_nodes wf))) <->
    In x (task_node_ids wf)).
  { intros x. unfold task_node_ids. rewrite !In_filter_map.
    split; intros (n & Hn & Hr); exists n; (split; [|done]);
      [by apply (Permutation_in _ Hperm)|by apply (Permutation_in _ (Permutation_sym Hperm))]. }
  assert (Hmem : forall x, mem_str x (map wn_id (List.filter is_task_node (order_nodes wf)))
    = mem_str x (task_node_ids wf)).
  { intros x. apply Bool.eq_iff_eq_true. rewrite !mem_str_In. apply Hin. }
  unfold terminal_executable_node_ids, terminal_task_node_ids.
  rewrite filter_In, mem_str_In, !filter_In, Hin, (search_ext _ _ _ _ _ _ Hmem).
  split; [tauto|]. intros [Ht Hs]. split; [|tauto].
  apply Hin, In_filter_map in Ht as (n & Hn & _ & <-). by apply in_map.
Qed.

(** The control plane reads what the engine writes: on an execution whose
    output is the checkpoint of an engine state with a plan, the completion test
    is exactly "every terminal node of the plan has an output". *)
Theorem completion_test_reads_checkpoint `{Env} `{Workflows} e st prior w :
  ex_output_payload e = Some (execution_checkpoint_payload st prior) ->
  (forall id, In id (st_terminal_node_ids st) -> id <> "") -> st_terminal_node_ids st <> [] ->
  (forall id, In id (dkeys (st_node_outputs st)) -> id <> "") -> st_node_outputs st <> [] ->
  exists b, has_completed_workflow_checkpoint e w = (Ok b, w)
    /\ (b = true <-> forall id, In id (st_terminal_node_ids st) -> dmem id (st_node_outputs st) = true).
Proof.
  intros Hp Ht Htne Ho Hone. unfold has_completed_workflow_checkpoint. rewrite Hp.
  assert (Hset : forall key l cp, dget key cp = Some (strings_of l) -> (forall id, In id l -> id <> "") ->
    id_set key cp w = (Ok l, w)).
  { intros key l cp Hk Hl. unfold id_set. rewrite Hk, bind_unfold. unfold strings_of. cbn [py_iter mret M_ret].
    enough (E : List.concat (map (fun v => match v with PStr s => if String.eqb s "" then [] else [s]
                                           | _ => [] end) (map PStr l)) = l) by by rewrite E.
    clear Hk. induction l as [|s l IH]; [done|]. cbn [map List.concat].
    destruct (String.eqb_spec s "") as [->|]; [by destruct (Hl "" (or_introl eq_refl))|].
    cbn [app]. rewrite IH; [done|]. intros id Hid. apply Hl. by right. }
  set (cp := checkpoint_of (Some (execution_checkpoint_payload st prior))).
  replace (pget "checkpoint" (execution_checkpoint_payload st prior)) with (PDict cp) by reflexivity.
  cbn [dmem negb execution_checkpoint_payload dget String.eqb Ascii.eqb Bool.eqb].
  rewrite (bind_Ok _ _ _ _ _ (Hset "completed_node_ids" (dkeys (st_node_outputs st)) cp eq_refl Ho)).
  destruct (List.length (dkeys (st_node_outputs st)) =? 0)%nat eqn:E0.
  { apply Nat.eqb_eq in E0. by destruct (st_node_outputs st). }
  rewrite (bind_Ok _ _ _ _ _ (Hset "terminal_node_ids" (st_terminal_node_ids st) cp eq_refl Ht)).
  destruct (List.length (st_terminal_node_ids st) =? 0)%nat eqn:E1.
  { apply Nat.eqb_eq in E1. by destruct (st_terminal_node_ids st). }
  cbn [negb mret M_ret]. eexists. split; [reflexivity|].
  unfold subset. rewrite forallb_forall. split; intros Hall id Hid.
  - specialize (Hall id Hid). apply mem_str_In in Hall. unfold dmem.
    destruct (dget id (st_node_outputs st)) eqn:Hg; [done|]. by apply dget_None in Hg.
  - specialize (Hall id Hid). apply mem_str_In. unfold dmem in Hall.
    destruct (dget id (st_node_outputs st)) as [v|] eqn:Hg; [|done].
    apply dget_In in Hg. unfold dkeys. apply in_map_iff. by exists (id, v).
Qed.

(** ** The outcome of a repair *)

(** The status that a repair leaves. *)
Definition repaired_status (a : RepairAction) : ExecutionStatus :=
  match a with
  | FAILED_ABANDONED_APPROVAL => FAILED
  | MARKED_COMPLETED => COMPLETED
  | MARKED_CANCELLED => CANCELLED
  | REQUEUED => QUEUED
  end.

Section RepairOutcome.
Context `{Env} `{Config} `{ContainerManager} `{Workflows}.

Lemma py_iter_pure v w w0 : py_iter v w = (result_of (py_iter v) w0, w).
Proof. by destruct v. Qed.

Lemma id_set_pure key cp w w0 : id_set key cp w = (result_of (id_set key cp) w0, w).
Proof.
  unfold id_set, result_of. rewrite !bind_unfold. destruct (dget key cp) as [v|]; [|done].
  rewrite (py_iter_pure v w w0). unfold result_of. rewrite (py_iter_pure v w0 w0). unfold result_of.
  by destruct (py_iter v w0) as [[]].
Qed.

(** Looking for a completed checkpoint reads nothing of the world. *)
Lemma has_completed_pure e w w0 :
  has_completed_workflow_checkpoint e w = (result_of (has_completed_workflow_checkpoint e) w0, w).
Proof.
  unfold has_completed_workflow_checkpoint, result_of.
  destruct (ex_output_payload e) as [output|]; [|done]. destruct (negb _); [done|].
  destruct (pget "checkpoint" output) as [| | | | | |cp]; try done.
  rewrite !bind_unfold, (id_set_pure _ _ w w0), (id_set_pure _ _ w0 w0). unfold result_of.
  destruct ((id_set "completed_node_ids" cp w0).1) as [completed|]; [|done]. cbn [fst].
  destruct (List.length completed =? 0)%nat; [done|].
  rewrite !bind_unfold, (id_set_pure _ _ w w0), (id_set_pure _ _ w0 w0). unfold result_of.
  destruct ((id_set "terminal_node_ids" cp w0).1) as [recorded|]; [|done]. cbn [fst].
  by repeat case_match.
Qed.

Lemma complete_now_spec i e w :
  dget i (w_executions w) = Some e ->
  exists w' e', complete_now i w = (Ok tt, w') /\ dget i (w_executions w') = Some e'
    /\ ex_status e' = ex_status e /\ w_waits w' = w_waits w.
Proof.
  intros He. unfold complete_now. rewrite bind_unfold. unfold deref. rewrite He.
  destruct (ex_completed_at e); [by exists w, e|]. execute.
  eexists _, _. split; [reflexivity|]. cbn. rewrite dget_dalter, String.eqb_refl, He. by repeat split.
Qed.

(** The terminal branches: a status, the completion time, the error. *)
Lemma finish_spec i st f (ty : ExecutionEventType) e w :
  dget i (w_executions w) = Some e ->
  (forall x, ex_status (f x) = ex_status x) ->
  exists w' e', (assign i (set_ex_status st);; complete_now i;; assign i f;; mret ty) w = (Ok ty, w')
    /\ dget i (w_executions w') = Some e' /\ ex_status e' = st /\ w_waits w' = w_waits w.
Proof.
  intros He Hf. step_assign He. rewrite bind_unfold.
  destruct (complete_now_spec i _ w0 He) as (w2 & e2 & -> & He2 & Hs2 & Hw2).
  step_assign He2. eexists _, _. split; [reflexivity|]. split; [exact He2|].
  rewrite Hf. split; [done|]. congruence.
Qed.

Lemma apply_repair_spec i a e w :
  dget i (w_executions w) = Some e ->
  exists ty w' e', apply_repair i a w = (Ok ty, w') /\ dget i (w_executions w') = Some e'
    /\ ex_status e' = repaired_status a /\ w_waits w' = w_waits w.
Proof.
  intros He. unfold apply_repair. destruct a.
  - destruct (finish_spec i FAILED (set_ex_error (Some abandoned_approval_error)) EXECUTION_FAILED e w He)
      as (w' & e' & E & He' & Hs & Hw); [done|]. exists EXECUTION_FAILED, w', e'. by repeat split.
  - destruct (finish_spec i COMPLETED (set_ex_error None) EXECUTION_COMPLETED e w He)
      as (w' & e' & E & He' & Hs & Hw); [done|]. exists EXECUTION_COMPLETED, w', e'. by repeat split.
  - match goal with |- context [complete_now i ≫= (fun _ => assign i ?f ≫= _)] =>
      destruct (finish_spec i CANCELLED f EXECUTION_CANCELLED e w He)
        as (w' & e' & E & He' & Hs & Hw) end; [done|].
    exists EXECUTION_CANCELLED, w', e'. by repeat split.
  - step_assign He. eexists _, _, _. split; [reflexivity|]. split; [exact He|]. by repeat split.
Qed.

Lemma expire_approvals_spec i r l w :
  exists ids w', expire_approvals i r l w = (Ok ids, w') /\ w_executions w' = w_executions w
    /\ w_waits w' = w_waits w.
Proof.
  revert w. induction l as [|row l IH]; intros w; cbn [expire_approvals]; [by exists [], w|].
  destruct (_ || _); [apply IH|].
  assert (Hone : forall t st p by_, exists o w', resolve_pending_approval_request i t st p by_ w = (Ok o, w')
    /\ w_executions w' = w_executions w /\ w_waits w' = w_waits w).
  { intros t st p by_. unfold resolve_pending_approval_request. rewrite bind_unfold. cbn [gets].
    destruct (py_max _ _) as [cur|]; [|by eexists _, w].
    destruct (String.eqb _ _); [by eexists _, w|]. destruct (negb _); [by eexists _, w|].
    unfold update_approval_request, get_approval_request. execute.
    destruct (dget (ar_id cur) (w_approvals w)); cbn; eexists _, _; (split; [reflexivity|]); by split. }
  rewrite bind_unfold.
  match goal with |- context [resolve_pending_approval_request i ?t ?st ?p ?b w] =>
    destruct (Hone t st p b) as (o & w1 & -> & Hex1 & Hw1) end.
  rewrite bind_unfold. destruct (IH w1) as (ids & w2 & -> & Hex2 & Hw2).
  eexists _, w2. split; [reflexivity|]. split; congruence.
Qed.

(** An event changes the executions by a stamp only. *)
Lemma emit_simple_spec st ty actor p md i e w :
  dget i (w_executions w) = Some e ->
  exists r w' e', emit_simple st ty actor p md w = (Ok r, w')
    /\ dget i (w_executions w') = Some e' /\ same_but_activity e e' /\ w_waits w' = w_waits w.
Proof.
  intros He. unfold emit_simple.
  pose proof (stamped_emit st ty actor p [] md None None None None None w) as Hst.
  destruct (emit_appends st ty actor p [] md None None None None None w) as (ev & st' & w1 & Hrun & _).
  unfold world_after in Hst. rewrite Hrun in *. simpl in Hst.
  destruct (stamped_execution i e w w1 Hst He) as (e' & He' & Hsame).
  exists (ev, st'), w1, e'. split; [done|]. split; [done|]. split; [done|]. apply (sp_waits _ _ Hst).
Qed.

(** The step keeps the waits, and the execution [i] with its status. *)
Definition keeps_status (i : string) (w w' : world) : Prop :=
  w_waits w' = w_waits w
  /\ forall e, dget i (w_executions w) = Some e ->
       exists e', dget i (w_executions w') = Some e' /\ ex_status e' = ex_status e.

#[local] Instance keeps_status_preorder i : PreOrder (keeps_status i).
Proof.
  split; [intros w; split; [done|by eauto]|]. intros w1 w2 w3 [Hw12 H12] [Hw23 H23]. split; [congruence|].
  intros e (e2 & He2 & Hs2)%H12. destruct (H23 e2 He2) as (e3 & He3 & Hs3). exists e3. split; congruence.
Qed.

(** The container manager works on containers, not on the stores; it may fail. *)
Definition manager_apart : Prop :=
  (forall c, evolves eq (inspect_container c)) /\ (forall c, evolves eq (stop_container c))
  /\ forall c f, evolves eq (remove_container c f).

Lemma apart_keeps {A} i (m : M A) : evolves eq m -> evolves (keeps_status i) m.
Proof. intros Hm w. rewrite <-(Hm w). reflexivity. Qed.

Lemma assign_keeps_status i f : (forall e, ex_status (f e) = ex_status e) -> evolves (keeps_status i) (assign i f).
Proof.
  intros Hf w. split; [done|]. intros e He. cbn. rewrite dget_dalter, String.eqb_refl, He. eexists. by split.
Qed.

Lemma emit_keeps_status i st ty actor p md : evolves (keeps_status i) (emit_simple st ty actor p md).
Proof.
  intros w. pose proof (stamped_emit st ty actor p [] md None None None None None w) as Hst. split; [apply Hst|].
  intros e He. destruct (stamped_execution i e _ _ Hst He) as (e' & He' & Hsame). exists e'. split; [done|].
  by rewrite (same_but_activity_field ex_status _ _ Hsame).
Qed.

(** Cleaning up the container of an execution always returns, whatever the manager
    does, and leaves the status and the waits. *)
Lemma cleanup_keeps i st r e w :
  manager_apart -> dget i (w_executions w) = Some e ->
  exists p st' w' e', cleanup_stale_execution_container i st r w = (Ok (p, st'), w')
    /\ dget i (w_executions w') = Some e' /\ ex_status e' = ex_status e /\ w_waits w' = w_waits w.
Proof.
  intros (Hin & Hstop & Hrem) He.
  assert (Hkeep : evolves (keeps_status i) (cleanup_stale_execution_container i st r)).
  { assert (Hnow : evolves (keeps_status i) utc_now) by (intros w0; split; [done|by eauto]).
    pose proof (fun c => apart_keeps i _ (Hin c)). pose proof (fun c => apart_keeps i _ (Hstop c)).
    pose proof (fun c f => apart_keeps i _ (Hrem c f)). pose proof (emit_keeps_status i).
    unfold cleanup_stale_execution_container. evolve; by apply assign_keeps_status. }
  assert (Hok : exists p w', cleanup_stale_execution_container i st r w = (Ok p, w')).
  { unfold cleanup_stale_execution_container. rewrite (bind_Ok (deref i) _ w e w) by (unfold deref; by rewrite He).
    destruct (ex_container_id e) as [cid|]; [|by eexists _, _].
    destruct (_ || _); [by eexists _, _|]. apply total_try. intros exc. apply total_ret. }
  destruct Hok as ([p st'] & w' & Hrun). specialize (Hkeep w). unfold world_after in Hkeep. rewrite Hrun in Hkeep.
  destruct Hkeep as [Hw Hx]. destruct (Hx e He) as (e' & He' & Hs). by exists p, st', w', e'.
Qed.

(** The end of a repair: release the lease, record the repair, save, report. *)
Lemma repair_one_spec i e c b w :
  manager_apart -> dget i (w_executions w) = Some e ->
  result_of (has_completed_workflow_checkpoint e) w = Ok b ->
  let action := repair_action_for (ex_status e) b in
  exists item w' e', repair_one i e c w = (Ok item, w')
    /\ rp_execution_id item = i /\ rp_previous_status item = ex_status e
    /\ rp_action item = action /\ rp_new_status item = repaired_status action
    /\ dget i (w_executions w') = Some e' /\ ex_status e' = repaired_status action
    /\ ex_worker_id e' = None /\ ex_last_heartbeat_at e' = None /\ w_waits w' = w_waits w.
Proof.
  intros Hmanager He Hb action. unfold repair_one. rewrite bind_unfold, (has_completed_pure e w w), Hb.
  cbv zeta. fold action. clearbody action.
  destruct (apply_repair_spec i action e w He) as (ty & w1 & e1 & E1 & He1 & Hd1 & Hw1).
  rewrite bind_unfold, E1. rewrite bind_unfold.
  assert (Hsnap : forall r, exists p w2, (if bool_decide (action = MARKED_COMPLETED) then mret None
      else partial_result_preservation_snapshot i r) w1 = (Ok p, w2)
    /\ w_executions w2 = w_executions w1 /\ w_waits w2 = w_waits w1).
  { intros r. destruct (bool_decide _); [by exists None, w1|].
    destruct (snapshot_spec i r e1 w1 He1) as (p & w2 & E & Hx & Hw & _). by exists p, w2. }
  match goal with |- context [partial_result_preservation_snapshot i ?r] =>
    destruct (Hsnap r) as (p & w2 & E2 & Hex2 & Hw2) end.
  rewrite E2. clear Hsnap. rewrite <-Hex2 in He1. rewrite bind_unfold.
  destruct (state_of_log_spec i (ex_workflow_id e) w2) as (st & w3 & E3 & _ & Hst3 & _). rewrite E3.
  destruct (stamped_execution i e1 w2 w3 Hst3 He1) as (e3 & He3 & Hsame3).
  assert (Hd3 : ex_status e3 = repaired_status action)
    by by rewrite (same_but_activity_field ex_status _ _ Hsame3). rewrite bind_unfold.
  assert (Hcl : forall r, exists p st' w4 e4, (if bool_decide (action = MARKED_CANCELLED) then mret (None, st)
    else cleanup_stale_execution_container i st r) w3 = (Ok (p, st'), w4)
    /\ dget i (w_executions w4) = Some e4 /\ ex_status e4 = ex_status e3 /\ w_waits w4 = w_waits w3).
  { intros r. destruct (bool_decide (action = MARKED_CANCELLED)); [by exists None, st, w3, e3|].
    by apply cleanup_keeps. }
  match goal with |- context [cleanup_stale_execution_container i st ?r] =>
    destruct (Hcl r) as (report & st' & wk & ek & Ek & Hek & Hsk & Hwk) end. clear Hcl. rewrite <-Hsk in Hd3.
  rewrite Ek. rewrite bind_unfold.
  assert (Hexp : exists ids w4, (if bool_decide (action = FAILED_ABANDONED_APPROVAL)
      then expire_pending_execution_approvals i abandoned_approval_error else mret []) wk = (Ok ids, w4)
    /\ w_executions w4 = w_executions wk /\ w_waits w4 = w_waits wk).
  { destruct (bool_decide (action = FAILED_ABANDONED_APPROVAL)); [|by exists [], wk].
    unfold expire_pending_execution_approvals. rewrite bind_unfold. cbn [list_approval_requests gets].
    apply expire_approvals_spec. }
  destruct Hexp as (ids & w4 & E4 & Hex4 & Hw4). rewrite E4. rewrite <-Hex4 in Hek.
  pose proof (sp_waits _ _ Hst3) as Hw3.
  step_assign Hek. step_assign Hek. rewrite bind_unfold. cbn [utc_now].
  match goal with |- context [set_w_clock ?n ?w0] => set (wc := set_w_clock n w0);
    assert (Hec : dget i (w_executions wc) = dget i (w_executions w0)) by done;
    assert (Hwc : w_waits wc = w_waits w0) by done end.
  rewrite Hek in Hec. clearbody wc.
  step_assign Hec. rewrite bind_unfold. cbn [utc_now].
  match goal with |- context [set_w_clock ?n ?w0] => set (wd := set_w_clock n w0);
    assert (Hed : dget i (w_executions wd) = dget i (w_executions w0)) by done;
    assert (Hwd : w_waits wd = w_waits w0) by done end.
  rewrite Hec in Hed. clearbody wd.
  step_assign Hed. step_assign Hed. rewrite bind_unfold. unfold deref at 1. rewrite Hed.
  rewrite bind_unfold.
  match goal with |- context [emit_simple st' ty None ?p [] ?w0] =>
    destruct (emit_simple_spec st' ty None p [] i _ w0 Hed) as (r & w9 & e9 & E9 & He9 & Hs9 & Hw9) end.
  rewrite E9.
  eexists _, w9, e9. split; [reflexivity|]. split; [done|]. split; [done|]. split; [done|].
  split; [exact Hd3|]. split; [done|].
  rewrite (same_but_activity_field ex_status _ _ Hs9), (same_but_activity_field ex_worker_id _ _ Hs9),
    (same_but_activity_field ex_last_heartbeat_at _ _ Hs9) by done.
  split; [exact Hd3|]. split; [done|]. split; [done|]. congruence.
Qed.

(** The candidate is stale at the next reading of the clock. *)
Definition stale_now (e : Execution) (w : world) : bool :=
  sl_is_stale (classify_at (env_now (w_clock w)) e cfg_stale_after_seconds None None).


(** An execution that is not stale is left alone: the only effect of the
    repair loop on it is a reading of the clock. *)
Lemma repair_leaves_fresh i e wf ex w :
  dget i (w_executions w) = Some e -> stale_now e w = false ->
  exists n, repair_candidate wf ex i w = (Ok [], set_w_clock n w).
Proof.
  intros He Hs. unfold repair_candidate. rewrite bind_unfold. unfold deref. rewrite He.
  assert (Hid : set_w_clock (w_clock w) w = w) by by destruct w.
  destruct (match ex with Some _ => _ | None => _ end); [exists (w_clock w); by rewrite Hid|].
  destruct (match wf with Some _ => _ | None => _ end); [exists (w_clock w); by rewrite Hid|].
  destruct (negb _); [exists (w_clock w); by rewrite Hid|].
  unfold classify_execution_staleness. rewrite !bind_unfold. cbn [utc_now mret M_ret].
  unfold stale_now in Hs. rewrite Hs. by eexists.
Qed.
End RepairOutcome.
