(* ===== verification/Worker.v ===== *)
(** * The isolated worker

    [run_execution_worker] of [app/runtime/worker.py], with the exit codes of
    [app/runtime/worker_protocol.py] through which the worker's container tells
    the control plane how the run ended.

    The heartbeat task runs beside the worker and only refreshes the lease (see
    [Leases]); closing browser sessions does not touch the store.  What depends
    on the event loop is given: how many attempts on the lock fit before the
    deadline, the run under a timeout, and the lines of a traceback. *)

From Corelib Require Import SpecFloat.
From S2P Require Export ControlPlane Tasks.

(** ** Exit codes *)

Definition WORKER_EXIT_SUCCESS : Z := 0.
Definition WORKER_EXIT_WORKFLOW_FAILED : Z := 10.
Definition WORKER_EXIT_BOOTSTRAP_FAILED : Z := 20.
Definition WORKER_EXIT_INFRA_FAILED : Z := 30.
Definition WORKER_EXIT_CANCELLED : Z := 40.
Definition WORKER_EXIT_SUSPENDED : Z := 50.

(** [o == n] for an optional integer. *)
Definition opt_is (o : option Z) (n : Z) : bool := match o with Some m => m =? n | None => false end.

(** [worker_exit_reason] *)
Definition worker_exit_reason (exit_code : option Z) : string :=
  if opt_is exit_code WORKER_EXIT_SUCCESS then "worker_exit_success"
  else if opt_is exit_code WORKER_EXIT_WORKFLOW_FAILED then "worker_exit_workflow_failed"
  else if opt_is exit_code WORKER_EXIT_BOOTSTRAP_FAILED then "worker_exit_bootstrap_failed"
  else if opt_is exit_code WORKER_EXIT_INFRA_FAILED then "worker_exit_infra_failed"
  else if opt_is exit_code WORKER_EXIT_CANCELLED then "worker_exit_cancelled"
  else if opt_is exit_code WORKER_EXIT_SUSPENDED then "worker_exit_suspended"
  else "worker_exit_unknown".

(** [_exit_code_for_execution] *)
Definition exit_code_for_execution (e : Execution) : Z :=
  match ex_status e with
  | COMPLETED => WORKER_EXIT_SUCCESS
  | CANCELLED => WORKER_EXIT_CANCELLED
  | FAILED => WORKER_EXIT_WORKFLOW_FAILED
  | WAITING_FOR_INPUT | WAITING_FOR_APPROVAL | WAITING_FOR_EVENT | SLEEPING | PAUSED => WORKER_EXIT_SUSPENDED
  | _ => WORKER_EXIT_INFRA_FAILED
  end.

(** [worker_id_for_execution] *)
Definition worker_id_for_execution (execution_id : string) : string := "container-worker-" +:+ execution_id.

(** ** The environment of the process *)

Record WorkerEnvironment := mkWorkerEnvironment {
  we_execution_id : string;
  we_workflow_id : string;
  we_goal_id : option string;
  we_runtime_revision_id : string;
  we_runtime_adapter_id : string;
  we_worker_id : string;
  we_heartbeat_interval_seconds : spec_float;
  we_execution_timeout_seconds : option spec_float
}.

(** [source.get(k)] that must not be empty *)
Definition required_variable (source : string -> option string) (k : string) : M string :=
  match source k with
  | Some (String a s) => mret (String a s)
  | _ => raise RuntimeError (k +:+ " is required")
  end.

(** [float(...)] of a text *)
Definition float_variable (s : string) : M spec_float :=
  match py_float (PStr s) with
  | FloatValue f => mret f
  | _ => raise ValueError ("could not convert string to float: " +:+ repr_str s)
  end.

(** A text that is not empty. *)
Definition nonempty (o : option string) : option string := if str_truthy o then o else None.

(** [load_worker_environment] *)
Definition load_worker_environment (source : string -> option string) : M WorkerEnvironment :=
  execution_id ← required_variable source "AGENCY_EXECUTION_ID";
  workflow_id ← required_variable source "AGENCY_WORKFLOW_ID";
  runtime_revision_id ← required_variable source "AGENCY_RUNTIME_REVISION_ID";
  runtime_adapter_id ← required_variable source "AGENCY_RUNTIME_ADAPTER_ID";
  interval ← float_variable (default "1.0" (source "AGENCY_HEARTBEAT_INTERVAL_SECONDS"));
  timeout ← match nonempty (source "AGENCY_EXECUTION_TIMEOUT_SECONDS") with
            | Some s => f ← float_variable s; mret (Some f)
            | None => mret None
            end;
  mret (mkWorkerEnvironment execution_id workflow_id (nonempty (source "AGENCY_GOAL_ID"))
          runtime_revision_id runtime_adapter_id
          (default (worker_id_for_execution execution_id) (nonempty (source "AGENCY_WORKER_ID")))
          interval timeout).

(** ** The compute time of a run

    [_run_with_active_execution_timeout] polls the task; the time between two
    polls is charged unless the execution was waiting for an approval at the
    first of them.  A poll: the time since the last one, whether the task is
    done, and whether the execution now waits for an approval. *)

Record poll := mkPoll { pl_elapsed : Z; pl_done : bool; pl_waiting : bool }.

Inductive watch_verdict :=
  | TaskDone
  | TimedOut
  | Watching (remaining : Z) (waiting : bool).

Fixpoint watch_task (remaining : Z) (waiting : bool) (polls : list poll) : watch_verdict :=
  match polls with
  | [] => Watching remaining waiting
  | p :: polls' =>
      let remaining := if waiting then remaining else remaining - pl_elapsed p in
      if pl_done p then TaskDone
      else if (remaining <=? 0) && negb (pl_waiting p) then TimedOut
      else watch_task remaining (pl_waiting p) polls'
  end.

(** ** The worker *)

(** What depends on the event loop and the interpreter. *)
Class WorkerContext := {
  lock_attempts : nat; (* how many attempts fit before the deadline *)
  run_within : string -> spec_float -> M string; (* [_run_with_active_execution_timeout] *)
  traceback_lines : exn -> list string
}.

Class WorkerLaws `{Env} `{WorkerContext} : Prop :=
  run_within_ledger : forall i t, evolves ledger (run_within i t).
#[export] Hint Resolve run_within_ledger : evolve.

Section Worker.
Context `{Env} `{Runtimes} `{WorkerContext}.

(** [metadata.setdefault("runtime_diagnostics", {})[key] = value] *)
Definition set_diagnostic (i key : string) (value : pyval) : M unit :=
  e ← deref i;
  match dget "runtime_diagnostics" (ex_metadata e) with
  | None => assign i (fun e => set_ex_metadata
              (dset "runtime_diagnostics" (PDict [(key, value)]) (ex_metadata e)) e)
  | Some (PDict d) => assign i (fun e => set_ex_metadata
              (dset "runtime_diagnostics" (PDict (dset key value d)) (ex_metadata e)) e)
  | Some _ => raise TypeError "object does not support item assignment"
  end.

(** [_mark_worker_failure] *)
Definition mark_worker_failure (i error : string) : M unit :=
  assign i (set_ex_status FAILED);;
  assign i (set_ex_error (Some error));;
  now ← utc_now;
  assign i (set_ex_completed_at (Some now));;
  e ← deref i;
  let failure := PDict [("error", PStr error); ("worker_id", opt_str (ex_worker_id e));
                        ("runtime_revision_id", opt_str (ex_runtime_revision_id e))] in
  set_diagnostic i "worker_failure" failure;;
  update_execution i;;
  st ← state_of_log i (ex_workflow_id e);
  emit_simple st EXECUTION_FAILED None [("error", PStr error); ("diagnostics", failure)] [];;
  mret tt.

(** A failure is recorded on the execution when there is one. *)
Definition fail_if_found (i error : string) : M unit :=
  found ← get_execution i;
  when (opt_some found) (mark_worker_failure i error).

(** The attempts on the lock; one second makes a lock stale. *)
Fixpoint retry_lock (attempts : nat) (i worker_id : string) : M bool :=
  match attempts with
  | O => mret false
  | S attempts' =>
      acquired ← acquire_lock i worker_id 1;
      if (acquired : bool) then mret true else retry_lock attempts' i worker_id
  end.

(** The identifiers of the run, for the code that the worker runs. *)
Definition worker_context_of (i workflow_id runtime_revision_id runtime_adapter_id worker_id : string)
    (goal_id : option string) (e : Execution) : M (dict pyval) :=
  previous ← py_dict (py_or (pget "worker_context" (ex_metadata e)) (PDict []));
  mret (dupdate previous
    [("execution_id", PStr i); ("workflow_id", PStr workflow_id);
     ("goal_id", opt_str (str_or goal_id (ex_goal_id e)));
     ("runtime_revision_id", PStr runtime_revision_id);
     ("runtime_adapter_id", PStr runtime_adapter_id); ("worker_id", PStr worker_id)]).

(** The body of the [try] of [run_execution_worker]. *)
Definition worker_body (i workflow_id runtime_revision_id runtime_adapter_id worker_id : string)
    (goal_id : option string) (timeout : option spec_float) : M Z :=
  found ← get_execution i;
  match found with
  | None => raise ExecutionNotFoundError ("Execution '" +:+ i +:+ "' was not found")
  | Some e =>
      assign i (set_ex_runtime_revision_id (Some runtime_revision_id));;
      worker_context ← worker_context_of i workflow_id runtime_revision_id runtime_adapter_id worker_id goal_id e;
      assign i (fun e => set_ex_metadata (dset "worker_context" (PDict worker_context) (ex_metadata e)) e);;
      update_execution i;;
      result ← match timeout with Some t => run_within i t | None => registry_start i end;
      e ← deref result;
      mret (exit_code_for_execution e)
  end.

(** Its [except] clauses. *)
Definition worker_failed (i : string) (timeout : option spec_float) (exc : exn) : M Z :=
  if bool_decide (exn_kind exc = TimeoutError) then
    fail_if_found i ("Execution worker timed out after "
      +:+ match timeout with Some t => env_float_repr t | None => "None" end +:+ " seconds");;
    mret WORKER_EXIT_INFRA_FAILED
  else if bool_decide (exn_kind exc = ExecutionNotFoundError) then mret WORKER_EXIT_BOOTSTRAP_FAILED
  else
    found ← get_execution i;
    when (opt_some found)
      (set_diagnostic i "worker_exception"
         (PDict [("error_type", PStr (exn_name (exn_kind exc))); ("message", PStr (exn_message exc));
                 ("traceback", PList (map PStr (last_n 20 (traceback_lines exc))))]);;
       mark_worker_failure i ("Execution worker failed before completion: "
         +:+ exn_name (exn_kind exc) +:+ ": " +:+ exn_message exc));;
    mret WORKER_EXIT_INFRA_FAILED.

(** [run_execution_worker] *)
Definition run_execution_worker (i workflow_id runtime_revision_id runtime_adapter_id worker_id : string)
    (goal_id : option string) (timeout : option spec_float) : M Z :=
  if negb (String.eqb runtime_adapter_id "native") then
    fail_if_found i ("Isolated worker does not support runtime adapter '" +:+ runtime_adapter_id +:+ "'");;
    mret WORKER_EXIT_BOOTSTRAP_FAILED
  else
    acquired ← retry_lock lock_attempts i worker_id;
    if negb acquired then
      fail_if_found i "Timed out acquiring execution lock inside worker";;
      mret WORKER_EXIT_BOOTSTRAP_FAILED
    else
      heartbeat i worker_id;;
      try_finally
        (try_except (worker_body i workflow_id runtime_revision_id runtime_adapter_id worker_id goal_id timeout)
           any_exn (worker_failed i timeout))
        (release_lock i worker_id;; mret tt).
End Worker.
