(* ===== verification/WorkerFacts.v ===== *)
(** * What the isolated worker guarantees

    The exit code of a worker tells the status it left the execution in, the
    worker gives its lock back, and time spent waiting for a human is not
    charged to a run. *)

From Corelib Require Import SpecFloat.
From S2P Require Export Worker RunFacts Lifecycle.

(** ** The ledger contract *)

Section WorkerLedger.
Context `{Env} `{Runtimes} `{WorkerContext} `{!RuntimesLaws} `{!WorkerLaws}.

Lemma ledger_set_diagnostic i k v : evolves ledger (set_diagnostic i k v).
Proof. unfold set_diagnostic. evolve. Qed.
Hint Resolve ledger_set_diagnostic : evolve.

Lemma ledger_mark_worker_failure i e : evolves ledger (mark_worker_failure i e).
Proof. unfold mark_worker_failure, emit_simple, update_execution. evolve. Qed.
Hint Resolve ledger_mark_worker_failure : evolve.

Lemma ledger_fail_if_found i e : evolves ledger (fail_if_found i e).
Proof. unfold fail_if_found, get_execution. evolve. Qed.
Hint Resolve ledger_fail_if_found : evolve.

Lemma ledger_retry_lock n i k : evolves ledger (retry_lock n i k).
Proof. induction n as [|n IH]; simpl; evolve. Qed.
Hint Resolve ledger_retry_lock : evolve.

Lemma ledger_run_execution_worker i wf rev ad k g t : evolves ledger (run_execution_worker i wf rev ad k g t).
Proof.
  unfold run_execution_worker, worker_body, worker_failed, worker_context_of, get_execution, update_execution. evolve.
Qed.
End WorkerLedger.
#[export] Hint Resolve ledger_run_execution_worker : evolve.

(** ** The compute time of a run *)

(** The time that is charged for a sequence of polls. *)
Fixpoint active_time (waiting : bool) (polls : list poll) : Z :=
  match polls with
  | [] => 0
  | p :: polls' => (if waiting then 0 else pl_elapsed p) + active_time (pl_waiting p) polls'
  end.

(** A run times out at the first poll at which the task is not done, the charged
    time has used up the limit, and the execution does not wait for an approval:
    a wait is free, however long. *)
Lemma watch_task_times_out limit waiting polls :
  watch_task limit waiting polls = TimedOut <->
  exists pre p post, polls = pre ++ p :: post
    /\ limit <= active_time waiting (pre ++ [p]) /\ pl_waiting p = false
    /\ Forall (fun q => pl_done q = false) (pre ++ [p])
    /\ forall pre1 q post1, pre = pre1 ++ q :: post1 ->
         active_time waiting (pre1 ++ [q]) < limit \/ pl_waiting q = true.
Proof.
  revert limit waiting. induction polls as [|p polls IH]; intros limit waiting; cbn [watch_task].
  { split; [done|]. by intros ([|? ?] & ? & ? & ? & _). }
  set (spent := if waiting then 0 else pl_elapsed p).
  assert (Hr : (if waiting then limit else limit - pl_elapsed p) = limit - spent)
    by (unfold spent; destruct waiting; lia). rewrite Hr. clear Hr.
  destruct (pl_done p) eqn:Hd.
  { split; [done|]. intros (pre & q & post & Heq & _ & _ & Hall & _).
    destruct pre as [|q' pre]; injection Heq as <- _; inversion Hall; congruence. }
  destruct ((limit - spent <=? 0) && negb (pl_waiting p)) eqn:Hout.
  { split; [|done]. intros _. apply andb_true_iff in Hout as [Hle%Z.leb_le Hw%negb_true_iff].
    exists [], p, polls. cbn. fold spent. split; [done|]. split; [lia|]. split; [done|]. split; [by constructor|].
    by intros [|? ?]. }
  assert (Hnot : spent < limit \/ pl_waiting p = true).
  { apply andb_false_iff in Hout as [Hlt%Z.leb_gt|Hw%negb_false_iff]; [left; lia|by right]. }
  rewrite IH. split.
  - intros (pre & q & post & -> & Hle & Hw & Hall & Hmin). exists (p :: pre), q, post. cbn. fold spent.
    split; [done|]. split; [lia|]. split; [done|]. split; [by constructor|].
    intros [|q' pre1] q1 post1; cbn; [intros [= <- _]; fold spent; destruct Hnot; [left; lia|by right]|].
    intros [= <- Hpre]. fold spent. destruct (Hmin _ _ _ Hpre); [left; lia|by right].
  - intros ([|q' pre] & q & post & Heq & Hle & Hw & Hall & Hmin).
    + injection Heq as <- _. cbn in Hle. fold spent in Hle. destruct Hnot; [lia|congruence].
    + injection Heq as <- ->. cbn in Hle, Hall. fold spent in Hle. inversion Hall as [|? ? _ Hall']; subst.
      exists pre, q, post. split; [done|]. split; [lia|]. split; [done|]. split; [done|].
      intros pre1 q1 post1 ->. specialize (Hmin (p :: pre1) q1 post1 eq_refl). cbn in Hmin. fold spent in Hmin.
      destruct Hmin; [left; lia|by right].
Qed.

(** ** The exit code *)

Definition is_suspended (e : Execution) : bool :=
  bool_decide (ex_status e ∈ [WAITING_FOR_INPUT; WAITING_FOR_APPROVAL; WAITING_FOR_EVENT; SLEEPING; PAUSED]).

(** The exit code tells the status, unless the worker could not start. *)
Definition reported (code : Z) (e : Execution) : Prop :=
  code = exit_code_for_execution e \/ code = WORKER_EXIT_INFRA_FAILED /\ ex_status e = FAILED.

Section WorkerFacts.
Context `{Env} `{Runtimes} `{WorkerContext}.

Lemma mark_worker_failure_leaves i msg : leaves i [FAILED] (mark_worker_failure i msg).
Proof.
  unfold mark_worker_failure. apply leaves_then; [apply leaves_assign; by left|]. intros _.
  unfold set_diagnostic. evolve; try (by apply status_assign).
  - apply status_utc_now.
  - apply status_update_execution.
  - apply status_stamped. intros w'. destruct (state_of_log_spec i (ex_workflow_id a2) w') as (st & w2 & E & _ & Hs & _).
    unfold world_after. by rewrite E.
  - apply status_stamped. unfold emit_simple. apply stamped_emit.
Qed.

Lemma fail_if_found_leaves i msg : leaves i [FAILED] (fail_if_found i msg).
Proof.
  intros w [] w' (found & w1 & Hf & Hr)%bind_inv. injection Hf as <- <-.
  destruct (dget i (w_executions w)) as [e|] eqn:He; cbn in Hr.
  - by eapply mark_worker_failure_leaves.
  - injection Hr as <-. intros e'. by rewrite He.
Qed.

Lemma worker_failed_reports i t exc w code w' e :
  worker_failed i t exc w = (Ok code, w') -> dget i (w_executions w') = Some e ->
  code = WORKER_EXIT_BOOTSTRAP_FAILED \/ code = WORKER_EXIT_INFRA_FAILED /\ ex_status e = FAILED.
Proof.
  unfold worker_failed. intros Hr He.
  assert (Hone : ex_status e ∈ [FAILED] -> ex_status e = FAILED) by apply list_elem_of_singleton.
  case_bool_decide.
  - right. apply bind_inv in Hr as ([] & w1 & Hf & Hr). injection Hr as <- <-.
    split; [done|]. by eapply Hone, fail_if_found_leaves.
  - case_bool_decide; [by injection Hr; left|]. right.
    apply bind_inv in Hr as (found & w1 & Hf & Hr). injection Hf as <- <-.
    apply bind_inv in Hr as ([] & w2 & Hw & Hr). injection Hr as <- <-.
    destruct (dget i (w_executions w)) as [e0|] eqn:He0; cbn [opt_some when] in Hw.
    + split; [done|]. apply Hone. revert Hw He. intros Hw.
      eapply leaves_bind; [intros ?; apply mark_worker_failure_leaves|exact Hw].
    + injection Hw as <-. congruence.
Qed.

Lemma release_lock_gives_back i k w w' e :
  (release_lock i k;; mret tt) w = (Ok tt, w') -> dget i (w_executions w') = Some e ->
  exists e0, dget i (w_executions w) = Some e0 /\ ex_status e = ex_status e0 /\ ex_worker_id e <> Some k.
Proof.
  unfold release_lock. execute. destruct (dget i (w_executions w)) as [e0|] eqn:He0.
  - destruct (opt_eqb (ex_worker_id e0) (Some k)) eqn:Hk; cbn.
    + intros [= <-]. cbn. rewrite dget_dalter, String.eqb_refl, He0. intros [= <-]. by exists e0.
    + intros [= <-]. rewrite He0. intros [= <-]. exists e0. split; [done|]. split; [done|].
      intros Heq. rewrite Heq in Hk. cbn in Hk. by rewrite String.eqb_refl in Hk.
  - intros [= <-]. congruence.
Qed.

(** A run returns the execution it was given. *)
Context (Hstart : forall i w j w', registry_start i w = (Ok j, w') -> j = i).
Context (Hwithin : forall i t w j w', run_within i t w = (Ok j, w') -> j = i).

Lemma worker_body_reports i wf rev ad k g t w code w' e :
  worker_body i wf rev ad k g t w = (Ok code, w') -> dget i (w_executions w') = Some e ->
  code = exit_code_for_execution e.
Proof.
  unfold worker_body. intros (found & w1 & _ & Hr)%bind_inv. destruct found as [e0|]; [|done].
  do 4 (apply bind_inv in Hr as (? & ? & _ & Hr)).
  apply bind_inv in Hr as (j & w2 & Hj & Hr).
  assert (j = i) as -> by by (destruct t; eauto).
  apply bind_inv in Hr as (e1 & w3 & He1 & Hr). injection Hr as <- <-.
  unfold deref in He1. destruct (dget i (w_executions w2)) eqn:Hg; [|done]. injection He1 as -> ->.
  congruence.
Qed.

(** The exit code of an isolated worker tells how its run ended.  Whatever the
    run does, a worker that returns a code other than the bootstrap failure gave
    its lock back, and left the execution in the status that the code stands for,
    or, for the infrastructure failure, failed. *)
Lemma exit_code_reports_status i wf rev ad k g t w code w' e :
  run_execution_worker i wf rev ad k g t w = (Ok code, w') ->
  dget i (w_executions w') = Some e -> code <> WORKER_EXIT_BOOTSTRAP_FAILED ->
  reported code e /\ ex_worker_id e <> Some k.
Proof.
  unfold run_execution_worker. intros Hr He Hcode. destruct (negb (String.eqb ad "native")).
  { by apply bind_inv in Hr as (? & ? & _ & [= <- _]). }
  apply bind_inv in Hr as (acquired & w1 & _ & Hr). destruct acquired; cbn [negb] in Hr.
  2: { by apply bind_inv in Hr as (? & ? & _ & [= <- _]). }
  apply bind_inv in Hr as (? & w2 & _ & Hr). unfold try_finally in Hr.
  destruct (try_except _ _ _ w2) as [r w3] eqn:Htry.
  destruct ((release_lock i k;; mret tt) w3) as [[[]|] w4] eqn:Hrel; [|done]. injection Hr as -> <-.
  destruct (release_lock_gives_back _ _ _ _ _ Hrel He) as (e0 & He0 & Hst & Hlock).
  split; [|done].
  assert (Hrep : reported code e0).
  { unfold try_except in Htry. destruct (worker_body _ _ _ _ _ _ _ w2) as [[c|exc] w5] eqn:Hbody.
    - injection Htry as -> ->. left. by eapply worker_body_reports.
    - cbn in Htry. by destruct (worker_failed_reports _ _ _ _ _ _ _ Htry He0) as [|]; [|right]. }
  unfold reported, exit_code_for_execution in *. by rewrite Hst.
Qed.

Lemma reported_suspended code e : reported code e -> is_suspended e = (code =? WORKER_EXIT_SUSPENDED).
Proof.
  unfold reported, exit_code_for_execution, is_suspended.
  intros [->|[-> ->]]; [|done]. by destruct (ex_status e).
Qed.
End WorkerFacts.
