(* ===== verification/Reconcile.v ===== *)
(** * Reconciling executions with their containers

    [RuntimeReconciler] of [app/runtime/reconcile.py]: a pass compares every
    execution that has a container with the containers that Docker lists, ends
    executions whose worker is gone as its exit code says, removes containers
    that nobody needs, and old images.

    The Docker manager is the interface [ContainerManager], extended with the
    listings of containers and images. *)

From S2P Require Export Worker Repair Policy.

Definition ACTIVE_EXECUTION_STATUSES : list string :=
  ["queued"; "running"; "waiting_for_input"; "waiting_for_approval"; "waiting_for_event"; "sleeping";
   "paused"; "cancelling"].
Definition TERMINAL_EXECUTION_STATUSES : list string := ["completed"; "failed"; "cancelled"].

Record ReconciliationAction := mkAction {
  act_name : string;
  act_execution_id : option string;
  act_container_id : option string;
  act_detail : option string
}.

Record ReconciliationReport := mkReport {
  rr_scanned_executions : Z;
  rr_scanned_containers : Z;
  rr_actions : list ReconciliationAction
}.

(** [RuntimeImageState] *)
Record ImageState := mkImage {
  im_image_id : string;
  im_tags : list string;
  im_created_at : option Z
}.

Class ReconcilerContext := {
  list_managed_containers : M (list ContainerState);
  list_managed_images : option (M (list ImageState)); (* when the manager can list and remove images *)
  remove_image : string -> M unit;
  runtime_container_ttl_seconds : Z;
  runtime_image_retention_count : Z
}.

Class ReconcilerLaws `{Env} `{ReconcilerContext} : Prop := {
  list_containers_ledger : evolves ledger list_managed_containers;
  list_images_ledger : forall m, list_managed_images = Some m -> evolves ledger m;
  remove_image_ledger : forall r, evolves ledger (remove_image r)
}.
#[export] Hint Resolve list_containers_ledger remove_image_ledger : evolve.

Definition is_active (e : Execution) : bool := mem_str (status_value (ex_status e)) ACTIVE_EXECUTION_STATUSES.
Definition is_finished (e : Execution) : bool := mem_str (status_value (ex_status e)) TERMINAL_EXECUTION_STATUSES.
Definition has_exited (c : ContainerState) : bool := mem_str (cs_status c) EXITED_CONTAINER_STATUSES.
Definition is_live (c : ContainerState) : bool := mem_str (cs_status c) LIVE_CONTAINER_STATUSES.

(** [except ContainerRuntimeError] *)
Definition container_error (e : exn) : bool := bool_decide (exn_kind e = ContainerRuntimeError).

(** [o or utc_now()] *)
Definition time_or_now `{Env} (o : option Z) : M Z := match o with Some t => mret t | None => utc_now end.

(** [f"... exit_code={exit_code}"] *)
Definition show_exit_code (o : option Z) : string := match o with Some n => show_Z n | None => "None" end.

(** The container whose id was listed last, as in [containers_by_id]. *)
Definition containers_by_id (containers : list ContainerState) : dict ContainerState :=
  fold_left (fun d c => dset (cs_container_id c) c d) containers [].

Section Reconciler.
Context `{Env} `{ContainerManager} `{ReconcilerContext}.

(** [_mark_execution_failed_for_missing_container] *)
Definition mark_execution_failed_for_missing_container (i : string) : M unit :=
  e ← deref i;
  st ← state_of_log i (ex_workflow_id e);
  assign i (set_ex_status FAILED);;
  assign i (set_ex_error (Some "Managed container is missing"));;
  now ← utc_now;
  assign i (set_ex_completed_at (Some now));;
  assign i (set_ex_container_status (Some "missing"));;
  assign i (set_ex_container_ended_at (Some now));;
  update_execution i;;
  e ← deref i;
  let or_unknown o := default "unknown" (nonempty o) in
  let synthetic := mkContainer (or_unknown (ex_container_id e)) (or_unknown (ex_container_name e))
    (or_unknown (ex_container_image e)) "missing" [] (ex_container_started_at e)
    (ex_container_ended_at e) (ex_container_exit_code e) in
  '(_, st) ← emit_simple st CONTAINER_FAILED None
    (container_payload synthetic (ex_runtime_revision_id e) (Some "managed_container_missing")
       [("error", opt_str (ex_error e))]) [];
  emit_simple st EXECUTION_FAILED None [("error", opt_str (ex_error e))] [];;
  mret tt.

(** The error of an execution whose container failed. *)
Definition exited_error (c : ContainerState) : string :=
  if opt_is (cs_exit_code c) WORKER_EXIT_WORKFLOW_FAILED then "Managed container reported workflow failure"
  else if opt_is (cs_exit_code c) WORKER_EXIT_BOOTSTRAP_FAILED then "Managed container worker bootstrap failed"
  else if opt_is (cs_exit_code c) WORKER_EXIT_INFRA_FAILED then "Managed container worker infrastructure failed"
  else "Managed container exited unexpectedly with status '" +:+ cs_status c +:+ "'".

(** The end of a branch: the outcome, its save, and the two events. *)
Definition finish_exited (i : string) (st : NativeExecutionState) (c : ContainerState)
    (status : ExecutionStatus) (error : option string) (container_event terminal_event : ExecutionEventType)
    (extra payload : dict pyval) : M unit :=
  assign i (set_ex_status status);;
  assign i (set_ex_error error);;
  update_execution i;;
  e ← deref i;
  '(_, st) ← emit_simple st container_event None
    (container_payload c (ex_runtime_revision_id e) (Some (worker_exit_reason (cs_exit_code c))) extra) [];
  emit_simple st terminal_event None payload [];;
  mret tt.

(** [_mark_execution_failed_for_exited_container] *)
Definition mark_execution_failed_for_exited_container (i : string) (c : ContainerState) : M unit :=
  e ← deref i;
  st ← state_of_log i (ex_workflow_id e);
  assign i (set_ex_container_status (Some (cs_status c)));;
  assign i (fun e => set_ex_container_ended_at
    (match cs_finished_at c with Some t => Some t | None => ex_completed_at e end) e);;
  assign i (set_ex_container_exit_code (cs_exit_code c));;
  let exit_reason := worker_exit_reason (cs_exit_code c) in
  e ← deref i;
  completion_time ← time_or_now (ex_container_ended_at e);
  if opt_is (cs_exit_code c) WORKER_EXIT_SUSPENDED then
    update_execution i;;
    emit_simple st CONTAINER_STOPPED None
      (container_payload c (ex_runtime_revision_id e) (Some exit_reason) []) [];;
    mret tt
  else
    assign i (fun e => set_ex_completed_at
      (match ex_completed_at e with Some t => Some t | None => Some completion_time end) e);;
    if opt_is (cs_exit_code c) WORKER_EXIT_SUCCESS then
      finish_exited i st c COMPLETED None CONTAINER_STOPPED EXECUTION_COMPLETED []
        [("reconciled", PBool true); ("reason", PStr exit_reason)]
    else if opt_is (cs_exit_code c) WORKER_EXIT_CANCELLED then
      finish_exited i st c CANCELLED None CONTAINER_STOPPED EXECUTION_CANCELLED []
        [("execution_id", PStr i); ("reconciled", PBool true); ("reason", PStr exit_reason)]
    else
      finish_exited i st c FAILED (Some (exited_error c)) CONTAINER_FAILED EXECUTION_FAILED
        [("error", PStr (exited_error c)); ("exit_reason", PStr exit_reason)]
        [("error", PStr (exited_error c)); ("reconciled", PBool true); ("reason", PStr exit_reason)].

(** Stop a live container and remove it. *)
Definition stop_and_remove (c : ContainerState) : M ContainerState :=
  current ← (if is_live c then stop_container (cs_container_id c) else mret c);
  remove_container (cs_container_id c) (has_exited current);;
  mret current.

(** The execution's record of a container that was removed. *)
Definition record_removed (i : string) (c : ContainerState) : M unit :=
  assign i (set_ex_container_status (Some "removed"));;
  e ← deref i;
  ended ← time_or_now (match cs_finished_at c with Some t => Some t | None => ex_container_ended_at e end);
  assign i (set_ex_container_ended_at (Some ended));;
  assign i (set_ex_container_exit_code (cs_exit_code c)).

(** [_reap_terminal_execution_container] *)
Definition reap_terminal_execution_container (i : string) (c : ContainerState) : M unit :=
  e ← deref i;
  st ← state_of_log i (ex_workflow_id e);
  current ← stop_and_remove c;
  record_removed i current;;
  update_execution i;;
  emit_simple st CONTAINER_STOPPED None
    (container_payload current (ex_runtime_revision_id e) (Some "terminal_execution_cleanup") []) [];;
  mret tt.

(** [_maybe_remove_finished_execution_container] *)
Definition maybe_remove_finished_execution_container (i : string) (c : ContainerState) : M bool :=
  e ← deref i;
  if negb (has_exited c) || negb (should_terminate_container_on_completion e) then mret false
  else
    removed ← try_except (remove_container (cs_container_id c) (has_exited c);; mret true)
                container_error (fun _ => mret false);
    if negb removed then mret false
    else
      record_removed i c;;
      e ← deref i;
      when (is_active e)
        (assign i (set_ex_container_id None);; assign i (set_ex_container_name None));;
      update_execution i;;
      mret true.

(** [_reap_orphan_container] *)
Definition reap_orphan_container (c : ContainerState) : M unit := stop_and_remove c;; mret tt.

(** [_sync_execution_container_state] *)
Definition sync_execution_container_state (i : string) (c : ContainerState) : M unit :=
  e ← deref i;
  let newer (old new : option Z) := opt_some new && negb (bool_decide (old = new)) in
  let status_changed := negb (opt_eqb (ex_container_status e) (Some (cs_status c))) in
  let started_changed := newer (ex_container_started_at e) (cs_started_at c) in
  let ended_changed := newer (ex_container_ended_at e) (cs_finished_at c) in
  let code_changed := newer (ex_container_exit_code e) (cs_exit_code c) in
  when status_changed (assign i (set_ex_container_status (Some (cs_status c))));;
  when started_changed (assign i (set_ex_container_started_at (cs_started_at c)));;
  when ended_changed (assign i (set_ex_container_ended_at (cs_finished_at c)));;
  when code_changed (assign i (set_ex_container_exit_code (cs_exit_code c)));;
  when (status_changed || started_changed || ended_changed || code_changed) (update_execution i).

(** ** One execution *)

Definition missing_action (i cid : string) : ReconciliationAction :=
  mkAction "execution_missing_container" (Some i) (Some cid) (Some "Active execution lost its managed container").

(** The worker's container of an active execution has exited. *)
Definition reconcile_exited (i : string) (c : ContainerState) : M (list ReconciliationAction) :=
  mark_execution_failed_for_exited_container i c;;
  removed ← maybe_remove_finished_execution_container i c;
  mret (mkAction "execution_container_exited" (Some i) (Some (cs_container_id c))
          (Some ("Container status=" +:+ cs_status c +:+ " exit_code=" +:+ show_exit_code (cs_exit_code c)))
        :: if (removed : bool)
           then [mkAction "execution_container_removed" (Some i) (Some (cs_container_id c))
                   (Some "Execution container removed after terminal worker exit")]
           else []).

(** The container of a finished execution. *)
Definition reconcile_finished (i : string) (e : Execution) (c : ContainerState) : M (list ReconciliationAction) :=
  if should_terminate_container_on_completion e then
    reap_terminal_execution_container i c;;
    mret [mkAction "terminal_execution_container_reaped" (Some i) (Some (cs_container_id c))
            (Some ("Container status=" +:+ cs_status c))]
  else
    sync_execution_container_state i c;;
    mret [mkAction "terminal_execution_container_retained" (Some i) (Some (cs_container_id c))
            (Some "Execution lifecycle retained terminal container")].

(** The body of the first loop of [reconcile_once]. *)
Definition reconcile_listed (by_id : dict ContainerState) (i : string) : M (list ReconciliationAction) :=
  e ← deref i;
  match nonempty (ex_container_id e) with
  | None => mret []
  | Some cid =>
      match dget cid by_id with
      | None =>
          if is_active e then
            mark_execution_failed_for_missing_container i;; mret [missing_action i cid]
          else mret []
      | Some c =>
          if is_active e && has_exited c then reconcile_exited i c
          else if is_finished e && (is_live c || has_exited c) then reconcile_finished i e c
          else sync_execution_container_state i c;; mret []
      end
  end.

(** [reconcile_execution] *)
Definition reconcile_execution (i : string) (known_container : option ContainerState) : M ReconciliationReport :=
  found ← get_execution i;
  match found with
  | None => mret (mkReport 0 0 [])
  | Some e =>
      container ←
        match nonempty (ex_container_id e), known_container with
        | Some cid, None => try_except (c ← inspect_container cid; mret (Some c)) container_error (fun _ => mret None)
        | _, known => mret known
        end;
      e ← deref i;
      actions ←
        match nonempty (ex_container_id e) with
        | None => mret []
        | Some cid =>
            match container with
            | None =>
                if is_active e then
                  mark_execution_failed_for_missing_container i;; mret [missing_action i cid]
                else mret []
            | Some c =>
                if is_active e && has_exited c then reconcile_exited i c
                else
                  sync_execution_container_state i c;;
                  mret [mkAction "execution_container_synced" (Some i) (Some (cs_container_id c))
                          (Some ("Container status=" +:+ cs_status c))]
            end
        end;
      mret (mkReport 1 (if opt_some container then 1 else 0) actions)
  end.

(** ** One pass *)

(** The containers whose execution does not exist. *)
Definition reap_orphan (executions : list string) (c : ContainerState) : M (list ReconciliationAction) :=
  let execution_id := pget "agency.execution_id" (cs_labels c) in
  match execution_id with
  | PStr (String a s) =>
      if mem_str (String a s) executions then mret []
      else
        reap_orphan_container c;;
        mret [mkAction "orphan_container_reaped" (Some (String a s)) (Some (cs_container_id c))
                (Some "Managed container had no matching execution row")]
  | _ => mret []
  end.

(** The body of the loop of [_cleanup_expired_containers]. *)
Definition remove_expired (now : Z) (c : ContainerState) : M (list ReconciliationAction) :=
  match cs_finished_at c with
  | None => mret []
  | Some finished_at =>
      if negb (has_exited c) then mret []
      else if now - finished_at <? runtime_container_ttl_seconds * us_per_second then mret []
      else
        try_except
          (remove_container (cs_container_id c) true;;
           mret [mkAction "expired_container_reaped" (as_str (pget "agency.execution_id" (cs_labels c)))
                   (Some (cs_container_id c))
                   (Some ("Container older than TTL (" +:+ show_Z runtime_container_ttl_seconds +:+ "s)"))])
          container_error (fun _ => mret [])
  end.

(** [_cleanup_expired_containers] *)
Definition cleanup_expired_containers (containers : list ContainerState) : M (list ReconciliationAction) :=
  now ← utc_now;
  collect (remove_expired now) containers.

(** Newest first.  Dates with and without a time zone are not compared: an image
    without a date counts as the naive [datetime.min]. *)
Definition newer_image (a b : ImageState) : bool :=
  match im_created_at a, im_created_at b with
  | Some x, Some y => y <=? x
  | _, _ => true
  end.

Definition sort_images (images : list ImageState) : M (list ImageState) :=
  if existsb (fun im => opt_some (im_created_at im)) images
     && existsb (fun im => negb (opt_some (im_created_at im))) images
  then raise TypeError "can't compare offset-naive and offset-aware datetimes"
  else mret (py_sorted newer_image images).

(** The body of the loop of [_cleanup_old_images]. *)
Definition remove_old_image (active_image_refs : list string) (im : ImageState) : M (list ReconciliationAction) :=
  let refs := match im_tags im with [] => [im_image_id im] | tags => tags end in
  match List.find (fun ref => negb (mem_str ref active_image_refs)) refs with
  | None => mret []
  | Some ref =>
      try_except (remove_image ref;; mret [mkAction "stale_image_removed" None None (Some ref)])
        container_error (fun _ => mret [])
  end.

(** [_cleanup_old_images] *)
Definition cleanup_old_images : M (list ReconciliationAction) :=
  match list_managed_images with
  | None => mret []
  | Some list_images =>
      listed ← list_images;
      images ← sort_images listed;
      if Z.of_nat (List.length images) <=? runtime_image_retention_count then mret []
      else
        containers ← list_managed_containers;
        collect (remove_old_image (map cs_image containers))
          (drop (Z.to_nat runtime_image_retention_count) images)
  end.

(** [reconcile_once] *)
Definition reconcile_once : M ReconciliationReport :=
  executions ← list_executions [];
  containers ← list_managed_containers;
  actions ← collect (reconcile_listed (containers_by_id containers)) executions;
  orphans ← collect (reap_orphan executions) containers;
  expired ← cleanup_expired_containers containers;
  old_images ← cleanup_old_images;
  mret (mkReport (Z.of_nat (List.length executions)) (Z.of_nat (List.length containers))
          (actions ++ orphans ++ expired ++ old_images)).
End Reconciler.
