(* ===== verification/ReconcileFacts.v ===== *)
(** * What the reconciler guarantees

    Finished executions keep their outcome, an active execution whose worker is
    gone is ended as the exit code of its container says, a parked one stays
    parked, and after a pass no active execution is left with a container that
    is missing or that exited for another reason than a suspension. *)

From S2P Require Export Reconcile Lifecycle WorkerFacts.

(** * Following executions through a handler

    Two ways to state what a handler does to the executions of the store.
    [follows] tracks one execution, its waits and the types of its events through
    the steps of a handler that returns, up to the stamps of its events;
    [related] is the preorder of handlers that change every execution within a
    relation only, whether they return or raise. *)

(** ** Following one execution

    [follows i w0 e ts w]: since [w0] the execution [i] became [e], up to the
    stamps of its events; its log grew by events of the types [ts]; no wait
    changed. *)

Definition follows `{Env} (i : string) (w0 : world) (e : Execution) (ts : list ExecutionEventType)
    (w : world) : Prop :=
  (exists e1, dget i (w_executions w) = Some e1 /\ same_but_activity e e1)
  /\ w_waits w = w_waits w0
  /\ map ev_event_type (events_of i w) = map ev_event_type (events_of i w0) ++ ts.

(** An assignment that neither reads nor writes the metadata and the stamp. *)
Definition unstamping (f : Execution -> Execution) : Prop :=
  forall e, f (set_ex_updated_at 0 (set_ex_metadata [] e)) = set_ex_updated_at 0 (set_ex_metadata [] (f e))
    /\ ex_metadata (f e) = ex_metadata e.

Lemma unstamping_same f e e' : unstamping f -> same_but_activity e e' -> same_but_activity (f e) (f e').
Proof.
  intros Hf [Hb Hm]. destruct (Hf e) as [He Hme], (Hf e') as [He' Hme'].
  split; [by rewrite <-He, <-He', Hb|]. intros k Hk. rewrite Hme, Hme'. by apply Hm.
Qed.

Section Follows.
Context `{Env} (i : string) (w0 : world).

Lemma follows_start e : dget i (w_executions w0) = Some e -> follows i w0 e [] w0.
Proof. intros He. split; [by exists e|]. by rewrite app_nil_r. Qed.

Lemma follows_stamped e ts w w' :
  follows i w0 e ts w -> stamped w w' -> events_of i w' = events_of i w -> follows i w0 e ts w'.
Proof.
  intros ((e1 & He1 & Hs1) & Hw & Hev) Hst Heq.
  destruct (stamped_execution i e1 w w' Hst He1) as (e2 & He2 & Hs2).
  split; [exists e2; split; [done|by transitivity e1]|]. split; [by rewrite (sp_waits _ _ Hst)|by rewrite Heq].
Qed.

Lemma follows_deref e ts w : follows i w0 e ts w ->
  returns (deref i) w (fun e1 w' => same_but_activity e e1 /\ follows i w0 e ts w').
Proof.
  intros Hf. pose proof Hf as ((e1 & He1 & Hs1) & _). exists e1, w. unfold deref. by rewrite He1.
Qed.

Lemma follows_assign f e ts w : unstamping f -> follows i w0 e ts w ->
  returns (assign i f) w (fun _ w' => follows i w0 (f e) ts w').
Proof.
  intros Hf ((e1 & He1 & Hs1) & Hw & Hev). eapply returns_intro; [reflexivity|].
  split; [|done]. exists (f e1). cbn. rewrite dget_dalter, String.eqb_refl, He1.
  split; [done|]. by apply unstamping_same.
Qed.

Lemma follows_update e ts w : follows i w0 e ts w ->
  returns (update_execution i) w (fun _ w' => follows i w0 e ts w').
Proof.
  intros Hf. pose proof (stamped_repo_save_execution i w) as Hst.
  unfold update_execution, returns. destruct (total_repo_save_execution i w) as ([] & w' & Hrun).
  unfold world_after in Hst. rewrite Hrun in *. exists tt, w'. split; [done|].
  apply (follows_stamped e ts w w' Hf Hst). unfold repo_save_execution in Hrun. revert Hrun.
  execute. by intros [= <-].
Qed.

Lemma follows_state wf e ts w : follows i w0 e ts w ->
  returns (state_of_log i wf) w (fun st w' => st_execution_id st = i /\ follows i w0 e ts w').
Proof.
  intros Hf. destruct (state_of_log_spec i wf w) as (st & w' & Hrun & Hi & Hst & Hev).
  exists st, w'. split; [done|]. split; [done|]. apply (follows_stamped e ts w w' Hf Hst).
  unfold events_of. by rewrite Hev.
Qed.

Lemma follows_now e ts w : follows i w0 e ts w ->
  returns utc_now w (fun _ w' => follows i w0 e ts w').
Proof. intros Hf. eapply returns_intro; [reflexivity|exact Hf]. Qed.

Lemma follows_time o e ts w : follows i w0 e ts w ->
  returns (time_or_now o) w (fun _ w' => follows i w0 e ts w').
Proof. intros Hf. destruct o as [t|]; [by exists t, w|by apply follows_now]. Qed.

Lemma follows_emit st ty p e ts w : st_execution_id st = i -> follows i w0 e ts w ->
  returns (emit_simple st ty None p []) w
    (fun r w' => st_execution_id r.2 = i /\ follows i w0 e (ts ++ [ty]) w').
Proof.
  intros Hi ((e1 & He1 & Hs1) & Hw & Hev). unfold emit_simple.
  destruct (emit_appends st ty None p [] [] None None None None None w)
    as (ev & st' & w' & Hrun & Hty & _ & Hlog & _ & ->).
  pose proof (stamped_emit st ty None p [] [] None None None None None w) as Hst.
  unfold world_after in Hst. rewrite Hrun in Hst. cbn [snd] in Hst.
  eapply returns_intro; [exact Hrun|]. split; [done|].
  destruct (stamped_execution i e1 w w' Hst He1) as (e2 & He2 & Hs2).
  split; [exists e2; split; [done|by transitivity e1]|]. split; [by rewrite (sp_waits _ _ Hst)|].
  rewrite Hi in Hlog. rewrite Hlog, map_app, Hev, <-app_assoc. by rewrite <-Hty.
Qed.
End Follows.

(** One step of a handler on the execution that is followed. *)
Ltac follow :=
  match goal with
  | Hf : follows ?i ?w0 ?e ?ts ?w |- returns (?m ≫= _) ?w _ =>
      eapply returns_bind;
      [ match m with
        | deref i => apply (follows_deref i w0 e ts w Hf)
        | assign i _ => apply (follows_assign i w0 _ e ts w); [by intros ?|exact Hf]
        | update_execution i => apply (follows_update i w0 e ts w Hf)
        | state_of_log i _ => apply (follows_state i w0 _ e ts w Hf)
        | utc_now => apply (follows_now i w0 e ts w Hf)
        | time_or_now _ => apply (follows_time i w0 _ e ts w Hf)
        | emit_simple _ _ None _ [] => apply (follows_emit i w0 _ _ _ e ts w); [assumption|exact Hf]
        end
      | clear Hf; cbn beta; intros ];
      repeat match goal with
        | Hc : _ /\ follows _ _ _ _ _ |- _ => destruct Hc
        | x : () |- _ => destruct x
        | x : (_ * _)%type |- _ => destruct x; cbn [snd] in *
        end
  end.

(** ** What a step may change of every execution

    [related P] relates two worlds when each execution of the one became, by [P],
    the execution of the same id in the other. *)

Definition related (P : string -> relation Execution) (w w' : world) : Prop :=
  forall i, option_Forall2 (P i) (dget i (w_executions w)) (dget i (w_executions w')).

Section Related.
Context `{Env} (P : string -> relation Execution) `{!forall i, PreOrder (P i)}.
Context (Hstamp : forall i e e', same_but_activity e e' -> P i e e').

#[export] Instance related_preorder : PreOrder (related P).
Proof.
  split.
  - intros w i. destruct (dget i _); constructor. reflexivity.
  - intros w1 w2 w3 H1 H2 i. specialize (H1 i). specialize (H2 i).
    destruct H1; inversion H2; subst; constructor. etransitivity; eassumption.
Qed.

Lemma related_get i e w w' : related P w w' -> dget i (w_executions w) = Some e ->
  exists e', dget i (w_executions w') = Some e' /\ P i e e'.
Proof. intros Hr He. specialize (Hr i). rewrite He in Hr. inversion Hr; subst. eauto. Qed.

Lemma related_get_back i e' w w' : related P w w' -> dget i (w_executions w') = Some e' ->
  exists e, dget i (w_executions w) = Some e /\ P i e e'.
Proof. intros Hr He. specialize (Hr i). rewrite He in Hr. inversion Hr; subst. eauto. Qed.

Lemma related_same w w' : w_executions w' = w_executions w -> related P w w'.
Proof. intros Heq i. rewrite Heq. destruct (dget i _); constructor. reflexivity. Qed.

Lemma related_stamped {A} (m : M A) : evolves stamped m -> evolves (related P) m.
Proof.
  intros Hm w i. pose proof (sp_executions _ _ (Hm w) i) as Ho. inversion Ho; subst; constructor. by apply Hstamp.
Qed.

Lemma related_assign i f : (forall e, P i e (f e)) -> evolves (related P) (assign i f).
Proof.
  intros Hf w j. cbn. rewrite dget_dalter. destruct (String.eqb_spec j i) as [->|_].
  - destruct (dget i _); constructor. apply Hf.
  - destruct (dget j _); constructor. reflexivity.
Qed.

Lemma related_utc_now : evolves (related P) utc_now.
Proof. intros w. by apply related_same. Qed.
Lemma related_update i : evolves (related P) (update_execution i).
Proof. apply related_stamped, stamped_repo_save_execution. Qed.
Lemma related_emit st ty p : evolves (related P) (emit_simple st ty None p []).
Proof. apply related_stamped. unfold emit_simple. apply stamped_emit. Qed.
Lemma related_state i wf : evolves (related P) (state_of_log i wf).
Proof.
  apply related_stamped. intros w. destruct (state_of_log_spec i wf w) as (st & w' & E & _ & Hs & _).
  unfold world_after. by rewrite E.
Qed.
Lemma related_time o : evolves (related P) (time_or_now o).
Proof. unfold time_or_now. destruct o; [apply evolves_ret; exact _|apply related_utc_now]. Qed.
End Related.

(** ** The ledger contract *)

Section ReconcileLedger.
Context `{Env} `{ContainerManager} `{ReconcilerContext} `{!ContainerManagerLaws} `{!ReconcilerLaws}.

Lemma ledger_time_or_now o : evolves ledger (time_or_now o).
Proof. unfold time_or_now. evolve. Qed.
Lemma ledger_mark_missing i : evolves ledger (mark_execution_failed_for_missing_container i).
Proof. unfold mark_execution_failed_for_missing_container, update_execution, emit_simple. evolve. Qed.
Lemma ledger_finish_exited i st c s e t1 t2 x p : evolves ledger (finish_exited i st c s e t1 t2 x p).
Proof. unfold finish_exited, update_execution, emit_simple. evolve. Qed.
Lemma ledger_stop_and_remove c : evolves ledger (stop_and_remove c).
Proof. unfold stop_and_remove. evolve. Qed.
Lemma ledger_sync i c : evolves ledger (sync_execution_container_state i c).
Proof. unfold sync_execution_container_state, update_execution. evolve. Qed.
Hint Resolve ledger_time_or_now ledger_mark_missing ledger_finish_exited ledger_stop_and_remove ledger_sync : evolve.

Lemma ledger_mark_exited i c : evolves ledger (mark_execution_failed_for_exited_container i c).
Proof. unfold mark_execution_failed_for_exited_container, update_execution, emit_simple. evolve. Qed.
Lemma ledger_record_removed i c : evolves ledger (record_removed i c).
Proof. unfold record_removed. evolve. Qed.
Hint Resolve ledger_mark_exited ledger_record_removed : evolve.

Lemma ledger_reap_terminal i c : evolves ledger (reap_terminal_execution_container i c).
Proof. unfold reap_terminal_execution_container, update_execution, emit_simple. evolve. Qed.
Lemma ledger_maybe_remove i c : evolves ledger (maybe_remove_finished_execution_container i c).
Proof. unfold maybe_remove_finished_execution_container, update_execution. evolve. Qed.
Hint Resolve ledger_reap_terminal ledger_maybe_remove : evolve.

Lemma ledger_reconcile_exited i c : evolves ledger (reconcile_exited i c).
Proof. unfold reconcile_exited. evolve. Qed.
Lemma ledger_reconcile_finished i e c : evolves ledger (reconcile_finished i e c).
Proof. unfold reconcile_finished. evolve. Qed.
Hint Resolve ledger_reconcile_exited ledger_reconcile_finished : evolve.

Lemma ledger_reconcile_listed l i : evolves ledger (reconcile_listed l i).
Proof. unfold reconcile_listed. evolve. Qed.
Hint Resolve ledger_reconcile_listed : evolve.

Lemma ledger_reconcile_execution i c : evolves ledger (reconcile_execution i c).
Proof. unfold reconcile_execution, get_execution. evolve. Qed.

Lemma ledger_cleanup_old_images : evolves ledger cleanup_old_images.
Proof.
  unfold cleanup_old_images. destruct list_managed_images as [m|] eqn:Hm; [|evolve].
  pose proof (list_images_ledger m Hm). unfold sort_images, remove_old_image. evolve.
Qed.
Hint Resolve ledger_cleanup_old_images : evolve.

Lemma ledger_reconcile_once : evolves ledger reconcile_once.
Proof.
  unfold reconcile_once, list_executions, reap_orphan, reap_orphan_container, cleanup_expired_containers,
    remove_expired. evolve.
Qed.
End ReconcileLedger.
#[export] Hint Resolve ledger_reconcile_execution ledger_reconcile_once : evolve.

(** ** What an exit code decides *)

Definition exit_status (code : option Z) (previous : ExecutionStatus) : ExecutionStatus :=
  if opt_is code WORKER_EXIT_SUSPENDED then previous
  else if opt_is code WORKER_EXIT_SUCCESS then COMPLETED
  else if opt_is code WORKER_EXIT_CANCELLED then CANCELLED
  else FAILED.

Definition exit_error (c : ContainerState) (previous : option string) : option string :=
  if opt_is (cs_exit_code c) WORKER_EXIT_SUSPENDED then previous
  else if opt_is (cs_exit_code c) WORKER_EXIT_SUCCESS || opt_is (cs_exit_code c) WORKER_EXIT_CANCELLED then None
  else Some (exited_error c).

Definition exit_events (code : option Z) : list ExecutionEventType :=
  if opt_is code WORKER_EXIT_SUSPENDED then [CONTAINER_STOPPED]
  else if opt_is code WORKER_EXIT_SUCCESS then [CONTAINER_STOPPED; EXECUTION_COMPLETED]
  else if opt_is code WORKER_EXIT_CANCELLED then [CONTAINER_STOPPED; EXECUTION_CANCELLED]
  else [CONTAINER_FAILED; EXECUTION_FAILED].

(** The execution after its container was found exited. *)
Record exited_as (c : ContainerState) (e e' : Execution) : Prop := {
  xa_status : ex_status e' = exit_status (cs_exit_code c) (ex_status e);
  xa_error : ex_error e' = exit_error c (ex_error e);
  xa_completed : if opt_is (cs_exit_code c) WORKER_EXIT_SUSPENDED then ex_completed_at e' = ex_completed_at e
                 else exists t, ex_completed_at e' = Some t /\ forall t0, ex_completed_at e = Some t0 -> t = t0;
  xa_container_status : ex_container_status e' = Some (cs_status c);
  xa_exit_code : ex_container_exit_code e' = cs_exit_code c;
  xa_output : ex_output_payload e' = ex_output_payload e;
  xa_container_id : ex_container_id e' = ex_container_id e
}.

Lemma exited_as_same c e e1 e2 : exited_as c e e1 -> same_but_activity e1 e2 -> exited_as c e e2.
Proof.
  intros [] Hs. pose proof (fun A (f : Execution -> A) => same_but_activity_field f e1 e2 Hs) as Hf.
  split; rewrite Hf by (by intros ?); assumption.
Qed.

Section Outcome.
Context `{Env} `{ContainerManager}.

Lemma finish_exited_follows i w0 st c s err t1 t2 x p e ts w :
  st_execution_id st = i -> follows i w0 e ts w ->
  returns (finish_exited i st c s err t1 t2 x p) w
    (fun _ w' => follows i w0 (set_ex_error err (set_ex_status s e)) (ts ++ [t1; t2]) w').
Proof.
  intros Hst Hf. unfold finish_exited. do 6 follow. eexists tt, _. split; [reflexivity|].
  by rewrite <-app_assoc in *.
Qed.

(** An exited container ends its execution as its exit code says: completed,
    cancelled, or failed with the error of the code; the suspension code leaves
    status, error and completion time alone.  An earlier completion time is kept,
    no wait and no output changes, and the log gains the event of the container
    and, unless it was suspended, the terminal event of the execution. *)
Lemma exited_container_outcome i c e w :
  dget i (w_executions w) = Some e ->
  returns (mark_execution_failed_for_exited_container i c) w (fun _ w' =>
    exists e', dget i (w_executions w') = Some e' /\ exited_as c e e'
      /\ w_waits w' = w_waits w
      /\ map ev_event_type (events_of i w') = map ev_event_type (events_of i w) ++ exit_events (cs_exit_code c)).
Proof.
  intros He. pose proof (follows_start i w e He) as Hf. unfold mark_execution_failed_for_exited_container.
  do 7 follow.
  assert (Hend : forall e2 ts w2, follows i w e2 ts w2 -> exited_as c e e2 -> ts = exit_events (cs_exit_code c) ->
    exists e', dget i (w_executions w2) = Some e' /\ exited_as c e e' /\ w_waits w2 = w_waits w
      /\ map ev_event_type (events_of i w2) = map ev_event_type (events_of i w) ++ exit_events (cs_exit_code c)).
  { intros e2 ts w2 ((e3 & He3 & Hs3) & Hw & Hev) Hx ->. exists e3. split; [done|]. split; [|done].
    by apply (exited_as_same c e e2). }
  assert (Hdone : forall s err t1 t2 x p e3 st w3, st_execution_id st = i -> follows i w e3 [] w3 ->
    exited_as c e (set_ex_error err (set_ex_status s e3)) -> [t1; t2] = exit_events (cs_exit_code c) ->
    returns (finish_exited i st c s err t1 t2 x p) w3 (fun _ w' => exists e',
      dget i (w_executions w') = Some e' /\ exited_as c e e' /\ w_waits w' = w_waits w
      /\ map ev_event_type (events_of i w') = map ev_event_type (events_of i w) ++ exit_events (cs_exit_code c))).
  { intros s err t1 t2 x p e3 st w3 Hst Hf3 Hx Ht. eapply returns_mono; [by apply finish_exited_follows|].
    intros [] w4 Hf4. by eapply Hend. }
  clear H1 H3. destruct (opt_is (cs_exit_code c) WORKER_EXIT_SUSPENDED) eqn:Hsus.
  { do 2 follow. eexists tt, _. split; [reflexivity|]. eapply Hend; [eassumption| |].
    - split; unfold exit_status, exit_error; cbn; by rewrite ?Hsus.
    - unfold exit_events. by rewrite Hsus. }
  follow.
  destruct (opt_is (cs_exit_code c) WORKER_EXIT_SUCCESS) eqn:Hok;
    [|destruct (opt_is (cs_exit_code c) WORKER_EXIT_CANCELLED) eqn:Hcan];
    (eapply Hdone; [done|eassumption| |unfold exit_events; by rewrite Hsus, Hok, ?Hcan]);
    (split; unfold exit_status, exit_error; cbn; rewrite ?Hsus, ?Hok, ?Hcan; try done);
    destruct (ex_completed_at e) as [t0|]; eexists; (split; [reflexivity|]); congruence.
Qed.
End Outcome.

(** The manager never touches the stores, and fails with [ContainerRuntimeError]. *)
Definition harmless {A} (m : M A) : Prop :=
  forall w, (exists a, m w = (Ok a, w)) \/ exists e, container_error e = true /\ m w = (Raise e, w).

Record docker_lawful `{ContainerManager} `{ReconcilerContext} : Prop := {
  dl_inspect : forall c, harmless (inspect_container c);
  dl_stop : forall c, harmless (stop_container c);
  dl_remove : forall c f, harmless (remove_container c f);
  dl_list : harmless list_managed_containers;
  dl_images : forall m, list_managed_images = Some m -> harmless m;
  dl_remove_image : forall r, harmless (remove_image r)
}.

Lemma harmless_evolves {A} R `{!PreOrder R} (m : M A) : harmless m -> evolves R m.
Proof. intros Hm w. unfold world_after. destruct (Hm w) as [(a & ->)|(e & _ & ->)]; reflexivity. Qed.

Section Frames.
Context `{Env} `{ContainerManager} `{ReconcilerContext} (Hd : docker_lawful).

Lemma evolves_inspect R `{!PreOrder R} c : evolves R (inspect_container c).
Proof. apply harmless_evolves; [exact _|apply (dl_inspect Hd)]. Qed.
Lemma evolves_stop_and_remove R `{!PreOrder R} c : evolves R (stop_and_remove c).
Proof.
  assert (forall c, evolves R (stop_container c)) by (intros ?; apply harmless_evolves; [exact _|apply (dl_stop Hd)]).
  assert (forall c f, evolves R (remove_container c f)) by
    (intros ? ?; apply harmless_evolves; [exact _|apply (dl_remove Hd)]).
  unfold stop_and_remove. evolve.
Qed.

(** What follows the executions in a pass changes none of them. *)
Definition executions_same (w w' : world) : Prop := w_executions w' = w_executions w.
#[export] Instance executions_same_preorder : PreOrder executions_same.
Proof. split; [by intros w|intros w1 w2 w3; unfold executions_same; congruence]. Qed.

Lemma orphans_same l c : evolves executions_same (reap_orphan l c).
Proof.
  pose proof (evolves_stop_and_remove executions_same). unfold reap_orphan, reap_orphan_container. evolve.
Qed.
Lemma expired_same now c : evolves executions_same (remove_expired now c).
Proof.
  assert (forall c f, evolves executions_same (remove_container c f)) by
    (intros ? ?; apply harmless_evolves; [exact _|apply (dl_remove Hd)]).
  unfold remove_expired. evolve.
Qed.
Lemma images_same : evolves executions_same cleanup_old_images.
Proof.
  unfold cleanup_old_images. destruct list_managed_images as [m|] eqn:Hm; [|evolve].
  pose proof (harmless_evolves executions_same m (dl_images Hd m Hm)).
  pose proof (harmless_evolves executions_same list_managed_containers (dl_list Hd)).
  assert (forall r, evolves executions_same (remove_image r)) by
    (intros ?; apply harmless_evolves; [exact _|apply (dl_remove_image Hd)]).
  unfold sort_images, remove_old_image. evolve.
Qed.
End Frames.

(** ** One execution at a time *)

(** Only [i] is touched. *)
Definition touch (i : string) (j : string) (e e' : Execution) : Prop := j = i \/ same_but_activity e e'.

(** The outcome is kept; the link to the container may be cleared. *)
Record bookkept (e e' : Execution) : Prop := {
  bk_status : ex_status e' = ex_status e;
  bk_error : ex_error e' = ex_error e;
  bk_output : ex_output_payload e' = ex_output_payload e;
  bk_completed : ex_completed_at e' = ex_completed_at e;
  bk_link : ex_container_id e' = ex_container_id e \/ ex_container_id e' = None
}.

(** A finished execution keeps its outcome. *)
Definition outcome_kept (e e' : Execution) : Prop := is_finished e = true -> bookkept e e'.

#[export] Instance touch_preorder i j : PreOrder (touch i j).
Proof.
  split; [by right|]. intros e1 e2 e3 [->|H1] [Hj|H2]; [by left|by left|by left|]. right. by transitivity e2.
Qed.

#[export] Instance bookkept_preorder : PreOrder bookkept.
Proof.
  split; [split; auto|]. intros e1 e2 e3 [] [].
  split; [congruence..|]. destruct bk_link1; [|by right]. destruct bk_link0; [left|right]; congruence.
Qed.

#[export] Instance outcome_kept_preorder : PreOrder outcome_kept.
Proof.
  split; [by intros e Hf|]. intros e1 e2 e3 H1 H2 Hf. pose proof (H1 Hf) as H12. transitivity e2; [done|].
  apply H2. unfold is_finished in *. by rewrite (bk_status _ _ H12).
Qed.

Lemma same_bookkept e e' : same_but_activity e e' -> bookkept e e'.
Proof.
  intros Hs. pose proof (fun A (f : Execution -> A) => same_but_activity_field f e e' Hs) as Hf.
  split; [..|left]; apply Hf; by intros ?.
Qed.
Lemma same_touch i j e e' : same_but_activity e e' -> touch i j e e'.
Proof. by right. Qed.
Lemma touched i e e' : touch i i e e'.
Proof. by left. Qed.

Lemma active_not_finished e : is_active e = true -> is_finished e = false.
Proof. unfold is_active, is_finished. by destruct (ex_status e). Qed.
Lemma bookkept_active e e' : bookkept e e' -> is_active e' = is_active e.
Proof. intros Hb. unfold is_active. by rewrite (bk_status _ _ Hb). Qed.

Section Steps.
Context `{Env} `{ContainerManager} `{ReconcilerContext} (Hd : docker_lawful).
Abbreviation keeping := (related (fun _ => bookkept)).
Abbreviation touching := (fun i => related (touch i)).

#[local] Instance keeping_preorder : PreOrder keeping.
Proof. apply related_preorder. intros _. exact _. Qed.
#[local] Instance touching_preorder i : PreOrder (touching i).
Proof. apply related_preorder. intros j. exact _. Qed.

Lemma keeping_assign i f : (forall e, bookkept e (f e)) -> evolves keeping (assign i f).
Proof. intros Hf. apply related_assign; [by intros _; exact _|done]. Qed.
Lemma keeping_update i : evolves keeping (update_execution i).
Proof. apply related_update. by intros _ e e' ?%same_bookkept. Qed.
Lemma keeping_emit st ty p : evolves keeping (emit_simple st ty None p []).
Proof. apply related_emit. by intros _ e e' ?%same_bookkept. Qed.
Lemma keeping_state i wf : evolves keeping (state_of_log i wf).
Proof. apply related_state. by intros _ e e' ?%same_bookkept. Qed.
Lemma keeping_time o : evolves keeping (time_or_now o).
Proof. apply related_time. intros _. exact _. Qed.
Hint Resolve keeping_update keeping_emit keeping_state keeping_time : evolve.
Hint Extern 1 (evolves (related (fun _ => bookkept)) (assign _ _)) =>
  apply keeping_assign; intros ?; split; auto : evolve.

Lemma keeping_sync i c : evolves keeping (sync_execution_container_state i c).
Proof. unfold sync_execution_container_state. evolve. Qed.
Lemma keeping_removed i c : evolves keeping (record_removed i c).
Proof. unfold record_removed. evolve. Qed.
Hint Resolve keeping_sync keeping_removed : evolve.

Lemma keeping_maybe_remove i c : evolves keeping (maybe_remove_finished_execution_container i c).
Proof.
  assert (forall c f, evolves keeping (remove_container c f)) by
    (intros ? ?; apply harmless_evolves; [exact _|apply (dl_remove Hd)]).
  unfold maybe_remove_finished_execution_container. evolve.
Qed.

Lemma keeping_finished i e c : evolves keeping (reconcile_finished i e c).
Proof.
  pose proof (evolves_stop_and_remove Hd keeping).
  unfold reconcile_finished, reap_terminal_execution_container. evolve.
Qed.

Lemma touching_assign i f : evolves (touching i) (assign i f).
Proof. apply related_assign; [intros j; exact _|]. intros e. apply touched. Qed.
Lemma touching_update i j : evolves (touching i) (update_execution j).
Proof. apply related_update. apply same_touch. Qed.
Lemma touching_emit i st ty p : evolves (touching i) (emit_simple st ty None p []).
Proof. apply related_emit. apply same_touch. Qed.
Lemma touching_state i j wf : evolves (touching i) (state_of_log j wf).
Proof. apply related_state. apply same_touch. Qed.
Lemma touching_now i : evolves (touching i) utc_now.
Proof. apply related_utc_now. intros j. exact _. Qed.
Lemma touching_time i o : evolves (touching i) (time_or_now o).
Proof. apply related_time. intros j. exact _. Qed.
Hint Resolve touching_assign touching_update touching_emit touching_state touching_now touching_time : evolve.

Lemma touching_listed by_id i : evolves (touching i) (reconcile_listed by_id i).
Proof.
  pose proof (evolves_stop_and_remove Hd (touching i)).
  assert (forall c f, evolves (touching i) (remove_container c f)) by
    (intros ? ?; apply harmless_evolves; [exact _|apply (dl_remove Hd)]).
  unfold reconcile_listed, mark_execution_failed_for_missing_container, reconcile_exited,
    mark_execution_failed_for_exited_container, finish_exited, maybe_remove_finished_execution_container,
    reconcile_finished, reap_terminal_execution_container, record_removed, sync_execution_container_state.
  evolve.
Qed.

Lemma keeping_idle by_id i e w : dget i (w_executions w) = Some e -> is_active e = false ->
  keeping w (world_after (reconcile_listed by_id i) w).
Proof.
  intros He Ha. unfold world_after, reconcile_listed. rewrite bind_unfold. unfold deref. rewrite He, Ha. cbn [andb].
  destruct (nonempty _) as [cid|]; [|reflexivity]. destruct (dget cid by_id) as [c|]; [|reflexivity].
  destruct (_ && _); [apply keeping_finished|]. 
  exact (evolves_bind keeping _ _ (keeping_sync i c) (fun _ => evolves_ret keeping _) w).
Qed.

(** ** Finished executions *)

Lemma kept_listed by_id i : evolves (related (fun _ => outcome_kept)) (reconcile_listed by_id i).
Proof.
  intros w j. destruct (dget i (w_executions w)) as [e|] eqn:He.
  - destruct (is_active e) eqn:Ha.
    + pose proof (touching_listed by_id i w j) as Ht. inversion Ht as [e1 e2 Hp Hg1 Hg2|]; subst; constructor.
      destruct Hp as [->|Hs]; intros Hf; [|by apply same_bookkept].
      rewrite He in Hg1. injection Hg1 as ->. by rewrite (active_not_finished e) in Hf.
    + pose proof (keeping_idle by_id i e w He Ha j) as Hk. inversion Hk; subst; constructor. by intros _.
  - assert (Hr : world_after (reconcile_listed by_id i) w = w)
      by (unfold world_after, reconcile_listed; rewrite bind_unfold; unfold deref; by rewrite He).
    rewrite Hr. destruct (dget j _); constructor. by intros _.
Qed.

Lemma executions_same_related P `{!forall i, PreOrder (P i)} {A} (m : M A) :
  evolves executions_same m -> evolves (related P) m.
Proof. intros Hm w. apply related_same; [exact _|apply Hm]. Qed.

(** A pass of the reconciler never changes the outcome of a finished
    execution: its status, error, output and completion time stay, whatever
    containers Docker lists and whatever calls of its manager fail; at most the
    link to the container is cleared. *)
Theorem pass_keeps_outcomes w i e :
  dget i (w_executions w) = Some e -> is_finished e = true ->
  exists e', dget i (w_executions (world_after reconcile_once w)) = Some e' /\ bookkept e e'.
Proof.
  intros He Hf.
  assert (Hall : evolves (related (fun _ => outcome_kept)) reconcile_once).
  { pose proof (fun l c => executions_same_related (fun _ => outcome_kept) _ (orphans_same Hd l c)).
    pose proof (fun n c => executions_same_related (fun _ => outcome_kept) _ (expired_same Hd n c)).
    pose proof (executions_same_related (fun _ => outcome_kept) _ (images_same Hd)).
    pose proof (harmless_evolves (related (fun _ => outcome_kept)) _ (dl_list Hd)).
    pose proof kept_listed. pose proof (related_utc_now (fun _ => outcome_kept)).
    unfold reconcile_once, list_executions, cleanup_expired_containers. evolve. }
  destruct (related_get _ i e w _ (Hall w) He) as (e' & He' & Hk). exists e'. split; [done|]. by apply Hk.
Qed.

(** ** No active execution is left with a lost worker *)

(** The container of an active execution is listed, and has not exited unless its
    worker was suspended. *)
Definition attended (by_id : dict ContainerState) (e : Execution) : Prop :=
  is_active e = true -> forall cid, nonempty (ex_container_id e) = Some cid ->
  exists c, dget cid by_id = Some c
    /\ (has_exited c = false \/ opt_is (cs_exit_code c) WORKER_EXIT_SUSPENDED = true).

Lemma attended_kept by_id e e' : bookkept e e' -> attended by_id e -> attended by_id e'.
Proof.
  intros Hb Ha Hact cid Hcid. rewrite (bookkept_active _ _ Hb) in Hact. apply Ha; [done|].
  destruct (bk_link _ _ Hb) as [<-|Hn]; [done|]. by rewrite Hn in Hcid.
Qed.

Lemma exit_status_settled code st : opt_is code WORKER_EXIT_SUSPENDED = false ->
  forall e, ex_status e = exit_status code st -> is_active e = false.
Proof.
  intros Hs e He. unfold is_active. rewrite He. unfold exit_status. rewrite Hs. by repeat case_match.
Qed.

Lemma missing_leaves i : leaves i [FAILED] (mark_execution_failed_for_missing_container i).
Proof.
  unfold mark_execution_failed_for_missing_container. do 2 (apply leaves_bind; intros ?).
  apply leaves_then; [apply leaves_assign; by left|]. intros _.
  assert (forall st ty p, evolves (keeps (execution_in i [FAILED])) (emit_simple st ty None p [])) by
    (intros ? ? ?; apply status_stamped; unfold emit_simple; apply stamped_emit).
  pose proof (status_update_execution i [FAILED]). pose proof (status_utc_now i [FAILED]).
  evolve; by apply status_assign.
Qed.

(** What one step of the pass leaves of its own execution. *)
Lemma listed_attends by_id i w acts w' e' :
  reconcile_listed by_id i w = (Ok acts, w') -> dget i (w_executions w') = Some e' -> attended by_id e'.
Proof.
  intros Hr He'. pose proof (touching_listed by_id i w) as Ht. unfold world_after in Ht. rewrite Hr in Ht.
  apply (related_get_back _ i e') in Ht as (e & He & _); [|done].
  destruct (is_active e) eqn:Hact.
  2: { pose proof (keeping_idle by_id i e w He Hact) as Hk. unfold world_after in Hk. rewrite Hr in Hk.
       destruct (related_get _ i e w _ Hk He) as (e1 & He1 & Hb).
       assert (e1 = e') as -> by (unfold world_after in He1; cbn [snd] in He1; congruence).
       intros Ha. rewrite (bookkept_active _ _ Hb) in Ha. congruence. }
  unfold reconcile_listed in Hr. rewrite bind_unfold in Hr. unfold deref in Hr. rewrite He, Hact in Hr. cbn [andb] in Hr.
  destruct (nonempty (ex_container_id e)) as [cid|] eqn:Hcid.
  2: { injection Hr as <- <-. assert (e' = e) as -> by congruence. intros _ c Hc. congruence. }
  destruct (dget cid by_id) as [c|] eqn:Hc.
  2: { apply bind_inv in Hr as ([] & w1 & Hm & [= _ <-]). pose proof (missing_leaves i _ _ _ Hm e' He') as Hf.
       apply list_elem_of_singleton in Hf. unfold attended, is_active. by rewrite Hf. }
  assert (Hatt : has_exited c = false \/ opt_is (cs_exit_code c) WORKER_EXIT_SUSPENDED = true -> attended by_id e).
  { intros Hx _ cid' Heq. rewrite Hcid in Heq. injection Heq as <-. by exists c. }
  destruct (has_exited c) eqn:Hx.
  - unfold reconcile_exited in Hr. apply bind_inv in Hr as ([] & w1 & Hm & Hr).
    apply bind_inv in Hr as (removed & w2 & Hrm & Hr). injection Hr as _ <-.
    destruct (exited_container_outcome i c e w He) as (u & w1' & Hm' & e1 & He1 & Hxa & _).
    rewrite Hm in Hm'. injection Hm' as _ <-.
    pose proof (keeping_maybe_remove i c w1) as Hk. unfold world_after in Hk. rewrite Hrm in Hk.
    destruct (related_get _ i e1 w1 _ Hk He1) as (e2 & He2 & Hb). cbn [snd] in He2.
    assert (e2 = e') as -> by congruence. apply (attended_kept by_id e1); [done|].
    destruct (opt_is (cs_exit_code c) WORKER_EXIT_SUSPENDED) eqn:Hsus.
    + intros _ cid' Heq. rewrite (xa_container_id _ _ _ Hxa), Hcid in Heq. injection Heq as <-. exists c. by auto.
    + intros Ha. by rewrite (exit_status_settled _ _ Hsus e1 (xa_status _ _ _ Hxa)) in Ha.
  - rewrite (active_not_finished e Hact) in Hr. cbn [andb] in Hr. apply bind_inv in Hr as ([] & w1 & Hs & [= _ <-]).
    pose proof (keeping_sync i c w) as Hk. unfold world_after in Hk. rewrite Hs in Hk.
    destruct (related_get _ i e w _ Hk He) as (e1 & He1 & Hb). cbn [snd] in He1.
    assert (e1 = e') as -> by congruence. apply (attended_kept by_id e); auto.
Qed.

Lemma pass_attends by_id l w acts w' :
  collect (reconcile_listed by_id) l w = (Ok acts, w') ->
  forall i e', dget i (w_executions w') = Some e' ->
  In i l \/ (forall e, dget i (w_executions w) = Some e -> attended by_id e) -> attended by_id e'.
Proof.
  revert w acts. induction l as [|j l IH]; intros w acts Hr i e' He' Hi; cbn [collect] in Hr.
  { injection Hr as _ <-. destruct Hi as [[]|Hi]. by apply Hi. }
  apply bind_inv in Hr as (y & w1 & Hj & Hr). apply bind_inv in Hr as (ys & w2 & Hl & Hr). injection Hr as _ <-.
  apply (IH w1 ys Hl i e' He'). destruct (in_dec String.string_dec i l) as [|Hnl]; [by left|]. right. intros e1 He1.
  destruct (String.eqb_spec i j) as [->|Hne]; [by apply (listed_attends by_id j w y w1)|].
  destruct Hi as [[->|]|Hi]; [done|done|].
  pose proof (touching_listed by_id j w) as Ht. unfold world_after in Ht. rewrite Hj in Ht.
  destruct (related_get_back _ i e1 w w1 Ht He1) as (e & He & [->|Hs]); [done|].
  apply (attended_kept by_id e); [by apply same_bookkept|by apply Hi].
Qed.

(** C9. After a pass of the reconciler no active execution is left with a lost
    worker: the container it is linked to, if any, was listed by Docker and had
    not exited, except for a worker that was suspended. *)
Theorem pass_leaves_no_lost_worker w report w' :
  reconcile_once w = (Ok report, w') ->
  exists containers, list_managed_containers w = (Ok containers, w)
    /\ forall i e, dget i (w_executions w') = Some e -> attended (containers_by_id containers) e.
Proof.
  unfold reconcile_once. intros (executions & w0 & Hl & Hr)%bind_inv. injection Hl as <- <-.
  apply bind_inv in Hr as (containers & w1 & Hc & Hr).
  assert (w1 = w) as -> by (destruct (dl_list Hd w) as [(a & E)|(e & _ & E)]; congruence).
  exists containers. split; [done|]. apply bind_inv in Hr as (acts & w2 & Ha & Hr).
  apply bind_inv in Hr as (orphans & w3 & Ho & Hr). apply bind_inv in Hr as (expired & w4 & Hx & Hr).
  apply bind_inv in Hr as (images & w5 & Hi & Hr). injection Hr as _ <-.
  set (all := map fst (List.filter (fun _ : string * Execution => true) (w_executions w))) in *.
  assert (Hsame : w_executions w5 = w_executions w2).
  { pose proof (evolves_collect executions_same (reap_orphan all) containers (orphans_same Hd all) w2) as S1.
    unfold world_after in S1. rewrite Ho in S1.
    assert (S2 : evolves executions_same (cleanup_expired_containers containers)).
    { unfold cleanup_expired_containers. pose proof (expired_same Hd).
      assert (evolves executions_same utc_now) by by intros ?. evolve. }
    specialize (S2 w3). unfold world_after in S2. rewrite Hx in S2.
    pose proof (images_same Hd w4) as S3. unfold world_after in S3. rewrite Hi in S3.
    unfold executions_same in *. cbn [snd] in *. congruence. }
  intros i e He. rewrite Hsame in He. apply (pass_attends _ _ _ _ _ Ha i e He). left.
  assert (Hall : evolves (related (fun _ => outcome_kept)) (collect (reconcile_listed (containers_by_id containers)) all)).
  { apply evolves_collect; [exact _|]. apply kept_listed. }
  specialize (Hall w). unfold world_after in Hall. rewrite Ha in Hall.
  destruct (related_get_back _ i e w w2 Hall He) as (e0 & He0 & _). apply dget_In in He0.
  apply in_map_iff. exists (i, e0). split; [done|]. by apply filter_In.
Qed.
End Steps.

(** * From the isolated worker to the reconciler

    A worker reports the end of its run by the exit code of its container; the
    reconciler reads the code.  Here is the composition of the two: the outcome of
    the run survives the hand-over. *)

Section Handoff.
Context `{Env} `{Runtimes} `{WorkerContext} `{ContainerManager} `{ReconcilerContext}.
Context (Hd : docker_lawful).

Lemma follows_bookkept i w e e1 ts w' : follows i w e1 ts w' -> bookkept e e1 ->
  exists e', dget i (w_executions w') = Some e' /\ bookkept e e' /\ w_waits w' = w_waits w.
Proof.
  intros ((e2 & He2 & Hs) & Hw & _) Hb. exists e2. split; [done|]. split; [|done].
  transitivity e1; [done|]. by apply same_bookkept.
Qed.

Lemma follows_when i w0 b f e ts w : unstamping f -> bookkept e (f e) -> follows i w0 e ts w ->
  returns (when b (assign i f)) w (fun _ w' => exists e', bookkept e e' /\ follows i w0 e' ts w').
Proof.
  intros Hu Hb Hf. destruct b; cbn [when].
  - eapply returns_mono; [by apply follows_assign|]. intros [] w' Hf'. by exists (f e).
  - exists tt, w. split; [done|]. by exists e.
Qed.

Lemma record_removed_follows i w0 c e ts w : follows i w0 e ts w ->
  returns (record_removed i c) w (fun _ w' => exists e', bookkept e e' /\ follows i w0 e' ts w').
Proof.
  intros Hf. unfold record_removed. do 4 follow. eapply returns_mono; [by apply follows_assign; [intros ?|]|].
  intros u w2 Hf2. eexists. split; [|exact Hf2]. by split; auto.
Qed.

Lemma maybe_remove_returns i c e w : dget i (w_executions w) = Some e ->
  returns (maybe_remove_finished_execution_container i c) w (fun _ w' =>
    exists e', dget i (w_executions w') = Some e' /\ bookkept e e' /\ w_waits w' = w_waits w).
Proof.
  intros He. pose proof (follows_start i w e He) as Hf. unfold maybe_remove_finished_execution_container. follow.
  destruct (_ || _).
  { eexists _, _. split; [reflexivity|]. by eapply follows_bookkept. }
  apply (returns_bind _ _ _ (fun _ w' => follows i w e [] w')).
  { unfold returns, try_except. rewrite bind_unfold.
    destruct (dl_remove Hd (cs_container_id c) (has_exited c) w') as [([] & ->)|(exc & Hexc & ->)];
      [|rewrite Hexc]; by eexists _, _. }
  intros removed w1 Hf1. destruct removed; cbn [negb].
  2: { eexists _, _. split; [reflexivity|]. by eapply follows_bookkept. }
  eapply returns_bind; [by apply record_removed_follows|]. intros [] w2 (e2 & Hb2 & Hf2). follow.
  apply (returns_bind _ _ _ (fun _ w' => exists e3, bookkept e2 e3 /\ follows i w e3 [] w')).
  { destruct (is_active _); cbn [when].
    - follow. eapply returns_mono; [by apply follows_assign; [intros ?|]|]. intros [] w4 Hf4.
      eexists. split; [|exact Hf4]. by split; auto.
    - eexists tt, _. split; [reflexivity|]. by exists e2. }
  intros [] w4 (e3 & Hb3 & Hf3). follow. eexists _, _. split; [reflexivity|].
  eapply follows_bookkept; [eassumption|]. by transitivity e2.
Qed.

Lemma sync_returns i c e w : dget i (w_executions w) = Some e ->
  returns (sync_execution_container_state i c) w (fun _ w' =>
    exists e', dget i (w_executions w') = Some e' /\ bookkept e e' /\ w_waits w' = w_waits w).
Proof.
  intros He. pose proof (follows_start i w e He) as Hf. unfold sync_execution_container_state. follow. cbv zeta.
  assert (Hw : forall b f e1 w1, unstamping f -> bookkept e1 (f e1) -> bookkept e e1 -> follows i w e1 [] w1 ->
    returns (when b (assign i f)) w1 (fun _ w' => exists e', bookkept e e' /\ follows i w e' [] w')).
  { intros b f e1 w1 Hu Hb Hbe Hf1. eapply returns_mono; [by apply (follows_when i w b f e1)|].
    intros [] w2 (e2 & Hb2 & Hf2). exists e2. split; [by transitivity e1|done]. }
  assert (Hb : bookkept e e) by reflexivity.
  do 4 (eapply returns_bind;
    [eapply Hw; [by intros ?|by split; auto|exact Hb|eassumption]|clear Hb; intros [] ? (? & Hb & ?)]).
  destruct (_ || _); cbn [when].
  - eapply returns_mono; [by apply follows_update|]. intros [] w2 Hf2. by eapply follows_bookkept.
  - eexists tt, _. split; [reflexivity|]. by eapply follows_bookkept.
Qed.

Lemma reconcile_exited_returns i c e w : dget i (w_executions w) = Some e ->
  returns (reconcile_exited i c) w (fun _ w' => exists e1 e', exited_as c e e1
    /\ dget i (w_executions w') = Some e' /\ bookkept e1 e' /\ w_waits w' = w_waits w).
Proof.
  intros He. unfold reconcile_exited. eapply returns_bind; [by apply exited_container_outcome|].
  intros [] w1 (e1 & He1 & Hx & Hw1 & _). eapply returns_bind; [by apply maybe_remove_returns|].
  intros removed w2 (e2 & He2 & Hb & Hw2). eexists _, _. split; [reflexivity|]. exists e1, e2.
  split; [done|]. split; [done|]. split; [done|congruence].
Qed.

(** The status that the control plane reads from a worker's end: a worker that
    neither finished nor suspended its run failed it. *)
Definition handed_over (e : Execution) : ExecutionStatus :=
  if is_active e && negb (is_suspended e) then FAILED else ex_status e.

Lemma exit_status_handed_over code e : reported code e -> is_active e = true ->
  exit_status (Some code) (ex_status e) = handed_over e.
Proof.
  intros Hr Ha. unfold handed_over. rewrite Ha, (reported_suspended code e Hr). unfold exit_status. cbn [opt_is andb].
  destruct (code =? WORKER_EXIT_SUSPENDED) eqn:Hs; [done|]. cbn [negb].
  destruct Hr as [->|[-> _]]; [|done]. revert Ha Hs. unfold is_active, exit_code_for_execution.
  by destruct (ex_status e).
Qed.

Context (Hstart : forall i w j w', registry_start i w = (Ok j, w') -> j = i).
Context (Hwithin : forall i t w j w', run_within i t w = (Ok j, w') -> j = i).

(** C8. The outcome of a run survives the hand-over from its isolated worker to
    the control plane through an exit code.  When the reconciler finds the exited
    container of a worker that ran, a finished execution keeps its outcome, a
    suspended one stays parked as it was, with its error, output and completion
    time, and any other is failed; no wait changes. *)
Theorem worker_outcome_survives i wf rev ad k g t code c w w1 e1 cid :
  run_execution_worker i wf rev ad k g t w = (Ok code, w1) ->
  dget i (w_executions w1) = Some e1 -> nonempty (ex_container_id e1) = Some cid ->
  code <> WORKER_EXIT_BOOTSTRAP_FAILED -> has_exited c = true -> cs_exit_code c = Some code ->
  returns (reconcile_execution i (Some c)) w1 (fun _ w2 => exists e2,
    dget i (w_executions w2) = Some e2 /\ ex_status e2 = handed_over e1
    /\ (is_active e1 && negb (is_suspended e1) = false ->
          ex_error e2 = ex_error e1 /\ ex_output_payload e2 = ex_output_payload e1
          /\ ex_completed_at e2 = ex_completed_at e1)
    /\ w_waits w2 = w_waits w1).
Proof.
  intros Hrun He1 Hcid Hcode Hx Hc.
  assert (Hrep : reported code e1).
  { by destruct (exit_code_reports_status Hstart Hwithin _ _ _ _ _ _ _ _ _ _ _ Hrun He1 Hcode). }
  unfold reconcile_execution. eapply returns_step; [reflexivity|]. rewrite He1, Hcid.
  eapply returns_step; [reflexivity|]. eapply returns_step; [unfold deref; by rewrite He1|]. rewrite Hcid, Hx, andb_true_r.
  destruct (is_active e1) eqn:Ha.
  - eapply returns_bind; [by apply reconcile_exited_returns|]. intros acts w2 (ex & e2 & Hxa & He2 & Hb & Hw).
    eexists _, _. split; [reflexivity|]. exists e2. split; [done|].
    rewrite (bk_status _ _ Hb), (xa_status _ _ _ Hxa), Hc, (exit_status_handed_over code) by done.
    split; [done|]. split; [|done]. cbn [andb]. intros Hsus%negb_false_iff.
    rewrite (reported_suspended code e1 Hrep) in Hsus.
    pose proof (xa_error _ _ _ Hxa) as Herr. pose proof (xa_completed _ _ _ Hxa) as Hcomp.
    unfold exit_error in Herr. rewrite Hc in Herr, Hcomp. cbn [opt_is] in Herr, Hcomp. rewrite Hsus in Herr, Hcomp.
    rewrite (bk_error _ _ Hb), (bk_output _ _ Hb), (bk_completed _ _ Hb), (xa_output _ _ _ Hxa). by repeat split.
  - apply (returns_bind _ _ _ (fun _ w2 => exists e2, dget i (w_executions w2) = Some e2
      /\ bookkept e1 e2 /\ w_waits w2 = w_waits w1)).
    { eapply returns_bind; [by apply sync_returns|]. intros [] w2 Hw2. eexists _, _. split; [reflexivity|exact Hw2]. }
    intros acts w2 (e2 & He2 & Hb & Hw). eexists _, _. split; [reflexivity|]. exists e2.
    split; [done|]. unfold handed_over. rewrite Ha. split; [apply Hb|]. split; [|done]. intros _.
    destruct Hb. by repeat split.
Qed.
End Handoff.
