(* ===== verification/System.v ===== *)
(** * The whole control plane as a transition system

    Every modelled entry point of the wait service, the approval manager, the
    control plane, the repair loop, the runtime registry and the scheduler is a
    command; a history is a list of commands applied to a world, whatever each of
    them returns or raises.  The theorems of this file hold of every history. *)

From stdpp Require Import relations sorting.
From S2P Require Export SchedulerFacts ReconcileFacts.

(** ** Commands *)

Inductive command :=
  | cmd_save_execution (e : Execution)
  | cmd_record_artifact (st : NativeExecutionState) (name artifact_type uri : string)
  | cmd_create_wait (i : string) (kind : ExecutionWaitKind) (key : string)
      (checkpoint : option (dict pyval)) (request policy : dict pyval) (correlation : option string)
      (wake_at deadline_at : option Z) (metadata : dict pyval)
  | cmd_resolve_wait (i wait_id key : string) (payload : dict pyval) (status : ExecutionWaitStatus)
      (resolved_by : option string) (resume : bool)
  | cmd_wake_due (now : option Z) (limit : Z)
  | cmd_wake_event (correlation event_id : string) (payload : dict pyval) (by_ : option string) (limit : Z)
  | cmd_request_approval (i tool : string) (payload : dict pyval) (redacted : option (dict pyval))
      (event_id : option string) (metadata : dict pyval)
  | cmd_approve (i tool : string) (reason : option string)
  | cmd_reject (i tool : string) (reason : option string)
  | cmd_queue_start (i : string)
  | cmd_run_task (i : string)
  | cmd_pause (i : string)
  | cmd_resume (i : string)
  | cmd_cancel (i : string)
  | cmd_heartbeat (i worker : string)
  | cmd_repair (workflow_id execution_id : option string)
  | cmd_handle_outdated (i revision : string)
  | cmd_replace_for_revision (workflow_id : string) (previous : option Z) (revision : Z) (source : string)
  | cmd_create_execution (workflow_id : string) (input trigger : dict pyval) (adapter goal : option string)
  | cmd_create_schedule (payload : dict pyval)
  | cmd_patch_schedule (i : string) (patch : dict pyval)
  | cmd_enable_schedule (i : string)
  | cmd_disable_schedule (i : string)
  | cmd_trigger_schedule (i : string)
  | cmd_dispatch_event (payload : dict pyval)
  | cmd_run_due_schedules
  | cmd_run_worker (i workflow_id runtime_revision_id runtime_adapter_id worker_id : string)
      (goal_id : option string) (timeout : option SpecFloat.spec_float)
  | cmd_reconcile_once
  | cmd_reconcile_execution (i : string) (known_container : option ContainerState).

Section System.
Context `{Env} `{Config} `{Runtimes} `{DecisionProvider} `{Preparation} `{ContainerManager} `{Workflows}
  `{Conversions} `{Zones} `{CreationContext} `{SchedulerContext} `{WorkerContext} `{ReconcilerContext}.

Definition ignore {A} (m : M A) : M unit := m;; mret tt.

Definition run_command (c : command) : M unit :=
  match c with
  | cmd_save_execution e => ignore (save_execution e)
  | cmd_record_artifact st n t u => ignore (record_artifact st n t u None None [])
  | cmd_create_wait i k key cp rq po co wk dl md => ignore (create_wait i k key cp rq po co wk dl md)
  | cmd_resolve_wait i wt key p st b r => ignore (resolve_wait i wt key p st b r)
  | cmd_wake_due now limit => ignore (wake_due_waits now limit)
  | cmd_wake_event c ev p b limit => ignore (wake_event c ev p b limit)
  | cmd_request_approval i t p rp ev md => ignore (request_approval i t p rp ev md)
  | cmd_approve i t r => ignore (cp_approve i t r)
  | cmd_reject i t r => ignore (cp_reject i t r)
  | cmd_queue_start i => ignore (queue_start i)
  | cmd_run_task i => run_execution i
  | cmd_pause i => ignore (pause i)
  | cmd_resume i => ignore (resume i)
  | cmd_cancel i => ignore (ControlPlane.cancel i)
  | cmd_heartbeat i k => ignore (heartbeat i k)
  | cmd_repair wf ex => ignore (repair_stale_executions wf ex)
  | cmd_handle_outdated i r => handle_outdated_executions i r
  | cmd_replace_for_revision wid previous revision source =>
      ignore (replace_active_executions_for_workflow_revision wid previous revision source)
  | cmd_create_execution wid input trigger adapter goal =>
      ignore (registry_create_execution wid input trigger adapter goal)
  | cmd_create_schedule payload => ignore (service_create_schedule payload)
  | cmd_patch_schedule i patch => ignore (service_patch_schedule i patch)
  | cmd_enable_schedule i => ignore (enable_schedule i)
  | cmd_disable_schedule i => ignore (disable_schedule i)
  | cmd_trigger_schedule i => ignore (service_trigger_now i)
  | cmd_dispatch_event payload => ignore (service_dispatch_event payload)
  | cmd_run_due_schedules => ignore run_due_schedules
  | cmd_run_worker i wf rev ad k g t => ignore (run_execution_worker i wf rev ad k g t)
  | cmd_reconcile_once => ignore reconcile_once
  | cmd_reconcile_execution i c => ignore (reconcile_execution i c)
  end.

(** One step: the world after a command. *)
Inductive step : world -> world -> Prop :=
  | step_command c w : step w (world_after (run_command c) w).

Inductive reachable : world -> Prop :=
  | reach_init : reachable empty_world
  | reach_step w w' : reachable w -> step w w' -> reachable w'.

(** Any number of steps. *)
Inductive history : world -> world -> Prop :=
  | history_nil w : history w w
  | history_cons w w' w'' : step w w' -> history w' w'' -> history w w''.

Definition run_commands (cs : list command) (w : world) : world :=
  fold_left (fun w c => world_after (run_command c) w) cs w.

Lemma run_commands_history cs w : history w (run_commands cs w).
Proof.
  revert w. induction cs as [|c cs IH]; intros w; [constructor|].
  econstructor; [constructor|apply IH].
Qed.

Lemma run_commands_reachable cs w : reachable w -> reachable (run_commands cs w).
Proof.
  revert w. induction cs as [|c cs IH]; intros w Hw; [done|].
  apply IH. eapply reach_step; [exact Hw|constructor].
Qed.

Context `{!UuidUnique} `{!RuntimesLaws} `{!DecisionProviderLaws} `{!PreparationLaws}
  `{!ContainerManagerLaws} `{!SchedulerLaws}
  `{!WorkerLaws} `{!ReconcilerLaws}.

Lemma ledger_record_artifact st n t u m s md : evolves ledger (record_artifact st n t u m s md).
Proof. unfold record_artifact, create_artifact. evolve. Qed.

Lemma ledger_ignore {A} (m : M A) : evolves ledger m -> evolves ledger (ignore m).
Proof. intros Hm. unfold ignore. evolve. Qed.

Hint Resolve ledger_record_artifact ledger_cp_approve ledger_cp_reject
  ledger_queue_start ledger_run_execution ledger_pause ledger_resume ledger_cancel ledger_heartbeat
  ledger_repair_stale_executions ledger_handle_outdated_executions : evolve.

(** The scheduler's entry points. *)
Lemma ledger_service_dispatch p : evolves ledger (service_dispatch_event p).
Proof. apply ledger_dispatch_event. Qed.
Lemma ledger_service_trigger i : evolves ledger (service_trigger_now i).
Proof. apply ledger_trigger_now. Qed.

Hint Resolve ledger_registry_create ledger_run_due_schedules ledger_service_dispatch ledger_service_trigger
  evolves_service_create evolves_service_patch evolves_enable_schedule evolves_disable_schedule : evolve.
Hint Extern 0 (BookkeepingFrame _) => exact _ : evolve.

Lemma ledger_replace_for_revision wid previous revision source :
  evolves ledger (replace_active_executions_for_workflow_revision wid previous revision source).
Proof.
  unfold replace_active_executions_for_workflow_revision, supersede_execution, list_active_executions,
    list_executions.
  evolve; [apply ledger_snapshot|apply ledger_update_execution|apply ledger_replace_outdated_execution].
Qed.
Hint Resolve ledger_replace_for_revision : evolve.

Lemma ledger_run_command c : evolves ledger (run_command c).
Proof.
  destruct c; simpl; try apply ledger_ignore; evolve;
    [apply ledger_resolve_wait|apply ledger_wake_due_waits|apply ledger_wake_event].
Qed.

Lemma ledger_step w w' : step w w' -> ledger w w'.
Proof. intros [c w0]. apply ledger_run_command. Qed.

Lemma ledger_history w w' : history w w' -> ledger w w'.
Proof.
  induction 1 as [|w1 w2 w3 Hs _ IH]; [reflexivity|].
  etransitivity; [by apply ledger_step|exact IH].
Qed.

(** The state invariants of the ledger. *)
Record ledger_ok (w : world) : Prop := {
  ok_pending : one_pending w;
  ok_events : events_ok w;
  ok_waits : waits_keyed w;
  ok_drawn : waits_drawn w;
  ok_approvals : approvals_keyed w
}.

Lemma ledger_ok_empty : ledger_ok empty_world.
Proof.
  split.
  - intros i. unfold pending_count, count_values. simpl. lia.
  - intros i. by split.
  - split; [constructor|done].
  - done.
  - split; [constructor|done].
Qed.

Lemma ledger_ok_step w w' : ledger w w' -> ledger_ok w -> ledger_ok w'.
Proof.
  intros Hl [Hp He Hk Hd Ha]. split.
  - by apply (lg_pending _ _ Hl).
  - by apply (lg_events _ _ Hl).
  - by apply (lg_keyed _ _ Hl).
  - by apply (lg_drawn _ _ Hl).
  - by apply (lg_approvals _ _ Hl).
Qed.

Lemma reachable_ok w : reachable w -> ledger_ok w.
Proof.
  induction 1 as [|w w' _ IH Hs]; [apply ledger_ok_empty|].
  eapply ledger_ok_step; [by apply ledger_step|done].
Qed.

Lemma steps_distinct d d' : wait_steps d d' -> waits_distinct d -> waits_distinct d'.
Proof. induction 1 as [|d1 d2 d3 Hs _ IH]; [done|]. intros Hd. apply IH. by eapply wait_step_distinct. Qed.

Lemma reachable_distinct w : reachable w -> waits_distinct (spec_waits w).
Proof.
  induction 1 as [|w w' Hr IH Hs]; [by intros k1 k2 s1 s2|].
  apply (steps_distinct (spec_waits w)); [|done].
  apply (lg_spec _ _ (ledger_step _ _ Hs)), (ok_drawn _ (reachable_ok _ Hr)).
Qed.

(** C1. In every reachable world an execution has at most one pending wait:
    two pending waits of the same execution are the same wait. *)
Theorem at_most_one_pending_wait w k1 k2 wt1 wt2 :
  reachable w ->
  dget k1 (w_waits w) = Some wt1 -> dget k2 (w_waits w) = Some wt2 ->
  wait_is_pending wt1 = true -> wait_is_pending wt2 = true ->
  wt_execution_id wt1 = wt_execution_id wt2 -> k1 = k2 /\ wt1 = wt2.
Proof.
  intros Hr%reachable_ok Hin1%dget_In Hin2%dget_In Hp1 Hp2 Hi.
  apply (count_values_two (pending_for (wt_execution_id wt1)) (w_waits w)); auto.
  - apply (ok_pending _ Hr).
  - unfold pending_for. by rewrite String.eqb_refl.
  - unfold pending_for. by rewrite <-Hi, String.eqb_refl.
Qed.

(** ** Deletions

    Two more writers touch the log: [delete_event] removes an event (the
    monitor folds a repeated event into an earlier one) and [delete_execution]
    removes an execution with its events.  Both leave the counter of the
    execution where it is. *)

Inductive deletion :=
  | event_deleted (event_id : string)
  | execution_deleted (i : string).

Definition run_deletion (d : deletion) : M unit :=
  match d with
  | event_deleted event_id => ignore (delete_event event_id)
  | execution_deleted i => ignore (delete_execution i)
  end.

(** The deletion [d] names the event [ev] of the execution [i]. *)
Definition names (i : string) (ev : ExecutionEvent) (d : deletion) : Prop :=
  match d with
  | event_deleted event_id => ev_id ev = event_id
  | execution_deleted j => j = i
  end.

(** Any number of commands and of deletions; the deletions are recorded. *)
Inductive tended : list deletion -> world -> world -> Prop :=
  | tended_nil w : tended [] w w
  | tended_step ds w w' w'' : step w w' -> tended ds w' w'' -> tended ds w w''
  | tended_delete d ds w w'' :
      tended ds (world_after (run_deletion d) w) w'' -> tended (d :: ds) w w''.

Definition seq_lt (e1 e2 : ExecutionEvent) : Prop := ev_sequence e1 < ev_sequence e2.

(** The numbers of the log increase and never exceed the counter. *)
Definition log_numbered (i : string) (w : world) : Prop :=
  StronglySorted seq_lt (events_of i w)
  /\ Forall (fun ev => ev_sequence ev <= counter_of i w) (events_of i w).

(** What becomes of the log of [i]: a part of it is kept in its order, at
    least the events that no deletion names, and behind it stand events with
    fresh numbers. *)
Definition log_tended (i : string) (ds : list deletion) (w w' : world) : Prop := exists kept new,
  events_of i w' = kept ++ new
  /\ kept `sublist_of` events_of i w
  /\ (forall ev, In ev (events_of i w) -> Forall (fun d => ~ names i ev d) ds -> In ev kept)
  /\ Forall (fun ev => counter_of i w < ev_sequence ev) new
  /\ counter_of i w <= counter_of i w'.

Lemma seqZ_sorted m n : StronglySorted Z.lt (seqZ m (Z.of_nat n)).
Proof.
  revert m. induction n as [|n IH]; intros m; [constructor|].
  rewrite seqZ_cons by lia. replace (Z.pred _) with (Z.of_nat n) by lia. constructor; [apply IH|].
  apply Forall_seqZ. lia.
Qed.

Lemma sorted_map {A B} (f : A -> B) (R : B -> B -> Prop) l :
  StronglySorted R (map f l) -> StronglySorted (fun x y => R (f x) (f y)) l.
Proof.
  induction l as [|x l IH]; cbn; [constructor|]. intros [Hl Hx]%StronglySorted_inv.
  constructor; [by apply IH|exact (proj1 (Forall_map _ _ _) Hx)].
Qed.

Lemma sorted_filter {A} (R : A -> A -> Prop) f l : StronglySorted R l -> StronglySorted R (List.filter f l).
Proof.
  induction 1 as [|x l _ IH Hx]; cbn; [constructor|]. destruct (f x); [|done]. constructor; [done|].
  rewrite List.Forall_forall in Hx |- *. intros y [Hy _]%filter_In. by apply Hx.
Qed.

Lemma delete_event_in_get event_id d d' i :
  delete_event_in event_id d = Some d' ->
  dget i d' = dget i d
  \/ dget i d' = List.filter (fun ev => negb (String.eqb (ev_id ev) event_id)) <$> dget i d.
Proof.
  revert d'. induction d as [|[k evs] d IH]; cbn; intros d'; [done|].
  destruct (_ =? _)%nat.
  - destruct (delete_event_in event_id d) as [d0|]; cbn; [|done]. intros [= <-]. cbn.
    destruct (String.eqb i k); [by left|]. by apply IH.
  - intros [= <-]. cbn. destruct (String.eqb i k); [by right|by left].
Qed.

(** A deletion filters the log and keeps the counter. *)
Lemma run_deletion_log d w i : exists keep : ExecutionEvent -> bool,
  events_of i (world_after (run_deletion d) w) = List.filter keep (events_of i w)
  /\ counter_of i (world_after (run_deletion d) w) = counter_of i w
  /\ (forall ev, ~ names i ev d -> keep ev = true).
Proof.
  assert (Hall : forall l : list ExecutionEvent, List.filter (fun _ => true) l = l)
    by (induction l; cbn; congruence).
  destruct d as [event_id|j]; cbn [run_deletion names]; unfold events_of, counter_of, ignore.
  - unfold delete_event. execute.
    destruct (delete_event_in event_id (w_events w)) as [d'|] eqn:Hd; cbn; [|exists (fun _ => true); by rewrite Hall].
    destruct (delete_event_in_get _ _ _ i Hd) as [-> | ->]; [exists (fun _ => true); by rewrite Hall|].
    exists (fun ev => negb (String.eqb (ev_id ev) event_id)).
    split; [by destruct (dget i (w_events w))|]. split; [done|].
    intros ev Hne. by destruct (String.eqb_spec (ev_id ev) event_id).
  - unfold delete_execution, repo_delete_execution. execute. cbn.
    exists (fun _ => negb (String.eqb i j)). destruct (String.eqb_spec i j) as [->|Hne]; cbn.
    + rewrite dget_dpop_eq. cbn. split; [by induction (default [] (dget j (w_events w)))|]. by split.
    + rewrite dget_dpop_ne by done. by rewrite Hall.
Qed.

Lemma log_extends_tended i w w' : log_extends i w w' -> log_numbered i w ->
  log_tended i [] w w' /\ log_numbered i w'.
Proof.
  intros (evs & E & S & C) [Hs Hb].
  assert (Hlo : Forall (fun ev => counter_of i w < ev_sequence ev <= counter_of i w') evs).
  { apply List.Forall_forall. intros ev Hin%(in_map ev_sequence). rewrite S in Hin.
    apply list_elem_of_In, elem_of_seqZ in Hin. lia. }
  split.
  - exists (events_of i w), evs. split_and!; auto; [|lia]. eapply Forall_impl; [exact Hlo|]. cbn. lia.
  - split; rewrite E; [|apply Forall_app; split].
    + apply StronglySorted_app. split_and!; auto.
      * intros x y Hx Hy. rewrite Forall_forall in Hb, Hlo. specialize (Hb x Hx). specialize (Hlo y Hy).
        cbn in *. unfold seq_lt. lia.
      * apply (sorted_map ev_sequence Z.lt). rewrite S. apply seqZ_sorted.
    + eapply Forall_impl; [exact Hb|]. cbn. lia.
    + eapply Forall_impl; [exact Hlo|]. cbn. lia.
Qed.

Lemma deletion_tended i d w : log_numbered i w ->
  log_tended i [d] w (world_after (run_deletion d) w) /\ log_numbered i (world_after (run_deletion d) w).
Proof.
  destruct (run_deletion_log d w i) as (keep & E & C & K). intros [Hs Hb]. split.
  - exists (List.filter keep (events_of i w)), []. rewrite E, C, app_nil_r. split_and!; auto; [| |lia].
    + clear. induction (events_of i w) as [|ev l IH]; cbn; [constructor|]. by destruct (keep ev); constructor.
    + intros ev Hin Hno. apply filter_In. split; [done|]. apply K. by inversion Hno.
  - unfold log_numbered. rewrite E, C. split; [by apply sorted_filter|].
    rewrite List.Forall_forall in Hb |- *. intros ev [Hin _]%filter_In. by apply Hb.
Qed.

Lemma log_tended_trans i ds1 ds2 w1 w2 w3 : log_numbered i w1 ->
  log_tended i ds1 w1 w2 -> log_tended i ds2 w2 w3 -> log_tended i (ds1 ++ ds2) w1 w3.
Proof.
  intros [_ Hb] (kept1 & new1 & E1 & Sub1 & K1 & N1 & C1) (kept2 & new2 & E2 & Sub2 & K2 & N2 & C2).
  rewrite E1 in Sub2. apply sublist_app_r in Sub2 as (a & b & -> & Ha & Hb'). exists a, (b ++ new2).
  rewrite E2, app_assoc. split; [done|]. split; [by transitivity kept1|].
  assert (HN1 : forall ev, In ev b -> counter_of i w1 < ev_sequence ev).
  { intros ev Hin. rewrite List.Forall_forall in N1. apply N1.
    apply list_elem_of_In. eapply elem_of_submseteq; [by apply list_elem_of_In|by apply sublist_submseteq]. }
  split_and!; [| |lia].
  - intros ev Hin Hno. apply Forall_app in Hno as [Hno1 Hno2].
    assert (Hw2 : In ev (a ++ b)).
    { apply K2; [|done]. rewrite E1. apply in_or_app. left. by apply K1. }
    apply in_app_or in Hw2 as [Hw2|Hw2]; [done|]. apply HN1 in Hw2.
    rewrite List.Forall_forall in Hb. specialize (Hb _ Hin). cbn in Hb. lia.
  - apply Forall_app. split; [by apply List.Forall_forall|].
    eapply Forall_impl; [exact N2|]. cbn. lia.
Qed.

Lemma tended_log ds w w' i : tended ds w w' -> log_numbered i w -> log_tended i ds w w' /\ log_numbered i w'.
Proof.
  induction 1 as [w|ds w w' w'' Hs _ IH|d ds w w'' _ IH]; intros Hn.
  - destruct (log_extends_tended i w w (reflexivity w) Hn) as [Ht _]. by split.
  - destruct (log_extends_tended i w w' (lg_log _ _ (ledger_step _ _ Hs) i) Hn) as [Ht Hn'].
    destruct (IH Hn') as [Ht' Hn'']. split; [|done]. by apply (log_tended_trans i [] ds w w').
  - destruct (deletion_tended i d w Hn) as [Ht Hn'].
    destruct (IH Hn') as [Ht' Hn'']. split; [|done]. by eapply (log_tended_trans i [d] ds).
Qed.

Lemma tended_commands cs ds w w' : tended ds (run_commands cs w) w' -> tended ds w w'.
Proof.
  revert w. induction cs as [|c cs IH]; intros w Hw; [done|].
  apply (tended_step _ _ (world_after (run_command c) w)); [constructor|by apply IH].
Qed.

Lemma tended_history w w' : tended [] w w' -> history w w'.
Proof.
  remember [] as ds. induction 1 as [|ds w w' w'' Hs _ IH|]; [constructor| |done].
  econstructor; [exact Hs|by apply IH].
Qed.

(** C3. Whatever commands and deletions follow each other from the empty store
    to [w] and from [w] on to [w'], the log of an execution in [w'] is a part of
    its log in [w], in the same order, followed by newer events: an event is
    lost only when a deletion names it or its execution, the new events have
    numbers above the counter of [w], which bounds every number used until
    then, so that no number is given out twice, and the numbers of the log
    increase strictly.  When nothing was deleted the whole log of [w] is still
    there and its events are numbered 1, 2, 3, ... without gap. *)
Theorem event_log_append_only ds0 ds w w' i :
  tended ds0 empty_world w -> tended ds w w' ->
  log_numbered i w /\ log_numbered i w' /\ log_tended i ds w w'
  /\ (ds0 = [] -> ds = [] ->
      (exists evs, events_of i w' = events_of i w ++ evs)
      /\ map ev_sequence (events_of i w') = seqZ 1 (Z.of_nat (List.length (events_of i w')))).
Proof.
  intros Hz Hh. assert (log_numbered i empty_world) as He by (split; constructor).
  destruct (tended_log _ _ _ i Hz He) as [_ Hw]. destruct (tended_log _ _ _ i Hh Hw) as [Ht Hw'].
  split_and!; auto. intros -> ->. apply tended_history, ledger_history in Hz, Hh. split.
  - destruct (lg_log _ _ Hh i) as (evs & E & _). by exists evs.
  - pose proof (ledger_ok_step _ _ Hh (ledger_ok_step _ _ Hz ledger_ok_empty)) as Hok.
    destruct (ok_events _ Hok i) as [Hc Hs]. by rewrite Hs, Hc.
Qed.

(** C2. A wait that left [pending] is never changed again: its status, its
    resolution key and payload are the same in every later world. *)
Theorem finished_wait_immutable w w' k wt :
  reachable w -> history w w' ->
  dget k (w_waits w) = Some wt -> wait_is_pending wt = false -> dget k (w_waits w') = Some wt.
Proof.
  intros Hr%reachable_ok Hh%ledger_history Hk Hp.
  apply (lg_final _ _ Hh); auto. by apply (ok_drawn _ Hr k wt).
Qed.

(** C4. The control plane refines the abstract machine of durable waits: every
    history of commands is, on the waits, a sequence of openings and decisions of
    that machine.  Its invariant therefore holds in every reachable world: two
    waits of an execution never share an idempotency key and are never both
    pending. *)
Theorem waits_refine_machine w w' :
  reachable w -> history w w' ->
  wait_steps (spec_waits w) (spec_waits w') /\ waits_distinct (spec_waits w').
Proof.
  intros Hr Hh%ledger_history. pose proof (reachable_ok _ Hr) as Hok.
  pose proof (lg_spec _ _ Hh (ok_drawn _ Hok)) as Hsteps. split; [done|].
  eapply steps_distinct; [exact Hsteps|by apply reachable_distinct].
Qed.
End System.
