(* ===== verification/Scenarios.v ===== *)
(** * A concrete deployment

    Instances of the interfaces (no isolation, no container manager, no delegate,
    a run loop that returns at once, a scheduler that queues what it creates) and,
    for the theorems of the control plane, worlds on which their hypotheses
    hold. *)

From S2P Require Import System RepairFacts Lifecycle Tasks Sample.

(** ** A deployment *)

#[export] Instance sample_config : Config := {
  cfg_worker_id := "worker-1";
  cfg_stale_after_seconds := 300;
  cfg_execution_isolation_enabled := false;
  cfg_runtime_revision_shadow_mode := false;
  cfg_cancel_outdated_executions := true;
  cfg_release_polls := 3
}.

(** The same deployment with execution isolation. *)
Definition isolated_config : Config := {|
  cfg_worker_id := "worker-1";
  cfg_stale_after_seconds := 300;
  cfg_execution_isolation_enabled := true;
  cfg_runtime_revision_shadow_mode := false;
  cfg_cancel_outdated_executions := true;
  cfg_release_polls := 3
|}.

#[export] Instance sample_runtimes : Runtimes := {
  native_start := mret;
  registered_adapter _ := None
}.

#[export] Instance sample_runtimes_laws : RuntimesLaws.
Proof. split; [intros i; apply evolves_ret; exact _|done]. Defined.

#[export] Instance sample_provider : DecisionProvider := { delegate_decision_provider := None }.

#[export] Instance sample_provider_laws : DecisionProviderLaws.
Proof. by intros f i t p m. Defined.

#[export] Instance sample_preparation : Preparation := {
  prepare_isolated_runtime i := mret (Some i);
  prepare_shadow_runtime := mret
}.

#[export] Instance sample_preparation_laws : PreparationLaws.
Proof. split; intros i; apply evolves_ret; exact _. Defined.

#[export] Instance sample_containers : ContainerManager := {
  container_manager_configured := false;
  inspect_container c := raise ContainerRuntimeError c;
  stop_container c := raise ContainerRuntimeError c;
  remove_container c _ := raise ContainerRuntimeError c
}.

#[export] Instance sample_containers_laws : ContainerManagerLaws.
Proof. split; intros; apply evolves_raise; exact _. Defined.

#[export] Instance sample_workflows : Workflows := fun _ => Some diamond.

(** Values are never converted; the zone database has UTC and, around the end of
    daylight saving time of 2023, Berlin. *)
#[export] Instance sample_conversions : Conversions := fun _ _ => None.

Definition berlin_transition : Z := 1698541200 * us_per_second.
Definition hours (n : Z) : Z := n * 3600 * us_per_second.

#[export] Instance sample_zones : Zones := fun name =>
  if String.eqb name "UTC" then Zone (fun t => t) (fun t => t)
  else if String.eqb name "Europe/Berlin" then
    Zone (fun t => t + hours (if t <? berlin_transition then 2 else 1))
         (fun t => t - hours (if t <? berlin_transition + hours 2 then 2 else 1))
  else ZoneNotFound.

#[export] Instance sample_zones_laws : ZonesLaws.
Proof. reflexivity. Defined.

#[export] Instance sample_creation : CreationContext := {
  crewai_installed := true;
  process_settings := mkRuntimeSettings 3600 300 1800 (float_of_Z 120);
  process_environ _ := None
}.

(** Fired executions are queued by the control plane. *)
#[export] Instance sample_scheduler : SchedulerContext := {
  scheduler_id := "scheduler-1";
  claim_lease_seconds := 300;
  goal_repo_configured := true;
  execution_starter := Some queue_start;
  goal_supervisor_waker := None
}.

#[export] Instance sample_scheduler_laws : SchedulerLaws.
Proof. split; [intros f i [= <-]; apply ledger_queue_start|done]. Defined.

(** A worker that tries the lock for five seconds, five times a second, and a
    Docker that lists nothing. *)
#[export] Instance sample_worker : WorkerContext := {
  lock_attempts := 25;
  run_within i _ := registry_start i;
  traceback_lines exc := [exn_message exc]
}.

#[export] Instance sample_worker_laws : WorkerLaws.
Proof. intros i t. apply ledger_registry_start. Defined.

#[export] Instance sample_reconciler : ReconcilerContext := {
  list_managed_containers := mret [];
  list_managed_images := None;
  remove_image r := raise ContainerRuntimeError r;
  runtime_container_ttl_seconds := 86400;
  runtime_image_retention_count := 10
}.

#[export] Instance sample_reconciler_laws : ReconcilerLaws.
Proof. split; [apply evolves_ret; exact _|done|intros r; apply evolves_raise; exact _]. Defined.

(** ** Classification *)

Lemma staleness_is_abandonment_witness :
  let e := sample_execution "e1" RUNNING in
  (ex_status e ∈ STALE_EXECUTION_STATUSES
   /\ (intentional_execution_wait_state e = None
       \/ (ex_status e = WAITING_FOR_APPROVAL
           /\ 300 < age_seconds (1000 * us_per_second)
                (default (default (ex_updated_at e) (execution_last_activity_at e))
                   (ex_last_heartbeat_at e)))))
  /\ sl_is_stale (classify_at (200 * us_per_second) e 300 (Some 250) (Some 3600)) = false.
Proof.
  set (e := sample_execution "e1" RUNNING). split.
  - refine (proj1 (staleness_is_abandonment (1000 * us_per_second) e 300 None None _ _) _).
    + done.
    + done.
    + vm_compute. reflexivity.
  - refine (proj1 (proj2 (staleness_is_abandonment (200 * us_per_second) e 300 (Some 250) (Some 3600) _ _) _ _ _)).
    + done.
    + by intros i [= <-].
    + by vm_compute.
    + intros i [= <-]. by vm_compute.
    + done.
Defined.

(** ** Events *)

Lemma emitted_event_hides_secrets_witness :
  let st := mkNativeExecutionState "e1" "wf" "trace" false false 0 [] [] [] [] [] [] None None None [] [] None 0 in
  exists ev st' w', emit st TOOL_CALL_STARTED None
      [("args", PDict [("api_key", PStr "sk-123"); ("query", PStr "weather")])] [] []
      None None None None None (sample_world RUNNING) = (Ok (ev, st'), w')
    /\ events_of "e1" w' = [] ++ [ev]
    /\ secrets_hidden (PDict (ev_payload ev)) = true
    /\ secrets_hidden (PDict (ev_metrics ev)) = true
    /\ secrets_hidden (PDict (ev_metadata ev)) = true.
Proof.
  exact (emitted_event_hides_secrets
    (mkNativeExecutionState "e1" "wf" "trace" false false 0 [] [] [] [] [] [] None None None [] [] None 0)
    TOOL_CALL_STARTED None [("args", PDict [("api_key", PStr "sk-123"); ("query", PStr "weather")])] [] []
    None None None None None (sample_world RUNNING) eq_refl).
Defined.

(** ** Approvals *)

(** A call that needs a decision, and the decision. *)
Definition asked_world : world :=
  world_after (request_approval "e1" "tool" [("x", PInt 1)] None None []) (sample_world RUNNING).

Lemma asked_approvals_keyed : approvals_keyed asked_world.
Proof.
  unfold asked_world. apply lg_approvals with (w := sample_world RUNNING).
  - apply ledger_request_approval.
  - split; [constructor|done].
Defined.

Definition grant : ApprovalDecision := mkApprovalDecision true None (Some []).
Definition refusal : ApprovalDecision := mkApprovalDecision false (Some "no") (Some []).

Lemma approval_first_writer_wins_witness :
  let w' := world_after (resolve_approval "e1" "tool" grant "manual") asked_world in
  resolve_approval "e1" "tool" refusal "manual" w' = (Ok false, w').
Proof.
  refine (approval_first_writer_wins "e1" "tool" grant "manual" refusal "manual" asked_world
            (world_after (resolve_approval "e1" "tool" grant "manual") asked_world)
            (world_after (resolve_approval "e1" "tool" grant "manual") asked_world)
            asked_approvals_keyed _ _ _); vm_compute; reflexivity.
Defined.

Lemma consumed_decision_sound_witness :
  let digest := invocation_digest [("x", PInt 1)] in
  let w := world_after (resolve_approval "e1" "tool" grant "manual") asked_world in
  let w' := world_after (consume_resolved_decision "e1" "tool" digest) w in
  exists d e pending request_id row,
    dget "e1" (w_executions w) = Some e
    /\ pget "pending_approval" (ex_metadata e) = PDict pending
    /\ pget "tool_id" pending = PStr "tool"
    /\ py_str env_float_repr (py_or (pget "invocation_digest" pending) (PStr "")) = digest
    /\ pget "request_id" pending = PStr request_id
    /\ dget request_id (w_approvals w) = Some row
    /\ In (ar_status row) ["approved"; "rejected"; "expired"; "cancelled"]
    /\ (ad_granted d = true -> ar_status row = "approved")
    /\ exists e', dget "e1" (w_executions w') = Some e'
         /\ dget "pending_approval" (ex_metadata e') = None.
Proof.
  exists (mkApprovalDecision true (Some "Approval request became approved.") (Some [])).
  refine (consumed_decision_sound "e1" "tool" (invocation_digest [("x", PInt 1)]) _
            (world_after (resolve_approval "e1" "tool" grant "manual") asked_world)
            (world_after (consume_resolved_decision "e1" "tool" (invocation_digest [("x", PInt 1)]))
               (world_after (resolve_approval "e1" "tool" grant "manual") asked_world)) _).
  vm_compute. reflexivity.
Defined.

Lemma request_approval_suspends_witness :
  exists msg w' e' rid wt row,
    request_approval "e1" "tool" [("x", PInt 1)] None None [] (sample_world RUNNING) =
      (Raise (mkExn ExecutionApprovalSuspendedError msg), w')
    /\ dget rid (w_approvals w') = Some row /\ ar_status row = "pending"
    /\ ar_execution_id row = "e1" /\ ar_tool_id row = "tool"
    /\ dget (wt_id wt) (w_waits w') = Some wt /\ wait_is_pending wt = true
    /\ wt_execution_id wt = "e1"
    /\ pget "approval_request_id" (wt_metadata wt) = PStr rid
    /\ dget "e1" (w_executions w') = Some e' /\ ex_status e' = WAITING_FOR_APPROVAL
    /\ active_wait_is (wt_id wt) (ex_metadata e') = true
    /\ (exists p, pget "pending_approval" (ex_metadata e') = PDict p
          /\ pget "invocation_digest" p = PStr (invocation_digest [("x", PInt 1)]))
    /\ dget (approval_key "e1" "tool") (w_pending w') = None
    /\ dget (approval_key "e1" "tool") (w_request_ids w') = None.
Proof.
  refine (request_approval_suspends "e1" "tool" [("x", PInt 1)] None None []
            (sample_execution "e1" RUNNING) (sample_world RUNNING) _ _ _ _ _).
  - reflexivity.
  - reflexivity.
  - by intros wt [].
  - reflexivity.
  - by apply Nat.leb_le.
Defined.

(** ** Lifecycle commands *)

Lemma start_and_resume_refused_witness :
  ((exists msg, queue_start "e1" (sample_world COMPLETED) = (Raise (mkExn ValueError msg), sample_world COMPLETED))
   /\ (exists msg, resume "e1" (sample_world COMPLETED) = (Raise (mkExn ValueError msg), sample_world COMPLETED)))
  /\ (exists msg, queue_start "e1" suspended_world = (Raise (mkExn ValueError msg), suspended_world))
  /\ (exists msg, resume "e1" suspended_world = (Raise (mkExn ValueError msg), suspended_world)).
Proof.
  split.
  - refine (start_and_resume_refused "e1" (sample_execution "e1" COMPLETED) (sample_world COMPLETED) eq_refl _).
    left. by apply (bool_decide_unpack _).
  - refine (start_and_resume_refused "e1" _ suspended_world eq_refl _).
    right. exists (sample_wait WAIT_PENDING None). split; [by left|]. by split.
Defined.

Lemma isolation_not_downgraded_witness :
  (forall e, @execution_host_for isolated_config e = EXECUTION_HOST_DOCKER)
  /\ (forall (other : Runtimes) i w,
        @run_execution _ isolated_config _ _ i w = @run_execution _ isolated_config other _ i w).
Proof. apply isolation_not_downgraded. reflexivity. Defined.

Lemma pause_reopens_terminal_witness :
  exists w1 e1 w2 e2, pause "e1" (sample_world COMPLETED) = (Ok "e1", w1)
    /\ dget "e1" (w_executions w1) = Some e1 /\ ex_status e1 = PAUSED
    /\ resume "e1" w1 = (Ok "e1", w2) /\ dget "e1" (w_executions w2) = Some e2
    /\ ex_status e2 = QUEUED /\ dget "e1" (w_tasks w2) = Some false.
Proof.
  refine (pause_reopens_terminal "e1" (sample_execution "e1" COMPLETED) (sample_world COMPLETED)
            eq_refl eq_refl _ _).
  - by apply (bool_decide_unpack _).
  - by intros wt [].
Defined.

Lemma cancel_is_immediate_witness :
  exists w' e', ControlPlane.cancel "e1" suspended_world = (Ok "e1", w')
    /\ dget "e1" (w_executions w') = Some e' /\ ex_status e' = CANCELLED
    /\ (forall k x, dget k (w_waits w') = Some x -> wt_execution_id x = "e1" ->
          wait_is_pending x = false)
    /\ closes suspended_world w'
    /\ ControlPlane.cancel "e1" w' = (Ok "e1", w').
Proof.
  refine (cancel_is_immediate "e1" _ suspended_world eq_refl eq_refl eq_refl _ _ eq_refl).
  - done.
  - split; [by apply NoDup_singleton|].
    intros k wt. cbn. destruct (String.eqb_spec k "id-") as [->|]; [|done]. by intros [= <-].
Defined.

Lemma run_revives_terminal_witness :
  exists w1 e1, dget "e1" (w_executions w1) = Some e1 /\ ex_status e1 = RUNNING
    /\ run_execution "e1" (sample_world CANCELLED) =
         try_finally (native_start "e1";; mret tt)
           (release_lock "e1" cfg_worker_id;;
            modify (fun w => set_w_tasks (dpop "e1" (w_tasks w)) w)) w1.
Proof.
  refine (run_revives_terminal "e1" (sample_execution "e1" CANCELLED) (sample_world CANCELLED)
            eq_refl eq_refl _ eq_refl eq_refl eq_refl).
  by apply (bool_decide_unpack _).
Defined.

(** ** Histories *)

(** A paused execution is stored and an input wait is created for it. *)
Definition waiting_commands : list command :=
  [cmd_save_execution (sample_execution "e1" PAUSED);
   cmd_create_wait "e1" INPUT "step-1" None [] [] None None None []].

Definition waiting_world : world := run_commands waiting_commands empty_world.

Lemma waiting_world_reachable : reachable waiting_world.
Proof. apply run_commands_reachable. constructor. Defined.

Definition answer_commands : list command :=
  [cmd_resolve_wait "e1" "id-" "answer-1" [("text", PStr "yes")] WAIT_RESOLVED None true].

Definition answered_world : world := run_commands answer_commands waiting_world.

Lemma answered_world_reachable : reachable answered_world.
Proof. apply run_commands_reachable, waiting_world_reachable. Defined.

(** The wait as it is stored under [k]. *)
Definition stored_wait (k : string) (w : world) : ExecutionWait :=
  default (sample_wait WAIT_PENDING None) (dget k (w_waits w)).

Lemma at_most_one_pending_wait_witness :
  "id-" = "id-" /\ stored_wait "id-" waiting_world = stored_wait "id-" waiting_world.
Proof.
  refine (at_most_one_pending_wait waiting_world "id-" "id-" _ _ waiting_world_reachable _ _ _ _ eq_refl);
    vm_compute; reflexivity.
Defined.

(** One event of the log is deleted, then a second wait is opened. *)
Definition trimmed_world : world :=
  world_after (run_deletion (event_deleted "id-uuuuuu")) answered_world.

Definition second_wait_commands : list command :=
  [cmd_save_execution (sample_execution "e1" PAUSED);
   cmd_create_wait "e1" INPUT "step-2" None [] [] None None None []].

Definition second_wait_world : world := run_commands second_wait_commands trimmed_world.

Lemma event_log_append_only_witness :
  log_tended "e1" [event_deleted "id-uuuuuu"] answered_world second_wait_world
  /\ map ev_sequence (events_of "e1" second_wait_world) = [1; 3; 4].
Proof.
  split; [|vm_compute; reflexivity].
  refine (proj1 (proj2 (proj2 (event_log_append_only [] [event_deleted "id-uuuuuu"]
            answered_world second_wait_world "e1" _ _)))).
  - unfold answered_world, waiting_world.
    apply (tended_commands waiting_commands), (tended_commands answer_commands), tended_nil.
  - unfold second_wait_world, trimmed_world.
    apply tended_delete, (tended_commands second_wait_commands), tended_nil.
Defined.

Lemma finished_wait_immutable_witness :
  let later := run_commands (answer_commands ++ waiting_commands) answered_world in
  dget "id-" (w_waits later) = Some (stored_wait "id-" answered_world).
Proof.
  refine (finished_wait_immutable answered_world
            (run_commands (answer_commands ++ waiting_commands) answered_world) "id-"
            (stored_wait "id-" answered_world) answered_world_reachable _ _ _).
  - apply run_commands_history.
  - vm_compute. reflexivity.
  - vm_compute. reflexivity.
Defined.

(** ** Routing and checkpoints *)

Lemma edges_follow_outcome_witness :
  let failed := PDict [("status", PStr "failed")] in
  let on_failure := mkEdge "e-f" "a" "b" EDGE_FAILURE None [] in
  let on_success := mkEdge "e-s" "a" "c" EDGE_SUCCESS None [] in
  let outcome := PStr (node_outcome failed) in
  (edge_condition_matches on_failure failed outcome = true ->
   edge_condition_matches on_success failed outcome = true ->
   (we_edge_type on_failure = EDGE_FAILURE <-> we_edge_type on_success = EDGE_FAILURE))
  /\ (py_strip (default "" (we_condition on_failure)) = "" ->
      edge_condition_matches on_failure failed outcome = true <->
      node_outcome failed = wanted_outcome (we_edge_type on_failure)).
Proof.
  exact (edges_follow_outcome (mkEdge "e-f" "a" "b" EDGE_FAILURE None [])
           (mkEdge "e-s" "a" "c" EDGE_SUCCESS None []) (PDict [("status", PStr "failed")])).
Defined.

(** A state in the middle of a run. *)
Definition midway_state : NativeExecutionState :=
  mkNativeExecutionState "e1" "wf" "trace" false false 7
    [("a", PStr "done"); ("b", PDict [("status", PStr "failed")])]
    [("a", PStr "success"); ("b", PStr "failure")] [("b", PStr "no network")]
    [("task-a", PList [PDict [("tool_id", PStr "mail"); ("result", PDict [("status", PStr "sent")])]])]
    [] [] (Some "b") None (Some "task-b") ["a"; "b"; "c"] ["c"] (Some "ev-7") 0.

Definition checkpointed_execution : Execution :=
  set_ex_output_payload (Some (execution_checkpoint_payload midway_state None))
    (sample_execution "e1" PAUSED).

Definition fresh_state : NativeExecutionState :=
  mkNativeExecutionState "e1" "wf" "trace-2" false false 0 [] [] [] [] [] [] None None None [] [] None 0.


Lemma terminal_nodes_agree_witness :
  In "d" (terminal_executable_node_ids diamond (order_nodes diamond)) <->
  In "d" (terminal_task_node_ids diamond).
Proof.
  refine (terminal_nodes_agree diamond "d" _).
  by repeat (constructor; [simpl; intuition discriminate|]); constructor.
Defined.

Lemma completion_test_reads_checkpoint_witness :
  exists b, has_completed_workflow_checkpoint checkpointed_execution empty_world = (Ok b, empty_world)
    /\ (b = true <-> forall id, In id (st_terminal_node_ids midway_state) ->
                       dmem id (st_node_outputs midway_state) = true).
Proof.
  refine (completion_test_reads_checkpoint checkpointed_execution midway_state None empty_world
            eq_refl _ _ _ _).
  - by intros id [<-|[]].
  - done.
  - by intros id [<-|[<-|[]]].
  - done.
Defined.

(** ** Attempts *)

(** An executor that never succeeds. *)
#[export] Instance failing_executor : AgentExecutor :=
  fun i wf task agent profile timeout => raise RuntimeError "no model".

Definition sample_attempt : attempt_context :=
  mkAttempt "e1" diamond
    (mkTask "task-a" "collect" None [] [] false None (Some 2) None None (Some "on_failure") [])
    (mkAgent "agent" "agent" (Some "profile") [] [] []) (mkProfile "profile" None)
    [("max_retries", PInt 2); ("approval_policy", PStr "on_failure")] 2 None false.

Lemma attempts_terminate_witness :
  result_of (run_attempts sample_attempt (attempts_fuel 2) 1 false)
    (set_w_states [("e1", fresh_state)] (sample_world RUNNING)) <> Ok None
  /\ forall fuel n u e w1 w2, attempt_body sample_attempt n w1 = (Raise e, w2) -> is_unwinding e = true ->
       run_attempts sample_attempt (S fuel) n u w1 = (Raise e, w2).
Proof.
  exact (attempts_terminate sample_attempt (set_w_states [("e1", fresh_state)] (sample_world RUNNING))).
Defined.
