(* ===== verification/Runs.v ===== *)
(** * Concrete runs of the engine

    A deployment whose agents answer at once and whose hooks do nothing, a
    workflow with a success and a failure branch, and the worlds on which the
    theorems about runs, cycles, working sets and policies are instantiated. *)

From Corelib Require Import SpecFloat.
From S2P Require Import System Scenarios WalkFacts CycleFacts PolicyFacts.

(** ** A deployment *)

#[export] Instance sample_profiles : Profiles := fun id => Some (mkProfile id None).

(** Every agent completes its task. *)
#[export] Instance answering_executor : AgentExecutor := fun i wf task agent profile timeout =>
  mret (PDict [("status", PStr "completed"); ("text", PStr ("done: " +:+ td_id task))]).

#[export] Instance idle_hooks : RunHooks := {
  graph_context_retriever := None;
  execution_failure_graph_context_retriever := None;
  execution_completion_handler := None;
  resolve_model_client _ := mret tt
}.

Lemma sample_interfaces_keep I : interfaces_keep I.
Proof. split; intros; try discriminate; apply evolves_ret; exact _. Defined.

Lemma sample_final_hooks_keep I : final_hooks_keep I.
Proof. split; intros; discriminate. Defined.

(** ** A workflow with a success and a failure branch *)

Definition branching : WorkflowDefinition :=
  let agent := mkAgent "agent" "Agent" (Some "profile") [] [] [] in
  let task id := mkTask id id (Some "agent") [] [] false None None None None None [] in
  mkWorkflow "wf" "wf" (map sample_node ["a"; "b"; "c"; "d"])
    [mkEdge "ab" "a" "b" EDGE_SUCCESS None []; mkEdge "ac" "a" "c" EDGE_FAILURE None [];
     mkEdge "bd" "b" "d" EDGE_DEFAULT None []]
    "a" (map task ["a"; "b"; "c"; "d"]) [agent] [] [] None None None None None [].

#[export] Instance branching_workflows : Workflows := fun _ => Some branching.

Definition run_world : world := sample_world QUEUED.
Definition finished_world : world := world_after (start_execution "e1") run_world.

(** The success branch runs, the failure branch does not. *)
Example branching_run :
  result_of (start_execution "e1") run_world = Ok "e1"
  /\ match dget "e1" (w_states finished_world) with
     | Some st => dkeys (st_node_outputs st) = ["a"; "b"; "d"]
     | None => False
     end.
Proof. split; vm_compute; reflexivity. Qed.

Lemma run_settles_witness : execution_in "e1" SETTLED_STATUSES finished_world.
Proof.
  refine (run_settles "e1" (sample_final_hooks_keep _) run_world "e1" finished_world _).
  vm_compute. reflexivity.
Defined.

(** *** Routing: node [a] was restored from a checkpoint *)

Definition restored_state : NativeExecutionState :=
  set_st_node_outcomes [("a", PStr "success")]
    (set_st_node_outputs [("a", PDict [("status", PStr "completed")])] fresh_state).

Definition resumed_world : world := set_w_states [("e1", restored_state)] (sample_world RUNNING).


(** ** Cycles *)

Definition cycle_policy : PersistentCyclePolicy :=
  mkCyclePolicy true (float_of_Z 60) zero_float (float_of_Z 2) (float_of_Z 3600) 5 None (Some 3) None 20.

Definition cycling_execution : Execution :=
  set_ex_metadata [("persistent_cycle", PDict [("cycle_number", PInt 4); ("no_progress_cycles", PInt 1);
                                               ("consecutive_failures", PInt 1)])]
    (sample_execution "e1" RUNNING).

Definition cycling_world : world :=
  set_w_states [("e1", restored_state)] (set_w_executions [("e1", cycling_execution)] empty_world).

Definition cycle_output : dict pyval := [("final_output", PStr "ok")].

Lemma cycle_success_decides_witness :
  returns (handle_persistent_cycle_success "e1" cycle_policy cycle_output) cycling_world (fun handled w' =>
    handled = true /\ exists t, asleep_until "e1" 5 (env_now t + 60 * us_per_second) cycle_output w').
Proof.
  refine (cycle_success_decides "e1" cycle_policy cycle_output cycling_execution restored_state 4 (Some 1) None
            (60 * us_per_second) cycling_world eq_refl eq_refl eq_refl eq_refl _ _ eq_refl eq_refl _ _ _).
  - done.
  - done.
  - vm_compute. reflexivity.
  - intros t. cbn [env_now sample_env]. unfold MAX_TIMESTAMP, us_per_second. lia.
  - by intros wt [].
Defined.

(** The second failure in a row: the delay doubles. *)
Lemma cycle_failure_decides_witness :
  returns (handle_persistent_cycle_failure "e1" branching cycle_policy "no network") cycling_world (fun _ w' =>
    exists t, asleep_until "e1" 5 (env_now t + 120 * us_per_second)
                (execution_checkpoint_payload restored_state None) w').
Proof.
  refine (cycle_failure_decides "e1" branching cycle_policy "no network" cycling_execution restored_state 4 (Some 1)
            (float_of_Z 120) false (120 * us_per_second) cycling_world
            eq_refl eq_refl eq_refl eq_refl _ _ eq_refl _ eq_refl _ _ _).
  - done.
  - done.
  - reflexivity.
  - vm_compute. reflexivity.
  - intros t. cbn [env_now sample_env]. unfold MAX_TIMESTAMP, us_per_second. lia.
  - by intros wt [].
Defined.

(** ** Working sets *)

Definition context_entry : dict pyval :=
  [("trigger", PStr "subagent_start");
   ("context", PDict [("provenance", PDict [("nodes", PList [PDict [("id", PStr "n1"); ("type", PStr "task")]])]);
                      ("failures", PList [PDict [("id", PStr "f1")]; PDict [("id", PStr "f1")]])])].

Definition record_context : M (GraphWorkingSet * dict pyval) :=
  record_graph_context_working_set_entry "e1" context_entry (Some "agent") (Some "wf") (Some "e1") (Some "e1") None
    GRAPH_WORKING_SET_TTL_SECONDS.

Definition recorded_set : GraphWorkingSet :=
  match result_of record_context resumed_world with
  | Ok (ws, _) => ws
  | Raise _ => mkGraphWorkingSet "" None None None None None [] [] [] [] 0 0 0
  end.

(** The duplicate is merged. *)
Example recorded_set_lists :
  (List.length (gw_visited_nodes recorded_set), List.length (gw_selected_nodes recorded_set)) = (1%nat, 1%nat).
Proof. vm_compute. reflexivity. Qed.

Lemma working_sets_bounded_witness :
  exists st', dget "e1" (w_states (world_after record_context resumed_world)) = Some st'
    /\ working_sets_ok (st_graph_working_sets st')
    /\ pget "working_set_id" (dset "working_set_id" (PStr (gw_working_set_id recorded_set)) context_entry)
       = PStr (gw_working_set_id recorded_set)
    /\ forall id ws', dget id (st_graph_working_sets st') = Some ws' ->
         ws' = recorded_set \/ (dget id (st_graph_working_sets restored_state) = Some ws'
                                /\ env_now (w_clock resumed_world) < gw_expires_at ws').
Proof.
  refine (working_sets_bounded "e1" context_entry (Some "agent") (Some "wf") (Some "e1") (Some "e1") None
            GRAPH_WORKING_SET_TTL_SECONDS restored_state resumed_world recorded_set
            (dset "working_set_id" (PStr (gw_working_set_id recorded_set)) context_entry)
            (world_after record_context resumed_world) eq_refl _ _).
  - split; [by split; [constructor|]|]. split; [by vm_compute|done].
  - vm_compute. reflexivity.
Defined.

(** ** Histories and the abstract machine of waits *)

Lemma waits_refine_machine_witness :
  wait_steps (spec_waits waiting_world) (spec_waits answered_world) /\ waits_distinct (spec_waits answered_world).
Proof.
  refine (waits_refine_machine waiting_world answered_world waiting_world_reachable _).
  apply run_commands_history.
Defined.

(** The two ends of that refinement: opened, then decided. *)
Example spec_of_answer :
  map snd (spec_waits waiting_world) = [mkSpecWait "e1" "step-1" WAIT_PENDING None]
  /\ map snd (spec_waits answered_world) = [mkSpecWait "e1" "step-1" WAIT_RESOLVED (Some "answer-1")].
Proof. split; vm_compute; reflexivity. Qed.

(** ** Policies *)

(** The workflow declares "scheduled", but its persistent cycle wins. *)
Definition cycle_workflow_metadata : dict pyval :=
  [("execution_lifecycle", PDict
     [("run_mode", PStr "scheduled");
      ("persistent_cycle", PDict [("enabled", PStr "yes"); ("interval_seconds", PStr "0.5");
                                  ("max_cycles", PInt 7); ("deadline_at", PStr "2024-01-31T08:00:00Z")])])].

Definition created_lifecycle : dict pyval :=
  match result_of (build_execution_lifecycle_metadata [] cycle_workflow_metadata) empty_world with
  | Ok d => d
  | Raise _ => []
  end.

Definition created_policy : PersistentCyclePolicy :=
  match result_of (normalized_persistent_cycle_policy
    (persistent_cycle_values (dict_or_empty (pget "execution_lifecycle" cycle_workflow_metadata))) true) empty_world with
  | Ok p => p
  | Raise _ => default_cycle_policy
  end.

Lemma cycle_policy_roundtrip_witness :
  pc_max_cycles created_policy = Some 7
  /\ resolve_persistent_cycle_policy
       (set_ex_metadata [("execution_lifecycle", PDict created_lifecycle)] (sample_execution "e1" QUEUED)) empty_world
     = (Ok created_policy, empty_world).
Proof.
  split; [vm_compute; reflexivity|].
  refine (proj2 (proj2 (proj2 (cycle_policy_roundtrip [] cycle_workflow_metadata empty_world created_lifecycle
            empty_world (set_ex_metadata [("execution_lifecycle", PDict created_lifecycle)] (sample_execution "e1" QUEUED))
            created_policy _ _ eq_refl _ _)))); [vm_compute; reflexivity ..|].
  vm_compute. repeat split; discriminate.
Defined.

Definition sample_settings : RuntimeSettings := mkRuntimeSettings 3600 600 900 (float_of_Z 120).

(** A workflow that asks for an hour, an execution for two minutes. *)
Definition hourly_workflow : WorkflowDefinition :=
  mkWorkflow "wf" "wf" [] [] "a" [] [] [] [] None None None None None
    [("runtime_policy", PDict [("worker_hard_timeout_seconds", PStr "3600.9"); ("idle_timeout_seconds", PInt (-5))])].

Definition hurried_execution : Execution :=
  set_ex_metadata [("execution_lifecycle", PDict [("run_mode", PStr "always_on")])] (sample_execution "e1" QUEUED).

Definition resolve_sample (env : string -> option string) (wf : option WorkflowDefinition) :
    M ResolvedExecutionRuntimePolicy :=
  resolve_execution_runtime_policy sample_settings env wf (Some hurried_execution) None None true.

Definition policy_of (env : string -> option string) (wf : option WorkflowDefinition) : ResolvedExecutionRuntimePolicy :=
  match result_of (resolve_sample env wf) empty_world with
  | Ok p => p
  | Raise _ => mkResolvedPolicy None 0 0 0 zero_float zero_float []
  end.

Definition no_environment : string -> option string := fun _ => None.
Definition timeout_environment : string -> option string := fun k =>
  if String.eqb k "AGENCY_EXECUTION_TIMEOUT_SECONDS" then Some "120" else None.

(** Nothing but the settings limits this always-on execution; a workflow's limit
    is kept. *)
Example always_on_limits :
  rp_worker_hard_timeout_seconds (policy_of no_environment None) = None
  /\ rp_worker_hard_timeout_seconds (policy_of no_environment (Some hourly_workflow)) = Some 3600.
Proof. split; vm_compute; reflexivity. Qed.

Lemma sample_settings_ok : settings_ok sample_settings.
Proof. by repeat split; vm_compute. Defined.

Lemma runtime_policy_positive_witness :
  0 < rp_idle_timeout_seconds (policy_of no_environment None)
  /\ rp_worker_hard_timeout_seconds (policy_of no_environment None) = None.
Proof.
  pose proof (runtime_policy_positive sample_settings no_environment None (Some hurried_execution) None None true
    empty_world (policy_of no_environment None) empty_world sample_settings_ok eq_refl) as (Hidle & _ & _ & _ & _ & Hhard).
  split; [exact Hidle|]. rewrite (proj1 Hhard). vm_compute. reflexivity.
Defined.

Lemma environment_wins_witness :
  rp_worker_hard_timeout_seconds (policy_of timeout_environment (Some hourly_workflow)) = Some 120
  /\ dget HARD (rp_source_map (policy_of timeout_environment (Some hourly_workflow))) = Some "environment".
Proof.
  refine (environment_wins sample_settings timeout_environment (Some hourly_workflow) (Some hurried_execution) None None
            true 120 empty_world (policy_of timeout_environment (Some hourly_workflow)) empty_world _ _).
  - vm_compute. reflexivity.
  - vm_compute. reflexivity.
Defined.
