(* ===== verification/Fires.v ===== *)
(** * Concrete schedules and fires

    The deployment of [Scenarios] with a scheduler: an hourly schedule, a cron
    schedule that is disabled, one with a malformed expression, and the worlds on
    which the theorems about triggers, creation and the scheduler are
    instantiated; and the cron search in the repeated hour at the end of daylight
    saving time. *)

From stdpp Require Import gmap.
From S2P Require Import Scenarios Firing Concurrency.

Definition t0 : Z := 1700000000 * us_per_second.

(** ** Cron *)

Lemma sample_clock_representable n : representable (env_now n).
Proof. unfold representable. cbn. unfold us_per_second. lia. Qed.

Definition weekdays_at_seven : string := "0 7 * * 1,2,3,4,5".

Lemma cron_next_fire_exact_witness :
  exists fields t c, read_cron weekdays_at_seven = Some fields
    /\ next_cron_fire weekdays_at_seven t0 "Europe/Berlin" = inr t
    /\ t = c - hours 1 /\ t0 + hours 1 < c /\ cron_allows fields c = true
    /\ forall c', t0 + hours 1 < c' < c -> c' mod us_per_minute = 0 -> cron_allows fields c' = false.
Proof.
  destruct (read_cron weekdays_at_seven) as [fields|] eqn:Hf; [|by vm_compute in Hf].
  pose proof (cron_next_fire_exact weekdays_at_seven fields t0 "Europe/Berlin"
    (fun t => t + hours (if t <? berlin_transition then 2 else 1))
    (fun t => t - hours (if t <? berlin_transition + hours 2 then 2 else 1)) Hf eq_refl) as Hspec.
  assert (Hv : next_cron_fire weekdays_at_seven t0 "Europe/Berlin" = inr (1700028000 * us_per_second))
    by (vm_compute; reflexivity).
  rewrite Hv in Hspec. specialize (Hspec ltac:(vm_compute; discriminate)).
  destruct Hspec as (c & Ht & Hlt & Hmod & _ & Hall & Hmin).
  exists fields, (1700028000 * us_per_second), c. split; [done|]. split; [done|].
  assert (Hpast : (t0 <? berlin_transition) = false) by reflexivity. rewrite Hpast in *.
  assert (Hc : (c <? berlin_transition + hours 2) = false).
  { apply Z.ltb_ge. apply Z.lt_le_incl. etransitivity; [|exact Hlt]. reflexivity. }
  rewrite Hc in Ht. by repeat split.
Defined.

(** Half an hour into the repeated hour the next fire lies in the past: the local
    time 02:35 is taken for its first occurrence. *)
Lemma repeated_hour_fires_in_the_past :
  let now := berlin_transition + 30 * us_per_minute in
  next_cron_fire "*/5 * * * *" now "Europe/Berlin" = inr (now + 5 * us_per_minute - hours 1).
Proof. vm_compute. reflexivity. Qed.

(** ** Schedules in the catalog *)

Definition hourly_schedule : ScheduleDefinition :=
  mkSchedule "s1" "Hourly" "wf" true INTERVAL [("interval_seconds", PInt 3600)] [("topic", PStr "news")] None 1
    "UTC" (Some t0) None [].

Definition disabled_schedule : ScheduleDefinition :=
  mkSchedule "s2" "Nightly" "wf" false CRON [("cron", PStr "0 7 * * *")] [] None 1 "UTC" None None [].

Definition broken_schedule : ScheduleDefinition :=
  mkSchedule "s2" "Nightly" "wf" true CRON [("cron", PStr "@daily")] [] None 1 "UTC" None None [].

Definition entry (s : ScheduleDefinition) : string * dict pyval := (sd_id s, stamped_payload t0 PNone s).

Definition scheduled_world (l : list ScheduleDefinition) : world := set_w_schedules (map entry l) empty_world.

Lemma t0_representable t : Some t0 = Some t -> representable t.
Proof. intros [= <-]. unfold representable, t0, us_per_second. lia. Qed.

Lemma hourly_schedule_valid : schedule_valid hourly_schedule.
Proof. split; [by split|exact t0_representable|done]. Defined.

Lemma disabled_schedule_valid : schedule_valid disabled_schedule.
Proof. by repeat split. Defined.

Lemma hourly_stored l : stored hourly_schedule "s1" (scheduled_world (hourly_schedule :: l)).
Proof. by eexists. Defined.

(** An API document with the aliases that the normalisation accepts. *)
Definition aliased_document : dict pyval :=
  [("id", PStr "s1"); ("name", PStr "Hourly"); ("workflow_id", PStr "wf"); ("schedule_type", PStr "interval");
   ("interval_seconds", PInt 3600); ("input_payload", PDict [("topic", PStr "news")]);
   ("next_run_at", PStr (isoformat t0))].

Lemma schedule_roundtrip_witness :
  returns (catalog_create schedule_model hourly_schedule) (scheduled_world [disabled_schedule]) (fun created w' =>
    created = hourly_schedule /\ schedule_get "s1" w' = (Ok (Some hourly_schedule), w')
    /\ forall i, i <> "s1" -> dget i (w_schedules w') = dget i (w_schedules (scheduled_world [disabled_schedule]))).
Proof.
  refine (schedule_roundtrip aliased_document hourly_schedule empty_world empty_world
            (scheduled_world [disabled_schedule]) _ t0_representable _).
  - vm_compute. reflexivity.
  - done.
Defined.

(** ** Editing *)

Definition enable_patch : dict pyval := [("enabled", PBool true)].
Definition daily_patch : dict pyval :=
  [("enabled", PBool true); ("trigger_config", PDict [("cron", PStr "@daily")])].

(** The disabled schedule after a patch through the API. *)
Definition patched (patch : dict pyval) (l : list ScheduleDefinition) : outcome (option ScheduleDefinition) * world :=
  service_patch_schedule "s2" patch (scheduled_world l).

Lemma service_patch_keeps_fire_time_witness :
  exists s', (patched enable_patch [disabled_schedule]).1 = Ok (Some s') /\ sd_enabled s' = true
    /\ sd_next_fire_at s' = None
    /\ forall now tc, compute_next_fire s' now = inr tc -> tc_ready tc = false.
Proof.
  destruct (patched enable_patch [disabled_schedule]) as [[[s'|]|e] w'] eqn:Hp; try by vm_compute in Hp.
  exists s'. split; [done|].
  assert (Hs : s' = match (patched enable_patch [disabled_schedule]).1 with Ok (Some s) => s | _ => s' end)
    by by rewrite Hp.
  unfold patched in Hp.
  assert (Hst : stored disabled_schedule "s2" (scheduled_world [disabled_schedule])).
  { exists (stamped_payload t0 PNone disabled_schedule). split; [reflexivity|]. split; reflexivity. }
  destruct (service_patch_keeps_fire_time "s2" enable_patch disabled_schedule s' (scheduled_world [disabled_schedule]) w'
    Hst disabled_schedule_valid eq_refl Hp) as [Hsame Hnever].
  split; [rewrite Hs; vm_compute; reflexivity|]. split; [exact Hsame|].
  apply Hnever; [reflexivity|]. rewrite Hs. vm_compute. reflexivity.
Defined.

(** A patch to an expression with one field is accepted; the hourly schedule
    listed after it is due and never fires. *)
Definition poisoned_world : world := (patched daily_patch [disabled_schedule; hourly_schedule]).2.

Lemma malformed_schedule_stops_pass_witness :
  exists msg w', run_due_schedules poisoned_world = (Raise (mkExn ValueError msg), w')
    /\ w_executions w' = [] /\ w_fire_claims w' = ∅.
Proof.
  set (w1 := set_w_clock (S (w_clock poisoned_world)) poisoned_world).
  destruct (malformed_schedule_stops_pass [] broken_schedule [hourly_schedule] [] poisoned_world w1 w1)
    as (msg & Hrun).
  - split; [reflexivity|]. split; [reflexivity|]. exists "@daily". split; [reflexivity|]. vm_compute. lia.
  - vm_compute. reflexivity.
  - reflexivity.
  - exists msg, w1. split; [exact Hrun|]. split; vm_compute; reflexivity.
Defined.

(** ** Creating and firing *)

Definition manual_trigger : dict pyval := [("type", PStr "manual"); ("execution_host", PStr "Docker")].

(** A workflow with a task and an agent, which the CrewAI adapter supports. *)
Section Crew.

Definition crew_workflow : WorkflowDefinition :=
  mkWorkflow "crew" "crew" [] [] ""
    [mkTask "t" "t" (Some "agent") [] [] false None None None None None []]
    [mkAgent "agent" "Agent" (Some "profile") [] [] []] [] [] None None None None None [].

#[local] Instance crew_workflows : Workflows := fun _ => Some crew_workflow.

Lemma created_execution_prepared_witness :
  let '(result, w') :=
    registry_create_execution "wf" [("topic", PStr "news")] manual_trigger (Some " crewai ") None empty_world in
  exists i wf e ev, result = Ok i /\ get_workflow "wf" = Some wf
    /\ dget i (w_executions w') = Some e
    /\ created wf "wf" [("topic", PStr "news")] manual_trigger None "crewai" e
    /\ events_of i w' = [ev] /\ ev_event_type ev = EXECUTION_CREATED.
Proof.
  destruct (registry_create_execution _ _ _ _ _ _) as [[i|e] w'] eqn:Hr; [|by vm_compute in Hr].
  destruct (proj2 (proj2 (proj2 (created_execution_prepared "wf" [("topic", PStr "news")] manual_trigger
              (Some " crewai ") None empty_world (conj eq_refl eq_refl)))) i w' Hr) as (wf & e & ev & Hwf & _ & He & Hc & _ & Hev & Hty & _).
  exists i, wf, e, ev. split; [exact eq_refl|]. split; [exact Hwf|]. split; [exact He|]. split; [exact Hc|].
  split; [exact Hev|exact Hty].
Defined.

End Crew.

(** The hourly schedule, due and claimed by this scheduler. *)
Definition claimed_world : world :=
  world_after (acquire_schedule_fire_claim "s1" t0 scheduler_id 300) (scheduled_world [hourly_schedule]).

Lemma sample_interfaces_keep_tables : interfaces_keep_tables.
Proof.
  pose proof tables_utc_now. pose proof tables_assign.
  assert (Hm : forall f, (forall w, same_tables w (f w)) -> evolves same_tables (modify f)) by (intros f Hf w; apply Hf).
  split; [|done]. intros f i [= <-].
  unfold queue_start, find_or_raise, get_execution, reject_terminal_execution_replay, reject_unresolved_wait,
    list_execution_waits, update_execution, repo_save_execution. evolve; apply Hm; by split.
Defined.

Definition sample_fire : outcome string * world :=
  fire_execution hourly_schedule None (sd_input_template hourly_schedule)
    (fire_trigger hourly_schedule "scheduler" (Some t0) None) (set_w_clock (S (w_clock claimed_world)) claimed_world).

Lemma sample_fire_returns : sample_fire.1 = Ok "id-u".
Proof. vm_compute. reflexivity. Qed.

Lemma claimed_stored : stored hourly_schedule "s1" claimed_world.
Proof. exists (stamped_payload t0 PNone hourly_schedule). split; [reflexivity|]. split; reflexivity. Defined.

Lemma claimed_holds : holds_claim "s1" (Some t0) claimed_world.
Proof. intros t [= <-]. eexists. split; [vm_compute; reflexivity|reflexivity]. Defined.

Lemma trigger_now_settles_witness :
  returns (trigger_now "s1" "scheduler" (Some t0) None) claimed_world (fun r w' =>
    jr_execution_id r = "id-u" /\ sd_last_fire_at (jr_schedule r) = Some (t0 + 1 * us_per_second)
    /\ sd_next_fire_at (jr_schedule r) = Some (t0 + 3601 * us_per_second)
    /\ stored (jr_schedule r) "s1" w' /\ claim_closed "s1" (Some t0) "fired" (Some "id-u") w').
Proof.
  pose proof (trigger_now_settles "s1" "scheduler" (Some t0) None hourly_schedule claimed_world
    sample_interfaces_keep_tables sample_clock_representable claimed_stored hourly_schedule_valid eq_refl eq_refl
    claimed_holds) as Hsettles.
  fold sample_fire in Hsettles. pose proof sample_fire_returns as Hok.
  destruct sample_fire as [[e|x] w1]; [|done]. injection Hok as ->.
  set (next := mkTrigger (Some (t0 + 3601 * us_per_second)) false).
  eapply returns_mono; [apply (Hsettles next)|].
  - vm_compute. reflexivity.
  - intros t [= <-]. unfold representable, t0, us_per_second. lia.
  - intros r w' (He & Hs & _ & Hst & Hcl & _). rewrite Hs. split; [exact He|]. split; [reflexivity|].
    split; [reflexivity|]. split; [exact Hst|exact Hcl].
Defined.

(** The schedule allows one active execution. *)
Lemma concurrency_limit_enforced_witness :
  (exists msg w', sample_fire.2 = w' /\
     fire_execution hourly_schedule None [] (fire_trigger hourly_schedule "manual" None None) w'
       = (Raise (mkExn ScheduleConcurrencyError msg), w'))
  /\ schedule_load "s1" claimed_world = 0%nat /\ schedule_load "s1" sample_fire.2 = 1%nat.
Proof.
  set (trigger := fire_trigger hourly_schedule "manual" None None).
  assert (Hstart : execution_starter = Some queue_start) by reflexivity.
  assert (Hkeys : distinct_keys sample_fire.2) by (vm_compute; apply NoDup_singleton).
  assert (Hdicts : triggers_are_dicts sample_fire.2).
  { unfold triggers_are_dicts. vm_compute. intros e [<-|[]]. exact I. }
  assert (Hid : dget (env_uuid (w_uuids sample_fire.2)) (w_executions sample_fire.2) = None) by (vm_compute; reflexivity).
  assert (Hst : unused (env_uuid (w_uuids sample_fire.2)) sample_fire.2) by (split; vm_compute; reflexivity).
  assert (Hload : sd_max_concurrent_executions hourly_schedule
                  <= Z.of_nat (schedule_load (sd_id hourly_schedule) sample_fire.2)) by (vm_compute; discriminate).
  destruct (proj1 (concurrency_limit_enforced hourly_schedule None [] trigger sample_fire.2 Hkeys Hdicts Hstart
    eq_refl Hid Hst) Hload) as (msg & Hrefused).
  split; [exists msg, sample_fire.2; split; [reflexivity|exact Hrefused]|].
  split; vm_compute; reflexivity.
Defined.
