(* ===== verification/Containers.v ===== *)
(** * Concrete workers and containers

    A Docker daemon with a few containers, executions that run in them, and the
    worlds on which the theorems about workers and the reconciler are
    instantiated; and a parked execution whose retained container is cleaned up. *)

From S2P Require Import Scenarios ReconcileFacts RepairFacts.

(** Containers of a worker that was suspended, of one that was killed, of one that
    runs, and of one that completed. *)
Definition container (id status : string) (exit_code : option Z) : ContainerState :=
  mkContainer id id "image" status [] None None exit_code.
Definition suspended_container : ContainerState := container "c1" "exited" (Some 50).
Definition killed_container : ContainerState := container "c2" "exited" (Some 137).
Definition running_container : ContainerState := container "c3" "running" None.
Definition completed_container : ContainerState := container "c5" "exited" (Some 0).

(** The daemon removes what it is asked to remove. *)
#[local] Instance docker : ContainerManager := {
  container_manager_configured := true;
  inspect_container c := mret suspended_container;
  stop_container c := mret running_container;
  remove_container c _ := mret tt
}.

#[local] Instance docker_listing : ReconcilerContext := {
  list_managed_containers := mret [suspended_container; killed_container; running_container; completed_container];
  list_managed_images := None;
  remove_image r := raise ContainerRuntimeError r;
  runtime_container_ttl_seconds := 86400;
  runtime_image_retention_count := 10
}.

Lemma docker_is_lawful : docker_lawful.
Proof.
  split; [intros c w; left|intros c w; left|intros c f w; left|intros w; left|done|intros r w; right];
    [by eexists..|]. exists (mkExn ContainerRuntimeError r). split; reflexivity.
Defined.

Definition contained_execution (i cid : string) (status : ExecutionStatus) : Execution :=
  set_ex_container_id (Some cid) (sample_execution i status).

(** One execution per container, and one whose container is gone. *)
Definition docker_world : world :=
  set_w_executions
    [("e1", contained_execution "e1" "c1" WAITING_FOR_INPUT); ("e2", contained_execution "e2" "c2" RUNNING);
     ("e3", contained_execution "e3" "c3" RUNNING); ("e4", contained_execution "e4" "c4" RUNNING);
     ("e5", contained_execution "e5" "c5" COMPLETED)] empty_world.

Definition docker_pass : outcome ReconciliationReport * world := reconcile_once docker_world.

Definition status_after (i : string) (w : world) : option (ExecutionStatus * option string) :=
  e ← dget i (w_executions w); Some (ex_status e, ex_container_id e).

(** A running execution whose worker fell silent: its container is stopped and
    removed, and it is requeued. *)
Definition silent_world : world :=
  set_w_clock 1000 (set_w_executions [("e3", contained_execution "e3" "c3" RUNNING)] empty_world).


Lemma pass_keeps_outcomes_witness :
  exists e', dget "e5" (w_executions (world_after reconcile_once docker_world)) = Some e'
    /\ bookkept (contained_execution "e5" "c5" COMPLETED) e' /\ ex_container_status e' = Some "removed".
Proof.
  destruct (pass_keeps_outcomes docker_is_lawful docker_world "e5" (contained_execution "e5" "c5" COMPLETED)
              eq_refl eq_refl) as (e' & He' & Hb).
  exists e'. split; [exact He'|]. split; [exact Hb|].
  assert (Hs : (e ← dget "e5" (w_executions (world_after reconcile_once docker_world)); ex_container_status e)
    = Some "removed") by (vm_compute; reflexivity).
  rewrite He' in Hs. exact Hs.
Defined.

(** The suspended execution stays parked, without its removed container; the
    killed one and the one without container are failed, the running one runs. *)
Lemma pass_leaves_no_lost_worker_witness :
  exists report w', reconcile_once docker_world = (Ok report, w')
    /\ (exists containers, list_managed_containers docker_world = (Ok containers, docker_world)
          /\ forall i e, dget i (w_executions w') = Some e -> attended (containers_by_id containers) e)
    /\ map (fun i => status_after i w') ["e1"; "e2"; "e3"; "e4"]
       = [Some (WAITING_FOR_INPUT, None); Some (FAILED, Some "c2"); Some (RUNNING, Some "c3");
          Some (FAILED, Some "c4")].
Proof.
  destruct (reconcile_once docker_world) as [[report|exc] w'] eqn:Hr.
  - exists report, w'. split; [reflexivity|]. split; [exact (pass_leaves_no_lost_worker docker_is_lawful _ _ _ Hr)|].
    assert (Hs : map (fun i => status_after i (reconcile_once docker_world).2) ["e1"; "e2"; "e3"; "e4"]
       = [Some (WAITING_FOR_INPUT, None); Some (FAILED, Some "c2"); Some (RUNNING, Some "c3");
          Some (FAILED, Some "c4")]) by (vm_compute; reflexivity).
    rewrite Hr in Hs. exact Hs.
  - assert (Hs : opt_some (match (reconcile_once docker_world).1 with Ok r => Some r | Raise _ => None end) = true)
      by (vm_compute; reflexivity).
    rewrite Hr in Hs. discriminate.
Defined.

(** ** A worker and the reconciler *)

Lemma sample_start_same i w j w' : registry_start i w = (Ok j, w') -> j = i.
Proof.
  unfold registry_start, resolve_adapter_for_execution, get_adapter. execute.
  destruct (dget i (w_executions w)) as [e|]; cbn; [|discriminate].
  destruct (String.eqb _ _); cbn; [|discriminate]. unfold mret, M_ret. congruence.
Defined.

Lemma sample_within_same i t w j w' : run_within i t w = (Ok j, w') -> j = i.
Proof. apply sample_start_same. Defined.

Definition parked_world : world :=
  set_w_executions [("e1", contained_execution "e1" "c1" WAITING_FOR_INPUT)] empty_world.

Lemma worker_outcome_survives_witness :
  exists w1 e1, run_execution_worker "e1" "wf" "r1" "native" "k" None None parked_world = (Ok 50, w1)
    /\ dget "e1" (w_executions w1) = Some e1
    /\ returns (reconcile_execution "e1" (Some suspended_container)) w1 (fun _ w2 => exists e2,
         dget "e1" (w_executions w2) = Some e2 /\ ex_status e2 = WAITING_FOR_INPUT
         /\ w_waits w2 = w_waits w1).
Proof.
  destruct (run_execution_worker "e1" "wf" "r1" "native" "k" None None parked_world) as [r w1] eqn:Hrun.
  assert (Hr : r = Ok 50).
  { assert (Hs : (run_execution_worker "e1" "wf" "r1" "native" "k" None None parked_world).1 = Ok 50)
      by (vm_compute; reflexivity). rewrite Hrun in Hs. exact Hs. }
  destruct (dget "e1" (w_executions w1)) as [e1|] eqn:He1.
  2: { assert (Hs : opt_some (dget "e1" (w_executions
         (run_execution_worker "e1" "wf" "r1" "native" "k" None None parked_world).2)) = true)
         by (vm_compute; reflexivity). rewrite Hrun in Hs. cbn [snd] in Hs. rewrite He1 in Hs. discriminate. }
  assert (Hs : status_after "e1" (run_execution_worker "e1" "wf" "r1" "native" "k" None None parked_world).2
    = Some (WAITING_FOR_INPUT, Some "c1")) by (vm_compute; reflexivity).
  rewrite Hrun in Hs. cbn [snd] in Hs. unfold status_after in Hs. rewrite He1 in Hs. injection Hs as Hst Hcid.
  subst r. exists w1, e1. split; [reflexivity|]. split; [exact He1|].
  assert (Hne : nonempty (ex_container_id e1) = Some "c1") by (rewrite Hcid; reflexivity).
  pose proof (worker_outcome_survives docker_is_lawful sample_start_same sample_within_same
    "e1" "wf" "r1" "native" "k" None None 50 suspended_container parked_world w1 e1 "c1"
    Hrun He1 Hne ltac:(discriminate) eq_refl eq_refl) as Hall.
  eapply returns_mono; [exact Hall|]. intros report w2 (e2 & He2 & Hst2 & _ & Hw). exists e2.
  split; [exact He2|]. split; [|exact Hw]. rewrite Hst2. unfold handed_over, is_active, is_suspended.
  rewrite Hst. reflexivity.
Defined.

(** ** A parked execution and the age limit of containers

    The workflow retains its containers.  The container of a suspended worker is
    removed when it is a day old, the execution keeps its link, and the next pass
    takes the missing container for a loss and fails the parked execution. *)

Definition retained_execution : Execution :=
  set_ex_metadata [("execution_lifecycle", PDict [("terminate_container_on_completion", PBool false)])]
    (contained_execution "e1" "c1" WAITING_FOR_INPUT).
Definition retained_world : world := set_w_executions [("e1", retained_execution)] empty_world.
Definition old_container : ContainerState :=
  mkContainer "c1" "c1" "image" "exited" [] None (Some 0) (Some 50).

Definition listing (containers : list ContainerState) : ReconcilerContext := {|
  list_managed_containers := mret containers;
  list_managed_images := None;
  remove_image r := raise ContainerRuntimeError r;
  runtime_container_ttl_seconds := 86400;
  runtime_image_retention_count := 10
|}.

Lemma retained_container_fails_parked_execution :
  let first := reconcile_once (H1 := listing [old_container]) retained_world in
  let second := reconcile_once (H1 := listing []) first.2 in
  status_after "e1" first.2 = Some (WAITING_FOR_INPUT, Some "c1")
  /\ (exists report, first.1 = Ok report /\ map act_name (rr_actions report)
        = ["execution_container_exited"; "expired_container_reaped"])
  /\ status_after "e1" second.2 = Some (FAILED, Some "c1").
Proof.
  cbv zeta. split; [vm_compute; reflexivity|]. split; [|vm_compute; reflexivity].
  eexists. split; vm_compute; reflexivity.
Qed.
