(* ===== verification/Sessions.v ===== *)
(** * Browser sessions

    [AsyncSessionRegistry] of [app/browser_runtime/session_registry.py] with
    [OwnerClaims] of [contracts.py]: a bounded registry of browser sessions, each
    with an owner, an idle deadline and a maximum deadline.

    Every method is a section under the registry's lock, which is atomic, followed
    outside the lock by the closing of the handles that the section removed.
    Here is each locked section as a function of the registry, and their
    interleavings as a step relation whose state also has the closings that are
    still to run.  Times are microseconds; a handle that is closed or crashed is
    known by a predicate on records. *)

From stdpp Require Import relations.
From S2P Require Export Redaction Floats.

(** ** Owners *)

Record OwnerClaims := mkOwner {
  oc_execution_id : option string;
  oc_workflow_id : option string;
  oc_task_id : option string;
  oc_agent_id : option string;
  oc_workspace_id : option string;
  oc_user_id : option string;
  oc_actor : option string
}.

#[export] Instance OwnerClaims_eq_dec : EqDecision OwnerClaims.
Proof. solve_decision. Defined.

Definition identity_key (o : OwnerClaims) : list (option string) :=
  [oc_execution_id o; oc_workspace_id o; oc_user_id o; oc_actor o].

Definition is_identified (o : OwnerClaims) : bool := existsb str_truthy (identity_key o).

Fixpoint key_covers (recorded actual : list (option string)) : bool :=
  match recorded, actual with
  | expected :: recorded', a :: actual' =>
      (negb (opt_some expected) || opt_eqb expected a) && key_covers recorded' actual'
  | _, _ => true
  end.

(** [owner.owns(recorded)] *)
Definition owns (o recorded : OwnerClaims) : bool :=
  if negb (is_identified o) || negb (is_identified recorded) then bool_decide (o = recorded)
  else key_covers (identity_key recorded) (identity_key o).

(** ** Records *)

Record SessionRecord := mkSession {
  sr_session_id : string;
  sr_owner : OwnerClaims;
  sr_engine : string;
  sr_created_at : Z;
  sr_last_used_at : Z;
  sr_idle_expires_at : Z;
  sr_maximum_expires_at : Z;
  sr_idle_ttl_seconds : Z;
  sr_artifact_retention_seconds : Z;
  sr_allowed_hosts : list string;
  sr_current_url : option string;
  sr_status : string;
  sr_correlation_id : option string
}.

(** [expired] *)
Definition expired (now : Z) (r : SessionRecord) : bool :=
  (sr_idle_expires_at r <=? now) || (sr_maximum_expires_at r <=? now).

(** The record after a use at [now]. *)
Definition touched (now : Z) (r : SessionRecord) : SessionRecord :=
  mkSession (sr_session_id r) (sr_owner r) (sr_engine r) (sr_created_at r) now
    (Z.min (now + sr_idle_ttl_seconds r * us_per_second) (sr_maximum_expires_at r))
    (sr_maximum_expires_at r) (sr_idle_ttl_seconds r) (sr_artifact_retention_seconds r)
    (sr_allowed_hosts r) (sr_current_url r) (sr_status r) (sr_correlation_id r).

Definition with_status (status : string) (r : SessionRecord) : SessionRecord :=
  mkSession (sr_session_id r) (sr_owner r) (sr_engine r) (sr_created_at r) (sr_last_used_at r)
    (sr_idle_expires_at r) (sr_maximum_expires_at r) (sr_idle_ttl_seconds r)
    (sr_artifact_retention_seconds r) (sr_allowed_hosts r) (sr_current_url r) status (sr_correlation_id r).

(** [SessionStatus], without the challenge *)
Record SessionStatus := mkSessionStatus {
  ss_session_id : string;
  ss_engine : string;
  ss_status : string;
  ss_current_url : option string;
  ss_created_at : Z;
  ss_last_used_at : Z;
  ss_idle_expires_at : Z;
  ss_maximum_expires_at : Z
}.

(** [public_status] *)
Definition public_status (r : SessionRecord) : SessionStatus :=
  mkSessionStatus (sr_session_id r) (sr_engine r) (sr_status r) (sr_current_url r) (sr_created_at r)
    (sr_last_used_at r) (sr_idle_expires_at r) (sr_maximum_expires_at r).

(** ** The registry *)

Record Limits := mkLimits {
  lm_idle_ttl_seconds : Z;
  lm_maximum_ttl_seconds : Z;
  lm_max_sessions_per_owner : Z;
  lm_max_sessions_total : Z
}.

(** [a or b] for an optional integer *)
Definition int_or_default (o : option Z) (d : Z) : Z :=
  match o with Some n => if n =? 0 then d else n | None => d end.

(** The limits that [__init__] computes; the last four arguments are the integers
    of the environment, with their defaults. *)
Definition registry_limits (idle maximum per_owner total : option Z)
    (env_idle env_maximum env_per_owner env_total : Z) : Limits :=
  let idle := Z.max 1 (int_or_default idle env_idle) in
  let maximum := Z.max idle (int_or_default maximum env_maximum) in
  let per_owner := Z.max 1 (int_or_default per_owner env_per_owner) in
  mkLimits idle maximum per_owner (Z.max per_owner (int_or_default total env_total)).

Record registry := mkRegistry {
  rg_limits : Limits;
  rg_records : dict SessionRecord;
  rg_cleanup_failures : Z
}.

Definition set_rg_records (d : dict SessionRecord) (g : registry) : registry :=
  mkRegistry (rg_limits g) d (rg_cleanup_failures g).

Inductive session_error :=
  | SessionNotFoundError (msg : string)
  | SessionAccessError (msg : string)
  | SessionLimitError (msg : string).

(** The end of a locked section: its result, the records to close when the lock is
    released with their new status, and the registry. *)
Record locked (A : Type) := mkLocked {
  lk_result : session_error + A;
  lk_closing : list SessionRecord;
  lk_status : string;
  lk_registry : registry
}.
Arguments mkLocked {A} _ _ _ _.
Arguments lk_result {A} _.
Arguments lk_closing {A} _.
Arguments lk_status {A} _.
Arguments lk_registry {A} _.

Section Registry.
Context (gone : SessionRecord -> bool).

(** [pop] of each record. *)
Definition drop_records (records : list SessionRecord) (d : dict SessionRecord) : dict SessionRecord :=
  fold_left (fun d r => dpop (sr_session_id r) d) records d.

(** [_remove_expired] *)
Definition remove_expired_sessions (now : Z) (g : registry) : list SessionRecord * registry :=
  let records := List.filter (fun r => expired now r || gone r) (dvalues (rg_records g)) in
  (records, set_rg_records (drop_records records (rg_records g)) g).

Definition count_owned (o : OwnerClaims) (g : registry) : Z :=
  Z.of_nat (List.length (List.filter (fun r => owns o (sr_owner r)) (dvalues (rg_records g)))).

(** The arguments of [create]. *)
Record session_request := mkRequest {
  rq_owner : OwnerClaims;
  rq_engine : string;
  rq_allowed_hosts : list string;
  rq_current_url : option string;
  rq_correlation_id : option string;
  rq_idle_ttl_seconds : option Z;
  rq_maximum_ttl_seconds : option Z;
  rq_max_sessions_per_owner : option Z;
  rq_max_sessions_total : option Z;
  rq_artifact_retention_seconds : Z
}.

(** The record of a new session with the identifier [id]. *)
Definition new_record (now : Z) (id : string) (rq : session_request) (lm : Limits) : SessionRecord :=
  let maximum := Z.min (int_or_default (rq_maximum_ttl_seconds rq) (lm_maximum_ttl_seconds lm))
                   (lm_maximum_ttl_seconds lm) in
  let idle := Z.min (int_or_default (rq_idle_ttl_seconds rq) (lm_idle_ttl_seconds lm)) maximum in
  mkSession id (rq_owner rq) (rq_engine rq) now now (now + idle * us_per_second) (now + maximum * us_per_second)
    idle (rq_artifact_retention_seconds rq) (sorted_set (rq_allowed_hosts rq)) (rq_current_url rq) "active"
    (rq_correlation_id rq).

(** [create]; a section that raises inside the lock closes nothing. *)
Definition create_session (now : Z) (id : string) (rq : session_request) (g : registry) : locked SessionRecord :=
  if negb (is_identified (rq_owner rq)) then
    mkLocked (inl (SessionAccessError "Browser sessions require an identified owner")) [] "expired" g
  else
    let '(removed, g) := remove_expired_sessions now g in
    let lm := rg_limits g in
    let owner_limit := Z.min (int_or_default (rq_max_sessions_per_owner rq) (lm_max_sessions_per_owner lm))
                         (lm_max_sessions_per_owner lm) in
    let total_limit := Z.min (int_or_default (rq_max_sessions_total rq) (lm_max_sessions_total lm))
                         (lm_max_sessions_total lm) in
    if owner_limit <=? count_owned (rq_owner rq) g then
      mkLocked (inl (SessionLimitError ("Browser session owner limit reached (" +:+ show_Z owner_limit +:+ ")")))
        [] "expired" g
    else if total_limit <=? Z.of_nat (List.length (rg_records g)) then
      mkLocked (inl (SessionLimitError ("Browser session runtime limit reached (" +:+ show_Z total_limit +:+ ")")))
        [] "expired" g
    else
      let record := new_record now id rq lm in
      mkLocked (inr record) removed "expired" (set_rg_records (dset id record (rg_records g)) g).

(** [resolve] *)
Definition resolve_session (now : Z) (o : OwnerClaims) (id : string) (touch : bool) (g : registry) :
    locked SessionRecord :=
  let '(removed, g) := remove_expired_sessions now g in
  match dget id (rg_records g) with
  | None => mkLocked (inl (SessionNotFoundError ("Browser session '" +:+ id +:+ "' was not found or expired")))
              removed "expired" g
  | Some r =>
      if negb (owns o (sr_owner r)) then
        mkLocked (inl (SessionAccessError "Browser session is owned by a different execution or actor"))
          removed "expired" g
      else if touch then
        mkLocked (inr (touched now r)) removed "expired"
          (set_rg_records (dalter (touched now) id (rg_records g)) g)
      else mkLocked (inr r) removed "expired" g
  end.

(** [close] *)
Definition close_session (o : OwnerClaims) (id status : string) (g : registry) : locked bool :=
  match dget id (rg_records g) with
  | None => mkLocked (inr false) [] status g
  | Some r =>
      if negb (owns o (sr_owner r)) then
        mkLocked (inl (SessionAccessError "Browser session is owned by a different execution or actor")) [] status g
      else mkLocked (inr true) [r] status (set_rg_records (dpop id (rg_records g)) g)
  end.

(** [close_all_for_execution] *)
Definition close_all_for_execution (execution_id status : string) (g : registry) : locked Z :=
  let records := List.filter (fun r => opt_eqb (oc_execution_id (sr_owner r)) (Some execution_id))
                   (dvalues (rg_records g)) in
  mkLocked (inr (Z.of_nat (List.length records))) records status
    (set_rg_records (drop_records records (rg_records g)) g).

(** [expire] *)
Definition expire_sessions (now : Z) (g : registry) : locked Z :=
  let '(removed, g) := remove_expired_sessions now g in
  mkLocked (inr (Z.of_nat (List.length removed))) removed "expired" g.

(** [close_all] *)
Definition close_all_sessions (status : string) (g : registry) : locked Z :=
  let records := dvalues (rg_records g) in
  mkLocked (inr (Z.of_nat (List.length records))) records status (set_rg_records [] g).

(** [list_for_owner] *)
Definition list_for_owner (o : OwnerClaims) (g : registry) : list SessionStatus :=
  map public_status (List.filter (fun r => owns o (sr_owner r)) (dvalues (rg_records g))).
End Registry.

(** [_close_records]: the handles are closed, each with or without an exception. *)
Definition close_records (failed : SessionRecord -> bool) (status : string) (records : list SessionRecord)
    (g : registry) : list SessionRecord * registry :=
  (map (with_status status) records,
   mkRegistry (rg_limits g) (rg_records g)
     (rg_cleanup_failures g + Z.of_nat (List.length (List.filter failed records)))).

(** ** Interleavings

    A state of the runtime: the registry, the closings that are still to run, each
    with its status, and what happened so far: the sessions that were opened, the
    sessions whose handle was closed, and the sessions that left the registry in
    a section that raised before [_close_records]. *)
Record browser_state := mkBrowser {
  bs_registry : registry;
  bs_pending : list (list SessionRecord * string);
  bs_opened : list string;
  bs_closed : list string;
  bs_lost : list string
}.

Definition initial_browser (lm : Limits) : browser_state := mkBrowser (mkRegistry lm [] 0) [] [] [] [].

(** A call of the registry, with the time that its section reads and, for a
    creation, the identifier that it draws. *)
Inductive session_call :=
  | call_create (now : Z) (id : string) (rq : session_request)
  | call_resolve (now : Z) (o : OwnerClaims) (id : string) (touch : bool)
  | call_close (o : OwnerClaims) (id status : string)
  | call_close_execution (execution_id status : string)
  | call_expire (now : Z)
  | call_close_all (status : string).

(** What a section leaves outside the lock. *)
Definition after_section {A} (l : locked A) (opened lost : list string) (s : browser_state) : browser_state :=
  mkBrowser (lk_registry l) (bs_pending s ++ [(lk_closing l, lk_status l)]) (bs_opened s ++ opened)
    (bs_closed s) (bs_lost s ++ lost).

(** The sessions that a creation drops without a closing. *)
Definition dropped_by_create (gone : SessionRecord -> bool) (now : Z) (rq : session_request) (l : locked SessionRecord)
    (g : registry) : list string :=
  match lk_result l with
  | inl (SessionLimitError _) => map sr_session_id (remove_expired_sessions gone now g).1
  | _ => []
  end.

Definition run_section (gone : SessionRecord -> bool) (c : session_call) (s : browser_state) : browser_state :=
  let g := bs_registry s in
  match c with
  | call_create now id rq =>
      let l := create_session gone now id rq g in
      after_section l (match lk_result l with inr r => [sr_session_id r] | inl _ => [] end)
        (dropped_by_create gone now rq l g) s
  | call_resolve now o id touch => after_section (resolve_session gone now o id touch g) [] [] s
  | call_close o id status => after_section (close_session o id status g) [] [] s
  | call_close_execution e status => after_section (close_all_for_execution e status g) [] [] s
  | call_expire now => after_section (expire_sessions gone now g) [] [] s
  | call_close_all status => after_section (close_all_sessions status g) [] [] s
  end.

(** The identifier of a creation was never drawn before. *)
Definition fresh_call (c : session_call) (s : browser_state) : Prop :=
  match c with call_create _ id _ => id ∉ bs_opened s | _ => True end.

(** One step: a locked section, with any handles closed or crashed at that time,
    or the closing of any removed sessions that are still pending. *)
Inductive browser_step : browser_state -> browser_state -> Prop :=
  | step_section gone c s : fresh_call c s -> browser_step s (run_section gone c s)
  | step_close failed before after records status g opened closed lost :
      browser_step (mkBrowser g (before ++ (records, status) :: after) opened closed lost)
        (let '(done, g') := close_records failed status records g in
         mkBrowser g' (before ++ after) opened (closed ++ map sr_session_id done) lost).

Definition browser_reaches (lm : Limits) : browser_state -> Prop := rtc browser_step (initial_browser lm).
