(* ===== verification/SessionFacts.v ===== *)
(** * What the session registry guarantees

    Along every interleaving of its locked sections and of the closings that
    follow them: the registry keeps its limits, no use extends a session past its
    maximum, a session is resolved and closed only for its owner, and every
    session that was opened is registered, about to be closed, closed once, or
    lost by a creation that was refused. *)

From stdpp Require Import relations.
From S2P Require Export Sessions.

(** ** Owners *)

Lemma opt_eqb_same a : opt_eqb a a = true.
Proof. destruct a; [apply String.eqb_refl|done]. Qed.

Lemma owns_self o : owns o o = true.
Proof.
  unfold owns. destruct (_ || _); [by apply bool_decide_eq_true|].
  generalize (identity_key o). intros l. induction l as [|a l IH]; [done|]. cbn. by rewrite opt_eqb_same, orb_true_r.
Qed.

(** ** Removing records *)

Lemma dpop_filter {V} k (d : dict V) : dpop k d = List.filter (fun kv => negb (String.eqb k kv.1)) d.
Proof.
  induction d as [|[k' v] d IH]; [done|]. cbn. rewrite IH. by destruct (String.eqb k k').
Qed.

Lemma filter_filter {A} (p q : A -> bool) l : List.filter p (List.filter q l) = List.filter (fun x => q x && p x) l.
Proof. induction l as [|x l IH]; [done|]. cbn. destruct (q x); cbn; [destruct (p x)|]; by rewrite IH. Qed.

Lemma filter_all {A} (l : list A) : List.filter (fun _ => true) l = l.
Proof. induction l as [|x l IH]; [done|]. cbn. by rewrite IH. Qed.

Lemma drop_records_filter records d :
  drop_records records d
  = List.filter (fun kv => negb (existsb (fun r => String.eqb (sr_session_id r) kv.1) records)) d.
Proof.
  revert d. induction records as [|r records IH]; intros d; cbn [drop_records fold_left existsb].
  - symmetry. apply filter_all.
  - change (fold_left _ records ?x) with (drop_records records x). rewrite IH, dpop_filter, filter_filter.
    apply filter_ext. intros kv. by rewrite negb_orb.
Qed.

Lemma drop_filter p d : keyed sr_session_id d ->
  drop_records (List.filter p (dvalues d)) d = List.filter (fun kv => negb (p kv.2)) d.
Proof.
  intros Hk. rewrite drop_records_filter. apply filter_ext_in. intros [k r] Hin. f_equal. cbn.
  pose proof (proj2 Hk k r (In_dget k r d (proj1 Hk) Hin)) as Hid.
  destruct (p r) eqn:Hp.
  - apply existsb_exists. exists r. split; [|by apply String.eqb_eq]. apply filter_In. split; [|done].
    apply in_map_iff. by exists (k, r).
  - apply existsb_false. intros r' [Hin' Hp']%filter_In. apply String.eqb_neq. intros Heq.
    apply (keyed_In sr_session_id) in Hin'; [|done]. rewrite Heq in Hin'.
    rewrite (In_dget k r d (proj1 Hk) Hin) in Hin'. congruence.
Qed.

Lemma filter_keyed p (d : dict SessionRecord) : keyed sr_session_id d ->
  keyed sr_session_id (List.filter p d).
Proof.
  intros [Hnd Hid].
  assert (Hsub : forall k v, In (k, v) (List.filter p d) -> In (k, v) d)
    by (intros k v; rewrite filter_In; tauto).
  split.
  - clear Hid Hsub. induction d as [|[k v] d IH]; [done|]. unfold dkeys in *. cbn in *.
    apply NoDup_cons in Hnd as [Hni Hnd]. destruct (p (k, v)); [|by apply IH]. cbn. constructor; [|by apply IH].
    rewrite list_elem_of_In in *. intros ([k' v'] & Heq & Hin)%in_map_iff. cbn in Heq. subst k'.
    apply Hni. apply in_map_iff. exists (k, v'). split; [done|]. by apply filter_In in Hin as [? _].
  - intros k v Hg%dget_In. apply Hid. apply In_dget; [done|]. by apply Hsub.
Qed.

(** Splitting a dictionary of sessions by a predicate. *)
Lemma split_keys p (d : dict SessionRecord) : keyed sr_session_id d ->
  dkeys d ≡ₚ dkeys (List.filter (fun kv => negb (p kv.2)) d) ++ map sr_session_id (List.filter p (dvalues d)).
Proof.
  intros [Hnd Hid].
  assert (Hall : forall k r, In (k, r) d -> sr_session_id r = k) by (intros k r Hin; by apply Hid, In_dget).
  clear Hnd Hid. induction d as [|[k r] d IH]; [done|]. unfold dkeys, dvalues in *. cbn.
  rewrite IH by (intros k' r' Hin; apply Hall; by right).
  destruct (p r); cbn; [|done]. rewrite (Hall k r) by by left. by rewrite Permutation_middle.
Qed.

(** ** The limits *)

Record limits_ok (lm : Limits) : Prop := {
  lo_idle : 1 <= lm_idle_ttl_seconds lm <= lm_maximum_ttl_seconds lm;
  lo_owner : 1 <= lm_max_sessions_per_owner lm <= lm_max_sessions_total lm
}.

Lemma registry_limits_ok a b c d e f g h : limits_ok (registry_limits a b c d e f g h).
Proof. unfold registry_limits. split; cbn; lia. Qed.

(** A record of a registry with the limits [lm]. *)
Record session_ok (lm : Limits) (r : SessionRecord) : Prop := {
  so_owner : is_identified (sr_owner r) = true;
  so_idle : sr_idle_expires_at r <= sr_maximum_expires_at r;
  so_maximum : sr_maximum_expires_at r <= sr_created_at r + lm_maximum_ttl_seconds lm * us_per_second
}.

Definition same_owner (o : OwnerClaims) (r : SessionRecord) : bool := bool_decide (sr_owner r = o).

Record registry_ok (g : registry) : Prop := {
  ro_limits : limits_ok (rg_limits g);
  ro_keyed : keyed sr_session_id (rg_records g);
  ro_sessions : forall k r, dget k (rg_records g) = Some r -> session_ok (rg_limits g) r;
  ro_total : Z.of_nat (List.length (rg_records g)) <= lm_max_sessions_total (rg_limits g);
  ro_owner : forall o, Z.of_nat (count_values (same_owner o) (rg_records g))
                       <= lm_max_sessions_per_owner (rg_limits g)
}.

Lemma registry_ok_filter p g : registry_ok g ->
  registry_ok (set_rg_records (List.filter p (rg_records g)) g).
Proof.
  intros [Hl Hk Hs Ht Ho]. split; cbn -[count_values]; [done|by apply filter_keyed| | |].
  - intros k r Hg%dget_In. apply filter_In in Hg as [Hin _]. apply (Hs k). apply In_dget; [apply Hk|done].
  - etransitivity; [apply inj_le, List.filter_length_le|done].
  - intros o. etransitivity; [apply inj_le, count_filter_le|done].
Qed.

Lemma remove_expired_eq gone now g : registry_ok g ->
  remove_expired_sessions gone now g
  = (List.filter (fun r => expired now r || gone r) (dvalues (rg_records g)),
     set_rg_records (List.filter (fun kv => negb (expired now kv.2 || gone kv.2)) (rg_records g)) g).
Proof. intros Hg. unfold remove_expired_sessions. by rewrite drop_filter by apply Hg. Qed.

Lemma remove_expired_ok gone now g : registry_ok g -> registry_ok (remove_expired_sessions gone now g).2.
Proof.
  intros Hg. rewrite remove_expired_eq by done. by apply registry_ok_filter.
Qed.

Lemma count_owned_same o g : Z.of_nat (count_values (same_owner o) (rg_records g)) <= count_owned o g.
Proof.
  unfold count_owned, count_values. apply Nat2Z.inj_le. induction (dvalues (rg_records g)) as [|r l IH]; [done|].
  cbn. destruct (same_owner o r) eqn:Hs; cbn.
  - apply bool_decide_eq_true in Hs. rewrite Hs, owns_self. cbn. lia.
  - destruct (owns _ _); cbn; lia.
Qed.

Lemma new_record_ok now id rq lm : limits_ok lm -> is_identified (rq_owner rq) = true ->
  session_ok lm (new_record now id rq lm).
Proof.
  intros [Hi Ho] Hid. unfold new_record. split; cbn; [done|..]; unfold us_per_second;
    generalize (int_or_default (rq_maximum_ttl_seconds rq) (lm_maximum_ttl_seconds lm));
    generalize (int_or_default (rq_idle_ttl_seconds rq) (lm_idle_ttl_seconds lm)); intros; lia.
Qed.

Lemma touched_ok now lm r : session_ok lm r -> session_ok lm (touched now r).
Proof. intros [Ho Hi Hm]. split; cbn; [done|lia|done]. Qed.

(** ** Every locked section keeps the limits *)

Lemma create_session_ok gone now id rq g : registry_ok g -> registry_ok (lk_registry (create_session gone now id rq g)).
Proof.
  intros Hg. unfold create_session. destruct (is_identified (rq_owner rq)) eqn:Hid; cbn [negb]; [|done].
  pose proof (remove_expired_ok gone now g Hg) as Hok.
  destruct (remove_expired_sessions gone now g) as [removed g1]. cbn [snd] in Hok.
  destruct (_ <=? count_owned _ _) eqn:Howned; [done|]. apply Z.leb_gt in Howned.
  destruct (_ <=? Z.of_nat _) eqn:Htotal; [done|]. apply Z.leb_gt in Htotal. cbn.
  destruct Hok as [Hl Hk Hs Ht Ho]. split; cbn -[count_values]; [done|by apply keyed_dset| | |].
  - intros k r. rewrite dget_dset. destruct (String.eqb k id); [|apply Hs].
    intros [= <-]. by apply new_record_ok.
  - etransitivity; [apply inj_le, dset_length|]. lia.
  - intros o. pose proof (count_dset_le (same_owner o) id (new_record now id rq (rg_limits g1)) (rg_records g1)) as Hc.
    specialize (Ho o). destruct (same_owner o (new_record _ _ _ _)) eqn:Hso; [|lia].
    apply bool_decide_eq_true in Hso. cbn in Hso. subst o. pose proof (count_owned_same (rq_owner rq) g1). lia.
Qed.

Lemma dget_dalter_from {V} (f : V -> V) k k' d v : dget k (dalter f k' d) = Some v ->
  exists u, dget k d = Some u /\ (v = u \/ v = f u).
Proof.
  rewrite dget_dalter. destruct (String.eqb k k'); [|by eauto].
  destruct (dget k d) as [u|]; [|done]. intros [= <-]. by eauto.
Qed.

Lemma count_dalter_same {V} (P : V -> bool) f k d : (forall v, P (f v) = P v) ->
  count_values P (dalter f k d) = count_values P d.
Proof.
  intros Hf. induction d as [|[k0 v] d IH]; [done|]. cbn [dalter].
  destruct (String.eqb k k0); rewrite !count_values_cons; [by rewrite Hf|by rewrite IH].
Qed.

Lemma dalter_length {V} (f : V -> V) k d : List.length (dalter f k d) = List.length d.
Proof. rewrite <-(length_map fst), <-(length_map fst d). f_equal. apply dalter_keys. Qed.

Lemma resolve_session_ok gone now o id touch g : registry_ok g ->
  registry_ok (lk_registry (resolve_session gone now o id touch g)).
Proof.
  intros Hg. unfold resolve_session. pose proof (remove_expired_ok gone now g Hg) as Hok.
  destruct (remove_expired_sessions gone now g) as [removed g1]. cbn [snd] in Hok.
  destruct (dget id (rg_records g1)) as [r|]; [|done]. destruct (negb _); [done|].
  destruct touch; [|done]. cbn [lk_registry]. destruct Hok as [Hl [Hnd Hid] Hs Ht Ho].
  split; cbn -[count_values]; [done|split| | |].
  - by apply dalter_NoDup.
  - intros k r' (u & Hu & [->| ->])%dget_dalter_from; exact (Hid _ _ Hu).
  - intros k r' (u & Hu & [->| ->])%dget_dalter_from; [|apply touched_ok]; exact (Hs _ _ Hu).
  - by rewrite dalter_length.
  - intros o'. by rewrite count_dalter_same.
Qed.

Lemma registry_ok_drop p g : registry_ok g ->
  registry_ok (set_rg_records (drop_records (List.filter p (dvalues (rg_records g))) (rg_records g)) g).
Proof.
  intros Hg. rewrite drop_filter by apply Hg. by apply registry_ok_filter.
Qed.

Lemma dpop_keyed k r d : keyed sr_session_id d -> dget k d = Some r ->
  dpop k d = drop_records [r] d.
Proof. intros Hk Hr. cbn. by rewrite (proj2 Hk k r Hr). Qed.

Lemma registry_ok_pop k g : registry_ok g -> registry_ok (set_rg_records (dpop k (rg_records g)) g).
Proof. intros Hg. rewrite dpop_filter. by apply registry_ok_filter. Qed.

(** ** What a locked section does to the sessions *)

(** A section keeps the registry in order, and every session of [g], with those of
    [opened], is in the registry that it leaves, to be closed, or in [lost]. *)
Record section_ok {A} (opened lost : list string) (g : registry) (l : locked A) : Prop := {
  sk_registry : registry_ok (lk_registry l);
  sk_limits : rg_limits (lk_registry l) = rg_limits g;
  sk_keys : dkeys (rg_records g) ++ opened
    ≡ₚ dkeys (rg_records (lk_registry l)) ++ map sr_session_id (lk_closing l) ++ lost
}.

Lemma section_unchanged {A} (r : session_error + A) status g : registry_ok g ->
  section_ok [] [] g (mkLocked r [] status g).
Proof. by split. Qed.

(** A section that removes the records of a predicate and closes them. *)
Lemma section_removes {A} (r : session_error + A) p status g : registry_ok g ->
  section_ok [] [] g (mkLocked r (List.filter p (dvalues (rg_records g))) status
    (set_rg_records (drop_records (List.filter p (dvalues (rg_records g))) (rg_records g)) g)).
Proof.
  intros Hg. split; cbn; [by apply registry_ok_drop|done|]. rewrite !app_nil_r, drop_filter by apply Hg.
  by apply split_keys, Hg.
Qed.

Lemma remove_expired_keys gone now g : registry_ok g ->
  dkeys (rg_records g) ≡ₚ dkeys (rg_records (remove_expired_sessions gone now g).2)
    ++ map sr_session_id (remove_expired_sessions gone now g).1.
Proof.
  intros Hg. rewrite remove_expired_eq by done. apply (split_keys (fun r => expired now r || gone r)), Hg.
Qed.

Lemma resolve_section gone now o id touch g : registry_ok g ->
  section_ok [] [] g (resolve_session gone now o id touch g).
Proof.
  intros Hg. pose proof (resolve_session_ok gone now o id touch g Hg) as Hok. split; [done|..]; clear Hok;
    unfold resolve_session; pose proof (remove_expired_keys gone now g Hg) as Hk;
    rewrite remove_expired_eq in * by done; cbn [fst snd] in *;
    (destruct (dget id _) as [r|]; [destruct (negb _); [|destruct touch]|]); try done;
    cbn [lk_registry lk_closing rg_records set_rg_records]; by rewrite ?dalter_keys, !app_nil_r.
Qed.

Lemma close_section o id status g : registry_ok g -> section_ok [] [] g (close_session o id status g).
Proof.
  intros Hg. unfold close_session. destruct (dget id (rg_records g)) as [r|] eqn:Hr; [|by apply section_unchanged].
  destruct (negb _); [by apply section_unchanged|]. split; cbn; [by apply registry_ok_pop|done|].
  rewrite app_nil_r, (proj2 (ro_keyed g Hg) id r Hr). clear -Hg Hr.
  destruct (ro_keyed g Hg) as [Hnd _]. clear Hg. induction (rg_records g) as [|[k v] d IH]; [done|].
  unfold dkeys in *. cbn in *. apply NoDup_cons in Hnd as [Hni Hnd].
  destruct (String.eqb_spec id k) as [->|Hne].
  - replace (dpop k d) with d; [by rewrite Permutation_cons_append|]. symmetry. rewrite dpop_filter.
    rewrite (filter_ext_in _ (fun _ => true)); [apply filter_all|]. intros [k' v'] Hin. cbn.
    apply negb_true_iff, String.eqb_neq. intros <-. apply Hni. rewrite list_elem_of_In.
    apply in_map_iff. by exists (k, v').
  - cbn. by rewrite IH.
Qed.

Lemma dset_fresh_keys {V} k (v : V) d : k ∉ dkeys d -> dkeys (dset k v d) = dkeys d ++ [k].
Proof.
  unfold dkeys. induction d as [|[k' v'] d IH]; [done|]. cbn. intros [Hne Hni]%not_elem_of_cons.
  destruct (String.eqb_spec k k'); [done|]. cbn. by rewrite IH.
Qed.

Lemma create_section gone now id rq g : registry_ok g -> id ∉ dkeys (rg_records g) ->
  let l := create_session gone now id rq g in
  section_ok (match lk_result l with inr r => [sr_session_id r] | inl _ => [] end)
    (dropped_by_create gone now rq l g) g l.
Proof.
  intros Hg Hid l. subst l. pose proof (create_session_ok gone now id rq g Hg) as Hok. split; [done|..]; clear Hok;
    unfold dropped_by_create, create_session; (destruct (negb _); [done|]);
    pose proof (remove_expired_keys gone now g Hg) as Hk;
    pose proof (remove_expired_ok gone now g Hg) as Hok';
    assert (Hlm : rg_limits (remove_expired_sessions gone now g).2 = rg_limits g) by done;
    destruct (remove_expired_sessions gone now g) as [removed g1]; cbn [fst snd] in *;
    (destruct (_ <=? count_owned _ _); [|destruct (_ <=? Z.of_nat _)]); try done; cbn [lk_registry lk_closing lk_result].
  1,2: by rewrite app_nil_r.
  cbn [rg_records set_rg_records]. rewrite dset_fresh_keys.
  - rewrite app_nil_r, Hk. cbn. by rewrite <-!app_assoc, (Permutation_app_comm (map _ _) [id]).
  - intros Hin. apply Hid. rewrite Hk. by apply elem_of_app; left.
Qed.

Lemma close_all_section status g : registry_ok g -> section_ok [] [] g (close_all_sessions status g).
Proof.
  intros Hg. split; cbn; [|done|].
  - destruct (ro_limits g Hg) as [_ Ho]. split; cbn; [apply Hg|split; [constructor|done]|done| |]; lia.
  - rewrite !app_nil_r. unfold dkeys, dvalues. cbn. rewrite map_map.
    erewrite map_ext_in; [reflexivity|]. intros [k r] Hin. symmetry. apply (proj2 (ro_keyed g Hg)). by apply In_dget; [apply Hg|].
Qed.

Lemma create_opens_fresh gone now id rq g opened : NoDup opened -> id ∉ opened ->
  NoDup (opened ++ match lk_result (create_session gone now id rq g) with
                   | inr r => [sr_session_id r] | inl _ => [] end).
Proof.
  intros Hn Hni. unfold create_session. destruct (negb _); [by rewrite app_nil_r|].
  destruct (remove_expired_sessions _ _ _) as [removed g1].
  (destruct (_ <=? count_owned _ _); [|destruct (_ <=? Z.of_nat _)]); cbn [lk_result]; rewrite ?app_nil_r; [done..|].
  apply NoDup_app. split; [done|]. split; [|apply NoDup_singleton]. cbn. intros x Hx ->%list_elem_of_singleton. done.
Qed.

(** ** Along every interleaving *)

Definition pending_sessions (s : browser_state) : list string :=
  flat_map (fun b => map sr_session_id b.1) (bs_pending s).

Record browser_ok (lm : Limits) (s : browser_state) : Prop := {
  bo_registry : registry_ok (bs_registry s);
  bo_limits : rg_limits (bs_registry s) = lm;
  bo_accounted : bs_opened s ≡ₚ dkeys (rg_records (bs_registry s)) ++ pending_sessions s ++ bs_closed s ++ bs_lost s;
  bo_once : NoDup (bs_opened s)
}.

Lemma after_section_ok {A} lm opened lost (l : locked A) s : browser_ok lm s ->
  section_ok opened lost (bs_registry s) l -> NoDup (bs_opened s ++ opened) ->
  browser_ok lm (after_section l opened lost s).
Proof.
  intros [Hg Hlm Ha Hn] [Hr Hl Hk] Hnd. split; cbn; [done|congruence| |done].
  unfold pending_sessions in *. cbn. rewrite flat_map_app. cbn. rewrite app_nil_r, Ha.
  transitivity ((dkeys (rg_records (bs_registry s)) ++ opened)
    ++ flat_map (fun b => map sr_session_id b.1) (bs_pending s) ++ bs_closed s ++ bs_lost s); [|rewrite Hk]; solve_Permutation.
Qed.

Lemma browser_step_ok lm s s' : browser_ok lm s -> browser_step s s' -> browser_ok lm s'.
Proof.
  intros Hs Hstep. destruct Hstep as [gone c s Hfresh|failed before after records status g opened closed lost].
  - pose proof (bo_registry lm s Hs) as Hg.
    assert (Hnd : NoDup (bs_opened s ++ [])) by (rewrite app_nil_r; apply Hs).
    destruct c as [now id rq|now o id touch|o id status|e status|now|status]; cbn [run_section fresh_call] in *;
      apply after_section_ok; try done.
    + apply create_section; [done|]. intros Hin. apply Hfresh. rewrite (bo_accounted lm s Hs), elem_of_app.
      by left.
    + apply create_opens_fresh; [apply Hs|done].
    + by apply resolve_section.
    + by apply close_section.
    + by apply section_removes.
    + by apply (section_removes _ (fun r => expired now r || gone r)).
    + by apply close_all_section.
  - destruct Hs as [Hg Hlm Ha Hn]. split; cbn in *; [|done| |done].
    + by destruct Hg.
    + rewrite Ha. unfold pending_sessions. cbn. rewrite !flat_map_app. cbn. rewrite map_map. cbn. solve_Permutation.
Qed.

Lemma browser_reaches_ok lm s : limits_ok lm -> browser_reaches lm s -> browser_ok lm s.
Proof.
  intros Hlm Hr. unfold browser_reaches in Hr. remember (initial_browser lm) as s0 eqn:Hs0.
  assert (Hok : browser_ok lm s0).
  { subst s0. split; [|done|done|constructor]. split; cbn; [done|split; [constructor|done]|done| |]; destruct Hlm; lia. }
  clear Hs0. induction Hr as [|s0 s1 s2 Hstep _ IH]; [done|]. by eapply IH, browser_step_ok.
Qed.

(** Along every interleaving of calls and closings, the registry keeps its
    limits: no more sessions than the total, no more sessions recorded for an
    owner than the limit per owner, and no session that is idle longer, or lives
    longer, than the maximum that it was created with allows. *)
Theorem sessions_bounded lm s : limits_ok lm -> browser_reaches lm s ->
  let records := rg_records (bs_registry s) in
  Z.of_nat (List.length records) <= lm_max_sessions_total lm
  /\ (forall o, Z.of_nat (count_values (same_owner o) records) <= lm_max_sessions_per_owner lm)
  /\ (forall id r, dget id records = Some r ->
        sr_session_id r = id /\ is_identified (sr_owner r) = true
        /\ sr_idle_expires_at r <= sr_maximum_expires_at r
        /\ sr_maximum_expires_at r <= sr_created_at r + lm_maximum_ttl_seconds lm * us_per_second).
Proof.
  intros Hlm Hr records. destruct (browser_reaches_ok lm s Hlm Hr) as [[_ Hk Hs Ht Ho] <- _ _].
  split; [done|]. split; [done|]. intros id r Hg. destruct (Hs id r Hg). split; [by apply Hk|done].
Qed.

(** C23. Along every interleaving every session that was ever opened is in exactly
    one place: registered, removed with its closing still to run, closed, or lost;
    a session is lost only by a creation that a limit refuses, which has already
    removed the sessions that had expired. *)
Theorem sessions_accounted lm s : limits_ok lm -> browser_reaches lm s ->
  bs_opened s ≡ₚ dkeys (rg_records (bs_registry s)) ++ pending_sessions s ++ bs_closed s ++ bs_lost s
  /\ NoDup (bs_opened s)
  /\ forall gone c, fresh_call c s ->
       bs_lost (run_section gone c s) = bs_lost s
       \/ exists now id rq msg,
            c = call_create now id rq
            /\ lk_result (create_session gone now id rq (bs_registry s)) = inl (SessionLimitError msg)
            /\ bs_lost (run_section gone c s)
               = bs_lost s ++ map sr_session_id
                   (List.filter (fun r => expired now r || gone r) (dvalues (rg_records (bs_registry s)))).
Proof.
  intros Hlm Hr. destruct (browser_reaches_ok lm s Hlm Hr) as [Hg _ Ha Hn].
  split; [done|]. split; [done|]. intros gone c _.
  destruct c as [now id rq|now o id touch|o id status|e status|now|status]; cbn; rewrite ?app_nil_r; try by left.
  unfold dropped_by_create. rewrite remove_expired_eq by done. cbn [fst].
  destruct (lk_result (create_session gone now id rq (bs_registry s))) as [[msg|msg|msg]|r] eqn:Hres;
    rewrite ?app_nil_r; try by left.
  right. by exists now, id, rq, msg.
Qed.

(** ** Who gets a session *)

Lemma owns_execution o recorded e : is_identified o = true -> is_identified recorded = true ->
  owns o recorded = true -> oc_execution_id recorded = Some e -> oc_execution_id o = Some e.
Proof.
  unfold owns. intros -> -> Ho He. cbn in Ho. rewrite He in Ho. apply andb_true_iff in Ho as [Hx _]. cbn in Hx.
  destruct (oc_execution_id o) as [e'|]; [|done]. by apply String.eqb_eq in Hx as ->.
Qed.

(** The answer of [resolve], by cases. *)
Lemma resolve_session_cases gone now o id touch g : registry_ok g ->
  lk_result (resolve_session gone now o id touch g)
  = match dget id (rg_records g) with
    | Some r =>
        if expired now r || gone r then
          inl (SessionNotFoundError ("Browser session '" +:+ id +:+ "' was not found or expired"))
        else if owns o (sr_owner r) then inr (if touch then touched now r else r)
        else inl (SessionAccessError "Browser session is owned by a different execution or actor")
    | None => inl (SessionNotFoundError ("Browser session '" +:+ id +:+ "' was not found or expired"))
    end.
Proof.
  intros Hg. unfold resolve_session. rewrite remove_expired_eq by done. cbn [rg_records set_rg_records].
  pose proof (filter_keyed (fun kv => negb (expired now kv.2 || gone kv.2)) _ (ro_keyed g Hg)) as Hk.
  destruct (dget id (rg_records g)) as [r|] eqn:Hr.
  - apply dget_In in Hr. destruct (expired now r || gone r) eqn:He.
    + destruct (dget id (List.filter _ _)) as [r'|] eqn:Hr'; [|done]. apply dget_In, filter_In in Hr' as [Hin Hp].
      apply In_dget in Hin, Hr; [|apply Hg..]. cbn in Hp. rewrite Hr in Hin. injection Hin as ->. by rewrite He in Hp.
    + rewrite (In_dget id r); [|apply Hk|apply filter_In; cbn; by rewrite He].
      destruct (owns o (sr_owner r)); [by destruct touch|done].
  - destruct (dget id (List.filter _ _)) as [r'|] eqn:Hr'; [|done]. apply dget_In, filter_In in Hr' as [Hin _].
    apply In_dget in Hin; [congruence|apply Hg].
Qed.

(** C24. A session is handed out exactly when it is registered, neither expired nor
    gone, and the caller owns it, and then with the caller's use recorded; an
    identified caller gets a session of an execution only with the claim of that
    execution.  What has expired leaves the registry and is closed whatever the
    answer is.  [close_session] closes a session exactly for a caller that owns it; the
    sweeps of [close_all_for_execution] and [close_all] ask for no owner. *)
Theorem session_access gone now o id touch status g : registry_ok g ->
  (forall r', lk_result (resolve_session gone now o id touch g) = inr r' <->
     exists r, dget id (rg_records g) = Some r /\ expired now r = false /\ gone r = false
       /\ owns o (sr_owner r) = true /\ r' = (if touch then touched now r else r))
  /\ (forall r' e, lk_result (resolve_session gone now o id touch g) = inr r' -> is_identified o = true ->
        oc_execution_id (sr_owner r') = Some e -> oc_execution_id o = Some e)
  /\ lk_closing (resolve_session gone now o id touch g)
     = List.filter (fun r => expired now r || gone r) (dvalues (rg_records g))
  /\ (forall r, In r (lk_closing (close_session o id status g)) <->
        dget id (rg_records g) = Some r /\ owns o (sr_owner r) = true).
Proof.
  intros Hg. pose proof (resolve_session_cases gone now o id touch g Hg) as Hcases.
  split; [|split; [|split]].
  - intros r'. rewrite Hcases. destruct (dget id (rg_records g)) as [r|]; [|split; [done|by intros (? & ? & _)]].
    destruct (expired now r) eqn:Hx; [split; [done|intros (? & [= <-] & ? & _); congruence]|].
    destruct (gone r) eqn:Hgone; [split; [done|intros (? & [= <-] & _ & ? & _); congruence]|]. cbn [orb].
    destruct (owns o (sr_owner r)) eqn:Ho; [|split; [done|intros (? & [= <-] & _ & _ & ? & _); congruence]].
    split; [intros [= <-]; by exists r|]. by intros (? & [= <-] & _ & _ & _ & ->).
  - intros r' e. rewrite Hcases. destruct (dget id (rg_records g)) as [r|] eqn:Hr; [|done].
    destruct (_ || _); [done|]. destruct (owns o (sr_owner r)) eqn:Ho; [|done]. intros [= <-] Hid He.
    apply (owns_execution o (sr_owner r)); [done| |done|by destruct touch].
    by apply (so_owner _ _ (ro_sessions g Hg id r Hr)).
  - clear Hcases. unfold resolve_session. rewrite remove_expired_eq by done. cbn iota beta.
    destruct (dget id _); [destruct (negb _); [|destruct touch]|]; done.
  - intros r. unfold close_session. destruct (dget id (rg_records g)) as [r'|]; [|by split; [|intros []]].
    destruct (owns o (sr_owner r')) eqn:Ho; cbn; [|by split; [|intros [[= <-] ?]; congruence]].
    split; [by intros [<-|[]]|intros [[= <-] _]; by left].
Qed.

(** ** Witnesses *)

Definition sample_limits : Limits := mkLimits 30 60 2 3.

Definition session_owner : OwnerClaims := mkOwner (Some "e1") None None None None (Some "u1") None.

Definition sample_request (total : option Z) : session_request :=
  mkRequest session_owner "chromium" ["example.com"] None None None None None total 86400.

(** Two sessions 20 seconds apart; at 40 seconds, when the first has been idle too
    long, a creation that asks for a total of one session is refused. *)
Definition sample_calls : list session_call :=
  [call_create 0 "s1" (sample_request None);
   call_create (20 * us_per_second) "s2" (sample_request None);
   call_create (40 * us_per_second) "s3" (sample_request (Some 1))].

Definition sample_browser : browser_state :=
  fold_left (fun s c => run_section (fun _ => false) c s) sample_calls (initial_browser sample_limits).

Lemma sample_limits_ok : limits_ok sample_limits.
Proof. split; cbn; lia. Qed.

Lemma sample_browser_reached : browser_reaches sample_limits sample_browser.
Proof.
  unfold sample_browser, sample_calls. cbn [fold_left].
  repeat (eapply rtc_r; [|apply step_section; apply (bool_decide_unpack _); vm_compute; exact I]).
  apply rtc_refl.
Qed.

Lemma sessions_bounded_witness :
  List.length (rg_records (bs_registry sample_browser)) = 1%nat
  /\ Z.of_nat (List.length (rg_records (bs_registry sample_browser))) <= 3.
Proof.
  split; [vm_compute; reflexivity|].
  exact (proj1 (sessions_bounded sample_limits sample_browser sample_limits_ok sample_browser_reached)).
Defined.

Lemma sessions_accounted_witness :
  bs_lost sample_browser = ["s1"]
  /\ bs_opened sample_browser
     ≡ₚ dkeys (rg_records (bs_registry sample_browser)) ++ pending_sessions sample_browser
        ++ bs_closed sample_browser ++ bs_lost sample_browser.
Proof.
  split; [vm_compute; reflexivity|].
  exact (proj1 (sessions_accounted sample_limits sample_browser sample_limits_ok sample_browser_reached)).
Defined.

Lemma session_access_witness :
  let g := bs_registry sample_browser in
  let other := mkOwner (Some "e2") None None None None (Some "u1") None in
  lk_result (resolve_session (fun _ => false) (45 * us_per_second) other "s2" true g)
    = inl (SessionAccessError "Browser session is owned by a different execution or actor")
  /\ (forall r, In r (lk_closing (close_session session_owner "s2" "closed" g)) <->
        dget "s2" (rg_records g) = Some r /\ owns session_owner (sr_owner r) = true).
Proof.
  intros g other. split; [vm_compute; reflexivity|].
  exact (proj2 (proj2 (proj2 (session_access (fun _ => false) (45 * us_per_second) session_owner "s2" true "closed" g
    (bo_registry _ _ (browser_reaches_ok _ _ sample_limits_ok sample_browser_reached)))))).
Defined.
