(* ===== verification/Outbox.v ===== *)
(** * The graph projection outbox

    [InMemoryGraphProjectionEventRepository] of
    [app/db/repositories/graph_projection.py] and [GraphProjectionWorker] of
    [app/graph/projection.py]: services append events, a worker takes the oldest
    pending ones in batches, validates them and marks each as projected or
    failed; a replay makes events pending again.  The text of a validation error is
    given by the message of the validator, without the frame that pydantic puts
    around it. *)

From Corelib Require Import SpecFloat.
From S2P Require Export Schedules Floats.

(** ** Events as documents *)

Definition projection_fields : list string :=
  ["event_id"; "event_type"; "aggregate_type"; "aggregate_id"; "occurred_at"; "tenant_id"; "user_id";
   "payload"; "schema_version"; "source"; "source_event_id"; "status"; "attempts"; "projected_at";
   "last_error"; "created_at"; "updated_at"].

(** [model_dump(mode="json")] *)
Definition projection_dump (ev : GraphProjectionEvent) : dict pyval :=
  [("event_id", PStr (gp_event_id ev)); ("event_type", PStr (gp_event_type ev));
   ("aggregate_type", PStr (gp_aggregate_type ev)); ("aggregate_id", PStr (gp_aggregate_id ev));
   ("occurred_at", PStr (json_datetime (gp_occurred_at ev))); ("tenant_id", opt_str (gp_tenant_id ev));
   ("user_id", opt_str (gp_user_id ev)); ("payload", PDict (gp_payload ev));
   ("schema_version", PInt (gp_schema_version ev)); ("source", PStr (gp_source ev));
   ("source_event_id", opt_str (gp_source_event_id ev)); ("status", PStr (gp_status ev));
   ("attempts", PInt (gp_attempts ev)); ("projected_at", opt_datetime (gp_projected_at ev));
   ("last_error", opt_str (gp_last_error ev)); ("created_at", PStr (json_datetime (gp_created_at ev)));
   ("updated_at", PStr (json_datetime (gp_updated_at ev)))].

(** [s or d] for a text *)
Definition text_or (s d : string) : string := if String.eqb s "" then d else s.

(** [normalize_projection_event] *)
Definition normalize_projection_event (ev : GraphProjectionEvent) : M GraphProjectionEvent :=
  let ev' := mkProjection (gp_event_id ev) (py_strip (gp_event_type ev)) (py_strip (gp_aggregate_type ev))
               (py_strip (gp_aggregate_id ev)) (gp_occurred_at ev) (gp_tenant_id ev) (gp_user_id ev)
               (gp_payload ev) (gp_schema_version ev) (text_or (py_strip (gp_source ev)) "application")
               (gp_source_event_id ev) (text_or (py_lower (py_strip (gp_status ev))) "pending") (gp_attempts ev)
               (gp_projected_at ev) (gp_last_error ev) (gp_created_at ev) (gp_updated_at ev) in
  if String.eqb (gp_event_type ev') "" then raise ValueError "event_type is required"
  else if String.eqb (gp_aggregate_type ev') "" then raise ValueError "aggregate_type is required"
  else if String.eqb (gp_aggregate_id ev') "" then raise ValueError "aggregate_id is required"
  else if gp_schema_version ev' <? 1 then raise ValueError "schema_version must be greater than zero"
  else mret ev'.

Section Outbox.
Context `{Env} `{Conversions}.

(** [GraphProjectionEvent.model_validate] of a dictionary *)
Definition projection_validate (d : dict pyval) : M GraphProjectionEvent :=
  let m := "GraphProjectionEvent" in
  event_id ← default_field m "event_id" as_str uuid4 d;
  event_type ← required_field m "event_type" as_str d;
  aggregate_type ← required_field m "aggregate_type" as_str d;
  aggregate_id ← required_field m "aggregate_id" as_str d;
  occurred_at ← default_field m "occurred_at" as_datetime utc_now d;
  tenant_id ← default_field m "tenant_id" (optional as_str) (mret None) d;
  user_id ← default_field m "user_id" (optional as_str) (mret None) d;
  payload ← default_field m "payload" as_dict (mret []) d;
  schema_version ← default_field m "schema_version" as_int (mret 1) d;
  source ← default_field m "source" as_str (mret "application") d;
  source_event_id ← default_field m "source_event_id" (optional as_str) (mret None) d;
  status ← default_field m "status" as_str (mret "pending") d;
  attempts ← default_field m "attempts" as_int (mret 0) d;
  projected_at ← default_field m "projected_at" (optional as_datetime) (mret None) d;
  last_error ← default_field m "last_error" (optional as_str) (mret None) d;
  created_at ← default_field m "created_at" as_datetime utc_now d;
  updated_at ← default_field m "updated_at" as_datetime utc_now d;
  forbid_extra projection_fields d;;
  normalize_projection_event
    (mkProjection event_id event_type aggregate_type aggregate_id occurred_at tenant_id user_id payload
       schema_version source source_event_id status attempts projected_at last_error created_at updated_at).

(** ** The repository *)

Definition set_event (ev : GraphProjectionEvent) : M unit :=
  modify (fun w => set_w_outbox (dset (gp_event_id ev) ev (w_outbox w)) w).

(** The same event of the same source. *)
Definition same_source (ev item : GraphProjectionEvent) : bool :=
  String.eqb (gp_source item) (gp_source ev) && opt_eqb (gp_source_event_id item) (gp_source_event_id ev).

(** [append] *)
Definition outbox_append (ev : GraphProjectionEvent) : M GraphProjectionEvent :=
  items ← gets w_outbox;
  match (if str_truthy (gp_source_event_id ev) then List.find (same_source ev) (dvalues items) else None) with
  | Some existing => mret existing
  | None => set_event ev;; mret ev
  end.

(** The order of [list_events]: [(occurred_at, event_id)]. *)
Definition projection_le (a b : GraphProjectionEvent) : bool :=
  (gp_occurred_at a <? gp_occurred_at b)
  || (gp_occurred_at a =? gp_occurred_at b) && string_leb (gp_event_id a) (gp_event_id b).

(** The items after the first one with the identifier. *)
Fixpoint after_event (event_id : string) (items : list GraphProjectionEvent) : list GraphProjectionEvent :=
  match items with
  | [] => []
  | item :: rest => if String.eqb (gp_event_id item) event_id then rest else after_event event_id rest
  end.

(** [list_events] *)
Definition outbox_list (status after_event_id : option string) (limit : Z) : M (list GraphProjectionEvent) :=
  items ← gets w_outbox;
  let items := py_sorted projection_le (dvalues items) in
  let items := match status with
               | Some s => List.filter (fun item => String.eqb (gp_status item) s) items
               | None => items
               end in
  let items := match after_event_id with Some i => after_event i items | None => items end in
  mret (slice_to (Z.max limit 0) items).

(** [event.model_copy(update={...})] of the fields that the repository changes *)
Definition with_progress (status : string) (attempts : Z) (projected_at : option Z) (last_error : option string)
    (updated_at : Z) (ev : GraphProjectionEvent) : GraphProjectionEvent :=
  mkProjection (gp_event_id ev) (gp_event_type ev) (gp_aggregate_type ev) (gp_aggregate_id ev)
    (gp_occurred_at ev) (gp_tenant_id ev) (gp_user_id ev) (gp_payload ev) (gp_schema_version ev) (gp_source ev)
    (gp_source_event_id ev) status attempts projected_at last_error (gp_created_at ev) updated_at.

Definition set_at (event_id : string) (ev : GraphProjectionEvent) : M unit :=
  modify (fun w => set_w_outbox (dset event_id ev (w_outbox w)) w).

(** [mark_projected] *)
Definition mark_projected (event_id : string) : M (option GraphProjectionEvent) :=
  found ← gets (fun w => dget event_id (w_outbox w));
  match found with
  | None => mret None
  | Some ev =>
      projected_at ← utc_now;
      updated_at ← utc_now;
      let updated := with_progress "projected" (gp_attempts ev) (Some projected_at) (gp_last_error ev) updated_at ev in
      set_at event_id updated;;
      mret (Some updated)
  end.

(** [mark_failed] *)
Definition mark_failed (event_id error : string) : M (option GraphProjectionEvent) :=
  found ← gets (fun w => dget event_id (w_outbox w));
  match found with
  | None => mret None
  | Some ev =>
      updated_at ← utc_now;
      let updated := with_progress "failed" (gp_attempts ev + 1) (gp_projected_at ev)
                       (Some (str_take 2000 error)) updated_at ev in
      set_at event_id updated;;
      mret (Some updated)
  end.

(** [reset_for_replay] *)
Definition reset_for_replay (event_ids : list string) : M Z :=
  items ← gets w_outbox;
  counts ← collect (fun kv =>
    let '(event_id, ev) := (kv : string * GraphProjectionEvent) in
    if negb (List.length event_ids =? 0)%nat && negb (mem_str event_id event_ids) then mret []
    else
      updated_at ← utc_now;
      set_at event_id (with_progress "pending" (gp_attempts ev) None None updated_at ev);;
      mret [event_id]) items;
  mret (Z.of_nat (List.length counts)).

(** ** The status of the outbox *)

Definition EXECUTION_AGGREGATE_TYPES : list string := ["workflow_run"; "step_run"].
Definition MEMORY_AGGREGATE_TYPES : list string := ["memory"; "document_memory_collection"; "workflow_memory_link"].

(** [_seconds_between]; every timestamp is aware. *)
Definition seconds_between (later earlier : Z) : spec_float :=
  fmax (float_ratio (later - earlier <? 0) (Z.abs (later - earlier)) us_per_second) (S754_zero false).

(** [_projection_lag_seconds] *)
Definition projection_lag_seconds (oldest_pending_at latest_event_at last_projected_event_at : option Z) :
    M (option spec_float) :=
  now ← utc_now;
  mret match oldest_pending_at, latest_event_at, last_projected_event_at with
       | Some t, _, _ => Some (seconds_between now t)
       | None, None, _ => None
       | None, Some latest, None => Some (seconds_between now latest)
       | None, Some latest, Some last =>
           if last <? latest then Some (seconds_between latest last) else Some (S754_zero false)
       end.

(** [_health_status] *)
Definition health_status (pending_count failed_count : Z) (lag : option spec_float) : string :=
  if 0 <? failed_count then "degraded"
  else if 0 <? pending_count then "lagging"
  else match lag with None => "empty" | Some _ => "healthy" end.

(** [min(..., default=None)] and [max(..., default=None)] *)
Definition min_default (l : list Z) : option Z :=
  match l with [] => None | x :: l => Some (fold_left Z.min l x) end.
Definition max_default (l : list Z) : option Z :=
  match l with [] => None | x :: l => Some (fold_left Z.max l x) end.

(** The order of the recent failures, newest first: a reversed sort keeps the
    order of equal keys. *)
Definition failure_ge (a b : GraphProjectionEvent) : bool :=
  (gp_updated_at b <? gp_updated_at a)
  || (gp_updated_at a =? gp_updated_at b) && string_leb (gp_event_id b) (gp_event_id a).

Record outbox_summary := mkSummary {
  os_health_status : string;
  os_total_count : Z;
  os_pending_count : Z;
  os_failed_count : Z;
  os_projected_count : Z;
  os_projection_lag_seconds : option spec_float;
  os_latest_event_at : option Z;
  os_last_projected_at : option Z;
  os_last_projected_event_at : option Z;
  os_last_projected_execution_event_at : option Z;
  os_last_projected_memory_event_at : option Z;
  os_oldest_pending_at : option Z;
  os_last_error : option string;
  os_recent_failures : list (string * string * string * string * Z * option string * Z)
}.

(** [status_summary] *)
Definition status_summary (recent_failure_limit : Z) : M outbox_summary :=
  items ← gets (fun w => dvalues (w_outbox w));
  let with_status s := List.filter (fun item => String.eqb (gp_status item) s) items in
  let pending := with_status "pending" in
  let failed := with_status "failed" in
  let projected := with_status "projected" in
  let recent_failures := py_sorted failure_ge failed in
  let of_types types := List.filter (fun item => mem_str (gp_aggregate_type item) types) projected in
  let oldest_pending := min_default (map gp_occurred_at pending) in
  let latest_event := max_default (map gp_occurred_at items) in
  let last_projected_event := max_default (map gp_occurred_at projected) in
  lag ← projection_lag_seconds oldest_pending latest_event last_projected_event;
  let count (l : list GraphProjectionEvent) := Z.of_nat (List.length l) in
  mret {| os_health_status := health_status (count pending) (count failed) lag;
          os_total_count := count items;
          os_pending_count := count pending;
          os_failed_count := count failed;
          os_projected_count := count projected;
          os_projection_lag_seconds := lag;
          os_latest_event_at := latest_event;
          os_last_projected_at := max_default (omap gp_projected_at projected);
          os_last_projected_event_at := last_projected_event;
          os_last_projected_execution_event_at := max_default (map gp_occurred_at (of_types EXECUTION_AGGREGATE_TYPES));
          os_last_projected_memory_event_at := max_default (map gp_occurred_at (of_types MEMORY_AGGREGATE_TYPES));
          os_oldest_pending_at := oldest_pending;
          os_last_error := match recent_failures with item :: _ => gp_last_error item | [] => None end;
          os_recent_failures :=
            map (fun item => (gp_event_id item, gp_event_type item, gp_aggregate_type item, gp_aggregate_id item,
                              gp_attempts item, gp_last_error item, gp_updated_at item))
              (slice_to (Z.max recent_failure_limit 0) recent_failures) |}.

(** ** The worker *)

(** [ProjectionBatchResult] *)
Record ProjectionBatchResult := mkBatch {
  pb_processed : Z;
  pb_failed : Z;
  pb_checkpoint_event_id : option string;
  pb_errors : list string
}.

(** [_validate_event] *)
Definition validate_event (ev : GraphProjectionEvent) : M unit := projection_validate (projection_dump ev);; mret tt.

(** One iteration of [run_once]; the checkpoint of the worker and that of the
    result are set together. *)
Definition project_event (result : ProjectionBatchResult) (ev : GraphProjectionEvent) : M ProjectionBatchResult :=
  try_except
    (validate_event ev;;
     mark_projected (gp_event_id ev);;
     mret (mkBatch (pb_processed result + 1) (pb_failed result) (Some (gp_event_id ev)) (pb_errors result)))
    any_exn
    (fun exc =>
       mark_failed (gp_event_id ev) (exn_message exc);;
       mret (mkBatch (pb_processed result) (pb_failed result + 1) (pb_checkpoint_event_id result)
               (pb_errors result ++ [gp_event_id ev +:+ ": " +:+ exn_message exc]))).

Fixpoint project_events (result : ProjectionBatchResult) (events : list GraphProjectionEvent) :
    M ProjectionBatchResult :=
  match events with
  | [] => mret result
  | ev :: rest => result ← project_event result ev; project_events result rest
  end.

(** [run_once] of a worker with the given batch size and checkpoint *)
Definition run_once (batch_size : Z) (checkpoint_event_id : option string) : M ProjectionBatchResult :=
  events ← outbox_list (Some "pending") None batch_size;
  project_events (mkBatch 0 0 checkpoint_event_id []) events.

(** [replay] *)
Definition replay (batch_size : Z) (checkpoint_event_id : option string) (event_ids : list string) (run : bool) :
    M ProjectionBatchResult :=
  reset_for_replay event_ids;;
  if run then run_once batch_size checkpoint_event_id
  else mret (mkBatch 0 0 checkpoint_event_id []).
End Outbox.
