(* ===== verification/OutboxFacts.v ===== *)
(** * What the outbox and its worker guarantee

    A pass takes the oldest pending events and settles each of them; passes drain
    the outbox; a source event is appended once. *)

From S2P Require Export Outbox.

(** ** Validation of an event *)

(** What the validator of the model objects to. *)
Definition event_problem (ev : GraphProjectionEvent) : option string :=
  if String.eqb (py_strip (gp_event_type ev)) "" then Some "event_type is required"
  else if String.eqb (py_strip (gp_aggregate_type ev)) "" then Some "aggregate_type is required"
  else if String.eqb (py_strip (gp_aggregate_id ev)) "" then Some "aggregate_id is required"
  else if gp_schema_version ev <? 1 then Some "schema_version must be greater than zero"
  else None.

(** The timestamps of an event have a text. *)
Record event_dated (ev : GraphProjectionEvent) : Prop := {
  ed_occurred : representable (gp_occurred_at ev);
  ed_projected : forall t, gp_projected_at ev = Some t -> representable t;
  ed_created : representable (gp_created_at ev);
  ed_updated : representable (gp_updated_at ev)
}.

Section Facts.
Context `{Env} `{Conversions}.

Lemma normalize_cases ev w :
  exists ev', normalize_projection_event ev w
    = (match event_problem ev with Some m => Raise (mkExn ValueError m) | None => Ok ev' end, w).
Proof.
  unfold normalize_projection_event, event_problem. cbn [gp_event_type gp_aggregate_type gp_aggregate_id gp_schema_version].
  repeat (destruct (String.eqb _ ""); [by exists ev|]). destruct (_ <? 1); [by exists ev|]. by eexists.
Qed.

Lemma validate_event_run ev w : event_dated ev ->
  validate_event ev w
  = (match event_problem ev with Some m => Raise (mkExn ValueError m) | None => Ok tt end, w).
Proof.
  intros [Ho Hp Hc Hu]. unfold validate_event.
  assert (Hrun : projection_validate (projection_dump ev) w = normalize_projection_event ev w).
  { pose proof (json_datetime_reads _ Ho) as Ho'. pose proof (json_datetime_reads _ Hc) as Hc'.
    pose proof (json_datetime_reads _ Hu) as Hu'. pose proof (optional_datetime _ Hp) as Hp'.
    unfold projection_validate, default_field, required_field.
    destruct ev as [id ty at_ ai oc tn us pl sv so si st n pr er cr up].
    cbn [dget projection_dump String.eqb Ascii.eqb Bool.eqb gp_event_id gp_event_type gp_aggregate_type
         gp_aggregate_id gp_occurred_at gp_tenant_id gp_user_id gp_payload gp_schema_version gp_source
         gp_source_event_id gp_status gp_attempts gp_projected_at gp_last_error gp_created_at gp_updated_at] in *.
    repeat (erewrite bind_Ok; [|apply read_typed;
      first [exact Ho'|exact Hc'|exact Hu'|exact Hp'|reflexivity|apply optional_str]]).
    reflexivity. }
  rewrite bind_unfold, Hrun. destruct (normalize_cases ev w) as [ev' ->]. by destruct (event_problem ev).
Qed.

(** ** One pass *)

(** [ev'] is what a pass makes of the pending event [ev]. *)
Definition settled (ev ev' : GraphProjectionEvent) : Prop :=
  exists n1 n2, ev' = match event_problem ev with
                      | None => with_progress "projected" (gp_attempts ev) (Some (env_now n1)) (gp_last_error ev)
                                  (env_now n2) ev
                      | Some m => with_progress "failed" (gp_attempts ev + 1) (gp_projected_at ev)
                                    (Some (str_take 2000 m)) (env_now n2) ev
                      end.

Definition pending (ev : GraphProjectionEvent) : bool := String.eqb (gp_status ev) "pending".

Lemma settled_not_pending ev ev' : settled ev ev' -> pending ev' = false.
Proof. intros (n1 & n2 & ->). by destruct (event_problem ev). Qed.

Lemma count_dset_drop {V} (P : V -> bool) k v v0 d : dget k d = Some v0 -> P v0 = true -> P v = false ->
  S (count_values P (dset k v d)) = count_values P d.
Proof.
  intros Hget Hv0 Hv. induction d as [|[k' v'] d IH]; [done|]. cbn [dset dget] in *.
  destruct (String.eqb k k'); rewrite !count_values_cons.
  - injection Hget as ->. by rewrite Hv0, Hv.
  - rewrite <-(IH Hget). lia.
Qed.

Definition is_valid (ev : GraphProjectionEvent) : bool := negb (opt_some (event_problem ev)).

(** The outbox after the events of [l] were settled. *)
Definition settles (l : list GraphProjectionEvent) (d d' : dict GraphProjectionEvent) : Prop :=
  dkeys d' = dkeys d
  /\ forall k, if mem_str k (map gp_event_id l)
               then exists ev ev', dget k d = Some ev /\ dget k d' = Some ev' /\ settled ev ev'
               else dget k d' = dget k d.

Lemma dget_dkeys {V} k (v : V) d : dget k d = Some v -> In k (dkeys d).
Proof. intros Hin%dget_In. apply in_map_iff. by exists (k, v). Qed.

Lemma dset_keys_same {V} k (v : V) d : In k (dkeys d) -> dkeys (dset k v d) = dkeys d.
Proof.
  unfold dkeys. induction d as [|[k' v'] d IH]; [done|]. cbn. destruct (String.eqb_spec k k') as [->|Hne]; [done|].
  intros [->|Hin]; [done|]. cbn. by rewrite IH.
Qed.

(** One event is settled. *)
Lemma project_event_run r ev w : event_dated ev -> dget (gp_event_id ev) (w_outbox w) = Some ev ->
  returns (project_event r ev) w (fun r' w' =>
    pb_processed r' = pb_processed r + (if is_valid ev then 1 else 0)
    /\ pb_failed r' = pb_failed r + (if is_valid ev then 0 else 1)
    /\ exists ev', settled ev ev' /\ w_outbox w' = dset (gp_event_id ev) ev' (w_outbox w)).
Proof.
  intros Hd Hget. unfold project_event, try_except, returns, is_valid, settled.
  rewrite bind_unfold, (validate_event_run ev w Hd). destruct (event_problem ev) as [m|] eqn:Hp; cbn [opt_some negb any_exn].
  - unfold mark_failed. rewrite !bind_unfold. cbn [gets]. rewrite Hget. eexists _, _. split; [reflexivity|].
    cbn. split; [lia|]. split; [done|]. eexists. split; [|reflexivity]. by exists O, (w_clock w).
  - unfold mark_projected. rewrite !bind_unfold. cbn [gets]. rewrite Hget. eexists _, _. split; [reflexivity|].
    cbn. split; [done|]. split; [lia|]. eexists. split; [|reflexivity].
    by exists (w_clock w), (S (w_clock w)).
Qed.

Lemma project_events_run l r w :
  NoDup (map gp_event_id l) -> (forall ev, In ev l -> event_dated ev /\ pending ev = true /\ dget (gp_event_id ev) (w_outbox w) = Some ev) ->
  returns (project_events r l) w (fun r' w' =>
    pb_processed r' = pb_processed r + Z.of_nat (List.length (List.filter is_valid l))
    /\ pb_failed r' = pb_failed r + Z.of_nat (List.length (List.filter (fun ev => negb (is_valid ev)) l))
    /\ settles l (w_outbox w) (w_outbox w')
    /\ (count_values pending (w_outbox w') + List.length l = count_values pending (w_outbox w))%nat).
Proof.
  revert r w. induction l as [|ev l IH]; intros r w Hnd Hall; cbn [project_events].
  { eapply returns_intro; [reflexivity|]. cbn. split; [lia|]. split; [lia|]. split; [by split|lia]. }
  apply NoDup_cons in Hnd as [Hni Hnd]. rewrite list_elem_of_In in Hni.
  destruct (Hall ev (or_introl eq_refl)) as (Hd & Hpd & Hget).
  eapply returns_bind; [by apply project_event_run|]. intros r1 w1 (Hp1 & Hf1 & ev' & Hset & Hw1).
  eapply returns_mono; [apply IH; [done|]|].
  { intros ev2 Hin. destruct (Hall ev2 (or_intror Hin)) as (Hd2 & Hpd2 & Hget2). split; [done|]. split; [done|]. rewrite Hw1, dget_dset_ne; [done|].
    intros Heq. apply Hni. rewrite <-Heq. by apply in_map. }
  intros r2 w2 (Hp2 & Hf2 & [Hkeys Hsettled] & Hc2). cbn [List.filter]. rewrite Hp2, Hf2, Hp1, Hf1.
  assert (Hin : In (gp_event_id ev) (dkeys (w_outbox w))) by by eapply dget_dkeys.
  split; [destruct (is_valid ev); cbn [List.length]; lia|].
  split; [destruct (is_valid ev); cbn [List.length negb]; lia|].
  assert (Hc1 : S (count_values pending (w_outbox w1)) = count_values pending (w_outbox w)).
  { rewrite Hw1. apply (count_dset_drop _ _ _ ev); [done..|by apply (settled_not_pending ev)]. }
  split; [split|cbn [List.length]; lia]; [by rewrite Hkeys, Hw1, dset_keys_same|].
  intros k. specialize (Hsettled k). cbn [map mem_str existsb]. fold (mem_str k (map gp_event_id l)).
  destruct (String.eqb_spec k (gp_event_id ev)) as [->|Hne]; cbn [orb].
  - assert (Hno : mem_str (gp_event_id ev) (map gp_event_id l) = false) by by apply mem_str_false.
    rewrite Hno, Hw1, dget_dset_eq in Hsettled. by exists ev, ev'.
  - rewrite Hw1, dget_dset_ne in Hsettled by done. exact Hsettled.
Qed.

(** ** Passes *)

(** The events that the next pass takes. *)
Definition next_batch (batch_size : Z) (d : dict GraphProjectionEvent) : list GraphProjectionEvent :=
  slice_to (Z.max batch_size 0) (List.filter pending (py_sorted projection_le (dvalues d))).

(** Events are filed under their identifiers and have timestamps with a text. *)
Record outbox_ok (d : dict GraphProjectionEvent) : Prop := {
  oo_keyed : keyed gp_event_id d;
  oo_dated : forall k ev, dget k d = Some ev -> event_dated ev
}.

Lemma next_batch_In n d ev : In ev (next_batch n d) -> In ev (dvalues d) /\ pending ev = true.
Proof.
  unfold next_batch, slice_to. intros Hin. rewrite <-list_elem_of_In in Hin.
  apply elem_of_take in Hin as (k & Hk & _). apply list_elem_of_lookup_2, list_elem_of_In, filter_In in Hk as [Hk Hp].
  by apply py_sorted_In in Hk.
Qed.

Lemma NoDup_filter_map {A B} (f : A -> B) (p : A -> bool) l : NoDup (map f l) -> NoDup (map f (List.filter p l)).
Proof.
  induction l as [|x l IH]; [done|]. cbn. intros [Hni Hnd]%NoDup_cons. destruct (p x); [|by apply IH]. cbn.
  constructor; [|by apply IH]. rewrite list_elem_of_In in *. intros (y & Hy & [Hin _]%filter_In)%in_map_iff.
  apply Hni. apply in_map_iff. by exists y.
Qed.

Lemma filter_perm {A} (p : A -> bool) l l' : l ≡ₚ l' -> List.filter p l ≡ₚ List.filter p l'.
Proof.
  induction 1 as [|x l l' _ IH|x y l|l1 l2 l3 _ IH1 _ IH2]; cbn; [done| | |by etransitivity].
  - destruct (p x); [by constructor|done].
  - destruct (p x), (p y); try done. constructor.
Qed.

Lemma next_batch_NoDup n d : keyed gp_event_id d -> NoDup (map gp_event_id (next_batch n d)).
Proof.
  intros Hk. unfold next_batch, slice_to. rewrite <-firstn_map.
  eapply sublist_NoDup; [|apply sublist_take]. apply NoDup_filter_map.
  rewrite py_sorted_perm, keyed_ids by done. apply Hk.
Qed.

Lemma next_batch_length n d :
  Z.of_nat (List.length (next_batch n d)) = Z.min (Z.max n 0) (Z.of_nat (count_values pending d)).
Proof.
  unfold next_batch, slice_to, count_values. rewrite length_take.
  assert (Hperm : List.filter pending (py_sorted projection_le (dvalues d)) ≡ₚ List.filter pending (dvalues d)).
  { apply filter_perm, py_sorted_perm. }
  rewrite Hperm. lia.
Qed.

(** A pass: what it takes, what it makes of it, and what it reports. *)
Lemma run_once_run n cp w : outbox_ok (w_outbox w) ->
  let batch := next_batch n (w_outbox w) in
  returns (run_once n cp) w (fun r w' =>
    pb_processed r = Z.of_nat (List.length (List.filter is_valid batch))
    /\ pb_failed r = Z.of_nat (List.length (List.filter (fun ev => negb (is_valid ev)) batch))
    /\ settles batch (w_outbox w) (w_outbox w')
    /\ (count_values pending (w_outbox w') + List.length batch = count_values pending (w_outbox w))%nat).
Proof.
  intros [Hk Hd] batch. unfold run_once. eapply returns_step; [reflexivity|].
  change (slice_to _ _) with batch.
  eapply returns_mono; [apply project_events_run|].
  - by apply next_batch_NoDup.
  - intros ev Hin. apply next_batch_In in Hin as [Hin Hp].
    pose proof (keyed_In gp_event_id ev _ Hk Hin) as Hget. split; [by eapply Hd|done].
  - cbn. intros r w' (-> & -> & Hs & Hc). by rewrite !Z.add_0_l.
Qed.

(** A pass keeps the outbox in order when the clock reads times that have a text. *)
Context (Hclock : forall n, representable (env_now n)).

Lemma settled_dated ev ev' : settled ev ev' -> event_dated ev -> event_dated ev'.
Proof.
  intros (n1 & n2 & ->) [Ho Hp Hc Hu]. destruct (event_problem ev); split; cbn; auto. by intros t [= <-].
Qed.

Lemma settles_ok l d d' : settles l d d' -> outbox_ok d -> outbox_ok d'.
Proof.
  intros [Hkeys Hs] [[Hnd Hid] Hd].
  assert (Hfrom : forall k ev', dget k d' = Some ev' ->
    exists ev, dget k d = Some ev /\ (ev' = ev \/ settled ev ev')).
  { intros k ev' Hk. specialize (Hs k). destruct (mem_str k _).
    - destruct Hs as (ev & ev2 & Hev & Hev2 & Hset). exists ev. split; [done|]. right. congruence.
    - exists ev'. split; [congruence|by left]. }
  split; [split; [by rewrite Hkeys|]|]; intros k ev' (ev & Hev & [->|Hset])%Hfrom; [by apply Hid| |by eapply Hd|].
  - rewrite <-(Hid k ev Hev). destruct Hset as (n1 & n2 & ->). by destruct (event_problem ev).
  - eapply settled_dated; [done|by eapply Hd].
Qed.

(** [k] passes of a worker. *)
Fixpoint passes (k : nat) (batch_size : Z) (cp : option string) : M unit :=
  match k with
  | O => mret tt
  | S k => r ← run_once batch_size cp; passes k batch_size (pb_checkpoint_event_id r)
  end.

(** C26. Passes drain the outbox.  With a batch size of [n], as many passes as [n]
    fits into the pending events leave none: every event that was pending has been
    settled, once and as it was, projected when its fields are valid and otherwise
    failed with what the validator objects to, and no other event has changed. *)
Theorem outbox_drains n k cp w :
  0 < n -> Z.of_nat (count_values pending (w_outbox w)) <= n * Z.of_nat k -> outbox_ok (w_outbox w) ->
  returns (passes k n cp) w (fun _ w' =>
    count_values pending (w_outbox w') = O
    /\ dkeys (w_outbox w') = dkeys (w_outbox w)
    /\ forall i ev, dget i (w_outbox w) = Some ev ->
         exists ev', dget i (w_outbox w') = Some ev' /\ (if pending ev then settled ev ev' else ev' = ev)).
Proof.
  intros Hn. revert cp w. induction k as [|k IH]; intros cp w Hle Hok; cbn [passes].
  - eapply returns_intro; [done|]. assert (Hz : count_values pending (w_outbox w) = O) by lia.
    split; [done|]. split; [done|]. intros i ev Hi. exists ev. split; [done|].
    destruct (pending ev) eqn:Hp; [|done]. exfalso. revert Hz Hi Hp. clear.
    induction (w_outbox w) as [|[k v] d IH]; [done|]. rewrite count_values_cons. cbn.
    destruct (String.eqb i k); [intros Hz [= ->] Hp; by rewrite Hp in Hz|]. intros Hz. apply IH. lia.
  - eapply returns_bind; [by apply run_once_run|]. cbn. intros r w1 (_ & _ & Hs & Hc).
    pose proof (next_batch_length n (w_outbox w)) as Hlen.
    eapply returns_mono; [apply IH; [lia|by eapply settles_ok]|].
    intros _ w2 (Hz & Hkeys & Hall). split; [done|]. destruct Hs as [Hkeys1 Hs]. split; [congruence|].
    intros i ev Hi. specialize (Hs i). destruct (mem_str i _) eqn:Hm.
    + destruct Hs as (ev0 & ev1 & Hev0 & Hev1 & Hset). assert (ev0 = ev) as -> by congruence.
      destruct (Hall i ev1 Hev1) as (ev2 & Hev2 & Hsame). rewrite (settled_not_pending _ _ Hset) in Hsame. subst ev2.
      exists ev1. split; [done|].
      apply mem_str_In, in_map_iff in Hm as (ev3 & Hid & [Hin Hp]%next_batch_In).
      apply (keyed_In gp_event_id) in Hin; [|apply Hok]. rewrite Hid, Hi in Hin. injection Hin as <-. by rewrite Hp.
    + rewrite <-Hs in Hi. destruct (Hall i ev Hi) as (ev2 & Hev2 & Hsame). by exists ev2.
Qed.
End Facts.
