(* ===== verification/GoalService.v ===== *)
(** * The goal service

    [GoalEvaluator] and [GoalService] of [app/services/goals.py] over the
    in-memory goal catalog: goals are created, planned, paused, resumed,
    cancelled, linked to executions and completed on evidence; high-risk goals
    also need an independent review.  Every change is followed by an event for
    the graph projection outbox, whose failures are only logged.

    [store_goal_summary_memory] writes to the memory service and the operator
    views only read; both are not modelled.  A [datetime] that the code puts into
    a document before it is validated is given by its text, which reads back
    ([json_datetime_reads]). *)

From Corelib Require Import SpecFloat.
From S2P Require Export Scheduler Outbox.

(** ** Reading documents *)

(** [d.get(k1) or d.get(k2) or ... or last] *)
Fixpoint get_or (keys : list string) (d : dict pyval) (last : pyval) : pyval :=
  match keys with
  | [] => last
  | k :: keys => py_or (pget k d) (get_or keys d last)
  end.

(** [[item for item in l if isinstance(item, dict)]] *)
Definition only_dicts (l : list pyval) : list (dict pyval) := omap as_dict l.

(** [v if isinstance(v, list) else []] *)
Definition list_or_empty (v : pyval) : list pyval := default [] (as_list v).

(** [set.add] of a Python value; lists and dictionaries have no hash. *)
Definition set_add (v : pyval) (s : list pyval) : M (list pyval) :=
  match v with
  | PList _ | PDict _ => raise TypeError "unhashable type"
  | _ => mret (if existsb (py_eqb v) s then s else s ++ [v])
  end.

Fixpoint set_update (l s : list pyval) : M (list pyval) :=
  match l with
  | [] => mret s
  | v :: l => s ← set_add v s; set_update l s
  end.

(** What the deployment says about the graph projection. *)
Class GoalContext := {
  graph_projection_enabled : bool;
  graph_projection_event_repo_configured : bool
}.

Section GoalService.
Context `{Env} `{Conversions} `{GoalContext}.

Definition text (v : pyval) : string := py_str env_float_repr v.

(** [str(v or "").strip().lower()] of the first truthy entry *)
Definition lower_text (keys : list string) (d : dict pyval) : string :=
  py_lower (py_strip (text (get_or keys d (PStr "")))).

(** ** The evaluator *)

Definition CRITERION_KEYS : list string := ["id"; "criterion_id"; "key"; "name"].

(** [isinstance(value, str | int | float | bool)] of a truthy value *)
Definition is_scalar (v : pyval) : bool :=
  match v with PStr _ | PInt _ | PFloat _ | PBool _ => truthy v | _ => false end.

Definition criterion_ids_of (criterion : dict pyval) : list string :=
  omap (fun key => let v := pget key criterion in if is_scalar v then Some (text v) else None) CRITERION_KEYS.

(** [_evidence_references_criterion] *)
Definition evidence_references_criterion (evidence : dict pyval) (criterion_ids : list string) : M bool :=
  match criterion_ids with
  | [] => mret false
  | _ =>
      candidates ← set_update [pget "criterion_id" evidence; pget "success_criterion_id" evidence;
                               pget "satisfies_criterion_id" evidence] [];
      candidates ← match pget "satisfies" evidence with
                   | PList l => set_update l candidates
                   | v => if truthy v then set_add v candidates else mret candidates
                   end;
      candidates ← match pget "criteria_ids" evidence with
                   | PList l => set_update l candidates
                   | _ => mret candidates
                   end;
      mret (existsb (fun item => truthy item && mem_str (text item) criterion_ids) candidates)
  end.

(** [_matching_evidence] *)
Definition evidence_matches (criterion evidence : dict pyval) : M bool :=
  referenced ← evidence_references_criterion evidence (criterion_ids_of criterion);
  let criterion_kind := lower_text ["kind"; "type"] criterion in
  mret (referenced || (negb (String.eqb criterion_kind "")
                       && String.eqb (lower_text ["kind"; "type"] evidence) criterion_kind)).

Definition matching_evidence (criterion : dict pyval) (evidence_records : list (dict pyval)) :
    M (list (dict pyval)) :=
  collect (fun evidence =>
    b ← evidence_matches criterion evidence; mret (if (b : bool) then [evidence] else [])) evidence_records.

(** [_criterion_id] *)
Definition criterion_id_of (criterion : dict pyval) (index : Z) : string :=
  match List.find (fun key => truthy (pget key criterion)) CRITERION_KEYS with
  | Some key => text (pget key criterion)
  | None => "criterion-" +:+ show_Z (index + 1)
  end.

Definition criterion_result (criterion_id : string) (criterion : dict pyval) (matches : list (dict pyval)) : pyval :=
  PDict [("criterion_id", PStr criterion_id); ("criterion", PDict criterion);
         ("satisfied", PBool (negb (List.length matches =? 0)%nat));
         ("evidence_ids", PList (map (fun item =>
            PStr (text (get_or ["id"; "artifact_id"; "execution_id"] item (PStr "")))) matches));
         ("evidence", PList (map PDict matches))].

Definition missing_record (criterion_id : string) (criterion : dict pyval) (reason : string) : pyval :=
  PDict [("criterion_id", PStr criterion_id); ("criterion", PDict criterion); ("reason", PStr reason)].

(** The loop over the criteria: results and missing evidence. *)
Fixpoint evaluate_criteria (index : Z) (criteria evidence_records : list (dict pyval)) :
    M (list pyval * list pyval) :=
  match criteria with
  | [] => mret ([], [])
  | criterion :: rest =>
      matches ← matching_evidence criterion evidence_records;
      let criterion_id := criterion_id_of criterion index in
      '(results, missing) ← evaluate_criteria (index + 1) rest evidence_records;
      mret (criterion_result criterion_id criterion matches :: results,
            match matches with
            | [] => missing_record criterion_id criterion
                      "No evidence matched this success criterion by criterion id or kind/type." :: missing
            | _ => missing
            end)
  end.

(** [GoalEvaluator.evaluate] *)
Definition evaluate (g : GoalDefinition) (evidence_records : list (dict pyval)) : M (dict pyval) :=
  let criteria := go_success_criteria g in
  '(criteria_results, missing) ← evaluate_criteria 0 criteria evidence_records;
  let missing :=
    match evidence_records with
    | [] => missing ++ [missing_record "completion_evidence"
              [("kind", PStr "evidence"); ("description", PStr "At least one completion evidence record")]
              "Goal completion requires at least one evidence record."]
    | _ => missing
    end in
  let has_criteria := negb (List.length criteria =? 0)%nat in
  let sufficient := negb (List.length evidence_records =? 0)%nat && (List.length missing =? 0)%nat in
  checked_at ← utc_now;
  mret [("status", PStr (if sufficient then "sufficient" else "missing_evidence"));
        ("sufficient", PBool sufficient);
        ("confidence", PStr (if sufficient then if has_criteria then "high" else "medium" else "low"));
        ("checked_at", PStr (isoformat checked_at));
        ("criteria_count", PInt (Z.of_nat (List.length criteria)));
        ("evidence_count", PInt (Z.of_nat (List.length evidence_records)));
        ("criteria_results", PList criteria_results);
        ("missing_evidence", PList missing);
        ("rationale", PStr (if sufficient then
            if has_criteria then "All success criteria have matching evidence."
            else "Completion evidence is present and no structured success criteria were defined."
          else "Goal cannot be completed until missing evidence is supplied."))].

(** ** Independent review *)

Definition HIGH_RISK_GOAL_LEVELS : list string := ["high"; "critical"; "unsafe"].
Definition FINAL_APPROVAL_EVIDENCE_KINDS : list string :=
  ["approval"; "final_approval"; "human_approval"; "operator_approval"].
Definition INDEPENDENT_REVIEWER_ROLES : list string :=
  ["human"; "operator"; "main_agent"; "evaluation_agent"; "supervisor"; "reviewer"].
Definition HIGH_RISK_APPROVAL_ACTIONS : list string :=
  ["delete"; "destructive_action"; "external_write"; "physical_world_action"; "purchase"; "shell_side_effect";
   "tool_definition_mutation"; "workflow_definition_mutation"].

Record ReviewRequirement := mkReview {
  rr_required : bool;
  rr_final_approval_required : bool;
  rr_risk_values : list string;
  rr_approval_required_actions : list string;
  rr_high_risk_success_criteria_ids : list string
}.

Definition review_description : string :=
  "High-risk goals require independent completion review or explicit final approval before completion.".
Definition review_reason : string :=
  "Completion evidence is sufficient, but the goal is high risk and does not include independent review or final approval evidence.".

Definition is_risky_criterion (criterion : dict pyval) : bool :=
  mem_str (lower_text ["risk"; "risk_level"] criterion) HIGH_RISK_GOAL_LEVELS
  || is_true (pget "high_risk" criterion).

(** [_completion_review_requirement] *)
Definition completion_review_requirement (g : GoalDefinition) : ReviewRequirement :=
  let constraints := go_constraints g in
  let approval_policy := dict_or_empty (pget "approval_policy" constraints) in
  let approval_required_actions :=
    map text (List.filter truthy
      (list_or_empty (pget "approval_required_actions" constraints)
       ++ list_or_empty (pget "approval_required_actions" approval_policy))) in
  let risk_values :=
    map (fun value => py_lower (py_strip (text value)))
      (List.filter truthy [pget "risk" constraints; pget "risk_level" constraints; pget "riskLevel" constraints;
                           PStr (go_priority g)]) in
  let risky_criteria := List.filter is_risky_criterion (go_success_criteria g) in
  let flags := ["final_approval_required"; "human_final_approval_required"; "require_human_final_approval"] in
  let final_approval_required :=
    existsb (fun key => is_true (pget key constraints)) flags
    || existsb (fun key => is_true (pget key approval_policy)) flags in
  mkReview
    (existsb (fun v => mem_str v HIGH_RISK_GOAL_LEVELS) risk_values
     || existsb (fun v => mem_str v HIGH_RISK_APPROVAL_ACTIONS) approval_required_actions
     || negb (List.length risky_criteria =? 0)%nat
     || final_approval_required)
    final_approval_required (sorted_set risk_values) (sorted_set approval_required_actions)
    (map (fun item => text (get_or ["id"; "criterion_id"; "kind"] item (PStr "criterion"))) risky_criteria).

Definition review_dump (r : ReviewRequirement) : dict pyval :=
  [("required", PBool (rr_required r)); ("final_approval_required", PBool (rr_final_approval_required r));
   ("risk_values", PList (map PStr (rr_risk_values r)));
   ("approval_required_actions", PList (map PStr (rr_approval_required_actions r)));
   ("high_risk_success_criteria_ids", PList (map PStr (rr_high_risk_success_criteria_ids r)));
   ("description", PStr review_description); ("reason", PStr review_reason)].

(** [_worker_completion_authorities] *)
Definition worker_completion_authorities (evidence : list (dict pyval)) : list string :=
  flat_map (fun item =>
    omap (fun key => match pget key item with
                     | PStr s => if String.eqb (py_strip s) "" then None else Some (py_strip s)
                     | _ => None
                     end)
      ["agent_id"; "worker_agent_id"; "produced_by"; "created_by"; "declared_by"; "source_agent_id"]) evidence.

(** [_is_final_approval_record] *)
Definition is_final_approval_record (item : dict pyval) : bool :=
  let kind := lower_text ["kind"; "type"] item in
  let status := lower_text ["status"; "approval_status"] item in
  (mem_str kind FINAL_APPROVAL_EVIDENCE_KINDS
   && negb (mem_str status [""; "rejected"; "denied"; "cancelled"; "pending"]))
  || is_true (pget "final_approval" item) || is_true (pget "human_final_approval" item).

(** [_completion_authority_actor] *)
Definition completion_authority_actor (item : dict pyval) : string :=
  py_strip (text (get_or ["reviewer_actor"; "evaluator_actor"; "approved_by"; "reviewed_by"; "actor"] item (PStr ""))).

(** One candidate of [_has_independent_completion_authority]. *)
Definition is_independent_authority (worker_authorities : list string) (item : dict pyval) : bool :=
  let actor := completion_authority_actor item in
  let independent := String.eqb actor "" || negb (mem_str actor worker_authorities) in
  let reviewer_role :=
    lower_text ["reviewer_role"; "evaluator_role"; "authority_role"; "approved_by_role"] item in
  (is_final_approval_record item && independent)
  || (mem_str reviewer_role INDEPENDENT_REVIEWER_ROLES && independent)
  || ((is_true (pget "independent_review" item) || is_true (pget "independent_completion_review" item))
      && independent).

(** [_has_independent_completion_authority] *)
Definition has_independent_completion_authority (g : GoalDefinition) (evidence : list (dict pyval))
    (evaluation : option (dict pyval)) : bool :=
  let candidates :=
    evidence
    ++ match evaluation with Some d => [d] | None => [] end
    ++ match go_evaluation g with Some (kv :: d) => [kv :: d] | _ => [] end in
  existsb (is_independent_authority (worker_completion_authorities evidence)) candidates.

(** ** The projection of a goal *)

(** The entries of a dictionary under [keys] that are texts. *)
Definition texts_at (keys : list string) (item : dict pyval) : list string :=
  omap (fun key => match pget key item with
                   | PStr s => if String.eqb s "" then None else Some s
                   | _ => None
                   end) keys.

(** The references of one kind in the evidence: the keys, and the [id] of an item
    of that type. *)
Definition references_in (keys : list string) (kind : string) (evidence : list (dict pyval)) : list string :=
  flat_map (fun item =>
    texts_at keys item
    ++ (if String.eqb (text (get_or ["type"; "kind"] item (PStr ""))) kind then texts_at ["id"] item else []))
    evidence.

(** [_artifact_ids_from_evidence] *)
Definition artifact_ids_from_evidence (evidence : list (dict pyval)) : list string :=
  sorted_set (references_in ["artifact_id"; "artifactId"] "artifact" evidence).

(** [_evaluation_ids_for_goal] *)
Definition evaluation_ids_for_goal (g : GoalDefinition) : list string :=
  sorted_set (texts_at ["id"; "evaluation_id"; "evaluationId"] (default [] (go_evaluation g))).

(** [_memory_ids_for_goal] *)
Definition memory_ids_for_goal (g : GoalDefinition) (evidence : list (dict pyval)) : list string :=
  sorted_set
    (flat_map (fun key => map text (List.filter truthy (list_or_empty (pget key (go_metadata g)))))
       ["memory_ids"; "attached_memory_ids"; "context_memory_ids"]
     ++ references_in ["memory_id"; "memoryId"] "memory" evidence).

(** [[item for item in d.get(key, []) if isinstance(item, dict)]] *)
Definition dict_items_at (key : string) (d : dict pyval) : M (list (dict pyval)) :=
  items ← py_iter (default (PList []) (dget key d));
  mret (only_dicts items).

(** [_goal_projection_payload] *)
Definition goal_projection_payload (g : GoalDefinition) (previous_goal : option GoalDefinition)
    (extra : dict pyval) : M (dict pyval) :=
  let planning := pget "goal_planning" (go_metadata g) in
  let active_plan := match planning with PDict d => pget "active_plan" d | _ => PNone end in
  let monitoring := dict_or_empty (pget "main_agent_monitoring" (go_metadata g)) in
  approval_requests ← dict_items_at "approval_requests" monitoring;
  decisions ← dict_items_at "supervisor_decisions" monitoring;
  findings ← dict_items_at "findings" monitoring;
  let evidence := go_evidence g in
  let previous_execution_ids := match previous_goal with Some p => go_execution_ids p | None => [] end in
  let linked_execution_ids :=
    List.filter (fun i => negb (mem_str i previous_execution_ids)) (go_execution_ids g) in
  let strings l := PList (map PStr l) in
  let ids key l := strings (omap (fun item => let v := pget key item in
                                              if truthy v then Some (text v) else None) l) in
  mret (dupdate
    [("goal", PDict
       [("id", PStr (go_id g)); ("objective", PStr (go_objective g));
        ("status", PStr (goal_status_value (go_status g))); ("priority", PStr (go_priority g));
        ("owner_actor", opt_str (go_owner_actor g)); ("parent_goal_id", opt_str (go_parent_goal_id g));
        ("created_at", PStr (isoformat (go_created_at g))); ("updated_at", PStr (isoformat (go_updated_at g)));
        ("completed_at", opt_iso (go_completed_at g)); ("deadline_at", opt_iso (go_deadline_at g))]);
     ("success_criteria", PList (map PDict (go_success_criteria g))); ("constraints", PDict (go_constraints g));
     ("relationships", PDict
       [("parent_goal_id", opt_str (go_parent_goal_id g)); ("execution_ids", strings (go_execution_ids g));
        ("linked_execution_ids", strings linked_execution_ids);
        ("artifact_ids", strings (artifact_ids_from_evidence evidence));
        ("memory_ids", strings (memory_ids_for_goal g evidence));
        ("approval_request_ids", ids "approval_request_id" (approval_requests ++ decisions));
        ("evaluation_ids", strings (evaluation_ids_for_goal g));
        ("supervisor_decision_ids", ids "id" decisions);
        ("supervisor_finding_ids", strings (omap (fun item =>
           let v := py_or (pget "execution_event_id" item) (pget "dedupe_key" item) in
           if truthy v then Some (text v) else None) findings))]);
     ("active_plan", active_plan);
     ("evaluation", match go_evaluation g with Some d => PDict d | None => PNone end)] extra).

(** [GraphProjectionEvent(...)] with the fields that the service gives. *)
Definition new_projection (event_type aggregate_type aggregate_id : string) (user_id : option string)
    (payload : dict pyval) (source : string) : M GraphProjectionEvent :=
  event_id ← uuid4;
  occurred_at ← utc_now;
  created_at ← utc_now;
  updated_at ← utc_now;
  normalize_projection_event
    (mkProjection event_id event_type aggregate_type aggregate_id occurred_at None user_id payload 1 source None
       "pending" 0 None None created_at updated_at).

(** [_append_goal_projection_event] *)
Definition append_goal_projection_event (event_type : string) (g : GoalDefinition)
    (previous_goal : option GoalDefinition) (extra : dict pyval) : M unit :=
  if negb graph_projection_enabled || negb graph_projection_event_repo_configured then mret tt
  else try_except
    (payload ← goal_projection_payload g previous_goal extra;
     ev ← new_projection event_type "goal" (go_id g) (go_owner_actor g) payload "goal_service";
     outbox_append ev;;
     mret tt)
    any_exn (fun _ => mret tt).

(** ** Goals and their states *)

(** [create_goal] *)
Definition create_goal (payload : dict pyval) : M GoalDefinition :=
  g ← goal_validate payload;
  created ← catalog_create goal_model g;
  append_goal_projection_event "goal.created" created None [];;
  mret created.

(** [get_goal] *)
Definition get_goal (goal_id : string) : M GoalDefinition :=
  found ← catalog_get goal_model goal_id false;
  match found with
  | Some g => mret g
  | None => raise GoalNotFoundError ("Goal '" +:+ goal_id +:+ "' was not found")
  end.

(** [update_goal] *)
Definition update_goal (goal_id : string) (patch : dict pyval) : M GoalDefinition :=
  current ← get_goal goal_id;
  updated_at ← utc_now;
  g ← goal_validate (dset "updated_at" (PStr (json_datetime updated_at))
                       (dset "id" (PStr goal_id) (dupdate (goal_dump current) patch)));
  updated ← catalog_save goal_model g;
  append_goal_projection_event "goal.updated" updated (Some current) [];;
  mret updated.

(** [_ensure_not_terminal] *)
Definition is_terminal_goal (g : GoalDefinition) : bool := bool_decide (go_status g ∈ TERMINAL_GOAL_STATUSES).

Definition ensure_not_terminal (g : GoalDefinition) : M unit :=
  if is_terminal_goal g then
    raise GoalTransitionError ("Goal '" +:+ go_id g +:+ "' is already terminal with status '"
                               +:+ goal_status_value (go_status g) +:+ "'")
  else mret tt.

(** [pause_goal] *)
Definition pause_goal (goal_id : string) : M GoalDefinition :=
  g ← get_goal goal_id;
  ensure_not_terminal g;;
  update_goal goal_id [("status", PStr (goal_status_value GOAL_PAUSED))].

(** [resume_goal] *)
Definition resume_goal (goal_id : string) : M GoalDefinition :=
  g ← get_goal goal_id;
  if bool_decide (go_status g = GOAL_PAUSED) then
    update_goal goal_id [("status", PStr (goal_status_value GOAL_ACTIVE))]
  else raise GoalTransitionError "Only paused goals can be resumed".

(** [cancel_goal] *)
Definition cancel_goal (goal_id : string) (reason : pyval) : M GoalDefinition :=
  g ← get_goal goal_id;
  ensure_not_terminal g;;
  let metadata := if truthy reason then dset "cancellation_reason" reason (go_metadata g)
                  else go_metadata g in
  completed_at ← utc_now;
  update_goal goal_id [("status", PStr (goal_status_value GOAL_CANCELLED));
                       ("completed_at", PStr (json_datetime completed_at)); ("metadata", PDict metadata)].

(** The evaluation of a completion, with the review that a high-risk goal needs. *)
Definition completion_evaluation (g : GoalDefinition) (merged_evidence : list (dict pyval))
    (evaluation : option (dict pyval)) : M (dict pyval) :=
  result ← evaluate g merged_evidence;
  let result := match evaluation with
                | Some d => dset "reviewer_evaluation" (PDict d) result
                | None => result
                end in
  let requirement := completion_review_requirement g in
  let review satisfied := PDict (review_dump requirement ++ [("satisfied", PBool satisfied)]) in
  mret (if rr_required requirement then
          if has_independent_completion_authority g merged_evidence evaluation
          then dset "completion_review" (review true) result
          else
            let result := dset "status" (PStr "completion_review_required") result in
            let result := dset "sufficient" (PBool false) result in
            let result := dset "confidence" (PStr "low") result in
            let result := dset "completion_review" (review false) result in
            dset "missing_evidence"
              (PList (list_or_empty (pget "missing_evidence" result)
                      ++ [missing_record "independent_completion_review"
                            [("kind", PStr "independent_review"); ("description", PStr review_description)]
                            review_reason])) result
        else result).

(** [complete_goal] *)
Definition complete_goal (goal_id : string) (evidence : list (dict pyval)) (evaluation : option (dict pyval)) :
    M GoalDefinition :=
  g ← get_goal goal_id;
  ensure_not_terminal g;;
  let merged_evidence := go_evidence g ++ evidence in
  result ← completion_evaluation g merged_evidence evaluation;
  let patch := [("evidence", PList (map PDict merged_evidence)); ("evaluation", PDict result)] in
  let record updated := append_goal_projection_event "goal.evaluation_recorded" updated None
                          [("evaluation", PDict result)] in
  if negb (truthy (pget "sufficient" result)) then
    updated ← update_goal goal_id patch;
    record updated;;
    if eq_str (pget "status" result) "completion_review_required"
    then raise GoalTransitionError "High-risk goal completion requires independent review or final approval"
    else raise GoalTransitionError "Goal completion requires sufficient evidence"
  else
    completed_at ← utc_now;
    updated ← update_goal goal_id
                ([("status", PStr (goal_status_value GOAL_COMPLETED));
                  ("completed_at", PStr (json_datetime completed_at))] ++ patch);
    record updated;;
    mret updated.

(** [link_execution] *)
Definition link_execution (goal_id execution_id : string) : M GoalDefinition :=
  g ← get_goal goal_id;
  let execution_ids := if mem_str execution_id (go_execution_ids g) then go_execution_ids g
                       else go_execution_ids g ++ [execution_id] in
  updated ← update_goal goal_id [("execution_ids", PList (map PStr execution_ids))];
  append_goal_projection_event "goal.execution_linked" updated None [("execution_id", PStr execution_id)];;
  mret updated.

(** [attach_evidence] *)
Definition attach_evidence (goal_id : string) (evidence : list (dict pyval)) : M GoalDefinition :=
  match evidence with
  | [] => raise ValueError "At least one evidence record is required"
  | _ =>
      g ← get_goal goal_id;
      updated ← update_goal goal_id [("evidence", PList (map PDict (go_evidence g ++ evidence)))];
      append_goal_projection_event "goal.evidence_attached" updated None [("evidence", PList (map PDict evidence))];;
      mret updated
  end.

(** [evaluate_goal] *)
Definition evaluate_goal (goal_id : string) (evidence : list (dict pyval)) (persist : bool) : M (dict pyval) :=
  g ← get_goal goal_id;
  evaluation ← evaluate g (go_evidence g ++ evidence);
  when persist
    (updated ← update_goal goal_id [("evaluation", PDict evaluation)];
     append_goal_projection_event "goal.evaluation_recorded" updated None [("evaluation", PDict evaluation)]);;
  mret evaluation.
End GoalService.
