(* ===== verification/GoalDocs.v ===== *)
(** * Goals in the catalog

    A valid goal reads back from its document, and an update of a stored goal
    stores the goal that the patched document describes; nothing but the goal, the
    clock, the identifiers and the outbox changes. *)

From S2P Require Export GoalService.

(** ** Reading a document *)

(** The document of a goal from the values of its fields. *)
Definition goal_document (id objective status priority owner parent criteria constraints executions evidence
    evaluation deadline completed created updated metadata : pyval) : dict pyval :=
  [("id", id); ("objective", objective); ("status", status); ("priority", priority); ("owner_actor", owner);
   ("parent_goal_id", parent); ("success_criteria", criteria); ("constraints", constraints);
   ("execution_ids", executions); ("evidence", evidence); ("evaluation", evaluation); ("deadline_at", deadline);
   ("completed_at", completed); ("created_at", created); ("updated_at", updated); ("metadata", metadata)].

Definition opt_dict (o : option (dict pyval)) : pyval := match o with Some d => PDict d | None => PNone end.

Lemma goal_status_of_value s : goal_status_of (goal_status_value s) = Some s.
Proof. by destruct s. Qed.

Lemma as_dicts_map l : as_dicts (PList (map PDict l)) = Some l.
Proof. unfold as_dicts. cbn. induction l as [|d l IH]; [done|]. cbn. by rewrite IH. Qed.

Lemma as_strings_map l : as_strings (PList (map PStr l)) = Some l.
Proof. unfold as_strings. cbn. induction l as [|d l IH]; [done|]. cbn. by rewrite IH. Qed.

Lemma optional_dict o : optional as_dict (opt_dict o) = Some o.
Proof. by destruct o. Qed.

(** What the validators ask, and timestamps that have a text. *)
Record goal_valid (g : GoalDefinition) : Prop := {
  gv_objective : String.eqb (py_strip (go_objective g)) "" = false;
  gv_completed : opt_some (go_completed_at g) = is_terminal_goal g;
  gv_deadline : forall t, go_deadline_at g = Some t -> representable t;
  gv_completed_text : forall t, go_completed_at g = Some t -> representable t;
  gv_created : representable (go_created_at g);
  gv_updated : representable (go_updated_at g)
}.

Section Documents.
Context `{Env} `{Conversions}.

Lemma validate_goal_valid g w : goal_valid g -> validate_goal g w = (Ok g, w).
Proof.
  intros [Ho Hc _ _ _ _]. unfold validate_goal. rewrite Ho. unfold is_terminal_goal in Hc.
  destruct (bool_decide _); rewrite Hc; rewrite bind_unfold; cbn; by rewrite Hc.
Qed.

(** A document whose fields read as those of a valid goal is validated as it. *)
Lemma validate_goal_document g st cr ev evl cp up md w :
  goal_valid g ->
  as_goal_status st = Some (go_status g) -> as_dicts cr = Some (go_success_criteria g) ->
  as_dicts ev = Some (go_evidence g) -> optional as_dict evl = Some (go_evaluation g) ->
  optional as_datetime cp = Some (go_completed_at g) -> as_datetime up = Some (go_updated_at g) ->
  as_dict md = Some (go_metadata g) ->
  goal_validate (goal_document (PStr (go_id g)) (PStr (go_objective g)) st (PStr (go_priority g))
    (opt_str (go_owner_actor g)) (opt_str (go_parent_goal_id g)) cr (PDict (go_constraints g))
    (PList (map PStr (go_execution_ids g))) ev evl (opt_datetime (go_deadline_at g)) cp
    (PStr (json_datetime (go_created_at g))) up md) w = (Ok g, w).
Proof.
  intros Hv Hst Hcr Hev Hevl Hcp Hup Hmd. unfold goal_validate.
  pose proof (optional_datetime _ (gv_deadline g Hv)) as Hdl.
  pose proof (json_datetime_reads _ (gv_created g Hv)) as Hca.
  pose proof (validate_goal_valid g w Hv) as Hval. clear Hv.
  erewrite bind_Ok; [exact Hval|]. unfold read_goal, default_field, required_field.
  destruct g as [id obj stt pr ow pa crr co ex evv evll dl cpp ca upp mdd].
  cbn [dget goal_document String.eqb Ascii.eqb Bool.eqb go_id go_objective go_status go_priority go_owner_actor
       go_parent_goal_id go_success_criteria go_constraints go_execution_ids go_evidence go_evaluation
       go_deadline_at go_completed_at go_created_at go_updated_at go_metadata] in *.
  repeat (erewrite bind_Ok; [|apply read_typed;
    first [exact Hst|exact Hcr|exact Hev|exact Hevl|exact Hcp|exact Hup|exact Hmd|exact Hdl|exact Hca
          |reflexivity|apply optional_str|apply as_strings_map]]).
  reflexivity.
Qed.

Lemma goal_dump_reads g w : goal_valid g -> goal_validate (goal_dump g) w = (Ok g, w).
Proof.
  intros Hv. apply (validate_goal_document g); [done| | | | | | |done].
  - cbn. apply goal_status_of_value.
  - apply as_dicts_map.
  - apply as_dicts_map.
  - apply (optional_dict (go_evaluation g)).
  - apply optional_datetime, (gv_completed_text g Hv).
  - apply json_datetime_reads, (gv_updated g Hv).
Qed.
End Documents.

(** ** Stored goals *)

(** The catalog of goals holds the document of [g] under [i], not deleted. *)
Definition goal_stored (g : GoalDefinition) (i : string) (w : world) : Prop :=
  exists payload, dget i (w_goals w) = Some payload
    /\ clean_payload payload = goal_dump g /\ deleted payload = false.

(** What the goal service never touches. *)
Record beside_goals (w w' : world) : Prop := {
  bg_executions : w_executions w' = w_executions w;
  bg_events : w_events w' = w_events w;
  bg_waits : w_waits w' = w_waits w;
  bg_approvals : w_approvals w' = w_approvals w;
  bg_schedules : w_schedules w' = w_schedules w;
  bg_states : w_states w' = w_states w
}.

#[export] Instance beside_goals_preorder : PreOrder beside_goals.
Proof.
  split; [by split|]. intros w1 w2 w3 Hab Hbc. destruct Hab, Hbc. split; congruence.
Qed.

(** A step on the goal [i] alone. *)
Record goal_step (i : string) (w w' : world) : Prop := {
  gs_others : forall j, j <> i -> dget j (w_goals w') = dget j (w_goals w);
  gs_beside : beside_goals w w'
}.

#[export] Instance goal_step_preorder i : PreOrder (goal_step i).
Proof.
  split; [by split|]. intros w1 w2 w3 [Ha Hb] [Hc Hd]. split; [|by etransitivity].
  intros j Hj. by rewrite Hc, Ha.
Qed.

(** A step that leaves the goals alone. *)
Definition goals_kept (w w' : world) : Prop := w_goals w' = w_goals w /\ beside_goals w w'.

#[export] Instance goals_kept_preorder : PreOrder goals_kept.
Proof.
  split; [by split|]. intros w1 w2 w3 [Ha Hb] [Hc Hd]. split; [congruence|by etransitivity].
Qed.

Lemma goals_kept_step i w w' : goals_kept w w' -> goal_step i w w'.
Proof. intros [Hg Hb]. split; [|done]. intros j _. by rewrite Hg. Qed.

Lemma goals_kept_stored g i w w' : goals_kept w w' -> goal_stored g i w -> goal_stored g i w'.
Proof. intros [Hg _]. unfold goal_stored. by rewrite Hg. Qed.

Section Stored.
Context `{Env} `{Conversions} `{GoalContext}.

Lemma kept_utc_now : evolves goals_kept utc_now.
Proof. intros w. by split. Qed.
Lemma kept_uuid4 : evolves goals_kept uuid4.
Proof. intros w. by split. Qed.
Lemma kept_normalize ev : evolves goals_kept (normalize_projection_event ev).
Proof. unfold normalize_projection_event. cbv zeta. evolve. Qed.
Lemma kept_append ev : evolves goals_kept (outbox_append ev).
Proof.
  unfold outbox_append, set_event. evolve. apply evolves_modify. by intros w.
Qed.

Lemma kept_dict_items k d : evolves goals_kept (dict_items_at k d).
Proof. unfold dict_items_at. evolve. Qed.

Hint Resolve kept_utc_now kept_uuid4 kept_normalize kept_append kept_dict_items : evolve.

Lemma kept_projection t g p x : evolves goals_kept (append_goal_projection_event t g p x).
Proof. unfold append_goal_projection_event, goal_projection_payload, new_projection. evolve. Qed.

(** An event for the outbox is never an error. *)
Lemma projection_returns t g p x w :
  returns (append_goal_projection_event t g p x) w (fun _ w' => goals_kept w w').
Proof.
  pose proof (kept_projection t g p x w) as Hk. unfold world_after in Hk.
  assert (Htotal : World.total (append_goal_projection_event t g p x)) by (unfold append_goal_projection_event; total).
  destruct (Htotal w) as ([] & w' & Hrun). rewrite Hrun in Hk. by exists tt, w'.
Qed.

Lemma get_stored g i w : goal_stored g i w -> goal_valid g -> get_goal i w = (Ok g, w).
Proof.
  intros (payload & Hget & Hclean & Hdel) Hv. unfold get_goal, catalog_get.
  rewrite !bind_unfold. cbn [gets mc_items goal_model]. rewrite Hget. cbn [default from_option]. unfold id.
  destruct payload as [|kv payload]; [done|]. cbn [List.length Nat.eqb orb negb andb]. rewrite Hdel.
  unfold deserialize. rewrite Hclean. cbn [mc_validate goal_model]. by rewrite bind_unfold, goal_dump_reads.
Qed.

(** Saving over a stored goal. *)
Lemma save_stored g g' i w : goal_stored g i w -> goal_valid g' -> go_id g' = i ->
  returns (catalog_save goal_model g') w (fun u w' => u = g' /\ goal_stored g' i w' /\ goal_step i w w').
Proof.
  intros (payload & Hget & Hclean & Hdel) Hv <-. unfold catalog_save, payload_id.
  change (dget "id" (mc_dump goal_model g')) with (Some (PStr (go_id g'))). cbn iota.
  eapply returns_step; [reflexivity|]. eapply returns_step; [reflexivity|].
  cbn [mc_items goal_model mc_dump]. rewrite Hget. cbn [default from_option]. unfold id, store_payload.
  eapply returns_step; [reflexivity|]. cbv zeta. unfold payload_id.
  change (dget "id" (dset "_updated_at" _ _)) with (Some (PStr (go_id g'))). cbn iota.
  eapply returns_step; [reflexivity|]. eapply returns_step; [reflexivity|]. unfold deserialize.
  eapply returns_intro; [by apply goal_dump_reads|]. split; [done|]. split.
  - eexists. split; [apply dget_dset_eq|]. split; [done|]. exact Hdel.
  - split; [|by split]. intros j Hj. cbn. by apply dget_dset_ne.
Qed.

(** An update stores the goal that the patched document describes. *)
Lemma update_stored_goal g g' i patch w : goal_stored g i w -> goal_valid g -> goal_valid g' -> go_id g' = i ->
  (forall w0, goal_validate (dset "updated_at" (PStr (json_datetime (env_now (w_clock w))))
                (dset "id" (PStr i) (dupdate (goal_dump g) patch))) w0 = (Ok g', w0)) ->
  returns (update_goal i patch) w (fun u w' => u = g' /\ goal_stored g' i w' /\ goal_step i w w').
Proof.
  intros Hst Hv Hv' Hid Hval. unfold update_goal.
  eapply returns_step; [by apply get_stored|]. eapply returns_step; [reflexivity|].
  eapply returns_step; [apply Hval|].
  eapply returns_bind; [by eapply (save_stored g g' i)|]. intros u w1 (-> & Hst1 & Hs1).
  eapply returns_bind; [apply projection_returns|]. intros [] w2 Hk.
  eapply returns_intro; [done|]. split; [done|]. split; [by eapply goals_kept_stored|].
  etransitivity; [|by apply goals_kept_step]. etransitivity; [|exact Hs1]. by split.
Qed.
End Stored.
