(* ===== verification/GoalPlans.v ===== *)
(** * Plans of goals and operator actions

    The versioned plans of a goal, the decisions of its supervisor and the actions
    of an operator, of [app/services/goals.py]. *)

From Corelib Require Import SpecFloat.
From S2P Require Export GoalService.

Definition GOAL_PLAN_STEP_ACTIONS : list string :=
  ["start_workflow"; "inspect_execution"; "retrieve_memory"; "ask_for_input"; "request_approval";
   "evaluate_evidence"].

Section Plans.
Context `{Env} `{Conversions} `{GoalContext}.

(** ** Plans *)

(** [_explicit_completion_condition] *)
Definition explicit_completion_condition (g : GoalDefinition) : bool :=
  truthy (get_or ["completion_condition"; "human_defined_completion_condition"] (go_constraints g) PNone).

(** [_default_plan_for_goal] *)
Definition default_plan_for_goal (g : GoalDefinition) : dict pyval :=
  let criteria := PList (map PDict (go_success_criteria g)) in
  let workflow_id := pget "workflow_id" (go_constraints g) in
  let start :=
    if truthy workflow_id then
      [PDict [("action", PStr "start_workflow"); ("workflow_id", workflow_id);
              ("input_payload", PDict (dict_or_empty (pget "workflow_input" (go_constraints g))));
              ("expected_evidence", criteria)]]
    else [] in
  [("summary", PStr ("Initial plan for " +:+ go_objective g));
   ("steps", PList (start ++ [PDict [("action", PStr "evaluate_evidence"); ("expected_evidence", criteria)]]));
   ("expected_evidence", criteria)].

(** [_normalize_plan_step] *)
Definition normalize_plan_step (step : pyval) (index : Z) : M (dict pyval) :=
  match step with
  | PDict step =>
      let action := py_strip (text (get_or ["action"] step (PStr ""))) in
      if negb (mem_str action GOAL_PLAN_STEP_ACTIONS) then
        raise ValueError ("Unsupported goal plan step action '" +:+ action +:+ "'")
      else
        let normalized := dsetdefault "status" (PStr "pending")
                            (dsetdefault "id" (PStr ("step-" +:+ show_Z (index + 1))) step) in
        let normalized := dset "action" (PStr action) normalized in
        if String.eqb action "start_workflow" then
          if negb (truthy (pget "workflow_id" normalized)) then
            raise ValueError "start_workflow plan steps require workflow_id"
          else
            let list_at k d := dset k (PList (list_or_empty (pget k d))) d in
            mret (list_at "expected_evidence" (list_at "assigned_agents"
                    (dset "input_payload" (PDict (dict_or_empty (pget "input_payload" normalized))) normalized)))
        else mret normalized
  | _ => raise ValueError "Goal plan steps must be objects"
  end.

Fixpoint normalize_plan_steps (index : Z) (steps : list pyval) : M (list pyval) :=
  match steps with
  | [] => mret []
  | step :: rest =>
      normalized ← normalize_plan_step step index;
      others ← normalize_plan_steps (index + 1) rest;
      mret (PDict normalized :: others)
  end.

(** [_normalize_plan] *)
Definition normalize_plan (g : GoalDefinition) (plan : option (dict pyval)) (reason : string) (actor : option string)
    (previous_version : Z) : M (dict pyval) :=
  let source_plan := match plan with Some (kv :: d) => kv :: d | _ => default_plan_for_goal g end in
  match pget "steps" source_plan with
  | PList (step :: steps) =>
      normalized_steps ← normalize_plan_steps 0 (step :: steps);
      created_at ← utc_now;
      mret [("version", PInt (previous_version + 1)); ("goal_id", PStr (go_id g));
            ("objective", PStr (go_objective g)); ("status", PStr "active");
            ("summary", PStr (text (py_or (pget "summary" source_plan)
                                      (PStr ("Plan for goal: " +:+ go_objective g)))));
            ("steps", PList normalized_steps); ("created_at", PStr (isoformat created_at));
            ("created_by", opt_str actor); ("reason", PStr reason);
            ("expected_evidence", match pget "expected_evidence" source_plan with
                                  | PList l => PList l
                                  | _ => PList (map PDict (go_success_criteria g))
                                  end)]
  | _ => raise ValueError "Goal plan requires at least one step"
  end.

(** [_metadata_with_plan] *)
Definition metadata_with_plan (metadata plan : dict pyval) (reason : string) (actor : option string) :
    M (dict pyval) :=
  planning ← py_dict (py_or (pget "goal_planning" metadata) (PDict []));
  history ← dict_items_at "plan_history" planning;
  let history := match pget "active_plan" planning with PDict d => history ++ [d] | _ => history end in
  updated_at ← utc_now;
  let planning := dset "active_plan" (PDict plan) planning in
  let planning := dset "plan_history" (PList (map PDict (last_n 20 history))) planning in
  let planning := dset "last_replan_reason" (PStr reason) planning in
  let planning := dset "last_planned_by" (opt_str actor) planning in
  let planning := dset "updated_at" (PStr (isoformat updated_at)) planning in
  mret (dset "goal_planning" (PDict planning) (dset "active_plan" (PDict plan) metadata)).

(** The end of [plan_goal] and [replan_goal]. *)
Definition store_plan (g : GoalDefinition) (goal_id : string) (status : GoalStatus) (plan : dict pyval)
    (reason : string) (actor : option string) : M GoalDefinition :=
  metadata ← metadata_with_plan (go_metadata g) plan reason actor;
  updated ← update_goal goal_id [("status", PStr (goal_status_value status)); ("metadata", PDict metadata)];
  append_goal_projection_event "goal.plan_versioned" updated None
    [("plan", PDict plan); ("reason", PStr reason); ("actor", opt_str actor)];;
  mret updated.

(** [plan_goal] *)
Definition plan_goal (goal_id : string) (plan : option (dict pyval)) (reason : string) (actor : option string) :
    M GoalDefinition :=
  g ← get_goal goal_id;
  ensure_not_terminal g;;
  if (List.length (go_success_criteria g) =? 0)%nat && negb (explicit_completion_condition g) then
    raise ValueError "Active goals require at least one success criterion or explicit completion condition"
  else
    plan ← normalize_plan g plan reason actor 0;
    store_plan g goal_id (if bool_decide (go_status g = GOAL_CREATED) then GOAL_PLANNING else go_status g)
      plan reason actor.

(** [int(active_plan.get("version") or 0)] *)
Definition plan_version (active_plan : pyval) : M Z :=
  match active_plan with
  | PDict d => of_res (int_value (py_or (pget "version" d) (PInt 0)))
  | _ => mret 0
  end.

(** [replan_goal] *)
Definition replan_goal (goal_id : string) (plan : option (dict pyval)) (reason : string) (actor : option string) :
    M GoalDefinition :=
  if String.eqb (py_strip reason) "" then raise ValueError "Replan reason is required"
  else
    g ← get_goal goal_id;
    ensure_not_terminal g;;
    previous_version ← plan_version (match pget "goal_planning" (go_metadata g) with
                                     | PDict d => pget "active_plan" d
                                     | _ => PNone
                                     end);
    plan ← normalize_plan g plan reason actor previous_version;
    store_plan g goal_id GOAL_ACTIVE plan reason actor.

(** ** Monitoring records *)

(** [dict(metadata.get("main_agent_monitoring") or {})] *)
Definition monitoring_of (g : GoalDefinition) : M (dict pyval) :=
  py_dict (py_or (pget "main_agent_monitoring" (go_metadata g)) (PDict [])).

(** The monitoring with a record appended to the last 50 under [key]. *)
Definition with_record (key last_key : string) (records : list (dict pyval)) (record : dict pyval)
    (monitoring : dict pyval) : dict pyval :=
  dset last_key (PDict record)
    (dset key (PList (map PDict (last_n 50 (records ++ [record])))) monitoring).

(** The document of a goal is patched with a new monitoring. *)
Definition store_monitoring (g : GoalDefinition) (monitoring : dict pyval) : M GoalDefinition :=
  update_goal (go_id g) [("metadata", PDict (dset "main_agent_monitoring" (PDict monitoring) (go_metadata g)))].

(** [record_supervisor_decision] *)
Definition record_supervisor_decision (goal_id : string) (decision : dict pyval) (actor : option string) :
    M GoalDefinition :=
  match decision with
  | [] => raise ValueError "Supervisor decision payload is required"
  | _ =>
      g ← get_goal goal_id;
      monitoring ← monitoring_of g;
      decisions ← dict_items_at "supervisor_decisions" monitoring;
      recorded_at ← utc_now;
      let default_id := PStr ("decision-" +:+ show_Z (Z.of_nat (List.length decisions) + 1)) in
      let record :=
        [("id", PStr (text (get_or ["id"] decision default_id))); ("goal_id", PStr (go_id g));
         ("source", PStr "main_agent_supervisor"); ("recorded_at", PStr (isoformat recorded_at));
         ("actor", opt_str actor); ("decision", PDict decision);
         ("risk", py_or (pget "risk" decision) (PStr "low"));
         ("policy", PDict (dict_or_empty (pget "policy" decision)));
         ("requires_approval", PBool (is_true (pget "requires_approval" decision)));
         ("approval_request_id", pget "approval_request_id" decision);
         ("finding_id", py_or (pget "finding_id" decision) (pget "finding_event_id" decision));
         ("action", py_or (pget "action" decision) (pget "recommended_action" decision));
         ("rationale", py_or (pget "rationale" decision) (pget "reason" decision))] in
      updated ← update_goal goal_id
        [("metadata", PDict (dset "main_agent_monitoring"
           (PDict (with_record "supervisor_decisions" "last_supervisor_decision" decisions record monitoring))
           (go_metadata g)))];
      append_goal_projection_event "goal.supervisor_decision.recorded" updated None
        [("supervisor_decision", PDict record)];;
      mret updated
  end.

(** ** Operator actions *)

(** [_record_operator_action] *)
Definition record_operator_action (g : GoalDefinition) (action : string) (payload : dict pyval)
    (actor : option string) : M GoalDefinition :=
  monitoring ← monitoring_of g;
  operator_actions ← dict_items_at "operator_actions" monitoring;
  recorded_at ← utc_now;
  let record :=
    [("id", PStr ("operator-action-" +:+ show_Z (Z.of_nat (List.length operator_actions) + 1)));
     ("goal_id", PStr (go_id g)); ("action", PStr action); ("actor", opt_str actor);
     ("reason", pget "reason" payload); ("recorded_at", PStr (isoformat recorded_at));
     ("status", PStr "completed");
     ("fields", PList (map PStr (py_sorted string_leb
        (List.filter (fun key => negb (String.eqb key "action")) (dkeys payload)))))] in
  updated ← store_monitoring g
    (with_record "operator_actions" "last_operator_action" operator_actions record monitoring);
  append_goal_projection_event "goal.operator_action.recorded" updated None [("operator_action", PDict record)];;
  mret updated.

Definition AUTONOMY_LEVELS : list string := ["off"; "advisory"; "guarded"; "high_autonomy"].

(** [_adjust_goal_autonomy] *)
Definition adjust_goal_autonomy (goal_id : string) (payload : dict pyval) : M GoalDefinition :=
  let autonomy := lower_text ["autonomy"] payload in
  if negb (mem_str autonomy AUTONOMY_LEVELS) then
    raise ValueError "autonomy must be one of off, advisory, guarded, or high_autonomy"
  else
    g ← get_goal goal_id;
    ensure_not_terminal g;;
    update_goal goal_id [("constraints", PDict (dset "autonomy" (PStr autonomy) (go_constraints g)))].

(** [_update_goal_success_criteria] *)
Definition update_goal_success_criteria (goal_id : string) (payload : dict pyval) : M GoalDefinition :=
  match pget "success_criteria" payload with
  | PList (c :: criteria) =>
      if negb (forallb (fun v => opt_some (as_dict v)) (c :: criteria)) then
        raise ValueError "success_criteria entries must be objects"
      else
        g ← get_goal goal_id;
        ensure_not_terminal g;;
        update_goal goal_id [("success_criteria", PList (c :: criteria))]
  | _ => raise ValueError "success_criteria must contain at least one criterion"
  end.

(** [_reassign_goal] *)
Definition reassign_goal (goal_id : string) (payload : dict pyval) : M GoalDefinition :=
  let owner_actor := py_strip (text (get_or ["owner_actor"] payload (PStr ""))) in
  if String.eqb owner_actor "" then raise ValueError "owner_actor is required when reassigning a goal"
  else
    g ← get_goal goal_id;
    ensure_not_terminal g;;
    update_goal goal_id [("owner_actor", PStr owner_actor)].

(** [apply_operator_action] *)
Definition apply_operator_action (goal_id : string) (payload : dict pyval) (actor : option string) :
    M GoalDefinition :=
  let action := lower_text ["action"] payload in
  if String.eqb action "" then raise ValueError "Operator action is required"
  else
    updated ←
      (if String.eqb action "pause" then pause_goal goal_id
       else if String.eqb action "resume" then resume_goal goal_id
       else if String.eqb action "cancel" then cancel_goal goal_id (pget "reason" payload)
       else if String.eqb action "adjust_autonomy" then adjust_goal_autonomy goal_id payload
       else if String.eqb action "update_success_criteria" then update_goal_success_criteria goal_id payload
       else if String.eqb action "reassign" then reassign_goal goal_id payload
       else raise ValueError
         "Unsupported operator action. Expected pause, resume, cancel, adjust_autonomy, update_success_criteria, or reassign.");
    current ← (if is_terminal_goal updated && String.eqb action "cancel" then mret updated else get_goal goal_id);
    record_operator_action current action payload actor.

(** [_operator_goal_actions] *)
Definition operator_goal_actions (g : GoalDefinition) : dict bool :=
  let terminal := is_terminal_goal g in
  [("pause", negb terminal && negb (bool_decide (go_status g = GOAL_PAUSED)));
   ("resume", bool_decide (go_status g = GOAL_PAUSED)); ("cancel", negb terminal);
   ("update_success_criteria", negb terminal); ("adjust_autonomy", negb terminal);
   ("attach_evidence", negb terminal); ("complete", negb terminal)].
End Plans.
