(* ===== verification/GoalFacts.v ===== *)
(** * What the goal service guarantees

    A goal is completed exactly when every success criterion has evidence and, if
    it is high-risk, an independent authority has approved it; a finished goal
    refuses every transition. *)

From Corelib Require Import SpecFloat.
From S2P Require Export GoalDocs GoalPlans.

(** ** The reference reading of evidence *)

(** What an evidence record says that it satisfies. *)
Definition evidence_references (ev : dict pyval) : list pyval :=
  [pget "criterion_id" ev; pget "success_criterion_id" ev; pget "satisfies_criterion_id" ev]
  ++ match pget "satisfies" ev with PList l => l | v => if truthy v then [v] else [] end
  ++ list_or_empty (pget "criteria_ids" ev).

Definition is_hashable (v : pyval) : bool := match v with PList _ | PDict _ => false | _ => true end.
Definition hashable_evidence (ev : dict pyval) : bool := forallb is_hashable (evidence_references ev).

(** A set of values has the first of equal ones. *)
Definition add_value (s : list pyval) (v : pyval) : list pyval := if existsb (py_eqb v) s then s else s ++ [v].
Definition set_of (l : list pyval) : list pyval := fold_left add_value l [].

Section Evaluation.
Context `{Env}.

(** A record supports a criterion by naming it or by being of its kind. *)
Definition evidence_for (criterion ev : dict pyval) : bool :=
  existsb (fun item => truthy item && mem_str (text item) (criterion_ids_of criterion)) (set_of (evidence_references ev))
  || (negb (String.eqb (lower_text ["kind"; "type"] criterion) "")
      && String.eqb (lower_text ["kind"; "type"] ev) (lower_text ["kind"; "type"] criterion)).

Definition sufficient_evidence (g : GoalDefinition) (evidence : list (dict pyval)) : bool :=
  negb (List.length evidence =? 0)%nat
  && forallb (fun criterion => existsb (evidence_for criterion) evidence) (go_success_criteria g).

Lemma set_update_run l s w : forallb is_hashable l = true -> set_update l s w = (Ok (fold_left add_value l s), w).
Proof.
  revert s. induction l as [|v l IH]; intros s; [done|]. cbn. intros [Hv Hl]%andb_true_iff.
  rewrite bind_unfold. unfold set_add. by destruct v; try done; cbn; rewrite IH.
Qed.

Lemma evidence_matches_run criterion ev w : hashable_evidence ev = true ->
  evidence_matches criterion ev w = (Ok (evidence_for criterion ev), w).
Proof.
  intros Hh. unfold evidence_matches, evidence_for.
  assert (Href : evidence_references_criterion ev (criterion_ids_of criterion) w
    = (Ok (existsb (fun item => truthy item && mem_str (text item) (criterion_ids_of criterion))
             (set_of (evidence_references ev))), w)).
  { unfold evidence_references_criterion. destruct (criterion_ids_of criterion) as [|i ids].
    { rewrite existsb_false; [done|]. intros v _. apply andb_false_r. }
    generalize (i :: ids). clear i ids. intros ids. unfold hashable_evidence, evidence_references in Hh.
    rewrite !forallb_app in Hh. apply andb_true_iff in Hh as [H1 [H2 H3]%andb_true_iff].
    rewrite bind_unfold, set_update_run by done. unfold set_of, evidence_references. rewrite !fold_left_app.
    set (s1 := fold_left add_value [_; _; _] []).
    assert (Hs : (match pget "satisfies" ev with
                  | PList l => set_update l s1
                  | v => if truthy v then set_add v s1 else mret s1
                  end) w
      = (Ok (fold_left add_value (match pget "satisfies" ev with PList l => l | v => if truthy v then [v] else [] end) s1), w)).
    { destruct (pget "satisfies" ev) as [|b|n|f|s|l|[|kv d]]; cbv zeta in *;
        try (destruct (truthy _); reflexivity); [by apply set_update_run|done..]. }
    rewrite (bind_Ok _ _ _ _ _ Hs). unfold list_or_empty in *.
    destruct (pget "criteria_ids" ev); try done. cbn [as_list default from_option id] in *.
    by rewrite bind_unfold, set_update_run. }
  by rewrite (bind_Ok _ _ _ _ _ Href).
Qed.

Lemma matching_evidence_run criterion evidence w : forallb hashable_evidence evidence = true ->
  matching_evidence criterion evidence w = (Ok (List.filter (evidence_for criterion) evidence), w).
Proof.
  unfold matching_evidence. induction evidence as [|ev l IH]; [done|]. cbn. intros [Hv Hl]%andb_true_iff.
  rewrite !bind_unfold, evidence_matches_run by done. cbn [mret M_ret]. rewrite bind_unfold, IH by done.
  cbn. by destruct (evidence_for criterion ev).
Qed.

Lemma filter_nil_existsb {A} (p : A -> bool) l : (List.length (List.filter p l) =? 0)%nat = negb (existsb p l).
Proof. induction l as [|x l IH]; [done|]. cbn. by destruct (p x). Qed.

Lemma evaluate_criteria_run n criteria evidence w : forallb hashable_evidence evidence = true ->
  exists results missing, evaluate_criteria n criteria evidence w = (Ok (results, missing), w)
    /\ (List.length missing =? 0)%nat = forallb (fun criterion => existsb (evidence_for criterion) evidence) criteria.
Proof.
  intros Hh. revert n. induction criteria as [|c l IH]; intros n; cbn; [by eexists _, _|].
  rewrite bind_unfold, matching_evidence_run by done. rewrite bind_unfold.
  destruct (IH (n + 1)) as (results & missing & -> & Hm). eexists _, _. split; [reflexivity|].
  pose proof (filter_nil_existsb (evidence_for c) evidence) as Hnil.
  destruct (List.filter _ _); cbn in Hnil; [by destruct (existsb _ _)|]. rewrite Hm. by destruct (existsb _ _).
Qed.

(** The evaluation says whether the evidence is sufficient. *)
Lemma evaluate_run g evidence w : forallb hashable_evidence evidence = true ->
  exists d w', evaluate g evidence w = (Ok d, w')
    /\ pget "sufficient" d = PBool (sufficient_evidence g evidence)
    /\ pget "status" d = PStr (if sufficient_evidence g evidence then "sufficient" else "missing_evidence")
    /\ dkeys d = ["status"; "sufficient"; "confidence"; "checked_at"; "criteria_count"; "evidence_count";
                  "criteria_results"; "missing_evidence"; "rationale"]
    /\ w' = set_w_clock (S (w_clock w)) w.
Proof.
  intros Hh. unfold evaluate.
  destruct (evaluate_criteria_run 0 (go_success_criteria g) evidence w Hh) as (results & missing & Hrun & Hm).
  rewrite (bind_Ok _ _ _ _ _ Hrun), bind_unfold. eexists _, _. split; [reflexivity|].
  assert (Hs : negb (List.length evidence =? 0)%nat
    && (List.length (match evidence with
                     | [] => missing ++ [missing_record "completion_evidence"
                         [("kind", PStr "evidence"); ("description", PStr "At least one completion evidence record")]
                         "Goal completion requires at least one evidence record."]
                     | _ => missing end) =? 0)%nat = sufficient_evidence g evidence).
  { unfold sufficient_evidence. rewrite <-Hm. by destruct evidence. }
  rewrite Hs. by split.
Qed.
End Evaluation.

(** ** The declarative reading of a completion

    What the goal, the evidence and the evaluation say, without the functions of
    the service. *)

Section Reading.
Context `{Env}.

(** [v] is the value of the first of [keys] that has a true one. *)
Definition first_value (keys : list string) (d : dict pyval) (v : pyval) : Prop :=
  exists before key after, keys = before ++ key :: after /\ pget key d = v /\ truthy v = true
    /\ forall k, In k before -> truthy (pget k d) = false.

(** The text of a value, trimmed and in lower case. *)
Definition word (v : pyval) : string := py_lower (py_strip (text v)).

(** [d] has the word [s] under the first of [keys] that says anything. *)
Definition says (keys : list string) (d : dict pyval) (s : string) : Prop :=
  exists v, first_value keys d v /\ word v = s.

(** A record supports a criterion: one of its references is a name of the
    criterion, or the two are of the same kind. *)
Definition supports (criterion ev : dict pyval) : Prop :=
  (exists v key, In v (set_of (evidence_references ev)) /\ truthy v = true
     /\ In key ["id"; "criterion_id"; "key"; "name"]
     /\ (exists u, pget key criterion = u /\ truthy u = true /\ text v = text u
           /\ match u with PStr _ | PInt _ | PFloat _ | PBool _ => True | _ => False end))
  \/ exists kind, kind <> "" /\ says ["kind"; "type"] criterion kind /\ says ["kind"; "type"] ev kind.

Definition listed (key : string) (d : dict pyval) (v : pyval) : Prop := exists l, pget key d = PList l /\ In v l.

(** A goal is high-risk by its constraints, its priority, an action that needs
    approval, one of its criteria, or a demand for final approval. *)
Definition high_risk (g : GoalDefinition) : Prop :=
  let levels := ["high"; "critical"; "unsafe"] in
  let policy := dict_or_empty (pget "approval_policy" (go_constraints g)) in
  (exists v, (v = PStr (go_priority g) \/ exists key, In key ["risk"; "risk_level"; "riskLevel"] /\ pget key (go_constraints g) = v)
     /\ truthy v = true /\ In (word v) levels)
  \/ (exists v, (listed "approval_required_actions" (go_constraints g) v \/ listed "approval_required_actions" policy v)
       /\ truthy v = true
       /\ In (text v) ["delete"; "destructive_action"; "external_write"; "physical_world_action"; "purchase";
                       "shell_side_effect"; "tool_definition_mutation"; "workflow_definition_mutation"])
  \/ (exists criterion, In criterion (go_success_criteria g)
       /\ (pget "high_risk" criterion = PBool true
           \/ exists level, In level levels /\ says ["risk"; "risk_level"] criterion level))
  \/ exists key, In key ["final_approval_required"; "human_final_approval_required"; "require_human_final_approval"]
       /\ (pget key (go_constraints g) = PBool true \/ pget key policy = PBool true).

(** [name] produced some of the evidence. *)
Definition worker (evidence : list (dict pyval)) (name : string) : Prop :=
  name <> "" /\ exists item key s, In item evidence
    /\ In key ["agent_id"; "worker_agent_id"; "produced_by"; "created_by"; "declared_by"; "source_agent_id"]
    /\ pget key item = PStr s /\ py_strip s = name.

(** A record that approves or reviews, and does not name a worker as its actor. *)
Definition authority (evidence : list (dict pyval)) (item : dict pyval) : Prop :=
  (forall v, first_value ["reviewer_actor"; "evaluator_actor"; "approved_by"; "reviewed_by"; "actor"] item v ->
     ~ worker evidence (py_strip (text v)))
  /\ ((exists kind status, In kind ["approval"; "final_approval"; "human_approval"; "operator_approval"]
         /\ says ["kind"; "type"] item kind /\ says ["status"; "approval_status"] item status
         /\ ~ In status [""; "rejected"; "denied"; "cancelled"; "pending"])
      \/ (exists role, In role ["human"; "operator"; "main_agent"; "evaluation_agent"; "supervisor"; "reviewer"]
            /\ says ["reviewer_role"; "evaluator_role"; "authority_role"; "approved_by_role"] item role)
      \/ exists key, In key ["final_approval"; "human_final_approval"; "independent_review"; "independent_completion_review"]
           /\ pget key item = PBool true).

(** The records among which an authority is looked for: the evidence, the
    evaluation that came with the request and the one that the goal has. *)
Definition candidate (g : GoalDefinition) (evidence : list (dict pyval)) (evaluation : option (dict pyval))
    (item : dict pyval) : Prop :=
  In item evidence \/ evaluation = Some item \/ (go_evaluation g = Some item /\ item <> []).

(** When a goal is due to be completed. *)
Definition completion_due (g : GoalDefinition) (evidence : list (dict pyval)) (evaluation : option (dict pyval)) : Prop :=
  evidence <> []
  /\ (forall criterion, In criterion (go_success_criteria g) -> exists ev, In ev evidence /\ supports criterion ev)
  /\ (high_risk g -> exists item, candidate g evidence evaluation item /\ authority evidence item).

(** ** The service's functions decide it *)

Lemma get_or_first keys d : 
  (exists v, first_value keys d v /\ get_or keys d (PStr "") = v)
  \/ (get_or keys d (PStr "") = PStr "" /\ forall k, In k keys -> truthy (pget k d) = false).
Proof.
  induction keys as [|k keys IH]; [right; by split|]. cbn [get_or]. unfold py_or.
  destruct (truthy (pget k d)) eqn:Hk.
  - left. exists (pget k d). split; [|done]. by exists [], k, keys.
  - destruct IH as [(v & (b & key & a & -> & Hv & Ht & Hb) & ->)|[-> Hno]].
    + left. exists v. split; [|done]. exists (k :: b), key, a. split; [done|]. split; [done|]. split; [done|].
      intros k' [<-|Hin]; auto.
    + right. split; [done|]. intros k' [<-|Hin]; auto.
Qed.

Lemma first_value_unique keys d v v' : first_value keys d v -> first_value keys d v' -> v = v'.
Proof.
  intros (b & k & a & E & Hv & Ht & Hb) (b' & k' & a' & E' & Hv' & Ht' & Hb'). subst keys.
  revert b' E' Hb'. induction b as [|x b IH]; intros [|x' b'] E' Hb'; cbn in E'; injection E' as -> E'.
  - congruence.
  - specialize (Hb' x' (or_introl eq_refl)). congruence.
  - specialize (Hb k' (or_introl eq_refl)). congruence.
  - apply (IH ltac:(intros; apply Hb; by right) b' E'). intros; apply Hb'; by right.
Qed.

Lemma says_lower_text keys d s : s <> "" -> lower_text keys d = s <-> says keys d s.
Proof.
  intros Hs. unfold lower_text, says, word. destruct (get_or_first keys d) as [(v & Hv & ->)|[-> Hno]].
  - split; [by exists v|]. intros (v' & Hv' & <-). by rewrite (first_value_unique _ _ _ _ Hv Hv').
  - split; [intros <-; by destruct Hs|]. intros (v & (b & k & a & -> & <- & Ht & _) & _).
    rewrite (Hno k) in Ht; [done|]. apply in_app_iff. right. by left.
Qed.

Lemma says_one_of keys d l : ~ In "" l -> mem_str (lower_text keys d) l = true <-> exists s, In s l /\ says keys d s.
Proof.
  intros Hl. rewrite mem_str_In. split.
  - intros Hin. exists (lower_text keys d). split; [done|]. apply says_lower_text; [|done]. intros E. by rewrite E in Hin.
  - intros (s & Hin & Hs). apply says_lower_text in Hs; [by rewrite Hs|]. by intros ->.
Qed.

Lemma existsb_iff {A} (p : A -> bool) (P : A -> Prop) l :
  (forall x, In x l -> p x = true <-> P x) -> existsb p l = true <-> exists x, In x l /\ P x.
Proof.
  intros Hp. rewrite existsb_exists. split; intros (x & Hin & Hx); exists x; (split; [done|]); by apply Hp.
Qed.

Lemma is_true_iff v : is_true v = true <-> v = PBool true.
Proof. destruct v as [|[]| | | | |]; split; congruence || done. Qed.

Lemma evidence_for_supports criterion ev : evidence_for criterion ev = true <-> supports criterion ev.
Proof.
  unfold evidence_for, supports. rewrite orb_true_iff, existsb_exists. split; (intros [Hl|Hr]; [left|right]).
  - destruct Hl as (v & Hv & [Ht Hm]%andb_true_iff). apply mem_str_In in Hm. unfold criterion_ids_of in Hm.
    apply list_elem_of_In, list_elem_of_omap in Hm as (key & Hkey & Hk). cbv zeta in Hk.
    destruct (is_scalar (pget key criterion)) eqn:Hsc; [|done]. injection Hk as Hk.
    exists v, key. split; [done|]. split; [done|]. split; [by apply list_elem_of_In|].
    exists (pget key criterion). split; [done|]. destruct (pget key criterion); try done; by split.
  - apply andb_true_iff in Hr as [Hne%negb_true_iff%String.eqb_neq He%String.eqb_eq].
    exists (lower_text ["kind"; "type"] criterion). split; [done|]. split; [by apply says_lower_text|].
    apply says_lower_text; [done|]. exact He.
  - destruct Hl as (v & key & Hv & Ht & Hkey & u & Hu & Hut & Htxt & Hkind). exists v. split; [done|].
    rewrite Ht. apply mem_str_In, list_elem_of_In, list_elem_of_omap. exists key.
    split; [by apply list_elem_of_In|]. cbv zeta. rewrite Hu, Htxt. unfold is_scalar.
    destruct u; try done; by rewrite Hut.
  - destruct Hr as (kind & Hne & Hc%says_lower_text & He%says_lower_text); [|done..]. rewrite Hc, He.
    apply String.eqb_neq in Hne. by rewrite Hne, String.eqb_refl.
Qed.

Lemma sufficient_evidence_iff g evidence : sufficient_evidence g evidence = true <->
  evidence <> [] /\ forall criterion, In criterion (go_success_criteria g) -> exists ev, In ev evidence /\ supports criterion ev.
Proof.
  unfold sufficient_evidence. rewrite andb_true_iff, forallb_forall. split; intros [Hne Hall]; split.
  - by destruct evidence.
  - intros c Hc. apply (existsb_iff (evidence_for c) (supports c)); [intros; apply evidence_for_supports|]. by apply Hall.
  - by destruct evidence.
  - intros c Hc. apply (existsb_iff (evidence_for c) (supports c)); [intros; apply evidence_for_supports|]. by apply Hall.
Qed.

Lemma listed_iff key d v : In v (list_or_empty (pget key d)) <-> listed key d v.
Proof.
  unfold listed, list_or_empty. destruct (pget key d) as [| | | | |l|]; cbn; split; try done; try (by intros (? & ? & _)).
  - intros Hin. by exists l.
  - by intros (l' & [= <-] & Hin).
Qed.

(** The requirement of a review is the reading of a high risk. *)
Lemma review_required_iff g : rr_required (completion_review_requirement g) = true <-> high_risk g.
Proof.
  unfold completion_review_requirement, high_risk. cbv zeta. cbn [rr_required].
  set (policy := dict_or_empty _). rewrite !orb_true_iff. split.
  - intros [[[Hr|Ha]|Hc]|Hf]; [left|right; left|right; right; left|right; right; right].
    + apply existsb_exists in Hr as (s & (v & <- & [Hin Ht]%filter_In)%in_map_iff & Hm%mem_str_In).
      exists v. split; [|by split]. cbn [In] in Hin.
      destruct Hin as [<-|[<-|[<-|[<-|[]]]]]; [right; eexists; (split; [|done]); cbn; tauto..|by left].
    + apply existsb_exists in Ha as (s & (v & <- & [Hin Ht]%filter_In)%in_map_iff & Hm%mem_str_In).
      exists v. split; [|by split]. apply in_app_iff in Hin. by rewrite !listed_iff in Hin.
    + destruct (List.filter is_risky_criterion (go_success_criteria g)) as [|c l] eqn:Hl; [done|].
      assert (Hin : In c (List.filter is_risky_criterion (go_success_criteria g))) by (rewrite Hl; by left).
      apply filter_In in Hin as [Hin Hr]. exists c. split; [done|]. unfold is_risky_criterion in Hr.
      apply orb_true_iff in Hr as [Hr|Hr]; [right|left; by apply is_true_iff].
      apply says_one_of in Hr; [done|]. cbn; intuition discriminate.
    + destruct Hf as [Hf|Hf]; apply existsb_exists in Hf as (k & Hk & Ht%is_true_iff); exists k; eauto.
  - intros [(v & Hv & Ht & Hw)|[(v & Hv & Ht & Hw)|[(c & Hc & Hr)|(k & Hk & Hf)]]]; [left; left; left|left; left; right|left; right|right].
    + apply existsb_exists. exists (word v). split; [|by apply mem_str_In].
      apply (in_map (fun value => py_lower (py_strip (text value)))), filter_In. split; [|done]. cbn [In].
      destruct Hv as [->|(k & Hk & <-)]; [tauto|]. cbn in Hk. by destruct Hk as [<-|[<-|[<-|[]]]]; auto.
    + apply existsb_exists. exists (text v). split; [|by apply mem_str_In].
      apply in_map, filter_In. split; [|done]. apply in_app_iff. by rewrite !listed_iff.
    + assert (Hin : In c (List.filter is_risky_criterion (go_success_criteria g))).
      { apply filter_In. split; [done|]. unfold is_risky_criterion. apply orb_true_iff.
        destruct Hr as [Hr|Hr]; [right; by apply is_true_iff|left].
        apply says_one_of; [cbn; intuition discriminate|done]. }
      by destruct (List.filter is_risky_criterion _).
    + destruct Hf as [Hf|Hf]; [left|right]; apply existsb_exists; exists k; (split; [done|]);
        by apply is_true_iff.
Qed.

Lemma worker_iff evidence name : name <> "" ->
  mem_str name (worker_completion_authorities evidence) = true <-> worker evidence name.
Proof.
  intros Hne. rewrite mem_str_In. unfold worker_completion_authorities, worker. rewrite in_flat_map. split.
  - intros (item & Hitem & Hin). apply list_elem_of_In, list_elem_of_omap in Hin as (key & Hkey & Hk).
    destruct (pget key item) as [| | | |s| |] eqn:Hp; try done. destruct (String.eqb (py_strip s) ""); [done|].
    injection Hk as Hk. split; [done|]. exists item, key, s. split; [done|]. split; [by apply list_elem_of_In|]. by split.
  - intros (_ & item & key & s & Hitem & Hkey & Hp & Hs). exists item. split; [done|].
    apply list_elem_of_In, list_elem_of_omap. exists key. split; [by apply list_elem_of_In|].
    rewrite Hp, Hs. by apply String.eqb_neq in Hne as ->.
Qed.

(** The actor of a record is no worker. *)
Lemma independent_iff evidence item :
  String.eqb (completion_authority_actor item) ""
    || negb (mem_str (completion_authority_actor item) (worker_completion_authorities evidence)) = true
  <-> forall v, first_value ["reviewer_actor"; "evaluator_actor"; "approved_by"; "reviewed_by"; "actor"] item v ->
        ~ worker evidence (py_strip (text v)).
Proof.
  unfold completion_authority_actor.
  destruct (get_or_first ["reviewer_actor"; "evaluator_actor"; "approved_by"; "reviewed_by"; "actor"] item)
    as [(v & Hv & ->)|[-> Hno]].
  - destruct (String.eqb_spec (py_strip (text v)) "") as [E|Hne]; cbn [orb].
    + split; [|done]. intros _ v' Hv' [Hw _]. rewrite (first_value_unique _ _ _ _ Hv Hv') in E. by rewrite E in Hw.
    + rewrite negb_true_iff, <-not_true_iff_false, worker_iff by done. split.
      * intros Hw v' Hv'. by rewrite (first_value_unique _ _ _ _ Hv' Hv).
      * intros Hall. by apply Hall.
  - split; [|done]. intros _ v (b & k & a & E & <- & Ht & _). rewrite (Hno k) in Ht; [done|].
    rewrite E. apply in_app_iff. right. by left.
Qed.

Lemma status_iff item :
  negb (mem_str (lower_text ["status"; "approval_status"] item) [""; "rejected"; "denied"; "cancelled"; "pending"]) = true
  <-> exists status, says ["status"; "approval_status"] item status
        /\ ~ In status [""; "rejected"; "denied"; "cancelled"; "pending"].
Proof.
  rewrite negb_true_iff, <-not_true_iff_false, mem_str_In. split.
  - intros Hno. exists (lower_text ["status"; "approval_status"] item). split; [|done].
    apply says_lower_text; [|done]. intros E. apply Hno. rewrite E. by left.
  - intros (s & Hs & Hno). apply says_lower_text in Hs; [by rewrite Hs|]. intros ->. apply Hno. by left.
Qed.

Lemma authority_iff evidence item :
  is_independent_authority (worker_completion_authorities evidence) item = true <-> authority evidence item.
Proof.
  unfold is_independent_authority, authority. cbv zeta. rewrite <-independent_iff.
  set (independent := String.eqb _ _ || _). destruct independent; [|split; [by rewrite !andb_false_r|by intros [? _]]].
  rewrite !andb_true_r. unfold is_final_approval_record. cbv zeta. rewrite !orb_true_iff, andb_true_iff, status_iff.
  rewrite !is_true_iff, (says_one_of ["kind"; "type"]), (says_one_of ["reviewer_role"; _; _; _])
    by (cbn; intuition discriminate).
  split; [intros Hany; split; [done|]|intros [_ Hany]].
  - destruct Hany as [[[[[(k & Hk & Hs) (s & Hst & Hno)]|H1]|H1]|(r & Hr & Hs)]|[H1|H1]].
    + left. by exists k, s.
    + do 2 right. exists "final_approval". cbn. tauto.
    + do 2 right. exists "human_final_approval". cbn. tauto.
    + right. left. by exists r.
    + do 2 right. exists "independent_review". cbn. tauto.
    + do 2 right. exists "independent_completion_review". cbn. tauto.
  - destruct Hany as [(k & s & Hk & Hs & Hst & Hno)|[(r & Hr & Hs)|(key & Hkey & Hp)]].
    + left. left. left. left. split; [by exists k|by exists s].
    + left. right. by exists r.
    + cbn in Hkey. destruct Hkey as [<-|[<-|[<-|[<-|[]]]]]; tauto.
Qed.
End Reading.

(** ** Completion *)

(** The goal with a new status, evidence, evaluation, completion and update time. *)
Definition revised (status : GoalStatus) (evidence : list (dict pyval)) (evaluation : option (dict pyval))
    (completed_at : option Z) (metadata : dict pyval) (updated_at : Z) (g : GoalDefinition) : GoalDefinition :=
  mkGoal (go_id g) (go_objective g) status (go_priority g) (go_owner_actor g) (go_parent_goal_id g)
    (go_success_criteria g) (go_constraints g) (go_execution_ids g) evidence evaluation (go_deadline_at g)
    completed_at (go_created_at g) updated_at metadata.

Section Completion.
Context `{Env} `{Conversions} `{GoalContext}.
Context (Hclock : forall n, representable (env_now n)).

(** Sufficient evidence, with an independent authority where the goal needs one. *)
Definition completion_accepted (g : GoalDefinition) (evidence : list (dict pyval))
    (evaluation : option (dict pyval)) : bool :=
  sufficient_evidence g evidence
  && (negb (rr_required (completion_review_requirement g))
      || has_independent_completion_authority g evidence evaluation).

(** The verdict of the evaluation of a completion. *)
Lemma completion_evaluation_run g evidence evaluation w : forallb hashable_evidence evidence = true ->
  exists d, completion_evaluation g evidence evaluation w = (Ok d, set_w_clock (S (w_clock w)) w)
    /\ truthy (pget "sufficient" d) = completion_accepted g evidence evaluation.
Proof.
  intros Hh. unfold completion_evaluation, completion_accepted.
  destruct (evaluate_run g evidence w Hh) as (d & w' & Hrun & Hs & Hst & Hk & ->).
  rewrite (bind_Ok _ _ _ _ _ Hrun). eexists. split; [reflexivity|].
  set (d' := match evaluation with Some x => dset "reviewer_evaluation" (PDict x) d | None => d end).
  assert (Hs' : pget "sufficient" d' = PBool (sufficient_evidence g evidence)).
  { unfold d', pget. destruct evaluation; [by rewrite dget_dset_ne|done]. }
  destruct (rr_required _); cbn [negb orb]; [|by rewrite Hs', andb_true_r].
  destruct (has_independent_completion_authority _ _ _).
  - unfold pget. rewrite dget_dset_ne by done. fold (pget "sufficient" d'). by rewrite Hs', andb_true_r.
  - unfold pget. rewrite !dget_dset_ne by done. by rewrite dget_dset_eq, andb_false_r.
Qed.

Lemma revised_valid st ev evl cp md up g : goal_valid g -> representable up ->
  opt_some cp = bool_decide (st ∈ TERMINAL_GOAL_STATUSES) -> (forall t, cp = Some t -> representable t) ->
  goal_valid (revised st ev evl cp md up g).
Proof. intros [Ho Hc Hd Ht Hcr Hu] Hup Hst Hcp. by split. Qed.

(** The documents of the updates below. *)
Lemma revised_document g st ev evl cp md up i patch :
  goal_valid g -> go_id g = i -> representable up ->
  opt_some cp = bool_decide (st ∈ TERMINAL_GOAL_STATUSES) -> (forall t, cp = Some t -> representable t) ->
  dset "updated_at" (PStr (json_datetime up)) (dset "id" (PStr i) (dupdate (goal_dump g) patch))
  = goal_document (PStr (go_id g)) (PStr (go_objective g)) (PStr (goal_status_value st)) (PStr (go_priority g))
      (opt_str (go_owner_actor g)) (opt_str (go_parent_goal_id g)) (PList (map PDict (go_success_criteria g)))
      (PDict (go_constraints g)) (PList (map PStr (go_execution_ids g))) (PList (map PDict ev)) (opt_dict evl)
      (opt_datetime (go_deadline_at g)) (opt_datetime cp) (PStr (json_datetime (go_created_at g)))
      (PStr (json_datetime up)) (PDict md) ->
  forall w0, goal_validate (dset "updated_at" (PStr (json_datetime up))
    (dset "id" (PStr i) (dupdate (goal_dump g) patch))) w0 = (Ok (revised st ev evl cp md up g), w0).
Proof.
  intros Hv Hid Hup Hst Hcp -> w0.
  apply (validate_goal_document (revised st ev evl cp md up g)).
  - by apply revised_valid.
  - cbn. apply goal_status_of_value.
  - apply as_dicts_map.
  - apply as_dicts_map.
  - apply (optional_dict evl).
  - by apply optional_datetime.
  - by apply json_datetime_reads.
  - done.
Qed.

Lemma completion_accepted_iff g evidence evaluation :
  completion_accepted g evidence evaluation = true <-> completion_due g evidence evaluation.
Proof.
  unfold completion_accepted, completion_due. rewrite andb_true_iff, orb_true_iff, sufficient_evidence_iff, negb_true_iff,
    <-not_true_iff_false, review_required_iff.
  assert (Hauth : has_independent_completion_authority g evidence evaluation = true <->
    exists item, candidate g evidence evaluation item /\ authority evidence item).
  { unfold has_independent_completion_authority. cbv zeta.
    rewrite (existsb_iff _ (authority evidence)) by (intros; apply authority_iff).
    apply exist_proper. intros item. apply and_iff_compat_r. unfold candidate. rewrite !in_app_iff.
    apply or_iff_compat_l. split; (intros [Hl|Hr]; [left|right]).
    - destruct evaluation; [|done]. destruct Hl as [->|[]]. done.
    - destruct (go_evaluation g) as [[|kv d]|]; try done. by destruct Hr as [<-|[]].
    - rewrite Hl. by left.
    - destruct Hr as [-> Hne]. destruct item; [done|by left]. }
  rewrite Hauth. split.
  - intros [[Hne Hall] Hr]. split; [done|]. split; [done|]. intros Hrisk. by destruct Hr.
  - intros (Hne & Hall & Hr). split; [done|]. rewrite <-review_required_iff in Hr |- *.
    destruct (rr_required _); [right; by apply Hr|by left].
Qed.

(** C25. [complete_goal] completes a goal exactly on sufficient evidence.  On a goal
    that is not finished it merges the evidence (whose references must be hashable: a list
    or a dictionary among them raises TypeError in Python).  When some evidence is there,
    every success criterion is supported by a record, and a high-risk goal (by its
    constraints, priority, criteria or the actions and final approval it demands)
    has an approval or a review whose actor is no worker that produced evidence,
    the goal is stored as completed and returned; otherwise the evidence and the
    evaluation are stored, the status stays as it is, and [GoalTransitionError] is
    raised.  No other goal and no execution changes.  (That [update_goal] stores any
    status is not the concern of this theorem.) *)
Theorem complete_goal_decides i g evidence evaluation w :
  goal_stored g i w -> goal_valid g -> go_id g = i -> is_terminal_goal g = false ->
  let merged := go_evidence g ++ evidence in
  forallb hashable_evidence merged = true ->
  (completion_due g merged evaluation ->
     exists result t w' done_at,
       let g' := revised GOAL_COMPLETED merged (Some result) (Some done_at) (go_metadata g) t g in
       complete_goal i evidence evaluation w = (Ok g', w') /\ goal_stored g' i w' /\ goal_step i w w')
  /\ (~ completion_due g merged evaluation ->
     exists result t w' msg,
       complete_goal i evidence evaluation w = (Raise (mkExn GoalTransitionError msg), w')
       /\ goal_stored (revised (go_status g) merged (Some result) (go_completed_at g) (go_metadata g) t g) i w'
       /\ goal_step i w w').
Proof.
  intros Hst Hv Hid Hterm merged Hh. rewrite <-completion_accepted_iff.
  destruct (completion_evaluation_run g merged evaluation w Hh) as (result & Hrun & Hs).
  unfold complete_goal. rewrite (bind_Ok _ _ _ _ _ (get_stored g i w Hst Hv)).
  unfold ensure_not_terminal. rewrite Hterm, bind_unfold. cbn [mret M_ret].
  fold merged. rewrite (bind_Ok _ _ _ _ _ Hrun), Hs.
  set (w1 := set_w_clock (S (w_clock w)) w).
  assert (Hst1 : goal_stored g i w1) by exact Hst.
  destruct (completion_accepted g merged evaluation) eqn:Hacc; cbn [negb]; (split; [try done; intros _|try done; intros _]).
  - set (w2 := set_w_clock (S (w_clock w1)) w1).
    rewrite (bind_Ok _ _ _ _ _ (eq_refl : utc_now w1 = (Ok (env_now (w_clock w1)), w2))).
    set (t := env_now (w_clock w2)). set (done_at := env_now (w_clock w1)).
    set (g' := revised GOAL_COMPLETED merged (Some result) (Some done_at) (go_metadata g) t g).
    destruct (update_stored_goal g g' i
      ([("status", PStr (goal_status_value GOAL_COMPLETED)); ("completed_at", PStr (json_datetime done_at))]
       ++ [("evidence", PList (map PDict merged)); ("evaluation", PDict result)]) w2) as (u & w3 & Hu & -> & Hst3 & Hs3).
    { exact Hst. } { done. } { apply revised_valid; [done|apply Hclock|done|intros ? [= <-]; apply Hclock]. } { done. }
    { apply (revised_document g); [done..|apply Hclock|done|intros ? [= <-]; apply Hclock|by rewrite <-Hid]. }
    rewrite (bind_Ok _ _ _ _ _ Hu).
    destruct (projection_returns "goal.evaluation_recorded" g' None [("evaluation", PDict result)] w3)
      as ([] & w4 & Hp & Hk). rewrite (bind_Ok _ _ _ _ _ Hp).
    exists result, t, w4, done_at. split; [done|]. split; [by eapply goals_kept_stored|].
    etransitivity; [|by apply goals_kept_step]. etransitivity; [|exact Hs3]. by split.
  - set (t := env_now (w_clock w1)).
    set (g' := revised (go_status g) merged (Some result) (go_completed_at g) (go_metadata g) t g).
    destruct (update_stored_goal g g' i
      [("evidence", PList (map PDict merged)); ("evaluation", PDict result)] w1) as (u & w3 & Hu & -> & Hst3 & Hs3).
    { exact Hst. } { done. } { apply revised_valid; [done|apply Hclock|apply Hv|apply Hv]. } { done. }
    { apply (revised_document g); [done..|apply Hclock|apply Hv|apply Hv|by rewrite <-Hid]. }
    rewrite (bind_Ok _ _ _ _ _ Hu).
    destruct (projection_returns "goal.evaluation_recorded" g' None [("evaluation", PDict result)] w3)
      as ([] & w4 & Hp & Hk). rewrite (bind_Ok _ _ _ _ _ Hp).
    exists result, t, w4.
    destruct (eq_str _ _); eexists; (split; [reflexivity|]); (split; [by eapply goals_kept_stored|]);
      (etransitivity; [|by apply goals_kept_step]; etransitivity; [|exact Hs3]; by split).
Qed.
End Completion.

(** * The states of a goal

    Pausing, resuming and cancelling are a state machine on the status of a goal;
    a finished goal refuses every operation that would change what it pursues. *)

Section Facts.
Context `{Env} `{Conversions} `{GoalContext}.

(** ** Finished goals *)

Inductive goal_operation :=
  | op_pause | op_resume | op_cancel (reason : pyval)
  | op_complete (evidence : list (dict pyval)) (evaluation : option (dict pyval))
  | op_plan (plan : option (dict pyval)) (reason : string) (actor : option string)
  | op_replan (plan : option (dict pyval)) (reason : string) (actor : option string)
  | op_autonomy (payload : dict pyval) | op_criteria (payload : dict pyval) | op_reassign (payload : dict pyval).

Definition run_operation (op : goal_operation) (i : string) : M GoalDefinition :=
  match op with
  | op_pause => pause_goal i
  | op_resume => resume_goal i
  | op_cancel reason => cancel_goal i reason
  | op_complete evidence evaluation => complete_goal i evidence evaluation
  | op_plan plan reason actor => plan_goal i plan reason actor
  | op_replan plan reason actor => replan_goal i plan reason actor
  | op_autonomy payload => adjust_goal_autonomy i payload
  | op_criteria payload => update_goal_success_criteria i payload
  | op_reassign payload => reassign_goal i payload
  end.

(** The request itself has no fault. *)
Definition well_formed (op : goal_operation) : bool :=
  match op with
  | op_replan _ reason _ => negb (String.eqb (py_strip reason) "")
  | op_autonomy payload => mem_str (lower_text ["autonomy"] payload) AUTONOMY_LEVELS
  | op_criteria payload =>
      match pget "success_criteria" payload with
      | PList (c :: l) => forallb (fun v => opt_some (as_dict v)) (c :: l)
      | _ => false
      end
  | op_reassign payload => negb (String.eqb (py_strip (text (get_or ["owner_actor"] payload (PStr "")))) "")
  | _ => true
  end.

Lemma finished_goal_refused {A} g (m : M A) w : is_terminal_goal g = true ->
  exists msg, (ensure_not_terminal g ≫= fun _ => m) w = (Raise (mkExn GoalTransitionError msg), w).
Proof. intros Ht. unfold ensure_not_terminal. rewrite Ht. by eexists. Qed.

(** A finished goal is final: every well-formed request to pause, resume,
    cancel, complete, plan, replan, change the autonomy or the success criteria
    of, or reassign a goal that is completed, failed, cancelled or abandoned raises
    [GoalTransitionError] and changes nothing at all. *)
Theorem finished_goal_is_final op g i w :
  goal_stored g i w -> goal_valid g -> is_terminal_goal g = true -> well_formed op = true ->
  exists msg, run_operation op i w = (Raise (mkExn GoalTransitionError msg), w).
Proof.
  intros Hst Hv Ht Hw. pose proof (get_stored g i w Hst Hv) as Hget.
  destruct op; cbn [run_operation well_formed] in *.
  1, 3-5: unfold pause_goal, cancel_goal, complete_goal, plan_goal;
    rewrite (bind_Ok _ _ _ _ _ Hget); by apply finished_goal_refused.
  - unfold resume_goal. rewrite (bind_Ok _ _ _ _ _ Hget).
    replace (bool_decide (go_status g = GOAL_PAUSED)) with false; [by eexists|].
    symmetry. apply bool_decide_eq_false. intros Hp. unfold is_terminal_goal in Ht. by rewrite Hp in Ht.
  - unfold replan_goal. apply negb_true_iff in Hw. rewrite Hw, (bind_Ok _ _ _ _ _ Hget). by apply finished_goal_refused.
  - unfold adjust_goal_autonomy. cbv zeta. rewrite Hw. cbn [negb]. rewrite (bind_Ok _ _ _ _ _ Hget).
    by apply finished_goal_refused.
  - unfold update_goal_success_criteria. destruct (pget "success_criteria" payload) as [| | | | |[|c l]|]; try done.
    rewrite Hw. cbn [negb]. rewrite (bind_Ok _ _ _ _ _ Hget). by apply finished_goal_refused.
  - unfold reassign_goal. cbv zeta. apply negb_true_iff in Hw. rewrite Hw, (bind_Ok _ _ _ _ _ Hget).
    by apply finished_goal_refused.
Qed.

(** ** The status machine *)

Context (Hclock : forall n, representable (env_now n)).

(** An update of the status, the completion time and the metadata. *)
Lemma update_status g i st cp md extra w :
  goal_stored g i w -> goal_valid g -> go_id g = i ->
  opt_some cp = bool_decide (st ∈ TERMINAL_GOAL_STATUSES) -> (forall t, cp = Some t -> representable t) ->
  (extra = [] /\ cp = go_completed_at g /\ md = go_metadata g
   \/ exists t, cp = Some t /\ extra = [("completed_at", PStr (json_datetime t)); ("metadata", PDict md)]) ->
  returns (update_goal i ([("status", PStr (goal_status_value st))] ++ extra)) w (fun g' w' =>
    g' = revised st (go_evidence g) (go_evaluation g) cp md (env_now (w_clock w)) g
    /\ goal_stored g' i w' /\ goal_step i w w').
Proof.
  intros Hst Hv Hid Ht Hcp Hextra.
  eapply returns_mono; [eapply (update_stored_goal g (revised st (go_evidence g) (go_evaluation g) cp md
    (env_now (w_clock w)) g)); [done|done| |done|]|].
  - apply revised_valid; [done|apply Hclock|done|done].
  - apply revised_document; [done|done|apply Hclock|done|done|]. rewrite <-Hid. unfold goal_dump.
    destruct Hextra as [(-> & -> & ->)|(t & -> & ->)]; reflexivity.
  - intros u w' (-> & Hst' & Hs). split; [done|]. by split.
Qed.

(** The transitions of an operator: when they are allowed, and what they make of a
    goal at the times [t1] and [t2]. *)
Definition transition_allowed (op : goal_operation) (g : GoalDefinition) : bool :=
  match op with
  | op_pause | op_cancel _ => negb (is_terminal_goal g)
  | op_resume => bool_decide (go_status g = GOAL_PAUSED)
  | _ => false
  end.

Definition transition_result (op : goal_operation) (g : GoalDefinition) (t1 t2 : Z) : GoalDefinition :=
  match op with
  | op_cancel reason =>
      revised GOAL_CANCELLED (go_evidence g) (go_evaluation g) (Some t1)
        (if truthy reason then dset "cancellation_reason" reason (go_metadata g) else go_metadata g) t2 g
  | _ => revised (if op is op_pause then GOAL_PAUSED else GOAL_ACTIVE) (go_evidence g) (go_evaluation g)
           (go_completed_at g) (go_metadata g) t2 g
  end.

Definition is_transition (op : goal_operation) : bool :=
  match op with op_pause | op_resume | op_cancel _ => true | _ => false end.

(** The states of a goal: pausing and cancelling are allowed exactly while the
    goal is not finished, resuming exactly while it is paused.  An allowed
    transition stores the goal with its new status, and everything else about it
    as it was; one that is not allowed raises [GoalTransitionError] and changes
    nothing.  The console offers an action only when it is allowed. *)
Theorem goal_transitions op g i w :
  goal_stored g i w -> goal_valid g -> go_id g = i -> is_transition op = true ->
  (if transition_allowed op g then
     exists t1 t2 w', run_operation op i w = (Ok (transition_result op g t1 t2), w')
       /\ goal_stored (transition_result op g t1 t2) i w' /\ goal_step i w w'
   else exists msg, run_operation op i w = (Raise (mkExn GoalTransitionError msg), w))
  /\ forall name, In (name, true) (operator_goal_actions g) ->
       (name = "pause" -> transition_allowed op_pause g = true)
       /\ (name = "resume" -> transition_allowed op_resume g = true)
       /\ (name = "cancel" -> forall reason, transition_allowed (op_cancel reason) g = true).
Proof.
  intros Hst Hv Hid Hop. pose proof (get_stored g i w Hst Hv) as Hget. split.
  - assert (Hopen : is_terminal_goal g = false -> go_completed_at g = None).
    { intros Ht. pose proof (gv_completed g Hv) as Hc. rewrite Ht in Hc. by destruct (go_completed_at g). }
    destruct op; try done; cbn [run_operation transition_allowed transition_result] in *.
    + unfold pause_goal. rewrite (bind_Ok _ _ _ _ _ Hget).
      destruct (is_terminal_goal g) eqn:Ht; cbn [negb]; [by apply finished_goal_refused|].
      unfold ensure_not_terminal. rewrite Ht, bind_unfold. cbn [mret M_ret].
      destruct (update_status g i GOAL_PAUSED (go_completed_at g) (go_metadata g) [] w) as (u & w' & Hu & -> & Hst' & Hs);
        [done..|by rewrite Hopen|apply Hv|by left|].
      by exists 0, (env_now (w_clock w)), w'.
    + unfold resume_goal. rewrite (bind_Ok _ _ _ _ _ Hget).
      destruct (bool_decide_reflect (go_status g = GOAL_PAUSED)) as [Hp|_]; [|by eexists].
      assert (Ht : is_terminal_goal g = false) by (unfold is_terminal_goal; by rewrite Hp).
      destruct (update_status g i GOAL_ACTIVE (go_completed_at g) (go_metadata g) [] w) as (u & w' & Hu & -> & Hst' & Hs);
        [done..|by rewrite Hopen|apply Hv|by left|].
      by exists 0, (env_now (w_clock w)), w'.
    + unfold cancel_goal. rewrite (bind_Ok _ _ _ _ _ Hget).
      destruct (is_terminal_goal g) eqn:Ht; cbn [negb]; [by apply finished_goal_refused|].
      unfold ensure_not_terminal. rewrite Ht, !bind_unfold. cbn [mret M_ret utc_now]. cbv zeta.
      set (t1 := env_now (w_clock w)). set (w1 := set_w_clock (S (w_clock w)) w).
      destruct (update_status g i GOAL_CANCELLED (Some t1)
        (if truthy reason then dset "cancellation_reason" reason (go_metadata g) else go_metadata g)
        [("completed_at", PStr (json_datetime t1)); ("metadata", PDict
          (if truthy reason then dset "cancellation_reason" reason (go_metadata g) else go_metadata g))] w1)
        as (u & w' & Hu & -> & Hst' & Hs);
        [exact Hst|done..|intros t [= <-]; apply Hclock|by right; exists t1|].
      exists t1, (env_now (w_clock w1)), w'. split; [exact Hu|]. split; [done|].
      etransitivity; [|exact Hs]. by split.
  - unfold operator_goal_actions. intros name Hin. cbn in Hin. unfold transition_allowed.
    repeat split; intros -> *; repeat (destruct Hin as [[= Hin]|Hin]; try done).
    by apply andb_true_iff in Hin as [? _].
Qed.
End Facts.
