(* ===== verification/GoalReconcile.v ===== *)
(** * Goals after a restart

    [GoalStartupReconciler.reconcile_once] of [app/services/goals.py]: before the
    supervision of goals resumes, the links between goals and executions are
    compared and repaired in both directions.

    The pass works on lists that it takes at its start.  A repair saves a changed
    copy of a listed execution, which replaces the stored object; the listed
    object stays as it was, and the second loop sees it so.  The counters of the
    operations recorder are not modelled. *)

From S2P Require Export GoalDocs.

Definition ACTIVE_GOAL_STATUSES : list GoalStatus :=
  [GOAL_CREATED; GOAL_PLANNING; GOAL_ACTIVE; GOAL_WAITING_FOR_INPUT; GOAL_WAITING_FOR_APPROVAL; GOAL_PAUSED].

(** [GoalStartupReconciliationReport] *)
Record GoalStartupReconciliationReport := mkGoalReport {
  gr_active_goals_scanned : Z;
  gr_executions_scanned : Z;
  gr_repaired_goal_execution_links : Z;
  gr_repaired_execution_goal_links : Z;
  gr_orphaned_goal_execution_references : Z;
  gr_orphaned_execution_goal_references : Z;
  gr_findings : list (dict pyval)
}.

(** [_execution_goal_hint] *)
Definition stripped_text (v : pyval) : option string :=
  match v with
  | PStr s => if String.eqb (py_strip s) "" then None else Some (py_strip s)
  | _ => None
  end.

Definition execution_goal_hint (e : Execution) : option string :=
  head (omap stripped_text [opt_str (ex_goal_id e); pget "goal_id" (ex_metadata e);
                            pget "goal_id" (ex_trigger_payload e); pget "goal_id" (ex_input_payload e)]).

Definition set_ex_goal_id (v : option string) (r : Execution) : Execution :=
  mkExecution (ex_id r) (ex_workflow_id r) v (ex_workflow_version_id r) (ex_runtime_adapter_id r)
    (ex_runtime_revision_id r) (ex_runtime_fingerprint r) (ex_status r) (ex_trigger_type r)
    (ex_trigger_payload r) (ex_input_payload r) (ex_output_payload r) (ex_error r) (ex_created_at r)
    (ex_started_at r) (ex_completed_at r) (ex_updated_at r) (ex_created_by r) (ex_worker_id r)
    (ex_last_heartbeat_at r) (ex_container_id r) (ex_container_name r) (ex_container_image r)
    (ex_container_status r) (ex_container_started_at r) (ex_container_ended_at r)
    (ex_container_exit_code r) (ex_replacement_of_execution_id r) (ex_restart_reason r) (ex_metadata
    r).

(** [execution.model_copy(update=...)] of the two repairs; the store stamps the
    update time. *)
Definition with_goal_link (goal_id : string) (reconciliation : dict pyval) (e : Execution) : Execution :=
  set_ex_metadata (dset "goal_startup_reconciliation" (PDict reconciliation)
                     (dset "goal_id" (PStr goal_id) (ex_metadata e)))
    (set_ex_input_payload (dset "goal_id" (PStr goal_id) (ex_input_payload e))
      (set_ex_trigger_payload (dset "goal_id" (PStr goal_id) (ex_trigger_payload e))
        (set_ex_goal_id (Some goal_id) e))).

Definition with_reconciliation (reconciliation : dict pyval) (e : Execution) : Execution :=
  set_ex_metadata (dset "goal_startup_reconciliation" (PDict reconciliation) (ex_metadata e)) e.

(** [goal.model_copy(update={"metadata": ..., "updated_at": now})] *)
Definition with_goal_metadata (metadata : dict pyval) (now : Z) (g : GoalDefinition) : GoalDefinition :=
  mkGoal (go_id g) (go_objective g) (go_status g) (go_priority g) (go_owner_actor g) (go_parent_goal_id g)
    (go_success_criteria g) (go_constraints g) (go_execution_ids g) (go_evidence g) (go_evaluation g)
    (go_deadline_at g) (go_completed_at g) (go_created_at g) now metadata.

Section Reconcile.
Context `{Env} `{Conversions}.

(** [update_execution] of an object that the store does not hold yet. *)
Definition save_copy (e : Execution) : M unit :=
  now ← utc_now;
  modify (fun w => set_w_executions (dset (ex_id e) (set_ex_updated_at now e) (w_executions w)) w).

(** [dict(metadata.get("goal_startup_reconciliation") or {})] *)
Definition previous_reconciliation (metadata : dict pyval) : M (dict pyval) :=
  py_dict (py_or (pget "goal_startup_reconciliation" metadata) (PDict [])).

(** [_save_execution_goal_link] *)
Definition save_execution_goal_link (e : Execution) (goal_id reason : string) : M unit :=
  reconciliation ← previous_reconciliation (dset "goal_id" (PStr goal_id) (ex_metadata e));
  last_repaired_at ← utc_now;
  now ← utc_now;
  save_copy (set_ex_updated_at now
    (with_goal_link goal_id
       (dset "reason" (PStr reason) (dset "last_repaired_at" (PStr (isoformat last_repaired_at)) reconciliation)) e)).

(** [_flag_orphaned_execution_goal_reference] *)
Definition flag_orphaned_execution_goal_reference (e : Execution) (goal_id : string) : M unit :=
  reconciliation ← previous_reconciliation (ex_metadata e);
  last_flagged_at ← utc_now;
  now ← utc_now;
  save_copy (set_ex_updated_at now
    (with_reconciliation
       (dset "goal_id" (PStr goal_id)
         (dset "status" (PStr "orphaned_execution_goal_reference")
           (dset "last_flagged_at" (PStr (isoformat last_flagged_at)) reconciliation))) e)).

(** [_record_goal_reconciliation] *)
Definition record_goal_reconciliation (g : GoalDefinition) (now : Z)
    (missing_execution_ids repaired_execution_ids : list string) : M GoalDefinition :=
  reconciliation ← previous_reconciliation (go_metadata g);
  let reconciliation :=
    dupdate reconciliation
      [("last_reconciled_at", PStr (isoformat now));
       ("missing_execution_ids", PList (map PStr missing_execution_ids));
       ("repaired_execution_ids", PList (map PStr repaired_execution_ids))] in
  catalog_save goal_model
    (with_goal_metadata (dset "goal_startup_reconciliation" (PDict reconciliation) (go_metadata g)) now g).

(** [_record_reconciliation_event] *)
Definition record_reconciliation_event (e : Execution) (goal_id category reason : string) : M unit :=
  event_id ← uuid4;
  timestamp ← utc_now;
  save_event (mkExecutionEvent event_id (ex_id e) (Some (ex_workflow_id e)) None None None None None None None
    MONITOR_FINDING_CREATED timestamp 0 "system" (Some "goal_startup_reconciler")
    [("category", PStr category); ("execution_id", PStr (ex_id e)); ("workflow_id", PStr (ex_workflow_id e));
     ("goal_id", PStr goal_id); ("reason", PStr reason); ("source", PStr "goal_startup_reconciler")]
    [] [] [("source", PStr "goal_startup_reconciler"); ("category", PStr category); ("goal_id", PStr goal_id)]);;
  mret tt.

(** The references of one goal: those without an execution, and those whose
    execution did not point back. *)
Fixpoint check_references (g : GoalDefinition) (executions_by_id : dict Execution) (execution_ids : list string) :
    M (list string * list string) :=
  match execution_ids with
  | [] => mret ([], [])
  | execution_id :: rest =>
      match dget execution_id executions_by_id with
      | None =>
          '(missing, repaired) ← check_references g executions_by_id rest;
          mret (execution_id :: missing, repaired)
      | Some e =>
          if opt_eqb (ex_goal_id e) (Some (go_id g)) then check_references g executions_by_id rest
          else
            save_execution_goal_link e (go_id g) "goal_execution_reference";;
            record_reconciliation_event e (go_id g) "execution_goal_link_repaired"
              "Active goal listed the execution but the execution did not point back to the goal.";;
            '(missing, repaired) ← check_references g executions_by_id rest;
            mret (missing, ex_id e :: repaired)
      end
  end.

Definition goal_finding (category goal_id execution_id reason : string) : dict pyval :=
  [("category", PStr category); ("goal_id", PStr goal_id); ("execution_id", PStr execution_id);
   ("reason", PStr reason)].

(** The locals of a pass: [goals_by_id], the counters and the findings. *)
Record pass_state := mkPass {
  ps_goals_by_id : dict GoalDefinition;
  ps_repaired_goal_execution_links : Z;
  ps_repaired_execution_goal_links : Z;
  ps_orphaned_goal_execution_references : Z;
  ps_orphaned_execution_goal_references : Z;
  ps_findings : list (dict pyval)
}.

(** The first loop, for one active goal. *)
Definition reconcile_goal (now : Z) (executions_by_id : dict Execution) (s : pass_state) (g : GoalDefinition) :
    M pass_state :=
  '(missing, repaired) ← check_references g executions_by_id (go_execution_ids g);
  let s := mkPass (ps_goals_by_id s) (ps_repaired_goal_execution_links s)
             (ps_repaired_execution_goal_links s + Z.of_nat (List.length repaired))
             (ps_orphaned_goal_execution_references s + Z.of_nat (List.length missing))
             (ps_orphaned_execution_goal_references s) (ps_findings s) in
  match missing, repaired with
  | [], [] => mret s
  | _, _ =>
      saved ← record_goal_reconciliation g now missing repaired;
      mret (mkPass (dset (go_id saved) saved (ps_goals_by_id s)) (ps_repaired_goal_execution_links s)
              (ps_repaired_execution_goal_links s) (ps_orphaned_goal_execution_references s)
              (ps_orphaned_execution_goal_references s)
              (ps_findings s ++ map (fun execution_id =>
                 goal_finding "orphaned_goal_execution_reference" (go_id saved) execution_id
                   "Active goal references an execution that no longer exists.") missing))
  end.

Definition ORPHANED_EXECUTION_REASON : string := "Execution references a goal that no longer exists.".

(** The goal is told of an execution that points to it. *)
Definition list_execution (now : Z) (g : GoalDefinition) (e : Execution) (s : pass_state) : M pass_state :=
  if mem_str (ex_id e) (go_execution_ids g) then mret s
  else
    saved ← catalog_save goal_model (with_executions (go_execution_ids g ++ [ex_id e]) now g);
    mret (mkPass (dset (go_id g) saved (ps_goals_by_id s)) (ps_repaired_goal_execution_links s + 1)
            (ps_repaired_execution_goal_links s) (ps_orphaned_goal_execution_references s)
            (ps_orphaned_execution_goal_references s) (ps_findings s)).

(** The second loop, for one execution. *)
Definition reconcile_execution_goal (now : Z) (s : pass_state) (e : Execution) : M pass_state :=
  match execution_goal_hint e with
  | None => mret s
  | Some goal_id =>
      match dget goal_id (ps_goals_by_id s) with
      | None =>
          flag_orphaned_execution_goal_reference e goal_id;;
          record_reconciliation_event e goal_id "orphaned_execution_goal_reference" ORPHANED_EXECUTION_REASON;;
          mret (mkPass (ps_goals_by_id s) (ps_repaired_goal_execution_links s)
                  (ps_repaired_execution_goal_links s) (ps_orphaned_goal_execution_references s)
                  (ps_orphaned_execution_goal_references s + 1)
                  (ps_findings s ++ [[("category", PStr "orphaned_execution_goal_reference");
                                      ("execution_id", PStr (ex_id e)); ("goal_id", PStr goal_id);
                                      ("reason", PStr ORPHANED_EXECUTION_REASON)]]))
      | Some g =>
          s ← list_execution now g e s;
          if opt_eqb (ex_goal_id e) (Some (go_id g)) then mret s
          else
            save_execution_goal_link e (go_id g) "execution_goal_hint";;
            record_reconciliation_event e (go_id g) "execution_goal_link_repaired"
              "Execution metadata referenced the goal but the canonical execution goal_id was missing.";;
            mret (mkPass (ps_goals_by_id s) (ps_repaired_goal_execution_links s)
                    (ps_repaired_execution_goal_links s + 1) (ps_orphaned_goal_execution_references s)
                    (ps_orphaned_execution_goal_references s) (ps_findings s))
      end
  end.

(** A loop over a list with locals. *)
Fixpoint loop_over {A S : Type} (body : S -> A -> M S) (s : S) (l : list A) : M S :=
  match l with
  | [] => mret s
  | x :: l => s ← body s x; loop_over body s l
  end.

Definition goals_by_id (goals : list GoalDefinition) : dict GoalDefinition :=
  fold_left (fun d g => dset (go_id g) g d) goals [].

Definition executions_by_id (executions : list Execution) : dict Execution :=
  fold_left (fun d e => dset (ex_id e) e d) executions [].

(** [reconcile_once] *)
Definition reconcile_goals_once : M GoalStartupReconciliationReport :=
  now ← utc_now;
  goals ← catalog_list goal_model false;
  let active_goals := List.filter (fun g => bool_decide (go_status g ∈ ACTIVE_GOAL_STATUSES)) goals in
  executions ← gets (fun w => dvalues (w_executions w));
  s ← loop_over (reconcile_goal now (executions_by_id executions)) (mkPass (goals_by_id goals) 0 0 0 0 []) active_goals;
  s ← loop_over (reconcile_execution_goal now) s executions;
  mret (mkGoalReport (Z.of_nat (List.length active_goals)) (Z.of_nat (List.length executions))
          (ps_repaired_goal_execution_links s) (ps_repaired_execution_goal_links s)
          (ps_orphaned_goal_execution_references s) (ps_orphaned_execution_goal_references s) (ps_findings s)).
End Reconcile.

(** * What the startup reconciliation of goals does

    The pass as a function of the lists that it takes: which executions are linked
    to which goal, which are flagged, and which goals list them. *)

(** ** The reference *)

(** What becomes of the link of an execution. *)
Inductive link_outcome := kept | linked (goal_id : string) | flagged.

Definition points_to (e : Execution) (goal_id : string) : bool := opt_eqb (ex_goal_id e) (Some goal_id).

(** The first loop: the last active goal that lists the execution without being
    pointed back to takes it. *)
Definition claim_of (active : list GoalDefinition) (e : Execution) (o : link_outcome) : link_outcome :=
  fold_left (fun o g => if mem_str (ex_id e) (go_execution_ids g) && negb (points_to e (go_id g))
                        then linked (go_id g) else o) active o.

(** The second loop goes by the hint in the execution as it was listed. *)
Definition hint_outcome (ids : list string) (e : Execution) (o : link_outcome) : link_outcome :=
  match execution_goal_hint e with
  | None => o
  | Some h => if mem_str h ids then if points_to e h then o else linked h else flagged
  end.

Definition is_active_goal (g : GoalDefinition) : bool := bool_decide (go_status g ∈ ACTIVE_GOAL_STATUSES).

Definition link_outcome_of (goals : list GoalDefinition) (e : Execution) : link_outcome :=
  hint_outcome (map go_id goals) e (claim_of (List.filter is_active_goal goals) e kept).

(** The executions that a goal lists after the pass. *)
Definition hints_at (g : GoalDefinition) (e : Execution) : bool :=
  opt_eqb (execution_goal_hint e) (Some (go_id g)) && negb (mem_str (ex_id e) (go_execution_ids g)).

Definition additions (executions : list Execution) (g : GoalDefinition) : list string :=
  map ex_id (List.filter (hints_at g) executions).

Definition outcome_holds (o : link_outcome) (e e' : Execution) : Prop :=
  match o with
  | kept => e' = e
  | linked goal_id => exists r t, e' = set_ex_updated_at t (with_goal_link goal_id r e)
  | flagged => exists r t, e' = set_ex_updated_at t (with_reconciliation r e)
  end.

(** The record of the last reconciliation is a dictionary or nothing. *)
Definition reconciliation_readable (metadata : dict pyval) : bool :=
  match pget "goal_startup_reconciliation" metadata with PDict _ => true | v => negb (truthy v) end.

(** The goal with more executions, and a new record and update time. *)
Definition grown (ids : list string) (g g' : GoalDefinition) : Prop :=
  exists md t, representable t
    /\ g' = with_goal_metadata md t (with_executions (go_execution_ids g ++ ids) t g).

(** The goals in the catalog, in its order. *)
Record catalog_of (goals : list GoalDefinition) (w : world) : Prop := {
  co_keys : NoDup (dkeys (w_goals w));
  co_documents : omap (fun kv : string * dict pyval => if deleted kv.2 then None else Some (kv.1, clean_payload kv.2)) (w_goals w)
                 = map (fun g => (go_id g, goal_dump g)) goals;
  co_valid : forall g, In g goals -> goal_valid g
}.

(** What a pass leaves alone. *)
Record beside_links (w w' : world) : Prop := {
  bl_waits : w_waits w' = w_waits w;
  bl_approvals : w_approvals w' = w_approvals w;
  bl_schedules : w_schedules w' = w_schedules w;
  bl_states : w_states w' = w_states w
}.

#[export] Instance beside_links_preorder : PreOrder beside_links.
Proof. split; [by split|]. intros w1 w2 w3 [] []. split; congruence. Qed.

Lemma grown_refl g : goal_valid g -> grown [] g g.
Proof.
  intros Hv. exists (go_metadata g), (go_updated_at g). split; [apply (gv_updated g Hv)|]. rewrite List.app_nil_r. by destruct g.
Qed.

Lemma grown_valid ids g g' : goal_valid g -> grown ids g g' -> goal_valid g' /\ go_id g' = go_id g
  /\ go_execution_ids g' = go_execution_ids g ++ ids.
Proof. intros [] (md & t & Ht & ->). split; [by split|]. by split. Qed.

Lemma grown_more ids i t g g' : representable t -> grown ids g g' ->
  grown (ids ++ [i]) g (with_executions (go_execution_ids g' ++ [i]) t g').
Proof.
  intros Ht (md & t' & _ & ->). exists md, t. split; [done|]. cbn. by rewrite app_assoc.
Qed.

Lemma grown_record md t g : representable t -> grown [] g (with_goal_metadata md t g).
Proof. intros Ht. exists md, t. split; [done|]. rewrite List.app_nil_r. by destruct g. Qed.

(** ** Goals in the catalog *)

Section Catalog.
Context `{Env} `{Conversions}.

Lemma catalog_of_stored goals w g : catalog_of goals w -> In g goals -> goal_stored g (go_id g) w.
Proof.
  intros [Hk Hd _] Hin. assert (Hin' : In (go_id g, goal_dump g) (map (fun g => (go_id g, goal_dump g)) goals))
    by (apply in_map_iff; by exists g).
  rewrite <-Hd in Hin'. apply list_elem_of_In, list_elem_of_omap in Hin' as ([k payload] & Hkv%list_elem_of_In & Heq).
  cbn in Heq. destruct (deleted payload) eqn:Hdel; [done|]. injection Heq as <- Hc.
  exists payload. split; [by apply In_dget|]. by split.
Qed.

Lemma catalog_of_NoDup goals w : catalog_of goals w -> NoDup (map go_id goals).
Proof.
  intros [Hk Hd _].
  assert (Heq : map go_id goals = map fst (map (fun g => (go_id g, goal_dump g)) goals)) by by rewrite map_map.
  rewrite Heq, <-Hd. clear Hd Heq. unfold dkeys in Hk. induction (w_goals w) as [|[k p] d IH]; [constructor|].
  cbn in *. apply NoDup_cons in Hk as [Hni Hk]. destruct (deleted p); [by apply IH|]. cbn. constructor; [|by apply IH].
  intros Hin. apply Hni. rewrite list_elem_of_In in *. apply in_map_iff in Hin as ([k' p'] & Heq & Hin).
  cbn in Heq. subst k'. apply list_elem_of_In, list_elem_of_omap in Hin as ([k' p''] & Hin%list_elem_of_In & Heq).
  cbn in Heq. destruct (deleted p''); [done|]. injection Heq as -> _. apply in_map_iff. by exists (k, p'').
Qed.

Lemma catalog_of_listed goals w : catalog_of goals w -> catalog_list goal_model false w = (Ok goals, w).
Proof.
  intros [_ Hd Hv]. unfold catalog_list. rewrite bind_unfold. cbn [gets mc_items goal_model]. unfold dvalues.
  revert goals Hd Hv. induction (w_goals w) as [|[k p] d IH]; intros goals Hd Hv; cbn in *.
  { by destruct goals. }
  destruct (deleted p) eqn:Hdel; cbn.
  - rewrite bind_unfold. cbn. rewrite bind_unfold, (IH goals) by done. done.
  - destruct goals as [|g goals]; [done|]. cbn in Hd. injection Hd as _ Hc Hd.
    unfold deserialize. rewrite Hc. cbn [mc_validate goal_model].
    rewrite !bind_unfold, (goal_dump_reads g) by (apply Hv; by left). cbn.
    rewrite bind_unfold, (IH goals) by (done || by intros g' Hg'; apply Hv; right). done.
Qed.

Lemma stored_elsewhere g i j w w' : goal_step i w w' -> j <> i -> goal_stored g j w -> goal_stored g j w'.
Proof. intros [Ho _] Hj. unfold goal_stored. by rewrite Ho. Qed.
End Catalog.

(** ** One repair *)

Section Repairs.
Context `{Env} `{Conversions}.

Lemma previous_reconciliation_run metadata w : reconciliation_readable metadata = true ->
  exists d, previous_reconciliation metadata w = (Ok d, w).
Proof.
  unfold reconciliation_readable, previous_reconciliation, py_or. intros Hr.
  destruct (pget _ metadata) as [|b|n|f|s|l|d]; try (destruct (truthy _); [done|by eexists]).
  destruct (truthy (PDict d)); by eexists.
Qed.

(** A step of the pass on one execution. *)
Record link_step (i : string) (e' : Execution) (w w' : world) : Prop := {
  ls_executions : w_executions w' = dset i e' (w_executions w);
  ls_goals : w_goals w' = w_goals w;
  ls_beside : beside_links w w'
}.

Lemma record_event_run e goal_id category reason w :
  returns (record_reconciliation_event e goal_id category reason) w (fun _ w' =>
    w_executions w' = w_executions w /\ w_goals w' = w_goals w /\ beside_links w w').
Proof.
  unfold record_reconciliation_event, save_event, append_event, get_execution, returns. execute.
  destruct (dget (ex_id e) (w_executions w)) as [e0|] eqn:He; (eexists _, _; split; [reflexivity|]);
    cbn; (split; [|by split; [|split]]); [by apply dalter_same|done].
Qed.

Lemma save_link_run e goal_id reason category text w : reconciliation_readable (ex_metadata e) = true ->
  returns (save_execution_goal_link e goal_id reason;; record_reconciliation_event e goal_id category text) w
    (fun _ w' => exists e', outcome_holds (linked goal_id) e e' /\ link_step (ex_id e) e' w w').
Proof.
  intros Hr. eapply returns_bind with (P := fun _ w' => exists e', outcome_holds (linked goal_id) e e' /\ link_step (ex_id e) e' w w').
  - unfold save_execution_goal_link.
    destruct (previous_reconciliation_run (dset "goal_id" (PStr goal_id) (ex_metadata e)) w) as [d Hd].
    { revert Hr. unfold reconciliation_readable, pget. by rewrite dget_dset_ne. }
    eapply returns_step; [exact Hd|]. eapply returns_step; [reflexivity|]. eapply returns_step; [reflexivity|].
    eapply returns_intro; [reflexivity|]. eexists. split; [eexists _, _; reflexivity|]. by split.
  - intros [] w1 (e' & Ho & [Hx Hg Hb]). eapply returns_mono; [apply record_event_run|].
    intros [] w2 (Hx2 & Hg2 & Hb2). exists e'. split; [done|]. split; [congruence..|by etransitivity].
Qed.

Lemma flag_run e goal_id category text w : reconciliation_readable (ex_metadata e) = true ->
  returns (flag_orphaned_execution_goal_reference e goal_id;; record_reconciliation_event e goal_id category text) w
    (fun _ w' => exists e', outcome_holds flagged e e' /\ link_step (ex_id e) e' w w').
Proof.
  intros Hr. eapply returns_bind with (P := fun _ w' => exists e', outcome_holds flagged e e' /\ link_step (ex_id e) e' w w').
  - unfold flag_orphaned_execution_goal_reference.
    destruct (previous_reconciliation_run (ex_metadata e) w Hr) as [d Hd].
    eapply returns_step; [exact Hd|]. eapply returns_step; [reflexivity|]. eapply returns_step; [reflexivity|].
    eapply returns_intro; [reflexivity|]. eexists. split; [eexists _, _; reflexivity|]. by split.
  - intros [] w1 (e' & Ho & [Hx Hg Hb]). eapply returns_mono; [apply record_event_run|].
    intros [] w2 (Hx2 & Hg2 & Hb2). exists e'. split; [done|]. split; [congruence..|by etransitivity].
Qed.
End Repairs.

Lemma returns_seq {A B C} (m : M A) (f : A -> M B) (g : B -> M C) w P Q :
  returns (m ≫= f) w P -> (forall b w', P b w' -> returns (g b) w' Q) -> returns (m ≫= fun a => f a ≫= g) w Q.
Proof.
  intros (b & w' & Hrun & HP) Hg. apply bind_inv in Hrun as (a & w1 & Hm & Hf).
  eapply returns_step; [exact Hm|]. eapply returns_step; [exact Hf|]. by apply Hg.
Qed.

(** ** Indexes *)

Section Index.
Context {V : Type} (id : V -> string).

Definition has_id (k : string) (v : V) : bool := String.eqb (id v) k.

Lemma index_find l acc k : NoDup (map id l) ->
  dget k (fold_left (fun d v => dset (id v) v d) l acc)
  = match List.find (has_id k) l with Some v => Some v | None => dget k acc end.
Proof.
  revert acc. induction l as [|v l IH]; intros acc Hnd; [done|]. cbn in *. apply NoDup_cons in Hnd as [Hni Hnd].
  rewrite IH by done. destruct (List.find (has_id k) l) as [v'|] eqn:Hf.
  - apply find_some in Hf as [Hin Hk]. unfold has_id in *. apply String.eqb_eq in Hk.
    destruct (String.eqb_spec (id v) k) as [Heq|]; [|done]. exfalso. apply Hni. rewrite list_elem_of_In.
    rewrite Heq, <-Hk. by apply in_map.
  - rewrite dget_dset. unfold has_id. destruct (String.eqb_spec k (id v)) as [->|Hne]; [by rewrite String.eqb_refl|].
    destruct (String.eqb_spec (id v) k); [by subst|done].
Qed.

Lemma index_some l k v : NoDup (map id l) ->
  dget k (fold_left (fun d v => dset (id v) v d) l []) = Some v <-> In v l /\ id v = k.
Proof.
  intros Hnd. rewrite index_find by done. split.
  - destruct (List.find _ l) as [v'|] eqn:Hf; [|done]. intros [= ->]. apply find_some in Hf as [Hin Hk].
    split; [done|]. by apply String.eqb_eq.
  - intros [Hin <-]. revert Hnd Hin. induction l as [|x l IH]; [done|]. cbn. unfold has_id at 1.
    intros [Hni Hnd]%NoDup_cons [->|Hin]; [by rewrite String.eqb_refl|].
    destruct (String.eqb_spec (id x) (id v)) as [Heq|]; [|by apply IH]. exfalso. apply Hni.
    rewrite list_elem_of_In, Heq. by apply in_map.
Qed.

Lemma keyed_index d k : keyed id d -> dget k (fold_left (fun d v => dset (id v) v d) (dvalues d) []) = dget k d.
Proof.
  intros Hkd. pose proof Hkd as [Hnd Hk].
  pose proof (keyed_ids id d Hkd) as Hids.
  assert (Hnd' : NoDup (map id (dvalues d))) by by rewrite Hids.
  destruct (dget k d) as [v|] eqn:Hget.
  - apply index_some; [done|]. split; [by eapply dget_values|by apply Hk].
  - destruct (dget k (fold_left _ _ _)) as [v|] eqn:Hf; [|done]. apply index_some in Hf as [Hin <-]; [|done].
    pose proof (keyed_In id v d Hkd Hin) as Hin'. by rewrite Hget in Hin'.
Qed.
End Index.

(** ** The pass *)

Section Pass.
Context `{Env} `{Conversions}.
Context (Hclock : forall n, representable (env_now n)).
Context (E0 : dict Execution) (goals : list GoalDefinition) (w0 : world).
Context (HE : keyed ex_id E0) (HEr : forall i e, dget i E0 = Some e -> reconciliation_readable (ex_metadata e) = true).
Context (Hnd : NoDup (map go_id goals)) (Hv : forall g, In g goals -> goal_valid g).
Context (Hr : forall g, In g goals -> reconciliation_readable (go_metadata g) = true).

(** The store holds what becomes of each listed execution. *)
Definition executions_follow (f : Execution -> link_outcome) (w : world) : Prop :=
  forall i, match dget i E0 with
            | Some e => exists e', dget i (w_executions w) = Some e' /\ outcome_holds (f e) e e'
            | None => dget i (w_executions w) = None
            end.

Record pass_ok (f : Execution -> link_outcome) (extra : GoalDefinition -> list string)
    (by_id : dict GoalDefinition) (w : world) : Prop := {
  po_executions : executions_follow f w;
  po_goals : forall g, In g goals -> exists g', dget (go_id g) by_id = Some g' /\ grown (extra g) g g'
                                        /\ goal_stored g' (go_id g) w;
  po_domain : forall i g', dget i by_id = Some g' -> exists g, In g goals /\ go_id g = i;
  po_beside : beside_links w0 w
}.

Lemma pass_ok_ext f f' extra extra' by_id w :
  (forall i e, dget i E0 = Some e -> f e = f' e) -> (forall g, In g goals -> extra g = extra' g) ->
  pass_ok f extra by_id w -> pass_ok f' extra' by_id w.
Proof.
  intros Hf Hx [He Hg Hd Hb]. split; try done.
  - intros i. specialize (He i). destruct (dget i E0) as [e|] eqn:Hi; [|done]. by rewrite <-(Hf i e Hi).
  - intros g Hin. rewrite <-(Hx g Hin). by apply Hg.
Qed.

Lemma pass_ok_link f o extra by_id e e' w w' :
  pass_ok f extra by_id w -> dget (ex_id e) E0 = Some e -> outcome_holds o e e' -> link_step (ex_id e) e' w w' ->
  pass_ok (fun x => if String.eqb (ex_id x) (ex_id e) then o else f x) extra by_id w'.
Proof.
  intros [He Hg Hd Hb] He0 Ho [Hx Hgo Hbe]. split; [| |done|by etransitivity].
  - intros i. specialize (He i). rewrite Hx, dget_dset. destruct (String.eqb_spec i (ex_id e)) as [->|Hne].
    + rewrite He0, String.eqb_refl. by exists e'.
    + destruct (dget i E0) as [x|] eqn:Hi; [|done]. rewrite (proj2 HE i x Hi).
      by rewrite (proj2 (String.eqb_neq i (ex_id e)) Hne).
  - intros g Hin. destruct (Hg g Hin) as (g' & Hb1 & Hgr & Hst). exists g'. split; [done|]. split; [done|].
    unfold goal_stored. by rewrite Hgo.
Qed.

Lemma goal_unique g g2 : In g goals -> In g2 goals -> go_id g2 = go_id g -> g2 = g.
Proof.
  intros Hg Hg2 Heq. pose proof (proj2 (index_some go_id goals (go_id g) g Hnd) (conj Hg eq_refl)) as H1.
  pose proof (proj2 (index_some go_id goals (go_id g) g2 Hnd) (conj Hg2 Heq)) as H2. congruence.
Qed.

Lemma pass_ok_save f extra by_id g g' ids w :
  pass_ok f extra by_id w -> In g goals -> grown ids g g' ->
  returns (catalog_save goal_model g') w (fun u w' => u = g'
    /\ pass_ok f (fun x => if String.eqb (go_id x) (go_id g) then ids else extra x) (dset (go_id g) g' by_id) w').
Proof.
  intros [He Hg Hd Hb] Hin Hgr. destruct (Hg g Hin) as (g0 & _ & _ & Hst0).
  destruct (grown_valid ids g g' (Hv g Hin) Hgr) as (Hv' & Hid & _).
  eapply returns_mono; [by eapply (save_stored g0 g' (go_id g))|].
  intros u w' (-> & Hst & Hs). split; [done|]. destruct (gs_beside _ _ _ Hs) as [Hbx _ Hbw Hba Hbs Hbt]. split.
  - intros i. rewrite Hbx. apply He.
  - intros g2 Hin2. rewrite dget_dset. destruct (String.eqb_spec (go_id g2) (go_id g)) as [Heq|Hne].
    + rewrite (goal_unique g g2) by done. by exists g'.
    + destruct (Hg g2 Hin2) as (g3 & Hb3 & Hgr3 & Hst3). exists g3. split; [done|]. split; [done|].
      by eapply stored_elsewhere.
  - intros i g2. rewrite dget_dset. destruct (String.eqb_spec i (go_id g)) as [->|_]; [by exists g|apply Hd].
  - etransitivity; [exact Hb|]. split; congruence.
Qed.

(** The first loop. *)
Lemma check_references_run g ids f extra by_id w :
  pass_ok f extra by_id w ->
  returns (check_references g (executions_by_id (dvalues E0)) ids) w (fun _ w' =>
    pass_ok (fun e => if mem_str (ex_id e) ids && negb (points_to e (go_id g)) then linked (go_id g) else f e)
      extra by_id w').
Proof.
  revert f w. induction ids as [|i ids IH]; intros f w Hok; cbn [check_references].
  { by eapply returns_intro. }
  unfold executions_by_id. rewrite (keyed_index ex_id) by done. fold (executions_by_id (dvalues E0)).
  destruct (dget i E0) as [e|] eqn:Hi.
  - pose proof (proj2 HE i e Hi) as Hid. fold (points_to e (go_id g)).
    destruct (points_to e (go_id g)) eqn:Hp.
    + eapply returns_mono; [by apply IH|]. intros r w'. apply pass_ok_ext; [|done]. intros k x Hk. cbn.
      destruct (String.eqb_spec (ex_id x) i) as [Heq|]; [|done].
      assert (Hxe : x = e) by (rewrite (proj2 HE k x Hk) in Heq; congruence). by rewrite Hxe, Hp, !andb_false_r.
    + assert (He0 : dget (ex_id e) E0 = Some e) by by rewrite Hid.
      rewrite <-Hid in *. pose proof (save_link_run e (go_id g) "goal_execution_reference" "execution_goal_link_repaired"
        "Active goal listed the execution but the execution did not point back to the goal." w (HEr _ e Hi)) as Hl.
      eapply returns_seq; [exact Hl|].
      intros u w1 (e' & Ho & Hs). eapply returns_bind; [eapply IH; by eapply pass_ok_link|].
      intros [missing repaired] w' Hok'. eapply returns_intro; [reflexivity|]. revert Hok'. apply pass_ok_ext; [|done].
      intros k x Hk. cbn. destruct (String.eqb_spec (ex_id x) (ex_id e)) as [Heq|]; [|done].
      assert (Hxe : x = e) by (rewrite (proj2 HE k x Hk) in Heq; congruence). rewrite Hxe, Hp. cbn.
      by destruct (mem_str _ _).
  - eapply returns_bind; [by apply IH|]. intros [missing repaired] w' Hok'. eapply returns_intro; [reflexivity|].
    revert Hok'. apply pass_ok_ext; [|done]. intros k x Hk. cbn.
    destruct (String.eqb_spec (ex_id x) i) as [Heq|]; [|done]. rewrite (proj2 HE k x Hk) in Heq. congruence.
Qed.

Definition claim_step (g : GoalDefinition) (e : Execution) (o : link_outcome) : link_outcome :=
  if mem_str (ex_id e) (go_execution_ids g) && negb (points_to e (go_id g)) then linked (go_id g) else o.

(** Saving a listed goal with a new record. *)
Lemma record_goal_run now g missing repaired f by_id w : representable now -> In g goals ->
  pass_ok f (fun _ => []) by_id w ->
  returns (record_goal_reconciliation g now missing repaired) w (fun saved w' =>
    pass_ok f (fun _ => []) (dset (go_id saved) saved by_id) w').
Proof.
  intros Hnow Hin Hok. unfold record_goal_reconciliation.
  destruct (previous_reconciliation_run (go_metadata g) w (Hr g Hin)) as [d Hd].
  eapply returns_step; [exact Hd|]. cbv zeta.
  eapply returns_mono; [eapply (pass_ok_save f _ by_id g _ []); [done|done|by apply grown_record]|].
  intros u w' (-> & Hok'). cbn [go_id with_goal_metadata]. revert Hok'. apply pass_ok_ext; [done|].
  intros x _. by destruct (String.eqb _ _).
Qed.

Lemma reconcile_goal_run now s g f w : representable now -> In g goals ->
  pass_ok f (fun _ => []) (ps_goals_by_id s) w ->
  returns (reconcile_goal now (executions_by_id (dvalues E0)) s g) w (fun s' w' =>
    pass_ok (fun e => claim_step g e (f e)) (fun _ => []) (ps_goals_by_id s') w').
Proof.
  intros Hnow Hin Hok. unfold reconcile_goal. eapply returns_bind; [by apply check_references_run|].
  intros [missing repaired] w1 Hok1. cbv beta in Hok1. cbv zeta.
  destruct missing as [|i missing], repaired as [|j repaired]; [by eapply returns_intro|..];
    (eapply returns_bind; [by apply record_goal_run|]; intros saved w' Hok'; by eapply returns_intro).
Qed.

Lemma first_loop now l s f w : representable now -> (forall g, In g l -> In g goals) ->
  pass_ok f (fun _ => []) (ps_goals_by_id s) w ->
  returns (loop_over (reconcile_goal now (executions_by_id (dvalues E0))) s l) w (fun s' w' =>
    pass_ok (fun e => claim_of l e (f e)) (fun _ => []) (ps_goals_by_id s') w').
Proof.
  intros Hnow. revert s f w. induction l as [|g l IH]; intros s f w Hl Hok; cbn [loop_over].
  { by eapply returns_intro. }
  eapply returns_bind; [apply reconcile_goal_run; [done| |exact Hok]; apply Hl; by left|].
  intros s1 w1 Hok1. eapply returns_mono; [eapply IH; [|exact Hok1]; intros g' Hg'; apply Hl; by right|].
  intros s2 w2. done.
Qed.

(** The second loop, after the executions [es]. *)
Definition outcome_after (c : Execution -> link_outcome) (es : list Execution) (e : Execution) : link_outcome :=
  if mem_str (ex_id e) (map ex_id es) then hint_outcome (map go_id goals) e (c e) else c e.

Lemma outcome_after_snoc c es e x : In e (dvalues E0) -> In x (dvalues E0) ->
  ~ In (ex_id e) (map ex_id es) ->
  outcome_after c (es ++ [e]) x
  = if String.eqb (ex_id x) (ex_id e) then hint_outcome (map go_id goals) e (c e) else outcome_after c es x.
Proof.
  intros He Hx Hni. unfold outcome_after. rewrite map_app. unfold mem_str. rewrite existsb_app. cbn [map existsb].
  destruct (String.eqb_spec (ex_id x) (ex_id e)) as [Heq|]; [|by rewrite !orb_false_r].
  assert (Hxe : x = e).
  { apply (keyed_In ex_id) in He, Hx; [|done..]. rewrite Heq in Hx. congruence. }
  by rewrite Hxe, !orb_true_r.
Qed.

Lemma additions_snoc es e g : additions (es ++ [e]) g = additions es g ++ (if hints_at g e then [ex_id e] else []).
Proof. unfold additions. rewrite List.filter_app, map_app. cbn. by destruct (hints_at g e). Qed.

Lemma additions_fresh es e g : ~ In (ex_id e) (map ex_id es) -> mem_str (ex_id e) (additions es g) = false.
Proof.
  intros Hni. apply mem_str_false. intros Hin. apply Hni. unfold additions in Hin.
  apply in_map_iff in Hin as (x & <- & [Hx _]%filter_In). by apply in_map.
Qed.

(** A goal that is pointed to lists the execution. *)
Lemma list_execution_run now e es f s g g' w : representable now ->
  In g goals -> execution_goal_hint e = Some (go_id g) -> ~ In (ex_id e) (map ex_id es) ->
  pass_ok f (additions es) (ps_goals_by_id s) w -> dget (go_id g) (ps_goals_by_id s) = Some g' ->
  returns (list_execution now g' e s) w (fun s' w' => pass_ok f (additions (es ++ [e])) (ps_goals_by_id s') w').
Proof.
  intros Hnow Hin Hh Hni Hok Hget. destruct (po_goals _ _ _ _ Hok g Hin) as (g2 & Hg2 & Hgr & Hst).
  assert (g2 = g') as -> by congruence. destruct (grown_valid _ _ _ (Hv g Hin) Hgr) as (_ & Hid & Hex).
  unfold list_execution. rewrite Hex. unfold mem_str at 1. rewrite existsb_app. fold (mem_str (ex_id e) (additions es g)).
  fold (mem_str (ex_id e) (go_execution_ids g)). rewrite additions_fresh, orb_false_r by done.
  assert (Hhint : hints_at g e = negb (mem_str (ex_id e) (go_execution_ids g))).
  { unfold hints_at. rewrite Hh. cbn. by rewrite String.eqb_refl. }
  assert (Hother : forall x, In x goals -> go_id x <> go_id g -> additions (es ++ [e]) x = additions es x).
  { intros x _ Hne. rewrite additions_snoc. unfold hints_at. rewrite Hh. cbn.
    rewrite (proj2 (String.eqb_neq (go_id g) (go_id x))) by congruence. cbn. by rewrite List.app_nil_r. }
  destruct (mem_str (ex_id e) (go_execution_ids g)) eqn:Hm.
  - eapply returns_intro; [reflexivity|]. revert Hok. apply pass_ok_ext; [done|]. intros x Hx.
    destruct (decide (go_id x = go_id g)) as [Heq|Hne]; [|by rewrite Hother].
    rewrite (goal_unique g x) by done. rewrite additions_snoc, Hhint. cbn. by rewrite List.app_nil_r.
  - rewrite <-Hex. eapply returns_bind.
    { eapply (pass_ok_save f _ (ps_goals_by_id s) g _ (additions es g ++ [ex_id e])); [exact Hok|done|].
      by apply grown_more. }
    intros u w1 (-> & Hok1). eapply returns_intro; [reflexivity|]. cbn [ps_goals_by_id]. rewrite Hid.
    revert Hok1. apply pass_ok_ext; [done|]. intros x Hx.
    destruct (String.eqb_spec (go_id x) (go_id g)) as [Heq|Hne]; [|by rewrite Hother].
    rewrite (goal_unique g x) by done. by rewrite additions_snoc, Hhint.
Qed.

Lemma reconcile_execution_run now e es c s w : representable now -> In e (dvalues E0) ->
  ~ In (ex_id e) (map ex_id es) ->
  pass_ok (outcome_after c es) (additions es) (ps_goals_by_id s) w ->
  returns (reconcile_execution_goal now s e) w (fun s' w' =>
    pass_ok (outcome_after c (es ++ [e])) (additions (es ++ [e])) (ps_goals_by_id s') w').
Proof.
  intros Hnow He Hni Hok. pose proof (keyed_In ex_id e E0 HE He) as He0.
  assert (Hsnoc : forall f extra by_id w', (forall x, f x = if String.eqb (ex_id x) (ex_id e)
      then hint_outcome (map go_id goals) e (c e) else outcome_after c es x) ->
      pass_ok f extra by_id w' -> pass_ok (outcome_after c (es ++ [e])) extra by_id w').
  { intros f extra by_id w' Hf. apply pass_ok_ext; [|done]. intros i x Hx. rewrite Hf. symmetry.
    apply outcome_after_snoc; [done|by eapply dget_values|done]. }
  assert (Hsame : hint_outcome (map go_id goals) e (c e) = c e -> forall extra by_id w',
    pass_ok (outcome_after c es) extra by_id w' -> pass_ok (outcome_after c (es ++ [e])) extra by_id w').
  { intros Hh extra by_id w'. apply pass_ok_ext; [|done]. intros i x Hx.
    rewrite outcome_after_snoc by (done || by eapply dget_values).
    destruct (String.eqb_spec (ex_id x) (ex_id e)) as [Heq|]; [|done]. rewrite Hh.
    assert (Hxe : x = e) by (rewrite (proj2 HE i x Hx) in Heq; subst i; congruence). rewrite Hxe. unfold outcome_after.
    by rewrite (proj2 (mem_str_false _ _) Hni). }
  unfold reconcile_execution_goal. unfold hint_outcome in *. destruct (execution_goal_hint e) as [h|] eqn:Hh.
  2: { eapply returns_intro; [reflexivity|]. apply Hsame; [done|]. revert Hok. apply pass_ok_ext; [done|].
       intros g _. rewrite additions_snoc. unfold hints_at. rewrite Hh. cbn. by rewrite List.app_nil_r. }
  destruct (dget h (ps_goals_by_id s)) as [g'|] eqn:Hget.
  - destruct (po_domain _ _ _ _ Hok h g' Hget) as (g & Hin & <-).
    destruct (po_goals _ _ _ _ Hok g Hin) as (g2 & Hg2 & Hgr & _). assert (g2 = g') as -> by congruence.
    destruct (grown_valid _ _ _ (Hv g Hin) Hgr) as (_ & Hid & _).
    assert (Hmem : mem_str (go_id g) (map go_id goals) = true) by (apply mem_str_In, in_map_iff; by exists g).
    rewrite Hmem in *. eapply returns_bind; [by eapply (list_execution_run now e es)|]. intros s1 w1 Hok1.
    rewrite Hid. fold (points_to e (go_id g)). destruct (points_to e (go_id g)) eqn:Hp.
    + eapply returns_intro; [reflexivity|]. by apply Hsame.
    + eapply returns_seq; [apply save_link_run; by eapply HEr|]. intros u w2 (e' & Ho & Hs).
      eapply returns_intro; [reflexivity|]. cbn [ps_goals_by_id].
      eapply (Hsnoc (fun x => if String.eqb (ex_id x) (ex_id e) then linked (go_id g) else outcome_after c es x)); [done|].
      exact (pass_ok_link _ _ _ _ e e' w1 w2 Hok1 He0 Ho Hs).
  - assert (Hmem : mem_str h (map go_id goals) = false).
    { apply mem_str_false. intros (g & <- & Hin)%in_map_iff. destruct (po_goals _ _ _ _ Hok g Hin) as (g' & Hg' & _).
      congruence. }
    rewrite Hmem in *. eapply returns_seq; [apply flag_run; by eapply HEr|]. intros u w2 (e' & Ho & Hs).
    eapply returns_intro; [reflexivity|]. cbn [ps_goals_by_id].
    eapply (Hsnoc (fun x => if String.eqb (ex_id x) (ex_id e) then flagged else outcome_after c es x)); [done|].
    refine (pass_ok_link _ _ _ _ e e' w w2 _ He0 Ho Hs). revert Hok. apply pass_ok_ext; [done|]. intros g Hin.
    rewrite additions_snoc. unfold hints_at. rewrite Hh. cbn.
    destruct (String.eqb_spec h (go_id g)) as [->|]; [|by rewrite List.app_nil_r].
    exfalso. apply mem_str_false in Hmem. apply Hmem. by apply in_map.
Qed.

Lemma second_loop now c rest es s w : representable now -> dvalues E0 = es ++ rest ->
  pass_ok (outcome_after c es) (additions es) (ps_goals_by_id s) w ->
  returns (loop_over (reconcile_execution_goal now) s rest) w (fun s' w' =>
    pass_ok (outcome_after c (dvalues E0)) (additions (dvalues E0)) (ps_goals_by_id s') w').
Proof.
  intros Hnow. revert es s w. induction rest as [|e rest IH]; intros es s w Heq Hok; cbn [loop_over].
  { rewrite List.app_nil_r in Heq. rewrite Heq. by eapply returns_intro. }
  eapply returns_bind; [apply (reconcile_execution_run now e es c); [done| | |exact Hok]|].
  - rewrite Heq. apply in_or_app. right. by left.
  - pose proof (keyed_ids ex_id E0 HE) as Hids. pose proof (proj1 HE) as Hk. rewrite <-Hids, Heq, map_app in Hk.
    cbn in Hk. apply NoDup_app in Hk as (_ & Hno & _). intros Hin. rewrite <-list_elem_of_In in Hin.
    apply (Hno _ Hin). by left.
  - intros s1 w1 Hok1. apply (IH (es ++ [e])); [|exact Hok1]. by rewrite <-app_assoc.
Qed.
End Pass.

Section Facts.
Context `{Env} `{Conversions}.
Context (Hclock : forall n, representable (env_now n)).

(** C27. The reconciliation at startup does exactly what its two loops say.  On a
    store of executions and a catalog of valid goals the pass returns; the link of
    every execution becomes that of the goal its hint names, or else of the last
    active goal that lists it without being pointed back to; an execution whose
    hint names no goal keeps what it was and is flagged; every goal lists, after
    what it had, the executions whose hints name it; nothing else about the goals
    and executions changes, and no wait, approval, schedule or engine state. *)
Theorem goal_links_reconciled goals w :
  keyed ex_id (w_executions w) -> catalog_of goals w ->
  (forall i e, dget i (w_executions w) = Some e -> reconciliation_readable (ex_metadata e) = true) ->
  (forall g, In g goals -> reconciliation_readable (go_metadata g) = true) ->
  returns reconcile_goals_once w (fun report w' =>
    gr_executions_scanned report = Z.of_nat (List.length (w_executions w))
    /\ (forall i, match dget i (w_executions w) with
                  | Some e => exists e', dget i (w_executions w') = Some e'
                                /\ outcome_holds (link_outcome_of goals e) e e'
                  | None => dget i (w_executions w') = None
                  end)
    /\ (forall g, In g goals -> exists g', goal_stored g' (go_id g) w'
          /\ grown (additions (dvalues (w_executions w)) g) g g')
    /\ beside_links w w').
Proof.
  intros HE Hc HEr Hr. pose proof (catalog_of_NoDup goals w Hc) as Hnd. pose proof (co_valid goals w Hc) as Hv.
  unfold reconcile_goals_once. eapply returns_step; [reflexivity|].
  set (now := env_now (w_clock w)). set (w1 := set_w_clock (S (w_clock w)) w).
  assert (Hc1 : catalog_of goals w1) by (destruct Hc; by split).
  eapply returns_step; [by apply catalog_of_listed|]. eapply returns_step; [reflexivity|].
  change (w_executions w1) with (w_executions w). set (E0 := w_executions w) in *.
  assert (Hok : pass_ok E0 goals w (fun _ => kept) (fun _ => []) (goals_by_id goals) w1).
  { unfold goals_by_id. split.
    - intros i. change (w_executions w1) with E0. destruct (dget i E0) as [e|] eqn:Hi; [|done]. by exists e.
    - intros g Hin. exists g. split; [by apply (index_some go_id)|]. split; [by apply grown_refl, Hv|].
      by apply (catalog_of_stored goals).
    - intros i g Hi. apply (index_some go_id) in Hi as [Hin Hid]; [|done]. by exists g.
    - by split. }
  eapply returns_bind.
  { apply (first_loop E0 goals w HE HEr Hnd Hv Hr now) with (f := fun _ => kept); [apply Hclock| |exact Hok].
    intros g Hin. by apply filter_In in Hin as [Hin _]. }
  intros s1 w2 Hok1. eapply returns_bind.
  { eapply (second_loop E0 goals w HE HEr Hnd Hv now (fun e => claim_of (List.filter is_active_goal goals) e kept) _ []);
      [apply Hclock|reflexivity|exact Hok1]. }
  intros s2 w3 [He Hg _ Hb]. eapply returns_intro; [reflexivity|]. cbn [gr_executions_scanned].
  split; [unfold dvalues; by rewrite length_map|]. split; [|split; [|done]].
  - intros i. specialize (He i). destruct (dget i E0) as [e|] eqn:Hi; [|done]. unfold outcome_after in He.
    replace (mem_str _ _) with true in He; [done|]. symmetry. apply mem_str_In, in_map. by eapply dget_values.
  - intros g Hin. destruct (Hg g Hin) as (g' & _ & Hgr & Hst). by exists g'.
Qed.
End Facts.
