(* ===== verification/GoalScenarios.v ===== *)
(** * Concrete goals and outbox events

    The theorems on goals and on the graph projection outbox at concrete inputs:
    an active goal with one success criterion, a high-risk one, a cancelled one, and
    an outbox with a valid and an invalid pending event. *)

From Corelib Require Import SpecFloat.
From S2P Require Import Scenarios Fires OutboxFacts GoalFacts GoalReconcile.

#[export] Instance sample_goals : GoalContext := {
  graph_projection_enabled := true;
  graph_projection_event_repo_configured := true
}.

Definition sample_goal (status : GoalStatus) (priority : string) (completed_at : option Z) : GoalDefinition :=
  mkGoal "g1" "Ship the release" status priority None None
    [[("id", PStr "tests"); ("kind", PStr "test_report")]] [] [] [] None None completed_at t0 t0 [].

Definition goal_world (g : GoalDefinition) : world := set_w_goals [("g1", goal_dump g)] empty_world.

Lemma t0_in_range : representable t0.
Proof. unfold representable, t0, us_per_second. lia. Qed.

Lemma sample_goal_stored st pr cp : goal_stored (sample_goal st pr cp) "g1" (goal_world (sample_goal st pr cp)).
Proof. eexists. split; [reflexivity|]. split; [|reflexivity]. reflexivity. Qed.

Lemma sample_goal_valid st pr : goal_valid (sample_goal st pr
  (if bool_decide (st ∈ TERMINAL_GOAL_STATUSES) then Some t0 else None)).
Proof.
  split; [reflexivity| |done| |apply t0_in_range..].
  - unfold is_terminal_goal. cbn. by destruct (bool_decide _).
  - cbn. intros t. destruct (bool_decide _); intros [= <-]. apply t0_in_range.
Qed.

(** Evidence for the criterion completes a goal of medium priority and is recorded
    on a goal of high priority, which needs a review. *)
Lemma complete_goal_decides_witness :
  let evidence := [[("kind", PStr "test_report"); ("id", PStr "report-1")]] in
  let run priority := complete_goal "g1" evidence None (goal_world (sample_goal GOAL_ACTIVE priority None)) in
  (exists g' w', run "medium" = (Ok g', w') /\ goal_stored g' "g1" w' /\ go_status g' = GOAL_COMPLETED)
  /\ (exists msg w' g', run "high" = (Raise (mkExn GoalTransitionError msg), w')
        /\ goal_stored g' "g1" w' /\ go_status g' = GOAL_ACTIVE /\ go_evidence g' = evidence).
Proof.
  cbv zeta. split.
  - destruct (complete_goal_decides sample_clock_representable "g1" (sample_goal GOAL_ACTIVE "medium" None)
      [[("kind", PStr "test_report"); ("id", PStr "report-1")]] None (goal_world (sample_goal GOAL_ACTIVE "medium" None))
      (sample_goal_stored _ _ _) (sample_goal_valid GOAL_ACTIVE "medium") eq_refl eq_refl eq_refl) as [Hdone _].
    destruct Hdone as (result & t & w' & done_at & Hrun & Hst & _).
    { apply completion_accepted_iff. vm_compute. reflexivity. }
    eexists _, w'. split; [exact Hrun|]. split; [exact Hst|reflexivity].
  - destruct (complete_goal_decides sample_clock_representable "g1" (sample_goal GOAL_ACTIVE "high" None)
      [[("kind", PStr "test_report"); ("id", PStr "report-1")]] None (goal_world (sample_goal GOAL_ACTIVE "high" None))
      (sample_goal_stored _ _ _) (sample_goal_valid GOAL_ACTIVE "high") eq_refl eq_refl eq_refl) as [_ Hopen].
    destruct Hopen as (result & t & w' & msg & Hrun & Hst & _).
    { rewrite <-completion_accepted_iff. vm_compute. discriminate. }
    exists msg, w'. eexists. split; [exact Hrun|]. split; [exact Hst|by split].
Defined.

(** The general update, which PATCH of a goal calls, takes any status: it completes
    a goal whose criteria have no evidence and whose priority asks for a review. *)
Example update_completes_without_evidence :
  exists g' w', update_goal "g1" [("status", PStr "completed")]
      (goal_world (sample_goal GOAL_ACTIVE "high" None)) = (Ok g', w')
    /\ go_status g' = GOAL_COMPLETED /\ go_evidence g' = [] /\ go_success_criteria g' <> [].
Proof.
  destruct (update_goal _ _ _) as [[g'|e] w'] eqn:Hr; vm_compute in Hr; [|discriminate].
  injection Hr as <- <-. eexists _, _. split; [reflexivity|]. split; [reflexivity|]. split; [reflexivity|discriminate].
Qed.

Lemma finished_goal_is_final_witness :
  let w := goal_world (sample_goal GOAL_CANCELLED "medium" (Some t0)) in
  exists msg, run_operation (op_replan None "try again" None) "g1" w = (Raise (mkExn GoalTransitionError msg), w).
Proof.
  cbv zeta.
  apply (finished_goal_is_final _ (sample_goal GOAL_CANCELLED "medium" (Some t0))).
  - apply sample_goal_stored.
  - apply (sample_goal_valid GOAL_CANCELLED "medium").
  - reflexivity.
  - vm_compute. reflexivity.
Defined.

Lemma goal_transitions_witness :
  let w := goal_world (sample_goal GOAL_ACTIVE "medium" None) in
  (exists t1 t2 w', run_operation (op_cancel (PStr "duplicate")) "g1" w
     = (Ok (transition_result (op_cancel (PStr "duplicate")) (sample_goal GOAL_ACTIVE "medium" None) t1 t2), w'))
  /\ exists msg, run_operation op_resume "g1" w = (Raise (mkExn GoalTransitionError msg), w).
Proof.
  cbv zeta.
  set (w := goal_world _).
  assert (Hst : goal_stored (sample_goal GOAL_ACTIVE "medium" None) "g1" w) by apply sample_goal_stored.
  pose proof (sample_goal_valid GOAL_ACTIVE "medium") as Hv.
  pose proof (fun op => goal_transitions sample_clock_representable op _ "g1" w Hst Hv eq_refl) as Hall.
  split.
  - destruct (Hall (op_cancel (PStr "duplicate")) eq_refl) as [Hrun _].
    replace (transition_allowed _ _) with true in Hrun by (vm_compute; reflexivity).
    destruct Hrun as (t1 & t2 & w' & Hrun & _). exists t1, t2, w'. exact Hrun.
  - destruct (Hall op_resume eq_refl) as [Hrun _].
    replace (transition_allowed _ _) with false in Hrun by (vm_compute; reflexivity). exact Hrun.
Defined.

(** ** Links after a restart *)

Definition linking_goal (id : string) (execution_ids : list string) : GoalDefinition :=
  mkGoal id "Ship the release" GOAL_ACTIVE "medium" None None [] [] execution_ids [] None None None t0 t0 [].

Definition hinting_execution (id : string) (goal_id : option string) (metadata : dict pyval) : Execution :=
  set_ex_goal_id goal_id (set_ex_metadata metadata (sample_execution id RUNNING)).

(** One goal that lists an execution which does not point back, and one execution
    that names the goal in its metadata only. *)
Definition restart_world : world :=
  set_w_goals [("g1", goal_dump (linking_goal "g1" ["e1"; "gone"]))]
    (set_w_executions [("e1", hinting_execution "e1" None []);
                       ("e2", hinting_execution "e2" None [("goal_id", PStr "g1")])] empty_world).

Lemma goal_links_reconciled_witness :
  returns reconcile_goals_once restart_world (fun report w' =>
    gr_executions_scanned report = 2
    /\ (exists e1, dget "e1" (w_executions w') = Some e1 /\ ex_goal_id e1 = Some "g1")
    /\ (exists e2, dget "e2" (w_executions w') = Some e2 /\ ex_goal_id e2 = Some "g1")
    /\ (exists g, goal_stored g "g1" w' /\ go_execution_ids g = ["e1"; "gone"; "e2"])).
Proof.
  set (g := linking_goal "g1" ["e1"; "gone"]).
  destruct (goal_links_reconciled sample_clock_representable [g] restart_world) as (report & w' & Hrun & Hn & He & Hg & _).
  - split; [vm_compute; repeat constructor; by intros []%list_elem_of_In|].
    intros k e Hin%dget_In. cbn in Hin. destruct Hin as [[= <- <-]|[[= <- <-]|[]]]; reflexivity.
  - split; [apply NoDup_singleton|reflexivity|]. intros g' [<-|[]].
    split; [reflexivity|reflexivity|done|done|apply t0_in_range..].
  - intros k e Hin%dget_In. cbn in Hin. destruct Hin as [[= <- <-]|[[= <- <-]|[]]]; reflexivity.
  - intros g' [<-|[]]. reflexivity.
  - exists report, w'. split; [exact Hrun|]. split; [exact Hn|].
    pose proof (He "e1") as (e1 & He1 & r1 & t1 & Ho1). pose proof (He "e2") as (e2 & He2 & r2 & t2 & Ho2).
    destruct (Hg g (or_introl eq_refl)) as (g' & Hst & Hgr).
    split; [exists e1; split; [exact He1|rewrite Ho1; reflexivity]|].
    split; [exists e2; split; [exact He2|rewrite Ho2; reflexivity]|].
    exists g'. split; [exact Hst|]. destruct Hgr as (md & t & _ & ->). reflexivity.
Defined.

(** Two active goals that list one execution take it from each other at every
    start. *)
Lemma contested_link_swaps :
  let goals := [linking_goal "g1" ["e1"]; linking_goal "g2" ["e1"]] in
  link_outcome_of goals (hinting_execution "e1" (Some "g1") []) = linked "g2"
  /\ link_outcome_of goals (hinting_execution "e1" (Some "g2") []) = linked "g1".
Proof. by split. Qed.

(** An active goal takes an execution that points to a goal which is gone; the
    second loop, which still sees the old link, flags the old copy and thereby
    takes the repair back. *)
Lemma repaired_link_is_undone :
  let e := hinting_execution "e1" (Some "deleted") [] in
  let w := set_w_goals [("g1", goal_dump (linking_goal "g1" ["e1"]))] (set_w_executions [("e1", e)] empty_world) in
  exists report w', reconcile_goals_once w = (Ok report, w')
    /\ gr_repaired_execution_goal_links report = 1
    /\ (ex_goal_id <$> dget "e1" (w_executions w')) = Some (Some "deleted").
Proof. vm_compute. by eexists _, _. Qed.

(** ** The outbox *)

Definition sample_event (id event_type status : string) : GraphProjectionEvent :=
  mkProjection id event_type "goal" "g1" t0 None None [] 1 "goal_service" None status 0 None None t0 t0.

Definition outbox_world : world :=
  set_w_outbox [("a", sample_event "a" "goal.created" "pending"); ("b", sample_event "b" " " "pending");
                ("c", sample_event "c" "goal.updated" "failed")] empty_world.

Lemma outbox_world_ok : outbox_ok (w_outbox outbox_world).
Proof.
  split; [split|].
  - cbn. repeat constructor; rewrite list_elem_of_In; cbn; by intuition.
  - intros k ev Hin%dget_In. cbn in Hin. destruct Hin as [[= <- <-]|[[= <- <-]|[[= <- <-]|[]]]]; reflexivity.
  - intros k ev Hin%dget_In. cbn in Hin.
    destruct Hin as [[= <- <-]|[[= <- <-]|[[= <- <-]|[]]]]; (split; [apply t0_in_range|done|apply t0_in_range..]).
Qed.

(** Two passes of one event each settle both pending events. *)
Lemma outbox_drains_witness :
  returns (passes 2 1 None) outbox_world (fun _ w' =>
    count_values pending (w_outbox w') = O
    /\ map gp_status (dvalues (w_outbox w')) = ["projected"; "failed"; "failed"]).
Proof.
  pose proof (outbox_drains sample_clock_representable 1 2 None outbox_world eq_refl) as Hd.
  destruct Hd as (r & w' & Hrun & Hz & _); [vm_compute; discriminate|apply outbox_world_ok|].
  exists r, w'. split; [exact Hrun|]. split; [exact Hz|].
  assert (Hw : w' = (passes 2 1 None outbox_world).2) by (by rewrite Hrun). rewrite Hw. vm_compute. reflexivity.
Defined.
