(* ===== verification/ExecutionService.v ===== *)
(** * The execution service

    [ExecutionService] of [app/services/executions.py]: what the routes and the main
    agent call to list, launch, retry and resume executions, over the registry, the
    control plane and the goal service.

    A launch that registers a workflow or model profiles first is those
    registrations, which are construction of the process, followed by the launch
    modelled here.  Context packs are kept by the memory service; the service asks
    for one by its identifier ([ContextPacks]).  The answers are the values that the
    documents of the API are dumped from.  Log lines, usage summaries and the
    streams only read and are not modelled. *)

From Corelib Require Import SpecFloat.
From S2P Require Export GoalService Classification ControlPlane.

(** The fields of a context pack that a launch records. *)
Record ContextPack := mkContextPack {
  cpk_id : string;
  cpk_scope : string;
  cpk_mode : pyval;
  cpk_summary : string;
  cpk_source_conversation_id : option string
}.

(** [MemoryService.get_context_pack_by_id] for a reader *)
Class ContextPacks := get_context_pack_by_id : string -> option string -> option ContextPack.

(** The limits of the staleness classification in the settings. *)
Class StalenessSettings := {
  monitor_stale_after_seconds : Z;
  activity_idle_timeout_seconds : option Z;
  agent_run_timeout_seconds : option Z
}.

Definition context_pack_trigger (pack : ContextPack) : dict pyval :=
  [("id", PStr (cpk_id pack)); ("scope", PStr (cpk_scope pack)); ("mode", cpk_mode pack);
   ("summary", PStr (cpk_summary pack)); ("source_conversation_id", opt_str (cpk_source_conversation_id pack))].

(** [_selected_context_pack_id] *)
Definition selected_context_pack_id (context_pack_id : option string) (input_payload trigger : dict pyval) :
    option string :=
  head (omap (fun candidate => match candidate with
                               | PStr s => if String.eqb (py_strip s) "" then None else Some (py_strip s)
                               | _ => None
                               end)
    [opt_str context_pack_id; pget "context_pack_id" input_payload; pget "contextPackId" input_payload;
     pget "context_pack_id" trigger; pget "contextPackId" trigger]).

(** [node_type == "task" and (task_id == ... or id == ...)] *)
Definition is_retry_node (task_id : string) (node : WorkflowNode) : bool :=
  bool_decide (wn_node_type node = NODE_TASK)
  && (opt_eqb (wn_task_id node) (Some task_id) || String.eqb (wn_id node) task_id).

Definition has_task_id (task_id : string) (task : TaskDefinition) : bool := String.eqb (td_id task) task_id.

(** [_source_node_outputs] *)
Definition source_node_outputs (e : Execution) (state : option NativeExecutionState) : dict pyval :=
  match state with
  | Some st => st_node_outputs st
  | None => dict_or_empty (pget "node_outputs" (default [] (ex_output_payload e)))
  end.

(** What a retry or a resumption answers. *)
Record RetryResult := mkRetry {
  rt_source_execution_id : string;
  rt_replacement_execution_id : string;
  rt_task_id : string;
  rt_node_id : string
}.

(** [next(...)] of the first element after the last completed one *)
Definition node_is_completed (outputs : dict pyval) (node : WorkflowNode) : bool := dmem (wn_id node) outputs.

(** The nodes after the last completed one, with that one. *)
Fixpoint after_last_completed (outputs : dict pyval) (nodes : list WorkflowNode) :
    option (WorkflowNode * list WorkflowNode) :=
  match nodes with
  | [] => None
  | node :: rest =>
      match after_last_completed outputs rest with
      | Some found => Some found
      | None => if node_is_completed outputs node then Some (node, rest) else None
      end
  end.

Section Service.
Context `{Env} `{Config} `{Conversions} `{Workflows} `{Runtimes} `{CreationContext} `{GoalContext}.
Context `{ContextPacks} `{StalenessSettings}.

(** ** Listing *)

(** [_execution_payload]: the execution and its classification. *)
Definition execution_payload (e : Execution) : M (Execution * staleness) :=
  classification ← classify_execution_staleness e monitor_stale_after_seconds activity_idle_timeout_seconds
                     agent_run_timeout_seconds;
  mret (e, classification).

Fixpoint execution_payloads (executions : list Execution) : M (list (Execution * staleness)) :=
  match executions with
  | [] => mret []
  | e :: rest => item ← execution_payload e; items ← execution_payloads rest; mret (item :: items)
  end.

(** [agent_id in (execution.metadata.get("agent_ids") or [])] *)
Definition has_agent (agent_id : string) (e : Execution) : M bool :=
  match py_or (pget "agent_ids" (ex_metadata e)) (PList []) with
  | PList l => mret (existsb (py_eqb (PStr agent_id)) l)
  | PDict d => mret (dmem agent_id d)
  | PStr s => mret (contains agent_id s)
  | _ => raise TypeError "argument is not iterable"
  end.

(** [list_executions_by_agent] *)
Definition list_executions_by_agent (agent_id : string) : M (list Execution) :=
  executions ← gets (fun w => dvalues (w_executions w));
  collect (fun e => b ← has_agent agent_id e; mret (if (b : bool) then [e] else [])) executions.

(** The objects behind a list of identifiers. *)
Definition deref_all (ids : list string) : M (list Execution) :=
  collect (fun i => e ← deref i; mret [e]) ids.

(** [sorted(..., key=created_at, reverse=True)] keeps the order of equal keys. *)
Definition newest_first (a b : Execution) : bool := ex_created_at b <=? ex_created_at a.

Definition normalized_statuses (statuses : list string) : list string :=
  List.filter (fun s => negb (String.eqb s "")) (map (fun s => py_lower (py_strip s)) statuses).

(** [list_executions] *)
Definition service_list_executions (workflow_id agent_id : option string) (statuses : list string)
    (active_only : bool) (limit : option Z) : M (list (Execution * staleness)) :=
  executions ←
    (if str_truthy workflow_id then
       ids ← list_executions_by_workflow (default "" workflow_id); deref_all ids
     else if str_truthy agent_id then list_executions_by_agent (default "" agent_id)
     else if active_only then ids ← list_active_executions; deref_all ids
     else gets (fun w => dvalues (w_executions w)));
  let wanted := normalized_statuses statuses in
  let executions :=
    match wanted with
    | [] => executions
    | _ => List.filter (fun e => mem_str (status_value (ex_status e)) wanted) executions
    end in
  let executions := py_sorted newest_first executions in
  execution_payloads
    (match limit with
     | Some n => if 0 <? n then slice_to n executions else executions
     | None => executions
     end).

(** [_build_replacement_chain]: the reason, the replaced execution and the
    replacements. *)
Definition build_replacement_chain (execution_id : string) :
    M (option string * option Execution * list Execution) :=
  e ← find_or_raise execution_id;
  replaced ← (if str_truthy (ex_replacement_of_execution_id e) then
                gets (fun w => dget (default "" (ex_replacement_of_execution_id e)) (w_executions w))
              else mret None);
  all ← gets (fun w => dvalues (w_executions w));
  mret (ex_restart_reason e, replaced,
        List.filter (fun item => opt_eqb (ex_replacement_of_execution_id item) (Some execution_id)) all).

(** ** Launching *)

(** The link that a launch, a retry or a resumption records on the goal. *)
Definition link_if_goal (goal_id : option string) (execution_id : string) : M unit :=
  when (str_truthy goal_id) (link_execution (default "" goal_id) execution_id;; mret tt).

(** [create_execution] *)
Definition service_create_execution (workflow_id : string) (input_payload trigger : dict pyval)
    (goal_id context_pack_id runtime_adapter_id execution_host current_user : option string) : M string :=
  let trigger := match current_user with
                 | Some user_id => dset "created_by" (PStr user_id) (dpop "run_by" trigger)
                 | None => trigger
                 end in
  '(input_payload, trigger) ←
    (if str_truthy goal_id then
       g ← get_goal (default "" goal_id);
       mret (dsetdefault "goal_id" (PStr (go_id g)) input_payload, dset "goal_id" (PStr (go_id g)) trigger)
     else mret (input_payload, trigger));
  let trigger := if str_truthy execution_host
                 then dset "execution_host" (PStr (default "" execution_host)) trigger else trigger in
  '(input_payload, trigger) ←
    match selected_context_pack_id context_pack_id input_payload trigger with
    | None => mret (input_payload, trigger)
    | Some pack_id =>
        match get_context_pack_by_id pack_id current_user with
        | None => raise ValueError ("Context pack '" +:+ pack_id +:+ "' was not found or is not readable.")
        | Some pack =>
            mret (dsetdefault "context_pack_id" (PStr (cpk_id pack)) input_payload,
                  dset "context_pack" (PDict (context_pack_trigger pack))
                    (dset "context_pack_id" (PStr (cpk_id pack)) trigger))
        end
    end;
  execution_id ← registry_create_execution workflow_id input_payload trigger runtime_adapter_id goal_id;
  link_if_goal goal_id execution_id;;
  mret execution_id.

(** ** Replacements that continue an execution *)

(** The common part of [retry_task] and [resume_from_checkpoint]: a new execution
    of the same workflow with [metadata] added, linked to the goal and queued. *)
Definition queue_replacement (source : Execution) (trigger : dict pyval) (restart_reason : string)
    (metadata : dict pyval) : M string :=
  i ← registry_create_execution (ex_workflow_id source) (ex_input_payload source) trigger (Some "native")
        (ex_goal_id source);
  assign i (set_ex_replacement_of_execution_id (Some (ex_id source)));;
  assign i (set_ex_restart_reason (Some restart_reason));;
  assign i (fun e => set_ex_metadata (dupdate (ex_metadata e) metadata) e);;
  update_execution i;;
  link_if_goal (ex_goal_id source) i;;
  queue_start i.

(** [reason or f"..."] *)
Definition reason_or (reason : option string) (text : string) : string :=
  if str_truthy reason then default "" reason else text.

(** [actor or source_execution.created_by] *)
Definition retry_actor (actor : option string) (source : Execution) : pyval :=
  opt_str (if str_truthy actor then actor else ex_created_by source).

(** The metadata under which the engine skips to a task. *)
Definition task_retry_entry (source_execution_id task_id node_id : string) (reason : option string)
    (prior_node_outputs : dict pyval) : string * pyval :=
  ("task_retry", PDict
    [("source_execution_id", PStr source_execution_id); ("task_id", PStr task_id); ("node_id", PStr node_id);
     ("reason", opt_str reason); ("prior_node_outputs", PDict prior_node_outputs)]).

(** [retry_task] *)
Definition retry_task (execution_id task_id : string) (reason actor : option string) : M RetryResult :=
  source ← find_or_raise execution_id;
  if negb (String.eqb (ex_runtime_adapter_id source) "native") then
    raise ValueError "Task retry is currently supported only for native runtime executions."
  else if negb (bool_decide (ex_status source = FAILED)) then
    raise ValueError "Task retry requires a failed source execution."
  else
    wf ← workflow_or_raise (ex_workflow_id source);
    match List.find (has_task_id task_id) (wf_task_definitions wf) with
    | None => raise WorkflowNotFoundError ("Task '" +:+ task_id +:+ "' was not found in workflow '" +:+ wf_id wf +:+ "'")
    | Some task =>
        match List.find (is_retry_node task_id) (wf_nodes wf) with
        | None => raise WorkflowNotFoundError ("Task '" +:+ task_id +:+ "' does not have a workflow graph node.")
        | Some node =>
            events ← list_events execution_id;
            let has_failed_task_event :=
              existsb (fun ev => opt_eqb (ev_task_id ev) (Some task_id)
                                 && bool_decide (ev_event_type ev = AGENT_STEP_FAILED)) events in
            '(_, state) ← get_execution_state execution_id;
            let current_task_id := match state with Some st => st_current_task_id st | None => None end in
            if negb has_failed_task_event && negb (opt_eqb current_task_id (Some task_id)) then
              raise ValueError ("Task '" +:+ task_id +:+ "' does not have failed runtime evidence on execution '"
                                +:+ execution_id +:+ "'.")
            else
              let prior := dpop (wn_id node) (source_node_outputs source state) in
              let trigger := dupdate (ex_trigger_payload source)
                [("type", PStr "task_retry"); ("source_execution_id", PStr execution_id); ("task_id", PStr task_id);
                 ("node_id", PStr (wn_id node)); ("reason", opt_str reason);
                 ("created_by", retry_actor actor source)] in
              i ← queue_replacement source trigger
                    (reason_or reason ("Retry task '" +:+ text_or (td_name task) (td_id task) +:+ "'"))
                    [task_retry_entry execution_id task_id (wn_id node) reason prior];
              mret (mkRetry execution_id i task_id (wn_id node))
        end
    end.

(** [resume_from_checkpoint] *)
Definition resume_from_checkpoint (execution_id : string) (reason actor : option string) : M RetryResult :=
  source ← find_or_raise execution_id;
  if negb (String.eqb (ex_runtime_adapter_id source) "native") then
    raise ValueError "Checkpoint resume is currently supported only for native runtime executions."
  else if negb (bool_decide (ex_status source ∈ [FAILED; PAUSED; CANCELLED])) then
    raise ValueError "Checkpoint resume requires a failed, paused, or cancelled source execution."
  else
    wf ← workflow_or_raise (ex_workflow_id source);
    '(_, state) ← get_execution_state execution_id;
    let outputs := source_node_outputs source state in
    if (List.length outputs =? 0)%nat then
      raise ValueError ("Execution '" +:+ execution_id +:+ "' has no completed node outputs to resume from.")
    else
      let ordered_task_nodes := List.filter is_task_node (order_nodes wf) in
      match after_last_completed outputs ordered_task_nodes with
      | None => raise ValueError ("Execution '" +:+ execution_id
                  +:+ "' has no workflow checkpoint that matches current graph nodes.")
      | Some (last_completed, remaining) =>
          let resume_node := List.find (fun node => negb (node_is_completed outputs node)) remaining in
          match resume_node with
          | Some node =>
              if negb (str_truthy (wn_task_id node)) then
                raise ValueError ("Execution '" +:+ execution_id +:+ "' has no remaining task after the latest checkpoint.")
              else
                let resume_task_id := default "" (wn_task_id node) in
                match List.find (has_task_id resume_task_id) (wf_task_definitions wf) with
                | None => raise WorkflowNotFoundError ("Task '" +:+ resume_task_id +:+ "' was not found in workflow '"
                            +:+ wf_id wf +:+ "'")
                | Some task =>
                    let trigger := dupdate (ex_trigger_payload source)
                      [("type", PStr "checkpoint_resume"); ("source_execution_id", PStr execution_id);
                       ("resume_node_id", PStr (wn_id node)); ("task_id", PStr (td_id task));
                       ("reason", opt_str reason); ("created_by", retry_actor actor source)] in
                    i ← queue_replacement source trigger
                          (reason_or reason ("Resume from checkpoint before task '"
                                             +:+ text_or (td_name task) (td_id task) +:+ "'"))
                          [("checkpoint_resume", PDict
                             [("source_execution_id", PStr execution_id);
                              ("last_completed_node_id", PStr (wn_id last_completed));
                              ("resume_node_id", PStr (wn_id node)); ("task_id", PStr (td_id task));
                              ("reason", opt_str reason); ("prior_node_outputs", PDict outputs)]);
                           task_retry_entry execution_id (td_id task) (wn_id node) reason outputs];
                    mret (mkRetry execution_id i (td_id task) (wn_id node))
                end
          | None => raise ValueError ("Execution '" +:+ execution_id +:+ "' has no remaining task after the latest checkpoint.")
          end
      end.

End Service.

(** ** Commands *)

Section Commands.
Context `{Env} `{Config} `{Runtimes} `{Preparation} `{Workflows} `{ContainerManager}.

(** [approve] and [reject] *)
Definition service_approve (execution_id tool_id : string) (reason : option string) : M unit :=
  approved ← cp_approve execution_id tool_id reason;
  if (approved : bool) then mret tt else raise ExecutionNotFoundError "Pending approval was not found".

Definition service_reject (execution_id tool_id : string) (reason : option string) : M unit :=
  rejected ← cp_reject execution_id tool_id reason;
  if (rejected : bool) then mret tt else raise ExecutionNotFoundError "Pending approval was not found".

(** [list_execution_approvals] *)
Definition service_list_approvals (execution_id : string) : M (list ApprovalRequest) :=
  find_or_raise execution_id;;
  list_approval_requests execution_id.

(** [list_execution_artifacts] *)
Definition service_list_artifacts (execution_id : string) : M (list ExecutionArtifact) :=
  find_or_raise execution_id;;
  list_artifacts execution_id.
End Commands.
