(* ===== verification/ExecutionServiceFacts.v ===== *)
(** * Launching and retrying

    A launched execution belongs to the user who launched it; a retry queues a new
    execution that carries the outputs of its failed source and leaves the source
    as it is. *)

From Corelib Require Import SpecFloat.
From S2P Require Export CreationFacts GoalDocs ExecutionService.

(** ** Links *)

Section Links.
Context `{Env} `{Conversions} `{GoalContext}.

Hint Extern 3 (evolves beside_goals (modify _)) => intros ?; by split : evolve.

Lemma beside_utc_now : evolves beside_goals utc_now.
Proof. by intros w. Qed.
Lemma beside_uuid4 : evolves beside_goals uuid4.
Proof. by intros w. Qed.
Hint Resolve beside_utc_now beside_uuid4 : evolve.

Lemma beside_goal_validate d : evolves beside_goals (goal_validate d).
Proof. apply evolves_goal_validate; [exact _|apply beside_utc_now|apply beside_uuid4]. Qed.
Hint Resolve beside_goal_validate : evolve.

Lemma beside_projection t g p x : evolves beside_goals (append_goal_projection_event t g p x).
Proof. intros w. apply (kept_projection t g p x w). Qed.
Hint Resolve beside_projection : evolve.

Lemma beside_get_goal i : evolves beside_goals (get_goal i).
Proof. unfold get_goal, catalog_get, deserialize. cbn [mc_validate goal_model]. evolve. Qed.
Hint Resolve beside_get_goal : evolve.

Lemma beside_save_goal g : evolves beside_goals (catalog_save goal_model g).
Proof.
  unfold catalog_save, store_payload, payload_id, deserialize. cbn [mc_validate goal_model]. evolve.
Qed.
Hint Resolve beside_save_goal : evolve.

Lemma beside_update_goal i patch : evolves beside_goals (update_goal i patch).
Proof. unfold update_goal. evolve. Qed.
Hint Resolve beside_update_goal : evolve.

Lemma beside_link g i : evolves beside_goals (link_if_goal g i).
Proof. unfold link_if_goal, link_execution. evolve. Qed.

(** Linking lists the execution once, after those that the goal had. *)
Definition linked_ids (i : string) (ids : list string) : list string := if mem_str i ids then ids else ids ++ [i].

Lemma link_execution_run g i x w :
  (forall n, representable (env_now n)) -> goal_stored g i w -> goal_valid g -> go_id g = i ->
  returns (link_execution i x) w (fun g' w' =>
    g' = with_executions (linked_ids x (go_execution_ids g)) (env_now (w_clock w)) g
    /\ goal_stored g' i w' /\ goal_step i w w').
Proof.
  intros Hclock Hst Hv Hid. unfold link_execution. eapply returns_step; [by apply get_stored|].
  cbv zeta. fold (linked_ids x (go_execution_ids g)). set (ids := linked_ids x (go_execution_ids g)).
  set (g' := with_executions ids (env_now (w_clock w)) g).
  assert (Hv' : goal_valid g') by (destruct Hv; split; try done; apply Hclock).
  eapply returns_bind; [eapply (update_stored_goal g g' i [("execution_ids", PList (map PStr ids))]); [done|done|done|done|]|].
  - intros w0. rewrite <-Hid. unfold goal_dump, dupdate. cbn [fold_left fst snd].
    apply (validate_goal_document g').
    + done.
    + apply goal_status_of_value.
    + apply as_dicts_map.
    + apply as_dicts_map.
    + apply (optional_dict (go_evaluation g)).
    + apply optional_datetime, (gv_completed_text g Hv).
    + apply json_datetime_reads, Hclock.
    + done.
  - intros u w1 (-> & Hst1 & Hs1). eapply returns_bind; [apply projection_returns|]. intros [] w2 Hk.
    eapply returns_intro; [done|]. split; [done|]. split; [by eapply goals_kept_stored|].
    etransitivity; [exact Hs1|by apply goals_kept_step].
Qed.
End Links.

(** ** Launching *)

Section Launch.
Context `{Env} `{Config} `{Conversions} `{Workflows} `{Runtimes} `{CreationContext} `{GoalContext} `{ContextPacks}.

Definition goals_same (w w' : world) : Prop := w_goals w' = w_goals w.
#[local] Instance goals_same_preorder : PreOrder goals_same.
Proof. split; [by intros w|]. intros w1 w2 w3 Ha Hb. unfold goals_same in *. congruence. Qed.

Hint Extern 3 (evolves goals_same (modify _)) => intros ?; reflexivity : evolve.
Lemma goals_utc_now : evolves goals_same utc_now.
Proof. by intros w. Qed.
Lemma goals_uuid4 : evolves goals_same uuid4.
Proof. by intros w. Qed.
Lemma goals_assign i f : evolves goals_same (assign i f).
Proof. by intros w. Qed.
Hint Resolve goals_utc_now goals_uuid4 goals_assign evolves_read_value evolves_lifecycle evolves_runtime_policy : evolve.

Lemma goals_emit_at i ty a p m md ag t : evolves goals_same (emit_at i ty a p m md ag t).
Proof.
  unfold emit_at, state_of, put_state, emit, save_event, append_event, get_execution, repo_save_execution. evolve.
Qed.
Hint Resolve goals_emit_at : evolve.

(** Creating an execution leaves the goals alone. *)
Lemma goals_registry_create wid input trigger adapter goal :
  evolves goals_same (registry_create_execution wid input trigger adapter goal).
Proof.
  assert (Hcrew : forall e, evolves goals_same (crewai_prepare_execution e)).
  { intros e. unfold crewai_prepare_execution, new_state, put_crewai_state, save_execution, create_execution,
      get_execution, emit_simple, emit, save_event, append_event, get_execution, repo_save_execution. evolve. }
  assert (Hnative : forall e, evolves goals_same (prepare_execution e)).
  { intros e. unfold prepare_execution, new_state, put_state, save_execution, create_execution, get_execution,
      engine_event. evolve. }
  assert (Hrun : forall wf n c, (forall e, evolves goals_same (ac_prepare c e)) ->
    evolves goals_same (e ← registry_execution wf wid input trigger (normalized_runtime_adapter_id adapter) n goal;
                        ac_prepare c e;; mret (ex_id e))).
  { intros wf n c Hc. unfold registry_execution, new_execution. evolve. }
  intros w. unfold world_after, registry_create_execution, workflow_or_raise, resolve_adapter_for_workflow, get_creation.
  destruct (get_workflow wid) as [wf|]; [|reflexivity]. cbv zeta. set (name := default "native" _).
  destruct (String.eqb name "native"); [exact (Hrun wf name native_creation Hnative w)|].
  destruct (String.eqb name "crewai"); [|reflexivity].
  pose proof (Hrun wf name crewai_creation Hcrew w) as Hr. cbv [mbind M_bind mret M_ret ac_supports crewai_creation].
  destruct (crewai_supports wf); [exact Hr|reflexivity].
Qed.

(** What a launch that returns has done. *)
Definition goal_is_stored (goal_id : option string) (w : world) : Prop :=
  forall gid, goal_id = Some gid -> gid <> "" ->
    exists g, goal_stored g gid w /\ goal_valid g /\ go_id g = gid.

(** The trigger keeps the identity through the entries that the launch adds. *)
Definition identified (user : string) (trigger : dict pyval) : Prop :=
  pget "created_by" trigger = PStr user /\ pget "run_by" trigger = PNone.

Lemma identified_dset user k v trigger : k <> "created_by" -> k <> "run_by" ->
  identified user trigger -> identified user (dset k v trigger).
Proof. intros Hkc Hkr [Hc Hr]. unfold identified, pget in *. rewrite !dget_dset_ne by congruence. by split. Qed.

Lemma identified_start user trigger : identified user (dset "created_by" (PStr user) (dpop "run_by" trigger)).
Proof. split; unfold pget; [by rewrite dget_dset_eq|]. rewrite dget_dset_ne by done. by rewrite dget_dpop_eq. Qed.

Lemma goal_link_keeps_executions goal i w r w' : link_if_goal goal i w = (r, w') -> w_executions w' = w_executions w.
Proof. intros Hl. pose proof (beside_link goal i w) as Hb. unfold world_after in Hb. rewrite Hl in Hb. apply Hb. Qed.

(** C29. A launched execution belongs to the user who launched it.  When
    [create_execution] returns for an authenticated user, under an unused id and for
    a goal, if any, that is stored, the new execution is
    stored as created by that user whatever the trigger says about [created_by] or
    [run_by]; it has the workflow, the goal and the adapter of the request; the
    goal lists it once after the executions it had; and no other execution
    changes but for activity stamps. *)
Theorem launch_keeps_identity wid input trigger goal pack adapter host user i w w' :
  (forall n, representable (env_now n)) ->
  unused (env_uuid (w_uuids w)) w -> goal_is_stored goal w -> user <> "" ->
  service_create_execution wid input trigger goal pack adapter host (Some user) w = (Ok i, w') ->
  exists e, dget i (w_executions w') = Some e /\ i = env_uuid (w_uuids w)
    /\ ex_status e = CREATED /\ ex_workflow_id e = wid /\ ex_goal_id e = goal
    /\ ex_runtime_adapter_id e = adapter_of adapter
    /\ ex_created_by e = Some user /\ identified user (ex_trigger_payload e)
    /\ (forall gid g, goal = Some gid -> gid <> "" -> goal_stored g gid w -> goal_valid g ->
          exists t, goal_stored (with_executions (linked_ids i (go_execution_ids g)) t g) gid w')
    /\ others_stamped i w w'.
Proof.
  intros Hclock Hfresh Hgoal Huser. unfold service_create_execution. cbv zeta.
  set (trigger0 := dset "created_by" _ _). assert (Hid0 : identified user trigger0) by apply identified_start.
  clearbody trigger0. intros Hrun.
  apply bind_inv in Hrun as ([input1 trigger1] & w1 & Hg & Hrun).
  assert (w1 = w /\ identified user trigger1) as [-> Hid1].
  { destruct (str_truthy goal) eqn:Htr; [|by injection Hg as <- <- <-].
    destruct goal as [gid|]; [|done]. cbn in Htr. apply negb_true_iff, String.eqb_neq in Htr.
    destruct (Hgoal gid eq_refl Htr) as (g & Hst & Hv & Hgid). cbn [default from_option id] in Hg.
    rewrite (bind_Ok _ _ _ _ _ (get_stored g gid w Hst Hv)) in Hg. injection Hg as <- <- <-.
    split; [done|]. by apply identified_dset. }
  clear Hg. cbn beta iota in Hrun. set (trigger2 := if str_truthy host then _ else _) in Hrun.
  assert (Hid2 : identified user trigger2) by (unfold trigger2; destruct (str_truthy host); [by apply identified_dset|done]).
  clearbody trigger2. apply bind_inv in Hrun as ([input3 trigger3] & w3 & Hp & Hrun).
  assert (w3 = w /\ identified user trigger3) as [-> Hid3].
  { destruct (selected_context_pack_id _ _ _) as [p|]; [|by injection Hp as <- <- <-].
    destruct (get_context_pack_by_id p _) as [cp|]; [|done]. injection Hp as <- <- <-.
    split; [done|]. by do 2 (apply identified_dset; [done|done|]). }
  clear Hp. cbn beta iota in Hrun. apply bind_inv in Hrun as (i1 & w4 & Hcreate & Hrun).
  pose proof (goals_registry_create wid input3 trigger3 adapter goal w) as Hgs. unfold world_after in Hgs.
  rewrite Hcreate in Hgs. cbn [snd] in Hgs.
  apply registry_create_spec in Hcreate as (wf & e & ev & _ & Hi & He & Hcr & Ho & _); [|done].
  apply bind_inv in Hrun as ([] & w5 & Hlink & Hrun). injection Hrun as <- <-.
  pose proof (goal_link_keeps_executions _ _ _ _ _ Hlink) as Hx.
  exists e. rewrite Hx. split; [done|]. split; [done|]. destruct Hcr. destruct Hid3 as [Hby Hrb].
  do 4 (split; [done|]). split.
  { apply cr_created_by. rewrite Hby. unfold py_or, truthy. by rewrite (proj2 (String.eqb_neq user "") Huser). }
  split; [by rewrite cr_trigger|]. split.
  - intros gid g -> Hne Hst Hv. unfold link_if_goal in Hlink. cbn [str_truthy default from_option id] in Hlink.
    rewrite (proj2 (String.eqb_neq gid "") Hne) in Hlink. cbn [negb when] in Hlink.
    destruct (Hgoal gid eq_refl Hne) as (g0 & Hst0 & Hv0 & Hg0).
    assert (g0 = g) as ->.
    { pose proof (get_stored g0 gid w Hst0 Hv0) as Hg1. rewrite (get_stored g gid w Hst Hv) in Hg1. congruence. }
    assert (Hst4 : goal_stored g gid w4) by (unfold goal_stored; by rewrite Hgs).
    destruct (link_execution_run g gid i1 w4 Hclock Hst4 Hv Hg0) as (u & w6 & Hl & -> & Hst6 & _).
    rewrite (bind_Ok _ _ _ _ _ Hl) in Hlink. injection Hlink as <-. by eexists.
  - intros j Hj. rewrite Hx. by apply Ho.
Qed.
End Launch.

(** ** Continuing an execution *)

(** [e], stored under [i], continues [source]: it is queued, it repeats the request
    of [source], and nothing but stamps of the others has changed. *)
Record continues `{Env} (source : Execution) (metadata : dict pyval) (i : string) (e : Execution) (w w' : world) : Prop := {
  cn_fresh : i = env_uuid (w_uuids w);
  cn_stored : dget i (w_executions w') = Some e;
  cn_status : ex_status e = QUEUED;
  cn_source : ex_replacement_of_execution_id e = Some (ex_id source);
  cn_workflow : ex_workflow_id e = ex_workflow_id source;
  cn_adapter : ex_runtime_adapter_id e = "native";
  cn_goal : ex_goal_id e = ex_goal_id source;
  cn_input : ex_input_payload e = ex_input_payload source;
  cn_metadata : exists m, ex_metadata e = dupdate m metadata;
  cn_others : others_stamped i w w'
}.

Section Continue.
Context `{Env} `{Config} `{Conversions} `{Workflows} `{Runtimes} `{CreationContext} `{GoalContext}.

(** An assignment to the new execution. *)
Lemma assigned i f e w : dget i (w_executions w) = Some e ->
  dget i (w_executions (world_after (assign i f) w)) = Some (f e)
  /\ forall j, j <> i -> dget j (w_executions (world_after (assign i f) w)) = dget j (w_executions w).
Proof.
  intros He. cbn. rewrite dget_dalter, String.eqb_refl, He. split; [done|].
  intros j Hj%String.eqb_neq. by rewrite dget_dalter, Hj.
Qed.

Lemma queue_replacement_runs source trigger rr metadata i w w' :
  unused (env_uuid (w_uuids w)) w ->
  queue_replacement source trigger rr metadata w = (Ok i, w') ->
  exists e, continues source metadata i e w w' /\ ex_trigger_payload e = trigger /\ ex_restart_reason e = Some rr.
Proof.
  intros Hfresh. unfold queue_replacement. intros (i1 & w1 & Hc & Hr)%bind_inv.
  apply registry_create_spec in Hc as (wf & e & ev & _ & Hi & He & Hcr & Ho & _); [|done].
  apply bind_inv in Hr as ([] & w2 & K2 & Hr). injection K2 as <-.
  apply bind_inv in Hr as ([] & w3 & K3 & Hr). injection K3 as <-.
  apply bind_inv in Hr as ([] & w4 & K4 & Hr). injection K4 as <-.
  apply bind_inv in Hr as ([] & w5 & K5 & Hr). unfold update_execution, repo_save_execution in K5.
  apply bind_inv in K5 as (now & w6 & Hn & K5). injection Hn as <- <-. injection K5 as <-.
  apply bind_inv in Hr as ([] & w7 & Hl & Hr). apply goal_link_keeps_executions in Hl.
  apply queue_start_runs in Hr as (-> & e1 & t & He1 & He' & Hj & _). rewrite Hl in He1, Hj. cbn in He1, Hj.
  rewrite !dget_dalter, String.eqb_refl, He in He1. cbn in He1. injection He1 as <-.
  destruct Hcr. lazymatch type of He' with _ = Some ?x => exists x end. split; [|split; [cbn; exact cr_trigger|reflexivity]].
  split; [exact Hi|exact He'|reflexivity|reflexivity|exact cr_workflow|exact cr_adapter|exact cr_goal|exact cr_input
         |by eexists|].
  intros j Hne. rewrite (Hj j Hne). apply String.eqb_neq in Hne as Hb. rewrite !dget_dalter, Hb. by apply Ho.
Qed.

(** The metadata that the engine reads. *)
Lemma retry_metadata_of m extra sid tid nid reason prior :
  let md := task_retry_metadata (dupdate m (extra ++ [task_retry_entry sid tid nid reason prior])) in
  pget "task_id" md = PStr tid /\ pget "node_id" md = PStr nid /\ pget "prior_node_outputs" md = PDict prior.
Proof.
  cbv zeta. unfold dupdate. rewrite fold_left_app. cbn [fold_left fst snd task_retry_entry].
  unfold task_retry_metadata, pget at 2 4 6. rewrite !dget_dset_eq. by split; [|split].
Qed.

Lemma after_last_completed_spec outputs nodes last rest :
  after_last_completed outputs nodes = Some (last, rest) ->
  exists before, nodes = before ++ last :: rest /\ node_is_completed outputs last = true
    /\ forall n, In n rest -> node_is_completed outputs n = false.
Proof.
  assert (Hnone : forall l, after_last_completed outputs l = None -> forall n, In n l -> node_is_completed outputs n = false).
  { induction l as [|x l IH]; [done|]. cbn. destruct (after_last_completed outputs l) as [p|]; [done|].
    destruct (node_is_completed outputs x) eqn:Hx; [done|]. intros _ n [<-|Hin]; [done|by apply IH]. }
  induction nodes as [|x nodes IH]; [done|]. cbn. destruct (after_last_completed outputs nodes) as [[l r]|] eqn:Ha.
  - intros [= -> ->]. destruct (IH eq_refl) as (before & -> & Hl & Hr). by exists (x :: before).
  - destruct (node_is_completed outputs x) eqn:Hx; [|done]. intros [= <- <-]. exists []. split; [done|].
    split; [done|]. by apply Hnone.
Qed.

Lemma find_or_raise_inv i e w w' : find_or_raise i w = (Ok e, w') -> w' = w /\ dget i (w_executions w) = Some e.
Proof.
  unfold find_or_raise, get_execution. intros (found & w0 & Hf & He)%bind_inv. injection Hf as <- <-.
  destruct (dget i (w_executions w)) as [e0|]; [|done]. by injection He as <- <-.
Qed.

Lemma get_execution_state_inv i e st w w' : get_execution_state i w = (Ok (e, st), w') ->
  w' = w /\ dget i (w_executions w) = Some e /\ st = dget i (w_states w).
Proof.
  unfold get_execution_state, get_execution. intros (found & w0 & Hf & He)%bind_inv. injection Hf as <- <-.
  destruct (dget i (w_executions w)) as [e0|]; [|done]. apply bind_inv in He as (st0 & w1 & Hs & He).
  injection Hs as <- <-. by injection He as <- <- <-.
Qed.

Lemma workflow_or_raise_inv wid wf w w' : workflow_or_raise wid w = (Ok wf, w') -> w' = w /\ get_workflow wid = Some wf.
Proof. unfold workflow_or_raise. destruct (get_workflow wid); [|done]. by intros [= -> ->]. Qed.

(** Where the run of a continuation starts: at the retried node without its
    output, or at the task node that follows the last completed one in the plan. *)
Definition retries_node (wf : WorkflowDefinition) (outputs : dict pyval) (task_id : string) (node : WorkflowNode)
    (prior : dict pyval) : Prop :=
  List.find (is_retry_node task_id) (wf_nodes wf) = Some node /\ prior = dpop (wn_id node) outputs.

Definition resumes_after (wf : WorkflowDefinition) (outputs : dict pyval) (task_id : string) (node : WorkflowNode)
    (prior : dict pyval) : Prop :=
  prior = outputs /\ wn_task_id node = Some task_id
  /\ exists before last rest, List.filter is_task_node (order_nodes wf) = before ++ last :: node :: rest
       /\ node_is_completed outputs last = true
       /\ forall n, In n (node :: rest) -> node_is_completed outputs n = false.

(** What the service and the engine agree on. *)
Definition continuation (start : WorkflowDefinition -> dict pyval -> string -> WorkflowNode -> dict pyval -> Prop)
    (statuses : list ExecutionStatus) (sid : string) (r : RetryResult) (w w' : world) : Prop :=
  exists source wf node prior metadata e,
    dget sid (w_executions w) = Some source /\ ex_status source ∈ statuses
    /\ ex_runtime_adapter_id source = "native" /\ get_workflow (ex_workflow_id source) = Some wf
    /\ start wf (source_node_outputs source (dget sid (w_states w))) (rt_task_id r) node prior
    /\ continues source metadata (rt_replacement_execution_id r) e w w'
    /\ let md := task_retry_metadata (ex_metadata e) in
       pget "task_id" md = PStr (rt_task_id r) /\ pget "node_id" md = PStr (wn_id node)
       /\ pget "prior_node_outputs" md = PDict prior.

(** Continuing an execution.  When [retry_task] or [resume_from_checkpoint]
    returns, its source was a failed (for a resumption also a paused or cancelled)
    native execution, and a new execution of the same workflow, goal and input is
    queued as its replacement, with the metadata that makes the engine skip to the
    task: for a retry the first node of the task and every output of the source
    but that of the node; for a resumption the task node that follows the last
    completed one in the plan, after which nothing is completed, and every output
    of the source.  The source and every other execution are unchanged but for
    activity stamps. *)
Theorem continuation_queued sid tid reason actor w r w' :
  unused (env_uuid (w_uuids w)) w ->
  (retry_task sid tid reason actor w = (Ok r, w') ->
     rt_task_id r = tid /\ continuation retries_node [FAILED] sid r w w')
  /\ (resume_from_checkpoint sid reason actor w = (Ok r, w') ->
     continuation resumes_after [FAILED; PAUSED; CANCELLED] sid r w w').
Proof.
  intros Hfresh. split.
  - unfold retry_task. intros (source & w1 & Hs & Hr)%bind_inv. apply find_or_raise_inv in Hs as [-> Hs].
    destruct (String.eqb_spec (ex_runtime_adapter_id source) "native") as [Had|]; [|done]. cbn [negb] in Hr.
    destruct (bool_decide_reflect (ex_status source = FAILED)) as [Hst|]; [|done]. cbn [negb] in Hr.
    apply bind_inv in Hr as (wf & w2 & Hwf & Hr). apply workflow_or_raise_inv in Hwf as [-> Hwf].
    destruct (List.find (has_task_id tid) _) as [task|]; [|done].
    destruct (List.find (is_retry_node tid) (wf_nodes wf)) as [node|] eqn:Hn; [|done].
    apply bind_inv in Hr as (events & w3 & Hev & Hr). injection Hev as _ <-. cbv zeta in Hr.
    apply bind_inv in Hr as ([e0 state] & w4 & Hst4 & Hr). apply get_execution_state_inv in Hst4 as (-> & _ & ->).
    destruct (negb _ && negb _); [done|].
    apply bind_inv in Hr as (i & w5 & Hq & Hr). injection Hr as <- <-.
    apply queue_replacement_runs in Hq as (e & Hc & _); [|done]. split; [done|].
    exists source, wf, node. do 3 eexists. split; [done|]. split; [rewrite Hst; by left|]. split; [done|]. split; [done|].
    split; [by split|]. split; [exact Hc|]. destruct (cn_metadata _ _ _ _ _ _ Hc) as [m Hm].
    cbv zeta. rewrite Hm. apply (retry_metadata_of m []).
  - unfold resume_from_checkpoint. intros (source & w1 & Hs & Hr)%bind_inv. apply find_or_raise_inv in Hs as [-> Hs].
    destruct (String.eqb_spec (ex_runtime_adapter_id source) "native") as [Had|]; [|done]. cbn [negb] in Hr.
    destruct (bool_decide_reflect (ex_status source ∈ [FAILED; PAUSED; CANCELLED])) as [Hst|]; [|done]. cbn [negb] in Hr.
    apply bind_inv in Hr as (wf & w2 & Hwf & Hr). apply workflow_or_raise_inv in Hwf as [-> Hwf].
    apply bind_inv in Hr as ([e0 state] & w4 & Hst4 & Hr). apply get_execution_state_inv in Hst4 as (-> & _ & ->).
    cbv zeta in Hr. set (outputs := source_node_outputs source _) in *.
    destruct (List.length outputs =? 0)%nat; [done|].
    destruct (after_last_completed outputs _) as [[last remaining]|] eqn:Ha; [|done].
    apply after_last_completed_spec in Ha as (before & Hplan & Hl & Hrest).
    destruct remaining as [|node rest]; [done|]. cbn [List.find] in Hr. rewrite (Hrest node (or_introl eq_refl)) in Hr.
    cbn [negb] in Hr. destruct (wn_task_id node) as [t|] eqn:Ht; [|done].
    cbn [default from_option id] in Hr. destruct (str_truthy (Some t)); [|done]. cbn [negb] in Hr.
    destruct (List.find (has_task_id t) _) as [task|] eqn:Hf; [|done].
    apply find_some in Hf as [_ Hf]. apply String.eqb_eq in Hf.
    apply bind_inv in Hr as (i & w5 & Hq & Hr). injection Hr as <- <-.
    apply queue_replacement_runs in Hq as (e & Hc & _); [|done].
    exists source, wf, node. do 3 eexists. split; [done|]. split; [done|]. split; [done|]. split; [done|].
    split; [split; [reflexivity|]; split; [by rewrite Ht, <-Hf|by exists before, last, rest]|].
    split; [exact Hc|]. destruct (cn_metadata _ _ _ _ _ _ Hc) as [m Hm]. cbv zeta. rewrite Hm.
    apply (retry_metadata_of m [("checkpoint_resume", _)]).
Qed.
End Continue.
