(* ===== verification/RetryFacts.v ===== *)
(** * Retrying a task and resuming from a checkpoint

    [retry_task] and [resume_from_checkpoint] create an execution that carries the
    outputs of its source; the run of that execution passes over the nodes before
    the task and walks the rest of the plan from those outputs. *)

From Corelib Require Import SpecFloat.
From S2P Require Export WalkFacts.
From S2P Require Import Scenarios Runs Fires GoalScenarios ExecutionServiceFacts Repair.

(** What a run that retries owes to the workflow: [start] is the state it starts
    with, whose outputs are the prior ones, [passed] and [node :: rest] the plan. *)
Record resumed `{Env} (wf : WorkflowDefinition) (start : NativeExecutionState) (passed rest : list WorkflowNode)
    (node : WorkflowNode) (st : NativeExecutionState) (prior := st_node_outputs start) : Prop := {
  rs_plan : order_nodes wf = passed ++ node :: rest;
  rs_prior : forall k v, dget k prior = Some v -> dget k (st_node_outputs st) = Some v;
  rs_passed : forall n, In n passed -> dget (wn_id n) (st_node_outputs st) = dget (wn_id n) prior;
  rs_walked : forall before n after, node :: rest = before ++ n :: after -> is_executable n = true ->
    exists st1, at_visit before start st st1
      /\ dmem (wn_id n) (st_node_outputs st) = dmem (wn_id n) prior || node_is_reachable wf n st1;
  rs_routed : topological wf (order_nodes wf) -> forall n, In n (node :: rest) -> is_executable n = true ->
    dmem (wn_id n) (st_node_outputs st) = dmem (wn_id n) prior || node_is_reachable wf n st;
  rs_outcome : forall k v, dget k prior = None -> dget k (st_node_outputs st) = Some v ->
    dget k (st_node_outcomes st) = Some (PStr (node_outcome v))
    /\ exists n, In n (node :: rest) /\ wn_id n = k /\ is_executable n = true
}.

Lemma walked_resumed `{Env} wf passed node rest st st' :
  List.NoDup (map wn_id (wf_nodes wf)) -> order_nodes wf = passed ++ node :: rest -> walked wf (node :: rest) st st' ->
  resumed wf st passed rest node st'.
Proof.
  intros Hnd Hplan Hw.
  assert (Hids : List.NoDup (map wn_id (passed ++ node :: rest))).
  { rewrite <-Hplan. eapply Permutation_NoDup; [|exact Hnd]. symmetry. apply Permutation_map, plan_permutation, Hnd. }
  assert (Hrest : List.NoDup (map wn_id (node :: rest)))
    by (rewrite map_app in Hids; by apply List.NoDup_app_remove_l in Hids).
  split; [done| | | | |].
  - intros k v Hk. by apply (walked_keeps wf _ _ _ _ _ Hw).
  - intros n Hn. apply (walked_frame wf _ _ _ _ Hw). rewrite map_app in Hids.
    intros Hin. apply (NoDup_app_disjoint _ _ Hids (wn_id n)); [by apply in_map|done].
  - intros before n after Hsplit Hex. rewrite Hsplit in Hw, Hrest. by apply (walked_visit wf before n after).
  - intros Htopo n Hn Hex. rewrite Hplan in Htopo. apply (topological_sources wf _ Hids) in Htopo.
    apply (walked_routes wf (node :: rest)); [done|by eapply sources_before_suffix|done..].
  - intros k v Hk Hv. by apply (walked_outcome wf _ _ _ _ _ Hw).
Qed.

(** Only the outputs and the outcomes of the final state matter. *)
Lemma resumed_same `{Env} wf start passed rest node st st' :
  st_node_outputs st' = st_node_outputs st -> st_node_outcomes st' = st_node_outcomes st ->
  resumed wf start passed rest node st -> resumed wf start passed rest node st'.
Proof.
  intros Ho Hc [R1 R2 R3 R4 R5 R6]. unfold at_visit in R4. split; [done|..]; unfold at_visit; rewrite ?Ho, ?Hc; auto.
  intros Htopo n Hin Hex. rewrite (R5 Htopo n Hin Hex). f_equal. apply reachable_local. intros. by rewrite Ho, Hc.
Qed.

(** C28. What a retry owes to the plan.  On a workflow whose node ids are unique,
    with agents and hooks that leave the engine's outputs and outcomes alone, when
    the walk of a run with task retry metadata returns, the plan splits at a node
    of the retried task: whatever state or checkpoint the run found, it starts
    from the prior outputs it was given and the outputs it ends with extend them,
    no node before the task was executed, and from the task on the executable
    nodes with an output are those with a prior output and those that routing
    enabled when they were visited.  When the plan lists the source of every edge
    before its target ([plan_topological]: the edges are acyclic and none enters
    the entrypoint), that is what routing enables in the final state. *)
Theorem retried_run_resumes `{Env} `{Workflows} `{Profiles} `{DecisionProvider} `{AgentExecutor} `{RunHooks}
    i (Hi : forall outputs outcomes, interfaces_keep (progress_is i outputs outcomes))
    wf policy e st task_id prior w w' :
  List.NoDup (map wn_id (wf_nodes wf)) ->
  dget i (w_executions w) = Some e ->
  retry_task_of (task_retry_metadata (ex_metadata e)) = Some task_id ->
  pget "prior_node_outputs" (task_retry_metadata (ex_metadata e)) = PDict prior ->
  dget i (w_states w) = Some st -> walk_plan i wf policy w = (Ok tt, w') ->
  let start := plan_run wf (order_nodes wf) (task_retry_metadata (ex_metadata e)) st in
  st_node_outputs start = prior
  /\ exists passed node rest st', dget i (w_states w') = Some st' /\ wn_task_id node = Some task_id
       /\ resumed wf start passed rest node st'.
Proof.
  intros Hnd He Htask Hprior Hst. unfold walk_plan.
  rewrite (bind_Ok _ _ w e w) by (unfold deref; by rewrite He).
  cbv zeta. set (md := task_retry_metadata _) in *. rewrite Htask. unfold update_state. rewrite bind_unfold.
  rewrite (bind_Ok _ _ _ _ _ (state_of_spec i st w Hst)). cbn [put_state modify mret M_ret].
  set (st0 := plan_run wf (order_nodes wf) md st). set (w0 := set_w_states _ w).
  assert (Ho0 : st_node_outputs st0 = prior) by (unfold st0, plan_run; by rewrite Hprior).
  assert (Hp : progress_is i (st_node_outputs st0) (st_node_outcomes st0) w0).
  { exists st0. unfold w0. cbn [w_states set_w_states]. by rewrite dget_dset_eq. }
  intros ([] & w1 & K1 & (ls & w2 & K2 & K3)%bind_inv)%bind_inv. split; [done|].
  eapply (keeps_run _ (progress_is i (st_node_outputs st0) (st_node_outcomes st0))) in K1; [| |exact Hp].
  2: { pose proof (fun wf r => progress_workflow_approval i _ _ (Hi (st_node_outputs st0) (st_node_outcomes st0)) wf r).
       evolve. }
  assert (Hls : ls_retry_started ls = true) by (revert K3; by destruct (ls_retry_started ls)).
  rewrite Hls in K3. injection K3 as <-.
  destruct (run_nodes_retry (mkRun i wf policy task_id) Hi (order_nodes wf) (mkLoop false None) st0 w1 ls w2
    eq_refl K1 K2 Hls) as (passed & node & rest & st' & Hplan & Hn & Hw & st2 & Hst2 & Ho & Hc).
  exists passed, node, rest, st2. split; [done|]. split; [exact Hn|].
  apply (resumed_same _ _ _ _ _ st'); [done|done|]. by apply walked_resumed.
Qed.

(** * Concrete launches and retries

    A failed execution of the branching workflow is retried and its replacement is
    run; a launch on behalf of a user; and what a retried run does after it paused. *)

#[export] Instance no_context_packs : ContextPacks := fun _ _ => None.
#[export] Instance branching_again : Workflows := fun _ => Some branching.

(** Task [a] has completed and task [b] has failed. *)
Definition failed_state : NativeExecutionState := set_st_current_task_id (Some "b") restored_state.
Definition failed_world : world := set_w_states [("e1", failed_state)] (sample_world FAILED).

Definition retry_b : M RetryResult := retry_task "e1" "b" (Some "network") None.
Definition retried_world : world := world_after retry_b failed_world.

Lemma continuation_queued_witness :
  continuation retries_node [FAILED] "e1" (mkRetry "e1" "id-" "b" "b") failed_world retried_world
  /\ ex_status (sample_execution "e1" FAILED) = FAILED.
Proof.
  split; [|reflexivity].
  destruct (continuation_queued "e1" "b" (Some "network") None failed_world (mkRetry "e1" "id-" "b" "b") retried_world)
    as [Hretry _]; [split; vm_compute; reflexivity|].
  apply Hretry. vm_compute. reflexivity.
Defined.

Abbreviation launch :=
  (service_create_execution "wf" [] [("type", PStr "manual"); ("run_by", PStr "somebody-else")] (Some "g1") None
     (Some "crewai") None (Some "alice") (goal_world (sample_goal GOAL_ACTIVE "medium" None))).

Lemma launch_returns : launch.1 = Ok "id-".
Proof. vm_compute. reflexivity. Qed.

Lemma launch_keeps_identity_witness :
  exists w' e, launch = (Ok "id-", w') /\ dget "id-" (w_executions w') = Some e
    /\ ex_created_by e = Some "alice" /\ ex_goal_id e = Some "g1" /\ ex_runtime_adapter_id e = "crewai".
Proof.
  pose proof launch_returns as Hok. destruct launch as [r w'] eqn:Hl. cbn [fst] in Hok. subst r.
  exists w'. apply launch_keeps_identity in Hl as (e & He & _ & _ & _ & Hg & Had & Hby & _).
  - exists e. exact (conj eq_refl (conj He (conj Hby (conj Hg Had)))).
  - exact sample_clock_representable.
  - split; reflexivity.
  - intros gid [= <-] _. exists (sample_goal GOAL_ACTIVE "medium" None).
    split; [apply sample_goal_stored|]. split; [apply (sample_goal_valid GOAL_ACTIVE "medium")|reflexivity].
  - discriminate.
Defined.

(** The walk of the retried run. *)
Definition retry_execution : Execution :=
  set_ex_metadata [task_retry_entry "e1" "b" "b" None [("a", PDict [("status", PStr "completed")])]]
    (sample_execution "e1" RUNNING).

Definition retrying_world : world :=
  set_w_states [("e1", fresh_state)] (set_w_executions [("e1", retry_execution)] empty_world).

Lemma retried_run_resumes_witness :
  exists passed node rest st',
    dget "e1" (w_states (world_after (walk_plan "e1" branching []) retrying_world)) = Some st'
    /\ wn_task_id node = Some "b"
    /\ resumed branching (plan_run branching (order_nodes branching) (task_retry_metadata (ex_metadata retry_execution))
                            fresh_state) passed rest node st'.
Proof.
  refine (proj2 (retried_run_resumes "e1" (fun _ _ => sample_interfaces_keep _) branching [] retry_execution fresh_state
            "b" [("a", PDict [("status", PStr "completed")])] retrying_world
            (world_after (walk_plan "e1" branching []) retrying_world) _ eq_refl eq_refl eq_refl eq_refl _)).
  - by repeat (constructor; [simpl; intuition discriminate|]); constructor.
  - vm_compute. reflexivity.
Defined.

(** ** A retried run that pauses repeats its work

    The retry metadata stays on the replacement, and every run of an execution with
    retry metadata starts from the prior outputs. *)
Lemma plan_forgets_progress wf nodes md prior st :
  pget "prior_node_outputs" md = PDict prior -> st_node_outputs (plan_run wf nodes md st) = prior.
Proof. intros Hp. unfold plan_run. by rewrite Hp. Qed.

(** An agent that completes every task but [d], where an operator pauses it. *)
#[export] Instance pausing_executor : AgentExecutor := fun i wf task agent profile timeout =>
  if String.eqb (td_id task) "d" then raise ExecutionPausedError "paused"
  else mret (PDict [("status", PStr "completed")]).

Definition run_again : M string := start_execution "id-".

(** Task [b] is done when the run pauses, and is done again when it continues. *)
Lemma retried_run_repeats_work :
  let w1 := world_after run_again retried_world in
  let w2 := world_after (queue_start "id-";; run_again) w1 in
  let starts w := List.length (List.filter (fun ev => bool_decide (ev_event_type ev = TASK_STARTED)
                                                      && opt_eqb (ev_task_id ev) (Some "b")) (events_of "id-" w)) in
  (ex_status <$> dget "id-" (w_executions w1)) = Some PAUSED
  /\ (st_node_outputs <$> dget "id-" (w_states w1))
     = Some [("a", PDict [("status", PStr "completed")]); ("b", PDict [("status", PStr "completed")])]
  /\ starts w1 = 1%nat /\ starts w2 = 2%nat.
Proof. vm_compute. done. Qed.

(** ** A revision of a workflow replaces its executions once

    The replacement carries the reason that makes the next revision pass over it. *)
Definition revise (previous replacement : Z) : M (list string) :=
  replace_active_executions_for_workflow_revision "wf" (Some previous) replacement "workflow_update".

Lemma second_revision_replaces_nothing :
  let w0 := sample_world RUNNING in
  let w1 := world_after (revise 1 2) w0 in
  (revise 1 2 w0).1 = Ok ["id-"]
  /\ (ex_status <$> dget "e1" (w_executions w1)) = Some CANCELLING
  /\ (ex_status <$> dget "id-" (w_executions w1)) = Some QUEUED
  /\ (revise 2 3 w1).1 = Ok [].
Proof. vm_compute. done. Qed.
