(* ===== verification/JsonFacts.v ===== *)
(** * JSON text reads back

    [json.loads] of what [json.dumps(value, sort_keys=True, separators=(",", ":"))]
    prints is the value with the keys of its dictionaries sorted, for values
    without floats. *)

From Corelib Require Import SpecFloat.
From S2P Require Export Json Redaction Timestamps.

(** ** Strings *)

Abbreviation ascii_list := list_ascii_of_string.

Lemma read_json_char c l :
  read_string (ascii_list (json_char c) ++ l)
  = ('(s, rest) ← read_string l; Some (String c s, rest)).
Proof. destruct c as [[] [] [] [] [] [] [] []]; reflexivity. Qed.

Lemma concat_map_app f c s : ascii_list (concat_map f (String c s)) = ascii_list (f c) ++ ascii_list (concat_map f s).
Proof. apply list_ascii_app. Qed.

Definition quote : ascii := ascii_of_nat 34.

Lemma read_json_str s l : read_string (ascii_list (concat_map json_char s) ++ quote :: l) = Some (s, l).
Proof.
  induction s as [|c s IH]; [reflexivity|]. rewrite concat_map_app, <-app_assoc, read_json_char, IH. reflexivity.
Qed.

Lemma json_str_list s l :
  ascii_list (json_str s) ++ l = quote :: ascii_list (concat_map json_char s) ++ quote :: l.
Proof. unfold json_str, dquote, quote. rewrite !list_ascii_app. cbn. by rewrite <-app_assoc. Qed.

(** ** Numbers *)

(** A text that does not continue a number. *)
Definition ends_number (l : list ascii) : Prop :=
  match l with
  | [] => True
  | c :: _ => is_digit c = false /\ Ascii.eqb c "." = false /\ Ascii.eqb c "e" = false /\ Ascii.eqb c "E" = false
  end.

Lemma digit_char n : 0 <= n < 10 -> exists c, digit n = String c "" /\ digit_value c = Some n /\ is_digit c = true
  /\ Ascii.eqb c "-" = false /\ (Ascii.eqb c "0" = true -> n = 0).
Proof.
  intros Hn. unfold digit. eexists. split; [reflexivity|].
  assert (Hcases : In n (map Z.of_nat (seq 0 10))).
  { apply in_map_iff. exists (Z.to_nat n). rewrite in_seq. lia. }
  repeat destruct Hcases as [<-|Hcases]; by repeat split.
Qed.

Lemma take_digits_ends l : ends_number l -> take_digits l = ([], l).
Proof. destruct l as [|c l]; [done|]. intros [Hc _]. cbn. by rewrite Hc. Qed.

Lemma take_digits_app ds l : forallb is_digit ds = true -> take_digits (ds ++ l)
  = (ds ++ (take_digits l).1, (take_digits l).2).
Proof.
  induction ds as [|c ds IH]; cbn; [by destruct (take_digits l)|].
  intros [Hc Hds]%andb_prop. rewrite Hc, IH by done. done.
Qed.

Lemma digits_value_app ds n : forall c, digit_value c = Some n ->
  digits_value (ds ++ [c]) = digits_value ds * 10 + n.
Proof. intros c Hc. unfold digits_value. rewrite fold_left_app. cbn. by rewrite Hc. Qed.

Lemma log2_tenth n : 10 <= n -> Z.log2 (n / 10) < Z.log2 n.
Proof.
  intros Hn. assert (H1 : 0 < n / 10) by (apply Z.div_str_pos; lia).
  apply Z.log2_lt_pow2; [done|]. pose proof (Z.log2_spec n ltac:(lia)) as [_ Hhi].
  rewrite Z.pow_succ_r in Hhi by (apply Z.log2_nonneg). apply Z.div_lt_upper_bound; lia.
Qed.

(** The numeral of a positive number: digits, the first not zero. *)
Lemma digits_fuel_spec fuel n : 0 <= n -> Z.log2 n < Z.of_nat fuel ->
  exists c ds, ascii_list (digits_fuel fuel n) = c :: ds /\ forallb is_digit (c :: ds) = true
    /\ digits_value (c :: ds) = n /\ Ascii.eqb c "-" = false /\ (Ascii.eqb c "0" = true -> n = 0 /\ ds = []).
Proof.
  revert n. induction fuel as [|fuel IH]; intros n Hn Hfuel; [pose proof (Z.log2_nonneg n); lia|].
  cbn [digits_fuel]. destruct (Z.ltb_spec n 10) as [Hlt|Hge].
  - destruct (digit_char n) as (c & -> & Hv & Hd & Hm & H0); [lia|]. exists c, []. cbn. rewrite Hd.
    split_and!; try done.
    + unfold digits_value. cbn. by rewrite Hv.
    + auto.
  - destruct (IH (n / 10)) as (c & ds & Hl & Hd & Hv & Hm & H0).
    + apply Z.div_pos; lia.
    + pose proof (log2_tenth n Hge). lia.
    + destruct (digit_char (n mod 10)) as (c' & Hc' & Hv' & Hd' & _); [apply Z.mod_pos_bound; lia|].
      rewrite list_ascii_app, Hl, Hc'. exists c, (ds ++ [c']). cbn [app]. split_and!; try done.
      * change (c :: ds ++ [c']) with ((c :: ds) ++ [c']). by rewrite forallb_app, Hd; cbn; rewrite Hd'.
      * change (c :: ds ++ [c']) with ((c :: ds) ++ [c']). rewrite (digits_value_app _ (n mod 10)), Hv by done.
        pose proof (Z.div_mod n 10). lia.
      * intros Hz. destruct (H0 Hz) as [Hz' _]. assert (0 < n / 10) by (apply Z.div_str_pos; lia). lia.
Qed.

Section Numbers.
Variable float_of_text : string -> spec_float.

Lemma read_show_Z n l : ends_number l ->
  read_constant (ascii_list (show_Z n) ++ l) = None
  /\ read_number float_of_text (ascii_list (show_Z n) ++ l) = Some (PInt n, l)
  /\ exists c rest, ascii_list (show_Z n) = c :: rest
     /\ (nat_of_ascii c =? 34)%nat = false /\ (nat_of_ascii c =? 123)%nat = false /\ (nat_of_ascii c =? 91)%nat = false.
Proof.
  intros Hend. set (m := Z.abs n).
  destruct (digits_fuel_spec (S (Z.to_nat (Z.log2 m))) m) as (c & ds & Hl & Hd & Hv & Hm & H0); [lia|lia|].
  assert (Hbody : forall neg : bool,
    (let '(fraction, rest) := take_fraction l in
     let '(exponent, rest) := take_exponent rest in
     match fraction ++ exponent with
     | [] => Some (PInt (if neg then - digits_value (c :: ds) else digits_value (c :: ds)), rest)
     | tail => Some (PFloat (float_of_text
                 (string_of_list_ascii ((if neg then ["-"%char] else []) ++ (c :: ds) ++ tail))), rest)
     end) = Some (PInt (if neg then - m else m), l)).
  { intros neg. rewrite Hv. destruct l as [|x l]; [done|]. destruct Hend as (_ & Hp & He & HE).
    cbn. rewrite Hp. cbn. by rewrite He, HE. }
  assert (Hds : (if Ascii.eqb c "0" then ([c], ds ++ l) else take_digits (c :: ds ++ l)) = (c :: ds, l)).
  { destruct (Ascii.eqb c "0") eqn:Hz; [by destruct (H0 eq_refl) as [_ ->]|].
    change (c :: ds ++ l) with ((c :: ds) ++ l). rewrite take_digits_app, take_digits_ends by done.
    by rewrite app_nil_r. }
  assert (Hc : is_digit c = true) by (cbn in Hd; by apply andb_prop in Hd as [? _]).
  unfold show_Z. destruct (Z.ltb_spec n 0) as [Hneg|Hpos].
  - replace (- n) with m by lia. rewrite list_ascii_app, Hl. cbn [list_ascii_of_string app]. split; [|split].
    + clear -Hc. by destruct c as [[] [] [] [] [] [] [] []].
    + unfold read_number. change (Ascii.eqb "-" "-") with true. cbv beta iota zeta.
      rewrite Hds. cbv beta iota zeta. rewrite (Hbody true). do 3 f_equal. lia.
    + do 2 eexists. by split.
  - replace n with m by lia. rewrite Hl. split; [|split].
    + clear -Hc. cbn [app]. by destruct c as [[] [] [] [] [] [] [] []].
    + unfold read_number. cbn [app]. rewrite Hm. cbv beta iota zeta. rewrite Hds.
      cbv beta iota zeta. apply (Hbody false).
    + exists c, ds. split; [done|]. clear -Hc. by destruct c as [[] [] [] [] [] [] [] []].
Qed.
End Numbers.

(** ** Values *)

(** Without floats, and with distinct keys at every depth. *)
Fixpoint json_plain (v : pyval) : bool :=
  match v with
  | PFloat _ => false
  | PList l => forallb json_plain l
  | PDict d => bool_decide (base.NoDup (dkeys d)) && forallb (fun kv => json_plain kv.2) d
  | _ => true
  end.

Definition by_key {A} : list (string * A) -> list (string * A) := py_sorted (fun a b => string_leb a.1 b.1).

(** The value with the keys of its dictionaries sorted. *)
Fixpoint canonical (v : pyval) : pyval :=
  match v with
  | PList l => PList (map canonical l)
  | PDict d => PDict (by_key (map (fun kv => (kv.1, canonical kv.2)) d))
  | _ => v
  end.

Lemma py_sorted_map {A B} (f : A -> B) le le' l :
  (forall a b, le (f a) (f b) = le' a b) -> py_sorted le (map f l) = map f (py_sorted le' l).
Proof.
  intros Hle. unfold py_sorted. change (@nil B) with (map f (@nil A)). generalize (@nil A).
  induction l as [|x l IH]; intros acc; [done|]. cbn. rewrite <-IH. f_equal. clear IH.
  induction acc as [|y acc IHacc]; [done|]. cbn. rewrite Hle. destruct (le' y x); cbn; [by rewrite IHacc|done].
Qed.

Lemma by_key_map {A B} (f : A -> B) (d : list (string * A)) :
  by_key (map (fun kv => (kv.1, f kv.2)) d) = map (fun kv => (kv.1, f kv.2)) (by_key d).
Proof. by apply py_sorted_map. Qed.

Section Values.
Variable float_repr : spec_float -> string.
Variable float_of_text : string -> spec_float.

Abbreviation dumps := (json_dumps float_repr "," ":").
Abbreviation read := (read_value float_of_text).

Definition member_text (kv : string * pyval) : string := json_str kv.1 +:+ ":" +:+ dumps kv.2.

Lemma dumps_dict d : dumps (PDict d) = "{" +:+ py_join "," (map member_text (by_key d)) +:+ "}".
Proof.
  cbn [json_dumps]. change (py_sorted _ ?l) with (by_key l). rewrite by_key_map, map_map. reflexivity.
Qed.

Definition reads (v : pyval) : Prop := forall fuel l, ends_number l ->
  (2 * List.length (ascii_list (dumps v)) < fuel)%nat ->
  read fuel (ascii_list (dumps v) ++ l) = Some (canonical v, l).

(** The first character of a value opens neither white space nor an end. *)
Lemma dumps_start v : json_plain v = true -> exists c rest, ascii_list (dumps v) = c :: rest
  /\ json_space c = false /\ Ascii.eqb "]" c = false.
Proof.
  destruct v as [| [] | n | f | s | l | d]; intros Hp; try done; try (do 2 eexists; split; [reflexivity|by split]).
  - destruct (digits_fuel_spec (S (Z.to_nat (Z.log2 (Z.abs n)))) (Z.abs n)) as (c & ds & Hl & Hd & _); [lia|lia|].
    assert (Hc : is_digit c = true) by (cbn in Hd; by apply andb_prop in Hd as [? _]).
    cbn [json_dumps]. unfold show_Z. destruct (Z.ltb_spec n 0) as [Hneg|Hpos].
    + do 2 eexists. split; [reflexivity|by split].
    + replace (Z.abs n) with n in Hl by lia. exists c, ds. split; [done|].
      clear -Hc. by destruct c as [[] [] [] [] [] [] [] []].
Qed.

Lemma dumps_length v : json_plain v = true -> (0 < List.length (ascii_list (dumps v)))%nat.
Proof. intros Hp. destruct (dumps_start v Hp) as (c & rest & -> & _). cbn. lia. Qed.

Lemma skip_value v l : json_plain v = true ->
  skip_space (ascii_list (dumps v) ++ l) = ascii_list (dumps v) ++ l.
Proof.
  intros Hp. destruct (dumps_start v Hp) as (c & rest & -> & Hs & _). cbn. unfold skip_space. cbn. by rewrite Hs.
Qed.

Lemma join_cons sep x y l : ascii_list (py_join sep (x :: y :: l))
  = ascii_list x ++ ascii_list sep ++ ascii_list (py_join sep (y :: l)).
Proof. change (py_join sep (x :: y :: l)) with (x +:+ sep +:+ py_join sep (y :: l)). by rewrite !list_ascii_app. Qed.

Lemma read_elements_text vs l fuel : vs <> [] -> (forall v, In v vs -> json_plain v = true /\ reads v) ->
  (2 * List.length (ascii_list (py_join "," (map dumps vs))) + 1 < fuel)%nat ->
  read_elements float_of_text fuel (ascii_list (py_join "," (map dumps vs)) ++ "]"%char :: l)
  = Some (map canonical vs, l).
Proof.
  revert fuel. induction vs as [|v [|v' vs] IH]; intros fuel Hne Hall Hfuel; [done| |].
  - destruct (Hall v (or_introl eq_refl)) as [Hp Hr]. cbn [map py_join] in *.
    destruct fuel as [|fuel]; [lia|]. cbn [read_elements]. rewrite Hr; [|by repeat split|lia]. reflexivity.
  - destruct (Hall v (or_introl eq_refl)) as [Hp Hr].
    cbn [map] in *. rewrite join_cons, !length_app in Hfuel. rewrite join_cons, <-!app_assoc.
    cbn [list_ascii_of_string app List.length] in *.
    destruct fuel as [|fuel]; [lia|]. cbn [read_elements].
    rewrite Hr; [|by repeat split|lia]. cbn [mbind option_bind].
    change (skip_space (","%char :: ?x)) with (","%char :: x). cbn [after_text Ascii.eqb Bool.eqb].
    assert (Hp' : json_plain v' = true) by (apply Hall; by right; left).
    destruct (dumps_start v' Hp') as (c & rest & Hstart & Hspace & _).
    assert (Hskip : forall k, skip_space (ascii_list (py_join "," (dumps v' :: map dumps vs)) ++ k)
                    = ascii_list (py_join "," (dumps v' :: map dumps vs)) ++ k).
    { intros k. destruct (map dumps vs) as [|x xs].
      - cbn [py_join]. by apply skip_value.
      - rewrite join_cons, <-!app_assoc. by apply skip_value. }
    change (Ascii.eqb "]" ",") with false. cbv iota. cbn [mbind option_bind]. rewrite Hskip.
    rewrite (IH fuel); [reflexivity|done| |lia]. intros u Hu. apply Hall. by right.
Qed.

Lemma dset_fresh {V} k (v : V) d : ~ In k (dkeys d) -> dset k v d = d ++ [(k, v)].
Proof.
  induction d as [|[k0 v0] d IH]; cbn; [done|]. intros Hni. destruct (String.eqb_spec k k0) as [->|Hne]; [tauto|].
  rewrite IH; tauto.
Qed.

Lemma member_list kv l : ascii_list (member_text kv) ++ l
  = quote :: ascii_list (concat_map json_char kv.1) ++ quote :: ":"%char :: ascii_list (dumps kv.2) ++ l.
Proof.
  unfold member_text. rewrite list_ascii_app, <-app_assoc, json_str_list, list_ascii_app. done.
Qed.

Lemma member_length kv : (List.length (ascii_list (dumps kv.2)) + 3 <= List.length (ascii_list (member_text kv)))%nat.
Proof.
  rewrite <-(app_nil_r (ascii_list (member_text kv))), member_list. cbn. rewrite length_app. cbn.
  rewrite length_app. lia.
Qed.

(** A member, up to what follows its value. *)
Lemma read_member fuel acc kv l : json_plain kv.2 = true -> reads kv.2 -> ends_number l ->
  (2 * List.length (ascii_list (dumps kv.2)) < fuel)%nat ->
  read_members float_of_text (S fuel) acc (ascii_list (member_text kv) ++ l)
  = (let acc := dset kv.1 (canonical kv.2) acc in
     let l := skip_space l in
     match after_text "}" l with
     | Some rest => Some (acc, rest)
     | None => l ← after_text "," l; read_members float_of_text fuel acc (skip_space l)
     end).
Proof.
  intros Hp Hr Hend Hfuel. rewrite member_list. cbn [read_members].
  change (after_text dquote (quote :: ?x)) with (Some x). cbn [mbind option_bind]. rewrite read_json_str.
  cbn [mbind option_bind]. change (skip_space (":"%char :: ?x)) with (":"%char :: x).
  change (after_text ":" (":"%char :: ?x)) with (Some x). cbn [mbind option_bind].
  rewrite skip_value by done. rewrite Hr by done. reflexivity.
Qed.

Lemma read_members_text ms acc l fuel : ms <> [] ->
  (forall kv, In kv ms -> json_plain kv.2 = true /\ reads kv.2) ->
  base.NoDup (dkeys acc ++ dkeys ms) ->
  (2 * List.length (ascii_list (py_join "," (map member_text ms))) + 1 < fuel)%nat ->
  read_members float_of_text fuel acc (ascii_list (py_join "," (map member_text ms)) ++ "}"%char :: l)
  = Some (acc ++ map (fun kv => (kv.1, canonical kv.2)) ms, l).
Proof.
  revert fuel acc. induction ms as [|kv [|kv' ms] IH]; intros fuel acc Hne Hall Hnd Hfuel; [done| |].
  all: destruct (Hall kv (or_introl eq_refl)) as [Hp Hr]; destruct fuel as [|fuel]; [lia|];
    pose proof (member_length kv) as Hlen;
    assert (Hni : ~ In kv.1 (dkeys acc)) by
      (apply NoDup_app in Hnd as (_ & Hd & _); intros Hin%list_elem_of_In; apply (Hd _ Hin); by left).
  - cbn [map py_join] in *. rewrite read_member; [|done|done|by repeat split|lia].
    cbv zeta. rewrite dset_fresh by done. reflexivity.
  - cbn [map] in *. rewrite join_cons, !length_app in Hfuel. cbn [list_ascii_of_string List.length] in Hfuel.
    rewrite join_cons, <-!app_assoc. cbn [list_ascii_of_string app].
    rewrite read_member; [|done|done|by repeat split|lia]. cbv zeta.
    change (skip_space (","%char :: ?x)) with (","%char :: x).
    change (after_text "}" (","%char :: ?x)) with (@None (list ascii)).
    change (after_text "," (","%char :: ?x)) with (Some x). cbv iota. cbn [mbind option_bind].
    rewrite dset_fresh by done.
    assert (Hskip : forall k, skip_space (ascii_list (py_join "," (member_text kv' :: map member_text ms)) ++ k)
                    = ascii_list (py_join "," (member_text kv' :: map member_text ms)) ++ k).
    { intros k. destruct (map member_text ms) as [|x xs]; [cbn [py_join]|rewrite join_cons, <-!app_assoc];
        rewrite member_list; reflexivity. }
    rewrite Hskip, IH; [|done| | |lia].
    + rewrite <-app_assoc. reflexivity.
    + intros u Hu. apply Hall. by right.
    + unfold dkeys in *. rewrite map_app, <-app_assoc. exact Hnd.
Qed.

Lemma dict_keys_perm (d : dict pyval) : dkeys (by_key d) ≡ₚ dkeys d.
Proof. unfold dkeys. apply Permutation_map, py_sorted_perm. Qed.

Lemma reads_plain v : json_plain v = true -> reads v.
Proof.
  induction v as [v Hd Hl|vs IH|d IH] using pyval_nested_ind; intros Hp fuel l Hend Hfuel.
  - destruct fuel as [|fuel]; [lia|].
    destruct v as [|[]|n|f|s| |]; try done; try reflexivity.
    + cbn [json_dumps] in *.
      destruct (read_show_Z float_of_text n l Hend) as (Hc & Hn & c & rest & Htext & Ha & Hb & Hd').
      cbn [read_value]. rewrite Hc, Hn, Htext. cbn [app]. by rewrite Ha, Hb, Hd'.
    + cbn [json_dumps]. rewrite json_str_list. cbn [read_value].
      change (nat_of_ascii quote =? 34)%nat with true. cbv iota. rewrite read_json_str. reflexivity.
  - cbn [json_plain] in Hp. rewrite forallb_forall in Hp. cbn [json_dumps] in *.
    rewrite !list_ascii_app, <-!app_assoc in *. rewrite !length_app in Hfuel. cbn in Hfuel.
    destruct fuel as [|fuel]; [lia|]. cbn [read_value list_ascii_of_string app].
    change (nat_of_ascii "[" =? 34)%nat with false. change (nat_of_ascii "[" =? 123)%nat with false.
    change (nat_of_ascii "[" =? 91)%nat with true. cbv iota.
    destruct vs as [|v vs]; [reflexivity|].
    assert (Hv : json_plain v = true) by (apply Hp; by left).
    assert (Hskip : skip_space (ascii_list (py_join "," (map dumps (v :: vs))) ++ "]"%char :: l)
                    = ascii_list (py_join "," (map dumps (v :: vs))) ++ "]"%char :: l
                    /\ after_text "]" (ascii_list (py_join "," (map dumps (v :: vs))) ++ "]"%char :: l) = None).
    { destruct (dumps_start v Hv) as (c & rest & Hc & Hs & He). cbn [map].
      destruct (map dumps vs) as [|x xs]; [cbn [py_join]|rewrite join_cons]; rewrite Hc;
        unfold skip_space; cbn [app drop_while after_text]; by rewrite Hs, He. }
    destruct Hskip as [-> ->]. rewrite read_elements_text; [reflexivity|done| |cbn in *; lia].
    intros u Hu. split; [by apply Hp|]. apply IH; auto.
  - cbn [json_plain] in Hp. apply andb_prop in Hp as [Hnd%bool_decide_eq_true Hp].
    rewrite forallb_forall in Hp. rewrite dumps_dict in *.
    rewrite !list_ascii_app, <-!app_assoc in *. rewrite !length_app in Hfuel. cbn in Hfuel.
    assert (Hall : forall kv, In kv (by_key d) -> json_plain kv.2 = true /\ reads kv.2).
    { intros [k u] Hin%py_sorted_In. pose proof (Hp _ Hin) as Hpu. split; [done|]. by apply (IH k u). }
    assert (Hkeys : base.NoDup (dkeys (by_key d))) by (by rewrite dict_keys_perm).
    cbn [canonical]. rewrite by_key_map. destruct fuel as [|fuel]; [lia|]. cbn [read_value list_ascii_of_string app].
    change (nat_of_ascii "{" =? 34)%nat with false. change (nat_of_ascii "{" =? 123)%nat with true. cbv iota.
    destruct (by_key d) as [|kv ms]; [reflexivity|].
    assert (Hskip : skip_space (ascii_list (py_join "," (map member_text (kv :: ms))) ++ "}"%char :: l)
                    = ascii_list (py_join "," (map member_text (kv :: ms))) ++ "}"%char :: l
                    /\ after_text "}" (ascii_list (py_join "," (map member_text (kv :: ms))) ++ "}"%char :: l) = None).
    { cbn [map]. destruct (map member_text ms) as [|x xs]; [cbn [py_join]|rewrite join_cons, <-!app_assoc];
        rewrite member_list; by split. }
    destruct Hskip as [-> ->]. rewrite read_members_text; [reflexivity|done|done|done|cbn in *; lia].
Qed.

(** A value without floats, whose dictionaries have distinct keys, survives its
    compact JSON text: [json.loads] of [json.dumps] is the value with the keys of
    its dictionaries sorted, whatever the strings, numbers and nesting. *)
Theorem json_roundtrip v : json_plain v = true -> json_loads float_of_text (dumps v) = Some (canonical v).
Proof.
  intros Hp. unfold json_loads. pose proof (skip_value v [] Hp) as Hs. rewrite app_nil_r in Hs. rewrite Hs.
  pose proof (reads_plain v Hp (2 * List.length (ascii_list (dumps v)) + 2)%nat [] I ltac:(lia)) as Hr.
  rewrite app_nil_r in Hr. rewrite Hr. reflexivity.
Qed.
End Values.

(** Sorting is idempotent on what is sorted already. *)
Example json_roundtrip_sample :
  json_loads (fun _ => S754_nan) (json_dumps (fun _ => "") "," ":"
    (PDict [("b", PList [PInt (-120); PNone; PStr "a\b"]); ("a", PDict [])]))
  = Some (PDict [("a", PDict []); ("b", PList [PInt (-120); PNone; PStr "a\b"])]).
Proof. reflexivity. Qed.
