(* ===== verification/WorkflowValidation.v ===== *)
(** * Validation of workflow definitions

    [WorkflowValidationService.validate] of [app/services/workflow_validation.py]
    with its helpers, [normalize_connector_provider_key] of
    [app/integrations/connectors.py], and the validators that [app/domain/tools.py]
    runs when a tool is built.

    The repositories that the service lists, and the adapters of the runtime
    registry, are the interface [ValidationContext].  Issues are collected in the
    order of the code; errors and warnings are two lists, so a loop that writes to
    both is a pair of functions here.  The result keeps nodes, edges, tools and
    agents as records (the code dumps them to JSON). *)

From S2P Require Export Workflow Emitter.

(** ** Data *)

Record ValidationIssue := mkIssue {
  vi_code : string;
  vi_message : string;
  vi_severity : string;
  vi_node_id : option string;
  vi_field : option string
}.

Definition error_issue (code message : string) : ValidationIssue := mkIssue code message "error" None None.
Definition node_error (code message node_id : string) : ValidationIssue :=
  mkIssue code message "error" (Some node_id) None.
Definition field_error (code message field : string) : ValidationIssue :=
  mkIssue code message "error" None (Some field).
Definition warning_issue (code message : string) : ValidationIssue :=
  mkIssue code message "warning" None None.

(** What validation reads of a model profile. *)
Record ProfileItem := mkProfileItem { pi_id : string; pi_supports_tools : bool }.

(** The repositories, and [runtime_registry.get] with [supports] ([None] is the
    [KeyError] of an adapter that is not registered). *)
Class ValidationContext := {
  vc_agents : list AgentDefinition;
  vc_tools : list ToolDefinition;
  vc_profiles : list ProfileItem;
  vc_adapter_ids : list string;
  vc_mcp_server_ids : list string;
  vc_supports : string -> option (WorkflowDefinition -> bool)
}.

Record WorkflowValidationResult := mkResult {
  vr_nodes : list WorkflowNode;
  vr_edges : list WorkflowEdge;
  vr_errors : list ValidationIssue;
  vr_warnings : list ValidationIssue;
  vr_tools : list ToolDefinition;
  vr_agents : list AgentDefinition;
  vr_adapters : list string
}.

(** [[issue] if condition else []] *)
Definition issue_if (b : bool) (x : ValidationIssue) : list ValidationIssue := if b then [x] else [].

(** ** Connector providers *)

(** [_CONNECTOR_DEFINITIONS]: keys and aliases. *)
Definition connector_definitions : list (string * list string) :=
  [("telegram-bot", ["telegram"]); ("whatsapp-cloud-api", ["whatsapp"; "meta-whatsapp"]);
   ("discord-bot", ["discord"]); ("slack-app", ["slack"]); ("microsoft-teams", ["teams"]);
   ("twilio-sms", ["twilio"]); ("gmail", ["google-mail"]);
   ("outlook-email", ["outlook"; "microsoft-outlook"]); ("notion", []); ("linear", []);
   ("jira", ["atlassian-jira"]); ("confluence", ["atlassian-confluence"]); ("airtable", []);
   ("google-workspace", ["google-drive"; "google-calendar"; "google-docs"; "google-sheets"]);
   ("microsoft-365", ["office365"; "sharepoint"; "onedrive"]); ("github", []); ("gitlab", []);
   ("sentry", []); ("pagerduty", []); ("figma", []); ("canva", []); ("youtube", ["google-youtube"]);
   ("adobe-creative-cloud", ["adobe"; "creative-cloud"]); ("perplexity", []); ("tavily", []);
   ("wikipedia", []); ("s3", ["aws-s3"]); ("google-drive", ["google-workspace-drive"]);
   ("dropbox", []); ("onedrive", ["microsoft-onedrive"]); ("sharepoint", ["microsoft-sharepoint"])].

(** [connector_alias_lookup] *)
Definition connector_alias_lookup : dict string :=
  fold_left (fun lookup definition =>
      fold_left (fun lookup alias => dset alias definition.1 lookup) definition.2
        (dset definition.1 definition.1 lookup))
    connector_definitions [].

(** [normalize_connector_provider_key]; the argument is never [None] here. *)
Definition normalize_connector_provider_key (provider : string) : option string :=
  let normalized := py_lower (py_strip provider) in
  if String.eqb normalized "" then None
  else Some (default normalized (dget normalized connector_alias_lookup)).

Section Connectors.
Context `{Env}.

(** [str(v)] *)
Abbreviation text_of v := (py_str env_float_repr v).

(** [str(d.get(k) or "").strip()] *)
Definition stripped (k : string) (d : dict pyval) : string :=
  py_strip (text_of (py_or (pget k d) (PStr ""))).

(** [s.split(sep, 1)[0]] *)
Definition before_char (sep : ascii) (s : string) : string := hd "" (split_char sep s).

(** The body of the loop of [_workflow_connector_bindings]. *)
Definition normalized_binding (binding : dict pyval) : option (dict pyval) :=
  let legacy_ref := stripped "ref" binding in
  let credential_id := py_strip (text_of (py_or (py_or (pget "credential_id" binding) (PStr legacy_ref)) (PStr ""))) in
  let provider :=
    match normalize_connector_provider_key (text_of (py_or (pget "provider" binding) (PStr ""))) with
    | Some p => Some p
    | None =>
        let purpose := stripped "purpose" binding in
        if String.eqb purpose "" then None
        else normalize_connector_provider_key (before_char "-" (before_char "_" purpose))
    end in
  match provider with
  | Some p =>
      if String.eqb credential_id "" then None
      else Some (dset "credential_id" (PStr credential_id) (dset "provider" (PStr p) binding))
  | None => None
  end.

(** [_workflow_connector_bindings] *)
Definition workflow_connector_bindings (wf : WorkflowDefinition) : list (dict pyval) :=
  match pget "connector_bindings" (wf_metadata wf) with
  | PList bindings =>
      omap (fun v => match v with PDict binding => normalized_binding binding | _ => None end) bindings
  | _ => []
  end.

End Connectors.

(** [_connector_provider_hint] *)
Definition provider_keys : list string := ["provider"; "provider_key"; "connector"; "connector_provider"].

Fixpoint provider_hint_of (keys : list string) (config : dict pyval) : option string :=
  match keys with
  | [] => None
  | key :: rest =>
      match pget key config with
      | PStr value =>
          if String.eqb (py_strip value) "" then provider_hint_of rest config
          else normalize_connector_provider_key (py_strip value)
      | _ => provider_hint_of rest config
      end
  end.

Definition connector_provider_hint (tool : ToolDefinition) : option string :=
  provider_hint_of provider_keys (tl_config tool).

(** [_is_connector_backed_tool] *)
Definition is_connector_backed_tool (tool : ToolDefinition) : bool :=
  let tags := map (fun tag => py_lower (py_strip tag)) (tl_tags tool) in
  if String.eqb (tl_id tool) "agency.media.send" then true
  else if String.eqb (tl_target tool) "agency.system.connector" || mem_str "system" tags then false
  else if mem_str "connector" tags || mem_str "integration" tags then true
  else existsb (fun key => dmem key (tl_config tool)) provider_keys.

(** ** Tools *)

(** [has_privileged_capabilities] *)
Definition has_privileged_capabilities (s : SecuritySettings) : bool :=
  sec_allow_shell s || sec_allow_browser s || sec_allow_filesystem s || sec_allow_network s.

(** [require_sandbox_for_privileged_capabilities] *)
Definition require_sandbox_for_privileged_capabilities (s : SecuritySettings) : SecuritySettings :=
  if has_privileged_capabilities s && negb (sec_sandbox_required s) then
    mkSecurity (sec_requires_approval s) true (sec_allow_shell s) (sec_allow_browser s)
      (sec_allow_filesystem s) (sec_allow_network s) (sec_allowlisted_domains s)
      (sec_allowlisted_mcp_servers s) (sec_module_allowlist s) (sec_read_only s) (sec_dangerous s)
      (sec_connector_bindings s)
  else s.

(** [implementation_map] *)
Definition implementation_map : dict ToolType :=
  [("python", PYTHON_FUNCTION); ("python_function", PYTHON_FUNCTION); ("http", HTTP_REQUEST);
   ("http_request", HTTP_REQUEST); ("shell", SHELL_COMMAND); ("shell_command", SHELL_COMMAND);
   ("mcp", MCP_TOOL); ("mcp_tool", MCP_TOOL); ("a2a", A2A_REMOTE_AGENT);
   ("a2a_remote_agent", A2A_REMOTE_AGENT); ("workflow_tool", WORKFLOW_TOOL);
   ("human_approval", HUMAN_APPROVAL); ("sql_query", SQL_QUERY)].

Definition set_tl_type (ty : ToolType) (t : ToolDefinition) : ToolDefinition :=
  mkTool (tl_id t) (tl_name t) ty (tl_input_schema t) (tl_target t) (tl_config t) (tl_security t) (tl_tags t).

Definition set_tl_security (s : SecuritySettings) (t : ToolDefinition) : ToolDefinition :=
  mkTool (tl_id t) (tl_name t) (tl_tool_type t) (tl_input_schema t) (tl_target t) (tl_config t) s (tl_tags t).

(** [ensure_tool_is_safe_and_typed]; the display name is not a field of the model. *)
Definition ensure_tool_is_safe_and_typed (implementation_type : string) (t : ToolDefinition) :
    string + ToolDefinition :=
  match tl_input_schema t with
  | [] => inl "ToolDefinition.input_schema is required for all tools"
  | _ :: _ =>
      let t := match dget implementation_type implementation_map with
               | Some inferred_type => set_tl_type inferred_type t
               | None => t
               end in
      if bool_decide (tl_tool_type t = SHELL_COMMAND) then
        if negb (sec_allow_shell (tl_security t)) then
          inl "Shell command tools are disabled by default and require allow_shell=True"
        else if negb (sec_requires_approval (tl_security t)) then
          inl "Shell command tools require requires_approval=True"
        else if negb (sec_sandbox_required (tl_security t)) then
          inl "Shell command tools require sandbox_required=True"
        else inr t
      else inr t
  end.

(** Building a tool: the validator of the settings, then that of the tool. *)
Definition build_tool (implementation_type : string) (t : ToolDefinition) : string + ToolDefinition :=
  ensure_tool_is_safe_and_typed implementation_type
    (set_tl_security (require_sandbox_for_privileged_capabilities (tl_security t)) t).

(** [dangerous] of the loop over the tools *)
Definition tool_is_dangerous (s : SecuritySettings) : bool :=
  sec_dangerous s || sec_allow_shell s || sec_allow_browser s
  || (sec_allow_filesystem s && negb (sec_read_only s)) || sec_allow_network s.

Section Validate.
Context `{Env} `{ValidationContext}.

(** The issues of connector bindings of one tool, errors and warnings. *)
Definition connector_errors (bindings : list (dict pyval)) (tool : ToolDefinition) : list ValidationIssue :=
  let providers := List.filter (fun p => negb (String.eqb p "")) (map (stripped "provider") bindings) in
  if is_connector_backed_tool tool then
    match sec_connector_bindings (tl_security tool) with
    | _ :: _ => []
    | [] =>
        let hint := connector_provider_hint tool in
        if str_truthy hint && negb (mem_str (default "" hint) providers) then
          [field_error "tool.connector_binding.missing"
             ("Connector-backed tool '" +:+ tl_name tool +:+ "' requires a connector binding for provider '"
              +:+ default "" hint +:+ "'. Add ToolDefinition.security.connector_bindings "
              +:+ "or workflow.metadata.connector_bindings.") "connector_bindings"]
        else
          match bindings with
          | [] =>
              [field_error "tool.connector_binding.missing"
                 ("Connector-backed tool '" +:+ tl_name tool +:+ "' requires a connector binding. "
                  +:+ "Add ToolDefinition.security.connector_bindings or "
                  +:+ "workflow.metadata.connector_bindings before approval.") "connector_bindings"]
          | _ :: _ => []
          end
    end
  else [].

Definition connector_warnings (bindings : list (dict pyval)) (tool : ToolDefinition) : list ValidationIssue :=
  let several := (1 <? List.length bindings)%nat in
  if is_connector_backed_tool tool then
    match sec_connector_bindings (tl_security tool), connector_provider_hint tool with
    | [], None =>
        if several then
          [mkIssue "tool.connector_binding.ambiguous"
             ("Connector-backed tool '" +:+ tl_name tool +:+ "' has multiple workflow connector defaults; "
              +:+ "the tool call should pass provider or credential_id to avoid runtime ambiguity.")
             "warning" None (Some "connector_bindings")]
        else []
    | _, _ => []
    end
  else [].

(** The checks of one tool that depend on its type. *)
Definition tool_type_errors (tool : ToolDefinition) : list ValidationIssue :=
  let s := tl_security tool in
  let named kind rest := kind +:+ " '" +:+ tl_name tool +:+ "' " +:+ rest in
  match tl_tool_type tool with
  | HTTP_REQUEST =>
      issue_if (bool_decide (sec_allowlisted_domains s = []))
        (error_issue "tool.http.allowlist.missing" (named "HTTP tool" "is missing allowlisted domains"))
  | A2A_REMOTE_AGENT =>
      issue_if (bool_decide (sec_allowlisted_domains s = []))
        (error_issue "tool.a2a.allowlist.missing" (named "A2A remote tool" "is missing allowlisted domains"))
      ++ issue_if (is_none (pget "stub_response" (tl_config tool))
                   && negb (starts_with "http://" (tl_target tool) || starts_with "https://" (tl_target tool)))
           (error_issue "tool.a2a.target.invalid"
              (named "A2A remote tool" "is missing a valid HTTP endpoint target"))
  | PYTHON_FUNCTION =>
      issue_if (bool_decide (sec_module_allowlist s = [])
                && negb (starts_with "app.tools.implementations." (tl_target tool))
                && negb (String.eqb (tl_target tool) "tests.native_test_tools"))
        (error_issue "tool.python.allowlist.missing" (named "Python tool" "is missing a module allowlist"))
  | MCP_TOOL =>
      let missing := List.filter (fun i => negb (mem_str i vc_mcp_server_ids)) (sec_allowlisted_mcp_servers s) in
      issue_if (bool_decide (sec_allowlisted_mcp_servers s = []))
        (error_issue "tool.mcp.allowlist.missing" (named "MCP tool" "is missing an allowlisted MCP server"))
      ++ issue_if (negb (bool_decide (missing = [])))
           (error_issue "tool.mcp.server.missing"
              (named "MCP tool" ("references unknown MCP servers: " +:+ py_join ", " missing)))
  | SHELL_COMMAND =>
      issue_if (negb (sec_allow_shell s)) (error_issue "tool.shell.disabled" (named "Shell tool" "is disabled"))
      ++ issue_if (negb (sec_requires_approval s))
           (error_issue "tool.shell.approval.missing" (named "Shell tool" "requires approval"))
      ++ issue_if (negb (sec_sandbox_required s))
           (error_issue "tool.shell.sandbox.missing" (named "Shell tool" "requires sandboxing"))
  | _ => []
  end.

Definition tool_errors (bindings : list (dict pyval)) (tool : ToolDefinition) : list ValidationIssue :=
  let s := tl_security tool in
  issue_if (bool_decide (tl_input_schema tool = []))
    (error_issue "tool.input_schema.missing" ("Tool '" +:+ tl_name tool +:+ "' is missing input_schema"))
  ++ issue_if (tool_is_dangerous s && negb (sec_sandbox_required s || sec_requires_approval s))
       (error_issue "tool.security.dangerous"
          ("Tool '" +:+ tl_name tool +:+ "' is dangerous and requires sandboxing or approval"))
  ++ tool_type_errors tool
  ++ connector_errors bindings tool.

Definition tool_warnings (bindings : list (dict pyval)) (tool : ToolDefinition) : list ValidationIssue :=
  let s := tl_security tool in
  issue_if (sec_requires_approval s && negb (tool_is_dangerous s))
    (warning_issue "tool.security.approval" ("Tool '" +:+ tl_name tool +:+ "' requires approval"))
  ++ connector_warnings bindings tool.

(** ** One workflow *)

Section Workflow.
Context (wf : WorkflowDefinition).

Definition local_agent_ids : list string := map ag_id (wf_agent_definitions wf).
Definition local_tool_ids : list string := map tl_id (wf_tool_definitions wf).
Definition available_agent_ids : list string := local_agent_ids ++ map ag_id vc_agents.
Definition available_tool_ids : list string := local_tool_ids ++ map tl_id vc_tools.
Definition available_profile_ids : list string := map pi_id vc_profiles.
Definition workflow_node_ids : list string := map wn_id (wf_nodes wf).
Definition workflow_task_ids : list string := map td_id (wf_task_definitions wf).

(** [node.node_type in {"task", "approval"}] *)
Definition runs_task (node : WorkflowNode) : bool :=
  bool_decide (wn_node_type node = NODE_TASK) || bool_decide (wn_node_type node = NODE_APPROVAL).

Definition executable_task_ids : list string :=
  omap (fun node => if runs_task node && str_truthy (wn_task_id node) then wn_task_id node else None)
    (wf_nodes wf).

(** [x and x not in ids] for an optional reference. *)
Definition dangling (reference : option string) (ids : list string) : bool :=
  str_truthy reference && negb (mem_str (default "" reference) ids).

(** [x not in ids], which [None] never is. *)
Definition not_among (reference : option string) (ids : list string) : bool :=
  match reference with Some s => negb (mem_str s ids) | None => true end.

Definition entrypoint_errors : list ValidationIssue :=
  issue_if (negb (mem_str (wf_entrypoint wf) workflow_node_ids))
    (field_error "entrypoint.missing" "Entrypoint node does not exist" "entrypoint").

Definition edge_is_invalid (edge : WorkflowEdge) : bool :=
  negb (mem_str (we_source_node_id edge) workflow_node_ids)
  || negb (mem_str (we_target_node_id edge) workflow_node_ids).

Definition edge_errors (edge : WorkflowEdge) : list ValidationIssue :=
  issue_if (edge_is_invalid edge) (field_error "edge.invalid" "Edge references a missing node" "edges").

Definition edge_warnings (edge : WorkflowEdge) : list ValidationIssue :=
  issue_if (negb (edge_is_invalid edge) && String.eqb (we_source_node_id edge) (we_target_node_id edge))
    (warning_issue "edge.self_reference" "Edge references the same node as source and target").

(** [incoming] after the loop over the edges. *)
Definition incoming_counts : dict Z :=
  fold_left (fun acc edge =>
      if edge_is_invalid edge then acc
      else dset (we_target_node_id edge) (default 0 (dget (we_target_node_id edge) acc) + 1) acc)
    (wf_edges wf) (fold_left (fun acc i => dset i 0 acc) workflow_node_ids []).

Definition orphan_warnings (node : WorkflowNode) : list ValidationIssue :=
  if String.eqb (wn_id node) (wf_entrypoint wf) then []
  else issue_if (default 0 (dget (wn_id node) incoming_counts) =? 0)
         (mkIssue "node.orphaned" ("Node '" +:+ wn_name node +:+ "' is orphaned") "warning"
            (Some (wn_id node)) None).

Definition node_errors_of (node : WorkflowNode) : list ValidationIssue :=
  let named rest := "Node '" +:+ wn_name node +:+ "' references a missing " +:+ rest in
  issue_if (runs_task node && not_among (wn_task_id node) workflow_task_ids)
    (node_error "node.task.missing" (named "task") (wn_id node))
  ++ issue_if (dangling (wn_agent_id node) available_agent_ids)
       (node_error "node.agent.missing" (named "agent") (wn_id node))
  ++ issue_if (dangling (wn_tool_id node) available_tool_ids)
       (node_error "node.tool.missing" (named "tool") (wn_id node)).

(** [next((item for item in available_profiles if item.id == ...), None)] *)
Definition profile_lacks_tools (agent : AgentDefinition) : bool :=
  match List.find (fun item => opt_eqb (Some (pi_id item)) (ag_model_profile_id agent)) vc_profiles with
  | Some profile => negb (pi_supports_tools profile)
  | None => false
  end.

Definition agent_errors (agent : AgentDefinition) : list ValidationIssue :=
  let named rest := "Agent '" +:+ ag_name agent +:+ "' " +:+ rest in
  issue_if (dangling (ag_model_profile_id agent) available_profile_ids)
    (error_issue "agent.model_profile.missing" (named "references a missing model profile"))
  ++ issue_if (negb (bool_decide (ag_tool_ids agent = [])) && str_truthy (ag_model_profile_id agent)
               && profile_lacks_tools agent)
       (error_issue "agent.model_profile.incompatible"
          (named "uses tools but selected model profile does not support tools"))
  ++ flat_map (fun tool_id =>
         issue_if (negb (mem_str tool_id available_tool_ids))
           (error_issue "agent.tool.missing" (named "references a missing tool")))
       (ag_tool_ids agent).

Definition dependency_errors (task : TaskDefinition) (dependency_id : string) : list ValidationIssue :=
  if negb (mem_str dependency_id workflow_task_ids) then
    [error_issue "task.dependency.missing"
       ("Task '" +:+ td_name task +:+ "' references missing dependency '" +:+ dependency_id +:+ "'")]
  else if negb (mem_str dependency_id executable_task_ids) then
    [error_issue "task.dependency.not_executable"
       ("Task '" +:+ td_name task +:+ "' depends on '" +:+ dependency_id
        +:+ "', but no task or approval node executes that dependency.")]
  else [].

Definition task_errors (task : TaskDefinition) : list ValidationIssue :=
  issue_if (dangling (td_agent_id task) available_agent_ids)
    (error_issue "task.agent.missing" ("Task '" +:+ td_name task +:+ "' references a missing agent"))
  ++ flat_map (fun tool_id =>
         issue_if (negb (mem_str tool_id available_tool_ids))
           (error_issue "task.tool.missing" ("Task '" +:+ td_name task +:+ "' references a missing tool")))
       (td_tool_ids task)
  ++ flat_map (dependency_errors task) (td_depends_on_task_ids task).

Definition referenced_tool_ids : list string :=
  omap (fun node => if str_truthy (wn_tool_id node) then wn_tool_id node else None) (wf_nodes wf)
  ++ flat_map ag_tool_ids (wf_agent_definitions wf)
  ++ flat_map td_tool_ids (wf_task_definitions wf).

Definition all_tools : list ToolDefinition :=
  wf_tool_definitions wf
  ++ List.filter (fun tool => mem_str (tl_id tool) referenced_tool_ids
                              && negb (mem_str (tl_id tool) local_tool_ids)) vc_tools.

Definition adapter_errors : list ValidationIssue :=
  let missing := List.filter (fun item => negb (mem_str item vc_adapter_ids))
                   (wf_allowed_runtime_adapter_ids wf) in
  issue_if (dangling (wf_default_runtime_adapter_id wf) vc_adapter_ids)
    (error_issue "runtime_adapter.missing" "Selected default runtime adapter does not exist")
  ++ issue_if (negb (bool_decide (missing = [])))
       (error_issue "runtime_adapter.allowed_missing"
          ("Allowed runtime adapters do not exist: " +:+ py_join ", " missing)).

Definition adapter_warnings : list ValidationIssue :=
  issue_if (negb (bool_decide (wf_allowed_runtime_adapter_ids wf = []))
            && dangling (wf_default_runtime_adapter_id wf) (wf_allowed_runtime_adapter_ids wf))
    (warning_issue "runtime_adapter.default_not_allowed"
       "Default runtime adapter is not listed in allowed runtime adapters").

Definition validation_errors : list ValidationIssue :=
  entrypoint_errors
  ++ flat_map edge_errors (wf_edges wf)
  ++ flat_map node_errors_of (wf_nodes wf)
  ++ flat_map agent_errors (wf_agent_definitions wf)
  ++ flat_map task_errors (wf_task_definitions wf)
  ++ flat_map (tool_errors (workflow_connector_bindings wf)) all_tools
  ++ adapter_errors.

Definition validation_warnings : list ValidationIssue :=
  flat_map edge_warnings (wf_edges wf)
  ++ (if truthy (pget "allow_orphan_nodes" (wf_metadata wf)) then []
      else flat_map orphan_warnings (wf_nodes wf))
  ++ flat_map (tool_warnings (workflow_connector_bindings wf)) all_tools
  ++ adapter_warnings.

Definition compatible_runtime_adapters : list string :=
  List.filter (fun i => match vc_supports i with Some supports => supports wf | None => false end)
    vc_adapter_ids.

(** [validate] *)
Definition validate : WorkflowValidationResult :=
  mkResult (wf_nodes wf) (wf_edges wf) validation_errors validation_warnings vc_tools vc_agents
    compatible_runtime_adapters.
End Workflow.
End Validate.
