(* ===== verification/WorkflowValidationFacts.v ===== *)
(** * What validation promises

    Validation reports no error exactly for the workflows that satisfy
    [workflow_valid], a declarative reading of its checks; the engine finds every
    task, agent, profile and dependency of a workflow that passed; a tool that was
    built is typed and boxed in. *)

From S2P Require Export WorkflowValidation Tasks RunLoop Sample.

(** ** Lists of issues *)

Lemma issue_if_nil b x : issue_if b x = [] <-> b = false.
Proof. by destruct b. Qed.

Lemma app_nil_iff {A} (l k : list A) : l ++ k = [] <-> l = [] /\ k = [].
Proof. split; [apply app_eq_nil|by intros [-> ->]]. Qed.

Lemma flat_map_nil {A B} (f : A -> list B) l : flat_map f l = [] <-> forall x, In x l -> f x = [].
Proof.
  induction l as [|x l IH]; simpl; [by split|]. rewrite app_nil_iff, IH. split.
  - by intros [Hx Hl] y [<-|Hy]; [|apply Hl].
  - intros Hall. split; [by apply Hall; left|]. intros y Hy. by apply Hall; right.
Qed.

Lemma filter_missing_nil ids known `{!Decision (List.filter (fun i => negb (mem_str i known)) ids = [])} :
  bool_decide (List.filter (fun i => negb (mem_str i known)) ids = []) = true
  <-> forall i, In i ids -> In i known.
Proof.
  rewrite bool_decide_eq_true. split.
  - intros Hnil i Hi. apply mem_str_In. destruct (mem_str i known) eqn:Hm; [done|]. exfalso.
    assert (Hin : In i (List.filter (fun i => negb (mem_str i known)) ids)).
    { apply filter_In. by rewrite Hm. }
    by rewrite Hnil in Hin.
  - intros Hall. apply filter_false. intros i Hi. by apply negb_false_iff, mem_str_In, Hall.
Qed.

(** ** Providers *)

Definition aliases_closed : bool :=
  forallb (fun kv => negb (String.eqb kv.2 "")
                     && opt_eqb (dget kv.2 connector_alias_lookup) (Some kv.2)) connector_alias_lookup.

Lemma aliases_closed_holds : aliases_closed = true.
Proof. vm_compute. reflexivity. Qed.

#[local] Opaque connector_alias_lookup.

Lemma alias_target k p : dget k connector_alias_lookup = Some p ->
  p <> "" /\ dget p connector_alias_lookup = Some p.
Proof.
  intros Hget%dget_In. pose proof (proj1 (forallb_forall _ _) aliases_closed_holds _ Hget) as Hb.
  simpl in Hb. apply andb_prop in Hb as [Hp%negb_true_iff%String.eqb_neq Hself].
  split; [done|]. destruct (dget p connector_alias_lookup) as [q|]; [|discriminate].
  by apply String.eqb_eq in Hself as ->.
Qed.

Lemma normalized_provider_nonempty s p : normalize_connector_provider_key s = Some p -> p <> "".
Proof.
  unfold normalize_connector_provider_key. destruct (String.eqb_spec (py_lower (py_strip s)) ""); [done|].
  intros [= <-]. destruct (dget _ connector_alias_lookup) as [q|] eqn:Hq; simpl; [|done].
  by apply alias_target in Hq as [? _].
Qed.

Lemma provider_hint_nonempty tool p : connector_provider_hint tool = Some p -> p <> "".
Proof.
  unfold connector_provider_hint. induction provider_keys as [|k ks IH]; simpl; [done|].
  destruct (pget k (tl_config tool)); auto. destruct (String.eqb _ _); [auto|].
  apply normalized_provider_nonempty.
Qed.

(** ** Building a tool *)

(** A tool that was built has an input schema, the type of its implementation, a
    sandbox when it has a privileged capability, and as a shell tool also the
    permission and an approval. *)
Theorem built_tool_is_boxed implementation_type t t' :
  build_tool implementation_type t = inr t' ->
  let s := tl_security t' in
  tl_input_schema t' <> []
  /\ (has_privileged_capabilities s = true -> sec_sandbox_required s = true)
  /\ (forall ty, dget implementation_type implementation_map = Some ty -> tl_tool_type t' = ty)
  /\ (tl_tool_type t' = SHELL_COMMAND ->
      sec_allow_shell s = true /\ sec_requires_approval s = true /\ sec_sandbox_required s = true).
Proof.
  unfold build_tool, ensure_tool_is_safe_and_typed.
  set (s0 := require_sandbox_for_privileged_capabilities (tl_security t)).
  assert (Hbox : has_privileged_capabilities s0 = true -> sec_sandbox_required s0 = true).
  { subst s0. unfold require_sandbox_for_privileged_capabilities.
    destruct (has_privileged_capabilities (tl_security t)) eqn:Hp, (sec_sandbox_required (tl_security t)) eqn:Hs;
      simpl; auto; rewrite ?Hp; done. }
  destruct (tl_input_schema (set_tl_security s0 t)) as [|kv schema] eqn:Hschema; [done|].
  set (t1 := match dget _ _ with Some ty => _ | None => _ end). intros Hbuilt.
  assert (Ht1 : tl_input_schema t1 = kv :: schema /\ tl_security t1 = s0
                /\ forall ty, dget implementation_type implementation_map = Some ty -> tl_tool_type t1 = ty).
  { subst t1. destruct (dget implementation_type implementation_map) as [ty|]; simpl in *;
      split_and!; try done; by intros ? [= <-]. }
  destruct Ht1 as (Hs1 & Hsec & Hty).
  destruct (bool_decide (tl_tool_type t1 = SHELL_COMMAND)) eqn:Hshell.
  - destruct (sec_allow_shell (tl_security t1)) eqn:Ha, (sec_requires_approval (tl_security t1)) eqn:Hr,
      (sec_sandbox_required (tl_security t1)) eqn:Hb; simpl in Hbuilt; try done.
    injection Hbuilt as <-. rewrite Hsec in *. split_and!; try done. by rewrite Hs1.
  - injection Hbuilt as <-. rewrite Hsec in *. apply bool_decide_eq_false in Hshell.
    split_and!; try done. by rewrite Hs1.
Qed.

(** ** Valid workflows *)

(** An optional reference, when present, is among [ids]. *)
Definition known (reference : option string) (ids : list string) : Prop :=
  forall s, reference = Some s -> s <> "" -> In s ids.

Section Valid.
Context `{Env} `{ValidationContext}.

Record node_valid (wf : WorkflowDefinition) (node : WorkflowNode) : Prop := {
  nv_task : runs_task node = true -> exists t, wn_task_id node = Some t /\ In t (workflow_task_ids wf);
  nv_agent : known (wn_agent_id node) (available_agent_ids wf);
  nv_tool : known (wn_tool_id node) (available_tool_ids wf)
}.

Record agent_valid (wf : WorkflowDefinition) (agent : AgentDefinition) : Prop := {
  av_profile : known (ag_model_profile_id agent) available_profile_ids;
  av_supports : ag_tool_ids agent <> [] -> forall s p, ag_model_profile_id agent = Some s -> s <> "" ->
    List.find (fun item => String.eqb (pi_id item) s) vc_profiles = Some p -> pi_supports_tools p = true;
  av_tools : forall t, In t (ag_tool_ids agent) -> In t (available_tool_ids wf)
}.

Record task_valid (wf : WorkflowDefinition) (task : TaskDefinition) : Prop := {
  tv_agent : known (td_agent_id task) (available_agent_ids wf);
  tv_tools : forall t, In t (td_tool_ids task) -> In t (available_tool_ids wf);
  tv_dependencies : forall d, In d (td_depends_on_task_ids task) ->
    In d (workflow_task_ids wf)
    /\ exists node, In node (wf_nodes wf) /\ runs_task node = true /\ wn_task_id node = Some d /\ d <> ""
}.

(** What a tool of each type must declare. *)
Definition type_valid (tool : ToolDefinition) : Prop :=
  let s := tl_security tool in
  match tl_tool_type tool with
  | HTTP_REQUEST => sec_allowlisted_domains s <> []
  | A2A_REMOTE_AGENT =>
      sec_allowlisted_domains s <> []
      /\ (pget "stub_response" (tl_config tool) <> PNone
          \/ starts_with "http://" (tl_target tool) = true \/ starts_with "https://" (tl_target tool) = true)
  | PYTHON_FUNCTION =>
      sec_module_allowlist s <> [] \/ starts_with "app.tools.implementations." (tl_target tool) = true
      \/ tl_target tool = "tests.native_test_tools"
  | MCP_TOOL =>
      sec_allowlisted_mcp_servers s <> []
      /\ forall i, In i (sec_allowlisted_mcp_servers s) -> In i vc_mcp_server_ids
  | SHELL_COMMAND =>
      sec_allow_shell s = true /\ sec_requires_approval s = true /\ sec_sandbox_required s = true
  | _ => True
  end.

Record tool_valid (bindings : list (dict pyval)) (tool : ToolDefinition) : Prop := {
  lv_schema : tl_input_schema tool <> [];
  lv_boxed : tool_is_dangerous (tl_security tool) = true ->
    sec_sandbox_required (tl_security tool) = true \/ sec_requires_approval (tl_security tool) = true;
  lv_type : type_valid tool;
  lv_connector : is_connector_backed_tool tool = true -> sec_connector_bindings (tl_security tool) = [] ->
    bindings <> []
    /\ forall p, connector_provider_hint tool = Some p -> exists b, In b bindings /\ stripped "provider" b = p
}.

Record workflow_valid (wf : WorkflowDefinition) : Prop := {
  wv_entrypoint : In (wf_entrypoint wf) (workflow_node_ids wf);
  wv_edges : forall e, In e (wf_edges wf) ->
    In (we_source_node_id e) (workflow_node_ids wf) /\ In (we_target_node_id e) (workflow_node_ids wf);
  wv_nodes : forall n, In n (wf_nodes wf) -> node_valid wf n;
  wv_agents : forall a, In a (wf_agent_definitions wf) -> agent_valid wf a;
  wv_tasks : forall t, In t (wf_task_definitions wf) -> task_valid wf t;
  wv_tools : forall t, In t (all_tools wf) -> tool_valid (workflow_connector_bindings wf) t;
  wv_default_adapter : known (wf_default_runtime_adapter_id wf) vc_adapter_ids;
  wv_allowed_adapters : forall i, In i (wf_allowed_runtime_adapter_ids wf) -> In i vc_adapter_ids
}.

Lemma dangling_false reference ids : dangling reference ids = false <-> known reference ids.
Proof.
  unfold dangling, known. destruct reference as [s|]; simpl; [|by split].
  destruct (String.eqb_spec s "") as [->|Hne]; simpl.
  - split; [intros _ s [= <-] Hs; done|done].
  - rewrite negb_false_iff, mem_str_In. split; [by intros Hin ? [= <-] _|eauto].
Qed.

Lemma tools_known wf ids (issue : ValidationIssue) :
  flat_map (fun i => issue_if (negb (mem_str i (available_tool_ids wf))) issue) ids = []
  <-> forall t, In t ids -> In t (available_tool_ids wf).
Proof.
  rewrite flat_map_nil. split; intros Hall t Ht; specialize (Hall t Ht).
  - by apply issue_if_nil, negb_false_iff, mem_str_In in Hall.
  - by apply issue_if_nil, negb_false_iff, mem_str_In.
Qed.

Lemma node_errors_nil wf n : node_errors_of wf n = [] <-> node_valid wf n.
Proof.
  unfold node_errors_of. rewrite !app_nil_iff, !issue_if_nil, !dangling_false. split.
  - intros (Ht & Ha & Hl). split; [|done|done]. intros Hruns. rewrite Hruns in Ht. simpl in Ht.
    destruct (wn_task_id n) as [t|]; simpl in Ht; [|done]. exists t. split; [done|].
    by apply mem_str_In, negb_false_iff.
  - intros [Ht Ha Hl]. split_and!; [|done|done]. destruct (runs_task n); [|done].
    destruct Ht as (t & -> & Hin); [done|]. simpl. by apply negb_false_iff, mem_str_In.
Qed.

Lemma agent_errors_nil wf a : agent_errors wf a = [] <-> agent_valid wf a.
Proof.
  unfold agent_errors, profile_lacks_tools. rewrite !app_nil_iff, !issue_if_nil, tools_known, dangling_false.
  split.
  - intros (Hp & Hs & Ht). split; [done| |done]. intros Hne s p Hid Hs0 Hfind.
    rewrite Hid in Hs. simpl in Hs. rewrite Hfind in Hs.
    rewrite bool_decide_false in Hs by done. destruct (String.eqb_spec s ""); [done|].
    by apply negb_false_iff in Hs.
  - intros [Hp Hs Ht]. split_and!; [done| |done]. destruct (ag_tool_ids a) as [|t ts] eqn:Hts; [done|].
    destruct (ag_model_profile_id a) as [s|]; [|done]. simpl.
    destruct (String.eqb_spec s ""); [done|]. simpl.
    destruct (List.find _ vc_profiles) as [p|] eqn:Hfind; [|done]. apply negb_false_iff.
    by apply (Hs ltac:(done) s p).
Qed.

Lemma executable_task_spec wf d : In d (executable_task_ids wf) <->
  exists node, In node (wf_nodes wf) /\ runs_task node = true /\ wn_task_id node = Some d /\ d <> "".
Proof.
  unfold executable_task_ids. rewrite <-list_elem_of_In, list_elem_of_omap. split.
  - intros (n & Hn%list_elem_of_In & Hd). destruct (runs_task n) eqn:Hr; [|done]. simpl in Hd.
    destruct (wn_task_id n) as [s|] eqn:Hs; simpl in Hd; [|done].
    destruct (String.eqb_spec s ""); simpl in Hd; [done|]. injection Hd as ->. by exists n.
  - intros (n & Hn & Hr & Hid & Hne). exists n. split; [by apply list_elem_of_In|].
    rewrite Hr, Hid. simpl. by destruct (String.eqb_spec d "").
Qed.

Lemma task_errors_nil wf t : task_errors wf t = [] <-> task_valid wf t.
Proof.
  unfold task_errors. rewrite !app_nil_iff, issue_if_nil, tools_known, dangling_false, flat_map_nil.
  assert (Hdep : forall d, dependency_errors wf t d = [] <->
    In d (workflow_task_ids wf) /\ In d (executable_task_ids wf)).
  { intros d. unfold dependency_errors. rewrite <-!mem_str_In.
    destruct (mem_str d (workflow_task_ids wf)), (mem_str d (executable_task_ids wf)); simpl; intuition done. }
  setoid_rewrite Hdep. setoid_rewrite executable_task_spec.
  split; [intros (Ha & Hl & Hd); by split|by intros [Ha Hl Hd]].
Qed.

Lemma bool_decide_nil {A} (l : list A) `{!Decision (l = [])} : bool_decide (l = []) = false <-> l <> [].
Proof. apply bool_decide_eq_false. Qed.

Lemma type_errors_nil tool : tool_type_errors tool = [] <-> type_valid tool.
Proof.
  unfold tool_type_errors, type_valid. destruct (tl_tool_type tool); try by split.
  - rewrite issue_if_nil, !andb_false_iff, !negb_false_iff, String.eqb_eq, bool_decide_nil. tauto.
  - by rewrite issue_if_nil, bool_decide_nil.
  - rewrite !app_nil_iff, !issue_if_nil, !negb_false_iff. tauto.
  - rewrite app_nil_iff, !issue_if_nil, bool_decide_nil, negb_false_iff. by rewrite filter_missing_nil.
  - rewrite app_nil_iff, !issue_if_nil, bool_decide_nil, andb_false_iff, negb_false_iff, orb_true_iff.
    assert (Hstub : is_none (pget "stub_response" (tl_config tool)) = false
                    <-> pget "stub_response" (tl_config tool) <> PNone).
    { by destruct (pget "stub_response" (tl_config tool)). }
    rewrite Hstub. tauto.
Qed.

Lemma providers_spec bindings p : p <> "" ->
  mem_str p (List.filter (fun p => negb (String.eqb p "")) (map (stripped "provider") bindings)) = true
  <-> exists b, In b bindings /\ stripped "provider" b = p.
Proof.
  intros Hp. rewrite mem_str_In, filter_In, in_map_iff, negb_true_iff, String.eqb_neq.
  split; [intros [(b & Hb & Hin) _]; eauto|intros (b & Hin & Hb); eauto].
Qed.

Lemma connector_errors_nil bindings tool :
  connector_errors bindings tool = [] <->
  (is_connector_backed_tool tool = true -> sec_connector_bindings (tl_security tool) = [] ->
   bindings <> []
   /\ forall p, connector_provider_hint tool = Some p -> exists b, In b bindings /\ stripped "provider" b = p).
Proof.
  unfold connector_errors. destruct (is_connector_backed_tool tool); [|by split].
  destruct (sec_connector_bindings (tl_security tool)) as [|c cs]; [|by split].
  pose proof (provider_hint_nonempty tool) as Hne. destruct (connector_provider_hint tool) as [p|]; simpl.
  - specialize (Hne p eq_refl). destruct (String.eqb_spec p ""); [done|]. simpl.
    pose proof (providers_spec bindings p Hne) as Hin. simpl in Hin.
    destruct (mem_str p _) eqn:Hm; simpl.
    + destruct (proj1 Hin eq_refl) as (b & Hb & Heq). destruct bindings as [|b0 bs]; [done|]. split; [|done].
      intros _ _ _. split; [done|]. intros ? [= <-]. eauto.
    + split; [done|]. intros Hall. destruct (Hall eq_refl eq_refl) as [_ Hex].
      discriminate (proj2 Hin (Hex p eq_refl)).
  - destruct bindings as [|b0 bs]; simpl; [|by split].
    split; [done|]. intros Hall. by destruct (Hall eq_refl eq_refl).
Qed.

Lemma tool_errors_nil bindings tool : tool_errors bindings tool = [] <-> tool_valid bindings tool.
Proof.
  unfold tool_errors. rewrite !app_nil_iff, !issue_if_nil, bool_decide_nil, andb_false_iff, negb_false_iff,
    orb_true_iff, type_errors_nil, connector_errors_nil.
  split.
  - intros (Hs & Hd & Ht & Hc). split; try done. intros Hdanger. destruct Hd as [Hd|Hd]; [by rewrite Hd in Hdanger|done].
  - intros [Hs Hd Ht Hc]. split_and!; try done. destruct (tool_is_dangerous _); auto.
Qed.

Lemma edge_errors_nil wf e : edge_errors wf e = [] <->
  In (we_source_node_id e) (workflow_node_ids wf) /\ In (we_target_node_id e) (workflow_node_ids wf).
Proof.
  unfold edge_errors, edge_is_invalid. by rewrite issue_if_nil, orb_false_iff, !negb_false_iff, !mem_str_In.
Qed.

Lemma errors_nil_valid wf : vr_errors (validate wf) = [] <-> workflow_valid wf.
Proof.
  simpl. unfold validation_errors, entrypoint_errors, adapter_errors.
  rewrite !app_nil_iff, !issue_if_nil, !flat_map_nil, !negb_false_iff, mem_str_In, dangling_false,
    filter_missing_nil.
  setoid_rewrite edge_errors_nil. setoid_rewrite node_errors_nil. setoid_rewrite agent_errors_nil.
  setoid_rewrite task_errors_nil. setoid_rewrite tool_errors_nil.
  split; [by intros (? & ? & ? & ? & ? & ? & ? & ?); split|by intros []].
Qed.
(** C30. The validator is sound and complete: it reports no error exactly when the
    entrypoint and the ends of edges exist, task and approval nodes have their
    task, every reference to an agent, a tool or a profile is known, agents with
    tools have a profile that supports them, dependencies are run by a node,
    every tool that the workflow declares or uses meets the demands of its type
    and its dangers, and the runtime adapters exist. *)
Theorem validation_exact wf : vr_errors (validate wf) = [] <-> workflow_valid wf.
Proof. apply errors_nil_valid. Qed.
End Valid.

(** ** The engine on a validated workflow *)

Lemma drain_queue_extends wf fuel queue d seen ordered seen' ordered' :
  drain_queue fuel wf queue d seen ordered = Some (seen', ordered') -> exists l, ordered' = ordered ++ l.
Proof.
  revert queue d seen ordered. induction fuel as [|fuel IH]; intros [|id queue] d seen ordered; simpl; try done.
  1-2: intros [= _ <-]; exists []; by rewrite app_nil_r.
  destruct (dget id _) as [node|]; [|apply IH]. destruct (mem_str id seen); [apply IH|].
  destruct (release_targets _ d) as [d' ready]. intros (l & ->)%IH. exists (node :: l). by rewrite <-app_assoc.
Qed.

(** The plan of a workflow begins with its entrypoint. *)
Lemma plan_starts_at_entrypoint wf : In (wf_entrypoint wf) (map wn_id (wf_nodes wf)) ->
  exists node rest, order_nodes wf = node :: rest /\ wn_id node = wf_entrypoint wf.
Proof.
  intros (n & Hid & Hn)%in_map_iff.
  destruct (order_nodes_split wf) as (seen & ordered & Hrun & ->); [by intros Hnil; rewrite Hnil in Hn|].
  destruct (dget (wn_id n) (node_by_id (wf_nodes wf))) as [node|] eqn:Hget;
    [|by destruct (node_by_id_complete wf n Hn)].
  pose proof (node_by_id_sound wf _ _ Hget) as [_ Hnode]. rewrite Hid in *.
  unfold initial_queue, plan_fuel, dmem in Hrun. rewrite Hget in Hrun. simpl in Hrun. rewrite Hget in Hrun.
  simpl in Hrun. destruct (release_targets _ _) as [d' ready] in Hrun.
  apply drain_queue_extends in Hrun as [l ->]. by exists node, (l ++ List.filter
    (fun n0 => negb (mem_str (wn_id n0) seen)) (wf_nodes wf)).
Qed.

Lemma find_named {A} (name : A -> string) s (l : list A) : In s (map name l) ->
  exists x, In x l /\ name x = s /\ List.find (fun x => opt_eqb (Some (name x)) (Some s)) l = Some x.
Proof.
  induction l as [|y l IH]; simpl; [done|]. destruct (String.eqb_spec (name y) s) as [Heq|Hne].
  - intros _. exists y. by auto.
  - intros [?|Hin]; [done|]. destruct (IH Hin) as (x & Hx & Hs & Hf). exists x. by auto.
Qed.

Section Runs.
Context `{Env} `{ValidationContext} `{Profiles} (wf : WorkflowDefinition).

(** Everything that [wf] names, it defines; profiles are those of the repository. *)
Record self_contained : Prop := {
  sc_agents : forall i, In i (map ag_id vc_agents) -> In i (local_agent_ids wf);
  sc_tasks : forall t, In t (wf_task_definitions wf) -> td_id t <> "";
  sc_profiles : forall s, In s available_profile_ids -> get_profile s <> None;
  sc_nodes : List.NoDup (map wn_id (wf_nodes wf))
}.

Lemma resolve_task_defined s : s <> "" -> In s (workflow_task_ids wf) ->
  exists task, In task (wf_task_definitions wf) /\ td_id task = s
               /\ forall w, resolve_task wf (Some s) w = (Ok task, w).
Proof.
  intros Hne Hin. destruct (find_named td_id s _ Hin) as (task & Htask & Hid & Hfind).
  exists task. split_and!; try done. intros w. unfold resolve_task. cbn [str_truthy].
  destruct (String.eqb_spec s ""); [done|]. cbn [negb]. by rewrite Hfind.
Qed.

Lemma resolve_agent_defined reference : str_truthy reference = true ->
  known reference (local_agent_ids wf) ->
  exists agent, In agent (wf_agent_definitions wf) /\ forall w, resolve_agent wf reference w = (Ok agent, w).
Proof.
  intros Htrue Hknown. destruct reference as [s|]; [|done]. simpl in Htrue.
  apply negb_true_iff, String.eqb_neq in Htrue. pose proof (Hknown s eq_refl Htrue) as Hin.
  destruct (find_named ag_id s _ Hin) as (agent & Ha & _ & Hfind).
  exists agent. split; [done|]. intros w. unfold resolve_agent. cbn [str_truthy].
  destruct (String.eqb_spec s ""); [done|]. cbn [negb]. by rewrite Hfind.
Qed.

Lemma resolve_profile_defined agent : self_contained -> str_truthy (ag_model_profile_id agent) = true ->
  known (ag_model_profile_id agent) available_profile_ids ->
  forall overrides, truthy (pget "model_profile_id" overrides) = false ->
  exists p, forall w, resolve_profile agent overrides w = (Ok p, w).
Proof.
  intros Hsc Htrue Hknown overrides Hov. destruct (ag_model_profile_id agent) as [s|] eqn:Hid; [|done]. simpl in Htrue.
  apply negb_true_iff, String.eqb_neq in Htrue.
  destruct (get_profile s) as [p|] eqn:Hp; [|by destruct (sc_profiles Hsc s (Hknown s eq_refl Htrue))].
  eexists. intros w. unfold resolve_profile, py_or. rewrite Hid, Hov. cbn -[String.eqb].
  destruct (String.eqb_spec s ""); [done|]. by rewrite Hp.
Qed.

(** Without a reference there is nothing to look up. *)
Lemma resolve_agent_unnamed reference w : str_truthy reference = false ->
  resolve_agent wf reference w = (Raise (mkExn WorkflowNotFoundError "Task is missing an agent reference"), w).
Proof. intros Hno. unfold resolve_agent. by rewrite Hno. Qed.

Lemma resolve_profile_unnamed agent overrides w : str_truthy (ag_model_profile_id agent) = false ->
  truthy (pget "model_profile_id" overrides) = false ->
  resolve_profile agent overrides w
  = (Raise (mkExn WorkflowNotFoundError ("Agent '" +:+ ag_id agent +:+ "' is missing model_profile_id")), w).
Proof.
  intros Hno Hov. unfold resolve_profile, py_or. rewrite Hov.
  destruct (ag_model_profile_id agent) as [s|]; [|done]. cbn in Hno. apply negb_false_iff in Hno. cbn [opt_str]. by rewrite Hno.
Qed.

(** C31. The engine's lookups on a workflow without validation errors that defines
    what it names.  The plan begins with the entrypoint, and every planned node
    that is executed resolves its task, whose dependencies are run by planned
    nodes.  Its agent resolves exactly when the node or the task names one: the
    validator does not ask for it, and without a name the node fails with "Task is
    missing an agent reference".  Likewise the model profile of that agent
    resolves, for task overrides that name no profile of their own, exactly when
    the agent names one. *)
Theorem validated_nodes_resolve :
  vr_errors (validate wf) = [] -> self_contained ->
  (exists node rest, order_nodes wf = node :: rest /\ wn_id node = wf_entrypoint wf)
  /\ forall node, In node (order_nodes wf) -> is_executable node = true ->
     exists task,
       (forall w, resolve_task wf (wn_task_id node) w = (Ok task, w))
       /\ (forall d, In d (td_depends_on_task_ids task) ->
           exists node', In node' (order_nodes wf) /\ is_executable node' = true /\ wn_task_id node' = Some d)
       /\ let named := str_or (wn_agent_id node) (td_agent_id task) in
          if str_truthy named then
            exists agent,
              (forall w, resolve_agent wf named w = (Ok agent, w))
              /\ forall overrides, truthy (pget "model_profile_id" overrides) = false ->
                 if str_truthy (ag_model_profile_id agent)
                 then exists p, forall w, resolve_profile agent overrides w = (Ok p, w)
                 else forall w, resolve_profile agent overrides w
                   = (Raise (mkExn WorkflowNotFoundError ("Agent '" +:+ ag_id agent +:+ "' is missing model_profile_id")), w)
          else forall w, resolve_agent wf named w
            = (Raise (mkExn WorkflowNotFoundError "Task is missing an agent reference"), w).
Proof.
  intros Hvalid Hsc. assert (Hv : workflow_valid wf).
  { destruct (errors_nil_valid wf) as [Hv _]. by apply Hv. }
  pose proof (plan_permutation wf (sc_nodes Hsc)) as Hperm.
  split; [apply plan_starts_at_entrypoint, Hv|]. intros node Hnode Hex.
  assert (Hin : In node (wf_nodes wf)) by (by apply (Permutation_in _ Hperm)).
  destruct (wv_nodes _ Hv node Hin) as [Htask Hagent _]. destruct (Htask Hex) as (t & Hid & Ht).
  assert (Hne : t <> "").
  { apply in_map_iff in Ht as (td & <- & Htd). by apply (sc_tasks Hsc). }
  destruct (resolve_task_defined t Hne Ht) as (task & Hdef & _ & Hres). exists task. rewrite Hid.
  destruct (wv_tasks _ Hv task Hdef) as [Htagent _ Hdeps]. split; [done|]. split.
  - intros d Hd. destruct (Hdeps d Hd) as [_ (n' & Hn' & Hr' & Hid' & _)]. exists n'. split_and!; [|done|done].
    by apply (Permutation_in _ (Permutation_sym Hperm)).
  - cbv zeta. destruct (str_truthy (str_or (wn_agent_id node) (td_agent_id task))) eqn:Htrue;
      [|intros w; by apply resolve_agent_unnamed].
    destruct (resolve_agent_defined _ Htrue) as (agent & Ha & Hr).
    + intros s Hs Hs0.
      assert (Havail : In s (available_agent_ids wf)).
      { unfold str_or in Hs. destruct (str_truthy (wn_agent_id node));
          [by apply Hagent|by apply Htagent]. }
      unfold available_agent_ids in Havail. apply in_app_iff in Havail as [?|?]; [done|by apply (sc_agents Hsc)].
    + exists agent. split; [done|]. intros overrides Hov.
      destruct (str_truthy (ag_model_profile_id agent)) eqn:Hp; [|intros w; by apply resolve_profile_unnamed].
      apply resolve_profile_defined; try done. apply (wv_agents _ Hv agent Ha).
Qed.
End Runs.

(** * Validated workflows

    A repository, a workflow that passes validation and runs, and one that passes
    and cannot run. *)

Definition drafting_agent : AgentDefinition := mkAgent "writer" "Writer" (Some "small") ["notes"] [] [].
Definition shared_agent : AgentDefinition := mkAgent "reviewer" "Reviewer" (Some "small") [] [] [].

Definition boxed : SecuritySettings :=
  mkSecurity false true false false true false [] [] ["app.notes"] false false [].

Definition notes_tool : ToolDefinition :=
  mkTool "notes" "Notes" PYTHON_FUNCTION [("type", PStr "object")] "app.notes" [] boxed [].

Definition draft_task : TaskDefinition :=
  mkTask "draft" "Draft" (Some "writer") ["notes"] [] false None None None None None [].
Definition publish_task : TaskDefinition :=
  mkTask "publish" "Publish" None [] ["draft"] false None None None None None [].

Definition task_node (id task : string) (agent : option string) : WorkflowNode :=
  mkNode id id NODE_TASK agent (Some task) None [] [].

Definition two_steps (publisher : string) (agents : list AgentDefinition) : WorkflowDefinition :=
  mkWorkflow "wf-steps" "Steps"
    [task_node "n-publish" "publish" (Some publisher); task_node "n-draft" "draft" None]
    [mkEdge "e" "n-draft" "n-publish" EDGE_SUCCESS None []] "n-draft" [draft_task; publish_task] agents
    [notes_tool] ["native"] (Some "native") None None None None [].

Definition self_written : WorkflowDefinition := two_steps "writer" [drafting_agent].
Definition reviewed : WorkflowDefinition := two_steps "reviewer" [drafting_agent].

(** The repository of [self_written], and one that also has a shared agent. *)
Definition repository (agents : list AgentDefinition) : ValidationContext := {|
  vc_agents := agents; vc_tools := []; vc_profiles := [mkProfileItem "small" true];
  vc_adapter_ids := ["native"]; vc_mcp_server_ids := [];
  vc_supports := fun i => if String.eqb i "native" then Some (fun _ => true) else None |}.

Definition profile_repository : Profiles :=
  fun i => if String.eqb i "small" then Some (mkProfile i None) else None.

(** The validator names what is missing. *)
Example undefined_agent_reported :
  map vi_code (vr_errors (@validate sample_env (repository []) reviewed)) = ["node.agent.missing"].
Proof. vm_compute. reflexivity. Qed.

Lemma validated_nodes_resolve_witness :
  exists task agent,
    (forall w, resolve_task self_written (Some "publish") w = (Ok task, w))
    /\ (forall w, resolve_agent self_written (Some "writer") w = (Ok agent, w))
    /\ exists node', In node' (order_nodes self_written) /\ wn_task_id node' = Some "draft".
Proof.
  destruct (@validated_nodes_resolve sample_env (repository []) profile_repository self_written) as [_ Hall].
  - vm_compute. reflexivity.
  - split.
    + intros i [].
    + intros t [<-|[<-|[]]]; discriminate.
    + intros s [<-|[]]. discriminate.
    + repeat (constructor; [simpl; intuition discriminate|]); constructor.
  - destruct (Hall (task_node "n-publish" "publish" (Some "writer"))) as (task & Ht & Hd & Ha);
      [vm_compute; auto|reflexivity|].
    pose proof (Ht (empty_world)) as Hres. vm_compute in Hres. injection Hres as <-.
    destruct Ha as (agent & Hag & _).
    destruct (Hd "draft" (or_introl eq_refl)) as (n' & Hin & _ & Hn').
    exists publish_task, agent. split; [exact Ht|]. split; [exact Hag|]. by exists n'.
Defined.

(** The validator accepts a task node that names no agent, and whose task names
    none; the engine needs one, so the node fails at run time. *)
Definition unassigned : WorkflowDefinition :=
  mkWorkflow "wf-draft" "Draft" [task_node "n-publish" "publish" None] [] "n-publish"
    [mkTask "publish" "Publish" None [] [] false None None None None None []] [] [] ["native"] (Some "native")
    None None None None [].

Lemma unassigned_node_is_not_resolved w :
  vr_errors (@validate sample_env (repository []) unassigned) = []
  /\ resolve_agent unassigned None w
     = (Raise (mkExn WorkflowNotFoundError "Task is missing an agent reference"), w).
Proof. split; [vm_compute; reflexivity|reflexivity]. Qed.

(** The validator accepts an agent that only the repository defines; the engine
    looks for agents in the workflow alone, so the node fails at run time. *)
Lemma shared_agent_is_not_resolved w :
  vr_errors (@validate sample_env (repository [shared_agent]) reviewed) = []
  /\ resolve_agent reviewed (Some "reviewer") w
     = (Raise (mkExn WorkflowNotFoundError "Agent 'reviewer' was not found in workflow 'wf-steps'"), w).
Proof. split; [vm_compute; reflexivity|reflexivity]. Qed.
