(* ===== verification/DomainPolicy.v ===== *)
(** * The domain policy of the browser runtime

    [DomainPolicyStore] and [DomainLease] of
    [app/browser_runtime/domain_policy.py]: the history of each domain, and the
    leases that bound how many operations run on a domain and how soon one
    follows another.

    Times are microseconds.  [acquire] and [release] consist of sections between
    two awaits; each section is a function of the pool, and the interleavings of
    any callers are a step relation.  Every section that removes a limit notifies
    all waiters, so a waiter goes on whenever its predicate holds.  The file to
    which the history is saved is read only when the process starts. *)

From stdpp Require Import gmap relations.
From S2P Require Export PyVal.

(** ** Settings *)

Record DomainSettings := mkDomainSettings {
  ds_history_ttl_seconds : Z;
  ds_cooldown_seconds : Z;
  ds_max_concurrency : Z;
  ds_minimum_interval : Z
}.

(** What [__init__] makes of the environment. *)
Definition domain_settings (env_ttl env_cooldown env_concurrency env_interval : Z) : DomainSettings :=
  mkDomainSettings (Z.max 300 env_ttl) (Z.max 1 env_cooldown) (Z.max 1 env_concurrency) (Z.max 0 env_interval).

(** ** History *)

Record DomainHistory := mkHistory {
  dh_domain : string;
  dh_successes : Z;
  dh_failures : Z;
  dh_challenges : Z;
  dh_fallback_successes : Z;
  dh_last_engine : option string;
  dh_last_challenge : option string;
  dh_cooldown_until : Z;
  dh_last_success_at : option Z;
  dh_updated_at : Z;
  dh_engine_successes : dict Z;
  dh_engine_failures : dict Z;
  dh_strategy_successes : dict Z
}.

Definition new_history (domain : string) : DomainHistory :=
  mkHistory domain 0 0 0 0 None None 0 None 0 [] [] [].

(** [d[k] = d.get(k, 0) + 1] *)
Definition bump (k : string) (d : dict Z) : dict Z := dset k (default 0 (dget k d) + 1) d.

(** [item.updated_at and current - item.updated_at >= self.history_ttl_seconds] *)
Definition history_is_stale (s : DomainSettings) (current : Z) (item : DomainHistory) : bool :=
  negb (dh_updated_at item =? 0)
  && (ds_history_ttl_seconds s * us_per_second <=? current - dh_updated_at item).

(** [prune] *)
Definition prune (s : DomainSettings) (current : Z) (history : dict DomainHistory) : dict DomainHistory * Z :=
  let stale := map fst (List.filter (fun kv => history_is_stale s current kv.2) history) in
  (fold_left (fun d k => dpop k d) stale history, Z.of_nat (List.length stale)).

(** One attempt, as [record] is told of it. *)
Record attempt := mkAttempt {
  ah_engine : string;
  ah_success : bool;
  ah_challenge : string;
  ah_fallback : bool;
  ah_cooldown_seconds : option Z
}.

Definition count_outcome (now : Z) (a : attempt) (h : DomainHistory) : DomainHistory :=
  if ah_success a then
    mkHistory (dh_domain h) (dh_successes h + 1) (dh_failures h) (dh_challenges h)
      (if ah_fallback a then dh_fallback_successes h + 1 else dh_fallback_successes h)
      (Some (ah_engine a)) (dh_last_challenge h) (dh_cooldown_until h) (Some now) now
      (bump (ah_engine a) (dh_engine_successes h)) (dh_engine_failures h)
      (bump (if ah_fallback a then "fallback" else "primary") (dh_strategy_successes h))
  else
    mkHistory (dh_domain h) (dh_successes h) (dh_failures h + 1) (dh_challenges h) (dh_fallback_successes h)
      (Some (ah_engine a)) (dh_last_challenge h) (dh_cooldown_until h) (dh_last_success_at h) now
      (dh_engine_successes h) (bump (ah_engine a) (dh_engine_failures h)) (dh_strategy_successes h).

(** The seconds of cooldown after a challenge; [env_maximum] is the limit in the
    environment. *)
Definition cooldown_of (s : DomainSettings) (env_maximum : Z) (a : attempt) : Z :=
  let requested_cooldown := default (ds_cooldown_seconds s) (ah_cooldown_seconds a) in
  let maximum_cooldown := Z.max (ds_cooldown_seconds s) env_maximum in
  Z.min (Z.max (ds_cooldown_seconds s) requested_cooldown) maximum_cooldown.

Definition count_challenge (s : DomainSettings) (env_maximum now : Z) (a : attempt) (h : DomainHistory) :
    DomainHistory :=
  if String.eqb (ah_challenge a) "none" then h
  else
    mkHistory (dh_domain h) (dh_successes h) (dh_failures h) (dh_challenges h + 1) (dh_fallback_successes h)
      (dh_last_engine h) (Some (ah_challenge a)) (now + cooldown_of s env_maximum a * us_per_second)
      (dh_last_success_at h) (dh_updated_at h) (dh_engine_successes h) (dh_engine_failures h)
      (dh_strategy_successes h).

(** [record] *)
Definition record_attempt (s : DomainSettings) (env_maximum now : Z) (domain : string) (a : attempt)
    (history : dict DomainHistory) : dict DomainHistory :=
  let history := (prune s now history).1 in
  let item := default (new_history domain) (dget domain history) in
  dset domain (count_challenge s env_maximum now a (count_outcome now a item)) history.

(** [get] *)
Definition domain_history (s : DomainSettings) (now : Z) (domain : string) (history : dict DomainHistory) :
    option DomainHistory * dict DomainHistory :=
  let history := (prune s now history).1 in
  (dget domain history, history).

(** ** Leases *)

(** [_DomainConcurrencyState], without its condition *)
Record concurrency := mkConcurrency { dc_active_limits : gmap Z Z; dc_next_token : Z }.

Definition idle : concurrency := mkConcurrency ∅ 0.

(** The phases of a caller of [acquire]: in [wait_for]; with a slot, before the
    timing lock; asleep inside the timing lock; with the lease; after [release]; cancelled
    in [wait_for]. *)
Inductive phase :=
  | waiting (domain : string) (requested_limit requested_interval : Z)
  | queued (domain : string) (token requested_interval : Z)
  | sleeping (domain : string) (token until : Z)
  | holding (domain : string) (token : Z)
  | released (domain : string) (token : Z)
  | given_up.

(** The store and its callers.  [pl_starts] is the history of the starts, the last
    first. *)
Record pool := mkPool {
  pl_clock : Z;
  pl_concurrency : gmap string concurrency;
  pl_last_started : gmap string Z;
  pl_timing_lock : option nat;
  pl_callers : gmap nat phase;
  pl_starts : list (string * Z)
}.

Definition initial_pool (now : Z) : pool := mkPool now ∅ ∅ None ∅ [].

Definition set_caller (c : nat) (ph : phase) (p : pool) : pool :=
  mkPool (pl_clock p) (pl_concurrency p) (pl_last_started p) (pl_timing_lock p) (<[c := ph]> (pl_callers p))
    (pl_starts p).

Definition concurrency_of (d : string) (p : pool) : concurrency := default idle (pl_concurrency p !! d).

Definition set_concurrency (d : string) (x : concurrency) (p : pool) : pool :=
  mkPool (pl_clock p) (<[d := x]> (pl_concurrency p)) (pl_last_started p) (pl_timing_lock p) (pl_callers p)
    (pl_starts p).

Definition set_timing_lock (o : option nat) (p : pool) : pool :=
  mkPool (pl_clock p) (pl_concurrency p) (pl_last_started p) o (pl_callers p) (pl_starts p).

Section Leases.
Context (s : DomainSettings).

(** The start of [acquire]: its limit, its interval, and [setdefault]. *)
Definition begin_acquire (c : nat) (d : string) (max_concurrency minimum_interval : option Z) (p : pool) : pool :=
  let requested_limit :=
    Z.min (match max_concurrency with Some n => if n =? 0 then ds_max_concurrency s else n
           | None => ds_max_concurrency s end) (ds_max_concurrency s) in
  let requested_interval :=
    Z.max (ds_minimum_interval s)
      (match minimum_interval with Some n => if n =? 0 then ds_minimum_interval s else n
       | None => ds_minimum_interval s end) in
  set_caller c (waiting d requested_limit requested_interval) (set_concurrency d (concurrency_of d p) p).

(** [len(active) + 1 <= min([requested_limit, *active.values()])] *)
Definition may_enter (requested_limit : Z) (x : concurrency) : bool :=
  Z.of_nat (size (dc_active_limits x)) + 1
  <=? fold_left Z.min (map snd (map_to_list (dc_active_limits x))) requested_limit.

(** The rest of the section under the condition. *)
Definition enter (c : nat) (d : string) (requested_limit requested_interval : Z) (p : pool) : pool :=
  let x := concurrency_of d p in
  let token := dc_next_token x + 1 in
  set_caller c (queued d token requested_interval)
    (set_concurrency d (mkConcurrency (<[token := requested_limit]> (dc_active_limits x)) token) p).

(** [self._last_started[domain] = self.clock()], and the timing lock is left. *)
Definition start_lease (c : nat) (d : string) (token : Z) (p : pool) : pool :=
  mkPool (pl_clock p) (pl_concurrency p) (<[d := pl_clock p]> (pl_last_started p)) None
    (<[c := holding d token]> (pl_callers p)) ((d, pl_clock p) :: pl_starts p).

(** [requested_interval - (now - self._last_started.get(domain, 0.0))] *)
Definition pacing_delay (d : string) (requested_interval : Z) (p : pool) : Z :=
  requested_interval - (pl_clock p - default 0 (pl_last_started p !! d)).

(** The section that begins with the timing lock. *)
Definition pace (c : nat) (d : string) (token requested_interval : Z) (p : pool) : pool :=
  let delay := pacing_delay d requested_interval p in
  if 0 <? delay then
    set_caller c (sleeping d token (pl_clock p + delay)) (set_timing_lock (Some c) p)
  else start_lease c d token p.

(** The section of [DomainLease.release]. *)
Definition release_slot (d : string) (token : Z) (p : pool) : pool :=
  let x := concurrency_of d p in
  set_concurrency d (mkConcurrency (delete token (dc_active_limits x)) (dc_next_token x)) p.

(** [release]; the second call does nothing. *)
Definition release (c : nat) (p : pool) : pool :=
  match pl_callers p !! c with
  | Some (holding d token) => set_caller c (released d token) (release_slot d token p)
  | _ => p
  end.

(** A caller is cancelled: a slot it has is released, and the timing lock with it. *)
Definition cancel_caller (c : nat) (p : pool) : pool :=
  match pl_callers p !! c with
  | Some (waiting _ _ _) => set_caller c given_up p
  | Some (queued d token _) => set_caller c (released d token) (release_slot d token p)
  | Some (sleeping d token _) =>
      set_caller c (released d token) (release_slot d token (set_timing_lock None p))
  | _ => p
  end.

Definition pass_time (us : Z) (p : pool) : pool :=
  mkPool (pl_clock p + us) (pl_concurrency p) (pl_last_started p) (pl_timing_lock p) (pl_callers p) (pl_starts p).

Inductive pool_step : pool -> pool -> Prop :=
  | step_begin c d max_concurrency minimum_interval p :
      pl_callers p !! c = None -> pool_step p (begin_acquire c d max_concurrency minimum_interval p)
  | step_enter c d limit interval p :
      pl_callers p !! c = Some (waiting d limit interval) -> may_enter limit (concurrency_of d p) = true ->
      pool_step p (enter c d limit interval p)
  | step_pace c d token interval p :
      pl_callers p !! c = Some (queued d token interval) -> pl_timing_lock p = None ->
      pool_step p (pace c d token interval p)
  | step_wake c d token until p :
      pl_callers p !! c = Some (sleeping d token until) -> until <= pl_clock p ->
      pool_step p (start_lease c d token p)
  | step_release c p : pool_step p (release c p)
  | step_cancel c p : pool_step p (cancel_caller c p)
  | step_time us p : 0 <= us -> pool_step p (pass_time us p).
End Leases.

(** ** The service *)

(** The policy values of [BrowserRuntimeService._effective_runtime_policy] that
    concern domains. *)
Definition effective_domain_policy (s : DomainSettings) (max_concurrency minimum_interval : option Z) : Z * Z :=
  (Z.min (match max_concurrency with Some n => if n =? 0 then ds_max_concurrency s else n
          | None => ds_max_concurrency s end) (ds_max_concurrency s),
   Z.max (default (ds_minimum_interval s) minimum_interval) (ds_minimum_interval s)).

(** [history and history.last_challenge and history.cooldown_until > time.time()] of
    [_open_locked] *)
Definition in_cooldown (now : Z) (history : option DomainHistory) : bool :=
  match history with
  | Some h => str_truthy (dh_last_challenge h) && (now <? dh_cooldown_until h)
  | None => false
  end.
