(* ===== verification/DomainPolicyFacts.v ===== *)
(** * What the domain policy guarantees

    Along every interleaving of callers: a domain has no more operations in flight
    than the smallest limit among them, operations of a domain start a minimum
    interval apart, and no slot is lost; a caller that waits can always get its
    lease.  The history counts what it was told and its cooldowns are bounded. *)

From stdpp Require Import gmap relations.
From S2P Require Export DomainPolicy.

(** ** Slots *)

Definition slot_of (ph : phase) : option (string * Z) :=
  match ph with
  | queued d token _ | sleeping d token _ | holding d token => Some (d, token)
  | _ => None
  end.

Definition slot_in (d : string) (ph : phase) : bool :=
  match slot_of ph with Some (d', _) => String.eqb d' d | None => false end.

(** The operations in flight on a domain. *)
Definition in_flight (d : string) (p : pool) : nat :=
  List.length (List.filter (fun cp => slot_in d cp.2) (map_to_list (pl_callers p))).

Definition active (d : string) (p : pool) : gmap Z Z := dc_active_limits (concurrency_of d p).

Lemma filter_length_perm {A} (f : A -> bool) l k : l ≡ₚ k ->
  List.length (List.filter f l) = List.length (List.filter f k).
Proof.
  induction 1; simpl; try done; repeat (destruct (f _)); simpl; try lia.
Qed.

Definition slots (d : string) (m : gmap nat phase) : nat :=
  List.length (List.filter (fun cp => slot_in d cp.2) (map_to_list m)).

Lemma slots_fresh d c ph m : m !! c = None ->
  slots d (<[c := ph]> m) = (slots d m + Nat.b2n (slot_in d ph))%nat.
Proof.
  intros Hc. unfold slots. rewrite (filter_length_perm _ _ _ (map_to_list_insert m c ph Hc)). simpl.
  destruct (slot_in d ph); simpl; lia.
Qed.

Lemma slots_change d c old ph m : m !! c = Some old ->
  (slots d (<[c := ph]> m) + Nat.b2n (slot_in d old) = slots d m + Nat.b2n (slot_in d ph))%nat.
Proof.
  intros Hc. rewrite <-(insert_id m c old Hc) at 2. rewrite <-(insert_delete_eq m c old).
  rewrite <-(insert_delete_eq m c ph), !slots_fresh by apply lookup_delete_eq. lia.
Qed.

Lemma slots_delete d c old m : m !! c = Some old ->
  (slots d (delete c m) + Nat.b2n (slot_in d old) = slots d m)%nat.
Proof.
  intros Hc. rewrite <-(insert_id m c old Hc) at 2.
  rewrite <-(insert_delete_eq m c old), slots_fresh by apply lookup_delete_eq. lia.
Qed.

Lemma active_set d d' x p :
  active d (set_concurrency d' x p) = if decide (d = d') then dc_active_limits x else active d p.
Proof.
  unfold active, concurrency_of, set_concurrency. cbn. destruct (decide (d = d')) as [->|Hne].
  - by rewrite lookup_insert_eq.
  - by rewrite lookup_insert_ne.
Qed.

(** Any update of one caller. *)
Lemma slots_update d c ph m :
  (slots d (<[c := ph]> m) + Nat.b2n (default false (slot_in d <$> m !! c))
   = slots d m + Nat.b2n (slot_in d ph))%nat.
Proof.
  destruct (m !! c) as [old|] eqn:Hc; cbn; [by apply slots_change|]. rewrite slots_fresh by done. lia.
Qed.

(** The slot of a caller. *)
Definition slot_at (c : nat) (p : pool) : option (string * Z) := pl_callers p !! c ≫= slot_of.

(** The smallest of the limits. *)
Lemma fold_min_le l n : fold_left Z.min l n <= n.
Proof. revert n. induction l as [|x l IH]; intros n; simpl; [lia|]. specialize (IH (Z.min n x)). lia. Qed.

Lemma fold_min_spec l n m : m <= fold_left Z.min l n <-> m <= n /\ forall x, In x l -> m <= x.
Proof.
  revert n. induction l as [|y l IH]; intros n; simpl.
  - split; [by intros ?; split|by intros [? _]].
  - rewrite IH. split.
    + intros [Hn Hl]. split; [lia|]. intros x [<-|Hx]; [lia|auto].
    + intros [Hn Hl]. split; [|auto]. pose proof (Hl y (or_introl eq_refl)). lia.
Qed.

Lemma may_enter_spec limit x : may_enter limit x = true <->
  Z.of_nat (size (dc_active_limits x)) + 1 <= limit
  /\ forall t l, dc_active_limits x !! t = Some l -> Z.of_nat (size (dc_active_limits x)) + 1 <= l.
Proof.
  unfold may_enter. rewrite Z.leb_le, fold_min_spec. split; intros [Hl Hall]; (split; [done|]).
  - intros t l Ht. apply Hall, in_map_iff. exists (t, l). split; [done|].
    by apply list_elem_of_In, elem_of_map_to_list.
  - intros l ([t l'] & <- & Hin)%in_map_iff. apply list_elem_of_In, elem_of_map_to_list in Hin. eauto.
Qed.

(** ** Starts *)

(** Two starts of a domain are [interval] apart; the last start comes first. *)
Fixpoint spaced (interval : Z) (starts : list (string * Z)) : Prop :=
  match starts with
  | [] => True
  | (d, t) :: earlier => (forall t', In (d, t') earlier -> t' + interval <= t) /\ spaced interval earlier
  end.

(** ** The invariant *)

Section Invariant.
Context (s : DomainSettings).

Record phase_ok (p : pool) (ph : phase) : Prop := {
  ho_waiting : forall d limit interval, ph = waiting d limit interval ->
    limit <= ds_max_concurrency s /\ ds_minimum_interval s <= interval;
  ho_queued : forall d token interval, ph = queued d token interval -> ds_minimum_interval s <= interval;
  ho_sleeping : forall d token until, ph = sleeping d token until ->
    forall t, pl_last_started p !! d = Some t -> t + ds_minimum_interval s <= until
}.

(** Slots and callers. *)
Record slots_ok (p : pool) : Prop := {
  so_limits : forall d t l, active d p !! t = Some l ->
    Z.of_nat (size (active d p)) <= l /\ l <= ds_max_concurrency s;
  so_tokens : forall d t, is_Some (active d p !! t) -> t <= dc_next_token (concurrency_of d p);
  so_slots : forall c d t, slot_at c p = Some (d, t) -> is_Some (active d p !! t);
  so_unique : forall c c' dt, slot_at c p = Some dt -> slot_at c' p = Some dt -> c = c';
  so_count : forall d, slots d (pl_callers p) = size (active d p)
}.

(** Timing. *)
Record timing_ok (p : pool) : Prop := {
  to_lock : forall c, pl_timing_lock p = Some c <->
    exists d t until, pl_callers p !! c = Some (sleeping d t until);
  to_phases : forall c ph, pl_callers p !! c = Some ph -> phase_ok p ph;
  to_last : forall d t, In (d, t) (pl_starts p) -> exists t', pl_last_started p !! d = Some t' /\ t <= t';
  to_spaced : spaced (ds_minimum_interval s) (pl_starts p)
}.

Lemma initial_pool_ok now : slots_ok (initial_pool now) /\ timing_ok (initial_pool now).
Proof.
  split; split; cbn.
  - intros d t l. unfold active, concurrency_of. cbn. by rewrite lookup_empty.
  - intros d t. unfold active, concurrency_of. cbn. rewrite lookup_empty. by intros [].
  - intros c d t. unfold slot_at. cbn. by rewrite lookup_empty.
  - intros c c' dt. unfold slot_at. cbn. by rewrite lookup_empty.
  - intros d. unfold active, concurrency_of. cbn. by rewrite lookup_empty.
  - intros c. split; [done|]. intros (d & t & u & H). by rewrite lookup_empty in H.
  - intros c ph. by rewrite lookup_empty.
  - intros d t [].
  - done.
Qed.

(** *** Slots *)

(** A step that moves a caller and leaves its slot, and every limit, alone. *)
Lemma slots_keep c ph p p' : slots_ok p ->
  pl_callers p' = <[c := ph]> (pl_callers p) -> slot_of ph = slot_at c p ->
  (forall d, concurrency_of d p' = concurrency_of d p) -> slots_ok p'.
Proof.
  intros [Hl Ht Hs Hu Hc] Hcallers Hph Hconc.
  assert (Hact : forall d, active d p' = active d p) by (intros d; unfold active; by rewrite Hconc).
  assert (Hat : forall c', slot_at c' p' = slot_at c' p).
  { intros c'. unfold slot_at in *. rewrite Hcallers. destruct (decide (c' = c)) as [->|Hne].
    - by rewrite lookup_insert_eq.
    - by rewrite lookup_insert_ne. }
  split.
  - intros d t l. rewrite Hact. apply Hl.
  - intros d t. rewrite Hact, Hconc. apply Ht.
  - intros c' d t. rewrite Hat, Hact. apply Hs.
  - intros c' c'' dt. rewrite !Hat. apply Hu.
  - intros d. rewrite Hact, <-Hc, Hcallers. pose proof (slots_update d c ph (pl_callers p)) as Hup.
    assert (Hsame : slot_in d ph = default false (slot_in d <$> pl_callers p !! c)); [|rewrite Hsame in Hup; lia].
    unfold slot_at in Hph. unfold slot_in at 1. rewrite Hph. by destruct (pl_callers p !! c).
Qed.

Lemma slots_enter c d limit interval p : slots_ok p -> slot_at c p = None ->
  limit <= ds_max_concurrency s -> may_enter limit (concurrency_of d p) = true ->
  slots_ok (enter c d limit interval p).
Proof.
  intros [Hl Ht Hs Hu Hc] Hnone Hmax [Hroom Hall]%may_enter_spec.
  change (dc_active_limits (concurrency_of d p)) with (active d p) in Hroom, Hall.
  set (token := dc_next_token (concurrency_of d p) + 1).
  assert (Hnew : active d p !! token = None).
  { destruct (active d p !! token) eqn:Heq; [|done]. pose proof (Ht d token ltac:(eauto)). subst token. lia. }
  assert (Hact : forall d', active d' (enter c d limit interval p)
                   = if decide (d' = d) then <[token := limit]> (active d p) else active d' p)
    by (intros d'; apply active_set).
  assert (Hat : forall c', slot_at c' (enter c d limit interval p)
                   = if decide (c' = c) then Some (d, token) else slot_at c' p).
  { intros c'. unfold slot_at, enter, set_caller, set_concurrency. cbn. case_decide as Hd; [subst c'|].
    - by rewrite lookup_insert_eq.
    - by rewrite lookup_insert_ne. }
  assert (Hsize : size (<[token := limit]> (active d p)) = S (size (active d p)))
    by (by rewrite map_size_insert_None).
  split.
  - intros d' t l. rewrite Hact. case_decide as Hd; [|apply Hl]. rewrite Hsize.
    destruct (decide (t = token)) as [->|Hne].
    + rewrite lookup_insert_eq. intros [= <-]. lia.
    + rewrite lookup_insert_ne by done. intros Hlook. split; [|by apply (Hl d t)].
      pose proof (Hall t l Hlook). lia.
  - intros d' t. rewrite Hact. unfold enter, concurrency_of, set_caller, set_concurrency. cbn.
    case_decide as Hd; [subst d'|].
    + rewrite !lookup_insert_eq. cbn. intros [l Hlook]. change (t <= token).
      apply lookup_insert_Some in Hlook as [[Heq _]|[_ Hlook]]; [lia|].
      pose proof (Ht d t ltac:(eauto)). subst token. lia.
    + rewrite lookup_insert_ne by done. apply Ht.
  - intros c' d' t. rewrite Hat, Hact. case_decide as Hd.
    + intros [= <- <-]. rewrite decide_True by done. rewrite lookup_insert_eq. by eexists.
    + intros Hslot. pose proof (Hs c' d' t Hslot) as Hin. case_decide as Hd'; [subst d'|done].
      destruct (decide (t = token)) as [->|]; [rewrite lookup_insert_eq|rewrite lookup_insert_ne by done]; by eauto.
  - intros c1 c2 dt. rewrite !Hat. repeat case_decide; subst; try done.
    + intros [= <-] Hslot. destruct (Hs _ _ _ Hslot) as [l Hl']. congruence.
    + intros Hslot [= <-]. destruct (Hs _ _ _ Hslot) as [l Hl']. congruence.
    + apply Hu.
  - intros d'. rewrite Hact. pose proof (slots_update d' c (queued d token interval) (pl_callers p)) as Hup.
    unfold slot_at in Hnone. unfold enter, set_caller, set_concurrency. cbn.
    assert (Hold : default false (slot_in d' <$> pl_callers p !! c) = false).
    { destruct (pl_callers p !! c) as [old|]; [|done]. cbn in *. unfold slot_in. by rewrite Hnone. }
    rewrite Hold in Hup. fold token. unfold slot_in in Hup at 1. cbn in Hup.
    rewrite (Hc d') in Hup. case_decide as Hd; [subst d'; rewrite Hsize, String.eqb_refl in *; cbn in Hup; lia|].
    rewrite (proj2 (String.eqb_neq d d')) in Hup by done. cbn in Hup. lia.
Qed.

(** A caller leaves its slot. *)
Lemma slots_release c d t p p' : slots_ok p -> slot_at c p = Some (d, t) ->
  pl_callers p' = <[c := released d t]> (pl_callers p) ->
  (forall d', concurrency_of d' p' = concurrency_of d' (release_slot d t p)) -> slots_ok p'.
Proof.
  intros [Hl Ht Hs Hu Hc] Hslot Hcallers Hconc.
  assert (Hact : forall d', active d' p' = if decide (d' = d) then delete t (active d p) else active d' p).
  { intros d'. unfold active at 1. rewrite Hconc. apply active_set. }
  assert (Hat : forall c', slot_at c' p' = if decide (c' = c) then None else slot_at c' p).
  { intros c'. unfold slot_at. rewrite Hcallers. case_decide as Hd; [subst c'|].
    - by rewrite lookup_insert_eq.
    - by rewrite lookup_insert_ne. }
  destruct (Hs c d t Hslot) as [l0 Hl0].
  assert (Hsize : S (size (delete t (active d p))) = size (active d p)).
  { rewrite map_size_delete_Some by eauto. destruct (size (active d p)) eqn:Hz; [|done].
    apply map_size_empty_inv in Hz. by rewrite Hz, lookup_empty in Hl0. }
  split.
  - intros d' t' l. rewrite Hact. case_decide as Hd; [subst d'|apply Hl].
    intros [_ Hlook]%lookup_delete_Some. destruct (Hl d t' l Hlook). split; [lia|done].
  - intros d' t'. rewrite Hact, Hconc. unfold release_slot, set_concurrency, concurrency_of. cbn.
    case_decide as Hd; [subst d'|].
    + rewrite lookup_insert_eq. intros [l [_ Hlook]%lookup_delete_Some]. apply (Ht d t'). by eauto.
    + rewrite lookup_insert_ne by done. apply Ht.
  - intros c' d' t'. rewrite Hat, Hact. case_decide as Hd; [done|]. intros Hslot'.
    destruct (Hs c' d' t' Hslot') as [l Hl']. case_decide as Hd'; [subst d'|by eauto].
    exists l. apply lookup_delete_Some. split; [|done]. intros <-. by destruct Hd; apply (Hu _ _ (d, t)).
  - intros c1 c2 dt. rewrite !Hat. repeat case_decide; try done. apply Hu.
  - intros d'. rewrite Hact, Hcallers. pose proof (slots_update d' c (released d t) (pl_callers p)) as Hup.
    unfold slot_at in Hslot. destruct (pl_callers p !! c) as [old|] eqn:Hold; [|done]. cbn in Hslot, Hup.
    unfold slot_in in Hup. rewrite Hslot in Hup. cbn in Hup. rewrite (Hc d') in Hup.
    case_decide as Hd; [subst d'; rewrite String.eqb_refl in Hup; cbn in Hup; lia|].
    rewrite (proj2 (String.eqb_neq d d')) in Hup by done. cbn in Hup. lia.
Qed.

(** *** Timing *)

(** Slots come and go, and callers move outside the timing lock. *)
Lemma timing_keep c ph p p' : timing_ok p ->
  pl_callers p' = <[c := ph]> (pl_callers p) -> phase_ok p ph ->
  (forall d t u, ph <> sleeping d t u) -> (forall d t u, pl_callers p !! c <> Some (sleeping d t u)) ->
  pl_last_started p' = pl_last_started p -> pl_starts p' = pl_starts p ->
  pl_timing_lock p' = pl_timing_lock p -> timing_ok p'.
Proof.
  intros [Hlock Hph Hlast Hsp] Hcallers Hok Hnew Hold Hls Hst Htl. split.
  - intros c'. rewrite Htl, Hlock, Hcallers. destruct (decide (c' = c)) as [->|Hne].
    + rewrite lookup_insert_eq. split; [by intros (d & t & u & Hs); destruct (Hold d t u)|].
      by intros (d & t & u & [= Hs]); destruct (Hnew d t u).
    + by rewrite lookup_insert_ne.
  - intros c' ph'. rewrite Hcallers. intros [[_ <-]|[_ Hc]]%lookup_insert_Some.
    + destruct Hok as [Ha Hb Hc]. split; [done|done|]. rewrite Hls. done.
    + destruct (Hph c' ph' Hc) as [Ha Hb Hd]. split; [done|done|]. by rewrite Hls.
  - by rewrite Hst, Hls.
  - by rewrite Hst.
Qed.

(** A caller that can start does: nobody else sleeps, and its domain was last used
    an interval ago. *)
Lemma timing_start c d token p : timing_ok p ->
  (forall c', c' <> c -> pl_timing_lock p <> Some c') ->
  (forall t, pl_last_started p !! d = Some t -> t + ds_minimum_interval s <= pl_clock p) ->
  0 <= ds_minimum_interval s -> timing_ok (start_lease c d token p).
Proof.
  intros [Hlock Hph Hlast Hsp] Halone Hdue Hpos.
  assert (Hawake : forall c' d' t u, c' <> c -> pl_callers p !! c' <> Some (sleeping d' t u)).
  { intros c' d' t u Hne Hs. apply (Halone c' Hne), Hlock. by exists d', t, u. }
  split; cbn.
  - intros c'. split; [done|]. intros (d' & t & u & Hs).
    apply lookup_insert_Some in Hs as [[_ Hs]|[Hne Hs]]; [done|]. by destruct (Hawake c' d' t u).
  - intros c' ph' Hc. apply lookup_insert_Some in Hc as [[_ <-]|[Hne Hc]]; [by split|].
    destruct (Hph c' ph' Hc) as [Ha Hb Hd]. split; [done|done|]. intros d' t u ->.
    by destruct (Hawake c' d' t u).
  - intros d' t [[= <- <-]|Hin].
    + rewrite lookup_insert_eq. by exists (pl_clock p).
    + destruct (Hlast d' t Hin) as (t' & Ht' & Hle). destruct (decide (d = d')) as [<-|Hne].
      * rewrite lookup_insert_eq. exists (pl_clock p). split; [done|]. pose proof (Hdue t' Ht'). lia.
      * rewrite lookup_insert_ne by done. by exists t'.
  - split; [|done]. intros t Hin. destruct (Hlast d t Hin) as (t' & Ht' & Hle). pose proof (Hdue t' Ht'). lia.
Qed.

(** A caller goes to sleep with the timing lock. *)
Lemma timing_sleep c d token interval p : timing_ok p -> pl_callers p !! c = Some (queued d token interval) ->
  pl_timing_lock p = None ->
  timing_ok (set_caller c (sleeping d token (pl_clock p + pacing_delay d interval p))
               (set_timing_lock (Some c) p)).
Proof.
  intros [Hlock Hph Hlast Hsp] Hc Hfree. destruct (Hph c _ Hc) as [_ Hq _]. pose proof (Hq _ _ _ eq_refl).
  split; cbn; try done.
  - intros c'. destruct (decide (c' = c)) as [->|Hne].
    + rewrite lookup_insert_eq. split; [|done]. intros _. by do 3 eexists.
    + rewrite lookup_insert_ne by done. rewrite <-Hlock, Hfree. by split; [intros [= ->]|].
  - intros c' ph' Hc'. apply lookup_insert_Some in Hc' as [[_ <-]|[Hne Hc']].
    + split; [done|done|]. intros d' t' u [= <- <- <-] t Ht. unfold pacing_delay. cbn in Ht. rewrite Ht. cbn. lia.
    + destruct (Hph c' ph' Hc') as [Ha Hb Hd]. by split.
Qed.

(** A sleeper is cancelled, and the lock is free. *)
Lemma timing_cancel_sleep c d token until p p' : timing_ok p ->
  pl_callers p !! c = Some (sleeping d token until) -> pl_callers p' = <[c := released d token]> (pl_callers p) ->
  pl_last_started p' = pl_last_started p -> pl_starts p' = pl_starts p -> pl_timing_lock p' = None ->
  timing_ok p'.
Proof.
  intros [Hlock Hph Hlast Hsp] Hc Hcallers Hls Hst Htl. split.
  - intros c'. rewrite Htl, Hcallers. split; [done|]. intros (d' & t & u & Hs).
    apply lookup_insert_Some in Hs as [[_ Hs]|[Hne Hs]]; [done|].
    assert (H1 : pl_timing_lock p = Some c) by (apply Hlock; eauto).
    assert (H2 : pl_timing_lock p = Some c') by (apply Hlock; eauto). congruence.
  - intros c' ph'. rewrite Hcallers. intros [[_ <-]|[_ Hc']]%lookup_insert_Some; [by split|].
    destruct (Hph c' ph' Hc') as [Ha Hb Hd]. split; [done|done|]. by rewrite Hls.
  - by rewrite Hst, Hls.
  - by rewrite Hst.
Qed.

(** *** Steps *)

Lemma concurrency_set_same d x p d' :
  x = concurrency_of d p -> concurrency_of d' (set_concurrency d x p) = concurrency_of d' p.
Proof.
  intros ->. unfold concurrency_of, set_concurrency. cbn. destruct (decide (d' = d)) as [->|Hne].
  - by rewrite lookup_insert_eq.
  - by rewrite lookup_insert_ne.
Qed.

Lemma pool_step_ok p p' : 0 <= ds_minimum_interval s -> pool_step s p p' ->
  slots_ok p /\ timing_ok p -> slots_ok p' /\ timing_ok p'.
Proof.
  intros Hpos Hstep [Hs Ht]. destruct Hstep as [c d mc mi p Hc|c d limit interval p Hc Hroom
    |c d token interval p Hc Hfree|c d token until p Hc Huntil|c p|c p|us p Hus].
  - split.
    + eapply (slots_keep c); [done|reflexivity|unfold slot_at; by rewrite Hc|].
      intros d'. by apply concurrency_set_same.
    + eapply (timing_keep c); try done; try (by rewrite Hc). split; try done.
      intros d' l i [= _ <- <-]. split; destruct mc as [n|], mi as [m|]; repeat case_match; lia.
  - destruct (to_phases _ Ht c _ Hc) as [Hw _ _]. destruct (Hw _ _ _ eq_refl) as [Hmax Hmin]. split.
    + apply slots_enter; try done. unfold slot_at. by rewrite Hc.
    + eapply (timing_keep c); try done; try (by rewrite Hc). split; try done. by intros d' t i [= _ _ <-].
  - assert (Hslot : slot_at c p = Some (d, token)) by (unfold slot_at; by rewrite Hc).
    unfold pace. destruct (Z.ltb_spec 0 (pacing_delay d interval p)) as [Hlt|Hge]; split.
    + by eapply (slots_keep c).
    + by apply timing_sleep with (interval := interval).
    + by eapply (slots_keep c).
    + apply timing_start; try done; [by rewrite Hfree|]. intros t Hlast.
      destruct (to_phases _ Ht c _ Hc) as [_ Hq _]. pose proof (Hq _ _ _ eq_refl).
      unfold pacing_delay in Hge. rewrite Hlast in Hge. cbn in Hge. lia.
  - assert (Hlock : pl_timing_lock p = Some c) by (apply (to_lock _ Ht); eauto). split.
    + eapply (slots_keep c); try done. unfold slot_at. by rewrite Hc.
    + apply timing_start; try done; [rewrite Hlock; by intros c' Hne [= ->]|]. intros t Hlast.
      destruct (to_phases _ Ht c _ Hc) as [_ _ Hq]. pose proof (Hq _ _ _ eq_refl t Hlast). lia.
  - unfold release. destruct (pl_callers p !! c) as [[]|] eqn:Hc; try by split. split.
    + eapply (slots_release c); try done. unfold slot_at. by rewrite Hc.
    + eapply (timing_keep c); try done; try (by split); by rewrite Hc.
  - unfold cancel_caller. destruct (pl_callers p !! c) as [[]|] eqn:Hc; try by split.
    + split.
      * eapply (slots_keep c); try done. unfold slot_at. by rewrite Hc.
      * eapply (timing_keep c); try done; try (by split); by rewrite Hc.
    + split.
      * eapply (slots_release c); try done. unfold slot_at. by rewrite Hc.
      * eapply (timing_keep c); try done; try (by split); by rewrite Hc.
    + split.
      * eapply (slots_release c); try done. unfold slot_at. by rewrite Hc.
      * by eapply timing_cancel_sleep.
  - split; [by destruct Hs; split|]. destruct Ht as [Ha Hb Hd He]. split; try done.
    intros c ph Hc. destruct (Hb c ph Hc). by split.
Qed.
End Invariant.

(** ** Reachable pools *)

Definition pool_reachable (s : DomainSettings) (p : pool) : Prop :=
  exists now, rtc (pool_step s) (initial_pool now) p.

Lemma pool_reachable_ok s p : 0 <= ds_minimum_interval s -> pool_reachable s p -> slots_ok s p /\ timing_ok s p.
Proof.
  intros Hpos [now Hrun]. assert (Hinit := initial_pool_ok s now). revert Hinit.
  induction Hrun as [|p1 p2 p3 Hstep _ IH]; [done|]. intros Hok. by apply IH, (pool_step_ok s p1).
Qed.

(** C35. Operations on a domain, along every interleaving of callers that wait, pace,
    sleep, are cancelled and release: as many are in flight as there are limits
    recorded, never more than any limit recorded for them nor than the
    configured maximum, and two starts on a domain are a minimum interval apart. *)
Theorem domain_leases_bounded ttl cooldown concurrency interval p :
  let s := domain_settings ttl cooldown concurrency interval in
  pool_reachable s p ->
  (forall d, in_flight d p = size (active d p)
             /\ Z.of_nat (in_flight d p) <= ds_max_concurrency s
             /\ forall t limit, active d p !! t = Some limit -> Z.of_nat (in_flight d p) <= limit)
  /\ spaced (ds_minimum_interval s) (pl_starts p).
Proof.
  intros s Hr. destruct (pool_reachable_ok s p) as [Hs Ht]; [cbn; lia|done|].
  split; [|apply (to_spaced s p Ht)]. intros d.
  assert (Hc : in_flight d p = size (active d p)) by apply (so_count s p Hs). rewrite Hc.
  split; [done|]. split; [|intros t l Hl; by apply (so_limits s p Hs d t)].
  destruct (decide (active d p = ∅)) as [->|Hne]; [rewrite map_size_empty; cbn; lia|].
  destruct (map_choose _ Hne) as (t & l & Hl). destruct (so_limits s p Hs d t l Hl). lia.
Qed.

(** ** Nobody is stuck *)

Section Progress.
Context (s : DomainSettings).

Lemma queued_starts_now c d token interval p : pl_callers p !! c = Some (queued d token interval) ->
  pl_timing_lock p = None ->
  exists p', rtc (pool_step s) p p' /\ pl_callers p' !! c = Some (holding d token).
Proof.
  intros Hc Hfree. pose proof (step_pace s c d token interval p Hc Hfree) as Hstep. unfold pace in Hstep.
  destruct (Z.ltb_spec 0 (pacing_delay d interval p)) as [Hlt|Hge].
  - set (p1 := set_caller _ _ _) in Hstep. set (delay := pacing_delay d interval p) in *.
    exists (start_lease c d token (pass_time delay p1)). split; [|cbn; by rewrite lookup_insert_eq].
    eapply rtc_l; [exact Hstep|]. eapply rtc_l; [apply (step_time s delay); lia|].
    apply rtc_once, (step_wake s c d token (pl_clock p + delay)); [|done]. cbn. by rewrite lookup_insert_eq.
  - exists (start_lease c d token p). split; [by apply rtc_once|]. cbn. by rewrite lookup_insert_eq.
Qed.

Lemma queued_starts c d token interval p : timing_ok s p ->
  pl_callers p !! c = Some (queued d token interval) ->
  exists p', rtc (pool_step s) p p' /\ pl_callers p' !! c = Some (holding d token).
Proof.
  intros Ht Hc. destruct (pl_timing_lock p) as [c'|] eqn:Hlock; [|by eapply queued_starts_now].
  apply (to_lock s p Ht) in Hlock as (d' & t' & u & Hc'). assert (Hne : c' <> c) by congruence.
  set (p1 := pass_time (Z.max 0 (u - pl_clock p)) p).
  destruct (queued_starts_now c d token interval (start_lease c' d' t' p1)) as (p' & Hrun & Hp'); [|done|].
  - cbn. by rewrite lookup_insert_ne.
  - exists p'. split; [|done]. eapply rtc_l; [apply (step_time s (Z.max 0 (u - pl_clock p))); lia|].
    eapply rtc_l; [|exact Hrun]. apply (step_wake s c' d' t' u p1); [done|]. cbn. lia.
Qed.

(** The holder of a slot can leave it. *)
Lemma slot_vacated c d t p : slot_at c p = Some (d, t) ->
  exists p', pool_step s p p' /\ pl_callers p' = <[c := released d t]> (pl_callers p).
Proof.
  unfold slot_at. destruct (pl_callers p !! c) as [ph|] eqn:Hc; [|done]. cbn.
  destruct ph as [|d0 t0 i|d0 t0 u|d0 t0| |]; try done; intros [= -> ->].
  - exists (cancel_caller c p). split; [constructor|]. unfold cancel_caller. by rewrite Hc.
  - exists (cancel_caller c p). split; [constructor|]. unfold cancel_caller. by rewrite Hc.
  - exists (release c p). split; [constructor|]. unfold release. by rewrite Hc.
Qed.

Lemma slots_pos d (m : gmap nat phase) : slots d m <> 0%nat ->
  exists c ph t, m !! c = Some ph /\ slot_of ph = Some (d, t).
Proof.
  unfold slots. destruct (List.filter _ _) as [|[c ph] l] eqn:Hf; [done|]. intros _.
  assert (Hin : In (c, ph) (List.filter (fun cp => slot_in d cp.2) (map_to_list m)))
    by (rewrite Hf; by left).
  apply filter_In in Hin as [Hin%list_elem_of_In%elem_of_map_to_list Hs]. cbn in Hs.
  unfold slot_in in Hs. destruct (slot_of ph) as [[d' t]|] eqn:Hph; [|done].
  apply String.eqb_eq in Hs as ->. by exists c, ph, t.
Qed.

Lemma waiting_served n c d limit interval p : (slots d (pl_callers p) <= n)%nat ->
  0 <= ds_minimum_interval s -> slots_ok s p /\ timing_ok s p ->
  pl_callers p !! c = Some (waiting d limit interval) -> 1 <= limit ->
  exists p' t, rtc (pool_step s) p p' /\ pl_callers p' !! c = Some (holding d t).
Proof.
  revert p. induction n as [|n IH]; intros p Hn Hpos Hok Hc Hlimit.
  all: destruct (may_enter limit (concurrency_of d p)) eqn:Hroom.
  1, 3: pose proof (step_enter s c d limit interval p Hc Hroom) as Hstep;
    destruct (pool_step_ok s _ _ Hpos Hstep Hok) as [_ Ht];
    destruct (queued_starts c d (dc_next_token (concurrency_of d p) + 1) interval _ Ht) as (p' & Hrun & Hp');
    [cbn; by rewrite lookup_insert_eq|]; exists p'; eexists; split; [by eapply rtc_l|exact Hp'].
  all: assert (Hbusy : slots d (pl_callers p) <> 0%nat) by
    (intros Hz; rewrite (so_count s p (proj1 Hok)) in Hz; apply map_size_empty_inv in Hz;
     rewrite (proj2 (may_enter_spec limit (concurrency_of d p))) in Hroom; [done|];
     fold (active d p); rewrite Hz; split; [rewrite map_size_empty; lia|intros t l Hl; by rewrite lookup_empty in Hl]).
  - lia.
  - destruct (slots_pos d _ Hbusy) as (c' & ph & t & Hc' & Hph).
    assert (Hne : c' <> c) by (intros ->; rewrite Hc' in Hc; injection Hc as ->; discriminate).
    destruct (slot_vacated c' d t p) as (p1 & Hstep & Hp1); [unfold slot_at; by rewrite Hc'|].
    pose proof (slots_change d c' ph (released d t) (pl_callers p) Hc') as Hcount.
    unfold slot_in in Hcount. rewrite Hph, String.eqb_refl in Hcount. cbn in Hcount.
    destruct (IH p1) as (p' & t' & Hrun & Hp'); try done.
    + rewrite Hp1. lia.
    + by eapply pool_step_ok.
    + rewrite Hp1. by rewrite lookup_insert_ne.
    + exists p', t'. split; [by eapply rtc_l|done].
Qed.
End Progress.

(** No caller is stuck: from every pool that is reached, one that waits with a
    positive limit can still get its lease, and one that has a slot can start. *)
Theorem domain_leases_progress ttl cooldown concurrency interval p c :
  let s := domain_settings ttl cooldown concurrency interval in
  pool_reachable s p ->
  (forall d limit i, pl_callers p !! c = Some (waiting d limit i) -> 1 <= limit ->
     exists p' t, rtc (pool_step s) p p' /\ pl_callers p' !! c = Some (holding d t))
  /\ (forall d t i, pl_callers p !! c = Some (queued d t i) ->
     exists p', rtc (pool_step s) p p' /\ pl_callers p' !! c = Some (holding d t)).
Proof.
  intros s Hr. pose proof (pool_reachable_ok s p ltac:(cbn; lia) Hr) as Hok. split.
  - intros d limit i Hc Hlimit. eapply (waiting_served s _ c d); [done|cbn; lia|done|exact Hc|done].
  - intros d t i Hc. eapply queued_starts; [apply Hok|exact Hc].
Qed.

(** ** The history *)

Definition sum_of (d : dict Z) : Z := fold_right Z.add 0 (dvalues d).

Lemma sum_of_bump k d : sum_of (bump k d) = sum_of d + 1.
Proof.
  unfold bump, sum_of. induction d as [|[k' v] d IH]; [done|]. cbn.
  destruct (String.eqb_spec k k') as [->|Hne]; cbn in *; unfold dvalues in *; lia.
Qed.

(** The counters of a history agree with each other. *)
Record history_ok (h : DomainHistory) : Prop := {
  hi_engines : sum_of (dh_engine_successes h) = dh_successes h;
  hi_failures : sum_of (dh_engine_failures h) = dh_failures h;
  hi_strategies : sum_of (dh_strategy_successes h) = dh_successes h;
  hi_fallback : default 0 (dget "fallback" (dh_strategy_successes h)) = dh_fallback_successes h
}.

Lemma new_history_ok d : history_ok (new_history d).
Proof. by split. Qed.

Lemma count_outcome_ok now a h : history_ok h -> history_ok (count_outcome now a h).
Proof.
  intros [He Hf Hs Hb]. unfold count_outcome. destruct (ah_success a); split; cbn -[sum_of bump];
    rewrite ?sum_of_bump; try done; try lia.
  - unfold bump. destruct (ah_fallback a).
    + rewrite dget_dset_eq. cbn. by rewrite Hb.
    + by rewrite dget_dset_ne.
Qed.

Lemma count_challenge_ok s m now a h : history_ok h -> history_ok (count_challenge s m now a h).
Proof. intros [He Hf Hs Hb]. unfold count_challenge. by destruct (String.eqb _ _). Qed.

Definition histories_ok (d : dict DomainHistory) : Prop :=
  base.NoDup (dkeys d) /\ forall k h, dget k d = Some h -> history_ok h.

Lemma pop_all_ok ks d : histories_ok d -> histories_ok (fold_left (fun d k => dpop k d) ks d).
Proof.
  revert d. induction ks as [|k ks IH]; intros d Hd; cbn; [done|]. apply IH. destruct Hd as [Hnd Hall].
  split; [by apply dpop_NoDup|]. intros k' h. destruct (decide (k' = k)) as [->|Hne].
  - by rewrite dget_dpop_eq.
  - rewrite dget_dpop_ne by done. apply Hall.
Qed.

Lemma pop_all_get {V} ks (d : dict V) k v :
  dget k (fold_left (fun d k => dpop k d) ks d) = Some v -> dget k d = Some v.
Proof.
  revert d. induction ks as [|k0 ks IH]; intros d Hg; cbn in *; [done|]. apply IH in Hg.
  destruct (decide (k = k0)) as [->|Hne]; [by rewrite dget_dpop_eq in Hg|by rewrite dget_dpop_ne in Hg].
Qed.

(** Recording keeps the counters consistent; it touches the domain alone, apart
    from domains whose history is out of date; and after a challenge the domain
    cools down for at least the configured time and at most the maximum. *)
Theorem record_keeps_history s m now domain a d : histories_ok d ->
  let d' := record_attempt s m now domain a d in
  histories_ok d'
  /\ (forall k h, k <> domain -> dget k d' = Some h -> dget k d = Some h)
  /\ exists h, dget domain d' = Some h /\ dh_updated_at h = now /\ dh_last_engine h = Some (ah_engine a)
     /\ (ah_challenge a <> "none" ->
         now + ds_cooldown_seconds s * us_per_second <= dh_cooldown_until h
         /\ dh_cooldown_until h <= now + Z.max (ds_cooldown_seconds s) m * us_per_second).
Proof.
  intros Hd d'. assert (Hp : histories_ok (prune s now d).1) by by apply pop_all_ok.
  set (item := default (new_history domain) (dget domain (prune s now d).1)).
  assert (Hitem : history_ok item).
  { subst item. destruct (dget domain _) as [h|] eqn:Hg; cbn; [by apply (proj2 Hp domain)|apply new_history_ok]. }
  set (h' := count_challenge s m now a (count_outcome now a item)).
  assert (Hh' : history_ok h') by by apply count_challenge_ok, count_outcome_ok.
  assert (Hset : d' = dset domain h' (prune s now d).1) by done. rewrite Hset. split; [|split].
  - split; [by apply dset_NoDup, Hp|]. intros k h. rewrite dget_dset. case_match; [by intros [= <-]|apply Hp].
  - intros k h Hne. rewrite dget_dset_ne by done. apply pop_all_get.
  - exists h'. rewrite dget_dset_eq. split; [done|]. subst h'. unfold count_challenge, count_outcome, cooldown_of.
    split_and!; try by destruct (String.eqb (ah_challenge a) _), (ah_success a).
    intros Hc. apply String.eqb_neq in Hc. rewrite Hc. cbn. unfold us_per_second. split; lia.
Qed.
