(* ===== verification/Capabilities.v ===== *)
(** * Capabilities of the browser runtime

    [app/browser_runtime/security.py] (the signed tokens), the client that issues
    them ([client.py]) and the server that accepts each of them once
    ([CapabilityVerifier] and the checks of two routes in [server.py]).

    HMAC-SHA256 is the interface [Hmac], applied to the text of the key and of the
    message.  Text that arrives in a token is read as UTF-8; the detection of
    UTF-16 and UTF-32 by [json.loads] is not modelled. *)

From Corelib Require Import SpecFloat.
From S2P Require Export Json Floats Sessions World.

(** [hmac.new(key, message, sha256).digest()] *)
Class Hmac := hmac_sha256 : string -> string -> string.

(** ** Base64 ([urlsafe_b64encode], [urlsafe_b64decode]) *)

(** The digit for a value below 64. *)
Definition b64_char (n : Z) : ascii :=
  ascii_of_nat (Z.to_nat
    (if n <? 26 then n + 65 else if n <? 52 then n + 71 else if n <? 62 then n - 4
     else if n =? 62 then 45 else 95)).

(** The value of a digit, after [-] and [_] became [+] and [/]. *)
Definition b64_value (c : ascii) : option Z :=
  let n := Z.of_nat (nat_of_ascii c) in
  if (65 <=? n) && (n <=? 90) then Some (n - 65)
  else if (97 <=? n) && (n <=? 122) then Some (n - 71)
  else if (48 <=? n) && (n <=? 57) then Some (n + 4)
  else if (n =? 43) || (n =? 45) then Some 62
  else if (n =? 47) || (n =? 95) then Some 63
  else None.

Definition code (c : ascii) : Z := Z.of_nat (nat_of_ascii c).
Definition byte (n : Z) : ascii := ascii_of_nat (Z.to_nat n).

(** [urlsafe_b64encode(value)]: groups of three bytes, the last one padded. *)
Fixpoint b64_groups (l : list ascii) : list ascii :=
  match l with
  | a :: b :: c :: l' =>
      b64_char (code a / 4) :: b64_char (code a mod 4 * 16 + code b / 16)
      :: b64_char (code b mod 16 * 4 + code c / 64) :: b64_char (code c mod 64) :: b64_groups l'
  | [a; b] => [b64_char (code a / 4); b64_char (code a mod 4 * 16 + code b / 16);
               b64_char (code b mod 16 * 4); "="%char]
  | [a] => [b64_char (code a / 4); b64_char (code a mod 4 * 16); "="%char; "="%char]
  | [] => []
  end.

(** [s.rstrip(c)] for one character *)
Definition rstrip_list (c : ascii) (l : list ascii) : list ascii :=
  rev (drop_while (Ascii.eqb c) (rev l)).
Definition rstrip_char (c : ascii) (s : string) : string :=
  string_of_list_ascii (rstrip_list c (list_ascii_of_string s)).

(** [_b64encode] *)
Definition b64_encode (s : string) : string :=
  string_of_list_ascii (rstrip_list "=" (b64_groups (list_ascii_of_string s))).

(** [binascii.a2b_base64], not strict: other characters are skipped, and the
    padding ends the text when the group is complete. *)
Fixpoint a2b_base64 (quad_pos : nat) (leftchar : Z) (pads : nat) (l : list ascii) : option (list ascii) :=
  match l with
  | [] => if (quad_pos =? 0)%nat then Some [] else None
  | c :: l' =>
      if Ascii.eqb c "=" then
        if (2 <=? quad_pos)%nat then
          if (4 <=? quad_pos + S pads)%nat then Some [] else a2b_base64 quad_pos leftchar (S pads) l'
        else a2b_base64 quad_pos leftchar pads l'
      else
        match b64_value c with
        | None => a2b_base64 quad_pos leftchar pads l'
        | Some v =>
            match quad_pos with
            | O => a2b_base64 1 v 0 l'
            | 1%nat => r ← a2b_base64 2 (v mod 16) 0 l'; Some (byte (leftchar * 4 + v / 16) :: r)
            | 2%nat => r ← a2b_base64 3 (v mod 4) 0 l'; Some (byte (leftchar * 16 + v / 4) :: r)
            | _ => r ← a2b_base64 0 0 0 l'; Some (byte (leftchar * 64 + v) :: r)
            end
        end
  end.

Definition is_ascii_text (s : string) : bool := forallb (fun c => code c <? 128) (list_ascii_of_string s).

(** [_b64decode]; [None] is a [ValueError]. *)
Definition b64_decode (value : string) : option string :=
  let l := list_ascii_of_string value in
  if is_ascii_text value then
    r ← a2b_base64 0 0 0 (l ++ repeat "="%char (Nat.modulo (4 - Nat.modulo (List.length l) 4) 4));
    Some (string_of_list_ascii r)
  else None.

(** ** UTF-8 *)

Definition continuation_byte (c : ascii) : bool := (128 <=? code c) && (code c <? 192).

(** Strict decoding; a code point above 255 reads as a question mark. *)
Fixpoint utf8_decode (l : list ascii) : option (list ascii) :=
  match l with
  | [] => Some []
  | a :: l1 =>
      if code a <? 128 then r ← utf8_decode l1; Some (a :: r)
      else
        match l1 with
        | b :: l2 =>
            if (194 <=? code a) && (code a <? 224) && continuation_byte b then
              let n := code a mod 32 * 64 + code b mod 64 in
              r ← utf8_decode l2; Some ((if n <? 256 then byte n else "?"%char) :: r)
            else
              match l2 with
              | c :: l3 =>
                  if (224 <=? code a) && (code a <? 240) && continuation_byte b && continuation_byte c
                     && negb ((code a =? 224) && (code b <? 160)) then
                    r ← utf8_decode l3; Some ("?"%char :: r)
                  else
                    match l3 with
                    | d :: l4 =>
                        if (240 <=? code a) && (code a <? 245) && continuation_byte b && continuation_byte c
                           && continuation_byte d && negb ((code a =? 240) && (code b <? 144))
                           && negb ((code a =? 244) && (144 <=? code b)) then
                          r ← utf8_decode l4; Some ("?"%char :: r)
                        else None
                    | [] => None
                    end
              | [] => None
              end
        | [] => None
        end
  end.

(** [json.loads(data)] of bytes *)
Definition json_loads_bytes (data : string) : option pyval :=
  l ← utf8_decode (list_ascii_of_string data); json_loads float_of_number_text (string_of_list_ascii l).

(** ** Errors *)

(** [BrowserCapabilityError], or an exception of another class. *)
Inductive capability_error :=
  | BrowserCapabilityError (msg : string)
  | OtherError.

Record BrowserCapability := mkCapability {
  bc_expires_at : Z;
  bc_issued_at : Z;
  bc_nonce : string;
  bc_owner : OwnerClaims;
  bc_operations : list string;
  bc_allowed_hosts : list string
}.

(** ** Owners in tokens *)

(** [owner.model_dump(exclude_none=True)] *)
Definition owner_field (k : string) (o : option string) : dict pyval :=
  match o with Some s => [(k, PStr s)] | None => [] end.

Definition owner_dump (o : OwnerClaims) : dict pyval :=
  owner_field "execution_id" (oc_execution_id o) ++ owner_field "workflow_id" (oc_workflow_id o)
  ++ owner_field "task_id" (oc_task_id o) ++ owner_field "agent_id" (oc_agent_id o)
  ++ owner_field "workspace_id" (oc_workspace_id o) ++ owner_field "user_id" (oc_user_id o)
  ++ owner_field "actor" (oc_actor o).

(** A field [str | None] of [model_validate]. *)
Definition optional_text (k : string) (d : dict pyval) : option (option string) :=
  match pget k d with PNone => Some None | PStr s => Some (Some s) | _ => None end.

(** [OwnerClaims.model_validate(value)]; [None] is a [ValidationError]. *)
Definition owner_validate (v : pyval) : option OwnerClaims :=
  d ← as_dict v;
  e ← optional_text "execution_id" d; w ← optional_text "workflow_id" d; t ← optional_text "task_id" d;
  a ← optional_text "agent_id" d; ws ← optional_text "workspace_id" d; u ← optional_text "user_id" d;
  ac ← optional_text "actor" d;
  Some (mkOwner e w t a ws u ac).

Section Capabilities.
Context `{Env} `{Hmac}.

(** ** Signing *)

(** [derive_execution_secret] *)
Definition derive_execution_secret (master_secret execution_id : string) : capability_error + string :=
  if (String.length master_secret <? 32)%nat then
    inl (BrowserCapabilityError "Browser runtime master secret must contain at least 32 characters")
  else inr (b64_encode (hmac_sha256 master_secret ("agency-browser-execution:" +:+ execution_id))).

(** The signature of an encoded payload. *)
Definition signature (secret encoded : string) : string := b64_encode (hmac_sha256 secret encoded).

(** The signed payload of a token. *)
Definition capability_payload (owner : OwnerClaims) (operations allowed_hosts : list string) (ttl_seconds now : Z)
    (nonce : string) : dict pyval :=
  [("aud", PStr "agency-browser-runtime"); ("iat", PInt now);
   ("exp", PInt (now + Z.max 1 (Z.min ttl_seconds 300))); ("jti", PStr nonce);
   ("owner", PDict (owner_dump owner)); ("operations", PList (map PStr (sorted_set operations)));
   ("allowed_hosts", PList (map PStr (sorted_set (map (fun h => rstrip_char "." (py_lower h)) allowed_hosts))))].

(** [issue_capability], with the nonce that it draws. *)
Definition issue_capability (secret : string) (owner : OwnerClaims) (operations allowed_hosts : list string)
    (ttl_seconds now : Z) (nonce : string) : capability_error + string :=
  if (String.length secret <? 32)%nat then
    inl (BrowserCapabilityError "Browser runtime signing secret must contain at least 32 characters")
  else if negb (is_identified owner) then
    inl (BrowserCapabilityError "Browser capabilities require an execution or authenticated actor owner")
  else
    let payload := capability_payload owner operations allowed_hosts ttl_seconds now nonce in
    let encoded := b64_encode (json_dumps env_float_repr "," ":" (PDict payload)) in
    inr (encoded +:+ "." +:+ signature secret encoded).

(** ** Reading a token *)

(** [token.split(".", 1)] when it has two parts. *)
Fixpoint split_dot (l : list ascii) : option (list ascii * list ascii) :=
  match l with
  | [] => None
  | c :: l' => if Ascii.eqb c "." then Some ([], l') else '(a, b) ← split_dot l'; Some (c :: a, b)
  end.

Definition split_token (token : string) : option (string * string) :=
  '(a, b) ← split_dot (list_ascii_of_string token);
  Some (string_of_list_ascii a, string_of_list_ascii b).

(** The payload under the encoded part. *)
Definition token_payload (encoded : string) : option pyval :=
  data ← b64_decode encoded; json_loads_bytes data.

(** [payload["owner"]], validated *)
Definition payload_owner (payload : pyval) : option OwnerClaims :=
  d ← as_dict payload; v ← dget "owner" d; owner_validate v.

Definition malformed {A} : capability_error + A := inl (BrowserCapabilityError "Malformed browser capability").

(** [peek_capability_owner] *)
Definition peek_capability_owner (token : string) : capability_error + OwnerClaims :=
  match ('(encoded, _) ← split_token token; payload ← token_payload encoded; payload_owner payload) with
  | Some owner => inr owner
  | None => malformed
  end.

(** [[str(value) for value in payload.get(k, [])]]; [None] is a [TypeError]. *)
Definition texts_of (k : string) (payload : dict pyval) : option (list string) :=
  match dget k payload with
  | None => Some []
  | Some (PList l) => Some (map (py_str env_float_repr) l)
  | Some (PDict d) => Some (dkeys d)
  | Some (PStr s) => Some (map (fun c => String c "") (list_ascii_of_string s))
  | Some _ => None
  end.

(** [int(payload.get(k, 0))] *)
Definition int_at (k : string) (payload : dict pyval) : option Z :=
  match py_int (default (PInt 0) (dget k payload)) with IntValue n => Some n | _ => None end.

(** [verify_capability] after the signature. *)
Definition check_payload (payload : dict pyval) (operation : string) (current : Z) :
    capability_error + BrowserCapability :=
  if negb (eq_str (pget "aud" payload) "agency-browser-runtime") then
    inl (BrowserCapabilityError "Invalid browser capability audience")
  else
    match int_at "iat" payload with
    | None => inl OtherError
    | Some iat =>
        if current <? iat - 30 then
          inl (BrowserCapabilityError "Browser capability is expired or not yet valid")
        else
          match int_at "exp" payload with
          | None => inl OtherError
          | Some exp =>
              if exp <=? current then
                inl (BrowserCapabilityError "Browser capability is expired or not yet valid")
              else
                match texts_of "operations" payload with
                | None => inl OtherError
                | Some operations =>
                    if negb (mem_str operation operations) then
                      inl (BrowserCapabilityError ("Browser capability does not allow '" +:+ operation +:+ "'"))
                    else
                      match dget "iat" payload, dget "exp" payload, dget "jti" payload,
                            payload_owner (PDict payload), texts_of "allowed_hosts" payload with
                      | Some _, Some _, Some jti, Some owner, Some hosts =>
                          inr (mkCapability exp iat (py_str env_float_repr jti) owner operations hosts)
                      | _, _, _, _, _ => inl OtherError
                      end
                end
          end
    end.

(** [verify_capability] *)
Definition verify_capability (secret token operation : string) (current : Z) :
    capability_error + BrowserCapability :=
  match split_token token with
  | None => malformed
  | Some (encoded, supplied) =>
      if negb (is_ascii_text encoded) || negb (is_ascii_text supplied) then malformed
      else if negb (String.eqb supplied (signature secret encoded)) then
        inl (BrowserCapabilityError "Invalid browser capability signature")
      else
        match token_payload encoded with
        | None => malformed
        | Some (PDict payload) => check_payload payload operation current
        | Some _ => inl OtherError
        end
  end.

(** ** The client ([BrowserRuntimeClient._request]) *)

(** The key with which a client signs; a worker has an execution secret only. *)
Definition client_secret (execution_secret signing_secret : option string) (owner : OwnerClaims) :
    option (capability_error + string) :=
  if str_truthy execution_secret then Some (inr (default "" execution_secret))
  else if str_truthy signing_secret && str_truthy (oc_execution_id owner) then
    Some (derive_execution_secret (default "" signing_secret) (default "" (oc_execution_id owner)))
  else if str_truthy signing_secret then Some (inr (default "" signing_secret))
  else None.

(** ** The server *)

Inductive http_error :=
  | HTTPException (status : Z) (detail : string)
  | ServerError.

(** The key that checks tokens of this owner. *)
Definition verification_secret (secret : string) (owner : OwnerClaims) : capability_error + string :=
  if str_truthy (oc_execution_id owner) then
    derive_execution_secret secret (default "" (oc_execution_id owner))
  else inr secret.

(** The authentication of a token by the keys of the server. *)
Definition authenticate (secret token operation : string) (current : Z) : capability_error + BrowserCapability :=
  match peek_capability_owner token with
  | inl e => inl e
  | inr owner =>
      match verification_secret secret owner with
      | inl e => inl e
      | inr key => verify_capability key token operation current
      end
  end.

(** [CapabilityVerifier.verify]: [used] is [_used_nonces]; [current] and [now] are
    the two readings of the clock. *)
Definition verify (secret : string) (authorization : option string) (operation : string) (current now : Z)
    (used : dict Z) : (http_error + BrowserCapability) * dict Z :=
  if (String.length secret <? 32)%nat then
    (inl (HTTPException 503 "Browser runtime signing secret is not configured"), used)
  else
    match authorization with
    | Some header =>
        if negb (starts_with "Bearer " header) then
          (inl (HTTPException 401 "Browser runtime capability is required"), used)
        else
          match authenticate secret (String.substring 7 (String.length header - 7) header) operation current with
          | inl (BrowserCapabilityError msg) => (inl (HTTPException 401 msg), used)
          | inl OtherError => (inl ServerError, used)
          | inr capability =>
              let used := List.filter (fun kv => now <? kv.2) used in
              if dmem (bc_nonce capability) used then
                (inl (HTTPException 409 "Browser runtime capability was already used"), used)
              else (inr capability, dset (bc_nonce capability) (bc_expires_at capability) used)
          end
    | None => (inl (HTTPException 401 "Browser runtime capability is required"), used)
    end.

(** The check of [open_browser]: [set(request.allowed_hosts) - set(auth.allowed_hosts)]. *)
Definition authorize_open (auth : BrowserCapability) (requested_hosts : list string) : option http_error :=
  if forallb (fun h => mem_str h (bc_allowed_hosts auth)) requested_hosts then None
  else Some (HTTPException 403 "Requested browser hosts exceed the capability grant").

(** The check of [close_execution]. *)
Definition authorize_close_execution (auth : BrowserCapability) (execution_id : string) : option http_error :=
  if opt_eqb (oc_execution_id (bc_owner auth)) (Some execution_id) then None
  else Some (HTTPException 403 "Capability execution does not match requested execution").
End Capabilities.
