(* ===== verification/CapabilityFacts.v ===== *)
(** * What capabilities guarantee

    The base64 and JSON layers of a token read back, so a token grants what it was
    issued for, to its owner, during its time; a token that the server accepts was
    signed with the key of the execution that it claims; and no token is accepted
    twice. *)

From stdpp Require Import gmap relations.
From S2P Require Export Capabilities JsonFacts SessionFacts DomainPolicyFacts.

(** ** Base64 *)

Definition b64_alphabet (c : ascii) : Prop :=
  Ascii.eqb c "=" = false /\ Ascii.eqb c "." = false /\ (code c <? 128) = true.

Lemma b64_char_spec n : 0 <= n < 64 -> b64_value (b64_char n) = Some n /\ b64_alphabet (b64_char n).
Proof.
  intros Hn. assert (Hcases : In n (map Z.of_nat (seq 0 64))).
  { apply in_map_iff. exists (Z.to_nat n). rewrite in_seq. lia. }
  repeat destruct Hcases as [<-|Hcases]; by repeat split.
Qed.

Lemma code_range c : 0 <= code c < 256.
Proof. unfold code. pose proof (nat_ascii_bounded c). lia. Qed.

Lemma byte_code c : byte (code c) = c.
Proof. unfold byte, code. rewrite Nat2Z.id. apply ascii_nat_embedding. Qed.

Lemma byte_eq n c : n = code c -> byte n = c.
Proof. intros ->. apply byte_code. Qed.

(** The digits of a text, without padding. *)
Fixpoint b64_digits (l : list ascii) : list ascii :=
  match l with
  | a :: b :: c :: l' =>
      b64_char (code a / 4) :: b64_char (code a mod 4 * 16 + code b / 16)
      :: b64_char (code b mod 16 * 4 + code c / 64) :: b64_char (code c mod 64) :: b64_digits l'
  | [a; b] => [b64_char (code a / 4); b64_char (code a mod 4 * 16 + code b / 16); b64_char (code b mod 16 * 4)]
  | [a] => [b64_char (code a / 4); b64_char (code a mod 4 * 16)]
  | [] => []
  end.

Lemma three_ind (P : list ascii -> Prop) :
  P [] -> (forall a, P [a]) -> (forall a b, P [a; b]) -> (forall a b c l, P l -> P (a :: b :: c :: l)) ->
  forall l, P l.
Proof.
  intros H0 H1 H2 H3. fix IH 1. intros [|a [|b [|c l]]]; [done|apply H1|apply H2|apply H3, IH].
Qed.

(** The quotients and remainders of bytes are digits. *)
Lemma digit_values a b c :
  0 <= code a / 4 < 64 /\ 0 <= code a mod 4 * 16 + code b / 16 < 64
  /\ 0 <= code b mod 16 * 4 + code c / 64 < 64 /\ 0 <= code c mod 64 < 64
  /\ 0 <= code a mod 4 * 16 < 64 /\ 0 <= code b mod 16 * 4 < 64.
Proof. pose proof (code_range a). pose proof (code_range b). pose proof (code_range c). Z.div_mod_to_equations. lia. Qed.

Lemma b64_digits_alphabet l : Forall b64_alphabet (b64_digits l).
Proof.
  induction l as [|a|a b|a b c l IH] using three_ind; cbn [b64_digits].
  - constructor.
  - destruct (digit_values a a a) as (H1 & _ & _ & _ & H5 & _). repeat constructor; by apply b64_char_spec.
  - destruct (digit_values a b a) as (H1 & H2 & _ & _ & _ & H6). repeat constructor; by apply b64_char_spec.
  - destruct (digit_values a b c) as (H1 & H2 & H3 & H4 & _ & _).
    repeat (constructor; [by apply b64_char_spec|]). exact IH.
Qed.

Lemma rstrip_snoc c l x : Ascii.eqb c x = false -> rstrip_list c (l ++ [x]) = l ++ [x].
Proof. intros Hx. unfold rstrip_list. rewrite rev_app_distr. cbn. rewrite Hx. cbn. by rewrite rev_involutive. Qed.

Lemma rstrip_pad c l : rstrip_list c (l ++ [c]) = rstrip_list c l.
Proof. unfold rstrip_list. rewrite rev_app_distr. cbn. by rewrite Ascii.eqb_refl. Qed.

Lemma rstrip_keep c l : Forall (fun x => Ascii.eqb x c = false) l -> rstrip_list c l = l.
Proof.
  destruct l as [|x l] using rev_ind; [done|]. intros [_ Hx]%Forall_app. apply Forall_inv in Hx.
  apply rstrip_snoc. by rewrite Ascii.eqb_sym.
Qed.

Lemma b64_encode_digits s : b64_encode s = string_of_list_ascii (b64_digits (ascii_list s)).
Proof.
  unfold b64_encode. f_equal. set (l := ascii_list s).
  assert (Hpad : exists k, b64_groups l = b64_digits l ++ repeat "="%char k).
  { clear. induction l as [|a|a b|a b c l [k IH]] using three_ind.
    - by exists 0%nat.
    - by exists 2%nat.
    - by exists 1%nat.
    - exists k. cbn. by rewrite IH. }
  destruct Hpad as [k ->].
  assert (Hall : Forall (fun x => Ascii.eqb x "=" = false) (b64_digits l)).
  { eapply Forall_impl; [apply b64_digits_alphabet|]. by intros x [? _]. }
  induction k as [|k IH]; [by rewrite app_nil_r, rstrip_keep|].
  cbn [repeat]. rewrite repeat_cons, app_assoc, rstrip_pad. exact IH.
Qed.

(** One digit of the decoder. *)
Lemma a2b_digit q left pads n l : 0 <= n < 64 ->
  a2b_base64 q left pads (b64_char n :: l)
  = match q with
    | O => a2b_base64 1 n 0 l
    | 1%nat => r ← a2b_base64 2 (n mod 16) 0 l; Some (byte (left * 4 + n / 16) :: r)
    | 2%nat => r ← a2b_base64 3 (n mod 4) 0 l; Some (byte (left * 16 + n / 4) :: r)
    | _ => r ← a2b_base64 0 0 0 l; Some (byte (left * 64 + n) :: r)
    end.
Proof. intros Hn. destruct (b64_char_spec n Hn) as [Hv [He _]]. cbn [a2b_base64]. by rewrite He, Hv. Qed.

Definition padding (n : nat) : list ascii := repeat "="%char (Nat.modulo (4 - Nat.modulo n 4) 4).

Lemma a2b_digits l : a2b_base64 0 0 0 (b64_digits l ++ padding (List.length (b64_digits l))) = Some l.
Proof.
  induction l as [|a|a b|a b c l IH] using three_ind; [done| | |].
  - destruct (digit_values a a a) as (H1 & _ & _ & _ & H5 & _). cbn [b64_digits app List.length padding].
    rewrite a2b_digit by done. rewrite a2b_digit by done. cbn.
    pose proof (code_range a). do 2 f_equal. apply byte_eq. Z.div_mod_to_equations. lia.
  - destruct (digit_values a b a) as (H1 & H2 & _ & _ & _ & H6). cbn [b64_digits app List.length padding].
    do 3 rewrite a2b_digit by done. cbn.
    pose proof (code_range a). pose proof (code_range b). repeat f_equal; apply byte_eq; Z.div_mod_to_equations; lia.
  - destruct (digit_values a b c) as (H1 & H2 & H3 & H4 & _ & _).
    assert (Hpad : padding (List.length (b64_digits (a :: b :: c :: l))) = padding (List.length (b64_digits l))).
    { unfold padding. cbn [b64_digits List.length]. do 3 f_equal.
      by rewrite <-(Nat.Div0.mod_add (List.length (b64_digits l)) 1 4), Nat.add_comm. }
    rewrite Hpad. cbn [b64_digits app]. do 4 rewrite a2b_digit by done. rewrite IH. cbn [mbind option_bind].
    pose proof (code_range a). pose proof (code_range b). pose proof (code_range c).
    repeat f_equal; apply byte_eq; Z.div_mod_to_equations; lia.
Qed.

Lemma forallb_Forall_impl {A} (P : A -> Prop) (f : A -> bool) l :
  (forall x, P x -> f x = true) -> Forall P l -> forallb f l = true.
Proof. intros Hi. induction 1; cbn; [done|]. by rewrite Hi. Qed.

Lemma b64_encode_ascii s : is_ascii_text (b64_encode s) = true.
Proof.
  unfold is_ascii_text. rewrite b64_encode_digits, list_ascii_of_string_of_list_ascii.
  eapply forallb_Forall_impl, b64_digits_alphabet. by intros c (_ & _ & ?).
Qed.

Lemma b64_roundtrip s : b64_decode (b64_encode s) = Some s.
Proof.
  unfold b64_decode. rewrite b64_encode_ascii, b64_encode_digits, list_ascii_of_string_of_list_ascii.
  fold (padding (List.length (b64_digits (ascii_list s)))). rewrite a2b_digits. cbn.
  by rewrite string_of_list_ascii_of_string.
Qed.

(** The two parts of a token. *)
Lemma split_signed encoded supplied : split_token (b64_encode encoded +:+ "." +:+ supplied)
  = Some (b64_encode encoded, supplied).
Proof.
  unfold split_token. rewrite !list_ascii_app, b64_encode_digits, list_ascii_of_string_of_list_ascii.
  assert (Hsplit : forall l k, Forall b64_alphabet l -> split_dot (l ++ "."%char :: k) = Some (l, k)).
  { intros l k. induction 1 as [|c l (_ & Hc & _) _ IH]; [done|]. cbn. by rewrite Hc, IH. }
  cbn [list_ascii_of_string app]. rewrite Hsplit by apply b64_digits_alphabet. cbn.
  by rewrite string_of_list_ascii_of_string.
Qed.

(** ** JSON in ASCII *)

Definition ascii_chars (l : list ascii) : bool := forallb (fun c => code c <? 128) l.

Lemma utf8_ascii l : ascii_chars l = true -> utf8_decode l = Some l.
Proof.
  induction l as [|c l IH]; cbn [ascii_chars forallb utf8_decode]; [done|]. intros [Hc Hl]%andb_prop.
  rewrite Hc. fold (ascii_chars l) in Hl. by rewrite IH.
Qed.

Lemma ascii_app l k : ascii_chars (l ++ k) = ascii_chars l && ascii_chars k.
Proof. apply forallb_app. Qed.

Lemma ascii_str_app a b : ascii_chars (ascii_list (a +:+ b)) = ascii_chars (ascii_list a) && ascii_chars (ascii_list b).
Proof. by rewrite list_ascii_app, ascii_app. Qed.

Lemma ascii_json_str s : ascii_chars (ascii_list (json_str s)) = true.
Proof.
  rewrite <-(app_nil_r (ascii_list _)), json_str_list. cbn [ascii_chars forallb].
  change (code quote <? 128) with true. cbn [andb]. fold (ascii_chars (ascii_list (concat_map json_char s) ++ [quote])).
  rewrite ascii_app, andb_true_r. induction s as [|c s IH]; [done|]. rewrite concat_map_app, ascii_app, IH, andb_true_r.
  by destruct c as [[] [] [] [] [] [] [] []].
Qed.

Lemma ascii_join sep l : ascii_chars (ascii_list sep) = true ->
  (forall s, In s l -> ascii_chars (ascii_list s) = true) -> ascii_chars (ascii_list (py_join sep l)) = true.
Proof.
  intros Hsep. induction l as [|x [|y l] IH]; intros Hall; [done|by apply Hall; left|].
  rewrite join_cons, !ascii_app, Hsep, (Hall x), IH; [done| |by left]. intros s Hs. apply Hall. by right.
Qed.

Lemma ascii_digits fuel n : 0 <= n -> ascii_chars (ascii_list (digits_fuel fuel n)) = true.
Proof.
  revert n. induction fuel as [|fuel IH]; intros n Hn; [done|]. cbn [digits_fuel].
  assert (Hdigit : forall d, 0 <= d < 10 -> ascii_chars (ascii_list (digit d)) = true).
  { intros d Hd. assert (Hcases : In d (map Z.of_nat (seq 0 10))).
    { apply in_map_iff. exists (Z.to_nat d). rewrite in_seq. lia. }
    by repeat destruct Hcases as [<-|Hcases]. }
  destruct (Z.ltb_spec n 10); [apply Hdigit; lia|]. rewrite ascii_str_app, IH by (apply Z.div_pos; lia).
  apply Hdigit, Z.mod_pos_bound. lia.
Qed.

Lemma ascii_dumps r v : json_plain v = true -> ascii_chars (ascii_list (json_dumps r "," ":" v)) = true.
Proof.
  induction v as [v Hd Hl|vs IH|d IH] using pyval_nested_ind; intros Hp.
  - destruct v as [|[]|n|f|s| |]; try done.
    + cbn [json_dumps]. unfold show_Z. destruct (Z.ltb_spec n 0); [rewrite ascii_str_app|]; apply ascii_digits; lia.
    + apply ascii_json_str.
  - cbn [json_plain] in Hp. rewrite forallb_forall in Hp. cbn [json_dumps]. rewrite !ascii_str_app, ascii_join; try done.
    intros s (v & <- & Hv)%in_map_iff. auto.
  - cbn [json_plain] in Hp. apply andb_prop in Hp as [_ Hp]. rewrite forallb_forall in Hp.
    rewrite dumps_dict, !ascii_str_app, ascii_join; try done.
    intros s ([k v] & <- & Hv%py_sorted_In)%in_map_iff. unfold member_text. cbn [fst snd].
    rewrite !ascii_str_app, ascii_json_str. rewrite (IH k v) by (auto; by apply (Hp (k, v))). done.
Qed.

(** A signed payload reads back. *)
Lemma token_payload_dumps r v : json_plain v = true ->
  token_payload (b64_encode (json_dumps r "," ":" v)) = Some (canonical v).
Proof.
  intros Hp. unfold token_payload. rewrite b64_roundtrip. cbn [mbind option_bind]. unfold json_loads_bytes.
  rewrite utf8_ascii by (by apply ascii_dumps). cbn [mbind option_bind].
  rewrite string_of_list_ascii_of_string. by apply json_roundtrip.
Qed.

(** ** Looking into a sorted dictionary *)

Lemma dget_by_key {V} k (d : dict V) : base.NoDup (dkeys d) -> dget k (by_key d) = dget k d.
Proof.
  intros Hnd. assert (Hperm : by_key d ≡ₚ d) by apply py_sorted_perm.
  assert (Hnd' : base.NoDup (dkeys (by_key d))) by (unfold dkeys; by rewrite Hperm).
  destruct (dget k d) as [v|] eqn:Hg.
  - apply dget_In in Hg. apply In_dget; [done|]. by apply py_sorted_In.
  - destruct (dget k (by_key d)) as [v|] eqn:Hg'; [|done]. apply dget_In in Hg'.
    apply py_sorted_In in Hg'. apply In_dget in Hg'; [congruence|done].
Qed.

Lemma canonical_dict d : base.NoDup (dkeys d) ->
  exists d', canonical (PDict d) = PDict d' /\ forall k, dget k d' = canonical <$> dget k d.
Proof.
  intros Hnd. eexists. split; [reflexivity|]. intros k. rewrite dget_by_key, dget_map; [done|].
  unfold dkeys. by rewrite map_map.
Qed.

(** ** Owners *)

Lemma owner_dump_nodup o : base.NoDup (dkeys (owner_dump o)).
Proof.
  apply (proj1 (bool_decide_eq_true (base.NoDup (dkeys (owner_dump o))))).
  destruct o as [[] [] [] [] [] [] []]; reflexivity.
Qed.

Lemma owner_dump_plain o : json_plain (PDict (owner_dump o)) = true.
Proof. destruct o as [[] [] [] [] [] [] []]; reflexivity. Qed.

Lemma owner_roundtrip o : owner_validate (canonical (PDict (owner_dump o))) = Some o.
Proof.
  destruct (canonical_dict (owner_dump o) (owner_dump_nodup o)) as (d & -> & Hget).
  unfold owner_validate. cbn [as_dict mbind option_bind]. unfold optional_text, pget. rewrite !Hget.
  destruct o as [[] [] [] [] [] [] []]; reflexivity.
Qed.

(** ** Tokens *)

Section Tokens.
Context `{Env} `{Hmac}.

Definition granted_hosts (hosts : list string) : list string :=
  sorted_set (map (fun h => rstrip_char "." (py_lower h)) hosts).

Lemma texts_plain l : forallb json_plain (map PStr l) = true.
Proof. induction l as [|s l IH]; [done|exact IH]. Qed.

Lemma texts_canonical l : map canonical (map PStr l) = map PStr l.
Proof. rewrite map_map. by apply map_ext. Qed.

Lemma texts_str l : map (py_str env_float_repr) (map PStr l) = l.
Proof. rewrite map_map. apply map_id. Qed.

Lemma payload_keys owner ops hosts ttl now nonce :
  base.NoDup (dkeys (capability_payload owner ops hosts ttl now nonce)).
Proof.
  change (dkeys _) with ["aud"; "iat"; "exp"; "jti"; "owner"; "operations"; "allowed_hosts"].
  apply (proj1 (bool_decide_eq_true _)). reflexivity.
Qed.

Lemma payload_plain owner ops hosts ttl now nonce :
  json_plain (PDict (capability_payload owner ops hosts ttl now nonce)) = true.
Proof.
  cbn [json_plain]. apply andb_true_intro. split; [apply bool_decide_eq_true, payload_keys|].
  pose proof (owner_dump_plain owner) as Hp. cbn [json_plain] in Hp.
  cbn [forallb capability_payload snd json_plain]. by rewrite Hp, !texts_plain.
Qed.

(** A payload that was issued, read back inside its time. *)
Lemma issued_payload_checks owner ops hosts ttl now nonce op current :
  In op ops -> now - 30 <= current < now + Z.max 1 (Z.min ttl 300) ->
  exists payload, canonical (PDict (capability_payload owner ops hosts ttl now nonce)) = PDict payload
    /\ payload_owner (PDict payload) = Some owner
    /\ check_payload payload op current
       = inr (mkCapability (now + Z.max 1 (Z.min ttl 300)) now nonce owner (sorted_set ops) (granted_hosts hosts)).
Proof.
  intros Hop Htime.
  destruct (canonical_dict _ (payload_keys owner ops hosts ttl now nonce)) as (d & Hcan & Hget).
  exists d. split; [exact Hcan|].
  assert (Howner : payload_owner (PDict d) = Some owner).
  { unfold payload_owner. cbn [as_dict mbind option_bind]. rewrite Hget.
    change (dget "owner" _) with (Some (PDict (owner_dump owner))). cbn [fmap option_fmap option_map mbind option_bind].
    apply owner_roundtrip. }
  split; [done|]. unfold check_payload, int_at, texts_of, pget. rewrite Howner, !Hget.
  change (dget "aud" _) with (Some (PStr "agency-browser-runtime")).
  change (dget "iat" _) with (Some (PInt now)).
  change (dget "exp" _) with (Some (PInt (now + Z.max 1 (Z.min ttl 300)))).
  change (dget "jti" _) with (Some (PStr nonce)).
  change (dget "operations" _) with (Some (PList (map PStr (sorted_set ops)))).
  change (dget "allowed_hosts" _) with (Some (PList (map PStr (granted_hosts hosts)))).
  cbn [fmap option_fmap option_map default from_option id canonical py_int]. rewrite !texts_canonical, !texts_str.
  change (eq_str (PStr "agency-browser-runtime") "agency-browser-runtime") with true. cbn [negb].
  destruct (Z.ltb_spec current (now - 30)); [lia|].
  destruct (Z.leb_spec (now + Z.max 1 (Z.min ttl 300)) current); [lia|].
  replace (mem_str op (sorted_set ops)) with true; [reflexivity|]. symmetry. apply mem_str_In.
  unfold sorted_set. rewrite py_sorted_In. by apply list_elem_of_In, elem_of_remove_dups, list_elem_of_In.
Qed.

Lemma capability_grants secret owner ops hosts ttl now nonce token op current :
  issue_capability secret owner ops hosts ttl now nonce = inr token ->
  In op ops -> now - 30 <= current < now + Z.max 1 (Z.min ttl 300) ->
  peek_capability_owner token = inr owner
  /\ verify_capability secret token op current
     = inr (mkCapability (now + Z.max 1 (Z.min ttl 300)) now nonce owner (sorted_set ops) (granted_hosts hosts)).
Proof.
  unfold issue_capability. destruct (_ <? _)%nat; [done|]. destruct (negb _); [done|].
  pose proof (token_payload_dumps env_float_repr _ (payload_plain owner ops hosts ttl now nonce)) as Hpay.
  revert Hpay. generalize (json_dumps env_float_repr "," ":" (PDict (capability_payload owner ops hosts ttl now nonce))).
  intros text Hpay Htoken Hop Htime. injection Htoken as <-.
  destruct (issued_payload_checks owner ops hosts ttl now nonce op current Hop Htime) as (d & Hcan & Ho & Hcheck).
  rewrite Hcan in Hpay. split.
  - unfold peek_capability_owner. rewrite split_signed. cbn [mbind option_bind]. rewrite Hpay.
    cbn [mbind option_bind]. by rewrite Ho.
  - unfold verify_capability. rewrite split_signed, b64_encode_ascii. unfold signature. rewrite b64_encode_ascii.
    cbn [negb orb]. rewrite String.eqb_refl. cbn [negb]. by rewrite Hpay.
Qed.

(** C32. A token grants what it was issued for: within its time and for each of its
    operations, [verify_capability] with the same secret returns its owner, its
    nonce, its operations and its hosts (sorted, without duplicates, the hosts in
    lower case without trailing dots), and the owner that selects the key of
    verification is the owner that it was issued to. *)
Theorem capability_roundtrip secret owner ops hosts ttl now nonce token op current :
  issue_capability secret owner ops hosts ttl now nonce = inr token ->
  In op ops -> now - 30 <= current < now + Z.max 1 (Z.min ttl 300) ->
  peek_capability_owner token = inr owner
  /\ verify_capability secret token op current
     = inr (mkCapability (now + Z.max 1 (Z.min ttl 300)) now nonce owner (sorted_set ops) (granted_hosts hosts)).
Proof. apply capability_grants. Qed.

(** ** What the server accepts *)

(** The parts of a token that was verified. *)
Record verified (key token : string) (current : Z) (cap : BrowserCapability) : Prop := {
  ve_signed : exists encoded payload, token = encoded +:+ "." +:+ signature key encoded
    /\ split_token token = Some (encoded, signature key encoded)
    /\ token_payload encoded = Some (PDict payload)
    /\ payload_owner (PDict payload) = Some (bc_owner cap)
    /\ (exists jti, dget "jti" payload = Some jti /\ bc_nonce cap = py_str env_float_repr jti)
    /\ int_at "exp" payload = Some (bc_expires_at cap);
  ve_time : bc_issued_at cap - 30 <= current < bc_expires_at cap
}.

Lemma split_dot_join l a b : split_dot l = Some (a, b) -> l = a ++ "."%char :: b.
Proof.
  revert a. induction l as [|c l IH]; intros a; cbn; [done|].
  destruct (Ascii.eqb_spec c ".") as [->|Hne]; [by intros [= <- <-]|].
  destruct (split_dot l) as [[a' b']|]; [|done]. cbn. intros [= <- <-]. by rewrite (IH a' eq_refl).
Qed.

Lemma split_token_join token a b : split_token token = Some (a, b) -> token = a +:+ "." +:+ b.
Proof.
  unfold split_token. destruct (split_dot _) as [[l k]|] eqn:Hs; [|done]. cbn. intros [= <- <-].
  apply split_dot_join in Hs. rewrite <-(string_of_list_ascii_of_string token), Hs. clear.
  induction l as [|c l IH]; cbn; [done|]. by rewrite IH.
Qed.

Lemma check_payload_accepts payload op current cap : check_payload payload op current = inr cap ->
  payload_owner (PDict payload) = Some (bc_owner cap)
  /\ (exists jti, dget "jti" payload = Some jti /\ bc_nonce cap = py_str env_float_repr jti)
  /\ int_at "exp" payload = Some (bc_expires_at cap)
  /\ bc_issued_at cap - 30 <= current < bc_expires_at cap
  /\ In op (bc_operations cap).
Proof.
  unfold check_payload. destruct (negb _); [done|]. destruct (int_at "iat" payload) as [iat|]; [|done].
  destruct (Z.ltb_spec current (iat - 30)); [done|]. destruct (int_at "exp" payload) as [exp|]; [|done].
  destruct (Z.leb_spec exp current); [done|]. destruct (texts_of "operations" payload) as [ops|]; [|done].
  destruct (mem_str op ops) eqn:Hop; [|done]. cbn [negb].
  destruct (dget "iat" payload), (dget "exp" payload), (dget "jti" payload) as [jti|]; try done.
  destruct (payload_owner (PDict payload)) as [o|]; [|done].
  destruct (texts_of "allowed_hosts" payload) as [hosts|]; [|done]. intros [= <-]. cbn.
  split; [done|]. split; [by exists jti|]. split; [done|]. split; [lia|]. by apply mem_str_In.
Qed.

Lemma verify_capability_accepts key token op current cap : verify_capability key token op current = inr cap ->
  verified key token current cap /\ In op (bc_operations cap).
Proof.
  unfold verify_capability. destruct (split_token token) as [[encoded supplied]|] eqn:Hs; [|done].
  destruct (negb _ || negb _); [done|]. destruct (String.eqb_spec supplied (signature key encoded)) as [->|]; [|done].
  cbn [negb]. destruct (token_payload encoded) as [[]|] eqn:Hp; try done.
  intros (Ho & Hj & He & Ht & Hop)%check_payload_accepts. split; [|done]. split; [|done].
  eexists _, _. split_and!; [by apply split_token_join|done|exact Hp|done|done|done].
Qed.

(** C33. The server accepts a token only if it was signed, over the very payload
    that it reads, with the key of the execution that the payload claims (or with
    the master secret, when it claims none), the current time is inside the
    token's window, and the operation is one of those that it lists. *)
Theorem accepted_token_signed secret token op current cap :
  authenticate secret token op current = inr cap ->
  exists key encoded,
    (forall e, oc_execution_id (bc_owner cap) = Some e -> e <> "" -> derive_execution_secret secret e = inr key)
    /\ (str_truthy (oc_execution_id (bc_owner cap)) = false -> key = secret)
    /\ token = encoded +:+ "." +:+ signature key encoded
    /\ (payload ← token_payload encoded; payload_owner payload) = Some (bc_owner cap)
    /\ bc_issued_at cap - 30 <= current < bc_expires_at cap
    /\ In op (bc_operations cap).
Proof.
  unfold authenticate. destruct (peek_capability_owner token) as [|owner] eqn:Hpeek; [done|].
  destruct (verification_secret secret owner) as [|key] eqn:Hkey; [done|].
  intros [[(encoded & payload & Htok & Hsplit & Hpay & Ho & _ & _) Ht] Hop]%verify_capability_accepts.
  unfold peek_capability_owner in Hpeek. rewrite Hsplit in Hpeek. cbn [mbind option_bind] in Hpeek.
  rewrite Hpay in Hpeek. cbn [mbind option_bind] in Hpeek. rewrite Ho in Hpeek. injection Hpeek as <-.
  exists key, encoded. rewrite Hpay. unfold verification_secret in Hkey. split; [|split].
  { intros e He Hne. rewrite He in Hkey. cbn [str_truthy default from_option id] in Hkey.
    by destruct (String.eqb_spec e ""). }
  { intros Hnone. rewrite Hnone in Hkey. by injection Hkey. }
  split; [exact Htok|]. split; [exact Ho|]. by split.
Qed.
End Tokens.

(** ** Once *)

Section Replay.
Context `{Env} `{Hmac} (secret : string).

(** A request to the server, with the two times that it reads. *)
Record request := mkServed {
  rv_authorization : option string;
  rv_operation : string;
  rv_current : Z;
  rv_now : Z
}.

(** The requests that are accepted, in order, with the capability of each. *)
Fixpoint serve (used : dict Z) (requests : list request) : list (request * BrowserCapability) :=
  match requests with
  | [] => []
  | r :: rest =>
      match verify secret (rv_authorization r) (rv_operation r) (rv_current r) (rv_now r) used with
      | (inr cap, used') => (r, cap) :: serve used' rest
      | (inl _, used') => serve used' rest
      end
  end.

(** The clock does not go back. *)
Fixpoint clocked (t : Z) (requests : list request) : Prop :=
  match requests with
  | [] => True
  | r :: rest => t <= rv_current r /\ rv_current r <= rv_now r /\ clocked (rv_now r) rest
  end.

(** What a header grants does not depend on the time of its reading. *)
Definition header_token (header : string) : string := String.substring 7 (String.length header - 7) header.

Lemma authenticate_same token op op' current current' cap cap' :
  authenticate secret token op current = inr cap -> authenticate secret token op' current' = inr cap' ->
  bc_nonce cap = bc_nonce cap' /\ bc_expires_at cap = bc_expires_at cap'.
Proof.
  unfold authenticate. destruct (peek_capability_owner token) as [|owner]; [done|].
  destruct (verification_secret secret owner) as [|key]; [done|].
  intros [[(e & p & _ & Hs & Hp & _ & (j & Hj & Hn) & He) _] _]%verify_capability_accepts.
  intros [[(e' & p' & _ & Hs' & Hp' & _ & (j' & Hj' & Hn') & He') _] _]%verify_capability_accepts.
  rewrite Hs in Hs'. injection Hs' as <- _. rewrite Hp in Hp'. injection Hp' as <-.
  rewrite Hj in Hj'. injection Hj' as <-. rewrite He in He'. injection He' as <-. by rewrite Hn, Hn'.
Qed.

(** An accepted request: its header is authentic now, and its nonce was unused. *)
Lemma verify_accepts authorization op current now used cap used' :
  verify secret authorization op current now used = (inr cap, used') ->
  exists header, authorization = Some header /\ authenticate secret (header_token header) op current = inr cap
    /\ dget (bc_nonce cap) (List.filter (fun kv => now <? kv.2) used) = None
    /\ used' = dset (bc_nonce cap) (bc_expires_at cap) (List.filter (fun kv => now <? kv.2) used).
Proof.
  unfold verify. destruct (_ <? _)%nat; [done|]. destruct authorization as [header|]; [|done].
  destruct (negb _); [done|]. fold (header_token header).
  destruct (authenticate secret (header_token header) op current) as [[]|c] eqn:Ha; try done.
  unfold dmem. destruct (dget (bc_nonce c) _) eqn:Hg; [done|]. intros [= <- <-]. by exists header.
Qed.

Lemma verify_refuses authorization op current now used e used' :
  verify secret authorization op current now used = (inl e, used') ->
  used' = used \/ used' = List.filter (fun kv => now <? kv.2) used.
Proof.
  unfold verify. destruct (_ <? _)%nat; [by intros [= _ <-]; left|].
  destruct authorization as [header|]; [|by intros [= _ <-]; left]. destruct (negb _); [by intros [= _ <-]; left|].
  destruct (authenticate _ _ _ _) as [[]|c]; [by intros [= _ <-]; left..|].
  destruct (dmem _ _); intros [= _ <-]. by right.
Qed.

(** From time [t] on, the nonce of [header] is remembered for as long as the token
    is valid. *)
Definition spent (header : string) (t : Z) (used : dict Z) : Prop :=
  forall op current cap, authenticate secret (header_token header) op current = inr cap -> t <= current ->
    dget (bc_nonce cap) used = Some (bc_expires_at cap).

Lemma authenticate_time token op current cap : authenticate secret token op current = inr cap ->
  current < bc_expires_at cap.
Proof.
  unfold authenticate. destruct (peek_capability_owner token) as [|owner]; [done|].
  destruct (verification_secret secret owner) as [|key]; [done|]. intros [[_ ?] _]%verify_capability_accepts. lia.
Qed.

Lemma purged_keys now (used : dict Z) : base.NoDup (dkeys used) ->
  base.NoDup (dkeys (List.filter (fun kv => now <? kv.2) used)).
Proof.
  unfold dkeys. induction used as [|[k e] used IH]; [done|]. cbn. intros [Hni Hnd]%NoDup_cons.
  destruct (now <? e); [|by apply IH]. cbn. constructor; [|by apply IH]. rewrite list_elem_of_In in *.
  intros ([k' e'] & <- & [Hin _]%filter_In)%in_map_iff. apply Hni. by apply (in_map fst) in Hin.
Qed.

Lemma spent_purged header t now used : base.NoDup (dkeys used) -> spent header t used -> t <= now ->
  spent header now (List.filter (fun kv => now <? kv.2) used).
Proof.
  intros Hnd Hs Ht op current cap Ha Hle. pose proof (authenticate_time _ _ _ _ Ha) as Hexp.
  apply (dget_filter (fun e => now <? e)); [done|by eapply Hs; [exact Ha|lia]|]. apply Z.ltb_lt. lia.
Qed.

Lemma spent_later header t now used : spent header t used -> t <= now -> spent header now used.
Proof. intros Hs Ht op current cap Ha Hle. eapply Hs; [exact Ha|lia]. Qed.

Lemma spent_kept header n e t used : spent header t used -> dget n used = None -> spent header t (dset n e used).
Proof.
  intros Hs Hn op current cap Ha Hle. pose proof (Hs _ _ _ Ha Hle) as Hg.
  rewrite dget_dset_ne; [done|]. intros Heq. rewrite Heq in Hg. congruence.
Qed.

(** A token that was spent is accepted again only when it expires between the two
    readings of the clock. *)
Lemma serve_spent header t used requests : base.NoDup (dkeys used) -> spent header t used -> clocked t requests ->
  forall r cap, In (r, cap) (serve used requests) -> rv_authorization r = Some header -> bc_expires_at cap <= rv_now r.
Proof.
  revert t used. induction requests as [|r0 rest IH]; intros t used Hnd Hs Hc r cap Hin Hr; [done|].
  destruct Hc as (H1 & H2 & Hc). cbn [serve] in Hin.
  pose proof (spent_purged header t (rv_now r0) used Hnd Hs ltac:(lia)) as Hp.
  pose proof (purged_keys (rv_now r0) used Hnd) as Hnd'.
  destruct (verify secret _ _ _ _ used) as [[e|c] used'] eqn:Hv.
  - apply verify_refuses in Hv as [->| ->]; (eapply IH; [| |exact Hc|exact Hin|exact Hr]); try done.
    apply (spent_later _ t); [done|lia].
  - apply verify_accepts in Hv as (h & Hh & Ha & Hfresh & ->). destruct Hin as [[= <- <-]|Hin].
    + rewrite Hh in Hr. injection Hr as ->. destruct (Z.le_gt_cases (bc_expires_at c) (rv_now r0)) as [|Hlt]; [done|].
      pose proof (Hs _ _ _ Ha ltac:(lia)) as Hused. exfalso.
      rewrite (dget_filter (fun e => rv_now r0 <? e) _ _ _ Hnd Hused) in Hfresh; [done|]. by apply Z.ltb_lt.
    + eapply IH; [| |exact Hc|exact Hin|exact Hr]; [by apply dset_NoDup|by apply spent_kept].
Qed.

(** C34. No token is accepted twice, along any sequence of requests with a clock that
    does not go back, as long as it does not expire between the two readings of
    the clock of one request: of two accepted requests with the same header, the
    later one found its token expired when it looked at the used nonces. *)
Theorem token_accepted_once t used requests before r1 c1 between r2 c2 after :
  base.NoDup (dkeys used) -> clocked t requests ->
  serve used requests = before ++ (r1, c1) :: between ++ (r2, c2) :: after ->
  rv_authorization r1 = rv_authorization r2 -> bc_expires_at c2 <= rv_now r2.
Proof.
  revert t used before. induction requests as [|r0 rest IH]; intros t used before Hnd Hc Hserve Hsame;
    [by destruct before|].
  destruct Hc as (H1 & H2 & Hc). cbn [serve] in Hserve.
  pose proof (purged_keys (rv_now r0) used Hnd) as Hnd'.
  destruct (verify secret _ _ _ _ used) as [[e|c] used'] eqn:Hv.
  - apply verify_refuses in Hv as [->| ->]; eapply IH; [|exact Hc|exact Hserve|exact Hsame| |exact Hc|exact Hserve|exact Hsame]; done.
  - apply verify_accepts in Hv as (h & Hh & Ha & Hfresh & ->). destruct before as [|x before].
    + injection Hserve as <- <- Hserve. eapply (serve_spent h (rv_now r0)); [by apply dset_NoDup| |exact Hc| |congruence].
      * intros op current cap Ha' _. destruct (authenticate_same _ _ _ _ _ _ _ Ha Ha') as [<- <-]. by rewrite dget_dset_eq.
      * rewrite Hserve. apply in_app_iff. right. by left.
    + injection Hserve as _ Hserve. eapply IH; [|exact Hc|exact Hserve|done]. by apply dset_NoDup.
Qed.
End Replay.

(** ** What a worker's key can sign *)

(** The digest has 32 bytes. *)
Class HmacLaws `{Hmac} : Prop := hmac_length : forall key msg, String.length (hmac_sha256 key msg) = 32%nat.

Section Worker.
Context `{Env} `{HmacLaws}.

Lemma string_length_list s : String.length s = List.length (ascii_list s).
Proof. induction s as [|c s IH]; cbn; [done|]. by rewrite IH. Qed.

Lemma b64_length s : (String.length s <= String.length (b64_encode s))%nat.
Proof.
  rewrite b64_encode_digits, !string_length_list, list_ascii_of_string_of_list_ascii.
  induction (ascii_list s) as [|a|a b|a b c l IH] using three_ind; cbn; lia.
Qed.

Lemma derived_secret master e : (32 <= String.length master)%nat ->
  exists key, derive_execution_secret master e = inr key /\ (32 <= String.length key)%nat.
Proof.
  intros Hm. unfold derive_execution_secret. destruct (Nat.ltb_spec (String.length master) 32); [lia|].
  eexists. split; [done|]. etransitivity; [|apply b64_length]. by rewrite hmac_length.
Qed.

(** The key of one execution signs tokens that claim any user: the server accepts
    them, and they own the sessions of that user. *)
Lemma worker_token_reaches_user_session master e user op now nonce current :
  (32 <= String.length master)%nat -> e <> "" -> user <> "" -> now - 30 <= current < now + 30 ->
  exists key token cap,
    derive_execution_secret master e = inr key
    /\ issue_capability key (mkOwner (Some e) None None None None (Some user) None) [op] [] 30 now nonce = inr token
    /\ authenticate master token op current = inr cap
    /\ owns (bc_owner cap) (mkOwner None None None None None (Some user) None) = true.
Proof.
  intros Hm He Hu Htime. destruct (derived_secret master e Hm) as (key & Hkey & Hlen).
  set (owner := mkOwner (Some e) None None None None (Some user) None).
  apply String.eqb_neq in He, Hu.
  assert (Hissued : exists token, issue_capability key owner [op] [] 30 now nonce = inr token).
  { unfold issue_capability. destruct (Nat.ltb_spec (String.length key) 32); [lia|].
    unfold is_identified. cbn [identity_key owner existsb str_truthy oc_execution_id]. rewrite He. cbn [negb orb].
    by eexists. }
  destruct Hissued as [token Htoken].
  destruct (capability_grants key owner [op] [] 30 now nonce token op current Htoken) as [Hpeek Hverify];
    [by left|lia|].
  exists key, token. eexists. split; [done|]. split; [done|]. unfold authenticate, verification_secret.
  rewrite Hpeek. cbn [owner oc_execution_id str_truthy default from_option id]. rewrite He. cbn [negb]. rewrite Hkey.
  split; [exact Hverify|]. cbn [bc_owner]. unfold owns, is_identified.
  cbn [identity_key owner existsb str_truthy oc_execution_id oc_workspace_id oc_user_id oc_actor]. rewrite He, Hu.
  cbn -[String.eqb]. by rewrite String.eqb_refl.
Qed.
End Worker.

(** * Capabilities and leases, evaluated

    A digest function, a token that is issued, accepted and refused, and callers
    that share a domain. *)

(** ** A digest *)

Definition checksum (n : Z) (l : list ascii) : Z :=
  fold_left (fun n c => Z.land (n * 31 + Z.of_nat (nat_of_ascii c)) 255) l n.

Definition toy_digest (key msg : string) : list ascii :=
  let sum := checksum 7 (list_ascii_of_string (key +:+ msg)) in
  map (fun i => ascii_of_nat (Z.to_nat (Z.land (sum * (2 * i + 1) + i) 255))) (map Z.of_nat (seq 0 32)).

#[export] Instance toy_hmac : Hmac := fun key msg => string_of_list_ascii (toy_digest key msg).

#[export] Instance toy_hmac_laws : HmacLaws.
Proof.
  intros key msg. unfold hmac_sha256, toy_hmac. rewrite string_length_list, list_ascii_of_string_of_list_ascii.
  unfold toy_digest. by rewrite !length_map, length_seq.
Qed.

(** ** Tokens *)

Definition master_secret : string := "0123456789abcdef0123456789abcdef".

Definition execution_owner : OwnerClaims := mkOwner (Some "e1") None None None None (Some "u1") None.

(** The token of a worker of [e1], for ten seconds from time 100. *)
Definition worker_token : string :=
  match derive_execution_secret master_secret "e1" with
  | inr key =>
      match issue_capability key execution_owner ["open"; "close"; "open"] ["Example.org."] 10 100 "n1" with
      | inr token => token
      | inl _ => ""
      end
  | inl _ => ""
  end.

Definition bearer (token : string) : option string := Some ("Bearer " +:+ token).

Definition granted (nonce : string) : BrowserCapability :=
  mkCapability 110 100 nonce execution_owner ["close"; "open"] ["example.org"].

Example worker_token_accepted :
  verify master_secret (bearer worker_token) "open" 105 105 [] = (inr (granted "n1"), [("n1", 110)]).
Proof. vm_compute. reflexivity. Qed.

Example worker_token_refused_twice :
  (verify master_secret (bearer worker_token) "open" 106 106 [("n1", 110)]).1
  = inl (HTTPException 409 "Browser runtime capability was already used").
Proof. vm_compute. reflexivity. Qed.

Example worker_token_tampered :
  (verify master_secret (bearer (worker_token +:+ "A")) "open" 105 105 []).1
  = inl (HTTPException 401 "Invalid browser capability signature").
Proof. vm_compute. reflexivity. Qed.

Lemma capability_roundtrip_witness :
  exists key token,
    issue_capability key execution_owner ["open"] [] 10 100 "n1" = inr token
    /\ peek_capability_owner token = inr execution_owner
    /\ verify_capability key token "open" 109
       = inr (mkCapability 110 100 "n1" execution_owner ["open"] []).
Proof.
  assert (Hok : match issue_capability master_secret execution_owner ["open"] [] 10 100 "n1" with
                | inr _ => true | inl _ => false end = true) by (vm_compute; reflexivity).
  destruct (issue_capability master_secret execution_owner ["open"] [] 10 100 "n1") as [e|token] eqn:Hi;
    [discriminate Hok|].
  destruct (capability_roundtrip master_secret execution_owner ["open"] [] 10 100 "n1" token "open" 109 Hi)
    as [Hp Hv]; [by left|lia|].
  exists master_secret, token. split; [exact Hi|]. split; [exact Hp|exact Hv].
Defined.

Lemma accepted_token_signed_witness :
  exists key encoded,
    derive_execution_secret master_secret "e1" = inr key
    /\ worker_token = encoded +:+ "." +:+ signature key encoded.
Proof.
  destruct (accepted_token_signed master_secret worker_token "open" 105 (granted "n1"))
    as (key & encoded & Hkey & _ & Htok & _); [vm_compute; reflexivity|].
  exists key, encoded. split; [by apply Hkey|exact Htok].
Defined.

(** A request at the last second of the token whose second reading of the clock is
    late forgets the nonce, and the token is accepted again. *)
Definition late_requests : list request :=
  [mkServed (bearer worker_token) "open" 105 105; mkServed (bearer worker_token) "open" 109 110].

Lemma token_accepted_once_witness :
  base.NoDup (dkeys (@nil (string * Z))) /\ clocked 100 late_requests
  /\ bc_expires_at (granted "n1") <= 110.
Proof.
  assert (Hs : serve master_secret [] late_requests
    = [] ++ (mkServed (bearer worker_token) "open" 105 105, granted "n1")
         :: [] ++ (mkServed (bearer worker_token) "open" 109 110, granted "n1") :: [])
    by (vm_compute; reflexivity).
  assert (Hc : clocked 100 late_requests) by (repeat split; vm_compute; congruence).
  assert (Hn : base.NoDup (dkeys (@nil (string * Z)))) by constructor.
  split; [exact Hn|]. split; [exact Hc|].
  exact (token_accepted_once master_secret 100 [] late_requests _ _ _ _ _ _ _ Hn Hc Hs eq_refl).
Defined.

(** ** Leases *)

(** Two callers of one domain with room for two, half a second apart. *)
Definition pacing : DomainSettings := domain_settings 300 60 2 500000.

Definition first_call : pool := begin_acquire pacing 1 "d" None None (initial_pool 1000000).
Definition first_slot : pool := enter 1 "d" 2 500000 first_call.
Definition first_lease : pool := pace 1 "d" 1 500000 first_slot.
Definition second_call : pool := begin_acquire pacing 2 "d" None None first_lease.
Definition second_slot : pool := enter 2 "d" 2 500000 second_call.

Lemma two_callers : pool_reachable pacing second_slot.
Proof.
  exists 1000000. eapply rtc_l; [apply (step_begin pacing 1 "d" None None); reflexivity|].
  eapply rtc_l; [apply (step_enter pacing 1 "d" 2 500000); reflexivity|].
  eapply rtc_l; [apply (step_pace pacing 1 "d" 1 500000); reflexivity|].
  eapply rtc_l; [apply (step_begin pacing 2 "d" None None); reflexivity|].
  eapply rtc_l; [apply (step_enter pacing 2 "d" 2 500000); reflexivity|]. apply rtc_refl.
Qed.

Lemma domain_leases_bounded_witness :
  pool_reachable pacing second_slot /\ in_flight "d" second_slot = 2%nat
  /\ Z.of_nat (in_flight "d" second_slot) <= ds_max_concurrency pacing.
Proof.
  split; [exact two_callers|]. split; [vm_compute; reflexivity|].
  destruct (domain_leases_bounded 300 60 2 500000 second_slot two_callers) as [Hall _].
  destruct (Hall "d") as (_ & Hmax & _). exact Hmax.
Defined.
