(* ===== verification/Regex.v ===== *)
(** * Regular expressions and words of a command line

    What the policies of [app/tools/policies] use of Python's [re], [fnmatch] and
    [shlex]: a matcher that lists the ends of the matches in the order in which
    Python tries them, proved equal to the declarative reading of a pattern. *)

From S2P Require Export PyVal.

Abbreviation chars := (list ascii).

(** ** Patterns *)

(** [AtEnd] is [$]: the end of the text, or a final newline. *)
Inductive regex :=
  | Empty | Chars (p : ascii -> bool) | Seq (r1 r2 : regex) | Alt (r1 r2 : regex) | Star (r : regex)
  | AtStart | AtEnd | WordBoundary.

Definition Plus (r : regex) : regex := Seq r (Star r).
Definition Opt (r : regex) : regex := Alt r Empty.
Definition seq_all : list regex -> regex := fold_right Seq Empty.

Definition char_in (s : string) (c : ascii) : bool := existsb (Ascii.eqb c) (list_ascii_of_string s).
Definition none_of (p : ascii -> bool) (c : ascii) : bool := negb (p c).

(** A literal, and a literal under [re.IGNORECASE]. *)
Definition lit (s : string) : regex := seq_all (map (fun c => Chars (Ascii.eqb c)) (list_ascii_of_string s)).
Definition lit_i (s : string) : regex :=
  seq_all (map (fun c => Chars (fun d => Ascii.eqb (lower_char c) (lower_char d))) (list_ascii_of_string s)).

(** [\w]: the letters and digits of Latin-1, and the underscore. *)
Definition is_word (c : ascii) : bool :=
  let n := nat_of_ascii c in
  ((48 <=? n) && (n <=? 57) || (65 <=? n) && (n <=? 90) || (n =? 95) || (97 <=? n) && (n <=? 122)
   || (n =? 170) || (n =? 178) || (n =? 179) || (n =? 181) || (n =? 185) || (n =? 186)
   || (188 <=? n) && (n <=? 190) || (192 <=? n) && negb (n =? 215) && negb (n =? 247))%nat.

Definition word_at (o : option ascii) : bool := match o with Some c => is_word c | None => false end.

Definition at_end (s : chars) : bool :=
  match s with [] => true | [c] => (nat_of_ascii c =? 10)%nat | _ => false end.

(** The character before the rest of a text, after [u] is read. *)
Definition after (prev : option ascii) (u : chars) : option ascii :=
  fold_left (fun _ c => Some c) u prev.

(** ** The declarative reading

    [matches r prev u rest]: [r] matches the text [u] when [prev] is the character
    before it and [rest] the text behind it. *)

Inductive matches : regex -> option ascii -> chars -> chars -> Prop :=
  | m_empty prev rest : matches Empty prev [] rest
  | m_chars (p : ascii -> bool) prev c rest : p c = true -> matches (Chars p) prev [c] rest
  | m_seq r1 r2 prev u v rest :
      matches r1 prev u (v ++ rest) -> matches r2 (after prev u) v rest -> matches (Seq r1 r2) prev (u ++ v) rest
  | m_left r1 r2 prev u rest : matches r1 prev u rest -> matches (Alt r1 r2) prev u rest
  | m_right r1 r2 prev u rest : matches r2 prev u rest -> matches (Alt r1 r2) prev u rest
  | m_stop r prev rest : matches (Star r) prev [] rest
  | m_more r prev u v rest :
      matches r prev u (v ++ rest) -> matches (Star r) (after prev u) v rest -> matches (Star r) prev (u ++ v) rest
  | m_start rest : matches AtStart None [] rest
  | m_end prev rest : at_end rest = true -> matches AtEnd prev [] rest
  | m_boundary prev rest :
      xorb (word_at prev) (word_at (head rest)) = true -> matches WordBoundary prev [] rest.

(** ** The matcher *)

(** Iterate as long as an iteration reads something; more iterations first. *)
Fixpoint star_ends (f : option ascii -> chars -> list (option ascii * chars)) (fuel : nat)
    (prev : option ascii) (s : chars) : list (option ascii * chars) :=
  match fuel with
  | O => [(prev, s)]
  | S fuel' =>
      List.flat_map
        (fun e => if (List.length e.2 <? List.length s)%nat then star_ends f fuel' e.1 e.2 else [])
        (f prev s) ++ [(prev, s)]
  end.

(** The ends of the matches at a position, in the order of the backtracking. *)
Fixpoint ends (r : regex) (prev : option ascii) (s : chars) : list (option ascii * chars) :=
  match r with
  | Empty => [(prev, s)]
  | Chars p => match s with c :: s' => if p c then [(Some c, s')] else [] | [] => [] end
  | Seq r1 r2 => List.flat_map (fun e => ends r2 e.1 e.2) (ends r1 prev s)
  | Alt r1 r2 => ends r1 prev s ++ ends r2 prev s
  | Star r => star_ends (ends r) (List.length s) prev s
  | AtStart => match prev with None => [(prev, s)] | Some _ => [] end
  | AtEnd => if at_end s then [(prev, s)] else []
  | WordBoundary => if xorb (word_at prev) (word_at (head s)) then [(prev, s)] else []
  end.

(** [pattern.search(s) is not None] *)
Fixpoint search_from (r : regex) (prev : option ascii) (s : chars) : bool :=
  match ends r prev s with
  | _ :: _ => true
  | [] => match s with [] => false | c :: s' => search_from r (Some c) s' end
  end.
Definition re_search (r : regex) (s : string) : bool := search_from r None (list_ascii_of_string s).

(** [[m.group(0) for m in pattern.finditer(s)]], for a pattern that never matches
    the empty text. *)
Fixpoint find_all (r : regex) (fuel : nat) (prev : option ascii) (s : chars) : list string :=
  match fuel with
  | O => []
  | S fuel' =>
      match ends r prev s with
      | (prev', s') :: _ =>
          string_of_list_ascii (take (List.length s - List.length s') s) :: find_all r fuel' prev' s'
      | [] => match s with [] => [] | c :: s' => find_all r fuel' (Some c) s' end
      end
  end.
Definition re_finditer (r : regex) (s : string) : list string :=
  find_all r (S (String.length s)) None (list_ascii_of_string s).

(** [fnmatch.fnmatch(name, pattern)] on POSIX, for patterns without brackets. *)
Definition glob_char (c : ascii) : regex :=
  if (nat_of_ascii c =? 42)%nat then Star (Chars (fun _ => true))
  else if (nat_of_ascii c =? 63)%nat then Chars (fun _ => true)
  else Chars (Ascii.eqb c).
Definition glob (pattern : string) : regex := seq_all (map glob_char (list_ascii_of_string pattern)).
Definition fnmatch (name pattern : string) : bool :=
  existsb (fun e => match e.2 with [] => true | _ => false end) (ends (glob pattern) None (list_ascii_of_string name)).

(** ** Words *)

(** The maximal runs of characters that do not satisfy [sep]: [s.split()] for
    [is_space]. *)
Fixpoint words_from (sep : ascii -> bool) (acc s : chars) : list chars :=
  match s with
  | [] => match acc with [] => [] | _ => [acc] end
  | c :: s' =>
      if sep c then match acc with [] => words_from sep [] s' | _ => acc :: words_from sep [] s' end
      else words_from sep (acc ++ [c]) s'
  end.
Definition words (sep : ascii -> bool) (s : string) : list string :=
  map string_of_list_ascii (words_from sep [] (list_ascii_of_string s)).

Definition squote_char : ascii := "'"%char.
Definition dquote_char : ascii := ascii_of_nat 34.
Definition backslash : ascii := ascii_of_nat 92.
Definition is_quote (c : ascii) : bool := Ascii.eqb c squote_char || Ascii.eqb c dquote_char.
Definition shlex_space (c : ascii) : bool :=
  let n := nat_of_ascii c in ((n =? 32) || (n =? 9) || (n =? 13) || (n =? 10))%nat.

(** The states of [shlex.shlex]; [LEX_ESCAPE] remembers the quote to return to. *)
Inductive lex_state := LEX_SPACE | LEX_WORD | LEX_QUOTE (q : ascii) | LEX_ESCAPE (back : option ascii).

Definition emit_word (quoted : bool) (token : chars) : list chars :=
  match token with [] => if quoted then [[]] else [] | _ => [token] end.

(** [shlex.split(s, posix=True)]; [None] is its [ValueError]. *)
Fixpoint shlex_from (st : lex_state) (quoted : bool) (token s : chars) : option (list chars) :=
  match s with
  | [] =>
      match st with
      | LEX_SPACE => Some []
      | LEX_WORD => Some (emit_word quoted token)
      | LEX_QUOTE _ | LEX_ESCAPE _ => None
      end
  | c :: s' =>
      match st with
      | LEX_SPACE =>
          if shlex_space c then shlex_from LEX_SPACE false [] s'
          else if Ascii.eqb c backslash then shlex_from (LEX_ESCAPE None) false [] s'
          else if is_quote c then shlex_from (LEX_QUOTE c) false [] s'
          else shlex_from LEX_WORD false [c] s'
      | LEX_WORD =>
          if shlex_space c then
            app (emit_word quoted token) <$> shlex_from LEX_SPACE false [] s'
          else if is_quote c then shlex_from (LEX_QUOTE c) quoted token s'
          else if Ascii.eqb c backslash then shlex_from (LEX_ESCAPE None) quoted token s'
          else shlex_from LEX_WORD quoted (token ++ [c]) s'
      | LEX_QUOTE q =>
          if Ascii.eqb c q then shlex_from LEX_WORD true token s'
          else if Ascii.eqb c backslash && Ascii.eqb q dquote_char then shlex_from (LEX_ESCAPE (Some q)) true token s'
          else shlex_from (LEX_QUOTE q) true (token ++ [c]) s'
      | LEX_ESCAPE None => shlex_from LEX_WORD quoted (token ++ [c]) s'
      | LEX_ESCAPE (Some q) =>
          let kept := if negb (Ascii.eqb c backslash) && negb (Ascii.eqb c q) then [backslash; c] else [c] in
          shlex_from (LEX_QUOTE q) quoted (token ++ kept) s'
      end
  end.
Definition shlex_split (s : string) : option (list string) :=
  map string_of_list_ascii <$> shlex_from LEX_SPACE false [] (list_ascii_of_string s).

(** ** The matcher lists exactly the matches *)

Lemma after_app prev u v : after prev (u ++ v) = after (after prev u) v.
Proof. apply fold_left_app. Qed.

Lemma star_ends_exact r
  (IH : forall prev s e, In e (ends r prev s) <-> exists u, s = u ++ e.2 /\ e.1 = after prev u /\ matches r prev u e.2) :
  forall fuel prev s e, (List.length s <= fuel)%nat ->
  In e (star_ends (ends r) fuel prev s) <->
  exists u, s = u ++ e.2 /\ e.1 = after prev u /\ matches (Star r) prev u e.2.
Proof.
  assert (Hsound : forall fuel prev s e, In e (star_ends (ends r) fuel prev s) ->
    exists u, s = u ++ e.2 /\ e.1 = after prev u /\ matches (Star r) prev u e.2).
  { induction fuel as [|fuel IHf]; intros prev s e; simpl.
    - intros [<-|[]]. exists []. repeat split. constructor.
    - rewrite in_app_iff, in_flat_map. intros [([p1 s1] & H1 & He)|[<-|[]]].
      + simpl in He. destruct (_ <? _)%nat; [|done].
        apply IH in H1 as (u & -> & Hp & Hu). simpl in *. subst p1.
        apply IHf in He as (v & -> & He & Hv). exists (u ++ v).
        rewrite <-app_assoc, after_app. repeat split; [done|]. by apply m_more.
      + exists []. repeat split. constructor. }
  intros fuel prev s e Hlen. split; [apply Hsound|].
  intros (u & -> & He & Hm). destruct e as [p rest]. simpl in *. subst p.
  clear Hsound. remember (Star r) as q eqn:Hq. revert fuel Hlen.
  induction Hm as [| | | | |? prev rest|r' prev u v rest H1 _ H2 IH2| | |]; try discriminate Hq; intros fuel Hlen.
  - simpl. destruct fuel; simpl; [by left|]. apply in_app_iff. right. by left.
  - injection Hq as ->. destruct u as [|c u].
    { simpl. by apply IH2. }
    rewrite <-app_assoc in *. destruct fuel as [|fuel]; [simpl in Hlen; lia|].
    cbn [star_ends]. apply in_app_iff. left. apply in_flat_map.
    exists (after prev (c :: u), v ++ rest). split; [apply IH; by exists (c :: u)|].
    cbn [fst snd]. rewrite (proj2 (Nat.ltb_lt _ _)) by (rewrite !length_app; simpl; lia).
    rewrite after_app. apply IH2; [done|]. simpl in Hlen. rewrite !length_app in *. lia.
Qed.

Lemma ends_exact r : forall prev s e,
  In e (ends r prev s) <-> exists u, s = u ++ e.2 /\ e.1 = after prev u /\ matches r prev u e.2.
Proof.
  induction r as [|p|r1 IH1 r2 IH2|r1 IH1 r2 IH2|r IH| | |]; intros prev s [p' s']; cbn [ends fst snd].
  - split; [intros [[= <- <-]|[]]; exists []; by repeat split; constructor|].
    intros (u & -> & -> & Hm). inversion Hm. by left.
  - split.
    + destruct s as [|c s]; [done|]. destruct (p c) eqn:Hp; [|done].
      intros [[= <- <-]|[]]. exists [c]. by repeat split; constructor.
    + intros (u & -> & -> & Hm). inversion Hm as [|? ? c ? Hp| | | | | | | |]. subst. simpl. rewrite Hp. by left.
  - rewrite in_flat_map. split.
    + intros ([p1 s1] & (u & -> & Hp & Hu)%IH1 & (v & Hs & Hp' & Hv)%IH2). simpl in *. subst.
      exists (u ++ v). rewrite <-app_assoc, after_app. repeat split. by constructor.
    + intros (u & -> & -> & Hm). inversion Hm as [| |? ? ? u1 v ? H1 H2| | | | | | |]. subst.
      exists (after prev u1, v ++ s'). split; [apply IH1; exists u1; simpl; by rewrite <-app_assoc|].
      apply IH2. exists v. by rewrite after_app.
  - rewrite in_app_iff, IH1, IH2. simpl. split.
    + intros [(u & -> & -> & Hu)|(u & -> & -> & Hu)]; exists u; repeat split; by constructor.
    + intros (u & -> & -> & Hm). inversion Hm; subst; [left|right]; by exists u.
  - by apply star_ends_exact.
  - split.
    + destruct prev; [done|]. intros [[= <- <-]|[]]. exists []. by repeat split; constructor.
    + intros (u & -> & -> & Hm). inversion Hm. by left.
  - split.
    + destruct (at_end s) eqn:E; [|done]. intros [[= <- <-]|[]]. exists []. by repeat split; constructor.
    + intros (u & -> & -> & Hm). inversion Hm as [| | | | | | | |? ? He|]. subst. simpl. rewrite He. by left.
  - split.
    + destruct (xorb _ _) eqn:E; [|done]. intros [[= <- <-]|[]]. exists []. by repeat split; constructor.
    + intros (u & -> & -> & Hm). inversion Hm as [| | | | | | | | |? ? He]. subst. simpl. rewrite He. by left.
Qed.

(** A search finds a match exactly if some part of the text is one. *)
Lemma search_from_exact r s : forall prev,
  search_from r prev s = true <->
  exists before u rest, s = before ++ u ++ rest /\ matches r (after prev before) u rest.
Proof.
  assert (Hnil : forall prev s, ends r prev s = [] -> forall u rest, s = u ++ rest -> ~ matches r prev u rest).
  { intros prev s' Hn u rest -> Hm. assert (Hin : In (after prev u, rest) (ends r prev (u ++ rest))).
    { apply ends_exact. by exists u. } rewrite Hn in Hin. done. }
  induction s as [|c s IH]; intros prev; cbn [search_from]; destruct (ends _ _ _) as [|e l] eqn:E.
  - split; [done|]. intros (b & u & rest & Hs & Hm). destruct b; [|done]. exfalso. exact (Hnil _ _ E u rest Hs Hm).
  - split; [|done]. intros _. destruct (proj1 (ends_exact r prev [] e)) as (u & Hs & _ & Hm); [rewrite E; by left|].
    by exists [], u, e.2.
  - rewrite IH. split.
    + intros (b & u & rest & -> & Hm). by exists (c :: b), u, rest.
    + intros (b & u & rest & Hs & Hm). destruct b as [|c' b]; [exfalso; exact (Hnil _ _ E u rest Hs Hm)|].
      injection Hs as <- Hs. by exists b, u, rest.
  - split; [|done]. intros _.
    destruct (proj1 (ends_exact r prev (c :: s) e)) as (u & Hs & _ & Hm); [rewrite E; by left|].
    by exists [], u, e.2.
Qed.

Lemma re_search_exact r s :
  re_search r s = true <->
  exists before u rest, list_ascii_of_string s = before ++ u ++ rest /\ matches r (after None before) u rest.
Proof. apply search_from_exact. Qed.

Lemma fnmatch_exact name pattern :
  fnmatch name pattern = true <-> matches (glob pattern) None (list_ascii_of_string name) [].
Proof.
  unfold fnmatch. rewrite existsb_exists. split.
  - intros ([p rest] & (u & Hs & _ & Hm)%ends_exact & He). simpl in *. destruct rest; [|done].
    by rewrite Hs, app_nil_r.
  - intros Hm. eexists (_, []). split; [|done]. apply ends_exact. eexists.
    simpl. rewrite app_nil_r. split; [reflexivity|split; [reflexivity|done]].
Qed.

(** ** Reading the patterns *)

Lemma matches_chars p prev u rest : matches (Chars p) prev u rest <-> exists c, u = [c] /\ p c = true.
Proof.
  split; [intros Hm; inversion Hm; subst; by eauto|]. intros (c & -> & Hc). by constructor.
Qed.

Lemma matches_seq r1 r2 prev u rest :
  matches (Seq r1 r2) prev u rest <->
  exists v w, u = v ++ w /\ matches r1 prev v (w ++ rest) /\ matches r2 (after prev v) w rest.
Proof.
  split; [intros Hm; inversion Hm; subst; by eauto|]. intros (v & w & -> & H1 & H2). by constructor.
Qed.

Lemma matches_alt r1 r2 prev u rest :
  matches (Alt r1 r2) prev u rest <-> matches r1 prev u rest \/ matches r2 prev u rest.
Proof. split; [intros Hm; inversion Hm; subst; auto|]. intros [H|H]; by constructor. Qed.

Lemma matches_empty prev u rest : matches Empty prev u rest <-> u = [].
Proof. split; [intros Hm; by inversion Hm|]. intros ->. constructor. Qed.

Lemma matches_star_chars p prev u rest : matches (Star (Chars p)) prev u rest <-> Forall (fun c => p c = true) u.
Proof.
  split.
  - intros Hm. remember (Star (Chars p)) as q eqn:Hq.
    induction Hm as [| | | | | |r prev u v rest H1 _ H2 IH2| | |]; try discriminate Hq; [by constructor|].
    injection Hq as ->. apply matches_chars in H1 as (c & -> & Hc). constructor; auto.
  - intros Hu. revert prev. induction Hu as [|c u Hc Hu IH]; intros prev; [constructor|].
    apply (m_more _ _ [c]); [by constructor|apply IH].
Qed.

Lemma matches_end prev u rest : matches AtEnd prev u rest <-> u = [] /\ at_end rest = true.
Proof. split; [intros Hm; by inversion Hm|]. intros [-> H]. by constructor. Qed.

Lemma matches_start prev u rest : matches AtStart prev u rest <-> u = [] /\ prev = None.
Proof. split; [intros Hm; by inversion Hm|]. intros [-> ->]. by constructor. Qed.

Lemma matches_seq_chars (test : ascii -> ascii -> bool) l prev u rest :
  matches (seq_all (map (fun c => Chars (test c)) l)) prev u rest <-> Forall2 (fun c d => test c d = true) l u.
Proof.
  revert prev u. induction l as [|c l IH]; intros prev u; cbn [map seq_all fold_right].
  - rewrite matches_empty. split; [intros ->; constructor|]. intros H. by inversion H.
  - rewrite matches_seq. setoid_rewrite matches_chars. split.
    + intros (v & w & -> & (d & -> & Hd) & Hw). constructor; [done|]. by eapply IH.
    + intros H. inversion H as [|? d ? u' Hd Hu]; subst. exists [d], u'.
      split; [done|]. split; [by eauto|]. by apply IH.
Qed.

Lemma matches_lit s prev u rest : matches (lit s) prev u rest <-> u = list_ascii_of_string s.
Proof.
  unfold lit. rewrite (matches_seq_chars Ascii.eqb). generalize (list_ascii_of_string s). intros l. split.
  - induction 1 as [|c d l u Hd _ IH]; [done|]. apply Ascii.eqb_eq in Hd. by subst.
  - intros ->. induction l; constructor; [by apply Ascii.eqb_eq|done].
Qed.

(** A literal under [re.IGNORECASE] matches the texts with the same lower case. *)
Lemma matches_lit_i s prev u rest :
  matches (lit_i s) prev u rest <-> map lower_char u = map lower_char (list_ascii_of_string s).
Proof.
  unfold lit_i. rewrite (matches_seq_chars (fun c d => Ascii.eqb (lower_char c) (lower_char d))).
  generalize (list_ascii_of_string s). intros l. split.
  - induction 1 as [|c d l u Hd _ IH]; [done|]. apply Ascii.eqb_eq in Hd. simpl. by rewrite Hd, IH.
  - revert u. induction l as [|c l IH]; intros [|d u] H; try done; constructor.
    + injection H as Hd _. by apply Ascii.eqb_eq.
    + injection H as _ H. auto.
Qed.

(** ** Words *)

(** Text without quotes and backslashes is split at blanks. *)
Lemma shlex_from_plain s : forall token,
  Forall (fun c => is_quote c = false /\ Ascii.eqb c backslash = false) s ->
  shlex_from LEX_SPACE false [] s = Some (words_from shlex_space [] s)
  /\ (token <> [] -> shlex_from LEX_WORD false token s = Some (words_from shlex_space token s)).
Proof.
  induction s as [|c s IH]; intros token Hs; simpl.
  - split; [done|]. by destruct token.
  - inversion_clear Hs as [|? ? [Hq Hb] Hs']. rewrite Hq, Hb. split.
    + destruct (shlex_space c); [by apply (IH [c])|]. by apply (IH [c]).
    + intros Ht. destruct (shlex_space c).
      * rewrite (proj1 (IH [] Hs')). by destruct token.
      * apply IH; [done|]. by destruct token.
Qed.

Lemma shlex_plain s :
  Forall (fun c => is_quote c = false /\ Ascii.eqb c backslash = false) (list_ascii_of_string s) ->
  shlex_split s = Some (words shlex_space s).
Proof. intros Hs. unfold shlex_split. by rewrite (proj1 (shlex_from_plain _ [] Hs)). Qed.

Lemma words_from_app p a c s : forall acc, p c = true ->
  words_from p acc (a ++ c :: s) = words_from p acc a ++ words_from p [] s.
Proof.
  induction a as [|d a IH]; intros acc Hc; simpl.
  - rewrite Hc. by destruct acc.
  - destruct (p d); [|by apply IH]. destruct acc; [by apply IH|]. simpl. by rewrite IH.
Qed.

Lemma words_from_one p w : forall acc, Forall (fun c => p c = false) w -> acc ++ w <> [] ->
  words_from p acc w = [acc ++ w].
Proof.
  induction w as [|c w IH]; intros acc Hw Hne; simpl.
  - rewrite app_nil_r in *. by destruct acc.
  - inversion_clear Hw as [|? ? Hc Hw']. rewrite Hc, IH, <-app_assoc; [done|done|].
    by destruct acc.
Qed.

(** Text between two separators is a word. *)
Lemma words_between p a w b c d : p c = true -> p d = true -> w <> [] -> Forall (fun e => p e = false) w ->
  In w (words_from p [] (a ++ c :: w ++ d :: b)).
Proof.
  intros Hc Hd Hne Hw. rewrite words_from_app, words_from_app, (words_from_one p w []) by done.
  apply in_app_iff. right. by left.
Qed.

(** ** Globs *)

Lemma matches_seq_all_app l1 l2 prev u rest :
  matches (seq_all (l1 ++ l2)) prev u rest <-> matches (Seq (seq_all l1) (seq_all l2)) prev u rest.
Proof.
  revert prev u. induction l1 as [|r l1 IH]; intros prev u; cbn [app].
  - rewrite matches_seq. setoid_rewrite matches_empty. split; [by exists [], u|].
    intros (v & w & -> & -> & Hw). done.
  - cbn [seq_all fold_right]. rewrite !matches_seq. fold (seq_all (l1 ++ l2)). fold (seq_all l1). split.
    + intros (v & w & -> & Hv & (x & y & -> & Hx & Hy)%IH%matches_seq). exists (v ++ x), y.
      rewrite <-app_assoc in Hv. split; [by rewrite app_assoc|]. split; [by apply m_seq|]. by rewrite after_app.
    + intros (v & w & -> & (x & y & -> & Hx & Hy)%matches_seq & Hw). exists x, (y ++ w).
      split; [by rewrite app_assoc|]. split; [by rewrite <-app_assoc|].
      apply IH, m_seq; [done|]. by rewrite <-after_app.
Qed.

Lemma list_ascii_string_app a b :
  list_ascii_of_string (a +:+ b) = list_ascii_of_string a ++ list_ascii_of_string b.
Proof. induction a as [|c a IH]; simpl; [done|]. by f_equal. Qed.

(** Characters that a glob reads as themselves. *)
Definition glob_plain (c : ascii) : bool := negb ((nat_of_ascii c =? 42)%nat || (nat_of_ascii c =? 63)%nat).

Lemma glob_plain_lit s : forallb glob_plain (list_ascii_of_string s) = true -> glob s = lit s.
Proof.
  intros Hs. unfold glob, lit. f_equal. apply map_ext_in. intros c Hc.
  rewrite forallb_forall in Hs. specialize (Hs c Hc). unfold glob_plain in Hs. unfold glob_char.
  destruct (_ =? 42)%nat; [done|]. by destruct (_ =? 63)%nat.
Qed.

Lemma glob_app a b prev u rest :
  matches (glob (a +:+ b)) prev u rest <->
  exists v w, u = v ++ w /\ matches (glob a) prev v (w ++ rest) /\ matches (glob b) (after prev v) w rest.
Proof. unfold glob. rewrite list_ascii_string_app, map_app, matches_seq_all_app. apply matches_seq. Qed.

Lemma glob_stars prev u rest : matches (glob "**") prev u rest.
Proof.
  apply matches_seq. exists u, []. rewrite app_nil_r. split; [done|].
  assert (Hany : forall v, Forall (fun _ : ascii => true = true) v) by (intros v; induction v; by constructor).
  split; [apply matches_star_chars, Hany|]. apply matches_seq. exists [], []. split; [done|].
  split; [apply m_stop|apply m_empty].
Qed.

(** A plain text between two [**] matches the texts that contain it. *)
Lemma fnmatch_around x name : forallb glob_plain (list_ascii_of_string x) = true ->
  fnmatch name ("**" +:+ x +:+ "**") = true <->
  exists a b, list_ascii_of_string name = a ++ list_ascii_of_string x ++ b.
Proof.
  intros Hx. rewrite fnmatch_exact, glob_app. setoid_rewrite glob_app.
  setoid_rewrite (glob_plain_lit x Hx). setoid_rewrite matches_lit. split.
  - intros (a & w & -> & _ & v & b & -> & -> & _). by exists a, b.
  - intros (a & b & ->). exists a, (list_ascii_of_string x ++ b).
    split; [done|]. split; [apply glob_stars|]. exists (list_ascii_of_string x), b. by split; [|split; [|apply glob_stars]].
Qed.

(** A plain text before [*] matches the texts that start with it. *)
Lemma fnmatch_prefix x name : forallb glob_plain (list_ascii_of_string x) = true ->
  fnmatch name (x +:+ "*") = true <-> exists b, list_ascii_of_string name = list_ascii_of_string x ++ b.
Proof.
  intros Hx. rewrite fnmatch_exact, glob_app.
  setoid_rewrite (glob_plain_lit x Hx). setoid_rewrite matches_lit. split.
  - intros (a & b & -> & -> & _). by exists b.
  - intros (b & ->). exists (list_ascii_of_string x), b. do 2 (split; [done|]).
    apply matches_seq. exists b, []. rewrite app_nil_r. split; [done|]. split; [|by apply m_empty].
    apply matches_star_chars. induction b; by constructor.
Qed.

Lemma fnmatch_plain x name : forallb glob_plain (list_ascii_of_string x) = true ->
  fnmatch name x = true <-> name = x.
Proof.
  intros Hx. rewrite fnmatch_exact, (glob_plain_lit x Hx), matches_lit. split; [|by intros ->].
  intros H. by rewrite <-(string_of_list_ascii_of_string name), H, string_of_list_ascii_of_string.
Qed.
