(* ===== verification/ToolPolicies.v ===== *)
(** * Policies of the tools

    [app/tools/policies] with the verdicts of [tools/contracts/models.py] and the
    outbound URL checks of [core/outbound_http.py]: which paths are sensitive, which
    commands are refused, which files may be written, which URLs may be requested.

    Home directories and symbolic links ([FileSystem]), name resolution, the
    reading of IP addresses and the environment ([Network]) are interfaces;
    [urlparse] is modelled.  [None] is an exception that leaves the evaluation. *)

From S2P Require Export Regex Redaction World.

(** ** Verdicts ([tools/contracts/models.py]) *)

Inductive rule_outcome := OK | WARN | DENY.

#[export] Instance rule_outcome_eq_dec : EqDecision rule_outcome.
Proof. solve_decision. Defined.

Record PolicyRuleResult := mkRule { rule_id : string; rule_out : rule_outcome; rule_reason : option string }.
Record PolicyVerdict := mkVerdict { pv_score : Z; pv_rules : list PolicyRuleResult }.

Definition has_outcome (o : rule_outcome) (r : PolicyRuleResult) : bool := bool_decide (rule_out r = o).

(** [PolicyVerdict.outcome] *)
Definition verdict_outcome (v : PolicyVerdict) : rule_outcome :=
  if existsb (has_outcome DENY) (pv_rules v) then DENY
  else if existsb (has_outcome WARN) (pv_rules v) then WARN
  else OK.

Definition rule_score (r : PolicyRuleResult) : Z :=
  match rule_out r with DENY => 100 | WARN => 25 | OK => 0 end.

(** [score = sum(...)], and [PolicyVerdict(score=score, rules=rules)] *)
Definition verdict_of (rules : list PolicyRuleResult) : PolicyVerdict :=
  mkVerdict (fold_right Z.add 0 (map rule_score rules)) rules.

Definition ok_rule (id : string) : PolicyRuleResult := mkRule id OK None.
Definition ok_because (id reason : string) : PolicyRuleResult := mkRule id OK (Some reason).
Definition warn_rule (id reason : string) : PolicyRuleResult := mkRule id WARN (Some reason).
Definition deny_rule (id reason : string) : PolicyRuleResult := mkRule id DENY (Some reason).

(** [actor and actor.startswith("approved/")] *)
Definition approved (actor : option string) : bool :=
  match actor with Some a => starts_with "approved/" a | None => false end.

(** The rule on the actor that the writing policies append. *)
Definition approval_rule (id reason : string) (actor : option string) : PolicyRuleResult :=
  if approved actor then ok_because id "actor is approved" else deny_rule id reason.

(** ** Paths ([policies/paths.py]) *)

Record PathBlockRule := mkBlockRule {
  patterns : list string;
  block_reason : string;
  path_parts : list string;
  basename_prefixes : list string
}.

Definition SENSITIVE_PATH_RULES : list PathBlockRule := [
  mkBlockRule [".env"; ".env.*"] "reading .env files is blocked" [] [".env."];
  mkBlockRule ["**/.ssh/**"] "reading SSH credentials is blocked" [".ssh"] [];
  mkBlockRule ["**/.aws/**"] "reading AWS credentials is blocked" [".aws"] [];
  mkBlockRule ["**/.git/**"] "reading git internals is blocked" [".git"] [];
  mkBlockRule ["**/secrets/**"] "reading secrets directories is blocked" ["secrets"] []].

Definition EDIT_ONLY_PATH_RULES : list PathBlockRule := [
  mkBlockRule ["**/node_modules/**"] "editing node_modules is blocked" ["node_modules"] []].

Definition slash : ascii := "/"%char.

Definition replace_char (a b : ascii) (s : string) : string :=
  string_of_list_ascii (map (fun c => if Ascii.eqb c a then b else c) (list_ascii_of_string s)).
Definition lstrip_with (p : ascii -> bool) (s : string) : string :=
  string_of_list_ascii (drop_while p (list_ascii_of_string s)).
Definition rstrip_with (p : ascii -> bool) (s : string) : string :=
  string_of_list_ascii (rev (drop_while p (rev (list_ascii_of_string s)))).

(** [s.startswith(("'", '"')) and s.endswith(("'", '"')) and len(s) >= 2], then [s[1:-1]] *)
Definition unquote (s : string) : string :=
  match list_ascii_of_string s with
  | c :: ((_ :: _) as l) =>
      if is_quote c && is_quote (List.last l c) then string_of_list_ascii (removelast l) else s
  | _ => s
  end.

Definition _normalize_path_candidate (path : string) : string :=
  let normalized := strip_chars (char_in "()[]{}<>,:;") (py_strip (replace_char backslash slash path)) in
  lstrip_with (Ascii.eqb slash) (unquote normalized).

(** [[part for part in s.split("/") if part]] *)
Definition parts_of (s : string) : list string := words (Ascii.eqb slash) s.

Definition _matches_rule (normalized_path : string) (rule : PathBlockRule) : bool :=
  let parts := parts_of normalized_path in
  existsb (fun part => mem_str part (path_parts rule)) parts
  || match last parts with
     | Some base => String.eqb base ".env" || existsb (fun prefix => starts_with prefix base) (basename_prefixes rule)
     | None => false
     end
  || existsb (fun pattern => fnmatch normalized_path pattern || fnmatch ("/" +:+ normalized_path) pattern)
       (patterns rule).

Definition blocked_path_reason (path : string) (include_edit_only : bool) : option string :=
  let normalized := _normalize_path_candidate path in
  if String.eqb normalized "" then None
  else block_reason <$> List.find (_matches_rule normalized)
         (SENSITIVE_PATH_RULES ++ if include_edit_only then EDIT_ONLY_PATH_RULES else []).

Definition path_blocked (path : string) (include_edit_only : bool) : bool :=
  opt_some (blocked_path_reason path include_edit_only).

(** [_QUOTED_CANDIDATE_PATTERN] and [_INLINE_PATH_CANDIDATE_PATTERN] *)
Definition quoted_candidate : regex :=
  Seq (Chars is_quote) (Seq (Plus (Chars (none_of is_quote))) (Chars is_quote)).

Definition path_char (c : ascii) : bool :=
  negb (is_space c || is_quote c || char_in "`;|&<>()" c).
Definition path_text : regex := Plus (Chars path_char).
Definition path_prefix : regex := Opt (Seq path_text (lit "/")).
Definition env_char (c : ascii) : bool :=
  char_in "ABCDEFGHIJKLMNOPQRSTUVWXYZabcdefghijklmnopqrstuvwxyz0123456789_.-" c.

Definition inline_candidate : regex :=
  Alt (Seq (Alt (lit "~") (Alt (lit "$HOME") (lit "/"))) path_text)
  (Alt (Seq path_prefix (Seq (lit ".env") (Opt (Seq (lit ".") (Plus (Chars env_char))))))
  (Alt (Seq path_prefix (Seq (Alt (lit ".ssh") (Alt (lit ".aws") (lit ".git"))) (Opt (Seq (lit "/") path_text))))
       (Seq path_prefix (Seq (lit "secrets") (Opt (Seq (lit "/") path_text)))))).

(** [match.group(1)] of a quoted candidate: the match without its quotes. *)
Definition group1 (m : string) : string := string_of_list_ascii (removelast (tl (list_ascii_of_string m))).

Definition _path_candidates (token : string) : list string :=
  token :: map group1 (re_finditer quoted_candidate token) ++ re_finditer inline_candidate token.

(** [re.sub(r"[\r\n]+", c, s)] *)
Definition is_line_break (c : ascii) : bool := let n := nat_of_ascii c in ((n =? 10) || (n =? 13))%nat.
Fixpoint join_lines_from (by_ : ascii) (inside : bool) (s : chars) : chars :=
  match s with
  | [] => []
  | c :: s' =>
      if is_line_break c then (if inside then [] else [by_]) ++ join_lines_from by_ true s'
      else c :: join_lines_from by_ false s'
  end.
Definition join_lines (by_ : ascii) (s : string) : string :=
  string_of_list_ascii (join_lines_from by_ false (list_ascii_of_string s)).

Definition command_tokens (normalized : string) : list string :=
  default (words is_space normalized) (shlex_split normalized).

Definition find_blocked_path_references (command : string) : list string :=
  let normalized := join_lines " " (py_strip command) in
  if String.eqb normalized "" then []
  else fold_left
         (fun blocked candidate =>
            if negb (opt_some (blocked_path_reason candidate false)) || mem_str candidate blocked then blocked
            else blocked ++ [candidate])
         (List.flat_map _path_candidates (command_tokens normalized)) [].

(** ** Commands ([policies/command.py]) *)

Definition space : regex := Chars is_space.
Definition dash_flags : regex :=
  let flags first second :=
    Seq (lit "-") (Seq (Star (Chars (none_of is_space)))
      (Seq (Alt (lit_i first) (lit_i second)) (Star (Chars (none_of is_space))))) in
  Alt (flags "r" "f") (flags "f" "r").

(** [(^|[;&|]\s* )] and [(\s|$)] *)
Definition command_start : regex := Alt AtStart (Seq (Chars (char_in ";&|")) (Star space)).
Definition command_end : regex := Alt space AtEnd.
Definition same_command : regex := Star (Chars (none_of (char_in ";&|"))).
Definition root_or_home : regex := Alt (lit "/") (Alt (lit_i "$HOME") (lit "~")).

Definition command_word (name : string) : regex := Seq command_start (Seq (lit_i name) command_end).
Definition recursive_change (name : string) : regex :=
  seq_all [command_start; lit_i name; Plus space; lit_i "-R"; Plus space; same_command; Plus space;
           root_or_home; command_end].

Definition BLOCKED_COMMAND_PATTERNS : list (regex * string) := [
  (command_word "sudo", "sudo is blocked for agent command execution");
  (command_word "su", "switching users is blocked for agent command execution");
  (seq_all [command_start; lit_i "git"; Plus space; lit_i "push"; command_end],
   "git push is blocked; pushes require a separate explicit workflow");
  (command_word "ssh", "ssh is blocked because it can expose credentials or remote systems");
  (command_word "scp", "scp is blocked because it can expose credentials or remote systems");
  (seq_all [Alt (lit_i "curl") (lit_i "wget"); same_command; lit "|"; Star space;
            Opt (Seq (lit_i "sudo") (Plus space)); Alt (lit_i "bash") (lit_i "sh"); WordBoundary],
   "piping downloaded scripts into a shell is blocked");
  (seq_all [command_start; lit_i "rm"; Plus space; dash_flags; Plus space; root_or_home; command_end],
   "broad recursive deletion is blocked");
  (seq_all [command_start; lit_i "find"; Plus space; same_command; Plus space; lit_i "-delete";
            Alt space (Alt AtEnd (Chars (char_in ";&|")))],
   "find -delete is blocked; use an explicit approved delete workflow");
  (recursive_change "chmod", "recursive chmod on root or home is blocked");
  (recursive_change "chown", "recursive chown on root or home is blocked")].

Definition blocked_command_reason (command : string) : option string :=
  let normalized := join_lines ";" (py_strip command) in
  match find_blocked_path_references normalized with
  | candidate :: _ => blocked_path_reason candidate false
  | [] => snd <$> List.find (fun pr => re_search pr.1 normalized) BLOCKED_COMMAND_PATTERNS
  end.

(** ** URLs: [urllib.parse.urlparse] and its properties *)

(** [s.partition(c)] and [s.rpartition(c)]: the flag tells whether [c] was found. *)
Fixpoint partition_list (c : ascii) (s : chars) : chars * bool * chars :=
  match s with
  | [] => ([], false, [])
  | d :: s' =>
      if Ascii.eqb c d then ([], true, s')
      else let '(a, found, b) := partition_list c s' in (d :: a, found, b)
  end.
Definition str_partition (c : ascii) (s : string) : string * bool * string :=
  let '(a, found, b) := partition_list c (list_ascii_of_string s) in
  (string_of_list_ascii a, found, string_of_list_ascii b).
Definition str_rpartition (c : ascii) (s : string) : string * bool * string :=
  let '(b, found, a) := partition_list c (rev (list_ascii_of_string s)) in
  if found then (string_of_list_ascii (rev a), true, string_of_list_ascii (rev b)) else ("", false, s).

Record ip_info := mkIp { ip_v4 : bool; ip_global : bool }.
Inductive dns_answer := DNS_ERROR | DNS_INVALID (message : string) | DNS_ANSWERS (addresses : list string).

(** [ipaddress.ip_address], [None] when it raises; [socket.getaddrinfo], which
    raises [OSError] or [UnicodeError] or lists the hosts of the socket addresses;
    [os.getenv("APP_ENV", "")]. *)
Class Network := {
  ip_address : string -> option ip_info;
  getaddrinfo : string -> Z -> dns_answer;
  app_env : string
}.

(** The fields of a [ParseResult] that are read. *)
Record ParseResult := mkParsed { scheme : string; netloc : string }.

Section Urls.
Context `{Network}.

Definition is_letter (c : ascii) : bool :=
  let n := nat_of_ascii c in ((65 <=? n) && (n <=? 90) || (97 <=? n) && (n <=? 122))%nat.
Definition ascii_digit (c : ascii) : bool := let n := nat_of_ascii c in ((48 <=? n) && (n <=? 57))%nat.
Definition scheme_char (c : ascii) : bool := is_letter c || ascii_digit c || char_in "+-." c.
Definition is_hex (c : ascii) : bool := ascii_digit c || char_in "abcdefABCDEF" c.

(** [r"\Av[a-fA-F0-9]+\..+\Z"] *)
Definition ip_future : regex :=
  seq_all [lit "v"; Plus (Chars is_hex); lit "."; Plus (Chars (fun c => negb (nat_of_ascii c =? 10)%nat))].

Definition _check_bracketed_host (hostname : string) : option string :=
  if starts_with "v" hostname then
    if existsb (fun e => match e.2 with [] => true | _ => false end)
         (ends ip_future None (list_ascii_of_string hostname))
    then None else Some "IPvFuture address is invalid"
  else match ip_address hostname with
       | None => Some (repr_str hostname +:+ " does not appear to be an IPv4 or IPv6 address")
       | Some ip => if ip_v4 ip then Some "An IPv4 address cannot be in brackets" else None
       end.

Definition _check_bracketed_netloc (netloc : string) : option string :=
  let '(_, _, hostname_and_port) := str_rpartition "@" netloc in
  let '(before_bracket, have_open_br, bracketed) := str_partition "[" hostname_and_port in
  if have_open_br then
    if negb (String.eqb before_bracket "") then Some "Invalid IPv6 URL"
    else
      let '(hostname, _, port) := str_partition "]" bracketed in
      if negb (String.eqb port "") && negb (starts_with ":" port) then Some "Invalid IPv6 URL"
      else _check_bracketed_host hostname
  else let '(hostname, _, _) := str_partition ":" hostname_and_port in _check_bracketed_host hostname.

(** The [netloc] of [url[2:]]. *)
Fixpoint until (p : ascii -> bool) (s : chars) : chars :=
  match s with [] => [] | c :: s' => if p c then [] else c :: until p s' end.

(** [urlparse(url)]; [inl] is a [ValueError].  Text of Latin-1 never fails the
    check of [_checknetloc]. *)
Definition urlparse (url : string) : string + ParseResult :=
  let url := lstrip_with (fun c => (nat_of_ascii c <=? 32)%nat) url in
  let url := string_of_list_ascii
    (List.filter (fun c => negb (is_line_break c || (nat_of_ascii c =? 9)%nat)) (list_ascii_of_string url)) in
  let '(before, found, rest) := str_partition ":" url in
  let '(scheme, url) :=
    match list_ascii_of_string before with
    | c :: _ =>
        if found && is_letter c && forallb scheme_char (list_ascii_of_string before)
        then (py_lower before, rest) else ("", url)
    | [] => ("", url)
    end in
  if starts_with "//" url then
    let netloc := string_of_list_ascii (until (char_in "/?#") (drop 2 (list_ascii_of_string url))) in
    let opens := contains "[" netloc in
    let closes := contains "]" netloc in
    if xorb opens closes then inl "Invalid IPv6 URL"
    else if opens && closes then
      match _check_bracketed_netloc netloc with
      | Some message => inl message
      | None => inr (mkParsed scheme netloc)
      end
    else inr (mkParsed scheme netloc)
  else inr (mkParsed scheme "").

(** [_hostinfo]: the host, and the text of the port. *)
Definition _hostinfo (u : ParseResult) : string * string :=
  let '(_, _, hostinfo) := str_rpartition "@" (netloc u) in
  let '(_, have_open_br, bracketed) := str_partition "[" hostinfo in
  if have_open_br then
    let '(hostname, _, port) := str_partition "]" bracketed in
    let '(_, _, port) := str_partition ":" port in (hostname, port)
  else let '(hostname, _, port) := str_partition ":" hostinfo in (hostname, port).

(** [parsed.hostname]; the empty text is [None], which the code reads as false too. *)
Definition hostname (u : ParseResult) : string :=
  let '(host, percent, zone) := str_partition "%" (_hostinfo u).1 in
  py_lower host +:+ (if percent then "%" else "") +:+ zone.

(** [parsed.port]; [inl] is a [ValueError] *)
Definition port (u : ParseResult) : string + option Z :=
  let text := (_hostinfo u).2 in
  if String.eqb text "" then inr None
  else if forallb ascii_digit (list_ascii_of_string text) then
    let n := fold_left (fun acc c => 10 * acc + (Z.of_nat (nat_of_ascii c) - 48)) (list_ascii_of_string text) 0 in
    if n <=? 65535 then inr (Some n) else inl "Port out of range 0-65535"
  else inl ("Port could not be cast to integer value as " +:+ repr_str text).

(** [parsed.username is not None or parsed.password is not None] *)
Definition has_userinfo (u : ParseResult) : bool := contains "@" (netloc u).

(** ** Outbound requests ([core/outbound_http.py]) *)

Definition rstrip_dots (s : string) : string := rstrip_with (Ascii.eqb ".") s.

Definition host_matches_allowlist (host : string) (allowed_hosts : list string) : bool :=
  let normalized := rstrip_dots (py_lower (py_strip host)) in
  if String.eqb normalized "" then false
  else existsb
         (fun raw_allowed =>
            let allowed := rstrip_dots (py_lower (py_strip raw_allowed)) in
            if String.eqb allowed "" || String.eqb allowed "*" then false
            else (starts_with "*." allowed
                  && ends_with (string_of_list_ascii (tl (list_ascii_of_string allowed))) normalized)
                 || String.eqb normalized allowed)
         allowed_hosts.

(** The loop over [resolved_addresses]: the first complaint.  The order of the set
    is not specified; here it is that of the answers. *)
Fixpoint check_addresses (host : string) (resolved : list string) : option string :=
  match resolved with
  | [] => None
  | address :: resolved' =>
      match ip_address address with
      | None => Some ("host resolved to an invalid address: " +:+ host)
      | Some ip =>
          if ip_global ip then check_addresses host resolved'
          else Some ("host resolves to a non-public address: " +:+ host)
      end
  end.

(** The branch for a name outside of tests. *)
Definition check_resolution (parsed : ParseResult) (host : string) : option string :=
  match port parsed with
  | inl message => Some message
  | inr p =>
      let number := match p with
                    | Some n => if n =? 0 then None else Some n
                    | None => None
                    end in
      match getaddrinfo host (default (if String.eqb (scheme parsed) "https" then 443 else 80) number) with
      | DNS_ERROR => Some ("host could not be resolved: " +:+ host)
      | DNS_INVALID message => Some message
      | DNS_ANSWERS answers =>
          let resolved := map (fun a => (str_partition "%" a).1.1) (List.filter (fun a => negb (String.eqb a "")) answers) in
          match resolved with
          | [] => Some ("host could not be resolved: " +:+ host)
          | _ => check_addresses host resolved
          end
      end
  end.

(** [validate_outbound_http_url]; [inl] is the message of its [ValueError]. *)
Definition validate_outbound_http_url (url : string) (allowed_hosts : list string) : string + ParseResult :=
  match urlparse url with
  | inl message => inl message
  | inr parsed =>
      if negb (mem_str (scheme parsed) ["http"; "https"]) || String.eqb (hostname parsed) "" then
        inl "URL must be an absolute HTTP or HTTPS URL."
      else if has_userinfo parsed then inl "URL user information is not allowed."
      else
        let host := rstrip_dots (py_lower (hostname parsed)) in
        let address := ip_address host in
        if match address with Some ip => negb (ip_global ip) | None => false end then
          inl "Private, loopback, link-local, and reserved IP targets are not allowed."
        else if String.eqb host "localhost" || ends_with ".localhost" host || ends_with ".local" host then
          inl "Local hostnames are not allowed."
        else if negb (host_matches_allowlist host allowed_hosts) then inl ("host is not allowlisted: " +:+ host)
        else if negb (opt_some address) && negb (String.eqb (py_lower (py_strip app_env)) "test") then
          match check_resolution parsed host with
          | Some message => inl message
          | None => inr parsed
          end
        else inr parsed
  end.

(** [parsed.username or ""] and [parsed.password or ""] *)
Definition _userinfo (u : ParseResult) : string * string :=
  let '(userinfo, have_info, _) := str_rpartition "@" (netloc u) in
  if have_info then let '(username, _, password) := str_partition ":" userinfo in (username, password)
  else ("", "").

Definition OFFICIAL_MODEL_PROVIDER_HOSTS : dict (list string) := [
  ("openai", ["api.openai.com"]);
  ("openai_codex", ["api.openai.com"; "codex-api.openai.com"]);
  ("anthropic", ["api.anthropic.com"]);
  ("google", ["generativelanguage.googleapis.com"]);
  ("openrouter", ["openrouter.ai"]);
  ("deepseek", ["api.deepseek.com"]);
  ("qwen", ["dashscope-intl.aliyuncs.com"]);
  ("xai", ["api.x.ai"])].

(** [validate_model_provider_url]; [inl] is the message of its [ValueError]. *)
Definition validate_model_provider_url (url provider_key : string) (allowed_custom_hosts : list string)
    : string + ParseResult :=
  match urlparse url with
  | inl message => inl message
  | inr parsed =>
      let '(username, password) := _userinfo parsed in
      if negb (mem_str (scheme parsed) ["http"; "https"]) || String.eqb (hostname parsed) ""
         || negb (String.eqb username "") || negb (String.eqb password "") then
        inl "Model provider base_url must be an absolute HTTP(S) URL without user information."
      else
        let host := rstrip_dots (py_lower (hostname parsed)) in
        let normalized_provider := dashes_to_underscores (py_lower (py_strip provider_key)) in
        match dget normalized_provider OFFICIAL_MODEL_PROVIDER_HOSTS with
        | Some official_hosts =>
            if negb (String.eqb (scheme parsed) "https") then
              inl ("Official provider '" +:+ normalized_provider +:+ "' requires HTTPS.")
            else if negb (mem_str host official_hosts) then
              inl ("Custom base_url is not allowed for provider '" +:+ normalized_provider +:+ "'.")
            else inr parsed
        | None =>
            if negb (host_matches_allowlist host allowed_custom_hosts) then
              inl ("Model provider host is not allowlisted: " +:+ host)
            else inr parsed
        end
  end.
End Urls.

(** ** Requests ([policies/http.py], [core/onecli_http.py]) *)

Definition MUTATING_METHODS : list string := ["POST"; "PUT"; "PATCH"; "DELETE"].
Definition HTTP_METHODS : list string := ["GET"; "POST"; "PUT"; "PATCH"; "DELETE"; "HEAD"; "OPTIONS"].
Definition BLOCKED_HOSTS : list string := ["169.254.169.254"; "metadata.google.internal"].
Definition ONECLI_BLOCKED_HEADER_NAMES : list string :=
  ["authorization"; "proxy-authorization"; "x-api-key"; "api-key"; "x-goog-api-key"; "x-amz-security-token"].
Definition ONECLI_BLOCKED_QUERY_PARAM_NAMES : list string :=
  ["access_token"; "api_key"; "apikey"; "auth_token"; "client_secret"; "key"; "token"].

(** [c.upper()] on the letters of the methods: other letters only occur in a
    refused method and in the reason of its refusal. *)
Definition upper_char (c : ascii) : ascii :=
  let n := nat_of_ascii c in
  if ((97 <=? n) && (n <=? 122))%nat then ascii_of_nat (n - 32) else c.
Definition upper_ascii (s : string) : string :=
  string_of_list_ascii (map upper_char (list_ascii_of_string s)).

Section Policies.
Context `{Env} `{Network}.

(** [str(payload.get(key) or "")] *)
Definition payload_text (key : string) (payload : dict pyval) : string :=
  py_str env_float_repr (py_or (pget key payload) (PStr "")).

(** [parsed.scheme not in {"http", "https"} or not parsed.netloc], negated *)
Definition absolute_url (u : ParseResult) : bool :=
  mem_str (scheme u) ["http"; "https"] && negb (String.eqb (netloc u) "").

(** The rules for the names that must not be sent in OneCLI mode. *)
Definition onecli_rule (id reason : string) (names : pyval) (blocked : list string) : PolicyRuleResult :=
  let found := py_sorted string_leb
    (List.filter (fun name => mem_str name blocked)
       (map (fun key => py_lower (py_strip key)) (dkeys (dict_or_empty names)))) in
  match found with
  | [] => ok_rule id
  | _ => deny_rule id (reason +:+ py_join ", " found)
  end.

Definition evaluate_http_request_policy (payload : dict pyval) (allowed_hosts : list string)
    (actor : option string) : option PolicyVerdict :=
  match urlparse (payload_text "url" payload) with
  | inl _ => None
  | inr parsed_url =>
      let method := upper_ascii (payload_text "method" payload) in
      let host := py_lower (hostname parsed_url) in
      let onecli := String.eqb (py_lower (py_str env_float_repr
                      (py_or (pget "credential_mode" payload) (PStr "none")))) "onecli" in
      Some (verdict_of (
        [ if absolute_url parsed_url then ok_rule "http-url-scheme"
          else deny_rule "http-url-scheme" "url must be an absolute http or https URL";
          if mem_str host BLOCKED_HOSTS then deny_rule "http-host-safety" ("blocked host: " +:+ host)
          else match validate_outbound_http_url (payload_text "url" payload) allowed_hosts with
               | inl message => deny_rule "http-host-allowlist" message
               | inr _ => ok_because "http-host-allowlist" "host is allowlisted"
               end;
          if negb (mem_str method HTTP_METHODS) then
            deny_rule "http-method" ("unsupported HTTP method: " +:+ method)
          else if mem_str method MUTATING_METHODS && negb (approved actor) then
            deny_rule "http-mutation-approval-context"
              "mutating HTTP request requires an explicitly approved actor context"
          else ok_rule "http-method";
          if is_false (pget "verify_ssl" payload) then warn_rule "http-verify-ssl" "TLS verification is disabled"
          else ok_rule "http-verify-ssl" ]
        ++ if onecli then
             [ onecli_rule "http-onecli-no-direct-auth-headers"
                 "OneCLI mode rejects direct credential-bearing headers: "
                 (pget "headers" payload) ONECLI_BLOCKED_HEADER_NAMES;
               onecli_rule "http-onecli-no-direct-auth-query"
                 "OneCLI mode rejects direct credential-bearing query parameters: "
                 (pget "query_params" payload) ONECLI_BLOCKED_QUERY_PARAM_NAMES ]
           else []))
  end.

(** ** The browser ([policies/browser.py]) *)

Definition BROWSER_MUTATION_TOOLS : list string :=
  ["agency.browser.click"; "agency.browser.select-option"; "agency.browser.type-text"].

Definition _evaluate_browser_open_url (payload : dict pyval) (allowed_hosts : list string)
    : option PolicyRuleResult :=
  let url := payload_text "url" payload in
  match urlparse url with
  | inl _ => None
  | inr parsed_url =>
      let host := py_lower (hostname parsed_url) in
      Some (
        if negb (absolute_url parsed_url) then
          deny_rule "browser-url-scheme" "url must be an absolute http or https URL"
        else if mem_str host BLOCKED_HOSTS then deny_rule "browser-host-safety" ("blocked host: " +:+ host)
        else match validate_outbound_http_url url allowed_hosts with
             | inl message => deny_rule "browser-host-allowlist" message
             | inr _ => ok_because "browser-host-allowlist" "host is allowlisted"
             end)
  end.

Definition evaluate_browser_policy (tool_name : string) (payload : dict pyval) (allowed_hosts : list string)
    (actor : option string) : option PolicyVerdict :=
  first ← (if String.eqb tool_name "agency.browser.open" then _evaluate_browser_open_url payload allowed_hosts
           else Some (ok_rule "browser-session-context"));
  Some (verdict_of
    [ first;
      if mem_str tool_name BROWSER_MUTATION_TOOLS && negb (approved actor) then
        deny_rule "browser-mutation-approval-context"
          "browser mutation requires an explicitly approved actor context"
      else ok_rule "browser-mutation-approval-context" ]).

Definition evaluate_command_run_policy (payload : dict pyval) (actor : option string) : PolicyVerdict :=
  let command := py_strip (payload_text "command" payload) in
  verdict_of
    [ if String.eqb command "" then deny_rule "command-required" "command is required"
      else ok_rule "command-required";
      match (if String.eqb command "" then None else blocked_command_reason command) with
      | Some reason => deny_rule "command-safety" reason
      | None => ok_rule "command-safety"
      end;
      approval_rule "command-approval-context"
        "command execution requires an explicitly approved actor context" actor ].
End Policies.

(** ** Files ([policies/files.py]) *)

(** A [PurePosixPath]: its anchor ([""], ["/"] or ["//"]) and its names. *)
Record Path := mkPath { anchor : string; names : list string }.

#[export] Instance path_eq_dec : EqDecision Path.
Proof. solve_decision. Defined.

(** [Path(s)] *)
Definition path_of (s : string) : Path :=
  mkPath (if negb (starts_with "/" s) then ""
          else if starts_with "//" s && negb (starts_with "///" s) then "//" else "/")
    (List.filter (fun part => negb (String.eqb part ".")) (parts_of s)).

(** [base / filename] *)
Definition path_join (base : Path) (filename : string) : Path :=
  let other := path_of filename in
  if String.eqb (anchor other) "" then mkPath (anchor base) (names base ++ names other) else other.

(** [str(path)] *)
Definition path_str (p : Path) : string :=
  match anchor p, names p with
  | "", [] => "."
  | a, l => a +:+ py_join "/" l
  end.

(** The home directory that [os.path.expanduser] finds for [~] or [~user], and
    [resolve()], which follows symbolic links; [None] is an exception. *)
Class FileSystem := { home_of : string -> option Path; resolve : Path -> option Path }.

Section Files.
Context `{Env} `{FileSystem}.

(** [path.expanduser()] *)
Definition expanduser (p : Path) : option Path :=
  match anchor p, names p with
  | "", first :: rest =>
      if starts_with "~" first then
        home ← home_of first; Some (mkPath (anchor home) (names home ++ rest))
      else Some p
  | _, _ => Some p
  end.

(** [Path(s).expanduser().resolve()] *)
Definition resolved (s : string) : option Path := expanduser (path_of s) ≫= resolve.

(** [_resolve_absolute_path] *)
Definition _resolve_absolute_path (path : string) : option Path :=
  if String.eqb path "" then None else resolved path.

(** [_resolve_target_path] *)
Definition _resolve_target_path (base_folder filename : string) : option Path :=
  if String.eqb base_folder "" || String.eqb filename "" then None
  else base ← expanduser (path_of base_folder); resolve (path_join base filename).

(** [target_path == root or root in target_path.parents] *)
Definition is_below (root target : Path) : bool :=
  String.eqb (anchor root) (anchor target)
  && bool_decide (take (List.length (names root)) (names target) = names root).

Definition _allowed_path (target_path : option Path) (allowed_dirs : list string) (rule_id : string)
    : option PolicyRuleResult :=
  match target_path with
  | None => Some (deny_rule rule_id "target path is invalid")
  | Some target =>
      allowed_roots ← mapM resolved allowed_dirs;
      Some (if existsb (fun root => is_below root target) allowed_roots
            then ok_because rule_id "target path is allowlisted"
            else deny_rule rule_id ("target path is not under an allowlisted directory: " +:+ path_str target))
  end.

Definition _allowed_directory (target_path : option Path) (allowed_dirs : list string) : option PolicyRuleResult :=
  _allowed_path target_path allowed_dirs "file-write-allowlist".

Definition _dangerous_file_path (filename : string) : PolicyRuleResult :=
  if negb (String.eqb filename "") && path_blocked filename true
  then deny_rule "file-write-safe-path" ("blocked path: " +:+ filename)
  else ok_rule "file-write-safe-path".

Definition key_assignment (name : string) : regex := Seq (lit_i name) (Seq (Star space) (lit "=")).

(** [DENY_CONTENT_PATTERNS], the same patterns as [DENY_SECRET_PATTERNS] of
    [policies/rules.py]. *)
Definition DENY_CONTENT_PATTERNS : list regex :=
  [key_assignment "OPENAI_API_KEY"; key_assignment "AWS_SECRET_ACCESS_KEY"; lit_i "PRIVATE KEY"].
Definition WARN_SECRET_PATTERNS : list regex :=
  [key_assignment "password"; key_assignment "token"; key_assignment "secret"].

Definition finds (l : list regex) (s : string) : bool := existsb (fun pattern => re_search pattern s) l.

Definition _likely_secret_content (payload : dict pyval) : PolicyRuleResult :=
  if finds DENY_CONTENT_PATTERNS (payload_text "content" payload)
  then deny_rule "file-write-no-secrets" "content contains a high-risk secret-like pattern"
  else ok_rule "file-write-no-secrets".

Definition evaluate_file_write_text_policy (payload : dict pyval) (allowed_dirs : list string)
    (actor : option string) : option PolicyVerdict :=
  let base_folder := payload_text "base_folder" payload in
  let filename := payload_text "filename" payload in
  directory ← _allowed_directory (_resolve_target_path base_folder filename) allowed_dirs;
  Some (verdict_of
    [ if String.eqb base_folder "" || String.eqb filename "" then
        deny_rule "file-target-required" "base_folder and filename are required for contract-backed file writes"
      else ok_rule "file-target-required";
      directory;
      _dangerous_file_path filename;
      _likely_secret_content payload;
      approval_rule "file-write-approval-context"
        "file write requires an explicitly approved actor context" actor ]).

(** The two rules for the path under a key. *)
Definition path_rules (required allowlist reason : string) (path : option Path) (allowed_dirs : list string)
    : option (list PolicyRuleResult) :=
  allowed ← _allowed_path path allowed_dirs allowlist;
  Some [ match path with None => deny_rule required reason | Some _ => ok_rule required end; allowed ].

Definition evaluate_spreadsheet_write_policy (payload : dict pyval) (allowed_dirs source_path_keys : list string)
    (actor : option string) : option PolicyVerdict :=
  workbook ← path_rules "spreadsheet-workbook-required" "spreadsheet-workbook-allowlist"
               "excel_file_path is required"
               (_resolve_absolute_path (payload_text "excel_file_path" payload)) allowed_dirs;
  sources ← mapM (fun key =>
              path_rules ("spreadsheet-source-required:" +:+ key) ("spreadsheet-source-allowlist:" +:+ key)
                (key +:+ " is required") (_resolve_absolute_path (payload_text key payload)) allowed_dirs)
              source_path_keys;
  Some (verdict_of (workbook ++ List.concat sources ++
    [approval_rule "spreadsheet-write-approval-context"
       "spreadsheet write requires an explicitly approved actor context" actor])).

Definition evaluate_markdown_to_word_policy (payload : dict pyval) (actor : option string) : PolicyVerdict :=
  let filename := payload_text "filename" payload in
  let img_directory := payload_text "img_directory" payload in
  verdict_of
    [ if String.eqb filename "" then deny_rule "document-filename-required" "filename is required"
      else if contains "/" filename || contains (String backslash "") filename || path_blocked filename true then
        deny_rule "document-filename-safe" ("filename must be a safe document name, not a path: " +:+ filename)
      else if negb (ends_with ".docx" (py_lower filename)) then
        warn_rule "document-filename-extension" "filename should use the .docx extension"
      else ok_rule "document-filename-safe";
      if String.eqb img_directory "" then
        deny_rule "document-artifact-directory-required" "img_directory is required"
      else if mem_str ".." (split_char "/" (replace_char backslash slash img_directory)) then
        deny_rule "document-artifact-directory-safe" "img_directory must not contain path traversal"
      else ok_rule "document-artifact-directory-safe";
      if finds DENY_CONTENT_PATTERNS (payload_text "markdown_text" payload) then
        deny_rule "document-no-secrets" "markdown_text contains a high-risk secret-like pattern"
      else ok_rule "document-no-secrets";
      approval_rule "document-write-approval-context"
        "document generation requires an explicitly approved actor context" actor ].

(** ** Edits of a repository ([policies/rules.py]) *)

(** [Path(repo).expanduser().resolve()] of the allowlist raises; the one of the
    payload falls back on the text. *)
Definition _repo_allowlist (payload : dict pyval) (allowed_repos : list string) : option PolicyRuleResult :=
  let repo := payload_text "repo" payload in
  let resolved_repo := match resolved repo with Some p => path_str p | None => repo end in
  normalized ← mapM resolved allowed_repos;
  Some (if mem_str resolved_repo (map path_str normalized) then ok_because "repo-allowlist" "repo is allowlisted"
        else deny_rule "repo-allowlist" ("repo is not allowlisted: " +:+ repo)).

(** [for change in payload.get("changes") or []], where a change must be a [dict]. *)
Definition changes_of (payload : dict pyval) : option (list (dict pyval)) :=
  match py_or (pget "changes" payload) (PList []) with
  | PList l => mapM as_dict l
  | _ => None
  end.

Definition change_text (key fallback : string) (change : dict pyval) : string :=
  py_str env_float_repr (py_or (pget key change) (PStr fallback)).

Definition _dangerous_paths (changes : list (dict pyval)) : PolicyRuleResult :=
  match List.filter (fun path => path_blocked path true) (map (change_text "path" "") changes) with
  | [] => ok_rule "no-dangerous-paths"
  | denied => deny_rule "no-dangerous-paths"
                ("blocked paths: " +:+ py_join ", " (py_sorted string_leb denied))
  end.

Definition _likely_secrets (changes : list (dict pyval)) : PolicyRuleResult :=
  let patch := change_text "patch" "" in
  let hits p := map (change_text "path" "<unknown>") (List.filter p changes) in
  let deny_hits := hits (fun change => finds DENY_CONTENT_PATTERNS (patch change)) in
  let warn_hits := hits (fun change => negb (finds DENY_CONTENT_PATTERNS (patch change))
                                       && finds WARN_SECRET_PATTERNS (patch change)) in
  match deny_hits, warn_hits with
  | _ :: _, _ => deny_rule "no-secrets"
                   ("possible high-risk secret in: " +:+ py_join ", " (sorted_set deny_hits))
  | [], _ :: _ => warn_rule "no-secrets"
                    ("possible generic secret/token text in: " +:+ py_join ", " (sorted_set warn_hits))
  | [], [] => ok_rule "no-secrets"
  end.

Definition _dry_run_first (payload : dict pyval) (actor : option string) : PolicyRuleResult :=
  if truthy (default (PBool true) (dget "dryRun" payload)) then ok_rule "dry-run-first"
  else if approved actor then warn_rule "dry-run-first" "non-dry-run actor is approved"
  else deny_rule "dry-run-first" "sandbox-edit must run as dryRun unless actor is explicitly approved".

Definition evaluate_sandbox_edit_policy (payload : dict pyval) (allowed_repos : list string)
    (actor : option string) : option PolicyVerdict :=
  repo ← _repo_allowlist payload allowed_repos;
  changes ← changes_of payload;
  Some (verdict_of [repo; _dangerous_paths changes; _likely_secrets changes; _dry_run_first payload actor]).
End Files.

(** ** The engine ([policies/engine.py]) *)

Record PolicyEngine := mkPolicyEngine {
  allowed_repos : list string;
  allowed_file_write_dirs : list string;
  allowed_http_hosts : list string
}.

(** The comma-separated settings of [core/config.py]. *)
Definition parsed_items (setting : string) : list string :=
  List.filter (fun item => negb (String.eqb item "")) (map py_strip (split_char "," setting)).
Definition parsed_tool_http_allowed_hosts (setting : string) : list string := map py_lower (parsed_items setting).

(** [PolicyEngine.__init__], with the settings for what is not given. *)
Definition new_policy_engine (repos_setting dirs_setting hosts_setting : string)
    (repos dirs hosts : option (list string)) : PolicyEngine :=
  mkPolicyEngine (default (parsed_items repos_setting) repos) (default (parsed_items dirs_setting) dirs)
    (default (parsed_tool_http_allowed_hosts hosts_setting) hosts).

Section Dispatch.
Context `{Env} `{Network} `{FileSystem}.

(** [PolicyEngine.evaluate] *)
Definition evaluate_policy (engine : PolicyEngine) (tool_name : string) (payload : dict pyval) (actor : option string)
    : option PolicyVerdict :=
  let spreadsheet key := evaluate_spreadsheet_write_policy payload (allowed_file_write_dirs engine) [key] actor in
  if String.eqb tool_name "sandbox-edit" then evaluate_sandbox_edit_policy payload (allowed_repos engine) actor
  else if String.eqb tool_name "agency.http.request" then
    evaluate_http_request_policy payload (allowed_http_hosts engine) actor
  else if String.eqb tool_name "agency.command.run" then Some (evaluate_command_run_policy payload actor)
  else if String.eqb tool_name "agency.file.write-text" then
    evaluate_file_write_text_policy payload (allowed_file_write_dirs engine) actor
  else if String.eqb tool_name "agency.document.markdown-to-word" then
    Some (evaluate_markdown_to_word_policy payload actor)
  else if String.eqb tool_name "agency.excel.write-text" then spreadsheet "text_file_path"
  else if String.eqb tool_name "agency.excel.write-json" then spreadsheet "json_file_path"
  else if String.eqb tool_name "agency.excel.write-image" then spreadsheet "image_path"
  else if starts_with "agency.browser." tool_name then
    evaluate_browser_policy tool_name payload (allowed_http_hosts engine) actor
  else Some (mkVerdict 0 []).
End Dispatch.
