(* ===== verification/ShellTool.v ===== *)
(** * The shell tool

    [app/tools/executors/shell_command.py] up to the process that it starts, and
    [_run_command_run] of [tools/runtime/executor.py], which puts the policy in
    front of it.  The process itself is a parameter, known by whether it starts and
    succeeds; the presentation of its output is not modelled. *)

From S2P Require Export ToolPolicyFacts Floats Workflow.

(** [ToolExecutionError]; [FileNotFoundError] of a shell that is not installed; any
    other exception. *)
Inductive shell_error := TOOL_ERROR (message : string) | SHELL_NOT_FOUND (name : string) | OTHER_ERROR.

(** [shutil.which], [str(Path.cwd())], [os.name == "nt"] and [COMSPEC]. *)
Class Shells := {
  which : string -> option string;
  working_directory : string;
  on_windows : bool;
  comspec : option string
}.

Record Invocation := mkInvocation { inv_argv : list string; inv_cwd : Path; inv_timeout : Z }.

Section Shell.
Context `{Env} `{FileSystem} `{Shells}.

Definition SHELL_DEFAULT_TIMEOUT_SECONDS : Z := 30.
Definition SHELL_DEFAULT_MAX_TIMEOUT_SECONDS : Z := 7200.

(** [_resolve_shell] *)
Definition _resolve_shell (mode : string) : shell_error + (option string * string) :=
  let normalized := py_strip (py_lower mode) in
  let installed name := match which name with
                        | Some executable => inr (Some executable, name)
                        | None => inl (SHELL_NOT_FOUND name)
                        end in
  let sh := inr (Some (default "/bin/sh" (which "sh")), "sh") in
  if mem_str normalized [""; "auto"; "shell"; "cli"] then
    if on_windows then inr (None, "cmd")
    else match which "bash" with Some bash => inr (Some bash, "bash") | None => sh end
  else if mem_str normalized ["bash"; "linux"; "mac"; "macos"] then installed "bash"
  else if mem_str normalized ["sh"; "posix"] then sh
  else if mem_str normalized ["zsh"] then installed "zsh"
  else if mem_str normalized ["pwsh"; "powershell"; "windows"] then
    match (match which "pwsh" with Some e => Some e | None => which "powershell" end) with
    | Some executable => inr (Some executable, default "" (last (names (path_of executable))))
    | None => inl (SHELL_NOT_FOUND "powershell")
    end
  else if String.eqb normalized "cmd" then
    if on_windows then inr (None, "cmd") else installed "cmd"
  else inl (TOOL_ERROR ("Unknown shell mode '" +:+ mode
              +:+ "'. Use one of: auto, bash, sh, zsh, powershell, pwsh, cmd.")).

(** [_build_shell_invocation] *)
Definition _build_shell_invocation (executable : option string) (shell_label command : string)
    : shell_error + list string :=
  let normalized := py_lower shell_label in
  if mem_str normalized ["bash"; "sh"; "zsh"] then inr [default normalized executable; "-lc"; command]
  else if mem_str normalized ["pwsh"; "powershell"] then
    inr [default normalized executable; "-NoLogo"; "-NonInteractive"; "-Command"; command]
  else if String.eqb normalized "cmd" then
    inr [default (default "cmd" comspec) executable; "/d"; "/s"; "/c"; command]
  else inl (TOOL_ERROR ("Shell mode '" +:+ shell_label +:+ "' is not supported")).

(** [_resolve_timeout] *)
Definition _resolve_timeout (arguments config : dict pyval) : shell_error + Z :=
  match py_int (default (PInt SHELL_DEFAULT_TIMEOUT_SECONDS) (dget "timeout" config)),
        py_int (default (PInt SHELL_DEFAULT_MAX_TIMEOUT_SECONDS) (dget "max_timeout" config)) with
  | IntValue default_timeout, IntValue max_timeout =>
      let requested := pget "timeout_seconds" arguments in
      if is_none requested then inr default_timeout
      else match py_int requested with
           | IntValue timeout =>
               if timeout <=? 0 then inl (TOOL_ERROR "timeout_seconds must be greater than zero")
               else if max_timeout <? timeout then
                 inl (TOOL_ERROR ("timeout_seconds cannot exceed " +:+ show_Z max_timeout))
               else inr timeout
           | IntInvalid => inl (TOOL_ERROR "timeout_seconds must be an integer")
           | _ => inl OTHER_ERROR
           end
  | _, _ => inl OTHER_ERROR
  end.

(** [_resolve_cwd]; a path that [resolve] refuses with [ValueError] is not told
    from one that it refuses with [OSError]. *)
Definition _resolve_cwd (value : pyval) (allowed_paths : list string) : shell_error + Path :=
  let cwd := if truthy value then resolved (py_str env_float_repr value) else resolve (path_of working_directory) in
  let roots := mapM resolved (match allowed_paths with [] => [working_directory] | _ => allowed_paths end) in
  match cwd, roots with
  | Some cwd, Some roots =>
      match blocked_path_reason (path_str cwd) false with
      | Some reason => inl (TOOL_ERROR ("Blocked shell command cwd: " +:+ reason))
      | None =>
          if existsb (fun root => is_below root cwd) roots then inr cwd
          else inl (TOOL_ERROR ("Shell command cwd '" +:+ path_str cwd +:+ "' is outside the tool's allowed paths"))
      end
  | _, _ => inl (TOOL_ERROR "Shell command cwd is invalid")
  end.

(** [arguments.get("command") or config.get("command") or target] *)
Definition shell_command (tool : ToolDefinition) (arguments : dict pyval) : string :=
  py_str env_float_repr
    (py_or (pget "command" arguments) (py_or (pget "command" (tl_config tool)) (PStr (tl_target tool)))).

(** [str(arguments.get("mode") or config.get("mode") or "auto").lower()] *)
Definition shell_mode (tool : ToolDefinition) (arguments : dict pyval) : string :=
  py_lower (py_str env_float_repr
    (py_or (pget "mode" arguments) (py_or (pget "mode" (tl_config tool)) (PStr "auto")))).

(** [ShellCommandToolExecutor.execute], up to [subprocess.run].  [allowed_paths]
    is [tool.security.allowed_paths]. *)
Definition execute_shell (tool : ToolDefinition) (allowed_paths : list string) (arguments : dict pyval)
    : shell_error + Invocation :=
  let security := tl_security tool in
  let label := "Shell tool '" +:+ tl_id tool +:+ "' " in
  let command := shell_command tool arguments in
  if negb (sec_allow_shell security) then inl (TOOL_ERROR (label +:+ "is disabled"))
  else if negb (sec_sandbox_required security) then inl (TOOL_ERROR (label +:+ "requires sandbox_required=True"))
  else if negb (sec_requires_approval security) then inl (TOOL_ERROR (label +:+ "requires requires_approval=True"))
  else if String.eqb (py_strip command) "" then
    inl (TOOL_ERROR "Shell command tools require a non-empty command")
  else match blocked_command_reason command with
  | Some reason => inl (TOOL_ERROR ("Blocked command: " +:+ reason))
  | None =>
      match _resolve_shell (shell_mode tool arguments) with
      | inl e => inl e
      | inr (executable, shell_label) =>
          match _resolve_timeout arguments (tl_config tool) with
          | inl e => inl e
          | inr timeout =>
              match _resolve_cwd (py_or (pget "cwd" arguments) (pget "cwd" (tl_config tool))) allowed_paths with
              | inl e => inl e
              | inr cwd =>
                  match _build_shell_invocation executable shell_label command with
                  | inl e => inl e
                  | inr argv => inr (mkInvocation argv cwd timeout)
                  end
              end
          end
      end
  end.

(** The verdict and the errors of a [ToolRunResponse]. *)
Record ToolRunResponse := mkResponse { run_verdict : rule_outcome; run_errors : list string }.

(** [[rule.reason for rule in rules if rule.outcome == "deny" and rule.reason]] *)
Definition denial_reasons (v : PolicyVerdict) : list string :=
  omap (fun r => if has_outcome DENY r then
                   match rule_reason r with Some "" => None | reason => reason end
                 else None) (pv_rules v).

(** [_run_command_run]: the response, and the process that was started, if any.
    [registered] is the built-in definition of the tool with its allowed paths;
    [runs] tells whether a process exits with zero, [None] that it does not start. *)
Definition _run_command_run (registered : option (ToolDefinition * list string))
    (runs : Invocation -> option bool) (payload : dict pyval) (actor : option string)
    : shell_error + (ToolRunResponse * option Invocation) :=
  let policy_verdict := evaluate_command_run_policy payload actor in
  let verdict := verdict_outcome policy_verdict in
  if bool_decide (verdict = DENY) then inr (mkResponse DENY (denial_reasons policy_verdict), None)
  else match registered with
  | None => inr (mkResponse DENY ["agency.command.run definition is not registered"], None)
  | Some (tool, allowed_paths) =>
      match execute_shell tool allowed_paths payload with
      | inr invocation =>
          inr (match runs invocation with
               | Some success => mkResponse (if negb success && bool_decide (verdict = OK) then WARN else verdict) []
               | None => mkResponse WARN ["Shell mode '" +:+ shell_mode tool payload +:+ "' is not available. "
                           +:+ "Use mode='auto', 'bash', 'sh', 'powershell', or 'cmd'."]
               end, Some invocation)
      | inl (TOOL_ERROR message) => inr (mkResponse WARN [message], None)
      | inl e => inl e
      end
  end.

(** ** What it runs *)

Lemma invocation_runs_command executable label command argv :
  _build_shell_invocation executable label command = inr argv -> last argv = Some command.
Proof. unfold _build_shell_invocation. repeat case_match; intros [= <-]; done. Qed.

(** The time that a call gets: what it asks for, up to the limit of the tool, or the
    default of the tool, which no limit applies to. *)
Definition time_given (config arguments : dict pyval) (n : Z) : Prop :=
  (pget "timeout_seconds" arguments = PNone -> py_int (default (PInt 30) (dget "timeout" config)) = IntValue n)
  /\ (pget "timeout_seconds" arguments <> PNone ->
      py_int (pget "timeout_seconds" arguments) = IntValue n /\ 0 < n
      /\ exists limit, py_int (default (PInt 7200) (dget "max_timeout" config)) = IntValue limit /\ n <= limit).

Lemma timeout_given arguments config n :
  _resolve_timeout arguments config = inr n -> time_given config arguments n.
Proof.
  unfold _resolve_timeout, time_given, SHELL_DEFAULT_TIMEOUT_SECONDS, SHELL_DEFAULT_MAX_TIMEOUT_SECONDS.
  destruct (py_int (default _ (dget "timeout" config))) as [d| |]; [|done..].
  destruct (py_int (default _ (dget "max_timeout" config))) as [limit| |]; [|done..].
  destruct (is_none (pget _ arguments)) eqn:Hnone.
  { intros [= <-]. split; [done|]. intros Hn. by destruct (pget _ arguments). }
  destruct (py_int (pget _ arguments)) as [m| |] eqn:Hm; [|done..].
  destruct (Z.leb_spec m 0); [done|]. destruct (Z.ltb_spec limit m); [done|]. intros [= <-].
  split; [intros Hn; by rewrite Hn in Hnone|]. intros _. split; [done|]. split; [lia|]. by exists limit.
Qed.

Lemma cwd_contained value allowed_paths cwd :
  _resolve_cwd value allowed_paths = inr cwd ->
  ~ sensitive false (path_str cwd)
  /\ exists path root, In path (match allowed_paths with [] => [working_directory] | _ => allowed_paths end)
       /\ resolved path = Some root /\ anchor root = anchor cwd /\ exists below, names cwd = names root ++ below.
Proof.
  unfold _resolve_cwd. set (paths := match allowed_paths with [] => _ | _ => _ end).
  destruct (if truthy value then _ else _) as [p|]; [|done].
  destruct (mapM resolved paths) as [roots|] eqn:Hroots; [|done].
  destruct (blocked_path_reason (path_str p) false) eqn:Hb; [done|].
  destruct (existsb _ roots) eqn:E; [|done]. intros [= <-]. split.
  - rewrite <-blocked_iff. unfold path_blocked. by rewrite Hb.
  - exact (allowed_root _ _ _ Hroots E).
Qed.

Lemma execute_shell_inv tool allowed_paths arguments inv :
  execute_shell tool allowed_paths arguments = inr inv ->
  (sec_allow_shell (tl_security tool) = true /\ sec_sandbox_required (tl_security tool) = true
   /\ sec_requires_approval (tl_security tool) = true)
  /\ blocked_command_reason (shell_command tool arguments) = None
  /\ last (inv_argv inv) = Some (shell_command tool arguments)
  /\ _resolve_timeout arguments (tl_config tool) = inr (inv_timeout inv)
  /\ _resolve_cwd (py_or (pget "cwd" arguments) (pget "cwd" (tl_config tool))) allowed_paths = inr (inv_cwd inv).
Proof.
  unfold execute_shell. destruct (sec_allow_shell _); [|done]. destruct (sec_sandbox_required _); [|done].
  destruct (sec_requires_approval _); [|done]. cbn [negb]. destruct (String.eqb _ _); [done|].
  destruct (blocked_command_reason _) eqn:Hb; [done|]. destruct (_resolve_shell _) as [|[executable label]]; [done|].
  destruct (_resolve_timeout _ _) as [|timeout]; [done|]. destruct (_resolve_cwd _ _) as [|cwd]; [done|].
  destruct (_build_shell_invocation _ _ _) as [|argv] eqn:Hargv; [done|]. intros [= <-]. cbn.
  apply invocation_runs_command in Hargv. auto 10.
Qed.


(** A denied command starts nothing, and its errors are the reasons of the rules. *)
Lemma denied_command_starts_nothing registered runs payload actor :
  verdict_outcome (evaluate_command_run_policy payload actor) = DENY ->
  _run_command_run registered runs payload actor =
    inr (mkResponse DENY (denial_reasons (evaluate_command_run_policy payload actor)), None).
Proof. intros Hd. unfold _run_command_run. by rewrite bool_decide_eq_true_2. Qed.
End Shell.

(** ** A concrete tool *)

#[export] Instance plain_shells : Shells := {|
  which name := if String.eqb name "bash" then Some "/bin/bash" else None;
  working_directory := "/work"; on_windows := false; comspec := None
|}.

Definition command_tool : ToolDefinition :=
  mkTool "agency.command.run" "Command" SHELL_COMMAND [] "sh" [("timeout", PInt 30); ("max_timeout", PInt 600)]
    (mkSecurity true true true false false false [] [] [] false true []) [].

Definition timed_payload (command cwd : string) (seconds : Z) : dict pyval :=
  [("command", PStr command); ("cwd", PStr cwd); ("timeout_seconds", PInt seconds)].


Lemma refused_runs :
  map (fun payload => match _run_command_run (Some (command_tool, ["/work/repo"])) (fun _ => Some true) payload operator with
                      | inr (response, None) => Some (run_verdict response)
                      | _ => None
                      end)
    [timed_payload "cat .env" "/work/repo" 60; timed_payload "ls" "/work/repo/../x" 60;
     timed_payload "ls" "/work/repo/.git/hooks" 60; timed_payload "ls" "/work/repo" 601]
  = [Some DENY; Some WARN; Some WARN; Some WARN].
Proof. vm_compute. reflexivity. Qed.

(** The text is all that is looked at: a wrapper, a path or a glob gets by. *)
Lemma spelled_otherwise_runs :
  map (fun command => run_verdict <$> match _run_command_run (Some (command_tool, ["/work/repo"])) (fun _ => Some true)
                            (timed_payload command "/work/repo" 60) operator with
                      | inr (response, Some _) => Some response
                      | _ => None
                      end)
    ["env sudo id"; "/usr/bin/ssh host"; "cat ~/.ss?/id_rsa"] = replicate 3 (Some OK).
Proof. vm_compute. reflexivity. Qed.
